(* ===== verification/_CoqProject ===== *)
-Q . S2P
Prelude.v
PList.v
KMonad.v
Timers.v
Types.v
KState.v
Memory.v
TimerIface.v
Sched.v
SchedInv.v
Balance.v
PickProc.v
PickSpec.v
Notify.v
Copy.v
Ipc.v
IpcInv.v
IpcSafe.v
CopySafe.v
IpcCalls.v
IpcRecv.v
IpcBlock.v
IpcTop.v
Delivery.v
Clock.v
ClockSafe.v
ClockTask.v
Interrupt.v
IrqInv.v
IrqSafe.v
System.v
SendMask.v
ClearEp.v
KCalls.v
KProc.v
Grants.v
VmCtl.v
Signals.v
PrivCtl.v
SysTask.v
Frame.v
SysLock.v
SysTurn.v
GrantSafe.v
SigSafe.v
Check.v
Demo.v
Dispatch.v
VmReq.v
KernelInv.v
Served.v
Machine.v
SchedThms.v
IpcThms.v
ClockThms.v
SysThms.v
SysTaskThms.v
DevIo.v
DevIoSafe.v
DevIoThms.v
Boot.v
KernelThms.v
BootThms.v
PmTypes.v
PmLib.v
PmSig.v
PmCalls.v
PmMain.v
PmTurn.v
PmView.v
PmInv.v
PmAlarm.v
PmCalm.v
PmSafe.v
PmFork.v
PmTurnSafe.v
PmThms.v
PmData.v
PmDemo.v
PmProps.v
