(* ===== verification/Prelude.v ===== *)
(** * A verification library for MINIX 3.1.6 with lottery and EDF scheduling

    The program is the kernel of MINIX 3.1.6 (src/src/kernel) with the changes of this
    repository: a third and a fourth way to choose the next process (a lottery over
    the user queues, earliest deadline first on queue 7), a system call to select the
    policy and a kernel call to give a process a deadline; and the process manager PM
    (src/src/servers/pm), through which a process asks for a deadline, and which makes,
    signals, traces and ends processes.

    ** The parts of the program and the files that model them

    Every operation is a function of the monad [K] (KMonad.v, KState.v) over the
    record [kstate] (Types.v), which holds the kernel's global variables and tables: a
    computation returns a value and a new state ([Done]), stops the kernel
    ([Panic], for [minix_panic]), or is [Stuck] where the C code has no defined
    behaviour (an index outside a table, a null pointer, a division by zero) or where
    a loop outlives its fuel.  [wpx E m Q s] says that [m] run in [s] returns with
    [Q], or panics and [E] holds, and is never stuck.  Tables are functions from
    slot numbers; a pointer to a process is its slot number, NULL is [None].

    - Prelude.v: integers at their width, bit flags, tables, lists, tactics, hints.
    - PList.v: lists threaded through a table by pointers to pointers, as the code
      walks them ([xpp = &head; *xpp; xpp = &( *xpp)->next]).
    - Timers.v: lib/timers (tmrs_settimer, tmrs_clrtimer, tmrs_exptimers) over any
      client state; TimerIface.v: set_timer and reset_timer of clock.c on top of it.
    - Types.v: proc.h, priv.h, type.h, com.h, endpoint.h as records and constants.
    - Sched.v: dequeue, enqueue, enqueue_head, sched, the RTS_ macros, pick_proc with
      its policies, balance_queues, set_scheduler (proc.c, proc.h, lib/ansi/rand.c).
      SchedInv.v, Balance.v, PickProc.v: the invariant of the ready queues
      ([sched_inv]) and the exact effect of each operation; PickSpec.v: what the
      three policies choose, in terms of priorities, deadlines and tickets.
    - Memory.v, Copy.v: page tables, umap_local, checked copies, vm_suspend (memory.c).
    - Notify.v, Ipc.v: QueueMess, mini_notify, mini_send, mini_receive, mini_senda,
      deadlock, sys_call, schedcheck (proc.c), send_sig and cause_sig (system.c).
      IpcInv.v states the invariant of message passing ([ipc_inv]: caller queues hold
      exactly the blocked senders, partners exist, no cycle of waiting processes,
      pending notifications name live structures); IpcSafe.v,
      CopySafe.v, IpcCalls.v, IpcRecv.v, IpcBlock.v, IpcTop.v and Delivery.v prove it
      of each primitive, with what the primitive delivers.  Dispatch.v: schedcheck,
      with the measure that bounds its loop.
    - Clock.v: the clock interrupt, load_update, vtimer_check, the CLOCK task's
      reaction (clock.c, do_vtimer.c); ClockSafe.v, ClockTask.v: their proofs.
    - Interrupt.v: interrupt.c and the handlers on the lines; IrqInv.v, IrqSafe.v.
    - System.v: get_priv, set_sendto_bit, unset_sendto_bit, clear_endpoint,
      vmrestart_check (system.c); SendMask.v, ClearEp.v: their proofs.
    - The handlers of the kernel calls (system/do_*.c).  KCalls.v: deadlines,
      priorities, signals to system processes, alarms, times, interrupts; KProc.v: fork,
      exit, memory maps; Grants.v: verify_grant, safe copies, copies, umap, memset;
      VmCtl.v: exec, the requests of VM, memory mapped by grants;
      Signals.v: signal handlers of processes; PrivCtl.v: privileges, tracing, remote
      segments.  SysLock.v, GrantSafe.v, SigSafe.v, VmReq.v: their proofs.
    - SysTask.v: the main loop of SYSTEM (sys_task, initialize of system.c) with the
      table of the handlers; SysTurn.v: one turn of it, for any handlers.
    - Frame.v: the class [Keeps], by which instance resolution finds what an operation
      leaves alone.
    - KernelInv.v: the invariant of the whole kernel ([kernel_ok]) and, with the frame
      in IpcSafe.v, what a turn of a kernel task leaves alone.  Served.v: the class [Serves], what SYSTEM
      needs of a handler, with its instances for eighteen calls, and a whole turn.
    - Machine.v: the kernel as a transition system whose steps are the entry points
      sys_call, irq_handle and schedcheck and the turns of the SYSTEM and CLOCK tasks,
      each turn one step (interrupts come between the turns, not inside one).
    - Check.v: bool checks of the invariants and their soundness; Demo.v: a concrete
      state that satisfies all of them, on which the theorems are instantiated.
    - SchedThms.v, IpcThms.v, ClockThms.v, SysThms.v, SysTaskThms.v, KernelThms.v: the
      claims about these parts of the kernel.
    - DevIo.v: SYS_DEVIO, SYS_VDEVIO and SYS_SDEVIO (do_devio.c, do_vdevio.c, do_sdevio.c),
      over the state [dstate]: the kernel's, the buffer of the vector, and the accesses to
      ports.  DevIoSafe.v: which ports a request reaches; DevIoThms.v: the claims.
    - Boot.v: the parameters of the boot monitor (start.c), main (main.c) with the boot
      image (table.c), and the privileges RS gives to it (servers/rs); BootThms.v: the
      claims about the boot, from memory that is zero to the invariant of the kernel.

    The process manager is a second program with a state of its own, the record
    [pm_state] (PmTypes.v): the table [mproc], the globals of glo.h, the queue of its
    timers, and the list of everything it has sent ([history]).  Its functions are in
    the same monad, over that state ([PM]); the rest of the system is the class [PmEnv],
    which gives the answer to a message, and the data copied in, as a function of the
    history.  [wpp P m Q s] says that [m] run in [s] returns with [Q] or panics for a
    reason in [P], and is never stuck.

    - PmTypes.v: mproc.h, const.h, glo.h; PmLib.v: the functions of lib/syslib and
      lib/sysutil PM calls, timers.c, utility.c; PmSig.v: the cycle of signal.c and
      forkexit.c (sig_proc, check_sig, exit_proc, zombify, check_parent, tracer_died);
      PmCalls.v: the calls of signal.c, forkexit.c, alarm.c, time.c; PmMain.v: getset.c,
      trace.c, exec.c, break.c, dma.c, misc.c; PmTurn.v: the rest of misc.c, table.c,
      main.c (get_work, handle_fs_reply, a turn of the loop, sef_cb_init_fresh).
    - PmView.v, PmInv.v: the invariant [pinv] of the process table, in terms of the
      view of a process; PmAlarm.v: alarms; PmCascade.v: exits that cause signals that
      cause exits; PmCalm.v, PmSafe.v, PmFork.v: every call keeps [tinv], the invariant
      between turns; PmTurnSafe.v: expired timers, kernel signals, answers of FS;
      PmThms.v: the start, turns, and the states that can be reached; PmData.v: status
      words, times, the selection of check_sig.
    - PmDemo.v: the boot image of kernel/table.c, an environment that grants every
      request, and runs of PM in it; PmProps.v: the claims about PM.

    ** What the theorems show

    SchedThms.v: whatever the sequence of scheduler operations, the ready queues hold
    exactly the runnable processes, each once and on the queue of its priority, and
    every operation returns; what each operation does to the queues; that EDF picks
    the earliest deadline, that the lottery gives each process as many winning draws
    as it has tickets, that the priority policy picks the best priority.  IpcThms.v:
    system calls keep every list and flag consistent and never create a cycle of
    waiting processes; the outcomes of a send; the order and integrity of what is
    received; notifications are not lost.  ClockThms.v: the timer queue is a sorted
    list, due timers expire, quanta are enforced, interrupt lines are unmasked exactly
    when no handler is active.  SysThms.v: privileges, send masks, the end of a process;
    a deadline call arms the timer it should and makes its process run
    first; nice; a grant is accepted exactly if a chain of table entries allows it, and
    a safe copy writes only where the grant leads.  SysTaskThms.v: a call that is
    illegal or not permitted reaches no handler and is answered with the error; the
    deadline call from the request to the answer; requests reach VM with
    their parameters, and its answer releases the process or restarts the call; the
    registers saved for a signal handler are restored when it returns.
    KernelThms.v: the invariants of all the components hold together in every state
    the kernel reaches, no entry point and no turn of a task panics or is stuck, a
    request to SYSTEM is served whatever it contains, schedcheck ends.  DevIoThms.v: a
    driver reaches the ports of its privileges and no others, in the order it asked for,
    with the one exception the code has.  BootThms.v: what the boot parameters set; main
    makes the tables the boot image describes, and with the privileges of RS they satisfy
    the invariant; the messages printed before that go through null pointers.

    PmProps.v: from the start on the boot image, the process table of PM satisfies its
    invariant between any two turns (parents and tracers exist, nothing depends on a
    process that is dying, pids and endpoints identify processes, the count of
    processes is right, the timers are a sorted list of the processes with an alarm);
    a turn on a call or an answer of FS never goes wrong, and PM stops only for a named
    reason; the cascade of an exit ends and settles; fork makes exactly one process;
    a free pid is found; who may signal whom; the status of a child arrives at its
    parent; times are exact; a deadline asked of PM is the deadline the kernel sets.
    Two of the reasons for which PM stops are shown to be within reach of users.

    The theorems about PM assume of the rest of the system: VM gives the child of a fork
    an endpoint of the slot it was asked for ([vm_fork_ok]), the kernel reports signals of
    user processes only ([ksig_names_user]), a message comes from a process that is not
    waiting for FS, FS answers what it was asked, and FS and RS name processes that exist
    ([msg_ok], [fs_reply_ok], [server_ok]).  Each is shown to hold in the runs of
    PmDemo.v.

    ** Bounds and fuel

    Loops over the ready and caller queues have fuel 261, one more than the slots of
    the process table; the timer queue 300, more than the timer structures there are;
    the lines of interrupt hooks 18, one more than the hooks.  The loop of schedcheck has
    fuel 526: every turn delivers one of the pending messages or blocks a process on VM,
    and a process can do each once.  A chain of indirect grants is followed five times,
    as in the code.  The loops that revoke mappings have one turn more than map_info has
    entries; each clears one.  In PM an exit inside an exit has fuel 257, one for each
    process and one for the first: each marks a process that was not marked before.  The
    timer queue of PM has at most one timer for each process, fuel 257; the search of a
    pid passes at most two pids for each process, fuel 514.  How often the kernel reports
    further signals is its choice: the fuel of [ksig_pending] is an argument, and a turn
    on such a notification is only claimed to keep the invariant when it ends.  The
    theorems show the fuel is enough: no operation they
    are about is stuck.  Integers are kept at their C width ([i32],
    [u32], [i8], [u16] where the code wraps).

    ** Not modelled

    The text of messages on the console; the segment descriptors; the
    temporary page-directory entries through which lin_lin_copy reaches another address
    space (the copy is a walk of the page tables they map); assembly entry and exit
    code; the hardware that the boot sets up; the kernel calls for
    information, BIOS calls and profiling, which are an argument of [call_vec], with
    those for device input and output, whose state DevIo.v extends; the
    layout of struct proc and struct priv, where a call copies them as bytes; of PM, the
    calls do_getsysinfo and do_sprofile, which are arguments of its table of calls, and
    the name of the processor; the other servers, drivers and commands.  The debugging code that is compiled
    out (DEBUG_SCHED_CHECK and DEBUG_VMASSERT are 0) is left out.

    ** What comes next

    Instances of [Serves] for the handlers that have a model but none yet (fork, exit,
    exec, privctl, trace, interrupts, SIGKILL, the signal calls of PM, mappings), which
    make or remove processes or change the interrupt tables, so that [harmless] covers
    all requests; the order of the timers as a part of [kernel_ok], so that the turns of
    CLOCK and the calls about timers need not assume it; one system of the kernel and PM,
    in which the answers of [PmEnv] to the kernel calls are those of [sys_turn]. *)
From Stdlib Require Export ZArith Lia.
From stdpp Require Export base gmap sets functions strings.
From stdpp Require Export list.
#[global] Open Scope Z_scope.

(** ** Scope, databases and tactics of the development *)

Declare Scope minix_scope.
Delimit Scope minix_scope with minix.
#[global] Open Scope minix_scope.

(** Facts that close the routine side conditions of the development. *)
Create HintDb minix discriminated.
(** Rewriting rules for tables updated at one index. *)
Create HintDb minix_upd.

(** Split a conjunction as far as it goes and try the cheap closing tactics. *)
Ltac split_all := repeat match goal with |- _ /\ _ => split end.

Ltac destr_and :=
  repeat match goal with
  | H : _ /\ _ |- _ => destruct H
  | H : exists _, _ |- _ => destruct H
  end.

(** Case analysis on the boolean comparisons of [Z] and on [decide]. *)
Ltac zcase :=
  match goal with
  | |- context [ (?a =? ?b)%Z ] => destruct (Z.eqb_spec a b)
  | |- context [ (?a <? ?b)%Z ] => destruct (Z.ltb_spec a b)
  | |- context [ (?a <=? ?b)%Z ] => destruct (Z.leb_spec a b)
  | |- context [ decide ?P ] => destruct (decide P)
  end.

Ltac zcase_in H :=
  match type of H with
  | context [ (?a =? ?b)%Z ] => destruct (Z.eqb_spec a b)
  | context [ (?a <? ?b)%Z ] => destruct (Z.ltb_spec a b)
  | context [ (?a <=? ?b)%Z ] => destruct (Z.leb_spec a b)
  | context [ decide ?P ] => destruct (decide P)
  end.

(** ** Machine integers

    A C integer of [w] bits is a [Z]; these are the conversions to the signed
    and unsigned ranges (the target has two's complement integers). *)

Definition u_wrap (w x : Z) : Z := x mod 2 ^ w.

Definition s_wrap (w x : Z) : Z := (x + 2 ^ (w - 1)) mod 2 ^ w - 2 ^ (w - 1).

(** [char] (signed on this target), [short], [int] and [long], [unsigned]. *)
Definition i8 : Z -> Z := s_wrap 8.
Definition i16 : Z -> Z := s_wrap 16.
Definition i32 : Z -> Z := s_wrap 32.
Definition u16 : Z -> Z := u_wrap 16.
Definition u32 : Z -> Z := u_wrap 32.

Definition INT_MAX : Z := 2147483647.
Definition LONG_MAX : Z := 2147483647.

Lemma u_wrap_range w x : 0 <= w -> 0 <= u_wrap w x < 2 ^ w.
Proof. intros; unfold u_wrap; apply Z.mod_pos_bound, Z.pow_pos_nonneg; lia. Qed.

Lemma s_wrap_range w x : 1 <= w -> - 2 ^ (w - 1) <= s_wrap w x < 2 ^ (w - 1).
Proof.
  intros; unfold s_wrap.
  assert (2 ^ w = 2 * 2 ^ (w - 1)) as E.
  { rewrite <- Z.pow_succ_r by lia; f_equal; lia. }
  pose proof (Z.mod_pos_bound (x + 2 ^ (w - 1)) (2 ^ w)) as B.
  assert (0 < 2 ^ (w - 1)) by (apply Z.pow_pos_nonneg; lia). lia.
Qed.

Lemma s_wrap_id w x : 1 <= w -> - 2 ^ (w - 1) <= x < 2 ^ (w - 1) -> s_wrap w x = x.
Proof.
  intros; unfold s_wrap.
  assert (2 ^ w = 2 * 2 ^ (w - 1)) as E.
  { rewrite <- Z.pow_succ_r by lia; f_equal; lia. }
  rewrite Z.mod_small; lia.
Qed.

Lemma i32_id x : - 2147483648 <= x <= 2147483647 -> i32 x = x.
Proof. intros; apply s_wrap_id; [lia|]. change (2 ^ (32 - 1)) with 2147483648. lia. Qed.

Lemma u32_range x : 0 <= u32 x < 2 ^ 32.
Proof. unfold u32, u_wrap. by apply Z.mod_pos_bound. Qed.

Lemma u32_id x : 0 <= x <= 4294967295 -> u32 x = x.
Proof. intros; apply Z.mod_small. change (2 ^ 32) with 4294967296. lia. Qed.

Lemma pow2_bounds k n : 0 <= k <= n -> 0 < 2 ^ k <= 2 ^ n.
Proof. intros Hk. split; [apply Z.pow_pos_nonneg; lia|apply Z.pow_le_mono_r; lia]. Qed.

Lemma u32_pow2 k : 0 <= k <= 31 -> u32 (2 ^ k) = 2 ^ k.
Proof.
  intros Hk. pose proof (pow2_bounds k 31 Hk). change (2 ^ 31) with 2147483648 in *.
  apply u32_id. lia.
Qed.

(** Reading the bits of an [int] as unsigned and back. *)
Lemma i32_u32 x : - 2147483648 <= x <= 2147483647 -> i32 (u32 x) = x.
Proof.
  intros Hx. rewrite <- (i32_id x) at 2 by done. unfold i32, u32, s_wrap, u_wrap.
  by rewrite Zplus_mod_idemp_l.
Qed.

(** Reading a signed value as an unsigned one of the same width. *)
Lemma u_wrap_s_wrap w x : u_wrap w (s_wrap w x) = u_wrap w x.
Proof. unfold u_wrap, s_wrap. by rewrite Zminus_mod_idemp_l, Z.add_simpl_r. Qed.

Lemma u32_i32 x : u32 (i32 x) = u32 x.
Proof. apply u_wrap_s_wrap. Qed.

Lemma i32_range x : - 2147483648 <= i32 x <= 2147483647.
Proof.
  pose proof (s_wrap_range 32 x ltac:(lia)) as B.
  change (2 ^ (32 - 1)) with 2147483648 in B. unfold i32; lia.
Qed.

Lemma i8_id x : -128 <= x <= 127 -> i8 x = x.
Proof. intros; apply s_wrap_id; [lia|]. change (2 ^ (8 - 1)) with 128. lia. Qed.

Lemma i8_range x : -128 <= i8 x <= 127.
Proof.
  pose proof (s_wrap_range 8 x ltac:(lia)) as B.
  change (2 ^ (8 - 1)) with 128 in B. unfold i8; lia.
Qed.

(** ** Flag words

    [RTS_ISSET(rp, f)] and its relatives on a flag word. *)

(** All bits of [f] are set in [x]: [(x & f) == f]. *)
Definition flag_isset (x f : Z) : bool := Z.land x f =? f.

(** Some bit of [f] is set in [x]: [x & f]. *)
Definition flag_any (x f : Z) : bool := negb (Z.land x f =? 0).

(** [x & ~f]. *)
Definition flag_clear (x f : Z) : Z := Z.ldiff x f.

(** [x | f]. *)
Definition flag_set (x f : Z) : Z := Z.lor x f.

Lemma flag_set_nonzero x f : f <> 0 -> flag_set x f <> 0.
Proof. intros Hf E; apply Z.lor_eq_0_iff in E; tauto. Qed.

(** A one-bit flag is tested by reading that bit. *)
Lemma flag_any_bit x n : 0 <= n -> flag_any x (2 ^ n) = Z.testbit x n.
Proof.
  intros Hn; unfold flag_any.
  destruct (Z.testbit x n) eqn:E.
  - apply Bool.negb_true_iff, Z.eqb_neq. intros H0.
    assert (Z.testbit (Z.land x (2 ^ n)) n = true) as T.
    { rewrite Z.land_spec, E, Z.pow2_bits_true by lia; done. }
    rewrite H0, Z.testbit_0_l in T; done.
  - apply Bool.negb_false_iff, Z.eqb_eq, Z.bits_inj'. intros m Hm.
    rewrite Z.land_spec, Z.testbit_0_l.
    destruct (decide (m = n)) as [->|Hne]; [rewrite E; done|].
    rewrite (Z.pow2_bits_false n m) by lia. apply andb_false_r.
Qed.

Lemma flag_isset_bit x n : 0 <= n -> flag_isset x (2 ^ n) = Z.testbit x n.
Proof.
  intros Hn; unfold flag_isset.
  destruct (Z.testbit x n) eqn:E.
  - apply Z.eqb_eq, Z.bits_inj'. intros m Hm. rewrite Z.land_spec.
    destruct (decide (m = n)) as [->|Hne].
    + rewrite E. done.
    + rewrite (Z.pow2_bits_false n m) by lia. apply andb_false_r.
  - apply Z.eqb_neq. intros H.
    assert (Z.testbit (Z.land x (2 ^ n)) n = true) as T.
    { rewrite H. apply Z.pow2_bits_true; lia. }
    rewrite Z.land_spec, E in T; done.
Qed.

Lemma flag_set_bit x n m : 0 <= n -> 0 <= m ->
  Z.testbit (flag_set x (2 ^ n)) m = Z.testbit x m || (n =? m).
Proof. intros; unfold flag_set. rewrite Z.lor_spec, Z.pow2_bits_eqb by lia. done. Qed.

Lemma flag_clear_bit x n m : 0 <= n -> 0 <= m ->
  Z.testbit (flag_clear x (2 ^ n)) m = Z.testbit x m && negb (n =? m).
Proof. intros; unfold flag_clear. rewrite Z.ldiff_spec, Z.pow2_bits_eqb by lia. done. Qed.

(** ** Lists *)

(** A duplicate-free list of integers of [[a, a+n)] has at most [n] elements:
    the bound on the length of every queue threaded through the process table. *)
Lemma NoDup_bounded_length (l : list Z) (a n : Z) :
  NoDup l -> (forall x, x ∈ l -> a <= x < a + n) -> (length l <= Z.to_nat n)%nat.
Proof.
  intros Hnd Hin. rewrite <- (length_seqZ a n).
  apply submseteq_length, NoDup_submseteq; [done|].
  intros x Hx. apply elem_of_seqZ. auto.
Qed.

(** The elements of a list other than [x]. *)
Definition without `{EqDecision A} (x : A) (l : list A) : list A :=
  filter (fun y => y <> x) l.

Lemma elem_of_without `{EqDecision A} (x y : A) l : y ∈ without x l <-> y <> x /\ y ∈ l.
Proof. unfold without. by rewrite list_elem_of_filter. Qed.

Lemma without_notin `{EqDecision A} (x : A) l : x ∉ l -> without x l = l.
Proof.
  unfold without. induction l as [|y l IH]; intros Hx; [done|].
  rewrite filter_cons_True by set_solver. f_equal. apply IH. set_solver.
Qed.

Lemma without_app `{EqDecision A} (x : A) l1 l2 :
  without x (l1 ++ l2) = without x l1 ++ without x l2.
Proof. apply filter_app. Qed.

Lemma without_middle `{EqDecision A} (x : A) l1 l2 :
  x ∉ l1 -> x ∉ l2 -> without x (l1 ++ x :: l2) = l1 ++ l2.
Proof.
  intros H1 H2. rewrite without_app. unfold without at 2.
  rewrite filter_cons_False by tauto. fold (without x l2).
  by rewrite !without_notin.
Qed.

Lemma NoDup_without `{EqDecision A} (x : A) l : NoDup l -> NoDup (without x l).
Proof. apply NoDup_filter. Qed.

(** A duplicate-free list containing [x] is split by [x] in one way. *)
Lemma NoDup_middle {A} (x : A) l1 l2 :
  NoDup (l1 ++ x :: l2) -> x ∉ l1 /\ x ∉ l2 /\ NoDup (l1 ++ l2).
Proof.
  intros Hnd. apply NoDup_app in Hnd as (Hnd1 & Hdisj & Hnd2).
  apply NoDup_cons in Hnd2 as [Hx2 Hnd2]. split_all.
  - intros Hx1. apply (Hdisj x Hx1). set_solver.
  - done.
  - apply NoDup_app. split_all; [done| |done].
    intros y Hy Hy2. apply (Hdisj y Hy). set_solver.
Qed.

(** ** Tables indexed by an integer, updated at one index *)

Lemma fn_insert_case `{EqDecision A} {T} (f : A -> T) a b t :
  <[a:=t]> f b = if decide (a = b) then t else f b.
Proof. case_decide; [subst; apply fn_lookup_insert | by apply fn_lookup_insert_ne]. Qed.

#[export] Hint Rewrite @fn_lookup_insert : minix_upd.
#[export] Hint Rewrite @fn_lookup_insert_ne using (first [assumption | congruence | lia]) : minix_upd.

Ltac upd_simpl := autorewrite with minix_upd in *.
