(* ===== verification/PList.v ===== *)
(** * Linked lists threaded through a table

    The kernel keeps its ready queues, its caller queues and its timers as
    singly linked lists whose links are fields of table entries, and walks them
    with pointer pointers ([struct proc **xpp]).  This file has one model of
    such a list: a head, a link per node, a pointer to a link as a location,
    and the walk that stops at the first node that satisfies a test.  The
    components instantiate it; the lemmas relate it to a plain [list]. *)
From S2P Require Import Prelude.

Section plist.
Context {K : Type} `{EqDecision K}.

(** The head pointer and the link field of every node. *)
Record plist := mk_plist { pl_head : option K; pl_next : K -> option K }.

(** A pointer to a pointer: the address of the head or of a node's link. *)
Inductive ploc := LHead | LNext (k : K).

Definition deref (p : plist) (xpp : ploc) : option K :=
  match xpp with LHead => pl_head p | LNext k => pl_next p k end.

Definition assign (p : plist) (xpp : ploc) (v : option K) : plist :=
  match xpp with
  | LHead => mk_plist v (pl_next p)
  | LNext k => mk_plist (pl_head p) (<[k:=v]> (pl_next p))
  end.

(** [for (xpp = &head; *xpp != NULL; xpp = &( *xpp)->next) if (stop( *xpp)) break;]
    [None] when the fuel runs out, which a finite list never does. *)
Fixpoint walk (stop : K -> bool) (fuel : nat) (p : plist) (xpp : ploc) : option ploc :=
  match fuel with
  | O => None
  | S fuel' =>
      match deref p xpp with
      | None => Some xpp
      | Some k => if stop k then Some xpp else walk stop fuel' p (LNext k)
      end
  end.

(** The node that holds the link [xpp] points to ([prev_xp] of [dequeue]). *)
Definition loc_node (xpp : ploc) : option K :=
  match xpp with LHead => None | LNext k => Some k end.

(** ** The list a head and its links represent *)

Fixpoint chain (next : K -> option K) (h : option K) (l : list K) : Prop :=
  match l with
  | [] => h = None
  | x :: l' => h = Some x /\ chain next (next x) l'
  end.

Definition plist_rep (p : plist) (l : list K) : Prop := chain (pl_next p) (pl_head p) l.

(** The location reached after the nodes of [l1]. *)
Definition loc_after (l1 : list K) : ploc :=
  match last l1 with None => LHead | Some k => LNext k end.

Lemma chain_ext n1 n2 h l :
  (forall x, x ∈ l -> n1 x = n2 x) -> chain n1 h l -> chain n2 h l.
Proof.
  revert h; induction l as [|x l IH]; intros h Hext Hc; [done|].
  destruct Hc as [-> Hc]. split; [done|].
  rewrite <- Hext by set_solver. apply IH; [set_solver|done].
Qed.

Lemma chain_insert_notin n h l x v : x ∉ l -> chain n h l -> chain (<[x:=v]> n) h l.
Proof.
  intros Hx. apply chain_ext. intros y Hy.
  rewrite fn_lookup_insert_ne by set_solver; done.
Qed.

(** A head and its links represent one list only. *)
Lemma chain_inj n h l1 l2 : chain n h l1 -> chain n h l2 -> l1 = l2.
Proof.
  revert h l2; induction l1 as [|x l1 IH]; intros h [|y l2]; simpl; intros H1 H2;
    destr_and; try congruence.
  simplify_eq. f_equal. eauto.
Qed.

Lemma chain_deref_after n h l1 l2 :
  chain n h (l1 ++ l2) ->
  deref (mk_plist h n) (loc_after l1) = head l2 /\
  (forall x l2', l2 = x :: l2' -> chain n (n x) l2').
Proof.
  revert h; induction l1 as [|y l1 IH]; intros h Hc; simpl in *.
  - destruct l2 as [|x l2]; simpl in *; destr_and; subst; split; try done; naive_solver.
  - destruct Hc as [-> Hc]. specialize (IH _ Hc) as [IH1 IH2]. split; [|done].
    rewrite <- IH1. unfold loc_after. rewrite last_cons.
    destruct (last l1); done.
Qed.

(** The walk over the nodes of [l] stops before the first node that satisfies
    the test, given more fuel than nodes. *)
Lemma walk_spec stop fuel p l1 l2 :
  plist_rep p (l1 ++ l2) ->
  Forall (fun x => stop x = false) l1 ->
  match l2 with [] => True | x :: _ => stop x = true end ->
  (length l1 < fuel)%nat ->
  walk stop fuel p LHead = Some (loc_after l1).
Proof.
  intros Hrep. destruct p as [h n]. unfold plist_rep in Hrep; simpl in Hrep.
  enough (forall done_ todo, l1 = done_ ++ todo -> Forall (fun x => stop x = false) l1 ->
            match l2 with [] => True | x :: _ => stop x = true end ->
            forall fuel, (length todo < fuel)%nat ->
            walk stop fuel (mk_plist h n) (loc_after done_) = Some (loc_after l1)) as Hgen.
  { intros. apply (Hgen [] l1); done. }
  clear fuel. intros d todo. revert d. induction todo as [|x todo IH]; intros d -> Hf Hs fuel Hfuel.
  - destruct fuel; [simpl in *; lia|]. rewrite app_nil_r in *. cbn [walk].
    destruct (chain_deref_after _ _ _ _ Hrep) as [-> _].
    destruct l2; simpl; [done|]. by rewrite Hs.
  - destruct fuel; [simpl in *; lia|]. cbn [walk].
    rewrite <- app_assoc in Hrep. destruct (chain_deref_after _ _ _ _ Hrep) as [-> _]. simpl.
    assert (stop x = false) as ->.
    { rewrite Forall_app, Forall_cons in Hf. tauto. }
    specialize (IH (d ++ [x])). unfold loc_after at 1 in IH. rewrite last_snoc in IH.
    rewrite IH; [|by rewrite <- app_assoc|done|done|simpl in *; lia]. done.
Qed.

(** Unlinking the node after [l1]. *)
Lemma assign_unlink p l1 x l2 :
  NoDup (l1 ++ x :: l2) -> plist_rep p (l1 ++ x :: l2) ->
  plist_rep (assign p (loc_after l1) (pl_next p x)) (l1 ++ l2).
Proof.
  destruct p as [h n]. unfold plist_rep. revert h.
  induction l1 as [|y l1 IH]; intros h Hnd Hc; simpl in *; destr_and; subst; [done|].
  apply NoDup_cons in Hnd as [Hy Hnd].
  unfold loc_after. rewrite last_cons.
  destruct (last l1) as [k|] eqn:Hl.
  - specialize (IH (n y) Hnd ltac:(done)). unfold loc_after in IH. rewrite Hl in IH. simpl in *.
    split; [done|]. rewrite fn_lookup_insert_ne; [done|].
    intros ->. apply last_Some_elem_of in Hl. set_solver.
  - apply last_None in Hl as ->. simpl in *. destr_and. split; [done|].
    rewrite fn_lookup_insert. apply chain_insert_notin; [set_solver|done].
Qed.

(** Linking a node [x] after [l1]: [x->next = *xpp; *xpp = x]. *)
Lemma assign_link p l1 l2 x :
  NoDup (l1 ++ l2) -> x ∉ l1 ++ l2 -> plist_rep p (l1 ++ l2) ->
  plist_rep (assign (mk_plist (pl_head p) (<[x := deref p (loc_after l1)]> (pl_next p)))
                    (loc_after l1) (Some x)) (l1 ++ x :: l2).
Proof.
  destruct p as [h n]. unfold plist_rep. revert h.
  induction l1 as [|y l1 IH]; intros h Hnd Hx Hc; simpl in *.
  - split; [done|]. rewrite fn_lookup_insert. by apply chain_insert_notin.
  - destruct Hc as [-> Hc]. apply NoDup_cons in Hnd as [Hy Hnd].
    unfold loc_after. rewrite last_cons.
    destruct (last l1) as [k|] eqn:Hl.
    + specialize (IH (n y) Hnd ltac:(set_solver) Hc). unfold loc_after in IH. rewrite Hl in IH.
      simpl in *. split; [done|]. rewrite !fn_lookup_insert_ne; [done|set_solver|].
      intros ->. apply last_Some_elem_of in Hl. set_solver.
    + apply last_None in Hl as ->. simpl in *. split; [done|].
      rewrite fn_lookup_insert. split; [done|].
      rewrite fn_lookup_insert_ne by set_solver. rewrite fn_lookup_insert.
      apply chain_insert_notin; [set_solver|]. apply chain_insert_notin; [set_solver|done].
Qed.

(** Splitting a list before the first element that satisfies a test. *)
Lemma split_first (stop : K -> bool) l :
  exists l1 l2, l = l1 ++ l2 /\ Forall (fun x => stop x = false) l1 /\
    match l2 with [] => True | x :: _ => stop x = true end.
Proof.
  induction l as [|x l (l1 & l2 & -> & Hf & Hs)]; [exists [], []; done|].
  destruct (stop x) eqn:E.
  - exists [], (x :: l1 ++ l2). done.
  - exists (x :: l1), l2. split_all; [done|constructor; done|done].
Qed.

Lemma loc_node_after l : loc_node (loc_after l) = last l.
Proof. unfold loc_after. by destruct (last l). Qed.

End plist.
Arguments plist : clear implicits.
Arguments ploc : clear implicits.
