(* ===== verification/KMonad.v ===== *)
(** * The state and error monad of the model

    C code that reads and writes global tables is a function from the state to
    an [outcome]: it returns a value and a new state, stops the kernel
    ([minix_panic]), or is stuck.  A computation is stuck when the C code has
    no defined behaviour (an index outside a table, a null pointer) or when a
    loop outlives its fuel; theorems about an operation show it is neither.
    The weakest precondition [wpx] is the program logic the components use. *)
From S2P Require Import Prelude.

Inductive stuck_reason := BadIndex | NullDeref | OutOfFuel | NoReturn | DivByZero.

Inductive outcome (S A : Type) : Type :=
  | Done (a : A) (s : S)
  | Panic (why : string)
  | Stuck (r : stuck_reason).
Arguments Done {S A} a s.
Arguments Panic {S A} why.
Arguments Stuck {S A} r.

Definition M (S A : Type) : Type := S -> outcome S A.

Section monad.
Context {S : Type}.

Definition ret {A} (a : A) : M S A := fun s => Done a s.

Definition bind {A B} (m : M S A) (f : A -> M S B) : M S B := fun s =>
  match m s with
  | Done a s' => f a s'
  | Panic w => Panic w
  | Stuck r => Stuck r
  end.

Definition panic {A} (why : string) : M S A := fun _ => Panic why.
Definition stuck {A} (r : stuck_reason) : M S A := fun _ => Stuck r.

(** Read a projection of the state; replace the state. *)
Definition gets {A} (f : S -> A) : M S A := fun s => Done (f s) s.
Definition modify (f : S -> S) : M S unit := fun s => Done tt (f s).

(** Dereference a pointer that may be null. *)
Definition from_ptr {A} (o : option A) : M S A :=
  match o with Some a => ret a | None => stuck NullDeref end.

(** [for] over a range of slots, without and with an early [return]. *)
Fixpoint for_each {A} (l : list A) (body : A -> M S unit) : M S unit :=
  match l with
  | [] => ret tt
  | x :: l' => bind (body x) (fun _ => for_each l' body)
  end.

Fixpoint for_return {A R} (l : list A) (body : A -> M S (option R)) : M S (option R) :=
  match l with
  | [] => ret None
  | x :: l' => bind (body x) (fun r =>
      match r with Some v => ret (Some v) | None => for_return l' body end)
  end.

(** [for] with an accumulator, and with an accumulator and an early exit. *)
Fixpoint fold_each {A B} (l : list B) (acc : A) (body : A -> B -> M S A) : M S A :=
  match l with
  | [] => ret acc
  | x :: l' => bind (body acc x) (fun acc' => fold_each l' acc' body)
  end.

Fixpoint fold_exit {A B R} (l : list B) (acc : A) (body : A -> B -> M S (A + R)) : M S (A + R) :=
  match l with
  | [] => ret (inl acc)
  | x :: l' => bind (body acc x) (fun r =>
      match r with inl acc' => fold_exit l' acc' body | inr v => ret (inr v) end)
  end.

(** [while] with fuel; the body says whether to go on. *)
Fixpoint while (fuel : nat) (body : M S bool) : M S unit :=
  match fuel with
  | O => stuck OutOfFuel
  | Datatypes.S fuel' => bind body (fun go => if go then while fuel' body else ret tt)
  end.

Definition when (b : bool) (m : M S unit) : M S unit := if b then m else ret tt.

End monad.

Notation "'do' x <- m ; k" := (bind m (fun x => k))
  (at level 100, x name, m at level 99, k at level 200, right associativity) : minix_scope.
Notation "'do!' m ; k" := (bind m (fun _ => k))
  (at level 100, m at level 99, k at level 200, right associativity) : minix_scope.

(** ** Weakest preconditions

    [wpp P m Q s]: run in [s], [m] returns with [Q], or panics for a reason that
    satisfies [P].  It is never stuck.  [wpx E] does not look at the reason;
    [wp] excludes panics too. *)
Section wp.
Context {S : Type}.

Definition wpp {A} (P : string -> Prop) (m : M S A) (Q : A -> S -> Prop) (s : S) : Prop :=
  match m s with
  | Done a s' => Q a s'
  | Panic w => P w
  | Stuck _ => False
  end.

Definition wpx {A} (E : Prop) (m : M S A) (Q : A -> S -> Prop) (s : S) : Prop :=
  wpp (fun _ => E) m Q s.

Definition wp {A} : M S A -> (A -> S -> Prop) -> S -> Prop := wpx False.

Lemma wp_done {A} (m : M S A) Q s :
  wp m Q s <-> exists a s', m s = Done a s' /\ Q a s'.
Proof.
  unfold wp, wpx, wpp. destruct (m s) as [a s'| |]; split; try naive_solver.
Qed.

(** A computation that cannot panic returns a value with the postcondition. *)
Lemma wpx_returns {A} (m : M S A) (Q : A -> S -> Prop) s :
  wpx False m Q s -> exists a s', m s = Done a s' /\ Q a s'.
Proof. apply wp_done. Qed.

(** *** Rules for [wpp] *)

Lemma wpp_done {A} P (m : M S A) (Q : A -> S -> Prop) s a s' :
  m s = Done a s' -> Q a s' -> wpp P m Q s.
Proof. unfold wpp. by intros ->. Qed.

Lemma wpp_elim {A} P (m : M S A) (Q : A -> S -> Prop) s a s' :
  wpp P m Q s -> m s = Done a s' -> Q a s'.
Proof. unfold wpp. by intros H Hm; rewrite Hm in H. Qed.

(** How a computation may end. *)
Lemma wpp_outcome {A} P (m : M S A) (Q : A -> S -> Prop) s :
  wpp P m Q s -> (exists a s', m s = Done a s' /\ Q a s') \/ (exists w, m s = Panic w /\ P w).
Proof. unfold wpp. destruct (m s); naive_solver. Qed.

Lemma wpp_ret {A} P (a : A) (Q : A -> S -> Prop) s : Q a s -> wpp P (ret a) Q s.
Proof. done. Qed.

Lemma wpp_panic {A} (P : string -> Prop) w (Q : A -> S -> Prop) s : P w -> wpp P (panic w) Q s.
Proof. done. Qed.

Lemma wpp_bind {A B} P (m : M S A) (f : A -> M S B) Q s :
  wpp P m (fun a s' => wpp P (f a) Q s') s -> wpp P (bind m f) Q s.
Proof. unfold wpp, bind. by destruct (m s). Qed.

Lemma wpp_mono {A} (P P' : string -> Prop) (m : M S A) (Q Q' : A -> S -> Prop) s :
  wpp P m Q s -> (forall w, P w -> P' w) -> (forall a s', Q a s' -> Q' a s') -> wpp P' m Q' s.
Proof. unfold wpp. destruct (m s); auto. Qed.

Lemma wpp_conseq {A} P (m : M S A) (Q Q' : A -> S -> Prop) s :
  wpp P m Q s -> (forall a s', Q a s' -> Q' a s') -> wpp P m Q' s.
Proof. intros H HQ. by eapply wpp_mono. Qed.

Lemma wpp_and {A} P (m : M S A) (Q1 Q2 : A -> S -> Prop) s :
  wpp P m Q1 s -> wpp P m Q2 s -> wpp P m (fun a s' => Q1 a s' /\ Q2 a s') s.
Proof. unfold wpp. destruct (m s); auto. Qed.

(** Computations that agree on the state. *)
Lemma wpp_ext {A} P (m m' : M S A) (Q : A -> S -> Prop) s : m s = m' s -> wpp P m' Q s -> wpp P m Q s.
Proof. unfold wpp. by intros ->. Qed.

(** What holds of every run that returns. *)
Lemma wpp_run {A} P (m : M S A) (Q R : A -> S -> Prop) s :
  (forall a s', m s = Done a s' -> R a s') -> wpp P m Q s -> wpp P m (fun a s' => Q a s' /\ R a s') s.
Proof. unfold wpp. destruct (m s); auto. Qed.

Lemma wpp_gets {A} P (f : S -> A) (Q : A -> S -> Prop) s : Q (f s) s -> wpp P (gets f) Q s.
Proof. done. Qed.

Lemma wpp_modify P (f : S -> S) Q s : Q tt (f s) -> wpp P (modify f) Q s.
Proof. done. Qed.

Lemma wpp_when P b (m : M S unit) Q s :
  (b = true -> wpp P m Q s) -> (b = false -> Q tt s) -> wpp P (when b m) Q s.
Proof. destruct b; intros H1 H2; [by apply H1|by apply H2]. Qed.

Lemma wpp_for_each {A} P (I : list A -> S -> Prop) l body (Q : unit -> S -> Prop) s :
  I l s ->
  (forall x rest s, I (x :: rest) s -> x ∈ l -> wpp P (body x) (fun _ s' => I rest s') s) ->
  (forall s', I [] s' -> Q tt s') ->
  wpp P (for_each l body) Q s.
Proof.
  intros Hl Hb HQ.
  enough (forall l0 s, (forall y, y ∈ l0 -> y ∈ l) -> I l0 s -> wpp P (for_each l0 body) Q s)
    by auto.
  clear s Hl. intros l0. induction l0 as [|x l0 IH]; intros s Hsub Hl; simpl; [by apply wpp_ret, HQ|].
  apply wpp_bind. eapply wpp_conseq; [apply Hb; [done|set_solver]|].
  intros u s' HI. apply IH; [set_solver|done].
Qed.

Lemma wpp_for_return {A R} P (I : list A -> S -> Prop) l (body : A -> M S (option R)) Q s :
  I l s ->
  (forall x rest s, I (x :: rest) s -> x ∈ l ->
     wpp P (body x) (fun r s' => match r with Some v => Q (Some v) s' | None => I rest s' end) s) ->
  (forall s', I [] s' -> Q None s') ->
  wpp P (for_return l body) Q s.
Proof.
  intros Hl Hb HQ.
  enough (forall l0 s, (forall y, y ∈ l0 -> y ∈ l) -> I l0 s -> wpp P (for_return l0 body) Q s)
    by auto.
  clear s Hl. intros l0. induction l0 as [|x l0 IH]; intros s Hsub Hl; simpl; [by apply wpp_ret, HQ|].
  apply wpp_bind. eapply wpp_conseq; [apply Hb; [done|set_solver]|].
  intros [v|] s' HI; [done|]. apply IH; [set_solver|done].
Qed.

Lemma wpp_fold_each {A B} P (I : A -> list B -> S -> Prop) l (body : A -> B -> M S A) acc
    (Q : A -> S -> Prop) s :
  I acc l s ->
  (forall a x rest s, I a (x :: rest) s -> x ∈ l ->
     wpp P (body a x) (fun a' s' => I a' rest s') s) ->
  (forall a s', I a [] s' -> Q a s') ->
  wpp P (fold_each l acc body) Q s.
Proof.
  intros Hl Hb HQ.
  enough (forall l0 acc s, (forall y, y ∈ l0 -> y ∈ l) -> I acc l0 s ->
            wpp P (fold_each l0 acc body) Q s) by auto.
  clear s acc Hl. intros l0. induction l0 as [|x l0 IH]; intros acc s Hsub Hl; simpl;
    [by apply wpp_ret, HQ|].
  apply wpp_bind. eapply wpp_conseq; [apply Hb; [done|set_solver]|].
  intros u s' HI. apply IH; [set_solver|done].
Qed.

Lemma wpp_fold_exit {A B R} P (I : A -> list B -> S -> Prop) l (body : A -> B -> M S (A + R)) acc Q s :
  I acc l s ->
  (forall a x rest s, I a (x :: rest) s -> x ∈ l ->
     wpp P (body a x) (fun r s' => match r with inl a' => I a' rest s' | inr v => Q (inr v) s' end) s) ->
  (forall a s', I a [] s' -> Q (inl a) s') ->
  wpp P (fold_exit l acc body) Q s.
Proof.
  intros Hl Hb HQ.
  enough (forall l0 acc s, (forall y, y ∈ l0 -> y ∈ l) -> I acc l0 s ->
            wpp P (fold_exit l0 acc body) Q s) by auto.
  clear s acc Hl. intros l0. induction l0 as [|x l0 IH]; intros acc s Hsub Hl; simpl;
    [by apply wpp_ret, HQ|].
  apply wpp_bind. eapply wpp_conseq; [apply Hb; [done|set_solver]|].
  intros [a'|v] s' HI; [|done]. apply IH; [set_solver|done].
Qed.

(** A loop whose variant, a natural number, decreases returns. *)
Lemma wpp_while P (I : nat -> S -> Prop) (body : M S bool) Q :
  (forall n s, I n s ->
     wpp P body (fun go s' => if go : bool then exists n', (n' < n)%nat /\ I n' s' else Q tt s') s) ->
  forall fuel n s, (n < fuel)%nat -> I n s -> wpp P (while fuel body) Q s.
Proof.
  intros Hb fuel. induction fuel as [|fuel IH]; intros n s Hn HI; [lia|].
  simpl. apply wpp_bind. eapply wpp_conseq; [by apply Hb|].
  intros [] s'; [|done]. intros (n' & Hlt & HI'). by apply (IH n'); [lia|].
Qed.

(** *** The same rules for [wpx] *)

Lemma wpx_done {A} E (m : M S A) (Q : A -> S -> Prop) s a s' :
  m s = Done a s' -> Q a s' -> wpx E m Q s.
Proof. apply wpp_done. Qed.

(** Running [m] in [s] when its precondition is known to give [Q]. *)
Lemma wpx_elim {A} E (m : M S A) (Q : A -> S -> Prop) s a s' :
  wpx E m Q s -> m s = Done a s' -> Q a s'.
Proof. apply wpp_elim. Qed.

Lemma wpx_ret {A} E (a : A) (Q : A -> S -> Prop) s : Q a s -> wpx E (ret a) Q s.
Proof. done. Qed.

Lemma wpx_panic {A} (E : Prop) w (Q : A -> S -> Prop) s : E -> wpx E (panic w) Q s.
Proof. done. Qed.

Lemma wpx_bind {A B} E (m : M S A) (f : A -> M S B) Q s :
  wpx E m (fun a s' => wpx E (f a) Q s') s -> wpx E (bind m f) Q s.
Proof. apply wpp_bind. Qed.

Lemma wpx_mono {A} (E E' : Prop) (m : M S A) (Q Q' : A -> S -> Prop) s :
  wpx E m Q s -> (E -> E') -> (forall a s', Q a s' -> Q' a s') -> wpx E' m Q' s.
Proof. unfold wpx. intros H HE. by apply (wpp_mono (fun _ => E)). Qed.

Lemma wpx_conseq {A} E (m : M S A) (Q Q' : A -> S -> Prop) s :
  wpx E m Q s -> (forall a s', Q a s' -> Q' a s') -> wpx E m Q' s.
Proof. apply wpp_conseq. Qed.

(** A computation that always returns may be used where a panic is allowed. *)
Lemma wp_wpx {A} (E : Prop) (m : M S A) (Q Q' : A -> S -> Prop) s :
  wp m Q s -> (forall a s', Q a s' -> Q' a s') -> wpx E m Q' s.
Proof. intros H HQ. eapply wpx_mono; [exact H|tauto|done]. Qed.

Lemma wpx_and {A} E (m : M S A) (Q1 Q2 : A -> S -> Prop) s :
  wpx E m Q1 s -> wpx E m Q2 s -> wpx E m (fun a s' => Q1 a s' /\ Q2 a s') s.
Proof. apply wpp_and. Qed.

Lemma wpx_ext {A} E (m m' : M S A) (Q : A -> S -> Prop) s : m s = m' s -> wpx E m' Q s -> wpx E m Q s.
Proof. apply wpp_ext. Qed.

Lemma wpx_run {A} E (m : M S A) (Q R : A -> S -> Prop) s :
  (forall a s', m s = Done a s' -> R a s') -> wpx E m Q s -> wpx E m (fun a s' => Q a s' /\ R a s') s.
Proof. apply wpp_run. Qed.

Lemma wpx_gets {A} E (f : S -> A) (Q : A -> S -> Prop) s : Q (f s) s -> wpx E (gets f) Q s.
Proof. done. Qed.

Lemma wpx_modify E (f : S -> S) Q s : Q tt (f s) -> wpx E (modify f) Q s.
Proof. done. Qed.

Lemma wpx_when E b (m : M S unit) Q s :
  (b = true -> wpx E m Q s) -> (b = false -> Q tt s) -> wpx E (when b m) Q s.
Proof. apply wpp_when. Qed.

Lemma wpx_for_each {A} E (I : list A -> S -> Prop) l body (Q : unit -> S -> Prop) s :
  I l s ->
  (forall x rest s, I (x :: rest) s -> x ∈ l -> wpx E (body x) (fun _ s' => I rest s') s) ->
  (forall s', I [] s' -> Q tt s') ->
  wpx E (for_each l body) Q s.
Proof. apply wpp_for_each. Qed.

Lemma wpx_for_return {A R} E (I : list A -> S -> Prop) l (body : A -> M S (option R)) Q s :
  I l s ->
  (forall x rest s, I (x :: rest) s -> x ∈ l ->
     wpx E (body x) (fun r s' => match r with Some v => Q (Some v) s' | None => I rest s' end) s) ->
  (forall s', I [] s' -> Q None s') ->
  wpx E (for_return l body) Q s.
Proof. apply wpp_for_return. Qed.

Lemma wpx_fold_each {A B} E (I : A -> list B -> S -> Prop) l (body : A -> B -> M S A) acc
    (Q : A -> S -> Prop) s :
  I acc l s ->
  (forall a x rest s, I a (x :: rest) s -> x ∈ l ->
     wpx E (body a x) (fun a' s' => I a' rest s') s) ->
  (forall a s', I a [] s' -> Q a s') ->
  wpx E (fold_each l acc body) Q s.
Proof. apply wpp_fold_each. Qed.

Lemma wpx_while E (I : nat -> S -> Prop) (body : M S bool) Q :
  (forall n s, I n s ->
     wpx E body (fun go s' => if go : bool then exists n', (n' < n)%nat /\ I n' s' else Q tt s') s) ->
  forall fuel n s, (n < fuel)%nat -> I n s -> wpx E (while fuel body) Q s.
Proof. apply wpp_while. Qed.

(** Monad laws, used to reassociate code. *)
Lemma bind_ret_l {A B} (a : A) (f : A -> M S B) s : bind (ret a) f s = f a s.
Proof. done. Qed.

Lemma bind_assoc {A B C} (m : M S A) (f : A -> M S B) (g : B -> M S C) s :
  bind (bind m f) g s = bind m (fun a => bind (f a) g) s.
Proof. unfold bind. by destruct (m s). Qed.

Lemma bind_done {A B} (m : M S A) (f : A -> M S B) s a s' :
  m s = Done a s' -> bind m f s = f a s'.
Proof. unfold bind. by intros ->. Qed.

End wp.

#[global] Opaque wp wpx wpp.
#[export] Hint Resolve wpx_ret wpx_gets wpx_modify : minix.

(** One step of symbolic execution of monadic code. *)
Ltac wp_step :=
  lazymatch goal with
  | |- wp _ _ _ => change_no_check (@wp) with (fun S A => @wpx S A False); cbv beta
  | |- wpx _ (bind _ _) _ _ => apply wpx_bind
  | |- wpx _ (ret _) _ _ => apply wpx_ret
  | |- wpx _ (gets _) _ _ => apply wpx_gets
  | |- wpx _ (modify _) _ _ => apply wpx_modify
  | |- wpx _ (if ?b then _ else _) _ _ => destruct b eqn:?
  | |- wpx _ (when ?b _) _ _ => apply wpx_when; intros ?
  end.
