(* ===== verification/Timers.v ===== *)
(** * The watchdog timer library (lib/timers)

    [tmrs_settimer], [tmrs_clrtimer] and [tmrs_exptimers] of
    src/lib/timers/*.c, on a table of [timer_t] structures threaded into a
    queue by [tmr_next].  The library is generic in the timers [K] and the
    watchdogs [F] of the client: the kernel's CLOCK task uses it here.
    The specification is a list of timers sorted by expiration time. *)
From S2P Require Import Prelude PList KMonad.
From Stdlib Require Import Sorted.

(** [TMR_NEVER] of include/timers.h. *)
Definition TMR_NEVER : Z := LONG_MAX.

Section timers.
Context {K F : Type} `{EqDecision K}.

(** [timer_t]: the link, the absolute expiration time, the watchdog, its argument. *)
Record timer_t := mk_timer {
  tmr_next : option K; tmr_exp_time : Z; tmr_func : F; tmr_arg : Z }.

Definition set_tmr_next v t := mk_timer v (tmr_exp_time t) (tmr_func t) (tmr_arg t).
Definition set_tmr_exp_time v t := mk_timer (tmr_next t) v (tmr_func t) (tmr_arg t).
Definition set_tmr_func v t := mk_timer (tmr_next t) (tmr_exp_time t) v (tmr_arg t).
Definition set_tmr_arg v t := mk_timer (tmr_next t) (tmr_exp_time t) (tmr_func t) v.

(** Every timer structure of the client, and the queue [*tmrs]. *)
Record tstate := mk_tstate { tm : K -> timer_t; tq : option K }.

Definition upd_tm (k : K) (f : timer_t -> timer_t) (st : tstate) : tstate :=
  mk_tstate (<[k := f (tm st k)]> (tm st)) (tq st).
Definition set_tq (h : option K) (st : tstate) : tstate := mk_tstate (tm st) h.

(** [tmr_inittimer] (include/timers.h). *)
Definition tmr_inittimer (k : K) : tstate -> tstate :=
  upd_tm k (fun t => set_tmr_next None (set_tmr_exp_time TMR_NEVER t)).

Definition t_plist (st : tstate) : plist K :=
  mk_plist (tq st) (fun k => tmr_next (tm st k)).

(** [*atp = v]. *)
Definition t_assign (atp : ploc K) (v : option K) (st : tstate) : tstate :=
  match atp with
  | LHead => set_tq v st
  | LNext k => upd_tm k (set_tmr_next v) st
  end.

Definition t_walk (stop : tstate -> K -> bool) (fuel : nat) : M tstate (ploc K) := fun st =>
  match walk (stop st) fuel (t_plist st) LHead with
  | Some atp => Done atp st
  | None => Stuck OutOfFuel
  end.

(** The expiration time at the head of the queue, 0 when it is empty. *)
Definition head_time (st : tstate) : Z :=
  match tq st with Some k => tmr_exp_time (tm st k) | None => 0 end.

Definition tmrs_clrtimer (fuel : nat) (tp : K) : M tstate Z :=
  do prev_time <- gets head_time;
  do! modify (upd_tm tp (set_tmr_exp_time TMR_NEVER));
  do atp <- t_walk (fun _ k => bool_decide (k = tp)) fuel;
  do cur <- gets (fun st => deref (t_plist st) atp);
  do! match cur with
      | Some _ => do nxt <- gets (fun st => tmr_next (tm st tp)); modify (t_assign atp nxt)
      | None => ret tt
      end;
  ret prev_time.

Definition tmrs_settimer (fuel : nat) (tp : K) (exp_time : Z) (watchdog : F) : M tstate Z :=
  do old_head <- gets head_time;
  do! tmrs_clrtimer fuel tp;
  do! modify (upd_tm tp (set_tmr_exp_time exp_time));
  do! modify (upd_tm tp (set_tmr_func watchdog));
  do atp <- t_walk (fun st k => exp_time <? tmr_exp_time (tm st k)) fuel;
  do cur <- gets (fun st => deref (t_plist st) atp);
  do! modify (upd_tm tp (set_tmr_next cur));
  do! modify (t_assign atp (Some tp));
  ret old_head.

(** ** [tmrs_exptimers]: the queue is part of the client's state [S] *)
Section client.
Context {S : Type} (getT : S -> tstate) (putT : tstate -> S -> S).
(** The client's watchdogs: the function stored in the timer, on the timer. *)
Context (run : F -> K -> M S unit).

(** Run a timer operation on the client's state. *)
Definition zoom {A} (m : M tstate A) : M S A := fun s =>
  match m (getT s) with
  | Done a t => Done a (putT t s)
  | Panic w => Panic w
  | Stuck r => Stuck r
  end.

(** One round of the loop: the head timer, if it is due, is unlinked, disarmed
    and its watchdog called. *)
Definition exp_one (now : Z) : M S bool :=
  do tp <- gets (fun s => tq (getT s));
  match tp with
  | None => ret false
  | Some k =>
      do t <- gets (fun s => tm (getT s) k);
      if tmr_exp_time t <=? now then
        do! modify (fun s => putT (set_tq (tmr_next t) (getT s)) s);
        do! modify (fun s => putT (upd_tm k (set_tmr_exp_time TMR_NEVER) (getT s)) s);
        do! run (tmr_func t) k;
        ret true
      else ret false
  end.

Definition tmrs_exptimers (fuel : nat) (now : Z) : M S unit := while fuel (exp_one now).

End client.

(** ** The queue as a sorted list *)

Definition exp_le (st : tstate) (a b : K) : Prop :=
  tmr_exp_time (tm st a) <= tmr_exp_time (tm st b).

(** [l] is the queue: linked from the head, without repetition, sorted. *)
Record tq_rep (st : tstate) (l : list K) : Prop := mk_tq_rep {
  tq_chain : plist_rep (t_plist st) l;
  tq_nodup : NoDup l;
  tq_sorted : StronglySorted (exp_le st) l }.

(** Specification of arming: after the timers that expire no later. *)
Fixpoint insert_timer (time : K -> Z) (x : K) (t : Z) (l : list K) : list K :=
  match l with
  | [] => [x]
  | y :: l' => if t <? time y then x :: y :: l' else y :: insert_timer time x t l'
  end.

Definition exp_of (st : tstate) (k : K) : Z := tmr_exp_time (tm st k).

Lemma tq_rep_inj st l1 l2 : tq_rep st l1 -> tq_rep st l2 -> l1 = l2.
Proof. intros [H1 _ _] [H2 _ _]. by eapply chain_inj. Qed.

Lemma insert_timer_split time x t l1 l2 :
  Forall (fun y => (t <? time y) = false) l1 ->
  match l2 with [] => True | y :: _ => (t <? time y) = true end ->
  insert_timer time x t (l1 ++ l2) = l1 ++ x :: l2.
Proof.
  induction 1 as [|y l1 Hy _ IH]; simpl.
  - destruct l2; [done|]. simpl. by intros ->.
  - intros H. by rewrite Hy, IH.
Qed.

Lemma insert_timer_elem time x t l y : y ∈ insert_timer time x t l <-> y = x \/ y ∈ l.
Proof.
  induction l as [|z l IH]; simpl; [set_solver|]. destruct (t <? time z); set_solver.
Qed.

Lemma StronglySorted_ext (R1 R2 : K -> K -> Prop) l :
  (forall a b, a ∈ l -> b ∈ l -> R1 a b -> R2 a b) -> StronglySorted R1 l -> StronglySorted R2 l.
Proof.
  induction l as [|x l IH]; intros HR Hs; [constructor|].
  apply StronglySorted_inv in Hs as [Hs Hx]. constructor.
  - apply IH; [|done]. intros; apply HR; set_solver.
  - rewrite Forall_forall in *. intros y Hy. apply HR; set_solver.
Qed.

Lemma StronglySorted_without (R : K -> K -> Prop) x l :
  StronglySorted R l -> StronglySorted R (without x l).
Proof.
  induction 1 as [|y l Hs IH Hy]; [constructor|]. unfold without in *.
  destruct (decide (y <> x)); [rewrite filter_cons_True by done | by rewrite filter_cons_False].
  constructor; [done|]. rewrite Forall_forall in *. intros z Hz.
  apply list_elem_of_filter in Hz as [_ Hz]. auto.
Qed.

Lemma StronglySorted_insert st x t l :
  exp_of st x = t -> x ∉ l -> StronglySorted (exp_le st) l ->
  StronglySorted (exp_le st) (insert_timer (exp_of st) x t l).
Proof.
  intros Ht Hx. induction 1 as [|y l Hs IH Hy]; simpl; [repeat constructor|].
  destruct (Z.ltb_spec t (exp_of st y)); constructor.
  - by constructor.
  - constructor; [unfold exp_le, exp_of in *; lia|].
    eapply Forall_impl; [exact Hy|]. unfold exp_le, exp_of in *; simpl; intros; lia.
  - apply IH. set_solver.
  - rewrite Forall_forall in *. intros z Hz%insert_timer_elem.
    destruct Hz as [->|Hz]; [unfold exp_le, exp_of in *; lia|auto].
Qed.

(** Changing a timer that is not in the queue leaves the queue alone. *)
Lemma tq_rep_upd st k f l : k ∉ l -> tq_rep st l -> tq_rep (upd_tm k f st) l.
Proof.
  intros Hk [Hc Hn Hs]. split; [|done|].
  - eapply chain_ext; [|exact Hc]. simpl. intros x Hx.
    rewrite fn_lookup_insert_ne by set_solver. done.
  - eapply StronglySorted_ext; [|exact Hs]. unfold exp_le; simpl.
    intros a b Ha Hb. rewrite !fn_lookup_insert_ne by set_solver. done.
Qed.

(** Assigning a link of the queue changes no time. *)
Lemma t_assign_exp atp v st k : exp_of (t_assign atp v st) k = exp_of st k.
Proof.
  destruct atp; unfold exp_of; simpl; [done|].
  rewrite fn_insert_case. case_decide; [by subst|done].
Qed.

Lemma t_assign_plist atp v st l :
  plist_rep (assign (t_plist st) atp v) l <-> plist_rep (t_plist (t_assign atp v st)) l.
Proof.
  destruct atp; unfold plist_rep; simpl; [done|].
  split; apply chain_ext; intros x _; rewrite !fn_insert_case; case_decide; subst; done.
Qed.

Lemma t_walk_spec stop fuel st l1 l2 :
  plist_rep (t_plist st) (l1 ++ l2) ->
  Forall (fun x => stop st x = false) l1 ->
  match l2 with [] => True | x :: _ => stop st x = true end ->
  (length l1 < fuel)%nat ->
  t_walk stop fuel st = Done (loc_after l1) st.
Proof. intros. unfold t_walk. by erewrite walk_spec. Qed.

(** Watchdogs and arguments of all timers but the one armed are unchanged. *)
Definition same_meta (st st' : tstate) (k : K) : Prop :=
  tmr_func (tm st' k) = tmr_func (tm st k) /\ tmr_arg (tm st' k) = tmr_arg (tm st k).

Lemma t_assign_meta atp v st k : same_meta st (t_assign atp v st) k.
Proof.
  unfold same_meta. destruct atp; simpl; [done|].
  rewrite fn_insert_case. case_decide; [by subst|done].
Qed.

Lemma upd_exp_plist st k t l :
  plist_rep (t_plist st) l -> plist_rep (t_plist (upd_tm k (set_tmr_exp_time t) st)) l.
Proof.
  apply chain_ext. intros x _. simpl. rewrite fn_insert_case. case_decide; by subst.
Qed.

Lemma sorted_exp st st' l :
  (forall k, k ∈ l -> exp_of st' k = exp_of st k) ->
  StronglySorted (exp_le st) l -> StronglySorted (exp_le st') l.
Proof.
  intros He. apply StronglySorted_ext. unfold exp_le. intros a b Ha Hb.
  pose proof (He a Ha). pose proof (He b Hb). unfold exp_of in *. lia.
Qed.

(** The queue when the time of [tp] may have been changed under it: the others are in
    order. *)
Record tq_but (tp : K) (st : tstate) (l : list K) : Prop := mk_tq_but {
  tb_chain : plist_rep (t_plist st) l;
  tb_nodup : NoDup l;
  tb_sorted : StronglySorted (exp_le st) (without tp l) }.

Lemma tq_rep_but tp st l : tq_rep st l -> tq_but tp st l.
Proof. intros [Hc Hn Hs]. split; [done|done|by apply StronglySorted_without]. Qed.

Lemma tq_but_upd tp f st l :
  (forall t, tmr_next (f t) = tmr_next t) -> tq_but tp st l -> tq_but tp (upd_tm tp f st) l.
Proof.
  intros Hf [Hc Hn Hs]. split; [|done|].
  - eapply chain_ext; [|exact Hc]. intros x _. simpl. rewrite fn_insert_case. case_decide; [by subst|done].
  - eapply sorted_exp; [|done]. intros k [Hk _]%elem_of_without. unfold exp_of. simpl.
    by rewrite fn_lookup_insert_ne.
Qed.

(** The state [tmrs_clrtimer] leaves: the queue without the timer, in order. *)
Definition cleared (tp : K) (st st' : tstate) (l : list K) : Prop :=
  tq_rep st' (without tp l) /\ exp_of st' tp = TMR_NEVER /\
  (forall k, k <> tp -> exp_of st' k = exp_of st k) /\ forall k, same_meta st st' k.

Lemma tmrs_clrtimer_rep fuel tp st l :
  tq_but tp st l -> (length l < fuel)%nat ->
  exists st', tmrs_clrtimer fuel tp st = Done (head_time st) st' /\ cleared tp st st' l.
Proof.
  intros [Hc Hn Hs] Hfuel. unfold tmrs_clrtimer.
  set (st1 := upd_tm tp (set_tmr_exp_time TMR_NEVER) st).
  assert (Hc1 : plist_rep (t_plist st1) l) by by apply upd_exp_plist.
  destruct (split_first (fun k => bool_decide (k = tp)) l) as (l1 & l2 & -> & Hf & Hx).
  assert (W : t_walk (fun _ k => bool_decide (k = tp)) fuel st1 = Done (loc_after l1) st1).
  { eapply t_walk_spec; [done|done|done|]. rewrite length_app in Hfuel. lia. }
  unfold bind, gets, modify. fold st1. rewrite W.
  destruct (chain_deref_after _ _ _ _ Hc1) as [D _].
  change (mk_plist _ _) with (t_plist st1) in D. rewrite D.
  assert (He : forall k, k <> tp -> exp_of st1 k = exp_of st k).
  { intros k Hk. unfold exp_of, st1. simpl. by rewrite fn_lookup_insert_ne. }
  assert (Hm : forall k, same_meta st st1 k).
  { intros k. unfold same_meta, st1. simpl. rewrite fn_insert_case. case_decide; by subst. }
  assert (He' : exp_of st1 tp = TMR_NEVER).
  { unfold exp_of, st1. simpl. by rewrite fn_lookup_insert. }
  assert (Hl1 : tp ∉ l1).
  { intros Hin. rewrite Forall_forall in Hf. specialize (Hf _ Hin).
    by apply bool_decide_eq_false in Hf. }
  destruct l2 as [|x l2]; simpl in *.
  - exists st1. split; [done|]. unfold cleared.
    rewrite app_nil_r in *. rewrite without_notin in * by done. split_all; try done.
    split; [done|done|]. eapply sorted_exp; [|done]. intros; apply He. set_solver.
  - apply bool_decide_eq_true in Hx as ->. eexists. split; [done|].
    destruct (NoDup_middle _ _ _ Hn) as (Hn1 & Hn2 & Hn3). unfold cleared.
    rewrite without_middle by done. split_all.
    + split; [|done|].
      * apply t_assign_plist. by apply (assign_unlink (t_plist st1)).
      * eapply (sorted_exp st); [intros k Hk; rewrite t_assign_exp; apply He; set_solver|].
        by rewrite without_middle in Hs.
    + by rewrite t_assign_exp.
    + intros. rewrite t_assign_exp. by apply He.
    + intros k. unfold same_meta. destruct (Hm k) as [<- <-]. apply t_assign_meta.
Qed.

(** The state [tmrs_settimer] leaves: the timer armed at its place in the order. *)
Definition armed (tp : K) (t : Z) (w : F) (st st' : tstate) (l : list K) : Prop :=
  tq_rep st' (insert_timer (exp_of st) tp t (without tp l)) /\
  exp_of st' tp = t /\ tmr_func (tm st' tp) = w /\ tmr_arg (tm st' tp) = tmr_arg (tm st tp) /\
  (forall k, k <> tp -> exp_of st' k = exp_of st k /\ same_meta st st' k).

Lemma insert_timer_ext f g x t l :
  (forall k, k ∈ l -> f k = g k) -> insert_timer f x t l = insert_timer g x t l.
Proof.
  induction l as [|y l IH]; intros Hfg; simpl; [done|].
  rewrite <- (Hfg y) by set_solver. rewrite IH by set_solver. done.
Qed.

Lemma length_without (x : K) l : (length (without x l) <= length l)%nat.
Proof. apply length_filter. Qed.

Lemma tmrs_settimer_rep fuel tp t w st l :
  tq_but tp st l -> (length l < fuel)%nat ->
  exists st', tmrs_settimer fuel tp t w st = Done (head_time st) st' /\ armed tp t w st st' l.
Proof.
  intros Hrep Hfuel. unfold tmrs_settimer.
  destruct (tmrs_clrtimer_rep fuel tp st l Hrep Hfuel) as (st0 & E0 & Hrep0 & _ & He0 & Hm0).
  set (l0 := without tp l) in *.
  assert (Hl0 : tp ∉ l0) by (intros [? _]%elem_of_without; done).
  set (st1 := upd_tm tp (set_tmr_func w) (upd_tm tp (set_tmr_exp_time t) st0)).
  assert (Hrep1 : tq_rep st1 l0) by (by repeat (apply tq_rep_upd; [done|])).
  assert (T1 : tm st1 tp = set_tmr_func w (set_tmr_exp_time t (tm st0 tp))).
  { unfold st1; simpl. by rewrite !fn_lookup_insert. }
  assert (T2 : forall k, k <> tp -> tm st1 k = tm st0 k).
  { intros. unfold st1; simpl. by rewrite !fn_lookup_insert_ne. }
  destruct (split_first (fun k => t <? tmr_exp_time (tm st1 k)) l0) as (l1 & l2 & El & Hf & Hx).
  assert (W : t_walk (fun st k => t <? tmr_exp_time (tm st k)) fuel st1 = Done (loc_after l1) st1).
  { eapply t_walk_spec; [rewrite <- El; apply Hrep1|done|done|].
    pose proof (length_without tp l) as Hlen. fold l0 in Hlen. rewrite El, length_app in Hlen. lia. }
  unfold bind, gets, modify. rewrite E0. fold st1. rewrite W. eexists. split; [done|].
  clearbody st1.
  set (st2 := upd_tm tp (set_tmr_next (deref (t_plist st1) (loc_after l1))) st1).
  assert (Hrep2 : tq_rep st2 l0) by by apply tq_rep_upd.
  assert (Hx0 : forall k, k ∈ l0 -> exp_of st1 k = exp_of st k).
  { intros k Hk. assert (k <> tp) by set_solver. rewrite <- (He0 k) by done.
    unfold exp_of. by rewrite T2. }
  assert (Eins : insert_timer (exp_of st) tp t l0 = l1 ++ tp :: l2).
  { rewrite <- (insert_timer_ext (exp_of st1)) by done. rewrite El.
    by apply insert_timer_split. }
  destruct Hrep1 as [Hc1 Hn1 Hs1].
  assert (Texp : forall k, exp_of (t_assign (loc_after l1) (Some tp) st2) k = exp_of st1 k).
  { intros k. rewrite t_assign_exp. unfold exp_of, st2. simpl.
    rewrite fn_insert_case. case_decide; simplify_eq; done. }
  assert (Etp : exp_of st1 tp = t) by (unfold exp_of; by rewrite T1).
  unfold armed. fold l0. rewrite Eins. split_all.
  - split.
    + apply t_assign_plist. rewrite El in *.
      pose proof (assign_link (t_plist st1) l1 l2 tp Hn1 Hl0 Hc1) as HL.
      subst st2. destruct (loc_after l1); (eapply chain_ext; [|exact HL]);
        intros x _; simpl; rewrite !fn_insert_case; repeat case_decide; simplify_eq; done.
    + rewrite <- Eins. rewrite El in *. rewrite Eins. apply NoDup_app in Hn1 as (?&?&?).
      apply NoDup_app. split_all; [done| |constructor; set_solver].
      intros x Hx1 Hx2. apply elem_of_cons in Hx2 as [->|]; set_solver.
    + eapply sorted_exp; [intros; apply Texp|]. rewrite <- Eins.
      rewrite <- (insert_timer_ext (exp_of st1)) by done. by apply StronglySorted_insert.
  - by rewrite Texp.
  - destruct (t_assign_meta (loc_after l1) (Some tp) st2 tp) as [-> _].
    unfold st2. simpl. by rewrite fn_lookup_insert, T1.
  - destruct (t_assign_meta (loc_after l1) (Some tp) st2 tp) as [_ ->].
    unfold st2. simpl. rewrite fn_lookup_insert, T1. simpl. apply Hm0.
  - intros k Hk. split; [rewrite Texp; unfold exp_of; rewrite T2 by done; by apply He0|].
    destruct (t_assign_meta (loc_after l1) (Some tp) st2 k) as [M1 M2].
    unfold same_meta. rewrite M1, M2. unfold st2. simpl.
    rewrite fn_lookup_insert_ne, T2 by done. apply Hm0.
Qed.

(** ** Expiry *)

(** The timers of [l] that are due at [now]. *)
Definition due (now : Z) (st : tstate) (l : list K) : list K :=
  filter (fun k => exp_of st k <= now) l.

Lemma due_ext now st st' l :
  (forall k, k ∈ l -> exp_of st' k = exp_of st k) -> due now st' l = due now st l.
Proof.
  intros He. unfold due. induction l as [|x l IH]; [done|].
  rewrite !filter_cons, IH by set_solver.
  rewrite (He x) by set_solver. done.
Qed.

(** Unlinking the head timer and disarming it. *)
Definition pop_head (k : K) (st : tstate) : tstate :=
  upd_tm k (set_tmr_exp_time TMR_NEVER) (set_tq (tmr_next (tm st k)) st).

Lemma pop_head_rep k st l : tq_rep st (k :: l) ->
  tq_rep (pop_head k st) l /\ forall now, due now (pop_head k st) l = due now st l.
Proof.
  intros [Hc Hn Hs]. apply NoDup_cons in Hn as [Hk Hn].
  destruct Hc as [_ Hc]. apply StronglySorted_inv in Hs as [Hs _]. split.
  - apply tq_rep_upd; [done|]. split; done.
  - intros now. apply due_ext. intros x Hx. unfold exp_of. simpl.
    rewrite fn_lookup_insert_ne by set_solver. done.
Qed.

Section expiry.
Context {S : Type} (getT : S -> tstate) (putT : tstate -> S -> S).
Context (run : F -> K -> M S unit) (I : S -> list K -> Prop) (E : Prop) (now : Z).
Hypothesis get_put : forall t s, getT (putT t s) = t.
Hypothesis put_put : forall t t' s, putT t (putT t' s) = putT t s.
(** What the loop needs of a watchdog, called when its timer has been unlinked: it
    keeps the client's invariant and the queue, and makes no further timer due. *)
Hypothesis run_ok : forall k s l, I s (k :: l) -> tq_rep (getT s) (k :: l) ->
  exp_of (getT s) k <= now ->
  wpx E (run (tmr_func (tm (getT s) k)) k) (fun _ s' => exists l', I s' l' /\ tq_rep (getT s') l' /\
    (length (due now (getT s') l') <= length (due now (getT s) l))%nat)
    (putT (pop_head k (getT s)) s).

Lemma tmrs_exptimers_wp fuel s l :
  I s l -> tq_rep (getT s) l -> (length (due now (getT s) l) < fuel)%nat ->
  wpx E (tmrs_exptimers getT putT run fuel now) (fun _ s' =>
    exists l', I s' l' /\ tq_rep (getT s') l' /\
      Forall (fun k => now < exp_of (getT s') k) l') s.
Proof.
  intros HI Hrep Hfuel. unfold tmrs_exptimers.
  eapply (wpx_while E (fun n s => exists l, I s l /\ tq_rep (getT s) l /\
            n = length (due now (getT s) l))); [|exact Hfuel|by eauto].
  clear s l HI Hrep Hfuel. intros n s (l & HI & Hrep & ->). unfold exp_one.
  apply wpx_bind, wpx_gets. pose proof (tq_chain _ _ Hrep) as Hc.
  destruct l as [|k l]; [simpl in Hc; rewrite Hc; apply wpx_ret; eauto|].
  destruct Hc as [Hh _]. simpl in Hh. rewrite Hh. apply wpx_bind, wpx_gets.
  destruct (Z.leb_spec (tmr_exp_time (tm (getT s) k)) now) as [Hle|Hgt].
  - do 2 (apply wpx_bind, wpx_modify). apply wpx_bind. rewrite get_put, put_put.
    fold (pop_head k (getT s)).
    eapply wpx_conseq; [by apply (run_ok _ _ l)|].
    intros u s' (l' & HI' & Hl' & Hlen). apply wpx_ret.
    eexists; split; [|by exists l'].
    unfold due at 2. rewrite filter_cons_True by done. simpl. fold (due now (getT s) l). lia.
  - apply wpx_ret. exists (k :: l). split; [done|]. split; [done|].
    pose proof (tq_sorted _ _ Hrep) as Hs. apply StronglySorted_inv in Hs as [_ Hs].
    constructor; [done|]. eapply Forall_impl; [exact Hs|].
    unfold exp_le, exp_of in *. simpl. intros. lia.
Qed.

End expiry.

End timers.
Arguments timer_t : clear implicits.
Arguments tstate : clear implicits.
