(* ===== verification/Types.v ===== *)
(** * Data of the kernel

    The constants, the structures and the global variables of the kernel, from
    include/minix/*.h and src/kernel/*.h.  A table is a function of the slot
    number; the accessors of KState.v check the bounds. *)
From S2P Require Import Prelude PList KMonad Timers.

(** ** Constants *)

(** include/minix/com.h, include/minix/sys_config.h. *)
Definition NR_TASKS : Z := 4.
Definition NR_PROCS : Z := 256.
Definition NR_SYS_PROCS : Z := 32.
Definition MAX_NR_TASKS : Z := 1023.
Definition ANY : Z := 0x7ace.
Definition NONE : Z := 0x6ace.
Definition SELF : Z := 0x8ace.
Definition IDLE : Z := -4.
Definition CLOCK : Z := -3.
Definition SYSTEM : Z := -2.
Definition HARDWARE : Z := -1.
Definition PM_PROC_NR : Z := 0.
Definition VFS_PROC_NR : Z := 1.
Definition RS_PROC_NR : Z := 2.
Definition TTY_PROC_NR : Z := 5.
Definition VM_PROC_NR : Z := 8.
Definition INIT_PROC_NR : Z := 10.
Definition NR_BOOT_PROCS : Z := NR_TASKS + INIT_PROC_NR + 1.
Definition NOTIFY_MESSAGE : Z := 0x1000.
Definition KERNEL_CALL : Z := 0x600.
Definition NR_SYS_CALLS : Z := 51.

(** [NOTIFY_FROM(p_nr)] and [is_notify(a)]. *)
Definition NOTIFY_FROM (p_nr : Z) : Z := Z.lor NOTIFY_MESSAGE (p_nr + NR_TASKS).
Definition is_notify (a : Z) : bool := u32 (a - NOTIFY_MESSAGE) <? 0x100.

(** include/errno.h, negated in the kernel. *)
Definition OK : Z := 0.
Definition EPERM : Z := -1.
Definition ESRCH : Z := -3.
Definition EIO : Z := -5.
Definition EAGAIN : Z := -11.
Definition ENOMEM : Z := -12.
Definition EACCES : Z := -13.
Definition EFAULT : Z := -14.
Definition EBUSY : Z := -16.
Definition EINVAL : Z := -22.
Definition ENOSPC : Z := -28.
Definition EDOM : Z := -33.
Definition ELOOP : Z := -40.
Definition ENOSYS : Z := -38.
Definition ELOCKED : Z := -101.
Definition EBADCALL : Z := -102.
Definition ECALLDENIED : Z := -104.
Definition EDEADSRCDST : Z := -105.
Definition ENOTREADY : Z := -106.
Definition EBADREQUEST : Z := -107.
Definition ESRCDIED : Z := -108.
Definition EDSTDIED : Z := -109.
Definition ETRAPDENIED : Z := -110.
Definition EDONTREPLY : Z := -201.
Definition VMSUSPEND : Z := -996.

(** kernel/ipc.h. *)
Definition NON_BLOCKING : Z := 0x80.
Definition SEND : Z := 1.
Definition RECEIVE : Z := 2.
Definition SENDREC : Z := 3.
Definition NOTIFY : Z := 4.
Definition SENDNB : Z := 5.
Definition SENDA : Z := 16.

(** Runtime flags (kernel/proc.h). *)
Definition RTS_SLOT_FREE : Z := 0x01.
Definition RTS_PROC_STOP : Z := 0x02.
Definition RTS_SENDING : Z := 0x04.
Definition RTS_RECEIVING : Z := 0x08.
Definition RTS_SIGNALED : Z := 0x10.
Definition RTS_SIG_PENDING : Z := 0x20.
Definition RTS_P_STOP : Z := 0x40.
Definition RTS_NO_PRIV : Z := 0x80.
Definition RTS_NO_ENDPOINT : Z := 0x100.
Definition RTS_VMINHIBIT : Z := 0x200.
Definition RTS_PAGEFAULT : Z := 0x400.
Definition RTS_VMREQUEST : Z := 0x800.
Definition RTS_VMREQTARGET : Z := 0x1000.
Definition RTS_SYS_LOCK : Z := 0x2000.
Definition RTS_PREEMPTED : Z := 0x4000.
Definition RTS_NO_QUANTUM : Z := 0x8000.

(** Misc flags (kernel/proc.h). *)
Definition MF_REPLY_PEND : Z := 0x001.
Definition MF_VIRT_TIMER : Z := 0x002.
Definition MF_PROF_TIMER : Z := 0x004.
Definition MF_ASYNMSG : Z := 0x010.
Definition MF_FULLVM : Z := 0x020.
Definition MF_DELIVERMSG : Z := 0x040.
Definition MF_SIG_DELAY : Z := 0x080.
Definition MF_SC_ACTIVE : Z := 0x100.
Definition MF_SC_DEFER : Z := 0x200.
Definition MF_SC_TRACE : Z := 0x400.
Definition MF_FPU_INITIALIZED : Z := 0x1000.

(** Scheduling queues (kernel/proc.h). *)
Definition NR_SCHED_QUEUES : Z := 16.
Definition TASK_Q : Z := 0.
Definition MAX_USER_Q : Z := 0.
Definition USER_Q : Z := NR_SCHED_QUEUES / 2.
Definition MIN_USER_Q : Z := NR_SCHED_QUEUES - 1.

(** Privilege flags (include/minix/const.h) and ids (kernel/priv.h). *)
Definition PREEMPTIBLE : Z := 0x02.
Definition BILLABLE : Z := 0x04.
Definition DYN_PRIV_ID : Z := 0x08.
Definition SYS_PROC : Z := 0x10.
Definition CHECK_IO_PORT : Z := 0x20.
Definition CHECK_IRQ : Z := 0x40.
Definition CHECK_MEM : Z := 0x80.
Definition static_priv_id (n : Z) : Z := NR_TASKS + n.
Definition USER_PRIV_ID : Z := static_priv_id INIT_PROC_NR.
Definition NULL_PRIV_ID : Z := -1.
Definition NR_STATIC_PRIV_IDS : Z := NR_BOOT_PROCS.
Definition is_static_priv_id (id : Z) : bool := (0 <=? id) && (id <? NR_STATIC_PRIV_IDS).

(** Signals the kernel sends (include/signal.h). *)
Definition SIGTRAP : Z := 5.
Definition SIGKILL : Z := 9.
Definition SIGTERM : Z := 15.
Definition SIGVTALRM : Z := 24.
Definition SIGPROF : Z := 25.
Definition _NSIG : Z := 26.
Definition SIGKMESS : Z := 29.
Definition SIGKSIG : Z := 30.
Definition SIGNDELAY : Z := 31.

(** [sigaddset], [sigismember] (include/signal.h, the [_SYSTEM] macros). *)
Definition sigaddset (set sig : Z) : Z := Z.lor set (Z.shiftl 1 sig).
Definition sigismember (set sig : Z) : bool := Z.testbit set sig.

(** [SEND], [RECEIVE] masks of traps, and the interrupt tables. *)
Definition NR_IRQ_HOOKS : Z := 16.
Definition NR_IRQ_VECTORS : Z := 16.

(** ** Bit maps of 16-bit chunks (include/minix/bitmap.h, kernel/const.h) *)

Definition BITCHUNK_BITS : Z := 16.
Definition BITMAP_CHUNKS (nr_bits : Z) : Z := (nr_bits + BITCHUNK_BITS - 1) / BITCHUNK_BITS.
Definition NR_SYS_CHUNKS : Z := BITMAP_CHUNKS NR_SYS_PROCS.

(** A bit map is its array of chunks. *)
Abbreviation bitmap := (Z -> Z).

Definition get_sys_bit (map : bitmap) (bit : Z) : bool :=
  Z.testbit (map (bit / BITCHUNK_BITS)) (bit mod BITCHUNK_BITS).
Definition set_sys_bit (map : bitmap) (bit : Z) : bitmap :=
  <[bit / BITCHUNK_BITS := Z.setbit (map (bit / BITCHUNK_BITS)) (bit mod BITCHUNK_BITS)]> map.
Definition unset_sys_bit (map : bitmap) (bit : Z) : bitmap :=
  <[bit / BITCHUNK_BITS := Z.clearbit (map (bit / BITCHUNK_BITS)) (bit mod BITCHUNK_BITS)]> map.

Lemma chunk_split_inj a b :
  a / BITCHUNK_BITS = b / BITCHUNK_BITS -> a mod BITCHUNK_BITS = b mod BITCHUNK_BITS -> a = b.
Proof.
  intros Hd Hm. rewrite (Z.div_mod a BITCHUNK_BITS), (Z.div_mod b BITCHUNK_BITS); [|done|done].
  by rewrite Hd, Hm.
Qed.

Lemma chunk_mod_range a : 0 <= a mod BITCHUNK_BITS < 16.
Proof. apply Z.mod_pos_bound. done. Qed.

Lemma get_set_sys_bit map a b : get_sys_bit (set_sys_bit map a) b = (a =? b) || get_sys_bit map b.
Proof.
  unfold get_sys_bit, set_sys_bit. rewrite fn_insert_case.
  pose proof (chunk_mod_range a). pose proof (chunk_mod_range b).
  case_decide as Hd.
  - rewrite Z.setbit_eqb, Hd by lia.
    destruct (Z.eqb_spec a b) as [->|Hab]; [by rewrite Z.eqb_refl|].
    destruct (Z.eqb_spec (a mod BITCHUNK_BITS) (b mod BITCHUNK_BITS)) as [Hm|]; [|done].
    by destruct (Hab (chunk_split_inj _ _ Hd Hm)).
  - destruct (Z.eqb_spec a b) as [->|]; done.
Qed.

Lemma get_unset_sys_bit map a b :
  get_sys_bit (unset_sys_bit map a) b = get_sys_bit map b && negb (a =? b).
Proof.
  unfold get_sys_bit, unset_sys_bit. rewrite fn_insert_case.
  pose proof (chunk_mod_range a). pose proof (chunk_mod_range b).
  case_decide as Hd.
  - rewrite Z.clearbit_eqb, Hd.
    destruct (Z.eqb_spec a b) as [->|Hab]; [by rewrite Z.eqb_refl|].
    destruct (Z.eqb_spec (a mod BITCHUNK_BITS) (b mod BITCHUNK_BITS)) as [Hm|]; [|done].
    by destruct (Hab (chunk_split_inj _ _ Hd Hm)).
  - destruct (Z.eqb_spec a b) as [->|]; [done|]. by rewrite andb_true_r.
Qed.

#[export] Hint Rewrite get_set_sys_bit get_unset_sys_bit : minix_upd.

(** ** Endpoints (include/minix/endpoint.h)

    C division and remainder round toward zero. *)

Definition _ENDPOINT_GENERATION_SIZE : Z := MAX_NR_TASKS + SELF + 1.
Definition _ENDPOINT_MAX_GENERATION : Z := INT_MAX / _ENDPOINT_GENERATION_SIZE - 1.
Definition _ENDPOINT (g p : Z) : Z := i32 (g * _ENDPOINT_GENERATION_SIZE + p).
Definition _ENDPOINT_G (e : Z) : Z := Z.quot (e + MAX_NR_TASKS) _ENDPOINT_GENERATION_SIZE.
Definition _ENDPOINT_P (e : Z) : Z :=
  Z.rem (e + MAX_NR_TASKS) _ENDPOINT_GENERATION_SIZE - MAX_NR_TASKS.

(** The slot and generation of an endpoint are recovered from it. *)
Lemma ENDPOINT_PG g p :
  0 <= g <= _ENDPOINT_MAX_GENERATION -> - NR_TASKS <= p < NR_PROCS ->
  _ENDPOINT_P (_ENDPOINT g p) = p /\ _ENDPOINT_G (_ENDPOINT g p) = g.
Proof.
  intros Hg Hp. unfold _ENDPOINT_P, _ENDPOINT_G, _ENDPOINT.
  change _ENDPOINT_MAX_GENERATION with 58740 in Hg.
  change _ENDPOINT_GENERATION_SIZE with 36558. change MAX_NR_TASKS with 1023.
  unfold NR_TASKS, NR_PROCS in Hp. rewrite i32_id by lia.
  replace (g * 36558 + p + 1023) with ((p + 1023) + g * 36558) by lia.
  rewrite Z.rem_add, Z.quot_add by (try apply Z.mul_nonneg_nonneg; lia).
  rewrite Z.rem_small, Z.quot_small by lia. lia.
Qed.

(** ** Structures *)

(** [message] (include/minix/ipc.h): the source, the type and the union [m_u],
    kept as its seven 32-bit words so that the views of it alias as in C. *)
Record message := mk_message {
  m_source : Z;
  m_type : Z;
  m_w0 : Z;
  m_w1 : Z;
  m_w2 : Z;
  m_w3 : Z;
  m_w4 : Z;
  m_w5 : Z;
  m_w6 : Z
}.

Definition set_m_source (v : Z) (x : message) : message :=
  mk_message v (m_type x) (m_w0 x) (m_w1 x) (m_w2 x) (m_w3 x) (m_w4 x) (m_w5 x) (m_w6 x).
Definition set_m_type (v : Z) (x : message) : message :=
  mk_message (m_source x) v (m_w0 x) (m_w1 x) (m_w2 x) (m_w3 x) (m_w4 x) (m_w5 x) (m_w6 x).
Definition set_m_w0 (v : Z) (x : message) : message :=
  mk_message (m_source x) (m_type x) v (m_w1 x) (m_w2 x) (m_w3 x) (m_w4 x) (m_w5 x) (m_w6
    x).
Definition set_m_w1 (v : Z) (x : message) : message :=
  mk_message (m_source x) (m_type x) (m_w0 x) v (m_w2 x) (m_w3 x) (m_w4 x) (m_w5 x) (m_w6
    x).
Definition set_m_w2 (v : Z) (x : message) : message :=
  mk_message (m_source x) (m_type x) (m_w0 x) (m_w1 x) v (m_w3 x) (m_w4 x) (m_w5 x) (m_w6
    x).
Definition set_m_w3 (v : Z) (x : message) : message :=
  mk_message (m_source x) (m_type x) (m_w0 x) (m_w1 x) (m_w2 x) v (m_w4 x) (m_w5 x) (m_w6
    x).
Definition set_m_w4 (v : Z) (x : message) : message :=
  mk_message (m_source x) (m_type x) (m_w0 x) (m_w1 x) (m_w2 x) (m_w3 x) v (m_w5 x) (m_w6
    x).
Definition set_m_w5 (v : Z) (x : message) : message :=
  mk_message (m_source x) (m_type x) (m_w0 x) (m_w1 x) (m_w2 x) (m_w3 x) (m_w4 x) v (m_w6
    x).
Definition set_m_w6 (v : Z) (x : message) : message :=
  mk_message (m_source x) (m_type x) (m_w0 x) (m_w1 x) (m_w2 x) (m_w3 x) (m_w4 x) (m_w5 x)
    v.

(** The views of the union: [m1], [m2], [m4] and [m5] name the same words. *)
Abbreviation m1_i1 := m_w0.
Abbreviation m1_i2 := m_w1.
Abbreviation m1_i3 := m_w2.
Abbreviation m1_p1 := m_w3.
Abbreviation m2_i1 := m_w0.
Abbreviation m2_i2 := m_w1.
Abbreviation m2_i3 := m_w2.
Abbreviation m2_l1 := m_w3.
Abbreviation m2_l2 := m_w4.
Abbreviation m2_p1 := m_w5.
Abbreviation m4_l1 := m_w0.
Abbreviation m4_l2 := m_w1.
Abbreviation m4_l3 := m_w2.
Abbreviation m4_l5 := m_w4.
Abbreviation set_m2_i1 := set_m_w0.
Abbreviation set_m2_l1 := set_m_w3.
Abbreviation set_m2_l2 := set_m_w4.

Definition null_message : message := mk_message 0 0 0 0 0 0 0 0 0.

(** [struct mem_map] (include/minix/type.h): a segment in clicks. *)
Record mem_map := mk_mem_map { mem_vir : Z; mem_phys : Z; mem_len : Z }.

(** [p_vmrequest] of [struct proc]: an operation waiting for VM. *)
Record vmrequest_t := mk_vmrequest {
  vr_nextrestart : option Z;  (* next in vmrestart chain *)
  vr_nextrequestor : option Z;  (* next in vmrequest chain *)
  vr_type : Z;  (* suspended operation *)
  vr_reqmsg : message;  (* suspended request message *)
  vr_req_type : Z;
  vr_target : Z;
  vr_start : Z;  (* params.check *)
  vr_length : Z;
  vr_writeflag : Z;
  vr_map_writeflag : Z;  (* params.map *)
  vr_map_ep_s : Z;
  vr_map_vir_s : Z;
  vr_map_vir_d : Z;
  vr_map_length : Z;
  vr_vmresult : Z  (* VM result when available *)
}.

Definition set_vr_nextrestart (v : option Z) (x : vmrequest_t) : vmrequest_t :=
  mk_vmrequest v (vr_nextrequestor x) (vr_type x) (vr_reqmsg x) (vr_req_type x) (vr_target
    x) (vr_start x) (vr_length x) (vr_writeflag x) (vr_map_writeflag x) (vr_map_ep_s x)
    (vr_map_vir_s x) (vr_map_vir_d x) (vr_map_length x) (vr_vmresult x).
Definition set_vr_nextrequestor (v : option Z) (x : vmrequest_t) : vmrequest_t :=
  mk_vmrequest (vr_nextrestart x) v (vr_type x) (vr_reqmsg x) (vr_req_type x) (vr_target
    x) (vr_start x) (vr_length x) (vr_writeflag x) (vr_map_writeflag x) (vr_map_ep_s x)
    (vr_map_vir_s x) (vr_map_vir_d x) (vr_map_length x) (vr_vmresult x).
Definition set_vr_type (v : Z) (x : vmrequest_t) : vmrequest_t :=
  mk_vmrequest (vr_nextrestart x) (vr_nextrequestor x) v (vr_reqmsg x) (vr_req_type x)
    (vr_target x) (vr_start x) (vr_length x) (vr_writeflag x) (vr_map_writeflag x)
    (vr_map_ep_s x) (vr_map_vir_s x) (vr_map_vir_d x) (vr_map_length x) (vr_vmresult x).
Definition set_vr_reqmsg (v : message) (x : vmrequest_t) : vmrequest_t :=
  mk_vmrequest (vr_nextrestart x) (vr_nextrequestor x) (vr_type x) v (vr_req_type x)
    (vr_target x) (vr_start x) (vr_length x) (vr_writeflag x) (vr_map_writeflag x)
    (vr_map_ep_s x) (vr_map_vir_s x) (vr_map_vir_d x) (vr_map_length x) (vr_vmresult x).
Definition set_vr_req_type (v : Z) (x : vmrequest_t) : vmrequest_t :=
  mk_vmrequest (vr_nextrestart x) (vr_nextrequestor x) (vr_type x) (vr_reqmsg x) v
    (vr_target x) (vr_start x) (vr_length x) (vr_writeflag x) (vr_map_writeflag x)
    (vr_map_ep_s x) (vr_map_vir_s x) (vr_map_vir_d x) (vr_map_length x) (vr_vmresult x).
Definition set_vr_target (v : Z) (x : vmrequest_t) : vmrequest_t :=
  mk_vmrequest (vr_nextrestart x) (vr_nextrequestor x) (vr_type x) (vr_reqmsg x)
    (vr_req_type x) v (vr_start x) (vr_length x) (vr_writeflag x) (vr_map_writeflag x)
    (vr_map_ep_s x) (vr_map_vir_s x) (vr_map_vir_d x) (vr_map_length x) (vr_vmresult x).
Definition set_vr_start (v : Z) (x : vmrequest_t) : vmrequest_t :=
  mk_vmrequest (vr_nextrestart x) (vr_nextrequestor x) (vr_type x) (vr_reqmsg x)
    (vr_req_type x) (vr_target x) v (vr_length x) (vr_writeflag x) (vr_map_writeflag x)
    (vr_map_ep_s x) (vr_map_vir_s x) (vr_map_vir_d x) (vr_map_length x) (vr_vmresult x).
Definition set_vr_length (v : Z) (x : vmrequest_t) : vmrequest_t :=
  mk_vmrequest (vr_nextrestart x) (vr_nextrequestor x) (vr_type x) (vr_reqmsg x)
    (vr_req_type x) (vr_target x) (vr_start x) v (vr_writeflag x) (vr_map_writeflag x)
    (vr_map_ep_s x) (vr_map_vir_s x) (vr_map_vir_d x) (vr_map_length x) (vr_vmresult x).
Definition set_vr_writeflag (v : Z) (x : vmrequest_t) : vmrequest_t :=
  mk_vmrequest (vr_nextrestart x) (vr_nextrequestor x) (vr_type x) (vr_reqmsg x)
    (vr_req_type x) (vr_target x) (vr_start x) (vr_length x) v (vr_map_writeflag x)
    (vr_map_ep_s x) (vr_map_vir_s x) (vr_map_vir_d x) (vr_map_length x) (vr_vmresult x).
Definition set_vr_map_writeflag (v : Z) (x : vmrequest_t) : vmrequest_t :=
  mk_vmrequest (vr_nextrestart x) (vr_nextrequestor x) (vr_type x) (vr_reqmsg x)
    (vr_req_type x) (vr_target x) (vr_start x) (vr_length x) (vr_writeflag x) v
    (vr_map_ep_s x) (vr_map_vir_s x) (vr_map_vir_d x) (vr_map_length x) (vr_vmresult x).
Definition set_vr_map_ep_s (v : Z) (x : vmrequest_t) : vmrequest_t :=
  mk_vmrequest (vr_nextrestart x) (vr_nextrequestor x) (vr_type x) (vr_reqmsg x)
    (vr_req_type x) (vr_target x) (vr_start x) (vr_length x) (vr_writeflag x)
    (vr_map_writeflag x) v (vr_map_vir_s x) (vr_map_vir_d x) (vr_map_length x)
    (vr_vmresult x).
Definition set_vr_map_vir_s (v : Z) (x : vmrequest_t) : vmrequest_t :=
  mk_vmrequest (vr_nextrestart x) (vr_nextrequestor x) (vr_type x) (vr_reqmsg x)
    (vr_req_type x) (vr_target x) (vr_start x) (vr_length x) (vr_writeflag x)
    (vr_map_writeflag x) (vr_map_ep_s x) v (vr_map_vir_d x) (vr_map_length x) (vr_vmresult
    x).
Definition set_vr_map_vir_d (v : Z) (x : vmrequest_t) : vmrequest_t :=
  mk_vmrequest (vr_nextrestart x) (vr_nextrequestor x) (vr_type x) (vr_reqmsg x)
    (vr_req_type x) (vr_target x) (vr_start x) (vr_length x) (vr_writeflag x)
    (vr_map_writeflag x) (vr_map_ep_s x) (vr_map_vir_s x) v (vr_map_length x) (vr_vmresult
    x).
Definition set_vr_map_length (v : Z) (x : vmrequest_t) : vmrequest_t :=
  mk_vmrequest (vr_nextrestart x) (vr_nextrequestor x) (vr_type x) (vr_reqmsg x)
    (vr_req_type x) (vr_target x) (vr_start x) (vr_length x) (vr_writeflag x)
    (vr_map_writeflag x) (vr_map_ep_s x) (vr_map_vir_s x) (vr_map_vir_d x) v (vr_vmresult
    x).
Definition set_vr_vmresult (v : Z) (x : vmrequest_t) : vmrequest_t :=
  mk_vmrequest (vr_nextrestart x) (vr_nextrequestor x) (vr_type x) (vr_reqmsg x)
    (vr_req_type x) (vr_target x) (vr_start x) (vr_length x) (vr_writeflag x)
    (vr_map_writeflag x) (vr_map_ep_s x) (vr_map_vir_s x) (vr_map_vir_d x) (vr_map_length
    x) v.

(** [struct proc] (kernel/proc.h).  A pointer to a process is its slot number,
    [None] is [NIL_PROC]; the timer [p_deadline] is in the table of timers. *)
Record proc := mk_proc {
  p_nr : Z;
  p_priv : option Z;  (* index in the table of privilege structures *)
  p_rts_flags : Z;
  p_misc_flags : Z;
  p_priority : Z;
  p_max_priority : Z;
  p_ticks_left : Z;
  p_quantum_size : Z;
  p_map_T : mem_map;
  p_map_D : mem_map;
  p_map_S : mem_map;
  p_pf_virtual : Z;  (* p_pagefault *)
  p_pf_flags : Z;
  p_nextpagefault : option Z;
  p_user_time : Z;
  p_sys_time : Z;
  p_virt_left : Z;
  p_prof_left : Z;
  p_nextready : option Z;
  p_caller_q : option Z;
  p_q_link : option Z;
  p_getfrom_e : Z;
  p_sendto_e : Z;
  p_pending : Z;
  p_name : string;
  p_endpoint : Z;
  p_sendmsg : message;
  p_delivermsg : message;
  p_delivermsg_vir : Z;
  p_delivermsg_lin : Z;
  p_retreg : Z;  (* p_reg.retreg *)
  p_psw : Z;  (* p_reg.psw *)
  p_pc : Z;  (* p_reg.pc *)
  p_sp : Z;  (* p_reg.sp *)
  p_bx : Z;  (* p_reg.bx *)
  p_cx : Z;  (* p_reg.cx *)
  p_dx : Z;  (* p_reg.dx *)
  p_gs : Z;  (* p_reg.gs *)
  p_fs : Z;  (* p_reg.fs *)
  p_es : Z;  (* p_reg.es *)
  p_ds : Z;  (* p_reg.ds *)
  p_di : Z;  (* p_reg.di *)
  p_si : Z;  (* p_reg.si *)
  p_fp : Z;  (* p_reg.fp *)
  p_st : Z;  (* p_reg.st *)
  p_retadr : Z;  (* p_reg.retadr *)
  p_cs : Z;  (* p_reg.cs *)
  p_ss : Z;  (* p_reg.ss *)
  p_fpu_state : list Z;  (* the area p_fpu_state.fpu_save_area_p points to *)
  p_cr3 : Z;  (* p_seg.p_cr3 *)
  p_vmrequest : vmrequest_t
}.

Definition set_p_nr (v : Z) (x : proc) : proc :=
  mk_proc v (p_priv x) (p_rts_flags x) (p_misc_flags x) (p_priority x) (p_max_priority x)
    (p_ticks_left x) (p_quantum_size x) (p_map_T x) (p_map_D x) (p_map_S x) (p_pf_virtual
    x) (p_pf_flags x) (p_nextpagefault x) (p_user_time x) (p_sys_time x) (p_virt_left x)
    (p_prof_left x) (p_nextready x) (p_caller_q x) (p_q_link x) (p_getfrom_e x)
    (p_sendto_e x) (p_pending x) (p_name x) (p_endpoint x) (p_sendmsg x) (p_delivermsg x)
    (p_delivermsg_vir x) (p_delivermsg_lin x) (p_retreg x) (p_psw x) (p_pc x) (p_sp x)
    (p_bx x) (p_cx x) (p_dx x) (p_gs x) (p_fs x) (p_es x) (p_ds x) (p_di x) (p_si x) (p_fp
    x) (p_st x) (p_retadr x) (p_cs x) (p_ss x) (p_fpu_state x) (p_cr3 x) (p_vmrequest x).
Definition set_p_priv (v : option Z) (x : proc) : proc :=
  mk_proc (p_nr x) v (p_rts_flags x) (p_misc_flags x) (p_priority x) (p_max_priority x)
    (p_ticks_left x) (p_quantum_size x) (p_map_T x) (p_map_D x) (p_map_S x) (p_pf_virtual
    x) (p_pf_flags x) (p_nextpagefault x) (p_user_time x) (p_sys_time x) (p_virt_left x)
    (p_prof_left x) (p_nextready x) (p_caller_q x) (p_q_link x) (p_getfrom_e x)
    (p_sendto_e x) (p_pending x) (p_name x) (p_endpoint x) (p_sendmsg x) (p_delivermsg x)
    (p_delivermsg_vir x) (p_delivermsg_lin x) (p_retreg x) (p_psw x) (p_pc x) (p_sp x)
    (p_bx x) (p_cx x) (p_dx x) (p_gs x) (p_fs x) (p_es x) (p_ds x) (p_di x) (p_si x) (p_fp
    x) (p_st x) (p_retadr x) (p_cs x) (p_ss x) (p_fpu_state x) (p_cr3 x) (p_vmrequest x).
Definition set_p_rts_flags (v : Z) (x : proc) : proc :=
  mk_proc (p_nr x) (p_priv x) v (p_misc_flags x) (p_priority x) (p_max_priority x)
    (p_ticks_left x) (p_quantum_size x) (p_map_T x) (p_map_D x) (p_map_S x) (p_pf_virtual
    x) (p_pf_flags x) (p_nextpagefault x) (p_user_time x) (p_sys_time x) (p_virt_left x)
    (p_prof_left x) (p_nextready x) (p_caller_q x) (p_q_link x) (p_getfrom_e x)
    (p_sendto_e x) (p_pending x) (p_name x) (p_endpoint x) (p_sendmsg x) (p_delivermsg x)
    (p_delivermsg_vir x) (p_delivermsg_lin x) (p_retreg x) (p_psw x) (p_pc x) (p_sp x)
    (p_bx x) (p_cx x) (p_dx x) (p_gs x) (p_fs x) (p_es x) (p_ds x) (p_di x) (p_si x) (p_fp
    x) (p_st x) (p_retadr x) (p_cs x) (p_ss x) (p_fpu_state x) (p_cr3 x) (p_vmrequest x).
Definition set_p_misc_flags (v : Z) (x : proc) : proc :=
  mk_proc (p_nr x) (p_priv x) (p_rts_flags x) v (p_priority x) (p_max_priority x)
    (p_ticks_left x) (p_quantum_size x) (p_map_T x) (p_map_D x) (p_map_S x) (p_pf_virtual
    x) (p_pf_flags x) (p_nextpagefault x) (p_user_time x) (p_sys_time x) (p_virt_left x)
    (p_prof_left x) (p_nextready x) (p_caller_q x) (p_q_link x) (p_getfrom_e x)
    (p_sendto_e x) (p_pending x) (p_name x) (p_endpoint x) (p_sendmsg x) (p_delivermsg x)
    (p_delivermsg_vir x) (p_delivermsg_lin x) (p_retreg x) (p_psw x) (p_pc x) (p_sp x)
    (p_bx x) (p_cx x) (p_dx x) (p_gs x) (p_fs x) (p_es x) (p_ds x) (p_di x) (p_si x) (p_fp
    x) (p_st x) (p_retadr x) (p_cs x) (p_ss x) (p_fpu_state x) (p_cr3 x) (p_vmrequest x).
Definition set_p_priority (v : Z) (x : proc) : proc :=
  mk_proc (p_nr x) (p_priv x) (p_rts_flags x) (p_misc_flags x) v (p_max_priority x)
    (p_ticks_left x) (p_quantum_size x) (p_map_T x) (p_map_D x) (p_map_S x) (p_pf_virtual
    x) (p_pf_flags x) (p_nextpagefault x) (p_user_time x) (p_sys_time x) (p_virt_left x)
    (p_prof_left x) (p_nextready x) (p_caller_q x) (p_q_link x) (p_getfrom_e x)
    (p_sendto_e x) (p_pending x) (p_name x) (p_endpoint x) (p_sendmsg x) (p_delivermsg x)
    (p_delivermsg_vir x) (p_delivermsg_lin x) (p_retreg x) (p_psw x) (p_pc x) (p_sp x)
    (p_bx x) (p_cx x) (p_dx x) (p_gs x) (p_fs x) (p_es x) (p_ds x) (p_di x) (p_si x) (p_fp
    x) (p_st x) (p_retadr x) (p_cs x) (p_ss x) (p_fpu_state x) (p_cr3 x) (p_vmrequest x).
Definition set_p_max_priority (v : Z) (x : proc) : proc :=
  mk_proc (p_nr x) (p_priv x) (p_rts_flags x) (p_misc_flags x) (p_priority x) v
    (p_ticks_left x) (p_quantum_size x) (p_map_T x) (p_map_D x) (p_map_S x) (p_pf_virtual
    x) (p_pf_flags x) (p_nextpagefault x) (p_user_time x) (p_sys_time x) (p_virt_left x)
    (p_prof_left x) (p_nextready x) (p_caller_q x) (p_q_link x) (p_getfrom_e x)
    (p_sendto_e x) (p_pending x) (p_name x) (p_endpoint x) (p_sendmsg x) (p_delivermsg x)
    (p_delivermsg_vir x) (p_delivermsg_lin x) (p_retreg x) (p_psw x) (p_pc x) (p_sp x)
    (p_bx x) (p_cx x) (p_dx x) (p_gs x) (p_fs x) (p_es x) (p_ds x) (p_di x) (p_si x) (p_fp
    x) (p_st x) (p_retadr x) (p_cs x) (p_ss x) (p_fpu_state x) (p_cr3 x) (p_vmrequest x).
Definition set_p_ticks_left (v : Z) (x : proc) : proc :=
  mk_proc (p_nr x) (p_priv x) (p_rts_flags x) (p_misc_flags x) (p_priority x)
    (p_max_priority x) v (p_quantum_size x) (p_map_T x) (p_map_D x) (p_map_S x)
    (p_pf_virtual x) (p_pf_flags x) (p_nextpagefault x) (p_user_time x) (p_sys_time x)
    (p_virt_left x) (p_prof_left x) (p_nextready x) (p_caller_q x) (p_q_link x)
    (p_getfrom_e x) (p_sendto_e x) (p_pending x) (p_name x) (p_endpoint x) (p_sendmsg x)
    (p_delivermsg x) (p_delivermsg_vir x) (p_delivermsg_lin x) (p_retreg x) (p_psw x)
    (p_pc x) (p_sp x) (p_bx x) (p_cx x) (p_dx x) (p_gs x) (p_fs x) (p_es x) (p_ds x) (p_di
    x) (p_si x) (p_fp x) (p_st x) (p_retadr x) (p_cs x) (p_ss x) (p_fpu_state x) (p_cr3 x)
    (p_vmrequest x).
Definition set_p_quantum_size (v : Z) (x : proc) : proc :=
  mk_proc (p_nr x) (p_priv x) (p_rts_flags x) (p_misc_flags x) (p_priority x)
    (p_max_priority x) (p_ticks_left x) v (p_map_T x) (p_map_D x) (p_map_S x)
    (p_pf_virtual x) (p_pf_flags x) (p_nextpagefault x) (p_user_time x) (p_sys_time x)
    (p_virt_left x) (p_prof_left x) (p_nextready x) (p_caller_q x) (p_q_link x)
    (p_getfrom_e x) (p_sendto_e x) (p_pending x) (p_name x) (p_endpoint x) (p_sendmsg x)
    (p_delivermsg x) (p_delivermsg_vir x) (p_delivermsg_lin x) (p_retreg x) (p_psw x)
    (p_pc x) (p_sp x) (p_bx x) (p_cx x) (p_dx x) (p_gs x) (p_fs x) (p_es x) (p_ds x) (p_di
    x) (p_si x) (p_fp x) (p_st x) (p_retadr x) (p_cs x) (p_ss x) (p_fpu_state x) (p_cr3 x)
    (p_vmrequest x).
Definition set_p_map_T (v : mem_map) (x : proc) : proc :=
  mk_proc (p_nr x) (p_priv x) (p_rts_flags x) (p_misc_flags x) (p_priority x)
    (p_max_priority x) (p_ticks_left x) (p_quantum_size x) v (p_map_D x) (p_map_S x)
    (p_pf_virtual x) (p_pf_flags x) (p_nextpagefault x) (p_user_time x) (p_sys_time x)
    (p_virt_left x) (p_prof_left x) (p_nextready x) (p_caller_q x) (p_q_link x)
    (p_getfrom_e x) (p_sendto_e x) (p_pending x) (p_name x) (p_endpoint x) (p_sendmsg x)
    (p_delivermsg x) (p_delivermsg_vir x) (p_delivermsg_lin x) (p_retreg x) (p_psw x)
    (p_pc x) (p_sp x) (p_bx x) (p_cx x) (p_dx x) (p_gs x) (p_fs x) (p_es x) (p_ds x) (p_di
    x) (p_si x) (p_fp x) (p_st x) (p_retadr x) (p_cs x) (p_ss x) (p_fpu_state x) (p_cr3 x)
    (p_vmrequest x).
Definition set_p_map_D (v : mem_map) (x : proc) : proc :=
  mk_proc (p_nr x) (p_priv x) (p_rts_flags x) (p_misc_flags x) (p_priority x)
    (p_max_priority x) (p_ticks_left x) (p_quantum_size x) (p_map_T x) v (p_map_S x)
    (p_pf_virtual x) (p_pf_flags x) (p_nextpagefault x) (p_user_time x) (p_sys_time x)
    (p_virt_left x) (p_prof_left x) (p_nextready x) (p_caller_q x) (p_q_link x)
    (p_getfrom_e x) (p_sendto_e x) (p_pending x) (p_name x) (p_endpoint x) (p_sendmsg x)
    (p_delivermsg x) (p_delivermsg_vir x) (p_delivermsg_lin x) (p_retreg x) (p_psw x)
    (p_pc x) (p_sp x) (p_bx x) (p_cx x) (p_dx x) (p_gs x) (p_fs x) (p_es x) (p_ds x) (p_di
    x) (p_si x) (p_fp x) (p_st x) (p_retadr x) (p_cs x) (p_ss x) (p_fpu_state x) (p_cr3 x)
    (p_vmrequest x).
Definition set_p_map_S (v : mem_map) (x : proc) : proc :=
  mk_proc (p_nr x) (p_priv x) (p_rts_flags x) (p_misc_flags x) (p_priority x)
    (p_max_priority x) (p_ticks_left x) (p_quantum_size x) (p_map_T x) (p_map_D x) v
    (p_pf_virtual x) (p_pf_flags x) (p_nextpagefault x) (p_user_time x) (p_sys_time x)
    (p_virt_left x) (p_prof_left x) (p_nextready x) (p_caller_q x) (p_q_link x)
    (p_getfrom_e x) (p_sendto_e x) (p_pending x) (p_name x) (p_endpoint x) (p_sendmsg x)
    (p_delivermsg x) (p_delivermsg_vir x) (p_delivermsg_lin x) (p_retreg x) (p_psw x)
    (p_pc x) (p_sp x) (p_bx x) (p_cx x) (p_dx x) (p_gs x) (p_fs x) (p_es x) (p_ds x) (p_di
    x) (p_si x) (p_fp x) (p_st x) (p_retadr x) (p_cs x) (p_ss x) (p_fpu_state x) (p_cr3 x)
    (p_vmrequest x).
Definition set_p_pf_virtual (v : Z) (x : proc) : proc :=
  mk_proc (p_nr x) (p_priv x) (p_rts_flags x) (p_misc_flags x) (p_priority x)
    (p_max_priority x) (p_ticks_left x) (p_quantum_size x) (p_map_T x) (p_map_D x)
    (p_map_S x) v (p_pf_flags x) (p_nextpagefault x) (p_user_time x) (p_sys_time x)
    (p_virt_left x) (p_prof_left x) (p_nextready x) (p_caller_q x) (p_q_link x)
    (p_getfrom_e x) (p_sendto_e x) (p_pending x) (p_name x) (p_endpoint x) (p_sendmsg x)
    (p_delivermsg x) (p_delivermsg_vir x) (p_delivermsg_lin x) (p_retreg x) (p_psw x)
    (p_pc x) (p_sp x) (p_bx x) (p_cx x) (p_dx x) (p_gs x) (p_fs x) (p_es x) (p_ds x) (p_di
    x) (p_si x) (p_fp x) (p_st x) (p_retadr x) (p_cs x) (p_ss x) (p_fpu_state x) (p_cr3 x)
    (p_vmrequest x).
Definition set_p_pf_flags (v : Z) (x : proc) : proc :=
  mk_proc (p_nr x) (p_priv x) (p_rts_flags x) (p_misc_flags x) (p_priority x)
    (p_max_priority x) (p_ticks_left x) (p_quantum_size x) (p_map_T x) (p_map_D x)
    (p_map_S x) (p_pf_virtual x) v (p_nextpagefault x) (p_user_time x) (p_sys_time x)
    (p_virt_left x) (p_prof_left x) (p_nextready x) (p_caller_q x) (p_q_link x)
    (p_getfrom_e x) (p_sendto_e x) (p_pending x) (p_name x) (p_endpoint x) (p_sendmsg x)
    (p_delivermsg x) (p_delivermsg_vir x) (p_delivermsg_lin x) (p_retreg x) (p_psw x)
    (p_pc x) (p_sp x) (p_bx x) (p_cx x) (p_dx x) (p_gs x) (p_fs x) (p_es x) (p_ds x) (p_di
    x) (p_si x) (p_fp x) (p_st x) (p_retadr x) (p_cs x) (p_ss x) (p_fpu_state x) (p_cr3 x)
    (p_vmrequest x).
Definition set_p_nextpagefault (v : option Z) (x : proc) : proc :=
  mk_proc (p_nr x) (p_priv x) (p_rts_flags x) (p_misc_flags x) (p_priority x)
    (p_max_priority x) (p_ticks_left x) (p_quantum_size x) (p_map_T x) (p_map_D x)
    (p_map_S x) (p_pf_virtual x) (p_pf_flags x) v (p_user_time x) (p_sys_time x)
    (p_virt_left x) (p_prof_left x) (p_nextready x) (p_caller_q x) (p_q_link x)
    (p_getfrom_e x) (p_sendto_e x) (p_pending x) (p_name x) (p_endpoint x) (p_sendmsg x)
    (p_delivermsg x) (p_delivermsg_vir x) (p_delivermsg_lin x) (p_retreg x) (p_psw x)
    (p_pc x) (p_sp x) (p_bx x) (p_cx x) (p_dx x) (p_gs x) (p_fs x) (p_es x) (p_ds x) (p_di
    x) (p_si x) (p_fp x) (p_st x) (p_retadr x) (p_cs x) (p_ss x) (p_fpu_state x) (p_cr3 x)
    (p_vmrequest x).
Definition set_p_user_time (v : Z) (x : proc) : proc :=
  mk_proc (p_nr x) (p_priv x) (p_rts_flags x) (p_misc_flags x) (p_priority x)
    (p_max_priority x) (p_ticks_left x) (p_quantum_size x) (p_map_T x) (p_map_D x)
    (p_map_S x) (p_pf_virtual x) (p_pf_flags x) (p_nextpagefault x) v (p_sys_time x)
    (p_virt_left x) (p_prof_left x) (p_nextready x) (p_caller_q x) (p_q_link x)
    (p_getfrom_e x) (p_sendto_e x) (p_pending x) (p_name x) (p_endpoint x) (p_sendmsg x)
    (p_delivermsg x) (p_delivermsg_vir x) (p_delivermsg_lin x) (p_retreg x) (p_psw x)
    (p_pc x) (p_sp x) (p_bx x) (p_cx x) (p_dx x) (p_gs x) (p_fs x) (p_es x) (p_ds x) (p_di
    x) (p_si x) (p_fp x) (p_st x) (p_retadr x) (p_cs x) (p_ss x) (p_fpu_state x) (p_cr3 x)
    (p_vmrequest x).
Definition set_p_sys_time (v : Z) (x : proc) : proc :=
  mk_proc (p_nr x) (p_priv x) (p_rts_flags x) (p_misc_flags x) (p_priority x)
    (p_max_priority x) (p_ticks_left x) (p_quantum_size x) (p_map_T x) (p_map_D x)
    (p_map_S x) (p_pf_virtual x) (p_pf_flags x) (p_nextpagefault x) (p_user_time x) v
    (p_virt_left x) (p_prof_left x) (p_nextready x) (p_caller_q x) (p_q_link x)
    (p_getfrom_e x) (p_sendto_e x) (p_pending x) (p_name x) (p_endpoint x) (p_sendmsg x)
    (p_delivermsg x) (p_delivermsg_vir x) (p_delivermsg_lin x) (p_retreg x) (p_psw x)
    (p_pc x) (p_sp x) (p_bx x) (p_cx x) (p_dx x) (p_gs x) (p_fs x) (p_es x) (p_ds x) (p_di
    x) (p_si x) (p_fp x) (p_st x) (p_retadr x) (p_cs x) (p_ss x) (p_fpu_state x) (p_cr3 x)
    (p_vmrequest x).
Definition set_p_virt_left (v : Z) (x : proc) : proc :=
  mk_proc (p_nr x) (p_priv x) (p_rts_flags x) (p_misc_flags x) (p_priority x)
    (p_max_priority x) (p_ticks_left x) (p_quantum_size x) (p_map_T x) (p_map_D x)
    (p_map_S x) (p_pf_virtual x) (p_pf_flags x) (p_nextpagefault x) (p_user_time x)
    (p_sys_time x) v (p_prof_left x) (p_nextready x) (p_caller_q x) (p_q_link x)
    (p_getfrom_e x) (p_sendto_e x) (p_pending x) (p_name x) (p_endpoint x) (p_sendmsg x)
    (p_delivermsg x) (p_delivermsg_vir x) (p_delivermsg_lin x) (p_retreg x) (p_psw x)
    (p_pc x) (p_sp x) (p_bx x) (p_cx x) (p_dx x) (p_gs x) (p_fs x) (p_es x) (p_ds x) (p_di
    x) (p_si x) (p_fp x) (p_st x) (p_retadr x) (p_cs x) (p_ss x) (p_fpu_state x) (p_cr3 x)
    (p_vmrequest x).
Definition set_p_prof_left (v : Z) (x : proc) : proc :=
  mk_proc (p_nr x) (p_priv x) (p_rts_flags x) (p_misc_flags x) (p_priority x)
    (p_max_priority x) (p_ticks_left x) (p_quantum_size x) (p_map_T x) (p_map_D x)
    (p_map_S x) (p_pf_virtual x) (p_pf_flags x) (p_nextpagefault x) (p_user_time x)
    (p_sys_time x) (p_virt_left x) v (p_nextready x) (p_caller_q x) (p_q_link x)
    (p_getfrom_e x) (p_sendto_e x) (p_pending x) (p_name x) (p_endpoint x) (p_sendmsg x)
    (p_delivermsg x) (p_delivermsg_vir x) (p_delivermsg_lin x) (p_retreg x) (p_psw x)
    (p_pc x) (p_sp x) (p_bx x) (p_cx x) (p_dx x) (p_gs x) (p_fs x) (p_es x) (p_ds x) (p_di
    x) (p_si x) (p_fp x) (p_st x) (p_retadr x) (p_cs x) (p_ss x) (p_fpu_state x) (p_cr3 x)
    (p_vmrequest x).
Definition set_p_nextready (v : option Z) (x : proc) : proc :=
  mk_proc (p_nr x) (p_priv x) (p_rts_flags x) (p_misc_flags x) (p_priority x)
    (p_max_priority x) (p_ticks_left x) (p_quantum_size x) (p_map_T x) (p_map_D x)
    (p_map_S x) (p_pf_virtual x) (p_pf_flags x) (p_nextpagefault x) (p_user_time x)
    (p_sys_time x) (p_virt_left x) (p_prof_left x) v (p_caller_q x) (p_q_link x)
    (p_getfrom_e x) (p_sendto_e x) (p_pending x) (p_name x) (p_endpoint x) (p_sendmsg x)
    (p_delivermsg x) (p_delivermsg_vir x) (p_delivermsg_lin x) (p_retreg x) (p_psw x)
    (p_pc x) (p_sp x) (p_bx x) (p_cx x) (p_dx x) (p_gs x) (p_fs x) (p_es x) (p_ds x) (p_di
    x) (p_si x) (p_fp x) (p_st x) (p_retadr x) (p_cs x) (p_ss x) (p_fpu_state x) (p_cr3 x)
    (p_vmrequest x).
Definition set_p_caller_q (v : option Z) (x : proc) : proc :=
  mk_proc (p_nr x) (p_priv x) (p_rts_flags x) (p_misc_flags x) (p_priority x)
    (p_max_priority x) (p_ticks_left x) (p_quantum_size x) (p_map_T x) (p_map_D x)
    (p_map_S x) (p_pf_virtual x) (p_pf_flags x) (p_nextpagefault x) (p_user_time x)
    (p_sys_time x) (p_virt_left x) (p_prof_left x) (p_nextready x) v (p_q_link x)
    (p_getfrom_e x) (p_sendto_e x) (p_pending x) (p_name x) (p_endpoint x) (p_sendmsg x)
    (p_delivermsg x) (p_delivermsg_vir x) (p_delivermsg_lin x) (p_retreg x) (p_psw x)
    (p_pc x) (p_sp x) (p_bx x) (p_cx x) (p_dx x) (p_gs x) (p_fs x) (p_es x) (p_ds x) (p_di
    x) (p_si x) (p_fp x) (p_st x) (p_retadr x) (p_cs x) (p_ss x) (p_fpu_state x) (p_cr3 x)
    (p_vmrequest x).
Definition set_p_q_link (v : option Z) (x : proc) : proc :=
  mk_proc (p_nr x) (p_priv x) (p_rts_flags x) (p_misc_flags x) (p_priority x)
    (p_max_priority x) (p_ticks_left x) (p_quantum_size x) (p_map_T x) (p_map_D x)
    (p_map_S x) (p_pf_virtual x) (p_pf_flags x) (p_nextpagefault x) (p_user_time x)
    (p_sys_time x) (p_virt_left x) (p_prof_left x) (p_nextready x) (p_caller_q x) v
    (p_getfrom_e x) (p_sendto_e x) (p_pending x) (p_name x) (p_endpoint x) (p_sendmsg x)
    (p_delivermsg x) (p_delivermsg_vir x) (p_delivermsg_lin x) (p_retreg x) (p_psw x)
    (p_pc x) (p_sp x) (p_bx x) (p_cx x) (p_dx x) (p_gs x) (p_fs x) (p_es x) (p_ds x) (p_di
    x) (p_si x) (p_fp x) (p_st x) (p_retadr x) (p_cs x) (p_ss x) (p_fpu_state x) (p_cr3 x)
    (p_vmrequest x).
Definition set_p_getfrom_e (v : Z) (x : proc) : proc :=
  mk_proc (p_nr x) (p_priv x) (p_rts_flags x) (p_misc_flags x) (p_priority x)
    (p_max_priority x) (p_ticks_left x) (p_quantum_size x) (p_map_T x) (p_map_D x)
    (p_map_S x) (p_pf_virtual x) (p_pf_flags x) (p_nextpagefault x) (p_user_time x)
    (p_sys_time x) (p_virt_left x) (p_prof_left x) (p_nextready x) (p_caller_q x)
    (p_q_link x) v (p_sendto_e x) (p_pending x) (p_name x) (p_endpoint x) (p_sendmsg x)
    (p_delivermsg x) (p_delivermsg_vir x) (p_delivermsg_lin x) (p_retreg x) (p_psw x)
    (p_pc x) (p_sp x) (p_bx x) (p_cx x) (p_dx x) (p_gs x) (p_fs x) (p_es x) (p_ds x) (p_di
    x) (p_si x) (p_fp x) (p_st x) (p_retadr x) (p_cs x) (p_ss x) (p_fpu_state x) (p_cr3 x)
    (p_vmrequest x).
Definition set_p_sendto_e (v : Z) (x : proc) : proc :=
  mk_proc (p_nr x) (p_priv x) (p_rts_flags x) (p_misc_flags x) (p_priority x)
    (p_max_priority x) (p_ticks_left x) (p_quantum_size x) (p_map_T x) (p_map_D x)
    (p_map_S x) (p_pf_virtual x) (p_pf_flags x) (p_nextpagefault x) (p_user_time x)
    (p_sys_time x) (p_virt_left x) (p_prof_left x) (p_nextready x) (p_caller_q x)
    (p_q_link x) (p_getfrom_e x) v (p_pending x) (p_name x) (p_endpoint x) (p_sendmsg x)
    (p_delivermsg x) (p_delivermsg_vir x) (p_delivermsg_lin x) (p_retreg x) (p_psw x)
    (p_pc x) (p_sp x) (p_bx x) (p_cx x) (p_dx x) (p_gs x) (p_fs x) (p_es x) (p_ds x) (p_di
    x) (p_si x) (p_fp x) (p_st x) (p_retadr x) (p_cs x) (p_ss x) (p_fpu_state x) (p_cr3 x)
    (p_vmrequest x).
Definition set_p_pending (v : Z) (x : proc) : proc :=
  mk_proc (p_nr x) (p_priv x) (p_rts_flags x) (p_misc_flags x) (p_priority x)
    (p_max_priority x) (p_ticks_left x) (p_quantum_size x) (p_map_T x) (p_map_D x)
    (p_map_S x) (p_pf_virtual x) (p_pf_flags x) (p_nextpagefault x) (p_user_time x)
    (p_sys_time x) (p_virt_left x) (p_prof_left x) (p_nextready x) (p_caller_q x)
    (p_q_link x) (p_getfrom_e x) (p_sendto_e x) v (p_name x) (p_endpoint x) (p_sendmsg x)
    (p_delivermsg x) (p_delivermsg_vir x) (p_delivermsg_lin x) (p_retreg x) (p_psw x)
    (p_pc x) (p_sp x) (p_bx x) (p_cx x) (p_dx x) (p_gs x) (p_fs x) (p_es x) (p_ds x) (p_di
    x) (p_si x) (p_fp x) (p_st x) (p_retadr x) (p_cs x) (p_ss x) (p_fpu_state x) (p_cr3 x)
    (p_vmrequest x).
Definition set_p_name (v : string) (x : proc) : proc :=
  mk_proc (p_nr x) (p_priv x) (p_rts_flags x) (p_misc_flags x) (p_priority x)
    (p_max_priority x) (p_ticks_left x) (p_quantum_size x) (p_map_T x) (p_map_D x)
    (p_map_S x) (p_pf_virtual x) (p_pf_flags x) (p_nextpagefault x) (p_user_time x)
    (p_sys_time x) (p_virt_left x) (p_prof_left x) (p_nextready x) (p_caller_q x)
    (p_q_link x) (p_getfrom_e x) (p_sendto_e x) (p_pending x) v (p_endpoint x) (p_sendmsg
    x) (p_delivermsg x) (p_delivermsg_vir x) (p_delivermsg_lin x) (p_retreg x) (p_psw x)
    (p_pc x) (p_sp x) (p_bx x) (p_cx x) (p_dx x) (p_gs x) (p_fs x) (p_es x) (p_ds x) (p_di
    x) (p_si x) (p_fp x) (p_st x) (p_retadr x) (p_cs x) (p_ss x) (p_fpu_state x) (p_cr3 x)
    (p_vmrequest x).
Definition set_p_endpoint (v : Z) (x : proc) : proc :=
  mk_proc (p_nr x) (p_priv x) (p_rts_flags x) (p_misc_flags x) (p_priority x)
    (p_max_priority x) (p_ticks_left x) (p_quantum_size x) (p_map_T x) (p_map_D x)
    (p_map_S x) (p_pf_virtual x) (p_pf_flags x) (p_nextpagefault x) (p_user_time x)
    (p_sys_time x) (p_virt_left x) (p_prof_left x) (p_nextready x) (p_caller_q x)
    (p_q_link x) (p_getfrom_e x) (p_sendto_e x) (p_pending x) (p_name x) v (p_sendmsg x)
    (p_delivermsg x) (p_delivermsg_vir x) (p_delivermsg_lin x) (p_retreg x) (p_psw x)
    (p_pc x) (p_sp x) (p_bx x) (p_cx x) (p_dx x) (p_gs x) (p_fs x) (p_es x) (p_ds x) (p_di
    x) (p_si x) (p_fp x) (p_st x) (p_retadr x) (p_cs x) (p_ss x) (p_fpu_state x) (p_cr3 x)
    (p_vmrequest x).
Definition set_p_sendmsg (v : message) (x : proc) : proc :=
  mk_proc (p_nr x) (p_priv x) (p_rts_flags x) (p_misc_flags x) (p_priority x)
    (p_max_priority x) (p_ticks_left x) (p_quantum_size x) (p_map_T x) (p_map_D x)
    (p_map_S x) (p_pf_virtual x) (p_pf_flags x) (p_nextpagefault x) (p_user_time x)
    (p_sys_time x) (p_virt_left x) (p_prof_left x) (p_nextready x) (p_caller_q x)
    (p_q_link x) (p_getfrom_e x) (p_sendto_e x) (p_pending x) (p_name x) (p_endpoint x) v
    (p_delivermsg x) (p_delivermsg_vir x) (p_delivermsg_lin x) (p_retreg x) (p_psw x)
    (p_pc x) (p_sp x) (p_bx x) (p_cx x) (p_dx x) (p_gs x) (p_fs x) (p_es x) (p_ds x) (p_di
    x) (p_si x) (p_fp x) (p_st x) (p_retadr x) (p_cs x) (p_ss x) (p_fpu_state x) (p_cr3 x)
    (p_vmrequest x).
Definition set_p_delivermsg (v : message) (x : proc) : proc :=
  mk_proc (p_nr x) (p_priv x) (p_rts_flags x) (p_misc_flags x) (p_priority x)
    (p_max_priority x) (p_ticks_left x) (p_quantum_size x) (p_map_T x) (p_map_D x)
    (p_map_S x) (p_pf_virtual x) (p_pf_flags x) (p_nextpagefault x) (p_user_time x)
    (p_sys_time x) (p_virt_left x) (p_prof_left x) (p_nextready x) (p_caller_q x)
    (p_q_link x) (p_getfrom_e x) (p_sendto_e x) (p_pending x) (p_name x) (p_endpoint x)
    (p_sendmsg x) v (p_delivermsg_vir x) (p_delivermsg_lin x) (p_retreg x) (p_psw x) (p_pc
    x) (p_sp x) (p_bx x) (p_cx x) (p_dx x) (p_gs x) (p_fs x) (p_es x) (p_ds x) (p_di x)
    (p_si x) (p_fp x) (p_st x) (p_retadr x) (p_cs x) (p_ss x) (p_fpu_state x) (p_cr3 x)
    (p_vmrequest x).
Definition set_p_delivermsg_vir (v : Z) (x : proc) : proc :=
  mk_proc (p_nr x) (p_priv x) (p_rts_flags x) (p_misc_flags x) (p_priority x)
    (p_max_priority x) (p_ticks_left x) (p_quantum_size x) (p_map_T x) (p_map_D x)
    (p_map_S x) (p_pf_virtual x) (p_pf_flags x) (p_nextpagefault x) (p_user_time x)
    (p_sys_time x) (p_virt_left x) (p_prof_left x) (p_nextready x) (p_caller_q x)
    (p_q_link x) (p_getfrom_e x) (p_sendto_e x) (p_pending x) (p_name x) (p_endpoint x)
    (p_sendmsg x) (p_delivermsg x) v (p_delivermsg_lin x) (p_retreg x) (p_psw x) (p_pc x)
    (p_sp x) (p_bx x) (p_cx x) (p_dx x) (p_gs x) (p_fs x) (p_es x) (p_ds x) (p_di x) (p_si
    x) (p_fp x) (p_st x) (p_retadr x) (p_cs x) (p_ss x) (p_fpu_state x) (p_cr3 x)
    (p_vmrequest x).
Definition set_p_delivermsg_lin (v : Z) (x : proc) : proc :=
  mk_proc (p_nr x) (p_priv x) (p_rts_flags x) (p_misc_flags x) (p_priority x)
    (p_max_priority x) (p_ticks_left x) (p_quantum_size x) (p_map_T x) (p_map_D x)
    (p_map_S x) (p_pf_virtual x) (p_pf_flags x) (p_nextpagefault x) (p_user_time x)
    (p_sys_time x) (p_virt_left x) (p_prof_left x) (p_nextready x) (p_caller_q x)
    (p_q_link x) (p_getfrom_e x) (p_sendto_e x) (p_pending x) (p_name x) (p_endpoint x)
    (p_sendmsg x) (p_delivermsg x) (p_delivermsg_vir x) v (p_retreg x) (p_psw x) (p_pc x)
    (p_sp x) (p_bx x) (p_cx x) (p_dx x) (p_gs x) (p_fs x) (p_es x) (p_ds x) (p_di x) (p_si
    x) (p_fp x) (p_st x) (p_retadr x) (p_cs x) (p_ss x) (p_fpu_state x) (p_cr3 x)
    (p_vmrequest x).
Definition set_p_retreg (v : Z) (x : proc) : proc :=
  mk_proc (p_nr x) (p_priv x) (p_rts_flags x) (p_misc_flags x) (p_priority x)
    (p_max_priority x) (p_ticks_left x) (p_quantum_size x) (p_map_T x) (p_map_D x)
    (p_map_S x) (p_pf_virtual x) (p_pf_flags x) (p_nextpagefault x) (p_user_time x)
    (p_sys_time x) (p_virt_left x) (p_prof_left x) (p_nextready x) (p_caller_q x)
    (p_q_link x) (p_getfrom_e x) (p_sendto_e x) (p_pending x) (p_name x) (p_endpoint x)
    (p_sendmsg x) (p_delivermsg x) (p_delivermsg_vir x) (p_delivermsg_lin x) v (p_psw x)
    (p_pc x) (p_sp x) (p_bx x) (p_cx x) (p_dx x) (p_gs x) (p_fs x) (p_es x) (p_ds x) (p_di
    x) (p_si x) (p_fp x) (p_st x) (p_retadr x) (p_cs x) (p_ss x) (p_fpu_state x) (p_cr3 x)
    (p_vmrequest x).
Definition set_p_psw (v : Z) (x : proc) : proc :=
  mk_proc (p_nr x) (p_priv x) (p_rts_flags x) (p_misc_flags x) (p_priority x)
    (p_max_priority x) (p_ticks_left x) (p_quantum_size x) (p_map_T x) (p_map_D x)
    (p_map_S x) (p_pf_virtual x) (p_pf_flags x) (p_nextpagefault x) (p_user_time x)
    (p_sys_time x) (p_virt_left x) (p_prof_left x) (p_nextready x) (p_caller_q x)
    (p_q_link x) (p_getfrom_e x) (p_sendto_e x) (p_pending x) (p_name x) (p_endpoint x)
    (p_sendmsg x) (p_delivermsg x) (p_delivermsg_vir x) (p_delivermsg_lin x) (p_retreg x)
    v (p_pc x) (p_sp x) (p_bx x) (p_cx x) (p_dx x) (p_gs x) (p_fs x) (p_es x) (p_ds x)
    (p_di x) (p_si x) (p_fp x) (p_st x) (p_retadr x) (p_cs x) (p_ss x) (p_fpu_state x)
    (p_cr3 x) (p_vmrequest x).
Definition set_p_pc (v : Z) (x : proc) : proc :=
  mk_proc (p_nr x) (p_priv x) (p_rts_flags x) (p_misc_flags x) (p_priority x)
    (p_max_priority x) (p_ticks_left x) (p_quantum_size x) (p_map_T x) (p_map_D x)
    (p_map_S x) (p_pf_virtual x) (p_pf_flags x) (p_nextpagefault x) (p_user_time x)
    (p_sys_time x) (p_virt_left x) (p_prof_left x) (p_nextready x) (p_caller_q x)
    (p_q_link x) (p_getfrom_e x) (p_sendto_e x) (p_pending x) (p_name x) (p_endpoint x)
    (p_sendmsg x) (p_delivermsg x) (p_delivermsg_vir x) (p_delivermsg_lin x) (p_retreg x)
    (p_psw x) v (p_sp x) (p_bx x) (p_cx x) (p_dx x) (p_gs x) (p_fs x) (p_es x) (p_ds x)
    (p_di x) (p_si x) (p_fp x) (p_st x) (p_retadr x) (p_cs x) (p_ss x) (p_fpu_state x)
    (p_cr3 x) (p_vmrequest x).
Definition set_p_sp (v : Z) (x : proc) : proc :=
  mk_proc (p_nr x) (p_priv x) (p_rts_flags x) (p_misc_flags x) (p_priority x)
    (p_max_priority x) (p_ticks_left x) (p_quantum_size x) (p_map_T x) (p_map_D x)
    (p_map_S x) (p_pf_virtual x) (p_pf_flags x) (p_nextpagefault x) (p_user_time x)
    (p_sys_time x) (p_virt_left x) (p_prof_left x) (p_nextready x) (p_caller_q x)
    (p_q_link x) (p_getfrom_e x) (p_sendto_e x) (p_pending x) (p_name x) (p_endpoint x)
    (p_sendmsg x) (p_delivermsg x) (p_delivermsg_vir x) (p_delivermsg_lin x) (p_retreg x)
    (p_psw x) (p_pc x) v (p_bx x) (p_cx x) (p_dx x) (p_gs x) (p_fs x) (p_es x) (p_ds x)
    (p_di x) (p_si x) (p_fp x) (p_st x) (p_retadr x) (p_cs x) (p_ss x) (p_fpu_state x)
    (p_cr3 x) (p_vmrequest x).
Definition set_p_bx (v : Z) (x : proc) : proc :=
  mk_proc (p_nr x) (p_priv x) (p_rts_flags x) (p_misc_flags x) (p_priority x)
    (p_max_priority x) (p_ticks_left x) (p_quantum_size x) (p_map_T x) (p_map_D x)
    (p_map_S x) (p_pf_virtual x) (p_pf_flags x) (p_nextpagefault x) (p_user_time x)
    (p_sys_time x) (p_virt_left x) (p_prof_left x) (p_nextready x) (p_caller_q x)
    (p_q_link x) (p_getfrom_e x) (p_sendto_e x) (p_pending x) (p_name x) (p_endpoint x)
    (p_sendmsg x) (p_delivermsg x) (p_delivermsg_vir x) (p_delivermsg_lin x) (p_retreg x)
    (p_psw x) (p_pc x) (p_sp x) v (p_cx x) (p_dx x) (p_gs x) (p_fs x) (p_es x) (p_ds x)
    (p_di x) (p_si x) (p_fp x) (p_st x) (p_retadr x) (p_cs x) (p_ss x) (p_fpu_state x)
    (p_cr3 x) (p_vmrequest x).
Definition set_p_cx (v : Z) (x : proc) : proc :=
  mk_proc (p_nr x) (p_priv x) (p_rts_flags x) (p_misc_flags x) (p_priority x)
    (p_max_priority x) (p_ticks_left x) (p_quantum_size x) (p_map_T x) (p_map_D x)
    (p_map_S x) (p_pf_virtual x) (p_pf_flags x) (p_nextpagefault x) (p_user_time x)
    (p_sys_time x) (p_virt_left x) (p_prof_left x) (p_nextready x) (p_caller_q x)
    (p_q_link x) (p_getfrom_e x) (p_sendto_e x) (p_pending x) (p_name x) (p_endpoint x)
    (p_sendmsg x) (p_delivermsg x) (p_delivermsg_vir x) (p_delivermsg_lin x) (p_retreg x)
    (p_psw x) (p_pc x) (p_sp x) (p_bx x) v (p_dx x) (p_gs x) (p_fs x) (p_es x) (p_ds x)
    (p_di x) (p_si x) (p_fp x) (p_st x) (p_retadr x) (p_cs x) (p_ss x) (p_fpu_state x)
    (p_cr3 x) (p_vmrequest x).
Definition set_p_dx (v : Z) (x : proc) : proc :=
  mk_proc (p_nr x) (p_priv x) (p_rts_flags x) (p_misc_flags x) (p_priority x)
    (p_max_priority x) (p_ticks_left x) (p_quantum_size x) (p_map_T x) (p_map_D x)
    (p_map_S x) (p_pf_virtual x) (p_pf_flags x) (p_nextpagefault x) (p_user_time x)
    (p_sys_time x) (p_virt_left x) (p_prof_left x) (p_nextready x) (p_caller_q x)
    (p_q_link x) (p_getfrom_e x) (p_sendto_e x) (p_pending x) (p_name x) (p_endpoint x)
    (p_sendmsg x) (p_delivermsg x) (p_delivermsg_vir x) (p_delivermsg_lin x) (p_retreg x)
    (p_psw x) (p_pc x) (p_sp x) (p_bx x) (p_cx x) v (p_gs x) (p_fs x) (p_es x) (p_ds x)
    (p_di x) (p_si x) (p_fp x) (p_st x) (p_retadr x) (p_cs x) (p_ss x) (p_fpu_state x)
    (p_cr3 x) (p_vmrequest x).
Definition set_p_gs (v : Z) (x : proc) : proc :=
  mk_proc (p_nr x) (p_priv x) (p_rts_flags x) (p_misc_flags x) (p_priority x)
    (p_max_priority x) (p_ticks_left x) (p_quantum_size x) (p_map_T x) (p_map_D x)
    (p_map_S x) (p_pf_virtual x) (p_pf_flags x) (p_nextpagefault x) (p_user_time x)
    (p_sys_time x) (p_virt_left x) (p_prof_left x) (p_nextready x) (p_caller_q x)
    (p_q_link x) (p_getfrom_e x) (p_sendto_e x) (p_pending x) (p_name x) (p_endpoint x)
    (p_sendmsg x) (p_delivermsg x) (p_delivermsg_vir x) (p_delivermsg_lin x) (p_retreg x)
    (p_psw x) (p_pc x) (p_sp x) (p_bx x) (p_cx x) (p_dx x) v (p_fs x) (p_es x) (p_ds x)
    (p_di x) (p_si x) (p_fp x) (p_st x) (p_retadr x) (p_cs x) (p_ss x) (p_fpu_state x)
    (p_cr3 x) (p_vmrequest x).
Definition set_p_fs (v : Z) (x : proc) : proc :=
  mk_proc (p_nr x) (p_priv x) (p_rts_flags x) (p_misc_flags x) (p_priority x)
    (p_max_priority x) (p_ticks_left x) (p_quantum_size x) (p_map_T x) (p_map_D x)
    (p_map_S x) (p_pf_virtual x) (p_pf_flags x) (p_nextpagefault x) (p_user_time x)
    (p_sys_time x) (p_virt_left x) (p_prof_left x) (p_nextready x) (p_caller_q x)
    (p_q_link x) (p_getfrom_e x) (p_sendto_e x) (p_pending x) (p_name x) (p_endpoint x)
    (p_sendmsg x) (p_delivermsg x) (p_delivermsg_vir x) (p_delivermsg_lin x) (p_retreg x)
    (p_psw x) (p_pc x) (p_sp x) (p_bx x) (p_cx x) (p_dx x) (p_gs x) v (p_es x) (p_ds x)
    (p_di x) (p_si x) (p_fp x) (p_st x) (p_retadr x) (p_cs x) (p_ss x) (p_fpu_state x)
    (p_cr3 x) (p_vmrequest x).
Definition set_p_es (v : Z) (x : proc) : proc :=
  mk_proc (p_nr x) (p_priv x) (p_rts_flags x) (p_misc_flags x) (p_priority x)
    (p_max_priority x) (p_ticks_left x) (p_quantum_size x) (p_map_T x) (p_map_D x)
    (p_map_S x) (p_pf_virtual x) (p_pf_flags x) (p_nextpagefault x) (p_user_time x)
    (p_sys_time x) (p_virt_left x) (p_prof_left x) (p_nextready x) (p_caller_q x)
    (p_q_link x) (p_getfrom_e x) (p_sendto_e x) (p_pending x) (p_name x) (p_endpoint x)
    (p_sendmsg x) (p_delivermsg x) (p_delivermsg_vir x) (p_delivermsg_lin x) (p_retreg x)
    (p_psw x) (p_pc x) (p_sp x) (p_bx x) (p_cx x) (p_dx x) (p_gs x) (p_fs x) v (p_ds x)
    (p_di x) (p_si x) (p_fp x) (p_st x) (p_retadr x) (p_cs x) (p_ss x) (p_fpu_state x)
    (p_cr3 x) (p_vmrequest x).
Definition set_p_ds (v : Z) (x : proc) : proc :=
  mk_proc (p_nr x) (p_priv x) (p_rts_flags x) (p_misc_flags x) (p_priority x)
    (p_max_priority x) (p_ticks_left x) (p_quantum_size x) (p_map_T x) (p_map_D x)
    (p_map_S x) (p_pf_virtual x) (p_pf_flags x) (p_nextpagefault x) (p_user_time x)
    (p_sys_time x) (p_virt_left x) (p_prof_left x) (p_nextready x) (p_caller_q x)
    (p_q_link x) (p_getfrom_e x) (p_sendto_e x) (p_pending x) (p_name x) (p_endpoint x)
    (p_sendmsg x) (p_delivermsg x) (p_delivermsg_vir x) (p_delivermsg_lin x) (p_retreg x)
    (p_psw x) (p_pc x) (p_sp x) (p_bx x) (p_cx x) (p_dx x) (p_gs x) (p_fs x) (p_es x) v
    (p_di x) (p_si x) (p_fp x) (p_st x) (p_retadr x) (p_cs x) (p_ss x) (p_fpu_state x)
    (p_cr3 x) (p_vmrequest x).
Definition set_p_di (v : Z) (x : proc) : proc :=
  mk_proc (p_nr x) (p_priv x) (p_rts_flags x) (p_misc_flags x) (p_priority x)
    (p_max_priority x) (p_ticks_left x) (p_quantum_size x) (p_map_T x) (p_map_D x)
    (p_map_S x) (p_pf_virtual x) (p_pf_flags x) (p_nextpagefault x) (p_user_time x)
    (p_sys_time x) (p_virt_left x) (p_prof_left x) (p_nextready x) (p_caller_q x)
    (p_q_link x) (p_getfrom_e x) (p_sendto_e x) (p_pending x) (p_name x) (p_endpoint x)
    (p_sendmsg x) (p_delivermsg x) (p_delivermsg_vir x) (p_delivermsg_lin x) (p_retreg x)
    (p_psw x) (p_pc x) (p_sp x) (p_bx x) (p_cx x) (p_dx x) (p_gs x) (p_fs x) (p_es x)
    (p_ds x) v (p_si x) (p_fp x) (p_st x) (p_retadr x) (p_cs x) (p_ss x) (p_fpu_state x)
    (p_cr3 x) (p_vmrequest x).
Definition set_p_si (v : Z) (x : proc) : proc :=
  mk_proc (p_nr x) (p_priv x) (p_rts_flags x) (p_misc_flags x) (p_priority x)
    (p_max_priority x) (p_ticks_left x) (p_quantum_size x) (p_map_T x) (p_map_D x)
    (p_map_S x) (p_pf_virtual x) (p_pf_flags x) (p_nextpagefault x) (p_user_time x)
    (p_sys_time x) (p_virt_left x) (p_prof_left x) (p_nextready x) (p_caller_q x)
    (p_q_link x) (p_getfrom_e x) (p_sendto_e x) (p_pending x) (p_name x) (p_endpoint x)
    (p_sendmsg x) (p_delivermsg x) (p_delivermsg_vir x) (p_delivermsg_lin x) (p_retreg x)
    (p_psw x) (p_pc x) (p_sp x) (p_bx x) (p_cx x) (p_dx x) (p_gs x) (p_fs x) (p_es x)
    (p_ds x) (p_di x) v (p_fp x) (p_st x) (p_retadr x) (p_cs x) (p_ss x) (p_fpu_state x)
    (p_cr3 x) (p_vmrequest x).
Definition set_p_fp (v : Z) (x : proc) : proc :=
  mk_proc (p_nr x) (p_priv x) (p_rts_flags x) (p_misc_flags x) (p_priority x)
    (p_max_priority x) (p_ticks_left x) (p_quantum_size x) (p_map_T x) (p_map_D x)
    (p_map_S x) (p_pf_virtual x) (p_pf_flags x) (p_nextpagefault x) (p_user_time x)
    (p_sys_time x) (p_virt_left x) (p_prof_left x) (p_nextready x) (p_caller_q x)
    (p_q_link x) (p_getfrom_e x) (p_sendto_e x) (p_pending x) (p_name x) (p_endpoint x)
    (p_sendmsg x) (p_delivermsg x) (p_delivermsg_vir x) (p_delivermsg_lin x) (p_retreg x)
    (p_psw x) (p_pc x) (p_sp x) (p_bx x) (p_cx x) (p_dx x) (p_gs x) (p_fs x) (p_es x)
    (p_ds x) (p_di x) (p_si x) v (p_st x) (p_retadr x) (p_cs x) (p_ss x) (p_fpu_state x)
    (p_cr3 x) (p_vmrequest x).
Definition set_p_st (v : Z) (x : proc) : proc :=
  mk_proc (p_nr x) (p_priv x) (p_rts_flags x) (p_misc_flags x) (p_priority x)
    (p_max_priority x) (p_ticks_left x) (p_quantum_size x) (p_map_T x) (p_map_D x)
    (p_map_S x) (p_pf_virtual x) (p_pf_flags x) (p_nextpagefault x) (p_user_time x)
    (p_sys_time x) (p_virt_left x) (p_prof_left x) (p_nextready x) (p_caller_q x)
    (p_q_link x) (p_getfrom_e x) (p_sendto_e x) (p_pending x) (p_name x) (p_endpoint x)
    (p_sendmsg x) (p_delivermsg x) (p_delivermsg_vir x) (p_delivermsg_lin x) (p_retreg x)
    (p_psw x) (p_pc x) (p_sp x) (p_bx x) (p_cx x) (p_dx x) (p_gs x) (p_fs x) (p_es x)
    (p_ds x) (p_di x) (p_si x) (p_fp x) v (p_retadr x) (p_cs x) (p_ss x) (p_fpu_state x)
    (p_cr3 x) (p_vmrequest x).
Definition set_p_retadr (v : Z) (x : proc) : proc :=
  mk_proc (p_nr x) (p_priv x) (p_rts_flags x) (p_misc_flags x) (p_priority x)
    (p_max_priority x) (p_ticks_left x) (p_quantum_size x) (p_map_T x) (p_map_D x)
    (p_map_S x) (p_pf_virtual x) (p_pf_flags x) (p_nextpagefault x) (p_user_time x)
    (p_sys_time x) (p_virt_left x) (p_prof_left x) (p_nextready x) (p_caller_q x)
    (p_q_link x) (p_getfrom_e x) (p_sendto_e x) (p_pending x) (p_name x) (p_endpoint x)
    (p_sendmsg x) (p_delivermsg x) (p_delivermsg_vir x) (p_delivermsg_lin x) (p_retreg x)
    (p_psw x) (p_pc x) (p_sp x) (p_bx x) (p_cx x) (p_dx x) (p_gs x) (p_fs x) (p_es x)
    (p_ds x) (p_di x) (p_si x) (p_fp x) (p_st x) v (p_cs x) (p_ss x) (p_fpu_state x)
    (p_cr3 x) (p_vmrequest x).
Definition set_p_cs (v : Z) (x : proc) : proc :=
  mk_proc (p_nr x) (p_priv x) (p_rts_flags x) (p_misc_flags x) (p_priority x)
    (p_max_priority x) (p_ticks_left x) (p_quantum_size x) (p_map_T x) (p_map_D x)
    (p_map_S x) (p_pf_virtual x) (p_pf_flags x) (p_nextpagefault x) (p_user_time x)
    (p_sys_time x) (p_virt_left x) (p_prof_left x) (p_nextready x) (p_caller_q x)
    (p_q_link x) (p_getfrom_e x) (p_sendto_e x) (p_pending x) (p_name x) (p_endpoint x)
    (p_sendmsg x) (p_delivermsg x) (p_delivermsg_vir x) (p_delivermsg_lin x) (p_retreg x)
    (p_psw x) (p_pc x) (p_sp x) (p_bx x) (p_cx x) (p_dx x) (p_gs x) (p_fs x) (p_es x)
    (p_ds x) (p_di x) (p_si x) (p_fp x) (p_st x) (p_retadr x) v (p_ss x) (p_fpu_state x)
    (p_cr3 x) (p_vmrequest x).
Definition set_p_ss (v : Z) (x : proc) : proc :=
  mk_proc (p_nr x) (p_priv x) (p_rts_flags x) (p_misc_flags x) (p_priority x)
    (p_max_priority x) (p_ticks_left x) (p_quantum_size x) (p_map_T x) (p_map_D x)
    (p_map_S x) (p_pf_virtual x) (p_pf_flags x) (p_nextpagefault x) (p_user_time x)
    (p_sys_time x) (p_virt_left x) (p_prof_left x) (p_nextready x) (p_caller_q x)
    (p_q_link x) (p_getfrom_e x) (p_sendto_e x) (p_pending x) (p_name x) (p_endpoint x)
    (p_sendmsg x) (p_delivermsg x) (p_delivermsg_vir x) (p_delivermsg_lin x) (p_retreg x)
    (p_psw x) (p_pc x) (p_sp x) (p_bx x) (p_cx x) (p_dx x) (p_gs x) (p_fs x) (p_es x)
    (p_ds x) (p_di x) (p_si x) (p_fp x) (p_st x) (p_retadr x) (p_cs x) v (p_fpu_state x)
    (p_cr3 x) (p_vmrequest x).
Definition set_p_fpu_state (v : list Z) (x : proc) : proc :=
  mk_proc (p_nr x) (p_priv x) (p_rts_flags x) (p_misc_flags x) (p_priority x)
    (p_max_priority x) (p_ticks_left x) (p_quantum_size x) (p_map_T x) (p_map_D x)
    (p_map_S x) (p_pf_virtual x) (p_pf_flags x) (p_nextpagefault x) (p_user_time x)
    (p_sys_time x) (p_virt_left x) (p_prof_left x) (p_nextready x) (p_caller_q x)
    (p_q_link x) (p_getfrom_e x) (p_sendto_e x) (p_pending x) (p_name x) (p_endpoint x)
    (p_sendmsg x) (p_delivermsg x) (p_delivermsg_vir x) (p_delivermsg_lin x) (p_retreg x)
    (p_psw x) (p_pc x) (p_sp x) (p_bx x) (p_cx x) (p_dx x) (p_gs x) (p_fs x) (p_es x)
    (p_ds x) (p_di x) (p_si x) (p_fp x) (p_st x) (p_retadr x) (p_cs x) (p_ss x) v (p_cr3
    x) (p_vmrequest x).
Definition set_p_cr3 (v : Z) (x : proc) : proc :=
  mk_proc (p_nr x) (p_priv x) (p_rts_flags x) (p_misc_flags x) (p_priority x)
    (p_max_priority x) (p_ticks_left x) (p_quantum_size x) (p_map_T x) (p_map_D x)
    (p_map_S x) (p_pf_virtual x) (p_pf_flags x) (p_nextpagefault x) (p_user_time x)
    (p_sys_time x) (p_virt_left x) (p_prof_left x) (p_nextready x) (p_caller_q x)
    (p_q_link x) (p_getfrom_e x) (p_sendto_e x) (p_pending x) (p_name x) (p_endpoint x)
    (p_sendmsg x) (p_delivermsg x) (p_delivermsg_vir x) (p_delivermsg_lin x) (p_retreg x)
    (p_psw x) (p_pc x) (p_sp x) (p_bx x) (p_cx x) (p_dx x) (p_gs x) (p_fs x) (p_es x)
    (p_ds x) (p_di x) (p_si x) (p_fp x) (p_st x) (p_retadr x) (p_cs x) (p_ss x)
    (p_fpu_state x) v (p_vmrequest x).
Definition set_p_vmrequest (v : vmrequest_t) (x : proc) : proc :=
  mk_proc (p_nr x) (p_priv x) (p_rts_flags x) (p_misc_flags x) (p_priority x)
    (p_max_priority x) (p_ticks_left x) (p_quantum_size x) (p_map_T x) (p_map_D x)
    (p_map_S x) (p_pf_virtual x) (p_pf_flags x) (p_nextpagefault x) (p_user_time x)
    (p_sys_time x) (p_virt_left x) (p_prof_left x) (p_nextready x) (p_caller_q x)
    (p_q_link x) (p_getfrom_e x) (p_sendto_e x) (p_pending x) (p_name x) (p_endpoint x)
    (p_sendmsg x) (p_delivermsg x) (p_delivermsg_vir x) (p_delivermsg_lin x) (p_retreg x)
    (p_psw x) (p_pc x) (p_sp x) (p_bx x) (p_cx x) (p_dx x) (p_gs x) (p_fs x) (p_es x)
    (p_ds x) (p_di x) (p_si x) (p_fp x) (p_st x) (p_retadr x) (p_cs x) (p_ss x)
    (p_fpu_state x) (p_cr3 x) v.

(** [struct far_mem] (include/minix/type.h): a remote segment. *)
Record far_mem := mk_far_mem { fm_in_use : Z; fm_mem_phys : Z; fm_mem_len : Z }.

(** [struct priv] (kernel/priv.h); [s_alarm_timer] is in the table of timers. *)
Record priv := mk_priv {
  s_proc_nr : Z;
  s_id : Z;
  s_flags : Z;
  s_asyntab : Z;
  s_asynsize : Z;
  s_trap_mask : Z;
  s_ipc_to : bitmap;
  s_k_call_mask : bitmap;
  s_notify_pending : bitmap;
  s_int_pending : Z;
  s_sig_pending : Z;
  s_farmem : Z -> far_mem;
  s_nr_io_range : Z;
  s_io_tab : Z -> Z * Z;  (* base and limit *)
  s_nr_mem_range : Z;
  s_mem_tab : Z -> Z * Z;  (* base and limit *)
  s_nr_irq : Z;
  s_irq_tab : Z -> Z;
  s_grant_table : Z;
  s_grant_entries : Z
}.

Definition set_s_proc_nr (v : Z) (x : priv) : priv :=
  mk_priv v (s_id x) (s_flags x) (s_asyntab x) (s_asynsize x) (s_trap_mask x) (s_ipc_to x)
    (s_k_call_mask x) (s_notify_pending x) (s_int_pending x) (s_sig_pending x) (s_farmem
    x) (s_nr_io_range x) (s_io_tab x) (s_nr_mem_range x) (s_mem_tab x) (s_nr_irq x)
    (s_irq_tab x) (s_grant_table x) (s_grant_entries x).
Definition set_s_id (v : Z) (x : priv) : priv :=
  mk_priv (s_proc_nr x) v (s_flags x) (s_asyntab x) (s_asynsize x) (s_trap_mask x)
    (s_ipc_to x) (s_k_call_mask x) (s_notify_pending x) (s_int_pending x) (s_sig_pending
    x) (s_farmem x) (s_nr_io_range x) (s_io_tab x) (s_nr_mem_range x) (s_mem_tab x)
    (s_nr_irq x) (s_irq_tab x) (s_grant_table x) (s_grant_entries x).
Definition set_s_flags (v : Z) (x : priv) : priv :=
  mk_priv (s_proc_nr x) (s_id x) v (s_asyntab x) (s_asynsize x) (s_trap_mask x) (s_ipc_to
    x) (s_k_call_mask x) (s_notify_pending x) (s_int_pending x) (s_sig_pending x)
    (s_farmem x) (s_nr_io_range x) (s_io_tab x) (s_nr_mem_range x) (s_mem_tab x) (s_nr_irq
    x) (s_irq_tab x) (s_grant_table x) (s_grant_entries x).
Definition set_s_asyntab (v : Z) (x : priv) : priv :=
  mk_priv (s_proc_nr x) (s_id x) (s_flags x) v (s_asynsize x) (s_trap_mask x) (s_ipc_to x)
    (s_k_call_mask x) (s_notify_pending x) (s_int_pending x) (s_sig_pending x) (s_farmem
    x) (s_nr_io_range x) (s_io_tab x) (s_nr_mem_range x) (s_mem_tab x) (s_nr_irq x)
    (s_irq_tab x) (s_grant_table x) (s_grant_entries x).
Definition set_s_asynsize (v : Z) (x : priv) : priv :=
  mk_priv (s_proc_nr x) (s_id x) (s_flags x) (s_asyntab x) v (s_trap_mask x) (s_ipc_to x)
    (s_k_call_mask x) (s_notify_pending x) (s_int_pending x) (s_sig_pending x) (s_farmem
    x) (s_nr_io_range x) (s_io_tab x) (s_nr_mem_range x) (s_mem_tab x) (s_nr_irq x)
    (s_irq_tab x) (s_grant_table x) (s_grant_entries x).
Definition set_s_trap_mask (v : Z) (x : priv) : priv :=
  mk_priv (s_proc_nr x) (s_id x) (s_flags x) (s_asyntab x) (s_asynsize x) v (s_ipc_to x)
    (s_k_call_mask x) (s_notify_pending x) (s_int_pending x) (s_sig_pending x) (s_farmem
    x) (s_nr_io_range x) (s_io_tab x) (s_nr_mem_range x) (s_mem_tab x) (s_nr_irq x)
    (s_irq_tab x) (s_grant_table x) (s_grant_entries x).
Definition set_s_ipc_to (v : bitmap) (x : priv) : priv :=
  mk_priv (s_proc_nr x) (s_id x) (s_flags x) (s_asyntab x) (s_asynsize x) (s_trap_mask x)
    v (s_k_call_mask x) (s_notify_pending x) (s_int_pending x) (s_sig_pending x) (s_farmem
    x) (s_nr_io_range x) (s_io_tab x) (s_nr_mem_range x) (s_mem_tab x) (s_nr_irq x)
    (s_irq_tab x) (s_grant_table x) (s_grant_entries x).
Definition set_s_k_call_mask (v : bitmap) (x : priv) : priv :=
  mk_priv (s_proc_nr x) (s_id x) (s_flags x) (s_asyntab x) (s_asynsize x) (s_trap_mask x)
    (s_ipc_to x) v (s_notify_pending x) (s_int_pending x) (s_sig_pending x) (s_farmem x)
    (s_nr_io_range x) (s_io_tab x) (s_nr_mem_range x) (s_mem_tab x) (s_nr_irq x)
    (s_irq_tab x) (s_grant_table x) (s_grant_entries x).
Definition set_s_notify_pending (v : bitmap) (x : priv) : priv :=
  mk_priv (s_proc_nr x) (s_id x) (s_flags x) (s_asyntab x) (s_asynsize x) (s_trap_mask x)
    (s_ipc_to x) (s_k_call_mask x) v (s_int_pending x) (s_sig_pending x) (s_farmem x)
    (s_nr_io_range x) (s_io_tab x) (s_nr_mem_range x) (s_mem_tab x) (s_nr_irq x)
    (s_irq_tab x) (s_grant_table x) (s_grant_entries x).
Definition set_s_int_pending (v : Z) (x : priv) : priv :=
  mk_priv (s_proc_nr x) (s_id x) (s_flags x) (s_asyntab x) (s_asynsize x) (s_trap_mask x)
    (s_ipc_to x) (s_k_call_mask x) (s_notify_pending x) v (s_sig_pending x) (s_farmem x)
    (s_nr_io_range x) (s_io_tab x) (s_nr_mem_range x) (s_mem_tab x) (s_nr_irq x)
    (s_irq_tab x) (s_grant_table x) (s_grant_entries x).
Definition set_s_sig_pending (v : Z) (x : priv) : priv :=
  mk_priv (s_proc_nr x) (s_id x) (s_flags x) (s_asyntab x) (s_asynsize x) (s_trap_mask x)
    (s_ipc_to x) (s_k_call_mask x) (s_notify_pending x) (s_int_pending x) v (s_farmem x)
    (s_nr_io_range x) (s_io_tab x) (s_nr_mem_range x) (s_mem_tab x) (s_nr_irq x)
    (s_irq_tab x) (s_grant_table x) (s_grant_entries x).
Definition set_s_farmem (v : Z -> far_mem) (x : priv) : priv :=
  mk_priv (s_proc_nr x) (s_id x) (s_flags x) (s_asyntab x) (s_asynsize x) (s_trap_mask x)
    (s_ipc_to x) (s_k_call_mask x) (s_notify_pending x) (s_int_pending x) (s_sig_pending
    x) v (s_nr_io_range x) (s_io_tab x) (s_nr_mem_range x) (s_mem_tab x) (s_nr_irq x)
    (s_irq_tab x) (s_grant_table x) (s_grant_entries x).
Definition set_s_nr_io_range (v : Z) (x : priv) : priv :=
  mk_priv (s_proc_nr x) (s_id x) (s_flags x) (s_asyntab x) (s_asynsize x) (s_trap_mask x)
    (s_ipc_to x) (s_k_call_mask x) (s_notify_pending x) (s_int_pending x) (s_sig_pending
    x) (s_farmem x) v (s_io_tab x) (s_nr_mem_range x) (s_mem_tab x) (s_nr_irq x)
    (s_irq_tab x) (s_grant_table x) (s_grant_entries x).
Definition set_s_io_tab (v : Z -> Z * Z) (x : priv) : priv :=
  mk_priv (s_proc_nr x) (s_id x) (s_flags x) (s_asyntab x) (s_asynsize x) (s_trap_mask x)
    (s_ipc_to x) (s_k_call_mask x) (s_notify_pending x) (s_int_pending x) (s_sig_pending
    x) (s_farmem x) (s_nr_io_range x) v (s_nr_mem_range x) (s_mem_tab x) (s_nr_irq x)
    (s_irq_tab x) (s_grant_table x) (s_grant_entries x).
Definition set_s_nr_mem_range (v : Z) (x : priv) : priv :=
  mk_priv (s_proc_nr x) (s_id x) (s_flags x) (s_asyntab x) (s_asynsize x) (s_trap_mask x)
    (s_ipc_to x) (s_k_call_mask x) (s_notify_pending x) (s_int_pending x) (s_sig_pending
    x) (s_farmem x) (s_nr_io_range x) (s_io_tab x) v (s_mem_tab x) (s_nr_irq x) (s_irq_tab
    x) (s_grant_table x) (s_grant_entries x).
Definition set_s_mem_tab (v : Z -> Z * Z) (x : priv) : priv :=
  mk_priv (s_proc_nr x) (s_id x) (s_flags x) (s_asyntab x) (s_asynsize x) (s_trap_mask x)
    (s_ipc_to x) (s_k_call_mask x) (s_notify_pending x) (s_int_pending x) (s_sig_pending
    x) (s_farmem x) (s_nr_io_range x) (s_io_tab x) (s_nr_mem_range x) v (s_nr_irq x)
    (s_irq_tab x) (s_grant_table x) (s_grant_entries x).
Definition set_s_nr_irq (v : Z) (x : priv) : priv :=
  mk_priv (s_proc_nr x) (s_id x) (s_flags x) (s_asyntab x) (s_asynsize x) (s_trap_mask x)
    (s_ipc_to x) (s_k_call_mask x) (s_notify_pending x) (s_int_pending x) (s_sig_pending
    x) (s_farmem x) (s_nr_io_range x) (s_io_tab x) (s_nr_mem_range x) (s_mem_tab x) v
    (s_irq_tab x) (s_grant_table x) (s_grant_entries x).
Definition set_s_irq_tab (v : Z -> Z) (x : priv) : priv :=
  mk_priv (s_proc_nr x) (s_id x) (s_flags x) (s_asyntab x) (s_asynsize x) (s_trap_mask x)
    (s_ipc_to x) (s_k_call_mask x) (s_notify_pending x) (s_int_pending x) (s_sig_pending
    x) (s_farmem x) (s_nr_io_range x) (s_io_tab x) (s_nr_mem_range x) (s_mem_tab x)
    (s_nr_irq x) v (s_grant_table x) (s_grant_entries x).
Definition set_s_grant_table (v : Z) (x : priv) : priv :=
  mk_priv (s_proc_nr x) (s_id x) (s_flags x) (s_asyntab x) (s_asynsize x) (s_trap_mask x)
    (s_ipc_to x) (s_k_call_mask x) (s_notify_pending x) (s_int_pending x) (s_sig_pending
    x) (s_farmem x) (s_nr_io_range x) (s_io_tab x) (s_nr_mem_range x) (s_mem_tab x)
    (s_nr_irq x) (s_irq_tab x) v (s_grant_entries x).
Definition set_s_grant_entries (v : Z) (x : priv) : priv :=
  mk_priv (s_proc_nr x) (s_id x) (s_flags x) (s_asyntab x) (s_asynsize x) (s_trap_mask x)
    (s_ipc_to x) (s_k_call_mask x) (s_notify_pending x) (s_int_pending x) (s_sig_pending
    x) (s_farmem x) (s_nr_io_range x) (s_io_tab x) (s_nr_mem_range x) (s_mem_tab x)
    (s_nr_irq x) (s_irq_tab x) (s_grant_table x) v.

(** The functions that are installed as interrupt handlers: [generic_handler] of
    do_irqctl.c and the timer handler of clock.c. *)
Inductive irq_handler := H_generic | H_bsp_timer.

(** [irq_hook_t] (kernel/type.h). *)
Record irq_hook_t := mk_irq_hook {
  hk_next : option Z;
  hk_handler : irq_handler;
  hk_irq : Z;
  hk_id : Z;
  hk_proc_nr_e : Z;
  hk_notify_id : Z;
  hk_policy : Z
}.

Definition set_hk_next (v : option Z) (x : irq_hook_t) : irq_hook_t :=
  mk_irq_hook v (hk_handler x) (hk_irq x) (hk_id x) (hk_proc_nr_e x) (hk_notify_id x)
    (hk_policy x).
Definition set_hk_handler (v : irq_handler) (x : irq_hook_t) : irq_hook_t :=
  mk_irq_hook (hk_next x) v (hk_irq x) (hk_id x) (hk_proc_nr_e x) (hk_notify_id x)
    (hk_policy x).
Definition set_hk_irq (v : Z) (x : irq_hook_t) : irq_hook_t :=
  mk_irq_hook (hk_next x) (hk_handler x) v (hk_id x) (hk_proc_nr_e x) (hk_notify_id x)
    (hk_policy x).
Definition set_hk_id (v : Z) (x : irq_hook_t) : irq_hook_t :=
  mk_irq_hook (hk_next x) (hk_handler x) (hk_irq x) v (hk_proc_nr_e x) (hk_notify_id x)
    (hk_policy x).
Definition set_hk_proc_nr_e (v : Z) (x : irq_hook_t) : irq_hook_t :=
  mk_irq_hook (hk_next x) (hk_handler x) (hk_irq x) (hk_id x) v (hk_notify_id x)
    (hk_policy x).
Definition set_hk_notify_id (v : Z) (x : irq_hook_t) : irq_hook_t :=
  mk_irq_hook (hk_next x) (hk_handler x) (hk_irq x) (hk_id x) (hk_proc_nr_e x) v
    (hk_policy x).
Definition set_hk_policy (v : Z) (x : irq_hook_t) : irq_hook_t :=
  mk_irq_hook (hk_next x) (hk_handler x) (hk_irq x) (hk_id x) (hk_proc_nr_e x)
    (hk_notify_id x) v.

(** The timers the CLOCK task keeps: every process' [p_deadline], every privilege
    structure's [s_alarm_timer], and the static timers of [balance_queues] and
    [prepare_shutdown]. *)
Inductive tmr_ref := TDeadline (n : Z) | TAlarm (id : Z) | TQueue | TShutdown.

(** The watchdog functions of the kernel. *)
Inductive watchdog :=
  | W_none | W_balance_queues | W_cause_alarm | W_reach_deadline | W_minix_shutdown.

#[export] Instance tmr_ref_eq_dec : EqDecision tmr_ref.
Proof. solve_decision. Defined.
#[export] Instance watchdog_eq_dec : EqDecision watchdog.
Proof. solve_decision. Defined.

(** Physical memory, byte by byte. *)
Abbreviation memory := (Z -> Z).

(** [struct map_info_s] (kernel/system/do_safemap.c): memory mapped by a grant. *)
Record map_info_s := mk_map_info {
  mi_flag : Z;
  mi_grantor : Z;
  mi_gid : Z;
  mi_offset : Z;
  mi_address_Dseg : Z;
  mi_grantee : Z;
  mi_seg : Z;
  mi_address : Z;
  mi_bytes : Z
}.

Definition set_mi_flag (v : Z) (x : map_info_s) : map_info_s :=
  mk_map_info v (mi_grantor x) (mi_gid x) (mi_offset x) (mi_address_Dseg x) (mi_grantee x)
    (mi_seg x) (mi_address x) (mi_bytes x).
Definition set_mi_grantor (v : Z) (x : map_info_s) : map_info_s :=
  mk_map_info (mi_flag x) v (mi_gid x) (mi_offset x) (mi_address_Dseg x) (mi_grantee x)
    (mi_seg x) (mi_address x) (mi_bytes x).
Definition set_mi_gid (v : Z) (x : map_info_s) : map_info_s :=
  mk_map_info (mi_flag x) (mi_grantor x) v (mi_offset x) (mi_address_Dseg x) (mi_grantee
    x) (mi_seg x) (mi_address x) (mi_bytes x).
Definition set_mi_offset (v : Z) (x : map_info_s) : map_info_s :=
  mk_map_info (mi_flag x) (mi_grantor x) (mi_gid x) v (mi_address_Dseg x) (mi_grantee x)
    (mi_seg x) (mi_address x) (mi_bytes x).
Definition set_mi_address_Dseg (v : Z) (x : map_info_s) : map_info_s :=
  mk_map_info (mi_flag x) (mi_grantor x) (mi_gid x) (mi_offset x) v (mi_grantee x) (mi_seg
    x) (mi_address x) (mi_bytes x).
Definition set_mi_grantee (v : Z) (x : map_info_s) : map_info_s :=
  mk_map_info (mi_flag x) (mi_grantor x) (mi_gid x) (mi_offset x) (mi_address_Dseg x) v
    (mi_seg x) (mi_address x) (mi_bytes x).
Definition set_mi_seg (v : Z) (x : map_info_s) : map_info_s :=
  mk_map_info (mi_flag x) (mi_grantor x) (mi_gid x) (mi_offset x) (mi_address_Dseg x)
    (mi_grantee x) v (mi_address x) (mi_bytes x).
Definition set_mi_address (v : Z) (x : map_info_s) : map_info_s :=
  mk_map_info (mi_flag x) (mi_grantor x) (mi_gid x) (mi_offset x) (mi_address_Dseg x)
    (mi_grantee x) (mi_seg x) v (mi_bytes x).
Definition set_mi_bytes (v : Z) (x : map_info_s) : map_info_s :=
  mk_map_info (mi_flag x) (mi_grantor x) (mi_gid x) (mi_offset x) (mi_address_Dseg x)
    (mi_grantee x) (mi_seg x) (mi_address x) v.

(** The global variables of the kernel. *)
Record kstate := mk_kstate {
  k_proc : Z -> proc;  (* proc[] *)
  k_priv : Z -> priv;  (* priv[] *)
  rdy_head : Z -> option Z;
  rdy_tail : Z -> option Z;
  proc_ptr : option Z;
  bill_ptr : option Z;
  vmrestart : option Z;
  vmrequest : option Z;
  pagefaults : option Z;
  sched_type : Z;
  lost_ticks : Z;
  realtime : Z;
  next_timeout : Z;
  clock_timers : tstate tmr_ref watchdog;  (* every timer and the CLOCK queue *)
  intr_off : bool;  (* interrupts are disabled *)
  locklevel : Z;
  system_hz : Z;
  boottime : Z;
  load_history : Z -> Z;  (* kloadinfo.proc_load_history *)
  load_last_slot : Z;  (* kloadinfo.proc_last_slot *)
  load_last_clock : Z;  (* kloadinfo.last_clock *)
  who_e : Z;
  who_p : Z;
  sys_call_code : Z;
  irq_hooks : Z -> irq_hook_t;
  irq_handlers : Z -> option Z;
  irq_actids : Z -> Z;
  irq_use : Z;
  irq_masked : Z -> bool;  (* mask bits of the interrupt controller *)
  rand_next : Z;  (* next of lib/ansi/rand.c *)
  tsc_lo : Z;  (* low word of the time stamp counter *)
  minix_panicing : Z;
  vm_running : bool;
  ptproc : option Z;  (* whose page table is loaded *)
  osfxsr_feature : bool;
  map_info : Z -> map_info_s;  (* map_info of do_safemap.c *)
  mem : memory  (* physical memory *)
}.

Definition set_k_proc (v : Z -> proc) (x : kstate) : kstate :=
  mk_kstate v (k_priv x) (rdy_head x) (rdy_tail x) (proc_ptr x) (bill_ptr x) (vmrestart x)
    (vmrequest x) (pagefaults x) (sched_type x) (lost_ticks x) (realtime x) (next_timeout
    x) (clock_timers x) (intr_off x) (locklevel x) (system_hz x) (boottime x)
    (load_history x) (load_last_slot x) (load_last_clock x) (who_e x) (who_p x)
    (sys_call_code x) (irq_hooks x) (irq_handlers x) (irq_actids x) (irq_use x)
    (irq_masked x) (rand_next x) (tsc_lo x) (minix_panicing x) (vm_running x) (ptproc x)
    (osfxsr_feature x) (map_info x) (mem x).
Definition set_k_priv (v : Z -> priv) (x : kstate) : kstate :=
  mk_kstate (k_proc x) v (rdy_head x) (rdy_tail x) (proc_ptr x) (bill_ptr x) (vmrestart x)
    (vmrequest x) (pagefaults x) (sched_type x) (lost_ticks x) (realtime x) (next_timeout
    x) (clock_timers x) (intr_off x) (locklevel x) (system_hz x) (boottime x)
    (load_history x) (load_last_slot x) (load_last_clock x) (who_e x) (who_p x)
    (sys_call_code x) (irq_hooks x) (irq_handlers x) (irq_actids x) (irq_use x)
    (irq_masked x) (rand_next x) (tsc_lo x) (minix_panicing x) (vm_running x) (ptproc x)
    (osfxsr_feature x) (map_info x) (mem x).
Definition set_rdy_head (v : Z -> option Z) (x : kstate) : kstate :=
  mk_kstate (k_proc x) (k_priv x) v (rdy_tail x) (proc_ptr x) (bill_ptr x) (vmrestart x)
    (vmrequest x) (pagefaults x) (sched_type x) (lost_ticks x) (realtime x) (next_timeout
    x) (clock_timers x) (intr_off x) (locklevel x) (system_hz x) (boottime x)
    (load_history x) (load_last_slot x) (load_last_clock x) (who_e x) (who_p x)
    (sys_call_code x) (irq_hooks x) (irq_handlers x) (irq_actids x) (irq_use x)
    (irq_masked x) (rand_next x) (tsc_lo x) (minix_panicing x) (vm_running x) (ptproc x)
    (osfxsr_feature x) (map_info x) (mem x).
Definition set_rdy_tail (v : Z -> option Z) (x : kstate) : kstate :=
  mk_kstate (k_proc x) (k_priv x) (rdy_head x) v (proc_ptr x) (bill_ptr x) (vmrestart x)
    (vmrequest x) (pagefaults x) (sched_type x) (lost_ticks x) (realtime x) (next_timeout
    x) (clock_timers x) (intr_off x) (locklevel x) (system_hz x) (boottime x)
    (load_history x) (load_last_slot x) (load_last_clock x) (who_e x) (who_p x)
    (sys_call_code x) (irq_hooks x) (irq_handlers x) (irq_actids x) (irq_use x)
    (irq_masked x) (rand_next x) (tsc_lo x) (minix_panicing x) (vm_running x) (ptproc x)
    (osfxsr_feature x) (map_info x) (mem x).
Definition set_proc_ptr (v : option Z) (x : kstate) : kstate :=
  mk_kstate (k_proc x) (k_priv x) (rdy_head x) (rdy_tail x) v (bill_ptr x) (vmrestart x)
    (vmrequest x) (pagefaults x) (sched_type x) (lost_ticks x) (realtime x) (next_timeout
    x) (clock_timers x) (intr_off x) (locklevel x) (system_hz x) (boottime x)
    (load_history x) (load_last_slot x) (load_last_clock x) (who_e x) (who_p x)
    (sys_call_code x) (irq_hooks x) (irq_handlers x) (irq_actids x) (irq_use x)
    (irq_masked x) (rand_next x) (tsc_lo x) (minix_panicing x) (vm_running x) (ptproc x)
    (osfxsr_feature x) (map_info x) (mem x).
Definition set_bill_ptr (v : option Z) (x : kstate) : kstate :=
  mk_kstate (k_proc x) (k_priv x) (rdy_head x) (rdy_tail x) (proc_ptr x) v (vmrestart x)
    (vmrequest x) (pagefaults x) (sched_type x) (lost_ticks x) (realtime x) (next_timeout
    x) (clock_timers x) (intr_off x) (locklevel x) (system_hz x) (boottime x)
    (load_history x) (load_last_slot x) (load_last_clock x) (who_e x) (who_p x)
    (sys_call_code x) (irq_hooks x) (irq_handlers x) (irq_actids x) (irq_use x)
    (irq_masked x) (rand_next x) (tsc_lo x) (minix_panicing x) (vm_running x) (ptproc x)
    (osfxsr_feature x) (map_info x) (mem x).
Definition set_vmrestart (v : option Z) (x : kstate) : kstate :=
  mk_kstate (k_proc x) (k_priv x) (rdy_head x) (rdy_tail x) (proc_ptr x) (bill_ptr x) v
    (vmrequest x) (pagefaults x) (sched_type x) (lost_ticks x) (realtime x) (next_timeout
    x) (clock_timers x) (intr_off x) (locklevel x) (system_hz x) (boottime x)
    (load_history x) (load_last_slot x) (load_last_clock x) (who_e x) (who_p x)
    (sys_call_code x) (irq_hooks x) (irq_handlers x) (irq_actids x) (irq_use x)
    (irq_masked x) (rand_next x) (tsc_lo x) (minix_panicing x) (vm_running x) (ptproc x)
    (osfxsr_feature x) (map_info x) (mem x).
Definition set_vmrequest (v : option Z) (x : kstate) : kstate :=
  mk_kstate (k_proc x) (k_priv x) (rdy_head x) (rdy_tail x) (proc_ptr x) (bill_ptr x)
    (vmrestart x) v (pagefaults x) (sched_type x) (lost_ticks x) (realtime x)
    (next_timeout x) (clock_timers x) (intr_off x) (locklevel x) (system_hz x) (boottime
    x) (load_history x) (load_last_slot x) (load_last_clock x) (who_e x) (who_p x)
    (sys_call_code x) (irq_hooks x) (irq_handlers x) (irq_actids x) (irq_use x)
    (irq_masked x) (rand_next x) (tsc_lo x) (minix_panicing x) (vm_running x) (ptproc x)
    (osfxsr_feature x) (map_info x) (mem x).
Definition set_pagefaults (v : option Z) (x : kstate) : kstate :=
  mk_kstate (k_proc x) (k_priv x) (rdy_head x) (rdy_tail x) (proc_ptr x) (bill_ptr x)
    (vmrestart x) (vmrequest x) v (sched_type x) (lost_ticks x) (realtime x) (next_timeout
    x) (clock_timers x) (intr_off x) (locklevel x) (system_hz x) (boottime x)
    (load_history x) (load_last_slot x) (load_last_clock x) (who_e x) (who_p x)
    (sys_call_code x) (irq_hooks x) (irq_handlers x) (irq_actids x) (irq_use x)
    (irq_masked x) (rand_next x) (tsc_lo x) (minix_panicing x) (vm_running x) (ptproc x)
    (osfxsr_feature x) (map_info x) (mem x).
Definition set_sched_type (v : Z) (x : kstate) : kstate :=
  mk_kstate (k_proc x) (k_priv x) (rdy_head x) (rdy_tail x) (proc_ptr x) (bill_ptr x)
    (vmrestart x) (vmrequest x) (pagefaults x) v (lost_ticks x) (realtime x) (next_timeout
    x) (clock_timers x) (intr_off x) (locklevel x) (system_hz x) (boottime x)
    (load_history x) (load_last_slot x) (load_last_clock x) (who_e x) (who_p x)
    (sys_call_code x) (irq_hooks x) (irq_handlers x) (irq_actids x) (irq_use x)
    (irq_masked x) (rand_next x) (tsc_lo x) (minix_panicing x) (vm_running x) (ptproc x)
    (osfxsr_feature x) (map_info x) (mem x).
Definition set_lost_ticks (v : Z) (x : kstate) : kstate :=
  mk_kstate (k_proc x) (k_priv x) (rdy_head x) (rdy_tail x) (proc_ptr x) (bill_ptr x)
    (vmrestart x) (vmrequest x) (pagefaults x) (sched_type x) v (realtime x) (next_timeout
    x) (clock_timers x) (intr_off x) (locklevel x) (system_hz x) (boottime x)
    (load_history x) (load_last_slot x) (load_last_clock x) (who_e x) (who_p x)
    (sys_call_code x) (irq_hooks x) (irq_handlers x) (irq_actids x) (irq_use x)
    (irq_masked x) (rand_next x) (tsc_lo x) (minix_panicing x) (vm_running x) (ptproc x)
    (osfxsr_feature x) (map_info x) (mem x).
Definition set_realtime (v : Z) (x : kstate) : kstate :=
  mk_kstate (k_proc x) (k_priv x) (rdy_head x) (rdy_tail x) (proc_ptr x) (bill_ptr x)
    (vmrestart x) (vmrequest x) (pagefaults x) (sched_type x) (lost_ticks x) v
    (next_timeout x) (clock_timers x) (intr_off x) (locklevel x) (system_hz x) (boottime
    x) (load_history x) (load_last_slot x) (load_last_clock x) (who_e x) (who_p x)
    (sys_call_code x) (irq_hooks x) (irq_handlers x) (irq_actids x) (irq_use x)
    (irq_masked x) (rand_next x) (tsc_lo x) (minix_panicing x) (vm_running x) (ptproc x)
    (osfxsr_feature x) (map_info x) (mem x).
Definition set_next_timeout (v : Z) (x : kstate) : kstate :=
  mk_kstate (k_proc x) (k_priv x) (rdy_head x) (rdy_tail x) (proc_ptr x) (bill_ptr x)
    (vmrestart x) (vmrequest x) (pagefaults x) (sched_type x) (lost_ticks x) (realtime x)
    v (clock_timers x) (intr_off x) (locklevel x) (system_hz x) (boottime x) (load_history
    x) (load_last_slot x) (load_last_clock x) (who_e x) (who_p x) (sys_call_code x)
    (irq_hooks x) (irq_handlers x) (irq_actids x) (irq_use x) (irq_masked x) (rand_next x)
    (tsc_lo x) (minix_panicing x) (vm_running x) (ptproc x) (osfxsr_feature x) (map_info
    x) (mem x).
Definition set_clock_timers (v : tstate tmr_ref watchdog) (x : kstate) : kstate :=
  mk_kstate (k_proc x) (k_priv x) (rdy_head x) (rdy_tail x) (proc_ptr x) (bill_ptr x)
    (vmrestart x) (vmrequest x) (pagefaults x) (sched_type x) (lost_ticks x) (realtime x)
    (next_timeout x) v (intr_off x) (locklevel x) (system_hz x) (boottime x) (load_history
    x) (load_last_slot x) (load_last_clock x) (who_e x) (who_p x) (sys_call_code x)
    (irq_hooks x) (irq_handlers x) (irq_actids x) (irq_use x) (irq_masked x) (rand_next x)
    (tsc_lo x) (minix_panicing x) (vm_running x) (ptproc x) (osfxsr_feature x) (map_info
    x) (mem x).
Definition set_intr_off (v : bool) (x : kstate) : kstate :=
  mk_kstate (k_proc x) (k_priv x) (rdy_head x) (rdy_tail x) (proc_ptr x) (bill_ptr x)
    (vmrestart x) (vmrequest x) (pagefaults x) (sched_type x) (lost_ticks x) (realtime x)
    (next_timeout x) (clock_timers x) v (locklevel x) (system_hz x) (boottime x)
    (load_history x) (load_last_slot x) (load_last_clock x) (who_e x) (who_p x)
    (sys_call_code x) (irq_hooks x) (irq_handlers x) (irq_actids x) (irq_use x)
    (irq_masked x) (rand_next x) (tsc_lo x) (minix_panicing x) (vm_running x) (ptproc x)
    (osfxsr_feature x) (map_info x) (mem x).
Definition set_locklevel (v : Z) (x : kstate) : kstate :=
  mk_kstate (k_proc x) (k_priv x) (rdy_head x) (rdy_tail x) (proc_ptr x) (bill_ptr x)
    (vmrestart x) (vmrequest x) (pagefaults x) (sched_type x) (lost_ticks x) (realtime x)
    (next_timeout x) (clock_timers x) (intr_off x) v (system_hz x) (boottime x)
    (load_history x) (load_last_slot x) (load_last_clock x) (who_e x) (who_p x)
    (sys_call_code x) (irq_hooks x) (irq_handlers x) (irq_actids x) (irq_use x)
    (irq_masked x) (rand_next x) (tsc_lo x) (minix_panicing x) (vm_running x) (ptproc x)
    (osfxsr_feature x) (map_info x) (mem x).
Definition set_system_hz (v : Z) (x : kstate) : kstate :=
  mk_kstate (k_proc x) (k_priv x) (rdy_head x) (rdy_tail x) (proc_ptr x) (bill_ptr x)
    (vmrestart x) (vmrequest x) (pagefaults x) (sched_type x) (lost_ticks x) (realtime x)
    (next_timeout x) (clock_timers x) (intr_off x) (locklevel x) v (boottime x)
    (load_history x) (load_last_slot x) (load_last_clock x) (who_e x) (who_p x)
    (sys_call_code x) (irq_hooks x) (irq_handlers x) (irq_actids x) (irq_use x)
    (irq_masked x) (rand_next x) (tsc_lo x) (minix_panicing x) (vm_running x) (ptproc x)
    (osfxsr_feature x) (map_info x) (mem x).
Definition set_boottime (v : Z) (x : kstate) : kstate :=
  mk_kstate (k_proc x) (k_priv x) (rdy_head x) (rdy_tail x) (proc_ptr x) (bill_ptr x)
    (vmrestart x) (vmrequest x) (pagefaults x) (sched_type x) (lost_ticks x) (realtime x)
    (next_timeout x) (clock_timers x) (intr_off x) (locklevel x) (system_hz x) v
    (load_history x) (load_last_slot x) (load_last_clock x) (who_e x) (who_p x)
    (sys_call_code x) (irq_hooks x) (irq_handlers x) (irq_actids x) (irq_use x)
    (irq_masked x) (rand_next x) (tsc_lo x) (minix_panicing x) (vm_running x) (ptproc x)
    (osfxsr_feature x) (map_info x) (mem x).
Definition set_load_history (v : Z -> Z) (x : kstate) : kstate :=
  mk_kstate (k_proc x) (k_priv x) (rdy_head x) (rdy_tail x) (proc_ptr x) (bill_ptr x)
    (vmrestart x) (vmrequest x) (pagefaults x) (sched_type x) (lost_ticks x) (realtime x)
    (next_timeout x) (clock_timers x) (intr_off x) (locklevel x) (system_hz x) (boottime
    x) v (load_last_slot x) (load_last_clock x) (who_e x) (who_p x) (sys_call_code x)
    (irq_hooks x) (irq_handlers x) (irq_actids x) (irq_use x) (irq_masked x) (rand_next x)
    (tsc_lo x) (minix_panicing x) (vm_running x) (ptproc x) (osfxsr_feature x) (map_info
    x) (mem x).
Definition set_load_last_slot (v : Z) (x : kstate) : kstate :=
  mk_kstate (k_proc x) (k_priv x) (rdy_head x) (rdy_tail x) (proc_ptr x) (bill_ptr x)
    (vmrestart x) (vmrequest x) (pagefaults x) (sched_type x) (lost_ticks x) (realtime x)
    (next_timeout x) (clock_timers x) (intr_off x) (locklevel x) (system_hz x) (boottime
    x) (load_history x) v (load_last_clock x) (who_e x) (who_p x) (sys_call_code x)
    (irq_hooks x) (irq_handlers x) (irq_actids x) (irq_use x) (irq_masked x) (rand_next x)
    (tsc_lo x) (minix_panicing x) (vm_running x) (ptproc x) (osfxsr_feature x) (map_info
    x) (mem x).
Definition set_load_last_clock (v : Z) (x : kstate) : kstate :=
  mk_kstate (k_proc x) (k_priv x) (rdy_head x) (rdy_tail x) (proc_ptr x) (bill_ptr x)
    (vmrestart x) (vmrequest x) (pagefaults x) (sched_type x) (lost_ticks x) (realtime x)
    (next_timeout x) (clock_timers x) (intr_off x) (locklevel x) (system_hz x) (boottime
    x) (load_history x) (load_last_slot x) v (who_e x) (who_p x) (sys_call_code x)
    (irq_hooks x) (irq_handlers x) (irq_actids x) (irq_use x) (irq_masked x) (rand_next x)
    (tsc_lo x) (minix_panicing x) (vm_running x) (ptproc x) (osfxsr_feature x) (map_info
    x) (mem x).
Definition set_who_e (v : Z) (x : kstate) : kstate :=
  mk_kstate (k_proc x) (k_priv x) (rdy_head x) (rdy_tail x) (proc_ptr x) (bill_ptr x)
    (vmrestart x) (vmrequest x) (pagefaults x) (sched_type x) (lost_ticks x) (realtime x)
    (next_timeout x) (clock_timers x) (intr_off x) (locklevel x) (system_hz x) (boottime
    x) (load_history x) (load_last_slot x) (load_last_clock x) v (who_p x) (sys_call_code
    x) (irq_hooks x) (irq_handlers x) (irq_actids x) (irq_use x) (irq_masked x) (rand_next
    x) (tsc_lo x) (minix_panicing x) (vm_running x) (ptproc x) (osfxsr_feature x)
    (map_info x) (mem x).
Definition set_who_p (v : Z) (x : kstate) : kstate :=
  mk_kstate (k_proc x) (k_priv x) (rdy_head x) (rdy_tail x) (proc_ptr x) (bill_ptr x)
    (vmrestart x) (vmrequest x) (pagefaults x) (sched_type x) (lost_ticks x) (realtime x)
    (next_timeout x) (clock_timers x) (intr_off x) (locklevel x) (system_hz x) (boottime
    x) (load_history x) (load_last_slot x) (load_last_clock x) (who_e x) v (sys_call_code
    x) (irq_hooks x) (irq_handlers x) (irq_actids x) (irq_use x) (irq_masked x) (rand_next
    x) (tsc_lo x) (minix_panicing x) (vm_running x) (ptproc x) (osfxsr_feature x)
    (map_info x) (mem x).
Definition set_sys_call_code (v : Z) (x : kstate) : kstate :=
  mk_kstate (k_proc x) (k_priv x) (rdy_head x) (rdy_tail x) (proc_ptr x) (bill_ptr x)
    (vmrestart x) (vmrequest x) (pagefaults x) (sched_type x) (lost_ticks x) (realtime x)
    (next_timeout x) (clock_timers x) (intr_off x) (locklevel x) (system_hz x) (boottime
    x) (load_history x) (load_last_slot x) (load_last_clock x) (who_e x) (who_p x) v
    (irq_hooks x) (irq_handlers x) (irq_actids x) (irq_use x) (irq_masked x) (rand_next x)
    (tsc_lo x) (minix_panicing x) (vm_running x) (ptproc x) (osfxsr_feature x) (map_info
    x) (mem x).
Definition set_irq_hooks (v : Z -> irq_hook_t) (x : kstate) : kstate :=
  mk_kstate (k_proc x) (k_priv x) (rdy_head x) (rdy_tail x) (proc_ptr x) (bill_ptr x)
    (vmrestart x) (vmrequest x) (pagefaults x) (sched_type x) (lost_ticks x) (realtime x)
    (next_timeout x) (clock_timers x) (intr_off x) (locklevel x) (system_hz x) (boottime
    x) (load_history x) (load_last_slot x) (load_last_clock x) (who_e x) (who_p x)
    (sys_call_code x) v (irq_handlers x) (irq_actids x) (irq_use x) (irq_masked x)
    (rand_next x) (tsc_lo x) (minix_panicing x) (vm_running x) (ptproc x) (osfxsr_feature
    x) (map_info x) (mem x).
Definition set_irq_handlers (v : Z -> option Z) (x : kstate) : kstate :=
  mk_kstate (k_proc x) (k_priv x) (rdy_head x) (rdy_tail x) (proc_ptr x) (bill_ptr x)
    (vmrestart x) (vmrequest x) (pagefaults x) (sched_type x) (lost_ticks x) (realtime x)
    (next_timeout x) (clock_timers x) (intr_off x) (locklevel x) (system_hz x) (boottime
    x) (load_history x) (load_last_slot x) (load_last_clock x) (who_e x) (who_p x)
    (sys_call_code x) (irq_hooks x) v (irq_actids x) (irq_use x) (irq_masked x) (rand_next
    x) (tsc_lo x) (minix_panicing x) (vm_running x) (ptproc x) (osfxsr_feature x)
    (map_info x) (mem x).
Definition set_irq_actids (v : Z -> Z) (x : kstate) : kstate :=
  mk_kstate (k_proc x) (k_priv x) (rdy_head x) (rdy_tail x) (proc_ptr x) (bill_ptr x)
    (vmrestart x) (vmrequest x) (pagefaults x) (sched_type x) (lost_ticks x) (realtime x)
    (next_timeout x) (clock_timers x) (intr_off x) (locklevel x) (system_hz x) (boottime
    x) (load_history x) (load_last_slot x) (load_last_clock x) (who_e x) (who_p x)
    (sys_call_code x) (irq_hooks x) (irq_handlers x) v (irq_use x) (irq_masked x)
    (rand_next x) (tsc_lo x) (minix_panicing x) (vm_running x) (ptproc x) (osfxsr_feature
    x) (map_info x) (mem x).
Definition set_irq_use (v : Z) (x : kstate) : kstate :=
  mk_kstate (k_proc x) (k_priv x) (rdy_head x) (rdy_tail x) (proc_ptr x) (bill_ptr x)
    (vmrestart x) (vmrequest x) (pagefaults x) (sched_type x) (lost_ticks x) (realtime x)
    (next_timeout x) (clock_timers x) (intr_off x) (locklevel x) (system_hz x) (boottime
    x) (load_history x) (load_last_slot x) (load_last_clock x) (who_e x) (who_p x)
    (sys_call_code x) (irq_hooks x) (irq_handlers x) (irq_actids x) v (irq_masked x)
    (rand_next x) (tsc_lo x) (minix_panicing x) (vm_running x) (ptproc x) (osfxsr_feature
    x) (map_info x) (mem x).
Definition set_irq_masked (v : Z -> bool) (x : kstate) : kstate :=
  mk_kstate (k_proc x) (k_priv x) (rdy_head x) (rdy_tail x) (proc_ptr x) (bill_ptr x)
    (vmrestart x) (vmrequest x) (pagefaults x) (sched_type x) (lost_ticks x) (realtime x)
    (next_timeout x) (clock_timers x) (intr_off x) (locklevel x) (system_hz x) (boottime
    x) (load_history x) (load_last_slot x) (load_last_clock x) (who_e x) (who_p x)
    (sys_call_code x) (irq_hooks x) (irq_handlers x) (irq_actids x) (irq_use x) v
    (rand_next x) (tsc_lo x) (minix_panicing x) (vm_running x) (ptproc x) (osfxsr_feature
    x) (map_info x) (mem x).
Definition set_rand_next (v : Z) (x : kstate) : kstate :=
  mk_kstate (k_proc x) (k_priv x) (rdy_head x) (rdy_tail x) (proc_ptr x) (bill_ptr x)
    (vmrestart x) (vmrequest x) (pagefaults x) (sched_type x) (lost_ticks x) (realtime x)
    (next_timeout x) (clock_timers x) (intr_off x) (locklevel x) (system_hz x) (boottime
    x) (load_history x) (load_last_slot x) (load_last_clock x) (who_e x) (who_p x)
    (sys_call_code x) (irq_hooks x) (irq_handlers x) (irq_actids x) (irq_use x)
    (irq_masked x) v (tsc_lo x) (minix_panicing x) (vm_running x) (ptproc x)
    (osfxsr_feature x) (map_info x) (mem x).
Definition set_tsc_lo (v : Z) (x : kstate) : kstate :=
  mk_kstate (k_proc x) (k_priv x) (rdy_head x) (rdy_tail x) (proc_ptr x) (bill_ptr x)
    (vmrestart x) (vmrequest x) (pagefaults x) (sched_type x) (lost_ticks x) (realtime x)
    (next_timeout x) (clock_timers x) (intr_off x) (locklevel x) (system_hz x) (boottime
    x) (load_history x) (load_last_slot x) (load_last_clock x) (who_e x) (who_p x)
    (sys_call_code x) (irq_hooks x) (irq_handlers x) (irq_actids x) (irq_use x)
    (irq_masked x) (rand_next x) v (minix_panicing x) (vm_running x) (ptproc x)
    (osfxsr_feature x) (map_info x) (mem x).
Definition set_minix_panicing (v : Z) (x : kstate) : kstate :=
  mk_kstate (k_proc x) (k_priv x) (rdy_head x) (rdy_tail x) (proc_ptr x) (bill_ptr x)
    (vmrestart x) (vmrequest x) (pagefaults x) (sched_type x) (lost_ticks x) (realtime x)
    (next_timeout x) (clock_timers x) (intr_off x) (locklevel x) (system_hz x) (boottime
    x) (load_history x) (load_last_slot x) (load_last_clock x) (who_e x) (who_p x)
    (sys_call_code x) (irq_hooks x) (irq_handlers x) (irq_actids x) (irq_use x)
    (irq_masked x) (rand_next x) (tsc_lo x) v (vm_running x) (ptproc x) (osfxsr_feature x)
    (map_info x) (mem x).
Definition set_vm_running (v : bool) (x : kstate) : kstate :=
  mk_kstate (k_proc x) (k_priv x) (rdy_head x) (rdy_tail x) (proc_ptr x) (bill_ptr x)
    (vmrestart x) (vmrequest x) (pagefaults x) (sched_type x) (lost_ticks x) (realtime x)
    (next_timeout x) (clock_timers x) (intr_off x) (locklevel x) (system_hz x) (boottime
    x) (load_history x) (load_last_slot x) (load_last_clock x) (who_e x) (who_p x)
    (sys_call_code x) (irq_hooks x) (irq_handlers x) (irq_actids x) (irq_use x)
    (irq_masked x) (rand_next x) (tsc_lo x) (minix_panicing x) v (ptproc x)
    (osfxsr_feature x) (map_info x) (mem x).
Definition set_ptproc (v : option Z) (x : kstate) : kstate :=
  mk_kstate (k_proc x) (k_priv x) (rdy_head x) (rdy_tail x) (proc_ptr x) (bill_ptr x)
    (vmrestart x) (vmrequest x) (pagefaults x) (sched_type x) (lost_ticks x) (realtime x)
    (next_timeout x) (clock_timers x) (intr_off x) (locklevel x) (system_hz x) (boottime
    x) (load_history x) (load_last_slot x) (load_last_clock x) (who_e x) (who_p x)
    (sys_call_code x) (irq_hooks x) (irq_handlers x) (irq_actids x) (irq_use x)
    (irq_masked x) (rand_next x) (tsc_lo x) (minix_panicing x) (vm_running x) v
    (osfxsr_feature x) (map_info x) (mem x).
Definition set_osfxsr_feature (v : bool) (x : kstate) : kstate :=
  mk_kstate (k_proc x) (k_priv x) (rdy_head x) (rdy_tail x) (proc_ptr x) (bill_ptr x)
    (vmrestart x) (vmrequest x) (pagefaults x) (sched_type x) (lost_ticks x) (realtime x)
    (next_timeout x) (clock_timers x) (intr_off x) (locklevel x) (system_hz x) (boottime
    x) (load_history x) (load_last_slot x) (load_last_clock x) (who_e x) (who_p x)
    (sys_call_code x) (irq_hooks x) (irq_handlers x) (irq_actids x) (irq_use x)
    (irq_masked x) (rand_next x) (tsc_lo x) (minix_panicing x) (vm_running x) (ptproc x) v
    (map_info x) (mem x).
Definition set_map_info (v : Z -> map_info_s) (x : kstate) : kstate :=
  mk_kstate (k_proc x) (k_priv x) (rdy_head x) (rdy_tail x) (proc_ptr x) (bill_ptr x)
    (vmrestart x) (vmrequest x) (pagefaults x) (sched_type x) (lost_ticks x) (realtime x)
    (next_timeout x) (clock_timers x) (intr_off x) (locklevel x) (system_hz x) (boottime
    x) (load_history x) (load_last_slot x) (load_last_clock x) (who_e x) (who_p x)
    (sys_call_code x) (irq_hooks x) (irq_handlers x) (irq_actids x) (irq_use x)
    (irq_masked x) (rand_next x) (tsc_lo x) (minix_panicing x) (vm_running x) (ptproc x)
    (osfxsr_feature x) v (mem x).
Definition set_mem (v : memory) (x : kstate) : kstate :=
  mk_kstate (k_proc x) (k_priv x) (rdy_head x) (rdy_tail x) (proc_ptr x) (bill_ptr x)
    (vmrestart x) (vmrequest x) (pagefaults x) (sched_type x) (lost_ticks x) (realtime x)
    (next_timeout x) (clock_timers x) (intr_off x) (locklevel x) (system_hz x) (boottime
    x) (load_history x) (load_last_slot x) (load_last_clock x) (who_e x) (who_p x)
    (sys_call_code x) (irq_hooks x) (irq_handlers x) (irq_actids x) (irq_use x)
    (irq_masked x) (rand_next x) (tsc_lo x) (minix_panicing x) (vm_running x) (ptproc x)
    (osfxsr_feature x) (map_info x) v.
