(* ===== verification/KState.v ===== *)
(** * Access to the kernel's tables

    Reading and writing the process and privilege tables with their bounds,
    the [lock]/[unlock] macros of kernel/const.h, the endpoint lookup of
    kernel/proc.c and the timer interface of kernel/clock.c. *)
From S2P Require Import Prelude PList KMonad Timers Types.

Abbreviation K := (M kstate).

(** ** Slots *)

(** A slot of the process table: [proc_addr(n)] is in bounds. *)
Definition slot (n : Z) : Prop := - NR_TASKS <= n < NR_PROCS.
Definition priv_slot (i : Z) : Prop := 0 <= i < NR_SYS_PROCS.
Definition queue_ok (q : Z) : Prop := 0 <= q < NR_SCHED_QUEUES.
#[export] Instance slot_dec n : Decision (slot n).
Proof. unfold slot. apply _. Defined.
#[export] Instance priv_slot_dec n : Decision (priv_slot n).
Proof. unfold priv_slot. apply _. Defined.
#[export] Instance queue_ok_dec n : Decision (queue_ok n).
Proof. unfold queue_ok. apply _. Defined.

(** [BEG_PROC_ADDR .. END_PROC_ADDR], [BEG_USER_ADDR .. END_PROC_ADDR],
    [BEG_PRIV_ADDR .. END_PRIV_ADDR]. *)
Definition all_slots : list Z := seqZ (- NR_TASKS) (NR_TASKS + NR_PROCS).
Definition user_slots : list Z := seqZ 0 NR_PROCS.
Definition all_privs : list Z := seqZ 0 NR_SYS_PROCS.

Lemma elem_of_all_slots n : n ∈ all_slots <-> slot n.
Proof. unfold all_slots, slot. rewrite elem_of_seqZ. lia. Qed.

Lemma elem_of_all_privs n : n ∈ all_privs <-> priv_slot n.
Proof. unfold all_privs, priv_slot. rewrite elem_of_seqZ. lia. Qed.

(** Enough fuel for a list threaded through the process table. *)
Definition PROC_FUEL : nat := 261.

Lemma slots_fuel l : NoDup l -> (forall x, x ∈ l -> slot x) -> (length l < PROC_FUEL)%nat.
Proof.
  intros Hn Hs.
  pose proof (NoDup_bounded_length l (- NR_TASKS) (NR_TASKS + NR_PROCS) Hn) as Hb.
  change (Z.to_nat (NR_TASKS + NR_PROCS)) with 260%nat in Hb. unfold PROC_FUEL.
  enough (length l <= 260)%nat by lia. apply Hb. intros x Hx. specialize (Hs x Hx).
  unfold slot in Hs. lia.
Qed.

(** ** Process and privilege structures *)

Definition upd_proc (n : Z) (f : proc -> proc) (s : kstate) : kstate :=
  set_k_proc (<[n := f (k_proc s n)]> (k_proc s)) s.
Definition upd_priv (i : Z) (f : priv -> priv) (s : kstate) : kstate :=
  set_k_priv (<[i := f (k_priv s i)]> (k_priv s)) s.

(** [rp->field] and an assignment through [rp]. *)
Definition rd {A} (rp : Z) (f : proc -> A) : K A := fun s =>
  if decide (slot rp) then Done (f (k_proc s rp)) s else Stuck BadIndex.
Definition wr (rp : Z) (f : proc -> proc) : K unit := fun s =>
  if decide (slot rp) then Done tt (upd_proc rp f s) else Stuck BadIndex.

(** [priv_addr(id)->field] and an assignment through it. *)
Definition rdp {A} (id : Z) (f : priv -> A) : K A := fun s =>
  if decide (priv_slot id) then Done (f (k_priv s id)) s else Stuck BadIndex.
Definition wrp (id : Z) (f : priv -> priv) : K unit := fun s =>
  if decide (priv_slot id) then Done tt (upd_priv id f s) else Stuck BadIndex.

(** [priv(rp)]. *)
Definition priv_of (rp : Z) : K Z := do o <- rd rp p_priv; from_ptr o.

(** [RTS_ISSET(rp, f)], [proc_is_runnable(rp)], [isemptyp(rp)], [iskerneln(n)]. *)
Definition RTS_ISSET (rp f : Z) : K bool := rd rp (fun p => flag_isset (p_rts_flags p) f).
Definition proc_is_runnable (rp : Z) : K bool := rd rp (fun p => p_rts_flags p =? 0).
Definition isemptyp (rp : Z) : K bool := rd rp (fun p => p_rts_flags p =? RTS_SLOT_FREE).
Definition iskerneln (n : Z) : bool := n <? 0.

(** [isokprocn(n)]: the unsigned comparison excludes both ends. *)
Definition isokprocn (n : Z) : bool := bool_decide (slot n).

(** [isokendpt(e, &p)]: the slot of a live process with this very endpoint. *)
Definition isokendpt (e : Z) : K (option Z) :=
  let p := _ENDPOINT_P e in
  if negb (isokprocn p) then ret None
  else do empty <- isemptyp p;
       if empty : bool then ret None
       else do ep <- rd p p_endpoint;
            if negb (ep =? e) then ret None else ret (Some p).

(** [okendpt(e, &p)]: the same, fatal. *)
Definition okendpt (e : Z) : K Z :=
  do o <- isokendpt e;
  match o with Some p => ret p | None => panic "invalid endpoint" end.

(** [endpoint_lookup]. *)
Definition endpoint_lookup (e : Z) : K (option Z) := isokendpt e.

(** [may_send_to(rp, nr)]. *)
Definition may_send_to (rp nr : Z) : K bool :=
  do pr <- priv_of rp;
  do pd <- priv_of nr;
  do id <- rdp pd s_id;
  rdp pr (fun sp => get_sys_bit (s_ipc_to sp) id).

(** ** Interrupts: [lock], [unlock] *)

Definition set_lock (off : bool) (level : Z) (s : kstate) : kstate :=
  set_locklevel level (set_intr_off off s).

Definition lock : K unit :=
  do d <- gets intr_off;
  do! modify (fun s => set_lock true (locklevel s + 1) s);
  do l <- gets locklevel;
  if d && (l =? 1) then panic "reallock while interrupts disabled first time" else ret tt.

Definition unlock : K unit :=
  do d <- gets intr_off;
  if negb d then panic "realunlock while interrupts enabled"
  else do l <- gets locklevel;
       if l <? 1 then panic "realunlock while locklevel below 1"
       else do! modify (fun s => set_locklevel (l - 1) s);
            if l - 1 =? 0 then modify (set_intr_off false) else ret tt.

(** [NOREC_ENTER] .. [NOREC_RETURN] and the [RTS_LOCK_] macros: interrupts are
    disabled around [m] when they were enabled. *)
Definition with_intr_off {A} (m : K A) : K A :=
  do d <- gets intr_off;
  do! when (negb d) lock;
  do r <- m;
  do! when (negb d) unlock;
  ret r.

(** The lock state in which [lock] and [unlock] do not panic. *)
Definition lock_ok (s : kstate) : Prop :=
  0 <= locklevel s /\ (intr_off s = false -> locklevel s = 0).

Definition lock_same (s s' : kstate) : Prop :=
  intr_off s' = intr_off s /\ locklevel s' = locklevel s.

Lemma set_lock_id s : set_lock (intr_off s) (locklevel s) s = s.
Proof. by destruct s. Qed.

Lemma lock_ok_same s s' : lock_ok s -> lock_same s s' -> lock_ok s'.
Proof. unfold lock_ok, lock_same. intros [] [-> ->]. done. Qed.

(** ** Rules of the program logic for the accessors *)

Section rules.
Context (E : Prop).

Lemma wpx_rd {A} rp (f : proc -> A) Q s :
  slot rp -> Q (f (k_proc s rp)) s -> wpx E (rd rp f) Q s.
Proof. intros. eapply wpx_done; [unfold rd; by rewrite decide_True|done]. Qed.

Lemma wpx_wr rp f Q s : slot rp -> Q tt (upd_proc rp f s) -> wpx E (wr rp f) Q s.
Proof. intros. eapply wpx_done; [unfold wr; by rewrite decide_True|done]. Qed.

Lemma wpx_rdp {A} i (f : priv -> A) Q s :
  priv_slot i -> Q (f (k_priv s i)) s -> wpx E (rdp i f) Q s.
Proof. intros. eapply wpx_done; [unfold rdp; by rewrite decide_True|done]. Qed.

Lemma wpx_wrp i f Q s : priv_slot i -> Q tt (upd_priv i f s) -> wpx E (wrp i f) Q s.
Proof. intros. eapply wpx_done; [unfold wrp; by rewrite decide_True|done]. Qed.

Lemma wpx_priv_of rp i Q s :
  slot rp -> p_priv (k_proc s rp) = Some i -> Q i s -> wpx E (priv_of rp) Q s.
Proof. intros Hs Hp HQ. unfold priv_of. apply wpx_bind, wpx_rd; [done|]. rewrite Hp. done. Qed.

Lemma wpx_RTS_ISSET rp f Q s :
  slot rp -> Q (flag_isset (p_rts_flags (k_proc s rp)) f) s -> wpx E (RTS_ISSET rp f) Q s.
Proof. intros. by apply (wpx_rd (A:=bool)). Qed.

Lemma wpx_proc_is_runnable rp Q s :
  slot rp -> Q (p_rts_flags (k_proc s rp) =? 0) s -> wpx E (proc_is_runnable rp) Q s.
Proof. intros. by apply (wpx_rd (A:=bool)). Qed.

Lemma wpx_isemptyp rp Q s :
  slot rp -> Q (p_rts_flags (k_proc s rp) =? RTS_SLOT_FREE) s -> wpx E (isemptyp rp) Q s.
Proof. intros. by apply (wpx_rd (A:=bool)). Qed.

Lemma wpx_with_intr_off {A} (m : K A) Q s :
  lock_ok s ->
  (forall s1, s1 = s \/ s1 = set_lock true 1 s -> intr_off s1 = true -> lock_ok s1 ->
     wpx E m (fun r s2 => lock_same s1 s2 /\ Q r (set_lock (intr_off s) (locklevel s) s2)) s1) ->
  wpx E (with_intr_off m) Q s.
Proof.
  intros [H0 Hl] Hm. unfold with_intr_off. apply wpx_bind, wpx_gets, wpx_bind.
  destruct (intr_off s) eqn:Ei; simpl.
  - apply wpx_ret, wpx_bind. eapply wpx_conseq; [apply (Hm s); [tauto|done|by split; [|congruence]]|].
    intros r s2 [[E1 E2] HQ]. apply wpx_bind, wpx_ret, wpx_ret.
    rewrite <- Ei, <- E1, <- E2, set_lock_id in HQ. done.
  - specialize (Hl eq_refl). unfold lock. apply wpx_bind, wpx_gets.
    apply wpx_bind, wpx_modify, wpx_bind, wpx_gets. rewrite Ei, Hl. simpl. apply wpx_ret, wpx_bind.
    eapply wpx_conseq; [apply (Hm (set_lock true 1 s)); [tauto|done|by split]|].
    intros r s2 [[E1 E2] HQ]. simpl in E1, E2. apply wpx_bind. unfold unlock.
    apply wpx_bind, wpx_gets. rewrite E1. simpl. apply wpx_bind, wpx_gets. rewrite E2. simpl.
    apply wpx_bind, wpx_modify, wpx_modify, wpx_ret. rewrite Hl in HQ.
    replace (set_intr_off false (set_locklevel 0 s2)) with (set_lock false 0 s2) by done. done.
Qed.

End rules.

(** ** The timer interface of clock.c *)

(** Every timer structure of the kernel. *)
Definition all_timers : list tmr_ref :=
  (TDeadline <$> all_slots) ++ (TAlarm <$> all_privs) ++ [TQueue; TShutdown].

Definition TIMER_FUEL : nat := 300.

Definition ztmr {A} : M (tstate tmr_ref watchdog) A -> K A := zoom clock_timers set_clock_timers.

Definition get_uptime : K Z := gets realtime.

(** [set_timer]: dereferences the head, which [tmrs_settimer] has just filled. *)
Definition set_timer (tp : tmr_ref) (exp_time : Z) (w : watchdog) : K unit :=
  do! ztmr (tmrs_settimer TIMER_FUEL tp exp_time w);
  do h <- gets (fun s => tq (clock_timers s));
  do k <- from_ptr h;
  modify (fun s => set_next_timeout (tmr_exp_time (tm (clock_timers s) k)) s).

(** The expiration time at the head, [TMR_NEVER] when there is none. *)
Definition first_timeout (st : tstate tmr_ref watchdog) : Z :=
  match tq st with None => TMR_NEVER | Some k => tmr_exp_time (tm st k) end.

Definition reset_timer (tp : tmr_ref) : K unit :=
  do! ztmr (tmrs_clrtimer TIMER_FUEL tp);
  modify (fun s => set_next_timeout (first_timeout (clock_timers s)) s).
