(* ===== verification/Memory.v ===== *)
(** * Memory (kernel/arch/i386/memory.c)

    Physical memory, the i386 page tables in it, the mapping of a process'
    virtual addresses to linear addresses by its segments ([umap_local]) and of
    linear addresses to physical ones ([vm_lookup]), and copies that stop at
    the first byte whose page is not present ([PHYS_COPY_CATCH]).  Variables of
    the kernel are values of the model, not bytes of this memory: a copy from
    or to a kernel variable reads or writes a list of bytes. *)
From S2P Require Import Prelude PList KMonad Timers Types KState.

(** ** Page tables (include/sys/vm_i386.h) *)

Definition I386_PAGE_SIZE : Z := 4096.
Definition I386_VM_PRESENT : Z := 0x001.
Definition I386_VM_WRITE : Z := 0x002.
Definition I386_VM_BIGPAGE : Z := 0x080.
Definition I386_VM_ADDR_MASK_4MB : Z := 0xFFC00000.
Definition I386_VM_OFFSET_MASK_4MB : Z := 0x003FFFFF.
Definition I386_VM_PTE (v : Z) : Z := Z.land (Z.shiftr v 12) 0x3FF.
Definition I386_VM_PDE (v : Z) : Z := Z.shiftr v 22.
Definition I386_VM_PFA (e : Z) : Z := Z.land e 0xFFFFF000.

(** A 32-bit little-endian word at a physical address. *)
Definition load32 (m : memory) (a : Z) : Z :=
  m a + 256 * m (a + 1) + 65536 * m (a + 2) + 16777216 * m (a + 3).

(** [phys_get32]. *)
Definition phys_get32 (m : memory) (a : Z) : Z := load32 m a.

(** The walk of the page directory at [root] and of its page table: the physical
    address and the entry it comes from; [None] when an entry is not present.
    [perm] is a test on the entries used. *)
Definition page_walk (m : memory) (perm : Z -> bool) (root virtual : Z) : option (Z * Z) :=
  let pde_v := phys_get32 m (root + 4 * I386_VM_PDE virtual) in
  if negb (flag_any pde_v I386_VM_PRESENT && perm pde_v) then None
  else if flag_any pde_v I386_VM_BIGPAGE then
    Some (Z.land pde_v I386_VM_ADDR_MASK_4MB + Z.land virtual I386_VM_OFFSET_MASK_4MB, pde_v)
  else
    let pt := I386_VM_PFA pde_v in
    let pte_v := phys_get32 m (pt + 4 * I386_VM_PTE virtual) in
    if negb (flag_any pte_v I386_VM_PRESENT && perm pte_v) then None
    else Some (I386_VM_PFA pte_v + virtual mod I386_PAGE_SIZE, pte_v).

(** [HASPT(p)]. *)
Definition HASPT (p : proc) : bool := negb (p_cr3 p =? 0).

(** [vm_lookup]: OK with the physical address and the entry, or EFAULT. *)
Definition vm_lookup (s : kstate) (p : proc) (virtual : Z) : option (Z * Z) :=
  if negb (HASPT p) then Some (virtual, 0)
  else page_walk (mem s) (fun _ => true) (p_cr3 p) virtual.

(** [vm_contiguous]: consecutive pages are consecutive in physical memory. *)
Fixpoint contiguous_pages (n : nat) (s : kstate) (p : proc) (vir : Z) (prev : option Z) : bool :=
  match n with
  | O => true
  | S n' =>
      match vm_lookup s p vir with
      | None => false
      | Some (phys, _) =>
          let ok := match prev with None => true | Some pp => u32 (pp + I386_PAGE_SIZE) =? phys end in
          ok && contiguous_pages n' s p (u32 (vir + I386_PAGE_SIZE)) (Some phys)
      end
  end.

Definition vm_contiguous (s : kstate) (p : proc) (vir_buf bytes : Z) : bool :=
  if negb (HASPT p) then true
  else
    let po := vir_buf mod I386_PAGE_SIZE in
    let bytes1 := u32 (bytes + po) in
    let vir1 := u32 (vir_buf - po) in
    let po2 := u32 (vir1 + bytes1) mod I386_PAGE_SIZE in
    let bytes2 := if 0 <? po2 then u32 (bytes1 + (I386_PAGE_SIZE - po2)) else bytes1 in
    contiguous_pages (Z.to_nat (bytes2 / I386_PAGE_SIZE)) s p vir1 None.

(** ** Address spaces

    How the processor maps an address: physical memory, or a page directory. *)
Inductive aspace := Phys | Paged (cr3 : Z).

(** With [CR0.WP] set the kernel, too, faults on a write to a read-only page. *)
Definition translate (m : memory) (a : aspace) (wr : bool) (lin : Z) : option Z :=
  match a with
  | Phys => Some lin
  | Paged cr3 => option_map fst (page_walk m (fun e => negb wr || flag_any e I386_VM_WRITE) cr3 lin)
  end.

(** The space in which the kernel runs: the page table of [ptproc], once VM runs. *)
Definition cur_space (s : kstate) : aspace :=
  if vm_running s then
    match ptproc s with Some p => Paged (p_cr3 (k_proc s p)) | None => Phys end
  else Phys.

(** The space [CREATEPDE] maps for a process, or for physical memory. *)
Definition proc_space (s : kstate) (o : option Z) : aspace :=
  match o with
  | None => Phys
  | Some p => if HASPT (k_proc s p) then Paged (p_cr3 (k_proc s p)) else cur_space s
  end.

(** [vm_set_cr3]. *)
Definition vm_set_cr3 (newptproc : Z) : K unit := with_intr_off (
  do cr3 <- rd newptproc p_cr3;
  when (negb (cr3 =? 0)) (modify (set_ptproc (Some newptproc)))).

(** ** Reading and writing bytes

    A copy stops at the first byte that faults: the bytes copied so far, and
    whether the copy is whole. *)

Fixpoint read_bytes (n : nat) (m : memory) (a : aspace) (lin : Z) : list Z * bool :=
  match n with
  | O => ([], true)
  | S n' =>
      match translate m a false lin with
      | None => ([], false)
      | Some ph => let r := read_bytes n' m a (u32 (lin + 1)) in (m ph :: fst r, snd r)
      end
  end.

Fixpoint write_bytes (bs : list Z) (m : memory) (a : aspace) (lin : Z) : memory * bool :=
  match bs with
  | [] => (m, true)
  | b :: bs' =>
      match translate m a true lin with
      | None => (m, false)
      | Some ph => write_bytes bs' (<[ph := b]> m) a (u32 (lin + 1))
      end
  end.

Inductive copy_result := CopyOk | CopyFaultSrc | CopyFaultDst.

(** [phys_copy] between two spaces, byte by byte in ascending order. *)
Fixpoint copy_bytes (n : nat) (m : memory) (sa : aspace) (sl : Z) (da : aspace) (dl : Z)
    : memory * copy_result :=
  match n with
  | O => (m, CopyOk)
  | S n' =>
      match translate m sa false sl with
      | None => (m, CopyFaultSrc)
      | Some sp =>
          match translate m da true dl with
          | None => (m, CopyFaultDst)
          | Some dp => copy_bytes n' (<[dp := m sp]> m) sa (u32 (sl + 1)) da (u32 (dl + 1))
          end
      end
  end.

(** ** Segments *)

Definition CLICK_SHIFT : Z := 12.
Definition SEG_T : Z := 0.
Definition SEG_D : Z := 1.
Definition SEG_S : Z := 2.

(** [rp->p_memmap[seg]]. *)
Definition p_memmap (p : proc) (seg : Z) : mem_map :=
  if seg =? SEG_T then p_map_T p else if seg =? SEG_D then p_map_D p else p_map_S p.

(** The end of a segment, in clicks. *)
Definition seg_end (p : proc) (seg : Z) : Z :=
  u32 (mem_vir (p_memmap p seg) + mem_len (p_memmap p seg)).

(** The segment [umap_local] uses for a range whose last click is [vc]. *)
Definition pick_seg (p : proc) (seg vc : Z) : Z :=
  if negb (seg =? SEG_T) then (if vc <? seg_end p SEG_D then SEG_D else SEG_S)
  else if mem_len (p_memmap p SEG_T) =? 0 then SEG_D else SEG_T.

(** [umap_local] after its check of [seg]; 0 is a failure. *)
Definition umap_seg (p : proc) (seg vir_addr bytes : Z) : Z :=
  if bytes <=? 0 then 0
  else if u32 (vir_addr + bytes) <=? vir_addr then 0
  else
    let vc := Z.shiftr (u32 (vir_addr + bytes - 1)) CLICK_SHIFT in
    let seg' := pick_seg p seg vc in
    if seg_end p seg' <=? Z.shiftr vir_addr CLICK_SHIFT then 0
    else if seg_end p seg' <=? vc then 0
    else
      let seg_base := u32 (Z.shiftl (mem_phys (p_memmap p seg')) CLICK_SHIFT) in
      let pa := u32 (vir_addr - u32 (Z.shiftl (mem_vir (p_memmap p seg')) CLICK_SHIFT)) in
      u32 (seg_base + pa).

Definition umap_local (rp seg vir_addr bytes : Z) : K Z :=
  if negb (seg =? SEG_T) && negb (seg =? SEG_D) && negb (seg =? SEG_S)
  then panic "umap_local: wrong seg"
  else do p <- rd rp (fun p => p); ret (umap_seg p seg vir_addr bytes).

(** [umap_remote]: a remote segment of the process. *)
Definition NR_REMOTE_SEGS : Z := 3.
Definition umap_remote (rp seg vir_addr bytes : Z) : K Z :=
  if bytes <=? 0 then ret 0
  else if (seg <? 0) || (NR_REMOTE_SEGS <=? seg) then ret 0
  else
    do pr <- priv_of rp;
    do fm <- rdp pr (fun sp => s_farmem sp seg);
    if fm_in_use fm =? 0 then ret 0
    else if fm_mem_len fm <? u32 (vir_addr + bytes) then ret 0
    else ret (u32 (fm_mem_phys fm + vir_addr)).

(** [umap_bios] (kernel/system.c). *)
Definition BIOS_MEM_BEGIN : Z := 0x00000.
Definition BIOS_MEM_END : Z := 0x004FF.
Definition BASE_MEM_TOP : Z := 0x090000.
Definition UPPER_MEM_END : Z := 0x0FFFFF.
Definition umap_bios (vir_addr bytes : Z) : Z :=
  if (BIOS_MEM_BEGIN <=? vir_addr) && (u32 (vir_addr + bytes) <=? BIOS_MEM_END) then vir_addr
  else if (BASE_MEM_TOP <=? vir_addr) && (u32 (vir_addr + bytes) <=? UPPER_MEM_END) then vir_addr
  else 0.

(** ** Messages as bytes *)

Definition MESSAGE_SIZE : nat := 36.

(** A 32-bit word, little-endian, and back (as [int]). *)
Definition word_bytes (w : Z) : list Z :=
  let u := u32 w in
  [u mod 256; u / 256 mod 256; u / 65536 mod 256; u / 16777216 mod 256].
Definition bytes_word (b0 b1 b2 b3 : Z) : Z :=
  i32 (b0 + 256 * b1 + 65536 * b2 + 16777216 * b3).

Definition message_words (m : message) : list Z :=
  [m_source m; m_type m; m_w0 m; m_w1 m; m_w2 m; m_w3 m; m_w4 m; m_w5 m; m_w6 m].

Definition message_bytes (m : message) : list Z := concat (map word_bytes (message_words m)).

Fixpoint bytes_words (bs : list Z) : list Z :=
  match bs with
  | b0 :: b1 :: b2 :: b3 :: bs' => bytes_word b0 b1 b2 b3 :: bytes_words bs'
  | _ => []
  end.

Definition words_message (ws : list Z) : message :=
  match ws with
  | [a; b; c; d; e; f; g; h; i] => mk_message a b c d e f g h i
  | _ => null_message
  end.

Definition bytes_message (bs : list Z) : message := words_message (bytes_words bs).

(** Every field is an [int]. *)
Definition message_ok (m : message) : Prop := Forall (fun w => - 2147483648 <= w <= 2147483647) (message_words m).

Lemma word_roundtrip w : - 2147483648 <= w <= 2147483647 ->
  match word_bytes w with [b0; b1; b2; b3] => bytes_word b0 b1 b2 b3 = w | _ => False end.
Proof.
  intros Hw. unfold word_bytes, bytes_word. set (u := u32 w).
  assert (Hu : 0 <= u < 2 ^ 32) by apply u32_range.
  replace (u mod 256 + 256 * (u / 256 mod 256) + 65536 * (u / 65536 mod 256) +
           16777216 * (u / 16777216 mod 256)) with u.
  - unfold u. by apply i32_u32.
  - pose proof (Z.div_mod u 256). pose proof (Z.div_mod (u / 256) 256).
    pose proof (Z.div_mod (u / 65536) 256).
    rewrite (Z.mod_small (u / 16777216)) by (split; [apply Z.div_pos|apply Z.div_lt_upper_bound]; lia).
    replace (u / 65536) with (u / 256 / 256) in * by (rewrite Z.div_div by lia; done).
    replace (u / 16777216) with (u / 256 / 256 / 256) in * by (rewrite !Z.div_div by lia; done). lia.
Qed.

(** Encoding a message and decoding it gives it back. *)
Lemma message_roundtrip m : message_ok m -> bytes_message (message_bytes m) = m.
Proof.
  intros Hm. unfold bytes_message, message_bytes.
  assert (H : bytes_words (concat (map word_bytes (message_words m))) = message_words m).
  { unfold message_ok in Hm. induction (message_words m) as [|w ws IH]; [done|].
    apply Forall_cons in Hm as [Hw Hws]. pose proof (word_roundtrip w Hw) as Hr. simpl.
    simpl in Hr. by rewrite Hr, IH. }
  rewrite H. by destruct m.
Qed.

(** What is decoded is a message of [int]s, whatever the bytes. *)
Lemma bytes_message_ok bs : message_ok (bytes_message bs).
Proof.
  assert (H : Forall (fun w => - 2147483648 <= w <= 2147483647) (bytes_words bs)).
  { revert bs. fix IH 1. intros [|b0 [|b1 [|b2 [|b3 bs]]]]; try apply Forall_nil_2.
    simpl. apply Forall_cons_2; [|apply IH]. unfold bytes_word. pose proof (i32_range
      (b0 + 256 * b1 + 65536 * b2 + 16777216 * b3)). lia. }
  unfold bytes_message, message_ok. revert H. generalize (bytes_words bs). intros ws H.
  do 9 (destruct ws as [|? ws]; [by repeat constructor|]).
  destruct ws as [|? ws]; [exact H|by repeat constructor].
Qed.

Lemma message_bytes_length m : length (message_bytes m) = MESSAGE_SIZE.
Proof. done. Qed.

(** Copying a message from or to a linear address of the current space. *)
Definition read_message (s : kstate) (lin : Z) : list Z * bool :=
  read_bytes MESSAGE_SIZE (mem s) (cur_space s) lin.

Definition write_message (m : message) (lin : Z) (s : kstate) : kstate * bool :=
  let r := write_bytes (message_bytes m) (mem s) (cur_space s) lin in (set_mem (fst r) s, snd r).

(** A message whose first bytes have been overwritten. *)
Definition overwrite (bs : list Z) (m : message) : message :=
  bytes_message (bs ++ drop (length bs) (message_bytes m)).

Lemma read_bytes_length n m a lin :
  snd (read_bytes n m a lin) = true -> length (fst (read_bytes n m a lin)) = n.
Proof.
  revert lin. induction n as [|n IH]; intros lin; simpl; [done|].
  destruct (translate m a false lin); simpl; [|done]. intros H. by rewrite IH.
Qed.

Lemma overwrite_whole bs m : length bs = MESSAGE_SIZE -> overwrite bs m = bytes_message bs.
Proof.
  intros H. unfold overwrite. rewrite H. rewrite drop_ge; [by rewrite app_nil_r|].
  by rewrite message_bytes_length.
Qed.
