(* ===== verification/TimerIface.v ===== *)
(** * The timer interface of the CLOCK task (kernel/clock.c)

    [set_timer] and [reset_timer] keep the queue of timers sorted and
    [next_timeout] equal to its first expiration time. *)
From S2P Require Import Prelude PList KMonad Timers Types KState.

Definition timer_ok (k : tmr_ref) : Prop := k ∈ all_timers.
#[export] Instance timer_ok_dec k : Decision (timer_ok k).
Proof. unfold timer_ok. apply _. Defined.

(** The queue of armed timers is the list [l]. *)
Record timers_q (s : kstate) (l : list tmr_ref) : Prop := mk_timers_q {
  tr_rep : tq_rep (clock_timers s) l;
  tr_ok k : k ∈ l -> timer_ok k }.

(** Moreover [next_timeout] is up to date; it is not while timers expire. *)
Record timers_rep (s : kstate) (l : list tmr_ref) : Prop := mk_timers_rep {
  tr_q : timers_q s l;
  tr_next : next_timeout s = first_timeout (clock_timers s) }.

Definition timers_inv (s : kstate) : Prop := exists l, timers_rep s l.

Lemma NoDup_incl_length {A} `{EqDecision A} (l l' : list A) :
  NoDup l -> (forall x, x ∈ l -> x ∈ l') -> (length l <= length l')%nat.
Proof. intros Hn Hs. by apply submseteq_length, NoDup_submseteq. Qed.

Lemma timers_fuel l : NoDup l -> (forall k, k ∈ l -> timer_ok k) -> (length l < TIMER_FUEL)%nat.
Proof.
  intros Hn Hk. pose proof (NoDup_incl_length l all_timers Hn Hk) as H.
  change (length all_timers) with 294%nat in H. unfold TIMER_FUEL. lia.
Qed.

Lemma timer_ok_deadline n : slot n -> timer_ok (TDeadline n).
Proof.
  intros H. unfold timer_ok, all_timers. apply elem_of_app. left.
  apply list_elem_of_fmap. exists n. split; [done|by apply elem_of_all_slots].
Qed.

Lemma timer_ok_alarm i : priv_slot i -> timer_ok (TAlarm i).
Proof.
  intros H. unfold timer_ok, all_timers. apply elem_of_app. right. apply elem_of_app. left.
  apply list_elem_of_fmap. exists i. split; [done|by apply elem_of_all_privs].
Qed.

Lemma timer_ok_queue : timer_ok TQueue.
Proof. apply elem_of_app. right. apply elem_of_app. right. apply list_elem_of_here. Qed.
#[export] Hint Resolve timer_ok_deadline timer_ok_alarm timer_ok_queue : minix.

(** The head of a queue is its first timer. *)
Lemma tq_rep_head st (l : list tmr_ref) :
  tq_rep (F:=watchdog) st l -> tq st = head l.
Proof. intros [H _ _]. destruct l; simpl in H; [done|by destruct H]. Qed.

Lemma insert_timer_cons {A} (time : A -> Z) x t l : exists y l', insert_timer time x t l = y :: l'.
Proof. destruct l as [|y l]; simpl; [eauto|]. destruct (t <? time y); eauto. Qed.

(** What arming and disarming change of the state. *)
Definition timers_changed (st : tstate tmr_ref watchdog) (s : kstate) : kstate :=
  set_next_timeout (first_timeout st) (set_clock_timers st s).

(** The time of [tp] may have been changed before it is armed. *)
Lemma set_timer_but_wp E s l tp t w (Q : unit -> kstate -> Prop) :
  tq_but tp (clock_timers s) l -> (forall k, k ∈ l -> timer_ok k) -> timer_ok tp ->
  (forall st, armed tp t w (clock_timers s) st l ->
     timers_rep (timers_changed st s) (insert_timer (exp_of (clock_timers s)) tp t (without tp l)) ->
     Q tt (timers_changed st s)) ->
  wpx E (set_timer tp t w) Q s.
Proof.
  intros H1 H2 Ht HQ. unfold set_timer.
  destruct (tmrs_settimer_rep TIMER_FUEL tp t w (clock_timers s) l H1) as (st & Es & Ha).
  { apply timers_fuel; [apply H1|done]. }
  apply wpx_bind. eapply wpx_done; [unfold ztmr, zoom; by rewrite Es|]. apply wpx_bind, wpx_gets.
  pose proof Ha as [Hr _]. pose proof (tq_rep_head _ _ Hr) as Hh.
  destruct (insert_timer_cons (exp_of (clock_timers s)) tp t (without tp l)) as (y & l' & Hy).
  rewrite Hy in Hh. simpl in Hh. simpl. rewrite Hh. apply wpx_bind, wpx_ret, wpx_modify. simpl.
  replace (tmr_exp_time (tm st y)) with (first_timeout st) by (unfold first_timeout; by rewrite Hh).
  apply HQ; [done|]. split; [split; [exact Hr|]|done].
  intros k Hk%insert_timer_elem. destruct Hk as [->|Hk]; [done|].
  apply elem_of_without in Hk as [_ Hk]. by apply H2.
Qed.

Lemma set_timer_wp E s l tp t w (Q : unit -> kstate -> Prop) :
  timers_q s l -> timer_ok tp ->
  (forall st, armed tp t w (clock_timers s) st l ->
     timers_rep (timers_changed st s) (insert_timer (exp_of (clock_timers s)) tp t (without tp l)) ->
     Q tt (timers_changed st s)) ->
  wpx E (set_timer tp t w) Q s.
Proof. intros [H1 H2]. by apply set_timer_but_wp, H2; apply tq_rep_but. Qed.

Lemma reset_timer_but_wp E s l tp (Q : unit -> kstate -> Prop) :
  tq_but tp (clock_timers s) l -> (forall k, k ∈ l -> timer_ok k) ->
  (forall st, cleared tp (clock_timers s) st l -> timers_rep (timers_changed st s) (without tp l) ->
     Q tt (timers_changed st s)) ->
  wpx E (reset_timer tp) Q s.
Proof.
  intros H1 H2 HQ. unfold reset_timer.
  destruct (tmrs_clrtimer_rep TIMER_FUEL tp (clock_timers s) l H1) as (st & Es & Ha).
  { apply timers_fuel; [apply H1|done]. }
  apply wpx_bind. eapply wpx_done; [unfold ztmr, zoom; by rewrite Es|]. apply wpx_modify. simpl.
  apply HQ; [done|]. pose proof Ha as [Hr _]. split; [split; [exact Hr|]|done].
  intros k [_ Hk]%elem_of_without. by apply H2.
Qed.

Lemma reset_timer_wp E s l tp (Q : unit -> kstate -> Prop) :
  timers_q s l ->
  (forall st, cleared tp (clock_timers s) st l -> timers_rep (timers_changed st s) (without tp l) ->
     Q tt (timers_changed st s)) ->
  wpx E (reset_timer tp) Q s.
Proof. intros [H1 H2]. by apply reset_timer_but_wp, H2; apply tq_rep_but. Qed.
