(* ===== verification/Sched.v ===== *)
(** * Scheduling: the operations (kernel/proc.c)

    The ready queues [rdy_head]/[rdy_tail] threaded through [p_nextready], the
    [RTS_] macros of kernel/proc.h, [enqueue], [enqueue_head], [dequeue],
    [sched], [balance_queues], [set_scheduler], and [pick_proc] with its three
    policies: priority queues, lottery, earliest deadline first. *)
From S2P Require Import Prelude PList KMonad Timers Types KState.

(** ** The ready queues *)

Definition rd_head (q : Z) : K (option Z) := fun s =>
  if decide (queue_ok q) then Done (rdy_head s q) s else Stuck BadIndex.
Definition rd_tail (q : Z) : K (option Z) := fun s =>
  if decide (queue_ok q) then Done (rdy_tail s q) s else Stuck BadIndex.
Definition wr_head (q : Z) (v : option Z) : K unit := fun s =>
  if decide (queue_ok q) then Done tt (set_rdy_head (<[q:=v]> (rdy_head s)) s) else Stuck BadIndex.
Definition wr_tail (q : Z) (v : option Z) : K unit := fun s =>
  if decide (queue_ok q) then Done tt (set_rdy_tail (<[q:=v]> (rdy_tail s)) s) else Stuck BadIndex.

Definition rq_plist (q : Z) (s : kstate) : plist Z :=
  mk_plist (rdy_head s q) (fun k => p_nextready (k_proc s k)).

(** [*xpp = v] on queue [q]. *)
Definition rq_assign (q : Z) (xpp : ploc Z) (v : option Z) : K unit :=
  match xpp with
  | LHead => wr_head q v
  | LNext k => wr k (set_p_nextready v)
  end.

(** [for (xpp = &rdy_head[q]; *xpp != NIL_PROC; xpp = &( *xpp)->p_nextready)]
    up to the first process that satisfies [stop]. *)
Definition rq_walk (q : Z) (stop : Z -> bool) : K (ploc Z) := fun s =>
  if decide (queue_ok q) then
    match walk stop PROC_FUEL (rq_plist q s) LHead with
    | Some xpp => Done xpp s
    | None => Stuck OutOfFuel
    end
  else Stuck BadIndex.

(** ** [dequeue] *)

Definition dequeue (rp : Z) : K unit := with_intr_off (
  do q <- rd rp p_priority;
  do xpp <- rq_walk q (fun x => x =? rp);
  do cur <- gets (fun s => deref (rq_plist q s) xpp);
  match cur with
  | None => ret tt
  | Some x =>
      do nxt <- rd x p_nextready;
      do! rq_assign q xpp nxt;
      do tl <- rd_tail q;
      when (bool_decide (tl = Some rp)) (wr_tail q (loc_node xpp))
  end).

(** ** The [RTS_SET] family that only needs [dequeue] *)

Definition RTS_SET (rp f : Z) : K unit :=
  do r <- proc_is_runnable rp;
  do! when r (dequeue rp);
  wr rp (fun p => set_p_rts_flags (flag_set (p_rts_flags p) f) p).

Definition RTS_LOCK_SET (rp f : Z) : K unit := with_intr_off (RTS_SET rp f).

Definition RTS_LOCK_SETFLAGS (rp f : Z) : K unit := with_intr_off (
  do r <- proc_is_runnable rp;
  do! when (r && negb (f =? 0)) (dequeue rp);
  wr rp (set_p_rts_flags f)).

(** ** [sched]: the queue to use and whether to insert at its front *)

Definition deadline_of (s : kstate) (rp : Z) : Z :=
  tmr_exp_time (tm (clock_timers s) (TDeadline rp)).

Definition sched (rp : Z) : K (Z * bool) :=
  do ticks <- rd rp p_ticks_left;
  let time_left := 0 <? ticks in
  do! when (negb time_left) (
    do! wr rp (fun p => set_p_ticks_left (p_quantum_size p) p);
    do pri <- rd rp p_priority;
    when (pri <? NR_SCHED_QUEUES - 1) (wr rp (fun p => set_p_priority (p_priority p + 1) p)));
  do dl <- gets (fun s => deadline_of s rp);
  do! when (0 <? dl) (wr rp (set_p_priority 7));
  do q <- rd rp p_priority;
  ret (q, time_left).

(** ** [enqueue], [enqueue_head] *)

(** Insert [rp] in queue [q], at its front or at its tail. *)
Definition rq_insert (rp q : Z) (front : bool) : K unit :=
  do h <- rd_head q;
  match h with
  | None =>
      do! wr_tail q (Some rp);
      do! wr_head q (Some rp);
      wr rp (set_p_nextready None)
  | Some _ =>
      if front then
        do! wr rp (set_p_nextready h);
        wr_head q (Some rp)
      else
        do t <- rd_tail q;
        do t <- from_ptr t;
        do! wr t (set_p_nextready (Some rp));
        do! wr_tail q (Some rp);
        wr rp (set_p_nextready None)
  end.

Definition enqueue (rp : Z) : K unit := with_intr_off (
  do qf <- sched rp;
  do! rq_insert rp (fst qf) (snd qf);
  do cur <- gets proc_ptr;
  do cur <- from_ptr cur;
  do cpri <- rd cur p_priority;
  do rpri <- rd rp p_priority;
  if rpri <? cpri then
    do pr <- priv_of cur;
    do fl <- rdp pr s_flags;
    when (flag_any fl PREEMPTIBLE) (RTS_SET cur RTS_PREEMPTED)
  else ret tt).

(** Only the first statement is under the [else]: the head is set in any case. *)
Definition enqueue_head (rp : Z) : K unit :=
  do q <- rd rp p_priority;
  do h <- rd_head q;
  do! match h with
      | None =>
          do! wr_tail q (Some rp);
          do! wr_head q (Some rp);
          wr rp (set_p_nextready None)
      | Some _ => wr rp (set_p_nextready h)
      end;
  wr_head q (Some rp).

Definition RTS_UNSET (rp f : Z) : K unit :=
  do rts <- rd rp p_rts_flags;
  do! wr rp (fun p => set_p_rts_flags (flag_clear (p_rts_flags p) f) p);
  do r <- proc_is_runnable rp;
  when (negb (rts =? 0) && r) (enqueue rp).

Definition RTS_LOCK_UNSET (rp f : Z) : K unit := with_intr_off (RTS_UNSET rp f).

(** ** [pick_proc] *)

(** [if (priv(rp)->s_flags & BILLABLE) bill_ptr = rp; return rp;] *)
Definition bill_and_return (rp : Z) : K Z :=
  do pr <- priv_of rp;
  do fl <- rdp pr s_flags;
  do! when (flag_any fl BILLABLE) (modify (set_bill_ptr (Some rp)));
  ret rp.

(** [for (; rp != NIL_PROC; rp = rp->p_nextready) body], with early exit. *)
Fixpoint scan {A R} (fuel : nat) (cur : option Z) (acc : A) (body : A -> Z -> K (A + R))
    : K (A + R) :=
  match cur with
  | None => ret (inl acc)
  | Some rp =>
      match fuel with
      | O => stuck OutOfFuel
      | S fuel' =>
          do r <- body acc rp;
          match r with
          | inl acc' => do nxt <- rd rp p_nextready; scan fuel' nxt acc' body
          | inr v => ret (inr v)
          end
      end
  end.

(** The first process of the first non-empty queue of [qs]. *)
Definition pick_first (qs : list Z) : K (option Z) :=
  for_return qs (fun q =>
    do h <- rd_head q;
    match h with
    | None => ret None
    | Some rp => do rp' <- bill_and_return rp; ret (Some rp')
    end).

Definition pick_proc_default : K (option Z) := pick_first (seqZ 0 NR_SCHED_QUEUES).

(** lib/ansi/rand.c; [unsigned long] has 32 bits. *)
Definition RAND_MAX : Z := 32767.
Definition srand (seed : Z) : K unit := modify (set_rand_next (u32 seed)).
Definition rand : K Z :=
  do! modify (fun s => set_rand_next (u32 (rand_next s * 1103515245 + 12345)) s);
  gets (fun s => rand_next s / (2 * (RAND_MAX + 1)) mod (RAND_MAX + 1)).

(** The queues the lottery is held over, and the tickets of a process. *)
Definition lottery_queues : list Z := seqZ 6 (NR_SCHED_QUEUES - 6).
Definition tickets (q : Z) : Z := NR_SCHED_QUEUES - q.

Definition total_tickets : K Z :=
  fold_each lottery_queues 0 (fun total q =>
    do h <- rd_head q;
    do r <- scan (R:=Empty_set) PROC_FUEL h total (fun total rp =>
      do flags <- rd rp p_rts_flags;
      ret (inl (if flags =? 0 then total + tickets q else total)));
    match r with inl total' => ret total' | inr v => match v with end end).

(** Walk the queues, taking each process' tickets off [winner], until it is negative. *)
Definition draw (winner : Z) : K (Z + Z) :=
  fold_exit lottery_queues winner (fun winner q =>
    do h <- rd_head q;
    scan PROC_FUEL h winner (fun winner rp =>
      do flags <- rd rp p_rts_flags;
      if flags =? 0 then
        let winner' := winner - tickets q in
        if winner' <? 0 then ret (inr rp) else ret (inl winner')
      else ret (inl winner))).

Definition pick_proc_lottery : K (option Z) :=
  do first <- pick_first (seqZ 0 6);
  match first with
  | Some rp => ret (Some rp)
  | None =>
      do total <- total_tickets;
      if 0 <? total then
        do lo <- gets tsc_lo;
        do! srand lo;
        do r <- rand;
        do w <- draw (r mod total);
        match w with
        | inl _ => ret None
        | inr rp => do rp' <- bill_and_return rp; ret (Some rp')
        end
      else ret None
  end.

(** [tmp] is preferred to the candidate [rp]: it has a deadline, and [rp] has none
    or a later one. *)
Definition edf_better (s : kstate) (rp tmp : Z) : bool :=
  (0 <? deadline_of s tmp) &&
  ((deadline_of s rp =? 0) ||
   ((0 <? deadline_of s rp) && (deadline_of s tmp <? deadline_of s rp))).

Definition edf_select (rp : Z) : K Z :=
  do r <- scan (R:=Empty_set) PROC_FUEL (Some rp) rp (fun best tmp =>
    do b <- gets (fun s => edf_better s best tmp);
    ret (inl (if b : bool then tmp else best)));
  match r with inl best => ret best | inr v => match v with end end.

Definition pick_proc_edf : K (option Z) :=
  for_return (seqZ 0 NR_SCHED_QUEUES) (fun q =>
    do h <- rd_head q;
    match h with
    | None => ret None
    | Some rp =>
        do rp' <- (if q =? 7 then edf_select rp else ret rp);
        do rp'' <- bill_and_return rp';
        ret (Some rp'')
    end).

Definition pick_proc : K (option Z) :=
  do ty <- gets sched_type;
  if ty =? 0 then pick_proc_default
  else if ty =? 1 then pick_proc_lottery
  else if ty =? 2 then pick_proc_edf
  else stuck NoReturn.

Definition set_scheduler (scheduler_type : Z) : K Z :=
  do! (if scheduler_type =? 0 then modify (set_sched_type 0)
       else if scheduler_type =? 1 then modify (set_sched_type 1)
       else if scheduler_type =? 2 then modify (set_sched_type 2)
       else modify (set_sched_type 0));
  ret 0.

(** ** [balance_queues] *)

Definition Q_BALANCE_TICKS : Z := 100.

(** The body of the loop: raise the priority of [rp], or renew its quantum. *)
Definition balance_one (ticks_added : Z) (rp : Z) : K Z :=
  do empty <- isemptyp rp;
  if empty : bool then ret ticks_added
  else
    do pri <- rd rp p_priority;
    do mx <- rd rp p_max_priority;
    if mx <? pri then
      do r <- proc_is_runnable rp;
      do! when r (dequeue rp);
      do qs <- rd rp p_quantum_size;
      do! wr rp (fun p => set_p_priority (p_priority p - 1) p);
      do r' <- proc_is_runnable rp;
      do! when r' (enqueue rp);
      ret (ticks_added + qs)
    else
      do qs <- rd rp p_quantum_size;
      do tl <- rd rp p_ticks_left;
      do! wr rp (set_p_ticks_left qs);
      ret (ticks_added + (qs - tl)).

Definition balance_queues : K unit :=
  do! lock;
  do ticks_added <- fold_each all_slots 0 balance_one;
  do! unlock;
  let next_period := Z.max Q_BALANCE_TICKS ticks_added in
  do up <- get_uptime;
  set_timer TQueue (i32 (up + next_period)) W_balance_queues.
