(* ===== verification/SchedInv.v ===== *)
(** * Scheduling: the ready queues are consistent

    The invariant of the ready queues is what [check_runqueues_f] of
    kernel/debug.c tests: each queue is linked from its head to its tail, and
    holds exactly the runnable processes of its priority, once each.  The
    lemmas give the effect of each scheduling operation on the queues seen as
    lists, and show that it returns. *)
From S2P Require Import Prelude PList KMonad Timers Types KState Sched.

Definition flags (s : kstate) (p : Z) : Z := p_rts_flags (k_proc s p).
Definition prio (s : kstate) (p : Z) : Z := p_priority (k_proc s p).

(** [Q q] is the list of processes on ready queue [q].  The processes of [X] are
    in transit: on no queue, whatever their flags. *)
Record rq_inv (X : gset Z) (s : kstate) (Q : Z -> list Z) : Prop := mk_rq_inv {
  rq_chain q : queue_ok q -> plist_rep (rq_plist q s) (Q q);
  rq_tail q : queue_ok q -> rdy_tail s q = last (Q q);
  rq_nodup q : queue_ok q -> NoDup (Q q);
  rq_mem q p : queue_ok q ->
    p ∈ Q q <-> slot p /\ p ∉ X /\ flags s p = 0 /\ prio s p = q }.

(** ** Frames *)

Definition null_map : mem_map := mk_mem_map 0 0 0.
Definition null_vmrequest : vmrequest_t :=
  mk_vmrequest None None 0 null_message 0 0 0 0 0 0 0 0 0 0 0.
Definition null_proc : proc :=
  mk_proc 0 None 0 0 0 0 0 0 null_map null_map null_map 0 0 None 0 0 0 0 None None None 0 0 0 EmptyString
    0 null_message null_message 0 0 0 0 0 0 0 0 0 0 0 0 0 0 0 0 0 0 0 0 [] 0
    null_vmrequest.

(** The state but for the process table and the queue headers. *)
Definition kcore (s : kstate) : kstate :=
  set_k_proc (fun _ => null_proc) (set_rdy_head (fun _ => None) (set_rdy_tail (fun _ => None) s)).

(** Only links of the ready queues differ. *)
Definition only_links (s s' : kstate) : Prop :=
  kcore s' = kcore s /\
  forall p, set_p_nextready None (k_proc s' p) = set_p_nextready None (k_proc s p).

(** The fields of a process that scheduling does not touch. *)
Definition unscheduled (p : proc) : proc :=
  set_p_nextready None (set_p_priority 0 (set_p_ticks_left 0 (set_p_rts_flags 0 p))).

(** Scheduling fields aside, only the headers of the ready queues differ. *)
Definition sched_frame (s s' : kstate) : Prop :=
  kcore s' = kcore s /\ forall p, unscheduled (k_proc s' p) = unscheduled (k_proc s p).

#[export] Instance only_links_po : PreOrder only_links.
Proof.
  split; [by intros s|]. intros s1 s2 s3 [H1 H2] [H3 H4]. split; [congruence|].
  intros p. by rewrite H4.
Qed.

#[export] Instance sched_frame_po : PreOrder sched_frame.
Proof.
  split; [by intros s|]. intros s1 s2 s3 [H1 H2] [H3 H4]. split; [congruence|].
  intros p. by rewrite H4.
Qed.

Lemma only_links_sched_frame s s' : only_links s s' -> sched_frame s s'.
Proof.
  intros [H1 H2]. split; [done|]. intros p. specialize (H2 p).
  apply (f_equal unscheduled) in H2. exact H2.
Qed.

(** A field read through a frame. *)
Lemma frame_field {A} (f : proc -> A) s s' p :
  (forall x, f (unscheduled x) = f x) -> sched_frame s s' -> f (k_proc s' p) = f (k_proc s p).
Proof. intros Hf [_ H]. rewrite <- (Hf (k_proc s' p)), H. apply Hf. Qed.

Lemma links_field {A} (f : proc -> A) s s' p :
  (forall x, f (set_p_nextready None x) = f x) -> only_links s s' ->
  f (k_proc s' p) = f (k_proc s p).
Proof. intros Hf [_ H]. rewrite <- (Hf (k_proc s' p)), H. apply Hf. Qed.

Lemma core_field {A} (f : kstate -> A) s s' :
  (forall x, f (kcore x) = f x) -> kcore s' = kcore s -> f s' = f s.
Proof. intros Hf H. rewrite <- (Hf s'), H. apply Hf. Qed.

Lemma links_flags s s' p : only_links s s' -> flags s' p = flags s p.
Proof. intros H. by apply (links_field p_rts_flags _ _ p) in H. Qed.
Lemma links_prio s s' p : only_links s s' -> prio s' p = prio s p.
Proof. intros H. by apply (links_field p_priority _ _ p) in H. Qed.
Lemma core_timers s s' : kcore s' = kcore s -> clock_timers s' = clock_timers s.
Proof. apply core_field. done. Qed.
Lemma core_lock s s' : kcore s' = kcore s -> lock_same s s'.
Proof. intros H. split; [by apply (core_field intr_off)|by apply (core_field locklevel)]. Qed.
Lemma core_proc_ptr s s' : kcore s' = kcore s -> proc_ptr s' = proc_ptr s.
Proof. apply core_field. done. Qed.
Lemma core_priv s s' : kcore s' = kcore s -> k_priv s' = k_priv s.
Proof. apply core_field. done. Qed.

Lemma upd_proc_core p f s : kcore (upd_proc p f s) = kcore s.
Proof. done. Qed.

Lemma upd_proc_eq p f s : k_proc (upd_proc p f s) p = f (k_proc s p).
Proof. simpl. by rewrite fn_lookup_insert. Qed.
Lemma upd_proc_ne p f s p' : p <> p' -> k_proc (upd_proc p f s) p' = k_proc s p'.
Proof. intros. simpl. by rewrite fn_lookup_insert_ne. Qed.

Lemma upd_links p v s : only_links s (upd_proc p (set_p_nextready v) s).
Proof.
  split; [done|]. intros p'. simpl. rewrite fn_insert_case. case_decide; by subst.
Qed.

Lemma upd_unscheduled p f s :
  (forall x, unscheduled (f x) = unscheduled x) -> sched_frame s (upd_proc p f s).
Proof.
  intros Hf. split; [done|]. intros p'. simpl. rewrite fn_insert_case. case_decide; by subst.
Qed.

(** The invariant only reads the links, the headers, and for the processes not in
    transit whether they are runnable and their priority. *)
Lemma rq_inv_ext X s s' Q :
  (forall q, rdy_head s' q = rdy_head s q) -> (forall q, rdy_tail s' q = rdy_tail s q) ->
  (forall p, p_nextready (k_proc s' p) = p_nextready (k_proc s p)) ->
  (forall p, slot p -> p ∉ X -> (flags s' p = 0 <-> flags s p = 0) /\ prio s' p = prio s p) ->
  rq_inv X s Q -> rq_inv X s' Q.
Proof.
  intros Hh Ht Hn Hp [H1 H2 H3 H4]. split.
  - intros q Hq. specialize (H1 q Hq). unfold plist_rep, rq_plist in *. simpl in *.
    rewrite Hh. eapply chain_ext; [|exact H1]. intros x _. by rewrite Hn.
  - intros q Hq. by rewrite Ht, H2.
  - done.
  - intros q p Hq. rewrite H4 by done. split; intros (Hs & HX & Hf & Hpr);
      destruct (Hp p Hs HX) as [Hf' Hpr']; split_all; try done; try tauto; congruence.
Qed.

(** Changing a process in transit, its links aside. *)
Lemma rq_inv_upd_transit X s Q p f :
  p ∈ X -> (forall x, p_nextready (f x) = p_nextready x) ->
  rq_inv X s Q -> rq_inv X (upd_proc p f s) Q.
Proof.
  intros HX Hf. apply rq_inv_ext; [done|done| |].
  - intros p'. simpl. rewrite fn_insert_case. case_decide; [subst; apply Hf|done].
  - intros p' _ Hp'. unfold flags, prio. rewrite upd_proc_ne by set_solver. done.
Qed.

(** Changing fields that scheduling does not read. *)
Lemma rq_inv_upd_other X s Q p f :
  (forall x, p_nextready (f x) = p_nextready x /\ p_rts_flags (f x) = p_rts_flags x /\
             p_priority (f x) = p_priority x) ->
  rq_inv X s Q -> rq_inv X (upd_proc p f s) Q.
Proof.
  intros Hf. apply rq_inv_ext; [done|done| |].
  - intros p'. simpl. rewrite fn_insert_case. case_decide; [subst; apply Hf|done].
  - intros p' _ _. unfold flags, prio. simpl. rewrite fn_insert_case.
    case_decide; [subst|done]. destruct (Hf (k_proc s p')) as (_ & -> & ->). done.
Qed.

(** A process in transit that is not runnable belongs to no queue. *)
Lemma rq_inv_drop X X' s Q :
  X' ⊆ X -> (forall p, p ∈ X -> p ∉ X' -> flags s p <> 0) -> rq_inv X s Q -> rq_inv X' s Q.
Proof.
  intros Hsub Hf [H1 H2 H3 H4]. split; try done.
  intros q p Hq. rewrite H4 by done. split; intros (Hs & HX & Hfl & Hpr); split_all; try done.
  - set_solver.
  - intros HXp. by destruct (Hf p HXp HX).
Qed.

Lemma rq_slots X s Q q p : rq_inv X s Q -> queue_ok q -> p ∈ Q q -> slot p.
Proof. intros [_ _ _ H4] Hq Hp. apply H4 in Hp; tauto. Qed.

Lemma rq_fuel X s Q q : rq_inv X s Q -> queue_ok q -> (length (Q q) < PROC_FUEL)%nat.
Proof.
  intros H Hq. apply slots_fuel; [by apply H|]. intros x Hx. by eapply rq_slots.
Qed.

Lemma set_lock_rq X a b s Q : rq_inv X (set_lock a b s) Q <-> rq_inv X s Q.
Proof. split; intros [H1 H2 H3 H4]; by split. Qed.

(** ** [dequeue] *)

Lemma rq_walk_done X s Q q stop l1 l2 :
  rq_inv X s Q -> queue_ok q -> Q q = l1 ++ l2 ->
  Forall (fun x => stop x = false) l1 ->
  match l2 with [] => True | x :: _ => stop x = true end ->
  rq_walk q stop s = Done (loc_after l1) s.
Proof.
  intros H Hq HQ Hf Hs. unfold rq_walk. rewrite decide_True by done.
  pose proof (rq_fuel _ _ _ _ H Hq) as Hfu. rewrite HQ, length_app in Hfu.
  pose proof (rq_chain _ _ _ H q Hq) as Hc. rewrite HQ in Hc.
  by rewrite (walk_spec _ _ _ l1 l2) by (done || lia).
Qed.

(** Assigning a link of queue [q] changes that queue as [assign] does, and no
    other queue when the node is on none. *)
Lemma rq_assign_done q xpp v s :
  queue_ok q -> (forall k, xpp = LNext k -> slot k) ->
  exists s', rq_assign q xpp v s = Done tt s' /\ only_links s s' /\
    rdy_tail s' = rdy_tail s /\
    (forall l, plist_rep (assign (rq_plist q s) xpp v) l -> plist_rep (rq_plist q s') l) /\
    (forall q' l, q' <> q -> (forall k, xpp = LNext k -> k ∉ l) ->
       plist_rep (rq_plist q' s) l -> plist_rep (rq_plist q' s') l).
Proof.
  intros Hq Hk. destruct xpp as [|k]; simpl.
  - unfold wr_head. rewrite decide_True by done. eexists. split; [done|]. split_all; try done.
    + intros l. unfold plist_rep. simpl. by rewrite fn_lookup_insert.
    + intros q' l Hne _. unfold plist_rep. simpl. by rewrite fn_lookup_insert_ne.
  - unfold wr. rewrite decide_True by auto. eexists. split; [done|].
    split_all; [apply upd_links|done| |].
    + intros l. unfold plist_rep. simpl. apply chain_ext. intros x _.
      rewrite !fn_insert_case. by case_decide.
    + intros q' l _ Hnk. unfold plist_rep. simpl. apply chain_ext. intros x Hx.
      rewrite fn_lookup_insert_ne; [done|]. intros ->. by apply (Hnk x).
Qed.

Lemma wpx_rd_tail E q Q s : queue_ok q -> Q (rdy_tail s q) s -> wpx E (rd_tail q) Q s.
Proof. intros. eapply wpx_done; [unfold rd_tail; by rewrite decide_True|done]. Qed.
Lemma wpx_rd_head E q Q s : queue_ok q -> Q (rdy_head s q) s -> wpx E (rd_head q) Q s.
Proof. intros. eapply wpx_done; [unfold rd_head; by rewrite decide_True|done]. Qed.
Lemma wpx_wr_tail E q v Q s :
  queue_ok q -> Q tt (set_rdy_tail (<[q:=v]> (rdy_tail s)) s) -> wpx E (wr_tail q v) Q s.
Proof. intros. eapply wpx_done; [unfold wr_tail; by rewrite decide_True|done]. Qed.
Lemma wpx_wr_head E q v Q s :
  queue_ok q -> Q tt (set_rdy_head (<[q:=v]> (rdy_head s)) s) -> wpx E (wr_head q v) Q s.
Proof. intros. eapply wpx_done; [unfold wr_head; by rewrite decide_True|done]. Qed.

(** The queues after the process [rp] has been taken off queue [q]. *)
Definition q_remove (rp q : Z) (Q : Z -> list Z) : Z -> list Z := <[q := without rp (Q q)]> Q.

Lemma rq_inv_removed X s s' Q q rp :
  rq_inv X s Q -> queue_ok q -> prio s rp = q -> only_links s s' ->
  (forall q', queue_ok q' -> plist_rep (rq_plist q' s') (q_remove rp q Q q')) ->
  (forall q', queue_ok q' -> rdy_tail s' q' = last (q_remove rp q Q q')) ->
  rq_inv ({[rp]} ∪ X) s' (q_remove rp q Q).
Proof.
  intros [H1 H2 H3 H4] Hq Hpr Hl Hc Ht. split; try done.
  - intros q' Hq'. unfold q_remove. rewrite fn_insert_case.
    case_decide; [by apply NoDup_without, H3|by apply H3].
  - intros q' p Hq'. rewrite (links_flags _ _ _ Hl), (links_prio _ _ _ Hl).
    unfold q_remove. rewrite fn_insert_case. case_decide as Hqq.
    + subst q'. rewrite elem_of_without, H4 by done. set_solver.
    + rewrite H4 by done. split; [|set_solver].
      intros (Hs & HX & Hf & Hp). split_all; try done.
      apply not_elem_of_union. split; [|done]. intros ->%elem_of_singleton. congruence.
Qed.

Lemma dequeue_body_wp E X s Q rp :
  rq_inv X s Q -> slot rp -> queue_ok (prio s rp) ->
  wpx E (do q <- rd rp p_priority;
         do xpp <- rq_walk q (fun x => x =? rp);
         do cur <- gets (fun s => deref (rq_plist q s) xpp);
         match cur with
         | None => ret tt
         | Some x =>
             do nxt <- rd x p_nextready;
             do! rq_assign q xpp nxt;
             do tl <- rd_tail q;
             when (bool_decide (tl = Some rp)) (wr_tail q (loc_node xpp))
         end)
    (fun _ s' => rq_inv ({[rp]} ∪ X) s' (q_remove rp (prio s rp) Q) /\ only_links s s') s.
Proof.
  intros H Hrp Hq. apply wpx_bind, wpx_rd; [done|]. fold (prio s rp). set (q := prio s rp) in *.
  destruct (split_first (fun x => x =? rp) (Q q)) as (l1 & l2 & HQ & Hf & Hx).
  apply wpx_bind. eapply wpx_done; [by eapply rq_walk_done|]. apply wpx_bind, wpx_gets.
  pose proof (rq_chain _ _ _ H q Hq) as Hc. rewrite HQ in Hc.
  destruct (chain_deref_after _ _ _ _ Hc) as [D _].
  change (mk_plist _ _) with (rq_plist q s) in D. rewrite D. clear D.
  assert (Hl1 : rp ∉ l1).
  { intros Hin. rewrite Forall_forall in Hf. specialize (Hf _ Hin). by rewrite Z.eqb_refl in Hf. }
  destruct l2 as [|x l2]; simpl.
  { rewrite app_nil_r in HQ. apply wpx_ret. split; [|done].
    apply (rq_inv_removed X s); try done.
    - intros q' Hq'. unfold q_remove. rewrite fn_insert_case. case_decide; [subst q'|by apply H].
      rewrite without_notin by (by rewrite HQ). by apply H.
    - intros q' Hq'. unfold q_remove. rewrite fn_insert_case. case_decide; [subst q'|by apply H].
      rewrite without_notin by (by rewrite HQ). by apply H. }
  apply Z.eqb_eq in Hx as ->. apply wpx_bind, wpx_rd; [done|]. apply wpx_bind.
  assert (Hnd : NoDup (l1 ++ rp :: l2)) by (rewrite <- HQ; by apply H).
  destruct (NoDup_middle _ _ _ Hnd) as (_ & Hl2 & Hnd').
  destruct (rq_assign_done q (loc_after l1) (p_nextready (k_proc s rp)) s Hq)
    as (s1 & E1 & L1 & T1 & C1 & C1').
  { intros k Hk. unfold loc_after in Hk. destruct (last l1) as [y|] eqn:Hl; simplify_eq.
    apply last_Some_elem_of in Hl. eapply rq_slots; [exact H|exact Hq|]. rewrite HQ. set_solver. }
  eapply wpx_done; [exact E1|]. apply wpx_bind, wpx_rd_tail; [done|].
  assert (Hw : without rp (Q q) = l1 ++ l2) by (rewrite HQ; by apply without_middle).
  assert (Hchains : forall q', queue_ok q' -> plist_rep (rq_plist q' s1) (q_remove rp q Q q')).
  { intros q' Hq'. unfold q_remove. rewrite fn_insert_case. case_decide; [subst q'|].
    - rewrite Hw. apply C1. by apply (assign_unlink (rq_plist q s)).
    - apply C1'; [done| |by apply H]. intros k Hk Hin. unfold loc_after in Hk.
      destruct (last l1) as [y|] eqn:Hl; simplify_eq. apply last_Some_elem_of in Hl.
      assert (k ∈ Q q) by (rewrite HQ; set_solver).
      apply H in Hin; [|done]. apply H in H1; [|done]. destr_and. congruence. }
  pose proof (rq_tail _ _ _ H q Hq) as Ht. rewrite HQ in Ht.
  rewrite T1, Ht, loc_node_after.
  assert (Hrest : forall q', queue_ok q' -> q <> q' -> rdy_tail s1 q' = last (q_remove rp q Q q')).
  { intros q' Hq' Hne. unfold q_remove. rewrite fn_lookup_insert_ne, T1 by done. by apply H. }
  apply wpx_when; intros Hb.
  - apply bool_decide_eq_true in Hb. rewrite last_app_cons in Hb.
    assert (l2 = []) as ->.
    { destruct l2 as [|y l2]; [done|]. rewrite last_cons_cons in Hb.
      apply last_Some_elem_of in Hb. done. }
    apply wpx_wr_tail; [done|]. split; [|done].
    apply (rq_inv_removed X s); try done.
    intros q' Hq'. simpl. rewrite fn_insert_case. case_decide; [subst q'|by apply Hrest].
    unfold q_remove. rewrite fn_lookup_insert, Hw, app_nil_r. done.
  - apply bool_decide_eq_false in Hb. split; [|done].
    apply (rq_inv_removed X s); try done.
    intros q' Hq'. destruct (decide (q = q')) as [<-|]; [|by apply Hrest].
    unfold q_remove. rewrite fn_lookup_insert, Hw, T1, Ht. rewrite last_app_cons in *.
    destruct l2 as [|y l2]; [done|]. rewrite last_cons_cons, last_app_cons. done.
Qed.

Lemma sched_frame_lock a b s s' : sched_frame s s' ->
  sched_frame (set_lock a b s) (set_lock a b s').
Proof.
  intros [H1 H2]. split; [|done]. apply (f_equal (set_lock a b)) in H1. exact H1.
Qed.

Lemma only_links_lock a b s s' : only_links s s' -> only_links (set_lock a b s) (set_lock a b s').
Proof.
  intros [H1 H2]. split; [|done]. apply (f_equal (set_lock a b)) in H1. exact H1.
Qed.

(** Undoing a [lock] that was taken from [s]. *)
Lemma only_links_unlock s s1 s2 :
  s1 = s \/ s1 = set_lock true 1 s -> only_links s1 s2 ->
  only_links s (set_lock (intr_off s) (locklevel s) s2).
Proof.
  intros [->| ->] H; apply (only_links_lock (intr_off s) (locklevel s)) in H.
  - by rewrite set_lock_id in H.
  - change (set_lock _ _ (set_lock true 1 s)) with (set_lock (intr_off s) (locklevel s) s) in H.
    by rewrite set_lock_id in H.
Qed.

Lemma sched_frame_unlock s s1 s2 :
  s1 = s \/ s1 = set_lock true 1 s -> sched_frame s1 s2 ->
  sched_frame s (set_lock (intr_off s) (locklevel s) s2).
Proof.
  intros [->| ->] H; apply (sched_frame_lock (intr_off s) (locklevel s)) in H.
  - by rewrite set_lock_id in H.
  - change (set_lock _ _ (set_lock true 1 s)) with (set_lock (intr_off s) (locklevel s) s) in H.
    by rewrite set_lock_id in H.
Qed.

(** [dequeue] takes the process off its queue and changes nothing else. *)
Lemma dequeue_wp E X s Q rp :
  lock_ok s -> rq_inv X s Q -> slot rp -> queue_ok (prio s rp) ->
  wpx E (dequeue rp)
    (fun _ s' => rq_inv ({[rp]} ∪ X) s' (q_remove rp (prio s rp) Q) /\ only_links s s') s.
Proof.
  intros Hl H Hrp Hq. apply wpx_with_intr_off; [done|]. intros s1 Hs1 _ _.
  eapply wpx_conseq; [apply (dequeue_body_wp E X s1 Q rp)|].
  - destruct Hs1 as [->| ->]; [done|by apply set_lock_rq].
  - done.
  - by destruct Hs1 as [->| ->].
  - intros u s2 [H2 L2]. split; [apply core_lock, L2|]. split.
    + apply set_lock_rq. by destruct Hs1 as [->| ->].
    + by eapply only_links_unlock.
Qed.

(** ** Insertion *)

(** The queues after [rp] has been put at the front or the tail of queue [q]. *)
Definition q_insert (rp q : Z) (front : bool) (Q : Z -> list Z) : Z -> list Z :=
  <[q := if front then rp :: Q q else Q q ++ [rp]]> Q.

Lemma rq_transit_notin X s Q q rp : rq_inv X s Q -> queue_ok q -> rp ∈ X -> rp ∉ Q q.
Proof. intros H Hq HX Hin. apply H in Hin; [|done]. tauto. Qed.

Lemma rq_inv_inserted X s s' Q q rp front :
  rq_inv X s Q -> queue_ok q -> slot rp -> rp ∈ X -> flags s rp = 0 -> prio s rp = q ->
  only_links s s' ->
  (forall q', queue_ok q' -> plist_rep (rq_plist q' s') (q_insert rp q front Q q')) ->
  (forall q', queue_ok q' -> rdy_tail s' q' = last (q_insert rp q front Q q')) ->
  rq_inv (X ∖ {[rp]}) s' (q_insert rp q front Q).
Proof.
  intros H Hq Hrp HX Hf0 Hp0 Hl Hc Ht. split; try done.
  - intros q' Hq'. unfold q_insert. rewrite fn_insert_case. case_decide; [subst q'|by apply H].
    pose proof (rq_transit_notin _ _ _ _ _ H Hq HX) as Hno. pose proof (rq_nodup _ _ _ H q Hq).
    destruct front; [by constructor|]. apply NoDup_app. split_all; [done| |apply NoDup_singleton].
    intros x Hx ->%list_elem_of_singleton. done.
  - intros q' p Hq'. rewrite (links_flags _ _ _ Hl), (links_prio _ _ _ Hl).
    unfold q_insert. rewrite fn_insert_case. case_decide as Hqq.
    + subst q'. transitivity (p = rp \/ p ∈ Q q).
      { destruct front; [apply elem_of_cons|]. rewrite elem_of_app, list_elem_of_singleton. tauto. }
      rewrite (rq_mem _ _ _ H) by done. split.
      * intros [->|(?&?&?&?)]; split_all; try done; set_solver.
      * intros (?&HX'&?&?). destruct (decide (p = rp)); [by left|right; split_all; set_solver].
    + rewrite (rq_mem _ _ _ H) by done. split; [set_solver|].
      intros (Hs & HX' & Hfl & Hpp). split_all; try done. intros HXp.
      assert (p = rp) as -> by set_solver. congruence.
Qed.

Lemma chain_nil_inv {A} (n : A -> option A) l : chain n None l -> l = [].
Proof. destruct l; [done|]. by intros [? _]. Qed.

(** How an inserted node is linked; the other queues are not touched. *)
Lemma rq_insert_chains X s s' Q q rp l1 l2 front :
  rq_inv X s Q -> queue_ok q -> rp ∈ X -> Q q = l1 ++ l2 ->
  q_insert rp q front Q q = l1 ++ rp :: l2 ->
  rdy_head s' q = pl_head (assign (rq_plist q s) (loc_after l1) (Some rp)) ->
  (forall q', q' <> q -> rdy_head s' q' = rdy_head s q') ->
  (forall k, k <> rp -> loc_after l1 <> LNext k ->
     p_nextready (k_proc s' k) = p_nextready (k_proc s k)) ->
  p_nextready (k_proc s' rp) = head l2 ->
  (forall k, loc_after l1 = LNext k -> p_nextready (k_proc s' k) = Some rp) ->
  forall q', queue_ok q' -> plist_rep (rq_plist q' s') (q_insert rp q front Q q').
Proof.
  intros H Hq HX HQ HQ' Hh Hh' Hn Hnr Hnl q' Hq'.
  pose proof (rq_transit_notin _ _ _ _ _ H Hq HX) as Hno. rewrite HQ in Hno.
  assert (Hlast : forall k, loc_after l1 = LNext k -> k ∈ Q q).
  { intros k. unfold loc_after. destruct (last l1) eqn:Hl; intros; simplify_eq.
    apply last_Some_elem_of in Hl. rewrite HQ. set_solver. }
  destruct (decide (q' = q)) as [->|Hne].
  - rewrite HQ'. pose proof (rq_chain _ _ _ H q Hq) as Hc. rewrite HQ in Hc.
    pose proof (rq_nodup _ _ _ H q Hq) as Hnd. rewrite HQ in Hnd.
    pose proof (assign_link (rq_plist q s) l1 l2 rp Hnd Hno Hc) as HL.
    destruct (chain_deref_after _ _ _ _ Hc) as [D _].
    change (mk_plist _ _) with (rq_plist q s) in D. rewrite D in HL.
    unfold plist_rep in *. simpl.
    destruct (loc_after l1) as [|k] eqn:Hloc; simpl in *; rewrite Hh;
      (eapply chain_ext; [|exact HL]); intros x _; simpl; rewrite !fn_insert_case;
      repeat case_decide; subst; try done.
    + rewrite Hn; done.
    + symmetry; by apply Hnl.
    + rewrite Hn; congruence.
  - unfold q_insert. rewrite fn_lookup_insert_ne by done.
    pose proof (rq_chain _ _ _ H q' Hq') as Hc. unfold plist_rep in *. simpl in *.
    rewrite Hh' by done. eapply chain_ext; [|exact Hc]. intros x Hx. simpl. symmetry. apply Hn.
    + intros ->. by apply (rq_transit_notin _ _ _ _ _ H Hq' HX).
    + intros Hx'. apply Hlast in Hx'. apply H in Hx; [|done]. apply H in Hx'; [|done].
      destr_and; congruence.
Qed.

(** The three cases of the insertion. *)
Section insert.
Context (E : Prop) (X : gset Z) (s : kstate) (Q : Z -> list Z) (q rp : Z).
Hypotheses (H : rq_inv X s Q) (Hq : queue_ok q) (Hrp : slot rp) (HX : rp ∈ X)
  (Hf0 : flags s rp = 0) (Hp0 : prio s rp = q).

(** What each of them establishes. *)
Let inserted (front : bool) (s' : kstate) : Prop :=
  rq_inv (X ∖ {[rp]}) s' (q_insert rp q front Q) /\ only_links s s'.

Lemma insert_tails front q' : queue_ok q' -> q <> q' -> rdy_tail s q' = last (q_insert rp q front Q q').
Proof. intros. unfold q_insert. rewrite fn_lookup_insert_ne by done. by apply H. Qed.

Lemma insert_chain : chain (fun p => p_nextready (k_proc s p)) (rdy_head s q) (Q q).
Proof. exact (rq_chain _ _ _ H q Hq). Qed.

Lemma rq_insert_front h : rdy_head s q = Some h ->
  wpx E (do! wr rp (set_p_nextready (Some h)); wr_head q (Some rp)) (fun _ => inserted true) s.
Proof.
  intros Hh. pose proof insert_chain as Hc. rewrite Hh in Hc.
  apply wpx_bind, wpx_wr; [done|]. apply wpx_wr_head; [done|].
  assert (L : only_links s (upd_proc rp (set_p_nextready (Some h)) s)) by apply upd_links.
  split; [|exact L]. apply (rq_inv_inserted X s); try done.
  - eapply (rq_insert_chains X s _ Q q rp [] (Q q)); try done; simpl.
    + unfold q_insert. by rewrite fn_lookup_insert.
    + by rewrite fn_lookup_insert.
    + intros. by rewrite fn_lookup_insert_ne.
    + intros. by rewrite fn_lookup_insert_ne.
    + rewrite fn_lookup_insert. simpl. destruct (Q q); simpl in *; destr_and; congruence.
  - intros q' Hq'. simpl. destruct (decide (q = q')) as [<-|]; [|by apply insert_tails].
    unfold q_insert. rewrite fn_lookup_insert, (rq_tail _ _ _ H) by done.
    rewrite last_cons. destruct (Q q) as [|y l] eqn:HQ; [simpl in Hc; done|].
    destruct (last (y :: l)) eqn:Hl; [done|]. by apply last_None in Hl.
Qed.

Lemma rq_insert_back h : rdy_head s q = Some h ->
  wpx E (do t <- rd_tail q;
         do t <- from_ptr t;
         do! wr t (set_p_nextready (Some rp));
         do! wr_tail q (Some rp);
         wr rp (set_p_nextready None)) (fun _ => inserted false) s.
Proof.
  intros Hh. pose proof insert_chain as Hc. rewrite Hh in Hc.
  apply wpx_bind, wpx_rd_tail; [done|]. rewrite (rq_tail _ _ _ H) by done.
  destruct (last (Q q)) as [t|] eqn:Hl; [|apply last_None in Hl; rewrite Hl in Hc; done].
  assert (Ht : t ∈ Q q) by by apply last_Some_elem_of.
  assert (t <> rp) by (intros ->; by eapply rq_transit_notin in Ht).
  apply wpx_bind, wpx_ret. apply wpx_bind, wpx_wr; [by eapply rq_slots|].
  apply wpx_bind, wpx_wr_tail; [done|]. apply wpx_wr; [done|]. unfold inserted.
  match goal with |- _ /\ only_links _ ?s' => assert (L : only_links s s') end.
  { etrans; [apply (upd_links t (Some rp))|].
    exact (upd_links rp None (upd_proc t (set_p_nextready (Some rp)) s)). }
  split; [|exact L]. apply (rq_inv_inserted X s); try done.
  - assert (Hloc : loc_after (Q q) = LNext t) by (unfold loc_after; by rewrite Hl).
    eapply (rq_insert_chains X s _ Q q rp (Q q) []); try done; simpl.
    + by rewrite app_nil_r.
    + unfold q_insert. by rewrite fn_lookup_insert.
    + rewrite Hloc. done.
    + intros k Hk Hk'. rewrite !fn_lookup_insert_ne by congruence. done.
    + by rewrite fn_lookup_insert.
    + intros k Hk. assert (k = t) as -> by congruence.
      rewrite fn_lookup_insert_ne, fn_lookup_insert by done. done.
  - intros q' Hq'. simpl. rewrite fn_insert_case. case_decide; [subst q'|by apply insert_tails].
    unfold q_insert. rewrite fn_lookup_insert, last_snoc. done.
Qed.

Lemma rq_insert_empty front : rdy_head s q = None ->
  wpx E (do! wr_tail q (Some rp);
         do! wr_head q (Some rp);
         wr rp (set_p_nextready None)) (fun _ => inserted front) s.
Proof.
  intros Hh. pose proof insert_chain as Hc. rewrite Hh in Hc.
  apply chain_nil_inv in Hc. apply wpx_bind, wpx_wr_tail; [done|].
  apply wpx_bind, wpx_wr_head; [done|]. apply wpx_wr; [done|]. unfold inserted.
  match goal with |- _ /\ only_links _ ?s' => assert (L : only_links s s') end.
  { exact (upd_links rp None s). }
  assert (HQ' : q_insert rp q front Q q = [rp]).
  { unfold q_insert. rewrite fn_lookup_insert, Hc. by destruct front. }
  split; [|exact L]. apply (rq_inv_inserted X s); try done.
  - eapply (rq_insert_chains X s _ Q q rp [] []); try done; simpl.
    + by rewrite fn_lookup_insert.
    + intros. by rewrite fn_lookup_insert_ne.
    + intros. by rewrite fn_lookup_insert_ne.
    + by rewrite fn_lookup_insert.
  - intros q' Hq'. simpl. rewrite fn_insert_case. case_decide; [subst q'|by apply insert_tails].
    by rewrite HQ'.
Qed.
End insert.

Lemma rq_insert_wp E X s Q q rp front :
  rq_inv X s Q -> queue_ok q -> slot rp -> rp ∈ X -> flags s rp = 0 -> prio s rp = q ->
  wpx E (rq_insert rp q front)
    (fun _ s' => rq_inv (X ∖ {[rp]}) s' (q_insert rp q front Q) /\ only_links s s') s.
Proof.
  intros H Hq Hrp HX Hf0 Hp0. unfold rq_insert.
  apply wpx_bind, wpx_rd_head; [done|]. destruct (rdy_head s q) as [h|] eqn:Hh.
  - destruct front; [by eapply rq_insert_front|by eapply rq_insert_back].
  - by apply rq_insert_empty.
Qed.

(** ** [sched] *)

(** [s'] is [s] with the process [rp] replaced. *)
Definition proc_replaced (rp : Z) (x : proc) (s s' : kstate) : Prop :=
  kcore s' = kcore s /\ rdy_head s' = rdy_head s /\ rdy_tail s' = rdy_tail s /\
  k_proc s' rp = x /\ forall p, p <> rp -> k_proc s' p = k_proc s p.

Lemma proc_replaced_upd rp x f s s' :
  proc_replaced rp x s s' -> proc_replaced rp (f x) s (upd_proc rp f s').
Proof.
  intros (H1 & H2 & H3 & H4 & H5). unfold proc_replaced. simpl.
  rewrite fn_lookup_insert, H4. split_all; try done. intros. rewrite fn_lookup_insert_ne; auto.
Qed.

Lemma proc_replaced_refl rp s : proc_replaced rp (k_proc s rp) s s.
Proof. unfold proc_replaced. done. Qed.

(** The priority [sched] gives a process: lowered when its quantum is used up,
    and the real-time queue 7 when it has a deadline. *)
Definition sched_prio (s : kstate) (rp : Z) : Z :=
  if 0 <? deadline_of s rp then 7
  else if 0 <? p_ticks_left (k_proc s rp) then prio s rp
  else if prio s rp <? NR_SCHED_QUEUES - 1 then prio s rp + 1 else prio s rp.

Definition sched_ticks (s : kstate) (rp : Z) : Z :=
  if 0 <? p_ticks_left (k_proc s rp) then p_ticks_left (k_proc s rp)
  else p_quantum_size (k_proc s rp).

Definition sched_proc (s : kstate) (rp : Z) : proc :=
  set_p_priority (sched_prio s rp) (set_p_ticks_left (sched_ticks s rp) (k_proc s rp)).

Lemma sched_prio_ok s rp : queue_ok (prio s rp) -> queue_ok (sched_prio s rp).
Proof.
  unfold sched_prio, queue_ok, NR_SCHED_QUEUES. intros. repeat case_match; try lia.
Qed.

Lemma set_priority_id p : set_p_priority (p_priority p) p = p.
Proof. by destruct p. Qed.
Lemma set_ticks_id p : set_p_ticks_left (p_ticks_left p) p = p.
Proof. by destruct p. Qed.

Lemma sched_wp E s rp (Q : Z * bool -> kstate -> Prop) :
  slot rp ->
  (forall s', proc_replaced rp (sched_proc s rp) s s' ->
     Q (sched_prio s rp, 0 <? p_ticks_left (k_proc s rp)) s') ->
  wpx E (sched rp) Q s.
Proof.
  intros Hrp HQ. unfold sched.
  apply wpx_bind, wpx_rd; [done|]. apply wpx_bind.
  set (x1 := if 0 <? p_ticks_left (k_proc s rp) then k_proc s rp
             else set_p_priority
                    (if prio s rp <? NR_SCHED_QUEUES - 1 then prio s rp + 1 else prio s rp)
                    (set_p_ticks_left (p_quantum_size (k_proc s rp)) (k_proc s rp))).
  assert (Hmid : forall s1, proc_replaced rp x1 s s1 ->
    wpx E (do dl <- gets (fun s => deadline_of s rp);
           do! when (0 <? dl) (wr rp (set_p_priority 7));
           do q <- rd rp p_priority; ret (q, 0 <? p_ticks_left (k_proc s rp))) Q s1).
  { intros s1 H1. apply wpx_bind, wpx_gets, wpx_bind.
    assert (Hd : deadline_of s1 rp = deadline_of s rp).
    { unfold deadline_of. destruct H1 as [H1 _]. by rewrite (core_timers s s1). }
    rewrite Hd. unfold sched_proc, sched_prio, sched_ticks in HQ.
    apply wpx_when; intros Hb; rewrite Hb in HQ.
    - apply wpx_wr; [done|]. apply wpx_bind, wpx_rd; [done|]. rewrite upd_proc_eq. simpl.
      apply wpx_ret, HQ. apply (proc_replaced_upd _ _ (set_p_priority 7)) in H1. revert H1. subst x1.
      destruct (0 <? p_ticks_left (k_proc s rp)); intros H1; [|exact H1].
      by rewrite set_ticks_id.
    - apply wpx_bind, wpx_rd; [done|]. destruct H1 as (? & ? & ? & Hx & ?). rewrite Hx.
      apply wpx_ret. subst x1. destruct (0 <? p_ticks_left (k_proc s rp)).
      + apply HQ. unfold proc_replaced. split_all; try done.
        unfold prio. by rewrite set_ticks_id, Hx, set_priority_id.
      + apply HQ. unfold proc_replaced. split_all; done. }
  apply wpx_when; intros Hb; [rewrite Bool.negb_true_iff in Hb|rewrite Bool.negb_false_iff in Hb].
  - subst x1. rewrite Hb in Hmid. apply wpx_bind, wpx_wr; [done|].
    apply wpx_bind, wpx_rd; [done|]. rewrite upd_proc_eq. simpl. fold (prio s rp).
    pose proof (proc_replaced_upd rp _ (fun p => set_p_ticks_left (p_quantum_size p) p) s s
                  (proc_replaced_refl rp s)) as H0.
    apply wpx_when; intros Hb2; rewrite Hb2 in Hmid.
    + apply wpx_wr; [done|]. rewrite Hb in *. apply Hmid.
      exact (proc_replaced_upd rp _ (fun p => set_p_priority (p_priority p + 1) p) _ _ H0).
    + rewrite Hb in *. apply Hmid. destruct H0 as (? & ? & ? & Hx & ?).
      unfold proc_replaced. split_all; done.
  - apply Hmid. subst x1. rewrite Hb. apply proc_replaced_refl.
Qed.

Lemma proc_replaced_frame rp x s s' :
  unscheduled x = unscheduled (k_proc s rp) -> proc_replaced rp x s s' -> sched_frame s s'.
Proof.
  intros Hx (H1 & _ & _ & H4 & H5). split; [done|]. intros p.
  destruct (decide (p = rp)) as [->|]; [by rewrite H4|by rewrite H5].
Qed.

Lemma rq_inv_replaced X s s' Q rp x :
  rp ∈ X -> p_nextready x = p_nextready (k_proc s rp) -> proc_replaced rp x s s' ->
  rq_inv X s Q -> rq_inv X s' Q.
Proof.
  intros HX Hx (_ & H2 & H3 & H4 & H5).
  apply rq_inv_ext; [by rewrite H2|by rewrite H3| |].
  - intros p. destruct (decide (p = rp)) as [->|]; [by rewrite H4|by rewrite H5].
  - intros p _ Hp. unfold flags, prio. rewrite H5 by set_solver. done.
Qed.

(** ** Well-formedness of the process table *)

Definition priv_ok (s : kstate) (p : Z) : Prop :=
  match p_priv (k_proc s p) with
  | Some i => priv_slot i
  | None => Z.testbit (flags s p) 0 = true \/ Z.testbit (flags s p) 7 = true
  end.

Record sched_wf (s : kstate) : Prop := mk_sched_wf {
  wf_prio p : slot p -> queue_ok (prio s p) /\ queue_ok (p_max_priority (k_proc s p));
  wf_priv p : slot p -> priv_ok s p;
  wf_cur : exists c i, proc_ptr s = Some c /\ slot c /\ p_priv (k_proc s c) = Some i;
  wf_lock : lock_ok s }.

Definition sched_inv (s : kstate) : Prop := sched_wf s /\ exists Q, rq_inv ∅ s Q.

Lemma wf_ready_priv s p : sched_wf s -> slot p -> flags s p = 0 ->
  exists i, p_priv (k_proc s p) = Some i /\ priv_slot i.
Proof.
  intros [_ H _ _] Hp Hf. specialize (H p Hp). unfold priv_ok in H.
  destruct (p_priv (k_proc s p)) as [i|]; [eauto|]. rewrite Hf, !Z.testbit_0_l in H. naive_solver.
Qed.

(** Well-formedness is kept by a step that keeps priorities in range and does not
    unblock a process without privileges. *)
Lemma sched_wf_frame s s' :
  sched_wf s -> sched_frame s s' ->
  (forall p, slot p -> queue_ok (prio s' p)) ->
  (forall p n, slot p -> n = 0 \/ n = 7 -> Z.testbit (flags s p) n = true ->
     Z.testbit (flags s' p) n = true) ->
  sched_wf s'.
Proof.
  intros [H1 H2 H3 H4] Hf Hp Hb. pose proof Hf as [Hc _]. split.
  - intros p Hs. split; [by apply Hp|].
    rewrite (frame_field p_max_priority s s') by done. by apply H1.
  - intros p Hs. specialize (H2 p Hs). unfold priv_ok in *.
    rewrite (frame_field p_priv s s') by done.
    destruct (p_priv (k_proc s p)); [done|]. destruct H2; [left|right]; apply Hb; auto.
  - rewrite (core_proc_ptr s s' Hc). destruct H3 as (c & i & ? & ? & ?). exists c, i.
    rewrite (frame_field p_priv s s') by done. done.
  - eapply lock_ok_same; [done|by apply core_lock].
Qed.

(** ** [RTS_SET], [RTS_LOCK_SETFLAGS] *)

(** Only the flags of [rp], besides links, differ. *)
Definition rts_changed (rp v : Z) (s s' : kstate) : Prop :=
  sched_frame s s' /\ (forall p, prio s' p = prio s p) /\
  (forall p, p_ticks_left (k_proc s' p) = p_ticks_left (k_proc s p)) /\
  flags s' rp = v /\ forall p, p <> rp -> flags s' p = flags s p.

Lemma rts_changed_upd rp v s s1 :
  only_links s s1 -> rts_changed rp v s (upd_proc rp (set_p_rts_flags v) s1).
Proof.
  intros L. unfold rts_changed, flags, prio. split_all.
  - etrans; [by apply only_links_sched_frame|]. by apply upd_unscheduled.
  - intros p. simpl. rewrite fn_insert_case, <- (links_field p_priority s s1) by done.
    case_decide; by subst.
  - intros p. simpl. rewrite fn_insert_case, <- (links_field p_ticks_left s s1) by done.
    case_decide; by subst.
  - simpl. by rewrite fn_lookup_insert.
  - intros p Hp. simpl. rewrite fn_lookup_insert_ne by done. by apply links_flags.
Qed.

Definition q_remove_if (b : bool) (rp q : Z) (Q : Z -> list Z) : Z -> list Z :=
  if b then q_remove rp q Q else Q.

(** A blocked process that stays blocked. *)
Lemma rq_inv_upd_blocked X s Q rp g :
  flags s rp <> 0 -> g (flags s rp) <> 0 -> rq_inv X s Q ->
  rq_inv X (upd_proc rp (fun p => set_p_rts_flags (g (p_rts_flags p)) p) s) Q.
Proof.
  intros Hf Hv. apply rq_inv_ext; [done|done| |]; intros p.
  - simpl. rewrite fn_insert_case. case_decide; by subst.
  - intros _ _. unfold flags, prio in *. simpl. rewrite fn_insert_case.
    case_decide; [subst p; simpl|done]. split; [|done]. by split.
Qed.

(** Taking a runnable process off its queue before its flags change. *)
Lemma set_flags_wp E X s Q rp (g : Z -> Z) (b : bool) :
  lock_ok s -> rq_inv X s Q -> slot rp -> rp ∉ X -> queue_ok (prio s rp) ->
  g (flags s rp) <> 0 -> b = (flags s rp =? 0) ->
  wpx E (do! when b (dequeue rp); wr rp (fun p => set_p_rts_flags (g (p_rts_flags p)) p))
    (fun _ s' => rq_inv X s' (q_remove_if b rp (prio s rp) Q) /\
                 rts_changed rp (g (flags s rp)) s s') s.
Proof.
  intros Hl H Hrp HX Hq Hv ->. apply wpx_bind, wpx_when; intros Hb; rewrite Hb.
  - eapply wpx_conseq; [by apply (dequeue_wp E X s Q)|]. intros u s1 [H1 L1].
    apply wpx_wr; [done|]. rewrite <- (links_flags s s1) in * by done. split.
    + eapply rq_inv_drop; [| |apply rq_inv_upd_transit; [|done|exact H1]]; [set_solver| |set_solver].
      intros p Hp HpX. assert (p = rp) as -> by set_solver. unfold flags. rewrite upd_proc_eq. done.
    + exact (rts_changed_upd rp (g (flags s1 rp)) s s1 L1).
  - apply wpx_wr; [done|]. apply Z.eqb_neq in Hb. split; [by apply rq_inv_upd_blocked|].
    exact (rts_changed_upd rp (g (flags s rp)) s s ltac:(done)).
Qed.

Lemma RTS_SET_wp E X s Q rp f :
  lock_ok s -> rq_inv X s Q -> slot rp -> rp ∉ X -> queue_ok (prio s rp) -> f <> 0 ->
  wpx E (RTS_SET rp f)
    (fun _ s' => rq_inv X s' (q_remove_if (flags s rp =? 0) rp (prio s rp) Q) /\
                 rts_changed rp (flag_set (flags s rp) f) s s') s.
Proof.
  intros Hl H Hrp HX Hq Hf. unfold RTS_SET. apply wpx_bind, wpx_proc_is_runnable; [done|].
  apply (set_flags_wp E X s Q rp (fun x => flag_set x f)); try done. by apply flag_set_nonzero.
Qed.

(** ** [enqueue] *)

(** Making [rp] ready preempts the current process. *)
Definition preempts (s : kstate) (rp : Z) : bool :=
  match proc_ptr s with
  | Some c =>
      negb (c =? rp) && (sched_prio s rp <? prio s c) &&
      match p_priv (k_proc s c) with
      | Some i => flag_any (s_flags (k_priv s i)) PREEMPTIBLE
      | None => false
      end
  | None => false
  end.

Definition cur_slot (s : kstate) : Z := match proc_ptr s with Some c => c | None => 0 end.

(** The ready queues after [enqueue(rp)]. *)
Definition enq_queues (s : kstate) (rp : Z) (Q : Z -> list Z) : Z -> list Z :=
  let c := cur_slot s in
  q_remove_if (preempts s rp && (flags s c =? 0)) c (prio s c)
    (q_insert rp (sched_prio s rp) (0 <? p_ticks_left (k_proc s rp)) Q).

(** What [enqueue] changes besides the queues. *)
Definition enqueued (rp : Z) (s s' : kstate) : Prop :=
  sched_frame s s' /\
  (forall p, p <> rp -> prio s' p = prio s p) /\ prio s' rp = sched_prio s rp /\
  (forall p, p <> rp -> p_ticks_left (k_proc s' p) = p_ticks_left (k_proc s p)) /\
  p_ticks_left (k_proc s' rp) = sched_ticks s rp /\
  (forall p, flags s' p =
     if preempts s rp && (p =? cur_slot s) then flag_set (flags s p) RTS_PREEMPTED else flags s p).

(** The process is scheduled and linked, nobody is preempted yet. *)
Record enq_linked (rp : Z) (s s2 : kstate) : Prop := mk_enq_linked {
  el_frame : sched_frame s s2;
  el_prio p : p <> rp -> prio s2 p = prio s p;
  el_prio_rp : prio s2 rp = sched_prio s rp;
  el_ticks p : p <> rp -> p_ticks_left (k_proc s2 p) = p_ticks_left (k_proc s p);
  el_ticks_rp : p_ticks_left (k_proc s2 rp) = sched_ticks s rp;
  el_flags p : flags s2 p = flags s p }.

Lemma enq_linked_intro rp s s1 s2 :
  proc_replaced rp (sched_proc s rp) s s1 -> only_links s1 s2 -> enq_linked rp s s2.
Proof.
  intros R1 L2. assert (F1 : sched_frame s s1) by (eapply proc_replaced_frame; [|exact R1]; done).
  destruct R1 as (_ & _ & _ & R4 & R5). split.
  - etrans; [exact F1|by apply only_links_sched_frame].
  - intros p Hp. rewrite (links_prio s1 s2) by done. unfold prio. by rewrite R5.
  - rewrite (links_prio s1 s2) by done. unfold prio. by rewrite R4.
  - intros p Hp. rewrite (links_field p_ticks_left s1 s2) by done. by rewrite R5.
  - rewrite (links_field p_ticks_left s1 s2) by done. by rewrite R4.
  - intros p. rewrite (links_flags s1 s2) by done. unfold flags.
    destruct (decide (p = rp)) as [->|]; [by rewrite R4|by rewrite R5].
Qed.

Lemma enq_linked_quiet rp s s2 : enq_linked rp s s2 -> preempts s rp = false -> enqueued rp s s2.
Proof.
  intros [F P Pr T Ts Fl] Hp. unfold enqueued. rewrite Hp. simpl. by split_all.
Qed.

(** The current process [c], with the privileges [i], is preempted. *)
Lemma preempts_cur rp s s2 c i : proc_ptr s = Some c -> p_priv (k_proc s c) = Some i -> enq_linked rp s s2 ->
  preempts s rp = (sched_prio s rp <? prio s2 c) && flag_any (s_flags (k_priv s i)) PREEMPTIBLE.
Proof.
  intros Hc Hci L. unfold preempts. rewrite Hc, Hci. destruct (Z.eqb_spec c rp) as [->|Hne]; simpl.
  - by rewrite (el_prio_rp _ _ _ L), Z.ltb_irrefl.
  - by rewrite (el_prio _ _ _ L).
Qed.

Lemma enqueue_preempt E s s2 Q' rp c :
  sched_wf s -> proc_ptr s = Some c -> slot c -> c <> rp -> enq_linked rp s s2 -> rq_inv ∅ s2 Q' ->
  preempts s rp = true ->
  wpx E (RTS_SET c RTS_PREEMPTED)
    (fun _ s' => rq_inv ∅ s' (q_remove_if (flags s c =? 0) c (prio s c) Q') /\ enqueued rp s s') s2.
Proof.
  intros Hwf Hc Hcs Hne L H2 Hcp. pose proof (el_frame _ _ _ L) as F. destruct F as [C2 _].
  eapply wpx_conseq.
  { eapply (RTS_SET_wp E ∅ s2 _ c RTS_PREEMPTED); [|exact H2|done|set_solver| |done].
    - eapply lock_ok_same; [apply Hwf|by apply core_lock].
    - rewrite (el_prio _ _ _ L) by done. by apply Hwf. }
  intros u s3 (H3 & F3 & P3 & T3 & Fc & Fo). rewrite (el_flags _ _ _ L), (el_prio _ _ _ L) in * by done.
  split; [exact H3|]. unfold enqueued, cur_slot. rewrite Hc, Hcp. split_all.
  - etrans; [exact (el_frame _ _ _ L)|done].
  - intros p Hp. rewrite P3. by apply L.
  - rewrite P3. apply L.
  - intros p Hp. rewrite T3. by apply L.
  - rewrite T3. apply L.
  - intros p. simpl. destruct (Z.eqb_spec p c) as [->|Hp]; [done|]. rewrite Fo by done. apply L.
Qed.

Lemma enqueue_body_wp E s Q rp :
  sched_wf s -> rq_inv {[rp]} s Q -> slot rp -> flags s rp = 0 ->
  wpx E (do qf <- sched rp;
         do! rq_insert rp (fst qf) (snd qf);
         do cur <- gets proc_ptr;
         do cur <- from_ptr cur;
         do cpri <- rd cur p_priority;
         do rpri <- rd rp p_priority;
         if rpri <? cpri then
           do pr <- priv_of cur;
           do fl <- rdp pr s_flags;
           when (flag_any fl PREEMPTIBLE) (RTS_SET cur RTS_PREEMPTED)
         else ret tt)
    (fun _ s' => rq_inv ∅ s' (enq_queues s rp Q) /\ enqueued rp s s') s.
Proof.
  intros Hwf H Hrp Hf0. destruct (wf_cur s Hwf) as (c & i & Hc & Hcs & Hci).
  destruct (wf_prio s Hwf rp Hrp) as [Hq0 _]. pose proof (sched_prio_ok s rp Hq0) as Hq.
  apply wpx_bind, sched_wp; [done|]. intros s1 R1. simpl fst; simpl snd.
  pose proof (enq_linked_intro rp s s1 s1 R1 ltac:(done)) as L1.
  apply wpx_bind. eapply wpx_conseq.
  { apply (rq_insert_wp E {[rp]} s1 Q (sched_prio s rp)); try done; [|set_solver|by rewrite (el_flags _ _ _ L1)|apply L1].
    eapply rq_inv_replaced; [by apply elem_of_singleton| |exact R1|exact H]. done. }
  intros u s2 [H2 L2]. replace ({[rp]} ∖ {[rp]}) with (∅ : gset Z) in H2 by set_solver.
  pose proof (enq_linked_intro rp s s1 s2 R1 L2) as L. pose proof (el_frame _ _ _ L) as F. destruct (F) as [C2 _].
  apply wpx_bind, wpx_gets. rewrite (core_proc_ptr s s2 C2), Hc. apply wpx_bind, wpx_ret.
  apply wpx_bind, wpx_rd; [done|]. apply wpx_bind, wpx_rd; [done|].
  fold (prio s2 c) (prio s2 rp). rewrite (el_prio_rp _ _ _ L).
  pose proof (preempts_cur rp s s2 c i Hc Hci L) as Hcp. unfold enq_queues.
  destruct (sched_prio s rp <? prio s2 c) eqn:Elt; simpl in Hcp.
  - apply wpx_bind. eapply wpx_priv_of; [done|by rewrite (frame_field p_priv s s2)|].
    assert (Hi : priv_slot i).
    { pose proof (wf_priv s Hwf c Hcs) as Hp. unfold priv_ok in Hp. by rewrite Hci in Hp. }
    apply wpx_bind, wpx_rdp; [done|]. rewrite (core_priv s s2 C2).
    apply wpx_when; intros Hpre; rewrite Hpre in Hcp; rewrite Hcp.
    + unfold cur_slot. rewrite Hc. apply enqueue_preempt; try done.
      intros ->. by rewrite (el_prio_rp _ _ _ L), Z.ltb_irrefl in Elt.
    + simpl. split; [done|]. by apply enq_linked_quiet.
  - rewrite Hcp. simpl. apply wpx_ret. split; [done|]. by apply enq_linked_quiet.
Qed.

Lemma sched_wf_lock_on s s1 :
  sched_wf s -> s1 = s \/ s1 = set_lock true 1 s -> sched_wf s1.
Proof.
  intros H [->| ->]; [done|]. destruct H as [H1 H2 H3 H4]. split; try done.
Qed.

(** [enqueue] puts a runnable process on the queue [sched] chose and may preempt
    the current process; it always returns. *)
Lemma enqueue_wp E s Q rp :
  sched_wf s -> rq_inv {[rp]} s Q -> slot rp -> flags s rp = 0 ->
  wpx E (enqueue rp)
    (fun _ s' => rq_inv ∅ s' (enq_queues s rp Q) /\ enqueued rp s s') s.
Proof.
  intros Hwf H Hrp Hf0. apply wpx_with_intr_off; [apply Hwf|]. intros s1 Hs1 _ _.
  eapply wpx_conseq; [apply (enqueue_body_wp E s1 Q rp)|].
  - by eapply sched_wf_lock_on.
  - destruct Hs1 as [->| ->]; [done|by apply set_lock_rq].
  - done.
  - by destruct Hs1 as [->| ->].
  - intros u s2 [H2 (F2 & F3)]. split; [apply core_lock, F2|]. split.
    + apply set_lock_rq. by destruct Hs1 as [->| ->].
    + split; [by eapply sched_frame_unlock|]. by destruct Hs1 as [->| ->].
Qed.

Lemma enqueued_wf rp s s' : sched_wf s -> slot rp -> enqueued rp s s' -> sched_wf s'.
Proof.
  intros Hwf Hrp (F & Hp & Hpr & _ & _ & Hfl). eapply sched_wf_frame; [done..| |].
  - intros p Hs. destruct (decide (p = rp)) as [->|Hne].
    + rewrite Hpr. apply sched_prio_ok. by apply Hwf.
    + rewrite Hp by done. by apply Hwf.
  - intros p n _ Hn Hb. rewrite Hfl. destruct (_ && _); [|done].
    unfold flag_set. rewrite Z.lor_spec, Hb. done.
Qed.

(** Quantum and credit of a process are C [char]s. *)
Definition char_okp (p : proc) : Prop :=
  -128 <= p_quantum_size p <= 127 /\ -128 <= p_ticks_left p <= 127.

(** ** One step of the [RTS_] family, as its clients see it

    The flags of [rp] become [v]; another process keeps its flags, or it is the
    current process and has been preempted; nothing but scheduling fields has
    changed. *)
Record rts_step (rp v : Z) (s s' : kstate) : Prop := mk_rts_step {
  rts_frame : sched_frame s s';
  rts_self : flags s' rp = v;
  rts_char p : char_okp (k_proc s p) -> char_okp (k_proc s' p);
  rts_other p : p <> rp ->
    flags s' p = flags s p \/
    (proc_ptr s = Some p /\ flags s' p = flag_set (flags s p) RTS_PREEMPTED) }.

Lemma rts_changed_step rp v s s' : rts_changed rp v s s' -> rts_step rp v s s'.
Proof.
  intros (F & _ & Ht & Hv & Ho). split; auto. intros p. unfold char_okp.
  by rewrite Ht, (frame_field p_quantum_size s s').
Qed.

Lemma rts_changed_wf rp v s s' :
  sched_wf s -> rts_changed rp v s s' ->
  (forall n, n = 0 \/ n = 7 -> Z.testbit (flags s rp) n = true -> Z.testbit v n = true) ->
  sched_wf s'.
Proof.
  intros Hwf (F & Hp & _ & Hv & Ho) Hb. eapply sched_wf_frame; [done..| |].
  - intros p Hs. rewrite Hp. by apply Hwf.
  - intros p n Hs Hn. destruct (decide (p = rp)) as [->|]; [rewrite Hv; auto|by rewrite Ho].
Qed.

Lemma RTS_SET_inv E s rp f :
  sched_inv s -> slot rp -> f <> 0 ->
  wpx E (RTS_SET rp f)
    (fun _ s' => sched_inv s' /\ rts_step rp (flag_set (flags s rp) f) s s') s.
Proof.
  intros [Hwf [Q H]] Hrp Hf. eapply wpx_conseq.
  - apply (RTS_SET_wp E ∅ s Q rp f); try done; [apply Hwf|by apply Hwf].
  - intros u s' [H' C]. split; [|by apply rts_changed_step]. split; [|by eexists].
    eapply rts_changed_wf; [done..|]. intros n _ Hb. unfold flag_set.
    by rewrite Z.lor_spec, Hb.
Qed.

(** ** [RTS_UNSET] *)

(** A blocked process is on no queue: it may be considered in transit. *)
Lemma rq_inv_add s Q rp : flags s rp <> 0 -> rq_inv ∅ s Q -> rq_inv {[rp]} s Q.
Proof.
  intros Hf [H1 H2 H3 H4]. split; try done. intros q p Hq. rewrite H4 by done.
  split; intros (Hs & _ & Hfl & Hp); split_all; try done.
  intros ->%elem_of_singleton. done.
Qed.

(** The state with the flags [f] of [rp] cleared. *)
Definition unset_flags (rp f : Z) (s : kstate) : kstate :=
  upd_proc rp (fun p => set_p_rts_flags (flag_clear (p_rts_flags p) f) p) s.

(** [RTS_UNSET] makes [rp] ready: it was blocked, by flags of [f] only. *)
Definition readies (s : kstate) (rp f : Z) : bool :=
  negb (flags s rp =? 0) && (flag_clear (flags s rp) f =? 0).

(** Clearing [f] does not let a process without privileges run. *)
Definition unset_ok (s : kstate) (rp f : Z) : Prop :=
  p_priv (k_proc s rp) = None -> Z.testbit f 0 = false /\ Z.testbit f 7 = false.

Lemma rts_changed_upd' rp g s :
  rts_changed rp (g (flags s rp)) s (upd_proc rp (fun p => set_p_rts_flags (g (p_rts_flags p)) p) s).
Proof. exact (rts_changed_upd rp (g (flags s rp)) s s ltac:(done)). Qed.

(** Keeping the process table well formed when flags change. *)
Lemma rts_changed_wf' rp v s s' :
  sched_wf s -> rts_changed rp v s s' ->
  (p_priv (k_proc s rp) = None -> Z.testbit v 0 = true \/ Z.testbit v 7 = true) ->
  sched_wf s'.
Proof.
  intros [W1 W2 W3 W4] (F & Hp & _ & Hv & Ho) Hb. pose proof F as [Hc _]. split.
  - intros p Hs. rewrite Hp, (frame_field p_max_priority s s') by done. by apply W1.
  - intros p Hs. specialize (W2 p Hs). unfold priv_ok in *.
    rewrite (frame_field p_priv s s') by done. destruct (decide (p = rp)) as [->|Hne].
    + rewrite Hv. destruct (p_priv (k_proc s rp)); auto.
    + by rewrite Ho.
  - destruct W3 as (c & i & ? & ? & ?). exists c, i.
    rewrite (core_proc_ptr s s'), (frame_field p_priv s s') by done. done.
  - eapply lock_ok_same; [done|by apply core_lock].
Qed.

Lemma unset_flags_wf s rp f :
  sched_wf s -> slot rp -> unset_ok s rp f -> sched_wf (unset_flags rp f s).
Proof.
  intros Hwf Hrp Hu.
  eapply rts_changed_wf'; [done|exact (rts_changed_upd' rp (fun x => flag_clear x f) s)|].
  intros Hn. destruct (Hu Hn) as [Hu0 Hu7].
  pose proof (wf_priv s Hwf rp Hrp) as Hp. unfold priv_ok in Hp. rewrite Hn in Hp.
  unfold flag_clear. rewrite !Z.ldiff_spec, Hu0, Hu7, !andb_true_r. exact Hp.
Qed.

Lemma rts_changed_flags0 rp v s s' : rts_changed rp v s s' -> flags s' rp = v.
Proof. intros (_ & _ & _ & H & _). done. Qed.

(** The exact effect of [RTS_UNSET] on the queues. *)
Lemma RTS_UNSET_wp E s Q rp f :
  sched_wf s -> rq_inv ∅ s Q -> slot rp -> unset_ok s rp f ->
  wpx E (RTS_UNSET rp f)
    (fun _ s' => if readies s rp f
       then rq_inv ∅ s' (enq_queues (unset_flags rp f s) rp Q) /\
            enqueued rp (unset_flags rp f s) s'
       else rq_inv ∅ s' Q /\ s' = unset_flags rp f s) s.
Proof.
  intros Hwf H Hrp Hu. unfold RTS_UNSET. apply wpx_bind, wpx_rd; [done|].
  apply wpx_bind, wpx_wr; [done|]. fold (unset_flags rp f s) (flags s rp).
  apply wpx_bind, wpx_proc_is_runnable; [done|].
  assert (Hfl : flags (unset_flags rp f s) rp = flag_clear (flags s rp) f).
  { unfold flags, unset_flags. by rewrite upd_proc_eq. }
  fold (flags (unset_flags rp f s) rp). rewrite Hfl. fold (readies s rp f).
  apply wpx_when; intros Hb; rewrite Hb.
  - unfold readies in Hb. apply andb_true_iff in Hb as [Hb1 Hb2].
    apply negb_true_iff, Z.eqb_neq in Hb1. apply Z.eqb_eq in Hb2.
    apply enqueue_wp; [by apply unset_flags_wf| |done|congruence].
    apply rq_inv_upd_transit; [set_solver|done|by apply rq_inv_add].
  - split; [|done]. unfold readies in Hb. destruct (Z.eqb_spec (flags s rp) 0) as [H0|H0].
    + apply (rq_inv_ext ∅ s); try done.
      * intros p. simpl. rewrite fn_insert_case. case_decide; by subst.
      * intros p _ _. unfold flags, prio in *. simpl. rewrite fn_insert_case.
        case_decide; [subst p; simpl|done]. rewrite H0. done.
    + simpl in Hb. apply Z.eqb_neq in Hb.
      by apply (rq_inv_upd_blocked ∅ s Q rp (fun x => flag_clear x f)).
Qed.

Lemma RTS_UNSET_inv E s rp f :
  sched_inv s -> slot rp -> unset_ok s rp f ->
  wpx E (RTS_UNSET rp f)
    (fun _ s' => sched_inv s' /\ rts_step rp (flag_clear (flags s rp) f) s s') s.
Proof.
  intros [Hwf [Q H]] Hrp Hu. eapply wpx_conseq; [by apply (RTS_UNSET_wp E s Q)|].
  pose proof (unset_flags_wf s rp f Hwf Hrp Hu) as Hwf'.
  assert (C : rts_changed rp (flag_clear (flags s rp) f) s (unset_flags rp f s))
    by exact (rts_changed_upd' rp (fun x => flag_clear x f) s).
  intros u s'. destruct (readies s rp f).
  - intros [H' He]. split; [split; [by eapply enqueued_wf|by eexists]|].
    destruct He as (F & _ & _ & Ht & Hts & Hfl). destruct C as (F0 & _ & Ht0 & Hv & Ho).
    split; [by etrans| | |].
    + rewrite Hfl, Hv. destruct (Z.eqb_spec rp (cur_slot (unset_flags rp f s))) as [Hc|];
        [|by rewrite andb_false_r].
      assert (preempts (unset_flags rp f s) rp = false) as ->; [|done].
      unfold preempts. unfold cur_slot in Hc. destruct (proc_ptr _); [|done].
      by rewrite Hc, Z.eqb_refl.
    + intros p. unfold char_okp. rewrite (frame_field p_quantum_size (unset_flags rp f s) s') by done.
      rewrite (frame_field p_quantum_size s (unset_flags rp f s)) by done.
      destruct (decide (p = rp)) as [->|Hp]; [|by rewrite Ht, Ht0].
      rewrite Hts. unfold sched_ticks. rewrite Ht0.
      rewrite (frame_field p_quantum_size s (unset_flags rp f s)) by done.
      destruct (0 <? _); tauto.
    + intros p Hp. rewrite Hfl, Ho by done.
      destruct (preempts _ _) eqn:Epr, (Z.eqb_spec p (cur_slot (unset_flags rp f s))) as [->|];
        simpl; auto. right. split; [|done]. unfold preempts, cur_slot in *. simpl in *.
      by destruct (proc_ptr s).
  - intros [H' ->]. split; [split; [done|by eexists]|]. by apply rts_changed_step.
Qed.

(** ** The [RTS_LOCK_] variants disable interrupts around the same step *)

Lemma set_lock_inv a b s : lock_ok (set_lock a b s) -> sched_inv s -> sched_inv (set_lock a b s).
Proof.
  intros Hl [[W1 W2 W3 W4] [Q H]]. split; [by split|]. exists Q. by apply set_lock_rq.
Qed.

Lemma rts_step_unlock rp v s s1 s2 :
  s1 = s \/ s1 = set_lock true 1 s -> rts_step rp v s1 s2 ->
  rts_step rp v s (set_lock (intr_off s) (locklevel s) s2).
Proof.
  intros Hs [F Hv Hc Ho]. split; [by eapply sched_frame_unlock|done| |];
    by destruct Hs as [->| ->].
Qed.

Lemma lock_rts_inv {A} E (m : K A) s rp v :
  sched_inv s ->
  (forall s1, s1 = s \/ s1 = set_lock true 1 s -> sched_inv s1 ->
     wpx E m (fun _ s' => sched_inv s' /\ rts_step rp v s1 s') s1) ->
  wpx E (with_intr_off m) (fun _ s' => sched_inv s' /\ rts_step rp v s s') s.
Proof.
  intros Hi Hm. pose proof Hi as [Hwf _]. apply wpx_with_intr_off; [apply Hwf|].
  intros s1 Hs1 _ Hl1.
  assert (Hi1 : sched_inv s1) by (destruct Hs1 as [->| ->]; [done|by apply set_lock_inv]).
  eapply wpx_conseq; [by apply Hm|]. intros a s2 [Hi2 S2].
  split; [apply core_lock, S2|]. split; [|by eapply rts_step_unlock].
  apply set_lock_inv; [apply Hwf|done].
Qed.

Lemma RTS_LOCK_SET_inv E s rp f :
  sched_inv s -> slot rp -> f <> 0 ->
  wpx E (RTS_LOCK_SET rp f)
    (fun _ s' => sched_inv s' /\ rts_step rp (flag_set (flags s rp) f) s s') s.
Proof.
  intros Hi Hrp Hf. apply lock_rts_inv; [done|]. intros s1 Hs1 Hi1.
  assert (flags s rp = flags s1 rp) as -> by by destruct Hs1 as [->| ->].
  by apply RTS_SET_inv.
Qed.

Lemma RTS_LOCK_UNSET_inv E s rp f :
  sched_inv s -> slot rp -> unset_ok s rp f ->
  wpx E (RTS_LOCK_UNSET rp f)
    (fun _ s' => sched_inv s' /\ rts_step rp (flag_clear (flags s rp) f) s s') s.
Proof.
  intros Hi Hrp Hu. apply lock_rts_inv; [done|]. intros s1 Hs1 Hi1.
  assert (flags s rp = flags s1 rp) as -> by by destruct Hs1 as [->| ->].
  apply RTS_UNSET_inv; [done|done|]. by destruct Hs1 as [->| ->].
Qed.

Lemma RTS_LOCK_SETFLAGS_inv E s rp f :
  sched_inv s -> slot rp -> f <> 0 ->
  (p_priv (k_proc s rp) = None -> Z.testbit f 0 = true \/ Z.testbit f 7 = true) ->
  wpx E (RTS_LOCK_SETFLAGS rp f) (fun _ s' => sched_inv s' /\ rts_step rp f s s') s.
Proof.
  intros Hi Hrp Hf Hp. apply lock_rts_inv; [done|]. intros s1 Hs1 [Hwf1 [Q H]].
  apply wpx_bind, wpx_proc_is_runnable; [done|]. rewrite (proj2 (Z.eqb_neq f 0) Hf), andb_true_r.
  eapply wpx_conseq.
  - apply (set_flags_wp E ∅ s1 Q rp (fun _ => f)); try done; [apply Hwf1|by apply Hwf1].
  - intros u s' [H' C]. split; [|by apply rts_changed_step]. split; [|by eexists].
    eapply rts_changed_wf'; [done..|]. by destruct Hs1 as [->| ->].
Qed.
