(* ===== verification/Balance.v ===== *)
(** * [balance_queues] and [enqueue_head] (kernel/proc.c) *)
From S2P Require Import Prelude PList KMonad Timers Types KState TimerIface Sched SchedInv.

(** The flags of [p] are the same, but it may have been preempted. *)
Definition preempt_only (s s' : kstate) (p : Z) : Prop :=
  flags s' p = flags s p \/
  (proc_ptr s = Some p /\ flags s' p = flag_set (flags s p) RTS_PREEMPTED).

(** What one round of [balance_queues] may change: the scheduling fields of
    [rp], and [RTS_PREEMPTED] of others. *)
Record bal_frame (rp : Z) (s s' : kstate) : Prop := mk_bal_frame {
  bal_sched : sched_frame s s';
  bal_prio p : p <> rp -> prio s' p = prio s p;
  bal_ticks p : p <> rp -> p_ticks_left (k_proc s' p) = p_ticks_left (k_proc s p);
  bal_used p : preempt_only s s' p;
  bal_self : p_ticks_left (k_proc s' rp) = p_ticks_left (k_proc s rp) \/
             p_ticks_left (k_proc s' rp) = p_quantum_size (k_proc s rp) }.

Definition char_ok (s : kstate) (p : Z) : Prop := char_okp (k_proc s p).

(** The effect of a round on the process it treats. *)
Definition balanced (s s' : kstate) (p : Z) : Prop :=
  let mx := p_max_priority (k_proc s p) in
  if mx <? prio s p then
    deadline_of s p <= 0 ->
    prio s' p = prio s p - 1 \/ (p_ticks_left (k_proc s p) <= 0 /\ prio s' p = prio s p)
  else prio s' p = prio s p /\ p_ticks_left (k_proc s' p) = p_quantum_size (k_proc s p).

Lemma bit0_preempted x : Z.testbit (flag_set x RTS_PREEMPTED) 0 = Z.testbit x 0.
Proof. unfold flag_set. rewrite Z.lor_spec. apply orb_false_r. Qed.

Lemma preempt_bit0 s s' p : preempt_only s s' p -> Z.testbit (flags s' p) 0 = Z.testbit (flags s p) 0.
Proof. intros [->|[_ ->]]; [done|apply bit0_preempted]. Qed.

Lemma preempt_trans s1 s2 s3 p :
  proc_ptr s2 = proc_ptr s1 -> preempt_only s1 s2 p -> preempt_only s2 s3 p -> preempt_only s1 s3 p.
Proof.
  intros Hc [H1|[C1 H1]] [H2|[C2 H2]]; unfold preempt_only; rewrite H2, H1; auto.
  - right. by rewrite <- Hc.
  - right. split; [done|]. unfold flag_set. by rewrite <- Z.lor_assoc, Z.lor_diag.
Qed.

Lemma queue_ok_pred a q : queue_ok a -> queue_ok q -> a < q -> queue_ok (q - 1).
Proof. unfold queue_ok. lia. Qed.

(** The priority of [rp] is one better, the links of the queues aside. *)
Record raised (rp : Z) (s s2 : kstate) : Prop := mk_raised {
  ra_frame : sched_frame s s2;
  ra_prio p : prio s2 p = if decide (rp = p) then prio s rp - 1 else prio s p;
  ra_flags p : flags s2 p = flags s p;
  ra_ticks p : p_ticks_left (k_proc s2 p) = p_ticks_left (k_proc s p) }.

Lemma raised_upd rp s s1 : only_links s s1 ->
  raised rp s (upd_proc rp (fun p => set_p_priority (p_priority p - 1) p) s1).
Proof.
  intros L1. set (s2 := upd_proc rp _ s1).
  assert (R : only_links (upd_proc rp (set_p_priority (prio s rp - 1)) s) s2).
  { split; [apply L1|]. intros p. subst s2. simpl.
    rewrite !fn_insert_case. case_decide; [subst p|by apply L1].
    change (set_p_priority (prio s1 rp - 1) (set_p_nextready None (k_proc s1 rp)) =
            set_p_priority (prio s rp - 1) (set_p_nextready None (k_proc s rp))).
    rewrite (links_prio s s1) by done. f_equal. apply L1. }
  split.
  - etrans; [|by apply only_links_sched_frame]. by apply upd_unscheduled.
  - intros p. rewrite (links_prio _ _ _ R). unfold prio. simpl. rewrite fn_insert_case. by case_decide.
  - intros p. rewrite (links_flags _ _ _ R). unfold flags. simpl. rewrite fn_insert_case.
    by case_decide; subst.
  - intros p. rewrite (links_field p_ticks_left _ _ _ ltac:(done) R). simpl.
    rewrite fn_insert_case. by case_decide; subst.
Qed.

Lemma raised_wf rp s s2 : sched_wf s -> slot rp -> p_max_priority (k_proc s rp) < prio s rp ->
  raised rp s s2 -> sched_wf s2.
Proof.
  intros Hwf Hrp Hlt R. destruct (wf_prio s Hwf rp Hrp) as [Hq Hm].
  eapply sched_wf_frame; [exact Hwf|apply R| |by intros; rewrite (ra_flags _ _ _ R)].
  intros p Hs. rewrite (ra_prio _ _ _ R). case_decide; [by eapply queue_ok_pred|by apply Hwf].
Qed.

(** ... and then [rp] enters a queue. *)
Lemma raised_enqueued_frame rp s s2 s3 : raised rp s s2 -> enqueued rp s2 s3 -> bal_frame rp s s3.
Proof.
  intros [F02 P2 F2 T2] (F3 & P3 & Pr & T3 & Ts & Fl). split; [by etrans| | | |].
  - intros p Hp. rewrite P3, P2, decide_False by done. done.
  - intros p Hp. by rewrite T3, T2.
  - intros p. unfold preempt_only. rewrite Fl, F2. destruct (_ && _) eqn:Ep; [right|by left].
    apply andb_true_iff in Ep as [Ep Ec]. apply Z.eqb_eq in Ec. split; [|done].
    unfold preempts, cur_slot in *.
    rewrite <- (core_proc_ptr s s2) by apply F02. destruct (proc_ptr s2); [by subst|done].
  - rewrite Ts. unfold sched_ticks. rewrite T2, (frame_field p_quantum_size s s2) by done.
    destruct (0 <? _); [by left|by right].
Qed.

Lemma raised_enqueued_prio rp s s2 s3 : raised rp s s2 -> enqueued rp s2 s3 -> deadline_of s rp <= 0 ->
  prio s3 rp = prio s rp - 1 \/ (p_ticks_left (k_proc s rp) <= 0 /\ prio s3 rp = prio s rp).
Proof.
  intros [F02 P2 F2 T2] (_ & _ & Pr & _) Hd. rewrite Pr. unfold sched_prio.
  replace (deadline_of s2 rp) with (deadline_of s rp).
  2:{ unfold deadline_of. by rewrite (core_timers s s2) by apply F02. }
  rewrite (proj2 (Z.ltb_ge _ _) Hd), P2, decide_True, T2 by done.
  destruct (Z.ltb_spec 0 (p_ticks_left (k_proc s rp))); [by left|].
  destruct (Z.ltb_spec (prio s rp - 1) (NR_SCHED_QUEUES - 1)); [right|by left]. lia.
Qed.

(** ... or stays blocked. *)
Lemma raised_blocked_frame rp s : bal_frame rp s (upd_proc rp (fun p => set_p_priority (p_priority p - 1) p) s).
Proof.
  pose proof (raised_upd rp s s ltac:(done)) as [F02 P2 F2 T2]. split; [done| | | |].
  - intros p Hp. rewrite P2, decide_False by done. done.
  - intros p Hp. apply T2.
  - intros p. left. apply F2.
  - left. apply T2.
Qed.

Lemma balance_raise E s Q rp acc :
  sched_wf s -> rq_inv ∅ s Q -> slot rp -> p_max_priority (k_proc s rp) < prio s rp ->
  wpx E (do r <- proc_is_runnable rp;
         do! when r (dequeue rp);
         do qs <- rd rp p_quantum_size;
         do! wr rp (fun p => set_p_priority (p_priority p - 1) p);
         do r' <- proc_is_runnable rp;
         do! when r' (enqueue rp);
         ret (acc + qs))
    (fun a s' => sched_inv s' /\ bal_frame rp s s' /\
       (deadline_of s rp <= 0 -> prio s' rp = prio s rp - 1 \/
          (p_ticks_left (k_proc s rp) <= 0 /\ prio s' rp = prio s rp)) /\
       a = acc + p_quantum_size (k_proc s rp)) s.
Proof.
  intros Hwf H Hrp Hlt. destruct (wf_prio s Hwf rp Hrp) as [Hq _].
  apply wpx_bind, wpx_proc_is_runnable; [done|]. fold (flags s rp). apply wpx_bind, wpx_when;
    intros Hb.
  - apply Z.eqb_eq in Hb.
    eapply wpx_conseq; [apply (dequeue_wp E ∅ s Q); [apply Hwf|done..]|]. intros u s1 [H1 L1].
    apply wpx_bind, wpx_rd; [done|]. apply wpx_bind, wpx_wr; [done|].
    rewrite (links_field p_quantum_size s s1) by done.
    pose proof (raised_upd rp s s1 L1) as R. set (s2 := upd_proc rp _ s1) in *.
    pose proof (raised_wf rp s s2 Hwf Hrp Hlt R) as Hwf2.
    apply wpx_bind, wpx_proc_is_runnable; [done|]. fold (flags s2 rp).
    rewrite (ra_flags _ _ _ R), Hb. simpl. apply wpx_bind. eapply wpx_conseq.
    { eapply (enqueue_wp E s2 (q_remove rp (prio s rp) Q)); [done| |done|by rewrite (ra_flags _ _ _ R)].
      replace ({[rp]} ∪ ∅) with ({[rp]} : gset Z) in H1 by set_solver.
      apply rq_inv_upd_transit; [set_solver|done|exact H1]. }
    intros u' s3 [H3 E3]. apply wpx_ret.
    split; [split; [by eapply enqueued_wf|by eexists]|].
    split; [by eapply raised_enqueued_frame|]. split; [by eapply raised_enqueued_prio|done].
  - apply Z.eqb_neq in Hb. apply wpx_bind, wpx_rd; [done|]. apply wpx_bind, wpx_wr; [done|].
    pose proof (raised_upd rp s s ltac:(done)) as R.
    pose proof (raised_blocked_frame rp s) as B. set (s2 := upd_proc rp _ s) in *.
    apply wpx_bind, wpx_proc_is_runnable; [done|]. fold (flags s2 rp).
    rewrite (ra_flags _ _ _ R), (proj2 (Z.eqb_neq _ _) Hb). apply wpx_bind, wpx_ret, wpx_ret.
    split_all; [|done| |done].
    + split; [by eapply raised_wf|]. exists Q.
      eapply rq_inv_drop; [apply empty_subseteq|by intros p ->%elem_of_singleton _; rewrite (ra_flags _ _ _ R)|].
      apply rq_inv_upd_transit; [set_solver|done|by apply rq_inv_add].
    + intros _. left. by rewrite (ra_prio _ _ _ R), decide_True.
Qed.

Lemma rq_inv_upd_ticks X s Q rp v : rq_inv X s Q -> rq_inv X (upd_proc rp (set_p_ticks_left v) s) Q.
Proof. by apply rq_inv_upd_other. Qed.

Lemma balance_one_wp E s rp acc :
  sched_inv s -> slot rp ->
  wpx E (balance_one acc rp)
    (fun a s' => sched_inv s' /\ bal_frame rp s s' /\
       (Z.testbit (flags s rp) 0 = false -> balanced s s' rp) /\
       (char_ok s rp -> a <= acc + 255)) s.
Proof.
  intros [Hwf [Q H]] Hrp. unfold balance_one. apply wpx_bind, wpx_isemptyp; [done|].
  fold (flags s rp). destruct (Z.eqb_spec (flags s rp) RTS_SLOT_FREE) as [He|_].
  { apply wpx_ret. split_all; [by split; [|by eexists]|split; try done; by left|by rewrite He|lia]. }
  apply wpx_bind, wpx_rd; [done|]. apply wpx_bind, wpx_rd; [done|]. fold (prio s rp).
  unfold balanced. destruct (Z.ltb_spec (p_max_priority (k_proc s rp)) (prio s rp)) as [Hlt|Hge].
  - eapply wpx_conseq; [by eapply balance_raise|]. intros a s' (Hi & Hf & Hp & Ha). split_all; auto. intros [? ?]. lia.
  - do 2 (apply wpx_bind, wpx_rd; [done|]). apply wpx_bind, wpx_wr; [done|]. apply wpx_ret.
    set (s1 := upd_proc rp _ s).
    assert (C : forall p, flags s1 p = flags s p /\ prio s1 p = prio s p).
    { intros p. unfold flags, prio. subst s1. simpl. rewrite fn_insert_case. by case_decide; subst. }
    assert (F : sched_frame s s1) by by apply upd_unscheduled.
    split_all.
    + split; [|exists Q; by apply rq_inv_upd_ticks].
      eapply sched_wf_frame; [done|done| |].
      * intros p Hs. destruct (C p) as [_ ->]. by apply Hwf.
      * intros p n _ _. by destruct (C p) as [-> _].
    + split; [done| | | |].
      * intros p _. apply C.
      * intros p Hp. subst s1. by rewrite upd_proc_ne by done.
      * intros p. left. by destruct (C p) as [-> _].
      * right. subst s1. by rewrite upd_proc_eq.
    + intros _. split; [apply C|]. subst s1. by rewrite upd_proc_eq.
    + intros [? ?]. lia.
Qed.

(** The whole table: every slot of [done] has been treated. *)
Record bal_loop (s : kstate) (rest : list Z) (s' : kstate) : Prop := mk_bal_loop {
  bl_inv : sched_inv s';
  bl_frame : sched_frame s s';
  bl_rest p : p ∈ rest -> prio s' p = prio s p /\
                p_ticks_left (k_proc s' p) = p_ticks_left (k_proc s p);
  bl_used p : preempt_only s s' p;
  bl_done p : slot p -> p ∉ rest -> Z.testbit (flags s p) 0 = false -> balanced s s' p;
  bl_char p : char_ok s p -> char_ok s' p;
  bl_nodup : NoDup rest }.

Lemma bal_loop_step s s1 s2 rp rest :
  bal_loop s (rp :: rest) s1 -> sched_inv s2 -> bal_frame rp s1 s2 ->
  (Z.testbit (flags s1 rp) 0 = false -> balanced s1 s2 rp) -> bal_loop s rest s2.
Proof.
  intros [Hi Hf Hr Hu Hd Hch Hn] Hi2 [F2 P2 T2 U2 S2] Hb. apply NoDup_cons in Hn as [Hn1 Hn2].
  split; [done|by etrans| | | | |done].
  - intros p Hp. rewrite P2, T2 by set_solver. apply Hr. set_solver.
  - intros p. eapply preempt_trans; [by apply (core_proc_ptr s s1), Hf|apply Hu|apply U2].
  - intros p Hs Hp Hused. destruct (decide (p = rp)) as [->|Hne].
    + rewrite (preempt_bit0 s s1) in Hb by apply Hu. specialize (Hb Hused). destruct (Hr rp) as [Hp1 Ht1]; [set_solver|].
      unfold balanced in *. rewrite Hp1, Ht1 in Hb.
      rewrite (frame_field p_max_priority s s1), (frame_field p_quantum_size s s1) in Hb by done.
      unfold deadline_of in *. by rewrite (core_timers s s1) in Hb by apply Hf.
    + specialize (Hd p Hs ltac:(set_solver) Hused). unfold balanced in *.
      by rewrite P2, T2 by done.
  - intros p Hc. specialize (Hch p Hc). unfold char_ok, char_okp in *.
    rewrite (frame_field p_quantum_size s1 s2) by done.
    destruct (decide (p = rp)) as [->|Hne]; [destruct S2; lia|]. by rewrite T2.
Qed.

Lemma balance_loop_wp E s :
  sched_inv s ->
  wpx E (fold_each all_slots 0 balance_one) (fun a s' => bal_loop s [] s' /\
    ((forall p, slot p -> char_ok s p) -> a <= 66300)) s.
Proof.
  intros Hi. apply (wpx_fold_each E (fun a rest s' => bal_loop s rest s' /\
    ((forall p, slot p -> char_ok s p) -> a <= 255 * (260 - Z.of_nat (length rest))))).
  - split; [|intros _; change (length all_slots) with 260%nat; lia]. split; try done.
    + intros p. by left.
    + intros p Hs Hp. by destruct Hp; apply elem_of_all_slots.
    + apply NoDup_seqZ.
  - intros a rp rest s1 [HI Ha] Hrp. apply elem_of_all_slots in Hrp.
    eapply wpx_conseq; [apply balance_one_wp; [apply HI|done]|].
    intros a' s2 (Hi2 & Hf2 & Hb2 & Ha2). split; [by eapply bal_loop_step|].
    intros Hc. specialize (Ha Hc). specialize (Ha2 (bl_char _ _ _ HI rp (Hc rp Hrp))).
    simpl length in Ha. lia.
  - intros a s' [HI Ha]. split; [done|]. intros Hc. specialize (Ha Hc). simpl in Ha. lia.
Qed.

Lemma timers_changed_inv st s : sched_inv s -> sched_inv (timers_changed st s).
Proof. intros [[W1 W2 W3 W4] [Q [H1 H2 H3 H4]]]. split; [by split|]. exists Q. by split. Qed.

Lemma timers_rep_ext s s' l :
  clock_timers s' = clock_timers s -> next_timeout s' = next_timeout s ->
  timers_rep s l -> timers_rep s' l.
Proof.
  intros Hc Hn [[H1 H2] H3]. split; [split; [by rewrite Hc|done]|by rewrite Hc, Hn].
Qed.

Lemma timers_q_ext s s' l : clock_timers s' = clock_timers s -> timers_q s l -> timers_q s' l.
Proof. intros Hc [H1 H2]. split; [by rewrite Hc|done]. Qed.

Lemma timers_rep_core s s' l : kcore s' = kcore s -> timers_rep s l -> timers_rep s' l.
Proof.
  intros Hc. apply timers_rep_ext; [by apply core_timers|by apply (core_field next_timeout)].
Qed.

(** The queues are balanced, and the function is called again later. *)
Record balance_post (s s' : kstate) (l : list tmr_ref) : Prop := mk_balance_post {
  bp_inv : sched_inv s';
  bp_timers : timers_rep s'
    (insert_timer (exp_of (clock_timers s)) TQueue (exp_of (clock_timers s') TQueue) (without TQueue l));
  bp_frame : exists s1, sched_inv s1 /\ sched_frame s s1 /\ (forall p, preempt_only s s1 p) /\
    exists st, s' = timers_changed st s1;
  bp_balanced p : slot p -> Z.testbit (flags s p) 0 = false -> balanced s s' p;
  bp_char p : char_ok s p -> char_ok s' p;
  bp_again : exists n, Q_BALANCE_TICKS <= n /\
    ((forall p, slot p -> char_ok s p) -> n <= 66300) /\
    exp_of (clock_timers s') TQueue = i32 (realtime s + n) /\
    tmr_func (tm (clock_timers s') TQueue) = W_balance_queues /\
    (forall k, k <> TQueue -> exp_of (clock_timers s') k = exp_of (clock_timers s) k /\
                              same_meta (clock_timers s) (clock_timers s') k) }.

Lemma balance_queues_wp E s l :
  sched_inv s -> timers_q s l -> intr_off s = false ->
  wpx E balance_queues (fun _ s' => balance_post s s' l /\ lock_same s s') s.
Proof.
  intros Hi Ht Hoff. pose proof Hi as [Hwf _]. destruct (wf_lock s Hwf) as [_ Hl].
  specialize (Hl Hoff). unfold balance_queues, lock.
  apply wpx_bind, wpx_bind, wpx_gets, wpx_bind, wpx_modify, wpx_bind, wpx_gets.
  rewrite Hoff, Hl. simpl. apply wpx_ret. set (s1 := set_lock true (0 + 1) s).
  assert (Hi1 : sched_inv s1) by by apply set_lock_inv.
  apply wpx_bind. eapply wpx_conseq; [by apply balance_loop_wp|].
  intros ticks s2 [[Hi2 F2 _ Hu2 Hd Hc2 _] Hn2]. pose proof F2 as [C2 _].
  destruct (core_lock s1 s2 C2) as [El1 El2]. unfold unlock.
  apply wpx_bind, wpx_bind, wpx_gets. rewrite El1. simpl. apply wpx_bind, wpx_gets.
  rewrite El2. simpl. apply wpx_bind, wpx_modify, wpx_modify, wpx_bind, wpx_gets.
  change (set_intr_off false (set_locklevel 0 s2)) with (set_lock false 0 s2).
  set (s3 := set_lock false 0 s2).
  assert (Hi3 : sched_inv s3) by by apply set_lock_inv.
  assert (Hc3 : clock_timers s3 = clock_timers s) by (exact (core_timers s1 s2 C2)).
  assert (Hr3 : realtime s3 = realtime s) by (by apply (core_field realtime s1 s2)).
  eapply set_timer_wp; [|apply timer_ok_queue|].
  { by apply (timers_q_ext s). }
  intros st Ha Hti. split; [split|].
  - by apply timers_changed_inv.
  - destruct Ha as (_ & Hx & _). rewrite <- Hc3. simpl. rewrite Hx. exact Hti.
  - exists s3. split_all; [done| |exact Hu2|by exists st].
    pose proof (sched_frame_unlock s s1 s2 ltac:(by right) F2) as F3. by rewrite Hoff, Hl in F3.
  - intros p Hs Hu. specialize (Hd p Hs ltac:(set_solver) Hu). exact Hd.
  - exact Hc2.
  - destruct Ha as (_ & Hx & Hf & _ & Ho). exists (Z.max Q_BALANCE_TICKS ticks).
    rewrite <- Hr3, <- Hc3.
    split_all; [lia|intros Hch; specialize (Hn2 Hch); unfold Q_BALANCE_TICKS; lia|exact Hx|exact Hf|]. exact Ho.
  - split; simpl; [by rewrite Hoff|by rewrite Hl].
Qed.

(** ** [enqueue_head] *)

(** At the front of the queue of its priority, whatever the quantum. *)
Lemma enqueue_head_wp E X s Q rp :
  rq_inv X s Q -> queue_ok (prio s rp) -> slot rp -> rp ∈ X -> flags s rp = 0 ->
  wpx E (enqueue_head rp)
    (fun _ s' => rq_inv (X ∖ {[rp]}) s' (q_insert rp (prio s rp) true Q) /\ only_links s s') s.
Proof.
  intros H Hq Hrp HX Hf. pose proof (rq_insert_wp E X s Q (prio s rp) rp true H Hq Hrp HX Hf eq_refl)
    as HI. unfold enqueue_head, rq_insert in *.
  apply wpx_bind, wpx_rd; [done|]. fold (prio s rp). set (q := prio s rp) in *.
  apply wpx_bind, wpx_rd_head; [done|].
  assert (Hh : rd_head q s = Done (rdy_head s q) s) by (unfold rd_head; by rewrite decide_True).
  destruct (rdy_head s q) as [h|] eqn:Eh.
  - apply wpx_bind, wpx_wr; [done|]. apply wpx_wr_head; [done|].
    eapply wpx_elim in HI; [exact HI|]. rewrite (bind_done _ _ _ _ _ Hh). simpl.
    unfold bind, wr, wr_head. by rewrite !decide_True.
  - apply wpx_bind, wpx_bind, wpx_wr_tail; [done|]. apply wpx_bind, wpx_wr_head; [done|].
    apply wpx_wr; [done|]. apply wpx_wr_head; [done|].
    eapply wpx_elim in HI.
    2:{ rewrite (bind_done _ _ _ _ _ Hh). simpl. unfold bind, wr, wr_head, wr_tail.
        by rewrite !decide_True. }
    destruct HI as [HI L]. split; [|exact L]. eapply rq_inv_ext; [..|exact HI]; try done. simpl.
    intros q'. rewrite !fn_insert_case. by case_decide.
Qed.
