(* ===== verification/PickProc.v ===== *)
(** * [pick_proc]: the three scheduling policies (kernel/proc.c)

    Each policy is shown equal to a function of the ready queues seen as lists:
    the first process of the first non-empty queue (policy 0), a lottery with
    [16 - q] tickets for a process of queue [q] below the system queues (policy
    1), the earliest deadline first in queue 7 (policy 2). *)
From S2P Require Import Prelude PList KMonad Timers Types KState Sched SchedInv.

(** ** Scanning a queue *)

(** The loop of [scan] as a function of the list. *)
Fixpoint scan_list {A R} (step : A -> Z -> A + R) (l : list Z) (acc : A) : A + R :=
  match l with
  | [] => inl acc
  | x :: l' => match step acc x with inl acc' => scan_list step l' acc' | inr v => inr v end
  end.

Lemma scan_done {A R} (step : A -> Z -> A + R) body s l cur acc fuel :
  chain (fun k => p_nextready (k_proc s k)) cur l ->
  (forall x, x ∈ l -> slot x) -> (length l <= fuel)%nat ->
  (forall acc x, x ∈ l -> body acc x s = Done (step acc x) s) ->
  scan fuel cur acc body s = Done (scan_list step l acc) s.
Proof.
  revert cur acc fuel. induction l as [|x l IH]; intros cur acc fuel Hc Hs Hf Hb; simpl in *.
  - subst cur. by destruct fuel.
  - destruct Hc as [-> Hc]. destruct fuel as [|fuel]; [lia|]. simpl. unfold bind at 1.
    rewrite Hb by set_solver. destruct (step acc x) as [acc'|v]; [|done].
    unfold bind, rd. rewrite decide_True by (apply Hs; set_solver).
    apply IH; [done|intros; apply Hs; set_solver|lia|]. intros. apply Hb. set_solver.
Qed.

(** [scan] from the head of a ready queue. *)
Lemma scan_queue {A R} (step : A -> Z -> A + R) body X s Q q acc :
  rq_inv X s Q -> queue_ok q ->
  (forall acc x, x ∈ Q q -> body acc x s = Done (step acc x) s) ->
  scan PROC_FUEL (rdy_head s q) acc body s = Done (scan_list step (Q q) acc) s.
Proof.
  intros H Hq Hb. apply scan_done; [|..|done].
  - exact (rq_chain _ _ _ H q Hq).
  - intros x Hx. by eapply rq_slots.
  - pose proof (rq_fuel _ _ _ _ H Hq). lia.
Qed.

Lemma rd_head_done q s : queue_ok q -> rd_head q s = Done (rdy_head s q) s.
Proof. intros. unfold rd_head. by rewrite decide_True. Qed.

Lemma rq_head X s Q q : rq_inv X s Q -> queue_ok q -> rdy_head s q = head (Q q).
Proof.
  intros H Hq. pose proof (rq_chain _ _ _ H q Hq) as Hc. unfold plist_rep in Hc. simpl in Hc.
  destruct (Q q); simpl in *; [done|]. by destruct Hc.
Qed.

Lemma rq_ready X s Q q p : rq_inv X s Q -> queue_ok q -> p ∈ Q q ->
  slot p /\ flags s p = 0 /\ prio s p = q.
Proof. intros H Hq Hp. apply H in Hp; [|done]. tauto. Qed.

(** ** Billing *)

Definition billable (s : kstate) (rp : Z) : bool :=
  match p_priv (k_proc s rp) with
  | Some i => flag_any (s_flags (k_priv s i)) BILLABLE
  | None => false
  end.

(** The state after [pick_proc] returned [o]: only [bill_ptr] may differ. *)
Definition billed (s : kstate) (o : option Z) : kstate :=
  match o with
  | Some rp => if billable s rp then set_bill_ptr (Some rp) s else s
  | None => s
  end.

Lemma bill_done s rp :
  sched_wf s -> slot rp -> flags s rp = 0 -> bill_and_return rp s = Done rp (billed s (Some rp)).
Proof.
  intros Hwf Hrp Hf. destruct (wf_ready_priv s rp Hwf Hrp Hf) as (i & Hi & Hi').
  unfold bill_and_return, priv_of, rd, rdp, bind, from_ptr, billed, billable.
  rewrite decide_True, Hi by done. simpl. rewrite decide_True by done.
  unfold when. by destruct (flag_any _ _).
Qed.

(** ** Policy 0: priorities *)

(** The processes of the queues [qs], in the order of their queues. *)
Definition ready_list (Q : Z -> list Z) (qs : list Z) : list Z := concat (map Q qs).

Lemma pick_first_done s Q qs :
  sched_wf s -> rq_inv ∅ s Q -> (forall q, q ∈ qs -> queue_ok q) ->
  pick_first qs s = Done (head (ready_list Q qs)) (billed s (head (ready_list Q qs))).
Proof.
  intros Hwf H. unfold ready_list. induction qs as [|q qs IH]; intros Hqs; [done|].
  assert (Hq : queue_ok q) by (apply Hqs; set_solver).
  unfold pick_first. simpl. unfold bind, rd_head. rewrite decide_True by done.
  rewrite (rq_head ∅ s Q q) by done. destruct (Q q) as [|p l] eqn:HQ; simpl.
  - apply IH. intros. apply Hqs. set_solver.
  - destruct (rq_ready ∅ s Q q p H Hq ltac:(rewrite HQ; set_solver)) as (Hp & Hf & _).
    by rewrite bill_done.
Qed.

Lemma queues_ok a b q : 0 <= a -> a + b <= NR_SCHED_QUEUES -> q ∈ seqZ a b -> queue_ok q.
Proof. intros Ha Hb Hq. apply elem_of_seqZ in Hq. unfold queue_ok. lia. Qed.

Lemma pick_default_done s Q :
  sched_wf s -> rq_inv ∅ s Q ->
  let o := head (ready_list Q (seqZ 0 NR_SCHED_QUEUES)) in
  pick_proc_default s = Done o (billed s o).
Proof.
  intros. apply pick_first_done; [done..|]. intros q. by apply queues_ok.
Qed.

(** The list holds exactly the runnable processes of its queues. *)
Lemma elem_ready_list s Q qs p :
  rq_inv ∅ s Q -> (forall q, q ∈ qs -> queue_ok q) ->
  p ∈ ready_list Q qs <-> slot p /\ flags s p = 0 /\ prio s p ∈ qs.
Proof.
  intros H Hqs. unfold ready_list. rewrite list_elem_of_In, in_concat. split.
  - intros (l & Hl & Hp). apply in_map_iff in Hl as (q & <- & Hq).
    apply list_elem_of_In in Hp, Hq. destruct (rq_ready ∅ s Q q p H) as (?&?&->); auto.
  - intros (Hp & Hf & Hq). exists (Q (prio s p)). split.
    + apply in_map. by apply list_elem_of_In.
    + apply list_elem_of_In, H; [auto|]. by split_all.
Qed.

(** The head of the queues in order of priority has the best priority. *)
Lemma head_ready_best s Q a n p :
  rq_inv ∅ s Q -> 0 <= a -> a + Z.of_nat n <= NR_SCHED_QUEUES ->
  head (ready_list Q (seqZ a (Z.of_nat n))) = Some p ->
  slot p /\ flags s p = 0 /\ a <= prio s p < a + Z.of_nat n /\
  (forall p', slot p' -> flags s p' = 0 -> a <= prio s p' -> prio s p <= prio s p').
Proof.
  intros H. revert a. induction n as [|n IH]; intros a Ha Hn Hh; [done|].
  assert (Hq : queue_ok a) by (unfold queue_ok; lia).
  rewrite seqZ_cons in Hh by lia. unfold ready_list in Hh. simpl in Hh.
  destruct (Q a) as [|x l] eqn:HQ; simpl in Hh.
  - replace (Z.pred (Z.of_nat (S n))) with (Z.of_nat n) in Hh by lia.
    destruct (IH (Z.succ a)) as (H1 & H2 & H3 & H4); [lia|lia|done|].
    split_all; [done|done|lia|lia|]. intros p' Hp' Hf' Hq'.
    destruct (decide (prio s p' = a)) as [Hpa|]; [|apply H4; try done; lia].
    assert (p' ∈ Q a) as Hin by (apply H; [done|]; split_all; set_solver).
    rewrite HQ in Hin. set_solver.
  - simplify_eq. destruct (rq_ready ∅ s Q a p H Hq) as (? & ? & Hpp); [rewrite HQ; set_solver|].
    split_all; try done; lia.
Qed.

(** ** Policy 1: the lottery *)

(** The participants with their number of tickets, in the order of the draw. *)
Definition entries (Q : Z -> list Z) (qs : list Z) : list (Z * Z) :=
  concat (map (fun q => map (fun p => (p, tickets q)) (Q q)) qs).

Definition sum_tickets (l : list (Z * Z)) : Z := foldr (fun e n => snd e + n) 0 l.

(** The owner of ticket number [w]. *)
Fixpoint ticket_owner (l : list (Z * Z)) (w : Z) : option Z :=
  match l with
  | [] => None
  | (p, t) :: l' => if w <? t then Some p else ticket_owner l' (w - t)
  end.

Lemma sum_tickets_app l1 l2 : sum_tickets (l1 ++ l2) = sum_tickets l1 + sum_tickets l2.
Proof. induction l1 as [|e l1 IH]; simpl; [done|]. rewrite IH. lia. Qed.

Lemma ticket_owner_app l1 l2 w :
  ticket_owner (l1 ++ l2) w =
  match ticket_owner l1 w with Some p => Some p | None => ticket_owner l2 (w - sum_tickets l1) end.
Proof.
  revert w. induction l1 as [|[p t] l1 IH]; intros w; simpl; [by rewrite Z.sub_0_r|].
  destruct (w <? t); [done|]. rewrite IH. replace (w - t - sum_tickets l1)
    with (w - (t + sum_tickets l1)) by lia. done.
Qed.

Lemma total_scan q l total :
  scan_list (R:=Empty_set) (fun total _ => inl (total + tickets q)) l total =
  inl (total + sum_tickets (map (fun p => (p, tickets q)) l)).
Proof.
  revert total. induction l as [|x l IH]; intros total; simpl; [by rewrite Z.add_0_r|].
  rewrite IH. f_equal. lia.
Qed.

Lemma total_tickets_done s Q :
  rq_inv ∅ s Q -> total_tickets s = Done (sum_tickets (entries Q lottery_queues)) s.
Proof.
  intros H. unfold total_tickets, entries.
  assert (Hqs : forall q, q ∈ lottery_queues -> queue_ok q) by (intros q; by apply queues_ok).
  match goal with |- fold_each _ _ ?b s = _ => set (body := b) end.
  enough (forall qs total, (forall q, q ∈ qs -> queue_ok q) -> fold_each qs total body s =
    Done (total + sum_tickets (concat (map (fun q => map (fun p => (p, tickets q)) (Q q)) qs))) s)
    as Hall by exact (Hall lottery_queues 0 Hqs).
  clear Hqs. intros qs.
  induction qs as [|q qs IH]; intros total Hqs; cbn [fold_each map concat];
    [by rewrite Z.add_0_r|].
  assert (Hq : queue_ok q) by (apply Hqs; set_solver).
  unfold body at 1.
  rewrite bind_assoc, (bind_done _ _ _ _ _ (rd_head_done q s Hq)), bind_assoc.
  erewrite bind_done; [|apply (scan_queue (R:=Empty_set)
    (fun total _ => inl (total + tickets q)) _ ∅ s Q q); [done..|]].
  - rewrite total_scan. unfold bind at 1. unfold ret at 1. rewrite IH by set_solver.
    f_equal. rewrite sum_tickets_app. lia.
  - intros acc x Hx. destruct (rq_ready ∅ s Q q x H Hq Hx) as (Hs & Hf & _).
    unfold bind, rd. rewrite decide_True by done. fold (flags s x). by rewrite Hf.
Qed.

Lemma draw_scan q l w :
  scan_list (fun w rp => if w - tickets q <? 0 then inr rp else inl (w - tickets q)) l w =
  let e := map (fun p => (p, tickets q)) l in
  match ticket_owner e w with Some p => inr p | None => inl (w - sum_tickets e) end.
Proof.
  revert w. induction l as [|x l IH]; intros w; simpl; [by rewrite Z.sub_0_r|].
  replace (w - tickets q <? 0) with (w <? tickets q) by (apply eq_true_iff_eq; rewrite !Z.ltb_lt; lia).
  destruct (w <? tickets q); [done|]. rewrite IH. simpl. destruct (ticket_owner _ _); [done|].
  f_equal. lia.
Qed.

Lemma draw_done s Q w :
  rq_inv ∅ s Q ->
  draw w s = Done (match ticket_owner (entries Q lottery_queues) w with
                   | Some p => inr p
                   | None => inl (w - sum_tickets (entries Q lottery_queues))
                   end) s.
Proof.
  intros H. unfold draw, entries.
  assert (Hqs : forall q, q ∈ lottery_queues -> queue_ok q) by (intros q; by apply queues_ok).
  revert Hqs w. generalize lottery_queues. intros qs.
  induction qs as [|q qs IH]; intros Hqs w; cbn [fold_exit map concat];
    [by simpl; rewrite Z.sub_0_r|].
  assert (Hq : queue_ok q) by (apply Hqs; set_solver).
  rewrite bind_assoc, (bind_done _ _ _ _ _ (rd_head_done q s Hq)).
  erewrite bind_done; [|apply (scan_queue
    (fun w rp => if w - tickets q <? 0 then inr rp else inl (w - tickets q)) _ ∅ s Q q); [done..|]].
  - rewrite draw_scan. simpl. rewrite ticket_owner_app, sum_tickets_app.
    destruct (ticket_owner (map _ (Q q)) w); [done|]. rewrite IH by set_solver.
    destruct (ticket_owner _ _); [done|]. do 2 f_equal. lia.
  - intros acc x Hx. destruct (rq_ready ∅ s Q q x H Hq Hx) as (Hs & Hf & _).
    unfold bind, rd. rewrite decide_True by done. fold (flags s x). rewrite Hf. simpl.
    by destruct (_ <? 0).
Qed.

(** Each ticket number below the total has an owner. *)
Lemma ticket_owner_total l w : 0 <= w < sum_tickets l -> exists p, ticket_owner l w = Some p.
Proof.
  revert w. induction l as [|[p t] l IH]; intros w; simpl; [lia|]. intros Hw.
  destruct (Z.ltb_spec w t); [eauto|]. apply IH. lia.
Qed.

Lemma ticket_owner_elem l w p : ticket_owner l w = Some p -> p ∈ map fst l.
Proof.
  revert w. induction l as [|[x t] l IH]; intros w; simpl; [done|].
  destruct (w <? t); intros; simplify_eq; set_solver.
Qed.

(** The number of tickets of [p]. *)
Definition owned (l : list (Z * Z)) (p : Z) : nat :=
  length (filter (fun w => ticket_owner l w = Some p) (seqZ 0 (sum_tickets l))).

Lemma filter_all {A} (P : A -> Prop) `{forall x, Decision (P x)} (l : list A) :
  (forall x, x ∈ l -> P x) -> filter P l = l.
Proof.
  induction l as [|x l IH]; intros HP; [done|].
  rewrite filter_cons_True by (apply HP; set_solver). rewrite IH by set_solver. done.
Qed.

Lemma filter_none {A} (P : A -> Prop) `{forall x, Decision (P x)} (l : list A) :
  (forall x, x ∈ l -> ~ P x) -> filter P l = [].
Proof.
  induction l as [|x l IH]; intros HP; [done|].
  rewrite filter_cons_False by (apply HP; set_solver). apply IH. set_solver.
Qed.

Lemma filter_iff_in {A} (P1 P2 : A -> Prop)
    `{forall x, Decision (P1 x)} `{forall x, Decision (P2 x)} (l : list A) :
  (forall x, x ∈ l -> P1 x <-> P2 x) -> filter P1 l = filter P2 l.
Proof.
  induction l as [|x l IH]; intros HP; [done|]. rewrite !filter_cons.
  rewrite IH by set_solver. destruct (HP x ltac:(set_solver)).
  repeat case_decide; try done; tauto.
Qed.

Lemma filter_map {A B} (f : A -> B) (P : B -> Prop) `{forall x, Decision (P x)} (l : list A) :
  filter P (f <$> l) = f <$> filter (fun x => P (f x)) l.
Proof.
  induction l as [|x l IH]; [done|]. rewrite fmap_cons, !filter_cons, IH. by case_decide.
Qed.

Lemma owned_cons x t l p :
  0 <= t -> 0 <= sum_tickets l ->
  owned ((x, t) :: l) p = ((if decide (x = p) then Z.to_nat t else 0) + owned l p)%nat.
Proof.
  intros Ht Hl. unfold owned. simpl sum_tickets. rewrite seqZ_app by done.
  rewrite filter_app, length_app. f_equal.
  - destruct (decide (x = p)) as [->|Hne].
    + rewrite filter_all, length_seqZ; [done|]. intros w Hw%elem_of_seqZ. simpl.
      destruct (Z.ltb_spec w t); [done|lia].
    + rewrite filter_none; [done|]. intros w Hw%elem_of_seqZ. simpl.
      destruct (Z.ltb_spec w t); [congruence|lia].
  - rewrite Z.add_0_l. replace (seqZ t (sum_tickets l)) with (Z.add t <$> seqZ 0 (sum_tickets l))
      by (rewrite fmap_add_seqZ; f_equal; lia).
    rewrite filter_map, length_fmap. f_equal. apply filter_iff_in.
    intros w Hw%elem_of_seqZ. simpl. destruct (Z.ltb_spec (t + w) t); [lia|].
    by replace (t + w - t) with w by lia.
Qed.

Lemma entries_tickets Q qs p t :
  (forall q, q ∈ qs -> queue_ok q) -> (p, t) ∈ entries Q qs ->
  exists q, q ∈ qs /\ p ∈ Q q /\ t = tickets q.
Proof.
  intros Hqs. unfold entries. rewrite list_elem_of_In, in_concat. intros (l & Hl & Hp).
  apply in_map_iff in Hl as (q & <- & Hq). apply in_map_iff in Hp as (p' & He & Hp').
  simplify_eq. exists q. by rewrite !list_elem_of_In.
Qed.

Lemma sum_tickets_nonneg l : (forall e, e ∈ l -> 0 <= snd e) -> 0 <= sum_tickets l.
Proof.
  induction l as [|e l IH]; intros He; simpl; [done|].
  pose proof (He e ltac:(set_solver)). assert (0 <= sum_tickets l) by (apply IH; set_solver). lia.
Qed.

Lemma tickets_pos q : queue_ok q -> 0 < tickets q.
Proof. unfold tickets, queue_ok. lia. Qed.

Lemma owned_notin l p :
  (forall e, e ∈ l -> 0 <= snd e) -> p ∉ map fst l -> owned l p = 0%nat.
Proof.
  intros _ Hp. unfold owned. rewrite filter_none; [done|]. intros w _ Hw.
  by apply ticket_owner_elem in Hw.
Qed.

Lemma owned_unique l p t :
  (forall e, e ∈ l -> 0 <= snd e) -> NoDup (map fst l) -> (p, t) ∈ l -> owned l p = Z.to_nat t.
Proof.
  induction l as [|[x u] l IH]; intros He Hn Hp; [set_solver|]. simpl in Hn.
  apply NoDup_cons in Hn as [Hx Hn].
  rewrite owned_cons; [|exact (He _ (list_elem_of_here _ _))|
    apply sum_tickets_nonneg; intros; apply He; set_solver].
  apply elem_of_cons in Hp as [Hp|Hp].
  - simplify_eq. rewrite decide_True by done. rewrite owned_notin; [lia| |done].
    intros; apply He; set_solver.
  - rewrite decide_False; [rewrite IH; [done| |done|done]; intros; apply He; set_solver|].
    intros ->. destruct Hx. apply list_elem_of_In. change p with (fst (p, t)).
    apply in_map. by apply list_elem_of_In.
Qed.

Lemma entries_fst Q qs : map fst (entries Q qs) = ready_list Q qs.
Proof.
  unfold entries, ready_list. induction qs as [|q qs IH]; simpl; [done|].
  rewrite map_app, IH. f_equal. rewrite map_map. simpl. apply map_id.
Qed.

Lemma NoDup_ready_list s Q qs :
  rq_inv ∅ s Q -> (forall q, q ∈ qs -> queue_ok q) -> NoDup qs -> NoDup (ready_list Q qs).
Proof.
  intros H. unfold ready_list. induction qs as [|q qs IH]; intros Hqs Hn; simpl; [constructor|].
  apply NoDup_cons in Hn as [Hq Hn]. apply NoDup_app. split_all.
  - apply H, Hqs. set_solver.
  - intros p Hp Hp'. fold (ready_list Q qs) in Hp'.
    apply (elem_ready_list s) in Hp' as (_ & _ & Hpq); [|done|intros; apply Hqs; set_solver].
    apply (rq_ready ∅ s Q q) in Hp as (_ & _ & <-); [done..|apply Hqs; set_solver].
  - apply IH; [|done]. intros; apply Hqs; set_solver.
Qed.

(** The lottery as a function of the ready queues and the random number. *)
Definition lottery_result (Q : Z -> list Z) (r : Z) : option Z :=
  match head (ready_list Q (seqZ 0 6)) with
  | Some p => Some p
  | None =>
      let l := entries Q lottery_queues in
      if 0 <? sum_tickets l then ticket_owner l (r mod sum_tickets l) else None
  end.

(** The number [rand] returns after [srand (r.lo)]. *)
Definition seeded_rand (lo : Z) : Z :=
  u32 (u32 lo * 1103515245 + 12345) / (2 * (RAND_MAX + 1)) mod (RAND_MAX + 1).

Definition seeded (s : kstate) : kstate :=
  set_rand_next (u32 (u32 (tsc_lo s) * 1103515245 + 12345)) s.

Lemma seeded_wf s Q : sched_wf s -> rq_inv ∅ s Q -> sched_wf (seeded s) /\ rq_inv ∅ (seeded s) Q.
Proof. intros [] []. by split. Qed.

Lemma pick_lottery_done s Q :
  sched_wf s -> rq_inv ∅ s Q ->
  let o := lottery_result Q (seeded_rand (tsc_lo s)) in
  pick_proc_lottery s = Done o (billed s o) \/ pick_proc_lottery s = Done o (billed (seeded s) o).
Proof.
  intros Hwf H. simpl. unfold pick_proc_lottery, lottery_result.
  rewrite (bind_done _ _ _ _ _ (pick_first_done s Q (seqZ 0 6) Hwf H
             ltac:(intros q; by apply queues_ok))).
  destruct (head (ready_list Q (seqZ 0 6))) as [p|] eqn:Eh; [by left|]. simpl billed.
  rewrite (bind_done _ _ _ _ _ (total_tickets_done s Q H)). cbv zeta.
  destruct (0 <? _) eqn:Et; [|by left]. right. apply Z.ltb_lt in Et.
  set (l := entries Q lottery_queues) in *. destruct (seeded_wf s Q Hwf H) as [Hwf' H'].
  unfold bind at 1, gets at 1. unfold bind at 1, srand, modify at 1.
  erewrite bind_done; [|unfold rand, bind, modify, gets; reflexivity]. simpl rand_next.
  fold (seeded s) (seeded_rand (tsc_lo s)).
  change (set_rand_next _ (set_rand_next _ s)) with (seeded s).
  rewrite (bind_done _ _ _ _ _ (draw_done _ Q (seeded_rand (tsc_lo s) mod sum_tickets l) H')).
  fold l. destruct (ticket_owner_total l (seeded_rand (tsc_lo s) mod sum_tickets l)) as [p Hp].
  { by apply Z.mod_pos_bound. }
  rewrite Hp. apply ticket_owner_elem in Hp. unfold l in Hp. rewrite entries_fst in Hp.
  apply (elem_ready_list _ _ _ _ H') in Hp as (Hs & Hf & _); [|intros q; by apply queues_ok].
  erewrite bind_done; [|by apply bill_done]. done.
Qed.

(** ** Policy 2: earliest deadline first *)

Definition edf_step (s : kstate) (best tmp : Z) : Z := if edf_better s best tmp then tmp else best.

(** The selection over the list of queue 7. *)
Definition edf_best (s : kstate) (l : list Z) : option Z :=
  match l with [] => None | x :: _ => Some (fold_left (edf_step s) l x) end.

(** The queue from which [pick_proc] takes a process. *)
Definition edf_queue (s : kstate) (Q : Z -> list Z) (q : Z) : option Z :=
  if q =? 7 then edf_best s (Q q) else head (Q q).

Fixpoint first_some (f : Z -> option Z) (qs : list Z) : option Z :=
  match qs with
  | [] => None
  | q :: qs' => match f q with Some p => Some p | None => first_some f qs' end
  end.

Definition edf_result (s : kstate) (Q : Z -> list Z) : option Z :=
  first_some (edf_queue s Q) (seqZ 0 NR_SCHED_QUEUES).

Lemma edf_scan s l best :
  scan_list (R:=Empty_set) (fun best tmp => inl (edf_step s best tmp)) l best =
  inl (fold_left (edf_step s) l best).
Proof. revert best. induction l; intros; simpl; auto. Qed.

Lemma edf_fold_elem s l x : fold_left (edf_step s) l x = x \/ fold_left (edf_step s) l x ∈ l.
Proof.
  revert x. induction l as [|y l IH]; intros x; simpl; [by left|].
  destruct (IH (edf_step s x y)) as [->|Hin]; [|set_solver].
  unfold edf_step. destruct (edf_better s x y); set_solver.
Qed.

Lemma edf_select_done s Q x l :
  rq_inv ∅ s Q -> Q 7 = x :: l ->
  edf_select x s = Done (fold_left (edf_step s) (x :: l) x) s.
Proof.
  intros H HQ. unfold edf_select. assert (Hq : queue_ok 7) by done.
  assert (Hh : Some x = rdy_head s 7) by by rewrite (rq_head ∅ s Q 7), HQ.
  rewrite Hh. erewrite bind_done; [|apply (scan_queue (R:=Empty_set)
    (fun best tmp => inl (edf_step s best tmp)) _ ∅ s Q 7); done].
  by rewrite edf_scan, HQ.
Qed.

Lemma pick_edf_done s Q :
  sched_wf s -> rq_inv ∅ s Q ->
  let o := edf_result s Q in pick_proc_edf s = Done o (billed s o).
Proof.
  intros Hwf H. unfold pick_proc_edf, edf_result. cbv zeta.
  assert (Hqs : forall q, q ∈ seqZ 0 NR_SCHED_QUEUES -> queue_ok q)
    by (intros q; by apply queues_ok).
  revert Hqs. generalize (seqZ 0 NR_SCHED_QUEUES). intros qs.
  induction qs as [|q qs IH]; intros Hqs; [done|]. cbn [for_return first_some].
  assert (Hq : queue_ok q) by (apply Hqs; set_solver).
  rewrite bind_assoc, (bind_done _ _ _ _ _ (rd_head_done q s Hq)).
  unfold edf_queue. rewrite (rq_head ∅ s Q q) by done.
  destruct (Q q) as [|x l] eqn:HQ.
  - replace (if q =? 7 then edf_best s [] else head []) with (@None Z) by (by destruct (q =? 7)).
    apply IH. intros. apply Hqs. set_solver.
  - set (y := if q =? 7 then fold_left (edf_step s) (x :: l) x else x).
    replace (if q =? 7 then edf_best s (x :: l) else head (x :: l)) with (Some y)
      by (unfold y; by destruct (q =? 7)).
    cbn [head]. rewrite bind_assoc.
    assert (Hsel : (if q =? 7 then edf_select x else ret x) s = Done y s).
    { unfold y. destruct (Z.eqb_spec q 7) as [->|]; [by eapply edf_select_done|done]. }
    rewrite (bind_done _ _ _ _ _ Hsel).
    assert (Hy : y ∈ Q q).
    { rewrite HQ. unfold y. destruct (q =? 7); [|set_solver].
      destruct (edf_fold_elem s (x :: l) x) as [->|]; set_solver. }
    destruct (rq_ready ∅ s Q q y H Hq Hy) as (Hs & Hf & _).
    rewrite bind_assoc. erewrite bind_done; [|by apply bill_done]. done.
Qed.

(** With no negative expiration time, the selection has the earliest deadline. *)
Lemma edf_fold_best s l x :
  0 <= deadline_of s x -> (forall p, p ∈ l -> 0 <= deadline_of s p) ->
  let b := fold_left (edf_step s) l x in
  0 <= deadline_of s b /\
  (forall p, p = x \/ p ∈ l -> 0 < deadline_of s p ->
     0 < deadline_of s b /\ deadline_of s b <= deadline_of s p) /\
  (deadline_of s b <= 0 -> b = x).
Proof.
  revert x. induction l as [|y l IH]; intros x Hx Hl; simpl.
  - split_all; [done| |done]. intros p [->|Hp]; [lia|set_solver].
  - assert (Hy : 0 <= deadline_of s y) by (apply Hl; set_solver).
    assert (Hstep : 0 <= deadline_of s (edf_step s x y) /\
      (forall p, p = x \/ p = y -> 0 < deadline_of s p ->
         0 < deadline_of s (edf_step s x y) /\ deadline_of s (edf_step s x y) <= deadline_of s p) /\
      (deadline_of s (edf_step s x y) <= 0 -> edf_step s x y = x)).
    { unfold edf_step, edf_better.
      destruct (Z.ltb_spec 0 (deadline_of s y)), (Z.eqb_spec (deadline_of s x) 0),
        (Z.ltb_spec 0 (deadline_of s x)), (Z.ltb_spec (deadline_of s y) (deadline_of s x));
        simpl; split_all; try lia; try (intros p [->| ->] ?; lia). }
    destruct Hstep as (H1 & H2 & H3).
    destruct (IH (edf_step s x y) H1 ltac:(intros; apply Hl; set_solver)) as (I1 & I2 & I3).
    split_all; [done| |].
    + intros p Hp Hd.
      assert (Hc : (p = x \/ p = y) \/ p ∈ l) by set_solver. destruct Hc as [Hc|Hc].
      * destruct (H2 p Hc Hd) as [H4 H5]. destruct (I2 _ (or_introl eq_refl) H4). lia.
      * by apply I2; [right|].
    + intros Hd. rewrite I3 by done. apply H3. rewrite <- I3 by done. done.
Qed.
