(* ===== verification/PickSpec.v ===== *)
(** * What each policy of [pick_proc] chooses

    The choice of the priority, lottery and EDF policies as properties of the state:
    the process returned is runnable, and the best one by the policy's own measure;
    none is returned only when no process is runnable. *)
From S2P Require Import Prelude PList KMonad Timers Types KState Sched SchedInv PickProc.

(** [p] is runnable and no runnable process has a better priority. *)
Definition best_ready (s : kstate) (p : Z) : Prop :=
  slot p /\ flags s p = 0 /\ forall p', slot p' -> flags s p' = 0 -> prio s p <= prio s p'.

Definition none_ready (s : kstate) : Prop := forall p, slot p -> flags s p <> 0.

Lemma ready_list_nil s Q : sched_wf s -> rq_inv ∅ s Q ->
  ready_list Q (seqZ 0 NR_SCHED_QUEUES) = [] -> none_ready s.
Proof.
  intros Hw HQ H p Hp Hf. apply (not_elem_of_nil p). rewrite <- H.
  apply (elem_ready_list s Q); [done|by intros q; apply queues_ok|].
  split; [done|split; [done|]]. apply elem_of_seqZ. pose proof (wf_prio s Hw p Hp) as [[] _]. lia.
Qed.

Lemma head_best s Q p : sched_wf s -> rq_inv ∅ s Q ->
  head (ready_list Q (seqZ 0 NR_SCHED_QUEUES)) = Some p -> best_ready s p.
Proof.
  intros Hw HQ Hh. destruct (head_ready_best s Q 0 16 p HQ ltac:(lia) ltac:(done) Hh)
    as (H1 & H2 & _ & H4).
  split; [done|split; [done|]]. intros p' Hs Hf. apply H4; [done|done|].
  by destruct (wf_prio s Hw p' Hs) as [[] _].
Qed.

Lemma head_ready_head Q qs p : head (ready_list Q qs) = Some p -> exists q, q ∈ qs /\ head (Q q) = Some p.
Proof.
  induction qs as [|q qs IH]; [done|]. unfold ready_list. simpl.
  destruct (Q q) as [|x l] eqn:Eq; simpl.
  - intros H. destruct (IH H) as (q' & H1 & H2). exists q'. split; [by right|done].
  - intros [= ->]. exists q. rewrite Eq. split; [by left|done].
Qed.

Lemma default_choice s Q : sched_wf s -> rq_inv ∅ s Q ->
  match head (ready_list Q (seqZ 0 NR_SCHED_QUEUES)) with
  | Some p => best_ready s p /\ rdy_head s (prio s p) = Some p
  | None => none_ready s
  end.
Proof.
  intros Hw HQ. destruct (head _) as [p|] eqn:Eh.
  - split; [by apply (head_best s Q)|]. destruct (head_ready_head _ _ _ Eh) as (q & Hq & Hh).
    assert (queue_ok q) by (by apply queues_ok in Hq).
    assert (p ∈ Q q) by (destruct (Q q); simpl in Hh; [done|injection Hh as ->; by left]).
    destruct (rq_ready _ _ _ q p HQ) as (_ & _ & ->); [done|done|].
    by rewrite (rq_head _ _ _ _ HQ).
  - apply (ready_list_nil s Q); [done|done|]. by destruct (ready_list _ _).
Qed.

(** The process that wins when ticket [w] is drawn. *)
Definition winner_of (s : kstate) (w : Z) : option Z :=
  match draw w s with Done (inr p) _ => Some p | _ => None end.

Lemma winner_of_owner s Q w : rq_inv ∅ s Q -> winner_of s w = ticket_owner (entries Q lottery_queues) w.
Proof. intros HQ. unfold winner_of. rewrite (draw_done s Q w HQ). by destruct (ticket_owner _ _). Qed.

Lemma lottery_queues_ok q : q ∈ lottery_queues -> queue_ok q.
Proof. apply queues_ok; done. Qed.

Lemma entries_nonneg Q e : e ∈ entries Q lottery_queues -> 0 <= snd e.
Proof.
  destruct e as [p t]. intros He. destruct (entries_tickets _ _ _ _ lottery_queues_ok He)
    as (q & Hq & _ & ->). simpl. pose proof (tickets_pos q (lottery_queues_ok q Hq)). lia.
Qed.

Lemma ready_entry s Q p : rq_inv ∅ s Q -> slot p -> flags s p = 0 -> prio s p ∈ lottery_queues ->
  (p, tickets (prio s p)) ∈ entries Q lottery_queues.
Proof.
  intros HQ Hs Hf Hp. apply list_elem_of_In, in_concat.
  exists (map (fun p' => (p', tickets (prio s p))) (Q (prio s p))). split.
  - apply in_map_iff. exists (prio s p). split; [done|by apply list_elem_of_In].
  - apply in_map_iff. exists p. split; [done|]. apply list_elem_of_In.
    apply (rq_mem _ _ _ HQ); [by apply lottery_queues_ok|]. split; [done|].
    split; [apply not_elem_of_empty|done].
Qed.

(** The queue of the real-time processes. *)
Definition EDF_QUEUE : Z := 7.

(** Among the runnable processes of queue 7, [p] has the earliest deadline there is. *)
Definition earliest (s : kstate) (p : Z) : Prop :=
  forall p', slot p' -> flags s p' = 0 -> prio s p' = EDF_QUEUE -> 0 < deadline_of s p' ->
    0 < deadline_of s p /\ deadline_of s p <= deadline_of s p'.

Lemma first_some_spec f qs p : first_some f qs = Some p ->
  exists qs1 q qs2, qs = qs1 ++ q :: qs2 /\ f q = Some p /\ forall q', q' ∈ qs1 -> f q' = None.
Proof.
  induction qs as [|q qs IH]; [done|]. simpl. destruct (f q) as [p'|] eqn:Ef.
  - intros [= ->]. exists [], q, qs. split; [done|split; [done|]]. intros q' H. by apply elem_of_nil in H.
  - intros H. destruct (IH H) as (qs1 & q1 & qs2 & -> & H1 & H2). exists (q :: qs1), q1, qs2.
    split; [done|split; [done|]]. intros q' [->|]%elem_of_cons; [done|auto].
Qed.

Lemma first_some_none f qs : first_some f qs = None -> forall q, q ∈ qs -> f q = None.
Proof.
  induction qs as [|q qs IH]; intros H q' Hq; [by apply elem_of_nil in Hq|].
  simpl in H. destruct (f q) eqn:Ef; [done|]. apply elem_of_cons in Hq as [->|]; auto.
Qed.

Lemma edf_queue_none s Q q : edf_queue s Q q = None -> Q q = [].
Proof. unfold edf_queue, edf_best. by destruct (q =? 7), (Q q). Qed.

Lemma edf_queue_elem s Q q p : edf_queue s Q q = Some p -> p ∈ Q q.
Proof.
  unfold edf_queue, edf_best. destruct (q =? 7); destruct (Q q) as [|x l]; try done.
  - intros Hp. assert (p = fold_left (edf_step s) (x :: l) x) as -> by congruence.
    destruct (edf_fold_elem s (x :: l) x) as [E|H]; [rewrite E; by left|done].
  - intros [= ->]. by left.
Qed.

Lemma seqZ_before n qs1 q qs2 q' : seqZ 0 n = qs1 ++ q :: qs2 -> 0 <= q' < q -> q' ∈ qs1.
Proof.
  intros E Hq. assert (Hlen : (length qs1 < Z.to_nat n)%nat).
  { rewrite <- (length_seqZ 0 n), E, length_app. simpl. lia. }
  assert (Hi : seqZ 0 n !! length qs1 = Some q) by (rewrite E; by apply list_lookup_middle).
  apply lookup_seqZ in Hi as [-> Hi].
  assert (Hj : seqZ 0 n !! Z.to_nat q' = Some q') by (apply lookup_seqZ; lia).
  rewrite E, lookup_app_l in Hj by lia. by apply list_elem_of_lookup_2 in Hj.
Qed.

Lemma ready_on_queue s Q p : sched_wf s -> rq_inv ∅ s Q -> slot p -> flags s p = 0 -> p ∈ Q (prio s p).
Proof.
  intros Hw HQ Hp Hf. apply (rq_mem _ _ _ HQ); [by apply (wf_prio s Hw)|].
  split; [done|split; [apply not_elem_of_empty|done]].
Qed.

(** The best of queue 7 has the earliest of its deadlines. *)
Lemma edf_queue_earliest s Q p : sched_wf s -> rq_inv ∅ s Q -> (forall x, slot x -> 0 <= deadline_of s x) ->
  edf_queue s Q EDF_QUEUE = Some p -> earliest s p.
Proof.
  intros Hw HQ Hd Hp p' Hs' Hf' Hp7 Hdl. change (edf_best s (Q 7) = Some p) in Hp.
  pose proof (ready_on_queue s Q p' Hw HQ Hs' Hf') as Hin. rewrite Hp7 in Hin.
  unfold edf_best, EDF_QUEUE in *. destruct (Q 7) as [|x l] eqn:E7; [done|].
  assert (p = fold_left (edf_step s) (x :: l) x) as -> by congruence.
  assert (Hslot : forall y, y ∈ x :: l -> 0 <= deadline_of s y).
  { intros y Hy. rewrite <- E7 in Hy. by apply Hd, (rq_ready _ _ _ 7 y HQ). }
  destruct (edf_fold_best s (x :: l) x) as (_ & H & _); [apply Hslot; by left|done|].
  apply (H p'); [by right|done].
Qed.

Lemma edf_result_choice s Q : sched_wf s -> rq_inv ∅ s Q ->
  match edf_result s Q with
  | Some p => best_ready s p /\
      ((forall x, slot x -> 0 <= deadline_of s x) -> prio s p = EDF_QUEUE -> earliest s p)
  | None => none_ready s
  end.
Proof.
  intros Hw HQ. pose proof (fun p => ready_on_queue s Q p Hw HQ) as Hin.
  destruct (edf_result s Q) as [p|] eqn:Er; unfold edf_result in Er.
  - destruct (first_some_spec _ _ _ Er) as (qs1 & q & qs2 & Eq & Hp & Hbefore).
    assert (Hq : queue_ok q).
    { apply (queues_ok 0 NR_SCHED_QUEUES); [done|done|]. rewrite Eq. apply elem_of_app. right. by left. }
    destruct (rq_ready _ _ _ q p HQ Hq (edf_queue_elem _ _ _ _ Hp)) as (Hs & Hf & Hpr).
    split; [split; [done|split; [done|]]|].
    + intros p' Hs' Hf'. rewrite Hpr. destruct (Z.le_gt_cases q (prio s p')) as [|Hlt]; [done|exfalso].
      destruct (wf_prio s Hw p' Hs') as [[H0 _] _].
      assert (Hb : prio s p' ∈ qs1) by (eapply seqZ_before; [exact Eq|lia]).
      apply Hbefore, edf_queue_none in Hb. specialize (Hin p' Hs' Hf'). rewrite Hb in Hin.
      by apply elem_of_nil in Hin.
    + intros Hd H7. apply (edf_queue_earliest s Q); [done|done|done|]. by rewrite <- H7, Hpr.
  - intros p Hs Hf. specialize (Hin p Hs Hf).
    assert (Hn : edf_queue s Q (prio s p) = None).
    { apply (first_some_none _ _ Er), elem_of_seqZ. destruct (wf_prio s Hw p Hs) as [[] _]. lia. }
    apply edf_queue_none in Hn. rewrite Hn in Hin. by apply elem_of_nil in Hin.
Qed.

(** The outcome of a round of the lottery policy, when [p] is returned: the best
    process of the queues above 6 if one is runnable there, and otherwise the owner
    of the ticket that the random number, seeded by the cycle counter, selects. *)
Record lottery_choice (s : kstate) (p : Z) : Prop := mk_lottery_choice {
  lc_ready : slot p /\ flags s p = 0;
  lc_top : prio s p < 6 -> best_ready s p /\ rdy_head s (prio s p) = Some p;
  lc_draw : 6 <= prio s p ->
    (forall p', slot p' -> flags s p' = 0 -> 6 <= prio s p') /\
    exists total, total_tickets s = Done total s /\
      winner_of s (seeded_rand (tsc_lo s) mod total) = Some p }.

Lemma lottery_top s Q p : sched_wf s -> rq_inv ∅ s Q ->
  head (ready_list Q (seqZ 0 6)) = Some p -> lottery_choice s p.
Proof.
  intros Hw HQ Hh. destruct (head_ready_best s Q 0 6 p HQ ltac:(lia) ltac:(done) Hh)
    as (H1 & H2 & H3 & H4).
  split; [done| |simpl in H3; lia]. intros _. split.
  - split; [done|split; [done|]]. intros p' Hs Hf. apply H4; [done|done|].
    by destruct (wf_prio s Hw p' Hs) as [[] _].
  - destruct (head_ready_head _ _ _ Hh) as (q & Hq & Hq'). apply queues_ok in Hq; [|done|done].
    assert (Hin : p ∈ Q q) by (destruct (Q q); [done|injection Hq' as ->; by left]).
    destruct (rq_ready _ _ _ _ _ HQ Hq Hin) as (_ & _ & ->). by rewrite (rq_head _ _ _ _ HQ).
Qed.

Lemma lottery_low s Q : sched_wf s -> rq_inv ∅ s Q -> head (ready_list Q (seqZ 0 6)) = None ->
  forall p, slot p -> flags s p = 0 -> 6 <= prio s p.
Proof.
  intros Hw HQ Hh p Hs Hf. destruct (Z.le_gt_cases 6 (prio s p)) as [|Hlt]; [done|exfalso].
  assert (Hp : p ∈ ready_list Q (seqZ 0 6)).
  { apply (elem_ready_list s Q); [done|by intros q; apply queues_ok|].
    split; [done|split; [done|]]. apply elem_of_seqZ. destruct (wf_prio s Hw p Hs) as [[] _]. lia. }
  destruct (ready_list _ _); [by apply elem_of_nil in Hp|done].
Qed.

Lemma entries_total s Q p : rq_inv ∅ s Q -> slot p -> flags s p = 0 -> 6 <= prio s p < NR_SCHED_QUEUES ->
  0 < sum_tickets (entries Q lottery_queues).
Proof.
  intros HQ Hs Hf Hp.
  assert (Hl : prio s p ∈ lottery_queues) by (apply elem_of_seqZ; lia).
  pose proof (ready_entry s Q p HQ Hs Hf Hl) as He. pose proof (entries_nonneg Q) as Hn.
  pose proof (tickets_pos _ (lottery_queues_ok _ Hl)) as Ht.
  apply list_elem_of_split in He as (l1 & l2 & El). rewrite El in *. rewrite sum_tickets_app. simpl.
  assert (0 <= sum_tickets l1) by (apply sum_tickets_nonneg; intros e He; apply Hn, elem_of_app; by left).
  assert (0 <= sum_tickets l2).
  { apply sum_tickets_nonneg; intros e He; apply Hn, elem_of_app; right; by right. }
  lia.
Qed.

Lemma lottery_result_choice s Q : sched_wf s -> rq_inv ∅ s Q ->
  match lottery_result Q (seeded_rand (tsc_lo s)) with
  | Some p => lottery_choice s p
  | None => none_ready s
  end.
Proof.
  intros Hw HQ. unfold lottery_result.
  destruct (head _) as [p|] eqn:Eh; [by apply (lottery_top s Q)|].
  pose proof (lottery_low s Q Hw HQ Eh) as Hlow. set (l := entries Q lottery_queues).
  destruct (Z.ltb_spec 0 (sum_tickets l)) as [Hpos|Hzero].
  - set (r := seeded_rand (tsc_lo s)).
    destruct (ticket_owner_total l (r mod sum_tickets l)) as [p Hp]; [by apply Z.mod_pos_bound|].
    rewrite Hp. pose proof (ticket_owner_elem _ _ _ Hp) as Hin. unfold l in Hin.
    rewrite entries_fst in Hin. apply (elem_ready_list s) in Hin as (Hs & Hf & Hq);
      [|done|by intros q; apply queues_ok].
    split; [done| |].
    + apply elem_of_seqZ in Hq. lia.
    + intros _. split; [done|]. exists (sum_tickets l). split; [by apply total_tickets_done|].
      by rewrite (winner_of_owner s Q _ HQ).
  - intros p Hs Hf. destruct (wf_prio s Hw p Hs) as [[_ Hup] _]. specialize (Hlow p Hs Hf).
    pose proof (entries_total s Q p HQ Hs Hf (conj Hlow Hup)). unfold l in Hzero. lia.
Qed.

(** ** [pick_proc], whatever the policy *)

Definition pick_ok (s : kstate) (o : option Z) : Prop :=
  match o with Some p => slot p /\ flags s p = 0 | None => none_ready s end.

Lemma pick_proc_done s :
  sched_inv s -> 0 <= sched_type s <= 2 ->
  exists o s', pick_proc s = Done o s' /\ (s' = billed s o \/ s' = billed (seeded s) o) /\ pick_ok s o.
Proof.
  intros [Hw [Q HQ]] Hp. unfold pick_proc.
  rewrite (bind_done _ _ _ _ _ (eq_refl : gets sched_type s = Done (sched_type s) s)).
  destruct (Z.eqb_spec (sched_type s) 0); [|destruct (Z.eqb_spec (sched_type s) 1);
    [|destruct (Z.eqb_spec (sched_type s) 2); [|lia]]].
  - eexists _, _. split; [by apply pick_default_done|split; [by left|]].
    pose proof (default_choice s Q Hw HQ) as H. destruct (head _); [by destruct H as [(? & ? & _) _]|done].
  - pose proof (lottery_result_choice s Q Hw HQ) as H.
    assert (Hok : pick_ok s (lottery_result Q (seeded_rand (tsc_lo s))))
      by (destruct (lottery_result _ _); [by destruct H|done]).
    destruct (pick_lottery_done s Q Hw HQ) as [E|E]; eexists _, _; (split; [exact E|by auto]).
  - eexists _, _. split; [by apply pick_edf_done|split; [by left|]].
    pose proof (edf_result_choice s Q Hw HQ) as H. destruct (edf_result s Q); [by destruct H as [(? & ? & _) _]|done].
Qed.
