(* ===== verification/Notify.v ===== *)
(** * Notifications and kernel signals (kernel/proc.c, kernel/system.c)

    [QueueMess], [mini_notify], [lock_notify] of proc.c and the signal helpers
    [send_sig], [cause_sig], [sig_delay_done] of system.c that use them. *)
From S2P Require Import Prelude PList KMonad Timers Types KState Memory Sched.

(** Where a message is copied from: the memory of the current address space, or
    a variable of the kernel. *)
Inductive msg_src := MLin (lin : Z) | MKern (m : message).

(** [QueueMess]. *)
Definition QueueMess (ep : Z) (src : msg_src) (dst : Z) : K Z := with_intr_off (
  do r <- gets (fun s => match src with
                         | MLin lin => read_message s lin
                         | MKern m => (message_bytes m, true)
                         end);
  do! wr dst (fun p => set_p_delivermsg (overwrite (fst r) (p_delivermsg p)) p);
  if negb (snd r) then ret EFAULT
  else
    do! wr dst (fun p => set_p_delivermsg (set_m_source ep (p_delivermsg p)) p);
    do! wr dst (fun p => set_p_misc_flags (flag_set (p_misc_flags p) MF_DELIVERMSG) p);
    ret OK).

(** [BuildNotifyMessage]: the pending interrupts or signals are taken. *)
Definition BuildNotifyMessage (src dst : Z) : K message :=
  do up <- get_uptime;
  let m := set_m2_l2 up (set_m_type (NOTIFY_FROM src) null_message) in
  if src =? HARDWARE then
    do pr <- priv_of dst;
    do a <- rdp pr s_int_pending;
    do! wrp pr (set_s_int_pending 0);
    ret (set_m2_l1 a m)
  else if src =? SYSTEM then
    do pr <- priv_of dst;
    do a <- rdp pr s_sig_pending;
    do! wrp pr (set_s_sig_pending 0);
    ret (set_m2_l1 a m)
  else ret m.

(** [WILLRECEIVE(target, source_ep)] (kernel/ipc.h). *)
Definition will_receive (p : proc) (source_ep : Z) : bool :=
  flag_isset (p_rts_flags p) RTS_RECEIVING && negb (flag_isset (p_rts_flags p) RTS_SENDING) &&
  ((p_getfrom_e p =? ANY) || (p_getfrom_e p =? source_ep)).
Definition WILLRECEIVE (target source_ep : Z) : K bool :=
  rd target (fun p => will_receive p source_ep).

(** [mini_notify]. *)
Definition mini_notify (caller dst_e : Z) : K Z :=
  do o <- isokendpt dst_e;
  match o with
  | None => ret EDEADSRCDST
  | Some dst =>
      do cep <- rd caller p_endpoint;
      do w <- WILLRECEIVE dst cep;
      do mf <- rd dst p_misc_flags;
      if w && negb (flag_any mf MF_REPLY_PEND) then
        do nr <- rd caller p_nr;
        do m <- BuildNotifyMessage nr dst;
        do r <- QueueMess cep (MKern m) dst;
        if negb (r =? OK) then panic "mini_notify: local QueueMess failed"
        else do! RTS_UNSET dst RTS_RECEIVING; ret OK
      else
        do cp <- priv_of caller;
        do src_id <- rdp cp s_id;
        do dp <- priv_of dst;
        do! wrp dp (fun sp => set_s_notify_pending (set_sys_bit (s_notify_pending sp) src_id) sp);
        ret OK
  end.

(** [lock_notify]. *)
Definition lock_notify (src_e dst_e : Z) : K Z :=
  do o <- isokendpt src_e;
  match o with
  | None => ret EDEADSRCDST
  | Some src =>
      do! lock;
      do result <- mini_notify src dst_e;
      do! unlock;
      ret result
  end.

(** [send_sig]: tell a system process about a signal. *)
Definition send_sig (proc_nr sig_nr : Z) : K unit :=
  if negb (isokprocn proc_nr) then panic "send_sig to empty process"
  else
    do empty <- isemptyp proc_nr;
    if empty : bool then panic "send_sig to empty process"
    else
      do pr <- priv_of proc_nr;
      do! wrp pr (fun sp => set_s_sig_pending (sigaddset (s_sig_pending sp) sig_nr) sp);
      do ep <- rd proc_nr p_endpoint;
      do off <- gets intr_off;
      do! (if negb off then lock_notify SYSTEM ep else mini_notify SYSTEM ep);
      ret tt.

(** [cause_sig]: a signal for a user process, which PM will handle. *)
Definition cause_sig (proc_nr sig_nr : Z) : K unit :=
  if proc_nr =? PM_PROC_NR then panic "cause_sig: PM gets signal"
  else
    do pending <- rd proc_nr p_pending;
    if sigismember pending sig_nr then ret tt
    else
      do! wr proc_nr (fun p => set_p_pending (sigaddset (p_pending p) sig_nr) p);
      do signaled <- RTS_ISSET proc_nr RTS_SIGNALED;
      if signaled : bool then ret tt
      else
        do! RTS_LOCK_SET proc_nr (Z.lor RTS_SIGNALED RTS_SIG_PENDING);
        send_sig PM_PROC_NR SIGKSIG.

(** [sig_delay_done]. *)
Definition sig_delay_done (rp : Z) : K unit :=
  do! wr rp (fun p => set_p_misc_flags (flag_clear (p_misc_flags p) MF_SIG_DELAY) p);
  do nr <- rd rp p_nr;
  cause_sig nr SIGNDELAY.
