(* ===== verification/Copy.v ===== *)
(** * Copying between processes (kernel/arch/i386/memory.c)

    [virtual_copy_f] and its wrappers, and [vm_suspend], which makes a process
    wait until VM has repaired the memory it accessed.  A copy from or to a
    variable of the kernel has SYSTEM at that end, whose mapping always succeeds. *)
From S2P Require Import Prelude PList KMonad Timers Types KState Memory Sched Notify.

Definition EFAULT_SRC : Z := -995.
Definition EFAULT_DST : Z := -994.

(** [p_vmrequest.type] and [.req_type] (kernel/proc.h, include/minix/safecopies.h). *)
Definition VMSTYPE_SYS_NONE : Z := 0.
Definition VMSTYPE_KERNELCALL : Z := 1.
Definition VMSTYPE_DELIVERMSG : Z := 2.
Definition VMSTYPE_MAP : Z := 3.
Definition VMPTYPE_NONE : Z := 0.
Definition VMPTYPE_CHECK : Z := 1.

Definition upd_vmrequest (f : vmrequest_t -> vmrequest_t) (p : proc) : proc :=
  set_p_vmrequest (f (p_vmrequest p)) p.

(** [vm_suspend]; the write flag is set to 1 whatever access was tried. *)
Definition vm_suspend (caller target linaddr len type : Z) : K unit :=
  do! RTS_LOCK_SET caller RTS_VMREQUEST;
  do! wr caller (upd_vmrequest (set_vr_req_type VMPTYPE_CHECK));
  do te <- rd target p_endpoint;
  do! wr caller (upd_vmrequest (set_vr_target te));
  do! wr caller (upd_vmrequest (set_vr_start linaddr));
  do! wr caller (upd_vmrequest (set_vr_length len));
  do! wr caller (upd_vmrequest (set_vr_writeflag 1));
  do! wr caller (upd_vmrequest (set_vr_type type));
  do next <- gets vmrequest;
  do! wr caller (upd_vmrequest (set_vr_nextrequestor next));
  do! match next with
      | None => do r <- mini_notify SYSTEM VM_PROC_NR; ret tt
      | Some _ => ret tt
      end;
  modify (set_vmrequest (Some caller)).

(** ** One end of a copy *)

(** [struct vir_addr] (include/minix/type.h). *)
Record vir_addr := mk_vir_addr { va_proc_nr_e : Z; va_segment : Z; va_offset : Z }.

Definition SEGMENT_TYPE : Z := 0xFF00.
Definition SEGMENT_INDEX : Z := 0x00FF.
Definition LOCAL_SEG : Z := 0x0000.
Definition REMOTE_SEG : Z := 0x0100.
Definition BIOS_SEG : Z := 0x0200.
Definition PHYS_SEG : Z := 0x0400.
Definition LOCAL_VM_SEG : Z := 0x1000.
Definition MEM_GRANT : Z := 3.

(** The process (None for physical memory) and the address of an end of a copy. *)
Definition copy_end : Type := option Z * Z.

(** The mapping of one end in [virtual_copy_f]; [umap_virtual] serves [LOCAL_VM_SEG]. *)
Definition vc_map (umap_virtual : Z -> Z -> Z -> Z -> K Z) (va : vir_addr) (bytes : Z)
    : K (Z + copy_end) :=
  let type := Z.land (va_segment va) SEGMENT_TYPE in
  let seg_index := Z.land (va_segment va) SEGMENT_INDEX in
  do p <- (if negb (type =? PHYS_SEG) && negb (type =? BIOS_SEG)
           then isokendpt (va_proc_nr_e va) else ret None);
  do r <- (if (type =? LOCAL_SEG) || (type =? LOCAL_VM_SEG) then
             match p with
             | None => ret (inl EDEADSRCDST)
             | Some n =>
                 do a <- (if type =? LOCAL_SEG then umap_local n seg_index (va_offset va) bytes
                          else umap_virtual n seg_index (va_offset va) bytes);
                 ret (inr a)
             end
           else if type =? REMOTE_SEG then
             match p with
             | None => ret (inl EDEADSRCDST)
             | Some n => do a <- umap_remote n seg_index (va_offset va) bytes; ret (inr a)
             end
           else if type =? BIOS_SEG then ret (inr (umap_bios (va_offset va) bytes))
           else if type =? PHYS_SEG then ret (inr (va_offset va))
           else ret (inl EINVAL));
  match r with
  | inl e => ret (inl e)
  | inr a => if (a <=? 0) && negb (va_segment va =? PHYS_SEG) then ret (inl EFAULT)
             else ret (inr (p, a))
  end.

(** ** The copy *)

Section virtual_copy.
Context {A : Type} (none : A).

(** A pending request of the caller is over: its result, when VM refused. *)
Definition vm_answered (who : Z) : K (option Z) :=
  do waiting <- RTS_ISSET who RTS_VMREQUEST;
  if waiting : bool then
    do! RTS_LOCK_UNSET who RTS_VMREQUEST;
    do res <- rd who (fun p => vr_vmresult (p_vmrequest p));
    if negb (res =? OK) then ret (Some res) else ret None
  else ret None.

(** [virtual_copy_f], for the given mappings of its ends and the given copy.
    The test of [bytes] returns without undoing [NOREC_ENTER]. *)
Definition virtual_copy_gen (msrc mdst : K (Z + copy_end))
    (copy : bool -> copy_end -> copy_end -> K (copy_result * A)) (bytes : Z) (vmcheck : bool)
    : K (Z * A) :=
  do d <- gets intr_off;
  do! when (negb d) lock;
  if bytes <=? 0 then ret (EDOM, none)
  else
    do r <- (
      do rs <- msrc;
      match rs with
      | inl e => ret (e, none)
      | inr src =>
          do rd' <- mdst;
          match rd' with
          | inl e => ret (e, none)
          | inr dst =>
              do running <- gets vm_running;
              if running : bool then
                do who <- gets who_p;
                do refused <- vm_answered who;
                match refused with
                | Some e => ret (e, none)
                | None =>
                    do c <- copy true src dst;
                    match fst c with
                    | CopyOk => ret (OK, snd c)
                    | CopyFaultSrc =>
                        if negb vmcheck then ret (EFAULT_SRC, none)
                        else do target <- from_ptr (fst src);
                             do! vm_suspend who target (snd src) bytes VMSTYPE_KERNELCALL;
                             ret (VMSUSPEND, none)
                    | CopyFaultDst =>
                        if negb vmcheck then ret (EFAULT_DST, none)
                        else do target <- from_ptr (fst dst);
                             do! vm_suspend who target (snd dst) bytes VMSTYPE_KERNELCALL;
                             ret (VMSUSPEND, none)
                    end
                end
              else
                do c <- copy false src dst;
                match fst c with CopyOk => ret (OK, snd c) | _ => ret (EFAULT, none) end
          end
      end);
    do! when (negb d) unlock;
    ret r.

End virtual_copy.

(** The space of an end: its own once VM runs, physical memory before. *)
Definition end_space (running : bool) (s : kstate) (e : copy_end) : aspace :=
  if running then proc_space s (fst e) else Phys.

(** [lin_lin_copy] (with VM) and [phys_copy] (without), between two processes. *)
Definition lin_lin_copy (bytes : Z) (running : bool) (src dst : copy_end) : K (copy_result * unit) :=
  with_intr_off (
  do r <- gets (fun s => copy_bytes (Z.to_nat bytes) (mem s)
                  (end_space running s src) (snd src) (end_space running s dst) (snd dst));
  do! modify (set_mem (fst r));
  ret (snd r, tt)).

(** From a process to a variable of the kernel, and back. *)
Definition copy_in (bytes : Z) (running : bool) (src dst : copy_end) : K (copy_result * list Z) :=
  with_intr_off (
  do r <- gets (fun s => read_bytes (Z.to_nat bytes) (mem s) (end_space running s src) (snd src));
  ret (if snd r : bool then CopyOk else CopyFaultSrc, fst r)).

Definition copy_out (bs : list Z) (running : bool) (src dst : copy_end) : K (copy_result * unit) :=
  with_intr_off (
  do r <- gets (fun s => write_bytes bs (mem s) (end_space running s dst) (snd dst));
  do! modify (set_mem (fst r));
  ret (if snd r : bool then CopyOk else CopyFaultDst, tt)).

(** [D] segments have no [LOCAL_VM_SEG] bit: [umap_virtual] is not used. *)
Definition no_umap_virtual (rp seg vir_addr bytes : Z) : K Z := ret 0.

(** The address of a kernel variable in SYSTEM's data segment. *)
Definition kernel_end : K (Z + copy_end) := ret (inr (Some SYSTEM, 0)).

Definition d_addr (e a : Z) : vir_addr := mk_vir_addr e SEG_D a.

(** [data_copy], [data_copy_vmcheck] between two processes. *)
Definition data_copy (from_proc from_addr to_proc to_addr bytes : Z) (vmcheck : bool) : K Z :=
  do r <- virtual_copy_gen tt
            (vc_map no_umap_virtual (d_addr from_proc from_addr) bytes)
            (vc_map no_umap_virtual (d_addr to_proc to_addr) bytes)
            (lin_lin_copy bytes) bytes vmcheck;
  ret (fst r).

(** [data_copy(e, a, SYSTEM, &v, bytes)] and [data_copy(SYSTEM, &v, e, a, bytes)]. *)
Definition data_copy_in (e a bytes : Z) (vmcheck : bool) : K (Z * list Z) :=
  virtual_copy_gen [] (vc_map no_umap_virtual (d_addr e a) bytes) kernel_end
    (copy_in bytes) bytes vmcheck.

Definition data_copy_out (bs : list Z) (e a : Z) (vmcheck : bool) : K Z :=
  do r <- virtual_copy_gen tt kernel_end
            (vc_map no_umap_virtual (d_addr e a) (Z.of_nat (length bs)))
            (copy_out bs) (Z.of_nat (length bs)) vmcheck;
  ret (fst r).
