(* ===== verification/Ipc.v ===== *)
(** * Message passing: the operations (kernel/proc.c)

    [deadlock], [mini_send], [mini_receive], the asynchronous [mini_senda],
    [try_one], [try_async], the gateways [lock_send] and [sys_call],
    [delivermsg] (arch/i386/memory.c) and [schedcheck]. *)
From S2P Require Import Prelude PList KMonad Timers Types KState Memory Sched Notify Copy.

(** ** [deadlock] *)

(** What a process waits for: any sender, a process, or nothing. *)
Definition waits_for (xp : Z) : K (option Z) :=
  do receiving <- RTS_ISSET xp RTS_RECEIVING;
  if receiving : bool then
    do e <- rd xp p_getfrom_e;
    if e =? ANY then ret (Some ANY) else do n <- okendpt e; ret (Some n)
  else
    do sending <- RTS_ISSET xp RTS_SENDING;
    if sending : bool then do e <- rd xp p_sendto_e; do n <- okendpt e; ret (Some n)
    else ret None.

(** The loop follows the chain from [src_dst]; the array [processes] that
    records it has a place per process. *)
Fixpoint deadlock_loop (fuel : nat) (function cp group_size src_dst : Z) : K Z :=
  if src_dst =? ANY then ret 0
  else
    match fuel with
    | O => stuck OutOfFuel
    | S fuel' =>
        if NR_PROCS + NR_TASKS <=? group_size then stuck BadIndex
        else
          do next <- waits_for src_dst;
          match next with
          | None => ret 0
          | Some n =>
              do nr <- rd cp p_nr;
              if n =? nr then
                do fl <- rd src_dst p_rts_flags;
                if (group_size + 1 =? 2) && flag_any (Z.lxor fl (Z.shiftl function 2)) RTS_SENDING
                then ret 0 else ret (group_size + 1)
              else deadlock_loop fuel' function cp (group_size + 1) n
          end
    end.

Definition deadlock (function cp src_dst : Z) : K Z :=
  deadlock_loop PROC_FUEL function cp 1 src_dst.

(** ** Caller queues: [p_caller_q] threaded through [p_q_link] *)

Definition cq_plist (dst : Z) (s : kstate) : plist Z :=
  mk_plist (p_caller_q (k_proc s dst)) (fun k => p_q_link (k_proc s k)).

(** [*xpp = v] on the caller queue of [dst]. *)
Definition cq_assign (dst : Z) (xpp : ploc Z) (v : option Z) : K unit :=
  match xpp with
  | LHead => wr dst (set_p_caller_q v)
  | LNext k => wr k (set_p_q_link v)
  end.

(** Walk the caller queue of [dst] up to the first process that satisfies [stop]. *)
Definition cq_walk (dst : Z) (stop : proc -> Z -> bool) : K (ploc Z) := fun s =>
  match walk (fun k => stop (k_proc s k) k) PROC_FUEL (cq_plist dst s) LHead with
  | Some xpp => Done xpp s
  | None => Stuck OutOfFuel
  end.

(** ** [mini_send] *)

(** The message buffer of a call: an address of the caller, or a kernel variable. *)
Inductive msg_ptr := PVir (v : Z) | PKern (m : message).

(** [linaddr = umap_local(caller_ptr, D, m_ptr, sizeof(message))]; [None] when it is 0. *)
Definition map_msg (caller : Z) (m_ptr : msg_ptr) : K (option msg_src) :=
  match m_ptr with
  | PKern m => ret (Some (MKern m))
  | PVir v =>
      do lin <- umap_local caller SEG_D v (Z.of_nat MESSAGE_SIZE);
      if lin =? 0 then ret None else ret (Some (MLin lin))
  end.

(** Append [caller] to the caller queue of [dst]. *)
Definition cq_append (caller dst : Z) : K unit :=
  do xpp <- cq_walk dst (fun _ _ => false);
  do! cq_assign dst xpp (Some caller);
  wr caller (set_p_q_link None).

Definition mini_send (caller dst_e : Z) (m_ptr : msg_ptr) (flags : Z) : K Z :=
  do lin <- map_msg caller m_ptr;
  match lin with
  | None => ret EFAULT
  | Some src =>
      let dst := _ENDPOINT_P dst_e in
      do dead <- RTS_ISSET dst RTS_NO_ENDPOINT;
      if dead : bool then ret EDSTDIED
      else
        do cep <- rd caller p_endpoint;
        do w <- WILLRECEIVE dst cep;
        if w : bool then
          do r <- QueueMess cep src dst;
          if negb (r =? OK) then ret r
          else do! RTS_UNSET dst RTS_RECEIVING; ret OK
        else if flag_any flags NON_BLOCKING then ret ENOTREADY
        else
          do d <- deadlock SEND caller dst;
          if negb (d =? 0) then ret ELOCKED
          else
            do c <- gets (fun s => match src with
                                   | MLin lin => read_message s lin
                                   | MKern m => (message_bytes m, true)
                                   end);
            do! wr caller (fun p => set_p_sendmsg (overwrite (fst c) (p_sendmsg p)) p);
            if negb (snd c) then ret EFAULT
            else
              do! RTS_SET caller RTS_SENDING;
              do! wr caller (set_p_sendto_e dst_e);
              do! cq_append caller dst;
              ret OK
  end.

(** [lock_send]. *)
Definition lock_send (dst_e : Z) (m : message) : K Z :=
  do! lock;
  do cur <- gets proc_ptr;
  do cur <- from_ptr cur;
  do result <- mini_send cur dst_e (PKern m) 0;
  do! unlock;
  ret result.

(** ** Asynchronous messages: [asynmsg_t] tables in the memory of the sender *)

Definition ASYNMSG_SIZE : Z := 48.
Definition AMF_EMPTY : Z := 0.
Definition AMF_VALID : Z := 1.
Definition AMF_DONE : Z := 2.
Definition AMF_NOTIFY : Z := 4.
Definition AMF_NOREPLY : Z := 8.
Definition AM_FLAGS : Z := 0.
Definition AM_DST : Z := 4.
Definition AM_RESULT : Z := 8.
Definition AM_MSG : Z := 12.

Definition am_addr (table_v i field : Z) : Z := u32 (table_v + i * ASYNMSG_SIZE + field).

Definition word_of (bs : list Z) : Z :=
  match bs with [b0; b1; b2; b3] => bytes_word b0 b1 b2 b3 | _ => 0 end.

(** [A_RETRIEVE(entry, field)] of an [int] and of the message, [A_INSERT(entry, field)];
    [None] and [false] make the caller return EFAULT. *)
Definition A_RETRIEVE (cep table_v i field : Z) : K (option Z) :=
  do r <- data_copy_in cep (am_addr table_v i field) 4 false;
  if negb (fst r =? OK) then ret None else ret (Some (word_of (snd r))).

Definition A_RETRIEVE_msg (cep table_v i : Z) : K (option message) :=
  do r <- data_copy_in cep (am_addr table_v i AM_MSG) (Z.of_nat MESSAGE_SIZE) false;
  if negb (fst r =? OK) then ret None else ret (Some (bytes_message (snd r))).

Definition A_INSERT (cep table_v i field v : Z) : K bool :=
  do r <- data_copy_out (word_bytes v) cep (am_addr table_v i field) false;
  ret (r =? OK).

(** The result and the flags of an entry that has been processed. *)
Definition am_finish (cep table_v i result flags : Z) : K bool :=
  do ok <- A_INSERT cep table_v i AM_RESULT result;
  if negb ok then ret false
  else A_INSERT cep table_v i AM_FLAGS (flag_set flags AMF_DONE).

(** Reserved bits are set, or the entry is not valid. *)
Definition am_bad_flags (flags : Z) : bool :=
  negb (Z.ldiff (u32 flags) (AMF_VALID + AMF_DONE + AMF_NOTIFY + AMF_NOREPLY) =? 0) ||
  negb (flag_any flags AMF_VALID).

(** [try_one(src_ptr, dst_ptr, postponed)]: the result, and the new value of
    [*postponed], which a caller that passed NULL ignores. *)
Definition try_one (src dst : Z) (postponed : bool) : K (Z * bool) :=
  do privp <- priv_of src;
  do id <- rdp privp s_id;
  if id =? USER_PRIV_ID then ret (EAGAIN, postponed)
  else
    do size <- rdp privp s_asynsize;
    if size =? 0 then ret (EAGAIN, postponed)
    else
      do dnr <- rd dst p_nr;
      do may <- may_send_to src dnr;
      if negb may then ret (EAGAIN, postponed)
      else
        do table_v <- rdp privp s_asyntab;
        do dst_e <- rd dst p_endpoint;
        do sep <- rd src p_endpoint;
        do r <- fold_exit (seqZ 0 size) (true, postponed) (fun acc i =>
          do fo <- A_RETRIEVE sep table_v i AM_FLAGS;
          match fo with
          | None => ret (inr (EFAULT, snd acc))
          | Some flags =>
              if flags =? 0 then ret (inl acc)
              else if am_bad_flags flags then
                do! wrp privp (set_s_asynsize 0); ret (inr (EINVAL, snd acc))
              else if flag_any flags AMF_DONE then ret (inl acc)
              else
                do d <- A_RETRIEVE sep table_v i AM_DST;
                match d with
                | None => ret (inr (EFAULT, snd acc))
                | Some d =>
                    if negb (d =? dst_e) then ret (inl (false, snd acc))
                    else
                      do mf <- rd dst p_misc_flags;
                      if flag_any flags AMF_NOREPLY && flag_any mf MF_REPLY_PEND
                      then ret (inl (false, true))
                      else
                        do mo <- A_RETRIEVE_msg sep table_v i;
                        match mo with
                        | None => ret (inr (EFAULT, snd acc))
                        | Some m =>
                            do q <- QueueMess sep (MKern m) dst;
                            do ok <- am_finish sep table_v i q flags;
                            if negb ok then ret (inr (EFAULT, snd acc)) else ret (inr (OK, snd acc))
                        end
                end
          end);
        match r with
        | inr v => ret v
        | inl acc => do! when (fst acc) (wrp privp (set_s_asynsize 0)); ret (EAGAIN, snd acc)
        end.

(** [try_async]. *)
Definition try_async (caller : Z) : K Z :=
  do r <- fold_exit all_privs false (fun postponed privp =>
    do nr <- rdp privp s_proc_nr;
    if nr =? NONE then ret (inl postponed)
    else
      do r <- try_one nr caller postponed;
      if fst r =? OK then ret (inr OK) else ret (inl (snd r)));
  match r with
  | inr v => ret v
  | inl postponed =>
      do! when (negb postponed)
            (wr caller (fun p => set_p_misc_flags (flag_clear (p_misc_flags p) MF_ASYNMSG) p));
      ret ESRCH
  end.

(** ** [mini_receive] *)

(** [for (i=0; ! ( *chunk & (1<<i)); ++i) {}] on a chunk that is not 0. *)
Definition lowest_bit (chunk : Z) : Z :=
  match find (fun i => Z.testbit chunk i) (seqZ 0 BITCHUNK_BITS) with Some i => i | None => 0 end.

(** The loop over the chunks of pending notifications: [Some (Some r)] returns
    [r], [Some None] leaves the loop.  Of each chunk only the first bit is looked at. *)
Definition receive_notify (caller src_e src_p : Z) : K (option (option Z)) :=
  do privp <- priv_of caller;
  for_return (seqZ 0 NR_SYS_CHUNKS) (fun c =>
    do chunk <- rdp privp (fun sp => s_notify_pending sp c);
    if chunk =? 0 then ret None
    else
      let i := lowest_bit chunk in
      let src_id := c * BITCHUNK_BITS + i in
      if NR_SYS_PROCS <=? src_id then ret (Some None)
      else
        do src_proc_nr <- rdp src_id s_proc_nr;
        if negb (src_e =? ANY) && negb (src_p =? src_proc_nr) then ret None
        else
          do! wrp privp (fun sp => set_s_notify_pending (unset_sys_bit (s_notify_pending sp) src_id) sp);
          do m <- BuildNotifyMessage src_proc_nr caller;
          do hisep <- rd src_proc_nr p_endpoint;
          do r <- QueueMess hisep (MKern m) caller;
          if negb (r =? OK) then panic "mini_receive: local QueueMess failed"
          else ret (Some (Some OK))).

(** The search of the caller queue: [true] when a message was taken. *)
Definition receive_queued (caller src_e src_p : Z) : K bool :=
  do xpp <- cq_walk caller (fun p _ => (src_e =? ANY) || (src_p =? p_nr p));
  do cur <- gets (fun s => deref (cq_plist caller s) xpp);
  match cur with
  | None => ret false
  | Some x =>
      do xep <- rd x p_endpoint;
      do m <- rd x p_sendmsg;
      do! QueueMess xep (MKern m) caller;
      do mf <- rd x p_misc_flags;
      do! when (flag_any mf MF_SIG_DELAY) (sig_delay_done x);
      do! RTS_UNSET x RTS_SENDING;
      do nxt <- rd x p_q_link;
      do! cq_assign caller xpp nxt;
      ret true
  end.

(** No message: block the caller, unless it must not. *)
Definition receive_block (caller src_e src_p flags : Z) : K Z :=
  if negb (flag_any flags NON_BLOCKING) then
    do d <- deadlock RECEIVE caller src_p;
    if negb (d =? 0) then ret ELOCKED
    else
      do! wr caller (set_p_getfrom_e src_e);
      do! RTS_SET caller RTS_RECEIVING;
      ret OK
  else ret ENOTREADY.

(** The available messages are tried in order: notifications, queued senders,
    asynchronous messages. *)
Definition receive_available (caller src_e src_p : Z) : K bool :=
  do sending <- RTS_ISSET caller RTS_SENDING;
  if sending : bool then ret false
  else
    do mf <- rd caller p_misc_flags;
    do n <- (if negb (flag_any mf MF_REPLY_PEND) then receive_notify caller src_e src_p
             else ret None);
    match n with
    | Some (Some _) => ret true
    | _ =>
        do got <- receive_queued caller src_e src_p;
        if got : bool then ret true
        else
          do mf <- rd caller p_misc_flags;
          if flag_any mf MF_ASYNMSG then
            do r <- (if negb (src_e =? ANY)
                     then do r <- try_one src_p caller false; ret (fst r)
                     else try_async caller);
            ret (r =? OK)
          else ret false
    end.

Definition mini_receive (caller src_e m_ptr flags : Z) : K Z :=
  do lin <- umap_local caller SEG_D m_ptr (Z.of_nat MESSAGE_SIZE);
  if lin =? 0 then ret EFAULT
  else
    do! wr caller (set_p_delivermsg_lin lin);
    do! wr caller (set_p_delivermsg_vir m_ptr);
    do src_p <- (if src_e =? ANY then ret ANY else okendpt src_e);
    do dead <- (if src_e =? ANY then ret false else RTS_ISSET src_p RTS_NO_ENDPOINT);
    if dead : bool then ret ESRCDIED
    else
      do got <- receive_available caller src_e src_p;
      if got : bool then ret OK else receive_block caller src_e src_p flags.

(** ** [mini_senda] *)

(** One entry of the table; [inr] returns from the function, the accumulator is [done]. *)
Definition senda_entry (caller cep table_v linaddr : Z) (done : bool) (i : Z) : K (bool + Z) :=
  do fo <- A_RETRIEVE cep table_v i AM_FLAGS;
  match fo with
  | None => ret (inr EFAULT)
  | Some flags =>
      if flags =? 0 then ret (inl done)
      else if am_bad_flags flags then ret (inr EINVAL)
      else if flag_any flags AMF_DONE then ret (inl done)
      else
        let finish result :=
          do ok <- am_finish cep table_v i result flags;
          if negb ok then ret (inr EFAULT) else ret (inl done) in
        do d <- A_RETRIEVE cep table_v i AM_DST;
        match d with
        | None => ret (inr EFAULT)
        | Some d =>
            do o <- isokendpt d;
            match o with
            | None => finish EDEADSRCDST
            | Some dst =>
                if iskerneln dst then finish ECALLDENIED
                else
                  do may <- may_send_to caller dst;
                  if negb may then finish ECALLDENIED
                  else
                    do fl <- rd dst p_rts_flags;
                    if flag_any fl RTS_NO_ENDPOINT then finish EDSTDIED
                    else
                      do w <- WILLRECEIVE dst cep;
                      do mf <- rd dst p_misc_flags;
                      if w && (negb (flag_any flags AMF_NOREPLY) || negb (flag_any mf MF_REPLY_PEND))
                      then
                        do q <- QueueMess cep (MLin (u32 (linaddr + i * ASYNMSG_SIZE + AM_MSG))) dst;
                        do! when (q =? OK) (RTS_UNSET dst RTS_RECEIVING);
                        finish q
                      else
                        do! wr dst (fun p => set_p_misc_flags (flag_set (p_misc_flags p) MF_ASYNMSG) p);
                        ret (inl false)
            end
        end
  end.

Definition mini_senda (caller table size : Z) : K Z :=
  do privp <- priv_of caller;
  do fl <- rdp privp s_flags;
  if negb (flag_any fl SYS_PROC) then ret EPERM
  else
    do! wrp privp (set_s_asyntab (u32 (-1)));
    do! wrp privp (set_s_asynsize 0);
    if size =? 0 then ret OK
    else
      do linaddr <- umap_local caller SEG_D table (u32 (size * ASYNMSG_SIZE));
      if linaddr =? 0 then ret EFAULT
      else if 16 * (NR_TASKS + NR_PROCS) <? size then ret EDOM
      else
        do cep <- rd caller p_endpoint;
        do r <- fold_exit (seqZ 0 size) true (senda_entry caller cep table linaddr);
        match r with
        | inr e => ret e
        | inl done =>
            do! when (negb done) (
              do! wrp privp (set_s_asyntab table);
              wrp privp (set_s_asynsize size));
            ret OK
        end.

(** ** [sys_call] *)

Definition set_misc (rp f : Z) : K unit :=
  wr rp (fun p => set_p_misc_flags (flag_set (p_misc_flags p) f) p).
Definition clear_misc (rp f : Z) : K unit :=
  wr rp (fun p => set_p_misc_flags (flag_clear (p_misc_flags p) f) p).

(** System call tracing: [true] when the call is postponed. *)
Definition trace_enter (caller : Z) : K bool :=
  do mf <- rd caller p_misc_flags;
  if flag_any mf (Z.lor MF_SC_TRACE MF_SC_DEFER) then
    if Z.land mf (Z.lor MF_SC_TRACE MF_SC_DEFER) =? MF_SC_TRACE then
      do! clear_misc caller MF_SC_TRACE;
      do! set_misc caller MF_SC_DEFER;
      do nr <- rd caller p_nr;
      do! cause_sig nr SIGTRAP;
      ret true
    else
      do! clear_misc caller MF_SC_DEFER;
      do! set_misc caller MF_SC_ACTIVE;
      ret false
  else ret false.

(** The checks of the destination: [inl] is an error, [inr] the process number
    ([None] for SENDA, which has no destination). *)
Definition check_dst (caller call_nr src_dst_e : Z) : K (Z + option Z) :=
  if call_nr =? SENDA then ret (inr None)
  else if src_dst_e =? ANY then
    if negb (call_nr =? RECEIVE) then ret (inl EINVAL) else ret (inr (Some ANY))
  else
    do o <- isokendpt src_dst_e;
    match o with
    | None => ret (inl EDEADSRCDST)
    | Some p =>
        if negb (call_nr =? RECEIVE) then
          do may <- may_send_to caller p;
          if negb may then ret (inl ECALLDENIED) else ret (inr (Some p))
        else ret (inr (Some p))
    end.

(** The dispatch on the call number. *)
Definition do_ipc (caller call_nr src_dst_e m_ptr : Z) : K Z :=
  if (call_nr =? SENDREC) || (call_nr =? SEND) then
    do! when (call_nr =? SENDREC) (set_misc caller MF_REPLY_PEND);
    do result <- mini_send caller src_dst_e (PVir m_ptr) 0;
    if (call_nr =? SEND) || negb (result =? OK) then ret result
    else mini_receive caller src_dst_e m_ptr 0
  else if call_nr =? RECEIVE then
    do! clear_misc caller MF_REPLY_PEND;
    mini_receive caller src_dst_e m_ptr 0
  else if call_nr =? NOTIFY then mini_notify caller src_dst_e
  else if call_nr =? SENDNB then mini_send caller src_dst_e (PVir m_ptr) NON_BLOCKING
  else if call_nr =? SENDA then mini_senda caller m_ptr (u32 src_dst_e)
  else ret EBADCALL.

Definition sys_call (call_nr src_dst_e m_ptr : Z) : K Z :=
  do cur <- gets proc_ptr;
  do caller <- from_ptr cur;
  do postponed <- trace_enter caller;
  if postponed : bool then rd caller p_retreg
  else
    do c <- check_dst caller call_nr src_dst_e;
    match c with
    | inl e => ret e
    | inr dst =>
        if (call_nr <? 0) || (32 <=? call_nr) then ret ETRAPDENIED
        else
          do pr <- priv_of caller;
          do mask <- rdp pr s_trap_mask;
          if negb (Z.testbit mask call_nr) then ret ETRAPDENIED
          else if negb (call_nr =? SENDREC) && negb (call_nr =? RECEIVE) && negb (call_nr =? SENDA)
                  && match dst with Some p => iskerneln p | None => false end
          then ret ETRAPDENIED
          else if (call_nr =? SENDA) && (16 * (NR_TASKS + NR_PROCS) <? u32 src_dst_e) then ret EDOM
          else do_ipc caller call_nr src_dst_e m_ptr
    end.

(** [arch_do_syscall] (arch/i386/system.c): a call that tracing had postponed. *)
Definition arch_do_syscall (rp : Z) : K unit :=
  do call_nr <- rd rp p_cx;
  do src_dst_e <- rd rp p_retreg;
  do m_ptr <- rd rp p_bx;
  do! vm_set_cr3 rp;
  do r <- sys_call call_nr src_dst_e m_ptr;
  wr rp (set_p_retreg r).

(** ** [delivermsg] (arch/i386/memory.c) *)

Definition delivermsg (rp : Z) : K Z := with_intr_off (
  do! vm_set_cr3 rp;
  do m <- rd rp p_delivermsg;
  do lin <- rd rp p_delivermsg_lin;
  do r <- gets (write_message m lin);
  do! modify (fun _ => fst r);
  if negb (snd r) then
    do! vm_suspend rp rp lin (Z.of_nat MESSAGE_SIZE) VMSTYPE_DELIVERMSG;
    ret VMSUSPEND
  else
    do! clear_misc rp MF_DELIVERMSG;
    ret OK).

(** ** [schedcheck] *)

(** From [not_runnable_pick_new]: requeue the current process if it lost the
    processor, then pick; [None] when nothing can run: IDLE is then current and
    the processor halts until an interrupt. *)
Definition pick_new : K (option Z) :=
  do cur <- gets proc_ptr;
  do cur <- from_ptr cur;
  do fl <- rd cur p_rts_flags;
  do! when (flag_any fl RTS_PREEMPTED) (
    do! wr cur (fun p => set_p_rts_flags (flag_clear (p_rts_flags p) RTS_PREEMPTED) p);
    do r <- proc_is_runnable cur;
    when r (enqueue_head cur));
  do fl <- rd cur p_rts_flags;
  do! when (flag_any fl RTS_NO_QUANTUM) (RTS_UNSET cur RTS_NO_QUANTUM);
  do o <- pick_proc;
  match o with
  | Some rp => do! modify (set_proc_ptr (Some rp)); ret (Some rp)
  | None =>
      do! modify (set_proc_ptr (Some IDLE));
      do pr <- priv_of IDLE;
      do fl <- rdp pr s_flags;
      do! when (flag_any fl BILLABLE) (modify (set_bill_ptr (Some IDLE)));
      ret None
  end.

Definition SC_FLAGS : Z :=
  Z.lor MF_DELIVERMSG (Z.lor MF_SC_DEFER (Z.lor MF_SC_TRACE MF_SC_ACTIVE)).

(** One round of the loop at [check_misc_flags]: [true] to go on. *)
Definition misc_round (rp : Z) : K bool :=
  do mf <- rd rp p_misc_flags;
  if flag_any mf MF_DELIVERMSG then do! delivermsg rp; ret true
  else if flag_any mf MF_SC_DEFER then
    do! arch_do_syscall rp;
    do mf <- rd rp p_misc_flags;
    do sending <- RTS_ISSET rp RTS_SENDING;
    do! when (flag_any mf MF_SIG_DELAY && negb sending) (sig_delay_done rp);
    ret true
  else if flag_any mf MF_SC_TRACE then
    if negb (flag_any mf MF_SC_ACTIVE) then ret false
    else
      do! clear_misc rp (Z.lor MF_SC_TRACE MF_SC_ACTIVE);
      do nr <- rd rp p_nr;
      do! cause_sig nr SIGTRAP;
      ret true
  else
    do! clear_misc rp MF_SC_ACTIVE;
    ret false.

(** The rest of [schedcheck] from either label, with fuel for its [goto]s. *)
Fixpoint schedcheck_loop (fuel : nat) (pick : bool) : K (option Z) :=
  match fuel with
  | O => stuck OutOfFuel
  | S fuel' =>
      if pick then
        do o <- pick_new;
        match o with
        | None => ret None
        | Some _ => schedcheck_loop fuel' false
        end
      else
        do cur <- gets proc_ptr;
        do rp <- from_ptr cur;
        do mf <- rd rp p_misc_flags;
        if negb (flag_any mf SC_FLAGS) then ret (Some rp)
        else
          do go <- misc_round rp;
          if negb go then ret (Some rp)
          else
            do r <- proc_is_runnable rp;
            schedcheck_loop fuel' (negb r)
  end.

(** [schedcheck]: the process to run, [None] when the processor halts. *)
Definition schedcheck (fuel : nat) : K (option Z) := with_intr_off (
  do cur <- gets proc_ptr;
  do rp <- from_ptr cur;
  do r <- proc_is_runnable rp;
  schedcheck_loop fuel (negb r)).
