(* ===== verification/IpcInv.v ===== *)
(** * Message passing: its invariant

    Besides the ready queues, three things make message passing work: the
    caller queue of each process holds exactly the processes blocked sending to
    it; a blocked process waits for a live one; and no set of processes wait for
    each other in a cycle, which is what [deadlock] is there to prevent. *)
From S2P Require Import Prelude PList KMonad Timers Types KState Memory Sched SchedInv Notify Copy Ipc.

(** ** Views of the state *)

Definition is_free (s : kstate) (p : Z) : bool := flags s p =? RTS_SLOT_FREE.
Definition sending (s : kstate) (p : Z) : bool := Z.testbit (flags s p) 2.
Definition receiving (s : kstate) (p : Z) : bool := Z.testbit (flags s p) 3.
Definition no_endpoint (s : kstate) (p : Z) : bool := Z.testbit (flags s p) 8.
Definition endpt (s : kstate) (p : Z) : Z := p_endpoint (k_proc s p).

(** A signal is to be delivered to [p] once it has stopped sending ([MF_SIG_DELAY]). *)
Definition delayed (p : proc) : bool := flag_any (p_misc_flags p) MF_SIG_DELAY.

(** The flags that make the kernel signal a process: [MF_VIRT_TIMER] (1),
    [MF_PROF_TIMER] (2), [MF_SIG_DELAY] (7), and, as one, the two of a traced system
    call, [MF_SC_DEFER] (9) and [MF_SC_TRACE] (10). *)
Definition signals (n mf : Z) : bool :=
  if n =? 9 then Z.testbit mf 9 || Z.testbit mf 10 else Z.testbit mf n.

(** None of them has been set. *)
Definition no_new_sig (p p' : proc) : Prop := forall n, n = 1 \/ n = 2 \/ n = 7 \/ n = 9 ->
  signals n (p_misc_flags p') = true -> signals n (p_misc_flags p) = true.

Lemma signals_set n f mf :
  signals n f = false -> signals n (flag_set mf f) = signals n mf.
Proof.
  unfold signals, flag_set. rewrite !Z.lor_spec. destruct (n =? 9).
  - intros [-> ->]%orb_false_iff. by rewrite !orb_false_r.
  - intros ->. by rewrite orb_false_r.
Qed.

Lemma signals_clear n f mf : signals n (flag_clear mf f) = true -> signals n mf = true.
Proof.
  unfold signals, flag_clear. rewrite !Z.ldiff_spec.
  destruct (n =? 9), (Z.testbit mf 9), (Z.testbit mf 10), (Z.testbit mf n); done.
Qed.

Lemma no_new_sig_eq p p' : p_misc_flags p' = p_misc_flags p -> no_new_sig p p'.
Proof. intros E n _. by rewrite E. Qed.
#[export] Hint Extern 0 (no_new_sig _ _) => (apply no_new_sig_eq; reflexivity) : core.

Lemma no_new_delayed p p' : no_new_sig p p' -> delayed p' = true -> delayed p = true.
Proof.
  unfold delayed. change MF_SIG_DELAY with (2 ^ 7). rewrite !flag_any_bit by lia.
  intros H. apply (H 7). tauto.
Qed.

(** A process that can be the partner of a message. *)
Definition alive (s : kstate) (d : Z) : Prop :=
  slot d /\ is_free s d = false /\ no_endpoint s d = false.

(** The fields of a process that the invariant reads, [RTS_RECEIVING] aside, and
    those of a privilege structure. *)
Definition ipc_view (p : proc) :=
  (p_nr p, p_priv p, p_endpoint p, (p_caller_q p, p_q_link p), (p_getfrom_e p, p_sendto_e p),
   (p_rts_flags p =? RTS_SLOT_FREE, Z.testbit (p_rts_flags p) 0,
    Z.testbit (p_rts_flags p) 2, Z.testbit (p_rts_flags p) 8)).
Definition priv_view (sp : priv) := (s_id sp, s_proc_nr sp).

(** The state of the interrupt system. *)
Definition irq_view (s : kstate) :=
  (irq_hooks s, irq_handlers s, irq_actids s, irq_use s, irq_masked s).

(** Global variables that message passing leaves alone. *)
Definition glob_view (s : kstate) :=
  ((clock_timers s, next_timeout s, realtime s, lost_ticks s), (bill_ptr s, sched_type s),
   (system_hz s, minix_panicing s), irq_view s).

(** The view is unchanged, but processes that were not sending may have stopped
    receiving: what delivering a message does. *)
Record ipc_weak (s s' : kstate) : Prop := mk_ipc_weak {
  is_proc p : ipc_view (k_proc s' p) = ipc_view (k_proc s p);
  is_recv p : receiving s' p = receiving s p \/ (sending s p = false /\ receiving s' p = false);
  is_priv i : priv_view (k_priv s' i) = priv_view (k_priv s i);
  is_cur : proc_ptr s' = proc_ptr s;
  is_who : who_p s' = who_p s;
  is_glob : glob_view s' = glob_view s;
  is_char p : char_okp (k_proc s p) -> char_okp (k_proc s' p);
  is_delay p : no_new_sig (k_proc s p) (k_proc s' p);
  is_lock : lock_same s s' }.

(** ** The static part: numbers, endpoints, privileges *)

Record ipc_wf (s : kstate) : Prop := mk_ipc_wf {
  iw_nr p : slot p -> p_nr (k_proc s p) = p;
  iw_ep p : slot p -> _ENDPOINT_P (endpt s p) = p;
  iw_priv p : slot p -> is_free s p = false ->
    exists i, p_priv (k_proc s p) = Some i /\ priv_slot i /\ slot (s_proc_nr (k_priv s i));
  iw_id i : priv_slot i -> s_id (k_priv s i) = i;
  iw_priv_nr i : priv_slot i -> s_proc_nr (k_priv s i) = NONE \/
    (slot (s_proc_nr (k_priv s i)) /\ is_free s (s_proc_nr (k_priv s i)) = false);
  iw_cur c : proc_ptr s = Some c -> slot c /\ is_free s c = false;
  iw_system : is_free s SYSTEM = false;
  iw_free p : slot p -> Z.testbit (flags s p) 0 = is_free s p;
  iw_who : slot (who_p s) }.

(** ** Waiting *)

(** The process [x] waits for, when it waits for one. *)
Definition waits (s : kstate) (x : Z) : option Z :=
  if receiving s x then
    if p_getfrom_e (k_proc s x) =? ANY then None else Some (_ENDPOINT_P (p_getfrom_e (k_proc s x)))
  else if sending s x then Some (_ENDPOINT_P (p_sendto_e (k_proc s x)))
  else None.

Definition W (s : kstate) (x y : Z) : Prop := slot x /\ waits s x = Some y.

Definition acyclic (R : Z -> Z -> Prop) : Prop := forall x, ~ tc R x x.

Lemma tc_mono (R1 R2 : Z -> Z -> Prop) x y :
  (forall a b, R1 a b -> R2 a b) -> tc R1 x y -> tc R2 x y.
Proof. intros HR. induction 1; [by apply tc_once, HR|eapply tc_l; eauto]. Qed.

(** Fewer dependencies cannot make a cycle. *)
Lemma acyclic_sub (R1 R2 : Z -> Z -> Prop) :
  (forall a b, R2 a b -> R1 a b) -> acyclic R1 -> acyclic R2.
Proof. intros HR A x Hx. apply (A x). by eapply tc_mono. Qed.

(** A new dependency of [c] on [y] closes no cycle if [y] does not lead to [c]. *)
Lemma rtc_add (R1 R2 : Z -> Z -> Prop) c y a b :
  (forall u v, R2 u v -> R1 u v \/ (u = c /\ v = y)) -> ~ rtc R1 y c ->
  rtc R2 a b -> rtc R1 a b \/ (rtc R1 a c /\ rtc R1 y b).
Proof.
  intros HR Hyc. induction 1 as [|a m b Ham Hmb IH]; [by left; apply rtc_refl|].
  destruct (HR _ _ Ham) as [Ham'|[-> ->]].
  - destruct IH as [IH|[IH1 IH2]]; [left|right; split; [|done]]; by eapply rtc_l.
  - destruct IH as [IH|[IH1 _]]; [right; split; [apply rtc_refl|done]|by destruct Hyc].
Qed.

Lemma acyclic_add (R1 R2 : Z -> Z -> Prop) c y :
  (forall u v, R2 u v -> R1 u v \/ (u = c /\ v = y)) -> ~ rtc R1 y c ->
  acyclic R1 -> acyclic R2.
Proof.
  intros HR Hyc A x Hx.
  assert (exists m, R2 x m /\ rtc R2 m x) as (m & Hxm & Hmx).
  { inversion Hx; subst; [eexists; split; [done|apply rtc_refl]|].
    eexists; split; [done|by apply tc_rtc]. }
  pose proof (rtc_add R1 R2 c y m x HR Hyc Hmx) as Hp.
  destruct (HR _ _ Hxm) as [Hxm'|[-> ->]].
  - destruct Hp as [Hp|[Hp1 Hp2]].
    + apply (A x). eapply tc_rtc_r; [by apply tc_once|done].
    + apply Hyc. eapply rtc_trans; [done|]. by eapply rtc_l.
  - destruct Hp as [Hp|[Hp _]]; by destruct Hyc.
Qed.

(** [C d] are the senders queued at [d], in order of arrival. *)
Record cq_inv (s : kstate) (C : Z -> list Z) : Prop := mk_cq_inv {
  cq_rep d : alive s d -> plist_rep (cq_plist d s) (C d);
  cq_nodup d : alive s d -> NoDup (C d);
  cq_mem d x : alive s d ->
    x ∈ C d <-> slot x /\ sending s x = true /\ p_sendto_e (k_proc s x) = endpt s d }.

(** The walk of a caller queue stops where it should, within its fuel. *)
Lemma cq_walk_done stop s d l1 l2 :
  plist_rep (cq_plist d s) (l1 ++ l2) -> NoDup (l1 ++ l2) -> (forall x, x ∈ l1 ++ l2 -> slot x) ->
  Forall (fun x => stop (k_proc s x) x = false) l1 ->
  match l2 with [] => True | x :: _ => stop (k_proc s x) x = true end ->
  cq_walk d stop s = Done (loc_after l1) s.
Proof.
  intros Hr Hn Hs H1 H2. unfold cq_walk. rewrite (walk_spec _ _ _ l1 l2); [done..|].
  pose proof (slots_fuel _ Hn Hs) as Hf. rewrite length_app in Hf. lia.
Qed.

(** The location before a node is the head or the link of a member. *)
Lemma loc_after_member (l : list Z) k : loc_after l = LNext k -> k ∈ l.
Proof. unfold loc_after. destruct (last l) eqn:El; intros; simplify_eq. by apply last_Some_elem_of. Qed.

(** The members of a caller queue are processes, and of no other queue. *)
Lemma cq_slots s C d x : cq_inv s C -> alive s d -> x ∈ C d -> slot x.
Proof. intros HC Hd Hx. by apply (cq_mem _ _ HC d) in Hx as (? & _ & _). Qed.

(** A blocked process waits for a live one. *)
Record partners_ok (s : kstate) : Prop := mk_partners_ok {
  po_send x : slot x -> sending s x = true ->
    exists d, alive s d /\ p_sendto_e (k_proc s x) = endpt s d;
  po_recv x : slot x -> receiving s x = true -> p_getfrom_e (k_proc s x) <> ANY ->
    exists d, slot d /\ is_free s d = false /\ p_getfrom_e (k_proc s x) = endpt s d;
  po_both x : slot x -> sending s x = true -> receiving s x = true ->
    p_getfrom_e (k_proc s x) = p_sendto_e (k_proc s x) }.

Record ipc_core (s : kstate) : Prop := mk_ipc_core {
  ic_wf : ipc_wf s;
  ic_partners : partners_ok s;
  ic_acyclic : acyclic (W s);
  ic_queues : exists C, cq_inv s C }.

(** Pending notifications come from processes that exist. *)
Definition chunk_ok (x : Z) : Prop := 0 <= x < 2 ^ BITCHUNK_BITS.
Definition owned (s : kstate) (i : Z) : Prop :=
  exists p, slot p /\ is_free s p = false /\ p_priv (k_proc s p) = Some i.
Definition pend_ok (s : kstate) : Prop :=
  forall i, priv_slot i ->
    (forall c, chunk_ok (s_notify_pending (k_priv s i) c)) /\
    (owned s i -> forall j, priv_slot j -> get_sys_bit (s_notify_pending (k_priv s i)) j = true ->
       slot (s_proc_nr (k_priv s j))).

Lemma pend_same s s' :
  k_priv s' = k_priv s -> (forall p, is_free s' p = is_free s p) ->
  (forall p, p_priv (k_proc s' p) = p_priv (k_proc s p)) -> pend_ok s -> pend_ok s'.
Proof.
  intros Ek Ef Ep H i Hi. destruct (H i Hi) as [H1 H2]. rewrite Ek. split; [done|].
  intros (p & Hp & Hf & Hpp). apply H2. exists p. by rewrite <- Ef, <- Ep.
Qed.

Definition ipc_inv (s : kstate) : Prop := sched_inv s /\ ipc_core s /\ pend_ok s.

(** ** The invariant only reads the view *)

(** The invariant only reads the tables, the current process and the lock. *)
Lemma ipc_inv_same s s' :
  k_proc s' = k_proc s -> k_priv s' = k_priv s -> rdy_head s' = rdy_head s ->
  rdy_tail s' = rdy_tail s -> proc_ptr s' = proc_ptr s -> who_p s' = who_p s -> lock_same s s' ->
  ipc_inv s -> ipc_inv s'.
Proof.
  intros E1 E2 E3 E4 E5 E6 [E7 E8] ([[W1 W2 W3 W4] [Q [Q1 Q2 Q3 Q4]]] &
    [[I1 I2 I3 I4 I5 I6 I7 I8 I9] [P1 P2 P3] A [C [C1 C2 C3]]] & Hp).
  split; [split; [split|exists Q; split]|split; [split; [split|split| |exists C; split]|]];
    unfold plist_rep, rq_plist, cq_plist, flags, prio, priv_ok, lock_ok, is_free, sending, receiving,
      no_endpoint, endpt, alive, acyclic, W, waits, pend_ok, owned in *;
    unfold receiving, sending, flags, is_free, no_endpoint, flags in *;
    rewrite ?E1, ?E2, ?E3, ?E4, ?E5, ?E6, ?E7, ?E8; done.
Qed.

Lemma lock_same_refl s : lock_same s s.
Proof. done. Qed.

(** A field of the process read off the equality of views [E]. *)
Ltac weak_field E :=
  let X := fresh "X" in
  pose proof E as X; unfold ipc_view in X;
  unfold is_free, sending, receiving, no_endpoint, endpt, flags; congruence.

Section weak.
Context (s s' : kstate) (H : ipc_weak s s').

Lemma weak_free p : is_free s' p = is_free s p.
Proof. weak_field (is_proc _ _ H p). Qed.
Lemma weak_sending p : sending s' p = sending s p.
Proof. weak_field (is_proc _ _ H p). Qed.
Lemma weak_no_endpoint p : no_endpoint s' p = no_endpoint s p.
Proof. weak_field (is_proc _ _ H p). Qed.
Lemma weak_endpt p : endpt s' p = endpt s p.
Proof. weak_field (is_proc _ _ H p). Qed.
Lemma weak_priv p : p_priv (k_proc s' p) = p_priv (k_proc s p).
Proof. weak_field (is_proc _ _ H p). Qed.
Lemma weak_getfrom p : p_getfrom_e (k_proc s' p) = p_getfrom_e (k_proc s p).
Proof. weak_field (is_proc _ _ H p). Qed.
Lemma weak_sendto p : p_sendto_e (k_proc s' p) = p_sendto_e (k_proc s p).
Proof. weak_field (is_proc _ _ H p). Qed.
Lemma weak_caller_q p : p_caller_q (k_proc s' p) = p_caller_q (k_proc s p).
Proof. weak_field (is_proc _ _ H p). Qed.
Lemma weak_q_link p : p_q_link (k_proc s' p) = p_q_link (k_proc s p).
Proof. weak_field (is_proc _ _ H p). Qed.
Lemma weak_nr p : p_nr (k_proc s' p) = p_nr (k_proc s p).
Proof. weak_field (is_proc _ _ H p). Qed.
Lemma weak_alive p : alive s' p <-> alive s p.
Proof. unfold alive. by rewrite weak_free, weak_no_endpoint. Qed.
Lemma weak_receiving p : receiving s' p = true -> receiving s p = true.
Proof. destruct (is_recv _ _ H p) as [->|[_ ->]]; done. Qed.
Lemma weak_waits p y : waits s' p = Some y -> waits s p = Some y.
Proof.
  unfold waits. rewrite weak_sending, weak_getfrom, weak_sendto.
  destruct (is_recv _ _ H p) as [->|[-> ->]]; done.
Qed.
Lemma weak_rtc x y : rtc (W s') x y -> rtc (W s) x y.
Proof.
  intros Hr. induction Hr as [|a b c [Ha Hab] _ IH]; [apply rtc_refl|].
  eapply rtc_l; [|exact IH]. split; [done|by apply weak_waits].
Qed.
Lemma weak_proc_nr i : s_proc_nr (k_priv s' i) = s_proc_nr (k_priv s i).
Proof. pose proof (is_priv _ _ H i) as E. unfold priv_view in E. congruence. Qed.
Lemma weak_id i : s_id (k_priv s' i) = s_id (k_priv s i).
Proof. pose proof (is_priv _ _ H i) as E. unfold priv_view in E. congruence. Qed.

Lemma weak_ipc_wf : ipc_wf s -> ipc_wf s'.
Proof.
  intros [I1 I2 I3 I4 I5 I6 I7 I8 I9]. split.
  - intros p Hp. rewrite weak_nr. auto.
  - intros p Hp. rewrite weak_endpt. auto.
  - intros p Hp. rewrite weak_free. intros Hf. destruct (I3 p Hp Hf) as (i & Hi & Hs & Hn).
    exists i. by rewrite weak_proc_nr, weak_priv.
  - intros i Hi. rewrite weak_id. auto.
  - intros i Hi. rewrite weak_proc_nr, weak_free. auto.
  - intros c. rewrite (is_cur _ _ H), weak_free. auto.
  - by rewrite weak_free.
  - intros p Hp. rewrite weak_free. specialize (I8 p Hp).
    pose proof (is_proc _ _ H p) as E. unfold ipc_view in E. unfold flags in *. congruence.
  - by rewrite (is_who _ _ H).
Qed.

Lemma weak_cq C : cq_inv s C -> cq_inv s' C.
Proof.
  intros [C1 C2 C3]. split.
  - intros d Hd%weak_alive. specialize (C1 d Hd). unfold plist_rep, cq_plist in *. simpl in *.
    rewrite weak_caller_q. eapply chain_ext; [|exact C1]. intros x _. by rewrite weak_q_link.
  - intros d Hd%weak_alive. auto.
  - intros d x Hd%weak_alive. rewrite weak_sending, weak_sendto, weak_endpt. auto.
Qed.

Lemma weak_partners : partners_ok s -> partners_ok s'.
Proof.
  intros [P1 P2 P3]. split.
  - intros x Hx. rewrite weak_sending, weak_sendto. intros Hs.
    destruct (P1 x Hx Hs) as (d & Hd & He). exists d. by rewrite weak_alive, weak_endpt.
  - intros x Hx Hr%weak_receiving. rewrite weak_getfrom. intros Ha.
    destruct (P2 x Hx Hr Ha) as (d & Hd & Hf & He). exists d. by rewrite weak_free, weak_endpt.
  - intros x Hx Hs Hr%weak_receiving. rewrite weak_sending in Hs. rewrite weak_getfrom, weak_sendto.
    auto.
Qed.

Lemma weak_core : ipc_core s -> ipc_core s'.
Proof.
  intros [I1 I2 I3 [C I4]]. split; [by apply weak_ipc_wf|by apply weak_partners| |].
  - eapply acyclic_sub; [|exact I3]. intros a b [Ha Hab]. split; [done|by apply weak_waits].
  - exists C. by apply weak_cq.
Qed.

End weak.

#[export] Instance ipc_weak_po : PreOrder ipc_weak.
Proof.
  split; [intros s; split; auto; apply lock_same_refl|].
  intros s1 s2 s3 H1 H2. split.
  - intros p. by rewrite (is_proc _ _ H2), (is_proc _ _ H1).
  - intros p. destruct (is_recv _ _ H2 p) as [->|[Hs Hr]]; [apply H1|].
    right. by rewrite <- (weak_sending s1 s2 H1).
  - intros i. by rewrite (is_priv _ _ H2), (is_priv _ _ H1).
  - by rewrite (is_cur _ _ H2), (is_cur _ _ H1).
  - by rewrite (is_who _ _ H2), (is_who _ _ H1).
  - by rewrite (is_glob _ _ H2), (is_glob _ _ H1).
  - intros p Hc. by apply (is_char _ _ H2), (is_char _ _ H1).
  - intros p n Hn Hb. by apply (is_delay _ _ H1), (is_delay _ _ H2).
  - destruct (is_lock _ _ H1), (is_lock _ _ H2). split; congruence.
Qed.

(** ** Endpoints of live processes *)

Lemma any_not_slot : ~ slot (_ENDPOINT_P ANY).
Proof. unfold slot. vm_compute. intros [_ H]. discriminate. Qed.

Lemma any_not_slot' : ~ slot ANY.
Proof. unfold slot. vm_compute. intros [_ H]. discriminate. Qed.

Lemma endpt_not_any s d : ipc_wf s -> slot d -> endpt s d <> ANY.
Proof.
  intros Hwf Hd He. apply any_not_slot. rewrite <- He, (iw_ep s Hwf d Hd). done.
Qed.

Lemma endpt_inj s d d' : ipc_wf s -> slot d -> slot d' -> endpt s d = endpt s d' -> d = d'.
Proof.
  intros Hwf Hd Hd' He. rewrite <- (iw_ep s Hwf d Hd), <- (iw_ep s Hwf d' Hd'). by rewrite He.
Qed.

(** [isokendpt] and [okendpt] find the process of a live endpoint. *)
Lemma isokendpt_done s e :
  isokendpt e s = Done (if decide (slot (_ENDPOINT_P e) /\ is_free s (_ENDPOINT_P e) = false /\
                                   endpt s (_ENDPOINT_P e) = e)
                        then Some (_ENDPOINT_P e) else None) s.
Proof.
  unfold isokendpt. set (p := _ENDPOINT_P e). unfold isokprocn.
  case_bool_decide as Hs; simpl; [|by rewrite decide_False by tauto].
  unfold isemptyp, bind, rd. rewrite !(decide_True _ _ Hs).
  fold (flags s p) (is_free s p). destruct (is_free s p) eqn:Ef.
  - rewrite decide_False; [done|]. intros (_ & ? & _). done.
  - rewrite (decide_True _ _ Hs). change (p_endpoint (k_proc s p)) with (endpt s p).
    destruct (decide (endpt s p = e)) as [He|He].
    + rewrite (proj2 (Z.eqb_eq _ _) He), decide_True; [done|by split_all].
    + rewrite (proj2 (Z.eqb_neq _ _) He), decide_False; [done|]. tauto.
Qed.

Lemma isokendpt_live s d :
  ipc_wf s -> slot d -> is_free s d = false -> isokendpt (endpt s d) s = Done (Some d) s.
Proof.
  intros Hwf Hd Hf. rewrite isokendpt_done, (iw_ep s Hwf d Hd). by rewrite decide_True.
Qed.

Lemma okendpt_done s d :
  ipc_wf s -> slot d -> is_free s d = false -> okendpt (endpt s d) s = Done d s.
Proof.
  intros Hwf Hd Hf. unfold okendpt, bind. rewrite isokendpt_done, (iw_ep s Hwf d Hd).
  by rewrite decide_True.
Qed.

(** ** [deadlock] *)

(** Whether [x] waits for a message from anyone. *)
Definition waits_any (s : kstate) (x : Z) : bool :=
  receiving s x && (p_getfrom_e (k_proc s x) =? ANY).

Lemma RTS_ISSET_done rp n s :
  slot rp -> 0 <= n -> RTS_ISSET rp (2 ^ n) s = Done (Z.testbit (flags s rp) n) s.
Proof.
  intros Hs Hn. unfold RTS_ISSET, rd. rewrite decide_True by done. by rewrite flag_isset_bit.
Qed.

Lemma sending_done x s : slot x -> RTS_ISSET x RTS_SENDING s = Done (sending s x) s.
Proof. intros. by apply (RTS_ISSET_done x 2). Qed.
Lemma receiving_done x s : slot x -> RTS_ISSET x RTS_RECEIVING s = Done (receiving s x) s.
Proof. intros. by apply (RTS_ISSET_done x 3). Qed.
Lemma no_endpoint_done x s : slot x -> RTS_ISSET x RTS_NO_ENDPOINT s = Done (no_endpoint s x) s.
Proof. intros. by apply (RTS_ISSET_done x 8). Qed.
Lemma rd_done {A} x (f : proc -> A) s : slot x -> rd x f s = Done (f (k_proc s x)) s.
Proof. intros. unfold rd. by rewrite decide_True. Qed.

Lemma waits_for_done s x :
  ipc_core s -> slot x ->
  waits_for x s = Done (if waits_any s x then Some ANY else waits s x) s /\
  (forall n, waits s x = Some n -> slot n).
Proof.
  intros Hc Hx. destruct Hc as [Hwf [Hps Hpr _] _ _]. unfold waits_for, waits_any, waits.
  rewrite (bind_done _ _ _ _ _ (receiving_done x s Hx)).
  destruct (receiving s x) eqn:Er; simpl.
  - rewrite (bind_done _ _ _ _ _ (rd_done x p_getfrom_e s Hx)).
    destruct (Z.eqb_spec (p_getfrom_e (k_proc s x)) ANY) as [|Ha]; [done|].
    destruct (Hpr x Hx Er Ha) as (d & Hd & Hf & He). rewrite He.
    rewrite (bind_done _ _ _ _ _ (okendpt_done s d Hwf Hd Hf)), (iw_ep s Hwf d Hd).
    split; [done|]. intros n Hn. by simplify_eq.
  - rewrite (bind_done _ _ _ _ _ (sending_done x s Hx)).
    destruct (sending s x) eqn:Es; [|done]. rewrite (bind_done _ _ _ _ _ (rd_done x p_sendto_e s Hx)).
    destruct (Hps x Hx Es) as (d & (Hd & Hf & _) & He). rewrite He.
    rewrite (bind_done _ _ _ _ _ (okendpt_done s d Hwf Hd Hf)), (iw_ep s Hwf d Hd).
    split; [done|]. intros n Hn. by simplify_eq.
Qed.

(** The flag exception: of two processes that would wait for each other, one
    sends and the other receives. *)
Definition excused (s : kstate) (function y : Z) : bool :=
  flag_any (Z.lxor (flags s y) (Z.shiftl function 2)) RTS_SENDING.

Lemma W_det s x y z : W s x y -> W s x z -> y = z.
Proof. intros [_ H1] [_ H2]. congruence. Qed.

Lemma rtc_step s y n c : W s y n -> y <> c -> rtc (W s) y c <-> rtc (W s) n c.
Proof.
  intros Hyn Hne. split; [|intros; by eapply rtc_l].
  intros H. apply rtc_inv in H as [->|(m & Hym & Hmc)]; [done|].
  by rewrite <- (W_det s y m n).
Qed.

(** The loop, after it has followed the chain through [vs] to [y]. *)
Lemma deadlock_loop_done s function cp fuel vs y :
  ipc_core s -> slot cp -> slot y -> y <> cp -> NoDup (y :: vs) -> cp ∉ vs ->
  (forall v, v ∈ vs -> slot v /\ tc (W s) v y) -> (260 < fuel + length vs)%nat ->
  exists r, deadlock_loop fuel function cp (1 + Z.of_nat (length vs)) y s = Done r s /\
    (r <> 0 -> rtc (W s) y cp) /\
    (r = 0 -> ~ rtc (W s) y cp \/
              (vs = [] /\ waits s y = Some cp /\ excused s function y = true)).
Proof.
  intros Hcore Hcp. revert vs y. induction fuel as [|fuel IH]; intros vs y Hy Hne Hnd Hcv Hvs Hfu.
  all: assert (Hlen : (length vs < 259)%nat).
  1,3: assert (Hb : (length (cp :: y :: vs) < PROC_FUEL)%nat);
    [|simpl in Hb; unfold PROC_FUEL in Hb; lia];
    (apply slots_fuel; [constructor; [set_solver|done]|];
     intros x; rewrite !elem_of_cons; intros [->|[->|Hx]]; [done..|by apply Hvs]).
  { lia. }
  simpl deadlock_loop. destruct (Z.eqb_spec y ANY) as [->|_]; [by destruct any_not_slot'|].
  destruct (Z.leb_spec (NR_PROCS + NR_TASKS) (1 + Z.of_nat (length vs))) as [Hbig|_].
  { unfold NR_PROCS, NR_TASKS in Hbig. lia. }
  destruct (waits_for_done s y Hcore Hy) as [Hw Hslot].
  rewrite (bind_done _ _ _ _ _ Hw). unfold waits_any.
  destruct (receiving s y && (p_getfrom_e (k_proc s y) =? ANY)) eqn:Ea.
  { rewrite (bind_done _ _ _ _ _ (rd_done cp p_nr s Hcp)), (iw_nr s (ic_wf s Hcore) cp Hcp).
    destruct (Z.eqb_spec ANY cp) as [<-|_]; [by destruct any_not_slot'|].
    exists 0. split; [by destruct fuel|]. split; [done|]. intros _. left. intros H.
    apply rtc_inv in H as [->|(m & [_ Hm] & _)]; [done|]. unfold waits in Hm.
    apply andb_true_iff in Ea as [Er Eg]. by rewrite Er, Eg in Hm. }
  destruct (waits s y) as [n|] eqn:En.
  2:{ exists 0. split; [done|]. split; [done|]. intros _. left. intros H.
      apply rtc_inv in H as [->|(m & [_ Hm] & _)]; [done|]. congruence. }
  specialize (Hslot n eq_refl). assert (Hyn : W s y n) by done.
  rewrite (bind_done _ _ _ _ _ (rd_done cp p_nr s Hcp)), (iw_nr s (ic_wf s Hcore) cp Hcp).
  destruct (Z.eqb_spec n cp) as [->|Hncp].
  - rewrite (bind_done _ _ _ _ _ (rd_done y p_rts_flags s Hy)). fold (flags s y).
    fold (excused s function y).
    destruct (Z.eqb_spec (1 + Z.of_nat (length vs) + 1) 2) as [Hl|Hl]; simpl.
    + destruct (excused s function y) eqn:Ee.
      * exists 0. split; [done|]. split; [done|]. intros _. right. split_all; try done.
        destruct vs; [done|]. simpl in Hl. lia.
      * eexists. split; [done|]. split; [intros _; by apply rtc_once|lia].
    + eexists. split; [done|]. split; [intros _; by apply rtc_once|lia].
  - assert (Hdist : n ∉ y :: vs).
    { intros Hin. apply (ic_acyclic s Hcore n). apply elem_of_cons in Hin as [->|Hin].
      - by apply tc_once.
      - eapply tc_r; [|exact Hyn]. by apply Hvs. }
    destruct (IH (y :: vs) n) as (r & Hr & Hr1 & Hr2).
    + done.
    + done.
    + by constructor.
    + set_solver.
    + intros v Hv. apply elem_of_cons in Hv as [->|Hv]; [split; [done|by apply tc_once]|].
      destruct (Hvs v Hv). split; [done|]. by eapply tc_r.
    + simpl length. lia.
    + exists r. replace (1 + Z.of_nat (length vs) + 1)
        with (1 + Z.of_nat (length (y :: vs))) by (simpl length; lia).
      split; [exact Hr|]. rewrite (rtc_step s y n cp Hyn Hne). split; [done|].
      intros H0. destruct (Hr2 H0) as [|(? & _)]; [by left|done].
Qed.

Lemma deadlock_done s function cp y :
  ipc_core s -> slot cp -> slot y -> y <> cp ->
  exists r, deadlock function cp y s = Done r s /\ (r <> 0 -> rtc (W s) y cp) /\
    (r = 0 -> ~ rtc (W s) y cp \/ (waits s y = Some cp /\ excused s function y = true)).
Proof.
  intros Hcore Hcp Hy Hne.
  destruct (deadlock_loop_done s function cp PROC_FUEL [] y) as (r & Hr & H1 & H2); try done.
  - apply NoDup_singleton.
  - set_solver.
  - set_solver.
  - unfold PROC_FUEL. simpl. lia.
  - exists r. split_all; [done|done|]. intros H0. destruct (H2 H0) as [|(_ & ? & ?)]; auto.
Qed.
