(* ===== verification/IpcSafe.v ===== *)
(** * Message passing keeps its invariant

    Rules for the operations of Notify.v, Copy.v and Ipc.v: each returns, never
    leaves the tables or follows a null pointer, and keeps [ipc_inv]. *)
From S2P Require Import Prelude PList KMonad Timers Types KState Memory Sched SchedInv Notify Copy.
From S2P Require Import Ipc IpcInv.

(** ** Steps the invariant does not see *)

Definition sched_view (p : proc) := (p_nextready p, p_rts_flags p, p_priority p, p_max_priority p).

(** A change of fields of a process that the invariant does not read. *)
Definition keeps (f : proc -> proc) : Prop := forall x,
  ipc_view (f x) = ipc_view x /\ sched_view (f x) = sched_view x /\
  no_new_sig x (f x) /\ (char_okp x -> char_okp (f x)).

(** Setting a miscellaneous flag other than those, clearing any. *)
Lemma keeps_misc_set f :
  Z.testbit f 1 = false -> Z.testbit f 2 = false -> Z.testbit f 7 = false -> signals 9 f = false ->
  keeps (fun p => set_p_misc_flags (flag_set (p_misc_flags p) f) p).
Proof.
  intros H1 H2 H7 H9 x. split_all; [done|done| |done]. intros n Hn. cbn [p_misc_flags set_p_misc_flags].
  rewrite signals_set; [done|]. by destruct Hn as [->|[->|[->| ->]]].
Qed.

Lemma keeps_misc_clear f : keeps (fun p => set_p_misc_flags (flag_clear (p_misc_flags p) f) p).
Proof.
  intros x. split_all; [done|done| |done]. intros n _. cbn [p_misc_flags set_p_misc_flags].
  apply signals_clear.
Qed.
#[export] Hint Resolve keeps_misc_clear : minix.

Record quiet (s s' : kstate) : Prop := mk_quiet {
  qu_proc p : ipc_view (k_proc s' p) = ipc_view (k_proc s p);
  qu_sched p : sched_view (k_proc s' p) = sched_view (k_proc s p);
  qu_head q : rdy_head s' q = rdy_head s q;
  qu_tail q : rdy_tail s' q = rdy_tail s q;
  qu_priv i : priv_view (k_priv s' i) = priv_view (k_priv s i);
  qu_cur : proc_ptr s' = proc_ptr s;
  qu_who : who_p s' = who_p s;
  qu_glob : glob_view s' = glob_view s;
  qu_char p : char_okp (k_proc s p) -> char_okp (k_proc s' p);
  qu_delay p : no_new_sig (k_proc s p) (k_proc s' p);
  qu_lock : lock_same s s' }.

Lemma quiet_sched s s' : quiet s s' -> sched_inv s -> sched_inv s'.
Proof.
  intros [Hp Hs Hh Ht _ Hc _ _ _ _ Hl] [[W1 W2 W3 W4] [Q HQ]].
  assert (Hv : forall p, p_nextready (k_proc s' p) = p_nextready (k_proc s p) /\
    flags s' p = flags s p /\ prio s' p = prio s p /\
    p_max_priority (k_proc s' p) = p_max_priority (k_proc s p) /\
    p_priv (k_proc s' p) = p_priv (k_proc s p)).
  { intros p. specialize (Hs p). specialize (Hp p). unfold sched_view, ipc_view in *.
    unfold flags, prio. split_all; congruence. }
  split.
  - split.
    + intros p Hsp. destruct (Hv p) as (_ & _ & -> & -> & _). by apply W1.
    + intros p Hsp. specialize (W2 p Hsp). unfold priv_ok in *.
      by destruct (Hv p) as (_ & -> & _ & _ & ->).
    + destruct W3 as (c & i & ? & ? & ?). exists c, i. rewrite Hc.
      by destruct (Hv c) as (_ & _ & _ & _ & ->).
    + by eapply lock_ok_same.
  - exists Q. eapply (rq_inv_ext ∅ s); [done|done| | |done].
    + intros p. by destruct (Hv p) as (-> & _).
    + intros p _ _. by destruct (Hv p) as (_ & -> & -> & _).
Qed.

Lemma quiet_weak s s' : quiet s s' -> ipc_weak s s'.
Proof.
  intros [Hp Hs Hh Ht Hpr Hc Hw Hg Hch Hdl Hl]. split; auto. intros p. left.
  specialize (Hs p). unfold sched_view in Hs. unfold receiving, flags. congruence.
Qed.

(** Pending notifications are kept when the map has not grown. *)
Lemma pend_weak s s' :
  ipc_weak s s' ->
  (forall i c, priv_slot i -> chunk_ok (s_notify_pending (k_priv s i) c) ->
     chunk_ok (s_notify_pending (k_priv s' i) c)) ->
  (forall i j, priv_slot i -> priv_slot j ->
     get_sys_bit (s_notify_pending (k_priv s' i)) j = true ->
     get_sys_bit (s_notify_pending (k_priv s i)) j = true \/ slot (s_proc_nr (k_priv s j))) ->
  pend_ok s -> pend_ok s'.
Proof.
  intros Hw Hc Hp H i Hi. destruct (H i Hi) as [H1 H2]. split; [auto|].
  intros (p & Hs & Hf & Ho) j Hj Hb. rewrite (weak_free s s' Hw) in Hf. rewrite (weak_priv s s' Hw) in Ho.
  assert (owned s i) by by exists p. rewrite (weak_proc_nr s s' Hw).
  destruct (Hp i j Hi Hj Hb); [by apply H2|done].
Qed.

(** Chunks stay 16 bits wide. *)
Lemma chunk_ok_bits x : chunk_ok x <-> 0 <= x /\ forall n, 16 <= n -> Z.testbit x n = false.
Proof.
  unfold chunk_ok. change (2 ^ BITCHUNK_BITS) with (2 ^ 16). split.
  - intros [H0 H1]. split; [done|]. intros n Hn.
    destruct (Z.eq_dec x 0) as [->|Hne]; [apply Z.testbit_0_l|].
    apply Z.bits_above_log2; [done|]. apply Z.log2_lt_pow2 in H1; lia.
  - intros [H0 Hb]. split; [done|]. destruct (Z.eq_dec x 0) as [->|Hne]; [done|].
    apply Z.log2_lt_pow2; [lia|]. destruct (Z.lt_ge_cases (Z.log2 x) 16) as [|Hge]; [done|].
    specialize (Hb _ Hge). rewrite Z.bit_log2 in Hb by lia. done.
Qed.

Lemma chunk_ok_set map j c : (forall c, chunk_ok (map c)) -> chunk_ok (set_sys_bit map j c).
Proof.
  intros H. unfold set_sys_bit. rewrite fn_insert_case. case_decide; [|done].
  specialize (H (j / BITCHUNK_BITS)). pose proof (chunk_mod_range j).
  apply chunk_ok_bits in H as [Hpos Hb]. apply chunk_ok_bits. split.
  - unfold Z.setbit. apply Z.lor_nonneg. split; [done|]. apply Z.shiftl_nonneg. done.
  - intros n Hn. rewrite Z.setbit_eqb, Hb by lia. rewrite orb_false_r. apply Z.eqb_neq. lia.
Qed.

Lemma chunk_ok_unset map j c : (forall c, chunk_ok (map c)) -> chunk_ok (unset_sys_bit map j c).
Proof.
  intros H. unfold unset_sys_bit. rewrite fn_insert_case. case_decide; [|done].
  specialize (H (j / BITCHUNK_BITS)).
  apply chunk_ok_bits in H as [Hpos Hb]. apply chunk_ok_bits. split.
  - unfold Z.clearbit. apply Z.ldiff_nonneg. by left.
  - intros n Hn. by rewrite Z.clearbit_eqb, Hb.
Qed.

(** A step of a component: it keeps the invariant and is weak. *)
Definition good (s s' : kstate) : Prop := ipc_inv s' /\ ipc_weak s s'.

Lemma good_refl s : ipc_inv s -> good s s.
Proof. intros H. split; [done|reflexivity]. Qed.

Lemma good_trans s1 s2 s3 : good s1 s2 -> good s2 s3 -> good s1 s3.
Proof. intros [H1 W1] [H2 W2]. split; [done|by etrans]. Qed.

Lemma quiet_good s s' :
  ipc_inv s -> quiet s s' ->
  (forall i, s_notify_pending (k_priv s' i) = s_notify_pending (k_priv s i)) -> good s s'.
Proof.
  intros (Hs & Hc & Hp) Hq Hn. pose proof (quiet_weak s s' Hq) as Hw.
  split; [|done]. split; [by eapply quiet_sched|]. split; [by eapply weak_core|].
  eapply pend_weak; [done| | |done]; intros i j _; rewrite Hn; auto.
Qed.

Lemma quiet_upd_proc p f s :
  keeps f ->
  quiet s (upd_proc p f s).
Proof.
  intros Hf. split; try done; intros p'; simpl; rewrite fn_insert_case; case_decide; subst;
    try done; apply Hf.
Qed.

Lemma good_upd_proc p f s :
  ipc_inv s -> keeps f ->
  good s (upd_proc p f s).
Proof. intros Hi Hf. apply quiet_good; [done|by apply quiet_upd_proc|done]. Qed.

Lemma wpx_wr_good E p f (Q : unit -> kstate -> Prop) s :
  ipc_inv s -> slot p ->
  keeps f ->
  (forall s', good s s' -> Q tt s') -> wpx E (wr p f) Q s.
Proof. intros Hi Hp Hf HQ. apply wpx_wr; [done|]. by apply HQ, good_upd_proc. Qed.

(** A change of a privilege structure that keeps its identity and pending map. *)
Lemma good_upd_priv i f s :
  ipc_inv s -> (forall x, priv_view (f x) = priv_view x /\
                          s_notify_pending (f x) = s_notify_pending x) ->
  good s (upd_priv i f s).
Proof.
  intros Hi Hf. apply quiet_good; [done| |].
  - split; try done. intros j. simpl. rewrite fn_insert_case. case_decide; subst; [apply Hf|done].
  - intros j. simpl. rewrite fn_insert_case. case_decide; subst; [apply Hf|done].
Qed.

Lemma wpx_wrp_good E i f (Q : unit -> kstate -> Prop) s :
  ipc_inv s -> priv_slot i ->
  (forall x, priv_view (f x) = priv_view x /\ s_notify_pending (f x) = s_notify_pending x) ->
  (forall s', good s s' -> Q tt s') -> wpx E (wrp i f) Q s.
Proof. intros Hi Hp Hf HQ. apply wpx_wrp; [done|]. by apply HQ, good_upd_priv. Qed.

(** ** Changes of flags *)

Lemma bit_preempted x n : 0 <= n -> n <> 14 ->
  Z.testbit (flag_set x RTS_PREEMPTED) n = Z.testbit x n.
Proof.
  intros Hn Hne. change RTS_PREEMPTED with (2 ^ 14). rewrite flag_set_bit by lia.
  rewrite (proj2 (Z.eqb_neq 14 n)) by lia. by rewrite orb_false_r.
Qed.

Lemma not_free_bit x n : 0 < n -> Z.testbit x n = true -> (x =? RTS_SLOT_FREE) = false.
Proof.
  intros Hn Hb. apply Z.eqb_neq. intros ->. change RTS_SLOT_FREE with (2 ^ 0) in Hb.
  rewrite Z.pow2_bits_eqb in Hb by lia. apply Z.eqb_eq in Hb. lia.
Qed.

Lemma preempted_not_free x : (flag_set x RTS_PREEMPTED =? RTS_SLOT_FREE) = false.
Proof.
  apply (not_free_bit _ 14); [done|]. change RTS_PREEMPTED with (2 ^ 14).
  rewrite flag_set_bit by lia. by rewrite orb_true_r.
Qed.

(** What the new flags of [rp] must satisfy for the step to be weak. *)
Record flags_ok (s : kstate) (rp v : Z) : Prop := mk_flags_ok {
  fo_free : (v =? RTS_SLOT_FREE) = is_free s rp;
  fo_0 : Z.testbit v 0 = Z.testbit (flags s rp) 0;
  fo_2 : Z.testbit v 2 = sending s rp;
  fo_8 : Z.testbit v 8 = no_endpoint s rp;
  fo_3 : Z.testbit v 3 = receiving s rp \/ (sending s rp = false /\ Z.testbit v 3 = false) }.

(** Another process keeps its flags, [RTS_PREEMPTED] aside. *)
Lemma rts_step_bits rp v s s' p :
  ipc_wf s -> rts_step rp v s s' -> p <> rp ->
  is_free s' p = is_free s p /\
  forall n, 0 <= n -> n <> 14 -> Z.testbit (flags s' p) n = Z.testbit (flags s p) n.
Proof.
  intros Hwf [_ _ _ Ho] Hp. unfold is_free.
  destruct (Ho p Hp) as [->|[Hcur ->]]; [done|]. split; [|by apply bit_preempted].
  destruct (iw_cur s Hwf p Hcur) as [_ Hf]. unfold is_free in Hf. by rewrite Hf, preempted_not_free.
Qed.

Lemma rts_step_weak rp v s s' :
  ipc_wf s -> rts_step rp v s s' -> flags_ok s rp v -> ipc_weak s s'.
Proof.
  intros Hwf Hrts [V0 V1 V2 V8 V3]. pose proof Hrts as [F Hv _ _]. pose proof F as [Hc _].
  assert (Hfl : forall p, p <> rp -> is_free s' p = is_free s p /\
    forall n, 0 <= n -> n <> 14 -> Z.testbit (flags s' p) n = Z.testbit (flags s p) n).
  { intros p Hp. by eapply rts_step_bits. }
  split.
  - intros p. unfold ipc_view.
    rewrite (frame_field p_nr s s'), (frame_field p_priv s s'), (frame_field p_endpoint s s'),
      (frame_field p_caller_q s s'), (frame_field p_q_link s s'), (frame_field p_getfrom_e s s'),
      (frame_field p_sendto_e s s') by done.
    fold (flags s' p) (flags s p) (is_free s' p) (is_free s p).
    destruct (decide (p = rp)) as [->|Hp].
    + unfold is_free at 1. rewrite Hv, V0, V1, V2, V8. done.
    + destruct (Hfl p Hp) as [-> Hb]. by rewrite !Hb.
  - intros p. unfold receiving at 1. destruct (decide (p = rp)) as [->|Hp].
    + rewrite Hv. unfold receiving at 2. by rewrite Hv.
    + left. destruct (Hfl p Hp) as [_ Hb]. by rewrite Hb.
  - intros i. by rewrite (core_priv s s' Hc).
  - by apply core_proc_ptr.
  - by apply (core_field who_p).
  - by apply (core_field glob_view).
  - apply (rts_char _ _ _ _ Hrts).
  - intros p. apply no_new_sig_eq. by rewrite (frame_field p_misc_flags s s').
  - by apply core_lock.
Qed.

Lemma rts_step_good rp v s s' :
  ipc_inv s -> sched_inv s' -> rts_step rp v s s' -> flags_ok s rp v -> good s s'.
Proof.
  intros (Hs & Hc & Hp) Hs' Hr Hf. pose proof (rts_step_weak rp v s s' (ic_wf s Hc) Hr Hf) as Hw.
  split; [|done]. split; [done|]. split; [by eapply weak_core|].
  destruct Hr as [[Hcore _] _ _ _].
  eapply pend_weak; [done| | |done]; intros i j _; rewrite (core_priv s s' Hcore); auto.
Qed.

Lemma flags_ok_set s rp f n :
  is_free s rp = false -> 0 < n -> Z.testbit f n = true ->
  Z.testbit f 0 = false -> Z.testbit f 2 = false -> Z.testbit f 3 = false ->
  Z.testbit f 8 = false -> flags_ok s rp (flag_set (flags s rp) f).
Proof.
  intros Hf Hn Hb B0 B2 B3 B8. unfold flag_set.
  split; unfold sending, no_endpoint, receiving; rewrite ?Z.lor_spec, ?B0, ?B2, ?B3, ?B8, ?orb_false_r;
    auto. rewrite Hf. apply (not_free_bit _ n Hn). by rewrite Z.lor_spec, Hb, orb_true_r.
Qed.

Lemma flags_ok_clear s rp f :
  ipc_wf s -> slot rp -> is_free s rp = false ->
  Z.testbit f 0 = false -> Z.testbit f 2 = false -> Z.testbit f 8 = false ->
  (Z.testbit f 3 = false \/ sending s rp = false) -> flags_ok s rp (flag_clear (flags s rp) f).
Proof.
  intros Hwf Hrp Hf B0 B2 B8 B3. unfold flag_clear.
  pose proof (iw_free s Hwf rp Hrp) as H0. rewrite Hf in H0.
  split; rewrite ?Z.ldiff_spec, ?B0, ?B2, ?B8, ?andb_true_r; try done.
  - rewrite Hf. apply Z.eqb_neq. intros Hx. apply (f_equal (fun v => Z.testbit v 0)) in Hx.
    rewrite Z.ldiff_spec, H0 in Hx. discriminate.
  - unfold receiving. destruct B3 as [->|Hs]; [left; apply andb_true_r|].
    destruct (Z.testbit (flags s rp) 3) eqn:E3, (Z.testbit f 3) eqn:Ef3; simpl; auto.
Qed.

Lemma unset_ok_live s rp f : ipc_wf s -> slot rp -> is_free s rp = false -> unset_ok s rp f.
Proof.
  intros Hwf Hrp Hf Hn. destruct (iw_priv s Hwf rp Hrp Hf) as (i & Hi & _). congruence.
Qed.

Section rules.
Context (E : Prop).

Lemma RTS_LOCK_SET_good s rp f n :
  ipc_inv s -> slot rp -> is_free s rp = false -> 0 < n -> Z.testbit f n = true ->
  Z.testbit f 0 = false -> Z.testbit f 2 = false -> Z.testbit f 3 = false ->
  Z.testbit f 8 = false ->
  wpx E (RTS_LOCK_SET rp f)
    (fun _ s' => good s s' /\ flags s' rp = flag_set (flags s rp) f) s.
Proof.
  intros Hi Hrp Hf Hn Hb B0 B2 B3 B8. pose proof Hi as (Hs & _).
  eapply wpx_conseq; [apply RTS_LOCK_SET_inv; [done..|]|].
  - intros ->. by rewrite Z.testbit_0_l in Hb.
  - intros u s' [Hs' Hr]. split; [|apply Hr]. eapply rts_step_good; [done..|].
    by apply (flags_ok_set _ _ _ n).
Qed.

Lemma RTS_UNSET_good s rp f :
  ipc_inv s -> slot rp -> is_free s rp = false ->
  Z.testbit f 0 = false -> Z.testbit f 2 = false -> Z.testbit f 8 = false ->
  (Z.testbit f 3 = false \/ sending s rp = false) ->
  wpx E (RTS_UNSET rp f)
    (fun _ s' => good s s' /\ flags s' rp = flag_clear (flags s rp) f) s.
Proof.
  intros Hi Hrp Hf B0 B2 B8 B3. pose proof Hi as (Hs & [Hwf _ _ _] & _).
  eapply wpx_conseq; [apply RTS_UNSET_inv; [done..|by apply unset_ok_live]|].
  intros u s' [Hs' Hr]. split; [|apply Hr]. eapply rts_step_good; [done..|].
  by apply flags_ok_clear.
Qed.

Lemma RTS_LOCK_UNSET_good s rp f :
  ipc_inv s -> slot rp -> is_free s rp = false ->
  Z.testbit f 0 = false -> Z.testbit f 2 = false -> Z.testbit f 8 = false ->
  (Z.testbit f 3 = false \/ sending s rp = false) ->
  wpx E (RTS_LOCK_UNSET rp f)
    (fun _ s' => good s s' /\ flags s' rp = flag_clear (flags s rp) f) s.
Proof.
  intros Hi Hrp Hf B0 B2 B8 B3. pose proof Hi as (Hs & [Hwf _ _ _] & _).
  eapply wpx_conseq; [apply RTS_LOCK_UNSET_inv; [done..|by apply unset_ok_live]|].
  intros u s' [Hs' Hr]. split; [|apply Hr]. eapply rts_step_good; [done..|].
  by apply flags_ok_clear.
Qed.

(** ** Interrupts *)

Lemma set_lock_core a b s : ipc_core s -> ipc_core (set_lock a b s).
Proof.
  intros [[I1 I2 I3 I4 I5 I6 I7 I8 I9] [P1 P2] A [C [C1 C2 C3]]].
  split; [by split|by split|exact A|]. exists C. by split.
Qed.

Lemma set_lock_ipc a b s : lock_ok (set_lock a b s) -> ipc_inv s -> ipc_inv (set_lock a b s).
Proof.
  intros Hl (Hs & Hc & Hp). split; [by apply set_lock_inv|].
  split; [by apply set_lock_core|exact Hp].
Qed.

Lemma ipc_lock_ok s : ipc_inv s -> lock_ok s.
Proof. intros ([[_ _ _ H] _] & _). exact H. Qed.

Lemma good_unlock s s1 s2 :
  ipc_inv s -> s1 = s \/ s1 = set_lock true 1 s -> good s1 s2 ->
  good s (set_lock (intr_off s) (locklevel s) s2).
Proof.
  intros Hi Hs1 [H2 [P R V C WH GL CH D L]]. split.
  - apply set_lock_ipc; [|done]. apply (ipc_lock_ok _ Hi).
  - destruct Hs1 as [->| ->]; (split; [exact P|exact R|exact V|exact C|exact WH|exact GL|exact CH|exact D|done]).
Qed.

Lemma good_intr_off {A} (m : K A) (Q : A -> kstate -> Prop) s :
  ipc_inv s -> (forall r a b s', Q r s' -> Q r (set_lock a b s')) ->
  (forall s1, s1 = s \/ s1 = set_lock true 1 s -> ipc_inv s1 ->
     wpx E m (fun r s2 => good s1 s2 /\ Q r s2) s1) ->
  wpx E (with_intr_off m) (fun r s2 => good s s2 /\ Q r s2) s.
Proof.
  intros Hi HQ Hm. apply wpx_with_intr_off; [by apply ipc_lock_ok|]. intros s1 Hs1 _ Hl1.
  assert (Hi1 : ipc_inv s1) by (destruct Hs1 as [->| ->]; [done|by apply set_lock_ipc]).
  eapply wpx_conseq; [by apply Hm|]. intros r s2 [G2 Q2].
  split; [apply G2|]. split; [by eapply good_unlock|by apply HQ].
Qed.

(** ** [QueueMess], [mini_notify] *)

Lemma QueueMess_good s ep src dst :
  ipc_inv s -> slot dst ->
  wpx E (QueueMess ep src dst) (fun r s' => good s s' /\
    ((r = OK \/ r = EFAULT) /\ (forall m, src = MKern m -> r = OK) /\
     flags s' dst = flags s dst)) s.
Proof.
  intros Hi Hd.
  apply (good_intr_off _ (fun r s' => (r = OK \/ r = EFAULT) /\ (forall m, src = MKern m -> r = OK) /\
     flags s' dst = flags s dst) s Hi); [done|].
  intros s1 Hs1 Hi1. apply wpx_bind, wpx_gets. set (c := match src with MLin _ => _ | _ => _ end).
  assert (Hfl : flags s dst = flags s1 dst) by by destruct Hs1 as [->| ->].
  assert (HU : forall s' f, (forall x, p_rts_flags (f x) = p_rts_flags x) ->
            flags (upd_proc dst f s') dst = flags s' dst).
  { intros s' f Hf. unfold flags. rewrite upd_proc_eq. apply Hf. }
  apply wpx_bind. apply wpx_wr; [done|]. set (s2 := upd_proc dst _ s1).
  assert (G2 : good s1 s2) by by apply good_upd_proc.
  assert (F2 : flags s2 dst = flags s1 dst) by by apply HU.
  destruct (snd c) eqn:Ec; simpl.
  - apply wpx_bind, wpx_wr; [done|]. set (s3 := upd_proc dst _ s2).
    assert (G3 : good s2 s3) by (apply good_upd_proc; [apply G2|done]).
    assert (F3 : flags s3 dst = flags s2 dst) by by apply HU.
    apply wpx_bind, wpx_wr; [done|]. set (s4 := upd_proc dst _ s3).
    assert (G4 : good s3 s4) by (apply good_upd_proc; [apply G3|by apply keeps_misc_set]).
    assert (F4 : flags s4 dst = flags s3 dst) by by apply HU.
    apply wpx_ret. split; [by eapply good_trans; [eapply good_trans|]|].
    split_all; [by left|done|congruence].
  - apply wpx_ret. split; [done|]. split_all; [by right| |congruence].
    intros m ->. subst c. done.
Qed.

Lemma wpx_isokendpt e (Q : option Z -> kstate -> Prop) s :
  (forall d, slot d -> is_free s d = false -> endpt s d = e -> d = _ENDPOINT_P e -> Q (Some d) s) ->
  Q None s -> wpx E (isokendpt e) Q s.
Proof.
  intros H1 H2. eapply wpx_done; [apply isokendpt_done|]. case_decide; [|done].
  destr_and. by apply H1.
Qed.

Lemma wpx_priv_live rp (Q : Z -> kstate -> Prop) s :
  ipc_inv s -> slot rp -> is_free s rp = false ->
  (forall i, p_priv (k_proc s rp) = Some i -> priv_slot i -> slot (s_proc_nr (k_priv s i)) ->
     s_id (k_priv s i) = i -> Q i s) ->
  wpx E (priv_of rp) Q s.
Proof.
  intros (_ & [Hwf _ _ _] & _) Hrp Hf HQ. destruct (iw_priv s Hwf rp Hrp Hf) as (i & Hi & Hs & Hn).
  eapply wpx_priv_of; [done..|]. apply HQ; try done. by apply Hwf.
Qed.

Lemma wpx_wr_keep p f (Q : unit -> kstate -> Prop) s :
  ipc_inv s -> slot p ->
  keeps f ->
  (forall s', good s s' -> Q tt s') -> wpx E (wr p f) Q s.
Proof. intros Hi Hp Hf HQ. apply wpx_wr; [done|]. by apply HQ, good_upd_proc. Qed.

Lemma wpx_wrp_keep i f (Q : unit -> kstate -> Prop) s :
  ipc_inv s -> priv_slot i ->
  (forall x, priv_view (f x) = priv_view x /\ s_notify_pending (f x) = s_notify_pending x) ->
  (forall s', good s s' -> (forall p, k_proc s' p = k_proc s p) -> Q tt s') ->
  wpx E (wrp i f) Q s.
Proof. intros Hi Hp Hf HQ. apply wpx_wrp; [done|]. by apply HQ; [apply good_upd_priv|]. Qed.

Lemma BuildNotifyMessage_good s src dst :
  ipc_inv s -> slot dst -> is_free s dst = false ->
  wpx E (BuildNotifyMessage src dst)
    (fun _ s' => good s s' /\ forall p, k_proc s' p = k_proc s p) s.
Proof.
  intros Hi Hd Hf. unfold BuildNotifyMessage. apply wpx_bind, wpx_gets.
  destruct (src =? HARDWARE); [|destruct (src =? SYSTEM)].
  1,2: apply wpx_bind, wpx_priv_live; [done..|]; intros i _ Hs _ _;
    apply wpx_bind, wpx_rdp; [done|]; apply wpx_bind, wpx_wrp_keep; [done..|];
    intros s' G HP; by apply wpx_ret.
  apply wpx_ret. split; [by apply good_refl|done].
Qed.

Lemma will_receive_bits p e :
  will_receive p e = true ->
  Z.testbit (p_rts_flags p) 3 = true /\ Z.testbit (p_rts_flags p) 2 = false.
Proof.
  unfold will_receive. change RTS_RECEIVING with (2 ^ 3). change RTS_SENDING with (2 ^ 2).
  rewrite !flag_isset_bit by done. intros H.
  apply andb_true_iff in H as [H _]. apply andb_true_iff in H as [H1 H2].
  by apply negb_true_iff in H2.
Qed.

(** A change of the map of pending notifications. *)
Lemma pend_map_good s i (g : bitmap -> bitmap) :
  ipc_inv s -> priv_slot i ->
  (forall map, (forall c, chunk_ok (map c)) -> forall c, chunk_ok (g map c)) ->
  (forall map b, get_sys_bit (g map) b = true ->
     get_sys_bit map b = true \/ slot (s_proc_nr (k_priv s b))) ->
  good s (upd_priv i (fun sp => set_s_notify_pending (g (s_notify_pending sp)) sp) s).
Proof.
  intros (Hs & Hc & Hp) Hi Hg1 Hg2.
  match goal with |- good s ?x => set (s' := x) end.
  assert (Hq : quiet s s').
  { split; try done. intros k. subst s'. simpl. rewrite fn_insert_case. by case_decide; subst. }
  pose proof (quiet_weak s s' Hq) as Hw. split; [|done].
  split; [by eapply quiet_sched|]. split; [by eapply weak_core|].
  eapply pend_weak; [done| | |done].
  - intros a c Ha Hch. subst s'. simpl. rewrite fn_insert_case. case_decide; [subst a|done].
    simpl. apply Hg1. by apply (Hp i).
  - intros a b Ha Hb. subst s'. simpl. rewrite fn_insert_case. case_decide; [subst a|auto]. simpl.
    apply Hg2.
Qed.

(** Marking a notification pending. *)
Lemma pend_set_good s i j :
  ipc_inv s -> priv_slot i -> slot (s_proc_nr (k_priv s j)) ->
  good s (upd_priv i (fun sp => set_s_notify_pending (set_sys_bit (s_notify_pending sp) j) sp) s).
Proof.
  intros Hv Hi Hj. apply (pend_map_good s i (fun map => set_sys_bit map j)); [done..| |].
  - intros map Hm c. by apply chunk_ok_set.
  - intros map b. rewrite get_set_sys_bit. destruct (Z.eqb_spec j b) as [<-|]; [by right|by left].
Qed.

(** Taking a pending notification. *)
Lemma pend_unset_good s i j :
  ipc_inv s -> priv_slot i ->
  good s (upd_priv i (fun sp => set_s_notify_pending (unset_sys_bit (s_notify_pending sp) j) sp) s).
Proof.
  intros Hv Hi. apply (pend_map_good s i (fun map => unset_sys_bit map j)); [done..| |].
  - intros map Hm c. by apply chunk_ok_unset.
  - intros map b. rewrite get_unset_sys_bit. intros H. apply andb_true_iff in H as [H _]. by left.
Qed.

Lemma mini_notify_good s caller dst_e :
  ipc_inv s -> slot caller -> is_free s caller = false ->
  wpx E (mini_notify caller dst_e) (fun _ s' => good s s') s.
Proof.
  intros Hi Hc Hfc. unfold mini_notify. apply wpx_bind, wpx_isokendpt.
  2:{ apply wpx_ret. by apply good_refl. }
  intros dst Hd Hfd _ _. apply wpx_bind, wpx_rd; [done|]. apply wpx_bind, wpx_rd; [done|].
  apply wpx_bind, wpx_rd; [done|].
  destruct (will_receive _ _) eqn:Ew; simpl; [destruct (negb _); simpl|].
  - apply will_receive_bits in Ew as [Er Es]. apply wpx_bind, wpx_rd; [done|]. apply wpx_bind.
    eapply wpx_conseq; [by apply BuildNotifyMessage_good|]. intros m s1 [G1 P1].
    apply wpx_bind. eapply wpx_conseq; [apply QueueMess_good; [apply G1|done]|].
    intros r s2 (G2 & _ & Hr & F2). rewrite (Hr m eq_refl). simpl. apply wpx_bind.
    pose proof (good_trans _ _ _ G1 G2) as G.
    eapply wpx_conseq; [apply RTS_UNSET_good; [apply G2|done| |done..|]|].
    + by rewrite (weak_free s s2) by apply G.
    + right. rewrite (weak_sending s s2) by apply G. exact Es.
    + intros u s3 [G3 _]. apply wpx_ret. by eapply good_trans.
  - apply wpx_bind, wpx_priv_live; [done..|]. intros i Hpi Hi' Hn Hid.
    apply wpx_bind, wpx_rdp; [done|]. apply wpx_bind, wpx_priv_live; [done..|].
    intros j Hpj Hj _ _. apply wpx_bind, wpx_wrp; [done|]. apply wpx_ret.
    apply pend_set_good; [done..|]. by rewrite Hid.
  - apply wpx_bind, wpx_priv_live; [done..|]. intros i Hpi Hi' Hn Hid.
    apply wpx_bind, wpx_rdp; [done|]. apply wpx_bind, wpx_priv_live; [done..|].
    intros j Hpj Hj _ _. apply wpx_bind, wpx_wrp; [done|]. apply wpx_ret.
    apply pend_set_good; [done..|]. by rewrite Hid.
Qed.

(** ** [lock] .. [unlock] around a step *)

Lemma good_locked {A} (m : K A) (Q : A -> kstate -> Prop) s :
  ipc_inv s -> intr_off s = false -> (forall r a b s', Q r s' -> Q r (set_lock a b s')) ->
  (forall s1, s1 = set_lock true 1 s -> ipc_inv s1 ->
     wpx E m (fun r s2 => good s1 s2 /\ Q r s2) s1) ->
  wpx E (do! lock; do r <- m; do! unlock; ret r) (fun r s2 => good s s2 /\ Q r s2) s.
Proof.
  intros Hi Hoff Hlk Hm. pose proof (ipc_lock_ok s Hi) as [_ Hl]. specialize (Hl Hoff). unfold lock.
  apply wpx_bind, wpx_bind, wpx_gets, wpx_bind, wpx_modify, wpx_bind, wpx_gets.
  rewrite Hoff, Hl. simpl. apply wpx_ret. set (s1 := set_lock true (0 + 1) s).
  assert (Hi1 : ipc_inv s1) by by apply set_lock_ipc.
  apply wpx_bind. eapply wpx_conseq; [by apply (Hm s1)|]. intros r s2 [G2 HQ].
  destruct (is_lock _ _ (proj2 G2)) as [El1 El2]. unfold unlock.
  apply wpx_bind, wpx_bind, wpx_gets. rewrite El1. simpl. apply wpx_bind, wpx_gets.
  rewrite El2. simpl. apply wpx_bind, wpx_modify, wpx_modify, wpx_ret. split; [|by apply (Hlk r false 0 s2)].
  pose proof (good_unlock s s1 s2 Hi ltac:(by right) G2) as G. by rewrite Hoff, Hl in G.
Qed.

Lemma lock_notify_good s src_e dst_e :
  ipc_inv s -> intr_off s = false ->
  wpx E (lock_notify src_e dst_e) (fun _ s' => good s s') s.
Proof.
  intros Hi Hoff. unfold lock_notify. apply wpx_bind, wpx_isokendpt.
  2:{ apply wpx_ret. by apply good_refl. }
  intros src Hs Hf _ _. eapply wpx_conseq.
  - apply (good_locked _ (fun _ _ => True)); [done..|]. intros s1 -> Hi1.
    eapply wpx_conseq; [by apply mini_notify_good|]. done.
  - by intros r s' [G _].
Qed.

Lemma quiet_modify (f : kstate -> kstate) (Q : unit -> kstate -> Prop) s :
  ipc_inv s -> quiet s (f s) -> k_priv (f s) = k_priv s ->
  (forall s', good s s' -> s' = f s -> Q tt s') -> wpx E (modify f) Q s.
Proof. intros Hi Hq Hp HQ. apply wpx_modify, HQ; [|done]. apply quiet_good; try done. by rewrite Hp. Qed.

(** ** Signals *)

Lemma send_sig_good s n sig :
  ipc_inv s -> slot n -> is_free s n = false ->
  wpx E (send_sig n sig) (fun _ s' => good s s') s.
Proof.
  intros Hi Hn Hf. unfold send_sig, isokprocn. rewrite bool_decide_true by done. simpl.
  apply wpx_bind, wpx_isemptyp; [done|]. fold (flags s n) (is_free s n). rewrite Hf.
  apply wpx_bind, wpx_priv_live; [done..|]. intros i _ Hs _ _.
  apply wpx_bind, wpx_wrp_keep; [done..|]. intros s1 G1 _.
  apply wpx_bind, wpx_rd; [done|]. apply wpx_bind, wpx_gets. apply wpx_bind.
  eapply wpx_conseq.
  - instantiate (1 := fun _ s' => good s1 s'). destruct (intr_off s1) eqn:Ei; simpl.
    + apply mini_notify_good; [apply G1|done|]. destruct G1 as [(_ & [Hwf _ _ _] & _) _]. by apply iw_system.
    + apply lock_notify_good; [apply G1|done].
  - intros r s2 G2. apply wpx_ret. by eapply good_trans.
Qed.

Lemma cause_sig_good s n sig :
  ipc_inv s -> slot n -> is_free s n = false ->
  (n = PM_PROC_NR -> E) -> (is_free s PM_PROC_NR = true -> E) ->
  wpx E (cause_sig n sig) (fun _ s' => good s s') s.
Proof.
  intros Hi Hn Hf He1 He2. unfold cause_sig.
  destruct (Z.eqb_spec n PM_PROC_NR) as [->|Hne]; [by apply wpx_panic, He1|].
  apply wpx_bind, wpx_rd; [done|]. destruct (sigismember _ _); [apply wpx_ret; by apply good_refl|].
  apply wpx_bind, wpx_wr_keep; [done..|]. intros s1 G1.
  apply wpx_bind, wpx_RTS_ISSET; [done|]. destruct (flag_isset _ _); [by apply wpx_ret|].
  apply wpx_bind. eapply wpx_conseq.
  - apply (RTS_LOCK_SET_good s1 n _ 4); try done; [apply G1|].
    by rewrite (weak_free s s1) by apply G1.
  - intros u s2 [G2 _]. pose proof (good_trans _ _ _ G1 G2) as G.
    destruct (is_free s PM_PROC_NR) eqn:Epm.
    + unfold send_sig. simpl. apply wpx_bind, wpx_isemptyp; [done|].
      fold (flags s2 PM_PROC_NR) (is_free s2 PM_PROC_NR).
      rewrite (weak_free s s2) by apply G. rewrite Epm. by apply wpx_panic, He2.
    + eapply wpx_conseq; [apply send_sig_good; [apply G|done|]|].
      * by rewrite (weak_free s s2) by apply G.
      * intros u' s3 G3. by eapply good_trans.
Qed.

Lemma sig_delay_done_good s n :
  ipc_inv s -> slot n -> is_free s n = false ->
  (n = PM_PROC_NR -> E) -> (is_free s PM_PROC_NR = true -> E) ->
  wpx E (sig_delay_done n) (fun _ s' => good s s') s.
Proof.
  intros Hi Hn Hf He1 He2. unfold sig_delay_done.
  apply wpx_bind, wpx_wr_keep; [done|done|apply keeps_misc_clear|]. intros s1 G1. apply wpx_bind, wpx_rd; [done|].
  assert (Hnr : p_nr (k_proc s1 n) = n) by (destruct G1 as [(_ & [Hwf _ _ _] & _) _]; by apply Hwf).
  rewrite Hnr. eapply wpx_conseq; [apply cause_sig_good; [apply G1|done| |done|]|].
  - by rewrite (weak_free s s1) by apply G1.
  - rewrite (weak_free s s1) by apply G1. done.
  - intros u s2 G2. by eapply good_trans.
Qed.

End rules.

(** ** What a turn of a kernel task leaves alone

    The frame of the work SYSTEM and CLOCK do on behalf of others, coarse enough for all
    of it and fine enough to keep the invariant of the kernel. *)

(** Processes are neither made nor taken away, nobody starts to receive, the kernel gets
    no new reason to signal PM and starts to trace nobody; the interrupt system, the
    policy, the current process and the lock are as before. *)
Record turn_frame (s s' : kstate) : Prop := mk_turn_frame {
  tf_free p : is_free s' p = is_free s p;
  tf_endpt p : endpt s' p = endpt s p;
  tf_alive p : no_endpoint s' p = no_endpoint s p;
  tf_recv p : receiving s' p = true -> receiving s p = true;
  tf_sig p n : n = 9 \/ (p = PM_PROC_NR /\ (n = 1 \/ n = 2 \/ n = 7)) ->
    signals n (p_misc_flags (k_proc s' p)) = true -> signals n (p_misc_flags (k_proc s p)) = true;
  tf_glob : (sched_type s', (system_hz s', minix_panicing s'), irq_view s', bill_ptr s') =
            (sched_type s, (system_hz s, minix_panicing s), irq_view s, bill_ptr s);
  tf_cur : proc_ptr s' = proc_ptr s;
  tf_lock : lock_same s s' }.

#[export] Instance turn_frame_po : PreOrder turn_frame.
Proof.
  split; [intros s; split; auto; apply lock_same_refl|].
  intros x y z [A1 A2 A3 A4 A5 A6 A7 [A8 A9]] [B1 B2 B3 B4 B5 B6 B7 [B8 B9]]. split.
  - intros p. by rewrite B1.
  - intros p. by rewrite B2.
  - intros p. by rewrite B3.
  - intros p H. by apply A4, B4.
  - intros p n Hn H. by apply A5, B5.
  - by rewrite B6.
  - by rewrite B7.
  - split; congruence.
Qed.

Lemma weak_turn s s' : ipc_weak s s' -> turn_frame s s'.
Proof.
  intros W. pose proof (is_glob _ _ W) as Eg. unfold glob_view in Eg. split.
  - apply weak_free, W.
  - apply weak_endpt, W.
  - apply weak_no_endpoint, W.
  - apply weak_receiving, W.
  - intros p n Hn. apply (is_delay _ _ W). tauto.
  - congruence.
  - apply (is_cur _ _ W).
  - apply (is_lock _ _ W).
Qed.

Lemma turn_timers st nt s : turn_frame s (set_next_timeout nt (set_clock_timers st s)).
Proof. by split. Qed.

Lemma turn_set_timers st s : turn_frame s (set_clock_timers st s).
Proof. by split. Qed.

(** ** The effect of [QueueMess]

    The message a process finds when it is resumed. *)

(** *** [QueueMess] *)

(** The bytes of a message to send; [false] when not all of it is mapped. *)
Definition src_bytes (s : kstate) (src : msg_src) : list Z * bool :=
  match src with
  | MLin lin => read_message s lin
  | MKern m => (message_bytes m, true)
  end.

(** The process with the message queued, ready to be delivered. *)
Definition queued (ep : Z) (bs : list Z) (p : proc) : proc :=
  let p' := set_p_delivermsg (overwrite bs (p_delivermsg p)) p in
  let p'' := set_p_delivermsg (set_m_source ep (p_delivermsg p')) p' in
  set_p_misc_flags (flag_set (p_misc_flags p'') MF_DELIVERMSG) p''.

(** A message is waiting for [d]: [m], whose source is [ep]. *)
Definition has_message (s : kstate) (d ep : Z) (m : message) : Prop :=
  flag_any (p_misc_flags (k_proc s d)) MF_DELIVERMSG = true /\
  p_delivermsg (k_proc s d) = set_m_source ep m.

Lemma queued_has ep bs p :
  length bs = MESSAGE_SIZE ->
  flag_any (p_misc_flags (queued ep bs p)) MF_DELIVERMSG = true /\
  p_delivermsg (queued ep bs p) = set_m_source ep (bytes_message bs).
Proof.
  intros Hl. split.
  - unfold queued. cbn [p_misc_flags set_p_misc_flags]. change MF_DELIVERMSG with (2 ^ 6).
    rewrite flag_any_bit, flag_set_bit by lia. apply orb_true_r.
  - unfold queued. simpl. by rewrite overwrite_whole.
Qed.

Lemma read_message_lock a b s lin : read_message (set_lock a b s) lin = read_message s lin.
Proof.
  unfold read_message. assert (cur_space (set_lock a b s) = cur_space s) as -> by done.
  assert (mem (set_lock a b s) = mem s) as -> by done. reflexivity.
Qed.

Lemma src_bytes_length s src :
  snd (src_bytes s src) = true -> length (fst (src_bytes s src)) = MESSAGE_SIZE.
Proof.
  destruct src as [lin|m].
  - exact (read_bytes_length MESSAGE_SIZE (mem s) (cur_space s) lin).
  - intros _. exact (message_bytes_length m).
Qed.

Section delivery.
Context (E : Prop).

Lemma QueueMess_exact s ep src dst :
  ipc_inv s -> slot dst -> snd (src_bytes s src) = true ->
  wpx E (QueueMess ep src dst) (fun r s' => r = OK /\
    forall p, k_proc s' p = if decide (p = dst) then queued ep (fst (src_bytes s src)) (k_proc s dst)
                            else k_proc s p) s.
Proof.
  intros Hi Hd Hok. unfold QueueMess. apply wpx_with_intr_off; [by apply ipc_lock_ok|].
  intros s1 Hs1 _ _. apply wpx_bind, wpx_gets.
  assert (Hb : (match src with MLin lin => read_message s1 lin | MKern m => (message_bytes m, true) end)
             = src_bytes s src).
  { destruct src as [lin|m]; [|done]. simpl. destruct Hs1 as [->| ->]; [done|].
    by apply read_message_lock. }
  assert (Hp : k_proc s1 = k_proc s) by by destruct Hs1 as [->| ->].
  rewrite Hb, Hok. simpl. apply wpx_bind, wpx_wr; [done|]. apply wpx_bind, wpx_wr; [done|].
  apply wpx_bind, wpx_wr; [done|]. apply wpx_ret. split; [done|]. split; [done|]. simpl. rewrite Hp.
  intros p. rewrite !fn_insert_case. destruct (decide (dst = p)) as [->|Hne].
  - by rewrite !decide_True by done.
  - by rewrite decide_False by auto.
Qed.

End delivery.
