(* ===== verification/CopySafe.v ===== *)
(** * Copies between processes keep the invariant of message passing *)
From S2P Require Import Prelude PList KMonad Timers Types KState Memory Sched SchedInv.
From S2P Require Import Notify Copy Ipc IpcInv IpcSafe.

Section copy.
Context (E : Prop).

(** A step after a good run from [s0]. *)
Lemma wpx_acc {A} (m : K A) (P Q : A -> kstate -> Prop) s0 s :
  good s0 s -> wpx E m (fun r s' => good s s' /\ P r s') s ->
  (forall r s', good s0 s' -> P r s' -> Q r s') -> wpx E m Q s.
Proof.
  intros G Hm HQ. eapply wpx_conseq; [exact Hm|]. intros r s' [G' HP].
  apply HQ; [by eapply good_trans|done].
Qed.

Lemma wpx_wr_acc p f (Q : unit -> kstate -> Prop) s0 s :
  good s0 s -> slot p ->
  keeps f ->
  (forall s', good s0 s' -> Q tt s') -> wpx E (wr p f) Q s.
Proof.
  intros G Hp Hf HQ. apply wpx_wr_keep; [apply G|done..|].
  intros s' G'. apply HQ. by eapply good_trans.
Qed.

Lemma intr_off_good {A} (m : K A) s :
  ipc_inv s ->
  (forall s1, s1 = s \/ s1 = set_lock true 1 s -> ipc_inv s1 ->
     wpx E m (fun _ s2 => good s1 s2) s1) ->
  wpx E (with_intr_off m) (fun _ s2 => good s s2) s.
Proof.
  intros Hi Hm. eapply wpx_conseq.
  - apply (good_intr_off E m (fun _ _ => True)); [done|done|]. intros s1 Hs1 Hi1.
    eapply wpx_conseq; [by apply Hm|]. intros r s2 G. by split.
  - by intros r s' [G _].
Qed.

Lemma vm_suspend_good s caller target lin len type :
  ipc_inv s -> slot caller -> is_free s caller = false -> slot target ->
  wpx E (vm_suspend caller target lin len type) (fun _ s' => good s s') s.
Proof.
  intros Hi Hc Hf Ht. unfold vm_suspend. apply wpx_bind.
  eapply wpx_conseq; [by apply (RTS_LOCK_SET_good E s caller _ 11)|]. intros u s0 [G0 _].
  apply wpx_bind, (wpx_wr_acc _ _ _ s); [done..|]. intros s1 G1.
  apply wpx_bind, wpx_rd; [done|].
  apply wpx_bind, (wpx_wr_acc _ _ _ s); [done..|]. intros s2 G2.
  apply wpx_bind, (wpx_wr_acc _ _ _ s); [done..|]. intros s3 G3.
  apply wpx_bind, (wpx_wr_acc _ _ _ s); [done..|]. intros s4 G4.
  apply wpx_bind, (wpx_wr_acc _ _ _ s); [done..|]. intros s5 G5.
  apply wpx_bind, (wpx_wr_acc _ _ _ s); [done..|]. intros s6 G6.
  apply wpx_bind, wpx_gets.
  apply wpx_bind, (wpx_wr_acc _ _ _ s); [done..|]. intros s7 G7.
  assert (Hlast : forall s8, good s s8 ->
    wpx E (modify (set_vmrequest (Some caller))) (fun _ s' => good s s') s8).
  { intros s8 G8. apply quiet_modify; [apply G8|by split|done|]. intros s' G' _.
    by eapply good_trans. }
  apply wpx_bind. destruct (vmrequest s6); [by apply wpx_ret, Hlast|].
  apply wpx_bind. eapply wpx_conseq; [apply mini_notify_good; [apply G7|done|]|].
  - apply iw_system. apply G7.
  - intros r s8 G8. apply wpx_ret, Hlast. by eapply good_trans.
Qed.

(** ** [virtual_copy_f] *)

(** The mapping of an end changes nothing, and gives an existing process. *)
Definition map_ok (m : K (Z + copy_end)) : Prop := forall s, ipc_inv s ->
  wpx E m (fun r s' => s' = s /\
    forall e, r = inr e -> exists p, fst e = Some p /\ slot p) s.

Lemma umap_local_wp rp seg v bytes (Q : Z -> kstate -> Prop) s :
  slot rp -> 0 <= seg <= 2 -> (forall a, Q a s) -> wpx E (umap_local rp seg v bytes) Q s.
Proof.
  intros Hrp Hseg HQ. unfold umap_local, SEG_T, SEG_D, SEG_S.
  assert (negb (seg =? 0) && negb (seg =? 1) && negb (seg =? 2) = false) as ->.
  { destruct (Z.eqb_spec seg 0), (Z.eqb_spec seg 1), (Z.eqb_spec seg 2); simpl; done || lia. }
  apply wpx_bind, wpx_rd; [done|]. by apply wpx_ret.
Qed.

Lemma vc_map_d_ok umv e a bytes : map_ok (vc_map umv (d_addr e a) bytes).
Proof.
  intros s Hi. unfold vc_map. simpl va_segment.
  change (Z.land SEG_D SEGMENT_TYPE) with 0. change (Z.land SEG_D SEGMENT_INDEX) with SEG_D.
  simpl. apply wpx_bind, wpx_isokendpt.
  - intros d Hd Hf _ _. apply wpx_bind, wpx_bind, umap_local_wp; [done..|].
    intros x. apply wpx_ret. destruct (x <=? 0); simpl; apply wpx_ret; split; try done.
    intros e' He. simplify_eq. by exists d.
  - apply wpx_bind, wpx_ret, wpx_ret. done.
Qed.

Lemma kernel_end_ok : map_ok kernel_end.
Proof.
  intros s Hi. apply wpx_ret. split; [done|]. intros e He. simplify_eq. by exists SYSTEM.
Qed.

Lemma vm_answered_good s who :
  ipc_inv s -> slot who -> wpx E (vm_answered who) (fun _ s' => good s s') s.
Proof.
  intros Hi Hw. unfold vm_answered. apply wpx_bind, wpx_RTS_ISSET; [done|].
  destruct (flag_isset _ _) eqn:Ef; [|apply wpx_ret; by apply good_refl].
  change RTS_VMREQUEST with (2 ^ 11) in *. rewrite flag_isset_bit in Ef by done.
  apply wpx_bind. eapply wpx_conseq; [apply RTS_LOCK_UNSET_good; try done; [|by left]|].
  - by apply (not_free_bit _ 11).
  - intros u s1 [G1 _]. apply wpx_bind, wpx_rd; [done|]. by destruct (negb _); apply wpx_ret.
Qed.

Lemma virtual_copy_gen_good {A} (none : A) msrc mdst copy bytes vmcheck s :
  ipc_inv s -> 0 < bytes -> map_ok msrc -> map_ok mdst ->
  (forall b e1 e2 s, ipc_inv s -> wpx E (copy b e1 e2) (fun _ s' => good s s') s) ->
  (vmcheck = true -> is_free s (who_p s) = false) ->
  wpx E (virtual_copy_gen none msrc mdst copy bytes vmcheck) (fun _ s' => good s s') s.
Proof.
  intros Hi Hb Hsrc Hdst Hcopy Hchk. unfold virtual_copy_gen.
  rewrite (proj2 (Z.leb_gt bytes 0) Hb).
  match goal with |- wpx _ (bind _ (fun d => bind _ (fun _ => bind ?m _))) _ _ => set (body := m) end.
  apply (intr_off_good body); [done|]. intros s1 Hs1 Hi1.
  assert (Hchk1 : vmcheck = true -> is_free s1 (who_p s1) = false) by by destruct Hs1 as [->| ->].
  assert (Hwho : slot (who_p s1)) by apply iw_who, Hi1.
  clear s Hi Hs1 Hchk. subst body.
  apply wpx_bind. eapply wpx_conseq; [by apply Hsrc|]. intros rs s' [-> Hrs].
  destruct rs as [e|src]; [apply wpx_ret; by apply good_refl|].
  apply wpx_bind. eapply wpx_conseq; [by apply Hdst|]. intros rd' s' [-> Hrd].
  destruct rd' as [e|dst]; [apply wpx_ret; by apply good_refl|].
  apply wpx_bind, wpx_gets. destruct (vm_running s1).
  - apply wpx_bind, wpx_gets, wpx_bind. eapply wpx_conseq; [by apply vm_answered_good|].
    intros refused s2 G2. destruct refused; [by apply wpx_ret|].
    apply wpx_bind. eapply wpx_conseq; [apply Hcopy, G2|]. intros c s3 G3.
    pose proof (good_trans _ _ _ G2 G3) as G.
    assert (Hsus : forall e, (exists p, fst e = Some p /\ slot p) ->
      wpx E (if negb vmcheck then ret (EFAULT_SRC, none)
             else do target <- from_ptr (fst e);
                  do! vm_suspend (who_p s1) target (snd e) bytes VMSTYPE_KERNELCALL;
                  ret (VMSUSPEND, none)) (fun _ s' => good s1 s') s3 /\
      wpx E (if negb vmcheck then ret (EFAULT_DST, none)
             else do target <- from_ptr (fst e);
                  do! vm_suspend (who_p s1) target (snd e) bytes VMSTYPE_KERNELCALL;
                  ret (VMSUSPEND, none)) (fun _ s' => good s1 s') s3).
    { intros e (p & Hp & Hsp). rewrite Hp. destruct vmcheck; simpl; [|split; by apply wpx_ret].
      split; apply wpx_bind, wpx_ret, wpx_bind; (eapply wpx_conseq; [apply vm_suspend_good;
        [apply G|done| |done]|]).
      1,3: rewrite (weak_free s1 s3); [by apply Hchk1|apply G].
      all: intros u s4 G4; apply wpx_ret; by eapply good_trans. }
    destruct (fst c); [by apply wpx_ret| |].
    + by apply Hsus, Hrs.
    + by apply Hsus, Hrd.
  - apply wpx_bind. eapply wpx_conseq; [by apply Hcopy|]. intros c s3 G3.
    destruct (fst c); by apply wpx_ret.
Qed.

Lemma good_set_mem m s : ipc_inv s -> good s (set_mem m s).
Proof. intros Hi. apply quiet_good; [done|by split|done]. Qed.

Lemma copy_in_good bytes b e1 e2 s :
  ipc_inv s -> wpx E (copy_in bytes b e1 e2) (fun _ s' => good s s') s.
Proof.
  intros Hi. apply intr_off_good; [done|]. intros s1 _ Hi1.
  apply wpx_bind, wpx_gets, wpx_ret. by apply good_refl.
Qed.

Lemma copy_out_good bs b e1 e2 s :
  ipc_inv s -> wpx E (copy_out bs b e1 e2) (fun _ s' => good s s') s.
Proof.
  intros Hi. apply intr_off_good; [done|]. intros s1 _ Hi1.
  apply wpx_bind, wpx_gets, wpx_bind, wpx_modify, wpx_ret. by apply good_set_mem.
Qed.

Lemma lin_lin_copy_good bytes b e1 e2 s :
  ipc_inv s -> wpx E (lin_lin_copy bytes b e1 e2) (fun _ s' => good s s') s.
Proof.
  intros Hi. apply intr_off_good; [done|]. intros s1 _ Hi1.
  apply wpx_bind, wpx_gets, wpx_bind, wpx_modify, wpx_ret. by apply good_set_mem.
Qed.

Lemma data_copy_in_good s e a bytes vmcheck :
  ipc_inv s -> 0 < bytes -> (vmcheck = true -> is_free s (who_p s) = false) ->
  wpx E (data_copy_in e a bytes vmcheck) (fun _ s' => good s s') s.
Proof.
  intros Hi Hb Hc. apply virtual_copy_gen_good; try done.
  - apply vc_map_d_ok.
  - apply kernel_end_ok.
  - intros. by apply copy_in_good.
Qed.

Lemma data_copy_out_good s bs e a vmcheck :
  ipc_inv s -> bs <> [] -> (vmcheck = true -> is_free s (who_p s) = false) ->
  wpx E (data_copy_out bs e a vmcheck) (fun _ s' => good s s') s.
Proof.
  intros Hi Hb Hc. unfold data_copy_out. apply wpx_bind.
  eapply wpx_conseq; [apply virtual_copy_gen_good; try done|].
  - destruct bs; [done|]. simpl length. lia.
  - apply kernel_end_ok.
  - apply vc_map_d_ok.
  - intros. by apply copy_out_good.
  - intros r s' G. by apply wpx_ret.
Qed.

Lemma data_copy_good s e1 a1 e2 a2 bytes vmcheck :
  ipc_inv s -> 0 < bytes -> (vmcheck = true -> is_free s (who_p s) = false) ->
  wpx E (data_copy e1 a1 e2 a2 bytes vmcheck) (fun _ s' => good s s') s.
Proof.
  intros Hi Hb Hc. unfold data_copy. apply wpx_bind.
  eapply wpx_conseq; [apply virtual_copy_gen_good; try done|].
  - apply vc_map_d_ok.
  - apply vc_map_d_ok.
  - intros. by apply lin_lin_copy_good.
  - intros r s' G. by apply wpx_ret.
Qed.

End copy.
