(* ===== verification/IpcCalls.v ===== *)
(** * The calls of message passing keep the invariant

    [mini_send], [mini_receive], [mini_senda] and [sys_call]: they return, and
    the invariant [ipc_inv] still holds; in particular they never make a cycle
    of processes waiting for each other. *)
From S2P Require Import Prelude PList KMonad Timers Types KState Memory Sched SchedInv.
From S2P Require Import Notify Copy Ipc IpcInv IpcSafe CopySafe.

(** A change of fields that scheduling does not read. *)
Lemma sched_upd p f s :
  (forall x, sched_view (f x) = sched_view x /\ p_priv (f x) = p_priv x) ->
  sched_inv s -> sched_inv (upd_proc p f s).
Proof.
  intros Hf [[W1 W2 W3 W4] [Q HQ]].
  assert (Hv : forall p', p_nextready (k_proc (upd_proc p f s) p') = p_nextready (k_proc s p') /\
    flags (upd_proc p f s) p' = flags s p' /\ prio (upd_proc p f s) p' = prio s p' /\
    p_max_priority (k_proc (upd_proc p f s) p') = p_max_priority (k_proc s p') /\
    p_priv (k_proc (upd_proc p f s) p') = p_priv (k_proc s p')).
  { intros p'. unfold flags, prio. simpl. rewrite fn_insert_case. case_decide; [subst p'|done].
    destruct (Hf (k_proc s p)) as [Hs Hp]. unfold sched_view in Hs. split_all; congruence. }
  split.
  - split; [| | |done].
    + intros p' Hs. destruct (Hv p') as (_ & _ & -> & -> & _). by apply W1.
    + intros p' Hs. specialize (W2 p' Hs). unfold priv_ok in *.
      by destruct (Hv p') as (_ & -> & _ & _ & ->).
    + destruct W3 as (c & i & ? & ? & ?). exists c, i. by destruct (Hv c) as (_ & _ & _ & _ & ->).
  - exists Q. eapply (rq_inv_ext ∅ s); [done|done| | |done].
    + intros p'. by destruct (Hv p') as (-> & _).
    + intros p' _ _. by destruct (Hv p') as (_ & -> & -> & _).
Qed.

(** ** Caller queues *)

(** The fields the invariant reads, links of the caller queues aside. *)
Definition wait_view (p : proc) :=
  (p_nr p, p_priv p, p_endpoint p, (p_getfrom_e p, p_sendto_e p), (p_rts_flags p, p_misc_flags p, p_delivermsg p, p_sendmsg p)).

(** Only links of caller queues differ. *)
Record cq_step (s s' : kstate) : Prop := mk_cq_step {
  cs_wait p : wait_view (k_proc s' p) = wait_view (k_proc s p);
  cs_sched : sched_inv s -> sched_inv s';
  cs_priv : k_priv s' = k_priv s;
  cs_cur : proc_ptr s' = proc_ptr s;
  cs_who : who_p s' = who_p s;
  cs_glob : glob_view s' = glob_view s;
  cs_lock : lock_same s s' }.

#[export] Instance cq_step_po : PreOrder cq_step.
Proof.
  split; [by intros s; split|]. intros s1 s2 s3 [A1 A2 A3 A4 A5 AG A6] [B1 B2 B3 B4 B5 BG B6].
  split; [intros p; by rewrite B1, A1|auto|congruence|congruence|congruence|congruence|].
  destruct A6, B6. split; congruence.
Qed.

Lemma cq_step_upd p f s :
  (forall x, wait_view (f x) = wait_view x /\ sched_view (f x) = sched_view x) ->
  cq_step s (upd_proc p f s).
Proof.
  intros Hf. split; try done.
  - intros p'. simpl. rewrite fn_insert_case. case_decide; [subst p'; apply Hf|done].
  - apply sched_upd. intros x. split; [apply Hf|]. destruct (Hf x) as [Hw _].
    unfold wait_view in Hw. congruence.
Qed.

Ltac wait_field E :=
  let X := fresh "X" in
  pose proof E as X; unfold wait_view in X; unfold endpt, flags; congruence.

Section cq.
Context (s s' : kstate) (H : cq_step s s').
Lemma cs_flags p : flags s' p = flags s p.
Proof. wait_field (cs_wait _ _ H p). Qed.
Lemma cs_free p : is_free s' p = is_free s p.
Proof. unfold is_free. by rewrite cs_flags. Qed.
Lemma cs_sending p : sending s' p = sending s p.
Proof. unfold sending. by rewrite cs_flags. Qed.
Lemma cs_receiving p : receiving s' p = receiving s p.
Proof. unfold receiving. by rewrite cs_flags. Qed.
Lemma cs_endpt p : endpt s' p = endpt s p.
Proof. wait_field (cs_wait _ _ H p). Qed.
Lemma cs_sendto p : p_sendto_e (k_proc s' p) = p_sendto_e (k_proc s p).
Proof. wait_field (cs_wait _ _ H p). Qed.
Lemma cs_sendmsg p : p_sendmsg (k_proc s' p) = p_sendmsg (k_proc s p).
Proof. wait_field (cs_wait _ _ H p). Qed.
Lemma cs_getfrom p : p_getfrom_e (k_proc s' p) = p_getfrom_e (k_proc s p).
Proof. wait_field (cs_wait _ _ H p). Qed.
Lemma cs_alive p : alive s' p <-> alive s p.
Proof. unfold alive, no_endpoint. by rewrite cs_free, cs_flags. Qed.
Lemma cs_waits p : waits s' p = waits s p.
Proof. unfold waits. by rewrite cs_receiving, cs_sending, cs_getfrom, cs_sendto. Qed.

Lemma cs_ipc_wf : ipc_wf s -> ipc_wf s'.
Proof.
  intros [I1 I2 I3 I4 I5 I6 I7 I8 I9]. split.
  - intros p Hp. pose proof (cs_wait _ _ H p) as E. unfold wait_view in E.
    transitivity (p_nr (k_proc s p)); [congruence|auto].
  - intros p Hp. rewrite cs_endpt. auto.
  - intros p Hp. rewrite cs_free, (cs_priv _ _ H). intros Hf.
    destruct (I3 p Hp Hf) as (i & Hi & ?). exists i. split; [|done].
    pose proof (cs_wait _ _ H p) as E. unfold wait_view in E. congruence.
  - by rewrite (cs_priv _ _ H).
  - intros i. rewrite (cs_priv _ _ H), cs_free. auto.
  - intros c. rewrite (cs_cur _ _ H), cs_free. auto.
  - by rewrite cs_free.
  - intros p. rewrite cs_flags, cs_free. auto.
  - by rewrite (cs_who _ _ H).
Qed.

Lemma cs_partners : partners_ok s -> partners_ok s'.
Proof.
  intros [P1 P2 P3]. split.
  - intros x Hx. rewrite cs_sending, cs_sendto. intros Hs.
    destruct (P1 x Hx Hs) as (d & Hd & He). exists d. by rewrite cs_alive, cs_endpt.
  - intros x Hx. rewrite cs_receiving, cs_getfrom. intros Hr Ha.
    destruct (P2 x Hx Hr Ha) as (d & Hd & Hf & He). exists d. by rewrite cs_free, cs_endpt.
  - intros x Hx. rewrite cs_sending, cs_receiving, cs_getfrom, cs_sendto. auto.
Qed.

Lemma cs_acyclic : acyclic (W s) -> acyclic (W s').
Proof. apply acyclic_sub. intros a b. unfold W. by rewrite cs_waits. Qed.

Lemma cs_pend : pend_ok s -> pend_ok s'.
Proof.
  apply pend_same; [by apply cs_priv| |]; intros p; [by rewrite cs_free|].
  pose proof (cs_wait _ _ H p) as Ev. unfold wait_view in Ev. congruence.
Qed.

End cq.

(** Writing a link of the caller queue of [d]. *)
Lemma cq_assign_done d xpp v s :
  slot d -> (forall k, xpp = LNext k -> slot k) ->
  exists s', cq_assign d xpp v s = Done tt s' /\ cq_step s s' /\
    (forall l, plist_rep (assign (cq_plist d s) xpp v) l -> plist_rep (cq_plist d s') l) /\
    (forall d' l, d' <> d -> (forall k, xpp = LNext k -> k ∉ l) ->
       plist_rep (cq_plist d' s) l -> plist_rep (cq_plist d' s') l) /\
    (forall p, xpp <> LNext p -> p_q_link (k_proc s' p) = p_q_link (k_proc s p)).
Proof.
  intros Hd Hk. destruct xpp as [|k]; simpl; unfold wr; rewrite decide_True by auto; eexists;
    (split; [done|]); (split; [by apply cq_step_upd|]); split_all.
  - intros l. unfold plist_rep. simpl. rewrite fn_lookup_insert. simpl.
    apply chain_ext. intros x _. rewrite fn_insert_case. by case_decide; subst.
  - intros d' l Hne _. unfold plist_rep. simpl. rewrite fn_lookup_insert_ne by done.
    apply chain_ext. intros x _. rewrite fn_insert_case. by case_decide; subst.
  - intros p _. simpl. rewrite fn_insert_case. by case_decide; subst.
  - intros l. unfold plist_rep. simpl.
    replace (p_caller_q (<[k:=_]> (k_proc s) d)) with (p_caller_q (k_proc s d))
      by (rewrite fn_insert_case; by case_decide; subst).
    apply chain_ext. intros x _. rewrite !fn_insert_case. by case_decide; subst.
  - intros d' l Hne Hkl. unfold plist_rep. simpl.
    replace (p_caller_q (<[k:=_]> (k_proc s) d')) with (p_caller_q (k_proc s d'))
      by (rewrite fn_insert_case; by case_decide; subst).
    apply chain_ext. intros x Hx. rewrite fn_lookup_insert_ne; [done|]. intros ->.
    by apply (Hkl x).
  - intros p Hp. simpl. rewrite fn_insert_case. case_decide; [|done]. subst. done.
Qed.

(** Appending to the caller queue of [dst]. *)
Lemma cq_append_wp E s caller dst l :
  slot caller -> slot dst -> plist_rep (cq_plist dst s) l -> NoDup l ->
  (forall x, x ∈ l -> slot x) -> caller ∉ l ->
  wpx E (cq_append caller dst) (fun _ s' => cq_step s s' /\
    plist_rep (cq_plist dst s') (l ++ [caller]) /\
    (forall d l', d <> dst -> caller ∉ l' -> (forall k, k ∈ l -> k ∉ l') ->
       plist_rep (cq_plist d s) l' -> plist_rep (cq_plist d s') l')) s.
Proof.
  intros Hc Hd Hr Hn Hs Hcl. unfold cq_append. apply wpx_bind.
  eapply wpx_done.
  { apply (cq_walk_done _ s dst l []); rewrite ?app_nil_r; try done. by apply Forall_true. }
  apply wpx_bind. pose proof (loc_after_member l) as Hlast.
  destruct (cq_assign_done dst (loc_after l) (Some caller) s Hd) as (s1 & E1 & S1 & _ & O1 & L1).
  { intros k Hk. by apply Hs, Hlast. }
  eapply wpx_done; [exact E1|]. apply wpx_wr; [done|]. set (s2 := upd_proc caller _ s1).
  assert (S2 : cq_step s1 s2) by by apply cq_step_upd.
  split_all.
  - by etrans.
  - pose proof (assign_link (cq_plist dst s) l [] caller) as HL. rewrite app_nil_r in HL.
    specialize (HL Hn Hcl Hr).
    assert (D : deref (cq_plist dst s) (loc_after l) = None).
    { eapply (chain_deref_after _ _ l []). rewrite app_nil_r. exact Hr. }
    rewrite D in HL.
    unfold cq_assign in E1. unfold plist_rep in *. subst s2. simpl.
    destruct (loc_after l) as [|k] eqn:Hloc; unfold wr in E1; rewrite decide_True in E1 by auto;
      simplify_eq; simpl in *.
    + destruct l as [|y l].
      2:{ unfold loc_after in Hloc. by destruct (last (y :: l)) eqn:El;
            [|apply last_None in El]. }
      simpl. rewrite !fn_insert_case. repeat case_decide; subst; simpl; split; try done;
        rewrite !fn_lookup_insert; done.
    + assert (k <> caller) by (intros ->; by apply Hcl, Hlast).
      replace (p_caller_q _) with (p_caller_q (k_proc s dst)).
      2:{ rewrite !fn_insert_case. repeat case_decide; subst; try done; simpl;
          by rewrite ?fn_insert_case, ?decide_False, ?decide_True by done. }
      eapply chain_ext; [|exact HL]. intros x _. rewrite !fn_insert_case.
      repeat case_decide; subst; simpl; try done; by rewrite ?fn_lookup_insert_ne by done.
  - intros d l' Hne Hcl' Hk Hr'. specialize (O1 d l' Hne).
    assert (Hk1 : plist_rep (cq_plist d s1) l').
    { apply O1; [|done]. intros k Hk'. by apply Hk, Hlast. }
    unfold plist_rep in *. subst s2. simpl in *.
    replace (p_caller_q _) with (p_caller_q (k_proc s1 d))
      by (rewrite fn_insert_case; by case_decide; subst).
    eapply chain_ext; [|exact Hk1]. intros x Hx. rewrite fn_lookup_insert_ne; [done|].
    intros ->. done.
Qed.

(** What a call leaves of the state for the rest of [sys_call]. *)
Record call_frame (s s' : kstate) : Prop := mk_call_frame {
  cf_inv : ipc_inv s';
  cf_lock : lock_same s s';
  cf_cur : proc_ptr s' = proc_ptr s;
  cf_glob : glob_view s' = glob_view s;
  cf_endpt p : endpt s' p = endpt s p;
  cf_free p : is_free s' p = is_free s p;
  cf_alive p : alive s' p <-> alive s p;
  cf_delay p : no_new_sig (k_proc s p) (k_proc s' p) }.

Lemma good_frame s s' : good s s' -> call_frame s s'.
Proof.
  intros [Hi Hw]. split; [done|apply Hw|apply Hw|apply Hw| | | |].
  - intros p. by apply weak_endpt.
  - intros p. by apply weak_free.
  - intros p. by apply weak_alive.
  - intros p. by apply (is_delay _ _ Hw).
Qed.

Lemma call_frame_trans s1 s2 s3 : call_frame s1 s2 -> call_frame s2 s3 -> call_frame s1 s3.
Proof.
  intros [A1 [A2 A2'] A3 AG A4 A5 A6 A7] [B1 [B2 B2'] B3 BG B4 B5 B6 B7].
  split; [done|by split; congruence|congruence|congruence| | | |];
    intros p; [..|intros n Hn Hb; by apply A7, B7]; by rewrite ?B4, ?A4, ?B5, ?A5, ?B6, ?A6.
Qed.

(** The state [mini_send] leaves when the caller blocks. *)
Section blocked_send.
Context (s s1 s' : kstate) (caller dst : Z) (C : Z -> list Z).
Context (Hwf : ipc_wf s) (Hpo : partners_ok s) (Hac : acyclic (W s)) (HC : cq_inv s C).
Context (Hc : slot caller) (Hfc : is_free s caller = false) (Hsc : sending s caller = false)
  (Hrc : receiving s caller = false) (Hd : alive s dst) (Hne : dst <> caller).
Context (Hcyc : ~ rtc (W s) dst caller).
(** After [RTS_SET], after the assignment of [p_sendto_e], after the append. *)
Context (R1 : rts_step caller (flag_set (flags s caller) RTS_SENDING) s s1).
Let s2 := upd_proc caller (set_p_sendto_e (endpt s dst)) s1.
Context (S : cq_step s2 s').
Context (Hq : plist_rep (cq_plist dst s') (C dst ++ [caller])).
Context (Hqo : forall d, alive s d -> d <> dst -> plist_rep (cq_plist d s') (C d)).

Lemma bs_field {A} (f : proc -> A) p :
  (forall x, f (unscheduled x) = f x) -> (forall v x, f (set_p_sendto_e v x) = f x) ->
  f (k_proc s2 p) = f (k_proc s p).
Proof.
  intros Hf Hf2. unfold s2. simpl. rewrite fn_insert_case.
  case_decide as Hp; [subst p; rewrite Hf2|]; apply frame_field; auto; apply (rts_frame _ _ _ _ R1).
Qed.

Lemma bs_flags p :
  flags s' p = if decide (p = caller) then flag_set (flags s caller) RTS_SENDING else flags s1 p.
Proof.
  rewrite (cs_flags s2 s' S). unfold s2, flags at 1. simpl. rewrite fn_insert_case.
  case_decide as Hp; [subst p|by rewrite decide_False].
  rewrite decide_True by done. apply (rts_self _ _ _ _ R1).
Qed.

Lemma bs_bit p n : 0 <= n -> n <> 14 -> n <> 2 ->
  Z.testbit (flags s' p) n = Z.testbit (flags s p) n.
Proof.
  intros Hn H14 H2. rewrite bs_flags. destruct (decide (p = caller)) as [->|Hp].
  - change RTS_SENDING with (2 ^ 2). rewrite flag_set_bit by lia.
    rewrite (proj2 (Z.eqb_neq 2 n)) by lia. apply orb_false_r.
  - by apply (rts_step_bits _ _ _ _ p Hwf R1).
Qed.

Lemma sending_bit x : Z.testbit (flag_set x RTS_SENDING) 2 = true.
Proof. change RTS_SENDING with (2 ^ 2). rewrite flag_set_bit by lia. apply orb_true_r. Qed.

Lemma bs_free p : is_free s' p = is_free s p.
Proof.
  unfold is_free at 1. rewrite bs_flags. destruct (decide (p = caller)) as [->|Hp].
  - rewrite Hfc. by apply (not_free_bit _ 2), sending_bit.
  - by apply (rts_step_bits _ _ _ _ p Hwf R1).
Qed.

Lemma bs_sending p : sending s' p = (if decide (p = caller) then true else sending s p).
Proof.
  unfold sending. rewrite bs_flags. destruct (decide (p = caller)) as [->|Hp].
  - apply sending_bit.
  - by apply (rts_step_bits _ _ _ _ p Hwf R1).
Qed.

Lemma bs_receiving p : receiving s' p = receiving s p.
Proof. by apply bs_bit. Qed.

Lemma bs_alive p : alive s' p <-> alive s p.
Proof. unfold alive, no_endpoint. by rewrite bs_free, bs_bit. Qed.

Lemma bs_endpt p : endpt s' p = endpt s p.
Proof. rewrite (cs_endpt s2 s' S). by apply bs_field. Qed.

Lemma bs_getfrom p : p_getfrom_e (k_proc s' p) = p_getfrom_e (k_proc s p).
Proof. rewrite (cs_getfrom s2 s' S). by apply bs_field. Qed.

Lemma bs_delay p : p_misc_flags (k_proc s' p) = p_misc_flags (k_proc s p).
Proof.
  pose proof (cs_wait _ _ S p) as E. unfold wait_view in E.
  transitivity (p_misc_flags (k_proc s2 p)); [congruence|].
  by rewrite (bs_field p_misc_flags).
Qed.

Lemma bs_sendto p :
  p_sendto_e (k_proc s' p) = if decide (p = caller) then endpt s dst else p_sendto_e (k_proc s p).
Proof.
  rewrite (cs_sendto s2 s' S). unfold s2. simpl. rewrite fn_insert_case. case_decide as Hp.
  - rewrite decide_True by done. done.
  - rewrite decide_False by done. by apply frame_field, (rts_frame _ _ _ _ R1).
Qed.

Lemma bs_priv : k_priv s' = k_priv s.
Proof.
  rewrite (cs_priv s2 s' S). apply core_priv. apply (rts_frame _ _ _ _ R1).
Qed.

Lemma bs_core_cur :
  proc_ptr s' = proc_ptr s /\ who_p s' = who_p s /\ glob_view s' = glob_view s /\ lock_same s s'.
Proof.
  destruct (rts_frame _ _ _ _ R1) as [Hk _]. split_all.
  - rewrite (cs_cur s2 s' S). by apply (core_proc_ptr s s1).
  - rewrite (cs_who s2 s' S). by apply (core_field who_p s s1).
  - rewrite (cs_glob s2 s' S). by apply (core_field glob_view s s1).
  - destruct (cs_lock s2 s' S) as [L1 L2]. destruct (core_lock s s1 Hk) as [L3 L4].
    split; [by rewrite L1|by rewrite L2].
Qed.

Lemma bs_ipc_wf : ipc_wf s'.
Proof.
  destruct Hwf as [I1 I2 I3 I4 I5 I6 I7 I8 I9]. destruct bs_core_cur as (Hcur & Hwho & _ & _). split.
  - intros p Hp. pose proof (cs_wait _ _ S p) as E. unfold wait_view in E.
    transitivity (p_nr (k_proc s2 p)); [congruence|]. rewrite (bs_field p_nr) by done. auto.
  - intros p Hp. rewrite bs_endpt. auto.
  - intros p Hp. rewrite bs_free, bs_priv. intros Hf.
    destruct (I3 p Hp Hf) as (i & Hi & ?). exists i. split; [|done].
    pose proof (cs_wait _ _ S p) as E. unfold wait_view in E.
    transitivity (p_priv (k_proc s2 p)); [congruence|]. by rewrite (bs_field p_priv).
  - by rewrite bs_priv.
  - intros i. rewrite bs_priv, bs_free. auto.
  - intros c. rewrite Hcur, bs_free. auto.
  - by rewrite bs_free.
  - intros p. rewrite bs_bit, bs_free by done. auto.
  - by rewrite Hwho.
Qed.

Lemma bs_partners : partners_ok s'.
Proof.
  destruct Hpo as [P1 P2 P3]. split.
  - intros x Hx. rewrite bs_sending, bs_sendto. destruct (decide (x = caller)).
    + intros _. exists dst. by rewrite bs_alive, bs_endpt.
    + intros Hs. destruct (P1 x Hx Hs) as (d & Hda & He). exists d. by rewrite bs_alive, bs_endpt.
  - intros x Hx. rewrite bs_receiving, bs_getfrom. intros Hr Ha.
    destruct (P2 x Hx Hr Ha) as (d & Hds & Hf & He). exists d. by rewrite bs_free, bs_endpt.
  - intros x Hx. rewrite bs_sending, bs_receiving, bs_getfrom, bs_sendto.
    destruct (decide (x = caller)) as [->|]; [by rewrite Hrc|auto].
Qed.

Lemma bs_acyclic : acyclic (W s').
Proof.
  apply (acyclic_add (W s) (W s') caller dst); [|done|done].
  intros u v [Hu Hw]. unfold waits in Hw. rewrite bs_receiving, bs_sending, bs_getfrom, bs_sendto in Hw.
  destruct (decide (u = caller)) as [->|Hu'].
  - rewrite Hrc, (iw_ep s Hwf dst) in Hw by apply Hd. simplify_eq. by right.
  - left. by split.
Qed.

Lemma bs_caller_notin d : alive s d -> caller ∉ C d.
Proof. intros Hda Hin. apply HC in Hin; [|done]. destr_and. congruence. Qed.

Lemma bs_cq : cq_inv s' (<[dst := C dst ++ [caller]]> C).
Proof.
  destruct HC as [C1 C2 C3]. split.
  - intros d Hda%bs_alive. rewrite fn_insert_case. case_decide; [by subst|by apply Hqo].
  - intros d Hda%bs_alive. rewrite fn_insert_case. case_decide; [subst d|by apply C2].
    apply NoDup_app. split_all; [by apply C2| |apply NoDup_singleton].
    intros x Hx ->%list_elem_of_singleton. by apply (bs_caller_notin dst).
  - intros d x Hda%bs_alive. rewrite bs_sending, bs_sendto, bs_endpt, fn_insert_case.
    destruct (decide (x = caller)) as [->|Hx]; case_decide as Hdd.
    + subst d. rewrite elem_of_app, list_elem_of_singleton. tauto.
    + split; [intros Hin; by apply bs_caller_notin in Hin|]. intros (_ & _ & He).
      destruct Hdd. eapply endpt_inj; [done| | |done]; [apply Hd|apply Hda].
    + subst d. rewrite elem_of_app, list_elem_of_singleton, C3 by done. naive_solver.
    + by apply C3.
Qed.

Lemma bs_core : ipc_core s'.
Proof. split; [exact bs_ipc_wf|exact bs_partners|exact bs_acyclic|eexists; exact bs_cq]. Qed.

End blocked_send.

(** ** [mini_send] *)

(** The exception of [deadlock] concerns one who sends and one who receives. *)
Lemma excused_bit s function y :
  0 <= function -> excused s function y = xorb (sending s y) (Z.testbit function 0).
Proof.
  intros Hf. unfold excused. change RTS_SENDING with (2 ^ 2). rewrite flag_any_bit by done.
  rewrite Z.lxor_spec, Z.shiftl_spec by done. done.
Qed.

(** A process that only receives from [caller] will receive from it. *)
Lemma waits_will_receive s y caller :
  ipc_core s -> slot y -> slot caller -> sending s y = false -> waits s y = Some caller ->
  will_receive (k_proc s y) (endpt s caller) = true.
Proof.
  intros [Hwf [_ P2 _] _ _] Hy Hc Hs Hw. unfold waits in Hw. rewrite Hs in Hw.
  destruct (receiving s y) eqn:Er; [|done].
  destruct (Z.eqb_spec (p_getfrom_e (k_proc s y)) ANY) as [|Ha]; [done|].
  destruct (P2 y Hy Er Ha) as (d & Hd & _ & He). rewrite He, (iw_ep s Hwf d Hd) in Hw.
  simplify_eq. unfold will_receive. change RTS_RECEIVING with (2 ^ 3).
  change RTS_SENDING with (2 ^ 2). rewrite !flag_isset_bit by done.
  fold (flags s y) (receiving s y) (sending s y). rewrite Er, Hs, He, Z.eqb_refl.
  by rewrite orb_true_r.
Qed.

Lemma map_msg_wp E caller m_ptr (Q : option msg_src -> kstate -> Prop) s :
  slot caller -> (forall o, Q o s) -> wpx E (map_msg caller m_ptr) Q s.
Proof.
  intros Hc HQ. destruct m_ptr as [v|m]; simpl; [|by apply wpx_ret].
  apply wpx_bind, umap_local_wp; [done..|]. intros a. destruct (a =? 0); by apply wpx_ret.
Qed.

(** The caller is not blocked receiving; if it blocked sending, it is to [e]. *)
Definition sent_to (s : kstate) (caller e : Z) : Prop :=
  receiving s caller = false /\ (sending s caller = true -> p_sendto_e (k_proc s caller) = e).

Lemma good_sent s s' caller e :
  good s s' -> sending s caller = false -> receiving s caller = false -> sent_to s' caller e.
Proof.
  intros [_ Hw] Hs Hr. split.
  - destruct (is_recv _ _ Hw caller) as [->|[_ ->]]; done.
  - rewrite (weak_sending _ _ Hw), Hs. done.
Qed.

Section calls.
Context (E : Prop).

(** The sender is blocked at the end of the destination's queue. *)
Record send_blocked (s s' : kstate) (C : Z -> list Z) (caller dst : Z) : Prop := mk_send_blocked {
  sb_frame : call_frame s s';
  sb_flags : sending s' caller = true /\ receiving s' caller = false;
  sb_other p : p <> caller -> sending s' p = sending s p;
  sb_to : p_sendto_e (k_proc s' caller) = endpt s dst;
  sb_queue : cq_inv s' (<[dst := C dst ++ [caller]]> C);
  sb_msg : p_sendmsg (k_proc s' caller) = p_sendmsg (k_proc s caller) }.

Lemma send_block_queues s s2 caller dst C :
  rts_step caller (flag_set (flags s caller) RTS_SENDING) s s2 -> cq_inv s C ->
  forall d, alive s d ->
    plist_rep (cq_plist d (upd_proc caller (set_p_sendto_e (endpt s dst)) s2)) (C d).
Proof.
  intros R2 HC d Hda. set (s3 := upd_proc _ _ s2).
  pose proof (cq_rep s C HC d Hda) as Hrep. unfold plist_rep, cq_plist in *.
  pose proof (bs_field s s2 caller dst R2 p_caller_q d) as B. fold s3 in B.
  cbn [pl_head pl_next] in *. rewrite B by done.
  eapply chain_ext; [|exact Hrep]. intros x _.
  pose proof (bs_field s s2 caller dst R2 p_q_link x) as Bx. fold s3 in Bx. by rewrite Bx.
Qed.

Lemma send_block_wp s C caller dst :
  ipc_inv s -> cq_inv s C -> slot caller -> is_free s caller = false ->
  sending s caller = false -> receiving s caller = false -> alive s dst -> dst <> caller ->
  ~ rtc (W s) dst caller ->
  wpx E (do! RTS_SET caller RTS_SENDING;
         do! wr caller (set_p_sendto_e (endpt s dst));
         do! cq_append caller dst;
         ret OK) (fun r s' => r = OK /\ send_blocked s s' C caller dst) s.
Proof.
  intros (Hsi & Hcore & Hp) HC Hc Hfc Hsc Hrc Hda Hne Hcyc.
  apply wpx_bind. eapply wpx_conseq; [by apply RTS_SET_inv|]. intros u s2 [Hsi2 R2].
  apply wpx_bind, wpx_wr; [done|].
  pose proof (send_block_queues s s2 caller dst C R2 HC) as Hch.
  set (s3 := upd_proc caller (set_p_sendto_e (endpt s dst)) s2) in *.
  assert (Hnin : forall d, alive s d -> caller ∉ C d).
  { intros d Hda'. by apply (bs_caller_notin s caller C HC Hsc). }
  apply wpx_bind. eapply wpx_conseq.
  { apply (cq_append_wp E s3 caller dst (C dst)); [done|apply Hda|by apply Hch|by apply HC| |by apply Hnin].
    intros x Hx. apply (cq_mem _ _ HC) in Hx; tauto. }
  intros u' s4 (S4 & Hq & Hqo). apply wpx_ret. split; [done|].
  assert (Hqo' : forall d, alive s d -> d <> dst -> plist_rep (cq_plist d s4) (C d)).
  { intros d Hda' Hdd. apply Hqo; [done|by apply Hnin| |by apply Hch].
    intros k Hk Hk'. apply HC in Hk; [|done]. apply HC in Hk'; [|done]. destr_and.
    apply Hdd. eapply (endpt_inj s); [apply Hcore|apply Hda'|apply Hda|congruence]. }
  destruct Hcore as [Hwf Hpo Hac _].
  assert (Hbc : ipc_core s4) by (eapply (bs_core s s2 s4 caller dst C); done).
  destruct (bs_core_cur s s2 s4 caller dst R2 S4) as (Hcur & Hwho & Hgl & Hlk).
  split.
  - split; [split; [|split; [exact Hbc|]]|done|done|done|..].
    + apply (cs_sched _ _ S4). by apply sched_upd.
    + apply (pend_same s s4); [by eapply bs_priv| | |exact Hp]; intros p; [by eapply bs_free|].
      pose proof (cs_wait _ _ S4 p) as Ev. unfold wait_view in Ev.
      transitivity (p_priv (k_proc s3 p)); [congruence|]. by apply (bs_field s s2 caller dst R2 p_priv).
    + intros p. eapply bs_endpt; done.
    + intros p. eapply bs_free; done.
    + intros p. eapply bs_alive; done.
    + intros p. by apply no_new_sig_eq, (bs_delay s s2 s4 caller dst R2 S4).
  - erewrite (bs_sending s s2 s4 caller dst), (bs_receiving s s2 s4 caller dst) by done.
    by rewrite decide_True.
  - intros p Hpc. erewrite (bs_sending s s2 s4 caller dst) by done. by rewrite decide_False.
  - erewrite (bs_sendto s s2 s4 caller dst) by done. by rewrite decide_True.
  - eapply (bs_cq s s2 s4); done.
  - pose proof (cs_sendmsg _ _ S4 caller) as ->. by apply (bs_field s s2 caller dst R2 p_sendmsg).
Qed.

Lemma mini_send_wp s caller dst_e m_ptr fl :
  ipc_inv s -> slot caller -> is_free s caller = false ->
  sending s caller = false -> receiving s caller = false ->
  slot (_ENDPOINT_P dst_e) -> is_free s (_ENDPOINT_P dst_e) = false ->
  endpt s (_ENDPOINT_P dst_e) = dst_e -> _ENDPOINT_P dst_e <> caller ->
  wpx E (mini_send caller dst_e m_ptr fl)
    (fun _ s' => call_frame s s' /\ sent_to s' caller dst_e) s.
Proof.
  intros Hi Hc Hfc Hsc Hrc Hd Hfd Hed Hne. unfold mini_send.
  assert (Hself : call_frame s s /\ sent_to s caller dst_e).
  { split; [by apply good_frame, good_refl|]. by apply (good_sent s); [apply good_refl|..]. }
  apply wpx_bind, map_msg_wp; [done|]. intros [src|]; [|by apply wpx_ret].
  set (dst := _ENDPOINT_P dst_e) in *. apply wpx_bind.
  eapply wpx_done; [by apply no_endpoint_done|]. destruct (no_endpoint s dst) eqn:End;
    [by apply wpx_ret|].
  apply wpx_bind, wpx_rd; [done|]. apply wpx_bind, wpx_rd; [done|].
  destruct (will_receive _ _) eqn:Ew.
  - apply will_receive_bits in Ew as [Er Es]. apply wpx_bind.
    eapply wpx_conseq; [by apply QueueMess_good|]. intros r s1 (G1 & _ & _ & F1).
    destruct (r =? OK); simpl.
    + apply wpx_bind. eapply wpx_conseq; [apply RTS_UNSET_good; [apply G1|done| |done..|]|].
      * by rewrite (weak_free s s1) by apply G1.
      * right. rewrite (weak_sending s s1) by apply G1. exact Es.
      * intros u s2 [G2 _]. apply wpx_ret. pose proof (good_trans _ _ _ G1 G2) as G.
        split; [by apply good_frame|by apply (good_sent s)].
    + apply wpx_ret. split; [by apply good_frame|by apply (good_sent s)].
  - destruct (flag_any fl NON_BLOCKING); [by apply wpx_ret|]. pose proof Hi as (Hsi & Hcore & Hp).
    destruct (deadlock_done s SEND caller dst) as (r & Hr & _ & H0); [done..|].
    apply wpx_bind. eapply wpx_done; [exact Hr|].
    destruct (Z.eqb_spec r 0) as [Hr0|_]; simpl; [|by apply wpx_ret].
    assert (Hcyc : ~ rtc (W s) dst caller).
    { destruct (H0 Hr0) as [|[Hw He]]; [done|]. exfalso. rewrite excused_bit in He by done.
      destruct (sending s dst) eqn:Esd; [done|].
      pose proof (waits_will_receive s dst caller Hcore Hd Hc Esd Hw) as Hwr. unfold endpt in Hwr.
      congruence. }
    apply wpx_bind, wpx_gets.
    apply wpx_bind, wpx_wr_keep; [done..|]. intros s1 G1.
    destruct (snd _); simpl; [|apply wpx_ret; split; [by apply good_frame|by apply (good_sent s)]].
    pose proof (cf_inv _ _ (good_frame _ _ G1)) as (Hsi1 & Hcore1 & Hp1). destruct G1 as [Hi1 W1].
    assert (Hcyc1 : ~ rtc (W s1) dst caller).
    { intros Hrtc. by apply Hcyc, (weak_rtc s s1). }
    destruct (ic_queues s1 Hcore1) as [C HC].
    assert (Hda : alive s1 dst) by (apply (weak_alive s s1 W1); done).
    assert (Hrc1 : receiving s1 caller = false) by (destruct (is_recv _ _ W1 caller) as [->|[_ ->]]; done).
    assert (Hed1 : dst_e = endpt s1 dst) by by rewrite (weak_endpt s s1).
    rewrite Hed1. eapply wpx_conseq; [apply (send_block_wp s1 C caller dst); try done|].
    + by rewrite (weak_free s s1).
    + by rewrite (weak_sending s s1).
    + intros r' s' [_ [F [_ Hr'] _ Ht _ _]]. split; [by apply (call_frame_trans s s1); [apply good_frame|]|].
      by split.
Qed.

End calls.
