(* ===== verification/IpcRecv.v ===== *)
(** * [mini_receive] keeps the invariant *)
From S2P Require Import Prelude PList KMonad Timers Types KState Memory Sched SchedInv.
From S2P Require Import Notify Copy Ipc IpcInv IpcSafe CopySafe IpcCalls.

(** ** Notifications *)

Lemma lowest_bit_spec x :
  chunk_ok x -> x <> 0 -> Z.testbit x (lowest_bit x) = true /\ 0 <= lowest_bit x < 16.
Proof.
  intros Hx Hne. unfold lowest_bit.
  destruct (find (fun i => Z.testbit x i) (seqZ 0 BITCHUNK_BITS)) as [i|] eqn:Ef.
  - apply find_some in Ef as [Hi Hb]. apply list_elem_of_In, elem_of_seqZ in Hi.
    unfold BITCHUNK_BITS in Hi. split; [done|lia].
  - exfalso. apply Hne. apply Z.bits_inj_0. intros n.
    apply chunk_ok_bits in Hx as [H0 Hb].
    destruct (Z.lt_ge_cases n 0); [by apply Z.testbit_neg_r|].
    destruct (Z.lt_ge_cases n 16); [|by apply Hb].
    apply (find_none _ _ Ef). apply list_elem_of_In, elem_of_seqZ. unfold BITCHUNK_BITS. lia.
Qed.

Section recv.
Context (E : Prop).

Lemma receive_notify_good s caller src_e src_p :
  ipc_inv s -> slot caller -> is_free s caller = false ->
  wpx E (receive_notify caller src_e src_p)
    (fun r s' => good s s' /\ (r = Some (Some OK) \/ s' = s)) s.
Proof.
  intros Hi Hc Hf. unfold receive_notify. apply wpx_bind, wpx_priv_live; [done..|].
  intros pr Hpp Hpr _ _.
  apply (wpx_for_return E (fun _ s' => s' = s)); [done| |].
  2:{ intros s' ->. split; [by apply good_refl|by right]. }
  intros c rest s' -> Hcin. apply elem_of_seqZ in Hcin.
  apply wpx_bind, wpx_rdp; [done|]. set (chunk := s_notify_pending (k_priv s pr) c).
  destruct (Z.eqb_spec chunk 0) as [|Hne]; [by apply wpx_ret|].
  pose proof Hi as (_ & _ & Hp). destruct (Hp pr Hpr) as [Hch Hbit].
  specialize (Hbit ltac:(by exists caller)).
  destruct (lowest_bit_spec chunk (Hch c) Hne) as [Hb Hr].
  set (src_id := c * BITCHUNK_BITS + lowest_bit chunk).
  destruct (Z.leb_spec NR_SYS_PROCS src_id) as [|Hlt].
  { apply wpx_ret. split; [by apply good_refl|by right]. }
  assert (Hid : priv_slot src_id).
  { unfold priv_slot, src_id, BITCHUNK_BITS in *. lia. }
  apply wpx_bind, wpx_rdp; [done|]. destruct (_ && _); [by apply wpx_ret|].
  assert (Hsrc : slot (s_proc_nr (k_priv s src_id))).
  { apply Hbit; [done|]. unfold get_sys_bit, src_id. change BITCHUNK_BITS with 16 in *.
    rewrite Z.div_add_l, Z.div_small, Z.add_0_r by lia.
    rewrite Z.add_comm, Z.mod_add, Z.mod_small by lia. exact Hb. }
  apply wpx_bind, wpx_wrp; [done|]. pose proof (pend_unset_good s pr src_id Hi Hpr) as G1.
  set (s1 := upd_priv _ _ _) in *. apply wpx_bind.
  eapply wpx_conseq; [apply BuildNotifyMessage_good; [apply G1|done|]|].
  { by rewrite (weak_free s s1) by apply G1. }
  intros m s2 [G2 _]. apply wpx_bind, wpx_rd; [done|].
  pose proof (good_trans _ _ _ G1 G2) as G12. apply wpx_bind.
  eapply wpx_conseq; [apply QueueMess_good; [apply G12|done]|].
  intros r s3 (G3 & _ & Hr3 & _). rewrite (Hr3 m eq_refl). simpl. apply wpx_ret.
  split; [by eapply good_trans|by left].
Qed.

(** ** Asynchronous messages *)

Lemma A_RETRIEVE_good s cep t i f :
  ipc_inv s -> wpx E (A_RETRIEVE cep t i f) (fun _ s' => good s s') s.
Proof.
  intros Hi. unfold A_RETRIEVE. apply wpx_bind.
  eapply wpx_conseq; [by apply data_copy_in_good|]. intros r s' G.
  destruct (negb _); by apply wpx_ret.
Qed.

Lemma A_RETRIEVE_msg_good s cep t i :
  ipc_inv s -> wpx E (A_RETRIEVE_msg cep t i) (fun _ s' => good s s') s.
Proof.
  intros Hi. unfold A_RETRIEVE_msg. apply wpx_bind.
  eapply wpx_conseq; [by apply data_copy_in_good|]. intros r s' G.
  destruct (negb _); by apply wpx_ret.
Qed.

Lemma am_finish_good s cep t i r f :
  ipc_inv s -> wpx E (am_finish cep t i r f) (fun _ s' => good s s') s.
Proof.
  intros Hi. unfold am_finish, A_INSERT. apply wpx_bind, wpx_bind.
  assert (Hnil : forall v, word_bytes v <> []) by (intros v Hv; discriminate Hv).
  eapply wpx_conseq; [by apply data_copy_out_good|]. intros x s1 G1. apply wpx_ret.
  destruct (negb _); [by apply wpx_ret|]. apply wpx_bind.
  eapply wpx_conseq; [apply data_copy_out_good; [apply G1|apply Hnil|discriminate]|]. intros y s2 G2.
  apply wpx_ret. exact (good_trans _ _ _ G1 G2).
Qed.

Lemma may_send_to_wp s rp nr (Q : bool -> kstate -> Prop) :
  ipc_inv s -> slot rp -> is_free s rp = false -> slot nr -> is_free s nr = false ->
  (forall b, Q b s) -> wpx E (may_send_to rp nr) Q s.
Proof.
  intros Hi Hr Hf Hn Hfn HQ. unfold may_send_to. apply wpx_bind, wpx_priv_live; [done..|].
  intros i _ His _ _. apply wpx_bind, wpx_priv_live; [done..|]. intros j _ Hj _ _.
  apply wpx_bind, wpx_rdp; [done|]. by apply wpx_rdp.
Qed.

Lemma wpx_fold_exit {A B R} (I : A -> kstate -> Prop) (l : list B) (body : A -> B -> K (A + R)) acc Q s :
  I acc s ->
  (forall a x s, I a s -> x ∈ l -> wpx E (body a x)
     (fun r s' => match r with inl a' => I a' s' | inr v => Q (inr v) s' end) s) ->
  (forall a s, I a s -> Q (inl a) s) -> wpx E (fold_exit l acc body) Q s.
Proof.
  revert acc s. induction l as [|x l IH]; intros acc s HI Hb HQ; simpl; [by apply wpx_ret, HQ|].
  apply wpx_bind. eapply wpx_conseq; [apply Hb; [done|set_solver]|].
  intros [a'|v] s' Hr; [|by apply wpx_ret]. apply IH; [done| |done].
  intros. apply Hb; [done|set_solver].
Qed.

Lemma try_one_good s src dst post :
  ipc_inv s -> slot src -> is_free s src = false -> slot dst -> is_free s dst = false ->
  wpx E (try_one src dst post) (fun _ s' => good s s') s.
Proof.
  intros Hi Hs Hfs Hd Hfd. unfold try_one. apply wpx_bind, wpx_priv_live; [done..|].
  intros pr _ Hpr _ _. apply wpx_bind, wpx_rdp; [done|].
  assert (Hrefl : good s s) by by apply good_refl.
  destruct (_ =? USER_PRIV_ID); [by apply wpx_ret|].
  apply wpx_bind, wpx_rdp; [done|]. destruct (_ =? 0); [by apply wpx_ret|].
  apply wpx_bind, wpx_rd; [done|].
  assert (Hnr : p_nr (k_proc s dst) = dst) by (apply iw_nr; [apply Hi|done]). rewrite Hnr.
  apply wpx_bind, may_send_to_wp; [done..|]. intros b. destruct b; [|by apply wpx_ret]. simpl.
  apply wpx_bind, wpx_rdp; [done|]. apply wpx_bind, wpx_rd; [done|].
  apply wpx_bind, wpx_rd; [done|]. set (tv := s_asyntab _). set (sep := p_endpoint _).
  set (de := p_endpoint _). apply wpx_bind.
  eapply (wpx_fold_exit (fun _ s' => good s s')); [done| |].
  - intros acc i s1 G1 _. apply wpx_bind.
    eapply wpx_conseq; [apply A_RETRIEVE_good, G1|]. intros fo s2 G2'.
    pose proof (good_trans _ _ _ G1 G2') as G2. clear G2'.
    destruct fo as [fl|]; [|by do 2 apply wpx_ret].
    destruct (fl =? 0); [by apply wpx_ret|]. destruct (am_bad_flags fl).
    { apply wpx_bind, wpx_wrp_keep; [apply G2|done|done|]. intros s3 G3 _.
      do 2 apply wpx_ret. by eapply good_trans. }
    destruct (flag_any fl AMF_DONE); [by apply wpx_ret|].
    apply wpx_bind. eapply wpx_conseq; [apply A_RETRIEVE_good, G2|]. intros d s3 G3'.
    pose proof (good_trans _ _ _ G2 G3') as G3. clear G3'.
    destruct d as [d|]; [|by do 2 apply wpx_ret]. destruct (negb _); [by apply wpx_ret|].
    apply wpx_bind, wpx_rd; [done|]. destruct (_ && _); [by apply wpx_ret|].
    apply wpx_bind. eapply wpx_conseq; [apply A_RETRIEVE_msg_good, G3|]. intros mo s4 G4'.
    pose proof (good_trans _ _ _ G3 G4') as G4. clear G4'.
    destruct mo as [m|]; [|by do 2 apply wpx_ret].
    apply wpx_bind. eapply wpx_conseq; [apply QueueMess_good; [apply G4|done]|].
    intros q s5 [G5' _]. pose proof (good_trans _ _ _ G4 G5') as G5. clear G5'.
    apply wpx_bind. eapply wpx_conseq; [apply am_finish_good, G5|]. intros ok s6 G6'.
    pose proof (good_trans _ _ _ G5 G6') as G6. destruct (negb ok); by do 2 apply wpx_ret.
  - intros acc s1 G1. apply wpx_bind, wpx_when; intros _; [|by apply wpx_ret].
    apply wpx_wrp_keep; [apply G1|done|done|]. intros s2 G2 _. apply wpx_ret.
    by eapply good_trans.
Qed.

Lemma try_async_good s caller :
  ipc_inv s -> slot caller -> is_free s caller = false ->
  wpx E (try_async caller) (fun _ s' => good s s') s.
Proof.
  intros Hi Hc Hf. unfold try_async. apply wpx_bind.
  eapply (wpx_fold_exit (fun _ s' => good s s')); [by apply good_refl| |].
  - intros post i s1 G1 Hin. apply elem_of_all_privs in Hin. apply wpx_bind, wpx_rdp; [done|].
    destruct (Z.eqb_spec (s_proc_nr (k_priv s1 i)) NONE) as [|Hne]; [by apply wpx_ret|].
    destruct (iw_priv_nr s1) with (i := i) as [|[Hs Hfs]]; [apply G1|done|done|].
    apply wpx_bind. eapply wpx_conseq; [apply try_one_good; [apply G1|done..|]|].
    + by rewrite (weak_free s s1) by apply G1.
    + intros r s2 G2. pose proof (good_trans _ _ _ G1 G2).
      destruct (fst r =? OK); [by do 2 apply wpx_ret|by apply wpx_ret].
  - intros post s1 G1. apply wpx_bind, wpx_when; intros _; [|by apply wpx_ret].
    apply wpx_wr_keep; [apply G1|done|apply keeps_misc_clear|]. intros s2 G2. apply wpx_ret.
    by eapply good_trans.
Qed.

End recv.

(** ** Taking a message of the caller queue *)

(** The state when the sender [x], first suitable of the queue of [caller], has
    been unblocked and unlinked. *)
Section released.
Context (s s1 s' : kstate) (caller x : Z) (C : Z -> list Z) (l1 l2 : list Z).
Context (Hwf : ipc_wf s) (Hpo : partners_ok s) (Hac : acyclic (W s)) (HC : cq_inv s C).
Context (Hc : alive s caller) (HCc : C caller = l1 ++ x :: l2).
Context (R1 : rts_step x (flag_clear (flags s x) RTS_SENDING) s s1).
Context (S : cq_step s1 s').
Context (Hq : plist_rep (cq_plist caller s') (l1 ++ l2)).
Context (Hqo : forall d, alive s d -> d <> caller -> plist_rep (cq_plist d s') (C d)).

Lemma rl_field {A} (f : proc -> A) p :
  (forall y, f (unscheduled y) = f y) -> f (k_proc s1 p) = f (k_proc s p).
Proof. intros Hf. apply frame_field; [done|]. apply (rts_frame _ _ _ _ R1). Qed.

Lemma rl_x : slot x /\ sending s x = true /\ p_sendto_e (k_proc s x) = endpt s caller.
Proof. apply (cq_mem _ _ HC caller x Hc). rewrite HCc. apply elem_of_app. right. apply list_elem_of_here. Qed.

Lemma rl_x_free : is_free s x = false.
Proof. destruct rl_x as (_ & Hs & _). by apply (not_free_bit _ 2). Qed.

Lemma rl_flags p :
  flags s' p = if decide (p = x) then flag_clear (flags s x) RTS_SENDING else flags s1 p.
Proof.
  rewrite (cs_flags s1 s' S). destruct (decide (p = x)) as [->|]; [apply (rts_self _ _ _ _ R1)|done].
Qed.

Lemma rl_bit p n : 0 <= n -> n <> 14 -> n <> 2 ->
  Z.testbit (flags s' p) n = Z.testbit (flags s p) n.
Proof.
  intros Hn H14 H2. rewrite rl_flags. destruct (decide (p = x)) as [->|Hp].
  - change RTS_SENDING with (2 ^ 2). rewrite flag_clear_bit by lia.
    rewrite (proj2 (Z.eqb_neq 2 n)) by lia. apply andb_true_r.
  - by apply (rts_step_bits _ _ _ _ p Hwf R1).
Qed.

Lemma rl_free p : is_free s' p = is_free s p.
Proof.
  destruct (decide (p = x)) as [->|Hp].
  - rewrite rl_x_free. unfold is_free. apply Z.eqb_neq. intros Hf.
    apply (f_equal (fun v => Z.testbit v 0)) in Hf. rewrite rl_bit in Hf by done.
    rewrite (iw_free s Hwf x), rl_x_free in Hf by apply rl_x. done.
  - unfold is_free at 1. rewrite rl_flags, decide_False by done.
    by apply (rts_step_bits _ _ _ _ p Hwf R1).
Qed.

Lemma rl_sending p : sending s' p = (if decide (p = x) then false else sending s p).
Proof.
  unfold sending. rewrite rl_flags. destruct (decide (p = x)) as [->|Hp].
  - change RTS_SENDING with (2 ^ 2). rewrite flag_clear_bit by lia. apply andb_false_r.
  - by apply (rts_step_bits _ _ _ _ p Hwf R1).
Qed.

Lemma rl_receiving p : receiving s' p = receiving s p.
Proof. by apply rl_bit. Qed.

Lemma rl_alive p : alive s' p <-> alive s p.
Proof. unfold alive, no_endpoint. by rewrite rl_free, rl_bit. Qed.

Lemma rl_endpt p : endpt s' p = endpt s p.
Proof. rewrite (cs_endpt s1 s' S). by apply (rl_field p_endpoint). Qed.
Lemma rl_getfrom p : p_getfrom_e (k_proc s' p) = p_getfrom_e (k_proc s p).
Proof. rewrite (cs_getfrom s1 s' S). by apply rl_field. Qed.
Lemma rl_sendto p : p_sendto_e (k_proc s' p) = p_sendto_e (k_proc s p).
Proof. rewrite (cs_sendto s1 s' S). by apply rl_field. Qed.
Lemma rl_priv : k_priv s' = k_priv s.
Proof. rewrite (cs_priv s1 s' S). apply core_priv, (rts_frame _ _ _ _ R1). Qed.

Lemma rl_misc :
  proc_ptr s' = proc_ptr s /\ who_p s' = who_p s /\ glob_view s' = glob_view s /\ lock_same s s'.
Proof.
  destruct (rts_frame _ _ _ _ R1) as [Hk _]. split_all.
  - rewrite (cs_cur s1 s' S). by apply core_proc_ptr.
  - rewrite (cs_who s1 s' S). by apply (core_field who_p).
  - rewrite (cs_glob s1 s' S). by apply (core_field glob_view).
  - destruct (cs_lock s1 s' S) as [L1 L2]. destruct (core_lock s s1 Hk) as [L3 L4].
    split; congruence.
Qed.

Lemma rl_ipc_wf : ipc_wf s'.
Proof.
  destruct Hwf as [I1 I2 I3 I4 I5 I6 I7 I8 I9]. destruct rl_misc as (Hcur & Hwho & _ & _). split.
  - intros p Hp. pose proof (cs_wait _ _ S p) as E. unfold wait_view in E.
    transitivity (p_nr (k_proc s1 p)); [congruence|]. rewrite (rl_field p_nr) by done. auto.
  - intros p Hp. rewrite rl_endpt. auto.
  - intros p Hp. rewrite rl_free, rl_priv. intros Hf.
    destruct (I3 p Hp Hf) as (i & Hi & ?). exists i. split; [|done].
    pose proof (cs_wait _ _ S p) as E. unfold wait_view in E.
    transitivity (p_priv (k_proc s1 p)); [congruence|]. by rewrite (rl_field p_priv).
  - by rewrite rl_priv.
  - intros i. rewrite rl_priv, rl_free. auto.
  - intros c. rewrite Hcur, rl_free. auto.
  - by rewrite rl_free.
  - intros p. rewrite rl_bit, rl_free by done. auto.
  - by rewrite Hwho.
Qed.

Lemma rl_partners : partners_ok s'.
Proof.
  destruct Hpo as [P1 P2 P3]. split.
  - intros y Hy. rewrite rl_sending, rl_sendto. destruct (decide (y = x)); [done|].
    intros Hs. destruct (P1 y Hy Hs) as (d & Hda & He). exists d. by rewrite rl_alive, rl_endpt.
  - intros y Hy. rewrite rl_receiving, rl_getfrom. intros Hr Ha.
    destruct (P2 y Hy Hr Ha) as (d & Hds & Hf & He). exists d. by rewrite rl_free, rl_endpt.
  - intros y Hy. rewrite rl_sending, rl_receiving, rl_getfrom, rl_sendto.
    destruct (decide (y = x)); [done|auto].
Qed.

Lemma rl_acyclic : acyclic (W s').
Proof.
  eapply acyclic_sub; [|exact Hac]. intros u v [Hu Hw]. split; [done|]. unfold waits in *.
  rewrite rl_receiving, rl_sending, rl_getfrom, rl_sendto in Hw.
  destruct (receiving s u); [done|]. by destruct (decide (u = x)).
Qed.

Lemma rl_cq : cq_inv s' (<[caller := l1 ++ l2]> C).
Proof.
  pose proof HC as [C1 C2 C3].
  assert (Hnd : NoDup (l1 ++ x :: l2)) by (rewrite <- HCc; by apply C2).
  destruct (NoDup_middle _ _ _ Hnd) as (Hx1 & Hx2 & Hnd'). split.
  - intros d Hda%rl_alive. rewrite fn_insert_case. case_decide; [by subst|by apply Hqo].
  - intros d Hda%rl_alive. rewrite fn_insert_case. case_decide; [by subst d|by apply C2].
  - intros d y Hda%rl_alive. rewrite rl_sending, rl_sendto, rl_endpt, fn_insert_case.
    destruct rl_x as (Hsx & Hsend & Hto). case_decide as Hdd.
    + subst d. pose proof (C3 caller y Hc) as HM. rewrite HCc in HM.
      destruct (decide (y = x)) as [->|Hyx]; [set_solver|]. rewrite <- HM. set_solver.
    + rewrite C3 by done. destruct (decide (y = x)) as [->|]; [|done].
      split; [|naive_solver]. intros (_ & _ & He). destruct Hdd.
      eapply (endpt_inj s); [done|apply Hc|apply Hda|congruence].
Qed.

Lemma rl_core : ipc_core s'.
Proof. split; [exact rl_ipc_wf|exact rl_partners|exact rl_acyclic|eexists; exact rl_cq]. Qed.

End released.


Lemma rl_delay s s1 s' x v p :
  rts_step x v s s1 -> cq_step s1 s' ->
  p_misc_flags (k_proc s' p) = p_misc_flags (k_proc s p) /\
  p_delivermsg (k_proc s' p) = p_delivermsg (k_proc s p).
Proof.
  intros R1 S. pose proof (cs_wait _ _ S p) as E. unfold wait_view in E.
  pose proof (rts_frame _ _ _ _ R1) as F.
  split.
  - transitivity (p_misc_flags (k_proc s1 p)); [congruence|]. by apply (frame_field p_misc_flags).
  - transitivity (p_delivermsg (k_proc s1 p)); [congruence|]. by apply (frame_field p_delivermsg).
Qed.

(** No queued sender is suitable. *)
Definition none_queued (s : kstate) (caller src_e src_p : Z) : Prop :=
  forall y, slot y -> sending s y = true -> p_sendto_e (k_proc s y) = endpt s caller ->
    src_e <> ANY /\ src_p <> y.

(** The test of the search in the caller queue. *)
Definition suitable (src_e src_p y : Z) : bool := (src_e =? ANY) || (src_p =? y).

(** The receiver has taken the message of [x], the first suitable sender of its
    queue, and [x] is no longer blocked. *)
Definition took_first (s s' : kstate) (C : Z -> list Z) (caller src_e src_p : Z) : Prop :=
  exists l1 x l2, C caller = l1 ++ x :: l2 /\
    (forall y, y ∈ l1 -> suitable src_e src_p y = false) /\ suitable src_e src_p x = true /\
    sending s' x = false /\ cq_inv s' (<[caller := l1 ++ l2]> C) /\
    (delayed (k_proc s x) = false ->
       has_message s' caller (endpt s x) (bytes_message (message_bytes (p_sendmsg (k_proc s x))))).

(** The kernel may panic when PM is dead or is itself to be signalled. *)
Definition pm_panics (s : kstate) : Prop :=
  is_free s PM_PROC_NR = true \/ delayed (k_proc s PM_PROC_NR) = true.

Section receive.
Context (E : Prop).

(** A sender is taken off the queue of [caller] at [l1]. *)
Lemma receive_unblock s caller x C l1 l2 :
  ipc_inv s -> alive s caller -> cq_inv s C -> C caller = l1 ++ x :: l2 ->
  wpx E (do! RTS_UNSET x RTS_SENDING;
         do nxt <- rd x p_q_link;
         do! cq_assign caller (loc_after l1) nxt; ret true)
    (fun r s' => r = true /\ call_frame s s' /\ sending s' x = false /\
       cq_inv s' (<[caller := l1 ++ l2]> C) /\
       forall p, p_misc_flags (k_proc s' p) = p_misc_flags (k_proc s p) /\
                 p_delivermsg (k_proc s' p) = p_delivermsg (k_proc s p)) s.
Proof.
  intros (Hs & [Hwf Hpo Hac _] & Hp) Hc HC HCc.
  assert (slot x /\ sending s x = true /\ p_sendto_e (k_proc s x) = endpt s caller)
    as (Hx & Hsx & Htx) by (apply (cq_mem _ _ HC caller x Hc); rewrite HCc; set_solver).
  assert (Hfx : is_free s x = false) by by apply (not_free_bit _ 2).
  apply wpx_bind. eapply wpx_conseq; [apply RTS_UNSET_inv; [done..|by apply unset_ok_live]|].
  intros u s1 [Hs1 R1]. apply wpx_bind, wpx_rd; [done|].
  assert (Hrep : forall d, alive s d -> plist_rep (cq_plist d s1) (C d)).
  { intros d Hd. pose proof (cq_rep s C HC d Hd) as H. unfold plist_rep, cq_plist in *. simpl in *.
    rewrite (frame_field p_caller_q s s1) by (done || apply (rts_frame _ _ _ _ R1)).
    eapply chain_ext; [|exact H]. intros y _.
    by rewrite (frame_field p_q_link s s1) by (done || apply (rts_frame _ _ _ _ R1)). }
  assert (Hl1 : forall k, loc_after l1 = LNext k -> k ∈ l1).
  { intros k. unfold loc_after. destruct (last l1) eqn:El; intros; simplify_eq.
    by apply last_Some_elem_of. }
  assert (Hin : forall k, k ∈ l1 -> k ∈ C caller) by (rewrite HCc; set_solver).
  assert (Hnd : NoDup (l1 ++ x :: l2)) by (rewrite <- HCc; by apply HC).
  destruct (cq_assign_done caller (loc_after l1) (p_q_link (k_proc s1 x)) s1)
    as (s2 & E2 & S2 & Q2 & O2 & _); [apply Hc| |].
  { intros k Hk%Hl1%Hin. apply (cq_mem _ _ HC) in Hk; [tauto|done]. }
  apply wpx_bind. eapply wpx_done; [exact E2|]. apply wpx_ret. split; [done|].
  assert (Hq : plist_rep (cq_plist caller s2) (l1 ++ l2)).
  { apply Q2. apply (assign_unlink (cq_plist caller s1) l1 x l2 Hnd). rewrite <- HCc.
    by apply Hrep. }
  assert (Hqo : forall d, alive s d -> d <> caller -> plist_rep (cq_plist d s2) (C d)).
  { intros d Hd Hne. apply O2; [done| |by apply Hrep]. intros k Hk%Hl1%Hin Hk'.
    apply HC in Hk; [|done]. apply HC in Hk'; [|done]. destr_and. apply Hne.
    eapply (endpt_inj s); [done|apply Hd|apply Hc|congruence]. }
  destruct (rl_misc s s1 s2 x R1 S2) as (Hcur & Hwho & Hgl & Hlk).
  assert (Hrest : sending s2 x = false /\ cq_inv s2 (<[caller := l1 ++ l2]> C) /\
    forall p, p_misc_flags (k_proc s2 p) = p_misc_flags (k_proc s p) /\
              p_delivermsg (k_proc s2 p) = p_delivermsg (k_proc s p)).
  { split_all.
    - erewrite (rl_sending s s1 s2 x) by done. by rewrite decide_True.
    - by eapply (rl_cq s s1 s2 caller x C l1 l2).
    - intros p. by apply (rl_delay s s1 s2 x _ p R1 S2). }
  split; [|exact Hrest]. split.
  - split; [by apply (cs_sched _ _ S2)|]. split; [by eapply (rl_core s s1 s2 caller x C l1 l2)|].
    apply (pend_same s s2); [by eapply rl_priv| | |done]; intros p; [by eapply rl_free|].
    pose proof (cs_wait _ _ S2 p) as Ev. unfold wait_view in Ev.
    transitivity (p_priv (k_proc s1 p)); [congruence|by apply (rl_field s s1 x R1 p_priv)].
  - exact Hlk.
  - exact Hcur.
  - exact Hgl.
  - intros p. by apply (rl_endpt s s1 s2 x R1 S2).
  - intros p. by eapply (rl_free s s1 s2 caller x C l1 l2).
  - intros p. by eapply (rl_alive s s1 s2 caller x C l1 l2).
  - intros p. by apply no_new_sig_eq, Hrest.
Qed.

Lemma receive_queued_wp s C caller src_e src_p :
  ipc_inv s -> cq_inv s C -> alive s caller -> sending s caller = false -> (pm_panics s -> E) ->
  wpx E (receive_queued caller src_e src_p) (fun r s' =>
    if r : bool then call_frame s s' /\ took_first s s' C caller src_e src_p
    else s' = s /\ none_queued s caller src_e src_p) s.
Proof.
  intros Hi HC Hc Hsc HE. pose proof Hi as (_ & [Hwf Hpo Hac _] & _).
  unfold receive_queued. pose proof Hc as (Hcs & Hfc & _).
  set (stop := fun k => (src_e =? ANY) || (src_p =? p_nr (k_proc s k))).
  destruct (split_first stop (C caller)) as (l1 & l2 & HCc & Hl1 & Hl2).
  pose proof (cq_rep _ _ HC caller Hc) as Hrep. rewrite HCc in Hrep.
  assert (Hslot : forall y, y ∈ C caller -> slot y) by (intros y; by apply (cq_slots s)).
  apply wpx_bind. eapply wpx_done.
  { apply (cq_walk_done _ s caller l1 l2); rewrite <- ?HCc; try done; [by rewrite HCc|by apply HC]. }
  apply wpx_bind, wpx_gets.
  assert (Hd : deref (cq_plist caller s) (loc_after l1) = head l2)
    by apply (chain_deref_after _ _ l1 l2 Hrep).
  rewrite Hd. destruct l2 as [|x l2]; simpl.
  - apply wpx_ret. split; [done|]. intros y Hy Hsy Hty.
    assert (Hyin : y ∈ l1).
    { rewrite app_nil_r in HCc. rewrite <- HCc. by apply (cq_mem _ _ HC). }
    rewrite Forall_forall in Hl1. specialize (Hl1 y Hyin). unfold stop in Hl1.
    rewrite (iw_nr s Hwf y Hy) in Hl1. apply orb_false_iff in Hl1 as [H1 H2].
    by apply Z.eqb_neq in H1, H2.
  - assert (Hxin : x ∈ C caller) by (rewrite HCc; set_solver). specialize (Hslot x Hxin).
    apply (cq_mem _ _ HC) in Hxin as (_ & Hsx & _); [|done].
    assert (Hxc : x <> caller) by congruence.
    assert (Hfx : is_free s x = false) by by apply (not_free_bit _ 2).
    apply wpx_bind, wpx_rd; [done|]. apply wpx_bind, wpx_rd; [done|]. apply wpx_bind.
    eapply wpx_conseq; [by apply wpx_and; [apply QueueMess_good|apply QueueMess_exact]|].
    intros r s1 [[G1 _] [_ P1]]. apply wpx_bind, wpx_rd; [done|].
    assert (Hx1 : k_proc s1 x = k_proc s x) by by rewrite P1, decide_False.
    rewrite Hx1. fold (delayed (k_proc s x)). apply wpx_bind.
    apply (wpx_conseq E _ (fun _ s' => good s s' /\ (delayed (k_proc s x) = false -> s' = s1))).
    + apply wpx_when; intros Hdl; [|done].
      eapply wpx_conseq; [apply sig_delay_done_good; [apply G1|done| | |]|].
      * by rewrite (weak_free s s1) by apply G1.
      * intros ->. apply HE. by right.
      * rewrite (weak_free s s1) by apply G1. intros. apply HE. by left.
      * intros u s2 G2. split; [by eapply good_trans|congruence].
    + intros u s2 [G2 Hs2]. pose proof G2 as [Hi2 W2].
      eapply wpx_conseq; [apply (receive_unblock s2 caller x C l1 l2); [done| |by apply (weak_cq s)|done]|].
      * by apply (weak_alive s s2 W2).
      * intros r' s3 (-> & F3 & Hns & HC3 & Hmsg).
        split; [eapply call_frame_trans; [by apply good_frame|done]|].
        exists l1, x, l2. split_all; [done| | |done|done|].
        -- intros y Hy. rewrite Forall_forall in Hl1. specialize (Hl1 y Hy). unfold stop in Hl1.
           rewrite (iw_nr s Hwf y) in Hl1; [done|]. apply (cq_mem _ _ HC caller y Hc).
           rewrite HCc. set_solver.
        -- unfold stop in Hl2. by rewrite (iw_nr s Hwf x) in Hl2.
        -- intros Hdl. destruct (Hmsg caller) as [M1 M2]. unfold has_message.
           rewrite M1, M2, (Hs2 Hdl), P1, decide_True by done. by apply queued_has.
Qed.

End receive.
