(* ===== verification/IpcBlock.v ===== *)
(** * A process blocks to receive, and the calls built on it

    [receive_block], [mini_receive], [mini_senda], and the gateway [sys_call]. *)
From S2P Require Import Prelude PList KMonad Timers Types KState Memory Sched SchedInv.
From S2P Require Import Notify Copy Ipc IpcInv IpcSafe CopySafe IpcCalls IpcRecv.

(** The state when [caller] has blocked to receive from [src_e]. *)
Section blocked_recv.
Context (s s' : kstate) (caller src_e : Z) (C : Z -> list Z).
Context (Hwf : ipc_wf s) (Hpo : partners_ok s) (HC : cq_inv s C).
Context (Hc : slot caller) (Hfc : is_free s caller = false).
Let s1 := upd_proc caller (set_p_getfrom_e src_e) s.
Context (R1 : rts_step caller (flag_set (flags s1 caller) RTS_RECEIVING) s1 s').
Context (Hsrc : src_e <> ANY -> exists d, slot d /\ is_free s d = false /\ src_e = endpt s d).
Context (Hto : sending s caller = true -> p_sendto_e (k_proc s caller) = src_e).

Lemma br_field {A} (f : proc -> A) p :
  (forall x, f (unscheduled x) = f x) -> (forall v x, f (set_p_getfrom_e v x) = f x) ->
  f (k_proc s' p) = f (k_proc s p).
Proof.
  intros Hf Hf2. transitivity (f (k_proc s1 p)).
  - apply frame_field; [done|]. apply (rts_frame _ _ _ _ R1).
  - unfold s1. simpl. rewrite fn_insert_case. by case_decide; subst.
Qed.

Lemma br_flags1 p : flags s1 p = flags s p.
Proof. unfold flags, s1. simpl. rewrite fn_insert_case. by case_decide; subst. Qed.

Lemma br_wf1 : ipc_wf s1.
Proof.
  destruct Hwf as [I1 I2 I3 I4 I5 I6 I7 I8 I9].
  assert (F : forall A (f : proc -> A) p, (forall v x, f (set_p_getfrom_e v x) = f x) ->
            f (k_proc s1 p) = f (k_proc s p)).
  { intros A f p Hf. unfold s1. simpl. rewrite fn_insert_case. by case_decide; subst. }
  assert (Fr : forall p, is_free s1 p = is_free s p) by (intros p; unfold is_free; by rewrite br_flags1).
  split.
  - intros p Hp. rewrite (F _ p_nr) by done. auto.
  - intros p Hp. unfold endpt. rewrite (F _ p_endpoint) by done. by apply I2.
  - intros p Hp. rewrite Fr, (F _ p_priv) by done. by apply I3.
  - exact I4.
  - intros i. rewrite Fr. apply I5.
  - intros c. rewrite Fr. apply I6.
  - by rewrite Fr.
  - intros p. rewrite Fr, br_flags1. apply I8.
  - exact I9.
Qed.

Lemma br_bit p n : 0 <= n -> n <> 14 -> n <> 3 ->
  Z.testbit (flags s' p) n = Z.testbit (flags s p) n.
Proof.
  intros Hn H14 H3. destruct (decide (p = caller)) as [->|Hp].
  - rewrite (rts_self _ _ _ _ R1), br_flags1. change RTS_RECEIVING with (2 ^ 3).
    rewrite flag_set_bit by lia. rewrite (proj2 (Z.eqb_neq 3 n)) by lia. apply orb_false_r.
  - rewrite <- (br_flags1 p). by apply (rts_step_bits _ _ _ _ p br_wf1 R1).
Qed.

Lemma br_free p : is_free s' p = is_free s p.
Proof.
  destruct (decide (p = caller)) as [->|Hp].
  - rewrite Hfc. apply (not_free_bit _ 3); [done|]. rewrite (rts_self _ _ _ _ R1).
    change RTS_RECEIVING with (2 ^ 3). rewrite flag_set_bit by lia. apply orb_true_r.
  - transitivity (is_free s1 p); [by apply (rts_step_bits _ _ _ _ p br_wf1 R1)|].
    unfold is_free. by rewrite br_flags1.
Qed.

Lemma br_sending p : sending s' p = sending s p.
Proof. by apply br_bit. Qed.

Lemma br_receiving p : receiving s' p = (if decide (p = caller) then true else receiving s p).
Proof.
  unfold receiving. destruct (decide (p = caller)) as [->|Hp].
  - rewrite (rts_self _ _ _ _ R1). change RTS_RECEIVING with (2 ^ 3).
    rewrite flag_set_bit by lia. apply orb_true_r.
  - rewrite <- (br_flags1 p). by apply (rts_step_bits _ _ _ _ p br_wf1 R1).
Qed.

Lemma br_alive p : alive s' p <-> alive s p.
Proof. unfold alive, no_endpoint. by rewrite br_free, br_bit. Qed.
Lemma br_endpt p : endpt s' p = endpt s p.
Proof. by apply (br_field p_endpoint). Qed.
Lemma br_sendto p : p_sendto_e (k_proc s' p) = p_sendto_e (k_proc s p).
Proof. by apply br_field. Qed.

Lemma br_getfrom p :
  p_getfrom_e (k_proc s' p) = if decide (p = caller) then src_e else p_getfrom_e (k_proc s p).
Proof.
  rewrite (frame_field p_getfrom_e s1 s') by (done || apply (rts_frame _ _ _ _ R1)).
  unfold s1. simpl. rewrite fn_insert_case.
  destruct (decide (caller = p)) as [->|Hne]; [by rewrite decide_True|by rewrite decide_False by auto].
Qed.

Lemma br_core_eq : kcore s' = kcore s.
Proof. destruct (rts_frame _ _ _ _ R1) as [Hk _]. exact Hk. Qed.

Lemma br_ipc_wf : ipc_wf s'.
Proof.
  destruct Hwf as [I1 I2 I3 I4 I5 I6 I7 I8 I9]. pose proof br_core_eq as Hk. split.
  - intros p Hp. rewrite (br_field p_nr) by done. auto.
  - intros p Hp. rewrite br_endpt. auto.
  - intros p Hp. rewrite br_free, (core_priv s s' Hk), (br_field p_priv) by done. by apply I3.
  - by rewrite (core_priv s s' Hk).
  - intros i. rewrite (core_priv s s' Hk), br_free. auto.
  - intros c. rewrite (core_proc_ptr s s' Hk), br_free. auto.
  - by rewrite br_free.
  - intros p. rewrite br_bit, br_free by done. auto.
  - by rewrite (core_field who_p s s').
Qed.

Lemma br_partners : partners_ok s'.
Proof.
  destruct Hpo as [P1 P2 P3]. split.
  - intros x Hx. rewrite br_sending, br_sendto. intros Hs.
    destruct (P1 x Hx Hs) as (d & Hda & He). exists d. by rewrite br_alive, br_endpt.
  - intros x Hx. rewrite br_receiving, br_getfrom. destruct (decide (x = caller)) as [->|].
    + intros _ Ha. destruct (Hsrc Ha) as (d & Hd & Hf & He). exists d. by rewrite br_free, br_endpt.
    + intros Hr Ha. destruct (P2 x Hx Hr Ha) as (d & Hd & Hf & He). exists d.
      by rewrite br_free, br_endpt.
  - intros x Hx. rewrite br_sending, br_receiving, br_getfrom, br_sendto.
    destruct (decide (x = caller)) as [->|]; [|by apply P3]. intros Hs _. symmetry. by apply Hto.
Qed.

Lemma br_cq : cq_inv s' C.
Proof.
  destruct HC as [C1 C2 C3]. split.
  - intros d Hd%br_alive. specialize (C1 d Hd). unfold plist_rep, cq_plist in *. simpl in *.
    rewrite (br_field p_caller_q) by done. eapply chain_ext; [|exact C1]. intros x _.
    by rewrite (br_field p_q_link).
  - intros d Hd%br_alive. auto.
  - intros d x Hd%br_alive. rewrite br_sending, br_sendto, br_endpt. auto.
Qed.

(** The only new dependency is that of [caller] on the source. *)
Lemma br_waits u v : W s' u v -> W s u v \/ (u = caller /\ v = _ENDPOINT_P src_e /\ src_e <> ANY).
Proof.
  intros [Hu Hw]. unfold waits in Hw.
  rewrite br_receiving, br_sending, br_getfrom, br_sendto in Hw.
  destruct (decide (u = caller)) as [->|Hne]; [|left; by split].
  destruct (Z.eqb_spec src_e ANY) as [|Ha]; simplify_eq. by right.
Qed.

Lemma br_core : acyclic (W s') -> ipc_core s'.
Proof. intros A. split; [exact br_ipc_wf|exact br_partners|exact A|eexists; exact br_cq]. Qed.

End blocked_recv.

(** The source of a receive: anyone, or another live process. *)
Definition src_ok (s : kstate) (caller src_e src_p : Z) : Prop :=
  (src_e = ANY /\ src_p = ANY) \/
  (src_e <> ANY /\ slot src_p /\ is_free s src_p = false /\ endpt s src_p = src_e /\ src_p <> caller).

(** A process that waits for [caller] while sending is queued at [caller]. *)
Lemma waits_sending_queued s y caller :
  ipc_core s -> slot y -> slot caller -> sending s y = true -> waits s y = Some caller ->
  p_sendto_e (k_proc s y) = endpt s caller.
Proof.
  intros [Hwf [P1 _ P3] _ _] Hy Hc Hs Hw. destruct (P1 y Hy Hs) as (d & (Hd & _ & _) & He).
  rewrite He. f_equal. unfold waits in Hw. rewrite Hs in Hw.
  destruct (receiving s y) eqn:Er.
  - rewrite (P3 y Hy Hs Er), He in Hw. destruct (_ =? ANY); simplify_eq. symmetry. by apply Hwf.
  - rewrite He in Hw. simplify_eq. symmetry. by apply Hwf.
Qed.

Section block.
Context (E : Prop).

(** Blocking closes no cycle. *)
Lemma receive_block_acyclic s s' caller src_e src_p :
  ipc_inv s -> slot caller -> src_ok s caller src_e src_p ->
  (sending s caller = true -> p_sendto_e (k_proc s caller) = src_e) ->
  receiving s caller = false ->
  (sending s caller = false -> none_queued s caller src_e src_p) ->
  (src_e <> ANY -> ~ rtc (W s) src_p caller \/
     (waits s src_p = Some caller /\ excused s RECEIVE src_p = true)) ->
  (forall u v, W s' u v -> W s u v \/ (u = caller /\ v = _ENDPOINT_P src_e /\ src_e <> ANY)) ->
  acyclic (W s').
Proof.
  intros (_ & Hcore & _) Hc Hsrc Hto Hrc Hnq Hdl HW. pose proof Hcore as [Hwf _ Hac _].
  destruct Hsrc as [[-> ->]|(Ha & Hsp & Hfp & <- & Hne)].
  { eapply acyclic_sub; [|exact Hac]. intros u v Huv. destruct (HW u v Huv) as [|(_ & _ & [])]; done. }
  rewrite (iw_ep s Hwf src_p Hsp) in HW. destruct (sending s caller) eqn:Es.
  - eapply acyclic_sub; [|exact Hac]. intros u v Huv.
    destruct (HW u v Huv) as [|(-> & -> & _)]; [done|]. split; [done|]. unfold waits.
    rewrite Hrc, Es, (Hto eq_refl). f_equal. by apply Hwf.
  - apply (acyclic_add (W s) (W s') caller src_p); [|  |done].
    + intros u v Huv. destruct (HW u v Huv) as [|(-> & -> & _)]; [by left|by right].
    + destruct (Hdl Ha) as [|[Hw He]]; [done|]. exfalso. rewrite excused_bit in He by done.
      change (Z.testbit RECEIVE 0) with false in He. rewrite xorb_false_r in He.
      pose proof (waits_sending_queued s src_p caller Hcore Hsp Hc He Hw) as Hq.
      destruct (Hnq eq_refl src_p Hsp He Hq) as [_ Hq']. done.
Qed.

Lemma deadlock_src s caller src_e src_p :
  ipc_inv s -> slot caller -> src_ok s caller src_e src_p ->
  exists r, deadlock RECEIVE caller src_p s = Done r s /\
    (r = 0 -> src_e <> ANY -> ~ rtc (W s) src_p caller \/
       (waits s src_p = Some caller /\ excused s RECEIVE src_p = true)).
Proof.
  intros (_ & Hcore & _) Hc [[-> ->]|(Ha & Hsp & Hfp & _ & Hne)].
  - exists 0. split; [done|]. done.
  - destruct (deadlock_done s RECEIVE caller src_p) as (r & Hr & _ & H0); [done..|].
    exists r. split; [done|]. auto.
Qed.

Lemma receive_block_wp s caller src_e src_p fl :
  ipc_inv s -> slot caller -> is_free s caller = false -> src_ok s caller src_e src_p ->
  (sending s caller = true -> p_sendto_e (k_proc s caller) = src_e) ->
  receiving s caller = false ->
  (sending s caller = false -> none_queued s caller src_e src_p) ->
  wpx E (receive_block caller src_e src_p fl) (fun _ s' => call_frame s s') s.
Proof.
  intros Hi Hc Hfc Hsrc Hto Hrc Hnq. unfold receive_block.
  assert (Hself : call_frame s s) by by apply good_frame, good_refl.
  destruct (flag_any fl NON_BLOCKING); simpl; [by apply wpx_ret|].
  destruct (deadlock_src s caller src_e src_p) as (r & Hr & H0); [done..|].
  apply wpx_bind. eapply wpx_done; [exact Hr|].
  destruct (Z.eqb_spec r 0) as [Hr0|]; simpl; [|by apply wpx_ret].
  apply wpx_bind, wpx_wr; [done|]. set (s1 := upd_proc caller _ s).
  pose proof Hi as (Hs & [Hwf Hpo Hac [C HC]] & Hp).
  assert (Hs1 : sched_inv s1) by by apply sched_upd.
  apply wpx_bind. eapply wpx_conseq; [by apply RTS_SET_inv|]. intros u s2 [Hs2 R2]. apply wpx_ret.
  assert (Hsd : src_e <> ANY -> exists d, slot d /\ is_free s d = false /\ src_e = endpt s d).
  { intros Ha. destruct Hsrc as [[]|(_ & ? & ? & <- & _)]; [done|]. by exists src_p. }
  pose proof (br_core_eq s s2 caller src_e R2) as Hk. split.
  - split; [done|]. split.
    + eapply (br_core s s2 caller src_e C); try done.
      eapply (receive_block_acyclic s s2 caller src_e src_p); try done; [by apply H0|].
      eapply (br_waits s s2 caller src_e); done.
    + apply (pend_same s s2); [by apply core_priv| | |done]; intros p.
      * by eapply (br_free s s2 caller src_e).
      * by eapply (br_field s s2 caller src_e).
  - by apply core_lock.
  - by apply core_proc_ptr.
  - by apply (core_field glob_view).
  - intros p. by eapply (br_endpt s s2 caller src_e).
  - intros p. by eapply (br_free s s2 caller src_e).
  - intros p. by eapply (br_alive s s2 caller src_e).
  - intros p. apply no_new_sig_eq. by erewrite (br_field s s2 caller src_e) by done.
Qed.

Lemma none_queued_weak s s' caller src_e src_p :
  ipc_weak s s' -> none_queued s caller src_e src_p -> none_queued s' caller src_e src_p.
Proof.
  intros Hw H y Hy. rewrite (weak_sending s s' Hw), (weak_sendto s s' Hw), (weak_endpt s s' Hw).
  by apply H.
Qed.

Lemma receive_async_good s caller src_e src_p :
  ipc_inv s -> slot caller -> is_free s caller = false -> src_ok s caller src_e src_p ->
  wpx E (if negb (src_e =? ANY) then do r <- try_one src_p caller false; ret (fst r)
         else try_async caller) (fun _ s' => good s s') s.
Proof.
  intros Hi Hc Hf Hsrc. destruct (Z.eqb_spec src_e ANY) as [|Ha]; simpl.
  - by apply try_async_good.
  - destruct Hsrc as [[]|(_ & Hsp & Hfp & _)]; [done|]. apply wpx_bind.
    eapply wpx_conseq; [by apply try_one_good|]. intros r s' G. by apply wpx_ret.
Qed.

Lemma receive_available_wp s caller src_e src_p :
  ipc_inv s -> alive s caller -> src_ok s caller src_e src_p -> (pm_panics s -> E) ->
  wpx E (receive_available caller src_e src_p) (fun r s' =>
    if r : bool then call_frame s s'
    else good s s' /\ (sending s caller = false -> none_queued s' caller src_e src_p)) s.
Proof.
  intros Hi Hc Hsrc HE. pose proof Hc as (Hcs & Hfc & _). unfold receive_available. apply wpx_bind.
  eapply wpx_done; [by apply sending_done|]. destruct (sending s caller) eqn:Es.
  { apply wpx_ret. split; [by apply good_refl|done]. }
  apply wpx_bind, wpx_rd; [done|]. apply wpx_bind.
  apply (wpx_conseq E _ (fun r s' => good s s' /\ (r = Some (Some OK) \/ s' = s))).
  { destruct (negb _); [by apply receive_notify_good|]. apply wpx_ret.
    split; [by apply good_refl|by right]. }
  intros n s1 [G1 Hn].
  assert (Hrest : s1 = s -> wpx E (
    do got <- receive_queued caller src_e src_p;
    if got : bool then ret true
    else
      do mf <- rd caller p_misc_flags;
      if flag_any mf MF_ASYNMSG then
        do r <- (if negb (src_e =? ANY)
                 then do r <- try_one src_p caller false; ret (fst r)
                 else try_async caller);
        ret (r =? OK)
      else ret false) (fun r s' => if r : bool then call_frame s s'
    else good s s' /\ (false = false -> none_queued s' caller src_e src_p)) s1).
  { intros ->. pose proof Hi as (_ & [_ _ _ [C HC]] & _).
    apply wpx_bind. eapply wpx_conseq; [by apply (receive_queued_wp E s C)|].
    intros [] s2 H2; [apply wpx_ret; apply H2|]. destruct H2 as [-> Hnq].
    apply wpx_bind, wpx_rd; [done|]. destruct (flag_any _ _).
    - apply wpx_bind. eapply wpx_conseq; [by apply receive_async_good|]. intros r s3 G3.
      apply wpx_ret. destruct (r =? OK); [by apply good_frame|]. split; [done|]. intros _.
      eapply none_queued_weak; [apply G3|done].
    - apply wpx_ret. split; [by apply good_refl|done]. }
  destruct n as [[v|]|].
  - apply wpx_ret. by apply good_frame.
  - apply Hrest. destruct Hn; [done|congruence].
  - apply Hrest. destruct Hn; [done|congruence].
Qed.

(** [mini_receive], of a source that is not the caller itself. *)
Lemma mini_receive_wp s caller src_e m_ptr fl :
  ipc_inv s -> alive s caller -> sent_to s caller src_e ->
  (src_e <> ANY -> slot (_ENDPOINT_P src_e) /\ is_free s (_ENDPOINT_P src_e) = false /\
     endpt s (_ENDPOINT_P src_e) = src_e /\ _ENDPOINT_P src_e <> caller) ->
  (pm_panics s -> E) ->
  wpx E (mini_receive caller src_e m_ptr fl) (fun _ s' => call_frame s s') s.
Proof.
  intros Hi Hc [Hrc Hto] Hsrc HE. pose proof Hc as (Hcs & Hfc & _). unfold mini_receive.
  assert (Hself : call_frame s s) by by apply good_frame, good_refl.
  apply wpx_bind, umap_local_wp; [done..|]. intros lin.
  destruct (lin =? 0); [by apply wpx_ret|].
  apply wpx_bind, wpx_wr_keep; [done..|]. intros s1 G1.
  apply wpx_bind, (wpx_wr_acc _ _ _ _ s); [done..|]. clear s1 G1. intros s1 G1. pose proof G1 as [Hi1 W1].
  set (sp := if src_e =? ANY then ANY else _ENDPOINT_P src_e).
  assert (Hok : src_ok s1 caller src_e sp).
  { unfold src_ok, sp. destruct (Z.eqb_spec src_e ANY) as [|Ha]; [by left|right].
    rewrite (weak_free s s1 W1), (weak_endpt s s1 W1). split; [done|by apply Hsrc]. }
  apply wpx_bind, (wpx_conseq E _ (fun r s' => r = sp /\ s' = s1)).
  { destruct Hok as [[Ha _]|(Ha & Hsp & Hfp & He & _)].
    - subst sp. rewrite Ha. by apply wpx_ret.
    - rewrite (proj2 (Z.eqb_neq src_e ANY) Ha). eapply wpx_done; [|done].
      rewrite <- He at 1. apply okendpt_done; [apply Hi1|done..]. }
  intros r s' [-> ->].
  apply wpx_bind, (wpx_conseq E _ (fun _ s' => s' = s1)).
  { destruct Hok as [[Ha _]|(Ha & Hsp & _)]; [rewrite Ha; by apply wpx_ret|].
    rewrite (proj2 (Z.eqb_neq src_e ANY) Ha). by apply wpx_RTS_ISSET. }
  intros dead s' ->. destruct dead; [by apply wpx_ret, good_frame|].
  apply wpx_bind. eapply wpx_conseq; [apply receive_available_wp; [done| |exact Hok|]|].
  - by apply (weak_alive s s1 W1).
  - intros [Hf|Hd]; apply HE; [left|right; by apply (no_new_delayed _ _ (is_delay _ _ W1 _))].
    by rewrite <- (weak_free s s1 W1).
  - intros [] s2 H2.
    + apply wpx_ret. by eapply call_frame_trans; [apply good_frame|].
    + destruct H2 as [G2 Hnq]. pose proof (good_trans _ _ _ G1 G2) as G. pose proof G as [Hi2 W2].
      destruct G2 as [_ W12].
      eapply wpx_conseq; [apply receive_block_wp; try done|].
      * by rewrite (weak_free s s2 W2).
      * unfold src_ok. destruct Hok as [|Hok]; [by left|right].
        by rewrite (weak_free s1 s2 W12), (weak_endpt s1 s2 W12).
      * rewrite (weak_sending s s2 W2), (weak_sendto s s2 W2). done.
      * destruct (is_recv _ _ W2 caller) as [->|[_ ->]]; done.
      * rewrite (weak_sending s1 s2 W12). exact Hnq.
      * intros u s3 F3. by eapply call_frame_trans; [apply good_frame|].
Qed.

End block.
