(* ===== verification/IpcTop.v ===== *)
(** * The gateway of message passing keeps the invariant

    [mini_senda] and [sys_call]: whatever a process asks for, the call returns
    and the invariant of the kernel holds again. *)
From S2P Require Import Prelude PList KMonad Timers Types KState Memory Sched SchedInv.
From S2P Require Import Notify Copy Ipc IpcInv IpcSafe CopySafe IpcCalls IpcRecv IpcBlock.

Section top.
Context (E : Prop).

Lemma senda_entry_good s caller cep t lin done_ i :
  ipc_inv s -> slot caller -> is_free s caller = false ->
  wpx E (senda_entry caller cep t lin done_ i) (fun _ s' => good s s') s.
Proof.
  intros Hi Hc Hfc. unfold senda_entry. apply wpx_bind.
  eapply wpx_conseq; [by apply A_RETRIEVE_good|]. intros fo s1 G1.
  destruct fo as [fl|]; [|by apply wpx_ret].
  destruct (fl =? 0); [by apply wpx_ret|]. destruct (am_bad_flags fl); [by apply wpx_ret|].
  destruct (flag_any fl AMF_DONE); [by apply wpx_ret|].
  assert (Hfin : forall r s', good s s' -> wpx E (
    do ok <- am_finish cep t i r fl;
    if negb ok then ret (inr EFAULT) else ret (inl done_)) (fun _ s'' => good s s'') s').
  { intros r s' G'. apply wpx_bind. eapply wpx_conseq; [apply am_finish_good, G'|].
    intros ok s'' G''. pose proof (good_trans _ _ _ G' G''). destruct (negb ok); by apply wpx_ret. }
  apply wpx_bind. eapply wpx_conseq; [apply A_RETRIEVE_good, G1|]. intros d s2 G2'.
  pose proof (good_trans _ _ _ G1 G2') as G2. clear G1 G2'.
  destruct d as [d|]; [|by apply wpx_ret]. apply wpx_bind, wpx_isokendpt; [|by apply Hfin].
  intros dst Hd Hfd _ _. destruct (iskerneln dst); [by apply Hfin|].
  assert (Hfc2 : is_free s2 caller = false) by by rewrite (weak_free s s2) by apply G2.
  apply wpx_bind, may_send_to_wp; [apply G2|done..|]. intros b. destruct b; [simpl|by apply Hfin].
  apply wpx_bind, wpx_rd; [done|]. destruct (flag_any _ RTS_NO_ENDPOINT); [by apply Hfin|].
  apply wpx_bind, wpx_rd; [done|]. apply wpx_bind, wpx_rd; [done|].
  destruct (will_receive _ _ && _) eqn:Ew.
  - apply andb_true_iff in Ew as [Ew _]. apply will_receive_bits in Ew as [Er Es].
    apply wpx_bind. eapply wpx_conseq; [apply QueueMess_good; [apply G2|done]|].
    intros q s3 [G3' _]. pose proof (good_trans _ _ _ G2 G3') as G3. apply wpx_bind.
    apply wpx_when; intros _; [|by apply Hfin].
    eapply wpx_conseq; [apply RTS_UNSET_good; [apply G3|done| |done..|]|].
    + by rewrite (weak_free s2 s3) by apply G3'.
    + right. rewrite (weak_sending s2 s3) by apply G3'. exact Es.
    + intros u s4 [G4 _]. apply Hfin. by eapply good_trans.
  - apply wpx_bind, (wpx_wr_acc _ _ _ _ s); [done|done|by apply keeps_misc_set|].
    intros s3 G3. by apply wpx_ret.
Qed.

Lemma mini_senda_good s caller table size :
  ipc_inv s -> slot caller -> is_free s caller = false ->
  wpx E (mini_senda caller table size) (fun _ s' => good s s') s.
Proof.
  intros Hi Hc Hf. unfold mini_senda. apply wpx_bind, wpx_priv_live; [done..|].
  intros pr _ Hpr _ _. apply wpx_bind, wpx_rdp; [done|].
  destruct (negb _); [apply wpx_ret; by apply good_refl|].
  apply wpx_bind, wpx_wrp_keep; [done..|]. intros s1 G1 _.
  apply wpx_bind, wpx_wrp_keep; [apply G1|done..|]. intros s2 G2' _.
  pose proof (good_trans _ _ _ G1 G2') as G2. clear G1 G2'.
  destruct (size =? 0); [by apply wpx_ret|]. apply wpx_bind, umap_local_wp; [done..|].
  intros lin. destruct (lin =? 0); [by apply wpx_ret|]. destruct (_ <? size); [by apply wpx_ret|].
  apply wpx_bind, wpx_rd; [done|]. apply wpx_bind.
  eapply (wpx_fold_exit E (fun _ s' => good s s')); [done| |].
  - intros a i s3 G3 _. eapply wpx_conseq; [apply senda_entry_good; [apply G3|done|]|].
    + by rewrite (weak_free s s3) by apply G3.
    + intros [a'|v] s4 G4; [by eapply good_trans|]. apply wpx_ret. by eapply good_trans.
  - intros a s3 G3. apply wpx_bind, wpx_when; intros _; [|by apply wpx_ret].
    apply wpx_bind, wpx_wrp_keep; [apply G3|done..|]. intros s4 G4 _.
    apply wpx_wrp_keep; [apply G4|done..|]. intros s5 G5 _. apply wpx_ret.
    eapply good_trans; [done|by eapply good_trans].
Qed.

Lemma misc_set_good s rp f (Q : unit -> kstate -> Prop) :
  ipc_inv s -> slot rp ->
  Z.testbit f 1 = false -> Z.testbit f 2 = false -> Z.testbit f 7 = false -> signals 9 f = false ->
  (forall s', good s s' -> Q tt s') -> wpx E (set_misc rp f) Q s.
Proof. intros Hi Hr H1 H2 H7 H9 HQ. apply wpx_wr_keep; [done|done|by apply keeps_misc_set|done]. Qed.

Lemma misc_clear_good s rp f (Q : unit -> kstate -> Prop) :
  ipc_inv s -> slot rp -> (forall s', good s s' -> Q tt s') -> wpx E (clear_misc rp f) Q s.
Proof. intros Hi Hr HQ. apply wpx_wr_keep; [done|done|apply keeps_misc_clear|done]. Qed.

(** A trap on entry replaces one tracing flag by the other. *)
Lemma trap_good s rp :
  ipc_inv s -> signals 9 (p_misc_flags (k_proc s rp)) = true ->
  good s (upd_proc rp (fun p => set_p_misc_flags (flag_set (p_misc_flags p) MF_SC_DEFER) p)
    (upd_proc rp (fun p => set_p_misc_flags (flag_clear (p_misc_flags p) MF_SC_TRACE) p) s)).
Proof.
  intros Hi Hs. apply quiet_good; [done| |done].
  set (f := fun p : proc => _ : proc). set (g := fun p : proc => _ : proc).
  assert (Hk : forall q, k_proc (upd_proc rp f (upd_proc rp g s)) q = k_proc s q \/
    (q = rp /\ k_proc (upd_proc rp f (upd_proc rp g s)) q = f (g (k_proc s q)))).
  { intros q. destruct (decide (rp = q)) as [->|]; [right|left]; [by rewrite !upd_proc_eq|by rewrite !upd_proc_ne]. }
  split; try done; try (intros q; destruct (Hk q) as [->|[_ ->]]; done).
  intros q. destruct (Hk q) as [->|[-> ->]]; [done|]. intros n Hn.
  destruct (decide (n = 9)) as [->|Hn9]; [done|]. intros H. unfold f in H. cbn [p_misc_flags set_p_misc_flags] in H.
  rewrite signals_set in H; [by apply signals_clear in H|].
  by destruct Hn as [->|[->|[->| ->]]].
Qed.

Lemma traced_sig mf : Z.land mf (Z.lor MF_SC_TRACE MF_SC_DEFER) = MF_SC_TRACE -> signals 9 mf = true.
Proof.
  intros Ht. apply (f_equal (fun v => Z.testbit v 10)) in Ht. rewrite Z.land_spec in Ht.
  apply andb_true_iff in Ht as [H _]. unfold signals. rewrite H. apply orb_true_r.
Qed.

Lemma trace_enter_good s caller :
  ipc_inv s -> slot caller -> is_free s caller = false ->
  (caller = PM_PROC_NR -> flag_any (p_misc_flags (k_proc s caller)) MF_SC_TRACE = true -> E) ->
  (is_free s PM_PROC_NR = true -> E) ->
  wpx E (trace_enter caller) (fun _ s' => good s s') s.
Proof.
  intros Hi Hc Hf HE1 HE2. unfold trace_enter. apply wpx_bind, wpx_rd; [done|].
  destruct (flag_any _ (Z.lor MF_SC_TRACE MF_SC_DEFER)); [|apply wpx_ret; by apply good_refl].
  destruct (Z.eqb_spec (Z.land (p_misc_flags (k_proc s caller)) (Z.lor MF_SC_TRACE MF_SC_DEFER))
              MF_SC_TRACE) as [Ht|].
  - apply wpx_bind, wpx_wr; [done|]. apply wpx_bind, wpx_wr; [done|]. set (s2 := upd_proc _ _ (upd_proc _ _ s)).
    assert (G2 : good s s2) by (apply trap_good; [done|]; by rewrite (traced_sig _ Ht)). clearbody s2.
    apply wpx_bind, wpx_rd; [done|]. rewrite (iw_nr s2) by (done || apply G2).
    apply wpx_bind. eapply wpx_conseq; [apply cause_sig_good; [apply G2|done| | |]|].
    + by rewrite (weak_free s s2) by apply G2.
    + intros Hpm. apply HE1; [done|]. change MF_SC_TRACE with (2 ^ 10) in *.
      rewrite flag_any_bit by lia. apply (f_equal (fun v => Z.testbit v 10)) in Ht.
      rewrite Z.land_spec in Ht. change (Z.testbit (2 ^ 10) 10) with true in Ht.
      by apply andb_true_iff in Ht as [? _].
    + rewrite (weak_free s s2) by apply G2. done.
    + intros u s3 G3. apply wpx_ret. by eapply good_trans.
  - apply wpx_bind, misc_clear_good; [done..|]. intros s1 G1.
    apply wpx_bind, misc_set_good; [apply G1|done..|]. intros s2 G2. apply wpx_ret.
    by eapply good_trans.
Qed.

(** The processes a call may name: not the caller itself. *)
Definition peer_ok (s : kstate) (caller e : Z) : Prop :=
  slot (_ENDPOINT_P e) /\ is_free s (_ENDPOINT_P e) = false /\
  endpt s (_ENDPOINT_P e) = e /\ _ENDPOINT_P e <> caller.

Lemma peer_ok_frame s s' caller e : call_frame s s' -> peer_ok s caller e -> peer_ok s' caller e.
Proof. intros F. unfold peer_ok. by rewrite (cf_free _ _ F), (cf_endpt _ _ F). Qed.

Lemma pm_panics_frame s s' : call_frame s s' -> pm_panics s' -> pm_panics s.
Proof.
  intros F [Hf|Hd]; [left|right; by apply (no_new_delayed _ _ (cf_delay _ _ F _))]. by rewrite <- (cf_free _ _ F).
Qed.

(** The caller is live and not blocked. *)
Definition ready_caller (s : kstate) (caller : Z) : Prop :=
  alive s caller /\ sending s caller = false /\ receiving s caller = false.

Lemma ready_good s s' caller : good s s' -> ready_caller s caller -> ready_caller s' caller.
Proof.
  intros [_ Hw] (Ha & Hs & Hr). split; [by apply (weak_alive s s' Hw)|].
  rewrite (weak_sending s s' Hw). split; [done|].
  by destruct (is_recv _ _ Hw caller) as [->|[_ ->]].
Qed.

Lemma do_ipc_frame s caller call_nr e m_ptr :
  ipc_inv s -> ready_caller s caller -> (pm_panics s -> E) ->
  (call_nr <> SENDA -> (e = ANY /\ call_nr = RECEIVE) \/ peer_ok s caller e) ->
  wpx E (do_ipc caller call_nr e m_ptr) (fun _ s' => call_frame s s') s.
Proof.
  intros Hi Hrc HE Hpeer. pose proof Hrc as ((Hc & Hf & _) & _ & _). unfold do_ipc.
  assert (Hrcv : forall s1 src_e, call_frame s s1 -> sent_to s1 caller src_e ->
    (src_e <> ANY -> peer_ok s1 caller src_e) ->
    wpx E (mini_receive caller src_e m_ptr 0) (fun _ s' => call_frame s s') s1).
  { intros s1 src_e F1 T1 P1. eapply wpx_conseq; [apply mini_receive_wp; try done|].
    - apply F1.
    - apply (cf_alive _ _ F1), Hrc.
    - intros Hp. by apply HE, (pm_panics_frame s s1).
    - intros r s2 F2. by eapply call_frame_trans. }
  assert (Hsnd : forall s1 fl, good s s1 -> peer_ok s caller e ->
    wpx E (mini_send caller e (PVir m_ptr) fl)
      (fun _ s' => call_frame s s' /\ sent_to s' caller e) s1).
  { intros s1 fl G1 P0. pose proof (ready_good s s1 caller G1 Hrc) as ((_ & Hf1 & _) & Hs1 & Hr1).
    destruct (peer_ok_frame s s1 caller e (good_frame _ _ G1) P0) as (P1 & P2 & P3 & P4).
    eapply wpx_conseq; [apply mini_send_wp; try done; apply G1|].
    intros r s2 [F2 T2]. split; [|done]. eapply call_frame_trans; [by apply good_frame|done]. }
  destruct (_ || (call_nr =? SEND)) eqn:Esr.
  - assert (Hp : peer_ok s caller e).
    { destruct Hpeer as [[_ ->]|]; [by intros ->|done|done]. }
    apply wpx_bind, (wpx_conseq E _ (fun _ s' => good s s')).
    { apply wpx_when; intros _; [by apply misc_set_good|by apply good_refl]. }
    intros u s1 G1. apply wpx_bind. eapply wpx_conseq; [by apply Hsnd|]. intros r s2 [F2 T2].
    destruct (_ || negb _); [by apply wpx_ret|]. apply Hrcv; [done..|]. intros _.
    by apply (peer_ok_frame s s2).
  - destruct (Z.eqb_spec call_nr RECEIVE) as [->|].
    { apply wpx_bind, misc_clear_good; [done..|]. intros s1 G1.
      pose proof (good_frame _ _ G1) as F1. apply Hrcv; [done| |].
      - apply (good_sent s); [done|apply Hrc..].
      - intros Ha. apply (peer_ok_frame s s1); [done|]. by destruct Hpeer as [[]|]. }
    destruct (call_nr =? NOTIFY).
    { eapply wpx_conseq; [by apply mini_notify_good|]. intros r s1 G1. by apply good_frame. }
    destruct (Z.eqb_spec call_nr SENDNB) as [->|].
    { eapply wpx_conseq; [apply Hsnd; [by apply good_refl|]|by intros r s1 [F1 _]].
      by destruct Hpeer as [[]|]. }
    destruct (call_nr =? SENDA).
    { eapply wpx_conseq; [by apply mini_senda_good|]. intros r s1 G1. by apply good_frame. }
    apply wpx_ret. by apply good_frame, good_refl.
Qed.

(** The destination that has been checked exists. *)
Lemma check_dst_wp s caller call_nr e :
  ipc_inv s -> slot caller -> is_free s caller = false ->
  (call_nr <> SENDA -> _ENDPOINT_P e <> caller) ->
  wpx E (check_dst caller call_nr e) (fun r s' => s' = s /\
    forall d, r = inr d -> call_nr <> SENDA -> (e = ANY /\ call_nr = RECEIVE) \/ peer_ok s caller e) s.
Proof.
  intros Hi Hc Hf Hne. unfold check_dst.
  destruct (Z.eqb_spec call_nr SENDA) as [->|Hns]; [by apply wpx_ret|].
  destruct (Z.eqb_spec e ANY) as [->|Ha].
  { destruct (Z.eqb_spec call_nr RECEIVE) as [->|]; apply wpx_ret; split; try done.
    intros d _ _. by left. }
  apply wpx_bind, wpx_isokendpt; [|by apply wpx_ret]. intros d Hd Hfd He ->.
  assert (Hp : peer_ok s caller e) by (unfold peer_ok; split_all; auto).
  destruct (Z.eqb_spec call_nr RECEIVE); simpl; [apply wpx_ret; split; [done|]; intros; by right|].
  apply wpx_bind, may_send_to_wp; [done..|]. intros b. destruct b; apply wpx_ret; (split; [done|]);
    intros d' Hd' _; [by right|done].
Qed.

Lemma sys_call_frame s caller call_nr e m_ptr :
  ipc_inv s -> proc_ptr s = Some caller -> ready_caller s caller ->
  (call_nr <> SENDA -> _ENDPOINT_P e <> caller) ->
  (pm_panics s -> E) ->
  (caller = PM_PROC_NR -> flag_any (p_misc_flags (k_proc s caller)) MF_SC_TRACE = true -> E) ->
  wpx E (sys_call call_nr e m_ptr) (fun _ s' => call_frame s s') s.
Proof.
  intros Hi Hcur Hrc Hne HE HE2. pose proof Hrc as ((Hc & Hf & _) & _ & _).
  unfold sys_call. apply wpx_bind, wpx_gets. rewrite Hcur. apply wpx_bind, wpx_ret, wpx_bind.
  eapply wpx_conseq; [apply trace_enter_good; try done|].
  { intros Hp. apply HE. by left. }
  intros post s1 G1. pose proof (good_frame _ _ G1) as F1.
  destruct post; [by apply wpx_rd|]. apply wpx_bind.
  assert (Hf1 : is_free s1 caller = false) by by rewrite (cf_free _ _ F1).
  eapply wpx_conseq; [by apply check_dst_wp; [apply G1|..]|]. intros r s2 [-> Hr].
  destruct r as [err|dst]; [by apply wpx_ret|].
  destruct (_ || _); [by apply wpx_ret|]. apply wpx_bind, wpx_priv_live; [apply G1|done..|].
  intros pr _ Hpr _ _. apply wpx_bind, wpx_rdp; [done|].
  destruct (negb (Z.testbit _ _)); [by apply wpx_ret|]. destruct (_ && _); [by apply wpx_ret|].
  destruct (_ && _); [by apply wpx_ret|].
  eapply wpx_conseq; [apply do_ipc_frame; [apply G1|by eapply ready_good| |by eapply Hr]|].
  - intros Hp. by apply HE, (pm_panics_frame s s1).
  - intros v s3 F3. by eapply call_frame_trans.
Qed.

End top.
