(* ===== verification/Delivery.v ===== *)
(** * What message passing delivers

    The functional behaviour of the calls: a message sent to a process that
    waits for it arrives, with the sender's endpoint in it; a notification is
    delivered or stays pending; a receiver takes the first suitable sender of
    its queue. *)
From S2P Require Import Prelude PList KMonad Timers Types KState Memory Sched SchedInv.
From S2P Require Import Notify Copy Ipc IpcInv IpcSafe CopySafe IpcCalls IpcRecv.

Section delivery.
Context (E : Prop).

(** Unblocking the receiver leaves its message alone. *)
Lemma unblock_delivers s s1 dst ep bs :
  ipc_inv s1 -> good s s1 -> slot dst -> is_free s dst = false ->
  sending s dst = false -> length bs = MESSAGE_SIZE ->
  k_proc s1 dst = queued ep bs (k_proc s dst) ->
  wpx E (RTS_UNSET dst RTS_RECEIVING) (fun _ s' => good s s' /\ receiving s' dst = false /\
    has_message s' dst ep (bytes_message bs)) s1.
Proof.
  intros Hi1 G1 Hd Hfd Hsd Hl Hq. pose proof Hi1 as (Hs1 & Hc1 & _).
  assert (Hfd1 : is_free s1 dst = false) by by rewrite (weak_free s s1) by apply G1.
  eapply wpx_conseq; [apply RTS_UNSET_inv; [done..|by apply unset_ok_live; [apply Hc1|..]]|].
  intros u s2 [Hs2 R2]. pose proof (rts_frame _ _ _ _ R2) as F2.
  destruct (queued_has ep bs (k_proc s dst) Hl) as [Q1 Q2]. unfold has_message. split_all.
  - eapply good_trans; [done|]. eapply rts_step_good; [done..|].
    apply flags_ok_clear; try done; [apply Hc1|]. right. by rewrite (weak_sending s s1) by apply G1.
  - unfold receiving. rewrite (rts_self _ _ _ _ R2). change RTS_RECEIVING with (2 ^ 3).
    rewrite flag_clear_bit by lia. apply andb_false_r.
  - rewrite (frame_field p_misc_flags s1 s2), Hq by done. exact Q1.
  - rewrite (frame_field p_delivermsg s1 s2), Hq by done. exact Q2.
Qed.

(** The mapping of the message gives a buffer of which every byte is mapped. *)
Definition msg_mapped (s : kstate) (caller : Z) (m_ptr : msg_ptr) (src : msg_src) : Prop :=
  map_msg caller m_ptr s = Done (Some src) s /\ snd (src_bytes s src) = true.

Lemma mini_send_delivered s caller dst m_ptr fl src :
  ipc_inv s -> slot caller -> alive s dst ->
  will_receive (k_proc s dst) (endpt s caller) = true -> msg_mapped s caller m_ptr src ->
  wpx E (mini_send caller (endpt s dst) m_ptr fl) (fun r s' => r = OK /\ good s s' /\
    receiving s' dst = false /\
    has_message s' dst (endpt s caller) (bytes_message (fst (src_bytes s src)))) s.
Proof.
  intros Hi Hc (Hd & Hfd & Hnd) Hw [Hm Hok]. unfold mini_send.
  apply wpx_bind. eapply wpx_done; [exact Hm|].
  assert (Hed : _ENDPOINT_P (endpt s dst) = dst) by (apply iw_ep; [apply Hi|done]). rewrite Hed.
  apply wpx_bind. eapply wpx_done; [by apply no_endpoint_done|]. rewrite Hnd.
  apply wpx_bind, wpx_rd; [done|]. apply wpx_bind, wpx_rd; [done|].
  fold (endpt s caller). rewrite Hw. destruct (will_receive_bits _ _ Hw) as [_ Hs].
  apply wpx_bind.
  eapply wpx_conseq; [by apply wpx_and; [apply QueueMess_good|by apply QueueMess_exact]|].
  intros r s1 [[G1 _] [-> Hk]]. simpl. apply wpx_bind.
  eapply wpx_conseq; [eapply (unblock_delivers s s1 dst); [apply G1|done..| |]|].
  - by apply src_bytes_length.
  - by rewrite Hk, decide_True.
  - intros u s2 (G2 & Hr & Hh). by apply wpx_ret.
Qed.

(** ** Notifications *)

(** [d] has been told about [c]: the notification is in its hands or pending. *)
Definition notified (s : kstate) (d c : Z) : Prop :=
  (receiving s d = false /\ exists m, has_message s d (endpt s c) m) \/
  (exists i j, p_priv (k_proc s d) = Some i /\ p_priv (k_proc s c) = Some j /\
     get_sys_bit (s_notify_pending (k_priv s i)) j = true).

Lemma notify_pending s caller dst :
  ipc_inv s -> slot caller -> is_free s caller = false -> slot dst -> is_free s dst = false ->
  wpx E (do cp <- priv_of caller;
         do src_id <- rdp cp s_id;
         do dp <- priv_of dst;
         do! wrp dp (fun sp => set_s_notify_pending (set_sys_bit (s_notify_pending sp) src_id) sp);
         ret OK) (fun r s' => r = OK /\ good s s' /\ notified s' dst caller) s.
Proof.
  intros Hi Hc Hfc Hd Hfd. apply wpx_bind, wpx_priv_live; [done..|]. intros i Hpi Hi' Hn Hid.
  apply wpx_bind, wpx_rdp; [done|]. apply wpx_bind, wpx_priv_live; [done..|].
  intros j Hpj Hj _ _. apply wpx_bind, wpx_wrp; [done|]. apply wpx_ret. split_all; [done| |].
  - apply pend_set_good; [done..|]. by rewrite Hid.
  - right. exists j, i. split_all; [done..|]. simpl. rewrite fn_lookup_insert. simpl.
    rewrite get_set_sys_bit, Hid. by rewrite Z.eqb_refl.
Qed.

Lemma mini_notify_told s caller dst :
  ipc_inv s -> slot caller -> is_free s caller = false -> slot dst -> is_free s dst = false ->
  wpx E (mini_notify caller (endpt s dst))
    (fun r s' => r = OK /\ good s s' /\ notified s' dst caller) s.
Proof.
  intros Hi Hc Hfc Hd Hfd. unfold mini_notify.
  assert (Hed : _ENDPOINT_P (endpt s dst) = dst) by (apply iw_ep; [apply Hi|done]).
  apply wpx_bind. eapply wpx_done; [apply isokendpt_done|]. rewrite Hed, decide_True by done.
  apply wpx_bind, wpx_rd; [done|]. apply wpx_bind, wpx_rd; [done|]. apply wpx_bind, wpx_rd; [done|].
  destruct (_ && _) eqn:Ew; [|by apply notify_pending].
  apply andb_true_iff in Ew as [Ew _]. apply will_receive_bits in Ew as [_ Es].
  apply wpx_bind, wpx_rd; [done|]. apply wpx_bind.
  eapply wpx_conseq; [by apply BuildNotifyMessage_good|]. intros m s1 [G1 P1]. apply wpx_bind.
  eapply wpx_conseq; [by apply wpx_and; [apply QueueMess_good; [apply G1|]|
    apply QueueMess_exact; [apply G1| |]]|].
  intros r s2 [[G2 _] [-> Hk]]. simpl. apply wpx_bind.
  assert (Hfd1 : is_free s1 dst = false) by by rewrite (weak_free s s1) by apply G1.
  eapply wpx_conseq; [eapply (unblock_delivers s1 s2 dst); [apply G2|done..| | |]|].
  - by rewrite (weak_sending s s1) by apply G1.
  - by apply (src_bytes_length s1 (MKern m)).
  - by rewrite Hk, decide_True.
  - intros u s3 (G3 & Hr & Hh). apply wpx_ret. pose proof (good_trans _ _ _ G1 G3) as G.
    split_all; [done|done|]. left. split; [done|]. eexists.
    rewrite (weak_endpt s s3) by apply G. exact Hh.
Qed.

(** ** Every outcome of [mini_send] *)

(** The message is copied into the blocked sender's [p_sendmsg]. *)
Record send_waits (s s' : kstate) (C : Z -> list Z) (caller dst : Z) (src : msg_src) : Prop :=
  mk_send_waits {
  sw_frame : call_frame s s';
  sw_flags : sending s' caller = true /\ receiving s' caller = false;
  sw_other p : p <> caller -> sending s' p = sending s p;
  sw_to : p_sendto_e (k_proc s' caller) = endpt s dst;
  sw_queue : cq_inv s' (<[dst := C dst ++ [caller]]> C);
  sw_msg : p_sendmsg (k_proc s' caller) = bytes_message (fst (src_bytes s src)) }.

Definition sender_ok (s : kstate) (caller dst : Z) : Prop :=
  slot caller /\ is_free s caller = false /\ sending s caller = false /\
  receiving s caller = false /\ slot dst /\ is_free s dst = false /\ dst <> caller.

(** No cycle is excused: a partner that receives from the caller would have been
    served before. *)
Lemma send_deadlock s caller dst :
  ipc_inv s -> slot caller -> slot dst -> dst <> caller ->
  will_receive (k_proc s dst) (endpt s caller) = false ->
  exists r, deadlock SEND caller dst s = Done r s /\ (r = 0 <-> ~ rtc (W s) dst caller).
Proof.
  intros (_ & Hcore & _) Hc Hd Hne Hw.
  destruct (deadlock_done s SEND caller dst) as (r & Hr & H1 & H0); [done..|].
  exists r. split; [done|]. split.
  - intros Hr0. destruct (H0 Hr0) as [|[Hwt He]]; [done|]. exfalso. rewrite excused_bit in He by done.
    destruct (sending s dst) eqn:Esd; [done|].
    pose proof (waits_will_receive s dst caller Hcore Hd Hc Esd Hwt). congruence.
  - intros Hn. destruct (decide (r = 0)) as [|Hz]; [done|]. by destruct (Hn (H1 Hz)).
Qed.

Lemma mini_send_blocks s C caller dst m_ptr fl src :
  ipc_inv s -> cq_inv s C -> sender_ok s caller dst -> no_endpoint s dst = false ->
  will_receive (k_proc s dst) (endpt s caller) = false -> flag_any fl NON_BLOCKING = false ->
  ~ rtc (W s) dst caller -> msg_mapped s caller m_ptr src ->
  wpx E (mini_send caller (endpt s dst) m_ptr fl)
    (fun r s' => r = OK /\ send_waits s s' C caller dst src) s.
Proof.
  intros Hi HC (Hc & Hfc & Hsc & Hrc & Hd & Hfd & Hne) Hnd Hw Hnb Hcyc [Hm Hok]. unfold mini_send.
  apply wpx_bind. eapply wpx_done; [exact Hm|].
  assert (Hed : _ENDPOINT_P (endpt s dst) = dst) by (apply iw_ep; [apply Hi|done]). rewrite Hed.
  apply wpx_bind. eapply wpx_done; [by apply no_endpoint_done|]. rewrite Hnd.
  apply wpx_bind, wpx_rd; [done|]. apply wpx_bind, wpx_rd; [done|].
  fold (endpt s caller). rewrite Hw, Hnb.
  destruct (send_deadlock s caller dst Hi Hc Hd Hne Hw) as (r & Hr & Hr0).
  apply wpx_bind. eapply wpx_done; [exact Hr|]. rewrite (proj2 Hr0 Hcyc). simpl.
  apply wpx_bind, wpx_gets. fold (src_bytes s src). apply wpx_bind, wpx_wr; [done|]. rewrite Hok. simpl.
  set (f := fun p => set_p_sendmsg (overwrite (fst (src_bytes s src)) (p_sendmsg p)) p).
  assert (Hk : keeps f) by done. pose proof (good_upd_proc caller f s Hi Hk) as G.
  set (s1 := upd_proc caller f s) in *. destruct G as [Hi1 W1].
  rewrite <- (weak_endpt s s1 W1 dst). eapply wpx_conseq; [apply (send_block_wp E s1 C caller dst); try done|].
  - by apply (weak_cq s s1).
  - by rewrite (weak_free s s1).
  - by rewrite (weak_sending s s1).
  - by destruct (is_recv _ _ W1 caller) as [->|[_ ->]].
  - by apply (weak_alive s s1).
  - intros Hrtc. by apply Hcyc, (weak_rtc s s1).
  - intros r' s' [-> [F Hfl Ho Ht HQ Hmsg]]. split; [done|].
    split; [|done|intros p Hp; by rewrite (Ho p Hp), (weak_sending s s1)|by rewrite Ht, (weak_endpt s s1)|done|].
    + by apply (call_frame_trans s s1); [apply good_frame|].
    + rewrite Hmsg. unfold s1. rewrite upd_proc_eq. unfold f. cbn [p_sendmsg set_p_sendmsg].
      apply overwrite_whole. by apply src_bytes_length.
Qed.

(** The refusals, which leave the state as it is. *)
Lemma mini_send_refused s caller dst m_ptr fl src :
  ipc_inv s -> sender_ok s caller dst -> msg_mapped s caller m_ptr src ->
  (no_endpoint s dst = true -> mini_send caller (endpt s dst) m_ptr fl s = Done EDSTDIED s) /\
  (no_endpoint s dst = false -> will_receive (k_proc s dst) (endpt s caller) = false ->
     (flag_any fl NON_BLOCKING = true -> mini_send caller (endpt s dst) m_ptr fl s = Done ENOTREADY s) /\
     (flag_any fl NON_BLOCKING = false -> rtc (W s) dst caller ->
        mini_send caller (endpt s dst) m_ptr fl s = Done ELOCKED s)).
Proof.
  intros Hi (Hc & Hfc & Hsc & Hrc & Hd & Hfd & Hne) [Hm Hok]. unfold mini_send.
  assert (Hed : _ENDPOINT_P (endpt s dst) = dst) by (apply iw_ep; [apply Hi|done]).
  rewrite (bind_done _ _ _ _ _ Hm), Hed, (bind_done _ _ _ _ _ (no_endpoint_done dst s Hd)).
  split; [by intros ->|]. intros -> Hw.
  rewrite (bind_done _ _ _ _ _ (rd_done caller p_endpoint s Hc)).
  unfold WILLRECEIVE. rewrite (bind_done _ _ _ _ _ (rd_done dst _ s Hd)). fold (endpt s caller).
  rewrite Hw. split; [by intros ->|]. intros -> Hcyc.
  destruct (send_deadlock s caller dst Hi Hc Hd Hne Hw) as (r & Hr & Hr0).
  rewrite (bind_done _ _ _ _ _ Hr). destruct (Z.eqb_spec r 0) as [->|]; [|done].
  by destruct (proj1 Hr0 eq_refl Hcyc).
Qed.

End delivery.
