(* ===== verification/Clock.v ===== *)
(** * The clock (kernel/clock.c, system/do_vtimer.c)

    The timer interrupt: accounting, virtual timers, load average and the end of
    a quantum; the watchdogs of the kernel's timers; the CLOCK task that runs
    them. *)
From S2P Require Import Prelude PList KMonad Timers Types KState Sched Notify.

Definition _LOAD_UNIT_SECS : Z := 6.
Definition _LOAD_HISTORY : Z := 15 * 60 / _LOAD_UNIT_SECS.

(** ** Watchdogs *)

Definition timer_arg (s : kstate) (tp : tmr_ref) : Z := tmr_arg (tm (clock_timers s) tp).

(** [cause_alarm] (do_setalarm.c): the timer's argument is an endpoint. *)
Definition cause_alarm (tp : tmr_ref) : K unit :=
  do proc_nr_e <- gets (fun s => timer_arg s tp);
  do! lock_notify CLOCK proc_nr_e;
  ret tt.

(** [reach_deadline] (do_chdeadline.c): the timer's argument is a process number. *)
Definition reach_deadline (time_p : tmr_ref) : K unit :=
  do nr <- gets (fun s => timer_arg s time_p);
  cause_sig nr SIGTERM.

(** Call the watchdog stored in a timer; [minix_shutdown] stops the kernel. *)
Definition run_watchdog (f : watchdog) (tp : tmr_ref) : K unit :=
  match f with
  | W_none => stuck NullDeref
  | W_balance_queues => balance_queues
  | W_cause_alarm => cause_alarm tp
  | W_reach_deadline => reach_deadline tp
  | W_minix_shutdown => panic "minix_shutdown"
  end.

(** ** [load_update] *)

(** The length of a ready queue, by following its links. *)
Definition count_queue (acc q : Z) : K Z :=
  do h <- rd_head q;
  do r <- scan (R:=Empty_set) PROC_FUEL h acc (fun n _ => ret (inl (n + 1)));
  match r with inl n => ret n | inr v => match v with end end.

Definition load_slot (s : kstate) : Z :=
  (u32 (realtime s) / system_hz s / _LOAD_UNIT_SECS) mod _LOAD_HISTORY.

Definition load_update : K unit :=
  do hz <- gets system_hz;
  do! when (hz =? 0) (stuck DivByZero);
  do slot <- gets load_slot;
  do last <- gets load_last_slot;
  do! when (negb (slot =? last)) (
    do! modify (fun s => set_load_history (<[slot := 0]> (load_history s)) s);
    modify (set_load_last_slot slot));
  do enqueued <- fold_each (seqZ 0 NR_SCHED_QUEUES) 0 count_queue;
  do! modify (fun s =>
        set_load_history (<[slot := u16 (load_history s slot + enqueued)]> (load_history s)) s);
  modify (fun s => set_load_last_clock (realtime s) s).

(** ** [vtimer_check] (do_vtimer.c) *)

Definition vtimer_check (rp : Z) : K unit :=
  do mf <- rd rp p_misc_flags;
  do left <- rd rp p_virt_left;
  do! when (flag_any mf MF_VIRT_TIMER && (left <=? 0)) (
    do! wr rp (fun p => set_p_misc_flags (flag_clear (p_misc_flags p) MF_VIRT_TIMER) p);
    do! wr rp (set_p_virt_left 0);
    do nr <- rd rp p_nr;
    cause_sig nr SIGVTALRM);
  do mf <- rd rp p_misc_flags;
  do left <- rd rp p_prof_left;
  when (flag_any mf MF_PROF_TIMER && (left <=? 0)) (
    do! wr rp (fun p => set_p_misc_flags (flag_clear (p_misc_flags p) MF_PROF_TIMER) p);
    do! wr rp (set_p_prof_left 0);
    do nr <- rd rp p_nr;
    cause_sig nr SIGPROF).

(** ** [ap_timer_int_handler] *)

(** The charge for a tick: user time and quantum of the current process, system
    time and quantum of the billed one when the current one is not billable. *)
Definition charge_user (ticks : Z) (p : proc) : proc :=
  set_p_user_time (i32 (p_user_time p + ticks)) p.
Definition charge_quantum (ticks : Z) (p : proc) : proc :=
  set_p_ticks_left (i8 (p_ticks_left p - ticks)) p.
Definition charge_sys (ticks : Z) (p : proc) : proc :=
  set_p_sys_time (i32 (p_sys_time p + ticks)) p.
Definition charge_virt (ticks : Z) (p : proc) : proc :=
  set_p_virt_left (i32 (p_virt_left p - ticks)) p.
Definition charge_prof (ticks : Z) (p : proc) : proc :=
  set_p_prof_left (i32 (p_prof_left p - ticks)) p.

Definition ap_timer_int_handler : K Z :=
  let ticks := 1 in
  do p <- gets proc_ptr;
  do p <- from_ptr p;
  do billp <- gets bill_ptr;
  do! wr p (charge_user ticks);
  do pr <- priv_of p;
  do fl <- rdp pr s_flags;
  do! when (flag_any fl PREEMPTIBLE) (wr p (charge_quantum ticks));
  do! when (negb (flag_any fl BILLABLE)) (
    do b <- from_ptr billp;
    do! wr b (charge_sys ticks);
    wr b (charge_quantum ticks));
  do mf <- rd p p_misc_flags;
  do! when (flag_any mf MF_VIRT_TIMER) (wr p (charge_virt ticks));
  do! when (flag_any mf MF_PROF_TIMER) (wr p (charge_prof ticks));
  do! when (negb (flag_any fl BILLABLE)) (
    do b <- from_ptr billp;
    do mfb <- rd b p_misc_flags;
    when (flag_any mfb MF_PROF_TIMER) (wr b (charge_prof ticks)));
  do! vtimer_check p;
  do b <- from_ptr billp;
  do! when (negb (p =? b)) (vtimer_check b);
  do! load_update;
  do rts <- rd p p_rts_flags;
  do left <- rd p p_ticks_left;
  do! when ((rts =? 0) && (left <=? 0) && flag_any fl PREEMPTIBLE) (RTS_SET p RTS_NO_QUANTUM);
  ret 1.

(** ** [bsp_timer_int_handler] *)

Definition bsp_timer_int_handler : K Z :=
  do panicing <- gets minix_panicing;
  if negb (panicing =? 0) then ret 0
  else
    do lost <- gets lost_ticks;
    let ticks := u32 (lost + 1) in
    do! modify (set_lost_ticks 0);
    do! modify (fun s => set_realtime (i32 (realtime s + ticks)) s);
    do! ap_timer_int_handler;
    do nt <- gets next_timeout;
    do now <- gets realtime;
    do! when (nt <=? now) (do r <- mini_notify HARDWARE CLOCK; ret tt);
    ret 1.

(** ** The CLOCK task *)

Definition init_clock : K unit := balance_queues.

(** What the task does with a message it has received. *)
Definition clock_message (m : message) : K unit :=
  if is_notify (m_type m) then
    if _ENDPOINT_P (m_source m) =? HARDWARE then
      do now <- gets realtime;
      do! tmrs_exptimers clock_timers set_clock_timers run_watchdog TIMER_FUEL now;
      modify (fun s => set_next_timeout (first_timeout (clock_timers s)) s)
    else ret tt
  else ret tt.

(** [prepare_shutdown] (main.c). *)
Definition prepare_shutdown (how : Z) : K unit :=
  do! ztmr (modify (upd_tm TShutdown (set_tmr_arg how)));
  do up <- get_uptime;
  do hz <- gets system_hz;
  set_timer TShutdown (i32 (up + hz)) W_minix_shutdown.
