(* ===== verification/ClockSafe.v ===== *)
(** * The clock keeps the invariant of the kernel

    A timer interrupt, and the watchdogs the CLOCK task runs: they return, and
    keep the ready queues, message passing and the queue of timers intact. *)
From S2P Require Import Prelude PList KMonad Timers Types KState TimerIface Memory Sched SchedInv.
From S2P Require Import Balance PickProc Notify Copy Ipc IpcInv IpcSafe CopySafe IpcTop.
From S2P Require Import Delivery Clock.

(** ** [load_update] *)

(** The number of ready processes. *)
Definition ready_count (Q : Z -> list Z) : Z :=
  Z.of_nat (length (ready_list Q (seqZ 0 NR_SCHED_QUEUES))).

(** The state after a sample of [n] ready processes. *)
Definition load_after (n : Z) (s : kstate) : kstate :=
  let slot := load_slot s in
  let h := if slot =? load_last_slot s then load_history s else <[slot := 0]> (load_history s) in
  set_load_last_clock (realtime s)
    (set_load_history (<[slot := u16 (h slot + n)]> h) (set_load_last_slot slot s)).

Lemma count_scan l n :
  scan_list (R:=Empty_set) (fun n _ => inl (n + 1)) l n = inl (n + Z.of_nat (length l)).
Proof. revert n. induction l as [|x l IH]; intros n; simpl; [f_equal; lia|]. rewrite IH. f_equal. lia. Qed.

Lemma count_queue_done s Q n q :
  rq_inv ∅ s Q -> queue_ok q -> count_queue n q s = Done (n + Z.of_nat (length (Q q))) s.
Proof.
  intros H Hq. unfold count_queue. rewrite (bind_done _ _ _ _ _ (rd_head_done q s Hq)).
  erewrite bind_done; [|apply (scan_queue (R:=Empty_set) (fun n _ => inl (n + 1)) _ ∅ s Q q); done].
  by rewrite count_scan.
Qed.

Lemma count_queues_done s Q qs n :
  rq_inv ∅ s Q -> (forall q, q ∈ qs -> queue_ok q) ->
  fold_each qs n count_queue s = Done (n + Z.of_nat (length (ready_list Q qs))) s.
Proof.
  intros H. revert n. induction qs as [|q qs IH]; intros n Hqs; cbn [fold_each].
  - unfold ret. f_equal. unfold ready_list. simpl. lia.
  - rewrite (bind_done _ _ _ _ _ (count_queue_done s Q n q H ltac:(set_solver))).
    rewrite IH by set_solver. f_equal. unfold ready_list. simpl. rewrite length_app. lia.
Qed.

Lemma load_update_done s Q :
  rq_inv ∅ s Q -> 0 < system_hz s -> load_update s = Done tt (load_after (ready_count Q) s).
Proof.
  intros H Hz. unfold load_update, load_after. unfold bind at 1, gets at 1.
  rewrite (proj2 (Z.eqb_neq (system_hz s) 0)) by lia. unfold when at 1, ret at 1.
  unfold bind at 1. unfold bind at 1, gets at 1. unfold bind at 1, gets at 1.
  assert (Hqs : forall q, q ∈ seqZ 0 NR_SCHED_QUEUES -> queue_ok q) by (intros q; by apply queues_ok).
  destruct (Z.eqb_spec (load_slot s) (load_last_slot s)) as [He|Hne]; simpl.
  - unfold bind at 1, ret at 1.
    rewrite (bind_done _ _ _ _ _ (count_queues_done s Q _ 0 H Hqs)).
    unfold bind, modify. f_equal. rewrite He. by destruct s.
  - unfold bind at 1. unfold bind at 1, modify at 1 2.
    set (s1 := set_load_last_slot _ _). assert (H1 : rq_inv ∅ s1 Q) by (destruct H; by split).
    rewrite (bind_done _ _ _ _ _ (count_queues_done s1 Q _ 0 H1 Hqs)).
    unfold bind, modify. done.
Qed.

(** ** The timer interrupt *)

Lemma RTS_SET_good E s rp f n :
  ipc_inv s -> slot rp -> is_free s rp = false -> 0 < n -> Z.testbit f n = true ->
  Z.testbit f 0 = false -> Z.testbit f 2 = false -> Z.testbit f 3 = false ->
  Z.testbit f 8 = false ->
  wpx E (RTS_SET rp f) (fun _ s' => good s s' /\ flags s' rp = flag_set (flags s rp) f) s.
Proof.
  intros Hi Hrp Hf Hn Hb B0 B2 B3 B8. pose proof Hi as (Hs & _).
  eapply wpx_conseq; [apply RTS_SET_inv; [done..|]|].
  - intros ->. by rewrite Z.testbit_0_l in Hb.
  - intros u s' [Hs' Hr]. split; [|apply Hr]. eapply rts_step_good; [done..|].
    by apply (flags_ok_set _ _ _ n).
Qed.

Lemma keeps_charge_quantum ticks : keeps (charge_quantum ticks).
Proof.
  intros x. split_all; try done. intros [Hq _]. split; [exact Hq|]. apply i8_range.
Qed.
#[export] Hint Resolve keeps_charge_quantum : core.

(** A virtual timer of the process is running. *)
Definition vtimed (s : kstate) (p : Z) : bool :=
  flag_any (p_misc_flags (k_proc s p)) MF_VIRT_TIMER ||
  flag_any (p_misc_flags (k_proc s p)) MF_PROF_TIMER.

Section tick.
Context (E : Prop).

(** A timer that has run out: it is stopped and the process signalled. *)
Lemma vtimer_expire_good s rp f sig (g : proc -> proc) :
  ipc_inv s -> slot rp -> is_free s rp = false -> keeps g ->
  (rp = PM_PROC_NR -> E) -> (is_free s PM_PROC_NR = true -> E) ->
  wpx E (do! wr rp (fun p => set_p_misc_flags (flag_clear (p_misc_flags p) f) p);
         do! wr rp g;
         do nr <- rd rp p_nr;
         cause_sig nr sig) (fun _ s' => good s s') s.
Proof.
  intros Hi Hrp Hf Hg H1 H2. apply wpx_bind, wpx_wr_keep; [done|done|apply keeps_misc_clear|].
  intros s1 G1. apply wpx_bind, (wpx_wr_acc _ _ _ _ s); [done..|]. intros s2 G2.
  apply wpx_bind, wpx_rd; [done|]. rewrite (iw_nr s2) by (done || apply G2).
  eapply wpx_conseq; [apply cause_sig_good; [apply G2|done| |done|]|].
  - by rewrite (weak_free s s2) by apply G2.
  - rewrite (weak_free s s2) by apply G2. done.
  - intros u s3 G3. by eapply good_trans.
Qed.

Lemma vtimer_check_good s rp :
  ipc_inv s -> slot rp -> is_free s rp = false ->
  (rp = PM_PROC_NR -> vtimed s rp = true -> E) -> (is_free s PM_PROC_NR = true -> E) ->
  wpx E (vtimer_check rp) (fun _ s' => good s s') s.
Proof.
  intros Hi Hrp Hf H1 H2. unfold vtimer_check, vtimed in *.
  apply wpx_bind, wpx_rd; [done|]. apply wpx_bind, wpx_rd; [done|].
  apply wpx_bind, (wpx_conseq E _ (fun _ s' => good s s' /\ ((rp = PM_PROC_NR -> E) \/ s' = s))).
  { apply wpx_when; intros Hb.
    - apply andb_true_iff in Hb as [Hb _]. rewrite Hb in H1.
      eapply wpx_conseq; [apply vtimer_expire_good; auto|]. { by intros x. }
      intros u s' G. split; [done|]. left. auto.
    - split; [by apply good_refl|by right]. }
  intros u s1 [G1 Hs1]. apply wpx_bind, wpx_rd; [done|]. apply wpx_bind, wpx_rd; [done|].
  apply wpx_when; intros Hb; [|done]. apply andb_true_iff in Hb as [Hb _].
  eapply wpx_conseq; [apply vtimer_expire_good; [apply G1|done| | | |]|].
  - by rewrite (weak_free s s1) by apply G1.
  - by intros x.
  - destruct Hs1 as [|E1]; [done|]. rewrite E1 in Hb. intros Hpm. apply H1; [done|].
    by rewrite Hb, orb_true_r.
  - rewrite (weak_free s s1) by apply G1. done.
  - intros u' s2 G2. by eapply good_trans.
Qed.

Lemma load_update_good s :
  ipc_inv s -> 0 < system_hz s ->
  wpx E load_update (fun _ s' => good s s' /\ k_proc s' = k_proc s) s.
Proof.
  intros Hi Hz. pose proof Hi as ([_ [Q HQ]] & _). eapply wpx_done; [by apply load_update_done|].
  split; [|done]. apply quiet_good; [done|by split|done].
Qed.

Lemma weak_vtimed s s' p : ipc_weak s s' -> vtimed s' p = true -> vtimed s p = true.
Proof.
  intros Hw. unfold vtimed. change MF_VIRT_TIMER with (2 ^ 1). change MF_PROF_TIMER with (2 ^ 2).
  rewrite !flag_any_bit, !orb_true_iff by lia. pose proof (is_delay _ _ Hw p) as H.
  intros [Hb|Hb]; [left; apply (H 1)|right; apply (H 2)]; auto.
Qed.

(** A tick may make the kernel panic only when PM is dead, or runs a virtual timer. *)
Definition tick_panics (s : kstate) : Prop :=
  is_free s PM_PROC_NR = true \/ vtimed s PM_PROC_NR = true.

Lemma vtimer_check_acc s0 s rp :
  good s0 s -> slot rp -> is_free s0 rp = false -> (tick_panics s0 -> E) ->
  wpx E (vtimer_check rp) (fun _ s' => good s0 s') s.
Proof.
  intros G Hrp Hf HE. eapply wpx_conseq; [apply vtimer_check_good; [apply G|done| | |]|].
  - by rewrite (weak_free s0 s) by apply G.
  - intros -> Hv. apply HE. right. by apply (weak_vtimed s0 s); [apply G|].
  - rewrite (weak_free s0 s) by apply G. intros. apply HE. by left.
  - intros u s' G'. by eapply good_trans.
Qed.

(** The accounting of a tick. *)
Lemma wr_acc_when b rp f s0 s :
  good s0 s -> slot rp -> keeps f -> wpx E (when b (wr rp f)) (fun _ s' => good s0 s') s.
Proof. intros G Hrp Hk. apply wpx_when; intros _; [|done]. by apply (wpx_wr_acc _ _ _ _ s0). Qed.

(** After a tick, the current process may go on only if its quantum is not used up. *)
Definition quantum_left (s' : kstate) (p fl : Z) : Prop :=
  flag_any fl PREEMPTIBLE = true -> flags s' p = 0 -> 0 < p_ticks_left (k_proc s' p).

Lemma tick_quantum s0 s p fl :
  good s0 s -> slot p -> is_free s0 p = false ->
  wpx E (do rts <- rd p p_rts_flags;
         do left <- rd p p_ticks_left;
         do! when ((rts =? 0) && (left <=? 0) && flag_any fl PREEMPTIBLE) (RTS_SET p RTS_NO_QUANTUM);
         ret 1) (fun _ s' => good s0 s' /\ quantum_left s' p fl) s.
Proof.
  intros G Hp Hf. apply wpx_bind, wpx_rd; [done|]. apply wpx_bind, wpx_rd; [done|].
  fold (flags s p). apply wpx_bind, wpx_when; intros Hb.
  - eapply wpx_conseq; [apply (RTS_SET_good E s p RTS_NO_QUANTUM 15); try done; [apply G|]|].
    + by rewrite (weak_free s0 s) by apply G.
    + intros u s' [G' Hfl]. apply wpx_ret. split; [by eapply good_trans|]. intros _.
      rewrite Hfl. intros H0. by apply flag_set_nonzero in H0.
  - apply wpx_ret. split; [done|]. intros Hpre Hfl. rewrite Hpre, Hfl in Hb. simpl in Hb.
    rewrite andb_true_r in Hb. by apply Z.leb_gt in Hb.
Qed.

Lemma ap_timer_int_handler_wp s p b :
  ipc_inv s -> proc_ptr s = Some p -> bill_ptr s = Some b -> slot b -> is_free s b = false ->
  0 < system_hz s -> (tick_panics s -> E) ->
  wpx E ap_timer_int_handler (fun _ s' => good s s' /\
    forall i, p_priv (k_proc s p) = Some i -> quantum_left s' p (s_flags (k_priv s i))) s.
Proof.
  intros Hi Hcur Hbill Hb Hfb Hz HE. pose proof Hi as (_ & [Hwf _ _ _] & _).
  destruct (iw_cur s Hwf p Hcur) as [Hp Hfp]. unfold ap_timer_int_handler.
  apply wpx_bind, wpx_gets. rewrite Hcur. apply wpx_bind, wpx_ret, wpx_bind, wpx_gets.
  rewrite Hbill. destruct (iw_priv s Hwf p Hp Hfp) as (i & Hpi & His & _).
  apply wpx_bind, wpx_wr; [done|].
  assert (G1 : good s (upd_proc p (charge_user 1) s)) by by apply good_upd_proc.
  assert (Hpi1 : p_priv (k_proc (upd_proc p (charge_user 1) s) p) = Some i)
    by by rewrite upd_proc_eq.
  assert (Hsp1 : k_priv (upd_proc p (charge_user 1) s) = k_priv s) by done.
  set (s1 := upd_proc p (charge_user 1) s) in *. clearbody s1.
  apply wpx_bind. eapply wpx_priv_of; [done|exact Hpi1|]. apply wpx_bind, wpx_rdp; [done|].
  rewrite Hsp1. set (fl := s_flags (k_priv s i)).
  apply wpx_bind. eapply wpx_conseq; [by apply (wr_acc_when _ p _ s)|]. clear s1 G1 Hpi1 Hsp1.
  intros u s2 G2. apply wpx_bind, (wpx_conseq E _ (fun _ s' => good s s')).
  { apply wpx_when; intros _; [|done]. apply wpx_bind, wpx_ret.
    apply wpx_bind, (wpx_wr_acc _ _ _ _ s); [done..|]. intros s3 G3.
    by apply (wpx_wr_acc _ _ _ _ s). }
  clear s2 G2. intros ? s2 G2. apply wpx_bind, wpx_rd; [done|].
  apply wpx_bind. eapply wpx_conseq; [by apply (wr_acc_when _ p _ s)|].
  intros ? s3 G3. apply wpx_bind. eapply wpx_conseq; [by apply (wr_acc_when _ p _ s)|].
  intros ? s4 G4. apply wpx_bind, (wpx_conseq E _ (fun _ s' => good s s')).
  { apply wpx_when; intros _; [|done]. apply wpx_bind, wpx_ret.
    apply wpx_bind, wpx_rd; [done|]. by apply wr_acc_when. }
  intros ? s5 G5. apply wpx_bind. eapply wpx_conseq; [by apply (vtimer_check_acc s)|].
  intros ? s6 G6. apply wpx_bind, wpx_ret, wpx_bind, (wpx_conseq E _ (fun _ s' => good s s')).
  { apply wpx_when; intros _; [|done]. by apply vtimer_check_acc. }
  intros ? s7 G7. apply wpx_bind. eapply wpx_conseq; [apply load_update_good; [apply G7|]|].
  { pose proof (is_glob _ _ (proj2 G7)) as Eg. unfold glob_view in Eg. congruence. }
  intros ? s8 [G8 _]. eapply wpx_conseq; [apply (tick_quantum s s8 p fl); [by eapply good_trans|done..]|].
  intros r s9 [G9 Hq]. split; [done|]. intros j Hj. assert (j = i) as -> by congruence. exact Hq.
Qed.

(** The state when the tick has been added to the time. *)
Definition time_passed (s : kstate) : kstate :=
  set_realtime (i32 (realtime s + u32 (lost_ticks s + 1))) (set_lost_ticks 0 s).

(** What a timer interrupt leaves. *)
Record ticked (s s' : kstate) : Prop := mk_ticked {
  tk_inv : ipc_inv s';
  tk_time : realtime s' = i32 (realtime s + u32 (lost_ticks s + 1)) /\ lost_ticks s' = 0;
  tk_timers : clock_timers s' = clock_timers s /\ next_timeout s' = next_timeout s;
  tk_good : good (time_passed s) s';
  tk_clock : next_timeout s <= realtime s' -> notified s' CLOCK HARDWARE }.

(** The kernel tasks the clock needs. *)
Definition clock_tasks (s : kstate) : Prop :=
  endpt s CLOCK = CLOCK /\ is_free s CLOCK = false /\ is_free s HARDWARE = false.

Lemma bsp_timer_int_handler_wp s b :
  ipc_inv s -> clock_tasks s -> minix_panicing s = 0 ->
  bill_ptr s = Some b -> slot b -> is_free s b = false ->
  0 < system_hz s -> (tick_panics s -> E) ->
  wpx E bsp_timer_int_handler (fun r s' => r = 1 /\ ticked s s') s.
Proof.
  intros Hi (Hce & Hcf & Hhf) Hpa Hbill Hb Hfb Hz HE. unfold bsp_timer_int_handler.
  apply wpx_bind, wpx_gets. rewrite Hpa. simpl.
  apply wpx_bind, wpx_gets. apply wpx_bind, wpx_modify. apply wpx_bind, wpx_modify.
  set (s1 := set_realtime _ _).
  assert (Hi1 : ipc_inv s1).
  { destruct Hi as ([[W1 W2 W3 W4] [Q [Q1 Q2 Q3 Q4]]] & [[I1 I2 I3 I4 I5 I6 I7 I8 I9] [P1 P2 P3] A [C [C1 C2 C3]]] & Hp).
    split; [split; [by split|exists Q; by split]|]. split; [|exact Hp].
    split; [by split|by split|exact A|exists C; by split]. }
  assert (exists p, proc_ptr s1 = Some p) as [p Hcur].
  { destruct Hi1 as ([[_ _ (c & i & Hc & _) _] _] & _). by exists c. }
  apply wpx_bind. eapply wpx_conseq; [by apply (ap_timer_int_handler_wp s1 p b)|].
  intros r s2 [G2 _]. pose proof (is_glob _ _ (proj2 G2)) as Eg. unfold glob_view in Eg.
  assert (Ht : realtime s2 = realtime s1 /\ next_timeout s2 = next_timeout s /\
    clock_timers s2 = clock_timers s /\ lost_ticks s2 = 0).
  { split_all; [congruence|transitivity (next_timeout s1)|transitivity (clock_timers s1)|
      transitivity (lost_ticks s1)]; congruence || done. }
  destruct Ht as (Ht1 & Ht2 & Ht3 & Ht4).
  apply wpx_bind, wpx_gets. apply wpx_bind, wpx_gets. rewrite Ht2. apply wpx_bind, wpx_when; intros Hdue.
  - assert (Hce2 : endpt s2 CLOCK = CLOCK) by by rewrite (weak_endpt s1 s2) by apply G2.
    rewrite <- Hce2 at 1. apply wpx_bind. eapply wpx_conseq.
    + apply mini_notify_told; [apply G2|done| |done|]; by rewrite (weak_free s1 s2) by apply G2.
    + intros r' s3 (_ & G3 & Hn). do 2 apply wpx_ret. split; [done|].
      pose proof (is_glob _ _ (proj2 G3)) as Eg3. unfold glob_view in Eg3. split.
      * apply G3.
      * split; [transitivity (realtime s2); [congruence|by rewrite Ht1]|congruence].
      * split; congruence.
      * by eapply good_trans.
      * done.
  - apply wpx_ret. split; [done|]. split; [apply G2| |by split|done|].
    + split; [by rewrite Ht1|done].
    + intros Hle. apply Z.leb_gt in Hdue. lia.
Qed.

End tick.
