(* ===== verification/ClockTask.v ===== *)
(** * The CLOCK task runs the watchdogs of the timers that are due

    [balance_queues], [cause_alarm] and [reach_deadline] keep the invariant of
    the kernel and make no other timer due, so that [tmrs_exptimers] ends with
    every remaining timer in the future. *)
From S2P Require Import Prelude PList KMonad Timers Types KState TimerIface Memory Sched SchedInv.
From S2P Require Import Balance PickProc Notify Copy Ipc IpcInv IpcSafe CopySafe IpcTop Clock ClockSafe.

(** ** [balance_queues] and message passing *)

Lemma preempt_weak s s1 :
  ipc_wf s -> sched_frame s s1 -> (forall p, preempt_only s s1 p) ->
  (forall p, char_ok s p -> char_ok s1 p) -> ipc_weak s s1.
Proof.
  intros Hwf F Hp Hch. pose proof F as [Hc _].
  assert (Hb : forall p, is_free s1 p = is_free s p /\
    forall n, 0 <= n -> n <> 14 -> Z.testbit (flags s1 p) n = Z.testbit (flags s p) n).
  { intros p. unfold is_free. destruct (Hp p) as [->|[Hcur ->]]; [done|].
    split; [|by intros; apply bit_preempted]. destruct (iw_cur s Hwf p Hcur) as [_ Hf].
    unfold is_free in Hf. by rewrite Hf, preempted_not_free. }
  split.
  - intros p. unfold ipc_view.
    rewrite (frame_field p_nr s s1), (frame_field p_priv s s1), (frame_field p_endpoint s s1),
      (frame_field p_caller_q s s1), (frame_field p_q_link s s1), (frame_field p_getfrom_e s s1),
      (frame_field p_sendto_e s s1) by done.
    fold (flags s1 p) (flags s p) (is_free s1 p) (is_free s p).
    destruct (Hb p) as [-> Hn]. by rewrite !Hn.
  - intros p. left. unfold receiving. by apply Hb.
  - intros i. by rewrite (core_priv s s1 Hc).
  - by apply core_proc_ptr.
  - by apply (core_field who_p).
  - by apply (core_field glob_view).
  - exact Hch.
  - intros p. apply no_new_sig_eq. by apply (frame_field p_misc_flags).
  - by apply core_lock.
Qed.

(** The invariant does not read the timers. *)
Lemma ipc_inv_timers st nt s :
  ipc_inv s -> ipc_inv (set_next_timeout nt (set_clock_timers st s)).
Proof.
  intros ([[W1 W2 W3 W4] [Q [Q1 Q2 Q3 Q4]]] &
    [[I1 I2 I3 I4 I5 I6 I7 I8 I9] [P1 P2 P3] A [C [C1 C2 C3]]] & Hp).
  split; [split; [by split|exists Q; by split]|]. split; [|exact Hp].
  split; [by split|by split|exact A|exists C; by split].
Qed.

Lemma ipc_inv_set_timers st s : ipc_inv s -> ipc_inv (set_clock_timers st s).
Proof.
  intros H. apply (ipc_inv_timers st (next_timeout s)) in H. by destruct s.
Qed.

(** ** The timers of the kernel *)

(** Every armed timer has the watchdog its owner installed, and a deadline belongs
    to a live process. *)
Definition timer_typed (s : kstate) (k : tmr_ref) : Prop :=
  let t := tm (clock_timers s) k in
  match k with
  | TDeadline n => tmr_func t = W_reach_deadline /\ tmr_arg t = n /\ slot n /\ is_free s n = false
  | TAlarm _ => tmr_func t = W_cause_alarm
  | TQueue => tmr_func t = W_balance_queues
  | TShutdown => tmr_func t = W_minix_shutdown
  end.

Record timers_ok (s : kstate) (l : list tmr_ref) : Prop := mk_timers_ok {
  to_q : timers_q s l;
  to_typed k : k ∈ l -> timer_typed s k }.

Section task.
(** [s0] is the state in which the CLOCK task is called. *)
Context (E : Prop) (s0 : kstate) (l0 : list tmr_ref).
(** The time does not come near the end of the range of [clock_t]. *)
Context (Hnow : 0 <= realtime s0 <= LONG_MAX - 66300).
(** The kernel stops if PM is dead, its deadline is reached, or it is shut down. *)
Context (HE1 : is_free s0 PM_PROC_NR = true -> E).
Context (HE2 : TDeadline PM_PROC_NR ∈ l0 -> E) (HE3 : TShutdown ∈ l0 -> E).

Record task_inv (s : kstate) (l : list tmr_ref) : Prop := mk_task_inv {
  ti_inv : ipc_inv s;
  ti_on : intr_off s = false;
  ti_now : realtime s = realtime s0;
  ti_ok : timers_ok s l;
  ti_sub k : k ∈ l -> k ∈ l0;
  ti_frame : turn_frame s0 s;
  ti_char p : slot p -> char_ok s p }.

(** The state when the timer [k] has been taken off the queue. *)
Lemma popped k s l :
  task_inv s (k :: l) ->
  task_inv (set_clock_timers (pop_head k (clock_timers s)) s) l /\
  timer_typed s k /\ k ∈ l0 /\
  (forall now, due now (pop_head k (clock_timers s)) l = due now (clock_timers s) l).
Proof.
  intros [T1 T2 T3 [[T4 T5] T6] T7 T8 T9]. destruct (pop_head_rep _ _ _ T4) as [Hr Hd].
  split_all; [|apply T6; set_solver|apply T7; set_solver|done].
  split; [by apply ipc_inv_set_timers|done|done| |set_solver|etrans; [done|apply turn_set_timers]|done].
  split; [split; [done|set_solver]|]. intros x Hx.
  assert (x <> k) by (destruct T4 as [_ Hn _]; apply NoDup_cons in Hn as [? _]; by intros ->).
  specialize (T6 x ltac:(set_solver)). unfold timer_typed in *. simpl.
  rewrite fn_lookup_insert_ne by done. exact T6.
Qed.

(** A step of message passing leaves the timers alone. *)
Lemma good_task s s' l : good s s' -> task_inv s l -> task_inv s' l.
Proof.
  intros [Hi W] [T1 T2 T3 [[T4 T5] T6] T7 T8 T9].
  pose proof (is_glob _ _ W) as Eg. unfold glob_view in Eg.
  assert (Ec : clock_timers s' = clock_timers s) by congruence.
  split; [done| | | |done| |].
  - destruct (is_lock _ _ W) as [-> _]. done.
  - transitivity (realtime s); [congruence|done].
  - split; [split; [by rewrite Ec|done]|]. intros k Hk. specialize (T6 k Hk).
    unfold timer_typed in *. rewrite Ec. destruct k; try done. by rewrite (weak_free s s' W).
  - etrans; [done|by apply weak_turn].
  - intros p Hp. by apply (is_char _ _ W), T9.
Qed.

Lemma good_due s s' l now :
  good s s' -> due now (clock_timers s') l = due now (clock_timers s) l.
Proof.
  intros [_ W]. pose proof (is_glob _ _ W) as Eg. unfold glob_view in Eg.
  by assert (clock_timers s' = clock_timers s) as -> by congruence.
Qed.

(** Balancing: the timer is armed again, in the future. *)
Lemma balance_task s l :
  task_inv s l -> TQueue ∉ l -> TQueue ∈ l0 ->
  wpx E balance_queues (fun _ s' => exists l', task_inv s' l' /\
    due (realtime s0) (clock_timers s') l' = due (realtime s0) (clock_timers s) l) s.
Proof.
  intros [T1 T2 T3 [T4 T6] T7 T8 T9] Hnq Hq0. pose proof T1 as (Hs & [Hwf _ _ _] & Hp).
  eapply wpx_conseq; [by apply (balance_queues_wp E s l)|].
  intros u s' [[B1 B2 (s1 & Hs1 & F1 & P1 & st & ->) B3 B4 (n & Hn & Hb & Hx & Hf & Ho)] Hl].
  pose proof (preempt_weak s s1 Hwf F1 P1 B4) as W1.
  assert (Hg : good s s1).
  { split; [|done]. split; [done|]. destruct T1 as (_ & Hc & _). split; [by eapply weak_core|].
    apply (pend_same s s1); [by apply core_priv, F1| | |done]; intros p;
      [by rewrite (weak_free s s1)|by rewrite (weak_priv s s1)]. }
  rewrite (without_notin TQueue l Hnq) in B2. specialize (Hb T9).
  assert (Hfut : realtime s0 < exp_of (clock_timers (timers_changed st s1)) TQueue).
  { rewrite Hx, T3. change LONG_MAX with 2147483647 in Hnow. change Q_BALANCE_TICKS with 100 in Hn.
    rewrite i32_id; lia. }
  eexists. split.
  - split; [apply ipc_inv_timers, Hg|by destruct Hl as [-> _]| | | | |].
    + pose proof (core_field realtime s s1 ltac:(done) (proj1 F1)) as Er.
      change (realtime (timers_changed st s1)) with (realtime s1). congruence.
    + split; [apply B2|]. intros k Hk%insert_timer_elem. destruct Hk as [->|Hk]; [exact Hf|].
      assert (Hkq : k <> TQueue) by (by intros ->). specialize (T6 k Hk).
      destruct (Ho k Hkq) as [_ [M1 M2]]. unfold timer_typed in *. rewrite M1, M2.
      destruct k; try done.
      by change (is_free (timers_changed st s1) n0) with (is_free s1 n0); rewrite (weak_free s s1 W1).
    + intros k Hk%insert_timer_elem. destruct Hk as [->|Hk]; auto.
    + etrans; [exact T8|]. etrans; [by apply weak_turn|apply turn_timers].
    + intros p Hsp. by apply B4, T9.
  - destruct T4 as [Hr _]. revert Hfut Ho. generalize (timers_changed st s1). intros s2 Hfut Ho.
    clear - Hfut Ho Hnq. induction l as [|y l IH]; simpl.
    + unfold due. rewrite filter_cons_False by lia. done.
    + assert (Hy : exp_of (clock_timers s2) y = exp_of (clock_timers s) y)
        by (apply Ho; intros ->; set_solver).
      destruct (_ <? _).
      * unfold due at 1. rewrite filter_cons_False by lia.
        change (due (realtime s0) (clock_timers s2) (y :: l)
                = due (realtime s0) (clock_timers s) (y :: l)). apply due_ext.
        intros k Hk. apply Ho. intros ->. done.
      * unfold due in *. rewrite !filter_cons, IH by set_solver. by rewrite Hy.
Qed.

Lemma watchdog_task k s l :
  task_inv s (k :: l) -> tq_rep (clock_timers s) (k :: l) ->
  exp_of (clock_timers s) k <= realtime s0 ->
  wpx E (run_watchdog (tmr_func (tm (clock_timers s) k)) k)
    (fun _ s' => exists l', task_inv s' l' /\ tq_rep (clock_timers s') l' /\
      (length (due (realtime s0) (clock_timers s') l') <=
       length (due (realtime s0) (clock_timers s) l))%nat)
    (set_clock_timers (pop_head k (clock_timers s)) s).
Proof.
  intros Hti [_ Hn _] _. destruct (popped k s l Hti) as (T1 & Hty & Hk0 & Hdue).
  apply NoDup_cons in Hn as [Hnk _].
  set (s1 := set_clock_timers (pop_head k (clock_timers s)) s) in *.
  assert (Hgood : forall s', good s1 s' -> exists l', task_inv s' l' /\ tq_rep (clock_timers s') l' /\
      (length (due (realtime s0) (clock_timers s') l') <=
       length (due (realtime s0) (clock_timers s) l))%nat).
  { intros s' G. pose proof (good_task s1 s' l G T1) as T'. exists l. split_all; [done|apply T'|].
    rewrite (good_due s1 s' l _ G). subst s1. simpl. by rewrite Hdue. }
  assert (Harg : timer_arg s1 k = tmr_arg (tm (clock_timers s) k)).
  { unfold timer_arg. subst s1. simpl. by rewrite fn_lookup_insert. }
  destruct k as [n|i| |]; simpl in Hty.
  - destruct Hty as (-> & Ha & Hsn & Hfn). simpl. unfold reach_deadline.
    apply wpx_bind, wpx_gets. rewrite Harg, Ha.
    eapply wpx_conseq; [apply cause_sig_good; [apply T1|done|exact Hfn| |]|].
    + intros ->. by apply HE2.
    + change (is_free s1 PM_PROC_NR) with (is_free s PM_PROC_NR).
      rewrite (tf_free _ _ (ti_frame _ _ Hti)). exact HE1.
    + intros u s' G. by apply Hgood.
  - rewrite Hty. simpl. unfold cause_alarm. apply wpx_bind, wpx_gets, wpx_bind.
    eapply wpx_conseq; [apply lock_notify_good; [apply T1|apply T1]|].
    intros r s' G. apply wpx_ret. by apply Hgood.
  - rewrite Hty. simpl.
    eapply wpx_conseq; [by apply (balance_task s1 l)|]. intros u s' (l' & T' & Hd').
    exists l'. split_all; [done|apply T'|]. rewrite Hd'. subst s1. simpl. by rewrite Hdue.
  - rewrite Hty. simpl. by apply wpx_panic, HE3.
Qed.

(** Every timer that was due has expired. *)
Lemma clock_message_wp m :
  task_inv s0 l0 -> is_notify (m_type m) = true -> _ENDPOINT_P (m_source m) = HARDWARE ->
  wpx E (clock_message m) (fun _ s' => ipc_inv s' /\ turn_frame s0 s' /\ realtime s' = realtime s0 /\
    exists l, timers_rep s' l /\ timers_ok s' l /\
      Forall (fun k => realtime s0 < exp_of (clock_timers s') k) l) s0.
Proof.
  intros Hti Hm Hs. unfold clock_message. rewrite Hm, (proj2 (Z.eqb_eq _ _) Hs).
  apply wpx_bind, wpx_gets, wpx_bind.
  eapply wpx_conseq.
  - apply (tmrs_exptimers_wp clock_timers set_clock_timers run_watchdog task_inv E (realtime s0))
      with (l := l0); [done|done|exact watchdog_task|done|apply Hti|].
    eapply Nat.le_lt_trans; [apply length_filter|]. apply timers_fuel; apply Hti.
  - intros u s1 (l & [T1 T2 T3 [T4 T6] T7 T8 T9] & Hr & Hall). apply wpx_modify.
    split_all; [by apply (ipc_inv_timers (clock_timers s1))| |done|].
    + etrans; [exact T8|]. etrans; [apply (turn_timers (clock_timers s1))|by split].
    + assert (Hq : timers_q (set_next_timeout (first_timeout (clock_timers s1)) s1) l)
        by (destruct T4; by split).
      exists l. split_all; [by split|by split|done].
Qed.

End task.
