(* ===== verification/Interrupt.v ===== *)
(** * Interrupts: the operations (kernel/interrupt.c, system/do_irqctl.c)

    The hooks of each interrupt line form a list threaded through [hk_next]; a
    hook has an id, one bit, unique on its line; [irq_actids] has the bits of the
    handlers that have not finished, and the line is masked while there are any.
    Hooks [0 .. NR_IRQ_HOOKS - 1] are [irq_hooks], hook [NR_IRQ_HOOKS] is the
    [pic_timer_hook] of arch/i386/clock.c. *)
From S2P Require Import Prelude PList KMonad Timers Types KState Sched Notify Clock.

Definition hook_ok (h : Z) : Prop := 0 <= h <= NR_IRQ_HOOKS.
Definition irq_ok (irq : Z) : Prop := 0 <= irq < NR_IRQ_VECTORS.
#[export] Instance hook_ok_dec h : Decision (hook_ok h).
Proof. unfold hook_ok. apply _. Defined.
#[export] Instance irq_ok_dec h : Decision (irq_ok h).
Proof. unfold irq_ok. apply _. Defined.

Definition PIC_TIMER_HOOK : Z := NR_IRQ_HOOKS.
Definition CLOCK_IRQ : Z := 0.

Definition upd_hook (h : Z) (f : irq_hook_t -> irq_hook_t) (s : kstate) : kstate :=
  set_irq_hooks (<[h := f (irq_hooks s h)]> (irq_hooks s)) s.

(** [hook->field] and an assignment through [hook]. *)
Definition rdh {A} (h : Z) (f : irq_hook_t -> A) : K A := fun s =>
  if decide (hook_ok h) then Done (f (irq_hooks s h)) s else Stuck BadIndex.
Definition wrh (h : Z) (f : irq_hook_t -> irq_hook_t) : K unit := fun s =>
  if decide (hook_ok h) then Done tt (upd_hook h f s) else Stuck BadIndex.

(** [irq_actids[irq]], read and changed. *)
Definition rd_act (irq : Z) : K Z := fun s =>
  if decide (irq_ok irq) then Done (irq_actids s irq) s else Stuck BadIndex.
Definition upd_act (irq : Z) (f : Z -> Z) : K unit := fun s =>
  if decide (irq_ok irq)
  then Done tt (set_irq_actids (<[irq := f (irq_actids s irq)]> (irq_actids s)) s)
  else Stuck BadIndex.

(** [irq_8259_mask], [irq_8259_unmask] (arch/i386/i8259.c): the mask bit of the line. *)
Definition hw_intr_mask (irq : Z) : K unit :=
  modify (fun s => set_irq_masked (<[irq := true]> (irq_masked s)) s).
Definition hw_intr_unmask (irq : Z) : K unit :=
  modify (fun s => set_irq_masked (<[irq := false]> (irq_masked s)) s).

(** ** Enabling and disabling *)

Definition enable_irq (hook : Z) : K unit :=
  do irq <- rdh hook hk_irq;
  do id <- rdh hook hk_id;
  do! upd_act irq (fun a => flag_clear a id);
  do act <- rd_act irq;
  when (act =? 0) (hw_intr_unmask irq).

(** True if the interrupt was enabled before the call. *)
Definition disable_irq (hook : Z) : K bool :=
  do irq <- rdh hook hk_irq;
  do id <- rdh hook hk_id;
  do act <- rd_act irq;
  if flag_any act id then ret false
  else
    do! upd_act irq (fun a => flag_set a id);
    do! hw_intr_mask irq;
    ret true.

(** ** Registering *)

Definition irq_plist (irq : Z) (s : kstate) : plist Z :=
  mk_plist (irq_handlers s irq) (fun k => hk_next (irq_hooks s k)).

(** [*line = v]. *)
Definition irq_assign (irq : Z) (line : ploc Z) (v : option Z) : K unit :=
  match line with
  | LHead => modify (fun s => set_irq_handlers (<[irq := v]> (irq_handlers s)) s)
  | LNext k => wrh k (set_hk_next v)
  end.

(** More than the number of hooks. *)
Definition HOOK_FUEL : nat := 18.

(** Walk to the end of the line, marking the ids in use; [None] when [hook] is on
    the line already. *)
Fixpoint put_walk (fuel : nat) (hook irq : Z) (line : ploc Z) (bitmap : Z)
    : K (option (ploc Z * Z)) :=
  match fuel with
  | O => stuck OutOfFuel
  | S fuel' =>
      do cur <- gets (fun s => deref (irq_plist irq s) line);
      match cur with
      | None => ret (Some (line, bitmap))
      | Some h =>
          if hook =? h then ret None
          else
            do id <- rdh h hk_id;
            put_walk fuel' hook irq (LNext h) (Z.lor bitmap (u32 id))
      end
  end.

(** [for (id = 1; id != 0; id <<= 1) if (!(bitmap & id)) break;]: an [int] is
    shifted out after 32 rounds. *)
Fixpoint free_id (fuel : nat) (bitmap id : Z) : Z :=
  match fuel with
  | O => 0
  | S fuel' =>
      if id =? 0 then 0
      else if Z.land bitmap (u32 id) =? 0 then id
      else free_id fuel' bitmap (i32 (Z.shiftl id 1))
  end.

Definition put_irq_handler (hook irq : Z) (handler : irq_handler) : K unit :=
  if (irq <? 0) || (NR_IRQ_VECTORS <=? irq) then panic "invalid call to put_irq_handler"
  else
    do w <- put_walk HOOK_FUEL hook irq LHead 0;
    match w with
    | None => ret tt
    | Some (line, bitmap) =>
        let id := free_id 33 bitmap 1 in
        if id =? 0 then panic "Too many handlers for irq"
        else
          do! wrh hook (set_hk_next None);
          do! wrh hook (set_hk_handler handler);
          do! wrh hook (set_hk_irq irq);
          do! wrh hook (set_hk_id id);
          do! irq_assign irq line (Some hook);
          do! modify (fun s => set_irq_use (Z.lor (irq_use s) (Z.shiftl 1 irq)) s);
          enable_irq hook
    end.

(** ** Unregistering *)

Definition rm_irq_handler (hook : Z) : K unit :=
  do irq <- rdh hook hk_irq;
  do id <- rdh hook hk_id;
  if (irq <? 0) || (NR_IRQ_VECTORS <=? irq) then panic "invalid call to rm_irq_handler"
  else
    do! upd_act irq (fun a => flag_set a id);
    do! hw_intr_mask irq;
    do o <- gets (fun s =>
      walk (fun h => hk_id (irq_hooks s h) =? id) HOOK_FUEL (irq_plist irq s) LHead);
    match o with
    | None => stuck OutOfFuel
    | Some line =>
        do cur <- gets (fun s => deref (irq_plist irq s) line);
        match cur with
        | None => ret tt
        | Some h =>
            do nxt <- rdh h hk_next;
            do! irq_assign irq line nxt;
            do first <- gets (fun s => irq_handlers s irq);
            do! when (bool_decide (first = None))
              (modify (fun s => set_irq_use (Z.ldiff (irq_use s) (Z.shiftl 1 irq)) s));
            do act <- rd_act irq;
            when (flag_any act id) (upd_act irq (fun a => flag_clear a id))
        end
    end.

(** ** Handling an interrupt *)

Definition IRQ_REENABLE : Z := 0x001.

(** [generic_handler] (do_irqctl.c): the interrupt becomes a notification of the
    driver.  Gathering randomness is left out. *)
Definition generic_handler (hook : Z) : K bool :=
  do ep <- rdh hook hk_proc_nr_e;
  do o <- isokendpt ep;
  match o with
  | None => panic "invalid interrupt handler"
  | Some proc_nr =>
      do nid <- rdh hook hk_notify_id;
      do pr <- priv_of proc_nr;
      do! wrp pr (fun sp => set_s_int_pending (Z.lor (s_int_pending sp) (u32 (Z.shiftl 1 nid))) sp);
      do ep' <- rdh hook hk_proc_nr_e;
      do! mini_notify HARDWARE ep';
      do pol <- rdh hook hk_policy;
      ret (flag_any pol IRQ_REENABLE)
  end.

(** [( *hook->handler)(hook)]. *)
Definition run_handler (hook : Z) : K bool :=
  do h <- rdh hook hk_handler;
  match h with
  | H_generic => generic_handler hook
  | H_bsp_timer => do r <- bsp_timer_int_handler; ret (negb (r =? 0))
  end.

Fixpoint irq_loop (fuel : nat) (irq : Z) (hook : option Z) : K unit :=
  match hook with
  | None => ret tt
  | Some h =>
      match fuel with
      | O => stuck OutOfFuel
      | S fuel' =>
          do id <- rdh h hk_id;
          do! upd_act irq (fun a => flag_set a id);
          do fin <- run_handler h;
          do! when fin (
            do irq' <- rdh h hk_irq;
            do id' <- rdh h hk_id;
            upd_act irq' (fun a => flag_clear a id'));
          do nxt <- rdh h hk_next;
          irq_loop fuel' irq nxt
      end
  end.

Definition irq_handle (irq : Z) : K unit :=
  do! hw_intr_mask irq;
  do first <- (fun s => if decide (irq_ok irq) then Done (irq_handlers s irq) s else Stuck BadIndex);
  do! irq_loop HOOK_FUEL irq first;
  do act <- rd_act irq;
  when (act =? 0) (hw_intr_unmask irq).

(** [arch_register_local_timer_handler] (arch/i386/clock.c), with the interrupt
    controller as tick source. *)
Definition arch_register_local_timer_handler (handler : irq_handler) : K Z :=
  do! wrh PIC_TIMER_HOOK (set_hk_proc_nr_e NONE);
  do! wrh PIC_TIMER_HOOK (set_hk_irq CLOCK_IRQ);
  do! put_irq_handler PIC_TIMER_HOOK CLOCK_IRQ handler;
  ret 0.
