(* ===== verification/IrqInv.v ===== *)
(** * Interrupts: the hooks of each line are consistent

    Each line is linked from [irq_handlers], holds a hook once, gives each its
    own id bit; [irq_use] says which lines have hooks; a line is masked as long
    as one of its handlers is active. *)
From S2P Require Import Prelude PList KMonad Timers Types KState TimerIface Memory Sched SchedInv.
From S2P Require Import Balance Notify Copy Ipc IpcInv IpcSafe Delivery Clock ClockSafe Interrupt.

Definition hk_id_of (s : kstate) (h : Z) : Z := hk_id (irq_hooks s h).

(** [L i] are the hooks of line [i], in order. *)
Record irq_inv (s : kstate) (L : Z -> list Z) : Prop := mk_irq_inv {
  ii_rep i : irq_ok i -> plist_rep (irq_plist i s) (L i);
  ii_nodup i : irq_ok i -> NoDup (L i);
  ii_hook i h : irq_ok i -> h ∈ L i -> hook_ok h /\ hk_irq (irq_hooks s h) = i;
  ii_id i h : irq_ok i -> h ∈ L i -> exists n, 0 <= n <= 16 /\ hk_id_of s h = 2 ^ n;
  ii_inj i h h' : irq_ok i -> h ∈ L i -> h' ∈ L i -> hk_id_of s h = hk_id_of s h' -> h = h';
  ii_use i : irq_ok i -> Z.testbit (irq_use s) i = bool_decide (L i <> []);
  ii_act i n : irq_ok i -> 0 <= n -> Z.testbit (irq_actids s i) n = true ->
    exists h, h ∈ L i /\ hk_id_of s h = 2 ^ n;
  ii_mask i : irq_ok i -> irq_actids s i <> 0 -> irq_masked s i = true }.

(** The invariant only reads the interrupt system. *)
Lemma irq_inv_view s s' L : irq_view s' = irq_view s -> irq_inv s L -> irq_inv s' L.
Proof.
  unfold irq_view. intros [= E1 E2 E3 E4 E5] [I1 I2 I3 I4 I5 I6 I7 I8].
  split; unfold hk_id_of, irq_plist in *; rewrite ?E1, ?E2, ?E3, ?E4, ?E5; done.
Qed.

(** Everything but the interrupt system. *)
Definition null_hook : irq_hook_t := mk_irq_hook None H_generic 0 0 0 0 0.
Definition irq_erase (s : kstate) : kstate :=
  set_irq_hooks (fun _ => null_hook) (set_irq_handlers (fun _ => None)
    (set_irq_actids (fun _ => 0) (set_irq_use 0 (set_irq_masked (fun _ => false) s)))).

Section rules.
Context (E : Prop).

Lemma wpx_rdh {A} h (f : irq_hook_t -> A) Q s :
  hook_ok h -> Q (f (irq_hooks s h)) s -> wpx E (rdh h f) Q s.
Proof. intros. eapply wpx_done; [unfold rdh; by rewrite decide_True|done]. Qed.
Lemma wpx_wrh h f Q s : hook_ok h -> Q tt (upd_hook h f s) -> wpx E (wrh h f) Q s.
Proof. intros. eapply wpx_done; [unfold wrh; by rewrite decide_True|done]. Qed.
Lemma wpx_rd_act i Q s : irq_ok i -> Q (irq_actids s i) s -> wpx E (rd_act i) Q s.
Proof. intros. eapply wpx_done; [unfold rd_act; by rewrite decide_True|done]. Qed.
Lemma wpx_upd_act i f Q s :
  irq_ok i -> Q tt (set_irq_actids (<[i := f (irq_actids s i)]> (irq_actids s)) s) ->
  wpx E (upd_act i f) Q s.
Proof. intros. eapply wpx_done; [unfold upd_act; by rewrite decide_True|done]. Qed.

(** ** The ids *)

Lemma hooks_length l h : NoDup l -> (forall x, x ∈ l -> hook_ok x) -> h ∉ l -> hook_ok h ->
  (length l <= 16)%nat.
Proof.
  intros Hn Hh Hx Hok.
  enough (length (h :: l) <= 17)%nat by (simpl in *; lia).
  change 17%nat with (Z.to_nat 17). apply (NoDup_bounded_length (h :: l) 0 17).
  - by apply NoDup_cons.
  - intros x [->|Hin]%elem_of_cons; [|apply Hh in Hin]; unfold hook_ok, NR_IRQ_HOOKS in *; lia.
Qed.

Lemma hooks_fuel l : NoDup l -> (forall x, x ∈ l -> hook_ok x) -> (length l < HOOK_FUEL)%nat.
Proof.
  intros Hn Hh. unfold HOOK_FUEL. enough (length l <= 17)%nat by lia.
  change 17%nat with (Z.to_nat 17). apply (NoDup_bounded_length l 0 17); [done|].
  intros x Hx. apply Hh in Hx. unfold hook_ok, NR_IRQ_HOOKS in *. lia.
Qed.

(** The lowest id not in use. *)
Lemma free_id_spec fuel bitmap k n :
  0 <= k <= n -> n <= 30 -> (forall m, k <= m < n -> Z.testbit bitmap m = true) ->
  Z.testbit bitmap n = false -> n - k < Z.of_nat fuel ->
  free_id fuel bitmap (2 ^ k) = 2 ^ n.
Proof.
  revert k. induction fuel as [|fuel IH]; intros k Hk Hn Hset Hfree Hf; [lia|].
  cbn [free_id]. pose proof (pow2_bounds k 30 ltac:(lia)).
  rewrite (proj2 (Z.eqb_neq _ 0)), u32_pow2 by lia.
  assert (El : (Z.land bitmap (2 ^ k) =? 0) = negb (Z.testbit bitmap k)).
  { rewrite <- flag_any_bit by lia. unfold flag_any. by rewrite negb_involutive. }
  rewrite El. destruct (Z.eq_dec k n) as [->|Hne]; [by rewrite Hfree|].
  rewrite Hset by lia. cbn [negb].
  assert (Es : i32 (Z.shiftl (2 ^ k) 1) = 2 ^ (k + 1)).
  { rewrite Z.shiftl_mul_pow2, <- Z.pow_add_r by lia. apply i32_id.
    pose proof (pow2_bounds (k + 1) 30 ltac:(lia)). change (2 ^ 30) with 1073741824 in *. lia. }
  rewrite Es. apply IH; [lia|lia| |done|lia]. intros m Hm. apply Hset. lia.
Qed.

(** [bm] has the bits of the ids of [l]. *)
Definition id_bits (s : kstate) (l : list Z) (bm : Z) : Prop :=
  forall n, 0 <= n -> Z.testbit bm n = true <-> exists h, h ∈ l /\ hk_id_of s h = 2 ^ n.

Lemma pow2_inj n m : 0 <= n -> 0 <= m -> 2 ^ n = 2 ^ m -> n = m.
Proof. intros. by apply (Z.pow_inj_r 2). Qed.

(** With sixteen ids in use at most, one of the seventeen first is free. *)
Lemma free_id_exists s L i hook bm :
  irq_inv s L -> irq_ok i -> hook ∉ L i -> hook_ok hook -> id_bits s (L i) bm ->
  exists n, 0 <= n <= 16 /\ free_id 33 bm 1 = 2 ^ n /\ Z.testbit bm n = false.
Proof.
  intros Hi Hir Hh Hok Hb.
  assert (Hex : ~ forall n, 0 <= n <= 16 -> Z.testbit bm n = true).
  { intros Hall.
    assert (length (seqZ 0 17) <= length (map (fun h => Z.log2 (hk_id_of s h)) (L i)))%nat as Hl.
    { apply NoDup_incl_length; [apply NoDup_seqZ|]. intros n Hn%elem_of_seqZ.
      destruct (proj1 (Hb n ltac:(lia)) (Hall n ltac:(lia))) as (h & Hin & He).
      apply list_elem_of_fmap. exists h. by rewrite He, Z.log2_pow2 by lia. }
    rewrite length_map in Hl. pose proof (hooks_length (L i) hook (ii_nodup _ _ Hi i Hir)
      (fun x Hx => proj1 (ii_hook _ _ Hi i x Hir Hx)) Hh Hok).
    change (length (seqZ 0 17)) with 17%nat in Hl. lia. }
  assert (Hleast : forall k, 0 <= k -> k <= 17 -> (forall m, 0 <= m < k -> Z.testbit bm m = true) \/
    exists n, 0 <= n < k /\ Z.testbit bm n = false /\ forall m, 0 <= m < n -> Z.testbit bm m = true).
  { intros k Hk. pattern k. apply natlike_ind; [|clear k Hk|done].
    - left. lia.
    - intros k Hk IH Hle. destruct (IH ltac:(lia)) as [Hall|(n & Hn & Hf & Hs)].
      + destruct (Z.testbit bm k) eqn:Eb; [left|right; exists k; split_all; [lia|lia|done|done]].
        intros m Hm. destruct (Z.eq_dec m k) as [->|]; [done|]. apply Hall. lia.
      + right. exists n. split_all; [lia|lia|done|done]. }
  destruct (Hleast 17 ltac:(lia) ltac:(lia)) as [Hall|(n & Hn & Hf & Hs)].
  { destruct Hex. intros n Hn. apply Hall. lia. }
  exists n. split_all; [lia|lia| |done]. change 1 with (2 ^ 0) at 1.
  apply free_id_spec; try done; lia.
Qed.

Lemma id_bits_snoc s l h bm n :
  id_bits s l bm -> 0 <= n <= 16 -> hk_id_of s h = 2 ^ n ->
  id_bits s (l ++ [h]) (Z.lor bm (u32 (hk_id_of s h))).
Proof.
  intros Hb Hn He m Hm. rewrite He, u32_pow2, Z.lor_spec, Z.pow2_bits_eqb by lia.
  rewrite orb_true_iff, (Hb m Hm). split.
  - intros [(x & Hx & Ex)|Hm'].
    + exists x. split; [set_solver|done].
    + exists h. split; [set_solver|]. apply Z.eqb_eq in Hm' as <-. done.
  - intros (x & [Hx| ->%list_elem_of_singleton]%elem_of_app & Ex); [left; eauto|right].
    apply Z.eqb_eq, pow2_inj; [lia|lia|congruence].
Qed.

(** The walk of [put_irq_handler]. *)
Lemma put_walk_step s L i hook fuel l1 l2 bm :
  irq_inv s L -> irq_ok i -> L i = l1 ++ l2 ->
  put_walk (S fuel) hook i (loc_after l1) bm s =
  match l2 with
  | [] => Done (Some (loc_after (L i), bm)) s
  | h :: _ => if hook =? h then Done None s
              else put_walk fuel hook i (loc_after (l1 ++ [h])) (Z.lor bm (u32 (hk_id_of s h))) s
  end.
Proof.
  intros Hi Hir HL. pose proof (ii_rep _ _ Hi i Hir) as Hr. rewrite HL in Hr.
  destruct (chain_deref_after _ _ _ _ Hr) as [Ed _]. cbn [put_walk].
  unfold bind at 1, gets at 1. change (irq_plist i s) with
    (mk_plist (pl_head (irq_plist i s)) (pl_next (irq_plist i s))). rewrite Ed. destruct l2 as [|h l2]; cbn [head].
  - by rewrite HL, app_nil_r.
  - destruct (hook =? h); [done|]. unfold bind, rdh.
    rewrite decide_True by (apply (ii_hook _ _ Hi i); [done|rewrite HL; set_solver]).
    unfold loc_after. by rewrite last_snoc.
Qed.

Lemma put_walk_new s L i hook fuel l1 l2 bm :
  irq_inv s L -> irq_ok i -> L i = l1 ++ l2 -> hook ∉ l2 -> id_bits s l1 bm ->
  (length l2 < fuel)%nat ->
  exists bm', id_bits s (L i) bm' /\
    put_walk fuel hook i (loc_after l1) bm s = Done (Some (loc_after (L i), bm')) s.
Proof.
  intros Hi Hir. revert l1 bm fuel. induction l2 as [|h l2 IH]; intros l1 bm [|fuel] HL Hh Hb Hf;
    try (simpl in Hf; lia); rewrite (put_walk_step s L i hook fuel _ _ bm Hi Hir HL).
  - exists bm. rewrite HL, app_nil_r. done.
  - rewrite (proj2 (Z.eqb_neq hook h)) by set_solver.
    destruct (ii_id _ _ Hi i h Hir) as (n & Hn & En); [rewrite HL; set_solver|].
    apply IH; [by rewrite <- app_assoc|set_solver|by eapply id_bits_snoc|simpl in Hf; lia].
Qed.

Lemma put_walk_again s L i hook fuel l1 l2 bm :
  irq_inv s L -> irq_ok i -> L i = l1 ++ l2 -> hook ∈ l2 -> (length l2 < fuel)%nat ->
  put_walk fuel hook i (loc_after l1) bm s = Done None s.
Proof.
  intros Hi Hir. revert l1 bm fuel. induction l2 as [|h l2 IH]; intros l1 bm [|fuel] HL Hh Hf;
    try (simpl in Hf; lia); [set_solver|].
  rewrite (put_walk_step s L i hook fuel _ _ bm Hi Hir HL).
  destruct (Z.eqb_spec hook h) as [->|Hne]; [done|].
  apply IH; [by rewrite <- app_assoc|set_solver|simpl in Hf; lia].
Qed.

(** ** Enabling and disabling *)

(** Changing the active bits of line [i], and its mask. *)
Definition set_act (i act : Z) (s : kstate) : kstate :=
  set_irq_actids (<[i := act]> (irq_actids s)) s.
Definition set_mask (i : Z) (m : bool) (s : kstate) : kstate :=
  set_irq_masked (<[i := m]> (irq_masked s)) s.

Lemma set_act_inv s L i act :
  irq_inv s L ->
  (forall n, 0 <= n -> Z.testbit act n = true -> exists h, h ∈ L i /\ hk_id_of s h = 2 ^ n) ->
  (act <> 0 -> irq_masked s i = true) -> irq_inv (set_act i act s) L.
Proof.
  intros [I1 I2 I3 I4 I5 I6 I7 I8] Ha Hm. split; try done.
  - intros j n Hj Hn. simpl. rewrite fn_insert_case. case_decide; [subst; by apply Ha|by apply I7].
  - intros j Hj. simpl. rewrite !fn_insert_case. case_decide; [subst; done|by apply I8].
Qed.

Lemma set_mask_inv s L i m :
  irq_inv s L -> (irq_actids s i <> 0 -> m = true) -> irq_inv (set_mask i m s) L.
Proof.
  intros [I1 I2 I3 I4 I5 I6 I7 I8] Hm. split; try done.
  intros j Hj. simpl. rewrite !fn_insert_case. case_decide; [subst; done|by apply I8].
Qed.

Definition unmask_if_idle (i : Z) (s : kstate) : kstate :=
  if irq_actids s i =? 0 then set_mask i false s else s.

Lemma unmask_if_idle_inv s L i : irq_inv s L -> irq_inv (unmask_if_idle i s) L.
Proof.
  intros Hi. unfold unmask_if_idle. destruct (Z.eqb_spec (irq_actids s i) 0); [|done].
  by apply set_mask_inv.
Qed.

Lemma unmask_if_idle_spec s i :
  irq_actids (unmask_if_idle i s) = irq_actids s /\
  (irq_actids s i = 0 -> irq_masked (unmask_if_idle i s) i = false).
Proof.
  unfold unmask_if_idle. destruct (Z.eqb_spec (irq_actids s i) 0); [|done].
  split; [done|]. simpl. by rewrite fn_lookup_insert.
Qed.

(** Finishing a handler of line [i] clears its bit. *)
Lemma clear_act_inv s L i id :
  irq_inv s L -> irq_ok i -> irq_inv (set_act i (flag_clear (irq_actids s i) id) s) L.
Proof.
  intros Hi Hir. apply set_act_inv; [done| |].
  - intros n Hn Hb. apply (ii_act _ _ Hi i n); [done..|].
    unfold flag_clear in Hb. rewrite Z.ldiff_spec in Hb. by apply andb_true_iff in Hb as [? _].
  - intros Ha. apply (ii_mask _ _ Hi i Hir). intros H0. apply Ha. by rewrite H0.
Qed.

(** Starting one sets it; the line is masked. *)
Lemma mark_act_inv s L i h :
  irq_inv s L -> irq_ok i -> h ∈ L i -> irq_masked s i = true ->
  irq_inv (set_act i (flag_set (irq_actids s i) (hk_id_of s h)) s) L.
Proof.
  intros Hi Hir Hin Hm. destruct (ii_id _ _ Hi i h Hir Hin) as (n & Hn & En).
  apply set_act_inv; [done| |done]. intros m Hm' Hb. rewrite En, flag_set_bit in Hb by lia.
  apply orb_true_iff in Hb as [Hb|Hb]; [by apply (ii_act _ _ Hi i m)|].
  apply Z.eqb_eq in Hb as <-. eauto.
Qed.

Lemma enable_irq_done s i h :
  hook_ok h -> hk_irq (irq_hooks s h) = i -> irq_ok i ->
  enable_irq h s =
  Done tt (unmask_if_idle i (set_act i (flag_clear (irq_actids s i) (hk_id_of s h)) s)).
Proof.
  intros Hok Hirq Hir. unfold enable_irq, rdh, upd_act, rd_act, bind. rewrite decide_True by done.
  rewrite Hirq. rewrite !decide_True by done. unfold unmask_if_idle, set_act. simpl.
  fold (hk_id_of s h). by destruct (_ =? 0).
Qed.

Lemma enable_irq_inv s L i h :
  irq_inv s L -> irq_ok i -> h ∈ L i ->
  exists s', enable_irq h s = Done tt s' /\ irq_inv s' L /\
    irq_actids s' i = flag_clear (irq_actids s i) (hk_id_of s h) /\
    (irq_actids s' i = 0 -> irq_masked s' i = false) /\
    irq_hooks s' = irq_hooks s /\ irq_erase s' = irq_erase s.
Proof.
  intros Hi Hir Hin. destruct (ii_hook _ _ Hi i h Hir Hin) as [Hok Hirq].
  eexists. split; [by apply enable_irq_done|]. split; [by apply unmask_if_idle_inv, clear_act_inv|].
  destruct (unmask_if_idle_spec (set_act i (flag_clear (irq_actids s i) (hk_id_of s h)) s) i)
    as [-> Hm].
  split_all; [|done|by unfold unmask_if_idle; destruct (_ =? 0)..]. simpl. by rewrite fn_lookup_insert.
Qed.

Lemma disable_irq_inv s L i h :
  irq_inv s L -> irq_ok i -> h ∈ L i ->
  exists s', disable_irq h s = Done (negb (flag_any (irq_actids s i) (hk_id_of s h))) s' /\
    irq_inv s' L /\ irq_masked s' i = true /\ flag_any (irq_actids s' i) (hk_id_of s h) = true.
Proof.
  intros Hi Hir Hin. destruct (ii_hook _ _ Hi i h Hir Hin) as [Hok Hirq].
  destruct (ii_id _ _ Hi i h Hir Hin) as (n & Hn & En).
  unfold disable_irq, rdh, rd_act, upd_act, bind. rewrite decide_True by done. rewrite Hirq.
  rewrite !decide_True by done. fold (hk_id_of s h). rewrite En.
  destruct (flag_any _ _) eqn:Ea.
  - exists s. split_all; [done|done| |done]. rewrite flag_any_bit in Ea by lia.
    apply (ii_mask _ _ Hi i Hir). intros H0. by rewrite H0, Z.testbit_0_l in Ea.
  - rewrite decide_True by done. eexists. split; [reflexivity|]. split_all.
    + rewrite <- En. apply (mark_act_inv (set_mask i true s)); [by apply set_mask_inv|done|done|].
      simpl. by rewrite fn_lookup_insert.
    + simpl. by rewrite fn_lookup_insert.
    + simpl. rewrite fn_lookup_insert, flag_any_bit, flag_set_bit, Z.eqb_refl by lia.
      by rewrite orb_true_r.
Qed.

(** ** Registering *)

(** The line with the hook at its end. *)
Record irq_linked (s s' : kstate) (L : Z -> list Z) (i hook n : Z) : Prop := mk_irq_linked {
  il_new h : h ∈ L i -> hk_id_of s h <> 2 ^ n;
  il_other h : h <> hook -> hk_irq (irq_hooks s' h) = hk_irq (irq_hooks s h) /\
                            hk_id_of s' h = hk_id_of s h;
  il_hook : hk_irq (irq_hooks s' hook) = i /\ hk_id_of s' hook = 2 ^ n;
  il_rep : plist_rep (irq_plist i s') (L i ++ [hook]);
  il_rest j : irq_ok j -> j <> i -> plist_rep (irq_plist j s') (L j);
  il_use j : 0 <= j -> Z.testbit (irq_use s') j = Z.testbit (irq_use s) j || (i =? j);
  il_act : irq_actids s' = irq_actids s;
  il_mask : irq_masked s' = irq_masked s }.

Lemma irq_linked_inv s s' L i hook n :
  irq_inv s L -> irq_ok i -> hook_ok hook -> (forall j, irq_ok j -> hook ∉ L j) -> 0 <= n <= 16 ->
  irq_linked s s' L i hook n -> irq_inv s' (<[i := L i ++ [hook]]> L).
Proof.
  intros [I1 I2 I3 I4 I5 I6 I7 I8] Hir Hok Hno Hn [K1 K2 [K3 K4] K5 K6 K7 K8 K9].
  assert (Hne : forall j h, irq_ok j -> h ∈ L j -> h <> hook) by (intros j h Hj Hin ->; by apply (Hno j)).
  split.
  - intros j Hj. rewrite fn_insert_case. case_decide; [by subst|by apply K6].
  - intros j Hj. rewrite fn_insert_case. case_decide; [subst|by apply I2].
    apply NoDup_app. split_all; [by apply I2|set_solver|apply NoDup_singleton].
  - intros j h Hj. rewrite fn_insert_case. case_decide as Hc; [subst j|].
    + intros [Hin| ->%list_elem_of_singleton]%elem_of_app; [|done].
      rewrite (proj1 (K2 h (Hne _ _ Hir Hin))). by apply I3.
    + intros Hin. rewrite (proj1 (K2 h (Hne _ _ Hj Hin))). by apply I3.
  - intros j h Hj. rewrite fn_insert_case. case_decide as Hc; [subst j|].
    + intros [Hin| ->%list_elem_of_singleton]%elem_of_app; [|by eauto].
      rewrite (proj2 (K2 h (Hne _ _ Hir Hin))). by apply (I4 i).
    + intros Hin. rewrite (proj2 (K2 h (Hne _ _ Hj Hin))). by apply (I4 j).
  - intros j h h' Hj. rewrite fn_insert_case. case_decide as Hc; [subst j|].
    + intros [Hin| ->%list_elem_of_singleton]%elem_of_app [Hin'| ->%list_elem_of_singleton]%elem_of_app;
        rewrite ?K4, ?(proj2 (K2 h (Hne _ _ Hir Hin))), ?(proj2 (K2 h' (Hne _ _ Hir Hin')));
        [by apply (I5 i)|by intros ?%K1|intros He; symmetry in He; by apply K1 in He|done].
    + intros Hin Hin'. rewrite (proj2 (K2 h (Hne _ _ Hj Hin))), (proj2 (K2 h' (Hne _ _ Hj Hin'))).
      by apply (I5 j).
  - intros j Hj. rewrite fn_insert_case, K7, (I6 j Hj) by (unfold irq_ok in Hj; lia).
    case_decide as Hc; [subst j; rewrite Z.eqb_refl, orb_true_r|].
    + symmetry. apply bool_decide_eq_true_2. by destruct (L i).
    + rewrite (proj2 (Z.eqb_neq i j)) by congruence. by rewrite orb_false_r.
  - intros j m Hj Hm. rewrite K8. intros (h & Hin & He)%(I7 j m Hj Hm). exists h.
    rewrite (proj2 (K2 h (Hne _ _ Hj Hin))). split; [|done].
    rewrite fn_insert_case. case_decide; [subst; set_solver|done].
  - intros j Hj. rewrite K8, K9. by apply I8.
Qed.

(** The assignments to the new hook. *)
Definition new_hook (i id : Z) (handler : irq_handler) (k : irq_hook_t) : irq_hook_t :=
  set_hk_id id (set_hk_irq i (set_hk_handler handler (set_hk_next None k))).

Lemma put_link s s1 L i hook handler n :
  irq_inv s L -> irq_ok i -> hook_ok hook -> (forall j, irq_ok j -> hook ∉ L j) -> 0 <= n <= 16 ->
  (forall h, h ∈ L i -> hk_id_of s h <> 2 ^ n) ->
  irq_hooks s1 hook = new_hook i (2 ^ n) handler (irq_hooks s hook) ->
  (forall h, h <> hook -> irq_hooks s1 h = irq_hooks s h) ->
  irq_handlers s1 = irq_handlers s -> irq_use s1 = irq_use s -> irq_actids s1 = irq_actids s ->
  irq_masked s1 = irq_masked s ->
  wpx E (irq_assign i (loc_after (L i)) (Some hook))
    (fun _ s' => irq_linked s (set_irq_use (Z.lor (irq_use s') (Z.shiftl 1 i)) s') L i hook n /\
       irq_hooks s' hook = irq_hooks s1 hook /\ irq_erase s' = irq_erase s1) s1.
Proof.
  intros Hi Hir Hok Hno Hn Hnew Hh Ho Ehd Eus Eac Ema.
  pose proof (ii_rep _ _ Hi) as Hrep. pose proof (ii_nodup _ _ Hi i Hir) as Hnd.
  assert (Hl : plist_rep (assign (mk_plist (irq_handlers s i) (<[hook := None]> (fun k => hk_next (irq_hooks s k))))
                 (loc_after (L i)) (Some hook)) (L i ++ [hook])).
  { pose proof (assign_link (irq_plist i s) (L i) [] hook) as Ha.
    rewrite app_nil_r in Ha. specialize (Ha Hnd (Hno i Hir) (Hrep i Hir)).
    pose proof (Hrep i Hir) as Hr. rewrite <- (app_nil_r (L i)) in Hr.
    destruct (chain_deref_after _ _ _ _ Hr) as [Ed _].
    change (mk_plist (pl_head (irq_plist i s)) (pl_next (irq_plist i s))) with (irq_plist i s) in Ed.
    rewrite Ed in Ha. exact Ha. }
  assert (Hnext : forall h, hk_next (irq_hooks s1 h) =
                    (<[hook := None]> (fun k => hk_next (irq_hooks s k)) : Z -> option Z) h).
  { intros h. rewrite fn_insert_case. case_decide as Hc; [subst h; by rewrite Hh|by rewrite Ho]. }
  assert (Hfields : forall h, h <> hook -> hk_irq (irq_hooks s1 h) = hk_irq (irq_hooks s h) /\
            hk_id_of s1 h = hk_id_of s h) by (intros h Hne; unfold hk_id_of; by rewrite Ho).
  assert (Huse : forall j, 0 <= j -> Z.testbit (Z.lor (irq_use s) (Z.shiftl 1 i)) j =
            Z.testbit (irq_use s) j || (i =? j)).
  { intros j Hj. rewrite Z.lor_spec, Z.shiftl_1_l, Z.pow2_bits_eqb by (unfold irq_ok in Hir; lia). done. }
  assert (Hback : hk_irq (irq_hooks s1 hook) = i /\ hk_id_of s1 hook = 2 ^ n)
    by (unfold hk_id_of; by rewrite Hh).
  unfold loc_after in *. destruct (last (L i)) as [k|] eqn:Elast; simpl.
  - apply last_Some_elem_of in Elast. destruct (ii_hook _ _ Hi i k Hir Elast) as [Hkok Hki].
    assert (Hk : k <> hook) by (intros ->; by apply (Hno i)).
    apply wpx_wrh; [done|]. split_all; [|by simpl; rewrite fn_lookup_insert_ne|done].
    split; try done; simpl; rewrite ?Eus; try done.
    + intros h Hne. destruct (Hfields h Hne) as [Hf1 Hf2]. unfold hk_id_of in *. simpl.
      rewrite fn_insert_case. case_decide as Hc; [subst h; done|done].
    + unfold hk_id_of in *. simpl. by rewrite fn_lookup_insert_ne.
    + unfold plist_rep, irq_plist in *. simpl in *. rewrite Ehd. eapply chain_ext; [|exact Hl].
      intros x _. rewrite !fn_insert_case. case_decide as Hc; [done|]. by rewrite Hnext, fn_insert_case.
    + intros j Hj Hne. specialize (Hrep j Hj). unfold plist_rep, irq_plist in *. simpl in *.
      rewrite Ehd. eapply chain_ext; [|exact Hrep]. intros x Hx. rewrite fn_insert_case.
      case_decide as Hc.
      * subst x. destruct Hne. destruct (ii_hook _ _ Hi j k Hj Hx). congruence.
      * rewrite Ho; [done|]. intros ->. by apply (Hno j).
  - apply wpx_modify. split_all; [|done|done]. split; try done; simpl; rewrite ?Eus; try done.
    + unfold plist_rep, irq_plist in *. simpl in *. rewrite fn_lookup_insert.
      eapply chain_ext; [|exact Hl]. intros x _. by rewrite Hnext.
    + intros j Hj Hne. specialize (Hrep j Hj). unfold plist_rep, irq_plist in *. simpl in *.
      rewrite fn_lookup_insert_ne, Ehd by done. eapply chain_ext; [|exact Hrep]. intros x Hx.
      rewrite Ho; [done|]. intros ->. by apply (Hno j).
Qed.

Lemma new_hook_steps s hook i id handler :
  exists s1, upd_hook hook (set_hk_id id) (upd_hook hook (set_hk_irq i)
    (upd_hook hook (set_hk_handler handler) (upd_hook hook (set_hk_next None) s))) = s1 /\
  irq_hooks s1 hook = new_hook i id handler (irq_hooks s hook) /\
  (forall h, h <> hook -> irq_hooks s1 h = irq_hooks s h) /\
  irq_handlers s1 = irq_handlers s /\ irq_use s1 = irq_use s /\ irq_actids s1 = irq_actids s /\
  irq_masked s1 = irq_masked s /\ irq_erase s1 = irq_erase s.
Proof.
  eexists. split; [reflexivity|]. split_all; try done.
  - unfold new_hook, upd_hook. simpl. by rewrite !fn_lookup_insert.
  - intros h Hne. unfold upd_hook. simpl. by rewrite !fn_lookup_insert_ne.
Qed.

Lemma put_walk_start s L i hook :
  irq_inv s L -> irq_ok i -> hook ∉ L i ->
  exists bm, id_bits s (L i) bm /\
    put_walk HOOK_FUEL hook i LHead 0 s = Done (Some (loc_after (L i), bm)) s.
Proof.
  intros Hi Hir Hno. apply (put_walk_new s L i hook HOOK_FUEL [] (L i) 0); try done.
  - intros n Hn. rewrite Z.testbit_0_l. set_solver.
  - apply hooks_fuel; [by apply Hi|]. intros x Hx. by apply (ii_hook _ _ Hi i).
Qed.

(** The hook is last on its line, with an id of its own and enabled. *)
Definition put_post (s s' : kstate) (L : Z -> list Z) (i hook : Z) (handler : irq_handler) : Prop :=
  irq_inv s' (<[i := L i ++ [hook]]> L) /\ hk_handler (irq_hooks s' hook) = handler /\
  (irq_actids s i = 0 -> irq_masked s' i = false) /\ irq_erase s' = irq_erase s.

Lemma put_enable s s2 L i hook handler n :
  irq_inv s L -> irq_ok i -> hook_ok hook -> (forall j, irq_ok j -> hook ∉ L j) -> 0 <= n <= 16 ->
  irq_linked s s2 L i hook n -> hk_handler (irq_hooks s2 hook) = handler ->
  irq_erase s2 = irq_erase s ->
  wpx E (enable_irq hook) (fun _ s' => put_post s s' L i hook handler) s2.
Proof.
  intros Hi Hir Hok Hno Hn Hlk Eh Ee.
  pose proof (irq_linked_inv s s2 L i hook n Hi Hir Hok Hno Hn Hlk) as H3.
  assert (Hin : hook ∈ (<[i := L i ++ [hook]]> L : Z -> list Z) i)
    by (rewrite fn_lookup_insert; set_solver).
  destruct (enable_irq_inv s2 _ i hook H3 Hir Hin) as (s4 & E4 & I4 & A4 & M4 & Eh4 & Ee4).
  eapply wpx_done; [exact E4|]. unfold put_post. split_all; [exact I4| | |].
  - by rewrite Eh4.
  - intros H0. apply M4. rewrite A4, (il_act _ _ _ _ _ _ Hlk), H0. done.
  - by rewrite Ee4.
Qed.

Lemma put_install s L i hook handler n :
  irq_inv s L -> irq_ok i -> hook_ok hook -> (forall j, irq_ok j -> hook ∉ L j) -> 0 <= n <= 16 ->
  (forall h, h ∈ L i -> hk_id_of s h <> 2 ^ n) ->
  wpx E (do! wrh hook (set_hk_next None);
         do! wrh hook (set_hk_handler handler);
         do! wrh hook (set_hk_irq i);
         do! wrh hook (set_hk_id (2 ^ n));
         do! irq_assign i (loc_after (L i)) (Some hook);
         do! modify (fun s => set_irq_use (Z.lor (irq_use s) (Z.shiftl 1 i)) s);
         enable_irq hook) (fun _ s' => put_post s s' L i hook handler) s.
Proof.
  intros Hi Hir Hok Hno Hn Hnew. do 4 (apply wpx_bind, wpx_wrh; [done|]).
  destruct (new_hook_steps s hook i (2 ^ n) handler)
    as (s1 & -> & Eh1 & Eo1 & Ehd1 & Eus1 & Eac1 & Ema1 & Ee1).
  apply wpx_bind. eapply wpx_conseq; [by apply (put_link s s1 L i hook handler n)|].
  intros u s2 (Hlk & Eh & Ee). apply wpx_bind, wpx_modify.
  eapply (put_enable s _ L i hook handler n); try done.
  - change (hk_handler (irq_hooks s2 hook) = handler). rewrite Eh, Eh1. done.
  - change (irq_erase s2 = irq_erase s). congruence.
Qed.

Lemma put_irq_handler_wp s L i hook handler :
  irq_inv s L -> irq_ok i -> hook_ok hook -> (forall j, irq_ok j -> hook ∉ L j) ->
  wpx E (put_irq_handler hook i handler) (fun _ s' => put_post s s' L i hook handler) s.
Proof.
  intros Hi Hir Hok Hno. unfold put_irq_handler.
  assert (Hc : (i <? 0) || (NR_IRQ_VECTORS <=? i) = false) by (unfold irq_ok in Hir; lia).
  rewrite Hc. apply wpx_bind.
  destruct (put_walk_start s L i hook Hi Hir (Hno i Hir)) as (bm & Hbm & Ew).
  eapply wpx_done; [exact Ew|]. cbv beta iota zeta.
  destruct (free_id_exists s L i hook bm Hi Hir (Hno i Hir) Hok Hbm) as (n & Hn & En & Hbit).
  pose proof (pow2_bounds n 16 ltac:(lia)). rewrite En, (proj2 (Z.eqb_neq _ 0)) by lia.
  apply put_install; try done.
  intros h Hin He. assert (Z.testbit bm n = true); [apply Hbm; [lia|eauto]|congruence].
Qed.

(** A hook that is on the line is left alone. *)
Lemma put_irq_handler_again s L i hook handler :
  irq_inv s L -> irq_ok i -> hook ∈ L i -> put_irq_handler hook i handler s = Done tt s.
Proof.
  intros Hi Hir Hin. unfold put_irq_handler.
  assert (Hc : (i <? 0) || (NR_IRQ_VECTORS <=? i) = false) by (unfold irq_ok in Hir; lia).
  rewrite Hc, (bind_done _ _ s None s); [done|].
  apply (put_walk_again s L i hook HOOK_FUEL [] (L i) 0); try done.
  apply hooks_fuel; [by apply Hi|]. intros x Hx. by apply (ii_hook _ _ Hi i).
Qed.

(** ** Unregistering *)

(** The walk of [rm_irq_handler] finds the hook itself. *)
Lemma rm_walk s L i hook l1 l2 :
  irq_inv s L -> irq_ok i -> L i = l1 ++ hook :: l2 ->
  walk (fun h => hk_id (irq_hooks s h) =? hk_id_of s hook) HOOK_FUEL (irq_plist i s) LHead =
    Some (loc_after l1) /\ deref (irq_plist i s) (loc_after l1) = Some hook.
Proof.
  intros Hi Hir HL. pose proof (ii_rep _ _ Hi i Hir) as Hr. pose proof (ii_nodup _ _ Hi i Hir) as Hnd.
  rewrite HL in Hr, Hnd.
  assert (Hf : (length (L i) < HOOK_FUEL)%nat).
  { apply hooks_fuel; [by apply Hi|]. intros x Hx. by apply (ii_hook _ _ Hi i). }
  rewrite HL, length_app in Hf. split.
  - eapply (walk_spec _ _ _ l1 (hook :: l2)); [done| |by rewrite Z.eqb_refl|lia].
    apply Forall_forall. intros x Hx. apply Z.eqb_neq. intros He.
    assert (x = hook) as -> by (apply (ii_inj _ _ Hi i); [done|rewrite HL; set_solver..|done]).
    apply NoDup_app in Hnd as (_ & Hd & _). apply (Hd hook Hx). set_solver.
  - exact (proj1 (chain_deref_after _ _ _ _ Hr)).
Qed.

(** The line without the hook. *)
Record irq_unlinked (s s' : kstate) (L : Z -> list Z) (i hook : Z) (l : list Z) : Prop :=
  mk_irq_unlinked {
  iu_sub h : h ∈ l <-> h ∈ L i /\ h <> hook;
  iu_nodup : NoDup l;
  iu_other h : hk_irq (irq_hooks s' h) = hk_irq (irq_hooks s h) /\ hk_id_of s' h = hk_id_of s h;
  iu_rep : plist_rep (irq_plist i s') l;
  iu_rest j : irq_ok j -> j <> i -> plist_rep (irq_plist j s') (L j);
  iu_use j : irq_ok j ->
    Z.testbit (irq_use s') j = if decide (j = i) then bool_decide (l <> []) else Z.testbit (irq_use s) j;
  iu_act j n : irq_ok j -> 0 <= n -> Z.testbit (irq_actids s' j) n = true ->
    Z.testbit (irq_actids s j) n = true /\ (j = i -> 2 ^ n <> hk_id_of s hook);
  iu_mask j : irq_masked s' j = if decide (j = i) then true else irq_masked s j }.

Lemma irq_unlinked_inv s s' L i hook l :
  irq_inv s L -> irq_ok i -> hook ∈ L i -> irq_unlinked s s' L i hook l -> irq_inv s' (<[i := l]> L).
Proof.
  intros [I1 I2 I3 I4 I5 I6 I7 I8] Hir Hin [K1 K2 K3 K5 K6 K7 K8 K9].
  assert (Hsub : forall j h, h ∈ (<[i := l]> L : Z -> list Z) j -> h ∈ L j).
  { intros j h. rewrite fn_insert_case. case_decide; [subst|done]. by intros [? _]%K1. }
  split.
  - intros j Hj. rewrite fn_insert_case. case_decide; [by subst|by apply K6].
  - intros j Hj. rewrite fn_insert_case. case_decide; [by subst|by apply I2].
  - intros j h Hj Hh%Hsub. rewrite (proj1 (K3 h)). by apply I3.
  - intros j h Hj Hh%Hsub. rewrite (proj2 (K3 h)). by apply (I4 j).
  - intros j h h' Hj Hh%Hsub Hh'%Hsub. rewrite (proj2 (K3 h)), (proj2 (K3 h')). by apply (I5 j).
  - intros j Hj. rewrite K7, fn_insert_case by done.
    destruct (decide (j = i)) as [->|]; [by rewrite decide_True|].
    rewrite decide_False by congruence. by apply I6.
  - intros j n Hj Hn [Hb Hne]%(K8 j n Hj Hn). destruct (I7 j n Hj Hn Hb) as (h & Hh & He).
    exists h. rewrite (proj2 (K3 h)). split; [|done]. rewrite fn_insert_case.
    case_decide; [subst|done]. apply K1. split; [done|]. intros ->. by apply Hne.
  - intros j Hj Hz. rewrite K9. case_decide; [done|]. apply I8; [done|]. intros H0. apply Hz.
    apply Z.bits_inj'. intros n Hn. rewrite Z.testbit_0_l.
    destruct (Z.testbit (irq_actids s' j) n) eqn:Eb; [|done].
    destruct (K8 j n Hj Hn Eb) as [Hb _]. by rewrite H0, Z.testbit_0_l in Hb.
Qed.

Lemma irq_assign_unlink s L i hook l1 l2 :
  irq_inv s L -> irq_ok i -> L i = l1 ++ hook :: l2 ->
  wpx E (irq_assign i (loc_after l1) (hk_next (irq_hooks s hook))) (fun _ s' =>
    plist_rep (irq_plist i s') (l1 ++ l2) /\
    (forall j, irq_ok j -> j <> i -> plist_rep (irq_plist j s') (L j)) /\
    (forall h, hk_irq (irq_hooks s' h) = hk_irq (irq_hooks s h) /\ hk_id_of s' h = hk_id_of s h) /\
    irq_use s' = irq_use s /\ irq_actids s' = irq_actids s /\ irq_masked s' = irq_masked s /\
    irq_erase s' = irq_erase s) s.
Proof.
  intros Hi Hir HL. pose proof (ii_rep _ _ Hi) as Hrep. pose proof (ii_nodup _ _ Hi i Hir) as Hnd.
  pose proof (Hrep i Hir) as Hr. rewrite HL in Hr, Hnd.
  pose proof (assign_unlink (irq_plist i s) l1 hook l2 Hnd Hr) as Hl.
  assert (Hlast : forall k, last l1 = Some k -> k ∈ L i)
    by (intros k Hk%last_Some_elem_of; rewrite HL; set_solver).
  unfold loc_after in *. destruct (last l1) as [k|] eqn:Elast; simpl.
  - specialize (Hlast k eq_refl). destruct (ii_hook _ _ Hi i k Hir Hlast) as [Hkok Hki].
    apply wpx_wrh; [done|]. split_all; try done.
    + unfold plist_rep, irq_plist in *. simpl in *. eapply chain_ext; [|exact Hl].
      intros x _. rewrite !fn_insert_case. by case_decide; subst.
    + intros j Hj Hne. specialize (Hrep j Hj). unfold plist_rep, irq_plist in *. simpl in *.
      eapply chain_ext; [|exact Hrep]. intros x Hx. rewrite fn_insert_case. case_decide; [|done].
      subst x. destruct Hne. destruct (ii_hook _ _ Hi j k Hj Hx). congruence.
    + intros h. unfold hk_id_of. simpl. rewrite fn_insert_case. by case_decide; subst.
  - apply wpx_modify. split_all; try done.
    + unfold plist_rep, irq_plist in *. simpl in *. by rewrite fn_lookup_insert.
    + intros j Hj Hne. specialize (Hrep j Hj). unfold plist_rep, irq_plist in *. simpl in *.
      by rewrite fn_lookup_insert_ne by done.
Qed.

Lemma ldiff_bit_use u i j : irq_ok i -> irq_ok j ->
  Z.testbit (Z.ldiff u (Z.shiftl 1 i)) j = Z.testbit u j && negb (i =? j).
Proof.
  unfold irq_ok. intros Hi Hj. by rewrite Z.ldiff_spec, Z.shiftl_1_l, Z.pow2_bits_eqb by lia.
Qed.

(** The rest of [rm_irq_handler], once the line is masked and the hook found. *)
Lemma rm_finish s s0 L i hook l1 l2 n :
  irq_inv s L -> irq_inv s0 L -> irq_ok i -> L i = l1 ++ hook :: l2 -> 0 <= n ->
  hk_id_of s hook = 2 ^ n -> irq_hooks s0 = irq_hooks s -> irq_use s0 = irq_use s ->
  (forall j, irq_actids s0 j = if decide (j = i) then flag_set (irq_actids s i) (2 ^ n)
                               else irq_actids s j) ->
  (forall j, irq_masked s0 j = if decide (j = i) then true else irq_masked s j) ->
  irq_erase s0 = irq_erase s ->
  wpx E (do! irq_assign i (loc_after l1) (hk_next (irq_hooks s0 hook));
         do first <- gets (fun s => irq_handlers s i);
         do! when (bool_decide (first = None))
           (modify (fun s => set_irq_use (Z.ldiff (irq_use s) (Z.shiftl 1 i)) s));
         do act <- rd_act i;
         when (flag_any act (2 ^ n)) (upd_act i (fun a => flag_clear a (2 ^ n))))
    (fun _ s' => irq_unlinked s s' L i hook (l1 ++ l2) /\ irq_erase s' = irq_erase s) s0.
Proof.
  intros Hi H0 Hir HL Hn En Eh Eu Ea Em Ee. apply wpx_bind.
  eapply wpx_conseq; [by apply (irq_assign_unlink s0 L i hook l1 l2)|].
  intros u s1 (R1 & R2 & R3 & Eu1 & Ea1 & Em1 & Ee1). apply wpx_bind, wpx_gets.
  pose proof (ii_nodup _ _ Hi i Hir) as Hnd. rewrite HL in Hnd.
  assert (Hfirst : irq_handlers s1 i = head (l1 ++ l2)).
  { unfold plist_rep, irq_plist in R1. simpl in R1. destruct (l1 ++ l2); simpl in R1; tauto. }
  rewrite Hfirst. apply wpx_bind.
  assert (Huse : forall s2, irq_use s2 = (if bool_decide (head (l1 ++ l2) = None)
      then Z.ldiff (irq_use s) (Z.shiftl 1 i) else irq_use s) -> forall j, irq_ok j ->
      Z.testbit (irq_use s2) j =
      if decide (j = i) then bool_decide (l1 ++ l2 <> []) else Z.testbit (irq_use s) j).
  { intros s2 -> j Hj. destruct (l1 ++ l2) as [|x l]; simpl.
    - rewrite ldiff_bit_use by done. case_decide as Hc.
      + subst j. by rewrite Z.eqb_refl, andb_false_r.
      + rewrite (proj2 (Z.eqb_neq i j)) by congruence. by rewrite andb_true_r.
    - case_decide as Hc; [|done]. subst j.
      rewrite (ii_use _ _ Hi i Hir), HL. by destruct l1. }
  assert (Hact : flag_any (irq_actids s1 i) (2 ^ n) = true).
  { rewrite Ea1, Ea, decide_True, flag_any_bit, flag_set_bit, Z.eqb_refl by (done || lia).
    by rewrite orb_true_r. }
  assert (Hfin : forall s2, irq_use s2 = (if bool_decide (head (l1 ++ l2) = None)
      then Z.ldiff (irq_use s) (Z.shiftl 1 i) else irq_use s) ->
      irq_hooks s2 = irq_hooks s1 -> irq_handlers s2 = irq_handlers s1 ->
      irq_masked s2 = irq_masked s1 -> 
      (forall j, irq_actids s2 j = if decide (j = i) then flag_clear (irq_actids s1 i) (2 ^ n)
                                   else irq_actids s1 j) ->
      irq_unlinked s s2 L i hook (l1 ++ l2)).
  { intros s2 U2 H2 D2 M2 A2. apply NoDup_app in Hnd as (N1 & N2 & N3%NoDup_cons).
    split; unfold irq_plist, hk_id_of in *; rewrite ?H2, ?D2, ?M2; try done.
    - intros h. rewrite HL. split; [|set_solver]. intros Hh. split; [set_solver|]. intros ->.
      apply elem_of_app in Hh as [Hh|Hh]; [apply (N2 hook Hh); set_solver|tauto].
    - apply NoDup_app. split_all; [done|set_solver|tauto].
    - intros h. by rewrite <- Eh.
    - by apply Huse.
    - intros j m Hj Hm. rewrite A2, Ea1. case_decide as Hc; [subst j|].
      + rewrite Ea, decide_True, flag_clear_bit, flag_set_bit, En by (done || lia).
        intros [[Hb|Hb]%orb_true_iff Hne]%andb_true_iff; apply negb_true_iff, Z.eqb_neq in Hne;
          [|apply Z.eqb_eq in Hb; congruence].
        split; [done|]. intros _ He. apply Hne. symmetry. by apply pow2_inj.
      + rewrite Ea, decide_False by done. done.
    - intros j. by rewrite Em1, Em. }
  destruct (bool_decide (head (l1 ++ l2) = None)) eqn:Eb; simpl;
    [apply wpx_modify|apply wpx_ret]; apply wpx_bind, wpx_rd_act; try done; simpl; rewrite Hact;
    simpl; apply wpx_upd_act; try done; (split; [|transitivity (irq_erase s1); [done|congruence]]);
    apply Hfin; simpl; try done; try congruence; intros j; rewrite fn_insert_case;
    destruct (decide (i = j)), (decide (j = i)); congruence.
Qed.

(** The hook is off its line; the line stays masked. *)
Lemma rm_irq_handler_wp s L i hook l1 l2 :
  irq_inv s L -> irq_ok i -> L i = l1 ++ hook :: l2 ->
  wpx E (rm_irq_handler hook) (fun _ s' => irq_inv s' (<[i := l1 ++ l2]> L) /\
    irq_masked s' i = true /\ irq_erase s' = irq_erase s) s.
Proof.
  intros Hi Hir HL. assert (Hin : hook ∈ L i) by (rewrite HL; set_solver).
  destruct (ii_hook _ _ Hi i hook Hir Hin) as [Hok Hirq].
  destruct (ii_id _ _ Hi i hook Hir Hin) as (n & Hn & En).
  unfold rm_irq_handler. apply wpx_bind, wpx_rdh; [done|]. rewrite Hirq.
  apply wpx_bind, wpx_rdh; [done|]. fold (hk_id_of s hook).
  assert (Hc : (i <? 0) || (NR_IRQ_VECTORS <=? i) = false) by (unfold irq_ok in Hir; lia).
  rewrite Hc. apply wpx_bind, wpx_upd_act; [done|]. apply wpx_bind, wpx_modify.
  set (s0 := set_irq_masked _ _).
  assert (H0 : irq_inv s0 L).
  { apply (mark_act_inv (set_mask i true s) L i hook); [by apply set_mask_inv|done|done|].
    simpl. by rewrite fn_lookup_insert. }
  assert (E0 : irq_hooks s0 = irq_hooks s /\ irq_use s0 = irq_use s /\ irq_erase s0 = irq_erase s /\
    (forall j, irq_actids s0 j = if decide (j = i) then flag_set (irq_actids s i) (2 ^ n)
                                 else irq_actids s j) /\
    (forall j, irq_masked s0 j = if decide (j = i) then true else irq_masked s j)).
  { rewrite <- En. split_all; try done; intros j; subst s0; simpl; rewrite fn_insert_case;
      destruct (decide (i = j)), (decide (j = i)); congruence. }
  clearbody s0. destruct E0 as (Eh & Eu & Ee & Ea & Em).
  destruct (rm_walk s0 L i hook l1 l2 H0 Hir HL) as [Ew Ed].
  apply wpx_bind, wpx_gets.
  assert (Eid : hk_id_of s hook = hk_id_of s0 hook) by (unfold hk_id_of; by rewrite Eh).
  rewrite Eid, Ew. apply wpx_bind, wpx_gets. rewrite Ed. apply wpx_bind, wpx_rdh; [done|].
  rewrite <- Eid, En.
  eapply wpx_conseq; [apply (rm_finish s s0 L i hook l1 l2 n); try done; lia|].
  intros u s' [U Ee']. split_all; [by apply (irq_unlinked_inv s s' L i hook)| |done].
  by rewrite (iu_mask _ _ _ _ _ _ U), decide_True.
Qed.

End rules.
