(* ===== verification/IrqSafe.v ===== *)
(** * Handling an interrupt

    Every hook of the line is called once; when the call returns, the bits of the
    handlers that have not finished are exactly the active ones, and the line is
    unmasked if and only if there are none. *)
From S2P Require Import Prelude PList KMonad Timers Types KState TimerIface Memory Sched SchedInv.
From S2P Require Import Balance Notify Copy Ipc IpcInv IpcSafe Delivery Clock ClockSafe Interrupt IrqInv.

(** The invariant of message passing does not read the interrupt system. *)
Lemma ipc_inv_irq s s' : irq_erase s' = irq_erase s -> ipc_inv s -> ipc_inv s'.
Proof.
  intros He. assert (Hfld : forall {A} (f : kstate -> A), (forall x, f (irq_erase x) = f x) -> f s' = f s)
    by (intros A f Hf; by rewrite <- (Hf s'), He).
  apply ipc_inv_same; [by apply Hfld..|]. split; by apply Hfld.
Qed.

(** What an interrupt leaves alone of the processes and of the scheduler's settings. *)
Definition kept (s s' : kstate) : Prop :=
  (forall p, no_new_sig (k_proc s p) (k_proc s' p)) /\ sched_type s' = sched_type s /\
  proc_ptr s' = proc_ptr s.

#[export] Instance kept_po : PreOrder kept.
Proof.
  split; [by split|]. intros x y z (A1 & A2 & A3) (B1 & B2 & B3). unfold kept. split_all; [|congruence..].
  intros p n Hn H. by apply A1, B1.
Qed.

Section handle.
Context (E : Prop).

(** What the handlers need of the kernel. *)
Record irq_env (s : kstate) : Prop := mk_irq_env {
  ie_inv : ipc_inv s;
  ie_tasks : clock_tasks s;
  ie_run : minix_panicing s = 0;
  ie_bill : exists b, bill_ptr s = Some b /\ slot b /\ is_free s b = false;
  ie_hz : 0 < system_hz s;
  ie_panics : tick_panics s -> E }.

(** A hook of a driver belongs to a live process. *)
Definition driver_ok (s : kstate) (h : Z) : Prop :=
  hk_handler (irq_hooks s h) = H_generic ->
  exists d, slot d /\ is_free s d = false /\ endpt s d = hk_proc_nr_e (irq_hooks s h).

Record handler_step (s s' : kstate) : Prop := mk_handler_step {
  hs_env : irq_env s';
  hs_irq : irq_view s' = irq_view s;
  hs_free p : is_free s' p = is_free s p;
  hs_endpt p : endpt s' p = endpt s p;
  hs_kept : kept s s' }.

Lemma good_handler s s' : irq_env s -> good s s' -> handler_step s s'.
Proof.
  intros [V1 (V2 & V3 & V4) V5 (b & V6 & V7 & V8) V9 V10] G. destruct G as [G1 G2].
  pose proof (is_glob _ _ G2) as Eg. unfold glob_view in Eg.
  assert (Hf : forall p, is_free s' p = is_free s p) by (intros p; by rewrite (weak_free s s' G2)).
  assert (He : forall p, endpt s' p = endpt s p) by (intros p; by rewrite (weak_endpt s s' G2)).
  split; [|congruence|done|done|].
  2: { unfold kept. split_all; [apply (is_delay _ _ G2)|congruence|apply (is_cur _ _ G2)]. }
  split; [done| |congruence| | |].
  - unfold clock_tasks. by rewrite He, !Hf.
  - exists b. rewrite Hf. split_all; [congruence|done..].
  - replace (system_hz s') with (system_hz s) by congruence. done.
  - intros Ht. apply V10. unfold tick_panics in *. rewrite Hf in Ht.
    destruct Ht as [Ht|Ht]; [by left|right]. by apply (weak_vtimed s s').
Qed.

Lemma time_passed_env s : irq_env s -> irq_env (time_passed s).
Proof.
  intros [V1 V2 V3 V4 V5 V6]. split; try done.
  destruct V1 as ([[W1 W2 W3 W4] [Q [Q1 Q2 Q3 Q4]]] &
    [[I1 I2 I3 I4 I5 I6 I7 I8 I9] [P1 P2 P3] A [C [C1 C2 C3]]] & Hp).
  split; [split; [by split|exists Q; by split]|]. split; [|exact Hp].
  split; [by split|by split|exact A|exists C; by split].
Qed.

(** The driver is notified, and the handler has finished if its policy says so. *)
Lemma generic_handler_wp s h d :
  irq_env s -> hook_ok h -> slot d -> is_free s d = false ->
  endpt s d = hk_proc_nr_e (irq_hooks s h) ->
  wpx E (generic_handler h) (fun r s' =>
    r = flag_any (hk_policy (irq_hooks s h)) IRQ_REENABLE /\ handler_step s s' /\
    notified s' d HARDWARE) s.
Proof.
  intros Henv Hok Hd Hfd He. pose proof Henv as [Hi (_ & _ & Hhf) _ _ _ _].
  unfold generic_handler. apply wpx_bind, wpx_rdh; [done|]. rewrite <- He. apply wpx_bind.
  eapply wpx_done; [apply isokendpt_live; [apply Hi|done..]|]. cbv beta iota.
  apply wpx_bind, wpx_rdh; [done|]. apply wpx_bind.
  eapply wpx_priv_live; [done..|]. intros i Hpi Hsi Hni Hid. apply wpx_bind, wpx_wrp; [done|].
  set (s1 := upd_priv i _ s). assert (G1 : good s s1) by by apply good_upd_priv.
  assert (Hh : irq_hooks s1 = irq_hooks s) by done.
  pose proof (good_handler s s1 Henv G1) as [V1 R1 F1 T1 _]. clearbody s1.
  apply wpx_bind, wpx_rdh; [done|]. rewrite Hh, <- He, <- (T1 d). apply wpx_bind.
  eapply wpx_conseq; [apply mini_notify_told; [apply V1|done|by rewrite F1|done|by rewrite F1]|].
  intros r s2 (_ & G2 & Hn). apply wpx_bind, wpx_rdh; [done|]. apply wpx_ret.
  pose proof (good_handler s s2 Henv (good_trans _ _ _ G1 G2)) as H2.
  split_all; [|done|done]. pose proof (hs_irq _ _ H2) as Ev. unfold irq_view in Ev. congruence.
Qed.

(** Whether a handler finishes at once. *)
Definition finishes (s : kstate) (h : Z) : bool :=
  match hk_handler (irq_hooks s h) with
  | H_generic => flag_any (hk_policy (irq_hooks s h)) IRQ_REENABLE
  | H_bsp_timer => true
  end.

Lemma run_handler_wp s h :
  irq_env s -> hook_ok h -> driver_ok s h ->
  wpx E (run_handler h) (fun r s' => r = finishes s h /\ handler_step s s') s.
Proof.
  intros Henv Hok Hd. unfold run_handler, finishes. apply wpx_bind, wpx_rdh; [done|].
  destruct (hk_handler (irq_hooks s h)) eqn:Eh.
  - destruct (Hd Eh) as (d & Hs & Hf & He).
    eapply wpx_conseq; [by apply (generic_handler_wp s h d)|]. intros r s' (-> & H & _). done.
  - pose proof Henv as [V1 V2 V3 (b & V6 & V7 & V8) V9 V10]. apply wpx_bind.
    eapply wpx_conseq; [by apply (bsp_timer_int_handler_wp E s b)|]. intros r s' [-> T].
    apply wpx_ret. split; [done|].
    pose proof (good_handler _ _ (time_passed_env s Henv) (tk_good _ _ T)) as [H1 H2 H3 H4 H5].
    by split.
Qed.

(** ** The loop *)

(** The state of the line while its hooks are called: those of [l1] have been. *)
Record in_loop (s0 s : kstate) (L : Z -> list Z) (i : Z) (l1 : list Z) : Prop := mk_in_loop {
  lo_env : irq_env s;
  lo_inv : irq_inv s L;
  lo_hooks : irq_hooks s = irq_hooks s0;
  lo_free p : is_free s p = is_free s0 p;
  lo_endpt p : endpt s p = endpt s0 p;
  lo_kept : kept s0 s;
  lo_mask : irq_masked s i = true;
  lo_done h : h ∈ l1 -> flag_any (irq_actids s i) (hk_id_of s0 h) = negb (finishes s0 h) }.

Lemma set_act_env s i act : irq_env s -> irq_env (set_act i act s).
Proof.
  intros [V1 V2 V3 V4 V5 V6]. split; try done. by apply (ipc_inv_irq s).
Qed.

(** A change of the bit of [h] leaves the bits of the other hooks alone. *)
Lemma act_other s L i h h' (a a' : Z) :
  irq_inv s L -> irq_ok i -> h ∈ L i -> h' ∈ L i -> h <> h' ->
  a' = flag_set a (hk_id_of s h) \/ a' = flag_clear a (hk_id_of s h) ->
  flag_any a' (hk_id_of s h') = flag_any a (hk_id_of s h').
Proof.
  intros Hi Hir Hh Hh' Hne Ha.
  destruct (ii_id _ _ Hi i h Hir Hh) as (n & Hn & En).
  destruct (ii_id _ _ Hi i h' Hir Hh') as (m & Hm & Em).
  assert (n <> m) by (intros ->; apply Hne, (ii_inj _ _ Hi i); [done..|congruence]).
  rewrite En in Ha. rewrite Em, !flag_any_bit by lia.
  destruct Ha as [->| ->]; rewrite ?flag_set_bit, ?flag_clear_bit, (proj2 (Z.eqb_neq n m)) by lia.
  - by rewrite orb_false_r.
  - by rewrite andb_true_r.
Qed.

Lemma irq_turn_wp s0 s L i l1 h l2 (Q : kstate -> Prop) (rest : K unit) :
  irq_ok i -> L i = l1 ++ h :: l2 -> driver_ok s0 h -> in_loop s0 s L i l1 ->
  (forall s', in_loop s0 s' L i (l1 ++ [h]) -> wpx E rest (fun _ => Q) s') ->
  wpx E (do id <- rdh h hk_id;
         do! upd_act i (fun a => flag_set a id);
         do fin <- run_handler h;
         do! when fin (
           do irq' <- rdh h hk_irq;
           do id' <- rdh h hk_id;
           upd_act irq' (fun a => flag_clear a id'));
         rest) (fun _ => Q) s.
Proof.
  intros Hir HL Hdr [Le Li Lh Lf Lp Lk Lm Ld] Hrest.
  assert (Hin : h ∈ L i) by (rewrite HL; set_solver).
  destruct (ii_hook _ _ Li i h Hir Hin) as [Hok Hirq].
  destruct (ii_id _ _ Li i h Hir Hin) as (n & Hn & En).
  assert (Hnd : h ∉ l1).
  { pose proof (ii_nodup _ _ Li i Hir) as Hnd. rewrite HL in Hnd. apply NoDup_app in Hnd as (_ & Hd & _).
    intros Hx. apply (Hd h Hx). set_solver. }
  apply wpx_bind, wpx_rdh; [done|]. apply wpx_bind, wpx_upd_act; [done|].
  fold (hk_id_of s h) (set_act i (flag_set (irq_actids s i) (hk_id_of s h)) s).
  set (s1 := set_act i _ s).
  assert (I1 : irq_inv s1 L) by by apply mark_act_inv.
  assert (V1 : irq_env s1) by by apply set_act_env.
  assert (A1 : irq_actids s1 i = flag_set (irq_actids s i) (hk_id_of s h))
    by (subst s1; simpl; by rewrite fn_lookup_insert).
  assert (F1 : irq_hooks s1 = irq_hooks s /\ irq_masked s1 = irq_masked s /\
    (forall p, is_free s1 p = is_free s p) /\ (forall p, endpt s1 p = endpt s p) /\ kept s s1) by done.
  clearbody s1. destruct F1 as (Fh & Fm & Ff & Fe & Fk).
  apply wpx_bind. eapply wpx_conseq; [apply (run_handler_wp s1 h V1 Hok)|].
  { intros Hg. rewrite Fh, Lh in *. destruct (Hdr Hg) as (d & D1 & D2 & D3). exists d.
    by rewrite Ff, Fe, Lf, Lp. }
  intros r s2 [-> [V2 R2 F2 E2 K2]]. assert (I2 : irq_inv s2 L) by (eapply irq_inv_view; done).
  unfold irq_view in R2. assert (Eid : forall x, hk_id_of s2 x = hk_id_of s x)
    by (intros x; unfold hk_id_of; congruence).
  assert (A2 : irq_actids s2 i = flag_set (irq_actids s i) (hk_id_of s h)) by congruence.
  assert (Efin : finishes s1 h = finishes s0 h) by (unfold finishes; by rewrite Fh, Lh).
  assert (Hid0 : forall x, hk_id_of s0 x = hk_id_of s2 x)
    by (intros x; rewrite Eid; unfold hk_id_of; by rewrite Lh).
  assert (Hold : forall x, x ∈ l1 -> flag_any (irq_actids s2 i) (hk_id_of s2 x) = negb (finishes s0 x)).
  { intros x Hx. rewrite <- (Ld x Hx), Hid0, A2. eapply (act_other s2 L i h x); try done.
    - rewrite HL. set_solver.
    - by intros ->.
    - left. by rewrite Eid. }
  assert (Hcommon : irq_hooks s2 = irq_hooks s0 /\ irq_masked s2 i = true /\
    (forall p, is_free s2 p = is_free s0 p) /\ (forall p, endpt s2 p = endpt s0 p) /\ kept s0 s2).
  { split; [congruence|split; [congruence|split; [intros p; by rewrite F2, Ff|]]].
    split; [intros p; by rewrite E2, Fe|]. etrans; [exact Lk|]. by etrans. }
  destruct Hcommon as (C1 & C2 & C3 & C4 & C5). rewrite Efin.
  apply wpx_bind, wpx_when; intros Hfin.
  - apply wpx_bind, wpx_rdh; [done|]. apply wpx_bind, wpx_rdh; [done|].
    destruct (ii_hook _ _ I2 i h Hir Hin) as [_ ->]. apply wpx_upd_act; [done|]. apply Hrest.
    fold (hk_id_of s2 h) (set_act i (flag_clear (irq_actids s2 i) (hk_id_of s2 h)) s2).
    split; try done; [by apply set_act_env|by apply clear_act_inv|].
    intros x Hx. simpl. rewrite fn_lookup_insert, Hid0.
    apply elem_of_app in Hx as [Hx| ->%list_elem_of_singleton].
    + rewrite <- (Hold x Hx). eapply (act_other s2 L i h x); try done; [rewrite HL; set_solver| |by right].
      by intros ->.
    + rewrite Hfin, Eid, En, flag_any_bit, flag_clear_bit, Z.eqb_refl by lia. by rewrite andb_false_r.
  - apply Hrest. split; try done. intros x Hx. rewrite Hid0.
    apply elem_of_app in Hx as [Hx| ->%list_elem_of_singleton]; [by apply Hold|].
    rewrite Hfin, A2, Eid, En, flag_any_bit, flag_set_bit, Z.eqb_refl by lia. by rewrite orb_true_r.
Qed.

Lemma irq_loop_wp s0 L i fuel l1 l2 s :
  irq_ok i -> L i = l1 ++ l2 -> (forall h, h ∈ L i -> driver_ok s0 h) -> in_loop s0 s L i l1 ->
  (length l2 <= fuel)%nat ->
  wpx E (irq_loop fuel i (head l2)) (fun _ s' => in_loop s0 s' L i (L i)) s.
Proof.
  intros Hir HL Hdr. revert l1 l2 s HL. induction fuel as [|fuel IH]; intros l1 [|h l2] s HL HI Hf;
    try (simpl in Hf; lia); [by rewrite HL, app_nil_r|by rewrite HL, app_nil_r|].
  cbn [irq_loop head].
  eapply (irq_turn_wp s0 s L i l1 h l2 _ (do nxt <- rdh h hk_next; irq_loop fuel i nxt)); try done.
  { apply Hdr. rewrite HL. set_solver. }
  intros s' HI'. assert (HL' : L i = (l1 ++ [h]) ++ l2) by by rewrite <- app_assoc.
  apply wpx_bind, wpx_rdh; [apply (ii_hook _ _ (lo_inv _ _ _ _ _ HI') i); [done|rewrite HL; set_solver]|].
  pose proof (ii_rep _ _ (lo_inv _ _ _ _ _ HI') i Hir) as Hr. rewrite HL in Hr.
  assert (hk_next (irq_hooks s' h) = head l2) as ->.
  { destruct (chain_deref_after _ _ _ _ Hr) as [_ Hc]. specialize (Hc h l2 eq_refl).
    simpl in Hc. destruct l2; simpl in Hc; tauto. }
  apply (IH (l1 ++ [h])); [done|done|simpl in Hf; lia].
Qed.

(** ** [irq_handle] *)

Record handled (s s' : kstate) (L : Z -> list Z) (i : Z) : Prop := mk_handled {
  hd_env : irq_env s';
  hd_inv : irq_inv s' L;
  hd_hooks : irq_hooks s' = irq_hooks s;
  hd_free p : is_free s' p = is_free s p;
  hd_endpt p : endpt s' p = endpt s p;
  hd_kept : kept s s';
  hd_active h : h ∈ L i -> flag_any (irq_actids s' i) (hk_id_of s h) = negb (finishes s h);
  hd_masked : irq_masked s' i = negb (irq_actids s' i =? 0) }.

Lemma irq_handle_wp s L i :
  irq_env s -> irq_inv s L -> irq_ok i -> (forall h, h ∈ L i -> driver_ok s h) ->
  wpx E (irq_handle i) (fun _ s' => handled s s' L i) s.
Proof.
  intros Henv Hi Hir Hdr. unfold irq_handle. apply wpx_bind, wpx_modify.
  fold (set_mask i true s). set (s1 := set_mask i true s).
  assert (I1 : irq_inv s1 L) by by apply set_mask_inv.
  assert (V1 : irq_env s1).
  { destruct Henv as [V1 V2 V3 V4 V5 V6]. split; try done. by apply (ipc_inv_irq s). }
  assert (Hhead : irq_handlers s1 i = head (L i)).
  { pose proof (ii_rep _ _ I1 i Hir) as Hr. unfold plist_rep, irq_plist in Hr. simpl in Hr.
    destruct (L i); simpl in Hr; tauto. }
  apply wpx_bind. eapply wpx_done; [by rewrite decide_True|]. rewrite Hhead. apply wpx_bind.
  eapply wpx_conseq.
  - apply (irq_loop_wp s L i HOOK_FUEL [] (L i) s1); try done.
    + split; try done; [|set_solver]. subst s1. simpl. by rewrite fn_lookup_insert.
    + apply Nat.lt_le_incl, hooks_fuel; [by apply Hi|]. intros x Hx. by apply (ii_hook _ _ Hi i).
  - intros u s2 [Le Li Lh Lf Lp Lk Lm Ld]. apply wpx_bind, wpx_rd_act; [done|].
    destruct (Z.eqb_spec (irq_actids s2 i) 0) as [H0|H0]; cbn [when].
    + apply wpx_modify. fold (set_mask i false s2). split; [| |exact Lh|exact Lf|exact Lp|exact Lk|..].
      * destruct Le as [V2 V3 V4 V5 V6 V7]. split; try done. by apply (ipc_inv_irq s2).
      * apply set_mask_inv; [done|]. by intros ?.
      * done.
      * simpl. rewrite fn_lookup_insert, H0. done.
    + apply wpx_ret. split; try done. by rewrite Lm, (proj2 (Z.eqb_neq _ _) H0).
Qed.

End handle.
