(* ===== verification/System.v ===== *)
(** * The system task: its helpers (kernel/system.c)

    Privilege structures and send masks, the removal of a process from message
    passing ([clear_endpoint]), and the calls suspended for VM
    ([vmrestart_check]).  The signal helpers are in Notify.v, [umap_bios] in
    Memory.v. *)
From S2P Require Import Prelude PList KMonad Timers Types KState Memory Sched Notify Copy Ipc.

(** ** Privilege structures *)

(** [BEG_DYN_PRIV_ADDR .. END_DYN_PRIV_ADDR]. *)
Definition dyn_privs : list Z := seqZ NR_STATIC_PRIV_IDS (NR_SYS_PROCS - NR_STATIC_PRIV_IDS).

(** [rc->p_priv = sp; rc->p_priv->s_proc_nr = proc_nr(rc);] *)
Definition assign_priv (rc sp : Z) : K Z :=
  do! wr rc (set_p_priv (Some sp));
  do nr <- rd rc p_nr;
  do! wrp sp (set_s_proc_nr nr);
  ret OK.

Definition get_priv (rc priv_id : Z) : K Z :=
  if priv_id =? NULL_PRIV_ID then
    do found <- for_return dyn_privs (fun sp =>
      do nr <- rdp sp s_proc_nr;
      ret (if nr =? NONE then Some sp else None));
    match found with
    | None => ret ENOSPC
    | Some sp => assign_priv rc sp
    end
  else if negb (is_static_priv_id priv_id) then ret EINVAL
  else
    do nr <- rdp priv_id s_proc_nr;
    if negb (nr =? NONE) then ret EBUSY
    else assign_priv rc priv_id.

(** [priv_id(rp)]. *)
Definition priv_id (rp : Z) : K Z := do pr <- priv_of rp; rdp pr s_id.

(** [unset_sys_bit(priv->s_ipc_to, id)] and [set_sys_bit]. *)
Definition unset_ipc_to (pr id : Z) : K unit :=
  wrp pr (fun sp => set_s_ipc_to (unset_sys_bit (s_ipc_to sp) id) sp).
Definition set_ipc_to (pr id : Z) : K unit :=
  wrp pr (fun sp => set_s_ipc_to (set_sys_bit (s_ipc_to sp) id) sp).

Definition set_sendto_bit (rp id : Z) : K unit :=
  do nr <- rdp id s_proc_nr;
  do pr <- priv_of rp;
  do pid <- rdp pr s_id;
  if (nr =? NONE) || (pid =? id) then unset_ipc_to pr id
  else
    do! set_ipc_to pr id;
    do traps <- rdp id s_trap_mask;
    when (negb (Z.ldiff traps (Z.shiftl 1 RECEIVE) =? 0)) (set_ipc_to id pid).

Definition unset_sendto_bit (rp id : Z) : K unit :=
  do pr <- priv_of rp;
  do! unset_ipc_to pr id;
  do pid <- rdp pr s_id;
  unset_ipc_to id pid.

(** ** [clear_endpoint] *)

(** Take [rc] off the caller queue of the process it is sending to. *)
Definition leave_queue (rc : Z) : K unit :=
  do e <- rd rc p_sendto_e;
  do target_proc <- okendpt e;
  do xpp <- cq_walk target_proc (fun _ k => k =? rc);
  do cur <- gets (fun s => deref (cq_plist target_proc s) xpp);
  do! match cur with
      | None => ret tt
      | Some k => do nxt <- rd k p_q_link; cq_assign target_proc xpp nxt
      end;
  wr rc (fun p => set_p_rts_flags (flag_clear (p_rts_flags p) RTS_SENDING) p).

(** Tell [rp] that [rc] is gone. *)
Definition forget_endpoint (rc rp : Z) : K unit :=
  do empty <- isemptyp rp;
  if empty : bool then ret tt
  else
    do pr <- priv_of rp;
    do prc <- priv_of rc;
    do id <- rdp prc s_id;
    do! wrp pr (fun sp => set_s_notify_pending (unset_sys_bit (s_notify_pending sp) id) sp);
    do rep <- rd rc p_endpoint;
    do receiving <- RTS_ISSET rp RTS_RECEIVING;
    do from <- rd rp p_getfrom_e;
    do! when (receiving && (from =? rep)) (
      do! wr rp (set_p_retreg ESRCDIED);
      RTS_LOCK_UNSET rp RTS_RECEIVING);
    do sending <- RTS_ISSET rp RTS_SENDING;
    do to <- rd rp p_sendto_e;
    when (sending && (to =? rep)) (
      do! wr rp (set_p_retreg EDSTDIED);
      RTS_LOCK_UNSET rp RTS_SENDING).

Definition clear_endpoint (rc : Z) : K unit :=
  do empty <- isemptyp rc;
  if empty : bool then panic "clear_proc: empty process"
  else
    do e <- rd rc p_endpoint;
    if (e =? PM_PROC_NR) || (e =? VFS_PROC_NR) || (e =? VM_PROC_NR)
    then panic "system process died"
    else
      do! RTS_LOCK_SET rc RTS_NO_ENDPOINT;
      do pr <- priv_of rc;
      do fl <- rdp pr s_flags;
      do! when (flag_any fl SYS_PROC) (wrp pr (set_s_asynsize 0));
      do sending <- RTS_ISSET rc RTS_SENDING;
      do! when sending (leave_queue rc);
      do! wr rc (fun p => set_p_rts_flags (flag_clear (p_rts_flags p) RTS_RECEIVING) p);
      for_each all_slots (forget_endpoint rc).

(** ** [vmrestart_check] *)

(** The message to handle again and the process that waits for it; [isokendpt]
    stores the slot in [who_p] before it checks it. *)
Definition vmrestart_check : K (option (Z * message)) :=
  do o <- gets vmrestart;
  match o with
  | None => ret None
  | Some restarting =>
      do type <- rd restarting (fun p => vr_type (p_vmrequest p));
      do! wr restarting (upd_vmrequest (set_vr_type VMSTYPE_SYS_NONE));
      do next <- rd restarting (fun p => vr_nextrestart (p_vmrequest p));
      do! modify (set_vmrestart next);
      if type =? VMSTYPE_KERNELCALL then
        do m <- rd restarting (fun p => vr_reqmsg (p_vmrequest p));
        do! wr restarting (upd_vmrequest (fun v => set_vr_reqmsg (set_m_source NONE (vr_reqmsg v)) v));
        do! modify (set_who_p (_ENDPOINT_P (m_source m)));
        do ok <- isokendpt (m_source m);
        match ok with
        | None => ret None
        | Some _ =>
            let i := i32 (m_type m - KERNEL_CALL) in
            if (0 <=? i) && (i <? NR_SYS_CALLS) then ret (Some (restarting, m))
            else panic "call number out of range"
        end
      else panic "strange restart type"
  end.
