(* ===== verification/SendMask.v ===== *)
(** * Send masks

    [set_sendto_bit] and [unset_sendto_bit] never let a process send to itself,
    and keep the masks of live privilege structures symmetric, but for those that
    cannot reply. *)
From S2P Require Import Prelude PList KMonad Timers Types KState Memory Sched SchedInv Notify Copy Ipc.
From S2P Require Import IpcInv IpcSafe System.

Definition sends_to (s : kstate) (i j : Z) : bool := get_sys_bit (s_ipc_to (k_priv s i)) j.

(** Traps other than [RECEIVE] are allowed. *)
Definition can_reply (s : kstate) (i : Z) : bool :=
  negb (Z.ldiff (s_trap_mask (k_priv s i)) (Z.shiftl 1 RECEIVE) =? 0).

Definition priv_live (s : kstate) (i : Z) : Prop := s_proc_nr (k_priv s i) <> NONE.

Record masks_ok (s : kstate) : Prop := mk_masks_ok {
  mo_self i : priv_slot i -> sends_to s i i = false;
  mo_sym i j : priv_slot i -> priv_slot j -> priv_live s i -> priv_live s j ->
    sends_to s i j = true -> can_reply s j = true -> sends_to s j i = true }.

(** Only masks differ. *)
Definition same_privs (s s' : kstate) : Prop :=
  forall i, can_reply s' i = can_reply s i /\ (priv_live s' i <-> priv_live s i).

Lemma upd_mask_same a g s :
  same_privs s (upd_priv a (fun sp => set_s_ipc_to (g (s_ipc_to sp)) sp) s).
Proof.
  intros i. unfold can_reply, priv_live. simpl. rewrite fn_insert_case. case_decide; [by subst|done].
Qed.

Lemma set_ipc_to_bits s a b i j :
  sends_to (upd_priv a (fun sp => set_s_ipc_to (set_sys_bit (s_ipc_to sp) b) sp) s) i j = true <->
  (i = a /\ j = b) \/ sends_to s i j = true.
Proof.
  unfold sends_to. simpl. rewrite fn_insert_case. case_decide as Hc; simpl.
  - subst i. rewrite get_set_sys_bit, orb_true_iff, Z.eqb_eq. naive_solver.
  - naive_solver.
Qed.

Lemma unset_ipc_to_bits s a b i j :
  sends_to (upd_priv a (fun sp => set_s_ipc_to (unset_sys_bit (s_ipc_to sp) b) sp) s) i j = true <->
  sends_to s i j = true /\ ~ (i = a /\ j = b).
Proof.
  unfold sends_to. simpl. rewrite fn_insert_case. case_decide as Hc; simpl.
  - subst i. rewrite get_unset_sys_bit, andb_true_iff, negb_true_iff, Z.eqb_neq. naive_solver.
  - naive_solver.
Qed.

Lemma mask_good a g s :
  ipc_inv s -> good s (upd_priv a (fun sp => set_s_ipc_to (g (s_ipc_to sp)) sp) s).
Proof. intros Hi. by apply good_upd_priv. Qed.

(** [a] may send to [b], and [b] to [a] if it can reply. *)
Lemma masks_link s s' a b :
  masks_ok s -> same_privs s s' -> a <> b ->
  (forall i j, sends_to s' i j = true <->
     (i = a /\ j = b) \/ (can_reply s b = true /\ i = b /\ j = a) \/ sends_to s i j = true) ->
  masks_ok s'.
Proof.
  intros [M1 M2] Hp Hne Hb. split.
  - intros i Hi. apply not_true_iff_false. rewrite Hb. intros [[-> ?]|[(_ & -> & ?)|Hs]]; try congruence.
    rewrite M1 in Hs; done.
  - intros i j Hi Hj Li%Hp Lj%Hp. rewrite (proj1 (Hp j)), !Hb. intros [[-> ->]|[(Hr & -> & ->)|Hs]] Hc;
      [by right; left|by left|right; right; by apply M2].
Qed.

(** [a] may no longer send to [b], nor [b] to [a] if both are live. *)
Lemma masks_unlink s s' a b :
  masks_ok s -> same_privs s s' ->
  (forall i j, sends_to s' i j = true -> sends_to s i j = true) ->
  (forall i j, sends_to s i j = true -> sends_to s' i j = true \/ (i = a /\ j = b) \/ (i = b /\ j = a)) ->
  (priv_live s b -> sends_to s' a b = false /\ sends_to s' b a = false) ->
  masks_ok s'.
Proof.
  intros [M1 M2] Hp Hsub Hold Hab. split.
  - intros i Hi. apply not_true_iff_false. intros Hs%Hsub. rewrite M1 in Hs; done.
  - intros i j Hi Hj Li%Hp Lj%Hp Hs. rewrite (proj1 (Hp j)). intros Hc.
    destruct (Hold j i) as [?|[[-> ->]|[-> ->]]]; [by apply M2; auto|done| |].
    + destruct (Hab Li); congruence.
    + destruct (Hab Lj); congruence.
Qed.

Section masks.
Context (E : Prop).

Lemma same_privs_trans s1 s2 s3 : same_privs s1 s2 -> same_privs s2 s3 -> same_privs s1 s3.
Proof. intros H1 H2 i. destruct (H1 i), (H2 i). split; [congruence|tauto]. Qed.

(** The process may send to [id] afterwards, unless [id] is its own or nobody's. *)
Lemma set_sendto_bit_wp s rp id i :
  ipc_inv s -> masks_ok s -> slot rp -> is_free s rp = false -> priv_slot id ->
  p_priv (k_proc s rp) = Some i ->
  wpx E (set_sendto_bit rp id) (fun _ s' => good s s' /\ masks_ok s' /\
    (sends_to s' i id = true <-> priv_live s id /\ i <> id)) s.
Proof.
  intros Hi HM Hrp Hf Hid Hpi. unfold set_sendto_bit. apply wpx_bind, wpx_rdp; [done|].
  apply wpx_bind. eapply wpx_priv_live; [done..|]. intros pr Hpr Hsp Hlive Hsid.
  rewrite Hpi in Hpr. injection Hpr as <-. apply wpx_bind, wpx_rdp; [done|]. rewrite Hsid.
  destruct ((s_proc_nr (k_priv s id) =? NONE) || (i =? id)) eqn:Hc.
  - apply wpx_wrp; [done|]. apply orb_true_iff in Hc. rewrite !Z.eqb_eq in Hc.
    split_all; [exact (mask_good i (fun m => unset_sys_bit m id) s Hi)| |].
    + apply (masks_unlink s _ i id); [done|exact (upd_mask_same i (fun m => unset_sys_bit m id) s)| | |].
      * intros x y. rewrite unset_ipc_to_bits. tauto.
      * intros x y Hs. rewrite unset_ipc_to_bits. destruct (decide (x = i /\ y = id)); tauto.
      * intros Hl. destruct Hc as [Hc|<-]; [done|].
        split; apply not_true_iff_false; rewrite unset_ipc_to_bits; tauto.
    + rewrite unset_ipc_to_bits. unfold priv_live. tauto.
  - apply orb_false_iff in Hc as [Hn%Z.eqb_neq Hne%Z.eqb_neq].
    apply wpx_bind, wpx_wrp; [done|]. set (s1 := upd_priv i _ s).
    assert (G1 : good s s1) by exact (mask_good i (fun m => set_sys_bit m id) s Hi).
    assert (T1 : same_privs s s1) by exact (upd_mask_same i (fun m => set_sys_bit m id) s).
    assert (B1 : forall x y, sends_to s1 x y = true <-> (x = i /\ y = id) \/ sends_to s x y = true)
      by (intros; apply set_ipc_to_bits). clearbody s1.
    apply wpx_bind, wpx_rdp; [done|]. fold (can_reply s1 id). rewrite (proj1 (T1 id)).
    apply wpx_when; intros Hr; [apply wpx_wrp; [done|]|].
    + split_all; [eapply good_trans; [exact G1|exact (mask_good id (fun m => set_sys_bit m i) s1 (proj1 G1))]| |].
      * apply (masks_link s _ i id); [done|eapply same_privs_trans; [exact T1|exact (upd_mask_same id (fun m => set_sys_bit m i) s1)]|done|].
        intros x y. rewrite set_ipc_to_bits, B1. tauto.
      * rewrite set_ipc_to_bits, B1. tauto.
    + split_all; [done| |rewrite B1; tauto].
      apply (masks_link s _ i id); [done..|]. intros x y. rewrite B1, Hr. naive_solver.
Qed.

(** Neither may send to the other afterwards. *)
Lemma unset_sendto_bit_wp s rp id i :
  ipc_inv s -> masks_ok s -> slot rp -> is_free s rp = false -> priv_slot id ->
  p_priv (k_proc s rp) = Some i ->
  wpx E (unset_sendto_bit rp id) (fun _ s' => good s s' /\ masks_ok s' /\
    sends_to s' i id = false /\ sends_to s' id i = false) s.
Proof.
  intros Hi HM Hrp Hf Hid Hpi. unfold unset_sendto_bit. apply wpx_bind.
  eapply wpx_priv_live; [done..|]. intros pr Hpr Hsp Hlive Hsid.
  rewrite Hpi in Hpr. injection Hpr as <-. apply wpx_bind, wpx_wrp; [done|]. set (s1 := upd_priv i _ s).
  assert (G1 : good s s1) by exact (mask_good i (fun m => unset_sys_bit m id) s Hi).
  assert (T1 : same_privs s s1) by exact (upd_mask_same i (fun m => unset_sys_bit m id) s).
  assert (B1 : forall x y, sends_to s1 x y = true <-> sends_to s x y = true /\ ~ (x = i /\ y = id))
    by (intros; apply unset_ipc_to_bits).
  assert (Hsid1 : s_id (k_priv s1 i) = i).
  { rewrite (weak_id s s1) by apply G1. done. } clearbody s1.
  apply wpx_bind, wpx_rdp; [done|]. rewrite Hsid1. apply wpx_wrp; [done|].
  set (s2 := upd_priv id _ s1).
  assert (B2 : forall x y, sends_to s2 x y = true <->
    sends_to s x y = true /\ ~ (x = i /\ y = id) /\ ~ (x = id /\ y = i)).
  { intros x y. unfold s2. rewrite unset_ipc_to_bits, B1. tauto. }
  split_all; [eapply good_trans; [exact G1|exact (mask_good id (fun m => unset_sys_bit m i) s1 (proj1 G1))]| | |].
  - apply (masks_unlink s _ i id); [done|eapply same_privs_trans; [exact T1|exact (upd_mask_same id (fun m => unset_sys_bit m i) s1)]| | |].
    + intros x y. rewrite B2. tauto.
    + intros x y Hs. rewrite B2. destruct (decide (x = i /\ y = id)), (decide (x = id /\ y = i)); tauto.
    + intros _. split; apply not_true_iff_false; rewrite B2; tauto.
  - apply not_true_iff_false. rewrite B2. tauto.
  - apply not_true_iff_false. rewrite B2. tauto.
Qed.

End masks.
