(* ===== verification/ClearEp.v ===== *)
(** * [clear_endpoint]: a dying process leaves message passing

    Afterwards nobody waits for it, it is on no caller queue, no notification
    from it is pending, and the invariant holds. *)
From S2P Require Import Prelude PList KMonad Timers Types KState Memory Sched SchedInv Notify Copy Ipc.
From S2P Require Import IpcInv IpcSafe IpcCalls System.

(** ** Steps that clear [RTS_SENDING], [RTS_RECEIVING], or set [RTS_NO_ENDPOINT] *)

Definition ep_view (p : proc) := (p_nr p, p_priv p, p_endpoint p, (p_getfrom_e p, p_sendto_e p)).

(** The new value of bit [n] when bits 2 and 3 are cleared and bit 8 set as told. *)
Definition new_bit (c2 c3 c8 : bool) (n : Z) (b : bool) : bool :=
  if n =? 2 then b && negb c2 else if n =? 3 then b && negb c3 else if n =? 8 then b || c8 else b.

Record ep_step (rp : Z) (c2 c3 c8 : bool) (s s' : kstate) : Prop := mk_ep_step {
  es_sched : sched_inv s';
  es_view p : ep_view (k_proc s' p) = ep_view (k_proc s p);
  es_other p n : p <> rp -> 0 <= n -> n <> 14 ->
    Z.testbit (flags s' p) n = Z.testbit (flags s p) n;
  es_self n : 0 <= n -> n <> 14 ->
    Z.testbit (flags s' rp) n = new_bit c2 c3 c8 n (Z.testbit (flags s rp) n);
  es_free p : slot p -> is_free s' p = is_free s p;
  es_priv i : priv_view (k_priv s' i) = priv_view (k_priv s i);
  es_chunk i : (forall c, chunk_ok (s_notify_pending (k_priv s i) c)) ->
    forall c, chunk_ok (s_notify_pending (k_priv s' i) c);
  es_pend i j : get_sys_bit (s_notify_pending (k_priv s' i)) j = true ->
    get_sys_bit (s_notify_pending (k_priv s i)) j = true;
  es_cur : proc_ptr s' = proc_ptr s;
  es_who : who_p s' = who_p s;
  es_glob : glob_view s' = glob_view s;
  es_lock : lock_same s s' }.

Lemma new_bit2 a b c x : new_bit a b c 2 x = x && negb a.
Proof. done. Qed.
Lemma new_bit3 a b c x : new_bit a b c 3 x = x && negb b.
Proof. done. Qed.
Lemma new_bit8 a b c x : new_bit a b c 8 x = x || c.
Proof. done. Qed.

Lemma new_bit_compose a b c a' b' c' n x :
  new_bit a' b' c' n (new_bit a b c n x) = new_bit (a || a') (b || b') (c || c') n x.
Proof.
  unfold new_bit. destruct (n =? 2), (n =? 3), (n =? 8), a, a', b, b', c, c', x; done.
Qed.

Lemma ep_step_trans rp a b c a' b' c' s1 s2 s3 :
  ep_step rp a b c s1 s2 -> ep_step rp a' b' c' s2 s3 ->
  ep_step rp (a || a') (b || b') (c || c') s1 s3.
Proof.
  intros [A1 A2 A3 A4 A5 A6 A7 A8 A9 A10 A11 A12] [B1 B2 B3 B4 B5 B6 B7 B8 B9 B10 B11 B12]. split.
  - done.
  - intros p. by rewrite B2.
  - intros p n ???. by rewrite B3, A3.
  - intros n ??. by rewrite B4, A4, new_bit_compose.
  - intros p ?. by rewrite B5, A5.
  - intros i. by rewrite B6.
  - auto.
  - auto.
  - congruence.
  - congruence.
  - congruence.
  - destruct A12, B12. split; congruence.
Qed.

Lemma ep_step_refl rp s : sched_inv s -> ep_step rp false false false s s.
Proof.
  intros Hs. split; auto; [|apply lock_same_refl]. intros n _ _. unfold new_bit.
  destruct (n =? 2), (n =? 3), (n =? 8); by rewrite ?andb_true_r, ?orb_false_r.
Qed.

(** The numbers, endpoints and privileges stay well formed. *)
Lemma ep_step_wf rp a b c s s' : slot rp ->
  ep_step rp a b c s s' -> ipc_wf s -> ipc_wf s'.
Proof.
  intros Hrp [A1 A2 A3 A4 A5 A6 A7 A8 A9 A10 A11 A12] [I1 I2 I3 I4 I5 I6 I7 I8 I9].
  assert (Hv : forall p, p_nr (k_proc s' p) = p_nr (k_proc s p) /\
    p_priv (k_proc s' p) = p_priv (k_proc s p) /\ endpt s' p = endpt s p).
  { intros p. specialize (A2 p). unfold ep_view in A2. unfold endpt. split_all; congruence. }
  assert (Hpr : forall i, s_id (k_priv s' i) = s_id (k_priv s i) /\
    s_proc_nr (k_priv s' i) = s_proc_nr (k_priv s i)).
  { intros i. specialize (A6 i). unfold priv_view in A6. split; congruence. }
  split.
  - intros p Hp. rewrite (proj1 (Hv p)). auto.
  - intros p Hp. destruct (Hv p) as (_ & _ & ->). auto.
  - intros p Hp. rewrite A5 by done. intros Hfp. destruct (Hv p) as (_ & -> & _).
    destruct (I3 p Hp Hfp) as (i & Hi & Hs & Hn). exists i. by destruct (Hpr i) as [_ ->].
  - intros i Hi. rewrite (proj1 (Hpr i)). auto.
  - intros i Hi. destruct (Hpr i) as [_ ->]. destruct (I5 i Hi) as [?|[? ?]]; [by left|right].
    by rewrite A5.
  - intros x. rewrite A9. intros Hx. destruct (I6 x Hx). by rewrite A5.
  - by rewrite A5.
  - intros p Hp. rewrite A5 by done. destruct (decide (p = rp)) as [->|Hne].
    + rewrite A4 by done. apply I8, Hp.
    + rewrite A3 by done. by apply I8.
  - by rewrite A10.
Qed.

(** An update of fields that message passing does not read. *)
Lemma ep_step_upd rp p f s :
  sched_inv s -> keeps f -> ep_step rp false false false s (upd_proc p f s).
Proof.
  intros Hs Hk. pose proof (quiet_upd_proc p f s Hk) as Hq.
  pose proof (quiet_sched _ _ Hq Hs) as Hs'. destruct Hq as [Q1 Q2 Q3 Q4 Q5 Q6 Q7 Q8 Q9 Q10 Q11].
  assert (Hfl : forall x, flags (upd_proc p f s) x = flags s x).
  { intros x. specialize (Q2 x). unfold sched_view in Q2. unfold flags. congruence. }
  pose proof (ep_step_refl rp s Hs) as [A1 A2 A3 A4 A5 A6 A7 A8 A9 A10 A11 A12].
  split; try done.
  - intros x. specialize (Q1 x). unfold ipc_view in Q1. unfold ep_view. congruence.
  - intros x n ???. by rewrite Hfl.
  - intros n ??. rewrite Hfl. by apply A4.
  - intros x Hx. unfold is_free. by rewrite Hfl.
Qed.

Lemma ep_step_pend rp i j s :
  sched_inv s ->
  ep_step rp false false false s
    (upd_priv i (fun sp => set_s_notify_pending (unset_sys_bit (s_notify_pending sp) j) sp) s).
Proof.
  intros Hs. pose proof (ep_step_refl rp s Hs) as [A1 A2 A3 A4 A5 A6 A7 A8 A9 A10 A11 A12].
  split; try done.
  - destruct Hs as [[W1 W2 W3 W4] [Q [R1 R2 R3 R4]]]. split; [by split|exists Q; by split].
  - intros x. simpl. rewrite fn_insert_case. case_decide; by subst.
  - intros x Hc c. simpl. rewrite fn_insert_case. case_decide; [subst|apply Hc]. by apply chunk_ok_unset.
  - intros x y. simpl. rewrite fn_insert_case. case_decide; [subst; simpl|done].
    rewrite get_unset_sys_bit. by intros [? _]%andb_true_iff.
Qed.

(** The caller queues are untouched. *)
Definition links_same (s s' : kstate) : Prop := forall p,
  p_caller_q (k_proc s' p) = p_caller_q (k_proc s p) /\ p_q_link (k_proc s' p) = p_q_link (k_proc s p).

Lemma links_trans s1 s2 s3 : links_same s1 s2 -> links_same s2 s3 -> links_same s1 s3.
Proof. intros H1 H2 p. destruct (H1 p), (H2 p). split; congruence. Qed.

Lemma links_rts rp v s s' : rts_step rp v s s' -> links_same s s'.
Proof.
  intros [F _ _ _] p.
  by rewrite (frame_field p_caller_q s s'), (frame_field p_q_link s s') by done.
Qed.

Lemma bit0_not_free x : Z.testbit x 0 = false -> (x =? RTS_SLOT_FREE) = false.
Proof. intros Hb. apply Z.eqb_neq. by intros ->. Qed.

Lemma ep_step_rts rp v s s' a b c :
  ipc_wf s -> slot rp -> is_free s rp = false -> sched_inv s' -> rts_step rp v s s' ->
  (forall n, 0 <= n -> n <> 14 -> Z.testbit v n = new_bit a b c n (Z.testbit (flags s rp) n)) ->
  ep_step rp a b c s s'.
Proof.
  intros Hwf Hrp Hf Hs R Hv. pose proof R as [F Hfl _ _]. pose proof F as [Hc _]. split.
  - done.
  - intros p. unfold ep_view.
    by rewrite (frame_field p_nr s s'), (frame_field p_priv s s'), (frame_field p_endpoint s s'),
      (frame_field p_getfrom_e s s'), (frame_field p_sendto_e s s') by done.
  - intros p n Hp ??. by apply (rts_step_bits rp v s s' p).
  - intros n ??. rewrite Hfl. by apply Hv.
  - intros p Hp. destruct (decide (p = rp)) as [->|Hne]; [|by apply (rts_step_bits rp v s s' p)].
    rewrite Hf. unfold is_free. rewrite Hfl. apply bit0_not_free. rewrite Hv by done.
    change (new_bit a b c 0 (Z.testbit (flags s rp) 0)) with (Z.testbit (flags s rp) 0).
    by rewrite (iw_free s Hwf rp Hrp).
  - intros i. by rewrite (core_priv s s' Hc).
  - intros i. by rewrite (core_priv s s' Hc).
  - intros i j. by rewrite (core_priv s s' Hc).
  - by apply core_proc_ptr.
  - by apply (core_field who_p).
  - by apply (core_field glob_view).
  - by apply core_lock.
Qed.

Section clear.
Context (E : Prop).

Lemma RTS_LOCK_UNSET_ep s rp f a b :
  sched_inv s -> ipc_wf s -> slot rp -> is_free s rp = false ->
  (forall n x, 0 <= n -> n <> 14 -> x && negb (Z.testbit f n) = new_bit a b false n x) ->
  wpx E (RTS_LOCK_UNSET rp f) (fun _ s' => ep_step rp a b false s s' /\ links_same s s') s.
Proof.
  intros Hs Hwf Hrp Hf Hn.
  eapply wpx_conseq; [apply RTS_LOCK_UNSET_inv; [done..|by apply unset_ok_live]|].
  intros u s' [Hs' R]. split; [|by eapply links_rts]. eapply ep_step_rts; try done.
  intros n ??. unfold flag_clear. rewrite Z.ldiff_spec. by apply Hn.
Qed.

Lemma recv_bit n x : 0 <= n -> x && negb (Z.testbit RTS_RECEIVING n) = new_bit false true false n x.
Proof.
  intros Hn. change RTS_RECEIVING with (2 ^ 3). rewrite Z.pow2_bits_eqb by lia. unfold new_bit.
  destruct (Z.eqb_spec n 2), (Z.eqb_spec 3 n), (Z.eqb_spec n 3), (Z.eqb_spec n 8); subst; try lia;
    destruct x; done.
Qed.

Lemma send_bit n x : 0 <= n -> x && negb (Z.testbit RTS_SENDING n) = new_bit true false false n x.
Proof.
  intros Hn. change RTS_SENDING with (2 ^ 2). rewrite Z.pow2_bits_eqb by lia. unfold new_bit.
  destruct (Z.eqb_spec n 2), (Z.eqb_spec 2 n), (Z.eqb_spec n 3), (Z.eqb_spec n 8); subst; try lia;
    destruct x; done.
Qed.

(** [retreg] is set and the flag [f] cleared, if [rp] waits for [rc]. *)
Lemma forget_flag s rp r f (c a b : bool) :
  sched_inv s -> ipc_wf s -> slot rp -> is_free s rp = false ->
  (forall n x, 0 <= n -> x && negb (Z.testbit f n) = new_bit a b false n x) ->
  wpx E (when c (do! wr rp (set_p_retreg r); RTS_LOCK_UNSET rp f))
    (fun _ s' => ep_step rp (c && a) (c && b) false s s' /\ links_same s s') s.
Proof.
  intros Hs Hwf Hrp Hf Hn. destruct c; cbn [when andb]; [|by apply wpx_ret; split; [apply ep_step_refl|]].
  apply wpx_bind, wpx_wr; [done|]. set (s1 := upd_proc rp _ s).
  assert (S1 : ep_step rp false false false s s1) by by apply ep_step_upd.
  assert (L1 : links_same s s1).
  { intros p. subst s1. simpl. rewrite fn_insert_case. by case_decide; subst. }
  clearbody s1. pose proof (ep_step_wf rp _ _ _ s s1 Hrp S1 Hwf) as Hwf1.
  eapply wpx_conseq; [apply (RTS_LOCK_UNSET_ep s1 rp f a b); [apply S1|done|done| |]|].
  - by rewrite (es_free _ _ _ _ _ _ S1).
  - intros. by apply Hn.
  - intros u s' [S2 L2]. split; [|by eapply links_trans].
    exact (ep_step_trans rp _ _ _ _ _ _ _ _ _ S1 S2).
Qed.

(** [rp] waits for the endpoint [e], sending or receiving. *)
Definition sends_ep (s : kstate) (rp e : Z) : bool := sending s rp && (p_sendto_e (k_proc s rp) =? e).
Definition recvs_ep (s : kstate) (rp e : Z) : bool :=
  receiving s rp && (p_getfrom_e (k_proc s rp) =? e).

Lemma ep_step_endpt rp a b c s s' p : ep_step rp a b c s s' -> endpt s' p = endpt s p /\
  p_priv (k_proc s' p) = p_priv (k_proc s p) /\ p_getfrom_e (k_proc s' p) = p_getfrom_e (k_proc s p) /\
  p_sendto_e (k_proc s' p) = p_sendto_e (k_proc s p).
Proof.
  intros S. pose proof (es_view _ _ _ _ _ _ S p) as Hv. unfold ep_view in Hv. unfold endpt.
  split_all; congruence.
Qed.

Lemma forget_endpoint_wp s rc rp i :
  sched_inv s -> ipc_wf s -> slot rc -> is_free s rc = false -> slot rp ->
  p_priv (k_proc s rc) = Some i ->
  wpx E (forget_endpoint rc rp) (fun _ s' =>
    ep_step rp (sends_ep s rp (endpt s rc)) (recvs_ep s rp (endpt s rc)) false s s' /\
    links_same s s' /\
    (is_free s rp = false -> forall j, p_priv (k_proc s rp) = Some j ->
       get_sys_bit (s_notify_pending (k_priv s' j)) i = false)) s.
Proof.
  intros Hs Hwf Hrc Hfrc Hrp Hi. unfold forget_endpoint. apply wpx_bind, wpx_isemptyp; [done|].
  fold (flags s rp). fold (is_free s rp). destruct (is_free s rp) eqn:Hf; cbv iota.
  - apply wpx_ret. split_all; [|done|done]. unfold sends_ep, recvs_ep, sending, receiving, flags.
    unfold is_free, flags in Hf. apply Z.eqb_eq in Hf. rewrite Hf. by apply ep_step_refl.
  - destruct (iw_priv s Hwf rp Hrp Hf) as (j & Hj & Hsj & _).
    destruct (iw_priv s Hwf rc Hrc Hfrc) as (i' & Hi' & Hsi & _).
    assert (i' = i) as -> by congruence.
    apply wpx_bind. eapply wpx_priv_of; [done..|]. apply wpx_bind. eapply wpx_priv_of; [done..|].
    apply wpx_bind, wpx_rdp; [done|]. rewrite (iw_id s Hwf i Hsi). apply wpx_bind, wpx_wrp; [done|].
    pose proof (ep_step_pend rp j i s Hs) as S1. set (s1 := upd_priv j _ s) in *.
    assert (L1 : links_same s s1) by done.
    assert (Hpend : get_sys_bit (s_notify_pending (k_priv s1 j)) i = false).
    { subst s1. simpl. rewrite fn_lookup_insert. simpl. rewrite get_unset_sys_bit, Z.eqb_refl.
      by rewrite andb_false_r. }
    assert (Hp1 : forall p, k_proc s1 p = k_proc s p) by done. clearbody s1.
    pose proof (ep_step_wf rp _ _ _ s s1 Hrp S1 Hwf) as Hwf1.
    apply wpx_bind, wpx_rd; [done|]. apply wpx_bind.
    eapply wpx_done; [by apply receiving_done|]. apply wpx_bind, wpx_rd; [done|].
    rewrite !Hp1. fold (endpt s rc). apply wpx_bind.
    assert (Er : receiving s1 rp && (p_getfrom_e (k_proc s rp) =? endpt s rc) = recvs_ep s rp (endpt s rc)).
    { unfold recvs_ep, receiving, flags. by rewrite Hp1. }
    rewrite Er. eapply wpx_conseq.
    { apply (forget_flag s1 rp ESRCDIED RTS_RECEIVING _ false true); [apply S1|done|done| |].
      - by rewrite (es_free _ _ _ _ _ _ S1).
      - intros. by apply recv_bit. }
    intros u s2 [S2 L2]. rewrite andb_false_r, andb_true_r in S2.
    pose proof (ep_step_trans rp _ _ _ _ _ _ _ _ _ S1 S2) as S12. cbn [orb] in S12.
    pose proof (ep_step_wf rp _ _ _ s s2 Hrp S12 Hwf) as Hwf2.
    apply wpx_bind. eapply wpx_done; [by apply sending_done|]. apply wpx_bind, wpx_rd; [done|].
    assert (Es : sending s2 rp && (p_sendto_e (k_proc s2 rp) =? endpt s rc) = sends_ep s rp (endpt s rc)).
    { unfold sends_ep, sending. rewrite (es_self _ _ _ _ _ _ S12) by done.
      destruct (ep_step_endpt _ _ _ _ _ _ rp S12) as (_ & _ & _ & ->).
      unfold new_bit. simpl. by rewrite andb_true_r. }
    rewrite Es. eapply wpx_conseq.
    { apply (forget_flag s2 rp EDSTDIED RTS_SENDING _ true false); [apply S12|done|done| |].
      - by rewrite (es_free _ _ _ _ _ _ S12).
      - intros. by apply send_bit. }
    intros u' s3 [S3 L3]. rewrite andb_false_r, andb_true_r in S3.
    pose proof (ep_step_trans rp _ _ _ _ _ _ _ _ _ S12 S3) as S. cbn [orb] in S. rewrite orb_false_r in S.
    split_all; [done|by eapply links_trans; [exact L1|eapply links_trans]|].
    intros _ j' Hj'. assert (j' = j) as -> by congruence. apply not_true_iff_false.
    intros Hb%(es_pend _ _ _ _ _ _ S3)%(es_pend _ _ _ _ _ _ S2). congruence.
Qed.

(** ** The loop over the process table *)

(** All processes but those of [rest] have forgotten [rc], whose endpoint is [e]
    and whose privilege id is [i]. *)
Record forgotten (rc e i : Z) (s : kstate) (rest : list Z) (s' : kstate) : Prop := mk_forgotten {
  fg_sched : sched_inv s';
  fg_wf : ipc_wf s';
  fg_view p : ep_view (k_proc s' p) = ep_view (k_proc s p);
  fg_links : links_same s s';
  fg_free p : slot p -> is_free s' p = is_free s p;
  fg_noep p : slot p -> no_endpoint s' p = no_endpoint s p;
  fg_send p : slot p -> sending s' p = true ->
    sending s p = true /\ (p ∉ rest -> p_sendto_e (k_proc s p) <> e);
  fg_send' p : slot p -> sending s p = true -> p_sendto_e (k_proc s p) <> e -> sending s' p = true;
  fg_recv p : slot p -> receiving s' p = true ->
    receiving s p = true /\ (p ∉ rest -> p_getfrom_e (k_proc s p) <> e);
  fg_recv' p : slot p -> receiving s p = true -> p_getfrom_e (k_proc s p) <> e ->
    receiving s' p = true;
  fg_priv j : priv_view (k_priv s' j) = priv_view (k_priv s j);
  fg_chunk j : (forall c, chunk_ok (s_notify_pending (k_priv s j) c)) ->
    forall c, chunk_ok (s_notify_pending (k_priv s' j) c);
  fg_pend j k : get_sys_bit (s_notify_pending (k_priv s' j)) k = true ->
    get_sys_bit (s_notify_pending (k_priv s j)) k = true;
  fg_quiet p j : slot p -> p ∉ rest -> is_free s p = false -> p_priv (k_proc s p) = Some j ->
    get_sys_bit (s_notify_pending (k_priv s' j)) i = false;
  fg_cur : proc_ptr s' = proc_ptr s;
  fg_who : who_p s' = who_p s;
  fg_glob : glob_view s' = glob_view s;
  fg_lock : lock_same s s' }.

(** The bits of [p] after a step on [rp]. *)
Lemma ep_step_bit rp a b s s' p n :
  ep_step rp a b false s s' -> 0 <= n -> n <> 14 ->
  Z.testbit (flags s' p) n =
  if decide (p = rp) then new_bit a b false n (Z.testbit (flags s p) n) else Z.testbit (flags s p) n.
Proof.
  intros S ??. case_decide; [subst; by apply S|by apply S].
Qed.

Lemma forgotten_step rc e i s s1 s2 rp rest :
  forgotten rc e i s (rp :: rest) s1 -> slot rp -> ipc_wf s2 ->
  ep_step rp (sends_ep s1 rp e) (recvs_ep s1 rp e) false s1 s2 -> links_same s1 s2 ->
  (is_free s1 rp = false -> forall j, p_priv (k_proc s1 rp) = Some j ->
     get_sys_bit (s_notify_pending (k_priv s2 j)) i = false) ->
  forgotten rc e i s rest s2.
Proof.
  intros F Hrp Hwf S L Hq.
  assert (Hv : forall p, p_priv (k_proc s1 p) = p_priv (k_proc s p) /\
    p_getfrom_e (k_proc s1 p) = p_getfrom_e (k_proc s p) /\ p_sendto_e (k_proc s1 p) = p_sendto_e (k_proc s p)).
  { intros p. pose proof (fg_view _ _ _ _ _ _ F p) as Ev. unfold ep_view in Ev. split_all; congruence. }
  split.
  - apply S.
  - done.
  - intros p. by rewrite (es_view _ _ _ _ _ _ S), (fg_view _ _ _ _ _ _ F).
  - eapply links_trans; [apply F|done].
  - intros p Hp. by rewrite (es_free _ _ _ _ _ _ S), (fg_free _ _ _ _ _ _ F).
  - intros p Hp. unfold no_endpoint at 1. rewrite (ep_step_bit _ _ _ _ _ p 8 S) by done.
    rewrite <- (fg_noep _ _ _ _ _ _ F) by done. unfold no_endpoint.
    rewrite new_bit8, orb_false_r. by case_decide.
  - intros p Hp. unfold sending at 1. rewrite (ep_step_bit _ _ _ _ _ p 2 S) by done.
    rewrite new_bit2. fold (sending s1 p). unfold sends_ep.
    destruct (decide (p = rp)) as [->|Hne].
    + intros [Hs Hn]%andb_true_iff. destruct (fg_send _ _ _ _ _ _ F rp Hp Hs) as [Hs0 _].
      split; [done|]. intros _ He. destruct (Hv rp) as (_ & _ & Hto).
      rewrite Hs, Hto, He, Z.eqb_refl in Hn. done.
    + intros Hs. destruct (fg_send _ _ _ _ _ _ F p Hp Hs) as [Hs0 Hr]. split; [done|].
      intros Hn. apply Hr. set_solver.
  - intros p Hp Hs He. pose proof (fg_send' _ _ _ _ _ _ F p Hp Hs He) as Hs1.
    unfold sending. rewrite (ep_step_bit _ _ _ _ _ p 2 S) by done. fold (sending s1 p).
    case_decide as Hc; [|done]. subst p. rewrite new_bit2. unfold sends_ep.
    destruct (Hv rp) as (_ & _ & ->). by rewrite Hs1, (proj2 (Z.eqb_neq _ _) He).
  - intros p Hp. unfold receiving at 1. rewrite (ep_step_bit _ _ _ _ _ p 3 S) by done.
    rewrite new_bit3. fold (receiving s1 p). unfold recvs_ep.
    destruct (decide (p = rp)) as [->|Hne].
    + intros [Hs Hn]%andb_true_iff. destruct (fg_recv _ _ _ _ _ _ F rp Hp Hs) as [Hs0 _].
      split; [done|]. intros _ He. destruct (Hv rp) as (_ & Hfr & _).
      rewrite Hs, Hfr, He, Z.eqb_refl in Hn. done.
    + intros Hs. destruct (fg_recv _ _ _ _ _ _ F p Hp Hs) as [Hs0 Hr]. split; [done|].
      intros Hn. apply Hr. set_solver.
  - intros p Hp Hs He. pose proof (fg_recv' _ _ _ _ _ _ F p Hp Hs He) as Hs1.
    unfold receiving. rewrite (ep_step_bit _ _ _ _ _ p 3 S) by done. fold (receiving s1 p).
    case_decide as Hc; [|done]. subst p. rewrite new_bit3. unfold recvs_ep.
    destruct (Hv rp) as (_ & -> & _). by rewrite Hs1, (proj2 (Z.eqb_neq _ _) He).
  - intros j. by rewrite (es_priv _ _ _ _ _ _ S), (fg_priv _ _ _ _ _ _ F).
  - intros j Hj. apply (es_chunk _ _ _ _ _ _ S), (fg_chunk _ _ _ _ _ _ F), Hj.
  - intros j k Hb. by apply (fg_pend _ _ _ _ _ _ F), (es_pend _ _ _ _ _ _ S).
  - intros p j Hp Hn Hf Hj. destruct (decide (p = rp)) as [->|Hne].
    + apply Hq; [by rewrite (fg_free _ _ _ _ _ _ F)|by destruct (Hv rp) as (-> & _)].
    + apply not_true_iff_false. intros Hb%(es_pend _ _ _ _ _ _ S).
      rewrite (fg_quiet _ _ _ _ _ _ F p j) in Hb; [done|done|set_solver|done|done].
  - by rewrite (es_cur _ _ _ _ _ _ S), (fg_cur _ _ _ _ _ _ F).
  - by rewrite (es_who _ _ _ _ _ _ S), (fg_who _ _ _ _ _ _ F).
  - by rewrite (es_glob _ _ _ _ _ _ S), (fg_glob _ _ _ _ _ _ F).
  - destruct (es_lock _ _ _ _ _ _ S), (fg_lock _ _ _ _ _ _ F). split; congruence.
Qed.

Lemma forgotten_start rc e i s : sched_inv s -> ipc_wf s -> forgotten rc e i s all_slots s.
Proof.
  intros Hs Hwf. split; auto; try done.
  - intros p Hp Hb. split; [done|]. intros Hn. by apply elem_of_all_slots in Hp.
  - intros p Hp Hb. split; [done|]. intros Hn. by apply elem_of_all_slots in Hp.
  - intros p j Hp Hn. by apply elem_of_all_slots in Hp.
Qed.

Lemma forget_loop_wp s rc i :
  sched_inv s -> ipc_wf s -> slot rc -> is_free s rc = false -> p_priv (k_proc s rc) = Some i ->
  wpx E (for_each all_slots (forget_endpoint rc)) (fun _ s' =>
    forgotten rc (endpt s rc) i s [] s') s.
Proof.
  intros Hs Hwf Hrc Hf Hi.
  apply (wpx_for_each E (fun rest s' => forgotten rc (endpt s rc) i s rest s'));
    [by apply forgotten_start| |done].
  intros rp rest s1 F Hin%elem_of_all_slots.
  assert (Hrc1 : endpt s1 rc = endpt s rc /\ p_priv (k_proc s1 rc) = p_priv (k_proc s rc)).
  { pose proof (fg_view _ _ _ _ _ _ F rc) as Ev. unfold ep_view in Ev. unfold endpt. split; congruence. }
  destruct Hrc1 as [He1 Hp1].
  eapply wpx_conseq.
  - apply (forget_endpoint_wp s1 rc rp i); [apply F|apply F|done| |done|congruence].
    by rewrite (fg_free _ _ _ _ _ _ F).
  - intros u s2 (S & L & Hq). rewrite He1 in S. eapply (forgotten_step rc _ i s s1 s2 rp rest); try done.
    eapply ep_step_wf; [exact Hin|exact S|apply F].
Qed.

(** ** The first part: [rc] itself *)

Lemma cq_step_ep rp s s' : sched_inv s -> cq_step s s' -> ep_step rp false false false s s'.
Proof.
  intros Hs S. pose proof (ep_step_refl rp s Hs) as [A1 A2 A3 A4 A5 A6 A7 A8 A9 A10 A11 A12].
  assert (Hw : forall p, ep_view (k_proc s' p) = ep_view (k_proc s p) /\ flags s' p = flags s p).
  { intros p. pose proof (cs_wait _ _ S p) as Ev. unfold wait_view in Ev. unfold ep_view, flags.
    split; congruence. }
  split; try apply S; auto.
  - intros p. apply Hw.
  - intros p n ???. by rewrite (proj2 (Hw p)).
  - intros n ??. rewrite (proj2 (Hw rp)). by apply A4.
  - intros p Hp. unfold is_free. by rewrite (proj2 (Hw p)).
  - intros i. by rewrite (cs_priv _ _ S).
  - intros i. by rewrite (cs_priv _ _ S).
  - intros i j. by rewrite (cs_priv _ _ S).
Qed.

Lemma ep_step_asyn rp i s :
  sched_inv s -> ep_step rp false false false s (upd_priv i (set_s_asynsize 0) s).
Proof.
  intros Hs. pose proof (ep_step_refl rp s Hs) as [A1 A2 A3 A4 A5 A6 A7 A8 A9 A10 A11 A12].
  split; try done.
  - destruct Hs as [[W1 W2 W3 W4] [Q [R1 R2 R3 R4]]]. split; [by split|exists Q; by split].
  - intros x. simpl. rewrite fn_insert_case. case_decide; by subst.
  - intros x Hc c. simpl. rewrite fn_insert_case. case_decide; [subst|]; apply Hc.
  - intros x y. simpl. rewrite fn_insert_case. by case_decide; subst.
Qed.

(** Clearing a flag of a process that stays blocked by [RTS_NO_ENDPOINT]. *)
Lemma wr_clear_ep s rc f a b :
  sched_inv s -> ipc_wf s -> slot rc -> is_free s rc = false -> no_endpoint s rc = true ->
  (forall n x, 0 <= n -> x && negb (Z.testbit f n) = new_bit a b false n x) ->
  let s' := upd_proc rc (fun p => set_p_rts_flags (flag_clear (p_rts_flags p) f) p) s in
  ep_step rc a b false s s' /\ links_same s s'.
Proof.
  intros Hs Hwf Hrc Hf Hne Hn. change (upd_proc rc _ s) with (unset_flags rc f s). cbv zeta.
  assert (Hb : forall n, 0 <= n -> n <> 14 -> Z.testbit (flag_clear (flags s rc) f) n =
    new_bit a b false n (Z.testbit (flags s rc) n)).
  { intros n ??. unfold flag_clear. rewrite Z.ldiff_spec. by apply Hn. }
  assert (Hnz : forall x, Z.testbit x 8 = true -> x <> 0) by (intros x Hx ->; by rewrite Z.testbit_0_l in Hx).
  destruct Hs as [Hw [Q H]].
  pose proof (rts_changed_step _ _ _ _ (rts_changed_upd' rc (fun x => flag_clear x f) s)) as R.
  split; [|by eapply links_rts]. eapply ep_step_rts; [done..| |exact R|done].
  split; [apply unset_flags_wf; [done..|by apply unset_ok_live]|]. exists Q.
  apply (rq_inv_upd_blocked ∅ s Q rc (fun x => flag_clear x f)); [by apply Hnz|apply Hnz|done].
  rewrite Hb by done. rewrite new_bit8. fold (no_endpoint s rc). by rewrite Hne.
Qed.

(** The queues of the other live processes, without [rc]. *)
Definition queues_without (rc : Z) (C : Z -> list Z) (s s' : kstate) : Prop :=
  forall d, alive s d -> d <> rc -> plist_rep (cq_plist d s') (without rc (C d)).

Lemma rep_links s s' d l : links_same s s' -> plist_rep (cq_plist d s) l -> plist_rep (cq_plist d s') l.
Proof.
  intros L. unfold plist_rep, cq_plist. simpl. rewrite (proj1 (L d)). apply chain_ext.
  intros x _. by rewrite (proj2 (L x)).
Qed.

(** Nobody sends to itself. *)
Lemma sender_not_self s rc d : ipc_inv s -> slot rc -> sending s rc = true ->
  p_sendto_e (k_proc s rc) = endpt s d -> d <> rc.
Proof.
  intros (_ & [Hwf Hpo Hac _] & _) Hrc Hsend He ->. apply (Hac rc). apply tc_once. split; [done|].
  unfold waits. rewrite Hsend. rewrite He, (iw_ep s Hwf rc Hrc). destruct (receiving s rc) eqn:Hr; [|done].
  rewrite (po_both s Hpo rc Hrc Hsend Hr), He, (iw_ep s Hwf rc Hrc).
  rewrite (proj2 (Z.eqb_neq _ _)); [done|]. by apply endpt_not_any.
Qed.

(** A sender is in one queue. *)
Lemma cq_one_queue s C d d' x : ipc_wf s -> cq_inv s C -> alive s d -> alive s d' ->
  x ∈ C d -> x ∈ C d' -> d' = d.
Proof.
  intros Hwf HC Hd Hd' Hx Hx'. apply HC in Hx; [|done]. apply HC in Hx'; [|done]. destr_and.
  apply (endpt_inj s); [done|apply Hd'|apply Hd|congruence].
Qed.

(** [rc] is unlinked from the queue of [d], where it is between [l1] and [l2]. *)
Lemma unlinked_queues s s2 s3 rc C d l1 l2 : ipc_wf s -> cq_inv s C -> alive s d -> links_same s s2 ->
  C d = l1 ++ rc :: l2 ->
  (forall l, plist_rep (assign (cq_plist d s2) (loc_after l1) (p_q_link (k_proc s2 rc))) l ->
     plist_rep (cq_plist d s3) l) ->
  (forall d' l, d' <> d -> (forall k, loc_after l1 = LNext k -> k ∉ l) ->
     plist_rep (cq_plist d' s2) l -> plist_rep (cq_plist d' s3) l) ->
  queues_without rc C s s3.
Proof.
  intros Hwf HC Hald L2 HCd Q3 O3 d' Hd' Hne.
  pose proof (cq_nodup _ _ HC d Hald) as Hnod. rewrite HCd in Hnod.
  destruct (decide (d' = d)) as [->|Hdd].
  - destruct (NoDup_middle _ _ _ Hnod) as (? & ? & _). rewrite HCd, without_middle by done. apply Q3.
    apply (assign_unlink (cq_plist d s2) l1 rc l2); [done|]. rewrite <- HCd. by apply (rep_links s s2), HC.
  - rewrite without_notin by (intros Hin; apply Hdd, (cq_one_queue s C d d' rc); try done; rewrite HCd; set_solver).
    apply O3; [done| |by apply (rep_links s s2), HC].
    intros k Hk%loc_after_member Hk'. apply Hdd, (cq_one_queue s C d d' k); try done. rewrite HCd. set_solver.
Qed.

Lemma leave_queue_wp s s2 rc C :
  ipc_inv s -> cq_inv s C -> slot rc -> is_free s rc = false -> sending s rc = true ->
  ep_step rc false false true s s2 -> links_same s s2 ->
  wpx E (leave_queue rc) (fun _ s' => ep_step rc true false true s s' /\ queues_without rc C s s') s2.
Proof.
  intros Hi HC Hrc Hf Hsend S2 L2. pose proof Hi as (Hs & [Hwf Hpo Hac _] & _).
  destruct (po_send s Hpo rc Hrc Hsend) as (d & Hald & He).
  pose proof (sender_not_self s rc d Hi Hrc Hsend He) as Hdr.
  pose proof (ep_step_wf rc _ _ _ s s2 Hrc S2 Hwf) as Hwf2.
  destruct (ep_step_endpt _ _ _ _ _ _ rc S2) as (_ & _ & _ & Hto).
  destruct (ep_step_endpt _ _ _ _ _ _ d S2) as (Hed & _ & _ & _).
  pose proof Hald as (Hsd & Hfd & Hnd).
  unfold leave_queue. apply wpx_bind, wpx_rd; [done|]. rewrite Hto, He, <- Hed. apply wpx_bind.
  eapply wpx_done; [apply okendpt_done; [done|done|by rewrite (es_free _ _ _ _ _ _ S2)]|].
  assert (Hin : rc ∈ C d) by (apply (cq_mem _ _ HC d rc Hald); done).
  apply list_elem_of_split in Hin as (l1 & l2 & HCd).
  pose proof (cq_nodup _ _ HC d Hald) as Hnod. rewrite HCd in Hnod.
  pose proof (rep_links s s2 d _ L2 (cq_rep _ _ HC d Hald)) as Hrep. rewrite HCd in Hrep.
  assert (Hslots : forall x, x ∈ l1 ++ rc :: l2 -> slot x) by (rewrite <- HCd; intros x; by apply (cq_slots s)).
  apply wpx_bind. eapply wpx_done.
  { apply (cq_walk_done _ s2 d l1 (rc :: l2)); try done; [|apply Z.eqb_refl].
    apply Forall_forall. intros x Hx. apply Z.eqb_neq. intros ->.
    apply NoDup_app in Hnod as (_ & Hdis & _). apply (Hdis rc Hx). set_solver. }
  apply wpx_bind, wpx_gets.
  assert (Hder : deref (cq_plist d s2) (loc_after l1) = Some rc)
    by exact (proj1 (chain_deref_after _ _ _ _ Hrep)).
  rewrite Hder. apply wpx_bind, wpx_bind, wpx_rd; [done|].
  destruct (cq_assign_done d (loc_after l1) (p_q_link (k_proc s2 rc)) s2 Hsd)
    as (s3 & E3 & S3 & Q3 & O3 & _); [intros k Hk%loc_after_member; apply Hslots; set_solver|].
  eapply wpx_done; [exact E3|]. apply wpx_wr; [done|].
  pose proof (ep_step_trans rc _ _ _ _ _ _ _ _ _ S2 (cq_step_ep rc s2 s3 (es_sched _ _ _ _ _ _ S2) S3)) as S23.
  pose proof (ep_step_wf rc _ _ _ s s3 Hrc S23 Hwf) as Hwf3.
  destruct (wr_clear_ep s3 rc RTS_SENDING true false) as [S4 L4]; [apply S23|done|done| | |intros; by apply send_bit|].
  { by rewrite (es_free _ _ _ _ _ _ S23). }
  { unfold no_endpoint. rewrite (es_self _ _ _ _ _ _ S23), new_bit8 by done. by rewrite orb_true_r. }
  split; [exact (ep_step_trans rc _ _ _ _ _ _ _ _ _ S23 S4)|].
  intros d' Hd' Hne. eapply rep_links; [exact L4|]. by apply (unlinked_queues s s2 s3 rc C d l1 l2).
Qed.

(** ** The invariant afterwards *)

(** What [clear_endpoint] leaves: nobody waits for [rc]. *)
Record ep_cleared (rc : Z) (s s' : kstate) : Prop := mk_ep_cleared {
  ec_inv : ipc_inv s';
  ec_gone : no_endpoint s' rc = true /\ sending s' rc = false /\ receiving s' rc = false;
  ec_send p : slot p -> sending s' p = true <->
    sending s p = true /\ p <> rc /\ p_sendto_e (k_proc s p) <> endpt s rc;
  ec_recv p : slot p -> receiving s' p = true <->
    receiving s p = true /\ p <> rc /\ p_getfrom_e (k_proc s p) <> endpt s rc;
  ec_pend p i j : slot p -> is_free s p = false -> p_priv (k_proc s p) = Some j ->
    p_priv (k_proc s rc) = Some i -> get_sys_bit (s_notify_pending (k_priv s' j)) i = false;
  ec_free p : slot p -> is_free s' p = is_free s p;
  ec_endpt p : endpt s' p = endpt s p;
  ec_priv p : p_priv (k_proc s' p) = p_priv (k_proc s p);
  ec_pview i : priv_view (k_priv s' i) = priv_view (k_priv s i);
  ec_cur : proc_ptr s' = proc_ptr s;
  ec_who : who_p s' = who_p s;
  ec_glob : glob_view s' = glob_view s;
  ec_lock : lock_same s s' }.

Section cleared.
Context (s s4 s' : kstate) (rc i : Z) (C : Z -> list Z).
Context (Hi : ipc_inv s) (HC : cq_inv s C) (Hrc : slot rc) (Hf : is_free s rc = false).
Context (S : ep_step rc (sending s rc) true true s s4) (Hq : queues_without rc C s s4).
Context (F : forgotten rc (endpt s4 rc) i s4 [] s').

Lemma cl_view p : ep_view (k_proc s' p) = ep_view (k_proc s p).
Proof. by rewrite (fg_view _ _ _ _ _ _ F), (es_view _ _ _ _ _ _ S). Qed.

Lemma cl_fields p : p_nr (k_proc s' p) = p_nr (k_proc s p) /\ p_priv (k_proc s' p) = p_priv (k_proc s p) /\
  endpt s' p = endpt s p /\ p_getfrom_e (k_proc s' p) = p_getfrom_e (k_proc s p) /\
  p_sendto_e (k_proc s' p) = p_sendto_e (k_proc s p).
Proof. pose proof (cl_view p) as Ev. unfold ep_view in Ev. unfold endpt. split_all; congruence. Qed.

Lemma cl_e : endpt s4 rc = endpt s rc.
Proof. by destruct (ep_step_endpt _ _ _ _ _ _ rc S). Qed.

Lemma cl_sendto4 p : p_sendto_e (k_proc s4 p) = p_sendto_e (k_proc s p) /\
  p_getfrom_e (k_proc s4 p) = p_getfrom_e (k_proc s p) /\ p_priv (k_proc s4 p) = p_priv (k_proc s p).
Proof. destruct (ep_step_endpt _ _ _ _ _ _ p S) as (_ & ? & ? & ?). done. Qed.

Lemma cl_free p : slot p -> is_free s' p = is_free s p.
Proof. intros Hp. by rewrite (fg_free _ _ _ _ _ _ F), (es_free _ _ _ _ _ _ S). Qed.

Lemma cl_send p : slot p -> sending s' p = true <->
  sending s p = true /\ p <> rc /\ p_sendto_e (k_proc s p) <> endpt s rc.
Proof.
  intros Hp. destruct (cl_sendto4 p) as (E1 & _ & _).
  assert (H4 : sending s4 p = true <-> sending s p = true /\ p <> rc).
  { unfold sending. destruct (decide (p = rc)) as [->|Hne].
    - rewrite (es_self _ _ _ _ _ _ S), new_bit2 by done. fold (sending s rc).
      destruct (sending s rc); naive_solver.
    - rewrite (es_other _ _ _ _ _ _ S) by done. tauto. }
  split.
  - intros Hs. destruct (fg_send _ _ _ _ _ _ F p Hp Hs) as [Hs4 Hn].
    rewrite E1, cl_e in Hn. apply H4 in Hs4. split_all; [tauto|tauto|]. apply Hn. set_solver.
  - intros (Hs & Hne & Hto). apply (fg_send' _ _ _ _ _ _ F p Hp); [by apply H4|].
    by rewrite E1, cl_e.
Qed.

Lemma cl_recv p : slot p -> receiving s' p = true <->
  receiving s p = true /\ p <> rc /\ p_getfrom_e (k_proc s p) <> endpt s rc.
Proof.
  intros Hp. destruct (cl_sendto4 p) as (_ & E1 & _).
  assert (H4 : receiving s4 p = true <-> receiving s p = true /\ p <> rc).
  { unfold receiving. destruct (decide (p = rc)) as [->|Hne].
    - rewrite (es_self _ _ _ _ _ _ S), new_bit3 by done. rewrite andb_false_r. naive_solver.
    - rewrite (es_other _ _ _ _ _ _ S) by done. tauto. }
  split.
  - intros Hs. destruct (fg_recv _ _ _ _ _ _ F p Hp Hs) as [Hs4 Hn].
    rewrite E1, cl_e in Hn. apply H4 in Hs4. split_all; [tauto|tauto|]. apply Hn. set_solver.
  - intros (Hs & Hne & Hto). apply (fg_recv' _ _ _ _ _ _ F p Hp); [by apply H4|].
    by rewrite E1, cl_e.
Qed.

Lemma cl_noep p : slot p -> no_endpoint s' p = if decide (p = rc) then true else no_endpoint s p.
Proof.
  intros Hp. rewrite (fg_noep _ _ _ _ _ _ F) by done. unfold no_endpoint. case_decide as Hc.
  - subst. rewrite (es_self _ _ _ _ _ _ S), new_bit8 by done. by rewrite orb_true_r.
  - by rewrite (es_other _ _ _ _ _ _ S).
Qed.

Lemma cl_alive p : alive s' p <-> alive s p /\ p <> rc.
Proof.
  unfold alive. split.
  - intros (Hp & Hfp & Hn). rewrite cl_noep in Hn by done. rewrite cl_free in Hfp by done.
    case_decide; [done|]. done.
  - intros [(Hp & Hfp & Hn) Hne]. rewrite cl_noep, cl_free by done. by rewrite decide_False.
Qed.

(** A process waits for the one it waited for. *)
Lemma cl_waits x y : slot x -> waits s' x = Some y -> waits s x = Some y.
Proof.
  intros Hx. destruct Hi as (_ & [_ Hpo _ _] & _). unfold waits.
  destruct (cl_fields x) as (_ & _ & _ & -> & ->).
  destruct (receiving s' x) eqn:Er'.
  - apply cl_recv in Er' as (-> & _); done.
  - destruct (sending s' x) eqn:Es'; [|done]. apply cl_send in Es' as (Es & Hne & Hto); [|done].
    intros [= <-]. destruct (receiving s x) eqn:Er; [|by rewrite Es].
    assert (p_getfrom_e (k_proc s x) = p_sendto_e (k_proc s x)) as Hb by by apply Hpo.
    assert (receiving s' x = true); [|congruence]. apply cl_recv; [done|]. split_all; [done..|congruence].
Qed.

Lemma cl_partners : partners_ok s'.
Proof.
  destruct Hi as (_ & [Hwf [P1 P2 P3] _ _] & _). split.
  - intros x Hx Hs. apply cl_send in Hs as (Hs & Hne & Hto); [|done].
    destruct (P1 x Hx Hs) as (d & Hd & He). exists d. destruct (cl_fields x) as (_ & _ & _ & _ & ->).
    destruct (cl_fields d) as (_ & _ & -> & _). rewrite cl_alive. split_all; [done| |done].
    intros ->. done.
  - intros x Hx Hr. destruct (cl_fields x) as (_ & _ & _ & -> & _). intros Ha.
    apply cl_recv in Hr as (Hr & _ & _); [|done]. destruct (P2 x Hx Hr Ha) as (d & Hd & Hfd & He).
    exists d. rewrite cl_free by done. by destruct (cl_fields d) as (_ & _ & -> & _).
  - intros x Hx Hs Hr. destruct (cl_fields x) as (_ & _ & _ & -> & ->).
    apply cl_send in Hs as (Hs & _); [|done]. apply cl_recv in Hr as (Hr & _); [|done]. by apply P3.
Qed.

Lemma cl_cq : cq_inv s' (fun d => without rc (C d)).
Proof.
  destruct Hi as (_ & [Hwf _ _ _] & _). split.
  - intros d [Hd Hne]%cl_alive. eapply rep_links; [apply F|]. by apply Hq.
  - intros d [Hd Hne]%cl_alive. apply NoDup_without. by apply HC.
  - intros d x [Hd Hne]%cl_alive. rewrite elem_of_without, (cq_mem _ _ HC d x Hd).
    destruct (cl_fields x) as (_ & _ & _ & _ & ->). destruct (cl_fields d) as (_ & _ & -> & _).
    split.
    + intros (Hx & Hsx & Hs & He). split_all; [done| |done]. apply cl_send; [done|]. split_all; [done..|].
      rewrite He. intros Heq. apply Hne. apply (endpt_inj s); [done|apply Hd|done|done].
    + intros (Hx & Hs & He). apply cl_send in Hs; [|done]. tauto.
Qed.

Lemma cl_inv : ipc_inv s'.
Proof.
  destruct Hi as (_ & [Hwf Hpo Hac _] & Hp). split; [apply F|]. split.
  - split; [apply F|apply cl_partners| |eexists; apply cl_cq].
    eapply acyclic_sub; [|exact Hac]. intros a b [Ha Hab]. split; [done|by apply cl_waits].
  - intros j Hj. destruct (Hp j Hj) as [Hch Hpe].
    split; [apply (fg_chunk _ _ _ _ _ _ F), (es_chunk _ _ _ _ _ _ S), Hch|].
    intros (p & Hsp & Hfp & Hpp) k Hk Hb. rewrite cl_free in Hfp by done.
    destruct (cl_fields p) as (_ & Epp & _). rewrite Epp in Hpp.
    assert (Ho : owned s j) by by exists p. specialize (Hpe Ho). apply (fg_pend _ _ _ _ _ _ F), (es_pend _ _ _ _ _ _ S) in Hb.
    specialize (Hpe k Hk Hb). pose proof (fg_priv _ _ _ _ _ _ F k) as E1.
    pose proof (es_priv _ _ _ _ _ _ S k) as E2. unfold priv_view in E1, E2.
    replace (s_proc_nr (k_priv s' k)) with (s_proc_nr (k_priv s k)) by congruence. done.
Qed.

Lemma cl_cleared : p_priv (k_proc s rc) = Some i -> ep_cleared rc s s'.
Proof.
  intros Hpi. split.
  - apply cl_inv.
  - split_all.
    + rewrite cl_noep by done. by rewrite decide_True.
    + apply not_true_iff_false. rewrite cl_send by done. tauto.
    + apply not_true_iff_false. rewrite cl_recv by done. tauto.
  - apply cl_send.
  - apply cl_recv.
  - intros p i' j Hp Hfp Hj Hi'. assert (i' = i) as -> by congruence.
    apply (fg_quiet _ _ _ _ _ _ F p j); [done|set_solver| |].
    + by rewrite (es_free _ _ _ _ _ _ S).
    + destruct (cl_sendto4 p) as (_ & _ & ->). done.
  - apply cl_free.
  - intros p. apply cl_fields.
  - intros p. apply cl_fields.
  - intros j. by rewrite (fg_priv _ _ _ _ _ _ F), (es_priv _ _ _ _ _ _ S).
  - by rewrite (fg_cur _ _ _ _ _ _ F), (es_cur _ _ _ _ _ _ S).
  - by rewrite (fg_who _ _ _ _ _ _ F), (es_who _ _ _ _ _ _ S).
  - by rewrite (fg_glob _ _ _ _ _ _ F), (es_glob _ _ _ _ _ _ S).
  - destruct (fg_lock _ _ _ _ _ _ F), (es_lock _ _ _ _ _ _ S). split; congruence.
Qed.

End cleared.

Lemma noep_bit n x : 0 <= n -> x || Z.testbit RTS_NO_ENDPOINT n = new_bit false false true n x.
Proof.
  intros Hn. change RTS_NO_ENDPOINT with (2 ^ 8). rewrite Z.pow2_bits_eqb by lia. unfold new_bit.
  destruct (Z.eqb_spec n 2), (Z.eqb_spec 8 n), (Z.eqb_spec n 3), (Z.eqb_spec n 8); subst; try lia;
    destruct x; done.
Qed.

(** The kernel panics when PM, VFS or VM dies. *)
Definition vital (e : Z) : bool := (e =? PM_PROC_NR) || (e =? VFS_PROC_NR) || (e =? VM_PROC_NR).

Lemma clear_endpoint_wp s rc :
  ipc_inv s -> slot rc -> is_free s rc = false -> (vital (endpt s rc) = true -> E) ->
  wpx E (clear_endpoint rc) (fun _ s' => ep_cleared rc s s') s.
Proof.
  intros Hi Hrc Hf HE. pose proof Hi as (Hs & [Hwf Hpo Hac [C HC]] & Hp).
  unfold clear_endpoint. apply wpx_bind, wpx_isemptyp; [done|]. fold (flags s rc). fold (is_free s rc).
  rewrite Hf. apply wpx_bind, wpx_rd; [done|]. fold (endpt s rc). fold (vital (endpt s rc)).
  destruct (vital (endpt s rc)) eqn:Hv; [by apply wpx_panic, HE|].
  apply wpx_bind. eapply wpx_conseq; [by apply RTS_LOCK_SET_inv|]. intros u s1 [Hs1 R1].
  assert (S1 : ep_step rc false false true s s1).
  { eapply ep_step_rts; try done. intros n ??. unfold flag_set. rewrite Z.lor_spec. by apply noep_bit. }
  pose proof (links_rts _ _ _ _ R1) as L1. pose proof (ep_step_wf _ _ _ _ _ _ Hrc S1 Hwf) as Hwf1.
  destruct (iw_priv s1 Hwf1 rc Hrc) as (i & Hpi & Hsi & _); [by rewrite (es_free _ _ _ _ _ _ S1)|].
  apply wpx_bind. eapply wpx_priv_of; [done..|]. apply wpx_bind, wpx_rdp; [done|].
  assert (Hpi0 : p_priv (k_proc s rc) = Some i).
  { destruct (ep_step_endpt _ _ _ _ _ _ rc S1) as (_ & <- & _). done. }
  apply wpx_bind.
  apply (wpx_conseq _ _ (fun _ s2 => ep_step rc false false true s s2 /\ links_same s s2)).
  { apply wpx_when; intros _; [|done]. apply wpx_wrp; [done|]. split; [|done].
    exact (ep_step_trans rc _ _ _ _ _ _ _ _ _ S1 (ep_step_asyn rc i s1 Hs1)). }
  intros u2 s2 [S2 L2]. pose proof (ep_step_wf _ _ _ _ _ _ Hrc S2 Hwf) as Hwf2.
  apply wpx_bind. eapply wpx_done; [by apply sending_done|].
  assert (Es : sending s2 rc = sending s rc).
  { unfold sending. rewrite (es_self _ _ _ _ _ _ S2), new_bit2 by done. by rewrite andb_true_r. }
  rewrite Es. apply wpx_bind.
  apply (wpx_conseq _ _ (fun _ s3 => ep_step rc (sending s rc) false true s s3 /\ queues_without rc C s s3)).
  { destruct (sending s rc) eqn:Hsr; cbn [when]; [by apply leave_queue_wp|]. apply wpx_ret.
    split; [done|]. intros d Hd Hne. rewrite without_notin.
    - eapply rep_links; [exact L2|]. by apply HC.
    - intros Hin. apply (cq_mem _ _ HC d) in Hin as (_ & Hx & _); [congruence|done]. }
  intros u3 s3 [S3 Q3]. pose proof (ep_step_wf _ _ _ _ _ _ Hrc S3 Hwf) as Hwf3.
  apply wpx_bind, wpx_wr; [done|].
  destruct (wr_clear_ep s3 rc RTS_RECEIVING false true) as [S4 L4];
    [apply S3|done|done| | |intros; by apply recv_bit|].
  { by rewrite (es_free _ _ _ _ _ _ S3). }
  { unfold no_endpoint. rewrite (es_self _ _ _ _ _ _ S3), new_bit8 by done. by rewrite orb_true_r. }
  set (s4 := upd_proc rc _ s3) in *. clearbody s4.
  pose proof (ep_step_trans rc _ _ _ _ _ _ _ _ _ S3 S4) as S34. rewrite orb_false_r in S34.
  cbn [orb] in S34. pose proof (ep_step_wf _ _ _ _ _ _ Hrc S34 Hwf) as Hwf4.
  assert (Q4 : queues_without rc C s s4) by (intros d Hd Hne; eapply rep_links; [exact L4|by apply Q3]).
  eapply wpx_conseq.
  - apply (forget_loop_wp s4 rc i); [apply S34|done|done|by rewrite (es_free _ _ _ _ _ _ S34)|].
    destruct (ep_step_endpt _ _ _ _ _ _ rc S34) as (_ & -> & _). done.
  - intros u5 s5 F. by apply (cl_cleared s s4 s5 rc i C).
Qed.

End clear.
