(* ===== verification/KCalls.v ===== *)
(** * Kernel calls (kernel/system/do_*.c): processes, signals, the clock

    A handler takes the request message, which it may change, and returns the
    result and the message.  [SYS_CHDEADLINE] is the call this kernel adds for
    earliest-deadline-first scheduling. *)
From S2P Require Import Prelude PList KMonad Timers Types KState Memory Sched Notify Copy Ipc.
From S2P Require Import Clock Interrupt System.

Definition handler : Type := message -> K (Z * message).

Definition reply (r : Z) (m : message) : K (Z * message) := ret (r, m).

(** The shorts of [m5] share a word. *)
Definition m5_s1 (m : message) : Z := i16 (m_w0 m).
Definition m5_s2 (m : message) : Z := i16 (Z.shiftr (m_w0 m) 16).
Abbreviation m5_i1 := m_w1.
Abbreviation m5_l3 := m_w5.
Abbreviation set_m5_l3 := set_m_w5.

(** [do_unused]. *)
Definition do_unused : handler := reply EBADREQUEST.

(** ** do_chdeadline.c *)

Definition upd_timer (tp : tmr_ref) (f : timer_t tmr_ref watchdog -> timer_t tmr_ref watchdog) : K unit :=
  ztmr (modify (upd_tm tp f)).

Definition do_chdeadline : handler := fun m =>
  let rp := m2_i1 m in
  do! RTS_LOCK_SET rp RTS_SYS_LOCK;
  do dl <- gets (fun s => deadline_of s rp);
  do! when (0 <? dl) (
    do! reset_timer (TDeadline rp);
    upd_timer (TDeadline rp) (set_tmr_exp_time 0));
  do! when (negb (m2_l1 m =? 0)) (
    do up <- get_uptime;
    do! upd_timer (TDeadline rp) (set_tmr_exp_time (i32 (i32 (m2_l1 m * 60) + up)));
    do! upd_timer (TDeadline rp) (set_tmr_func W_reach_deadline);
    do nr <- rd rp p_nr;
    do! upd_timer (TDeadline rp) (set_tmr_arg nr);
    do e <- gets (fun s => deadline_of s rp);
    set_timer (TDeadline rp) e W_reach_deadline);
  do! RTS_LOCK_UNSET rp RTS_SYS_LOCK;
  reply OK m.

(** ** do_nice.c *)

Definition PRIO_MIN : Z := -20.
Definition PRIO_MAX : Z := 20.

Definition nice_queue (pri : Z) : Z :=
  let new_q := MAX_USER_Q + Z.quot ((pri - PRIO_MIN) * (MIN_USER_Q - MAX_USER_Q + 1))
                                   (PRIO_MAX - PRIO_MIN + 1) in
  let new_q := if new_q <? MAX_USER_Q then MAX_USER_Q else new_q in
  if MIN_USER_Q <? new_q then MIN_USER_Q else new_q.

Definition do_nice : handler := fun m =>
  do o <- isokendpt (m1_i1 m);
  match o with
  | None => reply EINVAL m
  | Some proc_nr =>
      if iskerneln proc_nr then reply EPERM m
      else
        let pri := m1_i2 m in
        if (pri <? PRIO_MIN) || (PRIO_MAX <? pri) then reply EINVAL m
        else
          let new_q := nice_queue pri in
          do! RTS_LOCK_SET proc_nr RTS_SYS_LOCK;
          do! wr proc_nr (set_p_priority new_q);
          do! wr proc_nr (set_p_max_priority new_q);
          do! RTS_LOCK_UNSET proc_nr RTS_SYS_LOCK;
          reply OK m
  end.

(** ** do_runctl.c *)

Definition RC_STOP : Z := 0.
Definition RC_RESUME : Z := 1.
Definition RC_DELAY : Z := 1.

Definition do_runctl : handler := fun m =>
  do o <- isokendpt (m1_i1 m);
  match o with
  | None => reply EINVAL m
  | Some proc_nr =>
      if iskerneln proc_nr then reply EPERM m
      else
        let action := m1_i2 m in
        let flags := m1_i3 m in
        do delayed <- (if (action =? RC_STOP) && flag_any flags RC_DELAY then
          do! RTS_LOCK_SET proc_nr RTS_SYS_LOCK;
          do sending <- RTS_ISSET proc_nr RTS_SENDING;
          do mf <- rd proc_nr p_misc_flags;
          do! when (sending || flag_any mf MF_SC_DEFER)
            (wr proc_nr (fun p => set_p_misc_flags (flag_set (p_misc_flags p) MF_SIG_DELAY) p));
          do mf' <- rd proc_nr p_misc_flags;
          do! RTS_LOCK_UNSET proc_nr RTS_SYS_LOCK;
          ret (flag_any mf' MF_SIG_DELAY)
        else ret false);
        if delayed : bool then reply EBUSY m
        else if action =? RC_STOP then do! RTS_LOCK_SET proc_nr RTS_PROC_STOP; reply OK m
        else if action =? RC_RESUME then do! RTS_LOCK_UNSET proc_nr RTS_PROC_STOP; reply OK m
        else reply EINVAL m
  end.

(** ** do_kill.c, do_getksig.c, do_endksig.c *)

Definition do_kill : handler := fun m =>
  let sig_nr := m2_i2 m in
  do o <- isokendpt (m2_i1 m);
  match o with
  | None => reply EINVAL m
  | Some proc_nr =>
      if _NSIG <=? sig_nr then reply EINVAL m
      else if iskerneln proc_nr then reply EPERM m
      else
        do! cause_sig proc_nr sig_nr;
        do! when (sig_nr =? SIGKILL) (clear_endpoint proc_nr);
        reply OK m
  end.

Definition do_getksig : handler := fun m =>
  do found <- for_return user_slots (fun rp =>
    do sig <- RTS_ISSET rp RTS_SIGNALED;
    if sig : bool then
      do ep <- rd rp p_endpoint;
      do pend <- rd rp p_pending;
      do! wr rp (set_p_pending 0);
      do! RTS_LOCK_UNSET rp RTS_SIGNALED;
      ret (Some (set_m2_l1 pend (set_m2_i1 ep m)))
    else ret None);
  match found with
  | Some m' => reply OK m'
  | None => reply OK (set_m2_i1 NONE m)
  end.

Definition do_endksig : handler := fun m =>
  do o <- isokendpt (m2_i1 m);
  match o with
  | None => reply EINVAL m
  | Some rp =>
      do pending <- RTS_ISSET rp RTS_SIG_PENDING;
      if negb pending then reply EINVAL m
      else
        do signaled <- RTS_ISSET rp RTS_SIGNALED;
        do! when (negb signaled) (RTS_LOCK_UNSET rp RTS_SIG_PENDING);
        reply OK m
  end.

(** ** do_setalarm.c, do_vtimer.c, do_times.c, do_stime.c *)

Definition do_setalarm : handler := fun m =>
  let exp_time := m2_l1 m in
  let use_abs_time := negb (m2_i2 m =? 0) in
  do rp <- gets who_p;
  do pr <- priv_of rp;
  do fl <- rdp pr s_flags;
  if negb (flag_any fl SYS_PROC) then reply EPERM m
  else
    let tp := TAlarm pr in
    do! upd_timer tp (set_tmr_arg (m_source m));
    do! upd_timer tp (set_tmr_func W_cause_alarm);
    do uptime <- get_uptime;
    do old <- gets (fun s => tmr_exp_time (tm (clock_timers s) tp));
    let m' := if negb (old =? TMR_NEVER) && (uptime <? old)
              then set_m2_l1 (i32 (old - uptime)) m else set_m2_l1 0 m in
    if exp_time =? 0 then do! reset_timer tp; reply OK m'
    else
      do up <- get_uptime;
      let e := if use_abs_time then exp_time else i32 (exp_time + up) in
      do! upd_timer tp (set_tmr_exp_time e);
      do! set_timer tp e W_cause_alarm;
      reply OK m'.

Definition VT_VIRTUAL : Z := 1.
Definition VT_PROF : Z := 2.

(** The flag and the field of a virtual timer ([pt_flag], [pt_left]). *)
Definition vt_flag (which : Z) : Z := if which =? VT_VIRTUAL then MF_VIRT_TIMER else MF_PROF_TIMER.
Definition vt_left (which : Z) (p : proc) : Z :=
  if which =? VT_VIRTUAL then p_virt_left p else p_prof_left p.
Definition set_vt_left (which v : Z) (p : proc) : proc :=
  if which =? VT_VIRTUAL then set_p_virt_left v p else set_p_prof_left v p.

Definition do_vtimer : handler := fun m =>
  do rrp <- gets who_p;
  do pr <- priv_of rrp;
  do fl <- rdp pr s_flags;
  if negb (flag_any fl SYS_PROC) then reply EPERM m
  else
    let which := m2_i1 m in
    if negb (which =? VT_VIRTUAL) && negb (which =? VT_PROF) then reply EINVAL m
    else
      let proc_nr_e := if m2_l2 m =? SELF then m_source m else m2_l2 m in
      do o <- isokendpt proc_nr_e;
      match o with
      | None => reply EINVAL m
      | Some rp =>
          do mf <- rd rp p_misc_flags;
          do left <- rd rp (vt_left which);
          let old_value := if flag_any mf (vt_flag which) then (if left <? 0 then 0 else left) else 0 in
          do! when (negb (m2_i2 m =? 0)) (
            do! wr rp (fun p => set_p_misc_flags (flag_clear (p_misc_flags p) (vt_flag which)) p);
            if 0 <? m2_l1 m then
              do! wr rp (set_vt_left which (m2_l1 m));
              wr rp (fun p => set_p_misc_flags (flag_set (p_misc_flags p) (vt_flag which)) p)
            else wr rp (set_vt_left which 0));
          reply OK (set_m2_l1 old_value m)
      end.

Definition do_times : handler := fun m =>
  let e := if m4_l1 m =? SELF then m_source m else m4_l1 m in
  do o <- (if negb (e =? NONE) then isokendpt e else ret None);
  do m1 <- match o with
           | None => ret m
           | Some rp =>
               do ut <- rd rp p_user_time;
               do st <- rd rp p_sys_time;
               ret (set_m_w1 st (set_m_w0 ut m))
           end;
  do up <- get_uptime;
  do bt <- gets boottime;
  reply OK (set_m_w2 bt (set_m_w4 up m1)).

Definition do_stime : handler := fun m => do! modify (set_boottime (m4_l3 m)); reply OK m.

(** ** do_setgrant.c *)

Definition do_setgrant : handler := fun m =>
  do rp <- gets who_p;
  do nopriv <- RTS_ISSET rp RTS_NO_PRIV;
  do pp <- rd rp p_priv;
  match pp with
  | Some pr =>
      if nopriv : bool then reply EPERM m
      else
        do! wrp pr (set_s_grant_table (u32 (m2_p1 m)));
        do! wrp pr (set_s_grant_entries (m2_i2 m));
        reply OK m
  | None => reply EPERM m
  end.

(** ** do_irqctl.c *)

Definition IRQ_SETPOLICY : Z := 1.
Definition IRQ_RMPOLICY : Z := 2.
Definition IRQ_ENABLE : Z := 3.
Definition IRQ_DISABLE : Z := 4.

(** The hook exists and belongs to the caller, or the error. *)
Definition own_hook (m : message) (irq_hook_id : Z) : K (option Z) :=
  if (NR_IRQ_HOOKS <=? irq_hook_id) || (irq_hook_id <? 0) then ret (Some EINVAL)
  else
    do e <- rdh irq_hook_id hk_proc_nr_e;
    if e =? NONE then ret (Some EINVAL)
    else if negb (e =? m_source m) then ret (Some EPERM) else ret None.

(** [for (i = 0; i < s_nr_irq; i++) if (irq_vec == s_irq_tab[i]) break;] *)
Definition irq_listed (sp : priv) (irq_vec : Z) : bool :=
  existsb (fun i => irq_vec =? s_irq_tab sp i) (seqZ 0 (s_nr_irq sp)).

Definition do_irqctl : handler := fun m =>
  let irq_hook_id := i32 (m5_l3 m - 1) in
  let irq_vec := m5_s2 m in
  let req := m5_s1 m in
  if (req =? IRQ_ENABLE) || (req =? IRQ_DISABLE) then
    do bad <- own_hook m irq_hook_id;
    match bad with
    | Some e => reply e m
    | None =>
        do! (if req =? IRQ_ENABLE then enable_irq irq_hook_id
             else do b <- disable_irq irq_hook_id; ret tt);
        reply OK m
    end
  else if req =? IRQ_SETPOLICY then
    if (irq_vec <? 0) || (NR_IRQ_VECTORS <=? irq_vec) then reply EINVAL m
    else
      do rp <- gets who_p;
      do pp <- rd rp p_priv;
      match pp with
      | None => reply EPERM m
      | Some pr =>
          do ok <- rdp pr (fun sp => negb (flag_any (s_flags sp) CHECK_IRQ) || irq_listed sp irq_vec);
          if negb ok then reply EPERM m
          else
            do free <- for_return (seqZ 0 NR_IRQ_HOOKS) (fun h =>
              do e <- rdh h hk_proc_nr_e;
              ret (if e =? NONE then Some h else None));
            match free with
            | None => reply ENOSPC m
            | Some h =>
                let notify_id := u32 (m5_l3 m) in
                if 31 <? notify_id then reply EINVAL m
                else
                  do! wrh h (set_hk_proc_nr_e (m_source m));
                  do! wrh h (set_hk_notify_id notify_id);
                  do! wrh h (set_hk_policy (u32 (m5_i1 m)));
                  do! put_irq_handler h irq_vec H_generic;
                  reply OK (set_m5_l3 (h + 1) m)
            end
      end
  else if req =? IRQ_RMPOLICY then
    do bad <- own_hook m irq_hook_id;
    match bad with
    | Some e => reply e m
    | None => do! rm_irq_handler irq_hook_id; reply OK m
    end
  else reply EINVAL m.
