(* ===== verification/KProc.v ===== *)
(** * Kernel calls: the life of a process (do_fork.c, do_exec.c, do_exit.c, do_newmap.c)

    Segment descriptors and the FPU area, which only the processor reads, are left
    out.  A copy into a kernel variable that faults leaves the variable as it was. *)
From S2P Require Import Prelude PList KMonad Timers Types KState Memory Sched Notify Copy Ipc.
From S2P Require Import Clock Interrupt System KCalls.

Abbreviation m1_p2 := m_w4.
Abbreviation m1_p3 := m_w5.
Abbreviation set_m1_i1 := set_m_w0.
Abbreviation set_m1_p1 := set_m_w3.

(** ** do_newmap.c *)

(** The three segments, each [mem_vir], [mem_phys], [mem_len]. *)
Definition MEMMAP_SIZE : Z := 36.

Definition set_memmap (ws : list Z) (p : proc) : proc :=
  match ws with
  | [a; b; c; d; e; f; g; h; i] =>
      set_p_map_T (mk_mem_map (u32 a) (u32 b) (u32 c))
        (set_p_map_D (mk_mem_map (u32 d) (u32 e) (u32 f))
           (set_p_map_S (mk_mem_map (u32 g) (u32 h) (u32 i)) p))
  | _ => p
  end.

Definition newmap (rp map_ptr : Z) : K Z :=
  do caller <- gets who_e;
  do r <- data_copy_in caller (u32 map_ptr) MEMMAP_SIZE false;
  if negb (fst r =? OK) then ret (fst r)
  else
    do! wr rp (set_memmap (bytes_words (snd r)));
    ret OK.

Definition do_newmap : handler := fun m =>
  do o <- isokendpt (m1_i1 m);
  match o with
  | None => reply EINVAL m
  | Some proc_nr =>
      if iskerneln proc_nr then reply EPERM m
      else do r <- newmap proc_nr (m1_p1 m); reply r m
  end.

(** ** do_fork.c *)

Definition TRACEBIT : Z := 0x100.
Definition PFF_VMINHIBIT : Z := 1.

(** [gen = _ENDPOINT_G(e); if (++gen >= _ENDPOINT_MAX_GENERATION) gen = 1;] *)
Definition next_generation (e : Z) : Z :=
  let gen := _ENDPOINT_G e + 1 in if _ENDPOINT_MAX_GENERATION <=? gen then 1 else gen.

(** The child as a copy of its parent [pp]; [old] is what was in the slot. *)
Definition forked (slot_nr : Z) (old pp : proc) : proc :=
  let c := set_p_fpu_state (if flag_any (p_misc_flags pp) MF_FPU_INITIALIZED
             then p_fpu_state pp else p_fpu_state old) pp in
  let c := set_p_endpoint (_ENDPOINT (next_generation (p_endpoint old)) slot_nr)
             (set_p_nr slot_nr c) in
  let c := set_p_sys_time 0 (set_p_user_time 0 (set_p_retreg 0 c)) in
  let c := set_p_psw (flag_clear (p_psw c) TRACEBIT) c in
  let c := set_p_misc_flags (flag_clear (p_misc_flags c)
             (Z.lor MF_VIRT_TIMER (Z.lor MF_PROF_TIMER MF_SC_TRACE))) c in
  let c := set_p_prof_left 0 (set_p_virt_left 0 c) in
  set_p_ticks_left (Z.quot (p_ticks_left c + 1) 2) c.

Definition do_fork : handler := fun m =>
  do o <- isokendpt (m1_i1 m);
  match o with
  | None => reply EINVAL m
  | Some rpp =>
      let rpc := m1_i2 m in
      do pe <- isemptyp rpp;
      do ce <- isemptyp rpc;
      if pe || negb ce then reply EINVAL m
      else
        do receiving <- RTS_ISSET rpp RTS_RECEIVING;
        if negb receiving then reply EINVAL m
        else
          do pp <- rd rpp (fun p => p);
          do! wr rpc (fun old => forked rpc old pp);
          do pt <- gets (fun s => tm (clock_timers s) (TDeadline rpp));
          do! upd_timer (TDeadline rpc) (fun _ => pt);
          do! wr rpp (fun p => set_p_ticks_left (Z.quot (p_ticks_left p) 2) p);
          do pr <- priv_of rpp;
          do fl <- rdp pr s_flags;
          do! when (flag_any fl SYS_PROC) (
            do! wr rpc (set_p_priv (Some USER_PRIV_ID));
            wr rpc (fun p => set_p_rts_flags (flag_set (p_rts_flags p) RTS_NO_PRIV) p));
          do ep <- rd rpc p_endpoint;
          do va <- rd rpp p_delivermsg_vir;
          let m' := set_m1_p1 va (set_m1_i1 ep m) in
          do r <- newmap rpc (m1_p1 m);
          do dv <- rd rpc p_delivermsg_vir;
          do lin <- umap_local rpc SEG_D dv (Z.of_nat MESSAGE_SIZE);
          do! wr rpc (set_p_delivermsg_lin lin);
          do! when (flag_any (m1_i3 m) PFF_VMINHIBIT) (RTS_LOCK_SET rpc RTS_VMINHIBIT);
          do! RTS_LOCK_UNSET rpc (Z.lor RTS_SIGNALED (Z.lor RTS_SIG_PENDING RTS_P_STOP));
          do! wr rpc (set_p_pending 0);
          reply r m'
  end.

(** ** do_exit.c *)

Definition release_hook (rc h : Z) : K unit :=
  do ep <- rd rc p_endpoint;
  do e <- rdh h hk_proc_nr_e;
  when (ep =? e) (
    do! rm_irq_handler h;
    wrh h (set_hk_proc_nr_e NONE)).

Definition clear_proc (rc : Z) : K unit :=
  do empty <- isemptyp rc;
  if empty : bool then ret tt
  else
    do! for_each (seqZ 0 NR_IRQ_HOOKS) (release_hook rc);
    do! clear_endpoint rc;
    do pr <- priv_of rc;
    do! reset_timer (TAlarm pr);
    do! reset_timer (TDeadline rc);
    do! upd_timer (TDeadline rc) (set_tmr_exp_time 0);
    do! RTS_LOCK_SETFLAGS rc RTS_SLOT_FREE;
    do! wr rc (fun p => set_p_misc_flags (flag_clear (p_misc_flags p) MF_FPU_INITIALIZED) p);
    do pr' <- priv_of rc;
    do fl <- rdp pr' s_flags;
    when (flag_any fl SYS_PROC) (wrp pr' (set_s_proc_nr NONE)).

Definition do_exit : handler := fun m =>
  do who <- gets who_p;
  if (PM_PROC_NR =? who) && negb (m1_i1 m =? SELF) then
    do o <- isokendpt (m1_i1 m);
    match o with
    | None => reply EINVAL m
    | Some exit_e => do! clear_proc exit_e; reply OK m
    end
  else
    do! clear_proc who;
    reply EDONTREPLY m.
