(* ===== verification/Grants.v ===== *)
(** * Memory grants and copies between processes

    [verify_grant], [safecopy] and the calls built on them (system/do_safecopy.c),
    [umap_virtual] (arch/i386/memory.c) and [umap_grant] (system.c), the general
    [virtual_copy_f], and the calls do_copy.c, do_umap.c and do_memset.c. *)
From S2P Require Import Prelude PList KMonad Timers Types KState Memory Sched Notify Copy Ipc.
From S2P Require Import Clock Interrupt System KCalls.

(** ** Grants (include/minix/safecopies.h) *)

Definition GRANT_VALID (g : Z) : bool := -1 <? g.
Definition CPF_READ : Z := 0x000001.
Definition CPF_WRITE : Z := 0x000002.
Definition CPF_MAP : Z := 0x000004.
Definition CPF_USED : Z := 0x000100.
Definition CPF_DIRECT : Z := 0x000200.
Definition CPF_INDIRECT : Z := 0x000400.
Definition CPF_MAGIC : Z := 0x000800.
Definition CPF_VALID : Z := 0x001000.

(** [cp_grant_t]: the flags and the words of the union, whose three variants overlap. *)
Record cp_grant_t := mk_cp_grant { cp_flags : Z; cp_u0 : Z; cp_u1 : Z; cp_u2 : Z; cp_u3 : Z }.

Definition cp_direct_who_to (g : cp_grant_t) : Z := cp_u0 g.
Definition cp_direct_start (g : cp_grant_t) : Z := u32 (cp_u1 g).
Definition cp_direct_len (g : cp_grant_t) : Z := u32 (cp_u2 g).
Definition cp_indirect_who_to (g : cp_grant_t) : Z := cp_u0 g.
Definition cp_indirect_who_from (g : cp_grant_t) : Z := cp_u1 g.
Definition cp_indirect_grant (g : cp_grant_t) : Z := cp_u2 g.
Definition cp_magic_who_from (g : cp_grant_t) : Z := cp_u0 g.
Definition cp_magic_who_to (g : cp_grant_t) : Z := cp_u1 g.
Definition cp_magic_start (g : cp_grant_t) : Z := u32 (cp_u2 g).
Definition cp_magic_len (g : cp_grant_t) : Z := u32 (cp_u3 g).

(** [sizeof(cp_grant_t)], and a grant read from memory. *)
Definition GRANT_SIZE : Z := 36.
Definition bytes_grant (bs : list Z) : cp_grant_t :=
  match bytes_words bs with
  | f :: a :: b :: c :: d :: _ => mk_cp_grant f a b c d
  | _ => mk_cp_grant 0 0 0 0 0
  end.

Definition MAX_INDIRECT_DEPTH : nat := 5.
Definition MEM_TOP : Z := 0xFFFFFFFF.

(** [HASGRANTTABLE(gr)], with the privilege structure when there is one. *)
Definition HASGRANTTABLE (gr : Z) : K (option Z) :=
  do nopriv <- RTS_ISSET gr RTS_NO_PRIV;
  do pp <- rd gr p_priv;
  match pp with
  | Some pr =>
      do t <- rdp pr s_grant_table;
      ret (if negb nopriv && (0 <? t) then Some pr else None)
  | None => ret None
  end.

(** A grant names the grantee ([named]), or one of the two is ANY. *)
Definition bad_grantee (named grantee any_field : Z) : bool :=
  negb (named =? grantee) && negb (grantee =? ANY) && negb (any_field =? ANY).

(** [offset_in + bytes] wraps or leaves the [len] granted bytes. *)
Definition bad_range (offset_in bytes len : Z) : bool :=
  (u32 (offset_in + bytes) <? offset_in) || (len <? u32 (offset_in + bytes)).

(** The checks after the loop: the address in the granter's space and the process
    it belongs to.  The test for ANY of a magic grant reads the field of a direct one. *)
Definition check_grant (g : cp_grant_t) (granter grantee bytes access offset_in : Z) : Z + Z * Z :=
  if negb (Z.land (cp_flags g) access =? access) then inl EPERM
  else if flag_any (cp_flags g) CPF_DIRECT then
    if MEM_TOP - cp_direct_len g <? u32 (cp_direct_start g - 1) then inl EPERM
    else if bad_grantee (cp_direct_who_to g) grantee (cp_direct_who_to g) then inl EPERM
    else if bad_range offset_in bytes (cp_direct_len g) then inl EPERM
    else inr (u32 (cp_direct_start g + offset_in), granter)
  else if flag_any (cp_flags g) CPF_MAGIC then
    if negb (granter =? VFS_PROC_NR) then inl EPERM
    else if bad_grantee (cp_magic_who_to g) grantee (cp_direct_who_to g) then inl EPERM
    else if bad_range offset_in bytes (cp_magic_len g) then inl EPERM
    else inr (u32 (cp_magic_start g + offset_in), cp_magic_who_from g)
  else inl EPERM.

(** One entry of a grant table: the checks of the first half of the loop. *)
Definition read_grant (granter grant : Z) : K (Z + cp_grant_t) :=
  do o <- isokendpt granter;
  match o with
  | None => ret (inl EINVAL)
  | Some proc_nr =>
      if negb (GRANT_VALID grant) then ret (inl EINVAL)
      else
        do t <- HASGRANTTABLE proc_nr;
        match t with
        | None => ret (inl EPERM)
        | Some pr =>
            do entries <- rdp pr s_grant_entries;
            if entries <=? grant then ret (inl EPERM)
            else
              do table <- rdp pr s_grant_table;
              do r <- data_copy_in granter (u32 (table + GRANT_SIZE * grant)) GRANT_SIZE false;
              if negb (fst r =? OK) then ret (inl EPERM)
              else
                let g := bytes_grant (snd r) in
                if negb (Z.land (cp_flags g) (Z.lor CPF_USED CPF_VALID) =? Z.lor CPF_USED CPF_VALID)
                then ret (inl EPERM) else ret (inr g)
        end
  end.

(** The loop of [verify_grant]; [left] is [MAX_INDIRECT_DEPTH - depth]. *)
Fixpoint verify_loop (left : nat) (granter grantee grant bytes access offset_in : Z)
    : K (Z + Z * Z) :=
  do r <- read_grant granter grant;
  match r with
  | inl e => ret (inl e)
  | inr g =>
      if flag_any (cp_flags g) CPF_INDIRECT then
        match left with
        | O => ret (inl ELOOP)
        | S left' =>
            if bad_grantee (cp_indirect_who_to g) grantee (cp_indirect_who_to g) then ret (inl EPERM)
            else verify_loop left' (cp_indirect_who_from g) granter (cp_indirect_grant g)
                   bytes access offset_in
        end
      else ret (check_grant g granter grantee bytes access offset_in)
  end.

Definition verify_grant (granter grantee grant bytes access offset_in : Z) : K (Z + Z * Z) :=
  verify_loop MAX_INDIRECT_DEPTH granter grantee grant bytes access offset_in.

(** ** Virtual addresses *)

(** [umap_virtual] of a segment that is not [MEM_GRANT]: a failed lookup leaves
    [phys] zero, which is fatal. *)
Definition umap_virtual_seg (rp seg vir_addr bytes : Z) : K Z :=
  do linear <- umap_local rp seg vir_addr bytes;
  if linear =? 0 then ret 0
  else
    do p <- rd rp (fun p => p);
    do look <- gets (fun s => vm_lookup s p linear);
    let phys := match look with Some (ph, _) => ph | None => 0 end in
    if phys =? 0 then panic "vm_lookup returned phys"
    else
      do contig <- gets (fun s => vm_contiguous s p linear bytes);
      if (0 <? bytes) && negb contig then ret 0 else ret phys.

Definition umap_grant (rp grant bytes : Z) : K Z :=
  do e <- rd rp p_endpoint;
  do r <- verify_grant e ANY grant bytes 0 0;
  match r with
  | inl _ => ret 0
  | inr (offset, granter) =>
      do o <- isokendpt granter;
      match o with
      | None => ret 0
      | Some proc_nr => umap_virtual_seg proc_nr SEG_D offset bytes
      end
  end.

Definition umap_virtual (rp seg vir_addr bytes : Z) : K Z :=
  if seg =? MEM_GRANT then umap_grant rp (i32 vir_addr) bytes
  else umap_virtual_seg rp seg vir_addr bytes.

(** [virtual_copy_f], [virtual_copy], [virtual_copy_vmcheck]. *)
Definition virtual_copy_f (src dst : vir_addr) (bytes : Z) (vmcheck : bool) : K Z :=
  do r <- virtual_copy_gen tt (vc_map umap_virtual src bytes) (vc_map umap_virtual dst bytes)
            (lin_lin_copy bytes) bytes vmcheck;
  ret (fst r).

Definition virtual_copy_vmcheck (src dst : vir_addr) (bytes : Z) : K Z :=
  virtual_copy_f src dst bytes true.

(** ** do_safecopy.c *)

Definition safecopy (granter grantee grantid src_seg dst_seg bytes g_offset addr access : Z) : K Z :=
  do o <- endpoint_lookup granter;
  match o with
  | None => ret EINVAL
  | Some granter_p =>
      do t <- HASGRANTTABLE granter_p;
      match t with
      | None => ret EPERM
      | Some _ =>
          do r <- verify_grant granter grantee grantid bytes access g_offset;
          match r with
          | inl e => ret e
          | inr (v_offset, new_granter) =>
              if flag_any access CPF_READ then
                virtual_copy_vmcheck (mk_vir_addr new_granter src_seg v_offset)
                                     (mk_vir_addr grantee dst_seg addr) bytes
              else
                virtual_copy_vmcheck (mk_vir_addr grantee src_seg addr)
                                     (mk_vir_addr new_granter dst_seg v_offset) bytes
          end
      end
  end.

Definition SYS_VIRCOPY : Z := KERNEL_CALL + 15.
Definition SYS_PHYSCOPY : Z := KERNEL_CALL + 16.
Definition SYS_SAFECOPYFROM : Z := KERNEL_CALL + 31.
Definition SYS_SAFECOPYTO : Z := KERNEL_CALL + 32.

Definition do_safecopy : handler := fun m =>
  do code <- gets sys_call_code;
  do who <- gets who_e;
  let copy src_seg dst_seg access :=
    do r <- safecopy (m2_i1 m) who (m2_i3 m) src_seg dst_seg (u32 (m2_l2 m)) (u32 (m2_l1 m))
              (u32 (m2_p1 m)) access;
    reply r m in
  if code =? SYS_SAFECOPYFROM then copy SEG_D (m2_i2 m) CPF_READ
  else if code =? SYS_SAFECOPYTO then copy (m2_i2 m) SEG_D CPF_WRITE
  else panic "Impossible system call nr. ".

(** [struct vscp_vec]: six words. *)
Record vscp_vec := mk_vscp_vec {
  v_from : Z; v_to : Z; v_gid : Z; v_offset : Z; v_addr : Z; v_bytes : Z }.
Definition VSCP_SIZE : Z := 24.
Definition SCPVEC_NR : Z := 64.

Fixpoint words_vscp (ws : list Z) : list vscp_vec :=
  match ws with
  | a :: b :: c :: d :: e :: f :: ws' => mk_vscp_vec a b c (u32 d) (u32 e) (u32 f) :: words_vscp ws'
  | _ => []
  end.

Definition vsafecopy_element (who : Z) (v : vscp_vec) : K Z :=
  if v_from v =? SELF then
    safecopy (v_to v) who (v_gid v) SEG_D SEG_D (v_bytes v) (v_offset v) (v_addr v) CPF_WRITE
  else if v_to v =? SELF then
    safecopy (v_from v) who (v_gid v) SEG_D SEG_D (v_bytes v) (v_offset v) (v_addr v) CPF_READ
  else ret EINVAL.

(** The number of elements is not compared with [SCPVEC_NR]: the copy of a larger
    vector overruns [vec], which has no defined result. *)
Definition copy_in_vec (bytes : Z) (running : bool) (src dst : copy_end) : K (copy_result * list Z) :=
  if SCPVEC_NR * VSCP_SIZE <? bytes then stuck BadIndex else copy_in bytes running src dst.

Definition do_vsafecopy : handler := fun m =>
  do who <- gets who_e;
  let els := m2_l2 m in
  let bytes := u32 (els * VSCP_SIZE) in
  do r <- virtual_copy_gen [] (vc_map umap_virtual (d_addr who (u32 (m2_p1 m))) bytes) kernel_end
            (copy_in_vec bytes) bytes true;
  if negb (fst r =? OK) then reply (fst r) m
  else
    do failed <- for_return (take (Z.to_nat els) (words_vscp (bytes_words (snd r)))) (fun v =>
      do r <- vsafecopy_element who v;
      ret (if negb (r =? OK) then Some r else None));
    match failed with
    | Some r => reply r m
    | None => reply OK m
    end.

(** ** do_copy.c *)

Abbreviation m5_i2 := m_w2.
Abbreviation m5_l1 := m_w3.
Abbreviation m5_l2 := m_w4.
Abbreviation set_m5_l2 := set_m_w4.

(** The checks of one end: the address, or the error. *)
Definition copy_end_ok (m : message) (va : vir_addr) : K (Z + vir_addr) :=
  let va := if va_proc_nr_e va =? SELF then mk_vir_addr (m_source m) (va_segment va) (va_offset va)
            else va in
  do ok <- (if negb (va_segment va =? PHYS_SEG) then
              do o <- isokendpt (va_proc_nr_e va);
              ret (match o with Some _ => true | None => false end)
            else ret true);
  if negb ok then ret (inl EINVAL)
  else if flag_any (va_segment va) PHYS_SEG && negb (m_type m =? SYS_PHYSCOPY) then ret (inl EPERM)
  else ret (inr va).

Definition do_copy : handler := fun m =>
  do rs <- copy_end_ok m (mk_vir_addr (m5_i1 m) (m5_s1 m) (u32 (m5_l1 m)));
  match rs with
  | inl e => reply e m
  | inr src =>
      do rd' <- copy_end_ok m (mk_vir_addr (m5_i2 m) (m5_s2 m) (u32 (m5_l2 m)));
      match rd' with
      | inl e => reply e m
      | inr dst => do r <- virtual_copy_vmcheck src dst (u32 (m5_l3 m)); reply r m
      end
  end.

(** ** do_umap.c *)

(** [arch_umap]. *)
Definition arch_umap (offset count seg : Z) : Z + Z :=
  if seg =? BIOS_SEG then inr (umap_bios offset count) else inl EINVAL.

(** The switch on the segment type: the target, the linear and the physical address. *)
Definition umap_lookup (proc_nr seg_type seg_index offset count : Z) : K (Z + Z * Z * Z) :=
  if seg_type =? LOCAL_SEG then
    do a <- umap_local proc_nr seg_index offset count;
    ret (if a =? 0 then inl EFAULT else inr (proc_nr, a, a))
  else if seg_type =? REMOTE_SEG then
    do a <- umap_remote proc_nr seg_index offset count;
    ret (if a =? 0 then inl EFAULT else inr (proc_nr, a, a))
  else if seg_type =? LOCAL_VM_SEG then
    do tgt <- (if seg_index =? MEM_GRANT then
                 do e <- rd proc_nr p_endpoint;
                 do r <- verify_grant e ANY (i32 offset) count 0 0;
                 match r with
                 | inl _ => ret None
                 | inr (newoffset, newep) =>
                     do o <- isokendpt newep;
                     ret (match o with Some n => Some (n, SEG_D, newoffset) | None => None end)
                 end
               else ret (Some (proc_nr, seg_index, offset)));
    match tgt with
    | None => ret (inl EFAULT)
    | Some (targetpr, seg_index, offset) =>
        if (seg_index =? SEG_T) || (seg_index =? SEG_D) || (seg_index =? SEG_S) then
          do lin <- umap_local targetpr seg_index offset count;
          if lin =? 0 then ret (inl EFAULT)
          else
            do p <- rd targetpr (fun p => p);
            do look <- gets (fun s => vm_lookup s p lin);
            match look with
            | None => ret (inl EFAULT)
            | Some (ph, _) =>
                if ph =? 0 then panic "vm_lookup returned zero physical address"
                else ret (inr (targetpr, lin, ph))
            end
        else ret (inl EFAULT)
    end
  else ret (match arch_umap offset count seg_type with
            | inl e => inl e
            | inr a => inr (proc_nr, a, a)
            end).

Definition do_umap : handler := fun m =>
  let seg_type := Z.land (m5_s1 m) SEGMENT_TYPE in
  let seg_index := Z.land (m5_s1 m) SEGMENT_INDEX in
  let offset := u32 (m5_l1 m) in
  let count := u32 (m5_l3 m) in
  do who <- gets who_p;
  do o <- (if m5_i1 m =? SELF then ret (Some who) else isokendpt (m5_i1 m));
  match o with
  | None => reply EINVAL m
  | Some proc_nr =>
      do e <- gets who_e;
      do! okendpt e;
      do r <- umap_lookup proc_nr seg_type seg_index offset count;
      match r with
      | inl e => reply e m
      | inr (targetpr, lin_addr, phys_addr) =>
          do running <- gets vm_running;
          do p <- rd targetpr (fun p => p);
          do contig <- gets (fun s => vm_contiguous s p lin_addr count);
          if running && negb contig then reply EFAULT m
          else reply (if phys_addr =? 0 then EFAULT else OK) (set_m5_l2 (i32 phys_addr) m)
      end
  end.

(** ** do_memset.c and [vm_phys_memset] *)

Fixpoint phys_memset (n : nat) (ph c : Z) (m : memory) : memory :=
  match n with
  | O => m
  | S n' => phys_memset n' (u32 (ph + 1)) c (<[ph := c]> m)
  end.

Definition vm_phys_memset (ph c bytes : Z) : K unit := with_intr_off (
  modify (fun s => set_mem (phys_memset (Z.to_nat bytes) ph c (mem s)) s)).

Definition do_memset : handler := fun m =>
  do! vm_phys_memset (u32 (m2_p1 m)) (m2_l2 m mod 256) (u32 (m2_l1 m));
  reply OK m.
