(* ===== verification/VmCtl.v ===== *)
(** * Kernel calls of VM and the execution of a new program

    SYS_VMCTL (system/do_vmctl.c, arch/i386/arch_do_vmctl.c), by which VM takes the
    requests of [vm_suspend], answers them and sets page tables, and SYS_EXEC
    (system/do_exec.c).  Segment descriptors, the free page-directory slots and the
    translation cache have no counterpart in the state. *)
From S2P Require Import Prelude PList KMonad Timers Types KState Memory Sched Notify Copy Ipc Clock.
From S2P Require Import Interrupt System KCalls KProc Grants.

(** ** do_exec.c *)

Definition P_NAME_LEN : Z := 8.

(** The bytes of [p_name] as the C string they are. *)
Fixpoint name_of (bs : list Z) : string :=
  match bs with
  | [] => EmptyString
  | b :: bs' =>
      if b =? 0 then EmptyString
      else String (Stdlib.Strings.Ascii.ascii_of_N (Z.to_N b)) (name_of bs')
  end.

(** [arch_pre_exec]. *)
Definition arch_pre_exec (rp ip sp : Z) : K unit :=
  do! wr rp (set_p_pc ip);
  wr rp (set_p_sp sp).

Definition do_exec : handler := fun m =>
  do o <- isokendpt (m1_i1 m);
  match o with
  | None => reply EINVAL m
  | Some rp =>
      do mf <- rd rp p_misc_flags;
      do! when (flag_any mf MF_DELIVERMSG) (
        do! clear_misc rp MF_DELIVERMSG;
        wr rp (set_p_delivermsg_lin 0));
      do who <- gets who_e;
      do r <- data_copy_in who (u32 (m1_p2 m)) (P_NAME_LEN - 1) false;
      do! wr rp (set_p_name (if fst r =? OK then name_of (snd r) else "<unset>"));
      do! arch_pre_exec rp (u32 (m1_p3 m)) (u32 (m1_p1 m));
      do! RTS_LOCK_UNSET rp RTS_RECEIVING;
      do! clear_misc rp MF_FPU_INITIALIZED;
      reply OK m
  end.

(** ** do_vmctl.c *)

Definition VMCTL_I386_SETCR3 : Z := 10.
Definition VMCTL_GET_PAGEFAULT : Z := 11.
Definition VMCTL_CLEAR_PAGEFAULT : Z := 12.
Definition VMCTL_I386_GETCR3 : Z := 13.
Definition VMCTL_MEMREQ_GET : Z := 14.
Definition VMCTL_MEMREQ_REPLY : Z := 15.
Definition VMCTL_INCSP : Z := 16.
Definition VMCTL_I386_KERNELLIMIT : Z := 19.
Definition VMCTL_I386_PAGEDIRS : Z := 20.
Definition VMCTL_I386_FREEPDE : Z := 23.
Definition VMCTL_ENABLE_PAGING : Z := 24.
Definition VMCTL_FLUSHTLB : Z := 26.
Definition VMCTL_KERN_PHYSMAP : Z := 27.
Definition VMCTL_KERN_MAP_REPLY : Z := 28.

Definition VMPTYPE_COWMAP : Z := 2.
Definition VMPTYPE_SMAP : Z := 3.
Definition VMPTYPE_SUNMAP : Z := 4.
Definition VMMF_UNCACHED : Z := 1.

(** What the boot code has found: the physical address of the local APIC, when it is
    used, and the base of the kernel's data. *)
Record boot_info := mk_boot_info { bi_lapic : option Z; bi_data_base : Z }.

(** The short [m2_s1] shares its word with unused bytes. *)
Definition set_m2_s1 (v : Z) (m : message) : message :=
  set_m_w6 (i32 (Z.lor (Z.land (u32 (m_w6 m)) 0xFFFF0000) (u16 v))) m.

(** The reply to VMCTL_MEMREQ_GET. *)
Definition memreq_fields (p : proc) (m : message) : message :=
  let v := p_vmrequest p in
  if vr_req_type v =? VMPTYPE_CHECK then
    set_m_w5 (p_endpoint p) (set_m2_s1 (vr_writeflag v)
      (set_m_w2 (i32 (vr_length v)) (set_m_w1 (i32 (vr_start v)) (set_m_w0 (vr_target v) m))))
  else
    set_m_w5 (p_endpoint p) (set_m2_s1 (vr_map_writeflag v) (set_m_w2 (i32 (vr_map_length v))
      (set_m_w4 (i32 (vr_map_vir_s v)) (set_m_w3 (vr_map_ep_s v)
        (set_m_w1 (i32 (vr_map_vir_d v)) (set_m_w0 (vr_target v) m)))))).

Definition memreq_get (m : message) : K (Z * message) :=
  do o <- gets vmrequest;
  match o with
  | None => reply ESRCH m
  | Some rp =>
      do p <- rd rp (fun p => p);
      let ty := vr_req_type (p_vmrequest p) in
      if negb ((ty =? VMPTYPE_CHECK) || (ty =? VMPTYPE_COWMAP) || (ty =? VMPTYPE_SMAP) ||
               (ty =? VMPTYPE_SUNMAP))
      then panic "VMREQUEST wrong type"
      else
        do! wr rp (upd_vmrequest (set_vr_vmresult VMSUSPEND));
        do next <- rd rp (fun p => vr_nextrequestor (p_vmrequest p));
        do! modify (set_vmrequest next);
        reply ty (memreq_fields p m)
  end.

Definition memreq_reply (p : Z) (m : message) : K (Z * message) :=
  do te <- rd p (fun x => vr_target (p_vmrequest x));
  do target <- okendpt te;
  do! wr p (upd_vmrequest (set_vr_vmresult (m1_i3 m)));
  do! RTS_LOCK_UNSET target RTS_VMREQTARGET;
  do type <- rd p (fun x => vr_type (p_vmrequest x));
  if type =? VMSTYPE_KERNELCALL then
    do next <- gets vmrestart;
    do! wr p (upd_vmrequest (set_vr_nextrestart next));
    do! modify (set_vmrestart (Some p));
    reply OK m
  else if (type =? VMSTYPE_DELIVERMSG) || (type =? VMSTYPE_MAP) then
    do! RTS_LOCK_UNSET p RTS_VMREQUEST;
    reply OK m
  else panic "strange request type".

(** [vm_init]. *)
Definition vm_init (newptproc : Z) : K unit :=
  do running <- gets vm_running;
  if running : bool then panic "vm_init: vm_running"
  else
    do! vm_set_cr3 newptproc;
    modify (set_vm_running true).

(** [FIXLINMSG]. *)
Definition FIXLINMSG (rp : Z) : K unit :=
  do dv <- rd rp p_delivermsg_vir;
  do lin <- umap_local rp SEG_D dv (Z.of_nat MESSAGE_SIZE);
  wr rp (set_p_delivermsg_lin lin).

Definition enable_paging (p : Z) (m : message) : K (Z * message) :=
  do! lock;
  do running <- gets vm_running;
  if running : bool then panic "do_vmctl: paging already enabled"
  else
    do! vm_init p;
    do r <- newmap p (m1_i3 m);
    if negb (r =? OK) then panic "do_vmctl: newmap failed"
    else
      do! FIXLINMSG p;
      do! unlock;
      reply OK m.

(** arch_do_vmctl.c *)
Definition get_pagefault (m : message) : K (Z * message) :=
  do o <- gets pagefaults;
  match o with
  | None => reply ESRCH m
  | Some rp =>
      do next <- rd rp p_nextpagefault;
      do! modify (set_pagefaults next);
      do pf <- RTS_ISSET rp RTS_PAGEFAULT;
      if negb pf then panic "non-PAGEFAULT process on pagefault chain"
      else
        do p <- rd rp (fun p => p);
        reply OK (set_m_w2 (i32 (p_pf_flags p)) (set_m_w1 (i32 (p_pf_virtual p)) (set_m_w0 (p_endpoint p) m)))
  end.

Definition set_cr3 (p v : Z) : K unit :=
  do! (if negb (v =? 0) then
         do! wr p (set_p_cr3 (u32 v));
         set_misc p MF_FULLVM
       else
         do! wr p (set_p_cr3 0);
         clear_misc p MF_FULLVM);
  RTS_LOCK_UNSET p RTS_VMINHIBIT.

Definition arch_do_vmctl (b : boot_info) (p : Z) (m : message) : K (Z * message) :=
  let param := m1_i2 m in
  if param =? VMCTL_I386_GETCR3 then
    do cr3 <- rd p p_cr3; reply OK (set_m_w2 (i32 cr3) m)
  else if param =? VMCTL_I386_SETCR3 then do! set_cr3 p (m1_i3 m); reply OK m
  else if param =? VMCTL_INCSP then
    do! wr p (fun x => set_p_sp (u32 (p_sp x + m1_i3 m)) x); reply OK m
  else if param =? VMCTL_GET_PAGEFAULT then get_pagefault m
  else if param =? VMCTL_I386_KERNELLIMIT then
    reply (if u32 (m1_i3 m) <=? bi_data_base b then EINVAL else OK) m
  else if (param =? VMCTL_I386_PAGEDIRS) || (param =? VMCTL_I386_FREEPDE) || (param =? VMCTL_FLUSHTLB)
  then reply OK m
  else reply EINVAL m.

Definition do_vmctl (b : boot_info) : handler := fun m =>
  let ep := if m1_i1 m =? SELF then m_source m else m1_i1 m in
  do o <- isokendpt ep;
  match o with
  | None => reply EINVAL m
  | Some p =>
      let param := m1_i2 m in
      if param =? VMCTL_CLEAR_PAGEFAULT then do! RTS_LOCK_UNSET p RTS_PAGEFAULT; reply OK m
      else if param =? VMCTL_MEMREQ_GET then memreq_get m
      else if param =? VMCTL_MEMREQ_REPLY then memreq_reply p m
      else if param =? VMCTL_ENABLE_PAGING then enable_paging p m
      else if param =? VMCTL_KERN_PHYSMAP then
        match bi_lapic b with
        | Some a =>
            if m1_i3 m =? 0
            then reply OK (set_m_w0 VMMF_UNCACHED (set_m_w4 4096 (set_m_w3 (i32 a) m)))
            else reply EINVAL m
        | None => reply EINVAL m
        end
      else if param =? VMCTL_KERN_MAP_REPLY then reply OK m
      else arch_do_vmctl b p m
  end.

(** ** Mapping memory of other processes (system/do_safemap.c)

    SYS_SAFEMAP, SYS_SAFEREVMAP and SYS_SAFEUNMAP: a grant allows a process to have
    pages of another one mapped into its own address space.  The kernel keeps the table
    [map_info] of such mappings and asks VM to set them up or to take them away; the
    caller is blocked until VM has answered. *)

Definition CLICK_SIZE : Z := 4096.
Definition MAX_MAP_INFO : Z := 20.

(** The entries of [map_info], in the order of the loops. *)
Definition map_slots : list Z := seqZ 0 MAX_MAP_INFO.

Definition wr_map (i : Z) (f : map_info_s -> map_info_s) : K unit :=
  modify (fun s => set_map_info (<[i := f (map_info s i)]> (map_info s)) s).

Definition add_info (grantor grantee gid offset address_Dseg seg address bytes : Z) : K Z :=
  do free <- gets (fun s => find (fun i => mi_flag (map_info s i) =? 0) map_slots);
  match free with
  | None => ret EBUSY
  | Some i =>
      do! wr_map i (fun _ =>
        mk_map_info 1 grantor gid offset address_Dseg grantee seg address bytes);
      ret OK
  end.

(** The conditions of [get_revoke_info] and [get_unmap_info]; [address_Dseg] is
    unsigned and [arg] is an [int]. *)
Definition revoke_match (grantor flag arg : Z) (x : map_info_s) : bool :=
  (mi_flag x =? 1) && (mi_grantor x =? grantor) &&
  (if negb (flag =? 0) then mi_gid x =? arg else mi_address_Dseg x =? u32 arg).

Definition unmap_match (grantee seg address : Z) (x : map_info_s) : bool :=
  (mi_flag x =? 1) && (mi_grantee x =? grantee) && (mi_seg x =? seg) && (mi_address x =? address).

Definition get_info (test : map_info_s -> bool) : K (option Z) :=
  gets (fun s => find (fun i => test (map_info s i)) map_slots).

Definition get_revoke_info (grantor flag arg : Z) : K (option Z) :=
  get_info (revoke_match grantor flag arg).
Definition get_unmap_info (grantee seg address : Z) : K (option Z) :=
  get_info (unmap_match grantee seg address).

Definition clear_info (i : Z) : K unit := wr_map i (set_mi_flag 0).

(** [map_invoke_vm]; [endpoint_lookup] gives NULL for a dead endpoint, and the pointer
    is used without a test. *)
Definition map_invoke_vm (req_type end_d seg_d off_d end_s seg_s off_s size flag : Z) : K Z :=
  do src <- endpoint_lookup end_s;
  do dst <- endpoint_lookup end_d;
  do who <- gets who_e;
  do caller <- endpoint_lookup who;
  do src <- from_ptr src;
  do lin_src <- umap_local src seg_s off_s size;
  do dst <- from_ptr dst;
  do lin_dst <- umap_local dst seg_d off_d size;
  if (lin_src =? 0) || (lin_dst =? 0) then ret EINVAL
  else if negb (lin_src mod CLICK_SIZE =? 0) || negb (lin_dst mod CLICK_SIZE =? 0) then ret EINVAL
  else
    do caller <- from_ptr caller;
    do! RTS_LOCK_SET caller RTS_VMREQUEST;
    do! RTS_LOCK_SET dst RTS_VMREQTARGET;
    do! wr caller (upd_vmrequest (fun v =>
      set_vr_type VMSTYPE_MAP (set_vr_map_writeflag flag (set_vr_map_length size
        (set_vr_map_vir_s lin_src (set_vr_map_ep_s end_s (set_vr_map_vir_d lin_dst
          (set_vr_target end_d (set_vr_req_type req_type v)))))))));
    do next <- gets vmrequest;
    do! wr caller (upd_vmrequest (set_vr_nextrequestor next));
    do! match next with
        | None => do r <- lock_notify SYSTEM VM_PROC_NR; ret tt
        | Some _ => ret tt
        end;
    do! modify (set_vmrequest (Some caller));
    ret OK.

(** The short [m2_s1]. *)
Definition m2_s1 (m : message) : Z := i16 (m_w6 m).

Definition do_safemap : handler := fun m =>
  let offset := u32 (m2_i3 m) in
  let seg := m2_p1 m in
  let address := u32 (m2_l1 m) in
  let bytes := u32 (m2_l2 m) in
  let flag := m2_s1 m in
  let access := Z.lor (Z.lor CPF_MAP CPF_READ) (if negb (flag =? 0) then CPF_WRITE else 0) in
  do who <- gets who_e;
  do r <- verify_grant (m2_i1 m) who (m2_i2 m) bytes access offset;
  match r with
  | inl e => reply e m
  | inr (offset_result, new_grantor) =>
      do r <- add_info new_grantor who (m2_i2 m) offset offset_result seg address bytes;
      if negb (r =? OK) then reply r m
      else
        do r <- map_invoke_vm VMPTYPE_SMAP who seg address new_grantor SEG_D offset_result bytes flag;
        reply r m
  end.

Definition safeunmap (i : Z) : K Z :=
  do p <- gets (fun s => map_info s i);
  do r <- verify_grant (mi_grantor p) (mi_grantee p) (mi_gid p) (mi_bytes p) CPF_MAP (mi_offset p);
  match r with
  | inl e => ret e
  | inr (offset_result, new_grantor) =>
      do r <- map_invoke_vm VMPTYPE_SUNMAP (mi_grantee p) (mi_seg p) (mi_address p)
                new_grantor SEG_D offset_result (mi_bytes p) 0;
      do! clear_info i;
      ret r
  end.

(** [while((p = get()) != NULL) if((r = safeunmap(p)) != OK) return r; return OK;] *)
Fixpoint unmap_loop (fuel : nat) (get : K (option Z)) : K Z :=
  match fuel with
  | O => stuck OutOfFuel
  | S fuel' =>
      do o <- get;
      match o with
      | None => ret OK
      | Some i => do r <- safeunmap i; if negb (r =? OK) then ret r else unmap_loop fuel' get
      end
  end.

(** Every round clears an entry of the table. *)
Definition UNMAP_FUEL : nat := S (Z.to_nat MAX_MAP_INFO).

Definition do_saferevmap : handler := fun m =>
  do who <- gets who_e;
  do r <- unmap_loop UNMAP_FUEL (get_revoke_info who (m2_s1 m) (m2_i2 m));
  reply r m.

Definition do_safeunmap : handler := fun m =>
  do who <- gets who_e;
  do r <- unmap_loop UNMAP_FUEL (get_unmap_info who (m2_p1 m) (u32 (m2_l1 m)));
  reply r m.
