(* ===== verification/Signals.v ===== *)
(** * Signal handlers of a process (system/do_sigsend.c, system/do_sigreturn.c)

    SYS_SIGSEND saves the registers of a process in a [struct sigcontext] on its own
    stack, puts a [struct sigframe] below it and makes the process run its handler;
    SYS_SIGRETURN restores the registers from the context. *)
From S2P Require Import Prelude PList KMonad Timers Types KState Memory Sched Notify Copy Ipc.
From S2P Require Import KCalls.

(** ** The structures (include/sys/stackframe.h, include/sys/sigcontext.h) *)

Record stackframe_s := mk_stackframe {
  rg_gs : Z; rg_fs : Z; rg_es : Z; rg_ds : Z;
  rg_di : Z; rg_si : Z; rg_fp : Z; rg_st : Z; rg_bx : Z; rg_dx : Z; rg_cx : Z;
  rg_retreg : Z; rg_retadr : Z; rg_pc : Z; rg_cs : Z; rg_psw : Z; rg_sp : Z; rg_ss : Z }.

Definition p_reg (p : proc) : stackframe_s :=
  mk_stackframe (p_gs p) (p_fs p) (p_es p) (p_ds p) (p_di p) (p_si p) (p_fp p) (p_st p) (p_bx p)
    (p_dx p) (p_cx p) (p_retreg p) (p_retadr p) (p_pc p) (p_cs p) (p_psw p) (p_sp p) (p_ss p).

Definition set_p_reg (r : stackframe_s) (p : proc) : proc :=
  set_p_gs (rg_gs r) (set_p_fs (rg_fs r) (set_p_es (rg_es r) (set_p_ds (rg_ds r)
    (set_p_di (rg_di r) (set_p_si (rg_si r) (set_p_fp (rg_fp r) (set_p_st (rg_st r)
      (set_p_bx (rg_bx r) (set_p_dx (rg_dx r) (set_p_cx (rg_cx r) (set_p_retreg (rg_retreg r)
        (set_p_retadr (rg_retadr r) (set_p_pc (rg_pc r) (set_p_cs (rg_cs r)
          (set_p_psw (rg_psw r) (set_p_sp (rg_sp r) (set_p_ss (rg_ss r) p))))))))))))))))).

(** The segment registers take 16 bits each, the others a word. *)
Definition frame_words (r : stackframe_s) : list Z :=
  [rg_gs r + 65536 * rg_fs r; rg_es r + 65536 * rg_ds r;
   rg_di r; rg_si r; rg_fp r; rg_st r; rg_bx r; rg_dx r; rg_cx r; rg_retreg r; rg_retadr r;
   rg_pc r; rg_cs r; rg_psw r; rg_sp r; rg_ss r].

Definition words_frame (ws : list Z) : stackframe_s :=
  match map u32 ws with
  | [a; b; di; si; fp; st; bx; dx; cx; retreg; retadr; pc; cs; psw; sp; ss] =>
      mk_stackframe (a mod 65536) (a / 65536) (b mod 65536) (b / 65536)
        di si fp st bx dx cx retreg retadr pc cs psw sp ss
  | _ => mk_stackframe 0 0 0 0 0 0 0 0 0 0 0 0 0 0 0 0 0 0
  end.

Definition FPU_XFP_SIZE : Z := 512.

Record sigcontext := mk_sigcontext {
  sc_flags : Z; sc_mask : Z; sc_regs : stackframe_s; sc_fpu_state : list Z }.
Definition SIGCONTEXT_SIZE : Z := 584.

Definition sigcontext_bytes (sc : sigcontext) : list Z :=
  concat (map word_bytes (sc_flags sc :: sc_mask sc :: frame_words (sc_regs sc))) ++ sc_fpu_state sc.

Definition bytes_sigcontext (bs : list Z) : sigcontext :=
  match bytes_words (take 72 bs) with
  | flags :: mask :: ws => mk_sigcontext flags mask (words_frame ws) (drop 72 bs)
  | _ => mk_sigcontext 0 0 (words_frame []) []
  end.

(** [struct sigframe], and [struct sigmsg] (include/minix/type.h). *)
Definition sigframe_bytes (retadr signo code scp fp retadr2 scpcopy : Z) : list Z :=
  concat (map word_bytes [retadr; signo; code; scp; fp; retadr2; scpcopy]).
Definition SIGFRAME_SIZE : Z := 28.
Definition SF_FP : Z := 16.

Record sigmsg := mk_sigmsg {
  sm_signo : Z; sm_mask : Z; sm_sighandler : Z; sm_sigreturn : Z; sm_stkptr : Z }.
Definition SIGMSG_SIZE : Z := 20.

Definition bytes_sigmsg (bs : list Z) : sigmsg :=
  match bytes_words bs with
  | [a; b; c; d; e] => mk_sigmsg a (u32 b) (u32 c) (u32 d) (u32 e)
  | _ => mk_sigmsg 0 0 0 0 0
  end.

(** ** do_sigsend.c *)

Definition FPE_FLTDIV : Z := 3.
Definition FPE_FLTOVF : Z := 4.
Definition FPE_FLTUND : Z := 5.
Definition FPE_FLTRES : Z := 6.
Definition FPE_FLTINV : Z := 7.

(** A [u16_t] of the saved state of the floating point unit. *)
Definition fpu16 (bs : list Z) (off : nat) : Z := nth off bs 0 + 256 * nth (S off) bs 0.

(** [fp_status & ~fp_control], where the layout depends on FXSAVE. *)
Definition fp_error (osfxsr : bool) (fpu : list Z) : Z :=
  Z.ldiff (fpu16 fpu (if osfxsr then 2 else 4)) (fpu16 fpu 0).

Definition sf_code (e : Z) : Z :=
  if flag_any e 0x001 then FPE_FLTINV
  else if flag_any e 0x004 then FPE_FLTDIV
  else if flag_any e 0x008 then FPE_FLTOVF
  else if flag_any e 0x012 then FPE_FLTUND
  else if flag_any e 0x020 then FPE_FLTRES
  else 0.

(** The context that is saved; when the process has not used the floating point unit,
    [sc_fpu_state] keeps what was on the kernel's stack. *)
Definition saved_context (stack : list Z) (mask : Z) (p : proc) : sigcontext :=
  let fpu := Z.land (p_misc_flags p) MF_FPU_INITIALIZED in
  mk_sigcontext fpu mask (p_reg p) (if negb (fpu =? 0) then p_fpu_state p else stack).

Definition do_sigsend (stack : list Z) : handler := fun m =>
  do o <- isokendpt (m2_i1 m);
  match o with
  | None => reply EINVAL m
  | Some rp =>
      if iskerneln rp then reply EPERM m
      else
        do who <- gets who_e;
        do r <- data_copy_in who (u32 (m2_p1 m)) SIGMSG_SIZE true;
        if negb (fst r =? OK) then reply (fst r) m
        else
          let smsg := bytes_sigmsg (snd r) in
          let scp := u32 (sm_stkptr smsg - SIGCONTEXT_SIZE) in
          do p <- rd rp (fun p => p);
          let sc := saved_context stack (i32 (sm_mask smsg)) p in
          do r <- data_copy_out (sigcontext_bytes sc) (m2_i1 m) scp true;
          if negb (r =? OK) then reply r m
          else
            let frp := u32 (scp - SIGFRAME_SIZE) in
            do pc <- rd rp p_pc;
            do fp <- rd rp p_fp;
            do! wr rp (set_p_fp (u32 (frp + SF_FP)));
            do osfxsr <- gets osfxsr_feature;
            let code := sf_code (fp_error osfxsr (sc_fpu_state sc)) in
            do r <- data_copy_out (sigframe_bytes (sm_sigreturn smsg) (sm_signo smsg) code scp fp pc scp)
                      (m2_i1 m) frp true;
            if negb (r =? OK) then reply r m
            else
              do! wr rp (set_p_sp frp);
              do! wr rp (set_p_pc (sm_sighandler smsg));
              do! clear_misc rp MF_FPU_INITIALIZED;
              reply OK m
  end.

(** ** do_sigreturn.c *)

(** The status and control flags of the processor (include/ibm/cpu.h). *)
Definition X86_FLAGS_USER : Z := 0xCD5.

(** The registers that are restored: the system bits of the status word and the
    segment registers stay as they are. *)
Definition user_regs (sc old : stackframe_s) : stackframe_s :=
  mk_stackframe (rg_gs old) (rg_fs old) (rg_es old) (rg_ds old)
    (rg_di sc) (rg_si sc) (rg_fp sc) (rg_st sc) (rg_bx sc) (rg_dx sc) (rg_cx sc)
    (rg_retreg sc) (rg_retadr sc) (rg_pc sc) (rg_cs old)
    (Z.lor (Z.land (rg_psw sc) X86_FLAGS_USER) (Z.ldiff (rg_psw old) X86_FLAGS_USER))
    (rg_sp sc) (rg_ss old).

Definition do_sigreturn : handler := fun m =>
  do o <- isokendpt (m2_i1 m);
  match o with
  | None => reply EINVAL m
  | Some rp =>
      if iskerneln rp then reply EPERM m
      else
        do r <- data_copy_in (m2_i1 m) (u32 (m2_p1 m)) SIGCONTEXT_SIZE false;
        if negb (fst r =? OK) then reply (fst r) m
        else
          let sc := bytes_sigcontext (snd r) in
          do! wr rp (fun p => set_p_reg (user_regs (sc_regs sc) (p_reg p)) p);
          do! when (flag_any (sc_flags sc) MF_FPU_INITIALIZED) (
            do! wr rp (set_p_fpu_state (sc_fpu_state sc));
            set_misc rp MF_FPU_INITIALIZED);
          reply OK m
  end.
