(* ===== verification/PrivCtl.v ===== *)
(** * Privileges, tracing, remote segments

    SYS_PRIVCTL (system/do_privctl.c), SYS_TRACE (system/do_trace.c) and SYS_SEGCTL
    (system/do_segctl.c). *)
From S2P Require Import Prelude PList KMonad Timers Types KState Memory Sched Notify Copy Ipc.
From S2P Require Import System KCalls KProc Grants Signals.

(** ** do_privctl.c *)

Definition SYS_PRIV_ALLOW : Z := 1.
Definition SYS_PRIV_DISALLOW : Z := 2.
Definition SYS_PRIV_SET_SYS : Z := 3.
Definition SYS_PRIV_SET_USER : Z := 4.
Definition SYS_PRIV_ADD_IO : Z := 5.
Definition SYS_PRIV_ADD_MEM : Z := 6.
Definition SYS_PRIV_ADD_IRQ : Z := 7.
Definition SYS_PRIV_QUERY_MEM : Z := 8.

(** kernel/priv.h *)
Definition NR_IO_RANGE : Z := 32.
Definition NR_MEM_RANGE : Z := 10.
Definition NR_IRQ : Z := 4.
Definition DEF_SYS_F : Z := Z.lor (Z.lor SYS_PROC PREEMPTIBLE) DYN_PRIV_ID.
Definition DEF_SYS_T : Z := -1.
Definition DEF_SYS_M : Z := Z.ldiff (-1) (2 ^ USER_PRIV_ID).

(** A flag of the process' privilege structure. *)
Definition priv_flag (rp f : Z) : K bool :=
  do pr <- priv_of rp;
  rdp pr (fun sp => flag_any (s_flags sp) f).

(** The new structure: that of the caller, with nothing pending and the defaults. *)
Definition default_priv (id proc_nr : Z) (caller : priv) : priv :=
  let p := set_s_proc_nr proc_nr (set_s_id id caller) in
  let p := set_s_sig_pending 0 (set_s_int_pending 0 (set_s_notify_pending (fun _ => 0) p)) in
  let p := set_s_asynsize 0 (set_s_asyntab (u32 (-1)) p) in
  let p := set_s_k_call_mask (fun _ => 0xFFFF) (set_s_trap_mask DEF_SYS_T (set_s_flags DEF_SYS_F p)) in
  let p := set_s_nr_irq 0 (set_s_nr_mem_range 0 (set_s_nr_io_range 0 p)) in
  set_s_grant_entries 0 (set_s_grant_table 0 p).

(** [for (i = 0; i < n; i++) to[i] = from[i]] *)
Definition copy_tab {A} (n : Z) (from to : Z -> A) : Z -> A :=
  fun i => if (0 <=? i) && (i <? n) then from i else to i.

(** One table of resources: [Some EINVAL] when its length is out of range. *)
Definition copy_resource (given : priv) (flag : Z) (nr : priv -> Z) (max : Z) (pr : Z)
    (put : priv -> priv) : K (option Z) :=
  if flag_any (s_flags given) flag then
    if (nr given <? 0) || (max <? nr given) then ret (Some EINVAL)
    else do! wrp pr put; ret None
  else ret None.

(** The part of SYS_PRIV_SET_SYS that uses the structure the caller gave; [inr] is the
    mask of allowed targets. *)
Definition override_priv (given : priv) (pr : Z) : K (Z + Z) :=
  do! wrp pr (set_s_flags (s_flags given));
  do e <- copy_resource given CHECK_IRQ s_nr_irq NR_IRQ pr (fun sp =>
    set_s_irq_tab (copy_tab (s_nr_irq given) (s_irq_tab given) (s_irq_tab sp))
      (set_s_nr_irq (s_nr_irq given) sp));
  match e with
  | Some e => ret (inl e)
  | None =>
      do e <- copy_resource given CHECK_IO_PORT s_nr_io_range NR_IO_RANGE pr (fun sp =>
        set_s_io_tab (copy_tab (s_nr_io_range given) (s_io_tab given) (s_io_tab sp))
          (set_s_nr_io_range (s_nr_io_range given) sp));
      match e with
      | Some e => ret (inl e)
      | None =>
          do e <- copy_resource given CHECK_MEM s_nr_mem_range NR_MEM_RANGE pr (fun sp =>
            set_s_mem_tab (copy_tab (s_nr_mem_range given) (s_mem_tab given) (s_mem_tab sp))
              (set_s_nr_mem_range (s_nr_mem_range given) sp));
          match e with
          | Some e => ret (inl e)
          | None =>
              do! wrp pr (fun sp => set_s_k_call_mask (s_k_call_mask given)
                                      (set_s_trap_mask (s_trap_mask given) sp));
              ret (inr (s_ipc_to given 0 + 65536 * s_ipc_to given 1))
          end
      end
  end.

(** [for (i = 0; i < NR_SYS_PROCS; i++)] over the mask of targets. *)
Definition fill_targets (rp ipc_to_m : Z) : K unit :=
  for_each (seqZ 0 NR_SYS_PROCS) (fun i =>
    if Z.testbit ipc_to_m i then set_sendto_bit rp i else unset_sendto_bit rp i).

Section privctl.
(** The layout of [struct priv] in memory, and what an uninitialised variable of the
    handler holds. *)
Context (sizeof_priv : Z) (bytes_priv : list Z -> priv) (uninit : list Z).

(** The structure at [CTL_ARG_PTR], if there is one. *)
Definition given_priv (arg : Z) : K (Z + option priv) :=
  if arg =? 0 then ret (inr None)
  else
    do who <- gets who_e;
    do r <- data_copy_in who arg sizeof_priv false;
    if negb (fst r =? OK) then ret (inl (fst r)) else ret (inr (Some (bytes_priv (snd r)))).

(** The allocation and the defaults; [*priv(rp) = *priv(caller)] copies the alarm
    timer, too. *)
Definition alloc_priv (caller rp : Z) (given : option priv) : K (Z + Z) :=
  let id := match given with
            | Some g => if negb (flag_any (s_flags g) DYN_PRIV_ID) then s_id g else NULL_PRIV_ID
            | None => NULL_PRIV_ID
            end in
  do r <- get_priv rp id;
  if negb (r =? OK) then ret (inl r)
  else
    do pr <- priv_of rp;
    do pc <- priv_of caller;
    do id <- rdp pr s_id;
    do nr <- rd rp p_nr;
    do cp <- rdp pc (fun sp => sp);
    do! wrp pr (fun _ => default_priv id nr cp);
    do! ztmr (modify (fun st => upd_tm (TAlarm pr) (fun _ => tm st (TAlarm pc)) st));
    ret (inr pr).

Definition priv_set_sys (caller rp : Z) : handler := fun m =>
  do np <- RTS_ISSET rp RTS_NO_PRIV;
  if negb np then reply EPERM m
  else
    do g <- given_priv (u32 (m2_p1 m));
    match g with
    | inl e => reply e m
    | inr given =>
        do a <- alloc_priv caller rp given;
        match a with
        | inl e => reply e m
        | inr pr =>
            do t <- match given with Some g => override_priv g pr | None => ret (inr DEF_SYS_M) end;
            match t with
            | inl e => reply e m
            | inr ipc_to_m => do! fill_targets rp ipc_to_m; reply OK m
            end
        end
    end.

(** The tests that the three calls which add a resource have in common. *)
Definition if_sys_proc (rp : Z) (m : message) (body : K (Z * message)) : K (Z * message) :=
  do np <- RTS_ISSET rp RTS_NO_PRIV;
  if np : bool then reply EPERM m
  else
    do sys <- priv_flag rp SYS_PROC;
    if negb sys then reply EPERM m else body.

(** [priv->s_flags |= flag], and a new last entry if there is room. *)
Definition add_resource (rp flag max : Z) (nr : priv -> Z) (put : Z -> priv -> priv) (m : message)
    : K (Z * message) :=
  do pr <- priv_of rp;
  do! wrp pr (fun sp => set_s_flags (Z.lor (s_flags sp) flag) sp);
  do i <- rdp pr nr;
  if max <=? i then reply ENOMEM m
  else do! wrp pr (put i); reply OK m.

(** The argument of the call; the result of the copy is only looked at for memory
    ranges. *)
Definition ctl_arg (m : message) (bytes : Z) : K (Z * list Z) :=
  do who <- gets who_e;
  do r <- data_copy_in who (u32 (m2_p1 m)) bytes false;
  ret (fst r, if fst r =? OK then snd r else uninit).

Definition range_of (bs : list Z) : Z * Z :=
  match bytes_words bs with [a; b] => (u32 a, u32 b) | _ => (0, 0) end.

Definition priv_add_io (rp : Z) : handler := fun m => if_sys_proc rp m (
  do a <- ctl_arg m 8;
  add_resource rp CHECK_IO_PORT NR_IO_RANGE s_nr_io_range (fun i sp =>
    set_s_nr_io_range (i + 1) (set_s_io_tab (<[i := range_of (snd a)]> (s_io_tab sp)) sp)) m).

Definition priv_add_mem (rp : Z) : handler := fun m => if_sys_proc rp m (
  do a <- ctl_arg m 8;
  if negb (fst a =? OK) then reply (fst a) m
  else add_resource rp CHECK_MEM NR_MEM_RANGE s_nr_mem_range (fun i sp =>
    set_s_nr_mem_range (i + 1) (set_s_mem_tab (<[i := range_of (snd a)]> (s_mem_tab sp)) sp)) m).

Definition priv_add_irq (rp : Z) : handler := fun m => if_sys_proc rp m (
  do a <- ctl_arg m 4;
  let irq := match bytes_words (snd a) with [i] => i | _ => 0 end in
  add_resource rp CHECK_IRQ NR_IRQ s_nr_irq (fun i sp =>
    set_s_nr_irq (i + 1) (set_s_irq_tab (<[i := irq]> (s_irq_tab sp)) sp)) m).

Definition priv_query_mem (rp : Z) : handler := fun m =>
  let addr := u32 (m2_l1 m) in
  let limit := u32 (addr + u32 (m2_l2 m) - 1) in
  if limit <? addr then reply EPERM m
  else
    do o <- rd rp p_priv;
    match o with
    | None => reply EPERM m
    | Some pr =>
        do sp <- rdp pr (fun sp => sp);
        if negb (flag_any (s_flags sp) SYS_PROC) then reply EPERM m
        else if existsb (fun i => (fst (s_mem_tab sp i) <=? addr) && (limit <=? snd (s_mem_tab sp i)))
                  (seqZ 0 (s_nr_mem_range sp))
        then reply OK m else reply EPERM m
    end.

Definition do_privctl : handler := fun m =>
  do caller <- gets who_p;
  do sys <- priv_flag caller SYS_PROC;
  if negb sys then reply EPERM m
  else
    do o <- (if m2_i1 m =? SELF then ret (Some caller) else isokendpt (m2_i1 m));
    match o with
    | None => reply EINVAL m
    | Some rp =>
        let req := m2_i2 m in
        if req =? SYS_PRIV_ALLOW then
          do np <- RTS_ISSET rp RTS_NO_PRIV;
          if negb np then reply EPERM m
          else
            do pr <- priv_of rp;
            do nr <- rdp pr s_proc_nr;
            if nr =? NONE then reply EPERM m
            else do! RTS_LOCK_UNSET rp RTS_NO_PRIV; reply OK m
        else if req =? SYS_PRIV_DISALLOW then
          do np <- RTS_ISSET rp RTS_NO_PRIV;
          if np : bool then reply EPERM m
          else do! RTS_LOCK_SET rp RTS_NO_PRIV; reply OK m
        else if req =? SYS_PRIV_SET_SYS then priv_set_sys caller rp m
        else if req =? SYS_PRIV_SET_USER then
          do np <- RTS_ISSET rp RTS_NO_PRIV;
          if negb np then reply EPERM m
          else do! wr rp (set_p_priv (Some USER_PRIV_ID)); reply OK m
        else if req =? SYS_PRIV_ADD_IO then priv_add_io rp m
        else if req =? SYS_PRIV_ADD_MEM then priv_add_mem rp m
        else if req =? SYS_PRIV_ADD_IRQ then priv_add_irq rp m
        else if req =? SYS_PRIV_QUERY_MEM then priv_query_mem rp m
        else reply EINVAL m
    end.

End privctl.

(** ** do_trace.c *)

Definition T_STOP : Z := -1.
Definition T_GETINS : Z := 1.
Definition T_GETDATA : Z := 2.
Definition T_GETUSER : Z := 3.
Definition T_SETINS : Z := 4.
Definition T_SETDATA : Z := 5.
Definition T_SETUSER : Z := 6.
Definition T_RESUME : Z := 7.
Definition T_STEP : Z := 9.
Definition T_SYSCALL : Z := 10.
Definition T_DETACH : Z := 12.
Definition T_READB_INS : Z := 100.
Definition T_WRITEB_INS : Z := 101.

(** [COPYFROMPROC] and [COPYTOPROC]. *)
Definition COPYFROMPROC (e seg addr length : Z) : K (Z * list Z) :=
  virtual_copy_gen [] (vc_map no_umap_virtual (mk_vir_addr e seg addr) length) kernel_end
    (copy_in length) length true.

Definition COPYTOPROC (e seg addr : Z) (bs : list Z) : K Z :=
  do r <- virtual_copy_gen tt kernel_end
            (vc_map no_umap_virtual (mk_vir_addr e seg addr) (Z.of_nat (length bs)))
            (copy_out bs) (Z.of_nat (length bs)) true;
  ret (fst r).

Definition get_value (e seg addr len : Z) (m : message) (decode : list Z -> Z) : K (Z * message) :=
  do r <- COPYFROMPROC e seg addr len;
  if negb (fst r =? OK) then reply (fst r) m
  else reply OK (set_m2_l2 (decode (snd r)) m).

Definition set_value (e seg addr : Z) (bs : list Z) (m : message) : K (Z * message) :=
  do r <- COPYTOPROC e seg addr bs;
  if negb (r =? OK) then reply r m else reply OK (set_m2_l2 0 m).

Definition sizeof_stackframe : Z := 64.
Definition REG_CS : Z := 48.
Definition REG_SS : Z := 60.

(** [*(reg_t * ) ((char * ) &rp->p_reg + i) = v], at a multiple of four; the segment
    registers are at 0 to 7, 48 and 60, the status word at 52. *)
Definition set_reg (i v : Z) (p : proc) : proc :=
  if i =? 8 then set_p_di v p else if i =? 12 then set_p_si v p
  else if i =? 16 then set_p_fp v p else if i =? 20 then set_p_st v p
  else if i =? 24 then set_p_bx v p else if i =? 28 then set_p_dx v p
  else if i =? 32 then set_p_cx v p else if i =? 36 then set_p_retreg v p
  else if i =? 40 then set_p_retadr v p else if i =? 44 then set_p_pc v p
  else if i =? 56 then set_p_sp v p
  else if i =? 52 then set_p_psw (Z.lor (Z.ldiff (p_psw p) 0xCD5) (Z.land v 0xCD5)) p
  else p.

Section trace.
(** The layout of [struct proc] and [struct priv]: their sizes and the word at an
    offset. *)
Context (sizeof_proc sizeof_priv : Z) (proc_word : proc -> Z -> Z) (priv_word : priv -> Z -> Z).

Definition trace_getuser (rp tr_addr : Z) (m : message) : K (Z * message) :=
  if negb (Z.land tr_addr 3 =? 0) then reply EFAULT m
  else if tr_addr <=? sizeof_proc - 4 then
    do v <- rd rp (fun p => proc_word p tr_addr);
    reply OK (set_m2_l2 v m)
  else
    let a := u32 (tr_addr - Z.ldiff (sizeof_proc + 3) 3) in
    if sizeof_priv - 4 <? a then reply EFAULT m
    else
      do pr <- priv_of rp;
      do v <- rdp pr (fun sp => priv_word sp a);
      reply OK (set_m2_l2 v m).

Definition trace_setuser (rp tr_addr tr_data : Z) (m : message) : K (Z * message) :=
  if negb (Z.land tr_addr 3 =? 0) || (sizeof_stackframe - 4 <? tr_addr) then reply EFAULT m
  else if (tr_addr <? 8) || (tr_addr =? REG_CS) || (tr_addr =? REG_SS) then reply EFAULT m
  else
    do! wr rp (set_reg tr_addr (u32 tr_data));
    reply OK (set_m2_l2 0 m).

(** [RTS_LOCK_UNSET(rp, RTS_P_STOP); m_ptr->CTL_DATA = 0;] *)
Definition trace_continue (rp : Z) (m : message) : K (Z * message) :=
  do! RTS_LOCK_UNSET rp RTS_P_STOP;
  reply OK (set_m2_l2 0 m).

Definition do_trace : handler := fun m =>
  let e := m2_i1 m in
  let tr_addr := u32 (m2_l1 m) in
  let tr_data := m2_l2 m in
  let req := m2_i2 m in
  do o <- isokendpt e;
  match o with
  | None => reply EINVAL m
  | Some rp =>
      if iskerneln rp then reply EPERM m
      else
        do empty <- isemptyp rp;
        if empty : bool then reply EINVAL m
        else if req =? T_STOP then
          do! RTS_LOCK_SET rp RTS_P_STOP;
          do! wr rp (fun p => set_p_psw (Z.ldiff (p_psw p) TRACEBIT) p);
          do! clear_misc rp MF_SC_TRACE;
          reply OK m
        else if req =? T_GETINS then get_value e SEG_T tr_addr 4 m word_of
        else if req =? T_GETDATA then get_value e SEG_D tr_addr 4 m word_of
        else if req =? T_GETUSER then trace_getuser rp tr_addr m
        else if req =? T_SETINS then set_value e SEG_T tr_addr (word_bytes tr_data) m
        else if req =? T_SETDATA then set_value e SEG_D tr_addr (word_bytes tr_data) m
        else if req =? T_SETUSER then trace_setuser rp tr_addr tr_data m
        else if req =? T_DETACH then do! clear_misc rp MF_SC_ACTIVE; trace_continue rp m
        else if req =? T_RESUME then trace_continue rp m
        else if req =? T_STEP then
          do! wr rp (fun p => set_p_psw (Z.lor (p_psw p) TRACEBIT) p);
          trace_continue rp m
        else if req =? T_SYSCALL then do! set_misc rp MF_SC_TRACE; trace_continue rp m
        else if req =? T_READB_INS then get_value e SEG_T tr_addr 1 m (fun bs => nth 0 bs 0)
        else if req =? T_WRITEB_INS then set_value e SEG_T tr_addr [Z.land tr_data 0xFF] m
        else reply EINVAL m
  end.

End trace.

(** ** do_segctl.c *)

Definition BYTE_GRAN_MAX : Z := 0xFFFFF.
Definition EXTRA_LDT_INDEX : Z := 2.
Definition USER_PRIVILEGE : Z := 3.

(** [alloc_remote_segment]: the selector of the descriptor it writes and the offset of
    the memory in that segment. *)
Definition alloc_remote_segment (index phys size pl : Z) : Z * Z :=
  (Z.lor (Z.lor ((EXTRA_LDT_INDEX + index) * 0x08) 0x04) pl,
   if size <? BYTE_GRAN_MAX then 0 else Z.land phys 0xFFFF).

Definition do_segctl : handler := fun m =>
  let phys := u32 (m4_l3 m) in
  let size := u32 (m_w3 m) in
  do rp <- gets who_p;
  do pr <- priv_of rp;
  do free <- rdp pr (fun sp => find (fun i => fm_in_use (s_farmem sp i) =? 0) (seqZ 0 NR_REMOTE_SEGS));
  match free with
  | None => reply ENOSPC m
  | Some i =>
      do! wrp pr (fun sp => set_s_farmem (<[i := mk_far_mem 1 phys size]> (s_farmem sp)) sp);
      let r := alloc_remote_segment i phys size USER_PRIVILEGE in
      reply OK (set_m_w4 (Z.lor i REMOTE_SEG) (set_m_w0 (i32 (fst r)) (set_m_w1 (i32 (snd r)) m)))
  end.
