(* ===== verification/SysTask.v ===== *)
(** * The system task (kernel/system.c)

    The main loop of SYSTEM: which handler a call number stands for ([initialize]),
    the check of the caller's call mask, the reply, and the calls that are suspended
    until VM has made memory available. *)
From S2P Require Import Prelude PList KMonad Timers Types KState Memory Sched Notify Copy Ipc.
From S2P Require Import Clock Interrupt System KCalls KProc Grants VmCtl Signals PrivCtl.

(** ** Small handlers *)

(** do_sysctl.c: what is printed does not change the state. *)
Definition SYSCTL_CODE_DIAG : Z := 1.
Definition SYSCTL_CODE_STACKTRACE : Z := 2.
Definition DIAG_BUFSIZE : Z := 80 * 25.

Definition do_sysctl : handler := fun m =>
  if m1_i1 m =? SYSCTL_CODE_DIAG then
    let len := u32 (m1_i2 m) in
    if (len <? 1) || (DIAG_BUFSIZE <? len) then reply EINVAL m
    else
      do who <- gets who_e;
      do r <- data_copy_in who (u32 (m1_p1 m)) len true;
      reply (fst r) m
  else if m1_i1 m =? SYSCTL_CODE_STACKTRACE then
    do o <- isokendpt (m1_i2 m);
    match o with None => reply EINVAL m | Some _ => reply OK m end
  else reply EINVAL m.

(** do_abort.c; [params_size] is the room the boot monitor has left for parameters. *)
Definition RBT_MONITOR : Z := 3.
Definition E2BIG : Z := -7.

Definition do_abort (params_size : Z) : handler := fun m =>
  let how := m1_i1 m in
  do e <- (if how =? RBT_MONITOR then
             let len := Z.min (u32 (m1_i3 m)) 511 in
             do r <- data_copy_in (m1_i2 m) (u32 (m1_p1 m)) len false;
             if negb (fst r =? OK) then ret (fst r)
             else ret (if params_size <? len + 1 then E2BIG else OK)
           else ret OK);
  if negb (e =? OK) then reply e m
  else do! prepare_shutdown how; reply OK m.

(** arch/i386/do_iopenable.c, [enable_iop] of protect.c, arch/i386/do_readbios.c. *)
Definition enable_iop (pp : Z) : K unit := wr pp (fun p => set_p_psw (Z.lor (p_psw p) 0x3000) p).

Definition do_iopenable : handler := fun m =>
  do o <- (if m2_i2 m =? SELF then do p <- gets who_p; ret (Some p) else isokendpt (m2_i2 m));
  match o with
  | None => reply EINVAL m
  | Some p => do! enable_iop p; reply OK m
  end.

Definition do_readbios : handler := fun m =>
  do r <- virtual_copy_vmcheck (mk_vir_addr NONE BIOS_SEG (u32 (m2_l1 m)))
            (mk_vir_addr (m_source m) SEG_D (u32 (m2_p1 m))) (u32 (m2_i1 m));
  reply r m.

(** ** Call numbers (include/minix/com.h) *)

Definition SYS_FORK : Z := KERNEL_CALL + 0.
Definition SYS_EXEC : Z := KERNEL_CALL + 1.
Definition SYS_EXIT : Z := KERNEL_CALL + 2.
Definition SYS_NICE : Z := KERNEL_CALL + 3.
Definition SYS_PRIVCTL : Z := KERNEL_CALL + 4.
Definition SYS_TRACE : Z := KERNEL_CALL + 5.
Definition SYS_KILL : Z := KERNEL_CALL + 6.
Definition SYS_GETKSIG : Z := KERNEL_CALL + 7.
Definition SYS_ENDKSIG : Z := KERNEL_CALL + 8.
Definition SYS_SIGSEND : Z := KERNEL_CALL + 9.
Definition SYS_SIGRETURN : Z := KERNEL_CALL + 10.
Definition SYS_NEWMAP : Z := KERNEL_CALL + 11.
Definition SYS_SEGCTL : Z := KERNEL_CALL + 12.
Definition SYS_MEMSET : Z := KERNEL_CALL + 13.
Definition SYS_UMAP : Z := KERNEL_CALL + 14.
Definition SYS_IRQCTL : Z := KERNEL_CALL + 19.
Definition SYS_INT86 : Z := KERNEL_CALL + 20.
Definition SYS_DEVIO : Z := KERNEL_CALL + 21.
Definition SYS_SDEVIO : Z := KERNEL_CALL + 22.
Definition SYS_VDEVIO : Z := KERNEL_CALL + 23.
Definition SYS_SETALARM : Z := KERNEL_CALL + 24.
Definition SYS_TIMES : Z := KERNEL_CALL + 25.
Definition SYS_GETINFO : Z := KERNEL_CALL + 26.
Definition SYS_ABORT : Z := KERNEL_CALL + 27.
Definition SYS_IOPENABLE : Z := KERNEL_CALL + 28.
Definition SYS_VSAFECOPY : Z := KERNEL_CALL + 33.
Definition SYS_SETGRANT : Z := KERNEL_CALL + 34.
Definition SYS_READBIOS : Z := KERNEL_CALL + 35.
Definition SYS_SPROF : Z := KERNEL_CALL + 36.
Definition SYS_CPROF : Z := KERNEL_CALL + 37.
Definition SYS_PROFBUF : Z := KERNEL_CALL + 38.
Definition SYS_STIME : Z := KERNEL_CALL + 39.
Definition SYS_VMCTL : Z := KERNEL_CALL + 43.
Definition SYS_SYSCTL : Z := KERNEL_CALL + 44.
Definition SYS_VTIMER : Z := KERNEL_CALL + 45.
Definition SYS_RUNCTL : Z := KERNEL_CALL + 46.
Definition SYS_SAFEMAP : Z := KERNEL_CALL + 47.
Definition SYS_SAFEREVMAP : Z := KERNEL_CALL + 48.
Definition SYS_SAFEUNMAP : Z := KERNEL_CALL + 49.
Definition SYS_CHDEADLINE : Z := KERNEL_CALL + 50.

(** ** [initialize] *)

(** [map(call_nr, handler)]. *)
Definition map_call (vec : Z -> handler) (c : Z * handler) : Z -> handler :=
  <[fst c - KERNEL_CALL := snd c]> vec.

(** What the machine and the compiler fix: the layout of the structures that are copied
    as a whole, what uninitialised variables hold, the boot parameters. *)
Record platform := mk_platform {
  pf_boot : boot_info;
  pf_params_size : Z;
  pf_stack : list Z;
  pf_sizeof_proc : Z;
  pf_sizeof_priv : Z;
  pf_bytes_priv : list Z -> priv;
  pf_proc_word : proc -> Z -> Z;
  pf_priv_word : priv -> Z -> Z }.

Section calls.
(** [other] stands for the handlers of device input and output, whose state is more than
    the tables of the kernel (DevIo.v), and of SYS_GETINFO, of BIOS calls and of profiling,
    which have no model. *)
Context (pf : platform) (other : Z -> handler).

Definition mapped_calls : list (Z * handler) :=
  [(SYS_CHDEADLINE, do_chdeadline); (SYS_FORK, do_fork); (SYS_EXEC, do_exec); (SYS_EXIT, do_exit);
   (SYS_NICE, do_nice);
   (SYS_PRIVCTL, do_privctl (pf_sizeof_priv pf) (pf_bytes_priv pf) (pf_stack pf));
   (SYS_TRACE, do_trace (pf_sizeof_proc pf) (pf_sizeof_priv pf) (pf_proc_word pf) (pf_priv_word pf));
   (SYS_SETGRANT, do_setgrant); (SYS_RUNCTL, do_runctl);
   (SYS_KILL, do_kill); (SYS_GETKSIG, do_getksig); (SYS_ENDKSIG, do_endksig);
   (SYS_SIGSEND, do_sigsend (pf_stack pf)); (SYS_SIGRETURN, do_sigreturn);
   (SYS_IRQCTL, do_irqctl); (SYS_DEVIO, other SYS_DEVIO); (SYS_VDEVIO, other SYS_VDEVIO);
   (SYS_NEWMAP, do_newmap); (SYS_SEGCTL, do_segctl); (SYS_MEMSET, do_memset);
   (SYS_VMCTL, do_vmctl (pf_boot pf));
   (SYS_UMAP, do_umap); (SYS_VIRCOPY, do_copy); (SYS_PHYSCOPY, do_copy);
   (SYS_SAFECOPYFROM, do_safecopy); (SYS_SAFECOPYTO, do_safecopy); (SYS_VSAFECOPY, do_vsafecopy);
   (SYS_SAFEMAP, do_safemap); (SYS_SAFEREVMAP, do_saferevmap); (SYS_SAFEUNMAP, do_safeunmap);
   (SYS_TIMES, do_times); (SYS_SETALARM, do_setalarm); (SYS_STIME, do_stime); (SYS_VTIMER, do_vtimer);
   (SYS_ABORT, do_abort (pf_params_size pf)); (SYS_GETINFO, other SYS_GETINFO); (SYS_SYSCTL, do_sysctl);
   (SYS_SPROF, other SYS_SPROF); (SYS_CPROF, other SYS_CPROF); (SYS_PROFBUF, other SYS_PROFBUF);
   (SYS_INT86, other SYS_INT86); (SYS_READBIOS, do_readbios); (SYS_IOPENABLE, do_iopenable);
   (SYS_SDEVIO, other SYS_SDEVIO)].

Definition call_vec : Z -> handler := fold_left map_call mapped_calls (fun _ => do_unused).

(** The state the task starts with. *)
Definition sys_initialize : K unit :=
  do! for_each (seqZ 0 NR_IRQ_HOOKS) (fun i =>
    modify (fun s => set_irq_hooks (<[i := set_hk_proc_nr_e NONE (irq_hooks s i)]> (irq_hooks s)) s));
  for_each (seqZ 0 NR_SYS_PROCS) (fun i => ztmr (modify (tmr_inittimer (TAlarm i)))).

End calls.

(** ** [sys_task] *)

Section turn.
Context (vec : Z -> handler).

(** The handler, if the call is legal and the caller may make it. *)
Definition sys_handle (caller : Z) : handler := fun m =>
  let call_nr := i32 (u32 (m_type m) - KERNEL_CALL) in
  if (call_nr <? 0) || (NR_SYS_CALLS <=? call_nr) then reply EBADREQUEST m
  else
    do pr <- priv_of caller;
    do allowed <- rdp pr (fun sp => get_sys_bit (s_k_call_mask sp) call_nr);
    if negb allowed then reply ECALLDENIED m else vec call_nr m.

(** The end of a turn: the request is saved, or answered. *)
Definition sys_answer (caller result : Z) (m : message) : K unit :=
  if result =? VMSUSPEND then wr caller (upd_vmrequest (set_vr_reqmsg m))
  else if result =? EDONTREPLY then ret tt
  else
    let m := set_m_type result m in
    do w <- WILLRECEIVE caller SYSTEM;
    if w : bool then do s <- lock_send (m_source m) m; ret tt else ret tt.

(** One turn of the loop, with the message [m]. *)
Definition sys_turn (m : message) : K unit :=
  do! modify (set_sys_call_code (u32 (m_type m)));
  do! modify (set_who_e (m_source m));
  do caller <- okendpt (m_source m);
  do! modify (set_who_p caller);
  do r <- sys_handle caller m;
  sys_answer caller (fst r) (snd r).

(** The start of the loop: a call that VM has answered is handled again; otherwise
    ([false]) the task goes on to receive a message. *)
Definition sys_restart : K bool :=
  do r <- vmrestart_check;
  match r with
  | Some (_, m) => do! sys_turn m; ret true
  | None => ret false
  end.

End turn.
