(* ===== verification/Frame.v ===== *)
(** * What operations leave alone

    [Keeps R m]: a run of [m] relates the states before and after it by [R].  The
    instances follow the structure of the code, so that the property of a whole
    operation is found by resolution.  [static] relates states that differ only in
    what scheduling and message passing change: flags, queues, priorities, messages in
    transit, pending notifications, the lock.  [same_mem] relates states with the same
    contents of memory. *)
From S2P Require Import Prelude PList KMonad Timers Types KState Memory Sched SchedInv Notify Copy Ipc.

(** ** The relations *)

Definition proc_attr (p : proc) :=
  (p_vmrequest p, (p_map_T p, p_map_D p, p_map_S p), p_cr3 p, (p_priv p, p_endpoint p, p_nr p),
   (p_delivermsg_vir p, p_delivermsg_lin p)).
Definition priv_attr (sp : priv) :=
  ((s_grant_table sp, s_grant_entries sp), (s_id sp, s_proc_nr sp), (s_flags sp, s_trap_mask sp),
   s_k_call_mask sp, s_ipc_to sp).
Definition glob_attr (s : kstate) :=
  (mem s, (vmrequest s, vmrestart s, pagefaults s), map_info s, (vm_running s, ptproc s),
   (who_e s, who_p s, proc_ptr s), (sched_type s, realtime s, clock_timers s)).

Record static (s s' : kstate) : Prop := mk_static {
  sta_proc p : proc_attr (k_proc s' p) = proc_attr (k_proc s p);
  sta_priv i : priv_attr (k_priv s' i) = priv_attr (k_priv s i);
  sta_glob : glob_attr s' = glob_attr s }.

#[export] Instance static_preorder : PreOrder static.
Proof.
  split; [by intros s; split|]. intros s1 s2 s3 [P1 V1 G1] [P2 V2 G2].
  split; [intros p; by rewrite P2|intros i; by rewrite V2|by rewrite G2].
Qed.

Definition same_mem (s s' : kstate) : Prop := mem s' = mem s.

#[export] Instance same_mem_preorder : PreOrder same_mem.
Proof. split; [done|]. intros s1 s2 s3 H1 H2. unfold same_mem in *. congruence. Qed.

(** A relation that allows what scheduling and message passing change. *)
Class FrameRel (R : relation kstate) : Prop := mk_frame_rel {
  fr_preorder :: PreOrder R;
  fr_static s s' : static s s' -> R s s' }.

#[export] Instance static_frame : FrameRel static.
Proof. split; [apply _|done]. Qed.
#[export] Instance same_mem_frame : FrameRel same_mem.
Proof. split; [apply _|]. intros s s' [_ _ H]. unfold glob_attr in H. unfold same_mem. congruence. Qed.

Class Keeps (R : relation kstate) {A} (m : K A) : Prop := keeps_rel : forall s a s', m s = Done a s' -> R s s'.

(** ** Composition *)

Section instances.
Context (R : relation kstate) `{!FrameRel R} {A B : Type}.

(** A computation that does not change the state. *)
Lemma keeps_pure (m : K A) : (forall s a s', m s = Done a s' -> s' = s) -> Keeps R m.
Proof. intros H s a s' Hm. by rewrite (H _ _ _ Hm). Qed.

#[export] Instance ks_ret (a : A) : Keeps R (ret a).
Proof. apply keeps_pure. by intros s a' s' [= _ ->]. Qed.

#[export] Instance ks_bind (m : K A) (f : A -> K B) :
  Keeps R m -> (forall a, Keeps R (f a)) -> Keeps R (bind m f).
Proof.
  intros Hm Hf s b s'. unfold bind. destruct (m s) as [a s1| |] eqn:E; [|done|done].
  intros H. etrans; [by apply (Hm _ _ _ E)|by apply (Hf a _ _ _ H)].
Qed.

#[export] Instance ks_panic why : Keeps R (panic (A:=A) why).
Proof. done. Qed.

#[export] Instance ks_stuck r : Keeps R (stuck (A:=A) r).
Proof. done. Qed.

#[export] Instance ks_gets (f : kstate -> A) : Keeps R (gets f).
Proof. apply keeps_pure. by intros s a s' [= _ ->]. Qed.

#[export] Instance ks_from_ptr (o : option A) : Keeps R (from_ptr o).
Proof. destruct o; apply _. Qed.

#[export] Instance ks_rd rp (f : proc -> A) : Keeps R (rd rp f).
Proof. apply keeps_pure. intros s a s'. unfold rd. case_decide; [by intros [= _ ->]|done]. Qed.

#[export] Instance ks_rdp i (f : priv -> A) : Keeps R (rdp i f).
Proof. apply keeps_pure. intros s a s'. unfold rdp. case_decide; [by intros [= _ ->]|done]. Qed.

#[export] Instance ks_if (b : bool) (m1 m2 : K A) : Keeps R m1 -> Keeps R m2 -> Keeps R (if b then m1 else m2).
Proof. by destruct b. Qed.

#[export] Instance ks_option (o : option B) (f : B -> K A) (m : K A) :
  (forall b, Keeps R (f b)) -> Keeps R m -> Keeps R (match o with Some b => f b | None => m end).
Proof. by destruct o. Qed.

Lemma ks_wr rp f : (forall p, proc_attr (f p) = proc_attr p) -> Keeps R (wr rp f).
Proof.
  intros Hf s a s'. unfold wr. case_decide; [|done]. intros [= _ <-]. apply fr_static.
  split; [|done|done]. intros p. destruct (decide (rp = p)) as [->|Hp]; [by rewrite upd_proc_eq|by rewrite upd_proc_ne].
Qed.

Lemma ks_wrp i f : (forall p, priv_attr (f p) = priv_attr p) -> Keeps R (wrp i f).
Proof.
  intros Hf s a s'. unfold wrp. case_decide; [|done]. intros [= _ <-]. apply fr_static.
  split; [done| |done]. intros j. unfold upd_priv. cbn [k_priv set_k_priv]. rewrite fn_insert_case.
  case_decide; [by subst|done].
Qed.

Lemma ks_modify f : (forall s, static s (f s)) -> Keeps R (modify f).
Proof. intros H s a s' [= _ <-]. by apply fr_static. Qed.

End instances.

#[export] Hint Extern 2 (Keeps _ (wr _ _)) => (apply ks_wr; [apply _|intros; reflexivity]) : typeclass_instances.
#[export] Hint Extern 2 (Keeps _ (wrp _ _)) => (apply ks_wrp; [apply _|intros; reflexivity]) : typeclass_instances.
#[export] Hint Extern 2 (Keeps _ (modify _)) =>
  (apply ks_modify; [apply _|intros; split; intros; reflexivity]) : typeclass_instances.

(** Any assignment to a table keeps the contents of memory. *)
#[export] Instance mem_wr rp f : Keeps same_mem (wr rp f) | 0.
Proof. intros s a s'. unfold wr. case_decide; [by intros [= _ <-]|done]. Qed.
Lemma mem_modify f : (forall s, mem (f s) = mem s) -> Keeps same_mem (modify f).
Proof. intros H s a s' [= _ <-]. apply H. Qed.
#[export] Hint Extern 1 (Keeps same_mem (modify _)) => (apply mem_modify; intros; reflexivity) : typeclass_instances.

Section operations.
Context (R : relation kstate) `{!FrameRel R}.

#[export] Instance ks_when b (m : K unit) : Keeps R m -> Keeps R (when b m).
Proof. intros H. unfold when. apply _. Qed.

#[export] Instance ks_lock : Keeps R lock.
Proof. unfold lock. apply _. Qed.

#[export] Instance ks_unlock : Keeps R unlock.
Proof. unfold unlock. apply _. Qed.

#[export] Instance ks_intr_off {A} (m : K A) : Keeps R m -> Keeps R (with_intr_off m).
Proof. intros H. unfold with_intr_off. apply _. Qed.

(** ** Scheduling *)

#[export] Instance ks_rd_head q : Keeps R (rd_head q).
Proof. apply keeps_pure; [done|]. intros s a s'. unfold rd_head. case_decide; [by intros [= _ ->]|done]. Qed.
#[export] Instance ks_rd_tail q : Keeps R (rd_tail q).
Proof. apply keeps_pure; [done|]. intros s a s'. unfold rd_tail. case_decide; [by intros [= _ ->]|done]. Qed.
#[export] Instance ks_wr_head q v : Keeps R (wr_head q v).
Proof. intros s a s'. unfold wr_head. case_decide; [|done]. intros [= _ <-]. by apply fr_static. Qed.
#[export] Instance ks_wr_tail q v : Keeps R (wr_tail q v).
Proof. intros s a s'. unfold wr_tail. case_decide; [|done]. intros [= _ <-]. by apply fr_static. Qed.
#[export] Instance ks_rq_assign q l v : Keeps R (rq_assign q l v).
Proof. unfold rq_assign. destruct l; apply _. Qed.
#[export] Instance ks_rq_walk q stop : Keeps R (rq_walk q stop).
Proof.
  apply keeps_pure; [done|]. intros s a s'. unfold rq_walk. case_decide; [|done]. destruct (walk _ _ _ _); [by intros [= _ ->]|done].
Qed.
#[export] Instance ks_runnable rp : Keeps R (proc_is_runnable rp).
Proof. apply _. Qed.
#[export] Instance ks_isset rp f : Keeps R (RTS_ISSET rp f).
Proof. apply _. Qed.
#[export] Instance ks_isempty rp : Keeps R (isemptyp rp).
Proof. apply _. Qed.
#[export] Instance ks_dequeue rp : Keeps R (dequeue rp).
Proof. unfold dequeue. apply _. Qed.
#[export] Instance ks_RTS_SET rp f : Keeps R (RTS_SET rp f).
Proof. unfold RTS_SET. apply _. Qed.
#[export] Instance ks_RTS_LOCK_SET rp f : Keeps R (RTS_LOCK_SET rp f).
Proof. unfold RTS_LOCK_SET. apply _. Qed.
#[export] Instance ks_sched rp : Keeps R (sched rp).
Proof. unfold sched. apply _. Qed.
#[export] Instance ks_rq_insert rp q b : Keeps R (rq_insert rp q b).
Proof. unfold rq_insert. apply _. Qed.
#[export] Instance ks_priv_of rp : Keeps R (priv_of rp).
Proof. unfold priv_of. apply _. Qed.
#[export] Instance ks_enqueue rp : Keeps R (enqueue rp).
Proof. unfold enqueue. apply _. Qed.
#[export] Instance ks_RTS_UNSET rp f : Keeps R (RTS_UNSET rp f).
Proof. unfold RTS_UNSET. apply _. Qed.

(** ** Messages and VM *)

#[export] Instance ks_isokendpt e : Keeps R (isokendpt e).
Proof. unfold isokendpt. apply _. Qed.
#[export] Instance ks_WILLRECEIVE t e : Keeps R (WILLRECEIVE t e).
Proof. apply _. Qed.
#[export] Instance ks_QueueMess ep src dst : Keeps R (QueueMess ep src dst).
Proof. unfold QueueMess. apply _. Qed.
#[export] Instance ks_BuildNotify src dst : Keeps R (BuildNotifyMessage src dst).
Proof. unfold BuildNotifyMessage, get_uptime. apply _. Qed.
#[export] Instance ks_mini_notify c e : Keeps R (mini_notify c e).
Proof. unfold mini_notify. apply _. Qed.
#[export] Instance ks_lock_notify c e : Keeps R (lock_notify c e).
Proof. unfold lock_notify. apply _. Qed.
#[export] Instance ks_okendpt e : Keeps R (okendpt e).
Proof. unfold okendpt. apply _. Qed.
#[export] Instance ks_umap_local rp seg v n : Keeps R (umap_local rp seg v n).
Proof. unfold umap_local. apply _. Qed.
#[export] Instance ks_waits_for xp : Keeps R (waits_for xp).
Proof. unfold waits_for. apply _. Qed.
#[export] Instance ks_deadlock_loop n f cp g x : Keeps R (deadlock_loop n f cp g x).
Proof. revert g x. induction n; intros g x; cbn [deadlock_loop]; apply _. Qed.
#[export] Instance ks_cq_append c d : Keeps R (cq_append c d).
Proof.
  unfold cq_append. apply ks_bind; [done| |intros [|k]; unfold cq_assign; apply _].
  apply keeps_pure; [done|]. intros s a s'. unfold cq_walk. destruct (walk _ _ _ _); [by intros [= _ ->]|done].
Qed.
#[export] Instance ks_mini_send c e p fl : Keeps R (mini_send c e p fl).
Proof. unfold mini_send, map_msg, deadlock. destruct p; apply _. Qed.
#[export] Instance ks_lock_send e m : Keeps R (lock_send e m).
Proof. unfold lock_send. apply _. Qed.

End operations.

#[export] Instance mem_vm_suspend c t lin len ty : Keeps same_mem (vm_suspend c t lin len ty).
Proof. unfold vm_suspend. apply _. Qed.

(** A frame for a run that satisfies a specification. *)
Lemma wpx_keeps {A} R E (m : K A) (Q : A -> kstate -> Prop) s :
  Keeps R m -> wpx E m Q s -> wpx E m (fun a s' => Q a s' /\ R s s') s.
Proof. intros Hk. apply wpx_run. intros a s'. apply Hk. Qed.
