(* ===== verification/SysLock.v ===== *)
(** * Changing a process that is kept off the ready queues

    do_nice and do_chdeadline set [RTS_SYS_LOCK], change what decides the place of the
    process, and clear the flag again, which queues the process anew.  Here are the
    exact effects of the two flag operations, the rule for the whole bracket, and with
    it what the two kernel calls do. *)
From S2P Require Import Prelude PList KMonad Timers Types KState Memory TimerIface Sched SchedInv.
From S2P Require Import Notify Copy Ipc IpcInv IpcSafe ClockTask Clock Interrupt System KCalls.

(** ** The flag operations *)

Lemma rts_changed_unlock rp v s s1 s2 :
  s1 = s \/ s1 = set_lock true 1 s -> rts_changed rp v s1 s2 ->
  rts_changed rp v s (set_lock (intr_off s) (locklevel s) s2).
Proof.
  intros Hs (F & H1 & H2 & H3 & H4). split; [by eapply sched_frame_unlock|]. by destruct Hs as [->| ->].
Qed.

Lemma RTS_LOCK_SET_exact E s rp f :
  sched_inv s -> slot rp -> f <> 0 ->
  wpx E (RTS_LOCK_SET rp f) (fun _ s' => rts_changed rp (flag_set (flags s rp) f) s s') s.
Proof.
  intros [Hw [Q HQ]] Hrp Hf. apply wpx_with_intr_off; [apply Hw|]. intros s1 Hs1 _ Hl1.
  assert (Eq : flags s1 rp = flags s rp /\ prio s1 rp = prio s rp) by by destruct Hs1 as [->| ->].
  destruct Eq as [Ef Ep]. eapply wpx_conseq; [apply (RTS_SET_wp E ∅ s1 Q rp f); try done|].
  - destruct Hs1 as [->| ->]; [done|by apply set_lock_rq].
  - rewrite Ep. by apply Hw.
  - intros u s2 [_ R]. split; [apply core_lock, R|]. rewrite <- Ef. by eapply rts_changed_unlock.
Qed.

(** What the release of a flag does to its process and to the others. *)
Record released (rp f : Z) (s s' : kstate) : Prop := mk_released {
  rl_frame : sched_frame s s';
  rl_self : flags s' rp = flag_clear (flags s rp) f;
  rl_prio : prio s' rp = if readies s rp f then sched_prio s rp else prio s rp;
  rl_other p : p <> rp -> prio s' p = prio s p /\
    (flags s' p = flags s p \/
     (proc_ptr s = Some p /\ prio s' rp < prio s p /\ flags s' p = flag_set (flags s p) RTS_PREEMPTED)) }.

Lemma unset_flags_view rp f s :
  (forall p, prio (unset_flags rp f s) p = prio s p) /\
  (forall p, p_ticks_left (k_proc (unset_flags rp f s) p) = p_ticks_left (k_proc s p)) /\
  flags (unset_flags rp f s) rp = flag_clear (flags s rp) f /\
  (forall p, p <> rp -> flags (unset_flags rp f s) p = flags s p).
Proof.
  unfold unset_flags, prio, flags. split_all.
  - intros p. destruct (decide (rp = p)) as [->|]; [by rewrite upd_proc_eq|by rewrite upd_proc_ne].
  - intros p. destruct (decide (rp = p)) as [->|]; [by rewrite upd_proc_eq|by rewrite upd_proc_ne].
  - by rewrite upd_proc_eq.
  - intros p Hp. by rewrite upd_proc_ne.
Qed.

Lemma RTS_LOCK_UNSET_exact E s rp f :
  sched_inv s -> slot rp -> unset_ok s rp f ->
  wpx E (RTS_LOCK_UNSET rp f) (fun _ s' => released rp f s s') s.
Proof.
  intros [Hw [Q HQ]] Hrp Hu. apply wpx_with_intr_off; [apply Hw|]. intros s1 Hs1 _ Hl1.
  assert (Hw1 : sched_wf s1) by (destruct Hs1 as [->| ->]; [done|destruct Hw; by split]).
  assert (HQ1 : rq_inv ∅ s1 Q) by (destruct Hs1 as [->| ->]; [done|by apply set_lock_rq]).
  assert (Hu1 : unset_ok s1 rp f) by by destruct Hs1 as [->| ->].
  enough (H : wpx E (RTS_UNSET rp f) (fun _ s2 => lock_same s1 s2 /\ released rp f s1 s2) s1).
  { eapply wpx_conseq; [exact H|]. intros u s2 [Hl [R0 R1 R2 R3]]. split; [done|].
    split; [by eapply sched_frame_unlock|by destruct Hs1 as [->| ->]..]. }
  destruct (unset_flags_view rp f s1) as (V1 & V2 & V3 & V4).
  assert (F0 : sched_frame s1 (unset_flags rp f s1)) by apply (rts_changed_upd' rp (fun x => flag_clear x f)).
  eapply wpx_conseq; [by apply (RTS_UNSET_wp E s1 Q)|]. intros u s2. cbv beta.
  destruct (readies s1 rp f) eqn:Er.
  - intros [_ (F & P1 & P2 & _ & _ & Hfl)]. split; [exact (core_lock _ _ (proj1 F))|].
    assert (Hsp : sched_prio (unset_flags rp f s1) rp = sched_prio s1 rp)
      by (unfold sched_prio; rewrite V1, V2; done).
    assert (Hself : preempts (unset_flags rp f s1) rp && (rp =? cur_slot (unset_flags rp f s1)) = false).
    { unfold preempts, cur_slot. destruct (proc_ptr _) as [c|]; [|done].
      destruct (Z.eqb_spec c rp) as [->|]; [done|]. destruct (Z.eqb_spec rp c); [congruence|]. by rewrite andb_false_r. }
    split.
    + by etrans.
    + by rewrite Hfl, Hself, V3.
    + by rewrite Er, P2.
    + intros p Hp. rewrite P1, V1, Hfl by done. split; [done|]. rewrite V4 by done.
      destruct (preempts _ _) eqn:Epr; [|by left]. unfold cur_slot. simpl.
      destruct (Z.eqb_spec p (match proc_ptr s1 with Some c => c | None => 0 end)) as [->|]; [|by left].
      right. unfold preempts in Epr. change (proc_ptr (unset_flags rp f s1)) with (proc_ptr s1) in Epr.
      destruct (proc_ptr s1) as [c|]; [|done]. apply andb_true_iff in Epr as [[_ Hlt]%andb_true_iff _].
      rewrite V1 in Hlt. apply Z.ltb_lt in Hlt. rewrite P2. done.
  - intros [_ ->]. split; [done|]. split; [done|done|by rewrite Er, V1|]. intros p Hp. by rewrite V1, V4; auto.
Qed.

(** ** The bracket *)

Lemma sys_lock_enter {A} E s rp (k : K A) (Q : A -> kstate -> Prop) :
  ipc_inv s -> slot rp -> is_free s rp = false ->
  (forall s1, good s s1 -> rts_changed rp (flag_set (flags s rp) RTS_SYS_LOCK) s s1 -> wpx E k Q s1) ->
  wpx E (do! RTS_LOCK_SET rp RTS_SYS_LOCK; k) Q s.
Proof.
  intros Hi Hrp Hf Hk. apply wpx_bind. eapply wpx_conseq; [apply wpx_and;
    [by apply (RTS_LOCK_SET_good E s rp RTS_SYS_LOCK 13)|by apply RTS_LOCK_SET_exact; [apply Hi|..]]|].
  intros u s1 [[G _] R]. by apply Hk.
Qed.

Lemma sys_lock_leave {A} E s rp (k : K A) (Q : A -> kstate -> Prop) :
  ipc_inv s -> slot rp -> is_free s rp = false ->
  (forall s1, good s s1 -> released rp RTS_SYS_LOCK s s1 -> wpx E k Q s1) ->
  wpx E (do! RTS_LOCK_UNSET rp RTS_SYS_LOCK; k) Q s.
Proof.
  intros Hi Hrp Hf Hk. apply wpx_bind. eapply wpx_conseq; [apply wpx_and;
    [by apply (RTS_LOCK_UNSET_good E s rp RTS_SYS_LOCK); try done; left|
     by apply RTS_LOCK_UNSET_exact; [apply Hi|done|eapply unset_ok_live; [apply Hi|..]]]|].
  intros u s1 [[G _] R]. by apply Hk.
Qed.

(** A process off the queues may get any priority. *)
Lemma ipc_inv_prio s rp q :
  ipc_inv s -> flags s rp <> 0 -> queue_ok q ->
  let s' := upd_proc rp (set_p_max_priority q) (upd_proc rp (set_p_priority q) s) in
  ipc_inv s' /\ ipc_weak s s'.
Proof.
  intros Hi Hf Hq s'. pose proof Hi as (Hs & Hc & Hp). destruct Hs as [Hw [Q HQ]].
  assert (Hk : forall p, p <> rp -> k_proc s' p = k_proc s p)
    by (intros p Hne; unfold s'; by rewrite !upd_proc_ne).
  assert (Hr : k_proc s' rp = set_p_max_priority q (set_p_priority q (k_proc s rp)))
    by (unfold s'; by rewrite !upd_proc_eq).
  assert (W : ipc_weak s s').
  { split; try done; intros p; (destruct (decide (p = rp)) as [->|]; [|unfold receiving, flags; rewrite Hk; auto]);
      unfold receiving, flags; rewrite Hr; auto. }
  split; [|done]. split; [split|split; [by eapply weak_core|]].
  - destruct Hw as [W1 W2 W3 W4]. split; try done.
    + intros p Hsp. unfold prio. destruct (decide (p = rp)) as [->|]; [by rewrite Hr|rewrite Hk by done; by apply W1].
    + intros p Hsp. specialize (W2 p Hsp). unfold priv_ok, flags in *.
      destruct (decide (p = rp)) as [->|]; [by rewrite Hr|by rewrite Hk].
    + destruct W3 as (c & i & H1 & H2 & H3). exists c, i. split; [done|split; [done|]].
      destruct (decide (c = rp)) as [->|]; [by rewrite Hr|by rewrite Hk].
  - exists Q. apply (rq_inv_drop {[rp]}); [set_solver| |].
    + intros p ->%elem_of_singleton _. unfold flags. by rewrite Hr.
    + apply rq_inv_upd_transit; [set_solver|done|]. apply rq_inv_upd_transit; [set_solver|done|].
      by apply rq_inv_add.
  - by apply (pend_same s); [|intros p; by apply weak_free|intros p; by apply weak_priv|].
Qed.

(** ** [do_nice] *)

(** Where a process with priority [q] enters the queues; [s] says what it has left. *)
Definition nice_place (s : kstate) (rp q : Z) : Z :=
  if 0 <? deadline_of s rp then 7
  else if 0 <? p_ticks_left (k_proc s rp) then q
  else if q <? NR_SCHED_QUEUES - 1 then q + 1 else q.

Record niced (rp q : Z) (s s' : kstate) : Prop := mk_niced {
  nc_inv : ipc_inv s';
  nc_max : p_max_priority (k_proc s' rp) = q;
  nc_prio : prio s' rp = if flags s' rp =? 0 then nice_place s rp q else q;
  nc_flags : flags s' rp = flag_clear (flags s rp) RTS_SYS_LOCK;
  nc_other p : p <> rp -> prio s' p = prio s p /\
    (flags s' p = flags s p \/ (proc_ptr s = Some p /\ flags s' p = flag_set (flags s p) RTS_PREEMPTED)) }.

Lemma nice_queue_range pri : queue_ok (nice_queue pri).
Proof.
  unfold nice_queue, queue_ok. change MAX_USER_Q with 0. change MIN_USER_Q with 15. change NR_SCHED_QUEUES with 16.
  repeat zcase; lia.
Qed.

Lemma clear_set_lock x : flag_clear (flag_set x RTS_SYS_LOCK) RTS_SYS_LOCK = flag_clear x RTS_SYS_LOCK.
Proof.
  unfold flag_clear, flag_set. apply Z.bits_inj'. intros n _. rewrite !Z.ldiff_spec, Z.lor_spec.
  destruct (Z.testbit x n), (Z.testbit RTS_SYS_LOCK n); done.
Qed.

Lemma set_lock_flags_nonzero x : flag_set x RTS_SYS_LOCK <> 0.
Proof. by apply flag_set_nonzero. Qed.

Lemma do_nice_body E s rp q m :
  ipc_inv s -> slot rp -> is_free s rp = false -> queue_ok q ->
  wpx E (do! RTS_LOCK_SET rp RTS_SYS_LOCK;
         do! wr rp (set_p_priority q);
         do! wr rp (set_p_max_priority q);
         do! RTS_LOCK_UNSET rp RTS_SYS_LOCK;
         reply OK m) (fun r s' => r = (OK, m) /\ niced rp q s s') s.
Proof.
  intros Hi Hs Hf Hq. apply sys_lock_enter; [done..|].
  intros s1 G1 (F1 & P1 & T1 & Fl1 & Fo1). apply wpx_bind, wpx_wr; [done|]. apply wpx_bind, wpx_wr; [done|].
  destruct (ipc_inv_prio s1 rp q (proj1 G1)) as [Hi2 W2]; [rewrite Fl1; apply set_lock_flags_nonzero|done|].
  set (s2 := upd_proc _ _ (upd_proc _ _ s1)) in *.
  assert (Hr2 : k_proc s2 rp = set_p_max_priority q (set_p_priority q (k_proc s1 rp)))
    by (unfold s2; by rewrite !upd_proc_eq).
  assert (Ho2 : forall p, p <> rp -> k_proc s2 p = k_proc s1 p) by (intros p Hp; unfold s2; by rewrite !upd_proc_ne).
  assert (D2 : deadline_of s2 rp = deadline_of s rp).
  { change (deadline_of s1 rp = deadline_of s rp). pose proof (is_glob _ _ (proj2 G1)) as Eg.
    unfold glob_view in Eg. unfold deadline_of. congruence. }
  assert (C2 : proc_ptr s2 = proc_ptr s) by (rewrite (is_cur _ _ W2); apply (is_cur _ _ (proj2 G1))).
  clearbody s2. assert (Hf2 : is_free s2 rp = false) by (rewrite (weak_free s1 s2 W2), (weak_free s s1); [done|apply G1]).
  apply sys_lock_leave; [done..|]. intros s3 G3 [R0 R1 R2 R3]. apply wpx_ret. split; [done|].
  assert (Hfl : flags s3 rp = flag_clear (flags s rp) RTS_SYS_LOCK).
  { rewrite R1. unfold flags at 1. rewrite Hr2. cbn [p_rts_flags set_p_max_priority set_p_priority].
    fold (flags s1 rp). by rewrite Fl1, clear_set_lock. }
  split; [apply G3| | |exact Hfl|].
  - rewrite (frame_field p_max_priority s2 s3) by done. by rewrite Hr2.
  - rewrite R2. unfold readies. rewrite <- R1.
    assert (Hn2 : (flags s2 rp =? 0) = false).
    { apply Z.eqb_neq. unfold flags. rewrite Hr2. cbn. fold (flags s1 rp). rewrite Fl1. apply set_lock_flags_nonzero. }
    rewrite Hn2. cbn [negb andb]. unfold sched_prio, nice_place, prio. rewrite D2, Hr2.
    cbn [p_ticks_left p_priority set_p_max_priority set_p_priority]. by rewrite T1.
  - intros p Hp. destruct (R3 p Hp) as [Hpr Hpf]. unfold prio, flags in *. rewrite Ho2 in * by done.
    rewrite Hpr, P1. split; [done|]. rewrite Fo1 in Hpf by done. rewrite C2 in Hpf.
    destruct Hpf as [|(H1 & _ & H2)]; auto.
Qed.

(** ** [do_chdeadline] *)

Lemma upd_timer_wp E tp f (Q : unit -> kstate -> Prop) s :
  Q tt (set_clock_timers (upd_tm tp f (clock_timers s)) s) -> wpx E (upd_timer tp f) Q s.
Proof. done. Qed.

(** A change of a timer that is not in the queue. *)
Lemma timers_rep_upd s l tp f :
  tp ∉ l -> timers_rep s l -> timers_rep (set_clock_timers (upd_tm tp f (clock_timers s)) s) l.
Proof.
  intros Hn [[H1 H2] H3]. split; [split; [by apply tq_rep_upd|done]|].
  change (next_timeout s = first_timeout (upd_tm tp f (clock_timers s))). rewrite H3.
  unfold first_timeout. change (tq (upd_tm tp f (clock_timers s))) with (tq (clock_timers s)).
  pose proof (tq_rep_head _ _ H1) as Hh. destruct (tq (clock_timers s)) as [k|]; [|done].
  cbn [tm upd_tm]. rewrite fn_lookup_insert_ne; [done|]. intros ->. destruct l; [done|].
  simpl in Hh. injection Hh as <-. apply Hn, list_elem_of_here.
Qed.

(** The timers of [s'] are those of [s] but for [tp]. *)
Definition other_timers (tp : tmr_ref) (s s' : kstate) : Prop :=
  forall k, k <> tp -> exp_of (clock_timers s') k = exp_of (clock_timers s) k /\
    same_meta (clock_timers s) (clock_timers s') k.

(** Two states that differ in their timers at most. *)
Definition tmr_step (s s' : kstate) : Prop :=
  exists st nt, s' = set_next_timeout nt (set_clock_timers st s).

Lemma tmr_step_refl s : tmr_step s s.
Proof. exists (clock_timers s), (next_timeout s). by destruct s. Qed.

Lemma tmr_step_trans s1 s2 s3 : tmr_step s1 s2 -> tmr_step s2 s3 -> tmr_step s1 s3.
Proof. intros (st & nt & ->) (st' & nt' & ->). by exists st', nt'. Qed.

Lemma tmr_step_upd st s : tmr_step s (set_clock_timers st s).
Proof. exists st, (next_timeout s). by destruct s. Qed.

Lemma tmr_step_changed st s : tmr_step s (timers_changed st s).
Proof. by exists st, (first_timeout st). Qed.

Lemma other_upd tp f s : other_timers tp s (set_clock_timers (upd_tm tp f (clock_timers s)) s).
Proof.
  intros k Hk. cbn [clock_timers set_clock_timers]. unfold exp_of, same_meta, upd_tm. cbn [tm].
  by rewrite fn_lookup_insert_ne.
Qed.

Lemma other_trans tp s1 s2 s3 : other_timers tp s1 s2 -> other_timers tp s2 s3 -> other_timers tp s1 s3.
Proof.
  intros H1 H2 k Hk. destruct (H1 k Hk) as [E1 [E2 E3]], (H2 k Hk) as [E4 [E5 E6]].
  split; [congruence|]. split; congruence.
Qed.

(** The old deadline is dropped. *)
Lemma drop_deadline_wp E s l rp :
  timers_rep s l -> (TDeadline rp ∈ l -> 0 < deadline_of s rp) ->
  wpx E (when (0 <? deadline_of s rp) (
           do! reset_timer (TDeadline rp);
           upd_timer (TDeadline rp) (set_tmr_exp_time 0)))
    (fun _ s' => tmr_step s s' /\ other_timers (TDeadline rp) s s' /\
       timers_rep s' (without (TDeadline rp) l) /\ deadline_of s' rp = Z.min 0 (deadline_of s rp)) s.
Proof.
  intros Hl Hd. apply wpx_when; intros Hb.
  - apply Z.ltb_lt in Hb. apply wpx_bind, (reset_timer_wp _ s l); [apply Hl|].
    intros st (_ & _ & Ho & Hmeta) Hr. apply upd_timer_wp.
    assert (Hn : TDeadline rp ∉ without (TDeadline rp) l) by by intros [? _]%elem_of_without.
    split; [eapply tmr_step_trans; [apply tmr_step_changed|apply tmr_step_upd]|].
    split; [eapply other_trans; [|apply other_upd]; intros k Hk; by split; [apply Ho|apply Hmeta]|].
    split; [by apply timers_rep_upd|]. unfold deadline_of, timers_changed.
    cbn [clock_timers set_clock_timers set_next_timeout tm upd_tm]. rewrite fn_lookup_insert.
    cbn [tmr_exp_time set_tmr_exp_time]. fold (deadline_of s rp). lia.
  - apply Z.ltb_ge in Hb. split; [apply tmr_step_refl|]. split; [done|].
    rewrite without_notin; [|intros Hin; specialize (Hd Hin); lia]. split; [done|lia].
Qed.

(** The new one is armed. *)
Definition new_deadline (s : kstate) (v : Z) : Z := i32 (i32 (v * 60) + realtime s).

Lemma arm_deadline_wp E s l rp v :
  timers_rep s l -> TDeadline rp ∉ l -> slot rp -> p_nr (k_proc s rp) = rp ->
  wpx E (do up <- get_uptime;
         do! upd_timer (TDeadline rp) (set_tmr_exp_time (i32 (i32 (v * 60) + up)));
         do! upd_timer (TDeadline rp) (set_tmr_func W_reach_deadline);
         do nr <- rd rp p_nr;
         do! upd_timer (TDeadline rp) (set_tmr_arg nr);
         do e <- gets (fun s => deadline_of s rp);
         set_timer (TDeadline rp) e W_reach_deadline)
    (fun _ s' => tmr_step s s' /\ other_timers (TDeadline rp) s s' /\
       timers_rep s' (insert_timer (exp_of (clock_timers s)) (TDeadline rp) (new_deadline s v) l) /\
       deadline_of s' rp = new_deadline s v /\
       tmr_func (tm (clock_timers s') (TDeadline rp)) = W_reach_deadline /\
       tmr_arg (tm (clock_timers s') (TDeadline rp)) = rp) s.
Proof.
  intros Hl Hn Hs Hnr. set (tp := TDeadline rp). apply wpx_bind, wpx_gets. fold (new_deadline s v).
  set (t := new_deadline s v). apply wpx_bind, upd_timer_wp. set (s1 := set_clock_timers _ s).
  assert (T1 : tmr_step s s1) by apply tmr_step_upd. assert (O1 : other_timers tp s s1) by apply other_upd.
  assert (L1 : timers_rep s1 l) by by apply timers_rep_upd.
  apply wpx_bind, upd_timer_wp. set (s2 := set_clock_timers _ s1).
  assert (T2 : tmr_step s s2) by (eapply tmr_step_trans; [done|apply tmr_step_upd]).
  assert (O2 : other_timers tp s s2) by (eapply other_trans; [done|apply other_upd]).
  assert (L2 : timers_rep s2 l) by by apply timers_rep_upd.
  apply wpx_bind, wpx_rd; [done|]. change (k_proc s2 rp) with (k_proc s rp). rewrite Hnr.
  apply wpx_bind, upd_timer_wp. set (s3 := set_clock_timers _ s2).
  assert (T3 : tmr_step s s3) by (eapply tmr_step_trans; [done|apply tmr_step_upd]).
  assert (O3 : other_timers tp s s3) by (eapply other_trans; [done|apply other_upd]).
  assert (L3 : timers_rep s3 l) by by apply timers_rep_upd.
  assert (E3 : tm (clock_timers s3) tp =
    set_tmr_arg rp (set_tmr_func W_reach_deadline (set_tmr_exp_time t (tm (clock_timers s) tp)))).
  { unfold s3, s2, s1. cbn [clock_timers set_clock_timers tm upd_tm]. by rewrite !fn_lookup_insert. }
  apply wpx_bind, wpx_gets. unfold deadline_of at 1. fold tp. rewrite E3.
  cbn [tmr_exp_time set_tmr_arg set_tmr_func set_tmr_exp_time]. clearbody s1 s2 s3.
  apply (set_timer_wp _ s3 l); [apply L3|by apply timer_ok_deadline|].
  rewrite (without_notin tp l Hn). intros st (_ & A2 & A3 & A4 & A5) Hr. split_all.
  - eapply tmr_step_trans; [done|apply tmr_step_changed].
  - eapply other_trans; [done|]. intros k Hk. by apply A5.
  - rewrite (insert_timer_ext (exp_of (clock_timers s)) (exp_of (clock_timers s3))); [done|].
    intros k Hk. symmetry. apply O3. by intros ->.
  - exact A2.
  - exact A3.
  - change (tmr_arg (tm st tp) = rp). by rewrite A4, E3.
Qed.

Record deadline_set (rp v : Z) (l : list tmr_ref) (s s' : kstate) : Prop := mk_deadline_set {
  ds_inv : ipc_inv s';
  ds_timers : if v =? 0 then
      timers_rep s' (without (TDeadline rp) l) /\ deadline_of s' rp = Z.min 0 (deadline_of s rp)
    else
      timers_rep s' (insert_timer (exp_of (clock_timers s)) (TDeadline rp) (new_deadline s v)
                       (without (TDeadline rp) l)) /\
      deadline_of s' rp = new_deadline s v /\
      tmr_func (tm (clock_timers s') (TDeadline rp)) = W_reach_deadline /\
      tmr_arg (tm (clock_timers s') (TDeadline rp)) = rp;
  ds_others : other_timers (TDeadline rp) s s';
  ds_flags : flags s' rp = flag_clear (flags s rp) RTS_SYS_LOCK;
  ds_place : flags s' rp = 0 -> 0 < deadline_of s' rp -> prio s' rp = 7;
  ds_policy : sched_type s' = sched_type s /\ realtime s' = realtime s;
  ds_procs p : p <> rp -> prio s' p = prio s p /\
    (flags s' p = flags s p \/ (proc_ptr s = Some p /\ prio s' rp < prio s p /\
                                flags s' p = flag_set (flags s p) RTS_PREEMPTED));
  ds_links p : ipc_view (k_proc s' p) = ipc_view (k_proc s p);
  ds_env : proc_ptr s' = proc_ptr s /\ lock_same s s' }.

Lemma good_timers s s' : good s s' ->
  clock_timers s' = clock_timers s /\ next_timeout s' = next_timeout s /\ realtime s' = realtime s /\
  sched_type s' = sched_type s.
Proof. intros [_ H]. pose proof (is_glob _ _ H) as Eg. unfold glob_view in Eg. split_all; congruence. Qed.

Lemma timers_rep_same s s' l :
  clock_timers s' = clock_timers s -> next_timeout s' = next_timeout s -> timers_rep s l -> timers_rep s' l.
Proof. intros E1 E2 [[H1 H2] H3]. split; [split|]; rewrite ?E1, ?E2; done. Qed.

(** The middle of the bracket, between the two flag operations. *)
Lemma change_deadline_wp E s l rp v :
  timers_rep s l -> (TDeadline rp ∈ l -> 0 < deadline_of s rp) -> slot rp -> p_nr (k_proc s rp) = rp ->
  forall (k : K (Z * message)) Q,
  (forall s', tmr_step s s' -> other_timers (TDeadline rp) s s' ->
     (if v =? 0 then
        timers_rep s' (without (TDeadline rp) l) /\ deadline_of s' rp = Z.min 0 (deadline_of s rp)
      else
        timers_rep s' (insert_timer (exp_of (clock_timers s)) (TDeadline rp) (new_deadline s v)
                         (without (TDeadline rp) l)) /\
        deadline_of s' rp = new_deadline s v /\
        tmr_func (tm (clock_timers s') (TDeadline rp)) = W_reach_deadline /\
        tmr_arg (tm (clock_timers s') (TDeadline rp)) = rp) -> wpx E k Q s') ->
  wpx E (do dl <- gets (fun s => deadline_of s rp);
         do! when (0 <? dl) (
           do! reset_timer (TDeadline rp);
           upd_timer (TDeadline rp) (set_tmr_exp_time 0));
         do! when (negb (v =? 0)) (
           do up <- get_uptime;
           do! upd_timer (TDeadline rp) (set_tmr_exp_time (i32 (i32 (v * 60) + up)));
           do! upd_timer (TDeadline rp) (set_tmr_func W_reach_deadline);
           do nr <- rd rp p_nr;
           do! upd_timer (TDeadline rp) (set_tmr_arg nr);
           do e <- gets (fun s => deadline_of s rp);
           set_timer (TDeadline rp) e W_reach_deadline);
         k) Q s.
Proof.
  intros Hl Hd Hs Hnr k Q Hk. apply wpx_bind, wpx_gets. apply wpx_bind.
  eapply wpx_conseq; [by apply drop_deadline_wp|]. intros u s1 (T1 & O1 & L1 & D1).
  assert (Hn1 : TDeadline rp ∉ without (TDeadline rp) l) by by intros [? _]%elem_of_without.
  apply wpx_bind, wpx_when; intros Hv.
  - eapply wpx_conseq; [apply (arm_deadline_wp E s1 _ rp v L1 Hn1 Hs)|].
    + destruct T1 as (st & nt & ->). done.
    + intros u' s2 (T2 & O2 & L2 & D2). apply Hk; [by eapply tmr_step_trans|by eapply other_trans|].
      apply negb_true_iff in Hv. rewrite Hv.
      assert (Et : new_deadline s1 v = new_deadline s v) by (unfold new_deadline; by destruct T1 as (st & nt & ->)).
      rewrite Et in *. split; [|done].
      rewrite (insert_timer_ext _ (exp_of (clock_timers s1))); [done|]. intros x Hx. symmetry. apply O1. by intros ->.
  - apply Hk; [done|done|]. apply negb_false_iff in Hv. by rewrite Hv.
Qed.

Lemma do_chdeadline_wp E s l m :
  let rp := m2_i1 m in
  ipc_inv s -> timers_rep s l -> slot rp -> is_free s rp = false ->
  (TDeadline rp ∈ l -> 0 < deadline_of s rp) ->
  wpx E (do_chdeadline m) (fun r s' => r = (OK, m) /\ deadline_set rp (m2_l1 m) l s s') s.
Proof.
  intros rp Hi Hl Hs Hf Hd. unfold do_chdeadline. fold rp. apply sys_lock_enter; [done..|].
  intros s1 G1 (F1 & P1 & _ & Fl1 & Fo1). destruct (good_timers _ _ G1) as (Ec & En & Er & Et).
  assert (Ed : deadline_of s1 rp = deadline_of s rp) by (unfold deadline_of; by rewrite Ec).
  apply (change_deadline_wp E s1 l rp (m2_l1 m)).
  - by apply (timers_rep_same s).
  - by rewrite Ed.
  - done.
  - apply iw_nr; [apply G1|done].
  - intros s2 T2 O2 H2.
    assert (Hi2 : ipc_inv s2) by (destruct T2 as (st & nt & ->); by apply ipc_inv_timers, G1).
    assert (Ek : k_proc s2 = k_proc s1 /\ proc_ptr s2 = proc_ptr s1 /\ realtime s2 = realtime s1 /\
      sched_type s2 = sched_type s1) by by destruct T2 as (st & nt & ->).
    destruct Ek as (Ek & Ep & Er2 & Et2).
    assert (Hf2 : is_free s2 rp = false).
    { unfold is_free, flags. rewrite Ek. fold (flags s1 rp) (is_free s1 rp). by rewrite (weak_free s s1 (proj2 G1)). }
    apply sys_lock_leave; [done..|]. intros s3 G3 [_ R1 R2 R3]. apply wpx_ret. split; [done|].
    destruct (good_timers _ _ G3) as (Ec3 & En3 & Er3 & Et3).
    assert (Ed3 : deadline_of s3 rp = deadline_of s2 rp) by (unfold deadline_of; by rewrite Ec3).
    assert (Enew : new_deadline s1 (m2_l1 m) = new_deadline s (m2_l1 m)) by (unfold new_deadline; by rewrite Er).
    assert (Hfl : flags s2 rp = flag_set (flags s rp) RTS_SYS_LOCK) by (unfold flags at 1; by rewrite Ek).
    split.
    + apply G3.
    + rewrite Ec3, Ed3. rewrite Enew, Ed, Ec in H2. destruct (m2_l1 m =? 0).
      * destruct H2. split; [by apply (timers_rep_same s2)|done].
      * destruct H2. split; [by apply (timers_rep_same s2)|done].
    + intros k Hk. rewrite Ec3, <- Ec. by apply O2.
    + by rewrite R1, Hfl, clear_set_lock.
    + intros H0 Hpos. rewrite R2. unfold readies. rewrite <- R1, H0, Hfl.
      assert ((flag_set (flags s rp) RTS_SYS_LOCK =? 0) = false) as ->
        by apply Z.eqb_neq, set_lock_flags_nonzero.
      cbn. unfold sched_prio. rewrite <- Ed3. apply Z.ltb_lt in Hpos. by rewrite Hpos.
    + split; congruence.
    + intros p Hp. destruct (R3 p Hp) as [Hpr Hpf]. unfold prio, flags in *. rewrite Ek in *.
      rewrite Ep, (is_cur _ _ (proj2 G1)) in Hpf. rewrite Fo1, P1 in * by done. done.
    + intros p. rewrite (is_proc _ _ (proj2 G3)), Ek. apply (is_proc _ _ (proj2 G1)).
    + rewrite (is_cur _ _ (proj2 G3)), Ep. split; [apply (is_cur _ _ (proj2 G1))|].
      destruct (is_lock _ _ (proj2 G3)) as [L3 L3'], (is_lock _ _ (proj2 G1)) as [L1 L1'].
      destruct T2 as (st & nt & ->). unfold lock_same. by rewrite L3, L3', <- L1, <- L1'.
Qed.

(** An endpoint names a live process. *)
Definition valid_endpt (s : kstate) (e : Z) : Prop :=
  slot (_ENDPOINT_P e) /\ is_free s (_ENDPOINT_P e) = false /\ endpt s (_ENDPOINT_P e) = e.
#[export] Instance valid_endpt_dec s e : Decision (valid_endpt s e).
Proof. unfold valid_endpt. apply _. Defined.

Lemma wpx_valid_endpt E e (Q : option Z -> kstate -> Prop) s :
  Q (if decide (valid_endpt s e) then Some (_ENDPOINT_P e) else None) s -> wpx E (isokendpt e) Q s.
Proof.
  intros H. eapply wpx_done; [apply isokendpt_done|]. unfold valid_endpt in H.
  by destruct (decide _).
Qed.
