(* ===== verification/SysTurn.v ===== *)
(** * One turn of the system task

    What [sys_turn] does with a request, whatever the handlers are: the caller's
    permission is checked before the handler runs, and the caller gets the result. *)
From S2P Require Import Prelude PList KMonad Timers Types KState Memory Sched SchedInv Notify Copy Ipc.
From S2P Require Import IpcInv IpcSafe CopySafe IpcCalls Delivery Clock Interrupt System KCalls KProc.
From S2P Require Import Grants Frame SysLock VmCtl Signals PrivCtl SysTask.

(** The task runs, with interrupts enabled. *)
Record sys_running (s : kstate) : Prop := mk_sys_running {
  sr_inv : ipc_inv s;
  sr_intr : intr_off s = false;
  sr_cur : proc_ptr s = Some SYSTEM;
  sr_ep : endpt s SYSTEM = SYSTEM }.

(** The caller waits for the answer of SYSTEM. *)
Definition waits_answer (s : kstate) (c : Z) : bool := will_receive (k_proc s c) SYSTEM.

(** The variables of the task are set. *)
Definition entered (m : message) (s : kstate) : kstate :=
  set_who_p (_ENDPOINT_P (m_source m)) (set_who_e (m_source m) (set_sys_call_code (u32 (m_type m)) s)).

Definition call_nr (m : message) : Z := i32 (u32 (m_type m) - KERNEL_CALL).

(** The error for a call that is not handled. *)
Definition refused (s : kstate) (m : message) : option Z :=
  if (call_nr m <? 0) || (NR_SYS_CALLS <=? call_nr m) then Some EBADREQUEST
  else match p_priv (k_proc s (_ENDPOINT_P (m_source m))) with
       | Some pr => if get_sys_bit (s_k_call_mask (k_priv s pr)) (call_nr m) then None else Some ECALLDENIED
       | None => None
       end.

(** The caller has the answer if it waited for it, and nothing has changed but what
    the delivery of a message changes; otherwise nothing has changed at all. *)
Definition answered (s s' : kstate) (c : Z) (m : message) : Prop :=
  if waits_answer s c then good s s' /\ static s s' /\ receiving s' c = false /\ has_message s' c SYSTEM m
  else s' = s.

Lemma ipc_inv_who c e code s :
  slot c -> ipc_inv s -> ipc_inv (set_who_p c (set_who_e e (set_sys_call_code code s))).
Proof.
  intros Hc ([[W1 W2 W3 W4] [Q [Q1 Q2 Q3 Q4]]] &
    [[I1 I2 I3 I4 I5 I6 I7 I8 I9] [P1 P2 P3] A [C [C1 C2 C3]]] & Hp).
  split; [split; [by split|exists Q; by split]|]. split; [|exact Hp].
  split; [by split|by split|exact A|exists C; by split].
Qed.

Lemma entered_running m s : slot (_ENDPOINT_P (m_source m)) -> sys_running s -> sys_running (entered m s).
Proof. intros Hs [H1 H2 H3 H4]. split; [by apply ipc_inv_who|done..]. Qed.

(** [lock_send] is a [mini_send] of the current process between [lock] and [unlock]. *)
Lemma lock_send_locked e m s :
  lock_send e m s =
  (do! lock;
   do r <- (do cur <- gets proc_ptr; do cur <- from_ptr cur; mini_send cur e (PKern m) 0);
   do! unlock;
   ret r) s.
Proof.
  unfold lock_send, bind. destruct (lock s) as [u s1| |]; [|done|done]. unfold gets.
  by destruct (proc_ptr s1).
Qed.

Section turn.
Context (E : Prop).

(** [lock_send] to a process that waits for SYSTEM: the bytes of the message arrive. *)
Lemma lock_send_sent s c m :
  sys_running s -> alive s c -> waits_answer s c = true ->
  wpx E (lock_send (endpt s c) m) (fun r s' => good s s' /\
    receiving s' c = false /\ has_message s' c SYSTEM (bytes_message (message_bytes m))) s.
Proof.
  intros [Hi Hoff Hcur Hep] Hc Hw. eapply wpx_ext; [apply lock_send_locked|].
  apply (good_locked E _ (fun _ s' => receiving s' c = false /\ has_message s' c SYSTEM _)); [done..|].
  intros s1 Hs1 Hi1. apply wpx_bind, wpx_gets, wpx_bind. rewrite Hs1. cbn [proc_ptr set_lock set_locklevel set_intr_off].
  rewrite Hcur. apply wpx_ret. rewrite <- Hs1. assert (Hk : k_proc s1 = k_proc s) by by subst s1.
  assert (He : forall p, endpt s1 p = endpt s p) by (intros p; unfold endpt; by rewrite Hk).
  rewrite <- He. eapply wpx_conseq; [apply (mini_send_delivered E s1 SYSTEM c (PKern m) 0 (MKern m)); try done|].
  - by subst s1.
  - by rewrite Hk, He, Hep.
  - intros r s' (_ & G & Hr & Hh). split; [done|]. split; [done|].
    cbn [src_bytes fst] in Hh. by rewrite He, Hep in Hh.
Qed.

Lemma lock_send_delivered s c m :
  sys_running s -> alive s c -> waits_answer s c = true -> message_ok m ->
  wpx E (lock_send (endpt s c) m) (fun r s' => good s s' /\
    receiving s' c = false /\ has_message s' c SYSTEM m) s.
Proof.
  intros Hr Hc Hw Hm. eapply wpx_conseq; [by apply lock_send_sent|]. by rewrite message_roundtrip.
Qed.

Lemma sys_answer_wp s c r m :
  sys_running s -> alive s c -> m_source m = endpt s c -> message_ok (set_m_type r m) ->
  r <> VMSUSPEND -> r <> EDONTREPLY ->
  wpx E (sys_answer c r m) (fun _ s' => answered s s' c (set_m_type r m)) s.
Proof.
  intros Hr Hc Hsrc Hm Hv He. unfold sys_answer, answered.
  rewrite (proj2 (Z.eqb_neq r VMSUSPEND) Hv), (proj2 (Z.eqb_neq r EDONTREPLY) He).
  apply wpx_bind, wpx_rd; [apply Hc|]. fold (waits_answer s c).
  destruct (waits_answer s c) eqn:Hw; [|by apply wpx_ret].
  apply wpx_bind. change (m_source (set_m_type r m)) with (m_source m). rewrite Hsrc.
  eapply wpx_conseq; [apply (wpx_keeps static); [apply _|by apply lock_send_delivered]|].
  intros x s' [(G & H) S]. by apply wpx_ret.
Qed.

(** The start of a turn. *)
Lemma sys_turn_enter vec s m Q :
  ipc_inv s -> valid_endpt s (m_source m) ->
  wpx E (do r <- sys_handle vec (_ENDPOINT_P (m_source m)) m;
         sys_answer (_ENDPOINT_P (m_source m)) (fst r) (snd r)) Q (entered m s) ->
  wpx E (sys_turn vec m) Q s.
Proof.
  intros Hi V H. unfold sys_turn. apply wpx_bind, wpx_modify, wpx_bind, wpx_modify, wpx_bind, wpx_bind, wpx_valid_endpt.
  rewrite decide_True by done. apply wpx_ret, wpx_bind, wpx_modify. exact H.
Qed.

(** The check of the call. *)
Lemma sys_handle_wp vec s m Q :
  ipc_inv s -> valid_endpt s (m_source m) ->
  (forall e, refused s m = Some e -> Q (e, m) s) ->
  (refused s m = None -> wpx E (vec (call_nr m) m) Q s) ->
  wpx E (sys_handle vec (_ENDPOINT_P (m_source m)) m) Q s.
Proof.
  intros Hi (Hs & Hf & _) He Hv. unfold sys_handle, refused, call_nr in *. cbn zeta in *.
  destruct (_ || _); [apply wpx_ret; by apply He|].
  apply wpx_bind, wpx_priv_live; [done..|]. intros pr Hpr Hsp _ _. rewrite Hpr in *.
  apply wpx_bind, wpx_rdp; [done|]. destruct (get_sys_bit _ _); [by apply Hv|]. apply wpx_ret. by apply He.
Qed.

Lemma refused_error s m e : refused s m = Some e -> e = EBADREQUEST \/ e = ECALLDENIED.
Proof.
  unfold refused. destruct (_ || _); [intros [= <-]; by left|]. destruct (p_priv _); [|done].
  destruct (get_sys_bit _ _); [done|]. intros [= <-]. by right.
Qed.

Lemma refused_entered s m : refused (entered m s) m = refused s m.
Proof. done. Qed.

(** A message of [int]s with another type is one. *)
Lemma message_ok_type r m : - 2147483648 <= r <= 2147483647 -> message_ok m -> message_ok (set_m_type r m).
Proof.
  intros Hr H. destruct m. unfold message_ok, message_words in *. cbn in *.
  apply Forall_cons in H as [H1 H]. apply Forall_cons in H as [_ H]. by apply Forall_cons_2, Forall_cons_2.
Qed.

End turn.

(** ** The call that sets a deadline *)

(** The handler leaves the caller waiting as it was. *)
Lemma deadline_bits rp v l s s' p n :
  deadline_set rp v l s s' -> n = 2 \/ n = 3 -> Z.testbit (flags s' p) n = Z.testbit (flags s p) n.
Proof.
  intros D Hn. destruct (decide (p = rp)) as [->|Hp].
  - rewrite (ds_flags _ _ _ _ _ D). change RTS_SYS_LOCK with (2 ^ 13).
    rewrite flag_clear_bit by lia. destruct Hn as [-> | ->]; apply andb_true_r.
  - destruct (ds_procs _ _ _ _ _ D p Hp) as [_ [->|(_ & _ & ->)]]; [done|].
    change RTS_PREEMPTED with (2 ^ 14). rewrite flag_set_bit by lia. destruct Hn as [-> | ->]; apply orb_false_r.
Qed.

Lemma deadline_waits rp v l s s' p :
  deadline_set rp v l s s' -> waits_answer s' p = waits_answer s p.
Proof.
  intros D. pose proof (ds_links _ _ _ _ _ D p) as Hv. unfold ipc_view in Hv.
  unfold waits_answer, will_receive. change RTS_RECEIVING with (2 ^ 3). change RTS_SENDING with (2 ^ 2).
  rewrite !flag_isset_bit by lia. fold (flags s' p) (flags s p).
  rewrite !(deadline_bits _ _ _ _ _ p _ D) by tauto. by simplify_eq/=; congruence.
Qed.

Lemma deadline_alive rp v l s s' p : deadline_set rp v l s s' -> alive s p -> alive s' p.
Proof.
  intros D (Hs & Hf & Hn). pose proof (ds_links _ _ _ _ _ D p) as Hv. unfold ipc_view in Hv.
  unfold alive, is_free, no_endpoint, flags in *. split; [done|]. split; congruence.
Qed.

Lemma deadline_endpt rp v l s s' p : deadline_set rp v l s s' -> endpt s' p = endpt s p.
Proof. intros D. pose proof (ds_links _ _ _ _ _ D p) as Hv. unfold ipc_view in Hv. unfold endpt. congruence. Qed.

Lemma deadline_running rp v l s s' : deadline_set rp v l s s' -> sys_running s -> sys_running s'.
Proof.
  intros D [Hi Hoff Hc He]. destruct (ds_env _ _ _ _ _ D) as [Hp [Hl _]].
  split; [apply D|congruence|congruence|]. by rewrite (deadline_endpt _ _ _ _ _ _ D).
Qed.
