(* ===== verification/GrantSafe.v ===== *)
(** * Grants: what is verified and what is copied

    A specification of when a process may use a grant, as a chain of table entries,
    and the proof that [verify_grant] accepts exactly that; the frame of [safecopy]:
    memory changes only at the destination the grant allows. *)
From S2P Require Import Prelude PList KMonad Timers Types KState Memory Sched SchedInv.
From S2P Require Import Notify Copy Ipc IpcInv IpcSafe CopySafe Clock Interrupt System KCalls SysLock Grants Frame.

(** ** Reading a process' memory into the kernel *)

(** The caller does not come back from a request to VM. *)
Definition no_answer (s : kstate) : Prop :=
  vm_running s = true -> flag_isset (flags s (who_p s)) RTS_VMREQUEST = false.

(** The linear address of a range of a process' data segment. *)
Definition lin_of (s : kstate) (p seg a n : Z) : Z := umap_seg (k_proc s p) seg a n.

(** It depends only on the memory map of the process. *)
Lemma lin_of_maps s s' p seg a n :
  (p_map_T (k_proc s' p), p_map_D (k_proc s' p), p_map_S (k_proc s' p)) =
  (p_map_T (k_proc s p), p_map_D (k_proc s p), p_map_S (k_proc s p)) -> lin_of s' p seg a n = lin_of s p seg a n.
Proof. intros [= E1 E2 E3]. unfold lin_of, umap_seg, pick_seg, seg_end, p_memmap. by rewrite E1, E2, E3. Qed.

Definition space_of (s : kstate) (p : Z) : aspace :=
  if vm_running s then proc_space s (Some p) else Phys.

(** The bytes of process [e] at [a], when they are mapped. *)
Definition user_bytes (s : kstate) (e a n : Z) : option (list Z) :=
  if decide (valid_endpt s e) then
    let p := _ENDPOINT_P e in
    let lin := lin_of s p SEG_D a n in
    if lin <=? 0 then None
    else
      let r := read_bytes (Z.to_nat n) (mem s) (space_of s p) lin in
      if snd r then Some (fst r) else None
  else None.

(** A computation that only reads, under the lock. *)
Lemma pure_intr_off {A} E (m : K A) (P : A -> Prop) s :
  lock_ok s ->
  (forall s1, s1 = s \/ s1 = set_lock true 1 s -> wpx E m (fun r s2 => s2 = s1 /\ P r) s1) ->
  wpx E (with_intr_off m) (fun r s2 => s2 = s /\ P r) s.
Proof.
  intros Hl Hm. apply wpx_with_intr_off; [done|]. intros s1 Hs1 _ _.
  eapply wpx_conseq; [by apply Hm|]. intros r s2 [-> HP]. split; [done|]. split; [|done].
  destruct Hs1 as [->| ->]; [apply set_lock_id|].
  change (set_lock (intr_off s) (locklevel s) (set_lock true 1 s)) with (set_lock (intr_off s) (locklevel s) s).
  apply set_lock_id.
Qed.

Lemma vm_answered_none E s :
  slot (who_p s) -> no_answer s -> vm_running s = true ->
  wpx E (vm_answered (who_p s)) (fun r s' => s' = s /\ r = None) s.
Proof.
  intros Hw Hn Hr. unfold vm_answered. apply wpx_bind, wpx_RTS_ISSET; [done|].
  fold (flags s (who_p s)). rewrite (Hn Hr). by apply wpx_ret.
Qed.

(** The mapping of one end in a data segment, or another segment of the process. *)
Lemma vc_map_local E s umv e seg a n :
  0 <= seg <= 2 ->
  wpx E (vc_map umv (mk_vir_addr e seg a) n) (fun r s' => s' = s /\
    if decide (valid_endpt s e) then
      let lin := lin_of s (_ENDPOINT_P e) seg a n in
      r = if lin <=? 0 then inl EFAULT else inr (Some (_ENDPOINT_P e), lin)
    else r = inl EDEADSRCDST) s.
Proof.
  intros Hseg. unfold vc_map. cbn [va_segment va_proc_nr_e va_offset].
  assert (Ht : Z.land seg SEGMENT_TYPE = 0 /\ Z.land seg SEGMENT_INDEX = seg /\ (seg =? PHYS_SEG) = false).
  { assert (seg = 0 \/ seg = 1 \/ seg = 2) as [->|[->| ->]] by lia; done. }
  destruct Ht as (-> & -> & ->). cbn [Z.eqb negb andb orb].
  change (0 =? PHYS_SEG) with false. change (0 =? BIOS_SEG) with false. change (0 =? LOCAL_SEG) with true.
  cbn [negb andb orb]. apply wpx_bind, wpx_valid_endpt.
  destruct (decide (valid_endpt s e)) as [(Hs & _ & _)|].
  - apply wpx_bind, wpx_bind. unfold umap_local.
    assert (negb (seg =? SEG_T) && negb (seg =? SEG_D) && negb (seg =? SEG_S) = false) as ->.
    { assert (seg = 0 \/ seg = 1 \/ seg = 2) as [->|[->| ->]] by lia; done. }
    apply wpx_bind, wpx_rd; [done|]. apply wpx_ret, wpx_ret. fold (lin_of s (_ENDPOINT_P e) seg a n).
    rewrite andb_true_r. by destruct (_ <=? 0); apply wpx_ret.
  - apply wpx_bind, wpx_ret, wpx_ret. done.
Qed.

Lemma data_copy_in_pure E s e a n vmcheck :
  lock_ok s -> 0 < n -> slot (who_p s) -> no_answer s ->
  (vmcheck = true -> exists bs, user_bytes s e a n = Some bs) ->
  wpx E (data_copy_in e a n vmcheck) (fun r s' => s' = s /\
    match user_bytes s e a n with Some bs => r = (OK, bs) | None => fst r <> OK end) s.
Proof.
  intros Hl Hn Hw Hno Hvm. unfold data_copy_in, virtual_copy_gen.
  rewrite (proj2 (Z.leb_gt n 0) Hn).
  match goal with |- wpx _ (bind _ (fun d => bind _ (fun _ => bind ?m _))) _ _ => set (body := m) end.
  apply (pure_intr_off E body); [done|]. intros s1 Hs1.
  assert (Hw1 : slot (who_p s1)) by by destruct Hs1 as [->| ->].
  assert (Hno1 : no_answer s1) by by destruct Hs1 as [->| ->].
  assert (Hl1 : lock_ok s1) by (destruct Hs1 as [->| ->]; done).
  assert (Eu : user_bytes s e a n = user_bytes s1 e a n) by by destruct Hs1 as [->| ->].
  rewrite Eu in *. clear s Hl Hw Hno Hs1 Eu. subst body. unfold d_addr, user_bytes in *.
  apply wpx_bind. eapply wpx_conseq; [by apply vc_map_local|]. intros rs s' [-> Hrs].
  destruct (decide (valid_endpt s1 e)); [|subst rs; by apply wpx_ret].
  cbn zeta in *. destruct (lin_of s1 (_ENDPOINT_P e) SEG_D a n <=? 0) eqn:El; subst rs; [by apply wpx_ret|].
  apply wpx_bind. unfold kernel_end. apply wpx_ret, wpx_bind, wpx_gets.
  set (lin := lin_of s1 (_ENDPOINT_P e) SEG_D a n). set (src := (Some (_ENDPOINT_P e), lin)).
  set (rb := read_bytes (Z.to_nat n) (mem s1) (space_of s1 (_ENDPOINT_P e)) lin).
  assert (Hc : wpx E (copy_in n (vm_running s1) src (Some SYSTEM, 0))
    (fun c s' => s' = s1 /\ c = (if snd rb : bool then CopyOk else CopyFaultSrc, fst rb)) s1).
  { apply pure_intr_off; [done|]. intros s2 Hs2. apply wpx_bind, wpx_gets, wpx_ret. split; [done|].
    unfold rb, space_of, end_space. by destruct Hs2 as [->| ->]. }
  destruct (vm_running s1) eqn:Er.
  - apply wpx_bind, wpx_gets, wpx_bind. eapply wpx_conseq; [by apply vm_answered_none|].
    intros r s2 [-> ->]. apply wpx_bind. eapply wpx_conseq; [exact Hc|]. intros c s2 [-> ->].
    fold lin rb in Hvm, El. rewrite ?El in Hvm.
    cbn [fst snd]. destruct (snd rb); [by apply wpx_ret|].
    destruct vmcheck; [by destruct (Hvm eq_refl)|]. by apply wpx_ret.
  - apply wpx_bind. eapply wpx_conseq; [exact Hc|]. intros c s2 [-> ->].
    cbn [fst snd]. by destruct (snd rb); apply wpx_ret.
Qed.

(** ** When a grant may be used *)

(** Entry [grant] of [granter]'s table is [g], in use and valid. *)
Definition grant_entry (s : kstate) (granter grant : Z) (g : cp_grant_t) : Prop :=
  valid_endpt s granter /\ 0 <= grant /\
  exists pr, p_priv (k_proc s (_ENDPOINT_P granter)) = Some pr /\
    flag_isset (flags s (_ENDPOINT_P granter)) RTS_NO_PRIV = false /\
    0 < s_grant_table (k_priv s pr) /\ grant < s_grant_entries (k_priv s pr) /\
    (exists bs, user_bytes s granter (u32 (s_grant_table (k_priv s pr) + GRANT_SIZE * grant)) GRANT_SIZE
                  = Some bs /\ g = bytes_grant bs) /\
    Z.land (cp_flags g) (Z.lor CPF_USED CPF_VALID) = Z.lor CPF_USED CPF_VALID.

Definition is_indirect (g : cp_grant_t) : Prop := flag_any (cp_flags g) CPF_INDIRECT = true.

(** A grant given to [named] may be used by [grantee]. *)
Definition names (named grantee : Z) : Prop := named = grantee \/ grantee = ANY \/ named = ANY.

(** Following at most [n] indirections from entry [grant] of [granter], used by
    [grantee], ends at the entry [g] of [granter'], used by [grantee']. *)
Inductive grant_chain (s : kstate) : nat -> Z -> Z -> Z -> cp_grant_t -> Z -> Z -> Prop :=
  | chain_here n granter grantee grant g :
      grant_entry s granter grant g -> ~ is_indirect g ->
      grant_chain s n granter grantee grant g granter grantee
  | chain_via n granter grantee grant g0 g granter' grantee' :
      grant_entry s granter grant g0 -> is_indirect g0 -> names (cp_indirect_who_to g0) grantee ->
      grant_chain s n (cp_indirect_who_from g0) granter (cp_indirect_grant g0) g granter' grantee' ->
      grant_chain s (S n) granter grantee grant g granter' grantee'.

(** The final entry allows [access] to [bytes] bytes at [offset], which are those at
    [addr] of process [owner]. *)
Definition permits (g : cp_grant_t) (granter grantee bytes access offset addr owner : Z) : Prop :=
  Z.land (cp_flags g) access = access /\
  if flag_any (cp_flags g) CPF_DIRECT then
    names (cp_direct_who_to g) grantee /\ owner = granter /\
    offset + bytes <= cp_direct_len g /\
    (cp_direct_start g + cp_direct_len g <= 2 ^ 32 /\ (cp_direct_start g = 0 -> cp_direct_len g = 0)) /\
    addr = u32 (cp_direct_start g + offset)
  else
    flag_any (cp_flags g) CPF_MAGIC = true /\ granter = VFS_PROC_NR /\
    (cp_magic_who_to g = grantee \/ grantee = ANY \/ cp_magic_who_from g = ANY) /\
    owner = cp_magic_who_from g /\ offset + bytes <= cp_magic_len g /\
    addr = u32 (cp_magic_start g + offset).

Lemma bad_grantee_names named grantee : bad_grantee named grantee named = false <-> names named grantee.
Proof.
  unfold bad_grantee, names. rewrite !andb_false_iff, !negb_false_iff, !Z.eqb_eq. tauto.
Qed.

Lemma bad_range_spec o b l :
  0 <= o < 2 ^ 32 -> 0 <= b < 2 ^ 32 -> 0 <= l < 2 ^ 32 -> bad_range o b l = false <-> o + b <= l.
Proof.
  intros Ho Hb Hl. unfold bad_range, u32, u_wrap. rewrite orb_false_iff, !Z.ltb_ge.
  destruct (Z.lt_ge_cases (o + b) (2 ^ 32)).
  - rewrite Z.mod_small by lia. lia.
  - replace ((o + b) mod 2 ^ 32) with (o + b - 2 ^ 32); [lia|].
    apply (Zmod_unique _ _ 1); lia.
Qed.

Lemma no_wrap_spec start len :
  0 <= start < 2 ^ 32 -> 0 <= len < 2 ^ 32 ->
  (MEM_TOP - len <? u32 (start - 1)) = false <->
  start + len <= 2 ^ 32 /\ (start = 0 -> len = 0).
Proof.
  intros Hs Hl. rewrite Z.ltb_ge. unfold MEM_TOP, u32, u_wrap. destruct (decide (start = 0)) as [->|].
  - change ((0 - 1) mod 2 ^ 32) with (2 ^ 32 - 1). lia.
  - rewrite Z.mod_small by lia. lia.
Qed.

(** The second half of [verify_grant] decides [permits]. *)
Lemma check_grant_spec g granter grantee bytes access offset addr owner :
  0 <= offset < 2 ^ 32 -> 0 <= bytes < 2 ^ 32 ->
  check_grant g granter grantee bytes access offset = inr (addr, owner) <->
  permits g granter grantee bytes access offset addr owner.
Proof.
  intros Ho Hb. unfold check_grant, permits.
  destruct (Z.eqb_spec (Z.land (cp_flags g) access) access) as [Ha|Ha]; cbn [negb]; [|split; [done|tauto]].
  destruct (flag_any (cp_flags g) CPF_DIRECT).
  - pose proof (no_wrap_spec (cp_direct_start g) (cp_direct_len g) (u32_range _) (u32_range _)) as H1.
    pose proof (bad_grantee_names (cp_direct_who_to g) grantee) as H2.
    pose proof (bad_range_spec offset bytes (cp_direct_len g) Ho Hb (u32_range _)) as H3.
    destruct (_ <? _); [split; [done|intuition congruence]|].
    destruct (bad_grantee _ _ _); [split; [done|intuition congruence]|].
    destruct (bad_range _ _ _); [split; [done|intuition congruence]|].
    split; [intros [= <- <-]; intuition|intros (_ & _ & -> & _ & _ & ->); done].
  - destruct (flag_any (cp_flags g) CPF_MAGIC); [|split; [done|intuition congruence]].
    pose proof (bad_range_spec offset bytes (cp_magic_len g) Ho Hb (u32_range _)) as H3.
    destruct (Z.eqb_spec granter VFS_PROC_NR) as [Hv|]; cbn [negb]; [|split; [done|intuition congruence]].
    assert (H2 : bad_grantee (cp_magic_who_to g) grantee (cp_direct_who_to g) = false <->
      cp_magic_who_to g = grantee \/ grantee = ANY \/ cp_magic_who_from g = ANY).
    { unfold bad_grantee. change (cp_direct_who_to g) with (cp_magic_who_from g).
      rewrite !andb_false_iff, !negb_false_iff, !Z.eqb_eq. tauto. }
    destruct (bad_grantee _ _ _); [split; [done|intuition congruence]|].
    destruct (bad_range _ _ _); [split; [done|intuition congruence]|].
    split; [intros [= <- <-]; intuition|intros (_ & _ & _ & _ & -> & _ & ->); done].
Qed.

(** The first half reads the entry. *)
Lemma HASGRANTTABLE_wp E s gr (Q : option Z -> kstate -> Prop) :
  slot gr -> (forall pr, p_priv (k_proc s gr) = Some pr -> priv_slot pr) ->
  (forall pr, p_priv (k_proc s gr) = Some pr -> priv_slot pr ->
     flag_isset (flags s gr) RTS_NO_PRIV = false -> 0 < s_grant_table (k_priv s pr) -> Q (Some pr) s) ->
  ((forall pr, p_priv (k_proc s gr) = Some pr ->
      flag_isset (flags s gr) RTS_NO_PRIV = true \/ s_grant_table (k_priv s pr) <= 0) -> Q None s) ->
  wpx E (HASGRANTTABLE gr) Q s.
Proof.
  intros Hs Hpr H1 H2. unfold HASGRANTTABLE. apply wpx_bind, wpx_RTS_ISSET; [done|].
  apply wpx_bind, wpx_rd; [done|]. fold (flags s gr). destruct (p_priv (k_proc s gr)) as [pr|] eqn:Ep.
  - apply wpx_bind, wpx_rdp; [by apply Hpr|]. apply wpx_ret.
    destruct (flag_isset (flags s gr) RTS_NO_PRIV) eqn:En; cbn [negb andb].
    + apply H2. by left.
    + destruct (Z.ltb_spec 0 (s_grant_table (k_priv s pr))) as [Hlt|Hge].
      * by apply H1; [|apply Hpr|..].
      * apply H2. intros pr' [= <-]. right. done.
  - apply wpx_ret. by apply H2.
Qed.

(** The errors of [verify_grant]. *)
Definition refusal (e : Z) : Prop := e = EINVAL \/ e = EPERM \/ e = ELOOP.

Lemma refusal_not_ok e : refusal e -> e <> OK.
Proof. by intros [->|[->| ->]]. Qed.

Lemma check_grant_refusal g granter grantee bytes access offset e :
  check_grant g granter grantee bytes access offset = inl e -> refusal e.
Proof.
  unfold check_grant, refusal. repeat case_match; intros [= <-]; tauto.
Qed.

Lemma read_grant_wp E s granter grant :
  ipc_inv s -> no_answer s ->
  wpx E (read_grant granter grant) (fun r s' => s' = s /\
    match r with
    | inr g => grant_entry s granter grant g
    | inl e => refusal e /\ forall g, ~ grant_entry s granter grant g
    end) s.
Proof.
  intros Hi Hno. unfold read_grant. apply wpx_bind, wpx_valid_endpt.
  destruct (decide (valid_endpt s granter)) as [V|V].
  2: { apply wpx_ret. split; [done|]. split; [unfold refusal; tauto|]. intros g [? _]. done. }
  pose proof V as (Hs & Hf & He). unfold GRANT_VALID.
  destruct (Z.ltb_spec (-1) grant) as [Hg|Hg]; cbn [negb].
  2: { apply wpx_ret. split; [done|]. split; [unfold refusal; tauto|]. intros g (_ & ? & _). lia. }
  destruct (iw_priv s (ic_wf s (proj1 (proj2 Hi))) (_ENDPOINT_P granter) Hs Hf) as (i & Hpi & Hsi & _).
  apply wpx_bind, HASGRANTTABLE_wp; [done|intros pr Hpr; congruence| |].
  2: { intros Hno'. apply wpx_ret. split; [done|]. split; [unfold refusal; tauto|]. intros g (_ & _ & pr & Hpr & H1 & H2 & _).
       destruct (Hno' pr Hpr); [congruence|lia]. }
  intros pr Hpr Hsp Hnp Ht. apply wpx_bind, wpx_rdp; [done|].
  destruct (Z.leb_spec (s_grant_entries (k_priv s pr)) grant) as [Hen|Hen].
  { apply wpx_ret. split; [done|]. split; [unfold refusal; tauto|]. intros g (_ & _ & pr' & Hpr' & _ & _ & H2 & _).
    assert (pr' = pr) as -> by congruence. lia. }
  apply wpx_bind, wpx_rdp; [done|]. apply wpx_bind.
  eapply wpx_conseq; [apply data_copy_in_pure; [by apply ipc_lock_ok|done|apply iw_who, Hi|done|done]|].
  intros r s' [-> Hr].
  set (ub := user_bytes s granter _ GRANT_SIZE) in *.
  destruct ub as [bs|] eqn:Eub.
  - subst r. cbn [fst snd Z.eqb negb OK]. change (OK =? OK) with true. cbn [negb].
    destruct (Z.eqb_spec (Z.land (cp_flags (bytes_grant bs)) (Z.lor CPF_USED CPF_VALID))
      (Z.lor CPF_USED CPF_VALID)) as [Hfl|Hfl]; cbn [negb]; apply wpx_ret; (split; [done|]).
    + split; [done|split; [lia|]]. exists pr. split; [done|split; [done|split; [done|split; [done|]]]].
      split; [|done]. exists bs. done.
    + split; [unfold refusal; tauto|]. intros g (_ & _ & pr' & Hpr' & _ & _ & _ & (bs' & Hbs' & ->) & H). assert (pr' = pr) as -> by congruence.
      unfold ub in Eub. rewrite Hbs' in Eub. injection Eub as ->. done.
  - assert ((fst r =? OK) = false) as -> by by apply Z.eqb_neq. cbn [negb]. apply wpx_ret. split; [done|].
    split; [unfold refusal; tauto|]. intros g (_ & _ & pr' & Hpr' & _ & _ & _ & (bs' & Hbs' & _) & _). assert (pr' = pr) as -> by congruence.
    unfold ub in Eub. rewrite Hbs' in Eub. done.
Qed.

Lemma grant_entry_inj s granter grant g g' :
  grant_entry s granter grant g -> grant_entry s granter grant g' -> g = g'.
Proof.
  intros (_ & _ & pr & H1 & _ & _ & _ & (bs & H2 & ->) & _) (_ & _ & pr' & H1' & _ & _ & _ & (bs' & H2' & ->) & _).
  assert (pr' = pr) as -> by congruence. congruence.
Qed.

(** A process may use the bytes at [addr] of [owner] through the grant. *)
Definition may_use (s : kstate) (n : nat) (granter grantee grant bytes access offset addr owner : Z) : Prop :=
  exists g granter' grantee', grant_chain s n granter grantee grant g granter' grantee' /\
    permits g granter' grantee' bytes access offset addr owner.

(** The first entry decides how the chain goes on. *)
Lemma may_use_entry s n granter grantee grant bytes access offset addr owner g :
  grant_entry s granter grant g ->
  may_use s n granter grantee grant bytes access offset addr owner <->
  if flag_any (cp_flags g) CPF_INDIRECT then
    exists n', n = S n' /\ names (cp_indirect_who_to g) grantee /\
      may_use s n' (cp_indirect_who_from g) granter (cp_indirect_grant g) bytes access offset addr owner
  else permits g granter grantee bytes access offset addr owner.
Proof.
  intros Hg. destruct (flag_any (cp_flags g) CPF_INDIRECT) eqn:Ei; split.
  - intros (g' & gr & ge & Hc & Hp). inversion Hc as [? ? ? ? ? Hg' Hni|n' ? ? ? g0 ? ? ? Hg' _ Hn Hc']; subst;
      rewrite (grant_entry_inj _ _ _ _ _ Hg' Hg) in *; [by destruct Hni|].
    exists n'. split_all; [done|done|]. by exists g', gr, ge.
  - intros (n' & -> & Hn & g' & gr & ge & Hc & Hp). exists g', gr, ge. split; [|done]. by eapply chain_via.
  - intros (g' & gr & ge & Hc & Hp). inversion Hc as [? ? ? ? ? Hg' Hni|n' ? ? ? g0 ? ? ? Hg' Hi]; subst;
      rewrite (grant_entry_inj _ _ _ _ _ Hg' Hg) in *; [done|]. unfold is_indirect in Hi. congruence.
  - intros Hp. exists g, granter, grantee. split; [|done]. apply chain_here; [done|].
    unfold is_indirect. congruence.
Qed.

Lemma may_use_start s n granter grantee grant bytes access offset addr owner :
  may_use s n granter grantee grant bytes access offset addr owner ->
  exists g, grant_entry s granter grant g.
Proof. intros (g & gr & ge & Hc & _). inversion Hc; subst; eauto. Qed.

Lemma verify_loop_wp E s n granter grantee grant bytes access offset :
  ipc_inv s -> no_answer s -> 0 <= offset < 2 ^ 32 -> 0 <= bytes < 2 ^ 32 ->
  wpx E (verify_loop n granter grantee grant bytes access offset) (fun r s' => s' = s /\
    (forall e, r = inl e -> refusal e) /\
    forall addr owner, r = inr (addr, owner) <-> may_use s n granter grantee grant bytes access offset addr owner) s.
Proof.
  intros Hi Hno Ho Hb. revert granter grantee grant.
  induction n as [|n IH]; intros granter grantee grant; cbn [verify_loop]; apply wpx_bind;
    (eapply wpx_conseq; [by apply read_grant_wp|]); intros r s' [-> Hr];
    (destruct r as [e|g]; [destruct Hr as [He Hr]; apply wpx_ret; split; [done|]; split; [by intros e' [= <-]|];
      intros addr owner; split; [done|]; intros [g Hg]%may_use_start; by destruct (Hr g)|]).
  - destruct (flag_any (cp_flags g) CPF_INDIRECT) eqn:Ei; apply wpx_ret; (split; [done|]).
    + split; [intros e [= <-]; unfold refusal; tauto|]. intros addr owner.
      rewrite (may_use_entry _ _ _ _ _ _ _ _ _ _ g), Ei by done. split; [done|]. by intros (n' & ? & _).
    + split; [intros e; apply check_grant_refusal|]. intros addr owner.
      rewrite (may_use_entry _ _ _ _ _ _ _ _ _ _ g), Ei by done. by apply check_grant_spec.
  - destruct (flag_any (cp_flags g) CPF_INDIRECT) eqn:Ei.
    + pose proof (bad_grantee_names (cp_indirect_who_to g) grantee) as Hn. destruct (bad_grantee _ _ _).
      * apply wpx_ret. split; [done|]. split; [intros e [= <-]; unfold refusal; tauto|]. intros addr owner.
        rewrite (may_use_entry _ _ _ _ _ _ _ _ _ _ g), Ei by done.
        split; [done|]. intros (n' & _ & ?%Hn & _). done.
      * eapply wpx_conseq; [apply IH|]. intros r s' (-> & He & H). split; [done|]. split; [done|]. intros addr owner.
        rewrite H, (may_use_entry _ (S n) _ _ _ _ _ _ _ _ g), Ei by done.
        split; [intros Hm; exists n; by split_all; [|apply Hn|]|intros (n' & [= <-] & _ & Hm); done].
    + apply wpx_ret. split; [done|]. split; [intros e; apply check_grant_refusal|]. intros addr owner.
      rewrite (may_use_entry _ _ _ _ _ _ _ _ _ _ g), Ei by done. by apply check_grant_spec.
Qed.

(** ** What a copy changes *)

(** The memory after the first [i] bytes of a copy. *)
Definition copied (i : nat) (m : memory) (sa : aspace) (sl : Z) (da : aspace) (dl : Z) : memory :=
  fst (copy_bytes i m sa sl da dl).

(** A copy of [n] bytes writes only where one of the [n] addresses of its destination
    is mapped, at the time it is written. *)
Lemma copy_bytes_frame n m sa sl da dl ph :
  0 <= dl < 2 ^ 32 -> fst (copy_bytes n m sa sl da dl) ph <> m ph ->
  exists i, (i < n)%nat /\
    translate (copied i m sa sl da dl) da true (u32 (dl + Z.of_nat i)) = Some ph.
Proof.
  revert m sl dl. induction n as [|n IH]; intros m sl dl Hdl; cbn [copy_bytes]; [done|].
  destruct (translate m sa false sl) as [sp|] eqn:Es; [|done].
  destruct (translate m da true dl) as [dp|] eqn:Ed; [|done]. intros Hne.
  destruct (decide (fst (copy_bytes n (<[dp:=m sp]> m) sa (u32 (sl + 1)) da (u32 (dl + 1))) ph =
                    (<[dp:=m sp]> m : memory) ph)) as [He|He].
  - exists O. split; [lia|]. unfold copied. cbn [copy_bytes fst].
    assert (u32 (dl + Z.of_nat 0) = dl) as -> by (rewrite Z.add_0_r; apply Z.mod_small; done).
    rewrite Ed. f_equal. rewrite He, fn_insert_case in Hne. by case_decide.
  - destruct (IH _ _ _ (u32_range _) He) as (i & Hi & Ht). exists (S i). split; [lia|].
    unfold copied in *. cbn [copy_bytes]. rewrite Es, Ed. rewrite <- Ht. f_equal.
    unfold u32, u_wrap. rewrite Z.add_mod_idemp_l by done. f_equal. lia.
Qed.

(** The two ends of a copy of [n] bytes. *)
Definition end_lin (s : kstate) (va : vir_addr) (n : Z) : Z :=
  lin_of s (_ENDPOINT_P (va_proc_nr_e va)) (va_segment va) (va_offset va) n.
Definition va_space (s : kstate) (va : vir_addr) : aspace := space_of s (_ENDPOINT_P (va_proc_nr_e va)).
Definition copied_to (s : kstate) (src dst : vir_addr) (n : Z) (i : nat) : memory :=
  copied i (mem s) (va_space s src) (end_lin s src n) (va_space s dst) (end_lin s dst n).

(** A copy writes only in the mapped range of a live destination. *)
Definition writes_range (s s' : kstate) (src dst : vir_addr) (n : Z) : Prop :=
  forall ph, mem s' ph <> mem s ph ->
  valid_endpt s (va_proc_nr_e dst) /\ 0 < end_lin s dst n /\
  exists i, (i < Z.to_nat n)%nat /\
    translate (copied_to s src dst n i) (va_space s dst) true (u32 (end_lin s dst n + Z.of_nat i)) = Some ph.

Lemma lin_of_range s p seg a n : lin_of s p seg a n <= 0 \/ 0 <= lin_of s p seg a n < 2 ^ 32.
Proof.
  unfold lin_of, umap_seg. repeat (case_match; [left; lia|]). right. apply u32_range.
Qed.

Lemma lin_lin_copy_wp E s n src dst :
  ipc_inv s ->
  wpx E (lin_lin_copy n (vm_running s) src dst) (fun _ s' => good s s' /\
    mem s' = fst (copy_bytes (Z.to_nat n) (mem s) (end_space (vm_running s) s src) (snd src)
                    (end_space (vm_running s) s dst) (snd dst))) s.
Proof.
  intros Hi. apply (good_intr_off E _ (fun _ s' => mem s' = _)); [done|done|]. intros s1 Hs1 Hi1.
  apply wpx_bind, wpx_gets, wpx_bind, wpx_modify, wpx_ret. split; [by apply good_set_mem|].
  by destruct Hs1 as [->| ->].
Qed.

(** What [virtual_copy_f] did when it answers [r]. *)
Record copy_done (s s' : kstate) (src dst : vir_addr) (n r : Z) : Prop := mk_copy_done {
  cd_good : good s s';
  cd_writes : writes_range s s' src dst n;
  cd_whole : r = OK -> mem s' = copied_to s src dst n (Z.to_nat n) }.

Lemma copy_done_none s src dst n r : ipc_inv s -> r <> OK -> copy_done s s src dst n r.
Proof. intros Hi Hr. split; [by apply good_refl|by intros ph []|done]. Qed.

(** After the copy, whatever else happens to the tables. *)
Lemma copy_done_after s s' src dst n r :
  good s s' -> valid_endpt s (va_proc_nr_e dst) -> 0 < end_lin s dst n -> 0 < n ->
  mem s' = copied_to s src dst n (Z.to_nat n) -> copy_done s s' src dst n r.
Proof.
  intros G V Hl Hn Hm. split; [done| |done]. intros ph Hne. split; [done|split; [done|]]. rewrite Hm in Hne.
  assert (Hr : 0 <= end_lin s dst n < 2 ^ 32)
    by (destruct (lin_of_range s (_ENDPOINT_P (va_proc_nr_e dst)) (va_segment dst) (va_offset dst) n);
        unfold end_lin in *; lia).
  destruct (copy_bytes_frame _ _ _ _ _ _ ph Hr Hne) as (i & Hi & Ht). exists i. split; [done|exact Ht].
Qed.

Lemma copy_done_unlock s s1 s2 src dst n r :
  ipc_inv s -> s1 = s \/ s1 = set_lock true 1 s -> copy_done s1 s2 src dst n r ->
  copy_done s (set_lock (intr_off s) (locklevel s) s2) src dst n r.
Proof.
  intros Hi Hs1 [G W H]. split; [by eapply good_unlock| |].
  - intros ph Hne. by destruct Hs1 as [->| ->]; apply W.
  - intros Hr. by destruct Hs1 as [->| ->]; apply H.
Qed.

(** A fault makes the caller wait for VM. *)
Lemma suspend_done E s s1 src dst n who target lin :
  good s s1 -> valid_endpt s (va_proc_nr_e dst) -> 0 < end_lin s dst n -> 0 < n ->
  mem s1 = copied_to s src dst n (Z.to_nat n) -> slot who -> is_free s who = false -> slot target ->
  wpx E (do t <- from_ptr (Some target);
         do! vm_suspend who t lin n VMSTYPE_KERNELCALL;
         ret (VMSUSPEND, tt)) (fun r s' => copy_done s s' src dst n (fst r)) s1.
Proof.
  intros G V Hl Hn Hm Hw Hwf Ht. apply wpx_bind, wpx_ret, wpx_bind.
  eapply wpx_conseq; [apply (wpx_keeps same_mem); [apply _|apply vm_suspend_good; [apply G|done| |done]]|].
  - by rewrite (weak_free s s1 (proj2 G)).
  - intros u s2 [G2 Hm2]. apply wpx_ret.
    apply copy_done_after; [by eapply good_trans|done|done|done|by rewrite Hm2].
Qed.

Lemma virtual_copy_done E s src dst n :
  ipc_inv s -> no_answer s -> 0 < n -> 0 <= va_segment src <= 2 -> 0 <= va_segment dst <= 2 ->
  is_free s (who_p s) = false ->
  wpx E (virtual_copy_vmcheck src dst n) (fun r s' => copy_done s s' src dst n r) s.
Proof.
  intros Hi Hno Hn Hss Hds Hwf. unfold virtual_copy_vmcheck, virtual_copy_f, virtual_copy_gen.
  rewrite (proj2 (Z.leb_gt n 0) Hn). apply wpx_bind.
  match goal with |- wpx _ (bind _ (fun d => bind _ (fun _ => bind ?m _))) _ _ => set (body := m) end.
  enough (H : wpx E (with_intr_off body) (fun r s' => copy_done s s' src dst n (fst r)) s).
  { eapply wpx_conseq; [exact H|]. intros r s' Hc. by apply wpx_ret. }
  apply wpx_with_intr_off; [by apply ipc_lock_ok|]. intros s1 Hs1 _ Hl1.
  enough (H : wpx E body (fun r s2 => copy_done s1 s2 src dst n (fst r)) s1).
  { eapply wpx_conseq; [exact H|]. intros r s2 Hc. split; [apply (is_lock _ _ (proj2 (cd_good _ _ _ _ _ _ Hc)))|].
    by eapply copy_done_unlock. }
  assert (Hi1 : ipc_inv s1) by (destruct Hs1 as [->| ->]; [done|by apply set_lock_ipc]).
  assert (Hno1 : no_answer s1) by by destruct Hs1 as [->| ->].
  assert (Hwf1 : is_free s1 (who_p s1) = false) by by destruct Hs1 as [->| ->].
  assert (Hw1 : slot (who_p s1)) by apply iw_who, Hi1.
  clear s Hi Hno Hwf Hs1. subst body. destruct src as [se sseg sa], dst as [de dseg da].
  cbn [va_segment] in *. apply wpx_bind. eapply wpx_conseq; [by apply vc_map_local|]. intros rs s' [-> Hrs].
  destruct (decide (valid_endpt s1 se)) as [Vs|]; [|subst rs; apply wpx_ret; by apply copy_done_none].
  cbn zeta in Hrs. destruct (Z.leb_spec (lin_of s1 (_ENDPOINT_P se) sseg sa n) 0) as [|Hsl];
    subst rs; [apply wpx_ret; by apply copy_done_none|].
  apply wpx_bind. eapply wpx_conseq; [by apply vc_map_local|]. intros rd' s' [-> Hrd].
  destruct (decide (valid_endpt s1 de)) as [Vd|]; [|subst rd'; apply wpx_ret; by apply copy_done_none].
  cbn zeta in Hrd. destruct (Z.leb_spec (lin_of s1 (_ENDPOINT_P de) dseg da n) 0) as [|Hdl];
    subst rd'; [apply wpx_ret; by apply copy_done_none|].
  set (src := mk_vir_addr se sseg sa). set (dst := mk_vir_addr de dseg da).
  apply wpx_bind, wpx_gets.
  pose proof (lin_lin_copy_wp E s1 n (Some (_ENDPOINT_P se), lin_of s1 (_ENDPOINT_P se) sseg sa n)
    (Some (_ENDPOINT_P de), lin_of s1 (_ENDPOINT_P de) dseg da n) Hi1) as Hcopy.
  destruct (vm_running s1) eqn:Er.
  - apply wpx_bind, wpx_gets, wpx_bind. eapply wpx_conseq; [by apply vm_answered_none|].
    intros r s2 [-> ->]. apply wpx_bind. eapply wpx_conseq; [exact Hcopy|]. intros c s2 [G2 Hm2].
    assert (Hm : mem s2 = copied_to s1 src dst n (Z.to_nat n))
      by (rewrite Hm2; unfold copied_to, copied, va_space, space_of; by rewrite Er).
    destruct (fst c); cbn [negb].
    + apply wpx_ret. by apply copy_done_after.
    + apply suspend_done; try done. apply Vs.
    + apply suspend_done; try done. apply Vd.
  - apply wpx_bind. eapply wpx_conseq; [exact Hcopy|]. intros c s2 [G2 Hm2].
    assert (Hm : mem s2 = copied_to s1 src dst n (Z.to_nat n))
      by (rewrite Hm2; unfold copied_to, copied, va_space, space_of; by rewrite Er).
    destruct (fst c); apply wpx_ret; by apply copy_done_after.
Qed.

(** ** [safecopy] *)

(** The ends of a safe copy whose grant leads to [v_offset] of [owner]. *)
Definition safe_src (access owner v_offset grantee addr seg : Z) : vir_addr :=
  if flag_any access CPF_READ then mk_vir_addr owner seg v_offset else mk_vir_addr grantee seg addr.
Definition safe_dst (access owner v_offset grantee addr seg : Z) : vir_addr :=
  if flag_any access CPF_READ then mk_vir_addr grantee seg addr else mk_vir_addr owner seg v_offset.

Definition safecopied (s s' : kstate)
    (granter grantee grantid src_seg dst_seg bytes g_offset addr access r : Z) : Prop :=
  (r <> OK /\ s' = s /\ forall v_offset owner,
     ~ may_use s MAX_INDIRECT_DEPTH granter grantee grantid bytes access g_offset v_offset owner) \/
  (exists v_offset owner,
     may_use s MAX_INDIRECT_DEPTH granter grantee grantid bytes access g_offset v_offset owner /\
     copy_done s s' (safe_src access owner v_offset grantee addr src_seg)
                    (safe_dst access owner v_offset grantee addr dst_seg) bytes r).

Lemma safecopy_wp E s granter grantee grantid src_seg dst_seg bytes g_offset addr access :
  ipc_inv s -> no_answer s -> is_free s (who_p s) = false ->
  0 < bytes < 2 ^ 32 -> 0 <= g_offset < 2 ^ 32 -> 0 <= src_seg <= 2 -> 0 <= dst_seg <= 2 ->
  wpx E (safecopy granter grantee grantid src_seg dst_seg bytes g_offset addr access)
    (fun r s' => safecopied s s' granter grantee grantid src_seg dst_seg bytes g_offset addr access r) s.
Proof.
  intros Hi Hno Hwf Hb Ho Hss Hds. unfold safecopy, endpoint_lookup. apply wpx_bind, wpx_valid_endpt.
  assert (Hent : forall r, r <> OK -> (forall g, ~ grant_entry s granter grantid g) ->
    safecopied s s granter grantee grantid src_seg dst_seg bytes g_offset addr access r).
  { intros r Hr Hg. left. split; [done|split; [done|]]. intros v o [g Hg']%may_use_start. by apply (Hg g). }
  destruct (decide (valid_endpt s granter)) as [V|V].
  2: { apply wpx_ret. apply Hent; [done|]. intros g [? _]. done. }
  pose proof V as (Hs & Hf & _).
  destruct (iw_priv s (ic_wf s (proj1 (proj2 Hi))) (_ENDPOINT_P granter) Hs Hf) as (i & Hpi & Hsi & _).
  apply wpx_bind, HASGRANTTABLE_wp; [done|intros pr Hpr; congruence| |].
  2: { intros Hn. apply wpx_ret. apply Hent; [done|]. intros g (_ & _ & pr & Hpr & H1 & H2 & _).
       destruct (Hn pr Hpr); [congruence|lia]. }
  intros pr _ _ _ _. apply wpx_bind. eapply wpx_conseq; [apply verify_loop_wp; [done|done|done|lia]|].
  intros r s' (-> & He & Hr). destruct r as [e|[v_offset owner]].
  - apply wpx_ret. left. split; [by apply refusal_not_ok, He|split; [done|]]. intros v o Hm. by apply Hr in Hm.
  - assert (Hm := proj1 (Hr v_offset owner) eq_refl).
    enough (H : wpx E (virtual_copy_vmcheck (safe_src access owner v_offset grantee addr src_seg)
      (safe_dst access owner v_offset grantee addr dst_seg) bytes)
      (fun r s' => safecopied s s' granter grantee grantid src_seg dst_seg bytes g_offset addr access r) s)
      by (unfold safe_src, safe_dst in H; by destruct (flag_any access CPF_READ)).
    eapply wpx_conseq; [apply virtual_copy_done; try done|].
    + lia.
    + unfold safe_src. by destruct (flag_any access CPF_READ).
    + unfold safe_dst. by destruct (flag_any access CPF_READ).
    + intros r s' Hc. right. by exists v_offset, owner.
Qed.
