(* ===== verification/SigSafe.v ===== *)
(** * Saving and restoring the registers of a process

    What [do_sigsend] writes on the stack of a process is what [do_sigreturn] reads,
    provided that the stack is mapped, each byte once, and does not contain the page
    tables. *)
From S2P Require Import Prelude PList KMonad Timers Types KState Memory Sched SchedInv Notify Copy Ipc.
From S2P Require Import IpcInv IpcSafe CopySafe KCalls SysLock Grants GrantSafe Signals.

(** ** Encoding *)

Lemma word_bytes_i32 w : word_bytes (i32 w) = word_bytes w.
Proof. unfold word_bytes. by rewrite u32_i32. Qed.

Lemma bytes_words_concat ws : bytes_words (concat (map word_bytes ws)) = map i32 ws.
Proof.
  induction ws as [|w ws IH]; [done|]. pose proof (word_roundtrip (i32 w)) as H.
  rewrite word_bytes_i32 in H. specialize (H (ltac:(pose proof (i32_range w); lia))).
  simpl in *. by rewrite H, IH.
Qed.

Definition in_u16 (x : Z) : Prop := 0 <= x < 2 ^ 16.
Definition in_u32 (x : Z) : Prop := 0 <= x < 2 ^ 32.

(** The registers hold values of their width. *)
Definition regs_ok (r : stackframe_s) : Prop :=
  Forall in_u16 [rg_gs r; rg_fs r; rg_es r; rg_ds r] /\
  Forall in_u32 [rg_di r; rg_si r; rg_fp r; rg_st r; rg_bx r; rg_dx r; rg_cx r; rg_retreg r; rg_retadr r;
                 rg_pc r; rg_cs r; rg_psw r; rg_sp r; rg_ss r].

Lemma u32_i32_id x : in_u32 x -> u32 (i32 x) = x.
Proof. intros H. rewrite u32_i32. by apply Z.mod_small. Qed.

(** Two 16-bit registers in a word. *)
Lemma pair_word a b : in_u16 a -> in_u16 b ->
  u32 (i32 (a + 65536 * b)) mod 65536 = a /\ u32 (i32 (a + 65536 * b)) / 65536 = b.
Proof.
  unfold in_u16. intros Ha Hb. rewrite u32_i32_id by (unfold in_u32; lia).
  rewrite (Z.mul_comm 65536), Z.mod_add, Z.div_add, Z.mod_small, Z.div_small; lia.
Qed.

Lemma frame_roundtrip r : regs_ok r -> words_frame (map i32 (frame_words r)) = r.
Proof.
  intros [H16 H32]. destruct r as [gs fs es ds di si fp st bx dx cx ax ra pc cs psw sp ss].
  unfold words_frame, frame_words. cbn in *.
  repeat match goal with H : Forall _ (_ :: _) |- _ => apply Forall_cons in H as [? H] end.
  destruct (pair_word gs fs) as [-> ->]; [done..|].
  destruct (pair_word es ds) as [-> ->]; [done..|]. by rewrite !u32_i32_id.
Qed.

Lemma sigcontext_roundtrip sc :
  regs_ok (sc_regs sc) -> bytes_sigcontext (sigcontext_bytes sc) =
    mk_sigcontext (i32 (sc_flags sc)) (i32 (sc_mask sc)) (sc_regs sc) (sc_fpu_state sc).
Proof.
  intros Hr. unfold bytes_sigcontext, sigcontext_bytes.
  set (ws := sc_flags sc :: sc_mask sc :: frame_words (sc_regs sc)).
  assert (Hl : length (concat (map word_bytes ws)) = 72%nat) by done.
  rewrite take_app_length', drop_app_length', bytes_words_concat by done.
  unfold ws. cbn [map]. by rewrite frame_roundtrip.
Qed.

(** The status word is put together again. *)
Lemma psw_same x u : Z.lor (Z.land x u) (Z.ldiff x u) = x.
Proof.
  apply Z.bits_inj'. intros n Hn. rewrite Z.lor_spec, Z.land_spec, Z.ldiff_spec.
  by destruct (Z.testbit x n), (Z.testbit u n).
Qed.

(** ** Memory that is mapped once *)

(** The addresses of a copy. *)
Fixpoint addrs (n : nat) (lin : Z) : list Z :=
  match n with O => [] | S n' => lin :: addrs n' (u32 (lin + 1)) end.

(** The linear addresses [L] are mapped for writing to the different bytes [P],
    whatever these bytes hold. *)
Definition placed (m : memory) (a : aspace) (L P : list Z) : Prop :=
  NoDup P /\ forall m' : memory, (forall x, x ∉ P -> m' x = m x) ->
    Forall2 (fun l ph => translate m' a true l = Some ph) L P.

Fixpoint put (P bs : list Z) (m : memory) : memory :=
  match P, bs with
  | p :: P', b :: bs' => put P' bs' (<[p := b]> m)
  | _, _ => m
  end.

Lemma put_other P bs m x : x ∉ P -> put P bs m x = m x.
Proof.
  revert bs m. induction P as [|p P IH]; intros [|b bs] m Hx; try done. cbn [put].
  rewrite IH by set_solver. rewrite fn_insert_case. case_decide; [subst; set_solver|done].
Qed.

Lemma put_read P bs m : NoDup P -> length P = length bs -> map (put P bs m) P = bs.
Proof.
  revert bs m. induction P as [|p P IH]; intros [|b bs] m Hn Hl; try done. cbn [put map].
  apply NoDup_cons in Hn as [Hp Hn]. f_equal.
  - rewrite put_other by done. rewrite fn_insert_case. by rewrite decide_True.
  - apply IH; [done|]. by injection Hl.
Qed.

Lemma write_placed bs lin P (m : memory) a (ok : memory -> Prop) :
  ok m -> (forall m' p b, ok m' -> p ∈ P -> ok (<[p := b]> m')) ->
  (forall m', ok m' -> Forall2 (fun l ph => translate m' a true l = Some ph) (addrs (length bs) lin) P) ->
  write_bytes bs m a lin = (put P bs m, true).
Proof.
  revert lin P m. induction bs as [|b bs IH]; intros lin P m Hm Hok HP; cbn [length addrs write_bytes] in *.
  - by destruct P.
  - pose proof (HP m Hm) as H. inversion H as [|l ph L P' Hph HP' E1 E2]; subst. rewrite Hph. cbn [put].
    apply IH; [apply Hok; [done|left]|intros m' p b' Hm' Hp; apply Hok; [done|by right]|].
    intros m' Hm'. pose proof (HP m' Hm') as H'. by inversion H'.
Qed.

(** A mapping for writing can be read. *)
Lemma translate_read m a l ph : translate m a true l = Some ph -> translate m a false l = Some ph.
Proof.
  destruct a as [|cr3]; [done|]. unfold translate, page_walk. cbn zeta.
  destruct (flag_any _ I386_VM_PRESENT); [|done]. cbn [andb negb orb].
  destruct (flag_any _ I386_VM_WRITE); [|done]. cbn [negb].
  destruct (flag_any _ I386_VM_BIGPAGE); [done|]. destruct (flag_any _ I386_VM_PRESENT); [|done]. cbn [andb negb].
  by destruct (flag_any _ I386_VM_WRITE).
Qed.

Lemma read_placed n lin P (m : memory) a :
  Forall2 (fun l ph => translate m a true l = Some ph) (addrs n lin) P ->
  read_bytes n m a lin = (map m P, true).
Proof.
  revert lin P. induction n as [|n IH]; intros lin P H; inversion H as [|l ph L P' Hph HP']; subst; [done|].
  cbn [read_bytes]. rewrite (translate_read _ _ _ _ Hph), (IH _ _ HP'). done.
Qed.

(** ** Copies to a mapped range *)

(** A computation under the lock that changes memory only. *)
Lemma mem_intr_off {A} E (m : K A) (a : A) m' s :
  lock_ok s ->
  (forall s1, s1 = s \/ s1 = set_lock true 1 s -> wpx E m (fun r s2 => s2 = set_mem m' s1 /\ r = a) s1) ->
  wpx E (with_intr_off m) (fun r s2 => s2 = set_mem m' s /\ r = a) s.
Proof.
  intros Hl Hm. apply wpx_with_intr_off; [done|]. intros s1 Hs1 _ _.
  eapply wpx_conseq; [by apply Hm|]. intros r s2 [-> ->]. split; [done|]. split; [|done].
  destruct Hs1 as [->| ->].
  - change (set_lock (intr_off s) (locklevel s) (set_mem m' s))
      with (set_mem m' (set_lock (intr_off s) (locklevel s) s)). by rewrite set_lock_id.
  - change (set_lock (intr_off s) (locklevel s) (set_mem m' (set_lock true 1 s)))
      with (set_mem m' (set_lock (intr_off s) (locklevel s) s)). by rewrite set_lock_id.
Qed.

Lemma data_copy_out_mapped E s bs e a vmcheck m' :
  let lin := lin_of s (_ENDPOINT_P e) SEG_D a (Z.of_nat (length bs)) in
  lock_ok s -> bs <> [] -> slot (who_p s) -> no_answer s -> valid_endpt s e -> 0 < lin ->
  write_bytes bs (mem s) (space_of s (_ENDPOINT_P e)) lin = (m', true) ->
  wpx E (data_copy_out bs e a vmcheck) (fun r s' => s' = set_mem m' s /\ r = OK) s.
Proof.
  intros lin Hl Hb Hw Hno V Hlin Hwr. unfold data_copy_out. apply wpx_bind. unfold virtual_copy_gen.
  assert (Hn : 0 < Z.of_nat (length bs)) by (destruct bs; [done|cbn [length]; lia]).
  rewrite (proj2 (Z.leb_gt _ 0) Hn).
  match goal with |- wpx _ (bind _ (fun d => bind _ (fun _ => bind ?m _))) _ _ => set (body := m) end.
  enough (H : wpx E (with_intr_off body) (fun r s' => s' = set_mem m' s /\ r = (OK, tt)) s).
  { eapply wpx_conseq; [exact H|]. intros r s' [-> ->]. by apply wpx_ret. }
  apply mem_intr_off; [done|]. intros s1 Hs1.
  assert (Hs : slot (who_p s1) /\ no_answer s1 /\ lock_ok s1 /\ valid_endpt s1 e) by (destruct Hs1 as [->| ->]; done).
  destruct Hs as (Hw1 & Hno1 & Hl1 & V1).
  assert (Hm : lin_of s1 (_ENDPOINT_P e) SEG_D a (Z.of_nat (length bs)) = lin /\
    write_bytes bs (mem s1) (space_of s1 (_ENDPOINT_P e)) lin = (m', true)) by by destruct Hs1 as [->| ->].
  destruct Hm as [Hlin1 Hwr1]. clear Hwr Hno Hl Hw V Hs1. subst body. clearbody lin. unfold d_addr.
  apply wpx_bind. unfold kernel_end. apply wpx_ret. apply wpx_bind.
  eapply wpx_conseq; [by apply vc_map_local|]. intros rs s' [-> Hrs]. rewrite decide_True in Hrs by done.
  cbn zeta in Hrs. rewrite Hlin1, (proj2 (Z.leb_gt _ 0) Hlin) in Hrs. subst rs.
  apply wpx_bind, wpx_gets.
  assert (Hc : wpx E (copy_out bs (vm_running s1) (Some SYSTEM, 0) (Some (_ENDPOINT_P e), lin))
    (fun c s' => s' = set_mem m' s1 /\ c = (CopyOk, tt)) s1).
  { apply mem_intr_off; [done|]. intros s2 Hs2. apply wpx_bind, wpx_gets, wpx_bind, wpx_modify, wpx_ret. cbn [snd fst].
    assert (Hwr2 : write_bytes bs (mem s2) (end_space (vm_running s1) s2 (Some (_ENDPOINT_P e), lin)) lin = (m', true))
      by by destruct Hs2 as [->| ->].
    by rewrite Hwr2. }
  destruct (vm_running s1) eqn:Er.
  - apply wpx_bind, wpx_gets, wpx_bind. eapply wpx_conseq; [by apply vm_answered_none|].
    intros r s2 [-> ->]. apply wpx_bind. eapply wpx_conseq; [exact Hc|]. intros c s2 [-> ->]. by apply wpx_ret.
  - apply wpx_bind. eapply wpx_conseq; [exact Hc|]. intros c s2 [-> ->]. by apply wpx_ret.
Qed.

(** ** States with the same address spaces *)

Definition space_attr (p : proc) :=
  ((p_map_T p, p_map_D p, p_map_S p), p_cr3 p, p_endpoint p, p_rts_flags p).
Record same_space (s s' : kstate) : Prop := mk_same_space {
  sp_proc p : space_attr (k_proc s' p) = space_attr (k_proc s p);
  sp_glob : (who_p s', who_e s', vm_running s', ptproc s', intr_off s', locklevel s') =
            (who_p s, who_e s, vm_running s, ptproc s, intr_off s, locklevel s) }.

#[export] Instance same_space_preorder : PreOrder same_space.
Proof.
  split; [by intros s; split|]. intros s1 s2 s3 [P1 G1] [P2 G2].
  split; [intros p; by rewrite P2|by rewrite G2].
Qed.

Lemma same_space_upd rp f s : (forall p, space_attr (f p) = space_attr p) -> same_space s (upd_proc rp f s).
Proof.
  intros Hf. split; [|done]. intros p.
  destruct (decide (rp = p)) as [->|Hp]; [by rewrite upd_proc_eq|by rewrite upd_proc_ne].
Qed.

Section same_space.
Context {s s' : kstate} (H : same_space s s').

Lemma space_lin p seg a n : lin_of s' p seg a n = lin_of s p seg a n.
Proof.
  apply lin_of_maps. pose proof (sp_proc _ _ H p) as Hp. unfold space_attr in Hp. congruence.
Qed.

Lemma space_space p : space_of s' p = space_of s p.
Proof.
  destruct H as [Hp Hg]. assert (Hc : forall q, p_cr3 (k_proc s' q) = p_cr3 (k_proc s q))
    by (intros q; specialize (Hp q); unfold space_attr in Hp; congruence).
  assert (E : vm_running s' = vm_running s /\ ptproc s' = ptproc s) by (split; congruence). destruct E as [E1 E2].
  unfold space_of, proc_space, cur_space, HASPT. rewrite E1, E2, Hc. destruct (ptproc s); [by rewrite Hc|done].
Qed.

Lemma space_valid e : valid_endpt s e -> valid_endpt s' e.
Proof.
  intros (Hs & Hf & He). pose proof (sp_proc _ _ H (_ENDPOINT_P e)) as Hp. unfold space_attr in Hp.
  unfold valid_endpt, is_free, flags, endpt in *. split_all; [done|congruence|congruence].
Qed.

Lemma space_copy : lock_ok s /\ slot (who_p s) /\ no_answer s -> lock_ok s' /\ slot (who_p s') /\ no_answer s'.
Proof.
  destruct H as [Hp Hg]. unfold lock_ok, no_answer, flags.
  assert (E : who_p s' = who_p s /\ vm_running s' = vm_running s /\ intr_off s' = intr_off s /\
    locklevel s' = locklevel s) by (split_all; congruence). destruct E as (-> & -> & -> & ->).
  specialize (Hp (who_p s)). unfold space_attr in Hp.
  assert (p_rts_flags (k_proc s' (who_p s)) = p_rts_flags (k_proc s (who_p s))) as -> by congruence. done.
Qed.

End same_space.

(** ** The stack of the signal handler *)

Definition sig_scp (smsg : sigmsg) : Z := u32 (sm_stkptr smsg - SIGCONTEXT_SIZE).
Definition sig_frp (smsg : sigmsg) : Z := u32 (sig_scp smsg - SIGFRAME_SIZE).

(** The places of the frame ([Pf]) and of the context ([Pc]) are mapped, once each. *)
Record sig_stack (s : kstate) (rp : Z) (smsg : sigmsg) (Pf Pc : list Z) : Prop := mk_sig_stack {
  sk_ctx : 0 < lin_of s rp SEG_D (sig_scp smsg) SIGCONTEXT_SIZE;
  sk_frame : 0 < lin_of s rp SEG_D (sig_frp smsg) SIGFRAME_SIZE;
  sk_placed : placed (mem s) (space_of s rp)
    (addrs 28 (lin_of s rp SEG_D (sig_frp smsg) SIGFRAME_SIZE) ++
     addrs 584 (lin_of s rp SEG_D (sig_scp smsg) SIGCONTEXT_SIZE)) (Pf ++ Pc);
  sk_len : length Pf = 28%nat }.

Lemma addrs_length n lin : length (addrs n lin) = n.
Proof. revert lin. induction n as [|n IH]; intros lin; [done|]. cbn. by rewrite IH. Qed.

(** Both ranges are mapped, whatever has been written to them. *)
Lemma stack_mapped s rp smsg Pf Pc (m : memory) :
  sig_stack s rp smsg Pf Pc -> (forall x, x ∉ Pf ++ Pc -> m x = mem s x) ->
  Forall2 (fun l ph => translate m (space_of s rp) true l = Some ph)
    (addrs 28 (lin_of s rp SEG_D (sig_frp smsg) SIGFRAME_SIZE)) Pf /\
  Forall2 (fun l ph => translate m (space_of s rp) true l = Some ph)
    (addrs 584 (lin_of s rp SEG_D (sig_scp smsg) SIGCONTEXT_SIZE)) Pc.
Proof.
  intros [_ _ [_ HP] Hl] Hm. specialize (HP m Hm).
  apply Forall2_app_inv in HP; [done|]. by rewrite addrs_length, Hl.
Qed.

Lemma sigcontext_length stack mask p :
  length stack = 512%nat -> length (p_fpu_state p) = 512%nat ->
  length (sigcontext_bytes (saved_context stack mask p)) = 584%nat.
Proof.
  intros H1 H2. unfold sigcontext_bytes. rewrite length_app.
  change (length (concat (map word_bytes (sc_flags (saved_context stack mask p) :: _)))) with 72%nat.
  unfold saved_context. cbn [sc_fpu_state]. destruct (negb _); lia.
Qed.

(** The process is about to run its handler. *)
Definition handler_proc (frp handler : Z) (p : proc) : proc :=
  set_p_misc_flags (flag_clear (p_misc_flags p) MF_FPU_INITIALIZED)
    (set_p_pc handler (set_p_sp frp (set_p_fp (u32 (frp + SF_FP)) p))).

Definition copy_ok (s : kstate) : Prop := lock_ok s /\ slot (who_p s) /\ no_answer s.

(** A range of the stack takes what is written to it. *)
Lemma stack_write s s1 rp smsg Pf Pc bs P lin :
  sig_stack s rp smsg Pf Pc -> same_space s s1 -> (forall x, x ∉ Pf ++ Pc -> mem s1 x = mem s x) ->
  (P = Pf /\ lin = lin_of s rp SEG_D (sig_frp smsg) SIGFRAME_SIZE /\ length bs = 28%nat) \/
  (P = Pc /\ lin = lin_of s rp SEG_D (sig_scp smsg) SIGCONTEXT_SIZE /\ length bs = 584%nat) ->
  write_bytes bs (mem s1) (space_of s1 rp) lin = (put P bs (mem s1), true).
Proof.
  intros Hk Hsp Hm HP. rewrite (space_space Hsp).
  apply (write_placed _ _ _ _ _ (fun m' => forall x, x ∉ Pf ++ Pc -> m' x = mem s x)); [done| |].
  - intros m' p b Hm' Hp x Hx. rewrite fn_insert_case. case_decide; [|by apply Hm'].
    subst. destruct Hx. apply elem_of_app. destruct HP as [(-> & _)|(-> & _)]; tauto.
  - intros m' Hm'. destruct (stack_mapped _ _ _ _ _ m' Hk Hm') as [H1 H2].
    by destruct HP as [(-> & -> & ->)|(-> & -> & ->)].
Qed.

Lemma sigframe_length a b c d e f g : length (sigframe_bytes a b c d e f g) = 28%nat.
Proof. done. Qed.

Lemma do_sigsend_wp E stack s m bs Pf Pc :
  let rp := _ENDPOINT_P (m2_i1 m) in let smsg := bytes_sigmsg bs in
  copy_ok s -> valid_endpt s (m2_i1 m) -> iskerneln rp = false ->
  user_bytes s (who_e s) (u32 (m2_p1 m)) SIGMSG_SIZE = Some bs -> sig_stack s rp smsg Pf Pc ->
  length stack = 512%nat -> length (p_fpu_state (k_proc s rp)) = 512%nat ->
  wpx E (do_sigsend stack m) (fun r s' => r = (OK, m) /\ same_space s s' /\
    (exists fb, length fb = 28%nat /\ mem s' = put Pf fb (put Pc
      (sigcontext_bytes (saved_context stack (i32 (sm_mask smsg)) (k_proc s rp))) (mem s))) /\
    k_proc s' rp = handler_proc (sig_frp smsg) (sm_sighandler smsg) (k_proc s rp)) s.
Proof.
  intros rp smsg Hok V Hk Hu Hst Hls Hlf. pose proof V as (Hs & Hf & _). unfold do_sigsend.
  apply wpx_bind, wpx_valid_endpt. rewrite decide_True by done. fold rp. rewrite Hk.
  apply wpx_bind, wpx_gets, wpx_bind. destruct Hok as (O1 & O2 & O3).
  eapply wpx_conseq; [apply data_copy_in_pure; [done|done|done|done|by exists bs]|].
  intros r s' [-> Hr]. rewrite Hu in Hr. subst r. cbn [fst snd]. change (OK =? OK) with true. cbv iota. cbn [negb].
  fold smsg (sig_scp smsg). apply wpx_bind, wpx_rd; [done|].
  set (cb := sigcontext_bytes _). assert (Hcb : length cb = 584%nat) by by apply sigcontext_length.
  apply wpx_bind. set (m1 := put Pc cb (mem s)).
  eapply wpx_conseq; [apply (data_copy_out_mapped _ _ _ _ _ _ m1); try done|].
  { rewrite Hcb. apply Hst. }
  { rewrite Hcb. eapply stack_write; [done|done|done|right; done]. }
  intros r s' [-> ->]. change (OK =? OK) with true. cbv iota. cbn [negb]. fold (sig_frp smsg).
  apply wpx_bind, wpx_rd; [done|]. apply wpx_bind, wpx_rd; [done|]. apply wpx_bind, wpx_wr; [done|].
  set (s2 := upd_proc rp _ (set_mem m1 s)). apply wpx_bind, wpx_gets.
  assert (S2 : same_space s s2) by (etrans; [|apply same_space_upd]; done).
  set (fb := sigframe_bytes _ _ _ _ _ _ _). apply wpx_bind. set (m2 := put Pf fb m1).
  destruct (space_copy S2) as (C1 & C2 & C3); [done|].
  eapply wpx_conseq; [apply (data_copy_out_mapped _ _ _ _ _ _ m2); try done|].
  { by apply (space_valid S2). }
  { rewrite (space_lin S2). apply Hst. }
  { rewrite (space_lin S2). apply (stack_write s s2 rp smsg Pf Pc); [done|done| |left; done].
    intros x Hx. apply put_other. set_solver. }
  intros r s' [-> ->]. change (OK =? OK) with true. cbv iota. cbn [negb].
  apply wpx_bind, wpx_wr; [done|]. apply wpx_bind, wpx_wr; [done|]. apply wpx_bind, wpx_wr; [done|]. apply wpx_ret.
  split; [done|]. split; [|split].
  - etrans; [exact S2|]. repeat (etrans; [|apply same_space_upd; done]). done.
  - exists fb. done.
  - rewrite !upd_proc_eq. change (k_proc (set_mem m2 s2) rp) with (k_proc s2 rp). unfold s2. by rewrite upd_proc_eq.
Qed.

Lemma do_sigreturn_wp E s m cb :
  let rp := _ENDPOINT_P (m2_i1 m) in let sc := bytes_sigcontext cb in
  copy_ok s -> valid_endpt s (m2_i1 m) -> iskerneln rp = false ->
  user_bytes s (m2_i1 m) (u32 (m2_p1 m)) SIGCONTEXT_SIZE = Some cb ->
  wpx E (do_sigreturn m) (fun r s' => r = (OK, m) /\
    p_reg (k_proc s' rp) = user_regs (sc_regs sc) (p_reg (k_proc s rp)) /\
    (flag_any (sc_flags sc) MF_FPU_INITIALIZED = true ->
     flag_any (p_misc_flags (k_proc s' rp)) MF_FPU_INITIALIZED = true /\
     p_fpu_state (k_proc s' rp) = sc_fpu_state sc)) s.
Proof.
  intros rp sc (O1 & O2 & O3) V Hk Hu. pose proof V as (Hs & Hf & _). unfold do_sigreturn.
  apply wpx_bind, wpx_valid_endpt. rewrite decide_True by done. fold rp. rewrite Hk. apply wpx_bind.
  eapply wpx_conseq; [apply data_copy_in_pure; [done|done|done|done|done]|].
  intros r s' [-> Hr]. rewrite Hu in Hr. subst r. cbn [fst snd]. change (OK =? OK) with true. cbv iota. cbn [negb].
  fold sc. apply wpx_bind, wpx_wr; [done|]. apply wpx_bind, wpx_when; intros Hfl.
  - apply wpx_bind, wpx_wr; [done|]. apply wpx_wr; [done|]. apply wpx_ret. rewrite !upd_proc_eq.
    split_all; [done|by destruct (k_proc s rp)|]. intros _. split; [|done].
    cbn [p_misc_flags set_p_misc_flags]. change MF_FPU_INITIALIZED with (2 ^ 12).
    rewrite flag_any_bit, flag_set_bit by lia. apply orb_true_r.
  - apply wpx_ret. rewrite !upd_proc_eq. split_all; [done|by destruct (k_proc s rp)|]. by rewrite Hfl.
Qed.
