(* ===== verification/Check.v ===== *)
(** * Executable checks of the invariants

    Boolean functions that decide, on a concrete state, the invariants of the
    ready queues, of message passing, of the timers and of the interrupt hooks,
    and the proofs that they are sound.  [schedcheck]/[check_runqueues_f] of the
    kernel's debug code test the first of them. *)
From Stdlib Require Import Sorted.
From S2P Require Import Prelude PList KMonad Timers Types KState TimerIface Memory Sched SchedInv.
From S2P Require Import Notify Copy Ipc IpcInv Interrupt IrqInv ClockTask.

(** ** Following links *)

Fixpoint follow {A} (fuel : nat) (next : A -> option A) (h : option A) : option (list A) :=
  match h with
  | None => Some []
  | Some x =>
      match fuel with
      | O => None
      | S fuel' => option_map (cons x) (follow fuel' next (next x))
      end
  end.

Lemma follow_chain {A} fuel (next : A -> option A) h l : follow fuel next h = Some l -> chain next h l.
Proof.
  revert h l. induction fuel as [|fuel IH]; intros [x|] l; simpl; intros He; simplify_eq; try done.
  destruct (follow fuel next (next x)) as [l'|] eqn:El; simpl in He; simplify_eq.
  split; [done|]. by apply IH.
Qed.

Definition list_at {A} (fuel : nat) (next : A -> option A) (h : option A) : list A :=
  default [] (follow fuel next h).
Definition ends {A} (fuel : nat) (next : A -> option A) (h : option A) : bool :=
  bool_decide (is_Some (follow fuel next h)).

Lemma list_at_chain {A} fuel (next : A -> option A) h :
  ends fuel next h = true -> chain next h (list_at fuel next h).
Proof.
  intros [l Hl]%bool_decide_eq_true. apply follow_chain with fuel. unfold list_at. by rewrite Hl.
Qed.

(** A test on every element of a range. *)
Lemma forallb_slots (f : Z -> bool) : forallb f all_slots = true -> forall p, slot p -> f p = true.
Proof.
  intros H p Hp%elem_of_all_slots. rewrite forallb_forall in H. by apply H, list_elem_of_In.
Qed.
Lemma forallb_privs (f : Z -> bool) : forallb f all_privs = true -> forall p, priv_slot p -> f p = true.
Proof.
  intros H p Hp%elem_of_all_privs. rewrite forallb_forall in H. by apply H, list_elem_of_In.
Qed.
Lemma forallb_seqZ (f : Z -> bool) a n :
  forallb f (seqZ a n) = true -> forall p, a <= p < a + n -> f p = true.
Proof.
  intros H p Hp. rewrite forallb_forall in H. apply H, list_elem_of_In, elem_of_seqZ. lia.
Qed.
Lemma forallb_elem {A} (f : A -> bool) l : forallb f l = true -> forall p, p ∈ l -> f p = true.
Proof. intros H p Hp. rewrite forallb_forall in H. by apply H, list_elem_of_In. Qed.

(** ** Ready queues *)

Definition ready_next (s : kstate) (k : Z) : option Z := p_nextready (k_proc s k).
Definition rq_of (s : kstate) (q : Z) : list Z := list_at PROC_FUEL (ready_next s) (rdy_head s q).

Definition rq_check (s : kstate) : bool :=
  forallb (fun q =>
    ends PROC_FUEL (ready_next s) (rdy_head s q) &&
    bool_decide (rdy_tail s q = last (rq_of s q)) &&
    bool_decide (NoDup (rq_of s q)) &&
    forallb (fun p => bool_decide (slot p) && (flags s p =? 0) && (prio s p =? q)) (rq_of s q))
    (seqZ 0 NR_SCHED_QUEUES) &&
  forallb (fun p => negb (flags s p =? 0) || bool_decide (p ∈ rq_of s (prio s p))) all_slots.

Lemma rq_check_sound s : rq_check s = true -> rq_inv ∅ s (rq_of s).
Proof.
  unfold rq_check. intros [Hq Hp]%andb_true_iff.
  assert (Hall : forall q, queue_ok q -> ends PROC_FUEL (ready_next s) (rdy_head s q) = true /\
    rdy_tail s q = last (rq_of s q) /\ NoDup (rq_of s q) /\
    forall p, p ∈ rq_of s q -> slot p /\ flags s p = 0 /\ prio s p = q).
  { intros q Hqo. pose proof (forallb_seqZ _ _ _ Hq q Hqo) as H.
    rewrite !andb_true_iff, !bool_decide_eq_true in H. destruct H as [[[H1 H2] H3] H4].
    split_all; [done|done|done|]. intros p Hin. pose proof (forallb_elem _ _ H4 p Hin) as H.
    rewrite !andb_true_iff, bool_decide_eq_true, !Z.eqb_eq in H. tauto. }
  split.
  - intros q Hqo. apply list_at_chain, Hall, Hqo.
  - intros q Hqo. apply Hall, Hqo.
  - intros q Hqo. apply Hall, Hqo.
  - intros q p Hqo. split.
    + intros Hin. destruct (Hall q Hqo) as (_ & _ & _ & H). destruct (H p Hin) as (? & ? & ?).
      split_all; [done|apply not_elem_of_empty|done|done].
    + intros (Hs & _ & Hf & Hpr). pose proof (forallb_slots _ Hp p Hs) as H. cbv beta in H.
      rewrite Hf, Hpr in H. simpl in H. by apply bool_decide_eq_true in H.
Qed.

Definition sched_wf_check (s : kstate) : bool :=
  forallb (fun p => bool_decide (queue_ok (prio s p)) && bool_decide (queue_ok (p_max_priority (k_proc s p))) &&
    match p_priv (k_proc s p) with
    | Some i => bool_decide (priv_slot i)
    | None => Z.testbit (flags s p) 0 || Z.testbit (flags s p) 7
    end) all_slots &&
  match proc_ptr s with
  | Some c => bool_decide (slot c) && bool_decide (is_Some (p_priv (k_proc s c)))
  | None => false
  end &&
  (0 <=? locklevel s) && (intr_off s || (locklevel s =? 0)).

Lemma sched_wf_check_sound s : sched_wf_check s = true -> sched_wf s.
Proof.
  unfold sched_wf_check. rewrite !andb_true_iff. intros [[[H1 H2] H3] H4].
  pose proof (forallb_slots _ H1) as Hp. split.
  - intros p Hs. specialize (Hp p Hs). rewrite !andb_true_iff, !bool_decide_eq_true in Hp. tauto.
  - intros p Hs. specialize (Hp p Hs). rewrite !andb_true_iff in Hp. destruct Hp as [_ Hp].
    unfold priv_ok. destruct (p_priv (k_proc s p)); [by apply bool_decide_eq_true in Hp|].
    by apply orb_true_iff in Hp.
  - destruct (proc_ptr s) as [c|]; [|done]. rewrite andb_true_iff, !bool_decide_eq_true in H2.
    destruct H2 as [Hc [i Hi]]. by exists c, i.
  - apply Z.leb_le in H3. split; [done|]. intros Ho. rewrite Ho in H4. by apply Z.eqb_eq in H4.
Qed.

Definition sched_check (s : kstate) : bool := sched_wf_check s && rq_check s.

Lemma sched_check_sound s : sched_check s = true -> sched_inv s.
Proof.
  intros [H1 H2]%andb_true_iff. split; [by apply sched_wf_check_sound|].
  exists (rq_of s). by apply rq_check_sound.
Qed.

(** ** Message passing *)

Definition ipc_wf_check (s : kstate) : bool :=
  forallb (fun p =>
    (p_nr (k_proc s p) =? p) && (_ENDPOINT_P (endpt s p) =? p) &&
    (is_free s p || match p_priv (k_proc s p) with
                    | Some i => bool_decide (priv_slot i) && bool_decide (slot (s_proc_nr (k_priv s i)))
                    | None => false
                    end) &&
    Bool.eqb (Z.testbit (flags s p) 0) (is_free s p)) all_slots &&
  forallb (fun i =>
    (s_id (k_priv s i) =? i) &&
    ((s_proc_nr (k_priv s i) =? NONE) ||
     (bool_decide (slot (s_proc_nr (k_priv s i))) && negb (is_free s (s_proc_nr (k_priv s i))))))
    all_privs &&
  match proc_ptr s with Some c => bool_decide (slot c) && negb (is_free s c) | None => true end &&
  negb (is_free s SYSTEM) && bool_decide (slot (who_p s)).

Lemma ipc_wf_check_sound s : ipc_wf_check s = true -> ipc_wf s.
Proof.
  unfold ipc_wf_check. rewrite !andb_true_iff. intros [[[[H1 H2] H3] H4] H5].
  pose proof (forallb_slots _ H1) as Hp. pose proof (forallb_privs _ H2) as Hi.
  assert (Hp' : forall p, slot p -> p_nr (k_proc s p) = p /\ _ENDPOINT_P (endpt s p) = p /\
    (is_free s p || match p_priv (k_proc s p) with
                    | Some i => bool_decide (priv_slot i) && bool_decide (slot (s_proc_nr (k_priv s i)))
                    | None => false
                    end) = true /\ Z.testbit (flags s p) 0 = is_free s p).
  { intros p Hs. specialize (Hp p Hs). rewrite !andb_true_iff, !Z.eqb_eq in Hp.
    destruct Hp as [[[? ?] ?] He]. apply Bool.eqb_prop in He. done. }
  split; try (intros p Hs; by apply Hp').
  - intros p Hs Hf. destruct (Hp' p Hs) as (_ & _ & H & _). rewrite Hf in H. simpl in H.
    destruct (p_priv (k_proc s p)) as [i|]; [|done].
    rewrite andb_true_iff, !bool_decide_eq_true in H. exists i. tauto.
  - intros i Hs. specialize (Hi i Hs). rewrite andb_true_iff, Z.eqb_eq in Hi. tauto.
  - intros i Hs. specialize (Hi i Hs).
    rewrite andb_true_iff, orb_true_iff, andb_true_iff, !Z.eqb_eq, bool_decide_eq_true, negb_true_iff in Hi.
    tauto.
  - intros c Hc. rewrite Hc in H3. rewrite andb_true_iff, bool_decide_eq_true, negb_true_iff in H3. done.
  - by apply negb_true_iff in H4.
  - by apply bool_decide_eq_true in H5.
Qed.

(** Caller queues. *)
Definition q_next (s : kstate) (k : Z) : option Z := p_q_link (k_proc s k).
Definition cq_of (s : kstate) (d : Z) : list Z := list_at PROC_FUEL (q_next s) (p_caller_q (k_proc s d)).
#[export] Instance alive_dec s d : Decision (alive s d).
Proof. unfold alive. apply _. Defined.

(** [x] is a sender queued at [d]. *)
Definition sends_at (s : kstate) (x d : Z) : bool :=
  if sending s x then p_sendto_e (k_proc s x) =? endpt s d else false.

Definition cq_check (s : kstate) : bool :=
  forallb (fun d => if bool_decide (alive s d) then
     ends PROC_FUEL (q_next s) (p_caller_q (k_proc s d)) && bool_decide (NoDup (cq_of s d)) &&
     forallb (fun x => bool_decide (slot x) && sends_at s x d) (cq_of s d) &&
     forallb (fun x => if sends_at s x d then bool_decide (x ∈ cq_of s d) else true) all_slots
     else true) all_slots.

Lemma cq_check_sound s : cq_check s = true -> cq_inv s (cq_of s).
Proof.
  intros H. pose proof (forallb_slots _ H) as Hd.
  assert (Hall : forall d, alive s d -> ends PROC_FUEL (q_next s) (p_caller_q (k_proc s d)) = true /\
    NoDup (cq_of s d) /\ (forall x, x ∈ cq_of s d -> slot x /\ sends_at s x d = true) /\
    (forall x, slot x -> sends_at s x d = true -> x ∈ cq_of s d)).
  { intros d Ha. specialize (Hd d (proj1 Ha)). cbv beta in Hd.
    rewrite (bool_decide_eq_true_2 _ Ha) in Hd. cbv iota in Hd.
    rewrite !andb_true_iff, bool_decide_eq_true in Hd. destruct Hd as [[[H1 H2] H3] H4].
    split_all; [done|done| |].
    - intros x Hx. pose proof (forallb_elem _ _ H3 x Hx) as Hb. cbv beta in Hb.
      rewrite andb_true_iff, bool_decide_eq_true in Hb. done.
    - intros x Hx Hb. pose proof (forallb_slots _ H4 x Hx) as Hm. cbv beta in Hm.
      rewrite Hb in Hm. by apply bool_decide_eq_true in Hm. }
  split.
  - intros d Ha. by apply list_at_chain, Hall.
  - intros d Ha. by apply Hall.
  - intros d x Ha. destruct (Hall d Ha) as (_ & _ & H1 & H2). unfold sends_at in *. split.
    + intros Hx. destruct (H1 x Hx) as [? Hb]. destruct (sending s x); [|done].
      by apply Z.eqb_eq in Hb.
    + intros (Hx & Hs & He). apply H2; [done|]. by rewrite Hs, He, Z.eqb_refl.
Qed.

(** Partners: the endpoint a process waits for is the one in the slot it names. *)
Definition partner_check (s : kstate) (e : Z) : bool :=
  bool_decide (slot (_ENDPOINT_P e)) && negb (is_free s (_ENDPOINT_P e)) && (endpt s (_ENDPOINT_P e) =? e).

Definition partners_check (s : kstate) : bool :=
  forallb (fun x =>
    (negb (sending s x) || (partner_check s (p_sendto_e (k_proc s x)) &&
                            negb (no_endpoint s (_ENDPOINT_P (p_sendto_e (k_proc s x)))))) &&
    (negb (receiving s x) || (p_getfrom_e (k_proc s x) =? ANY) || partner_check s (p_getfrom_e (k_proc s x))) &&
    (negb (sending s x) || negb (receiving s x) || (p_getfrom_e (k_proc s x) =? p_sendto_e (k_proc s x))))
    all_slots.

Lemma partner_check_sound s e : partner_check s e = true ->
  exists d, slot d /\ is_free s d = false /\ e = endpt s d /\ d = _ENDPOINT_P e.
Proof.
  unfold partner_check. rewrite !andb_true_iff, bool_decide_eq_true, negb_true_iff, Z.eqb_eq.
  intros [[H1 H2] H3]. by exists (_ENDPOINT_P e).
Qed.

Lemma partners_check_sound s : partners_check s = true -> partners_ok s.
Proof.
  intros H. pose proof (forallb_slots _ H) as Hx.
  assert (Hx' : forall x, slot x ->
    (negb (sending s x) || (partner_check s (p_sendto_e (k_proc s x)) &&
       negb (no_endpoint s (_ENDPOINT_P (p_sendto_e (k_proc s x)))))) = true /\
    (negb (receiving s x) || (p_getfrom_e (k_proc s x) =? ANY) || partner_check s (p_getfrom_e (k_proc s x))) = true /\
    (negb (sending s x) || negb (receiving s x) || (p_getfrom_e (k_proc s x) =? p_sendto_e (k_proc s x))) = true).
  { intros x Hs. specialize (Hx x Hs). rewrite !andb_true_iff in Hx. tauto. }
  clear H Hx. split.
  - intros x Hs Hsend. destruct (Hx' x Hs) as (H & _ & _). rewrite Hsend in H. cbn [negb orb] in H.
    apply andb_true_iff in H as [(d & Hd & Hf & He & Hde)%partner_check_sound Hn%negb_true_iff].
    exists d. rewrite <- Hde in Hn. by split.
  - intros x Hs Hr Ha. destruct (Hx' x Hs) as (_ & H & _). rewrite Hr in H.
    rewrite (proj2 (Z.eqb_neq _ _) Ha) in H. cbn [negb orb] in H.
    apply partner_check_sound in H as (d & Hd & Hf & He & _). by exists d.
  - intros x Hs Hsend Hr. destruct (Hx' x Hs) as (_ & _ & H). rewrite Hsend, Hr in H. by apply Z.eqb_eq.
Qed.

(** No cycle of waiting processes: from every process the chain ends. *)
Definition acyclic_check (s : kstate) : bool :=
  forallb (fun x => ends PROC_FUEL (waits s) (Some x)) all_slots.

Lemma cycle_never_ends s x fuel : tc (W s) x x -> follow fuel (waits s) (Some x) = None.
Proof.
  revert x. induction fuel as [|fuel IH]; intros x Hx; [done|]. simpl.
  assert (exists y, waits s x = Some y /\ tc (W s) y y) as (y & Hy & Hc).
  { inversion Hx as [? ? Hxy|? y ? Hxy Hyx]; subst.
    - exists x. split; [apply Hxy|done].
    - exists y. split; [apply Hxy|]. eapply tc_r; [exact Hyx|done]. }
  by rewrite Hy, IH.
Qed.

Lemma acyclic_check_sound s : acyclic_check s = true -> acyclic (W s).
Proof.
  intros H x Hx. assert (Hs : slot x) by (inversion Hx as [? ? []|? ? ? []]; done).
  pose proof (forallb_slots _ H x Hs) as He. cbv beta in He. unfold ends in He.
  rewrite (cycle_never_ends s x PROC_FUEL Hx) in He. by apply bool_decide_eq_true in He as [? ?].
Qed.

Definition ipc_check (s : kstate) : bool :=
  sched_check s && ipc_wf_check s && partners_check s && acyclic_check s && cq_check s.

Lemma ipc_check_sound s :
  ipc_check s = true -> (forall i, priv_slot i -> forall c, s_notify_pending (k_priv s i) c = 0) -> ipc_inv s.
Proof.
  unfold ipc_check. rewrite !andb_true_iff. intros [[[[H1 H2] H3] H4] H5] Hp.
  split; [by apply sched_check_sound|]. split.
  - split; [by apply ipc_wf_check_sound|by apply partners_check_sound|by apply acyclic_check_sound|].
    exists (cq_of s). by apply cq_check_sound.
  - intros i Hi. split; [intros c; by rewrite Hp|]. intros _ j Hj. unfold get_sys_bit.
    by rewrite Hp, Z.testbit_0_l by done.
Qed.

(** ** Timers *)

Definition t_next (s : kstate) (k : tmr_ref) : option tmr_ref := tmr_next (tm (clock_timers s) k).
Definition tq_of (s : kstate) : list tmr_ref := list_at TIMER_FUEL (t_next s) (tq (clock_timers s)).

Fixpoint sorted_check (time : tmr_ref -> Z) (l : list tmr_ref) : bool :=
  match l with
  | [] => true
  | x :: l' => forallb (fun y => time x <=? time y) l' && sorted_check time l'
  end.

Lemma sorted_check_sound (st : tstate tmr_ref watchdog) l : sorted_check (exp_of st) l = true -> StronglySorted (exp_le st) l.
Proof.
  induction l as [|x l IH]; simpl; [constructor|]. intros [H1 H2]%andb_true_iff.
  constructor; [by apply IH|]. apply Forall_forall. intros y Hy.
  pose proof (forallb_elem _ _ H1 y Hy) as H. by apply Z.leb_le.
Qed.

Definition timers_check (s : kstate) : bool :=
  ends TIMER_FUEL (t_next s) (tq (clock_timers s)) && bool_decide (NoDup (tq_of s)) &&
  sorted_check (exp_of (clock_timers s)) (tq_of s) &&
  forallb (fun k => bool_decide (timer_ok k)) (tq_of s) &&
  (next_timeout s =? first_timeout (clock_timers s)).

Lemma timers_check_sound s : timers_check s = true -> timers_rep s (tq_of s).
Proof.
  unfold timers_check. rewrite !andb_true_iff, !bool_decide_eq_true, Z.eqb_eq.
  intros [[[[H1 H2] H3] H4] H5]. split; [|done]. split.
  - split; [by apply list_at_chain|done|by apply sorted_check_sound].
  - intros k Hk. pose proof (forallb_elem _ _ H4 k Hk) as H. by apply bool_decide_eq_true in H.
Qed.

(** ** Interrupt hooks *)

Definition h_next (s : kstate) (k : Z) : option Z := hk_next (irq_hooks s k).
Definition line_of (s : kstate) (i : Z) : list Z := list_at HOOK_FUEL (h_next s) (irq_handlers s i).
Definition id_ok (s : kstate) (h : Z) : bool :=
  existsb (fun n => hk_id_of s h =? 2 ^ n) (seqZ 0 17).

Definition irq_check (s : kstate) : bool :=
  forallb (fun i =>
    ends HOOK_FUEL (h_next s) (irq_handlers s i) && bool_decide (NoDup (line_of s i)) &&
    forallb (fun h => bool_decide (hook_ok h) && (hk_irq (irq_hooks s h) =? i) && id_ok s h) (line_of s i) &&
    bool_decide (NoDup (hk_id_of s <$> line_of s i)) &&
    Bool.eqb (Z.testbit (irq_use s) i) (bool_decide (line_of s i <> [])) &&
    (irq_actids s i =? 0))
    (seqZ 0 NR_IRQ_VECTORS).

Lemma NoDup_fmap_inj {A B} (f : A -> B) l x y :
  NoDup (f <$> l) -> x ∈ l -> y ∈ l -> f x = f y -> x = y.
Proof.
  induction l as [|z l IH]; intros Hn Hx Hy Hf; [set_solver|].
  apply NoDup_cons in Hn as [Hz Hn].
  apply elem_of_cons in Hx as [->|Hx]; apply elem_of_cons in Hy as [->|Hy]; try done.
  - destruct Hz. rewrite Hf. by apply list_elem_of_fmap_2.
  - destruct Hz. rewrite <- Hf. by apply list_elem_of_fmap_2.
  - by apply IH.
Qed.

Lemma irq_check_sound s : irq_check s = true -> irq_inv s (line_of s).
Proof.
  intros H.
  assert (Hall : forall i, irq_ok i -> ends HOOK_FUEL (h_next s) (irq_handlers s i) = true /\
    NoDup (line_of s i) /\
    (forall h, h ∈ line_of s i -> hook_ok h /\ hk_irq (irq_hooks s h) = i /\ id_ok s h = true) /\
    NoDup (hk_id_of s <$> line_of s i) /\
    Z.testbit (irq_use s) i = bool_decide (line_of s i <> []) /\ irq_actids s i = 0).
  { intros i Hi. pose proof (forallb_seqZ _ _ _ H i Hi) as Hb. cbv beta in Hb.
    rewrite !andb_true_iff, !bool_decide_eq_true, Z.eqb_eq in Hb.
    destruct Hb as [[[[[H1 H2] H3] H4] H5] H6]. apply Bool.eqb_prop in H5.
    split_all; [done|done| |done|done|done]. intros h Hh.
    pose proof (forallb_elem _ _ H3 h Hh) as Hb. cbv beta in Hb.
    rewrite !andb_true_iff, bool_decide_eq_true, Z.eqb_eq in Hb. tauto. }
  split.
  - intros i Hi. by apply list_at_chain, Hall.
  - intros i Hi. by apply Hall.
  - intros i h Hi Hh. destruct (Hall i Hi) as (_ & _ & Hm & _). destruct (Hm h Hh). tauto.
  - intros i h Hi Hh. destruct (Hall i Hi) as (_ & _ & Hm & _). destruct (Hm h Hh) as (_ & _ & He).
    apply existsb_exists in He as (n & Hn%list_elem_of_In%elem_of_seqZ & He%Z.eqb_eq). exists n. split; [lia|done].
  - intros i h h' Hi Hh Hh' He. eapply NoDup_fmap_inj; [by apply Hall, Hi|done..].
  - intros i Hi. by apply Hall.
  - intros i n Hi Hn. destruct (Hall i Hi) as (_ & _ & _ & _ & _ & ->). by rewrite Z.testbit_0_l.
  - intros i Hi. destruct (Hall i Hi) as (_ & _ & _ & _ & _ & ->). done.
Qed.
