(* ===== verification/Demo.v ===== *)
(** * A concrete state of the kernel

    The kernel tasks, the servers PM, VFS, RS and VM, [init] and three user
    processes.  Processes 11 and 12 are ready at priority 7 with deadlines, [init]
    is ready at priority 8, process 13 is blocked sending to process 11.  The
    clock has fired at time 100 and line 0 has the timer's hook.  The checks of
    Check.v evaluate on it: the invariants are satisfiable, and the theorems have
    an instance. *)
From S2P Require Import Prelude PList KMonad Timers Types KState TimerIface Memory Sched SchedInv.
From S2P Require Import Notify Copy Ipc IpcInv IpcSafe Clock Interrupt IrqInv System SendMask ClockTask Check.

(** The processes that exist. *)
Definition demo_live : list Z := [IDLE; CLOCK; SYSTEM; HARDWARE; PM_PROC_NR; VFS_PROC_NR; RS_PROC_NR;
  VM_PROC_NR; INIT_PROC_NR; 11; 12; 13].

Definition demo_flags (n : Z) : Z :=
  if bool_decide (n ∈ [IDLE; HARDWARE]) then RTS_PROC_STOP
  else if bool_decide (n ∈ [CLOCK; SYSTEM; PM_PROC_NR; VFS_PROC_NR; RS_PROC_NR; VM_PROC_NR]) then RTS_RECEIVING
  else if n =? 13 then RTS_SENDING
  else if bool_decide (n ∈ [INIT_PROC_NR; 11; 12]) then 0
  else RTS_SLOT_FREE.

Definition demo_priv_of (n : Z) : option Z :=
  if bool_decide (n ∈ demo_live) then Some (if n <? INIT_PROC_NR then static_priv_id n else USER_PRIV_ID)
  else None.

Definition demo_map : mem_map := mk_mem_map 0 256 16.

Definition demo_proc (n : Z) : proc :=
  let p := set_p_nr n (set_p_endpoint n null_proc) in
  let p := set_p_rts_flags (demo_flags n) (set_p_priv (demo_priv_of n) p) in
  let p := set_p_map_D demo_map (set_p_map_S (mk_mem_map 16 272 4) p) in
  let p := set_p_quantum_size 8 (set_p_ticks_left 8 p) in
  let p := if bool_decide (n ∈ [11; 12]) then set_p_priority 7 (set_p_max_priority 7 p)
           else if n <? 10 then set_p_priority 1 (set_p_max_priority 1 p)
           else set_p_priority 8 (set_p_max_priority 7 p) in
  let p := set_p_getfrom_e ANY p in
  if n =? 11 then set_p_caller_q (Some 13) (set_p_nextready (Some 12) p)
  else if n =? 13 then set_p_sendto_e 11 p
  else p.

(** Every live structure may send to every other. *)
Definition demo_ids : list Z := [0; 1; 2; 3; 4; 5; 6; 12; 14].
Definition demo_mask (i : Z) : bitmap :=
  foldr (fun j map => if j =? i then map else set_sys_bit map j) (fun _ => 0) demo_ids.

Definition demo_priv (i : Z) : priv :=
  mk_priv (if bool_decide (i ∈ demo_ids) then i - NR_TASKS else NONE) i
    (if i =? USER_PRIV_ID then Z.lor PREEMPTIBLE BILLABLE
     else if i <? NR_TASKS then SYS_PROC else Z.lor SYS_PROC PREEMPTIBLE)
    0 0 0xFFFF (demo_mask i) (fun _ => 0xFFFF) (fun _ => 0) 0 0 (fun _ => mk_far_mem 0 0 0)
    0 (fun _ => (0, 0)) 0 (fun _ => (0, 0)) 0 (fun _ => 0) 0 0.

Definition demo_timers : tstate tmr_ref watchdog :=
  mk_tstate (fun k =>
    match k with
    | TDeadline n =>
        if n =? 12 then mk_timer (Some (TDeadline 11)) 300 W_reach_deadline 12
        else if n =? 11 then mk_timer (Some TQueue) 500 W_reach_deadline 11
        else mk_timer None 0 W_none 0
    | TQueue => mk_timer None 600 W_balance_queues 0
    | TAlarm _ => mk_timer None TMR_NEVER W_none 0
    | TShutdown => mk_timer None TMR_NEVER W_none 0
    end) (Some (TDeadline 12)).

Definition demo_hook (h : Z) : irq_hook_t :=
  if h =? PIC_TIMER_HOOK then mk_irq_hook None H_bsp_timer CLOCK_IRQ 1 NONE 0 0
  else mk_irq_hook None H_generic 0 0 NONE 0 0.

Definition demo : kstate := {|
  k_proc := demo_proc;
  k_priv := demo_priv;
  rdy_head := fun q => if q =? 7 then Some 11 else if q =? 8 then Some 10 else None;
  rdy_tail := fun q => if q =? 7 then Some 12 else if q =? 8 then Some 10 else None;
  proc_ptr := Some 11;
  bill_ptr := Some 11;
  vmrestart := None;
  vmrequest := None;
  pagefaults := None;
  sched_type := 2;
  lost_ticks := 0;
  realtime := 100;
  next_timeout := 300;
  clock_timers := demo_timers;
  intr_off := false;
  locklevel := 0;
  system_hz := 60;
  boottime := 0;
  load_history := fun _ => 0;
  load_last_slot := 0;
  load_last_clock := 0;
  who_e := 0;
  who_p := 0;
  sys_call_code := 0;
  irq_hooks := demo_hook;
  irq_handlers := fun i => if i =? CLOCK_IRQ then Some PIC_TIMER_HOOK else None;
  irq_actids := fun _ => 0;
  irq_use := 1;
  irq_masked := fun _ => false;
  rand_next := 1;
  tsc_lo := 12345;
  minix_panicing := 0;
  vm_running := false;
  ptproc := None;
  osfxsr_feature := true;
  map_info := fun _ => mk_map_info 0 0 0 0 0 0 0 0 0;
  mem := fun _ => 0 |}.

Lemma demo_ipc : ipc_inv demo.
Proof. apply ipc_check_sound; [vm_compute; reflexivity|done]. Qed.

Lemma demo_sched : sched_inv demo.
Proof. apply demo_ipc. Qed.

Lemma demo_wf : sched_wf demo.
Proof. apply demo_sched. Qed.

Lemma demo_rq : rq_inv ∅ demo (rq_of demo).
Proof. apply rq_check_sound. vm_compute. reflexivity. Qed.

Lemma demo_cq : cq_inv demo (cq_of demo).
Proof. apply cq_check_sound. vm_compute. reflexivity. Qed.

Lemma demo_timers_rep : timers_rep demo (tq_of demo).
Proof. apply timers_check_sound. vm_compute. reflexivity. Qed.

Lemma demo_irq : irq_inv demo (line_of demo).
Proof. apply irq_check_sound. vm_compute. reflexivity. Qed.

(** The state as seen by the kernel: interrupts are off while it runs. *)
Definition demo_kernel : kstate := set_lock true 1 demo.

Lemma demo_kernel_ipc : ipc_inv demo_kernel.
Proof. apply set_lock_ipc; [by split|apply demo_ipc]. Qed.
