(* ===== verification/Dispatch.v ===== *)
(** * Choosing the next process to run ([schedcheck])

    [pick_new] puts a process that lost the processor back on its queue and takes the
    process [pick_proc] returns; [schedcheck] delivers the message that waits for it
    before it runs.  A delivery that faults blocks the process, and another one is
    picked: the loop ends because every turn delivers a message or blocks a process on
    VM. *)
From S2P Require Import Prelude PList KMonad Timers Types KState Memory Sched SchedInv Balance.
From S2P Require Import PickProc PickSpec.
From S2P Require Import Notify Copy Ipc IpcInv IpcSafe CopySafe IpcTop.

Lemma ipc_inv_bill o s : ipc_inv s -> ipc_inv (set_bill_ptr o s).
Proof. by apply ipc_inv_same. Qed.

Lemma ipc_inv_rand v s : ipc_inv s -> ipc_inv (set_rand_next v s).
Proof. by apply ipc_inv_same. Qed.

Lemma ipc_inv_current c s :
  slot c -> is_free s c = false -> ipc_inv s -> ipc_inv (set_proc_ptr (Some c) s).
Proof.
  intros Hc Hf ([[W1 W2 _ W4] [Q [Q1 Q2 Q3 Q4]]] &
    [[I1 I2 I3 I4 I5 _ I7 I8 I9] [P1 P2 P3] A [C [C1 C2 C3]]] & Hp).
  split; [split; [split; try done|exists Q; by split]|split; [split; [split; try done|by split|exact A|
    exists C; by split]|exact Hp]].
  - destruct (I3 c Hc Hf) as (i & Hi & _). by exists c, i.
  - intros c' [= <-]. done.
Qed.

(** ** Taking the processor from the current process *)

(** The [PREEMPTED] flag is cleared by hand, and the process put at the head of its
    queue when nothing else blocks it. *)
Lemma requeue_wp E s c :
  ipc_inv s -> slot c -> is_free s c = false -> flag_any (flags s c) RTS_PREEMPTED = true ->
  wpx E (do! wr c (fun p => set_p_rts_flags (flag_clear (p_rts_flags p) RTS_PREEMPTED) p);
         do r <- proc_is_runnable c;
         when r (enqueue_head c))
    (fun _ s' => good s s' /\ rts_step c (flag_clear (flags s c) RTS_PREEMPTED) s s') s.
Proof.
  intros Hi Hc Hf Hp. pose proof Hi as [[Hw [Q HQ]] [Hcore _]].
  assert (Hn0 : flags s c <> 0) by (intros E0; by rewrite E0 in Hp).
  apply wpx_bind, wpx_wr; [done|]. fold (unset_flags c RTS_PREEMPTED s). set (s1 := unset_flags c RTS_PREEMPTED s).
  assert (HQ1 : rq_inv {[c]} s1 Q)
    by (apply rq_inv_upd_transit; [set_solver|done|by apply rq_inv_add]).
  assert (Hw1 : sched_wf s1) by (apply unset_flags_wf; [done|done|by eapply unset_ok_live; [apply Hcore|..]]).
  assert (R1 : rts_changed c (flag_clear (flags s c) RTS_PREEMPTED) s s1)
    by apply (rts_changed_upd' c (fun x => flag_clear x RTS_PREEMPTED)).
  assert (Hg : forall s', sched_inv s' -> rts_step c (flag_clear (flags s c) RTS_PREEMPTED) s s' ->
    good s s' /\ rts_step c (flag_clear (flags s c) RTS_PREEMPTED) s s').
  { intros s' Hs' R. split; [|done]. apply (rts_step_good c _ s s' Hi Hs' R).
    apply flags_ok_clear; [apply Hcore|done..|by left]. }
  apply wpx_bind, wpx_proc_is_runnable; [done|]. fold (flags s1 c).
  apply wpx_when; intros Hr.
  - apply Z.eqb_eq in Hr.
    eapply wpx_conseq; [apply (enqueue_head_wp E {[c]} s1 Q c); [done|by apply Hw1|done|set_solver|done]|].
    intros u s2 [HQ2 Hl]. apply Hg.
    + split; [|exists (q_insert c (prio s1 c) true Q);
        by replace (({[c]} : gset Z) ∖ {[c]}) with (∅ : gset Z) in HQ2 by set_solver].
      apply (sched_wf_frame s1); [done|by apply only_links_sched_frame| |].
      * intros p Hps. rewrite (links_prio s1 s2) by done. by apply Hw1.
      * intros p n _ _. by rewrite (links_flags s1 s2).
    + destruct (rts_changed_step _ _ _ _ R1) as [F1 F2 F3 F4]. split.
      * etrans; [exact F1|by apply only_links_sched_frame].
      * by rewrite (links_flags s1 s2).
      * intros p Hch. apply F3 in Hch. unfold char_okp in *.
        by rewrite (links_field p_quantum_size s1 s2), (links_field p_ticks_left s1 s2) by done.
      * intros p Hne. rewrite (links_flags s1 s2) by done. by apply F4.
  - apply Z.eqb_neq in Hr. apply Hg; [|by apply rts_changed_step].
    split; [done|]. exists Q. apply (rq_inv_drop {[c]}); [set_solver| |done].
    intros p Hp' _. by apply elem_of_singleton in Hp' as ->.
Qed.

(** ** What the dispatcher keeps *)

(** The global variables but the process to bill. *)
Definition glob0 (s : kstate) :=
  ((clock_timers s, next_timeout s, realtime s, lost_ticks s), sched_type s,
   (system_hz s, minix_panicing s), irq_view s).

Definition bill_live (s : kstate) (o : option Z) : Prop :=
  exists b, o = Some b /\ slot b /\ is_free s b = false.

Record disp (s s' : kstate) : Prop := mk_disp {
  dp_free p : is_free s' p = is_free s p;
  dp_endpt p : endpt s' p = endpt s p;
  dp_sig p : no_new_sig (k_proc s p) (k_proc s' p);
  dp_glob : glob0 s' = glob0 s;
  dp_bill : bill_ptr s' = bill_ptr s \/ bill_live s (bill_ptr s');
  dp_lock : lock_same s s' }.

#[export] Instance disp_po : PreOrder disp.
Proof.
  split; [intros s; split; auto; by split|]. intros x y z [A1 A2 A3 A4 A5 A6] [B1 B2 B3 B4 B5 B6]. split.
  - intros p. by rewrite B1.
  - intros p. by rewrite B2.
  - intros p n Hn H. by apply A3, B3.
  - by rewrite B4.
  - destruct B5 as [->|(b & Hb & Hs & Hf)]; [done|right]. exists b. by rewrite <- A1.
  - destruct A6, B6. split; congruence.
Qed.

Lemma good_disp s s' : good s s' -> disp s s'.
Proof.
  intros [_ H]. pose proof (is_glob _ _ H) as Eg. unfold glob_view in Eg. split.
  - intros p. by apply weak_free.
  - intros p. by apply weak_endpt.
  - apply (is_delay _ _ H).
  - unfold glob0. congruence.
  - left. congruence.
  - apply (is_lock _ _ H).
Qed.

(** A process waits for VM ([RTS_VMREQUEST]). *)
Definition vmwait (s : kstate) (p : Z) : bool := Z.testbit (flags s p) 11.
Definition pending_msg (p : proc) : bool := flag_any (p_misc_flags p) MF_DELIVERMSG.

(** No message has become pending, and no process stopped waiting for VM or started
    to receive. *)
Record still (s s' : kstate) : Prop := mk_still {
  st_misc p : p_misc_flags (k_proc s' p) = p_misc_flags (k_proc s p);
  st_vm p : vmwait s' p = vmwait s p;
  st_recv p : receiving s' p = true -> receiving s p = true }.

#[export] Instance still_po : PreOrder still.
Proof.
  split; [by split|]. intros x y z [A1 A2 A3] [B1 B2 B3]. split.
  - intros p. by rewrite B1.
  - intros p. by rewrite B2.
  - auto.
Qed.

Lemma rts_step_still rp v s s' :
  rts_step rp v s s' -> Z.testbit v 11 = vmwait s rp -> (Z.testbit v 3 = true -> receiving s rp = true) ->
  still s s'.
Proof.
  intros [F1 F2 _ F4] H11 H3.
  assert (Hbit : forall p n, p <> rp -> n = 3 \/ n = 11 ->
    Z.testbit (flags s' p) n = Z.testbit (flags s p) n).
  { intros p n Hp Hn. destruct (F4 p Hp) as [->|[_ ->]]; [done|]. apply bit_preempted; lia. }
  split.
  - intros p. by apply (frame_field p_misc_flags).
  - intros p. unfold vmwait. destruct (decide (p = rp)) as [->|Hp]; [by rewrite F2|].
    apply Hbit; [done|by right].
  - intros p. unfold receiving. destruct (decide (p = rp)) as [->|Hp]; [by rewrite F2|].
    rewrite Hbit; [done|done|by left].
Qed.

Lemma clear_still_bits s rp f :
  Z.testbit f 11 = false ->
  Z.testbit (flag_clear (flags s rp) f) 11 = vmwait s rp /\
  (Z.testbit (flag_clear (flags s rp) f) 3 = true -> receiving s rp = true).
Proof.
  intros H. unfold flag_clear, vmwait, receiving. rewrite !Z.ldiff_spec, H. simpl.
  rewrite andb_true_r. split; [done|]. by intros [? _]%andb_true_iff.
Qed.

(** ** [pick_new] *)

Lemma same_still s s' : k_proc s' = k_proc s -> still s s'.
Proof. intros H. by split; intros p; unfold vmwait, receiving, flags; rewrite H. Qed.

Lemma billed_disp s o : (forall p, o = Some p -> slot p /\ is_free s p = false) -> disp s (billed s o).
Proof.
  intros Ho. destruct o as [p|]; [|reflexivity]. simpl. destruct (billable s p); [|reflexivity].
  split; try done. right. exists p. by destruct (Ho p eq_refl).
Qed.

Lemma billed_fields s o : k_proc (billed s o) = k_proc s /\ k_priv (billed s o) = k_priv s.
Proof. destruct o as [p|]; [|done]. simpl. by destruct (billable s p). Qed.

Lemma ipc_inv_billed s o : ipc_inv s -> ipc_inv (billed s o).
Proof. intros Hi. destruct o as [p|]; [|done]. simpl. destruct (billable s p); [by apply ipc_inv_bill|done]. Qed.

Lemma ready_not_free s p : flags s p = 0 -> is_free s p = false.
Proof. unfold is_free. by intros ->. Qed.

(** The state after [pick_proc]: what it is billed to and, perhaps, a new seed. *)
Lemma picked_wp E s :
  ipc_inv s -> 0 <= sched_type s <= 2 ->
  wpx E pick_proc (fun o s' => ipc_inv s' /\ disp s s' /\ k_proc s' = k_proc s /\ pick_ok s o) s.
Proof.
  intros Hi Ht. destruct (pick_proc_done s (proj1 Hi) Ht) as (o & s' & Hr & Hs' & Ho).
  eapply wpx_done; [exact Hr|].
  assert (Hlive : forall p, o = Some p -> slot p /\ is_free s p = false).
  { intros p ->. destruct Ho as [H1 H2]. split; [done|by apply ready_not_free]. }
  destruct Hs' as [->| ->].
  - split; [by apply ipc_inv_billed|split; [by apply billed_disp|]]. split; [apply billed_fields|done].
  - assert (D : disp s (seeded s)) by (split; auto; by split).
    split; [apply ipc_inv_billed; by apply ipc_inv_rand|split; [etrans; [exact D|by apply billed_disp]|]].
    split; [apply (billed_fields (seeded s))|done].
Qed.

Record picked (s s' : kstate) (o : option Z) : Prop := mk_picked {
  pk_inv : ipc_inv s';
  pk_disp : disp s s';
  pk_still : still s s';
  pk_next : match o with
            | Some p => proc_ptr s' = Some p /\ slot p /\ flags s' p = 0
            | None => proc_ptr s' = Some IDLE /\ none_ready s'
            end }.

(** The current process is requeued if it was preempted or out of quantum. *)
Lemma pick_requeue_wp {A} E s c (k : K A) (Q : A -> kstate -> Prop) :
  ipc_inv s -> slot c -> is_free s c = false ->
  (forall s', good s s' -> still s s' -> wpx E k Q s') ->
  wpx E (do fl <- rd c p_rts_flags;
         do! when (flag_any fl RTS_PREEMPTED) (
           do! wr c (fun p => set_p_rts_flags (flag_clear (p_rts_flags p) RTS_PREEMPTED) p);
           do r <- proc_is_runnable c;
           when r (enqueue_head c));
         do fl <- rd c p_rts_flags;
         do! when (flag_any fl RTS_NO_QUANTUM) (RTS_UNSET c RTS_NO_QUANTUM);
         k) Q s.
Proof.
  intros Hi Hc Hf Hk. apply wpx_bind, wpx_rd; [done|]. fold (flags s c).
  apply wpx_bind. eapply (wpx_conseq _ _ (fun _ s1 => good s s1 /\ still s s1)).
  { apply wpx_when; intros Hp; [|by split; [apply good_refl|reflexivity]].
    eapply wpx_conseq; [by apply requeue_wp|]. intros u s1 [G R]. split; [done|].
    by destruct (clear_still_bits s c RTS_PREEMPTED eq_refl); eapply rts_step_still. }
  intros u s1 [G1 S1]. apply wpx_bind, wpx_rd; [done|].
  apply wpx_bind, wpx_when; intros _; [|by apply Hk].
  assert (Hf1 : is_free s1 c = false) by by rewrite (weak_free s s1 (proj2 G1)).
  pose proof (proj1 G1) as Hi1.
  eapply wpx_conseq; [apply wpx_and; [apply (RTS_UNSET_good E s1 c RTS_NO_QUANTUM); try done; by left|
    apply (RTS_UNSET_inv E s1 c RTS_NO_QUANTUM); [apply Hi1|done|by eapply unset_ok_live; [apply Hi1|..]]]|].
  intros u' s2 [[G2 _] [_ R2]]. apply Hk; [by eapply good_trans|]. etrans; [exact S1|].
  by destruct (clear_still_bits s1 c RTS_NO_QUANTUM eq_refl); eapply rts_step_still.
Qed.

Lemma pick_new_wp E s :
  ipc_inv s -> 0 <= sched_type s <= 2 -> is_free s IDLE = false ->
  wpx E pick_new (fun o s' => picked s s' o) s.
Proof.
  intros Hi Ht Hidle. unfold pick_new. destruct (wf_cur s (proj1 (proj1 Hi))) as (c & i & Hc & Hs & _).
  apply wpx_bind, wpx_gets. rewrite Hc. apply wpx_bind, wpx_ret.
  destruct (iw_cur s (ic_wf s (proj1 (proj2 Hi))) c Hc) as [_ Hf].
  apply pick_requeue_wp; [done..|]. intros s1 G1 S1. pose proof (good_disp _ _ G1) as D1.
  assert (Ht1 : 0 <= sched_type s1 <= 2).
  { pose proof (dp_glob _ _ D1) as Eg. unfold glob0 in Eg. by replace (sched_type s1) with (sched_type s) by congruence. }
  apply wpx_bind. eapply wpx_conseq; [apply picked_wp; [apply G1|done]|].
  intros [p|] s2 (Hi2 & D2 & Ek & Hp).
  - destruct Hp as [Hps Hpf]. assert (Hf2 : flags s2 p = 0) by (unfold flags in *; by rewrite Ek).
    apply wpx_bind, wpx_modify, wpx_ret. split.
    + by apply ipc_inv_current; [|apply ready_not_free|].
    + etrans; [exact D1|]. etrans; [exact D2|]. split; auto; by split.
    + etrans; [exact S1|]. by apply same_still.
    + done.
  - assert (Hidle2 : is_free s2 IDLE = false) by (rewrite (dp_free _ _ D2), (dp_free _ _ D1); done).
    apply wpx_bind, wpx_modify. set (s3 := set_proc_ptr (Some IDLE) s2).
    assert (Hi3 : ipc_inv s3) by by apply ipc_inv_current.
    assert (D3 : disp s s3) by (etrans; [exact D1|]; etrans; [exact D2|]; split; auto; by split).
    assert (S3 : still s s3) by (etrans; [exact S1|]; by apply same_still).
    assert (Hn : none_ready s3).
    { intros x Hx. specialize (Hp x Hx). unfold flags in *. change (k_proc s3) with (k_proc s2). by rewrite Ek. }
    apply wpx_bind. eapply wpx_priv_live; [exact Hi3|done|done|]. intros j _ Hj _ _.
    apply wpx_bind, wpx_rdp; [done|]. apply wpx_bind, wpx_when; intros _; [apply wpx_modify|]; apply wpx_ret.
    + split; [by apply ipc_inv_bill| |etrans; [exact S3|by apply same_still]|done].
      etrans; [exact D3|]. split; auto; [|by split]. right. by exists IDLE.
    + by split.
Qed.

(** ** The effect of a notification and of [vm_suspend] on pending messages *)

Definition traced (p : proc) : bool := flag_any (p_misc_flags p) (Z.lor MF_SC_DEFER MF_SC_TRACE).
Definition untraced (s : kstate) : Prop := forall p, slot p -> traced (k_proc s p) = false.

(** A message has become pending at most for [d], which then no longer receives. *)
Definition told_misc (d : Z) (s s' : kstate) (p : Z) : Prop :=
  p_misc_flags (k_proc s' p) = p_misc_flags (k_proc s p) \/
  (p = d /\ p_misc_flags (k_proc s' p) = flag_set (p_misc_flags (k_proc s p)) MF_DELIVERMSG /\
   receiving s p = true /\ receiving s' p = false).

Lemma unset_recv_effect E s1 d :
  ipc_inv s1 -> slot d -> is_free s1 d = false -> sending s1 d = false ->
  wpx E (RTS_UNSET d RTS_RECEIVING) (fun _ s' => still s1 s' /\ receiving s' d = false) s1.
Proof.
  intros Hi Hd Hf Hs.
  eapply wpx_conseq; [apply (RTS_UNSET_inv E s1 d RTS_RECEIVING);
    [apply Hi|done|by eapply unset_ok_live; [apply Hi|..]]|].
  intros u s' [_ R]. split.
  - by destruct (clear_still_bits s1 d RTS_RECEIVING eq_refl); eapply rts_step_still.
  - unfold receiving. rewrite (rts_self _ _ _ _ R). unfold flag_clear. rewrite Z.ldiff_spec.
    apply andb_false_r.
Qed.

Lemma notify_effect E s caller e :
  ipc_inv s -> slot caller -> is_free s caller = false ->
  wpx E (mini_notify caller e) (fun _ s' => (forall p, vmwait s' p = vmwait s p) /\
    (forall p, told_misc (_ENDPOINT_P e) s s' p)) s.
Proof.
  intros Hi Hc Hfc. unfold mini_notify. apply wpx_bind, wpx_isokendpt; [|by apply wpx_ret; split; [|left]].
  intros d Hd Hfd Hed <-. apply wpx_bind, wpx_rd; [done|]. apply wpx_bind, wpx_rd; [done|].
  apply wpx_bind, wpx_rd; [done|]. destruct (will_receive _ _) eqn:Ew; cbn [andb].
  2: { apply wpx_bind. eapply wpx_priv_live; [done..|]. intros i _ Hi1 _ Eid.
    apply wpx_bind, wpx_rdp; [done|]. apply wpx_bind. eapply wpx_priv_live; [done..|]. intros j _ Hj _ _.
    apply wpx_bind, wpx_wrp; [done|]. apply wpx_ret. by split; [|left]. }
  destruct (will_receive_bits _ _ Ew) as [Er Es]. destruct (negb _).
  2: { apply wpx_bind. eapply wpx_priv_live; [done..|]. intros i _ Hi1 _ Eid.
    apply wpx_bind, wpx_rdp; [done|]. apply wpx_bind. eapply wpx_priv_live; [done..|]. intros j _ Hj _ _.
    apply wpx_bind, wpx_wrp; [done|]. apply wpx_ret. by split; [|left]. }
  apply wpx_bind, wpx_rd; [done|]. apply wpx_bind.
  eapply wpx_conseq; [by apply BuildNotifyMessage_good|]. intros m s1 [G1 K1].
  apply wpx_bind. eapply wpx_conseq; [apply wpx_and;
    [apply (QueueMess_good E s1 (p_endpoint (k_proc s caller)) (MKern m) d); [apply G1|done]|
     apply QueueMess_exact; [apply G1|done|done]]|].
  intros r s2 [[G2 _] [-> K2]]. cbn [negb Z.eqb].
  pose proof (good_trans _ _ _ G1 G2) as G. pose proof (proj2 G) as W2.
  assert (Hs2 : sending s2 d = false) by (rewrite (weak_sending s s2 W2); exact Es).
  assert (Hf2 : is_free s2 d = false) by by rewrite (weak_free s s2 W2).
  apply wpx_bind. eapply wpx_conseq; [apply unset_recv_effect; [apply G|done|done|done]|].
  intros u s3 [S3 R3]. apply wpx_ret.
  assert (Hfl : forall p, flags s2 p = flags s p).
  { intros p. unfold flags. rewrite K2. case_decide as Hp; [subst p|]; [|by rewrite K1].
    unfold queued. cbn [p_rts_flags set_p_misc_flags set_p_delivermsg]. by rewrite K1. }
  split; intros p.
  - rewrite (st_vm _ _ S3). unfold vmwait. by rewrite Hfl.
  - unfold told_misc. rewrite (st_misc _ _ S3), K2. case_decide as Hp; [subst p|by left; rewrite K1].
    right. unfold queued. cbn [p_misc_flags set_p_misc_flags set_p_delivermsg]. rewrite K1.
    split_all; [done|done|exact Er|done].
Qed.

(** [rp] waits for VM; at most VM has got a message for it. *)
Record vm_blocked (rp : Z) (s s' : kstate) : Prop := mk_vm_blocked {
  vb_self : vmwait s' rp = true;
  vb_other p : p <> rp -> vmwait s' p = vmwait s p;
  vb_misc p : told_misc VM_PROC_NR s s' p }.

Lemma misc_same_told d s s1 s' :
  (forall p, p_misc_flags (k_proc s1 p) = p_misc_flags (k_proc s p)) ->
  (forall p, receiving s1 p = true -> receiving s p = true) ->
  forall p, told_misc d s1 s' p -> told_misc d s s' p.
Proof.
  intros Em Hr p [H|(H1 & H2 & H3 & H4)]; [left; by rewrite H, Em|right]. by rewrite <- Em; auto.
Qed.

Lemma vmreq_bits x : 0 <= x -> Z.testbit (flag_set x RTS_VMREQUEST) 11 = true.
Proof. intros _. unfold flag_set. by rewrite Z.lor_spec, orb_true_r. Qed.

(** A change that touches neither flags nor pending messages. *)
Definition silent (f : proc -> proc) : Prop :=
  keeps f /\ forall x, p_misc_flags (f x) = p_misc_flags x /\ p_rts_flags (f x) = p_rts_flags x.

Lemma upd_silent p f s : ipc_inv s -> silent f -> good s (upd_proc p f s) /\ still s (upd_proc p f s).
Proof.
  intros Hi [Hk Hf]. split; [by apply good_upd_proc|].
  assert (H : forall q, p_misc_flags (k_proc (upd_proc p f s) q) = p_misc_flags (k_proc s q) /\
    p_rts_flags (k_proc (upd_proc p f s) q) = p_rts_flags (k_proc s q)).
  { intros q. destruct (decide (p = q)) as [->|Hne]; [rewrite upd_proc_eq; apply Hf|].
    by rewrite upd_proc_ne. }
  split; intros q; unfold vmwait, receiving, flags; destruct (H q) as [H1 H2]; [done|by rewrite H2|by rewrite H2].
Qed.

Lemma wr_silent E p f (Q : unit -> kstate -> Prop) s0 s :
  good s0 s -> still s0 s -> slot p -> silent f ->
  (forall s', good s0 s' -> still s0 s' -> Q tt s') -> wpx E (wr p f) Q s.
Proof.
  intros G S Hp Hf HQ. apply wpx_wr; [done|]. destruct (upd_silent p f s (proj1 G) Hf) as [G1 S1].
  apply HQ; [by eapply good_trans|by etrans].
Qed.

Lemma vm_suspend_blocks E s c target lin len type :
  ipc_inv s -> slot c -> is_free s c = false -> slot target ->
  wpx E (vm_suspend c target lin len type) (fun _ s' => vm_blocked c s s') s.
Proof.
  intros Hi Hc Hf Ht. unfold vm_suspend. apply wpx_bind.
  eapply wpx_conseq; [apply wpx_and; [by apply (RTS_LOCK_SET_good E s c RTS_VMREQUEST 11)|
    apply (RTS_LOCK_SET_inv E s c RTS_VMREQUEST); [apply Hi|done|done]]|].
  intros u s1 [[G1 _] [_ [F1 F2 _ F4]]]. pose proof (proj1 G1) as Hi1.
  assert (Hmisc : forall p, p_misc_flags (k_proc s1 p) = p_misc_flags (k_proc s p))
    by (intros p; by apply (frame_field p_misc_flags)).
  assert (Hself : vmwait s1 c = true) by (unfold vmwait; rewrite F2; unfold flag_set; by rewrite Z.lor_spec, orb_true_r).
  assert (Hoth : forall p, p <> c -> vmwait s1 p = vmwait s p).
  { intros p Hp. unfold vmwait. destruct (F4 p Hp) as [->|[_ ->]]; [done|]. apply bit_preempted; lia. }
  assert (Hrecv : forall p, receiving s1 p = true -> receiving s p = true)
    by (intros p; apply (weak_receiving s s1 (proj2 G1))).
  assert (R : good s1 s1) by by apply good_refl. assert (S : still s1 s1) by reflexivity. clear F1 F2 F4.
  apply wpx_bind, (wr_silent E _ _ _ s1); [done..|]. clear R S; intros s2 R S.
  apply wpx_bind, wpx_rd; [done|].
  do 5 (apply wpx_bind, (wr_silent E _ _ _ s1); [done..|]; clear R S; intros ? R S).
  apply wpx_bind, wpx_gets. apply wpx_bind, (wr_silent E _ _ _ s1); [done..|]. clear R S; intros s3 R S.
  pose proof (proj1 R) as Hi3. pose proof (proj2 R) as W3.
  apply wpx_bind. eapply (wpx_conseq _ _ (fun _ s4 => (forall p, vmwait s4 p = vmwait s3 p) /\
    (forall p, told_misc VM_PROC_NR s3 s4 p))).
  - destruct (vmrequest _).
    + apply wpx_ret. by split; [|left].
    + apply wpx_bind. eapply wpx_conseq; [apply notify_effect; [done|done|]|].
      * apply iw_system, Hi3.
      * intros r s4 H. apply wpx_ret. exact H.
  - intros u4 s4 [V4 M4]. apply wpx_modify. split.
    + change (vmwait s4 c = true). by rewrite V4, (st_vm _ _ S).
    + intros p Hp. change (vmwait s4 p = vmwait s p). by rewrite V4, (st_vm _ _ S), Hoth.
    + intros p. apply (misc_same_told VM_PROC_NR s s3 s4); [| |done].
      * intros q. by rewrite (st_misc _ _ S), Hmisc.
      * intros q Hq. by apply Hrecv, (st_recv _ _ S).
Qed.

(** ** The measure of the loop

    Messages that can still be delivered; a message that VM can still get counts
    twice, for its arrival and its delivery. *)

Definition held (s : kstate) (p : Z) : bool := pending_msg (k_proc s p) && negb (vmwait s p).
Definition count (f : Z -> bool) : nat := length (filter (fun p => f p = true) all_slots).
Definition mu (s : kstate) : nat := (count (held s) + if receiving s VM_PROC_NR then 2 else 0)%nat.

Lemma count_mono f g : (forall p, slot p -> g p = true -> f p = true) -> (count g <= count f)%nat.
Proof.
  intros H. unfold count. apply submseteq_length, NoDup_submseteq.
  - apply NoDup_filter, NoDup_seqZ.
  - intros p. rewrite !list_elem_of_filter, elem_of_all_slots. intros [Hg Hp]. split; [by apply H|done].
Qed.

Lemma count_drop f g x :
  slot x -> f x = true -> g x = false -> (forall p, slot p -> g p = true -> f p = true) ->
  (count g < count f)%nat.
Proof.
  intros Hx Hf Hg H. unfold count.
  enough (Hle : (length (x :: filter (fun p => g p = true) all_slots) <=
                 length (filter (fun p => f p = true) all_slots))%nat) by (simpl in Hle; lia).
  apply submseteq_length, NoDup_submseteq.
  - apply NoDup_cons. split; [|apply NoDup_filter, NoDup_seqZ].
    rewrite list_elem_of_filter. intros [? _]. congruence.
  - intros p. rewrite elem_of_cons, !list_elem_of_filter, !elem_of_all_slots.
    intros [->|[Hgp Hp]]; [done|]. split; [by apply H|done].
Qed.

Lemma count_one f g y : (forall p, slot p -> p <> y -> g p = true -> f p = true) -> (count g <= S (count f))%nat.
Proof.
  intros H. unfold count.
  enough (Hle : (length (filter (fun p => g p = true) all_slots) <=
                 length (y :: filter (fun p => f p = true) all_slots))%nat) by done.
  apply submseteq_length, NoDup_submseteq; [apply NoDup_filter, NoDup_seqZ|].
  intros p. rewrite elem_of_cons, !list_elem_of_filter, !elem_of_all_slots. intros [Hg Hp].
  destruct (decide (p = y)); [by left|right]. split; [by apply H|done].
Qed.

Lemma count_bound f : (count f <= 260)%nat.
Proof.
  unfold count. etrans; [apply length_filter|]. unfold all_slots. rewrite length_seqZ. done.
Qed.

Lemma still_mu s s' : still s s' -> (mu s' <= mu s)%nat.
Proof.
  intros [H1 H2 H3]. unfold mu.
  assert (count (held s') <= count (held s))%nat.
  { apply count_mono. intros p _. unfold held, pending_msg. by rewrite H1, H2. }
  destruct (receiving s' VM_PROC_NR) eqn:E; [|lia]. rewrite (H3 _ E). lia.
Qed.

Lemma blocked_mu s s' rp :
  slot rp -> held s rp = true -> vm_blocked rp s s' ->
  (forall p, receiving s' p = true -> receiving s p = true) -> (mu s' < mu s)%nat.
Proof.
  intros Hs Hh [V1 V2 V3] Hr.
  assert (Hself : held s' rp = false) by (unfold held; by rewrite V1, andb_false_r).
  assert (Hoth : forall p, p <> rp -> p_misc_flags (k_proc s' p) = p_misc_flags (k_proc s p) ->
    held s' p = held s p) by (intros p Hp Em; unfold held, pending_msg; by rewrite Em, (V2 p Hp)).
  unfold mu. destruct (V3 VM_PROC_NR) as [Hm|(_ & _ & Hr1 & Hr2)].
  - assert (Hall : forall p, p <> rp -> held s' p = held s p).
    { intros p Hp. apply Hoth; [done|]. destruct (V3 p) as [|(-> & _)]; done. }
    assert (count (held s') < count (held s))%nat.
    { apply (count_drop _ _ rp); [done|done|done|]. intros p _ Hp.
      destruct (decide (p = rp)) as [->|Hne]; [congruence|]. by rewrite <- (Hall p Hne). }
    destruct (receiving s' VM_PROC_NR) eqn:E; [|lia]. rewrite (Hr _ E). lia.
  - assert (count (held s') <= S (count (held s)))%nat.
    { apply (count_one _ _ VM_PROC_NR). intros p _ Hne Hp.
      destruct (decide (p = rp)) as [->|Hne']; [congruence|]. rewrite <- (Hoth p Hne'); [done|].
      destruct (V3 p) as [|(-> & _)]; done. }
    rewrite Hr1, Hr2. lia.
Qed.

Lemma delivered_mu s s' rp :
  slot rp -> held s rp = true -> pending_msg (k_proc s' rp) = false ->
  (forall p, p <> rp -> p_misc_flags (k_proc s' p) = p_misc_flags (k_proc s p)) ->
  (forall p, vmwait s' p = vmwait s p) -> (forall p, receiving s' p = receiving s p) ->
  (mu s' < mu s)%nat.
Proof.
  intros Hs Hh Hself Hoth Hv Hr. unfold mu. rewrite Hr.
  enough (count (held s') < count (held s))%nat by lia.
  apply (count_drop _ _ rp); [done|done|unfold held; by rewrite Hself|].
  intros p _. unfold held. destruct (decide (p = rp)) as [->|Hne]; [by rewrite Hself|].
  unfold pending_msg. by rewrite Hoth, Hv.
Qed.

Lemma told_untraced d s s' : (forall p, told_misc d s s' p) -> untraced s -> untraced s'.
Proof.
  intros H Hu p Hp. specialize (Hu p Hp). unfold traced in *.
  destruct (H p) as [->|(_ & -> & _)]; [done|]. unfold flag_any, flag_set in *.
  rewrite Z.land_lor_distr_l. change (Z.land MF_DELIVERMSG _) with 0. by rewrite Z.lor_0_r.
Qed.

Lemma traced_clear p f :
  traced p = false -> traced (set_p_misc_flags (flag_clear (p_misc_flags p) f) p) = false.
Proof.
  unfold traced, flag_any, flag_clear. cbn [p_misc_flags set_p_misc_flags].
  rewrite !negb_false_iff, !Z.eqb_eq. intros Hu. apply Z.bits_inj'. intros n Hn.
  apply (f_equal (fun v => Z.testbit v n)) in Hu. rewrite Z.land_spec, Z.bits_0 in *. rewrite Z.ldiff_spec.
  destruct (Z.testbit (p_misc_flags _) n); [simpl in *; by rewrite Hu, andb_false_r|done].
Qed.

Lemma untraced_clear rp f s :
  untraced s -> untraced (upd_proc rp (fun p => set_p_misc_flags (flag_clear (p_misc_flags p) f) p) s).
Proof.
  intros Hu p Hp. specialize (Hu p Hp). destruct (decide (rp = p)) as [->|]; [|by rewrite upd_proc_ne].
  rewrite upd_proc_eq. by apply traced_clear.
Qed.

(** ** [delivermsg] *)

Definition delivery_step (s s' : kstate) : Prop := (mu s' < mu s)%nat /\ (untraced s -> untraced s').

Lemma delivermsg_wp E s rp :
  ipc_inv s -> slot rp -> is_free s rp = false -> held s rp = true ->
  wpx E (delivermsg rp) (fun _ s' => good s s' /\ delivery_step s s') s.
Proof.
  intros Hi Hs Hf Hh. unfold delivermsg.
  apply (good_intr_off E _ (fun _ s' => delivery_step s s')); [done|done|].
  intros s0 Hs0 Hi0. assert (Hstep : forall s', delivery_step s0 s' -> delivery_step s s')
    by (by destruct Hs0 as [->| ->]).
  assert (Hh0 : held s0 rp = true) by by destruct Hs0 as [->| ->].
  assert (Hf0 : is_free s0 rp = false) by by destruct Hs0 as [->| ->].
  apply wpx_bind.
  eapply (wpx_conseq _ _ (fun _ s1 => good s0 s1 /\ forall p, k_proc s1 p = k_proc s0 p)).
  { unfold vm_set_cr3. apply (good_intr_off E _ (fun _ s' => forall p, k_proc s' p = k_proc s0 p)); [done|done|].
    intros s1 Hs1 Hi1. assert (K1 : forall p, k_proc s1 p = k_proc s0 p) by by destruct Hs1 as [->| ->].
    apply wpx_bind, wpx_rd; [done|]. apply wpx_when; intros _; [|by split; [apply good_refl|]].
    apply quiet_modify; [done|by split|done|]. intros s2 G2 ->. by split. }
  intros u s1 [G1 K1]. apply wpx_bind, wpx_rd; [done|]. apply wpx_bind, wpx_rd; [done|].
  apply wpx_bind, wpx_gets. apply wpx_bind, wpx_modify. unfold write_message. cbn [fst snd].
  set (s2 := set_mem _ s1). assert (G2 : good s0 s2).
  { eapply good_trans; [exact G1|]. apply good_set_mem, G1. }
  assert (K2 : forall p, k_proc s2 p = k_proc s0 p) by (intros p; apply K1). clearbody s2.
  pose proof (proj1 G2) as Hi2. assert (Hf2 : is_free s2 rp = false) by by rewrite (weak_free s0 s2 (proj2 G2)).
  assert (E2 : forall p, vmwait s2 p = vmwait s0 p /\ receiving s2 p = receiving s0 p /\ held s2 p = held s0 p)
    by (intros p; unfold vmwait, receiving, held, pending_msg, vmwait, flags; by rewrite K2).
  destruct (snd _); cbn [negb].
  - apply wpx_bind. unfold clear_misc. apply wpx_wr; [done|]. apply wpx_ret.
    pose proof (good_upd_proc rp _ s2 Hi2 (keeps_misc_clear MF_DELIVERMSG)) as G3.
    set (s3 := upd_proc rp _ s2) in *. split; [by eapply good_trans|]. apply Hstep. split.
    + apply (delivered_mu s0 s3 rp); [done|done| | | |].
      * unfold s3, pending_msg. rewrite upd_proc_eq. cbn [p_misc_flags set_p_misc_flags].
        change MF_DELIVERMSG with (2 ^ 6). rewrite flag_any_bit, flag_clear_bit by lia.
        by rewrite andb_false_r.
      * intros p Hp. unfold s3. rewrite upd_proc_ne by done. by rewrite K2.
      * intros p. rewrite <- (proj1 (E2 p)). unfold vmwait, flags, s3.
        destruct (decide (rp = p)) as [->|]; [by rewrite upd_proc_eq|by rewrite upd_proc_ne].
      * intros p. rewrite <- (proj1 (proj2 (E2 p))). unfold receiving, flags, s3.
        destruct (decide (rp = p)) as [->|]; [by rewrite upd_proc_eq|by rewrite upd_proc_ne].
    + intros Hu. apply untraced_clear. intros p Hp. rewrite K2. by apply Hu.
  - apply wpx_bind. eapply wpx_conseq; [apply wpx_and; [by apply vm_suspend_good|by apply vm_suspend_blocks]|].
    intros u' s3 [G3 B3]. apply wpx_ret. split; [by eapply good_trans|]. apply Hstep.
    assert (Hm2 : mu s2 = mu s0).
    { unfold mu, count. rewrite (proj1 (proj2 (E2 VM_PROC_NR))). do 2 f_equal.
      apply list_filter_iff. intros p. by rewrite (proj2 (proj2 (E2 p))). }
    split.
    + rewrite <- Hm2. apply (blocked_mu s2 s3 rp); [done|by rewrite (proj2 (proj2 (E2 rp)))|done|].
      intros p. apply (weak_receiving s2 s3 (proj2 G3)).
    + intros Hu. apply (told_untraced VM_PROC_NR s2); [apply B3|]. intros p Hp. rewrite K2. by apply Hu.
Qed.

(** ** [schedcheck] *)

Record disp_ok (s : kstate) : Prop := mk_disp_ok {
  do_inv : ipc_inv s;
  do_untraced : untraced s;
  do_policy : 0 <= sched_type s <= 2;
  do_idle : is_free s IDLE = false }.

Lemma disp_ok_step s s' : disp s s' -> ipc_inv s' -> untraced s' -> disp_ok s -> disp_ok s'.
Proof.
  intros D Hi Hu [_ _ Hp Hf]. split; [done|done| |by rewrite (dp_free _ _ D)].
  pose proof (dp_glob _ _ D) as Eg. unfold glob0 in Eg. by replace (sched_type s') with (sched_type s) by congruence.
Qed.

(** The process to run has nothing left to be done; without one, IDLE is current. *)
Record dispatched (s s' : kstate) (o : option Z) : Prop := mk_dispatched {
  di_ok : disp_ok s';
  di_disp : disp s s';
  di_next : match o with
            | Some p => proc_ptr s' = Some p /\ slot p /\ flags s' p = 0 /\ pending_msg (k_proc s' p) = false
            | None => proc_ptr s' = Some IDLE /\ none_ready s'
            end }.

Lemma still_untraced s s' : still s s' -> untraced s -> untraced s'.
Proof. intros H Hu p Hp. unfold traced. rewrite (st_misc _ _ H). by apply Hu. Qed.

Lemma not_sc_flags mf : flag_any mf SC_FLAGS = false -> flag_any mf MF_DELIVERMSG = false.
Proof.
  unfold flag_any. rewrite !negb_false_iff, !Z.eqb_eq. intros H. apply Z.bits_inj'. intros n Hn.
  apply (f_equal (fun v => Z.testbit v n)) in H. rewrite Z.land_spec, Z.bits_0 in *.
  unfold SC_FLAGS in H. rewrite Z.lor_spec in H. destruct (Z.testbit mf n); [|done]. simpl in *.
  by apply orb_false_iff in H as [-> _].
Qed.

Lemma untraced_flags p : traced p = false ->
  flag_any (p_misc_flags p) MF_SC_DEFER = false /\ flag_any (p_misc_flags p) MF_SC_TRACE = false.
Proof.
  unfold traced. change (Z.lor MF_SC_DEFER MF_SC_TRACE) with (Z.lor (2 ^ 9) (2 ^ 10)).
  change MF_SC_DEFER with (2 ^ 9). change MF_SC_TRACE with (2 ^ 10). intros H.
  rewrite !flag_any_bit by lia. unfold flag_any in H. rewrite negb_false_iff, Z.eqb_eq in H.
  split; [apply (f_equal (fun v => Z.testbit v 9)) in H|apply (f_equal (fun v => Z.testbit v 10)) in H];
    rewrite Z.land_spec, Z.bits_0 in H; by rewrite andb_true_r in H.
Qed.

(** One turn for a runnable current process: a delivery, or nothing is left to do. *)
Lemma misc_round_wp E s rp :
  disp_ok s -> proc_ptr s = Some rp -> slot rp -> flags s rp = 0 ->
  wpx E (misc_round rp) (fun go s' => good s s' /\ untraced s' /\
    if go : bool then (mu s' < mu s)%nat
    else flags s' rp = 0 /\ pending_msg (k_proc s' rp) = false) s.
Proof.
  intros [Hi Hu _ _] Hc Hs Hfl. unfold misc_round. apply wpx_bind, wpx_rd; [done|].
  destruct (untraced_flags _ (Hu rp Hs)) as [Hd Ht]. rewrite Hd, Ht.
  destruct (flag_any (p_misc_flags (k_proc s rp)) MF_DELIVERMSG) eqn:Em.
  - apply wpx_bind. eapply wpx_conseq; [apply delivermsg_wp; [done|done|by apply ready_not_free|]|].
    + unfold held, pending_msg, vmwait. by rewrite Em, Hfl.
    + intros r s' (G & Hmu & Hun). apply wpx_ret. split_all; [done|by apply Hun|done].
  - apply wpx_bind. unfold clear_misc. apply wpx_wr; [done|]. apply wpx_ret.
    split; [apply good_upd_proc; [done|apply keeps_misc_clear]|]. split; [by apply untraced_clear|].
    unfold flags, pending_msg. rewrite upd_proc_eq. cbn [p_rts_flags p_misc_flags set_p_misc_flags].
    split; [done|]. change MF_DELIVERMSG with (2 ^ 6) in *. change MF_SC_ACTIVE with (2 ^ 8).
    rewrite flag_any_bit, flag_clear_bit in * by lia. by rewrite Em.
Qed.

Lemma schedcheck_loop_wp E fuel pick s :
  disp_ok s -> (2 * mu s + (if pick : bool then 2 else 1) <= fuel)%nat ->
  (pick = false -> exists c, proc_ptr s = Some c /\ slot c /\ flags s c = 0) ->
  wpx E (schedcheck_loop fuel pick) (fun o s' => dispatched s s' o) s.
Proof.
  revert pick s. induction fuel as [|fuel IH]; intros pick s Hok Hfuel Hc; [destruct pick; lia|].
  assert (Hrec : forall pick s1, disp s s1 -> disp_ok s1 ->
    (2 * mu s1 + (if pick : bool then 2 else 1) <= fuel)%nat ->
    (pick = false -> exists c, proc_ptr s1 = Some c /\ slot c /\ flags s1 c = 0) ->
    wpx E (schedcheck_loop fuel pick) (fun o s' => dispatched s s' o) s1).
  { intros pk s1 D1 Hok1 Hf1 Hc1. eapply wpx_conseq; [by apply IH|].
    intros o s' [H1 H2 H3]. split; [done|by etrans|done]. }
  cbn [schedcheck_loop]. destruct pick.
  - apply wpx_bind. eapply wpx_conseq; [by apply pick_new_wp; destruct Hok|].
    intros o s1 [Hi1 D1 S1 Hn]. pose proof (still_untraced _ _ S1 (do_untraced _ Hok)) as Hu1.
    pose proof (disp_ok_step s s1 D1 Hi1 Hu1 Hok) as Hok1. destruct o as [p|].
    + apply Hrec; [done|done| |intros _; by exists p]. pose proof (still_mu _ _ S1). lia.
    + apply wpx_ret. by split.
  - destruct (Hc eq_refl) as (rp & Hrp & Hs & Hfl). apply wpx_bind, wpx_gets. rewrite Hrp.
    apply wpx_bind, wpx_ret. apply wpx_bind, wpx_rd; [done|].
    destruct (flag_any (p_misc_flags (k_proc s rp)) SC_FLAGS) eqn:Esc; cbn [negb].
    2: { apply wpx_ret. split; [done|reflexivity|]. split; [done|split; [done|split; [done|]]].
         by apply not_sc_flags. }
    apply wpx_bind. eapply wpx_conseq; [by apply misc_round_wp|]. intros go s1 (G1 & Hu1 & Hgo).
    pose proof (good_disp _ _ G1) as D1. pose proof (disp_ok_step s s1 D1 (proj1 G1) Hu1 Hok) as Hok1.
    assert (Hcur : proc_ptr s1 = Some rp) by by rewrite (is_cur _ _ (proj2 G1)).
    destruct go; cbn [negb].
    + apply wpx_bind, wpx_proc_is_runnable; [done|]. fold (flags s1 rp).
      apply Hrec; [done|done|destruct (negb _); lia|]. intros Hr. exists rp.
      apply negb_false_iff, Z.eqb_eq in Hr. done.
    + apply wpx_ret. destruct Hgo as [H1 H2]. by split.
Qed.

(** Enough turns for every delivery and every pick between them. *)
Definition SCHED_FUEL : nat := 526.

Lemma mu_bound s : (mu s <= 262)%nat.
Proof. unfold mu. pose proof (count_bound (held s)). destruct (receiving s VM_PROC_NR); lia. Qed.

Lemma disp_unlock s s1 s2 : s1 = s \/ s1 = set_lock true 1 s -> disp s1 s2 ->
  disp s (set_lock (intr_off s) (locklevel s) s2).
Proof. intros [->| ->] [D1 D2 D3 D4 D5 D6]; split; try done. Qed.

Lemma disp_ok_lock a b s : lock_ok (set_lock a b s) -> disp_ok s -> disp_ok (set_lock a b s).
Proof. intros Hl [H1 H2 H3 H4]. split; [by apply set_lock_ipc|done..]. Qed.

Lemma schedcheck_wp E s :
  disp_ok s -> wpx E (schedcheck SCHED_FUEL) (fun o s' => dispatched s s' o) s.
Proof.
  intros Hok. pose proof (ipc_lock_ok s (do_inv s Hok)) as Hl. unfold schedcheck.
  apply wpx_with_intr_off; [done|]. intros s1 Hs1 _ Hl1.
  assert (Hok1 : disp_ok s1) by (destruct Hs1 as [->| ->]; [done|by apply disp_ok_lock]).
  destruct (wf_cur s1 (proj1 (proj1 (do_inv s1 Hok1)))) as (c & i & Hc & Hsc & _).
  apply wpx_bind, wpx_gets. rewrite Hc. apply wpx_bind, wpx_ret.
  apply wpx_bind, wpx_proc_is_runnable; [done|]. fold (flags s1 c).
  eapply wpx_conseq; [apply schedcheck_loop_wp; [done| |]|].
  - pose proof (mu_bound s1). unfold SCHED_FUEL. destruct (negb _); lia.
  - intros Hr. exists c. apply negb_false_iff, Z.eqb_eq in Hr. done.
  - intros o s2 [H1 H2 H3]. split; [apply (dp_lock _ _ H2)|]. split.
    + by apply disp_ok_lock; [apply (lock_ok_same s)|].
    + by apply (disp_unlock s s1).
    + exact H3.
Qed.
