(* ===== verification/VmReq.v ===== *)
(** * Requests to VM and their answers

    A process that waits for VM is at the head of the chain [vmrequest]; VM takes the
    request with VMCTL_MEMREQ_GET and answers it with VMCTL_MEMREQ_REPLY, which
    releases the process or puts a suspended kernel call on the chain [vmrestart]. *)
From S2P Require Import Prelude PList KMonad Timers Types KState Memory Sched SchedInv Notify Copy Ipc.
From S2P Require Import IpcInv IpcSafe CopySafe System KCalls Grants Frame SysLock GrantSafe Dispatch.
From S2P Require Import VmCtl SysTask SysTurn.

(** ** A request is made *)

Definition request_of (s : kstate) (p : Z) : vmrequest_t := p_vmrequest (k_proc s p).

(** [c] has made the request [f] (a change of its [p_vmrequest]) and is blocked. *)
Record posted (c : Z) (f : vmrequest_t -> vmrequest_t) (s s' : kstate) : Prop := mk_posted {
  po_good : good s s';
  po_wait : vmwait s' c = true;
  po_head : vmrequest s' = Some c;
  po_restart : vmrestart s' = vmrestart s;
  po_req : request_of s' c = set_vr_nextrequestor (vmrequest s) (f (request_of s c));
  po_other p : p <> c -> request_of s' p = request_of s p }.

Lemma static_request s s' p : static s s' -> request_of s' p = request_of s p.
Proof. intros [H _ _]. specialize (H p). unfold proc_attr in H. unfold request_of. congruence. Qed.
Lemma static_chains s s' : static s s' -> vmrequest s' = vmrequest s /\ vmrestart s' = vmrestart s.
Proof. intros [_ _ H]. unfold glob_attr in H. split; congruence. Qed.

(** An assignment to [p_vmrequest]. *)
Lemma keeps_vmrequest f : keeps (upd_vmrequest f).
Proof. by intros x. Qed.

Lemma wr_request E c f s (Q : unit -> kstate -> Prop) :
  ipc_inv s -> slot c ->
  (forall s', good s s' -> (forall p, vmwait s' p = vmwait s p) -> request_of s' c = f (request_of s c) ->
     (forall p, p <> c -> request_of s' p = request_of s p) ->
     vmrequest s' = vmrequest s -> vmrestart s' = vmrestart s -> Q tt s') ->
  wpx E (wr c (upd_vmrequest f)) Q s.
Proof.
  intros Hi Hc HQ. apply wpx_wr; [done|]. apply HQ; try done.
  - by apply good_upd_proc, keeps_vmrequest.
  - intros p. unfold vmwait, flags. destruct (decide (c = p)) as [->|Hp]; [by rewrite upd_proc_eq|by rewrite upd_proc_ne].
  - unfold request_of. by rewrite upd_proc_eq.
  - intros p Hp. unfold request_of. rewrite upd_proc_ne; [done|congruence].
Qed.

(** Blocking the caller leaves the requests alone. *)
Lemma block_caller E s c :
  ipc_inv s -> slot c -> is_free s c = false ->
  wpx E (RTS_LOCK_SET c RTS_VMREQUEST) (fun _ s' => (good s s' /\ vmwait s' c = true) /\ static s s') s.
Proof.
  intros Hi Hc Hf. apply wpx_keeps; [apply _|].
  eapply wpx_conseq; [by apply (RTS_LOCK_SET_good E s c RTS_VMREQUEST 11)|].
  intros u s' [G Fl]. split; [done|]. unfold vmwait. rewrite Fl. unfold flag_set.
  by rewrite Z.lor_spec, orb_true_r.
Qed.

(** Setting a flag of any process leaves [RTS_VMREQUEST] alone. *)
Lemma set_target E s d :
  ipc_inv s -> slot d -> is_free s d = false ->
  wpx E (RTS_LOCK_SET d RTS_VMREQTARGET)
    (fun _ s' => (good s s' /\ forall p, vmwait s' p = vmwait s p) /\ static s s') s.
Proof.
  intros Hi Hd Hf. apply wpx_keeps; [apply _|].
  eapply wpx_conseq; [apply wpx_and; [by apply (RTS_LOCK_SET_good E s d RTS_VMREQTARGET 12)|
    apply (RTS_LOCK_SET_inv E s d RTS_VMREQTARGET); [apply Hi|done|done]]|].
  intros u s' [[G Fl] [_ R]]. split; [done|]. intros p. unfold vmwait.
  destruct (decide (p = d)) as [->|Hp].
  - rewrite Fl. unfold flag_set. rewrite Z.lor_spec. apply orb_false_r.
  - destruct (rts_other _ _ _ _ R p Hp) as [->|[_ ->]]; [done|]. by apply bit_preempted.
Qed.

Lemma lock_notify_vm E s :
  ipc_inv s -> intr_off s = false ->
  wpx E (lock_notify SYSTEM VM_PROC_NR)
    (fun _ s' => (good s s' /\ forall p, vmwait s' p = vmwait s p) /\ static s s') s.
Proof.
  intros Hi Hoff. apply wpx_keeps; [apply _|]. unfold lock_notify. apply wpx_bind, wpx_isokendpt.
  2:{ apply wpx_ret. split; [by apply good_refl|done]. }
  intros src Hs Hf _ _.
  apply (good_locked E _ (fun _ s' => forall p, vmwait s' p = vmwait s p)); [done|done|done|].
  intros s1 -> Hi1. eapply wpx_conseq; [apply wpx_and; [by apply mini_notify_good|by apply notify_effect]|].
  intros r s2 [G [H _]]. split; [done|]. intros p. by rewrite H.
Qed.

(** The end of a request: the link to the chain, the notification, the new head. *)
Definition post {A} (c : Z) (notify : K Z) (k : K A) : K A :=
  do next <- gets vmrequest;
  do! wr c (upd_vmrequest (set_vr_nextrequestor next));
  do! match next with
      | None => do r <- notify; ret tt
      | Some _ => ret tt
      end;
  do! modify (set_vmrequest (Some c));
  k.

Lemma post_request {A} E s0 s c f (notify : K Z) (k : K A) (Q : A -> kstate -> Prop) :
  good s0 s -> slot c -> vmwait s c = true -> vmrequest s = vmrequest s0 -> vmrestart s = vmrestart s0 ->
  request_of s c = f (request_of s0 c) -> (forall p, p <> c -> request_of s p = request_of s0 p) ->
  (forall s, ipc_inv s -> intr_off s = intr_off s0 ->
     wpx E notify (fun _ s' => (good s s' /\ forall p, vmwait s' p = vmwait s p) /\ static s s') s) ->
  (forall s', posted c f s0 s' -> wpx E k Q s') -> wpx E (post c notify k) Q s.
Proof.
  intros G Hc Hw Hv Hr Hreq Hoth Hn HQ. apply wpx_bind, wpx_gets. apply wpx_bind, wr_request; [apply G|done|].
  intros s1 G1 W1 Req1 Oth1 V1 R1. apply wpx_bind.
  assert (Hlast : forall s2, good s1 s2 -> (forall p, vmwait s2 p = vmwait s1 p) -> static s1 s2 ->
    wpx E (do! modify (set_vmrequest (Some c)); k) Q s2).
  { intros s2 G2 W2 S2. destruct (static_chains _ _ S2) as [V2 R2]. apply wpx_bind, wpx_modify, HQ. split; try done.
    - eapply good_trans; [eapply good_trans; [exact G|eapply good_trans; [exact G1|exact G2]]|].
      apply quiet_good; [apply G2|by split|done].
    - change (vmwait s2 c = true). by rewrite W2, W1.
    - change (vmrestart s2 = vmrestart s0). congruence.
    - change (request_of s2 c = set_vr_nextrequestor (vmrequest s0) (f (request_of s0 c))).
      by rewrite (static_request _ _ _ S2), Req1, Hreq, Hv.
    - intros p Hp. change (request_of s2 p = request_of s0 p). rewrite (static_request _ _ _ S2), Oth1, Hoth; done. }
  destruct (vmrequest s).
  - apply wpx_ret, Hlast; [apply good_refl, G1|done|done].
  - apply wpx_bind. eapply wpx_conseq; [apply Hn; [apply G1|]|].
    + rewrite (proj1 (is_lock _ _ (proj2 G1))). apply (is_lock _ _ (proj2 G)).
    + intros r s2 [[G2 W2] S2]. apply wpx_ret. by apply Hlast.
Qed.

(** The request of [vm_suspend]. *)
Definition check_request (te lin len type : Z) (v : vmrequest_t) : vmrequest_t :=
  set_vr_type type (set_vr_writeflag 1 (set_vr_length len (set_vr_start lin
    (set_vr_target te (set_vr_req_type VMPTYPE_CHECK v))))).

Lemma vm_suspend_posts E s c target lin len type :
  ipc_inv s -> slot c -> is_free s c = false -> slot target ->
  wpx E (vm_suspend c target lin len type)
    (fun _ s' => posted c (check_request (endpt s target) lin len type) s s') s.
Proof.
  intros Hi Hc Hf Ht. unfold vm_suspend. apply wpx_bind.
  eapply wpx_conseq; [by apply block_caller|]. intros u s1 [[G1 W1] S1].
  destruct (static_chains _ _ S1) as [V1 R1].
  assert (Hf1 : is_free s1 SYSTEM = false) by (apply iw_system, G1).
  apply wpx_bind, wr_request; [apply G1|done|]. intros s2 G2 W2 Q2 O2 V2 R2. apply wpx_bind, wpx_rd; [done|].
  apply wpx_bind, wr_request; [apply G2|done|]. intros s3 G3 W3 Q3 O3 V3 R3.
  apply wpx_bind, wr_request; [apply G3|done|]. intros s4 G4 W4 Q4 O4 V4 R4.
  apply wpx_bind, wr_request; [apply G4|done|]. intros s5 G5 W5 Q5 O5 V5 R5.
  apply wpx_bind, wr_request; [apply G5|done|]. intros s6 G6 W6 Q6 O6 V6 R6.
  apply wpx_bind, wr_request; [apply G6|done|]. intros s7 G7 W7 Q7 O7 V7 R7.
  assert (G : good s s7) by (repeat (eapply good_trans; [|eassumption]); by apply good_refl).
  eapply wpx_ext; [|apply (post_request E s s7 c (check_request (endpt s target) lin len type)
    (mini_notify SYSTEM VM_PROC_NR) (ret tt))]; try done.
  - by rewrite W7, W6, W5, W4, W3, W2.
  - congruence.
  - congruence.
  - rewrite Q7, Q6, Q5, Q4, Q3, Q2, (static_request _ _ _ S1). unfold check_request. do 5 f_equal.
    fold (endpt s2 target). rewrite (weak_endpt s1 s2 (proj2 G2)). by rewrite (weak_endpt s s1 (proj2 G1)).
  - intros p Hp. rewrite O7, O6, O5, O4, O3, O2 by done. by apply static_request.
  - intros s8 H8 _. apply wpx_keeps; [apply _|].
    eapply wpx_conseq; [apply wpx_and; [apply mini_notify_good|apply notify_effect]|]; try done.
    + apply iw_system, H8.
    + apply iw_system, H8.
    + by intros r s9 [G9 [W9 _]].
Qed.

(** The request of [map_invoke_vm]. *)
Definition map_request (req end_d lin_dst end_s lin_src size flag : Z) (v : vmrequest_t) : vmrequest_t :=
  set_vr_type VMSTYPE_MAP (set_vr_map_writeflag flag (set_vr_map_length size
    (set_vr_map_vir_s lin_src (set_vr_map_ep_s end_s (set_vr_map_vir_d lin_dst
      (set_vr_target end_d (set_vr_req_type req v))))))).

(** An end of a mapping: a live process and a page-aligned range of its memory. *)
Definition map_end (s : kstate) (e seg off size lin : Z) : Prop :=
  valid_endpt s e /\ 0 <= seg <= 2 /\ lin_of s (_ENDPOINT_P e) seg off size = lin /\
  lin <> 0 /\ lin mod CLICK_SIZE = 0.

Lemma umap_local_lin E s rp seg v bytes (Q : Z -> kstate -> Prop) :
  slot rp -> 0 <= seg <= 2 -> Q (lin_of s rp seg v bytes) s -> wpx E (umap_local rp seg v bytes) Q s.
Proof.
  intros Hrp Hseg HQ. unfold umap_local, SEG_T, SEG_D, SEG_S.
  assert (negb (seg =? 0) && negb (seg =? 1) && negb (seg =? 2) = false) as ->.
  { destruct (Z.eqb_spec seg 0), (Z.eqb_spec seg 1), (Z.eqb_spec seg 2); simpl; done || lia. }
  apply wpx_bind, wpx_rd; [done|]. by apply wpx_ret.
Qed.

Lemma wpx_lookup E e (Q : option Z -> kstate -> Prop) s :
  valid_endpt s e -> Q (Some (_ENDPOINT_P e)) s -> wpx E (endpoint_lookup e) Q s.
Proof. intros V H. apply wpx_valid_endpt. by rewrite decide_True. Qed.

Lemma map_invoke_vm_posts E s req end_d seg_d off_d end_s seg_s off_s size flag lin_d lin_s :
  ipc_inv s -> intr_off s = false -> valid_endpt s (who_e s) ->
  map_end s end_d seg_d off_d size lin_d -> map_end s end_s seg_s off_s size lin_s ->
  wpx E (map_invoke_vm req end_d seg_d off_d end_s seg_s off_s size flag) (fun r s' => r = OK /\
    posted (_ENDPOINT_P (who_e s)) (map_request req end_d lin_d end_s lin_s size flag) s s') s.
Proof.
  intros Hi Hoff Vw (Vd & Hsd & Ld & Nd & Ad) (Vs & Hss & Ls & Ns & As). unfold map_invoke_vm.
  apply wpx_bind, wpx_lookup; [done|]. apply wpx_bind, wpx_lookup; [done|].
  apply wpx_bind, wpx_gets. apply wpx_bind, wpx_lookup; [done|].
  apply wpx_bind, wpx_ret, wpx_bind, umap_local_lin; [apply Vs|done|].
  apply wpx_bind, wpx_ret, wpx_bind, umap_local_lin; [apply Vd|done|].
  rewrite Ld, Ls. apply Z.eqb_neq in Nd, Ns. apply Z.eqb_eq in Ad, As. rewrite Nd, Ns, Ad, As. cbn [orb negb].
  apply wpx_bind, wpx_ret, wpx_bind. set (c := _ENDPOINT_P (who_e s)).
  eapply wpx_conseq; [apply block_caller; [done|apply Vw|apply Vw]|]. intros u s1 [[G1 W1] S1].
  destruct (static_chains _ _ S1) as [V1 R1].
  apply wpx_bind. eapply wpx_conseq; [apply set_target; [apply G1|apply Vd|]|].
  { rewrite (weak_free s s1 (proj2 G1)). apply Vd. }
  intros u' s2 [[G2 W2] S2]. destruct (static_chains _ _ S2) as [V2 R2].
  apply wpx_bind, wr_request; [apply G2|apply Vw|]. intros s3 G3 W3 Q3 O3 V3 R3.
  assert (G : good s s3) by (eapply good_trans; [exact G1|eapply good_trans; [exact G2|exact G3]]).
  apply (post_request E s s3 c (map_request req end_d lin_d end_s lin_s size flag)).
  - done.
  - apply Vw.
  - by rewrite W3, W2.
  - congruence.
  - congruence.
  - rewrite Q3, (static_request _ _ _ S2), (static_request _ _ _ S1). done.
  - intros p Hp. rewrite O3, (static_request _ _ _ S2), (static_request _ _ _ S1); done.
  - intros s4 H4 Hoff4. apply lock_notify_vm; [done|congruence].
  - intros s' P. by apply wpx_ret.
Qed.

(** ** VM takes a request *)

Definition known_request (ty : Z) : bool :=
  (ty =? VMPTYPE_CHECK) || (ty =? VMPTYPE_COWMAP) || (ty =? VMPTYPE_SMAP) || (ty =? VMPTYPE_SUNMAP).

(** The head of the chain has been handed to VM. *)
Definition taken (c : Z) (s : kstate) : kstate :=
  set_vmrequest (vr_nextrequestor (request_of s c)) (upd_proc c (upd_vmrequest (set_vr_vmresult VMSUSPEND)) s).

Lemma memreq_get_wp E s c m (Q : Z * message -> kstate -> Prop) :
  vmrequest s = Some c -> slot c -> known_request (vr_req_type (request_of s c)) = true ->
  Q (vr_req_type (request_of s c), memreq_fields (k_proc s c) m) (taken c s) ->
  wpx E (memreq_get m) Q s.
Proof.
  intros Hv Hc Hk HQ. unfold memreq_get. apply wpx_bind, wpx_gets. rewrite Hv. apply wpx_bind, wpx_rd; [done|].
  unfold known_request, request_of in Hk. rewrite Hk. cbn [negb].
  apply wpx_bind, wpx_wr; [done|]. apply wpx_bind, wpx_rd; [done|]. apply wpx_bind, wpx_modify, wpx_ret.
  rewrite upd_proc_eq. exact HQ.
Qed.

Lemma taken_view c s :
  ipc_inv s -> good s (taken c s) /\ (forall p, vmwait (taken c s) p = vmwait s p) /\
  request_of (taken c s) c = set_vr_vmresult VMSUSPEND (request_of s c) /\
  vmrequest (taken c s) = vr_nextrequestor (request_of s c) /\ vmrestart (taken c s) = vmrestart s.
Proof.
  intros Hi. set (s1 := upd_proc c (upd_vmrequest (set_vr_vmresult VMSUSPEND)) s).
  assert (G1 : good s s1) by by apply good_upd_proc, keeps_vmrequest.
  split_all; [eapply good_trans; [exact G1|]; apply quiet_good; [apply G1|by split|done]| | |done|done].
  - intros p. change (vmwait s1 p = vmwait s p). unfold vmwait, flags, s1.
    destruct (decide (c = p)) as [->|Hp]; [by rewrite upd_proc_eq|by rewrite upd_proc_ne].
  - change (request_of s1 c = set_vr_vmresult VMSUSPEND (request_of s c)). unfold request_of, s1. by rewrite upd_proc_eq.
Qed.

(** ** VM answers a request *)

Lemma clear_flag E s d f :
  ipc_inv s -> slot d -> is_free s d = false -> f = RTS_VMREQTARGET \/ f = RTS_VMREQUEST ->
  wpx E (RTS_LOCK_UNSET d f) (fun _ s' => (good s s' /\
    forall p, vmwait s' p = if bool_decide (p = d /\ f = RTS_VMREQUEST) then false else vmwait s p) /\ static s s') s.
Proof.
  intros Hi Hd Hf Hfl. apply wpx_keeps; [unfold RTS_LOCK_UNSET; apply _|].
  assert (B : Z.testbit f 0 = false /\ Z.testbit f 2 = false /\ Z.testbit f 8 = false /\ Z.testbit f 3 = false)
    by by destruct Hfl as [-> | ->]. destruct B as (B0 & B2 & B8 & B3).
  eapply wpx_conseq; [apply wpx_and; [by apply (RTS_LOCK_UNSET_good E s d f); try left|
    apply (RTS_LOCK_UNSET_inv E s d f); [apply Hi|done|by apply unset_ok_live; [apply Hi|..]]]|].
  - intros u s' [[G Fl] [_ R]]. split; [done|]. intros p. unfold vmwait. destruct (decide (p = d)) as [->|Hp].
    + rewrite Fl. destruct Hfl as [-> | ->].
      * rewrite bool_decide_false by by intros [_ ?]. change RTS_VMREQTARGET with (2 ^ 12).
        rewrite flag_clear_bit by lia. apply andb_true_r.
      * rewrite bool_decide_true by done. change RTS_VMREQUEST with (2 ^ 11). rewrite flag_clear_bit by lia.
        apply andb_false_r.
    + rewrite bool_decide_false by tauto. destruct (rts_other _ _ _ _ R p Hp) as [->|[_ ->]]; [done|].
      by apply bit_preempted.
Qed.

(** The request of [c] has been answered with [v]. *)
Record replied (c v : Z) (s s' : kstate) : Prop := mk_replied {
  re_good : good s s';
  re_result : vr_vmresult (request_of s' c) = v;
  re_type : vr_type (request_of s' c) = vr_type (request_of s c);
  re_msg : vr_reqmsg (request_of s' c) = vr_reqmsg (request_of s c);
  re_chain : vmrequest s' = vmrequest s;
  re_next : if vr_type (request_of s c) =? VMSTYPE_KERNELCALL
    then vmrestart s' = Some c /\ vr_nextrestart (request_of s' c) = vmrestart s /\ vmwait s' c = vmwait s c
    else vmrestart s' = vmrestart s /\ vmwait s' c = false }.

Lemma memreq_reply_wp E s c m :
  ipc_inv s -> slot c -> is_free s c = false -> valid_endpt s (vr_target (request_of s c)) ->
  (let ty := vr_type (request_of s c) in ty = VMSTYPE_KERNELCALL \/ ty = VMSTYPE_DELIVERMSG \/ ty = VMSTYPE_MAP) ->
  wpx E (memreq_reply c m) (fun r s' => r = (OK, m) /\ replied c (m1_i3 m) s s') s.
Proof.
  intros Hi Hc Hf V Hty. unfold memreq_reply. apply wpx_bind, wpx_rd; [done|]. fold (request_of s c).
  apply wpx_bind, wpx_bind, wpx_valid_endpt. rewrite decide_True by done. apply wpx_ret.
  apply wpx_bind, wr_request; [done|done|]. intros s1 G1 W1 Q1 O1 V1 R1.
  apply wpx_bind. eapply wpx_conseq; [apply clear_flag; [apply G1|apply V| |by left]|].
  { rewrite (weak_free s s1 (proj2 G1)). apply V. }
  intros u s2 [[G2 W2] S2]. destruct (static_chains _ _ S2) as [V2 R2]. pose proof (static_request _ _ c S2) as Q2.
  assert (Hw2 : vmwait s2 c = vmwait s c) by by rewrite W2, bool_decide_false, W1 by by intros [_ ?].
  assert (G : good s s2) by by eapply good_trans.
  apply wpx_bind, wpx_rd; [done|]. fold (request_of s2 c). rewrite Q2, Q1. cbn [vr_type set_vr_vmresult].
  destruct (Z.eqb_spec (vr_type (request_of s c)) VMSTYPE_KERNELCALL) as [Ek|Ek].
  - apply wpx_bind, wpx_gets, wpx_bind, wr_request; [apply G2|done|]. intros s3 G3 W3 Q3 O3 V3 R3.
    apply wpx_bind, wpx_modify, wpx_ret. split; [done|].
    assert (Eq : request_of (set_vmrestart (Some c) s3) c = request_of s3 c) by done.
    split; rewrite ?Eq, ?Q3, ?Q2, ?Q1; try done.
    + eapply good_trans; [exact G|]. eapply good_trans; [exact G3|]. apply quiet_good; [apply G3|by split|done].
    + change (vmrequest s3 = vmrequest s). congruence.
    + rewrite Ek. cbn. split_all; [done|congruence|]. change (vmwait s3 c = vmwait s c). by rewrite W3.
  - assert (((vr_type (request_of s c) =? VMSTYPE_DELIVERMSG) || (vr_type (request_of s c) =? VMSTYPE_MAP)) = true) as ->.
    { destruct Hty as [?|[-> | ->]]; done. }
    apply wpx_bind. eapply wpx_conseq; [apply clear_flag; [apply G2|done| |by right]|].
    { by rewrite (weak_free s s2 (proj2 G)). }
    intros u' s3 [[G3 W3] S3]. destruct (static_chains _ _ S3) as [V3 R3]. pose proof (static_request _ _ c S3) as Q3.
    apply wpx_ret. split; [done|]. split; rewrite ?Q3, ?Q2, ?Q1; try done.
    + by eapply good_trans.
    + congruence.
    + rewrite (proj2 (Z.eqb_neq _ _) Ek). split; [congruence|]. by rewrite W3, bool_decide_true.
Qed.

(** ** The call is taken up again *)

Lemma vmrestart_check_wp E s c :
  let msg := vr_reqmsg (request_of s c) in
  ipc_inv s -> vmrestart s = Some c -> slot c -> vr_type (request_of s c) = VMSTYPE_KERNELCALL ->
  valid_endpt s (m_source msg) -> 0 <= i32 (m_type msg - KERNEL_CALL) < NR_SYS_CALLS ->
  wpx E vmrestart_check (fun r s' => r = Some (c, msg) /\
    vr_vmresult (request_of s' c) = vr_vmresult (request_of s c) /\
    vmrequest s' = vmrequest s /\ vmrestart s' = vr_nextrestart (request_of s c)) s.
Proof.
  intros msg Hi Hr Hc Hty V Hnr. unfold vmrestart_check. apply wpx_bind, wpx_gets. rewrite Hr.
  apply wpx_bind, wpx_rd; [done|]. fold (request_of s c). rewrite Hty.
  apply wpx_bind, wr_request; [done|done|]. intros s1 G1 _ Q1 _ V1 _.
  apply wpx_bind, wpx_rd; [done|]. fold (request_of s1 c). rewrite Q1. apply wpx_bind, wpx_modify.
  change (VMSTYPE_KERNELCALL =? VMSTYPE_KERNELCALL) with true. cbv iota. set (s2 := set_vmrestart _ s1).
  assert (Q2 : request_of s2 c = set_vr_type VMSTYPE_SYS_NONE (request_of s c)) by exact Q1.
  assert (G2 : good s s2) by (eapply good_trans; [exact G1|]; apply quiet_good; [apply G1|by split|done]).
  apply wpx_bind, wpx_rd; [done|]. fold (request_of s2 c). rewrite Q2. cbn [vr_reqmsg set_vr_type]. fold msg.
  apply wpx_bind, wr_request; [apply G2|done|]. intros s3 G3 _ Q3 _ V3 R3. apply wpx_bind, wpx_modify.
  pose proof (good_trans _ _ _ G2 G3) as G. apply wpx_bind, wpx_valid_endpt.
  rewrite decide_True.
  2: { destruct V as (A1 & A2 & A3). split; [done|]. split.
       - change (is_free s3 (_ENDPOINT_P (m_source msg)) = false). by rewrite (weak_free _ _ (proj2 G)).
       - change (endpt s3 (_ENDPOINT_P (m_source msg)) = m_source msg). by rewrite (weak_endpt _ _ (proj2 G)). }
  rewrite (proj2 (Z.leb_le 0 _)), (proj2 (Z.ltb_lt _ _)) by lia. cbn [andb]. apply wpx_ret.
  set (s4 := set_who_p _ s3). assert (Q4 : request_of s4 c = request_of s3 c) by done.
  split_all; [done| | |].
  - by rewrite Q4, Q3, Q2.
  - change (vmrequest s3 = vmrequest s). by rewrite V3.
  - change (vmrestart s3 = vr_nextrestart (request_of s c)). by rewrite R3.
Qed.
