(* ===== verification/KernelInv.v ===== *)
(** * The invariant of the kernel

    The conjunction of the invariants of the components, and the steps that keep it:
    those that leave the interrupt system alone, and the turns of the kernel tasks. *)
From S2P Require Import Prelude PList KMonad Timers Types KState Memory TimerIface Sched SchedInv Balance.
From S2P Require Import PickProc PickSpec Notify Copy Ipc IpcInv IpcSafe CopySafe IpcCalls IpcRecv.
From S2P Require Import IpcBlock IpcTop Delivery Clock ClockSafe Interrupt IrqInv IrqSafe Dispatch.

Definition drivers_ok (s : kstate) (L : Z -> list Z) : Prop :=
  forall i h, irq_ok i -> h ∈ L i -> driver_ok s h.

Record kernel_ok (s : kstate) : Prop := mk_kernel_ok {
  ko_env : irq_env False s;
  ko_irq : exists L, irq_inv s L /\ drivers_ok s L;
  ko_policy : 0 <= sched_type s <= 2;
  ko_idle : is_free s IDLE = false;
  ko_untraced : untraced s;
  ko_delay : delayed (k_proc s PM_PROC_NR) = false }.

Lemma ko_pm s : kernel_ok s -> is_free s PM_PROC_NR = false.
Proof.
  intros [[_ _ _ _ _ Hp] _ _ _ _ _]. destruct (is_free s PM_PROC_NR) eqn:E; [|done].
  destruct Hp. by left.
Qed.

Lemma ko_no_panic s : kernel_ok s -> ~ pm_panics s.
Proof. intros H [Hf|Hd]; [by rewrite (ko_pm s H) in Hf|by rewrite (ko_delay s H) in Hd]. Qed.

Lemma ko_disp s : kernel_ok s -> disp_ok s.
Proof. intros [[H1 _ _ _ _ _] _ H2 H3 H4 _]. by split. Qed.

(** ** What the steps have in common *)

(** A traced process, as one of the flags of [signals]. *)
Lemma traced_signals q : traced q = signals 9 (p_misc_flags q).
Proof.
  unfold traced, flag_any, signals. change (9 =? 9) with true. cbv iota.
  change (Z.lor MF_SC_DEFER MF_SC_TRACE) with (Z.lor (2 ^ 9) (2 ^ 10)). rewrite Z.land_lor_distr_r.
  rewrite <- !flag_any_bit by lia. unfold flag_any.
  destruct (Z.eqb_spec (Z.lor (Z.land (p_misc_flags q) (2 ^ 9)) (Z.land (p_misc_flags q) (2 ^ 10))) 0) as [E|E].
  - apply Z.lor_eq_0_iff in E as [-> ->]. done.
  - destruct (Z.eqb_spec (Z.land (p_misc_flags q) (2 ^ 9)) 0) as [E1|]; [|done].
    destruct (Z.eqb_spec (Z.land (p_misc_flags q) (2 ^ 10)) 0) as [E2|]; [|done].
    by rewrite E1, E2 in E.
Qed.

Lemma no_new_traced s s' :
  (forall p, no_new_sig (k_proc s p) (k_proc s' p)) -> untraced s -> untraced s'.
Proof.
  intros H Hu p Hp. specialize (H p 9). specialize (Hu p Hp). rewrite traced_signals in *.
  destruct (signals 9 (p_misc_flags (k_proc s' p))) eqn:E; [|done].
  rewrite H in Hu; [done|tauto|done].
Qed.

Lemma no_new_vtimed s s' p :
  no_new_sig (k_proc s p) (k_proc s' p) -> vtimed s' p = true -> vtimed s p = true.
Proof.
  unfold vtimed. change MF_VIRT_TIMER with (2 ^ 1). change MF_PROF_TIMER with (2 ^ 2).
  rewrite !flag_any_bit, !orb_true_iff by lia. intros H [H1|H1]; [left; apply (H 1)|right; apply (H 2)]; tauto.
Qed.

Lemma no_new_not_delayed p p' : no_new_sig p p' -> delayed p = false -> delayed p' = false.
Proof. intros H Hd. destruct (delayed p') eqn:E; [|done]. by rewrite (no_new_delayed p p') in Hd. Qed.

Lemma driver_same s s' h :
  irq_hooks s' = irq_hooks s -> (forall p, is_free s' p = is_free s p) ->
  (forall p, endpt s' p = endpt s p) -> driver_ok s h -> driver_ok s' h.
Proof.
  intros Eh Ef Ee H Hg. rewrite Eh in Hg. destruct (H Hg) as (d & H1 & H2 & H3).
  exists d. by rewrite Ef, Ee, Eh.
Qed.

(** A step that leaves the interrupt system alone. *)
Lemma kernel_ok_disp s s' : disp s s' -> ipc_inv s' -> kernel_ok s -> kernel_ok s'.
Proof.
  intros [D1 D2 D3 D4 D5 D6] Hi [[_ T P B Z N] (L & HL & HD) Ht Hf Hu Hd].
  unfold glob0, irq_view in D4.
  assert (Ev : irq_view s' = irq_view s) by (unfold irq_view; congruence).
  split.
  - split; [done| |congruence| |congruence|].
    + unfold clock_tasks. by rewrite D2, !D1.
    + destruct B as (b & Hb & Hbs & Hbf). destruct D5 as [E|(b' & Hb' & Hs' & Hf')].
      * exists b. by rewrite E, D1.
      * exists b'. by rewrite D1.
    + intros [E|E]; apply N; [left; by rewrite <- D1|right; by eapply no_new_vtimed].
  - exists L. split; [by eapply irq_inv_view|]. intros i h Hii Hh.
    apply (driver_same s); [congruence|done|done|by apply (HD i)].
  - congruence.
  - by rewrite D1.
  - by eapply no_new_traced.
  - by eapply no_new_not_delayed.
Qed.

Lemma call_frame_disp s s' : call_frame s s' -> disp s s'.
Proof.
  intros [F1 F2 F3 F4 F5 F6 F7 F8]. unfold glob_view in F4.
  split; [done|done|done|unfold glob0; congruence|left; congruence|done].
Qed.

(** A turn of a kernel task. *)
Lemma turn_kernel s s' : turn_frame s s' -> ipc_inv s' -> kernel_ok s -> kernel_ok s'.
Proof.
  intros [D1 D2 _ _ D5 D6 _ _] Hi [[_ T P B Z N] (L & HL & HD) Ht Hf Hu Hd].
  assert (Ev : irq_view s' = irq_view s) by congruence.
  assert (Hb : forall n, n = 1 \/ n = 2 \/ n = 7 -> Z.testbit (p_misc_flags (k_proc s' PM_PROC_NR)) n = true ->
    Z.testbit (p_misc_flags (k_proc s PM_PROC_NR)) n = true)
    by (intros n Hn; specialize (D5 PM_PROC_NR n ltac:(tauto)); by destruct Hn as [->|[->| ->]]).
  split.
  - split; [done| |congruence| |congruence|].
    + unfold clock_tasks. by rewrite D2, !D1.
    + destruct B as (b & B1 & B2 & B3). exists b. rewrite D1. split; [congruence|done].
    + intros [E|E]; apply N; [left; by rewrite <- D1|right]. revert E. unfold vtimed.
      change MF_VIRT_TIMER with (2 ^ 1). change MF_PROF_TIMER with (2 ^ 2).
      rewrite !flag_any_bit, !orb_true_iff by lia. intros [E|E]; [left|right]; apply Hb; tauto.
  - exists L. split; [by eapply irq_inv_view|]. intros i h Hii Hh.
    apply (driver_same s); [unfold irq_view in Ev; congruence|done|done|by apply (HD i)].
  - congruence.
  - by rewrite D1.
  - intros p Hp. specialize (Hu p Hp). rewrite traced_signals in *.
    apply not_true_iff_false. intros H. rewrite D5 in Hu; [done|tauto|done].
  - revert Hd. unfold delayed. change MF_SIG_DELAY with (2 ^ 7). rewrite !flag_any_bit by lia.
    intros Hd. apply not_true_iff_false. intros H. rewrite Hb in Hd; [done|tauto|done].
Qed.
