(* ===== verification/Served.v ===== *)
(** * Handlers the system task can call at any time

    What SYSTEM needs of a handler of a kernel call, as a class: run for a live caller,
    it returns, whatever the request contains, and keeps the invariants of the kernel.
    [Serves P h] is that promise for the requests that satisfy [P]; the instances
    discharge it for the handlers of KCalls.v, Grants.v and SysTask.v. *)
From S2P Require Import Prelude PList KMonad Timers Types KState Memory TimerIface Sched SchedInv Balance.
From S2P Require Import PickProc PickSpec Notify Copy Ipc IpcInv IpcSafe CopySafe IpcCalls IpcRecv.
From S2P Require Import IpcBlock IpcTop Delivery Clock ClockSafe ClockTask Interrupt IrqInv IrqSafe.
From S2P Require Import Dispatch KernelInv.
From S2P Require Import System KCalls KProc Grants Frame SysLock GrantSafe VmCtl Signals PrivCtl.
From S2P Require Import SysTask SysTurn.

(** ** The steps of a handler *)

Lemma tmr_turn s s' : tmr_step s s' -> turn_frame s s'.
Proof. intros (st & nt & ->). apply turn_timers. Qed.

(** A step of a handler: the invariant holds after it. *)
Definition held (s s' : kstate) : Prop := ipc_inv s' /\ turn_frame s s'.

Lemma held_refl s : ipc_inv s -> held s s.
Proof. by split. Qed.

Lemma held_good s0 s s' : held s0 s -> good s s' -> held s0 s'.
Proof. intros [_ F] [Hi W]. split; [done|]. etrans; [done|by apply weak_turn]. Qed.

Lemma good_held s s' : good s s' -> held s s'.
Proof. intros [Hi W]. split; [done|by apply weak_turn]. Qed.

Lemma held_trans s0 s s' : held s0 s -> held s s' -> held s0 s'.
Proof. intros [_ F] [Hi F']. split; [done|by etrans]. Qed.

Lemma held_tmr s0 s s' : held s0 s -> tmr_step s s' -> held s0 s'.
Proof.
  intros [Hi F] T. split; [|etrans; [done|by apply tmr_turn]].
  destruct T as (st & nt & ->). by apply ipc_inv_timers.
Qed.

(** The invariant does not read the miscellaneous flags, nor the virtual timers. *)
Lemma ipc_inv_misc (g v w : Z -> Z) s :
  ipc_inv s ->
  ipc_inv (set_k_proc (fun p => set_p_misc_flags (g p) (set_p_virt_left (v p) (set_p_prof_left (w p) (k_proc s p)))) s).
Proof.
  intros ([[W1 W2 W3 W4] [Q [Q1 Q2 Q3 Q4]]] &
    [[I1 I2 I3 I4 I5 I6 I7 I8 I9] [P1 P2 P3] A [C [C1 C2 C3]]] & Hp).
  split; [split; [by split|exists Q; by split]|]. split; [|exact Hp].
  split; [by split|by split|exact A|exists C; by split].
Qed.

(** A change of those fields only. *)
Definition misc_only (f : proc -> proc) : Prop := forall x,
  f x = set_p_misc_flags (p_misc_flags (f x))
          (set_p_virt_left (p_virt_left (f x)) (set_p_prof_left (p_prof_left (f x)) x)) /\
  (signals 9 (p_misc_flags (f x)) = true -> signals 9 (p_misc_flags x) = true).

Lemma held_misc rp f s : ipc_inv s -> rp <> PM_PROC_NR -> misc_only f -> held s (upd_proc rp f s).
Proof.
  intros Hi Hpm Hf. set (s' := upd_proc rp f s).
  assert (Hk : forall p, k_proc s' p = set_p_misc_flags (p_misc_flags (k_proc s' p))
    (set_p_virt_left (p_virt_left (k_proc s' p)) (set_p_prof_left (p_prof_left (k_proc s' p)) (k_proc s p)))).
  { intros p. unfold s'. destruct (decide (rp = p)) as [->|]; [rewrite upd_proc_eq; apply Hf|].
    rewrite upd_proc_ne by done. by destruct (k_proc s p). }
  assert (Hview : forall A (g : proc -> A), (forall x a b c,
      g (set_p_misc_flags a (set_p_virt_left b (set_p_prof_left c x))) = g x) ->
    forall p, g (k_proc s' p) = g (k_proc s p)) by (intros A g Hg p; by rewrite Hk, Hg).
  split.
  - apply (ipc_inv_misc (fun p => p_misc_flags (k_proc s' p)) (fun p => p_virt_left (k_proc s' p))
      (fun p => p_prof_left (k_proc s' p))) in Hi.
    set (t := set_k_proc _ s) in Hi. refine (proj1 (quiet_good t s' Hi _ _)); [|done].
    assert (Ht : forall p, k_proc s' p = k_proc t p) by (intros p; apply Hk).
    split; try done; intros p; by rewrite Ht.
  - split; try done; intros p.
    + by apply (Hview _ (fun x => p_rts_flags x =? RTS_SLOT_FREE)).
    + by apply (Hview _ p_endpoint).
    + by apply (Hview _ (fun x => Z.testbit (p_rts_flags x) 8)).
    + unfold receiving, flags. by rewrite (Hview _ p_rts_flags).
    + intros n Hn. unfold s'. destruct (decide (rp = p)) as [->|]; [|by rewrite upd_proc_ne].
      rewrite upd_proc_eq. destruct Hn as [->|[? _]]; [apply Hf|done].
Qed.

(** ** The interface *)

(** A request is being handled: SYSTEM runs, and its variables name the caller. *)
Record serving (s : kstate) (m : message) : Prop := mk_serving {
  sg_run : sys_running s;
  sg_pm : is_free s PM_PROC_NR = false;
  sg_src : valid_endpt s (m_source m);
  sg_who_p : who_p s = _ENDPOINT_P (m_source m);
  sg_who_e : who_e s = m_source m;
  sg_code : sys_call_code s = u32 (m_type m) }.

(** The handler has answered [r]; the answer goes back to where the request came from. *)
Definition served (s : kstate) (m : message) (r : Z * message) (s' : kstate) : Prop :=
  held s s' /\ m_source (snd r) = m_source m.

Class Serves (P : kstate -> message -> Prop) (h : handler) : Prop :=
  serves s m : serving s m -> P s m -> wpx False (h m) (served s m) s.

(** Every request. *)
Definition always (s : kstate) (m : message) : Prop := True.

Section handlers.
Context (s : kstate) (m : message) (Hsg : serving s m).

Lemma sg_inv : ipc_inv s.
Proof. apply Hsg. Qed.
Lemma sg_on : intr_off s = false.
Proof. apply Hsg. Qed.
Lemma sg_slot : slot (who_p s).
Proof. rewrite (sg_who_p _ _ Hsg). apply (sg_src _ _ Hsg). Qed.
Lemma sg_live : is_free s (who_p s) = false.
Proof. rewrite (sg_who_p _ _ Hsg). apply (sg_src _ _ Hsg). Qed.

(** The answer. *)
Lemma wpx_reply r m' s' : held s s' -> m_source m' = m_source m -> wpx False (reply r m') (served s m) s'.
Proof. intros H Hm. by apply wpx_ret. Qed.

Lemma wpx_refuse r : wpx False (reply r m) (served s m) s.
Proof. apply wpx_reply; [apply held_refl, sg_inv|done]. Qed.

End handlers.
#[export] Hint Resolve held_refl good_held wpx_refuse sg_inv sg_on sg_slot sg_live : minix.

(** ** Times *)

#[export] Instance serves_unused : Serves always do_unused.
Proof. intros s m Hs _. by apply wpx_refuse. Qed.

#[export] Instance serves_stime : Serves always do_stime.
Proof.
  intros s m Hs _. apply wpx_bind, wpx_modify, wpx_reply; [|done].
  split; [apply (ipc_inv_same s); try done; by eapply sg_inv|by split].
Qed.

#[export] Instance serves_times : Serves always do_times.
Proof.
  intros s m Hs _. unfold do_times. apply wpx_bind.
  apply (wpx_conseq _ _ (fun o s' => s' = s /\ forall rp, o = Some rp -> slot rp)).
  { destruct (negb _); [|by apply wpx_ret]. apply wpx_isokendpt; [|done].
    intros d Hd _ _ _. split; [done|]. by intros rp [= <-]. }
  intros o s' [-> Ho]. apply wpx_bind.
  apply (wpx_conseq _ _ (fun m1 s' => s' = s /\ m_source m1 = m_source m)).
  { destruct o as [rp|]; [|by apply wpx_ret]. specialize (Ho rp eq_refl).
    apply wpx_bind, wpx_rd; [done|]. apply wpx_bind, wpx_rd; [done|]. by apply wpx_ret. }
  intros m1 s' [-> Hm]. apply wpx_bind, wpx_gets, wpx_bind, wpx_gets.
  apply wpx_reply; [apply held_refl; by eapply sg_inv|done].
Qed.

(** ** Scheduling *)

#[export] Instance serves_nice : Serves always do_nice.
Proof.
  intros s m Hs _. unfold do_nice. apply wpx_bind, wpx_isokendpt; [|by apply wpx_refuse].
  intros p Hp Hf _ _. destruct (iskerneln p); [by apply wpx_refuse|]. destruct (_ || _); [by apply wpx_refuse|].
  pose proof (nice_queue_range (m1_i2 m)) as Hq. revert Hq. generalize (nice_queue (m1_i2 m)) as q. intros q Hq.
  apply sys_lock_enter; [by eapply sg_inv|done|done|]. intros s1 G1 (_ & _ & _ & Fl1 & _).
  apply wpx_bind, wpx_wr; [done|]. apply wpx_bind, wpx_wr; [done|].
  destruct (ipc_inv_prio s1 p q (proj1 G1)) as [Hi2 W2]; [rewrite Fl1; apply set_lock_flags_nonzero|done|].
  set (s2 := upd_proc _ _ (upd_proc _ _ s1)) in *. clearbody s2.
  assert (G2 : good s1 s2) by by split. pose proof (good_trans _ _ _ G1 G2) as G.
  apply sys_lock_leave; [done|done|by rewrite (weak_free s s2 (proj2 G))|]. intros s3 G3 _.
  apply wpx_reply; [apply good_held; by eapply good_trans|done].
Qed.

(** The deadline of a live process; its timer runs if it has one. *)
Definition deadline_request (s : kstate) (m : message) : Prop :=
  slot (m2_i1 m) /\ is_free s (m2_i1 m) = false /\
  exists l, timers_rep s l /\ (TDeadline (m2_i1 m) ∈ l -> 0 < deadline_of s (m2_i1 m)).

#[export] Instance serves_chdeadline : Serves deadline_request do_chdeadline.
Proof.
  intros s m Hs (Hp & Hf & l & Hl & Hd). unfold do_chdeadline. set (rp := m2_i1 m) in *.
  apply sys_lock_enter; [by eapply sg_inv|done|done|]. intros s1 G1 _.
  destruct (good_timers _ _ G1) as (Ec & En & _).
  apply (change_deadline_wp False s1 l rp (m2_l1 m));
    [by apply (timers_rep_same s)|unfold deadline_of; by rewrite Ec|done|apply iw_nr; [apply G1|done]|].
  intros s2 T2 _ _. pose proof (held_tmr _ _ _ (good_held _ _ G1) T2) as H2.
  apply sys_lock_leave; [apply H2|done|by rewrite (tf_free _ _ (proj2 H2))|]. intros s3 G3 _.
  apply wpx_reply; [by eapply held_good|done].
Qed.

(** ** Signals *)

(** PM is neither signalled nor stopped. *)
Definition not_pm (e : Z) : Prop := _ENDPOINT_P e <> PM_PROC_NR.

Definition kill_request (s : kstate) (m : message) : Prop := not_pm (m2_i1 m) /\ m2_i2 m <> SIGKILL.

#[export] Instance serves_kill : Serves kill_request do_kill.
Proof.
  intros s m Hs [Hpm Hk]. unfold do_kill. apply wpx_bind, wpx_isokendpt; [|by apply wpx_refuse].
  intros p Hp Hf _ ->. destruct (_NSIG <=? _); [by apply wpx_refuse|].
  destruct (iskerneln _); [by apply wpx_refuse|]. apply wpx_bind.
  eapply wpx_conseq; [apply cause_sig_good; [by eapply sg_inv|done|done|by intros ?%Hpm|]|].
  - rewrite (sg_pm _ _ Hs). done.
  - intros u s1 G1. rewrite (proj2 (Z.eqb_neq _ _) Hk). apply wpx_bind, wpx_ret.
    by apply wpx_reply; [apply good_held|].
Qed.

(** A flag that blocks a live process, other than those of message passing, is cleared. *)
Lemma unset_held s0 s p n :
  held s0 s -> slot p -> is_free s0 p = false -> n = 1 \/ n = 4 \/ n = 5 ->
  wpx False (RTS_LOCK_UNSET p (2 ^ n)) (fun _ s' => held s0 s') s.
Proof.
  intros H Hp Hf Hn. eapply wpx_conseq; [apply RTS_LOCK_UNSET_good; [apply H|done| | | | |left]|].
  1: by rewrite (tf_free _ _ (proj2 H)).
  5: intros u s' [G _]; by eapply held_good.
  all: by destruct Hn as [->|[->| ->]].
Qed.

(** A process that has a flag set is live. *)
Lemma isset_live s p n :
  flag_isset (p_rts_flags (k_proc s p)) (2 ^ n) = true -> n = 4 \/ n = 5 -> is_free s p = false.
Proof. intros H Hn. rewrite flag_isset_bit in H by lia. apply (not_free_bit _ n); [lia|done]. Qed.

#[export] Instance serves_getksig : Serves always do_getksig.
Proof.
  intros s m Hs _. unfold do_getksig. apply wpx_bind.
  apply (wpx_conseq _ _ (fun o s' => held s s' /\ forall m', o = Some m' -> m_source m' = m_source m)).
  2: { intros [m'|] s' [H Hm]; apply wpx_reply; auto. }
  apply (wpx_for_return _ (fun _ s' => held s s')); [apply held_refl; by eapply sg_inv| |done].
  intros p rest s1 H1 Hp%elem_of_seqZ.
  assert (Hsp : slot p) by (unfold slot, NR_TASKS, NR_PROCS in *; lia).
  apply wpx_bind, wpx_RTS_ISSET; [done|]. change RTS_SIGNALED with (2 ^ 4).
  destruct (flag_isset _ _) eqn:Hb; [|by apply wpx_ret].
  apply isset_live in Hb; [|tauto]. rewrite (tf_free _ _ (proj2 H1)) in Hb.
  apply wpx_bind, wpx_rd; [done|]. apply wpx_bind, wpx_rd; [done|].
  apply wpx_bind, wpx_wr_keep; [apply H1|done|done|]. intros s2 G2. pose proof (held_good _ _ _ H1 G2) as H2.
  apply wpx_bind. eapply wpx_conseq; [by apply unset_held; try done; tauto|].
  intros u s3 H3. apply wpx_ret. split; [done|]. by intros m' [= <-].
Qed.

#[export] Instance serves_endksig : Serves always do_endksig.
Proof.
  intros s m Hs _. unfold do_endksig. apply wpx_bind, wpx_isokendpt; [|by apply wpx_refuse].
  intros p Hp Hf _ _. apply wpx_bind, wpx_RTS_ISSET; [done|]. destruct (flag_isset _ _); [|by apply wpx_refuse].
  apply wpx_bind, wpx_RTS_ISSET; [done|]. apply wpx_bind. cbn [negb].
  assert (H0 : held s s) by (apply held_refl; by eapply sg_inv).
  apply (wpx_conseq _ _ (fun _ s' => held s s')); [|intros u s' H; by apply wpx_reply].
  apply wpx_when; intros _; [|done]. apply (unset_held s s p 5); tauto.
Qed.

(** PM is not asked to stop. *)
Definition target_not_pm (s : kstate) (m : message) : Prop := not_pm (m1_i1 m).

Lemma misc_set_only f : signals 9 f = false -> misc_only (fun p => set_p_misc_flags (flag_set (p_misc_flags p) f) p).
Proof.
  intros Hf x. split; [by destruct x|]. cbn [p_misc_flags set_p_misc_flags]. by rewrite signals_set.
Qed.
Lemma misc_clear_only f : misc_only (fun p => set_p_misc_flags (flag_clear (p_misc_flags p) f) p).
Proof. intros x. split; [by destruct x|]. apply signals_clear. Qed.

#[export] Instance serves_runctl : Serves target_not_pm do_runctl.
Proof.
  intros s m Hs Hpm. unfold do_runctl. apply wpx_bind, wpx_isokendpt; [|by apply wpx_refuse].
  intros p Hp Hf _ Hpe. destruct (iskerneln p); [by apply wpx_refuse|].
  assert (Hne : p <> PM_PROC_NR) by by subst p. clear Hpe.
  apply wpx_bind, (wpx_conseq _ _ (fun _ s' => held s s')).
  - destruct (_ && _); [|by apply wpx_ret, held_refl; eapply sg_inv].
    apply sys_lock_enter; [by eapply sg_inv|done|done|]. intros s1 G1 _. apply good_held in G1.
    apply wpx_bind, wpx_RTS_ISSET; [done|]. apply wpx_bind, wpx_rd; [done|]. apply wpx_bind.
    apply (wpx_conseq _ _ (fun _ s' => held s s')).
    { apply wpx_when; intros _; [|done]. apply wpx_wr; [done|]. eapply held_trans; [done|].
      apply held_misc; [apply G1|done|by apply misc_set_only]. }
    intros u s2 H2. apply wpx_bind, wpx_rd; [done|].
    apply sys_lock_leave; [apply H2|done|by rewrite (tf_free _ _ (proj2 H2))|]. intros s3 G3 _.
    apply wpx_ret. by eapply held_good.
  - intros d s1 H1. assert (Hf1 : is_free s1 p = false) by by rewrite (tf_free _ _ (proj2 H1)).
    destruct d; [by apply wpx_reply|]. destruct (_ =? RC_STOP).
    { apply wpx_bind. eapply wpx_conseq; [apply (RTS_LOCK_SET_good False s1 p _ 1); try done; apply H1|].
      intros u s2 [G2 _]. by apply wpx_reply; [eapply held_good|]. }
    destruct (_ =? RC_RESUME); [|by apply wpx_reply].
    apply wpx_bind. eapply wpx_conseq; [by apply (unset_held s s1 p 1); try done; tauto|].
    intros u s2 H2. by apply wpx_reply.
Qed.

(** ** Timers *)

(** The virtual timers of PM are only read: a tick of one would stop the kernel. *)
Definition vtimer_request (s : kstate) (m : message) : Prop :=
  m2_i2 m = 0 \/ not_pm (if m2_l2 m =? SELF then m_source m else m2_l2 m).

Lemma vtimer_only which v : misc_only (set_vt_left which v).
Proof. intros x. unfold set_vt_left. destruct (which =? VT_VIRTUAL); by destruct x. Qed.
Lemma vt_flag_signals which : signals 9 (vt_flag which) = false.
Proof. unfold vt_flag. by destruct (which =? VT_VIRTUAL). Qed.

(** One assignment to the flags or the timers of a process. *)
Lemma wr_misc_held s0 s p f (Q : unit -> kstate -> Prop) :
  held s0 s -> slot p -> p <> PM_PROC_NR -> misc_only f ->
  (forall s', held s0 s' -> Q tt s') -> wpx False (wr p f) Q s.
Proof.
  intros H Hp Hpm Hf HQ. apply wpx_wr; [done|]. apply HQ. eapply held_trans; [done|].
  apply held_misc; [apply H|done..].
Qed.

#[export] Instance serves_vtimer : Serves vtimer_request do_vtimer.
Proof.
  intros s m Hs HP. assert (H0 : held s s) by (apply held_refl; by eapply sg_inv). unfold do_vtimer.
  apply wpx_bind, wpx_gets, wpx_bind, wpx_priv_live; [by eapply sg_inv|by eapply sg_slot|by eapply sg_live|].
  intros i _ Hi _ _. apply wpx_bind, wpx_rdp; [done|]. destruct (negb _); [by apply wpx_refuse|].
  destruct (_ && _); [by apply wpx_refuse|].
  apply wpx_bind, wpx_isokendpt; [|by apply wpx_refuse]. intros p Hp Hf _ Hpe.
  apply wpx_bind, wpx_rd; [done|]. apply wpx_bind, wpx_rd; [done|]. apply wpx_bind.
  apply (wpx_conseq _ _ (fun _ s' => held s s')); [|intros u s' H; by apply wpx_reply].
  apply wpx_when; intros Hset; [|done].
  assert (Hne : p <> PM_PROC_NR).
  { destruct HP as [H|H]; [by rewrite H in Hset|by subst p]. }
  apply wpx_bind, (wr_misc_held s); [done..|apply misc_clear_only|]. intros s1 H1.
  destruct (0 <? _); [|apply (wr_misc_held s); [done..|apply vtimer_only|done]].
  apply wpx_bind, (wr_misc_held s); [done..|apply vtimer_only|]. intros s2 H2.
  apply (wr_misc_held s); [done..|apply misc_set_only, vt_flag_signals|done].
Qed.

(** The timers are in order. *)
Definition alarm_request (s : kstate) (m : message) : Prop := timers_inv s.

(** The timer [tp] may be changed in place, before it is armed or taken away. *)
Definition timer_open (s0 : kstate) (tp : tmr_ref) (l : list tmr_ref) (s : kstate) : Prop :=
  held s0 s /\ tq_but tp (clock_timers s) l /\ forall k, k ∈ l -> timer_ok k.

Lemma upd_timer_open s0 s tp l f (Q : unit -> kstate -> Prop) :
  timer_open s0 tp l s -> (forall t, tmr_next (f t) = tmr_next t) ->
  (forall s', timer_open s0 tp l s' -> Q tt s') -> wpx False (upd_timer tp f) Q s.
Proof.
  intros (H & Hb & Hk) Hf HQ. apply upd_timer_wp, HQ. unfold timer_open. split_all.
  - eapply held_tmr; [done|apply tmr_step_upd].
  - by apply tq_but_upd.
  - done.
Qed.

#[export] Instance serves_setalarm : Serves alarm_request do_setalarm.
Proof.
  intros s m Hs (l & [[Hq Hk] _]). unfold do_setalarm.
  apply wpx_bind, wpx_gets, wpx_bind, wpx_priv_live; [by eapply sg_inv|by eapply sg_slot|by eapply sg_live|].
  intros i _ Hi _ _. apply wpx_bind, wpx_rdp; [done|]. destruct (negb _); [by apply wpx_refuse|].
  set (tp := TAlarm i). assert (H0 : timer_open s tp l s).
  { unfold timer_open. split_all; [apply held_refl; by eapply sg_inv|by apply tq_rep_but|done]. }
  apply wpx_bind, (upd_timer_open s s tp l); [done..|]. intros s1 H1.
  apply wpx_bind, (upd_timer_open s s1 tp l); [done..|]. intros s2 H2.
  apply wpx_bind, wpx_gets, wpx_bind, wpx_gets.
  match goal with |- context [reply OK ?x] => set (m' := x) end.
  assert (Hm : m_source m' = m_source m) by (unfold m'; by destruct (_ && _)). clearbody m'.
  destruct (_ =? 0).
  - destruct H2 as (H2 & Hb & _). apply wpx_bind, (reset_timer_but_wp _ s2 l); [done..|]. intros st _ _.
    apply wpx_reply; [|done]. eapply held_tmr; [done|apply tmr_step_changed].
  - apply wpx_bind, wpx_gets. apply wpx_bind, (upd_timer_open s s2 tp l); [done..|]. intros s3 (H3 & Hb & _).
    apply wpx_bind, (set_timer_but_wp _ s3 l); [done|done|by apply timer_ok_alarm|]. intros st _ _.
    apply wpx_reply; [|done]. eapply held_tmr; [done|apply tmr_step_changed].
Qed.

(** ** Grants, memory, diagnostics *)

#[export] Instance serves_setgrant : Serves always do_setgrant.
Proof.
  intros s m Hs _. pose proof (sg_inv _ _ Hs) as Hi. pose proof (sg_slot _ _ Hs) as Hw. unfold do_setgrant.
  apply wpx_bind, wpx_gets, wpx_bind, wpx_RTS_ISSET; [done|]. apply wpx_bind, wpx_rd; [done|].
  destruct (iw_priv s (ic_wf s (proj1 (proj2 Hi))) (who_p s) Hw (sg_live _ _ Hs)) as (i & Hpi & Hsi & _).
  rewrite Hpi. destruct (flag_isset _ _); [by apply wpx_refuse|].
  apply wpx_bind, wpx_wrp_keep; [done..|]. intros s1 G1 _.
  apply wpx_bind, wpx_wrp_keep; [apply G1|done|done|]. intros s2 G2 _.
  by apply wpx_reply; [apply good_held; eapply good_trans|].
Qed.

#[export] Instance serves_iopenable : Serves always do_iopenable.
Proof.
  intros s m Hs _. unfold do_iopenable. apply wpx_bind.
  apply (wpx_conseq _ _ (fun o s' => s' = s /\ forall p, o = Some p -> slot p)).
  { destruct (_ =? SELF).
    - apply wpx_bind, wpx_gets, wpx_ret. split; [done|]. intros p [= <-]. by eapply sg_slot.
    - apply wpx_isokendpt; [|done]. intros d Hd _ _ _. split; [done|]. by intros p [= <-]. }
  intros [p|] s' [-> Ho]; [|by apply wpx_refuse]. specialize (Ho p eq_refl).
  apply wpx_bind, wpx_wr_keep; [by eapply sg_inv|done|done|]. intros s1 G1.
  by apply wpx_reply; [apply good_held|].
Qed.

#[export] Instance serves_sysctl : Serves always do_sysctl.
Proof.
  intros s m Hs _. unfold do_sysctl. destruct (_ =? SYSCTL_CODE_DIAG).
  - destruct (Z.ltb_spec (u32 (m1_i2 m)) 1) as [|Hn]; [by apply wpx_refuse|].
    destruct (_ <? _); [by apply wpx_refuse|]. apply wpx_bind, wpx_gets, wpx_bind.
    eapply wpx_conseq; [apply data_copy_in_good; [by eapply sg_inv|lia|intros _; by eapply sg_live]|].
    intros r s1 G1. by apply wpx_reply; [apply good_held|].
  - destruct (_ =? _); [|by apply wpx_refuse].
    apply wpx_bind, wpx_isokendpt; [|by apply wpx_refuse]. intros d _ _ _ _. by apply wpx_refuse.
Qed.

#[export] Instance serves_memset : Serves always do_memset.
Proof.
  intros s m Hs _. unfold do_memset, vm_phys_memset. apply wpx_bind.
  eapply wpx_conseq; [apply intr_off_good; [by eapply sg_inv|]|].
  - intros s1 _ Hi1. by apply wpx_modify, good_set_mem.
  - intros u s1 G1. by apply wpx_reply; [apply good_held|].
Qed.

(** A safe copy of some bytes in a segment of the caller, one that does not come back from VM. *)
Definition safecopy_request (s : kstate) (m : message) : Prop :=
  (u32 (m_type m) = SYS_SAFECOPYFROM \/ u32 (m_type m) = SYS_SAFECOPYTO) /\
  0 <= m2_i2 m <= 2 /\ u32 (m2_l2 m) <> 0 /\ no_answer s.

#[export] Instance serves_safecopy : Serves safecopy_request do_safecopy.
Proof.
  intros s m Hs (Hc & Hseg & Hb & Hno). unfold do_safecopy. apply wpx_bind, wpx_gets, wpx_bind, wpx_gets.
  rewrite (sg_code _ _ Hs).
  assert (Hcopy : forall src_seg dst_seg access, 0 <= src_seg <= 2 -> 0 <= dst_seg <= 2 ->
    wpx False (do r <- safecopy (m2_i1 m) (who_e s) (m2_i3 m) src_seg dst_seg (u32 (m2_l2 m)) (u32 (m2_l1 m))
      (u32 (m2_p1 m)) access; reply r m) (served s m) s).
  { intros ss ds ac Hss Hds. pose proof (u32_range (m2_l2 m)). pose proof (u32_range (m2_l1 m)).
    apply wpx_bind. eapply wpx_conseq;
      [apply safecopy_wp; [by eapply sg_inv|done|by eapply sg_live|lia|done|done|done]|].
    intros r s' [(_ & -> & _)|(v & o & _ & C)]; [by apply wpx_refuse|].
    by apply wpx_reply; [apply good_held, C|]. }
  destruct Hc as [-> | ->]; by apply Hcopy.
Qed.

(** A copy of some bytes between segments of processes. *)
Definition copy_request (s : kstate) (m : message) : Prop :=
  0 <= m5_s1 m <= 2 /\ 0 <= m5_s2 m <= 2 /\ u32 (m5_l3 m) <> 0 /\ no_answer s.

Lemma copy_end_ok_wp s m va :
  wpx False (copy_end_ok m va) (fun r s' => s' = s /\ forall va', r = inr va' -> va_segment va' = va_segment va) s.
Proof.
  unfold copy_end_ok. set (va1 := if _ =? SELF then _ else va).
  assert (Hv : va_segment va1 = va_segment va) by (unfold va1; by destruct (_ =? SELF)). clearbody va1.
  apply wpx_bind, (wpx_conseq _ _ (fun _ s' => s' = s)).
  - destruct (negb _); [|by apply wpx_ret]. apply wpx_bind, wpx_isokendpt; [intros d _ _ _ _|]; by apply wpx_ret.
  - intros ok s' ->. destruct (negb ok); [by apply wpx_ret|]. destruct (_ && _); [by apply wpx_ret|].
    apply wpx_ret. split; [done|]. by intros va' [= <-].
Qed.

#[export] Instance serves_copy : Serves copy_request do_copy.
Proof.
  intros s m Hs (H1 & H2 & Hb & Hno). unfold do_copy. apply wpx_bind.
  eapply wpx_conseq; [apply copy_end_ok_wp|]. intros [e|src] s' [-> Hsrc]; [by apply wpx_refuse|].
  apply wpx_bind. eapply wpx_conseq; [apply copy_end_ok_wp|]. intros [e|dst] s' [-> Hdst]; [by apply wpx_refuse|].
  specialize (Hsrc src eq_refl). specialize (Hdst dst eq_refl). cbn [va_segment] in *.
  pose proof (u32_range (m5_l3 m)). apply wpx_bind.
  eapply wpx_conseq; [apply virtual_copy_done; [by eapply sg_inv|done|lia|lia|lia|by eapply sg_live]|].
  intros r s' C. by apply wpx_reply; [apply good_held, C|].
Qed.

(** ** The turn *)

(** The calls with such a handler, and what it asks of a request. *)
Definition served_calls : list (Z * (kstate -> message -> Prop)) :=
  [(SYS_CHDEADLINE, deadline_request); (SYS_NICE, always); (SYS_RUNCTL, target_not_pm);
   (SYS_KILL, kill_request); (SYS_GETKSIG, always); (SYS_ENDKSIG, always);
   (SYS_SETALARM, alarm_request); (SYS_VTIMER, vtimer_request); (SYS_TIMES, always); (SYS_STIME, always);
   (SYS_SETGRANT, always); (SYS_SAFECOPYFROM, safecopy_request); (SYS_SAFECOPYTO, safecopy_request);
   (SYS_VIRCOPY, copy_request); (SYS_PHYSCOPY, copy_request); (SYS_MEMSET, always);
   (SYS_SYSCTL, always); (SYS_IOPENABLE, always)].

Lemma served_calls_ok pf other c P :
  (c, P) ∈ served_calls -> Serves P (call_vec pf other (c - KERNEL_CALL)).
Proof.
  intros H. unfold served_calls in H.
  repeat (apply elem_of_cons in H as [[= -> ->]|H]; [cbn; apply _|]). by apply elem_of_nil in H.
Qed.

(** A request that is refused, or that one of these handlers takes. *)
Definition harmless (s : kstate) (m : message) : Prop :=
  refused s m <> None \/ exists P, (u32 (m_type m), P) ∈ served_calls /\ P (entered m s) m.

Lemma served_call_nr m P : (u32 (m_type m), P) ∈ served_calls -> call_nr m = u32 (m_type m) - KERNEL_CALL.
Proof.
  unfold call_nr. generalize (u32 (m_type m)) as c. intros c H. unfold served_calls in H.
  repeat (apply elem_of_cons in H as [[= -> _]|H]; [reflexivity|]). by apply elem_of_nil in H.
Qed.

(** How the turn ends when the handler has answered [r]: the request is kept until VM has
    made memory available, or the caller, if it waits for it, gets the answer. *)
Definition finished (c : Z) (r : Z * message) (s s' : kstate) : Prop :=
  if fst r =? VMSUSPEND then s' = upd_proc c (upd_vmrequest (set_vr_reqmsg (snd r))) s
  else if (fst r =? EDONTREPLY) || negb (waits_answer s c) then s' = s
  else good s s' /\ receiving s' c = false /\
    has_message s' c SYSTEM (bytes_message (message_bytes (set_m_type (fst r) (snd r)))).

Lemma finished_good c r s s' : ipc_inv s -> finished c r s s' -> good s s'.
Proof.
  intros Hi. unfold finished. destruct (_ =? VMSUSPEND); [intros ->; by apply good_upd_proc|].
  destruct (_ || _); [intros ->; by apply good_refl|by intros [G _]].
Qed.

Lemma sys_answer_finishes s c r :
  sys_running s -> alive s c -> m_source (snd r) = endpt s c ->
  wpx False (sys_answer c (fst r) (snd r)) (fun _ s' => finished c r s s') s.
Proof.
  intros Hr Hc Hsrc. unfold sys_answer, finished. destruct (_ =? VMSUSPEND); [by apply wpx_wr; [apply Hc|]|].
  destruct (_ =? EDONTREPLY); [by apply wpx_ret|]. apply wpx_bind, wpx_rd; [apply Hc|].
  fold (waits_answer s c). destruct (waits_answer s c) eqn:Hw; [|by apply wpx_ret].
  cbn [orb negb]. apply wpx_bind. change (m_source (set_m_type _ _)) with (m_source (snd r)). rewrite Hsrc.
  eapply wpx_conseq; [by apply lock_send_sent|]. intros x s' H. by apply wpx_ret.
Qed.

(** The state in which SYSTEM takes a request. *)
Record receives (s : kstate) (m : message) : Prop := mk_receives {
  rv_kernel : kernel_ok s;
  rv_run : sys_running s;
  rv_src : valid_endpt s (m_source m);
  rv_alive : no_endpoint s (_ENDPOINT_P (m_source m)) = false }.

Lemma receives_serving s m : receives s m -> serving (entered m s) m.
Proof.
  intros [Hk Hr V Hn]. split; [apply entered_running; [apply V|done]|by apply (ko_pm s)|done..].
Qed.

Lemma held_running s s' : held s s' -> sys_running s -> sys_running s'.
Proof.
  intros [Hi F] [_ Hoff Hcur Hep]. split; [done| | |].
  - by destruct (tf_lock _ _ F) as [-> _].
  - by rewrite (tf_cur _ _ F).
  - by rewrite (tf_endpt _ _ F).
Qed.

Lemma entered_turn m s : turn_frame s (entered m s).
Proof. by split. Qed.

(** What a whole turn does. *)
Definition turn_done (vec : Z -> handler) (m : message) (s s' : kstate) : Prop :=
  let c := _ENDPOINT_P (m_source m) in
  kernel_ok s' /\ turn_frame s s' /\
  exists r s1, sys_handle vec c m (entered m s) = Done r s1 /\ finished c r s1 s'.

Lemma sys_turn_wp pf other s m :
  receives s m -> harmless s m ->
  wpx False (sys_turn (call_vec pf other) m) (fun _ s' => turn_done (call_vec pf other) m s s') s.
Proof.
  intros Hrv Hh. pose proof (receives_serving _ _ Hrv) as Hsg. destruct Hrv as [Hk Hr V Hn].
  apply sys_turn_enter; [apply Hr|done|]. apply wpx_bind.
  set (c := _ENDPOINT_P (m_source m)) in *. set (vec := call_vec pf other).
  apply (wpx_conseq _ _ (fun r s1 => served (entered m s) m r s1 /\ sys_handle vec c m (entered m s) = Done r s1)).
  - apply wpx_run; [done|]. apply sys_handle_wp; [apply Hsg|done| |].
    + intros e _. split; [apply held_refl, Hsg|done].
    + intros Hnr. destruct Hh as [H|(P & HP & H)]; [by rewrite refused_entered in Hnr|].
      rewrite (served_call_nr m P HP). exact (served_calls_ok pf other _ P HP (entered m s) m Hsg H).
  - intros r s1 [[[Hi1 F1] Hsrc] Hrun].
    assert (Hr1 : sys_running s1) by by apply (held_running (entered m s)); [|apply Hsg].
    eapply wpx_conseq; [apply sys_answer_finishes; [done| |]|].
    + split; [apply V|]. rewrite (tf_free _ _ F1), (tf_alive _ _ F1). split; [apply V|exact Hn].
    + rewrite Hsrc, (tf_endpt _ _ F1). symmetry. apply V.
    + intros u s' Hfin. pose proof (finished_good _ _ _ _ Hi1 Hfin) as G.
      assert (F : turn_frame s s')
        by (etrans; [apply (entered_turn m)|etrans; [exact F1|apply weak_turn, G]]).
      split; [apply (turn_kernel s); [done|apply G|done]|]. split; [done|]. by exists r, s1.
Qed.
