(* ===== verification/Machine.v ===== *)
(** * The kernel between two user instructions

    User code enters the kernel with a system call or is interrupted by a device; on
    the way out [schedcheck] chooses what runs next, which may be one of the tasks
    SYSTEM and CLOCK.  This file composes them: the steps of the machine are the whole
    entry points [sys_call], [irq_handle] and [schedcheck] and the whole turns
    [sys_turn] and [clock_message], in any order, and the invariant is that of
    KernelInv.v.  A turn of a task is one step: interrupts come between turns. *)
From S2P Require Import Prelude PList KMonad Timers Types KState Memory TimerIface Sched SchedInv Balance.
From S2P Require Import PickProc PickSpec Notify Copy Ipc IpcInv IpcSafe CopySafe IpcCalls IpcRecv.
From S2P Require Import IpcBlock IpcTop Delivery Clock ClockSafe ClockTask Interrupt IrqInv IrqSafe.
From S2P Require Import Dispatch KernelInv.

From S2P Require Import System KCalls SysLock SysTask SysTurn Served.

(** ** The steps *)

(** [pf] and [other] are those of [call_vec]. *)
Section machine.
Context (pf : platform) (other : Z -> handler).

Inductive kernel_op :=
  | Op_sys_call (call_nr src_dst_e m_ptr : Z)
  | Op_irq (irq : Z)
  | Op_schedcheck
  | Op_sys_turn (m : message)
  | Op_clock (m : message).

Definition run_kernel_op (op : kernel_op) : K unit :=
  match op with
  | Op_sys_call call_nr e m_ptr => do! sys_call call_nr e m_ptr; ret tt
  | Op_irq irq => irq_handle irq
  | Op_schedcheck => do! schedcheck SCHED_FUEL; ret tt
  | Op_sys_turn m => sys_turn (call_vec pf other) m
  | Op_clock m => clock_message m
  end.

(** The CLOCK task runs, the timers are in order and each is of a live process, none is
    PM's or that of a shutdown, and the time is not near the end of its range. *)
Definition clock_ready (s : kstate) : Prop :=
  0 <= realtime s <= LONG_MAX - 66300 /\
  exists l, task_inv s l s l /\ TDeadline PM_PROC_NR ∉ l /\ TShutdown ∉ l.

(** A system call comes from the current process, which runs and does not name
    itself; a line of the interrupt controller has a number below 16; SYSTEM is current
    when it handles a request, which is refused or one its handlers take ([harmless]);
    CLOCK reacts to the notification of the clock interrupt. *)
Definition kernel_enabled (s : kstate) (op : kernel_op) : Prop :=
  match op with
  | Op_sys_call call_nr e _ =>
      exists c, proc_ptr s = Some c /\ flags s c = 0 /\ (call_nr <> SENDA -> _ENDPOINT_P e <> c)
  | Op_irq irq => irq_ok irq
  | Op_schedcheck => True
  | Op_sys_turn m => sys_running s /\ valid_endpt s (m_source m) /\
      no_endpoint s (_ENDPOINT_P (m_source m)) = false /\ harmless s m
  | Op_clock m => clock_ready s /\ is_notify (m_type m) = true /\ _ENDPOINT_P (m_source m) = HARDWARE
  end.

Inductive kernel_step : kstate -> kstate -> Prop :=
  | Kernel_step op s s' : kernel_enabled s op -> run_kernel_op op s = Done tt s' -> kernel_step s s'.

Lemma running_ready s c : slot c -> flags s c = 0 -> ready_caller s c.
Proof. intros Hc Hf. unfold ready_caller, alive, is_free, no_endpoint, sending, receiving. rewrite Hf. by split_all. Qed.

Lemma sys_call_kernel s call_nr e m_ptr c :
  kernel_ok s -> proc_ptr s = Some c -> flags s c = 0 -> (call_nr <> SENDA -> _ENDPOINT_P e <> c) ->
  wpx False (sys_call call_nr e m_ptr) (fun _ s' => kernel_ok s') s.
Proof.
  intros Hk Hc Hf Hne. pose proof (ie_inv _ _ (ko_env s Hk)) as Hi.
  destruct (iw_cur s (ic_wf s (proj1 (proj2 Hi))) c Hc) as [Hs _].
  eapply wpx_conseq; [apply (sys_call_frame False s c); [done|done|by apply running_ready|done| |]|].
  - by apply ko_no_panic.
  - intros _ Ht. destruct (untraced_flags _ (ko_untraced s Hk c Hs)) as [_ Hn]. congruence.
  - intros r s' F. apply (kernel_ok_disp s s'); [by apply call_frame_disp|apply (cf_inv _ _ F)|done].
Qed.

Lemma irq_kernel s irq :
  kernel_ok s -> irq_ok irq -> wpx False (irq_handle irq) (fun _ s' => kernel_ok s') s.
Proof.
  intros [He (L & HL & HD) Ht Hf Hu Hd] Hirq.
  eapply wpx_conseq; [apply (irq_handle_wp False s L irq); [done|done|done|intros h; by apply HD]|].
  intros u s' [E1 E2 E3 E4 E5 [E6 [E7 E8]] _ _]. split.
  - done.
  - exists L. split; [done|]. intros i h Hii Hh. apply (driver_same s); [done..|by apply (HD i)].
  - by rewrite E7.
  - by rewrite E4.
  - by eapply no_new_traced.
  - by eapply no_new_not_delayed.
Qed.

Lemma sys_turn_kernel s m :
  kernel_ok s -> kernel_enabled s (Op_sys_turn m) ->
  wpx False (sys_turn (call_vec pf other) m) (fun _ s' => kernel_ok s') s.
Proof.
  intros Hk (Hr & V & Hn & Hh). eapply wpx_conseq; [by apply sys_turn_wp|]. by intros u s' [H _].
Qed.

Lemma clock_kernel s m :
  kernel_ok s -> kernel_enabled s (Op_clock m) -> wpx False (clock_message m) (fun _ s' => kernel_ok s') s.
Proof.
  intros Hk [(Hnow & l & Ht & Hpm & Hsd) [Hm Hsrc]].
  eapply wpx_conseq; [apply (clock_message_wp False s l); try done|].
  - by rewrite (ko_pm s Hk).
  - intros u s' (Hi & F & _). by apply (turn_kernel s).
Qed.

Lemma kernel_op_ok s op :
  kernel_ok s -> kernel_enabled s op -> exists s', run_kernel_op op s = Done tt s' /\ kernel_ok s'.
Proof.
  intros Hk He.
  enough (H : wpx False (run_kernel_op op) (fun _ s' => kernel_ok s') s)
    by (apply wpx_returns in H as ([] & s' & H1 & H2); by exists s').
  destruct op as [call_nr e m_ptr|irq| |m|m]; cbn [run_kernel_op].
  - destruct He as (c & H1 & H2 & H3). apply wpx_bind. eapply wpx_conseq; [by eapply sys_call_kernel|].
    intros r s' H. by apply wpx_ret.
  - by apply irq_kernel.
  - apply wpx_bind. eapply wpx_conseq; [by apply schedcheck_wp, ko_disp|].
    intros o s' [H1 H2 _]. apply wpx_ret. by eapply kernel_ok_disp; [|apply H1|].
  - by apply sys_turn_kernel.
  - by apply clock_kernel.
Qed.

Lemma kernel_reach s s' : kernel_ok s -> rtc kernel_step s s' -> kernel_ok s'.
Proof.
  intros Hk Hr. induction Hr as [|s s1 s2 [op t t' He Hm] _ IH]; [done|].
  apply IH. destruct (kernel_op_ok t op Hk He) as (t2 & Hm2 & Ht2).
  assert (t2 = t') as -> by congruence. done.
Qed.

End machine.
