(* ===== verification/SchedThms.v ===== *)
(** * What the scheduler guarantees

    The properties of the ready queues, of the [RTS_] macros, of [balance_queues]
    and of the three policies of [pick_proc], stated of the code's own operations
    and instantiated on the state of Demo.v. *)
From S2P Require Import Prelude PList KMonad Timers Types KState TimerIface Sched SchedInv Balance.
From S2P Require Import PickProc PickSpec Check Demo.

(** ** The scheduler as a state machine *)

(** An operation of the scheduler, as the rest of the kernel calls it. *)
Inductive sched_op :=
  | Op_set (rp f : Z)
  | Op_lock_set (rp f : Z)
  | Op_unset (rp f : Z)
  | Op_lock_unset (rp f : Z)
  | Op_lock_setflags (rp f : Z)
  | Op_balance
  | Op_policy (ty : Z)
  | Op_pick.

Definition run_op (op : sched_op) : K unit :=
  match op with
  | Op_set rp f => RTS_SET rp f
  | Op_lock_set rp f => RTS_LOCK_SET rp f
  | Op_unset rp f => RTS_UNSET rp f
  | Op_lock_unset rp f => RTS_LOCK_UNSET rp f
  | Op_lock_setflags rp f => RTS_LOCK_SETFLAGS rp f
  | Op_balance => balance_queues
  | Op_policy ty => do! set_scheduler ty; ret tt
  | Op_pick => do! pick_proc; ret tt
  end.

(** What the callers ensure: the process is a slot of the table; a flag is set; a
    process without a privilege structure is not made runnable; the queues are
    balanced by the CLOCK task, with interrupts on. *)
Definition enabled (s : kstate) (op : sched_op) : Prop :=
  match op with
  | Op_set rp f | Op_lock_set rp f => slot rp /\ f <> 0
  | Op_unset rp f | Op_lock_unset rp f => slot rp /\ unset_ok s rp f
  | Op_lock_setflags rp f => slot rp /\ f <> 0 /\
      (p_priv (k_proc s rp) = None -> Z.testbit f 0 = true \/ Z.testbit f 7 = true)
  | Op_balance => intr_off s = false
  | Op_policy _ | Op_pick => True
  end.

(** The state the scheduler keeps: its queues and tables, a well-formed timer
    queue, one of the three policies. *)
Record sched_sys (s : kstate) : Prop := mk_sched_sys {
  ss_inv : sched_inv s;
  ss_timers : exists l, timers_q s l;
  ss_policy : 0 <= sched_type s <= 2 }.

Inductive sched_step : kstate -> kstate -> Prop :=
  | Sched_step op s s' : enabled s op -> run_op op s = Done tt s' -> sched_step s s'.

(** The ready queues as a reader of the code sees them: [p] is met when queue [q]
    is followed from its head. *)
Definition on_queue (s : kstate) (q p : Z) : Prop :=
  exists l, plist_rep (rq_plist q s) l /\ p ∈ l.

Lemma sched_sys_core s s' : sched_inv s' -> kcore s' = kcore s -> sched_sys s -> sched_sys s'.
Proof.
  intros Hi Hc [_ [l Hl] Hp]. split; [done| |].
  - exists l. by apply (timers_q_ext s); [apply core_timers|].
  - by rewrite (core_field sched_type s s').
Qed.

Lemma sched_sys_rts rp v s s' : sched_inv s' -> rts_step rp v s s' -> sched_sys s -> sched_sys s'.
Proof. intros Hi [[Hc _] _ _ _]. by apply sched_sys_core. Qed.

Lemma sched_inv_ext s s' :
  k_proc s' = k_proc s -> rdy_head s' = rdy_head s -> rdy_tail s' = rdy_tail s ->
  proc_ptr s' = proc_ptr s -> lock_same s s' -> sched_inv s -> sched_inv s'.
Proof.
  intros Ep Eh Et Ec El [[H1 H2 H3 H4] [Q HQ]]. split.
  - split.
    + intros p Hp. unfold prio. rewrite Ep. by apply H1.
    + intros p Hp. specialize (H2 p Hp). unfold priv_ok, flags in *. by rewrite Ep.
    + rewrite Ec, Ep. done.
    + by apply (lock_ok_same s).
  - exists Q. apply (rq_inv_ext ∅ s); [by rewrite Eh|by rewrite Et|by rewrite Ep| |done].
    intros p _ _. unfold flags, prio. by rewrite Ep.
Qed.

Lemma sched_sys_ext s s' :
  k_proc s' = k_proc s -> rdy_head s' = rdy_head s -> rdy_tail s' = rdy_tail s ->
  proc_ptr s' = proc_ptr s -> lock_same s s' -> clock_timers s' = clock_timers s ->
  0 <= sched_type s' <= 2 -> sched_sys s -> sched_sys s'.
Proof.
  intros ????? Et Hp [Hi [l Hl] _]. split; [by apply (sched_inv_ext s)| |done].
  exists l. by apply (timers_q_ext s).
Qed.

Lemma billed_sys s o : sched_sys s -> sched_sys (billed s o).
Proof.
  intros Hs. destruct o as [rp|]; [|done]. simpl. destruct (billable s rp); [|done].
  apply (sched_sys_ext s); try done. apply Hs.
Qed.

Lemma seeded_sys s : sched_sys s -> sched_sys (seeded s).
Proof. intros Hs. apply (sched_sys_ext s); try done. apply Hs. Qed.

Lemma pick_proc_sys s : sched_sys s -> exists o s', pick_proc s = Done o s' /\ sched_sys s'.
Proof.
  intros Hs. pose proof Hs as [Hi _ Hp]. destruct (pick_proc_done s Hi Hp) as (o & s' & E & Hs' & _).
  exists o, s'. split; [done|]. destruct Hs' as [->| ->]; apply billed_sys; [done|by apply seeded_sys].
Qed.

Lemma balance_sys s : sched_sys s -> intr_off s = false ->
  wpx False balance_queues (fun _ s' => sched_sys s') s.
Proof.
  intros [Hi [l Hl] Hp] Hoff. eapply wpx_conseq; [by apply (balance_queues_wp _ s l)|].
  intros _ s' [[Hi' [Ht' _] (s1 & _ & [Hc _] & _ & st & ->) _ _ _] _].
  split; [done|by eexists|]. change (0 <= sched_type s1 <= 2). by rewrite (core_field sched_type s s1).
Qed.

Lemma set_scheduler_sys s ty : sched_sys s ->
  exists s', set_scheduler ty s = Done 0 s' /\ sched_sys s' /\
    sched_type s' = (if bool_decide (ty ∈ [0; 1; 2]) then ty else 0) /\
    set_sched_type 0 s' = set_sched_type 0 s.
Proof.
  intros Hs. unfold set_scheduler, bind, modify.
  destruct (Z.eqb_spec ty 0); [|destruct (Z.eqb_spec ty 1); [|destruct (Z.eqb_spec ty 2)]];
    (eexists; split; [reflexivity|]);
    (split; [by apply (sched_sys_ext s)|split; [|done]]).
  all: try (by subst). rewrite bool_decide_false; [done|].
  rewrite !elem_of_cons, elem_of_nil. tauto.
Qed.

(** Every operation returns and keeps the state of the scheduler. *)
Lemma run_op_sys s op : sched_sys s -> enabled s op ->
  exists s', run_op op s = Done tt s' /\ sched_sys s'.
Proof.
  intros Hs He. pose proof (ss_inv s Hs) as Hi.
  assert (R : forall (m : K unit) rp v,
    wpx False m (fun _ s' => sched_inv s' /\ rts_step rp v s s') s ->
    exists s', m s = Done tt s' /\ sched_sys s').
  { intros m rp v H. apply wpx_returns in H as ([] & s' & Hm & Hi' & Hr).
    exists s'. split; [done|by apply (sched_sys_rts rp v s)]. }
  destruct op; simpl in He; simpl.
  - destruct He. eapply R. by apply RTS_SET_inv.
  - destruct He. eapply R. by apply RTS_LOCK_SET_inv.
  - destruct He. eapply R. by apply RTS_UNSET_inv.
  - destruct He. eapply R. by apply RTS_LOCK_UNSET_inv.
  - destruct He as (? & ? & ?). eapply R. by apply RTS_LOCK_SETFLAGS_inv.
  - destruct (wpx_returns _ _ _ (balance_sys s Hs He)) as ([] & s' & H & H'). by exists s'.
  - destruct (set_scheduler_sys s ty Hs) as (s' & H & H' & _). exists s'.
    by rewrite (bind_done _ _ _ _ _ H).
  - destruct (pick_proc_sys s Hs) as (o & s' & H & H'). exists s'.
    by rewrite (bind_done _ _ _ _ _ H).
Qed.

Lemma sched_reach_sys s s' : sched_sys s -> rtc sched_step s s' -> sched_sys s'.
Proof.
  intros Hs Hr. revert Hs. induction Hr as [|s s1 s2 H1 _ IH]; [done|].
  intros Hs. apply IH. destruct H1 as [op s s1 He Hm]. destruct (run_op_sys s op Hs He) as (s1' & Hm' & Hs'). congruence.
Qed.

Lemma on_queue_iff s q p : sched_inv s -> queue_ok q ->
  on_queue s q p <-> slot p /\ flags s p = 0 /\ prio s p = q.
Proof.
  intros [_ [Q HQ]] Hq. pose proof (rq_mem _ _ _ HQ q p Hq) as Hm.
  pose proof (not_elem_of_empty (C:=gset Z) p). split.
  - intros (l & Hl & Hin). rewrite (chain_inj _ _ _ _ Hl (rq_chain _ _ _ HQ q Hq)) in Hin. tauto.
  - intros H'. exists (Q q). split; [by apply (rq_chain _ _ _ HQ)|tauto].
Qed.

(** ** The claims *)

(** C3: whatever sequence of scheduler operations has run, in whatever order, every
    enabled operation returns (it neither panics nor leaves the tables, and every
    queue walk ends), and the state is again one where the ready queues hold exactly
    the runnable processes: a process is met on queue [q] if and only if it is
    runnable and [q] is its priority. *)
Theorem sched_machine_safe s s' op :
  sched_sys s -> rtc sched_step s s' -> enabled s' op ->
  exists s2, run_op op s' = Done tt s2 /\ sched_sys s2 /\
    forall q p, queue_ok q -> on_queue s2 q p <-> slot p /\ flags s2 p = 0 /\ prio s2 p = q.
Proof.
  intros Hs Hr He. destruct (run_op_sys s' op (sched_reach_sys s s' Hs Hr) He) as (s2 & Hm & Hs2).
  exists s2. split; [done|split; [done|]]. intros q p Hq. by apply on_queue_iff; [apply Hs2|].
Qed.

Lemma demo_sys : sched_sys demo.
Proof. split; [apply demo_sched|exists (tq_of demo); apply demo_timers_rep|by split]. Qed.

(** [demo] after process 12 has blocked. *)
Definition demo_blocked : kstate :=
  match RTS_SET 12 RTS_RECEIVING demo with Done _ s => s | _ => demo end.

Lemma demo_blocked_step : sched_step demo demo_blocked.
Proof.
  assert (He : enabled demo (Op_set 12 RTS_RECEIVING)) by by split.
  destruct (run_op_sys demo _ demo_sys He) as (s' & H & _).
  apply (Sched_step (Op_set 12 RTS_RECEIVING)); [done|]. unfold demo_blocked.
  change (RTS_SET 12 RTS_RECEIVING demo = Done tt s') in H. by rewrite H.
Qed.

Lemma sched_machine_safe_witness :
  exists s2, run_op (Op_unset 12 RTS_RECEIVING) demo_blocked = Done tt s2 /\ sched_sys s2 /\
    forall q p, queue_ok q -> on_queue s2 q p <-> slot p /\ flags s2 p = 0 /\ prio s2 p = q.
Proof.
  apply (sched_machine_safe demo); [apply demo_sys|apply rtc_once, demo_blocked_step|].
  split; [by split|]. intros H. vm_compute in H. discriminate H.
Defined.

(** C36: [dequeue] unlinks the process from the queue of its priority, keeps the
    order of the others and the tail pointer, leaves the other queues alone, and
    touches no field of any process but the links. *)
Theorem dequeue_exact s Q rp :
  lock_ok s -> rq_inv ∅ s Q -> slot rp -> queue_ok (prio s rp) ->
  exists s', dequeue rp s = Done tt s' /\ only_links s s' /\
    (forall q, queue_ok q ->
       plist_rep (rq_plist q s') (if decide (q = prio s rp) then without rp (Q q) else Q q) /\
       rdy_tail s' q = last (if decide (q = prio s rp) then without rp (Q q) else Q q)).
Proof.
  intros Hl HQ Hs Hq. destruct (wpx_returns _ _ _ (dequeue_wp False ∅ s Q rp Hl HQ Hs Hq))
    as ([] & s' & Hm & HQ' & Ho).
  exists s'. split; [done|split; [done|]]. intros q Hq'.
  replace (if decide _ then _ else _) with (q_remove rp (prio s rp) Q q).
  - split; [by apply (rq_chain _ _ _ HQ')|by apply (rq_tail _ _ _ HQ')].
  - unfold q_remove. destruct (decide (q = prio s rp)) as [->|]; [by rewrite fn_lookup_insert|].
    by rewrite fn_lookup_insert_ne.
Qed.

Lemma dequeue_exact_witness :
  exists s', dequeue 11 demo = Done tt s' /\ only_links demo s' /\
    (forall q, queue_ok q ->
       plist_rep (rq_plist q s')
         (if decide (q = prio demo 11) then without 11 (rq_of demo q) else rq_of demo q) /\
       rdy_tail s' q =
         last (if decide (q = prio demo 11) then without 11 (rq_of demo q) else rq_of demo q)).
Proof. apply dequeue_exact; [apply demo_wf|apply demo_rq|by split|by split]. Defined.

(** Clearing the last blocking flag makes the process ready: it enters the queue
    [sched] chooses (its own, one lower when its quantum is used up, queue 7 when it
    has a deadline), at the front when it has quantum left and at the tail otherwise;
    the current process is preempted if and only if it is preemptible and has a
    worse priority than the newcomer; nothing else is rescheduled. *)
Theorem RTS_UNSET_readies s Q rp f :
  sched_wf s -> rq_inv ∅ s Q -> slot rp -> unset_ok s rp f -> readies s rp f = true ->
  exists s', RTS_UNSET rp f s = Done tt s' /\
    rq_inv ∅ s' (enq_queues (unset_flags rp f s) rp Q) /\
    enqueued rp (unset_flags rp f s) s'.
Proof.
  intros Hw HQ Hs Hu Hr. pose proof (RTS_UNSET_wp False s Q rp f Hw HQ Hs Hu) as H.
  rewrite Hr in H. apply wpx_returns in H as ([] & s' & Hm & H). by exists s'.
Qed.

Lemma demo_blocked_sys : sched_sys demo_blocked.
Proof. apply (sched_reach_sys demo); [apply demo_sys|apply rtc_once, demo_blocked_step]. Qed.

Lemma demo_blocked_rq : rq_inv ∅ demo_blocked (rq_of demo_blocked).
Proof. apply rq_check_sound. vm_compute. reflexivity. Qed.

Lemma RTS_UNSET_readies_witness :
  exists s', RTS_UNSET 12 RTS_RECEIVING demo_blocked = Done tt s' /\
    rq_inv ∅ s' (enq_queues (unset_flags 12 RTS_RECEIVING demo_blocked) 12 (rq_of demo_blocked)) /\
    enqueued 12 (unset_flags 12 RTS_RECEIVING demo_blocked) s'.
Proof.
  apply RTS_UNSET_readies; [apply demo_blocked_sys|apply demo_blocked_rq|by split| |].
  - intros H. vm_compute in H. discriminate H.
  - vm_compute. reflexivity.
Defined.

(** ** The policies of [pick_proc] *)

(** C24: under the priority policy [pick_proc] returns the process at the head of the
    best non-empty queue, a runnable process of the best priority there is; it
    returns NULL only when no process is runnable; it changes nothing but the
    process to bill. *)
Theorem pick_proc_priority s :
  sched_inv s -> sched_type s = 0 ->
  exists o, pick_proc s = Done o (billed s o) /\
    match o with
    | Some p => best_ready s p /\ rdy_head s (prio s p) = Some p
    | None => none_ready s
    end.
Proof.
  intros [Hw [Q HQ]] Ht. unfold pick_proc.
  rewrite (bind_done _ _ _ _ _ (eq_refl : gets sched_type s = Done (sched_type s) s)), Ht.
  eexists. split; [by apply pick_default_done|by apply default_choice].
Qed.

Lemma pick_proc_priority_witness :
  exists o, pick_proc (set_sched_type 0 demo) = Done o (billed (set_sched_type 0 demo) o) /\
    match o with
    | Some p => best_ready (set_sched_type 0 demo) p /\
                rdy_head (set_sched_type 0 demo) (prio (set_sched_type 0 demo) p) = Some p
    | None => none_ready (set_sched_type 0 demo)
    end.
Proof. apply pick_proc_priority; [by apply (sched_inv_ext demo); [..|apply demo_sched]|done]. Defined.

(** C5: the lottery is proportional.  Of the tickets [0 .. total-1] that can be drawn,
    a runnable process of priority 6 or worse wins with exactly [16 - priority] of
    them, and every ticket has a runnable winner: each process is chosen in
    proportion to the tickets of its queue. *)
Theorem lottery_proportional s :
  sched_inv s ->
  exists total, total_tickets s = Done total s /\
    (forall w, 0 <= w < total -> exists p, winner_of s w = Some p /\ slot p /\ flags s p = 0) /\
    (forall p, slot p -> flags s p = 0 -> 6 <= prio s p ->
       Z.of_nat (length (filter (fun w => winner_of s w = Some p) (seqZ 0 total))) =
       NR_SCHED_QUEUES - prio s p).
Proof.
  intros [Hw [Q HQ]]. exists (sum_tickets (entries Q lottery_queues)).
  split; [by apply total_tickets_done|split].
  - intros w Hr. destruct (ticket_owner_total _ _ Hr) as [p Hp]. exists p.
    rewrite (winner_of_owner s Q w HQ). split; [done|].
    apply ticket_owner_elem in Hp. rewrite entries_fst in Hp.
    apply (elem_ready_list s) in Hp as (? & ? & _); [done|done|by intros q; apply queues_ok].
  - intros p Hs Hf Hp.
    assert (Hl : prio s p ∈ lottery_queues).
    { apply elem_of_seqZ. destruct (wf_prio s Hw p Hs) as [[] _]. lia. }
    rewrite (filter_iff_in _ (fun w => ticket_owner (entries Q lottery_queues) w = Some p))
      by (intros w _; by rewrite (winner_of_owner s Q w HQ)).
    change (Z.of_nat (owned (entries Q lottery_queues) p) = tickets (prio s p)).
    rewrite (owned_unique _ p (tickets (prio s p))).
    + pose proof (tickets_pos _ (lottery_queues_ok _ Hl)). lia.
    + apply entries_nonneg.
    + rewrite entries_fst. apply (NoDup_ready_list s); [done|apply lottery_queues_ok|apply NoDup_seqZ].
    + by apply (ready_entry s).
Qed.

Lemma lottery_proportional_witness :
  exists total, total_tickets demo = Done total demo /\
    (forall w, 0 <= w < total -> exists p, winner_of demo w = Some p /\ slot p /\ flags demo p = 0) /\
    (forall p, slot p -> flags demo p = 0 -> 6 <= prio demo p ->
       Z.of_nat (length (filter (fun w => winner_of demo w = Some p) (seqZ 0 total))) =
       NR_SCHED_QUEUES - prio demo p).
Proof. apply lottery_proportional, demo_sched. Defined.



(** C23: under the lottery policy [pick_proc] always returns: the best process of
    queues 0 to 5 when one of them is runnable; otherwise the runnable process that
    owns the drawn ticket; NULL only when no process is runnable.  Apart from the
    process to bill only the state of the random number generator changes. *)
Theorem pick_proc_lottery_choice s :
  sched_inv s -> sched_type s = 1 ->
  exists o s', pick_proc s = Done o s' /\ (s' = billed s o \/ s' = billed (seeded s) o) /\
    match o with Some p => lottery_choice s p | None => none_ready s end.
Proof.
  intros [Hw [Q HQ]] Ht. unfold pick_proc.
  rewrite (bind_done _ _ _ _ _ (eq_refl : gets sched_type s = Done (sched_type s) s)), Ht.
  pose proof (lottery_result_choice s Q Hw HQ) as Hc.
  destruct (pick_lottery_done s Q Hw HQ) as [E|E]; eexists _, _;
    (split; [exact E|split; [by auto|done]]).
Qed.

Lemma pick_proc_lottery_choice_witness :
  exists o s', pick_proc (set_sched_type 1 demo) = Done o s' /\
    (s' = billed (set_sched_type 1 demo) o \/ s' = billed (seeded (set_sched_type 1 demo)) o) /\
    match o with
    | Some p => lottery_choice (set_sched_type 1 demo) p
    | None => none_ready (set_sched_type 1 demo)
    end.
Proof. apply pick_proc_lottery_choice; [by apply (sched_inv_ext demo); [..|apply demo_sched]|done]. Defined.

(** [balance_queues] gives every process below its maximal priority one level
    back (a process whose quantum is used up loses it again on entering the queue) and
    every other process a full quantum, keeps the scheduler's
    state well-formed, and re-arms its own timer at least 100 ticks ahead, in order
    in the timer queue, without touching any other timer. *)
Theorem balance_queues_fair s l :
  sched_inv s -> timers_q s l -> intr_off s = false ->
  exists s', balance_queues s = Done tt s' /\ balance_post s s' l /\ lock_same s s'.
Proof.
  intros Hi Hl Hoff. destruct (wpx_returns _ _ _ (balance_queues_wp False s l Hi Hl Hoff))
    as ([] & s' & H). by exists s'.
Qed.

Lemma balance_queues_fair_witness :
  exists s', balance_queues demo = Done tt s' /\ balance_post demo s' (tq_of demo) /\ lock_same demo s'.
Proof. apply balance_queues_fair; [apply demo_sched|apply demo_timers_rep|done]. Defined.
