(* ===== verification/IpcThms.v ===== *)
(** * What message passing guarantees

    The properties of the IPC primitives of kernel/proc.c, instantiated on the state
    of Demo.v. *)
From S2P Require Import Prelude PList KMonad Timers Types KState Memory TimerIface Sched SchedInv.
From S2P Require Import Notify Copy Ipc IpcInv IpcSafe CopySafe IpcCalls IpcRecv IpcBlock.
From S2P Require Import IpcTop Delivery System Check Demo.



(** Process 12 of [demo], with a message in the kernel, sends to PM. *)
Definition demo_msg : message := set_m_type 77 null_message.


(** A receiver takes the first sender of its queue that suits the requested
    source (any sender for ANY), gets that sender's message with its endpoint, and
    unblocks it; the other senders keep their places.  The queue is left alone only
    when no sender in it is suitable. *)
Theorem receive_first_suitable s C caller src_e src_p :
  ipc_inv s -> cq_inv s C -> alive s caller -> sending s caller = false -> ~ pm_panics s ->
  exists r s', receive_queued caller src_e src_p s = Done r s' /\
    if r : bool then call_frame s s' /\ took_first s s' C caller src_e src_p
    else s' = s /\ none_queued s caller src_e src_p.
Proof.
  intros Hi HC Ha Hs Hp.
  exact (wpx_returns _ _ _ (receive_queued_wp False s C caller src_e src_p Hi HC Ha Hs Hp)).
Qed.

Lemma demo_pm_quiet : ~ pm_panics demo.
Proof. intros [H|H]; vm_compute in H; discriminate H. Qed.

Lemma receive_first_suitable_witness :
  exists r s', receive_queued 11 ANY ANY demo = Done r s' /\
    if r : bool then call_frame demo s' /\ took_first demo s' (cq_of demo) 11 ANY ANY
    else s' = demo /\ none_queued demo 11 ANY ANY.
Proof.
  apply receive_first_suitable; [apply demo_ipc|apply demo_cq|by repeat split|done|apply demo_pm_quiet].
Defined.

Lemma first_is_sender s s' C caller dst src :
  ipc_inv s -> alive s caller -> delayed (k_proc s caller) = false ->
  send_waits s s' C caller dst src -> forall s2,
  took_first s' s2 (<[dst := C dst ++ [caller]]> C) dst (endpt s caller) caller ->
  sending s2 caller = false /\
  has_message s2 dst (endpt s caller) (bytes_message (fst (src_bytes s src))).
Proof.
  intros Hi Ha Hdel [F _ _ _ _ Hmsg] s2 (l1 & x & l2 & _ & _ & Hx & Hs & _ & Hh).
  unfold suitable in Hx.
  assert (Hany : (endpt s caller =? ANY) = false).
  { apply Z.eqb_neq, endpt_not_any; [apply Hi|apply Ha]. }
  rewrite Hany in Hx. apply Z.eqb_eq in Hx. subst x. split; [done|].
  rewrite Hmsg, (cf_endpt _ _ F), message_roundtrip in Hh by apply bytes_message_ok. apply Hh.
  destruct (delayed (k_proc s' caller)) eqn:Ed; [|done].
  rewrite (no_new_delayed _ _ (cf_delay _ _ F caller) Ed) in Hdel. done.
Qed.

(** C32: a message is not lost or altered while its sender waits.  When a blocking
    send has blocked and the destination then receives from that sender, whatever
    else is queued, it gets the very bytes the sender passed, with the sender's
    endpoint, and the sender is no longer sending. *)
Theorem blocked_message_arrives s C caller dst m_ptr src :
  ipc_inv s -> cq_inv s C -> sender_ok s caller dst -> alive s caller -> alive s dst ->
  sending s dst = false -> will_receive (k_proc s dst) (endpt s caller) = false ->
  ~ rtc (W s) dst caller -> msg_mapped s caller m_ptr src ->
  delayed (k_proc s caller) = false -> ~ pm_panics s ->
  exists s1 s2, mini_send caller (endpt s dst) m_ptr 0 s = Done OK s1 /\
    receive_queued dst (endpt s caller) caller s1 = Done true s2 /\ call_frame s s2 /\
    sending s2 caller = false /\
    has_message s2 dst (endpt s caller) (bytes_message (fst (src_bytes s src))).
Proof.
  intros Hi HC Hok Hac Had Hsd Hw Hcyc Hm Hdel Hpm.
  destruct (wpx_returns _ _ _ (mini_send_blocks False s C caller dst m_ptr 0 src Hi HC Hok
    (proj2 (proj2 Had)) Hw eq_refl Hcyc Hm)) as (r & s1 & Hsend & -> & Hsw).
  pose proof Hsw as [F Hfl Ho Ht HQ Hmsg]. pose proof Hok as (Hc & _ & _ & _ & Hd & _ & Hne).
  assert (Hpm1 : ~ pm_panics s1).
  { intros H. apply Hpm. by apply (pm_panics_frame s s1). }
  destruct (wpx_returns _ _ _ (receive_queued_wp False s1 _ dst (endpt s caller) caller
    (cf_inv _ _ F) HQ (proj2 (cf_alive _ _ F dst) Had) (eq_trans (Ho dst Hne) Hsd) Hpm1))
    as ([] & s2 & Hrecv & H).
  - destruct H as [F2 Htook]. exists s1, s2. split; [done|split; [done|]].
    split; [by apply (call_frame_trans s s1)|]. by apply (first_is_sender s s1 C caller dst src).
  - exfalso. destruct H as [-> Hnone]. destruct (Hnone caller Hc (proj1 Hfl)) as [_ Hx]; [|done].
    by rewrite Ht, (cf_endpt _ _ F).
Qed.

Lemma blocked_message_arrives_witness :
  exists s1 s2, mini_send 12 (endpt demo 11) (PKern demo_msg) 0 demo = Done OK s1 /\
    receive_queued 11 (endpt demo 12) 12 s1 = Done true s2 /\ call_frame demo s2 /\
    sending s2 12 = false /\
    has_message s2 11 (endpt demo 12) (bytes_message (fst (src_bytes demo (MKern demo_msg)))).
Proof.
  apply (blocked_message_arrives demo (cq_of demo));
    [apply demo_ipc|apply demo_cq|by repeat split|by repeat split|by repeat split|done|done| |by split|done|
     apply demo_pm_quiet].
  intros H. apply rtc_inv in H as [H|(y & [_ H] & _)]; vm_compute in H; discriminate H.
Defined.

(** C37: [deadlock] walks the chain of waiting processes to its end, within the bound
    of the process table, and is exact: it reports a deadlock only when the
    destination's chain leads back to the caller, and reports none only when it does
    not, or when the two processes would exchange messages (one sends to the other,
    which receives from it). *)
Theorem deadlock_exact s function cp y :
  ipc_core s -> slot cp -> slot y -> y <> cp ->
  exists r, deadlock function cp y s = Done r s /\ (r <> 0 -> rtc (W s) y cp) /\
    (r = 0 -> ~ rtc (W s) y cp \/ (waits s y = Some cp /\ excused s function y = true)).
Proof. apply deadlock_done. Qed.

(** Process 11 would wait for 13, which already waits for it. *)
Lemma deadlock_exact_witness :
  exists r, deadlock SEND 11 13 demo = Done r demo /\ (r <> 0 -> rtc (W demo) 13 11) /\
    (r = 0 -> ~ rtc (W demo) 13 11 \/ (waits demo 13 = Some 11 /\ excused demo SEND 13 = true)).
Proof. apply deadlock_exact; [apply demo_ipc|by split|by split|done]. Defined.

(** A notification to a live process is never lost: it is delivered at once, with
    the notifier's endpoint, or its bit stays pending in the destination's privilege
    structure; in both cases the kernel's invariants hold again. *)
Theorem mini_notify_kept s caller dst :
  ipc_inv s -> slot caller -> is_free s caller = false -> slot dst -> is_free s dst = false ->
  exists s', mini_notify caller (endpt s dst) s = Done OK s' /\ good s s' /\ notified s' dst caller.
Proof.
  intros Hi Hc Hfc Hd Hfd.
  destruct (wpx_returns _ _ _ (mini_notify_told False s caller dst Hi Hc Hfc Hd Hfd))
    as (r & s' & Hr & -> & H). by exists s'.
Qed.

Lemma mini_notify_kept_witness :
  exists s', mini_notify HARDWARE (endpt demo 11) demo = Done OK s' /\ good demo s' /\
    notified s' 11 HARDWARE.
Proof. by apply mini_notify_kept; [apply demo_ipc|..]. Defined.

(** C12: the IPC system call, whatever its number, its target other than the caller
    itself and its message address: for a caller that is not blocked it always returns
    (no table is left, no list walk diverges, no panic), the lists and flags of all
    processes stay consistent, the waits-for graph stays without a cycle, and no
    process appears, disappears or changes its endpoint. *)
Theorem sys_call_safe s caller call_nr e m_ptr :
  ipc_inv s -> proc_ptr s = Some caller -> ready_caller s caller ->
  (call_nr <> SENDA -> _ENDPOINT_P e <> caller) -> ~ pm_panics s ->
  ~ (caller = PM_PROC_NR /\ flag_any (p_misc_flags (k_proc s caller)) MF_SC_TRACE = true) ->
  exists r s', sys_call call_nr e m_ptr s = Done r s' /\ call_frame s s'.
Proof.
  intros Hi Hc Hr Hne Hp Ht. apply wpx_returns. apply (sys_call_frame _ s caller); try done. tauto.
Qed.

Lemma sys_call_safe_witness :
  exists r s', sys_call SENDREC PM_PROC_NR 64 demo = Done r s' /\ call_frame demo s'.
Proof.
  apply (sys_call_safe demo 11); [apply demo_ipc|done|by repeat split|done|apply demo_pm_quiet|].
  by intros [H _].
Defined.

(** An endpoint made of a generation and a slot number gives both back, for every
    slot and every generation the kernel uses, so that endpoints of different slots or
    generations differ. *)
Lemma endpoint_roundtrip g p g' p' :
  0 <= g <= _ENDPOINT_MAX_GENERATION -> slot p -> 0 <= g' <= _ENDPOINT_MAX_GENERATION -> slot p' ->
  _ENDPOINT_P (_ENDPOINT g p) = p /\ _ENDPOINT_G (_ENDPOINT g p) = g /\
  (_ENDPOINT g p = _ENDPOINT g' p' -> g = g' /\ p = p').
Proof.
  intros Hg Hp Hg' Hp'. destruct (ENDPOINT_PG g p Hg Hp) as [H1 H2].
  destruct (ENDPOINT_PG g' p' Hg' Hp') as [H3 H4]. split_all; [done|done|].
  intros He. split; congruence.
Qed.
