(* ===== verification/ClockThms.v ===== *)
(** * What timers, the clock and the interrupt code guarantee

    The properties of lib/timers, kernel/clock.c and kernel/interrupt.c, instantiated
    on the state of Demo.v. *)
From S2P Require Import Prelude PList KMonad Timers Types KState Memory TimerIface Sched SchedInv Balance.
From S2P Require Import PickProc Notify Copy Ipc IpcInv IpcSafe CopySafe IpcCalls IpcRecv.
From S2P Require Import Delivery Clock ClockSafe ClockTask Interrupt IrqInv IrqSafe System Check Demo.

(** ** Timers *)

(** C39: [set_timer] implements insertion in a list sorted by expiration time.  The
    timer leaves its old place, if it had one, and enters after every timer that
    expires no later; the queue stays sorted and without repetition, [next_timeout]
    is the earliest expiration time, and no other timer and no other part of the
    kernel's state changes. *)
Theorem set_timer_sorted s l tp t w :
  timers_q s l -> timer_ok tp ->
  exists st, set_timer tp t w s = Done tt (timers_changed st s) /\
    armed tp t w (clock_timers s) st l /\
    timers_rep (timers_changed st s) (insert_timer (exp_of (clock_timers s)) tp t (without tp l)).
Proof.
  intros Hl Hok.
  assert (H : wpx False (set_timer tp t w) (fun _ s' => exists st, s' = timers_changed st s /\
    armed tp t w (clock_timers s) st l /\
    timers_rep s' (insert_timer (exp_of (clock_timers s)) tp t (without tp l))) s).
  { apply (set_timer_wp _ s l); [done|done|]. intros st H1 H2. by exists st. }
  apply wpx_returns in H as ([] & s' & Hm & st & -> & H1 & H2). by exists st.
Qed.

Lemma set_timer_sorted_witness :
  exists st, set_timer (TDeadline 10) 400 W_reach_deadline demo = Done tt (timers_changed st demo) /\
    armed (TDeadline 10) 400 W_reach_deadline (clock_timers demo) st (tq_of demo) /\
    timers_rep (timers_changed st demo)
      (insert_timer (exp_of (clock_timers demo)) (TDeadline 10) 400 (without (TDeadline 10) (tq_of demo))).
Proof. by apply set_timer_sorted; [apply demo_timers_rep|apply timer_ok_deadline]. Defined.

(** [reset_timer] takes a timer out of the queue wherever it stands, marks it as
    never expiring, keeps the order of the others and updates [next_timeout] (to
    TMR_NEVER when the queue is empty). *)
Theorem reset_timer_removes s l tp :
  timers_q s l ->
  exists st, reset_timer tp s = Done tt (timers_changed st s) /\
    cleared tp (clock_timers s) st l /\ timers_rep (timers_changed st s) (without tp l).
Proof.
  intros Hl.
  assert (H : wpx False (reset_timer tp) (fun _ s' => exists st, s' = timers_changed st s /\
    cleared tp (clock_timers s) st l /\ timers_rep s' (without tp l)) s).
  { apply (reset_timer_wp _ s l); [done|]. intros st H1 H2. by exists st. }
  apply wpx_returns in H as ([] & s' & Hm & st & -> & H1 & H2). by exists st.
Qed.

Lemma reset_timer_removes_witness :
  exists st, reset_timer (TDeadline 11) demo = Done tt (timers_changed st demo) /\
    cleared (TDeadline 11) (clock_timers demo) st (tq_of demo) /\
    timers_rep (timers_changed st demo) (without (TDeadline 11) (tq_of demo)).
Proof. apply reset_timer_removes, demo_timers_rep. Defined.

(** ** The clock *)

Lemma demo_clock_tasks : clock_tasks demo.
Proof. by repeat split. Qed.

Lemma demo_no_tick_panic : ~ tick_panics demo.
Proof. intros [H|H]; vm_compute in H; discriminate H. Qed.

(** C40: a clock interrupt advances the time by the lost ticks and one more, in 32
    bits, keeps every invariant of the kernel, changes no timer, and leaves the CLOCK
    task notified whenever the earliest timer is due. *)
Theorem clock_tick s b :
  ipc_inv s -> clock_tasks s -> minix_panicing s = 0 ->
  bill_ptr s = Some b -> slot b -> is_free s b = false -> 0 < system_hz s -> ~ tick_panics s ->
  exists s', bsp_timer_int_handler s = Done 1 s' /\ ticked s s'.
Proof.
  intros Hi Ht Hp Hb Hs Hf Hz Hn.
  destruct (wpx_returns _ _ _ (bsp_timer_int_handler_wp False s b Hi Ht Hp Hb Hs Hf Hz Hn))
    as (r & s' & Hm & -> & H). by exists s'.
Qed.

Lemma clock_tick_witness : exists s', bsp_timer_int_handler demo = Done 1 s' /\ ticked demo s'.
Proof.
  apply (clock_tick demo 11); [apply demo_ipc|apply demo_clock_tasks|done|done|done|done|done|].
  apply demo_no_tick_panic.
Defined.

(** The quantum of a preemptible process is enforced.  After the per-processor
    part of the clock interrupt, the current process, if preemptible and still
    runnable, has quantum left: one that used it up is off the ready queues. *)
Theorem quantum_enforced s p b i :
  ipc_inv s -> proc_ptr s = Some p -> bill_ptr s = Some b -> slot b -> is_free s b = false ->
  0 < system_hz s -> ~ tick_panics s -> p_priv (k_proc s p) = Some i ->
  flag_any (s_flags (k_priv s i)) PREEMPTIBLE = true ->
  exists r s', ap_timer_int_handler s = Done r s' /\ good s s' /\
    (flags s' p = 0 -> 0 < p_ticks_left (k_proc s' p)).
Proof.
  intros Hi Hp Hb Hs Hf Hz Hn Hpr Hfl.
  destruct (wpx_returns _ _ _ (ap_timer_int_handler_wp False s p b Hi Hp Hb Hs Hf Hz Hn))
    as (r & s' & Hm & G & Hq). exists r, s'. split; [done|split; [done|]]. by apply (Hq i).
Qed.

Lemma quantum_enforced_witness :
  exists r s', ap_timer_int_handler demo = Done r s' /\ good demo s' /\
    (flags s' 11 = 0 -> 0 < p_ticks_left (k_proc s' 11)).
Proof.
  apply (quantum_enforced demo 11 11 USER_PRIV_ID);
    [apply demo_ipc|done|done|done|done|done|apply demo_no_tick_panic|done|done].
Defined.





(** The number of runnable processes, counted over the process table. *)
Definition runnable_count (s : kstate) : Z := Z.of_nat (length (filter (fun p => flags s p = 0) all_slots)).

Lemma ready_count_runnable s Q : sched_wf s -> rq_inv ∅ s Q -> ready_count Q = runnable_count s.
Proof.
  intros Hw HQ. unfold ready_count, runnable_count. f_equal. apply Permutation_length, NoDup_Permutation.
  - apply (NoDup_ready_list s); [done|by intros q; apply queues_ok|apply NoDup_seqZ].
  - apply NoDup_filter, NoDup_seqZ.
  - intros p. rewrite list_elem_of_filter, elem_of_all_slots.
    rewrite (elem_ready_list s Q) by (try done; by intros q; apply queues_ok).
    split; [by intros (? & ? & _)|]. intros [Hf Hp]. split; [done|split; [done|]].
    apply elem_of_seqZ. destruct (wf_prio s Hw p Hp) as [[] _]. lia.
Qed.

(** The load history.  At each tick [load_update] adds the number of runnable
    processes to the 16-bit counter of the current six-second slot, which it clears
    first when the slot is new; it touches nothing else but the marks of the last
    update. *)
Theorem load_update_counts s :
  sched_inv s -> 0 < system_hz s -> load_update s = Done tt (load_after (runnable_count s) s).
Proof.
  intros [Hw [Q HQ]] Hz. rewrite <- (ready_count_runnable s Q Hw HQ). by apply load_update_done.
Qed.

Lemma load_update_counts_witness : load_update demo = Done tt (load_after (runnable_count demo) demo).
Proof. apply load_update_counts; [apply demo_sched|done]. Defined.

(** ** Interrupt lines *)

(** Installing a hook that is on no line puts it last on its line, under an
    identifier no other handler of the line has, marks the line as used and unmasks it
    unless a handler of the line is still active; nothing outside the interrupt tables
    changes.  Installing it again changes nothing. *)
Theorem put_irq_handler_installs s L i hook handler :
  irq_inv s L -> irq_ok i -> hook_ok hook -> (forall j, irq_ok j -> hook ∉ L j) ->
  exists s', put_irq_handler hook i handler s = Done tt s' /\ put_post s s' L i hook handler /\
    put_irq_handler hook i handler s' = Done tt s'.
Proof.
  intros HL Hi Hh Hn.
  destruct (wpx_returns _ _ _ (put_irq_handler_wp False s L i hook handler HL Hi Hh Hn))
    as ([] & s' & Hm & Hp). exists s'. split; [done|split; [done|]].
  apply (put_irq_handler_again s' _ i hook handler (proj1 Hp) Hi).
  rewrite fn_lookup_insert. apply elem_of_app. right. by left.
Qed.

Lemma put_irq_handler_installs_witness :
  exists s', put_irq_handler 3 5 H_generic demo = Done tt s' /\
    put_post demo s' (line_of demo) 5 3 H_generic /\ put_irq_handler 3 5 H_generic s' = Done tt s'.
Proof.
  apply put_irq_handler_installs; [apply demo_irq|by split|by split|].
  intros j Hj.
  assert (H : forallb (fun j => bool_decide (3 ∉ line_of demo j)) (seqZ 0 NR_IRQ_VECTORS) = true)
    by (vm_compute; reflexivity).
  exact (bool_decide_eq_true_1 _ (forallb_seqZ _ _ _ H j Hj)).
Defined.

(** Removing a handler takes exactly its hook off the line, keeps the other
    handlers in order, and leaves the line masked and, when it was the last handler,
    unused. *)
Theorem rm_irq_handler_removes s L i hook l1 l2 :
  irq_inv s L -> irq_ok i -> L i = l1 ++ hook :: l2 ->
  exists s', rm_irq_handler hook s = Done tt s' /\ irq_inv s' (<[i := l1 ++ l2]> L) /\
    irq_masked s' i = true /\ irq_erase s' = irq_erase s.
Proof.
  intros HL Hi E. destruct (wpx_returns _ _ _ (rm_irq_handler_wp False s L i hook l1 l2 HL Hi E))
    as ([] & s' & H). by exists s'.
Qed.

Lemma rm_irq_handler_removes_witness :
  exists s', rm_irq_handler PIC_TIMER_HOOK demo = Done tt s' /\
    irq_inv s' (<[CLOCK_IRQ := [] ++ []]> (line_of demo)) /\
    irq_masked s' CLOCK_IRQ = true /\ irq_erase s' = irq_erase demo.
Proof. apply rm_irq_handler_removes; [apply demo_irq|by split|vm_compute; reflexivity]. Defined.

Lemma demo_irq_env : irq_env False demo.
Proof.
  split; [apply demo_ipc|apply demo_clock_tasks|done|by exists 11|done|apply demo_no_tick_panic].
Qed.

(** An interrupt runs every handler of its line once, in order.  A handler that
    reports that it is not finished stays active; the line is unmasked again if and
    only if no handler of it is active; the kernel's invariants hold. *)
Theorem irq_handle_runs_line s L i :
  irq_env False s -> irq_inv s L -> irq_ok i -> (forall h, h ∈ L i -> driver_ok s h) ->
  exists s', irq_handle i s = Done tt s' /\ handled False s s' L i.
Proof.
  intros He HL Hi Hd. destruct (wpx_returns _ _ _ (irq_handle_wp False s L i He HL Hi Hd))
    as ([] & s' & H). by exists s'.
Qed.

Lemma irq_handle_runs_line_witness :
  exists s', irq_handle CLOCK_IRQ demo = Done tt s' /\ handled False demo s' (line_of demo) CLOCK_IRQ.
Proof.
  apply irq_handle_runs_line; [apply demo_irq_env|apply demo_irq|by split|].
  intros h Hh. change (line_of demo CLOCK_IRQ) with [PIC_TIMER_HOOK] in Hh.
  apply elem_of_cons in Hh as [->|Hh]; [|by apply elem_of_nil in Hh]. intros H. discriminate H.
Defined.
