(* ===== verification/SysThms.v ===== *)
(** * What the system task's services guarantee

    The properties of kernel/system.c and of the kernel calls, instantiated on the
    state of Demo.v. *)
From S2P Require Import Prelude PList KMonad Timers Types KState Memory TimerIface Sched SchedInv.
From S2P Require Import Balance PickProc PickSpec Notify Copy Ipc IpcInv IpcSafe CopySafe Clock.
From S2P Require Import ClockTask Interrupt System SendMask ClearEp KCalls KProc Grants SysLock.
From S2P Require Import GrantSafe Check Demo.

(** ** Privilege structures *)

Definition free_priv (s : kstate) (sp : Z) : bool := s_proc_nr (k_priv s sp) =? NONE.

(** Structure [sp] given to [rc]. *)
Definition priv_given (rc sp : Z) (s : kstate) : kstate :=
  upd_priv sp (set_s_proc_nr (p_nr (k_proc s rc))) (upd_proc rc (set_p_priv (Some sp)) s).

Definition dyn_free (s : kstate) : option Z := find (free_priv s) dyn_privs.

Lemma find_priv_done s l :
  (forall i, i ∈ l -> priv_slot i) ->
  for_return l (fun sp => do nr <- rdp sp s_proc_nr; ret (if nr =? NONE then Some sp else None)) s =
  Done (find (free_priv s) l) s.
Proof.
  induction l as [|i l IH]; intros Hl; [done|]. simpl for_return. unfold bind at 1 2. unfold rdp.
  rewrite decide_True by (apply Hl; by left). unfold ret. simpl find. fold (free_priv s i).
  change (s_proc_nr (k_priv s i) =? NONE) with (free_priv s i).
  destruct (free_priv s i); [done|]. apply IH. intros j Hj. apply Hl. by right.
Qed.

Lemma assign_priv_done s rc sp : slot rc -> priv_slot sp ->
  assign_priv rc sp s = Done OK (priv_given rc sp s).
Proof.
  intros Hr Hs. unfold assign_priv, bind, wr, rd, wrp. rewrite !decide_True by done. simpl.
  unfold priv_given, ret. do 2 f_equal. by rewrite fn_lookup_insert.
Qed.

(** [get_priv] gives a process the first free dynamic structure when none is
    asked for, or the static structure asked for when it is free; it fails, without
    any effect, with ENOSPC, EINVAL (not a static structure) or EBUSY otherwise. *)
Theorem get_priv_outcomes s rc id :
  slot rc ->
  get_priv rc id s =
  if id =? NULL_PRIV_ID then
    match dyn_free s with Some sp => Done OK (priv_given rc sp s) | None => Done ENOSPC s end
  else if negb (is_static_priv_id id) then Done EINVAL s
  else if free_priv s id then Done OK (priv_given rc id s) else Done EBUSY s.
Proof.
  intros Hr. unfold get_priv. destruct (id =? NULL_PRIV_ID) eqn:E0.
  - assert (Hd : forall i, i ∈ dyn_privs -> priv_slot i).
    { intros i Hi. apply elem_of_seqZ in Hi. change NR_STATIC_PRIV_IDS with 15 in Hi.
      unfold priv_slot, NR_SYS_PROCS in *. lia. }
    rewrite (bind_done _ _ _ _ _ (find_priv_done s dyn_privs Hd)). fold (dyn_free s).
    destruct (dyn_free s) as [sp|] eqn:Ef; [|done]. apply assign_priv_done; [done|].
    apply find_some in Ef as [Hin _]. by apply Hd, list_elem_of_In.
  - destruct (is_static_priv_id id) eqn:Es; [|done].
    assert (Hp : priv_slot id).
    { unfold is_static_priv_id in Es. change NR_STATIC_PRIV_IDS with 15 in Es. unfold priv_slot, NR_SYS_PROCS. lia. }
    cbn [negb]. unfold bind at 1, rdp. rewrite decide_True by done. fold (free_priv s id).
    destruct (free_priv s id); [by apply assign_priv_done|done].
Qed.

Lemma get_priv_outcomes_witness :
  get_priv 12 NULL_PRIV_ID demo =
  if NULL_PRIV_ID =? NULL_PRIV_ID then
    match dyn_free demo with Some sp => Done OK (priv_given 12 sp demo) | None => Done ENOSPC demo end
  else if negb (is_static_priv_id NULL_PRIV_ID) then Done EINVAL demo
  else if free_priv demo NULL_PRIV_ID then Done OK (priv_given 12 NULL_PRIV_ID demo) else Done EBUSY demo.
Proof. by apply get_priv_outcomes. Defined.

(** [set_sendto_bit] keeps the send masks usable for replies: a structure never may
    send to itself, and whoever may be sent to and can answer may send back.  The bit
    asked for is set exactly when the target structure is in use and is not the
    caller's own. *)
Theorem set_sendto_bit_symmetric s rp id i :
  ipc_inv s -> masks_ok s -> slot rp -> is_free s rp = false -> priv_slot id ->
  p_priv (k_proc s rp) = Some i ->
  exists s', set_sendto_bit rp id s = Done tt s' /\ good s s' /\ masks_ok s' /\
    (sends_to s' i id = true <-> priv_live s id /\ i <> id).
Proof.
  intros Hi Hm Hr Hf Hid Hp.
  destruct (wpx_returns _ _ _ (set_sendto_bit_wp False s rp id i Hi Hm Hr Hf Hid Hp)) as ([] & s' & H).
  by exists s'.
Qed.

(** A bool check of [masks_ok]. *)
Definition mask_pair_check (s : kstate) (i j : Z) : bool :=
  if i =? j then negb (sends_to s i i)
  else if free_priv s i then true
  else if free_priv s j then true
  else if sends_to s i j then (if can_reply s j then sends_to s j i else true) else true.

Lemma masks_check_sound s :
  forallb (fun i => forallb (mask_pair_check s i) all_privs) all_privs = true -> masks_ok s.
Proof.
  intros H. assert (Hp : forall i j, priv_slot i -> priv_slot j -> mask_pair_check s i j = true).
  { intros i j Hi Hj. pose proof (forallb_privs _ H i Hi) as H1. by apply (forallb_privs _ H1). }
  split.
  - intros i Hi. specialize (Hp i i Hi Hi). unfold mask_pair_check in Hp. rewrite Z.eqb_refl in Hp.
    by destruct (sends_to s i i).
  - intros i j Hi Hj Li Lj Hs Hc. specialize (Hp i j Hi Hj). unfold mask_pair_check, free_priv in Hp.
    rewrite (proj2 (Z.eqb_neq _ _) Li), (proj2 (Z.eqb_neq _ _) Lj), Hs, Hc in Hp.
    destruct (Z.eqb_spec i j) as [->|]; [|done]. by rewrite Hs in Hp.
Qed.

Lemma demo_masks : masks_ok demo.
Proof. apply masks_check_sound. vm_compute. reflexivity. Qed.

Lemma set_sendto_bit_symmetric_witness :
  exists s', set_sendto_bit PM_PROC_NR 5 demo = Done tt s' /\ good demo s' /\ masks_ok s' /\
    (sends_to s' 4 5 = true <-> priv_live demo 5 /\ 4 <> 5).
Proof. apply set_sendto_bit_symmetric; [apply demo_ipc|apply demo_masks|done|done|done|done]. Defined.

(** ** The end of a process *)

(** [clear_endpoint] removes a process from message passing.  It no longer sends,
    receives or has an endpoint; every process that was sending to it or receiving
    from it is released; every other process goes on waiting as before; no
    notification from it stays pending anywhere; no process is left in a queue it does
    not belong to and the invariants of IPC hold. *)
Theorem clear_endpoint_forgets s rc :
  ipc_inv s -> slot rc -> is_free s rc = false -> vital (endpt s rc) = false ->
  exists s', clear_endpoint rc s = Done tt s' /\ ep_cleared rc s s'.
Proof.
  intros Hi Hr Hf Hv. assert (Hv' : vital (endpt s rc) = true -> False) by congruence.
  destruct (wpx_returns _ _ _ (clear_endpoint_wp False s rc Hi Hr Hf Hv')) as ([] & s' & H).
  by exists s'.
Qed.

Lemma clear_endpoint_forgets_witness :
  exists s', clear_endpoint 11 demo = Done tt s' /\ ep_cleared 11 demo s'.
Proof. by apply clear_endpoint_forgets; [apply demo_ipc|..]. Defined.

(** ** What the kernel calls guarantee

    The properties of the handlers of kernel/system, instantiated on the state of
    Demo.v. *)

(** *** SYS_CHDEADLINE *)

(** [do_chdeadline] on a live process, for every value of the request: a zero
    takes the deadline away (its timer leaves the queue); any other value [v] arms the
    process' timer at uptime + 60 v, in 32 bits, with the watchdog that terminates the
    process, in a sorted queue; no other timer changes.  The process is runnable
    afterwards exactly if nothing else blocks it, and is then on queue 7 when its
    deadline is positive; the kernel's invariants hold. *)
Theorem do_chdeadline_sets s l m :
  ipc_inv s -> timers_rep s l -> slot (m2_i1 m) -> is_free s (m2_i1 m) = false ->
  (TDeadline (m2_i1 m) ∈ l -> 0 < deadline_of s (m2_i1 m)) ->
  exists s', do_chdeadline m s = Done (OK, m) s' /\ deadline_set (m2_i1 m) (m2_l1 m) l s s'.
Proof.
  intros Hi Hl Hs Hf Hd. destruct (wpx_returns _ _ _ (do_chdeadline_wp False s l m Hi Hl Hs Hf Hd))
    as (r & s' & Hm & -> & H). by exists s'.
Qed.

(** PM asks that process 11 be done in three minutes. *)
Definition demo_chdeadline : message := set_m2_i1 11 (set_m2_l1 3 null_message).

Lemma do_chdeadline_sets_witness :
  exists s', do_chdeadline demo_chdeadline demo = Done (OK, demo_chdeadline) s' /\
    deadline_set 11 3 (tq_of demo) demo s'.
Proof. by apply (do_chdeadline_sets demo (tq_of demo) demo_chdeadline); [apply demo_ipc|apply demo_timers_rep|..]. Defined.









(** *** SYS_NICE *)

Definition nice_outcome (s s' : kstate) (m : message) (r : Z * message) : Prop :=
  let e := m1_i1 m in let p := _ENDPOINT_P e in let pri := m1_i2 m in
  if decide (valid_endpt s e) then
    if iskerneln p then r = (EPERM, m) /\ s' = s
    else if (pri <? PRIO_MIN) || (PRIO_MAX <? pri) then r = (EINVAL, m) /\ s' = s
    else r = (OK, m) /\ niced p (nice_queue pri) s s'
  else r = (EINVAL, m) /\ s' = s.

(** [do_nice] answers EINVAL for an endpoint that names no live process or a value
    outside -20..20, and EPERM for a kernel task, without any effect; otherwise the
    process gets the scaled priority as its own and as its best one, and, when
    runnable, enters the queue anew: queue 7 while it has a deadline, one queue lower
    when its quantum is used up.  No other process changes its priority. *)
Theorem do_nice_outcomes s m :
  ipc_inv s -> exists r s', do_nice m s = Done r s' /\ nice_outcome s s' m r.
Proof.
  intros Hi. apply wpx_returns. unfold do_nice, nice_outcome. apply wpx_bind, wpx_valid_endpt.
  destruct (decide (valid_endpt s (m1_i1 m))) as [(Hs & Hf & _)|]; [|by apply wpx_ret].
  destruct (iskerneln _); [by apply wpx_ret|]. destruct (_ || _); [by apply wpx_ret|].
  by apply do_nice_body; [..|apply nice_queue_range].
Qed.

Lemma do_nice_outcomes_witness :
  let m := set_m_w1 20 (set_m_w0 12 null_message) in
  exists r s', do_nice m demo = Done r s' /\ nice_outcome demo s' m r.
Proof. intros m. apply do_nice_outcomes, demo_ipc. Defined.

(** The scale of [do_nice] stays within the user queues, is monotone (a nicer
    process never gets a better queue) and reaches both ends. *)
Lemma nice_queue_scale pri pri' :
  PRIO_MIN <= pri -> pri <= pri' -> pri' <= PRIO_MAX ->
  MAX_USER_Q <= nice_queue pri /\ nice_queue pri <= nice_queue pri' /\ nice_queue pri' <= MIN_USER_Q /\
  nice_queue PRIO_MIN = MAX_USER_Q /\ nice_queue PRIO_MAX = MIN_USER_Q.
Proof.
  intros H1 H2 H3. pose proof (nice_queue_range pri) as R1. pose proof (nice_queue_range pri') as R2.
  unfold queue_ok in *. change MAX_USER_Q with 0. change MIN_USER_Q with 15.
  change NR_SCHED_QUEUES with 16 in *. split_all; [lia| |lia|done|done].
  unfold nice_queue, PRIO_MIN, PRIO_MAX in *. change MAX_USER_Q with 0. change MIN_USER_Q with 15.
  assert (Hq : Z.quot ((pri - -20) * (15 - 0 + 1)) (20 - -20 + 1) <=
          Z.quot ((pri' - -20) * (15 - 0 + 1)) (20 - -20 + 1)) by (apply Z.quot_le_mono; lia).
  revert Hq. generalize (Z.quot ((pri - -20) * (15 - 0 + 1)) (20 - -20 + 1)) as a.
  generalize (Z.quot ((pri' - -20) * (15 - 0 + 1)) (20 - -20 + 1)) as b.
  clear. intros b a Hq. destruct (Z.ltb_spec (0 + a) 0), (Z.ltb_spec (0 + b) 0); repeat zcase; lia.
Qed.

(** *** Grants *)


(** PM's table at 4096 has one entry: process 11 may read and write 100 bytes at 8192. *)
Definition demo_grant_bytes : list Z :=
  concat (map word_bytes [Z.lor (Z.lor CPF_USED CPF_VALID) (Z.lor CPF_DIRECT (Z.lor CPF_READ CPF_WRITE));
    11; 8192; 100; 0; 0; 0; 0; 0]).

Definition demo_grants : kstate :=
  set_mem (fst (write_bytes demo_grant_bytes (fun _ => 0) Phys (1048576 + 4096)))
    (upd_priv (static_priv_id PM_PROC_NR)
       (fun sp => set_s_grant_entries 1 (set_s_grant_table 4096 sp)) demo).




(** The request of process 11 is granted, that of process 12 is not. *)
Definition verified (granter grantee grant bytes access offset : Z) : Z + Z * Z :=
  match verify_grant granter grantee grant bytes access offset demo_grants with
  | Done r _ => r
  | _ => inl 0
  end.

Example demo_grant_used : verified PM_PROC_NR 11 0 50 CPF_WRITE 10 = inr (8202, PM_PROC_NR) /\
  verified PM_PROC_NR 12 0 50 CPF_WRITE 10 = inl EPERM /\
  verified PM_PROC_NR 11 0 91 CPF_WRITE 10 = inl EPERM.
Proof. vm_compute. done. Qed.



(** The vector of SYS_VSAFECOPY is copied without a check of its length.  A system
    process that asks for one element more than the kernel's array holds makes the
    kernel write past the end of the array. *)
Theorem vsafecopy_overruns :
  do_vsafecopy (set_m_w4 (SCPVEC_NR + 1) (set_m_w5 4096 null_message)) demo = Stuck BadIndex.
Proof. vm_compute. reflexivity. Qed.
