(* ===== verification/SysTaskThms.v ===== *)
(** * What the system task guarantees

    Properties of a whole turn of SYSTEM: refused calls, the deadline call from the
    request to the answer, on the state of Demo.v. *)
From S2P Require Import Prelude PList KMonad Timers Types KState Memory TimerIface Sched SchedInv.
From S2P Require Import Notify Copy Ipc IpcInv IpcSafe CopySafe IpcCalls Delivery Clock Interrupt.
From S2P Require Import System KCalls KProc Grants VmCtl Signals PrivCtl SysTask Frame SysLock.
From S2P Require Import SysTurn GrantSafe SigSafe Check Demo Dispatch VmReq.

(** SYSTEM runs in [demo], and PM waits for any message. *)
Definition demo_serving : kstate := set_proc_ptr (Some SYSTEM) demo.

Lemma demo_serving_ok : sys_running demo_serving.
Proof. split; [apply ipc_check_sound; [vm_compute; reflexivity|done]|done|done|done]. Qed.




(** ** SYS_CHDEADLINE, from the request to the answer *)

Lemma call_vec_chdeadline pf other : call_vec pf other (SYS_CHDEADLINE - KERNEL_CALL) = do_chdeadline.
Proof. reflexivity. Qed.

(** C25: a permitted SYS_CHDEADLINE request of a process that waits for the answer: the
    turn ends, the deadline of the process named in the request is set as the handler
    promises (a new timer in a sorted queue, or none for the value 0), and the caller
    has the answer OK from SYSTEM. *)
Theorem chdeadline_served pf other s l m :
  let c := _ENDPOINT_P (m_source m) in let rp := m2_i1 m in
  sys_running s -> valid_endpt s (m_source m) -> no_endpoint s c = false -> message_ok m ->
  m_type m = SYS_CHDEADLINE -> refused s m = None -> waits_answer s c = true ->
  timers_rep s l -> slot rp -> is_free s rp = false -> (TDeadline rp ∈ l -> 0 < deadline_of s rp) ->
  exists s1 s', sys_turn (call_vec pf other) m s = Done tt s' /\
    deadline_set rp (m2_l1 m) l (entered m s) s1 /\ good s1 s' /\
    receiving s' c = false /\ has_message s' c SYSTEM (set_m_type OK m).
Proof.
  intros c rp Hr V Hn Hm Ht Ha Hw Hl Hs Hf Hd. pose proof V as (Hcs & Hcf & Hep).
  pose proof (entered_running m s Hcs Hr) as Hr'.
  destruct (wpx_returns (sys_turn (call_vec pf other) m) (fun _ s' => exists s1,
    deadline_set rp (m2_l1 m) l (entered m s) s1 /\ good s1 s' /\
    receiving s' c = false /\ has_message s' c SYSTEM (set_m_type OK m)) s) as ([] & s' & H1 & s1 & H2).
  - apply sys_turn_enter; [apply Hr|done|]. apply wpx_bind.
    apply sys_handle_wp; [apply Hr'|done|by rewrite refused_entered, Ha|]. intros _.
    assert (call_nr m = SYS_CHDEADLINE - KERNEL_CALL) as -> by (unfold call_nr; by rewrite Ht).
    rewrite call_vec_chdeadline.
    eapply wpx_conseq; [apply (do_chdeadline_wp _ (entered m s) l m); [apply Hr'|by apply (timers_rep_same s)|exact Hs|exact Hf|exact Hd]|].
    intros r s1 [-> D]. cbn [fst snd].
    eapply wpx_conseq; [apply sys_answer_wp|].
    + by eapply deadline_running.
    + by eapply deadline_alive.
    + rewrite (deadline_endpt _ _ _ _ _ _ D). exact (eq_sym Hep).
    + by apply message_ok_type.
    + done.
    + done.
    + intros u s'. unfold answered. rewrite (deadline_waits _ _ _ _ _ _ D).
      change (waits_answer (entered m s) _) with (waits_answer s c). rewrite Hw. intros (G & _ & H). by exists s1.
  - by exists s1, s'.
Qed.

(** PM asks that process 11 be done in three minutes. *)
Definition demo_request : message :=
  set_m_type SYS_CHDEADLINE (set_m2_i1 11 (set_m2_l1 3 null_message)).

Definition demo_platform : platform :=
  mk_platform (mk_boot_info None 0) 1024 [] 0 0 (fun _ => demo_priv 0) (fun _ _ => 0) (fun _ _ => 0).

Lemma chdeadline_served_witness :
  exists s1 s', sys_turn (call_vec demo_platform (fun _ => do_unused)) demo_request demo_serving = Done tt s' /\
    deadline_set 11 3 (tq_of demo_serving) (entered demo_request demo_serving) s1 /\ good s1 s' /\
    receiving s' PM_PROC_NR = false /\ has_message s' PM_PROC_NR SYSTEM (set_m_type OK demo_request).
Proof.
  apply (chdeadline_served demo_platform (fun _ => do_unused) demo_serving (tq_of demo_serving) demo_request);
    [apply demo_serving_ok|done|done|by repeat constructor|done|done|done| |done|done|done].
  apply timers_check_sound. vm_compute. reflexivity.
Defined.

(** ** Signal handlers: what is guaranteed *)










(** ** Requests to VM: what is guaranteed

    A mapping that a process asks for and a kernel call that a page fault suspends reach
    VM with their parameters, and VM's answer lets the process or the call go on. *)

(** *** Mappings *)

(** What VM reads in the answer to VMCTL_MEMREQ_GET. *)
Definition tells_map (m : message) (end_d lin_d end_s lin_s size flag requestor : Z) : Prop :=
  m2_i1 m = end_d /\ m2_i2 m = i32 lin_d /\ m2_i3 m = i32 size /\ m2_l1 m = end_s /\
  m2_l2 m = i32 lin_s /\ m2_p1 m = requestor /\ u16 (m2_s1 m) = u16 flag.

Lemma u16_i16 x : u16 (i16 x) = u16 x.
Proof. apply u_wrap_s_wrap. Qed.

Lemma u16_i32 x : u16 (i32 x) = u16 x.
Proof.
  unfold u16, i32, u_wrap, s_wrap. rewrite <- Zminus_mod_idemp_l, Z.mod_mod_divide by by exists 65536.
  rewrite Zminus_mod_idemp_l. by rewrite Z.add_simpl_r.
Qed.

(** A short that is stored in the message is read back. *)
Lemma m2_s1_read v m : u16 (m2_s1 (set_m2_s1 v m)) = u16 v.
Proof.
  unfold m2_s1, set_m2_s1. cbn [m_w6 set_m_w6]. rewrite u16_i16, u16_i32. unfold u16, u_wrap.
  rewrite <- !(Z.land_ones _ 16), Z.land_lor_distr_l, <- !Z.land_assoc by done.
  change (Z.land 0xFFFF0000 (Z.ones 16)) with 0. rewrite Z.land_0_r, Z.lor_0_l. by rewrite Z.land_diag.
Qed.

(** A process asks for a mapping between two page-aligned ranges of live processes
    ([map_invoke_vm]).  It is blocked; VM's next VMCTL_MEMREQ_GET returns the kind of
    the request and all its parameters, and leaves the chain of requests as it was
    before; VM's VMCTL_MEMREQ_REPLY records the result and releases the process. *)
Theorem map_request_answered s req end_d seg_d off_d end_s seg_s off_s size flag lin_d lin_s m a :
  let c := _ENDPOINT_P (who_e s) in
  ipc_inv s -> intr_off s = false -> valid_endpt s (who_e s) ->
  map_end s end_d seg_d off_d size lin_d -> map_end s end_s seg_s off_s size lin_s ->
  req = VMPTYPE_SMAP \/ req = VMPTYPE_SUNMAP ->
  exists s1 s2 s3 m',
    map_invoke_vm req end_d seg_d off_d end_s seg_s off_s size flag s = Done OK s1 /\ vmwait s1 c = true /\
    memreq_get m s1 = Done (req, m') s2 /\ tells_map m' end_d lin_d end_s lin_s size flag (who_e s) /\
    vmrequest s2 = vmrequest s /\ vmwait s2 c = true /\
    memreq_reply c a s2 = Done (OK, a) s3 /\ vmwait s3 c = false /\
    vr_vmresult (request_of s3 c) = m1_i3 a /\ vmrequest s3 = vmrequest s /\ ipc_inv s3.
Proof.
  intros c Hi Hoff Vw Hd Hs Hreq.
  destruct (wpx_returns _ _ _ (map_invoke_vm_posts False s req end_d seg_d off_d end_s seg_s off_s size flag
    lin_d lin_s Hi Hoff Vw Hd Hs)) as (r & s1 & E1 & -> & [G1 W1 V1 R1 Q1 O1]).
  fold c in W1, V1, Q1. pose proof (proj1 G1) as Hi1. destruct Vw as (Hcs & Hcf & Hce).
  assert (Ety : vr_req_type (request_of s1 c) = req) by by rewrite Q1.
  destruct (wpx_returns (memreq_get m) (fun r s2 => r = (req, memreq_fields (k_proc s1 c) m) /\ s2 = taken c s1) s1)
    as (r2 & s2 & E2 & -> & ->).
  { apply (memreq_get_wp _ _ c); [done|done| |by rewrite Ety]. rewrite Ety. by destruct Hreq as [-> | ->]. }
  destruct (taken_view c s1 Hi1) as (G2 & W2 & Q2 & V2 & R2).
  assert (V3 : vmrequest (taken c s1) = vmrequest s) by by rewrite V2, Q1.
  assert (F2 : forall p, is_free (taken c s1) p = is_free s p /\ endpt (taken c s1) p = endpt s p).
  { intros p. pose proof (good_trans _ _ _ G1 G2) as [_ W]. by rewrite (weak_free _ _ W), (weak_endpt _ _ W). }
  destruct (wpx_returns (memreq_reply c a) (fun r s' => r = (OK, a) /\ replied c (m1_i3 a) (taken c s1) s') (taken c s1))
    as (r3 & s3 & E3 & -> & [G3 Rr Rt Rm Rc Rn]).
  { apply memreq_reply_wp; [apply G2|done|by rewrite (proj1 (F2 c))| |].
    - rewrite Q2, Q1. destruct Hd as [(Hs1 & Hs2 & Hs3) _]. unfold valid_endpt. cbn.
      by rewrite (proj1 (F2 _)), (proj2 (F2 _)).
    - rewrite Q2, Q1. cbn. tauto. }
  exists s1, (taken c s1), s3, (memreq_fields (k_proc s1 c) m).
  split_all; try done.
  - unfold memreq_fields. fold (request_of s1 c). rewrite Ety, Q1.
    assert ((req =? VMPTYPE_CHECK) = false) as -> by by destruct Hreq as [-> | ->].
    assert (Hep : p_endpoint (k_proc s1 c) = who_e s) by (etrans; [apply (weak_endpt _ _ (proj2 G1))|exact Hce]).
    rewrite Hep. unfold tells_map. split_all; try done. apply m2_s1_read.
  - by rewrite W2.
  - rewrite Q2, Q1 in Rn. cbn in Rn. apply Rn.
  - by rewrite Rc.
  - apply G3.
Qed.

(** In [demo], PM asks for a page of process 11. *)
Lemma map_request_answered_witness :
  exists s1 s2 s3 m',
    map_invoke_vm VMPTYPE_SMAP 0 SEG_D 0 11 SEG_D 4096 4096 1 demo_serving = Done OK s1 /\ vmwait s1 0 = true /\
    memreq_get null_message s1 = Done (VMPTYPE_SMAP, m') s2 /\ tells_map m' 0 0x100000 11 0x101000 4096 1 0 /\
    vmrequest s2 = None /\ vmwait s2 0 = true /\
    memreq_reply 0 null_message s2 = Done (OK, null_message) s3 /\ vmwait s3 0 = false /\
    vr_vmresult (request_of s3 0) = 0 /\ vmrequest s3 = None /\ ipc_inv s3.
Proof.
  apply (map_request_answered demo_serving VMPTYPE_SMAP 0 SEG_D 0 11 SEG_D 4096 4096 1 0x100000 0x101000
    null_message null_message); [apply demo_serving_ok|done|done|by split_all|by split_all|by left].
Defined.

(** *** Suspended kernel calls *)

(** The parameters of a check that VM reads. *)
Definition tells_check (m : message) (target lin len requestor : Z) : Prop :=
  m2_i1 m = target /\ m2_i2 m = i32 lin /\ m2_i3 m = i32 len /\ m2_p1 m = requestor.

(** C29: a kernel call of [c] that needs memory VM has to provide.  [vm_suspend] blocks
    the caller and the system task saves the request; VM's VMCTL_MEMREQ_GET tells it
    the process and the range; after VMCTL_MEMREQ_REPLY the task takes up the same
    request of the same caller again, with the chains of requests and of restarts as
    they were at first, and finds the result VM gave. *)
Theorem suspended_call_restarts s c target lin len m g a :
  ipc_inv s -> slot c -> is_free s c = false -> slot target -> is_free s target = false ->
  m_source m = endpt s c -> 0 <= i32 (m_type m - KERNEL_CALL) < NR_SYS_CALLS ->
  exists s1 s2 s3 s4 s5 g',
    vm_suspend c target lin len VMSTYPE_KERNELCALL s = Done tt s1 /\
    sys_answer c VMSUSPEND m s1 = Done tt s2 /\ vmwait s2 c = true /\
    memreq_get g s2 = Done (VMPTYPE_CHECK, g') s3 /\ tells_check g' (endpt s target) lin len (endpt s c) /\
    memreq_reply c a s3 = Done (OK, a) s4 /\
    vmrestart_check s4 = Done (Some (c, m)) s5 /\
    vr_vmresult (request_of s5 c) = m1_i3 a /\ vmrequest s5 = vmrequest s /\ vmrestart s5 = vmrestart s.
Proof.
  intros Hi Hc Hf Ht Hft Hsrc Hnr.
  destruct (wpx_returns _ _ _ (vm_suspend_posts False s c target lin len VMSTYPE_KERNELCALL Hi Hc Hf Ht))
    as ([] & s1 & E1 & [G1 W1 V1 R1 Q1 O1]).
  destruct (wpx_returns (sys_answer c VMSUSPEND m) (fun _ s2 => good s1 s2 /\ vmwait s2 c = true /\
    request_of s2 c = set_vr_reqmsg m (request_of s1 c) /\ vmrequest s2 = vmrequest s1 /\ vmrestart s2 = vmrestart s1) s1)
    as ([] & s2 & E2 & G2 & W2 & Q2 & V2 & R2).
  { unfold sys_answer. rewrite Z.eqb_refl. apply wr_request; [apply G1|done|]. intros s2 G2 W2 Q2 O2 V2 R2.
    by rewrite W2. }
  pose proof (proj1 G2) as Hi2.
  destruct (wpx_returns (memreq_get g) (fun r s3 => r = (VMPTYPE_CHECK, memreq_fields (k_proc s2 c) g) /\ s3 = taken c s2) s2)
    as (r2 & s3 & E3 & -> & ->).
  { apply (memreq_get_wp _ _ c); [by rewrite V2|done|by rewrite Q2, Q1|by rewrite Q2, Q1]. }
  destruct (taken_view c s2 Hi2) as (G3 & W3 & Q3 & V3 & R3).
  assert (Hall : good s (taken c s2)) by (eapply good_trans; [exact G1|by eapply good_trans]).
  assert (F3 : forall p, is_free (taken c s2) p = is_free s p /\ endpt (taken c s2) p = endpt s p)
    by (intros p; by rewrite (weak_free _ _ (proj2 Hall)), (weak_endpt _ _ (proj2 Hall))).
  assert (Hep : forall p, slot p -> _ENDPOINT_P (endpt s p) = p) by (intros p Hp; apply iw_ep; [apply Hi|done]).
  destruct (wpx_returns (memreq_reply c a) (fun r s' => r = (OK, a) /\ replied c (m1_i3 a) (taken c s2) s') (taken c s2))
    as (r4 & s4 & E4 & -> & [G4 Rr Rt Rm Rc Rn]).
  { apply memreq_reply_wp; [apply G3|done|by rewrite (proj1 (F3 c))| |].
    - rewrite Q3, Q2, Q1. cbn. unfold valid_endpt. rewrite (Hep target Ht), (proj1 (F3 _)), (proj2 (F3 _)). done.
    - rewrite Q3, Q2, Q1. cbn. tauto. }
  rewrite Q3, Q2, Q1 in Rt, Rm, Rn. cbn in Rt, Rm, Rn. destruct Rn as (N1 & N2 & N3).
  assert (F4 : is_free s4 c = false /\ endpt s4 c = endpt s c).
  { rewrite (weak_free _ _ (proj2 G4)), (weak_endpt _ _ (proj2 G4)). by rewrite (proj1 (F3 c)), (proj2 (F3 c)). }
  pose proof (vmrestart_check_wp False s4 c (proj1 G4) N1 Hc) as Hchk. rewrite Rt, Rm, Hsrc in Hchk.
  destruct (wpx_returns _ _ _ (Hchk eq_refl ltac:(unfold valid_endpt; by rewrite (Hep c Hc), (proj1 F4), (proj2 F4)) Hnr))
    as (r5 & s5 & E5 & -> & X1 & X2 & X3).
  exists s1, s2, (taken c s2), s4, s5, (memreq_fields (k_proc s2 c) g). split_all; try done.
  - unfold memreq_fields. fold (request_of s2 c). rewrite Q2, Q1. cbn. unfold tells_check. cbn. split_all; try done.
    etrans; [apply (weak_endpt _ _ (proj2 G2))|apply (weak_endpt _ _ (proj2 G1))].
  - by rewrite X1.
  - by rewrite X2, Rc, V3, Q2, Q1.
  - rewrite X3, N2. etrans; [exact R2|exact R1].
Qed.

(** In [demo], a request of PM needs a page of process 11. *)
Lemma suspended_call_restarts_witness :
  exists s1 s2 s3 s4 s5 g',
    vm_suspend 0 11 0x5000 4096 VMSTYPE_KERNELCALL demo = Done tt s1 /\
    sys_answer 0 VMSUSPEND demo_request s1 = Done tt s2 /\ vmwait s2 0 = true /\
    memreq_get null_message s2 = Done (VMPTYPE_CHECK, g') s3 /\ tells_check g' 11 0x5000 4096 0 /\
    memreq_reply 0 null_message s3 = Done (OK, null_message) s4 /\
    vmrestart_check s4 = Done (Some (0, demo_request)) s5 /\
    vr_vmresult (request_of s5 0) = 0 /\ vmrequest s5 = None /\ vmrestart s5 = None.
Proof.
  apply (suspended_call_restarts demo 0 11 0x5000 4096 demo_request null_message null_message);
    [apply demo_ipc|done..].
Defined.

(** *** Two requests of one process *)

(** The memory maps and endpoints of all processes are the same. *)
Definition map_attr (p : proc) := ((p_map_T p, p_map_D p, p_map_S p), p_endpoint p).
Definition same_maps (s s' : kstate) : Prop :=
  (forall p, map_attr (k_proc s' p) = map_attr (k_proc s p)) /\ who_e s' = who_e s.

#[export] Instance same_maps_frame : FrameRel same_maps.
Proof.
  split.
  - split; [by intros s|]. intros s1 s2 s3 [P1 E1] [P2 E2]. split; [intros p; by rewrite P2|congruence].
  - intros s s' [P _ G]. split; [|unfold glob_attr in G; congruence].
    intros p. specialize (P p). unfold proc_attr in P. unfold map_attr. congruence.
Qed.

#[export] Instance maps_request c f : Keeps same_maps (wr c (upd_vmrequest f)) | 0.
Proof.
  intros s a s'. unfold wr. case_decide; [|done]. intros [= _ <-]. split; [|done]. intros p.
  destruct (decide (c = p)) as [->|Hp]; [by rewrite upd_proc_eq|by rewrite upd_proc_ne].
Qed.
#[export] Instance maps_head o : Keeps same_maps (modify (set_vmrequest o)) | 0.
Proof. by intros s a s' [= _ <-]. Qed.

#[export] Instance maps_invoke req end_d seg_d off_d end_s seg_s off_s size flag :
  Keeps same_maps (map_invoke_vm req end_d seg_d off_d end_s seg_s off_s size flag).
Proof. unfold map_invoke_vm, endpoint_lookup, umap_local. apply _. Qed.

Lemma map_end_kept s s' e seg off size lin :
  same_maps s s' -> good s s' -> map_end s e seg off size lin -> map_end s' e seg off size lin.
Proof.
  intros [HP _] G ((V1 & V2 & V3) & Hseg & Hlin & Hrest). split; [|split; [done|split; [|done]]].
  - split; [done|]. by rewrite (weak_free _ _ (proj2 G)), (weak_endpt _ _ (proj2 G)).
  - rewrite <- Hlin. apply lin_of_maps. specialize (HP (_ENDPOINT_P e)). unfold map_attr in HP. congruence.
Qed.

(** A process that makes a second request before VM has taken the first one is linked
    to itself: the chain has become a cycle, and VM never reaches the requests that
    were on it before.  The loops of [do_saferevmap] and [do_safeunmap] do this when
    two mappings match. *)
Lemma second_request_cycles s req end_d seg_d off_d end_s seg_s off_s size flag lin_d lin_s :
  let c := _ENDPOINT_P (who_e s) in
  let ask := map_invoke_vm req end_d seg_d off_d end_s seg_s off_s size flag in
  ipc_inv s -> intr_off s = false -> valid_endpt s (who_e s) ->
  map_end s end_d seg_d off_d size lin_d -> map_end s end_s seg_s off_s size lin_s ->
  exists s1 s2, ask s = Done OK s1 /\ ask s1 = Done OK s2 /\
    vmrequest s2 = Some c /\ vr_nextrequestor (request_of s2 c) = Some c.
Proof.
  intros c ask Hi Hoff V Hd Hs.
  destruct (wpx_returns _ _ _ (map_invoke_vm_posts False s req end_d seg_d off_d end_s seg_s off_s size flag
    lin_d lin_s Hi Hoff V Hd Hs)) as (r & s1 & E1 & -> & [G1 W1 V1 R1 Q1 O1]).
  pose proof (maps_invoke _ _ _ _ _ _ _ _ _ _ _ _ E1) as HM. pose proof (proj2 HM) as Ew.
  assert (Hoff1 : intr_off s1 = false) by by rewrite (proj1 (is_lock _ _ (proj2 G1))).
  assert (V' : valid_endpt s1 (who_e s1)).
  { rewrite Ew. destruct V as (A1 & A2 & A3). split; [done|].
    by rewrite (weak_free _ _ (proj2 G1)), (weak_endpt _ _ (proj2 G1)). }
  destruct (wpx_returns _ _ _ (map_invoke_vm_posts False s1 req end_d seg_d off_d end_s seg_s off_s size flag
    lin_d lin_s (proj1 G1) Hoff1 V' (map_end_kept _ _ _ _ _ _ _ HM G1 Hd) (map_end_kept _ _ _ _ _ _ _ HM G1 Hs)))
    as (r & s2 & E2 & -> & [G2 W2 V2 R2 Q2 O2]).
  rewrite Ew in *. exists s1, s2. split_all; try done. unfold c. by rewrite Q2, V1.
Qed.
