(* ===== verification/DevIo.v ===== *)
(** * Device input and output (system/do_devio.c, do_vdevio.c, arch/i386/do_sdevio.c)

    SYS_DEVIO, SYS_VDEVIO and SYS_SDEVIO: drivers have the kernel read and write the
    ports of the machine for them.  The state is the kernel's, the buffer [vdevio_buf],
    and the list of the accesses to ports, latest first; the class [Ports] gives the
    value a device answers as a function of that list.  A driver with [CHECK_IO_PORT]
    may use the ports of its table [s_io_tab] only.  [kprintf] is left out. *)
From S2P Require Import Prelude PList KMonad Timers Types KState Memory Sched Notify Copy Ipc KCalls.
From S2P Require Import Grants PrivCtl.

Definition _DIO_INPUT : Z := 0x001.
Definition _DIO_OUTPUT : Z := 0x002.
Definition _DIO_DIRMASK : Z := 0x00f.
Definition _DIO_BYTE : Z := 0x010.
Definition _DIO_WORD : Z := 0x020.
Definition _DIO_LONG : Z := 0x030.
Definition _DIO_TYPEMASK : Z := 0x0f0.
Definition _DIO_SAFE : Z := 0x100.
Definition _DIO_SAFEMASK : Z := 0xf00.
Definition VDEVIO_BUF_SIZE : Z := 64.
Definition E2BIG : Z := -7.

(** [DIO_REQUEST], [DIO_PORT], [DIO_VALUE], [DIO_VEC_ADDR], [DIO_VEC_SIZE],
    [DIO_VEC_ENDPT], [DIO_OFFSET] (include/minix/com.h). *)
Abbreviation DIO_REQUEST := m2_i3.
Abbreviation DIO_PORT := m2_l1.
Abbreviation DIO_VALUE := m2_l2.
Abbreviation DIO_VEC_ADDR := m2_p1.
Abbreviation DIO_VEC_SIZE := m2_l2.
Abbreviation DIO_VEC_ENDPT := m2_i2.
Abbreviation DIO_OFFSET := m2_i1.

(** An access of [size] bytes at a port. *)
Inductive port_event :=
  | PIn (size port : Z)
  | POut (size port value : Z).

Definition ev_size (e : port_event) : Z := match e with PIn n _ | POut n _ _ => n end.
Definition ev_port (e : port_event) : Z := match e with PIn _ p | POut _ p _ => p end.

Class Ports := { port_value : list port_event -> Z }.

Record dstate := mk_dstate { d_k : kstate; vdevio_buf : list Z; ports : list port_event }.
Definition set_d_k (k : kstate) (s : dstate) : dstate := mk_dstate k (vdevio_buf s) (ports s).
Definition set_vdevio_buf (b : list Z) (s : dstate) : dstate := mk_dstate (d_k s) b (ports s).
Definition set_ports (l : list port_event) (s : dstate) : dstate := mk_dstate (d_k s) (vdevio_buf s) l.

Definition D (A : Type) : Type := M dstate A.

(** A kernel operation. *)
Definition kern {A} (m : K A) : D A := fun s =>
  match m (d_k s) with
  | Done a k => Done a (set_d_k k s)
  | Panic w => Panic w
  | Stuck r => Stuck r
  end.

Section ports.
Context `{Ports}.

(** [inb], [inw], [inl] and [outb], [outw], [outl] (lib/i386/misc): the port is the low
    half of the argument. *)
Definition io_in (size port : Z) : D Z := fun s =>
  let l := PIn size (u16 port) :: ports s in
  Done (port_value l mod 2 ^ (8 * size)) (set_ports l s).
Definition io_out (size port value : Z) : D unit := fun s =>
  Done tt (set_ports (POut size (u16 port) (value mod 2 ^ (8 * size)) :: ports s) s).

(** The loop over the I/O ranges of a structure: is [lo .. hi] in one of them? *)
Definition io_allowed (privp lo hi : Z) : K bool :=
  do nr_io_range <- rdp privp s_nr_io_range;
  do r <- for_return (seqZ 0 nr_io_range) (fun i =>
    if NR_IO_RANGE <=? i then stuck BadIndex else
    do ior <- rdp privp (fun sp => s_io_tab sp i);
    ret (if (fst ior <=? lo) && (hi <=? snd ior) then Some tt else None));
  ret (match r with Some _ => true | None => false end).

(** [privp && (privp->s_flags & CHECK_IO_PORT)]: the structure to check against. *)
Definition checked_priv : K (option Z) :=
  do who <- gets who_p;
  do o <- rd who p_priv;
  match o with
  | None => ret None
  | Some privp => do fl <- rdp privp s_flags; ret (if flag_any fl CHECK_IO_PORT then Some privp else None)
  end.

Definition dio_size (io_type : Z) : Z :=
  if io_type =? _DIO_BYTE then 1 else if io_type =? _DIO_WORD then 2 else 4.
Definition dio_known (io_type : Z) : bool :=
  (io_type =? _DIO_BYTE) || (io_type =? _DIO_WORD) || (io_type =? _DIO_LONG).

(** ** do_devio.c *)

Definition do_devio (m : message) : D (Z * message) :=
  let io_type := Z.land (DIO_REQUEST m) _DIO_TYPEMASK in
  let io_dir := Z.land (DIO_REQUEST m) _DIO_DIRMASK in
  let size := dio_size io_type in
  do privp <- kern checked_priv;
  do ok <- match privp with
           | None => ret true
           | Some privp => let port := u16 (DIO_PORT m) in kern (io_allowed privp port (port + size - 1))
           end;
  if negb ok then ret (EPERM, m)
  else if negb (Z.land (DIO_PORT m) (size - 1) =? 0) then ret (EPERM, m)
  else if negb (dio_known io_type) then ret (EINVAL, m)
  else if io_dir =? _DIO_INPUT then
    do v <- io_in size (DIO_PORT m); ret (OK, set_m2_l2 (i32 v) m)
  else
    do! io_out size (DIO_PORT m) (DIO_VALUE m); ret (OK, m).

(** ** do_vdevio.c *)

(** Bytes as an unsigned number, lowest byte first. *)
Definition le_number (bs : list Z) : Z :=
  foldr (fun b acc => b + 256 * acc) 0 bs mod 2 ^ (8 * Z.of_nat (length bs)).

(** [n] bytes of a buffer from [off] on as a number, and with other bytes stored there. *)
Definition number_at (off : Z) (n : nat) (b : list Z) : Z := le_number (take n (drop (Z.to_nat off) b)).
Definition stored_at (off : Z) (bs b : list Z) : list Z :=
  take (Z.to_nat off) b ++ bs ++ drop (Z.to_nat off + length bs) b.

(** Reading and assigning a field of [vdevio_buf]. *)
Definition buf_get (off : Z) (n : nat) : D Z := fun s =>
  if (0 <=? off) && (off + Z.of_nat n <=? VDEVIO_BUF_SIZE)
  then Done (number_at off n (vdevio_buf s)) s
  else Stuck BadIndex.
Definition buf_put (off : Z) (bs : list Z) : D unit := fun s =>
  if (0 <=? off) && (off + Z.of_nat (length bs) <=? VDEVIO_BUF_SIZE)
  then Done tt (set_vdevio_buf (stored_at off bs (vdevio_buf s)) s)
  else Stuck BadIndex.

(** The pair types of include/minix/devio.h: their size, and where the value is.  The
    port is the half word at the start. *)
Definition pv_size (io_type : Z) : Z := if io_type =? _DIO_LONG then 8 else 4.
Definition pv_value (io_type : Z) : Z := if io_type =? _DIO_LONG then 4 else 2.

(** [for (i = 0; i < vec_size; i++)] until the body returns something.  The buffer has at
    most 16 pairs, so the body is stuck before the fuel is used up. *)
Fixpoint vec_loop {R} (fuel : nat) (i vec_size : Z) (body : Z -> D (option R)) : D (option R) :=
  match fuel with
  | O => stuck OutOfFuel
  | S fuel' =>
      if i <? vec_size then
        do r <- body i;
        match r with Some x => ret (Some x) | None => vec_loop fuel' (i + 1) vec_size body end
      else ret None
  end.
Definition VEC_FUEL : nat := 18.

(** The permission for every port of the vector. *)
Definition vdevio_check (privp io_type vec_size : Z) : D (option unit) :=
  vec_loop VEC_FUEL 0 vec_size (fun i =>
    do port <- buf_get (pv_size io_type * i) 2;
    do ok <- kern (io_allowed privp port (port + dio_size io_type - 1));
    ret (if ok : bool then None else Some tt)).

(** The access for pair [i].  The output of a long takes the port from [pvb[i]], a pair
    of the byte type, in line 167. *)
Definition vdevio_one (io_type : Z) (input : bool) (i : Z) : D (option unit) :=
  let size := dio_size io_type in
  let pv := pv_size io_type * i in
  do port <- buf_get pv 2;
  if negb (Z.land port (size - 1) =? 0) then panic "do_vdevio: unaligned port"
  else if input then
    do v <- io_in size port;
    do! buf_put (pv + pv_value io_type) (take (Z.to_nat size) (word_bytes v));
    ret None
  else
    do out <- (if io_type =? _DIO_LONG then buf_get (4 * i) 2 else ret port);
    do v <- buf_get (pv + pv_value io_type) (Z.to_nat size);
    do! io_out size out v;
    ret None.

Definition do_vdevio (m : message) : D (Z * message) :=
  let io_dir := Z.land (DIO_REQUEST m) _DIO_DIRMASK in
  let io_type := Z.land (DIO_REQUEST m) _DIO_TYPEMASK in
  let input := io_dir =? _DIO_INPUT in
  if negb input && negb (io_dir =? _DIO_OUTPUT) then ret (EINVAL, m) else
  let vec_size := DIO_VEC_SIZE m in
  if vec_size <=? 0 then ret (EINVAL, m)
  else if negb (dio_known io_type) then ret (EINVAL, m)
  else
  let bytes := u32 (vec_size * pv_size io_type) in
  if VDEVIO_BUF_SIZE <? bytes then ret (E2BIG, m) else
  do who <- kern (gets who_e);
  do r <- kern (data_copy_in who (u32 (DIO_VEC_ADDR m)) bytes false);
  if negb (fst r =? OK) then ret (fst r, m) else
  do! modify (fun s => set_vdevio_buf (snd r ++ drop (Z.to_nat bytes) (vdevio_buf s)) s);
  do privp <- kern checked_priv;
  do denied <- match privp with
               | None => ret None
               | Some privp => vdevio_check privp io_type vec_size
               end;
  match denied with
  | Some _ => ret (EPERM, m)
  | None =>
      do! kern lock;
      do! vec_loop VEC_FUEL 0 vec_size (vdevio_one io_type input);
      do! kern unlock;
      if input then
        do out <- gets (fun s => take (Z.to_nat bytes) (vdevio_buf s));
        do r <- kern (data_copy_out out who (u32 (DIO_VEC_ADDR m)) false);
        ret (if negb (r =? OK) then r else OK, m)
      else ret (OK, m)
  end.

(** ** do_sdevio.c *)

(** [phys_insb], [phys_insw], [phys_outsb], [phys_outsw] (arch/i386/klib386.S): [n]
    transfers between the port and memory from [lin] on, in the current address space.
    A page fault of the kernel is fatal. *)
Definition fault_panic : string := "page fault in system process".

Fixpoint phys_ins (n : nat) (size port lin : Z) : D unit :=
  match n with
  | O => ret tt
  | S n' =>
      do v <- io_in size port;
      do r <- kern (gets (fun k => write_bytes (take (Z.to_nat size) (word_bytes v)) (mem k) (cur_space k) lin));
      if negb (snd r) then panic fault_panic else
      do! kern (modify (set_mem (fst r)));
      phys_ins n' size port (u32 (lin + size))
  end.

Fixpoint phys_outs (n : nat) (size port lin : Z) : D unit :=
  match n with
  | O => ret tt
  | S n' =>
      do r <- kern (gets (fun k => read_bytes (Z.to_nat size) (mem k) (cur_space k) lin));
      if negb (snd r) then panic fault_panic else
      do! io_out size port (le_number (fst r));
      phys_outs n' size port (u32 (lin + size))
  end.

(** The buffer of the request: the error, or its process and its address. *)
Definition sdevio_buffer (m : message) (proc_nr : Z) : K (Z + Z * Z) :=
  do who <- gets who_p;
  do whoe <- gets who_e;
  let count := DIO_VEC_SIZE m in
  if Z.land (DIO_REQUEST m) _DIO_SAFEMASK =? _DIO_SAFE then
    do g <- verify_grant (DIO_VEC_ENDPT m) whoe (DIO_VEC_ADDR m) (u32 count)
              (if Z.land (DIO_REQUEST m) _DIO_DIRMASK =? _DIO_INPUT then CPF_WRITE else CPF_READ)
              (u32 (DIO_OFFSET m));
    match g with
    | inl _ => ret (inl EPERM)
    | inr (newoffset, newep) =>
        do o <- isokendpt newep;
        match o with
        | None => ret (inl EINVAL)
        | Some dest =>
            do phys_buf <- umap_local dest SEG_D newoffset (u32 count);
            ret (if phys_buf =? 0 then inl EFAULT else inr (dest, phys_buf))
        end
    end
  else if negb (proc_nr =? who) then ret (inl EPERM)
  else
    do phys_buf <- umap_local proc_nr SEG_D (u32 (DIO_VEC_ADDR m)) (u32 count);
    ret (if phys_buf =? 0 then inl EFAULT else inr (proc_nr, phys_buf)).

(** From the choice of the size on: the check of the ports and the transfer. *)
Definition sdevio_transfer (m : message) (phys_buf : Z) : D (Z * message) :=
  let req_type := Z.land (DIO_REQUEST m) _DIO_TYPEMASK in
  let req_dir := Z.land (DIO_REQUEST m) _DIO_DIRMASK in
  let size := dio_size req_type in
  let port := DIO_PORT m in
  let count := u32 (DIO_VEC_SIZE m) in
  do privp <- kern checked_priv;
  do ok <- match privp with
           | None => ret true
           | Some privp => kern (io_allowed privp (u32 port) (u32 (port + size - 1)))
           end;
  if negb ok then ret (EPERM, m)
  else if negb (Z.land port (size - 1) =? 0) then ret (EPERM, m)
  else if req_dir =? _DIO_INPUT then
    if (req_type =? _DIO_BYTE) || (req_type =? _DIO_WORD) then
      do! phys_ins (Z.to_nat (count / size)) size port phys_buf; ret (OK, m)
    else ret (EINVAL, m)
  else if req_dir =? _DIO_OUTPUT then
    if (req_type =? _DIO_BYTE) || (req_type =? _DIO_WORD) then
      do! phys_outs (Z.to_nat (count / size)) size port phys_buf; ret (OK, m)
    else ret (EINVAL, m)
  else ret (EINVAL, m).

Definition do_sdevio (m : message) : D (Z * message) :=
  do who <- kern (gets who_p);
  let proc_nr_e := DIO_VEC_ENDPT m in
  do o <- (if proc_nr_e =? SELF then ret (Some who) else kern (isokendpt proc_nr_e));
  match o with
  | None => ret (EINVAL, m)
  | Some proc_nr =>
      if iskerneln proc_nr then ret (EPERM, m) else
      do b <- kern (sdevio_buffer m proc_nr);
      match b with
      | inl e => ret (e, m)
      | inr (destproc, phys_buf) =>
          do! kern (vm_set_cr3 destproc);
          sdevio_transfer m phys_buf
      end
  end.

End ports.
