(* ===== verification/DevIoSafe.v ===== *)
(** * Device input and output: which ports are accessed

    What [may_access] says of a process is what the loops over [s_io_tab] decide; the
    rules for the buffer and for the loop over the vector; the accesses of SYS_DEVIO and
    of SYS_VDEVIO, in order, and that each of them is allowed. *)
From S2P Require Import Prelude PList KMonad Timers Types KState Memory Sched SchedInv Notify Copy Ipc.
From S2P Require Import IpcInv IpcSafe CopySafe KCalls Grants PrivCtl GrantSafe DevIo.

(** ** The ports of a process *)

Definition in_ranges (sp : priv) (lo hi : Z) : Prop :=
  exists i, 0 <= i < s_nr_io_range sp /\ fst (s_io_tab sp i) <= lo /\ hi <= snd (s_io_tab sp i).

(** The caller may access [size] bytes at [port]: it is not checked, or one of its ranges
    has them all. *)
Definition may_access (k : kstate) (size port : Z) : Prop :=
  forall pr, p_priv (k_proc k (who_p k)) = Some pr -> flag_any (s_flags (k_priv k pr)) CHECK_IO_PORT = true ->
    in_ranges (k_priv k pr) port (port + size - 1).

(** The caller and its privileges are in the tables. *)
Definition dio_wf (k : kstate) : Prop :=
  slot (who_p k) /\ forall pr, p_priv (k_proc k (who_p k)) = Some pr ->
    priv_slot pr /\ s_nr_io_range (k_priv k pr) <= NR_IO_RANGE.

Lemma wpp_kern {A} P (m : K A) (Q : A -> dstate -> Prop) s :
  wpp P m (fun a k => Q a (set_d_k k s)) (d_k s) -> wpp P (kern m) Q s.
Proof.
  intros [(a & k & Ek & HQ)|(w & Ek & Hw)]%wpp_outcome.
  - eapply wpp_done; [unfold kern; by rewrite Ek|done].
  - apply (wpp_ext P _ (panic w)); [unfold kern; by rewrite Ek|by apply wpp_panic].
Qed.

(** A kernel operation that only reads. *)
Lemma wpp_kern_pure {A} P (m : K A) (R : A -> Prop) (Q : A -> dstate -> Prop) s :
  wpx False m (fun a k => k = d_k s /\ R a) (d_k s) -> (forall a, R a -> Q a s) -> wpp P (kern m) Q s.
Proof.
  intros Hm HQ. apply wpp_kern. eapply wpp_mono; [exact Hm|done|].
  intros a k [-> Ha]. destruct s. by apply HQ.
Qed.

Lemma wpp_stop {A} P (m : K A) (Q : A -> kstate -> Prop) k : wpx False m Q k -> wpp P m Q k.
Proof. intros H. by eapply wpp_mono; [exact H|..]. Qed.

(** The loop over the ranges finds one exactly when there is one. *)
Lemma io_allowed_exact E pr lo hi k :
  priv_slot pr -> s_nr_io_range (k_priv k pr) <= NR_IO_RANGE ->
  wpx E (io_allowed pr lo hi) (fun b k' => k' = k /\ (b = true <-> in_ranges (k_priv k pr) lo hi)) k.
Proof.
  intros Hp Hn. unfold io_allowed. apply wpx_bind, wpx_rdp; [done|]. apply wpx_bind.
  set (n := s_nr_io_range (k_priv k pr)).
  apply (wpx_for_return _ (fun rest k' => k' = k /\ (forall i, i ∈ rest -> 0 <= i < n) /\
    (in_ranges (k_priv k pr) lo hi -> exists i, i ∈ rest /\
       fst (s_io_tab (k_priv k pr) i) <= lo /\ hi <= snd (s_io_tab (k_priv k pr) i)))).
  - split; [done|]. split; [intros i; rewrite elem_of_seqZ; lia|].
    intros (i & Hi & Hr). exists i. rewrite elem_of_seqZ. split; [lia|done].
  - intros i rest k' (-> & Hb & Hr) _. specialize (Hb i (list_elem_of_here _ _)) as Hi.
    rewrite (proj2 (Z.leb_gt NR_IO_RANGE i)) by lia.
    apply wpx_bind, wpx_rdp; [done|]. apply wpx_ret.
    destruct (_ && _) eqn:Eb; [apply wpx_ret; split; [done|]|].
    + apply andb_true_iff in Eb as [E1%Z.leb_le E2%Z.leb_le]. split; [intros _; by exists i|done].
    + split; [done|]. split; [set_solver|]. intros (j & Hj & H1 & H2)%Hr.
      apply andb_false_iff in Eb as [Eb%Z.leb_gt|Eb%Z.leb_gt]; exists j;
        (apply elem_of_cons in Hj as [->|Hj]; [lia|done]).
  - intros k' (-> & _ & Hr). apply wpx_ret. split; [done|]. split; [done|].
    intros (i & Hi & _)%Hr. by apply elem_of_nil in Hi.
Qed.

(** What the ports of the caller have to be checked against. *)
Definition checked_ok (k : kstate) (checked : option Z) : Prop :=
  match checked with
  | None => forall size port, may_access k size port
  | Some pr => p_priv (k_proc k (who_p k)) = Some pr /\ priv_slot pr /\
      s_nr_io_range (k_priv k pr) <= NR_IO_RANGE /\
      forall size port, may_access k size port <-> in_ranges (k_priv k pr) port (port + size - 1)
  end.

Lemma checked_priv_exact E k :
  dio_wf k -> wpx E checked_priv (fun o k' => k' = k /\ checked_ok k o) k.
Proof.
  intros [Hw Hp]. unfold checked_priv, checked_ok, may_access. apply wpx_bind, wpx_gets, wpx_bind, wpx_rd; [done|].
  destruct (p_priv (k_proc k (who_p k))) as [pr|] eqn:Epr.
  - destruct (Hp pr eq_refl) as [Hpr Hn].
    apply wpx_bind, wpx_rdp; [done|]. apply wpx_ret. split; [done|].
    destruct (flag_any _ _) eqn:Ef; [|intros size port pr' [= <-]; congruence].
    do 3 (split; [done|]). intros size port. split.
    + intros H. by apply H.
    + intros H pr' [= <-] _. done.
  - by apply wpx_ret.
Qed.

(** ** Fields of the buffer *)

Lemma le_number_range bs : 0 <= le_number bs < 2 ^ (8 * Z.of_nat (length bs)).
Proof. apply Z.mod_pos_bound. apply Z.pow_pos_nonneg; lia. Qed.

Lemma number_at_range off n b : 0 <= number_at off n b < 2 ^ (8 * Z.of_nat n).
Proof.
  unfold number_at. set (l := take n _). pose proof (le_number_range l) as H. split; [lia|].
  eapply Z.lt_le_trans; [apply H|]. apply Z.pow_le_mono_r; [done|].
  assert ((length l <= n)%nat) by (unfold l; rewrite length_take; lia). lia.
Qed.

(** A field depends on its own bytes. *)
Lemma number_at_agree off n b b' :
  0 <= off -> (forall j, off <= Z.of_nat j < off + Z.of_nat n -> b !! j = b' !! j) ->
  number_at off n b = number_at off n b'.
Proof.
  intros Ho H. unfold number_at. f_equal. apply list_eq. intros i.
  destruct (decide (i < n)%nat).
  - rewrite !lookup_take_lt, !lookup_drop by done. apply H. lia.
  - rewrite !lookup_take_ge by lia. done.
Qed.

Lemma stored_length off bs (b : list Z) :
  0 <= off -> off + Z.of_nat (length bs) <= Z.of_nat (length b) -> length (stored_at off bs b) = length b.
Proof. intros. unfold stored_at. rewrite !length_app, length_take, length_drop. lia. Qed.

(** Bytes elsewhere are kept. *)
Lemma stored_elsewhere off bs (b : list Z) j :
  0 <= off -> off + Z.of_nat (length bs) <= Z.of_nat (length b) ->
  Z.of_nat j < off \/ off + Z.of_nat (length bs) <= Z.of_nat j -> stored_at off bs b !! j = b !! j.
Proof.
  intros Ho Hl [Hj|Hj]; unfold stored_at.
  - rewrite lookup_app_l by (rewrite length_take; lia). by rewrite lookup_take_lt by lia.
  - rewrite lookup_app_r by (rewrite length_take; lia). rewrite length_take.
    rewrite lookup_app_r by lia. rewrite lookup_drop. f_equal. lia.
Qed.

Section rules.
Context `{Ports} (P : string -> Prop).

Lemma wpp_buf_get off n (Q : Z -> dstate -> Prop) s :
  0 <= off -> off + Z.of_nat n <= VDEVIO_BUF_SIZE -> Q (number_at off n (vdevio_buf s)) s -> wpp P (buf_get off n) Q s.
Proof.
  intros H1 H2 HQ. eapply wpp_done; [|exact HQ]. unfold buf_get.
  by rewrite (proj2 (Z.leb_le _ _) H1), (proj2 (Z.leb_le _ _) H2).
Qed.

Lemma wpp_buf_put off bs (Q : unit -> dstate -> Prop) s :
  0 <= off -> off + Z.of_nat (length bs) <= VDEVIO_BUF_SIZE ->
  Q tt (set_vdevio_buf (stored_at off bs (vdevio_buf s)) s) -> wpp P (buf_put off bs) Q s.
Proof.
  intros H1 H2 HQ. eapply wpp_done; [|exact HQ]. unfold buf_put.
  by rewrite (proj2 (Z.leb_le _ _) H1), (proj2 (Z.leb_le _ _) H2).
Qed.

Lemma wpp_io_in size port (Q : Z -> dstate -> Prop) s :
  (forall v, v = port_value (PIn size (u16 port) :: ports s) mod 2 ^ (8 * size) ->
     Q v (set_ports (PIn size (u16 port) :: ports s) s)) -> wpp P (io_in size port) Q s.
Proof. intros HQ. by eapply wpp_done; [|apply HQ]. Qed.

Lemma wpp_io_out size port value (Q : unit -> dstate -> Prop) s :
  Q tt (set_ports (POut size (u16 port) (value mod 2 ^ (8 * size)) :: ports s) s) ->
  wpp P (io_out size port value) Q s.
Proof. intros HQ. by eapply wpp_done. Qed.

(** An invariant of the loop over the vector. *)
Lemma wpp_vec_loop {R} (I : Z -> dstate -> Prop) n (body : Z -> D (option R)) Q s :
  0 <= n -> n < Z.of_nat VEC_FUEL -> I 0 s ->
  (forall i s, 0 <= i < n -> I i s ->
     wpp P (body i) (fun r s' => match r with Some x => Q (Some x) s' | None => I (i + 1) s' end) s) ->
  (forall s, I n s -> Q None s) ->
  wpp P (vec_loop VEC_FUEL 0 n body) Q s.
Proof.
  intros Hn Hf H0 Hb HQ.
  enough (forall fuel i s, 0 <= i <= n -> n - i < Z.of_nat fuel -> I i s -> wpp P (vec_loop fuel i n body) Q s) as Hloop
    by (apply Hloop; [lia..|done]).
  clear s H0 Hf. intros fuel. induction fuel as [|fuel IH]; intros i s Hi Hf HI; [lia|]. simpl.
  destruct (Z.ltb_spec i n).
  - apply wpp_bind. eapply wpp_conseq; [by apply Hb; [lia|]|]. intros [x|] s' Hr; [by apply wpp_ret|].
    apply IH; [lia..|done].
  - apply wpp_ret, HQ. by replace n with i by lia.
Qed.
End rules.

(** ** SYS_DEVIO *)

(** The answer is OK exactly when the access is allowed, aligned and of a known type; then
    there is one access, at that port, and no access otherwise. *)
Definition devio_done `{Ports} (m : message) (s : dstate) (r : Z) (m' : message) (s' : dstate) : Prop :=
  let io_type := Z.land (DIO_REQUEST m) _DIO_TYPEMASK in
  let size := dio_size io_type in
  let port := u16 (DIO_PORT m) in
  (r = OK <-> may_access (d_k s) size port /\ Z.land (DIO_PORT m) (size - 1) = 0 /\ dio_known io_type = true) /\
  (~ may_access (d_k s) size port -> r = EPERM) /\
  (r <> OK -> s' = s /\ m' = m) /\
  (r = OK ->
     if Z.land (DIO_REQUEST m) _DIO_DIRMASK =? _DIO_INPUT then
       let l := PIn size port :: ports s in
       s' = set_ports l s /\ m' = set_m2_l2 (i32 (port_value l mod 2 ^ (8 * size))) m
     else s' = set_ports (POut size port (DIO_VALUE m mod 2 ^ (8 * size)) :: ports s) s /\ m' = m).

(** Whether the caller may access the port; [true] when it is not checked. *)
Lemma access_checked P (checked : option Z) size port s (Q : bool -> dstate -> Prop) :
  checked_ok (d_k s) checked ->
  (forall b : bool, (b = true <-> may_access (d_k s) size port) -> Q b s) ->
  wpp P (match checked with None => ret true | Some pr => kern (io_allowed pr port (port + size - 1)) end) Q s.
Proof.
  intros Hc HQ. destruct checked as [pr|]; [|by apply wpp_ret, HQ]. destruct Hc as (_ & Hp & Hn & Hm).
  eapply wpp_kern_pure; [by apply io_allowed_exact|]. intros b Hb. apply HQ. by rewrite Hm.
Qed.

Lemma devio_wp `{Ports} P m s :
  dio_wf (d_k s) -> wpp P (do_devio m) (fun r s' => devio_done m s (fst r) (snd r) s') s.
Proof.
  intros Hwf. unfold do_devio, devio_done.
  set (ty := Z.land (DIO_REQUEST m) _DIO_TYPEMASK). set (size := dio_size ty). set (port := u16 (DIO_PORT m)).
  apply wpp_bind. eapply wpp_kern_pure; [by apply checked_priv_exact|]. intros o Ho.
  apply wpp_bind, access_checked; [done|]. intros [] Hb; cbn [negb].
  2:{ apply wpp_ret. cbn [fst snd]. split; [|done]. split; [done|]. intros [H1 _]. by apply Hb in H1. }
  assert (Hm : may_access (d_k s) size port) by by apply Hb.
  destruct (Z.eqb_spec (Z.land (DIO_PORT m) (size - 1)) 0) as [Ha|Ha]; cbn [negb];
    [|apply wpp_ret; cbn [fst snd]; naive_solver].
  destruct (dio_known ty); cbn [negb]; [|apply wpp_ret; cbn [fst snd]; naive_solver].
  destruct (_ =? _DIO_INPUT); apply wpp_bind.
  - apply wpp_io_in. intros v ->. apply wpp_ret. cbn [fst snd]. naive_solver.
  - apply wpp_io_out, wpp_ret. cbn [fst snd]. naive_solver.
Qed.

(** ** SYS_VDEVIO *)

(** The port of pair [i] of a vector, the port an output goes to, and the access. *)
Definition pair_port (io_type : Z) (b : list Z) (i : Z) : Z := number_at (pv_size io_type * i) 2 b.
Definition out_port (io_type : Z) (b : list Z) (i : Z) : Z :=
  if io_type =? _DIO_LONG then number_at (4 * i) 2 b else pair_port io_type b i.
Definition pair_access (io_type : Z) (input : bool) (b : list Z) (i : Z) : port_event :=
  let size := dio_size io_type in
  if input then PIn size (pair_port io_type b i)
  else POut size (out_port io_type b i)
         (number_at (pv_size io_type * i + pv_value io_type) (Z.to_nat size) b).

(** The accesses for the first [n] pairs, latest first. *)
Definition accesses (io_type : Z) (input : bool) (b : list Z) (n : Z) : list port_event :=
  rev (map (pair_access io_type input b) (seqZ 0 n)).

Lemma accesses_next ty input b i :
  0 <= i -> accesses ty input b (i + 1) = pair_access ty input b i :: accesses ty input b i.
Proof.
  intros Hi. unfold accesses. rewrite seqZ_app by lia. by rewrite map_app, rev_app_distr.
Qed.

Lemma u16_port off b : u16 (number_at off 2 b) = number_at off 2 b.
Proof. apply Z.mod_small. apply (number_at_range off 2 b). Qed.

Lemma value_mod off n b : number_at off n b mod 2 ^ (8 * Z.of_nat n) = number_at off n b.
Proof. apply Z.mod_small, number_at_range. Qed.

(** The types a request may have, with the layout of their pairs. *)
Definition layout (ty : Z) : Prop :=
  (ty = _DIO_LONG /\ pv_size ty = 8 /\ pv_value ty = 4 /\ dio_size ty = 4) \/
  (ty <> _DIO_LONG /\ pv_size ty = 4 /\ pv_value ty = 2 /\ (dio_size ty = 1 \/ dio_size ty = 2)).
Lemma known_layout ty : dio_known ty = true -> layout ty.
Proof.
  unfold dio_known, layout. intros [[->%Z.eqb_eq| ->%Z.eqb_eq]%orb_true_iff| ->%Z.eqb_eq]%orb_true_iff;
    vm_compute; naive_solver.
Qed.

(** Arithmetic on the offsets of a pair. *)
Ltac layout_lia Hty :=
  destruct Hty as [(_ & ?E1 & ?E2 & ?E3)|(_ & ?E1 & ?E2 & [?E3|?E3])];
  unfold VDEVIO_BUF_SIZE in *; rewrite ?E1, ?E2, ?E3 in *; lia.

Section vector.
Context `{Ports} (ty n : Z) (b0 : list Z).
Hypothesis Hty : layout ty.
Hypothesis Hn : 0 < n /\ n * pv_size ty <= VDEVIO_BUF_SIZE.

Notation unaligned := (fun w => w = "do_vdevio: unaligned port").

Lemma vec_room : n < Z.of_nat VEC_FUEL.
Proof. unfold VEC_FUEL. layout_lia Hty. Qed.

(** The permission of every pair is checked. *)
Lemma vdevio_check_wp P pr s :
  priv_slot pr -> s_nr_io_range (k_priv (d_k s) pr) <= NR_IO_RANGE -> vdevio_buf s = b0 ->
  wpp P (vdevio_check pr ty n) (fun r s' => s' = s /\ (r = None ->
    forall i, 0 <= i < n -> in_ranges (k_priv (d_k s) pr) (pair_port ty b0 i) (pair_port ty b0 i + dio_size ty - 1))) s.
Proof.
  intros Hp Hr Hb. unfold vdevio_check. pose proof vec_room as Hroom.
  apply (wpp_vec_loop _ (fun i s' => s' = s /\ forall j, 0 <= j < i ->
    in_ranges (k_priv (d_k s) pr) (pair_port ty b0 j) (pair_port ty b0 j + dio_size ty - 1)));
    [lia|done|split; [done|lia]| |naive_solver].
  intros i s' Hi [-> Hj]. apply wpp_bind, wpp_buf_get; [layout_lia Hty..|].
  rewrite Hb. fold (pair_port ty b0 i). apply wpp_bind.
  eapply wpp_kern_pure; [by apply io_allowed_exact|]. intros [] Hok; apply wpp_ret; [|done].
  split; [done|]. intros j Hj'. destruct (decide (j = i)) as [->|]; [by apply Hok|apply Hj; lia].
Qed.

(** After the accesses for the first [i] pairs: the ports of the pairs are those of the
    vector, and for output nothing in the buffer has changed. *)
Definition vec_inv (input : bool) (k : kstate) (l : list port_event) (i : Z) (s : dstate) : Prop :=
  d_k s = k /\ length (vdevio_buf s) = Z.to_nat VDEVIO_BUF_SIZE /\
  (input = false -> vdevio_buf s = b0) /\
  (forall j, 0 <= j < n -> pair_port ty (vdevio_buf s) j = pair_port ty b0 j) /\
  ports s = accesses ty input b0 i ++ l.

Lemma vdevio_one_wp input k l i s :
  0 <= i < n -> vec_inv input k l i s ->
  wpp unaligned (vdevio_one ty input i) (fun r s' => r = None /\ vec_inv input k l (i + 1) s') s.
Proof.
  intros Hi (Hk & Hl & Hout & Hp & Hports). unfold vdevio_one.
  assert (Hoff : 0 <= pv_size ty * i /\ pv_size ty * i + pv_value ty + dio_size ty <= VDEVIO_BUF_SIZE /\
    pv_size ty * i + 2 <= VDEVIO_BUF_SIZE /\ 0 < pv_value ty /\ 0 < dio_size ty <= 4 /\
    4 * i + 2 <= VDEVIO_BUF_SIZE) by layout_lia Hty.
  apply wpp_bind, wpp_buf_get; [lia..|]. fold (pair_port ty (vdevio_buf s) i). rewrite Hp by done.
  destruct (negb _); [by apply wpp_panic|]. destruct input; apply wpp_bind.
  - apply wpp_io_in. intros v _. apply wpp_bind.
    assert (Hlen : length (take (Z.to_nat (dio_size ty)) (word_bytes v)) = Z.to_nat (dio_size ty))
      by (rewrite length_take; simpl; lia).
    apply wpp_buf_put; [lia..|]. apply wpp_ret. split; [done|].
    unfold vec_inv. cbn [d_k vdevio_buf ports set_vdevio_buf set_ports].
    split_and!; [done|by rewrite stored_length by lia|done| |].
    + intros j Hj. rewrite <- (Hp j Hj). apply number_at_agree; [layout_lia Hty|].
      intros x Hx. apply stored_elsewhere; [lia..|]. rewrite Hlen.
      layout_lia Hty.
    + rewrite accesses_next by lia. rewrite Hports. cbn. unfold pair_port at 1. by rewrite u16_port.
  - specialize (Hout eq_refl). rewrite Hout in *.
    apply (wpp_conseq _ _ (fun out s' => s' = s /\ out = out_port ty b0 i)).
    { unfold out_port. destruct (ty =? _DIO_LONG); [|by apply wpp_ret].
      apply wpp_buf_get; [lia..|]. by rewrite Hout. }
    intros out s' [-> ->]. apply wpp_bind, wpp_buf_get; [lia..|].
    rewrite Hout. apply wpp_bind, wpp_io_out, wpp_ret. split; [done|].
    unfold vec_inv. cbn [d_k vdevio_buf ports set_vdevio_buf set_ports].
    split_and!; [done|by rewrite Hout|by intros _|by rewrite Hout|].
    rewrite accesses_next by lia. rewrite Hports. cbn. f_equal. f_equal.
    + unfold out_port, pair_port. by destruct (ty =? _DIO_LONG); rewrite u16_port.
    + replace (8 * dio_size ty) with (8 * Z.of_nat (Z.to_nat (dio_size ty))) by lia. apply value_mod.
Qed.

Lemma vdevio_all_wp input s :
  length (vdevio_buf s) = Z.to_nat VDEVIO_BUF_SIZE -> vdevio_buf s = b0 ->
  wpp unaligned (vec_loop VEC_FUEL 0 n (vdevio_one ty input))
    (fun _ s' => vec_inv input (d_k s) (ports s) n s') s.
Proof.
  intros Hl Hb. apply (wpp_vec_loop _ (vec_inv input (d_k s) (ports s))); [lia|apply vec_room| |
    intros i s' Hi Hv; eapply wpp_conseq; [by apply vdevio_one_wp|by intros r s'' [-> ?]]|done].
  unfold vec_inv. split_and!; [done|done|by intros _|by rewrite Hb|done].
Qed.
End vector.

Lemma user_bytes_length k e a n bs : user_bytes k e a n = Some bs -> length bs = Z.to_nat n.
Proof.
  unfold user_bytes. destruct (decide _); [|done]. destruct (_ <=? 0); [done|].
  destruct (snd _) eqn:Er; [|done]. intros [= <-]. by apply read_bytes_length.
Qed.

(** The vector decides the accesses, whatever follows it in the buffer. *)
Lemma vector_prefix ty input n bs rest :
  layout ty -> Z.of_nat (length bs) = n * pv_size ty ->
  (forall i, 0 <= i < n -> pair_port ty (bs ++ rest) i = pair_port ty bs i) /\
  accesses ty input (bs ++ rest) n = accesses ty input bs n.
Proof.
  intros Hty Hl.
  assert (Hf : forall off x, 0 <= off -> off + Z.of_nat x <= n * pv_size ty ->
    number_at off x (bs ++ rest) = number_at off x bs).
  { intros off x Ho Hx. apply number_at_agree; [done|]. intros j Hj. apply lookup_app_l. lia. }
  assert (Hp : forall i, 0 <= i < n -> pair_port ty (bs ++ rest) i = pair_port ty bs i).
  { intros i Hi. apply Hf; layout_lia Hty. }
  split; [done|]. unfold accesses. f_equal. apply map_ext_in. intros i Hi%list_elem_of_In%elem_of_seqZ.
  unfold pair_access, out_port. rewrite Hp by lia. destruct input; [done|]. f_equal.
  - destruct (ty =? _DIO_LONG); [|done]. apply Hf; layout_lia Hty.
  - apply Hf; layout_lia Hty.
Qed.

(** [lock] and [unlock] with interrupts enabled. *)
Lemma lock_unlock k :
  lock_ok k -> intr_off k = false -> lock k = Done tt (set_lock true 1 k) /\ unlock (set_lock true 1 k) = Done tt k.
Proof.
  intros [_ Hl] Hi. specialize (Hl Hi). unfold lock, unlock, bind, gets, modify. rewrite Hi, Hl. split; [done|].
  destruct k. cbn in *. by subst.
Qed.

(** What is left after a request: nothing was accessed, or the vector of the caller was,
    in order, and every pair of it names a port the caller may access. *)
Definition vdevio_done (m : message) (s : dstate) (r : Z) (s' : dstate) : Prop :=
  let io_type := Z.land (DIO_REQUEST m) _DIO_TYPEMASK in
  let input := Z.land (DIO_REQUEST m) _DIO_DIRMASK =? _DIO_INPUT in
  let n := DIO_VEC_SIZE m in
  good (d_k s) (d_k s') /\
  (r <> OK /\ ports s' = ports s \/
   exists bs, user_bytes (d_k s) (who_e (d_k s)) (u32 (DIO_VEC_ADDR m)) (n * pv_size io_type) = Some bs /\
     (forall i, 0 <= i < n -> may_access (d_k s) (dio_size io_type) (pair_port io_type bs i)) /\
     ports s' = accesses io_type input bs n ++ ports s).

(** The part after the vector has been read and its ports have been checked. *)
Lemma vdevio_perform_wp `{Ports} ty n input bytes addr m s :
  layout ty -> 0 < n -> bytes = n * pv_size ty -> bytes <= VDEVIO_BUF_SIZE ->
  ipc_inv (d_k s) -> intr_off (d_k s) = false -> length (vdevio_buf s) = Z.to_nat VDEVIO_BUF_SIZE ->
  wpp (fun w => w = "do_vdevio: unaligned port")
    (do! kern lock;
     do! vec_loop VEC_FUEL 0 n (vdevio_one ty input);
     do! kern unlock;
     if input then
       do out <- gets (fun s => take (Z.to_nat bytes) (vdevio_buf s));
       do r <- kern (data_copy_out out (who_e (d_k s)) addr false);
       ret (if negb (r =? OK) then r else OK, m)
     else ret (OK, m))
    (fun (r : Z * message) s' => good (d_k s) (d_k s') /\ ports s' = accesses ty input (vdevio_buf s) n ++ ports s) s.
Proof.
  intros Hty Hn Hb Hs Hi Hoff Hl. destruct (lock_unlock (d_k s) (ipc_lock_ok _ Hi) Hoff) as [El Eu].
  apply wpp_bind, wpp_kern. eapply wpp_done; [exact El|]. apply wpp_bind.
  eapply wpp_conseq; [apply (vdevio_all_wp ty n (vdevio_buf s)); [done|lia|done|done]|].
  intros _ s2 (Hk2 & Hl2 & _ & _ & Hp2). cbn [d_k vdevio_buf ports set_d_k] in *.
  apply wpp_bind, wpp_kern. rewrite Hk2. eapply wpp_done; [exact Eu|]. destruct input.
  - apply wpp_bind, wpp_gets, wpp_bind, wpp_kern. cbn [d_k vdevio_buf set_d_k]. apply wpp_stop.
    eapply wpx_conseq; [apply data_copy_out_good; [done| |done]|].
    + intros E%(f_equal length). rewrite length_take, Hl2 in E. cbn [length] in E.
      clear Hl2 Hp2. layout_lia Hty.
    + intros r k' G. apply wpp_ret. by split.
  - apply wpp_ret. cbn [d_k ports set_d_k]. split; [by apply good_refl|done].
Qed.

(** The permission of the vector that has been read. *)
Lemma vdevio_permission `{Ports} P checked ty n s (Q : option unit -> dstate -> Prop) :
  layout ty -> 0 < n /\ n * pv_size ty <= VDEVIO_BUF_SIZE ->
  checked_ok (d_k s) checked ->
  Q (Some tt) s ->
  ((forall i, 0 <= i < n -> may_access (d_k s) (dio_size ty) (pair_port ty (vdevio_buf s) i)) -> Q None s) ->
  wpp P (match checked with None => ret None | Some pr => vdevio_check pr ty n end) Q s.
Proof.
  intros Hty Hn Hc Hbad Hgood. destruct checked as [pr|]; [|by apply wpp_ret, Hgood]. destruct Hc as (_ & Hp & Hr & Hm).
  eapply wpp_conseq; [by apply (vdevio_check_wp ty n (vdevio_buf s))|]. intros [[]|] s' [-> Hok]; [done|].
  apply Hgood. intros i Hi. by apply Hm, Hok.
Qed.

Lemma vdevio_wp `{Ports} m s :
  ipc_inv (d_k s) -> no_answer (d_k s) -> dio_wf (d_k s) -> intr_off (d_k s) = false ->
  length (vdevio_buf s) = Z.to_nat VDEVIO_BUF_SIZE ->
  DIO_VEC_SIZE m * pv_size (Z.land (DIO_REQUEST m) _DIO_TYPEMASK) < 2 ^ 32 ->
  wpp (fun w => w = "do_vdevio: unaligned port") (do_vdevio m) (fun r s' => vdevio_done m s (fst r) s') s.
Proof.
  intros Hi Hno Hwf Hoff Hl Hsz. unfold do_vdevio, vdevio_done.
  set (ty := Z.land (DIO_REQUEST m) _DIO_TYPEMASK) in *. set (n := DIO_VEC_SIZE m) in *.
  set (input := _ =? _DIO_INPUT).
  assert (Hnone : forall r : Z, r <> OK -> good (d_k s) (d_k s) /\ (r <> OK /\ ports s = ports s \/
    exists bs, user_bytes (d_k s) (who_e (d_k s)) (u32 (DIO_VEC_ADDR m)) (n * pv_size ty) = Some bs /\
      (forall i, 0 <= i < n -> may_access (d_k s) (dio_size ty) (pair_port ty bs i)) /\
      ports s = accesses ty input bs n ++ ports s)) by (intros r Hr; split; [by apply good_refl|by left]).
  destruct (negb input && _); [by apply wpp_ret, Hnone|].
  destruct (Z.leb_spec n 0); [by apply wpp_ret, Hnone|].
  destruct (dio_known ty) eqn:Ek; [|by apply wpp_ret, Hnone]. cbn [negb]. apply known_layout in Ek as Hty.
  assert (Hb : u32 (n * pv_size ty) = n * pv_size ty) by (apply Z.mod_small; layout_lia Hty). rewrite Hb.
  destruct (Z.ltb_spec VDEVIO_BUF_SIZE (n * pv_size ty)); [by apply wpp_ret, Hnone|].
  apply wpp_bind, wpp_kern, wpp_gets, wpp_bind. destruct s as [k buf l]. cbn [d_k vdevio_buf ports set_d_k] in *.
  eapply wpp_kern_pure; [apply data_copy_in_pure; [by apply ipc_lock_ok|layout_lia Hty|apply Hwf|done|done]|].
  intros r Hr. cbn [d_k] in Hr. destruct (user_bytes _ _ _ _) as [bs|] eqn:Eu.
  2:{ rewrite (proj2 (Z.eqb_neq _ _) Hr). by apply wpp_ret, Hnone. }
  subst r. cbn [fst snd negb Z.eqb OK]. apply user_bytes_length in Eu as Hlen.
  apply wpp_bind, wpp_modify. set (s1 := mk_dstate k (bs ++ drop (Z.to_nat (n * pv_size ty)) buf) l).
  match goal with |- wpp _ _ _ ?x => change x with s1 end. apply wpp_bind.
  eapply wpp_kern_pure; [by apply (checked_priv_exact False (d_k s1))|]. intros checked Hc.
  destruct (vector_prefix ty input n bs (drop (Z.to_nat (n * pv_size ty)) buf)) as [Hpp Hacc];
    [done|rewrite Hlen; layout_lia Hty|].
  apply wpp_bind, vdevio_permission; [done|lia|done|by apply wpp_ret, Hnone|]. intros Hok.
  eapply wpp_conseq; [apply (vdevio_perform_wp ty n input _ _ m s1); try done; cbn; rewrite length_app, length_drop; lia|].
  intros [r' m'] s' [G Hports]. split; [done|]. right. exists bs. split; [done|].
  cbn [s1 vdevio_buf ports d_k] in *. rewrite <- Hacc. split; [|done].
  intros i Hi'. rewrite <- Hpp by done. by apply Hok.
Qed.

(** ** SYS_SDEVIO *)

(** [vm_set_cr3]: a process with a page directory becomes the current one. *)
Definition loaded (k : kstate) (p : Z) : kstate := if p_cr3 (k_proc k p) =? 0 then k else set_ptproc (Some p) k.

Lemma vm_set_cr3_loads E k p : lock_ok k -> slot p -> wpx E (vm_set_cr3 p) (fun _ k' => k' = loaded k p) k.
Proof.
  intros Hl Hp. unfold vm_set_cr3, loaded. apply wpx_with_intr_off; [done|]. intros k1 Hk1 _ _.
  apply wpx_bind, wpx_rd; [done|]. assert (Ec : p_cr3 (k_proc k1 p) = p_cr3 (k_proc k p)) by by destruct Hk1 as [->| ->].
  rewrite Ec. destruct (p_cr3 (k_proc k p) =? 0); cbn [negb when]; [apply wpx_ret|apply wpx_modify];
    (split; [by destruct Hk1 as [->| ->]|]); destruct k, Hk1 as [->| ->]; done.
Qed.

Lemma loaded_tables k p :
  k_proc (loaded k p) = k_proc k /\ k_priv (loaded k p) = k_priv k /\ who_p (loaded k p) = who_p k /\
  mem (loaded k p) = mem k.
Proof. unfold loaded. by destruct (_ =? 0). Qed.

(** Writing and reading in two parts. *)
Lemma write_bytes_app b1 b2 m a lin :
  b1 <> [] ->
  write_bytes (b1 ++ b2) m a lin =
    let r := write_bytes b1 m a lin in
    if snd r then write_bytes b2 (fst r) a (u32 (lin + Z.of_nat (length b1))) else r.
Proof.
  revert m lin. induction b1 as [|x b1 IH]; intros m lin Hne; [done|]. cbn [app write_bytes].
  destruct (translate m a true lin) as [ph|]; [|done]. destruct b1 as [|y b1]; [done|].
  rewrite IH by done. cbn zeta. destruct (snd _); [|done]. f_equal. cbn [length].
  unfold u32, u_wrap. rewrite Zplus_mod_idemp_l. f_equal. lia.
Qed.

Lemma read_bytes_app x y m a lin :
  (0 < x)%nat ->
  read_bytes (x + y) m a lin =
    let r := read_bytes x m a lin in
    if snd r then let r2 := read_bytes y m a (u32 (lin + Z.of_nat x)) in (fst r ++ fst r2, snd r2) else r.
Proof.
  revert lin. induction x as [|x IH]; intros lin Hx; [lia|]. cbn [Nat.add read_bytes].
  destruct (translate m a false lin) as [ph|]; [|done]. destruct x as [|x]; [done|].
  rewrite IH by lia. cbn zeta. set (r := read_bytes (S x) _ _ _). destruct r as [bs []] eqn:Er; cbn [fst snd]; [|done].
  replace (u32 (u32 (lin + 1) + Z.of_nat (S x))) with (u32 (lin + Z.of_nat (S (S x)))); [done|].
  unfold u32, u_wrap. rewrite Zplus_mod_idemp_l. f_equal. lia.
Qed.

Section strings.
Context `{Ports}.

(** [n] values read from a port after the accesses [l]: their bytes, and the accesses. *)
Fixpoint port_input (n : nat) (size port : Z) (l : list port_event) : list Z * list port_event :=
  match n with
  | O => ([], l)
  | S n' =>
      let l' := PIn size port :: l in
      let r := port_input n' size port l' in
      (take (Z.to_nat size) (word_bytes (port_value l' mod 2 ^ (8 * size))) ++ fst r, snd r)
  end.

(** The bytes [bs] written to a port, [size] at a time. *)
Fixpoint port_output (n : nat) (size port : Z) (bs : list Z) (l : list port_event) : list port_event :=
  match n with
  | O => l
  | S n' => port_output n' size port (drop (Z.to_nat size) bs) (POut size port (le_number (take (Z.to_nat size) bs)) :: l)
  end.

Lemma phys_ins_wp n size port lin s :
  0 < size <= 4 ->
  wpp (fun w => w = fault_panic) (phys_ins n size port lin) (fun _ s' =>
    let r := port_input n size (u16 port) (ports s) in
    let w := write_bytes (fst r) (mem (d_k s)) (cur_space (d_k s)) lin in
    snd w = true /\ s' = mk_dstate (set_mem (fst w) (d_k s)) (vdevio_buf s) (snd r)) s.
Proof.
  intros Hsz. revert lin s. induction n as [|n IH]; intros lin s; cbn [phys_ins port_input].
  { apply wpp_ret. split; [done|]. by destruct s as [[] ? ?]. }
  apply wpp_bind, wpp_io_in. intros v Hv. apply wpp_bind, wpp_kern, wpp_gets.
  set (bs := take _ (word_bytes v)).
  assert (Hlen : Z.of_nat (length bs) = size) by (unfold bs; rewrite length_take; simpl; lia).
  cbn [d_k vdevio_buf ports set_d_k set_ports]. destruct (snd (write_bytes bs _ _ _)) eqn:Ew; [|by apply wpp_panic].
  cbn [negb]. apply wpp_bind, wpp_kern, wpp_modify. eapply wpp_conseq; [apply IH|].
  intros _ s' [Hw ->]. cbn [d_k vdevio_buf ports set_d_k set_ports fst snd] in *. rewrite <- Hv. fold bs.
  rewrite (write_bytes_app bs) by (intros E; rewrite E in Hlen; simpl in Hlen; lia).
  cbn zeta. rewrite Ew, Hlen. split; [exact Hw|]. by destruct s as [[] ? ?].
Qed.

Lemma phys_outs_wp n size port lin s :
  0 < size <= 4 ->
  wpp (fun w => w = fault_panic) (phys_outs n size port lin) (fun _ s' =>
    let w := read_bytes (n * Z.to_nat size) (mem (d_k s)) (cur_space (d_k s)) lin in
    snd w = true /\ s' = set_ports (port_output n size (u16 port) (fst w) (ports s)) s) s.
Proof.
  intros Hsz. revert lin s. induction n as [|n IH]; intros lin s; cbn [phys_outs port_output].
  { apply wpp_ret. split; [done|]. by destruct s. }
  apply wpp_bind, wpp_kern, wpp_gets. set (r := read_bytes (Z.to_nat size) _ _ _).
  destruct (snd r) eqn:Er; [|by apply wpp_panic]. cbn [negb]. apply wpp_bind, wpp_io_out.
  apply read_bytes_length in Er as Hlen. fold r in Hlen. eapply wpp_conseq; [apply IH|].
  intros _ s' [Hw ->]. cbn [d_k vdevio_buf ports set_d_k set_ports] in *. cbn [Nat.mul].
  rewrite read_bytes_app by lia. cbn zeta. fold r. rewrite Er. rewrite Z2Nat.id by lia. cbn [fst snd].
  split; [exact Hw|]. rewrite take_app_length', drop_app_length' by done.
  replace (le_number (fst r) mod 2 ^ (8 * size)) with (le_number (fst r)); [done|].
  symmetry. apply Z.mod_small. pose proof (le_number_range (fst r)) as Hr. rewrite Hlen, Z2Nat.id in Hr by lia. done.
Qed.
End strings.

(** The buffer a request may use: through a grant, or the caller's own. *)
Definition sdevio_target (k : kstate) (m : message) (dest addr : Z) : Prop :=
  slot dest /\
  if Z.land (DIO_REQUEST m) _DIO_SAFEMASK =? _DIO_SAFE then
    may_use k MAX_INDIRECT_DEPTH (DIO_VEC_ENDPT m) (who_e k) (DIO_VEC_ADDR m) (u32 (DIO_VEC_SIZE m))
      (if Z.land (DIO_REQUEST m) _DIO_DIRMASK =? _DIO_INPUT then CPF_WRITE else CPF_READ)
      (u32 (DIO_OFFSET m)) addr (endpt k dest)
  else dest = who_p k /\ addr = u32 (DIO_VEC_ADDR m).

Lemma umap_data_wp E k p a n (Q : Z -> kstate -> Prop) :
  slot p -> Q (lin_of k p SEG_D a n) k -> wpx E (umap_local p SEG_D a n) Q k.
Proof. intros Hp HQ. unfold umap_local. cbn. apply wpx_bind, wpx_rd; [done|]. by apply wpx_ret. Qed.

Lemma sdevio_buffer_wp E k m proc_nr :
  ipc_inv k -> no_answer k -> slot proc_nr ->
  wpx E (sdevio_buffer m proc_nr) (fun r k' => k' = k /\
    match r with
    | inl e => e <> OK
    | inr (dest, lin) => exists addr, sdevio_target k m dest addr /\
        lin = lin_of k dest SEG_D addr (u32 (DIO_VEC_SIZE m)) /\ lin <> 0
    end) k.
Proof.
  intros Hi Hno Hp. unfold sdevio_buffer, sdevio_target. apply wpx_bind, wpx_gets, wpx_bind, wpx_gets.
  destruct (_ =? _DIO_SAFE).
  - apply wpx_bind. eapply wpx_conseq;
      [apply (verify_loop_wp E k MAX_INDIRECT_DEPTH); [done|done|apply u32_range|apply u32_range]|].
    intros [e|[addr owner]] k' (-> & _ & Hg); [by apply wpx_ret|].
    destruct (Hg addr owner) as [Hu _]. specialize (Hu eq_refl).
    apply wpx_bind, wpx_isokendpt; [|by apply wpx_ret]. intros d Hd _ He _.
    apply wpx_bind, umap_data_wp; [done|]. apply wpx_ret. split; [done|].
    destruct (Z.eqb_spec (lin_of k d SEG_D addr (u32 (DIO_VEC_SIZE m))) 0); [done|].
    exists addr. by rewrite He.
  - destruct (Z.eqb_spec proc_nr (who_p k)) as [->|]; cbn [negb]; [|by apply wpx_ret].
    apply wpx_bind, umap_data_wp; [done|]. apply wpx_ret. split; [done|].
    destruct (Z.eqb_spec (lin_of k (who_p k) SEG_D (u32 (DIO_VEC_ADDR m)) (u32 (DIO_VEC_SIZE m))) 0); [done|].
    by exists (u32 (DIO_VEC_ADDR m)).
Qed.

(** The ranges of the caller are ranges of ports. *)
Definition ranges_ok (k : kstate) : Prop :=
  forall pr i, p_priv (k_proc k (who_p k)) = Some pr -> 0 <= i < s_nr_io_range (k_priv k pr) ->
    0 <= fst (s_io_tab (k_priv k pr) i) /\ snd (s_io_tab (k_priv k pr) i) < 2 ^ 16.

(** The check compares words, and the sum may wrap; an aligned port that passes is a
    port the caller may access. *)
Lemma aligned_access sp port size :
  (forall i, 0 <= i < s_nr_io_range sp -> 0 <= fst (s_io_tab sp i) /\ snd (s_io_tab sp i) < 2 ^ 16) ->
  size = 1 \/ size = 2 \/ size = 4 -> Z.land port (size - 1) = 0 ->
  in_ranges sp (u32 port) (u32 (port + size - 1)) -> in_ranges sp (u16 port) (u16 port + size - 1).
Proof.
  intros Hr Hs Ha (i & Hi & H1 & H2). destruct (Hr i Hi) as [H3 H4].
  assert (Hm : port mod size = 0).
  { destruct Hs as [->|[->| ->]]; [apply Z.mod_1_r| |]; rewrite <- Ha; symmetry;
      [apply (Z.land_ones port 1)|apply (Z.land_ones port 2)]; lia. }
  assert (Hw : u32 (port + size - 1) = u32 port + size - 1).
  { unfold u32, u_wrap. clear - Hs Hm. destruct Hs as [->|[->| ->]]; Z.to_euclidean_division_equations; lia. }
  assert (Hp : u16 port = u32 port).
  { assert (0 <= u32 port < 2 ^ 16) as Hb by (pose proof (u32_range port); lia).
    clear - Hb. unfold u16, u32, u_wrap in *. Z.to_euclidean_division_equations; lia. }
  exists i. rewrite Hp. lia.
Qed.

(** What a request did: nothing to ports and memory, or the whole transfer between the
    port and the buffer, at a port the caller may access. *)
Definition sdevio_done `{Ports} (m : message) (s : dstate) (r : Z) (s' : dstate) : Prop :=
  let size := dio_size (Z.land (DIO_REQUEST m) _DIO_TYPEMASK) in
  let count := u32 (DIO_VEC_SIZE m) in
  let n := Z.to_nat (count / size) in
  let port := u16 (DIO_PORT m) in
  let k := d_k s in
  (r <> OK -> ports s' = ports s /\ mem (d_k s') = mem k) /\
  (r = OK -> may_access k size port /\ (size = 1 \/ size = 2) /\
     exists dest addr, sdevio_target k m dest addr /\
     let lin := lin_of k dest SEG_D addr count in
     lin <> 0 /\
     if Z.land (DIO_REQUEST m) _DIO_DIRMASK =? _DIO_INPUT then
       let r := port_input n size port (ports s) in
       let w := write_bytes (fst r) (mem k) (cur_space (loaded k dest)) lin in
       snd w = true /\ s' = mk_dstate (set_mem (fst w) (loaded k dest)) (vdevio_buf s) (snd r)
     else
       let w := read_bytes (n * Z.to_nat size) (mem k) (cur_space (loaded k dest)) lin in
       snd w = true /\ s' = mk_dstate (loaded k dest) (vdevio_buf s) (port_output n size port (fst w) (ports s))).

(** Whether the check of the ports passes. *)
Lemma words_checked P (checked : option Z) size port s (Q : bool -> dstate -> Prop) :
  ranges_ok (d_k s) -> size = 1 \/ size = 2 \/ size = 4 ->
  checked_ok (d_k s) checked ->
  (forall b : bool, (b = true -> Z.land port (size - 1) = 0 -> may_access (d_k s) size (u16 port)) -> Q b s) ->
  wpp P (match checked with None => ret true | Some pr => kern (io_allowed pr (u32 port) (u32 (port + size - 1))) end) Q s.
Proof.
  intros Hr Hs Hc HQ. destruct checked as [pr|]; [|by apply wpp_ret, HQ]. destruct Hc as (Hpr & Hp & Hn & Hm).
  eapply wpp_kern_pure; [by apply io_allowed_exact|]. intros b Hb. apply HQ. intros Hb' Ha. apply Hm.
  apply aligned_access; [|done|done|by apply Hb]. intros i Hi. by apply (Hr pr).
Qed.

(** The part after the buffer has been found. *)
Lemma sdevio_perform_wp `{Ports} m dest addr s :
  ipc_inv (d_k s) -> dio_wf (d_k s) -> ranges_ok (d_k s) -> sdevio_target (d_k s) m dest addr ->
  lin_of (d_k s) dest SEG_D addr (u32 (DIO_VEC_SIZE m)) <> 0 ->
  wpp (fun w => w = fault_panic)
    (do! kern (vm_set_cr3 dest);
     sdevio_transfer m (lin_of (d_k s) dest SEG_D addr (u32 (DIO_VEC_SIZE m))))
    (fun r s' => sdevio_done m s (fst r) s') s.
Proof.
  intros Hi Hwf Hr Ht Hl. unfold sdevio_done. set (size := dio_size _). set (k := d_k s) in *.
  apply wpp_bind, wpp_kern, wpp_stop.
  eapply wpx_conseq; [apply vm_set_cr3_loads; [by apply ipc_lock_ok|apply Ht]|]. intros _ k' ->.
  set (s1 := set_d_k _ s). destruct (loaded_tables k dest) as (E1 & E2 & E3 & E4).
  assert (Hma : forall size port, may_access (loaded k dest) size port -> may_access k size port)
    by (unfold may_access; by rewrite E1, E2, E3).
  assert (Hwf1 : dio_wf (d_k s1)) by (unfold dio_wf; change (d_k s1) with (loaded k dest); by rewrite E1, E2, E3).
  assert (Hr1 : ranges_ok (d_k s1)) by (unfold ranges_ok; change (d_k s1) with (loaded k dest); by rewrite E1, E2, E3).
  unfold sdevio_transfer. fold size. apply wpp_bind.
  eapply wpp_kern_pure; [by apply checked_priv_exact|]. intros checked Hc.
  assert (Hno : forall r : Z, r <> OK -> (r <> OK -> ports s1 = ports s /\ mem (d_k s1) = mem k)) by (intros; split; [done|exact E4]).
  assert (Hsz : size = 1 \/ size = 2 \/ size = 4)
    by (unfold size, dio_size; repeat case_match; tauto).
  apply wpp_bind, words_checked; [done..|]. intros [] Hok; cbn [negb]; [|apply wpp_ret; split; [by apply Hno|done]].
  destruct (Z.eqb_spec (Z.land (DIO_PORT m) (size - 1)) 0) as [Ha|]; cbn [negb]; [|apply wpp_ret; split; [by apply Hno|done]].
  assert (Hac : may_access k size (u16 (DIO_PORT m))) by by apply Hma, Hok.
  destruct (_ || _) eqn:Et; [|by repeat case_match; apply wpp_ret; (split; [by apply Hno|])].
  assert (Hs2 : size = 1 \/ size = 2).
  { unfold size, dio_size. apply orb_true_iff in Et as [-> | ->]; [by left|]. case_match; tauto. }
  destruct (_ =? _DIO_INPUT); [|destruct (_ =? _DIO_OUTPUT); [|apply wpp_ret; split; [by apply Hno|done]]].
  - apply wpp_bind. eapply wpp_conseq; [apply phys_ins_wp; lia|]. intros _ s' [Hw ->]. apply wpp_ret.
    split; [done|]. intros _. split; [done|]. split; [done|]. exists dest, addr. split; [done|]. split; [done|].
    change (d_k s1) with (loaded k dest) in *. rewrite E4 in *. done.
  - apply wpp_bind. eapply wpp_conseq; [apply phys_outs_wp; lia|]. intros _ s' [Hw ->]. apply wpp_ret.
    split; [done|]. intros _. split; [done|]. split; [done|]. exists dest, addr. split; [done|]. split; [done|].
    change (d_k s1) with (loaded k dest) in *. rewrite E4 in *. done.
Qed.

Lemma sdevio_wp `{Ports} m s :
  ipc_inv (d_k s) -> no_answer (d_k s) -> dio_wf (d_k s) -> ranges_ok (d_k s) ->
  wpp (fun w => w = fault_panic) (do_sdevio m) (fun r s' => sdevio_done m s (fst r) s') s.
Proof.
  intros Hi Hno Hwf Hr. unfold do_sdevio. apply wpp_bind, wpp_kern, wpp_gets.
  assert (Hnone : forall r, r <> OK -> sdevio_done m s r s) by (intros r Hne; by split).
  destruct s as [k buf l]. cbn [d_k set_d_k vdevio_buf ports] in *. apply wpp_bind.
  apply (wpp_conseq _ _ (fun o s' => s' = mk_dstate k buf l /\ forall d, o = Some d -> slot d)).
  { destruct (_ =? SELF); [apply wpp_ret; split; [done|]; intros d [= <-]; apply Hwf|].
    eapply wpp_kern_pure; [|intros a Ha; by split; [done|exact Ha]].
    apply wpx_isokendpt; [|done]. intros d Hd _ _ _. split; [done|]. by intros d' [= <-]. }
  intros [d|] s' [-> Hd]; [|by apply wpp_ret, Hnone]. specialize (Hd d eq_refl).
  destruct (iskerneln d); [by apply wpp_ret, Hnone|]. apply wpp_bind.
  eapply wpp_kern_pure; [by apply sdevio_buffer_wp|]. intros [e|[dest lin]]; [intros He; by apply wpp_ret, Hnone|].
  intros (addr & Ht & -> & Hl). by apply sdevio_perform_wp.
Qed.

(** When the access of a pair goes to the port the pair names, it is an allowed one. *)
Lemma vdevio_allowed m s r s' :
  vdevio_done m s r s' ->
  Z.land (DIO_REQUEST m) _DIO_TYPEMASK <> _DIO_LONG \/ Z.land (DIO_REQUEST m) _DIO_DIRMASK = _DIO_INPUT ->
  exists l, ports s' = l ++ ports s /\ Forall (fun e => may_access (d_k s) (ev_size e) (ev_port e)) l.
Proof.
  intros [_ Hd] Hl. destruct Hd as [[_ Hp]|(bs & _ & Hm & Hp)]; [by exists []|]. eexists. split; [exact Hp|].
  unfold accesses. apply Forall_rev, Forall_map, Forall_forall. intros i Hi%elem_of_seqZ. cbn.
  unfold pair_access. destruct (Z.eqb_spec (Z.land (DIO_REQUEST m) _DIO_DIRMASK) _DIO_INPUT); cbn [ev_size ev_port].
  - apply Hm. lia.
  - destruct Hl as [Hl|]; [|done]. unfold out_port. rewrite (proj2 (Z.eqb_neq _ _) Hl). apply Hm. lia.
Qed.
