(* ===== verification/DevIoThms.v ===== *)
(** * What device input and output guarantee

    The properties of SYS_DEVIO, SYS_VDEVIO and SYS_SDEVIO, instantiated on the state of
    Demo.v with a driver that has one range of ports. *)
From S2P Require Import Prelude PList KMonad Timers Types KState Memory Sched SchedInv Notify Copy Ipc.
From S2P Require Import IpcInv IpcSafe CopySafe KCalls Grants PrivCtl GrantSafe Check Demo DevIo DevIoSafe.

(** ** A driver with the ports 0x3f0 .. 0x3ff *)

#[local] Instance demo_ports : Ports := {| port_value l := 0x1200 + Z.of_nat (length l) |}.

(** Its vector, at 4096 of its data segment. *)
Definition demo_io (vector : list Z) : dstate :=
  mk_dstate
    (set_mem (fst (write_bytes vector (fun _ => 0) Phys (1048576 + 4096)))
      (upd_priv (static_priv_id PM_PROC_NR) (fun sp =>
         set_s_flags (Z.lor (s_flags sp) CHECK_IO_PORT)
           (set_s_nr_io_range 1 (set_s_io_tab (fun _ => (0x3f0, 0x3ff)) sp))) demo))
    (repeat 0 (Z.to_nat VDEVIO_BUF_SIZE)) [].

Lemma demo_io_ipc vector : ipc_inv (d_k (demo_io vector)).
Proof. apply good_set_mem. apply (good_upd_priv _ _ demo); [apply demo_ipc|by split]. Qed.

Lemma demo_io_answer vector : no_answer (d_k (demo_io vector)).
Proof. intros H. discriminate H. Qed.

Lemma demo_io_wf vector : dio_wf (d_k (demo_io vector)).
Proof. split; [done|]. intros pr [= <-]. split; done. Qed.

Lemma demo_io_ranges vector : ranges_ok (d_k (demo_io vector)).
Proof. intros pr i [= <-] _. split; vm_compute; congruence. Qed.

(** The request: direction and type, number of pairs, and the vector. *)
Definition io_request (request n : Z) : message :=
  set_m_w2 request (set_m_w4 n (set_m_w5 4096 null_message)).

(** ** SYS_DEVIO *)


(** Reading the word at 0x3f2. *)
Definition word_request : message := set_m2_l1 0x3f2 (io_request (Z.lor _DIO_INPUT _DIO_WORD) 0).

Example devio_word :
  match do_devio word_request (demo_io []) with
  | Done (r, m') s' => r = OK /\ DIO_VALUE m' = 0x1201 /\ ports s' = [PIn 2 0x3f2]
  | _ => False
  end /\
  match do_devio (set_m2_l1 0x400 word_request) (demo_io []) with
  | Done (r, _) s' => r = EPERM /\ ports s' = []
  | _ => False
  end.
Proof. vm_compute. done. Qed.

(** ** SYS_VDEVIO *)

(** C6: a request for a vector of accesses returns, or stops the kernel because of an
    unaligned port, and keeps the kernel's invariants.  Either no port is touched, or the
    device sees the accesses of the caller's vector, one per pair and in its order, and the
    caller may access the port every pair names.  With one exception, the output of longs,
    the port of every access is then one the caller may access.  The size of the vector in
    bytes must not exceed 32 bits. *)
Theorem vdevio_confined `{Ports} m s :
  ipc_inv (d_k s) -> no_answer (d_k s) -> dio_wf (d_k s) -> intr_off (d_k s) = false ->
  length (vdevio_buf s) = Z.to_nat VDEVIO_BUF_SIZE ->
  DIO_VEC_SIZE m * pv_size (Z.land (DIO_REQUEST m) _DIO_TYPEMASK) < 2 ^ 32 ->
  do_vdevio m s = Panic "do_vdevio: unaligned port" \/
  exists r m' s', do_vdevio m s = Done (r, m') s' /\ vdevio_done m s r s' /\
    (Z.land (DIO_REQUEST m) _DIO_TYPEMASK <> _DIO_LONG \/ Z.land (DIO_REQUEST m) _DIO_DIRMASK = _DIO_INPUT ->
     exists l, ports s' = l ++ ports s /\ Forall (fun e => may_access (d_k s) (ev_size e) (ev_port e)) l).
Proof.
  intros Hi Hno Hwf Hoff Hl Hsz.
  destruct (wpp_outcome _ _ _ _ (vdevio_wp m s Hi Hno Hwf Hoff Hl Hsz)) as [([r m'] & s' & Hr & Hd)|(w & Hw & ->)];
    [right|by left].
  exists r, m', s'. split; [done|]. split; [done|]. by apply (vdevio_allowed m s r s').
Qed.

(** Two bytes to 0x3f0 and 0x3f7. *)
Definition byte_vector : list Z := [0xf0; 3; 0x11; 0; 0xf7; 3; 0x22; 0].
Definition byte_request : message := io_request (Z.lor _DIO_OUTPUT _DIO_BYTE) 2.
Lemma vdevio_confined_witness :
  do_vdevio byte_request (demo_io byte_vector) = Panic "do_vdevio: unaligned port" \/
  exists r m' s', do_vdevio byte_request (demo_io byte_vector) = Done (r, m') s' /\
    vdevio_done byte_request (demo_io byte_vector) r s' /\
    (Z.land (DIO_REQUEST byte_request) _DIO_TYPEMASK <> _DIO_LONG \/
       Z.land (DIO_REQUEST byte_request) _DIO_DIRMASK = _DIO_INPUT ->
     exists l, ports s' = l ++ ports (demo_io byte_vector) /\
       Forall (fun e => may_access (d_k (demo_io byte_vector)) (ev_size e) (ev_port e)) l).
Proof.
  apply (vdevio_confined (H := demo_ports));
    [apply demo_io_ipc|apply demo_io_answer|apply demo_io_wf|done|done|done].
Defined.

Definition vdevio_trace (m : message) (vector : list Z) : option (Z * list port_event) :=
  match do_vdevio m (demo_io vector) with Done (r, _) s' => Some (r, rev (ports s')) | _ => None end.

Example vdevio_bytes :
  vdevio_trace byte_request byte_vector = Some (OK, [POut 1 0x3f0 0x11; POut 1 0x3f7 0x22]) /\
  vdevio_trace byte_request [0xf0; 3; 0x11; 0; 0xf7; 2; 0x22; 0] = Some (EPERM, []) /\
  vdevio_trace (io_request (Z.lor _DIO_INPUT _DIO_WORD) 1) [0xf2; 3; 0; 0] = Some (OK, [PIn 2 0x3f2]).
Proof. vm_compute. done. Qed.



(** The number of bytes is computed in 32 bits.  For 2^29 + 1 longs it is 8, and the
    request is accepted; the pairs after the first are what an earlier request left in the
    buffer.  A driver that has read 8 longs then makes the kernel run past the end of its
    buffer, although it names only ports it may access. *)
Theorem vdevio_overruns :
  let input := Z.lor _DIO_INPUT _DIO_LONG in
  match do_vdevio (io_request input 8) (demo_io (concat (repeat [0xf0; 3; 0; 0; 0; 0; 0; 0] 8))) with
  | Done (r, _) s' => r = OK /\ do_vdevio (io_request input (2 ^ 29 + 1)) s' = Stuck BadIndex
  | _ => False
  end.
Proof. vm_compute. done. Qed.

(** ** SYS_SDEVIO *)

(** C18: a request for a string of accesses returns, or stops the kernel with a page fault.
    When it fails, no port is touched and memory is unchanged.  When it succeeds the
    caller may access the port, the buffer is its own or one a grant lets it use in that
    direction, and the whole of it, [size] bytes at a time, has gone from the port to
    memory or from memory to the port; nothing else in memory has changed. *)
Theorem sdevio_exact `{Ports} m s :
  ipc_inv (d_k s) -> no_answer (d_k s) -> dio_wf (d_k s) -> ranges_ok (d_k s) ->
  do_sdevio m s = Panic fault_panic \/
  exists r m' s', do_sdevio m s = Done (r, m') s' /\ sdevio_done m s r s'.
Proof.
  intros Hi Hno Hwf Hr.
  destruct (wpp_outcome _ _ _ _ (sdevio_wp m s Hi Hno Hwf Hr)) as [([r m'] & s' & Hd & Hs)|(w & Hw & ->)]; [right|by left].
  by exists r, m', s'.
Qed.

(** Four bytes of the driver's own memory to port 0x3f4. *)
Definition string_request : message :=
  set_m2_l1 0x3f4 (set_m_w1 SELF (io_request (Z.lor _DIO_OUTPUT _DIO_WORD) 4)).
Lemma sdevio_exact_witness :
  do_sdevio string_request (demo_io [1; 2; 3; 4]) = Panic fault_panic \/
  exists r m' s', do_sdevio string_request (demo_io [1; 2; 3; 4]) = Done (r, m') s' /\
    sdevio_done string_request (demo_io [1; 2; 3; 4]) r s'.
Proof.
  apply (sdevio_exact (H := demo_ports)); [apply demo_io_ipc|apply demo_io_answer|apply demo_io_wf|apply demo_io_ranges].
Defined.

Example sdevio_words :
  match do_sdevio string_request (demo_io [1; 2; 3; 4]) with
  | Done (r, _) s' => r = OK /\ rev (ports s') = [POut 2 0x3f4 0x0201; POut 2 0x3f4 0x0403]
  | _ => False
  end.
Proof. vm_compute. done. Qed.
