(* ===== verification/Boot.v ===== *)
(** * Boot (kernel/start.c, kernel/main.c, kernel/table.c, lib/ansi/strtol.c)

    What [cstart] takes from the parameters of the boot monitor, and [main]: it clears the
    tables, gives every process of the boot image its slot, its privileges and its memory
    map, and lets the ones that may run now become ready.  The processor's own set-up
    ([prot_init], [intr_init], the floating point unit), the guard words of the task
    stacks and the text of messages are left out. *)
From S2P Require Import Prelude PList KMonad Timers Types KState Memory Sched SchedInv Notify Copy.
From S2P Require Import Ipc Clock Interrupt System KCalls Grants PrivCtl SysTask.

(** ** Process numbers (include/minix/com.h) *)

Definition MEM_PROC_NR : Z := 3.
Definition LOG_PROC_NR : Z := 4.
Definition DS_PROC_NR : Z := 6.
Definition MFS_PROC_NR : Z := 7.
Definition PFS_PROC_NR : Z := 9.

(** ** The parameters of the boot monitor

    A pointer into the buffer is the list of the bytes from there on. *)

(** [for (namep = name; *namep != 0 && *namep == *envp; namep++, envp++)] *)
Fixpoint match_name (name envp : list Z) : list Z * list Z :=
  match name, envp with
  | n :: name', e :: envp' => if n =? e then match_name name' envp' else (name, envp)
  | _, _ => (name, envp)
  end.

(** [while ( *envp++ != 0)]; [None] is a read past the end of the buffer. *)
Fixpoint skip_string (envp : list Z) : option (list Z) :=
  match envp with
  | [] => None
  | e :: envp' => if e =? 0 then Some envp' else skip_string envp'
  end.

(** The value of [name]: [Some None] is the null pointer. *)
Fixpoint get_value_from (fuel : nat) (name envp : list Z) : option (option (list Z)) :=
  match fuel with
  | O => None
  | S fuel' =>
      match envp with
      | [] => None
      | e :: _ =>
          if e =? 0 then Some None
          else
            match match_name name envp with
            | ([], c :: value) =>
                if c =? 61 then Some (Some value)
                else match skip_string (c :: value) with
                     | Some envp' => get_value_from fuel' name envp'
                     | None => None
                     end
            | (_, rest) =>
                match skip_string rest with
                | Some envp' => get_value_from fuel' name envp'
                | None => None
                end
            end
      end
  end.

Definition get_value (params name : list Z) : option (option (list Z)) :=
  get_value_from (S (length params)) name params.

(** [atoi], that is [strtol] with base 10: an overflow gives the nearest long. *)
Definition isspace (c : Z) : bool := (c =? 32) || ((9 <=? c) && (c <=? 13)).

Fixpoint skip_spaces (s : list Z) : list Z :=
  match s with
  | c :: s' => if isspace c then skip_spaces s' else s
  | [] => []
  end.

Fixpoint digits (val : Z) (s : list Z) : Z :=
  match s with
  | c :: s' => if (48 <=? c) && (c <=? 57) then digits (val * 10 + (c - 48)) s' else val
  | [] => val
  end.

Definition atoi (s : list Z) : Z :=
  match skip_spaces s with
  | c :: s' =>
      let val := digits 0 (if (c =? 45) || (c =? 43) then s' else c :: s') in
      if c =? 45 then Z.max (- 2 ^ 31) (- val) else Z.min (2 ^ 31 - 1) val
  | [] => 0
  end.

(** ** Messages of the kernel *)

(** [kputc(END_OF_KMESS)], which ends every [kprintf]. *)
Definition kputc_end (do_serial_debug : bool) : K unit :=
  do panicing <- gets minix_panicing;
  if negb (panicing =? 0) || do_serial_debug then ret tt
  else for_each [TTY_PROC_NR; LOG_PROC_NR] (fun p =>
    if isokprocn p then
      do empty <- isemptyp p;
      if empty then ret tt else send_sig p SIGKMESS
    else ret tt).

(** ** [cstart] *)

Definition DEFAULT_HZ : Z := 60.

(** What [get_value] gives for the three names, each as a number. *)
Record boot_params := mk_boot_params { par_hz : option Z; par_serial : option Z; par_scheduler : option Z }.

(** The bytes of "hz", [SERVARNAME] "cttyline" and "scheduler". *)
Definition name_hz : list Z := [104; 122].
Definition SERVARNAME : list Z := [99; 116; 116; 121; 108; 105; 110; 101].
Definition name_scheduler : list Z := [115; 99; 104; 101; 100; 117; 108; 101; 114].

Definition read_params (params : list Z) : option boot_params :=
  match get_value params name_hz, get_value params SERVARNAME, get_value params name_scheduler with
  | Some hz, Some serial, Some scheduler =>
      Some (mk_boot_params (option_map atoi hz) (option_map atoi serial) (option_map atoi scheduler))
  | _, _, _ => None
  end.

Definition cstart_hz (value : option Z) : Z :=
  match value with
  | None => DEFAULT_HZ
  | Some v => let hz := u32 v in if (hz <? 2) || (50000 <? hz) then DEFAULT_HZ else hz
  end.

Definition serial_debug (value : option Z) : bool :=
  match value with Some v => v =? 0 | None => false end.

Definition cstart (params : list Z) : K bool :=
  match read_params params with
  | None => stuck BadIndex
  | Some p =>
      do! modify (set_system_hz (cstart_hz (par_hz p)));
      let serial := serial_debug (par_serial p) in
      do! match par_scheduler p with
          | None => ret tt
          | Some tmp =>
              do! set_scheduler (if (tmp =? 0) || (tmp =? 1) || (tmp =? 2) then tmp else 0);
              kputc_end serial
          end;
      ret serial
  end.

(** ** The boot image (table.c) *)

Record image_entry := mk_image_entry {
  im_proc_nr : Z; im_flags : Z; im_quantum : Z; im_priority : Z; im_stksize : Z; im_name : string }.

Definition PROC_FULLVM : Z := 0x100.
Definition SMALL_STACK : Z := 1024 * 4.

Definition image : list image_entry := [
  mk_image_entry IDLE 0 0 0 SMALL_STACK "idle";
  mk_image_entry CLOCK 0 8 TASK_Q SMALL_STACK "clock";
  mk_image_entry SYSTEM 0 8 TASK_Q SMALL_STACK "system";
  mk_image_entry HARDWARE 0 8 TASK_Q 0 "kernel";
  mk_image_entry PM_PROC_NR 0 32 4 0 "pm";
  mk_image_entry VFS_PROC_NR 0 32 5 0 "vfs";
  mk_image_entry RS_PROC_NR 0 4 4 0 "rs";
  mk_image_entry MEM_PROC_NR PROC_FULLVM 4 3 0 "memory";
  mk_image_entry LOG_PROC_NR PROC_FULLVM 4 2 0 "log";
  mk_image_entry TTY_PROC_NR PROC_FULLVM 4 1 0 "tty";
  mk_image_entry DS_PROC_NR PROC_FULLVM 4 4 0 "ds";
  mk_image_entry MFS_PROC_NR PROC_FULLVM 32 5 0 "mfs";
  mk_image_entry VM_PROC_NR 0 32 2 0 "vm";
  mk_image_entry PFS_PROC_NR PROC_FULLVM 32 5 0 "pfs";
  mk_image_entry INIT_PROC_NR PROC_FULLVM 8 USER_Q 0 "init"].

(** ** [main] *)

Definition IDL_F : Z := Z.lor SYS_PROC BILLABLE.
Definition TSK_F : Z := SYS_PROC.
Definition RSYS_F : Z := Z.lor SYS_PROC PREEMPTIBLE.
Definition CSK_T : Z := Z.shiftl 1 RECEIVE.
Definition TSK_T : Z := 0.
Definition RSYS_T : Z := -1.
Definition TSK_M : Z := 0.
Definition RSYS_M : Z := -1.
Definition NO_C : Z := 0.
Definition ALL_C : Z := 1.
Definition SYS_CALL_MASK_SIZE : Z := (NR_SYS_CALLS + 15) / 16.
Definition INIT_PSW : Z := 0x0200.
Definition INIT_TASK_PSW : Z := 0x1200.

(** Clearing the two tables. *)
Definition clear_tables : K unit :=
  do! for_each all_slots (fun i =>
    wr i (fun rp => set_p_endpoint (_ENDPOINT 0 i) (set_p_nr i (set_p_rts_flags RTS_SLOT_FREE rp))));
  for_each all_privs (fun i => wrp i (fun sp => set_s_id i (set_s_proc_nr NONE sp))).

(** The privileges of a process that may run at once: a kernel task or RS. *)
Definition boot_privs (proc_nr : Z) : K unit :=
  do _ <- get_priv proc_nr (static_priv_id proc_nr);
  do pr <- priv_of proc_nr;
  let task := iskerneln proc_nr in
  do! wrp pr (set_s_flags (if task then if proc_nr =? IDLE then IDL_F else TSK_F else RSYS_F));
  do! wrp pr (set_s_trap_mask (if task then if (proc_nr =? CLOCK) || (proc_nr =? SYSTEM) then CSK_T else TSK_T
                               else RSYS_T));
  do! fill_targets proc_nr (if task then TSK_M else RSYS_M);
  let kcalls := if task then NO_C else ALL_C in
  for_each (seqZ 0 SYS_CALL_MASK_SIZE) (fun j =>
    wrp pr (fun sp => set_s_k_call_mask (<[j := if kcalls =? NO_C then 0 else 0xFFFF]> (s_k_call_mask sp)) sp)).

(** The fields of [struct exec] that [main] uses, and the header at an address. *)
Record exec := mk_exec { a_flags : Z; a_text : Z; a_data : Z; a_bss : Z; a_total : Z; a_syms : Z }.
Definition A_MINHDR : Z := 32.
Definition A_SEP : Z := 0x20.

Definition exec_at (m : memory) (base : Z) : exec :=
  let word o := bytes_word (m (base + o)) (m (base + o + 1)) (m (base + o + 2)) (m (base + o + 3)) in
  mk_exec (m (base + 2)) (word 8) (word 12) (word 16) (word 24) (word 28).

(** [CLICK_CEIL(n) >> CLICK_SHIFT]. *)
Definition clicks (n : Z) : Z := u32 (u32 n + 4096 - 1) / 4096.

(** The memory map of a process: text, data and stack. *)
Definition boot_maps (e : exec) (rp : proc) : proc :=
  let text_base := u32 (Z.shiftr (a_syms e) CLICK_SHIFT) in
  let sep := flag_any (a_flags e) A_SEP in
  let text_clicks := if sep then clicks (a_text e) else 0 in
  let data_clicks := if sep then clicks (a_data e + a_bss e) else clicks (a_text e + a_data e + a_bss e) in
  let st_clicks := clicks (a_total e) in
  set_p_map_S (mk_mem_map st_clicks (u32 (text_base + text_clicks + st_clicks)) 0)
    (set_p_map_D (mk_mem_map (mem_vir (p_map_D rp)) (u32 (text_base + text_clicks)) data_clicks)
      (set_p_map_T (mk_mem_map (mem_vir (p_map_T rp)) text_base text_clicks) rp)).

Section main.
(** The addresses of the array of headers, of the stacks of the tasks and of the function
    of a task: the boot loader and the linker choose them. *)
Context (aout t_stack : Z) (initial_pc : Z -> Z).

(** Entry [i] of the image; [ktsb] is the end of the stack given out last. *)
Definition boot_one (ktsb i : Z) (ip : image_entry) : K Z :=
  let rp := im_proc_nr ip in
  do! wr rp (set_p_max_priority (im_priority ip));
  do! upd_timer (TDeadline rp) (set_tmr_exp_time 0);
  do! wr rp (fun p => set_p_name (im_name ip) (set_p_ticks_left (im_quantum ip)
              (set_p_quantum_size (im_quantum ip) (set_p_priority (im_priority ip) p))));
  let proc_nr := rp in
  let schedulable_proc := iskerneln proc_nr || (proc_nr =? RS_PROC_NR) in
  do! (if schedulable_proc then boot_privs rp else RTS_SET rp RTS_NO_PRIV);
  let ktsb' := if iskerneln proc_nr then ktsb + im_stksize ip else ktsb in
  do! when (iskerneln proc_nr) (wr rp (set_p_sp ktsb'));
  let hdrindex := if iskerneln proc_nr then 0 else 1 + i - NR_TASKS in
  do e_hdr <- gets (fun s => exec_at (mem s) (aout + hdrindex * A_MINHDR));
  do! wr rp (boot_maps e_hdr);
  do! wr rp (fun p => set_p_psw (if iskerneln proc_nr then INIT_TASK_PSW else INIT_PSW)
              (set_p_pc (initial_pc rp) p));
  do! when (negb (iskerneln proc_nr)) (wr rp (fun p =>
    set_p_sp (u32 (u32 (Z.shiftl (mem_vir (p_map_S p) + mem_len (p_map_S p)) CLICK_SHIFT) - 4)) p));
  do cur <- gets proc_ptr;
  do! when (bool_decide (cur = None)) (modify (set_proc_ptr (Some rp)));
  do! when (flag_any (im_flags ip) PROC_FULLVM) (RTS_SET rp RTS_VMINHIBIT);
  do! when (rp =? HARDWARE) (RTS_SET rp RTS_PROC_STOP);
  do! when (rp =? IDLE) (RTS_SET rp RTS_PROC_STOP);
  do! RTS_UNSET rp RTS_SLOT_FREE;
  ret ktsb'.

(** [main] up to the banner. *)
Definition boot_tables : K unit :=
  do! clear_tables;
  do! fold_each (zip (seqZ 0 (Z.of_nat (length image))) image) t_stack
        (fun ktsb x => boot_one ktsb (fst x) (snd x));
  do! modify (set_vm_running false);
  modify (set_bill_ptr (Some IDLE)).

(** [announce], [boot_cpu_init_timer] without an APIC, and the end of [main]. *)
Definition announce (do_serial_debug : bool) : K unit := kputc_end do_serial_debug.

Definition main (do_serial_debug : bool) : K unit :=
  do! boot_tables;
  do! announce do_serial_debug;
  do r <- arch_register_local_timer_handler H_bsp_timer;
  if negb (r =? 0) then panic "FATAL : failed to initialize timer interrupts" else ret tt.

(** [cstart] and [main], as the entry code calls them. *)
Definition boot (params : list Z) : K unit := do serial <- cstart params; main serial.

End main.

(** ** RS: the privileges of the boot image (servers/rs/table.c, main.c, utility.c) *)

Definition VM_F : Z := SYS_PROC.
Definition SRV_F : Z := Z.lor SYS_PROC PREEMPTIBLE.
Definition RUSR_F : Z := Z.lor BILLABLE PREEMPTIBLE.
Definition SRV_T : Z := -1.
Definition RUSR_T : Z := Z.shiftl 1 SENDREC.
Definition SRV_M : Z := -1.
Definition spi_to (n : Z) : Z := Z.shiftl 1 (static_priv_id n).
Definition RUSR_M : Z :=
  Z.lor (Z.lor (spi_to PM_PROC_NR) (spi_to VFS_PROC_NR)) (Z.lor (spi_to RS_PROC_NR) (spi_to VM_PROC_NR)).
Definition SYS_ALL_C : Z := -1.

(** The kernel calls of a process; the end mark [SYS_NULL_C] is the end of the list. *)
Definition FS_KC : list Z := [SYS_KILL; SYS_VIRCOPY; SYS_SAFECOPYFROM; SYS_SAFECOPYTO; SYS_UMAP; SYS_GETINFO; SYS_EXIT;
  SYS_TIMES; SYS_SETALARM; SYS_PRIVCTL; SYS_TRACE; SYS_SETGRANT; SYS_PROFBUF; SYS_SYSCTL; SYS_SAFEMAP; SYS_SAFEREVMAP;
  SYS_SAFEUNMAP].
Definition DRV_KC : list Z := FS_KC ++ [SYS_SEGCTL; SYS_IRQCTL; SYS_INT86; SYS_DEVIO; SYS_SDEVIO; SYS_VDEVIO; SYS_SETGRANT;
  SYS_PROFBUF; SYS_SYSCTL].
Definition tty_kc : list Z := DRV_KC ++ [SYS_PHYSCOPY; SYS_ABORT; SYS_IOPENABLE; SYS_READBIOS].
Definition mem_kc : list Z := DRV_KC ++ [SYS_PHYSCOPY; SYS_IOPENABLE].

Record boot_image_priv := mk_boot_image_priv {
  bp_endpoint : Z; bp_label : string; bp_flags : Z; bp_trap_mask : Z; bp_ipc_to : Z; bp_k_calls : list Z }.

Definition boot_image_priv_table : list boot_image_priv := [
  mk_boot_image_priv RS_PROC_NR "rs" RSYS_F RSYS_T RSYS_M [SYS_ALL_C];
  mk_boot_image_priv VM_PROC_NR "vm" VM_F SRV_T SRV_M [SYS_ALL_C];
  mk_boot_image_priv PM_PROC_NR "pm" SRV_F SRV_T SRV_M [SYS_ALL_C];
  mk_boot_image_priv VFS_PROC_NR "vfs" SRV_F SRV_T SRV_M FS_KC;
  mk_boot_image_priv DS_PROC_NR "ds" SRV_F SRV_T SRV_M [SYS_ALL_C];
  mk_boot_image_priv TTY_PROC_NR "tty" SRV_F SRV_T SRV_M tty_kc;
  mk_boot_image_priv MEM_PROC_NR "memory" SRV_F SRV_T SRV_M mem_kc;
  mk_boot_image_priv LOG_PROC_NR "log" SRV_F SRV_T SRV_M DRV_KC;
  mk_boot_image_priv MFS_PROC_NR "fs_imgrd" SRV_F SRV_T SRV_M FS_KC;
  mk_boot_image_priv PFS_PROC_NR "pfs" SRV_F SRV_T SRV_M FS_KC;
  mk_boot_image_priv INIT_PROC_NR "init" RUSR_F RUSR_T RUSR_M []].

(** [fill_call_mask]: every chunk is set, or the bits of the calls one by one. *)
Definition fill_call_mask (calls : list Z) (tot_nr_calls call_base : Z) (is_init : bool) (call_mask : bitmap) : bitmap :=
  let clear v := foldr (fun i mask => <[i := v]> mask) call_mask (seqZ 0 ((tot_nr_calls + 15) / 16)) in
  match calls with
  | [c] => if c =? SYS_ALL_C then clear 0xFFFF
           else set_sys_bit (if is_init then clear 0 else call_mask) (c - call_base)
  | _ => foldl (fun mask c => set_sys_bit mask (c - call_base)) (if is_init then clear 0 else call_mask) calls
  end.

Definition null_priv : priv :=
  mk_priv 0 0 0 0 0 0 (fun _ => 0) (fun _ => 0) (fun _ => 0) 0 0 (fun _ => mk_far_mem 0 0 0)
    0 (fun _ => (0, 0)) 0 (fun _ => (0, 0)) 0 (fun _ => 0) 0 0.

(** [rp->r_priv] of an entry, in the table of RS, which is zero at first. *)
Definition r_priv_of (e : boot_image_priv) : priv :=
  let chunks c := Z.land (Z.shiftr (bp_ipc_to e) (16 * c)) 0xFFFF in
  set_s_id (static_priv_id (_ENDPOINT_P (bp_endpoint e))) (set_s_flags (bp_flags e) (set_s_trap_mask (bp_trap_mask e)
    (set_s_ipc_to chunks (set_s_k_call_mask
      (fill_call_mask (bp_k_calls e) NR_SYS_CALLS KERNEL_CALL true (s_k_call_mask null_priv)) null_priv)))).

(** The two rounds of calls RS makes of the kernel when it starts; [r_priv_at] is where the
    structure for an entry is in its memory. *)
Definition rs_calls (sizeof_priv : Z) (bytes_priv : list Z -> priv) (r_priv_at : Z -> Z) : K unit :=
  let call m :=
    do! modify (fun s => set_who_p RS_PROC_NR (set_who_e RS_PROC_NR s));
    do r <- do_privctl sizeof_priv bytes_priv [] m;
    if negb (fst r =? OK) then panic "unable to set privilege structure" else ret tt in
  let served := filter (fun e => bp_endpoint e <> RS_PROC_NR) boot_image_priv_table in
  do! for_each served (fun e =>
    let ep := bp_endpoint e in
    call (set_m_w0 ep (set_m_w1 SYS_PRIV_SET_SYS (set_m_w5 (r_priv_at ep) null_message))));
  for_each served (fun e =>
    call (set_m_w0 (bp_endpoint e) (set_m_w1 SYS_PRIV_ALLOW null_message))).

(** ** The parameters of the boot monitor: what [get_value] and [atoi] give

    An environment written as the monitor writes it, [name=value] strings one after the
    other and an empty string at the end, and the proof that [get_value] finds the first
    value of a name in it. *)

(** Bytes of a string; bytes of a name. *)
Definition string_bytes (l : list Z) : Prop := Forall (fun c => c <> 0) l.
Definition name_bytes (l : list Z) : Prop := Forall (fun c => c <> 0 /\ c <> 61) l.

Definition env_ok (env : list (list Z * list Z)) : Prop :=
  Forall (fun kv => name_bytes (fst kv) /\ string_bytes (snd kv)) env.

(** The buffer with the environment, and what follows it. *)
Fixpoint encode_env (env : list (list Z * list Z)) (rest : list Z) : list Z :=
  match env with
  | [] => 0 :: rest
  | (k, v) :: env' => k ++ 61 :: v ++ 0 :: encode_env env' rest
  end.

Fixpoint env_value (env : list (list Z * list Z)) (name : list Z) : option (list Z) :=
  match env with
  | [] => None
  | (k, v) :: env' => if decide (k = name) then Some v else env_value env' name
  end.

(** The string a pointer points to. *)
Fixpoint c_string (l : list Z) : list Z :=
  match l with [] => [] | c :: l' => if c =? 0 then [] else c :: c_string l' end.

Lemma c_string_app v rest : string_bytes v -> c_string (v ++ 0 :: rest) = v.
Proof.
  induction 1 as [|c v Hc _ IH]; [done|]. simpl. apply Z.eqb_neq in Hc. by rewrite Hc, IH.
Qed.

Lemma skip_string_app l rest : string_bytes l -> skip_string (l ++ 0 :: rest) = Some rest.
Proof. induction 1 as [|c l Hc _ IH]; [done|]. simpl. apply Z.eqb_neq in Hc. by rewrite Hc. Qed.

Lemma name_string l : name_bytes l -> string_bytes l.
Proof. intros H. eapply Forall_impl; [exact H|]. by intros c []. Qed.

(** Comparing a name with the name of an entry [k=...]: either they are the same, or what
    is left of the entry is not the end of its name. *)
Lemma match_name_entry name k tail :
  name_bytes name -> name_bytes k ->
  (name = k /\ match_name name (k ++ 61 :: tail) = ([], 61 :: tail)) \/
  (name <> k /\ exists r k', name_bytes k' /\ match_name name (k ++ 61 :: tail) = (r, k' ++ 61 :: tail) /\
     (r = [] -> k' <> [])).
Proof.
  intros Hn Hk. revert name Hn. induction Hk as [|c k [Hc0 Hc] Hk IH]; intros name Hn; destruct name as [|n name].
  - by left.
  - right. split; [done|]. exists (n :: name), []. split; [constructor|]. inversion Hn as [|? ? [_ Hn1] _]; subst.
    simpl. apply Z.eqb_neq in Hn1. by rewrite Hn1.
  - right. split; [done|]. exists [], (c :: k). split; [by constructor|]. done.
  - inversion Hn as [|? ? _ Hn2]; subst. simpl. destruct (Z.eqb_spec n c) as [->|Hne].
    + destruct (IH name Hn2) as [[-> E]|(Hnk & r & k' & H1 & H2 & H3)]; [by left|right].
      split; [congruence|]. by exists r, k'.
    + right. split; [congruence|]. exists (n :: name), (c :: k). split; [by constructor|]. done.
Qed.

Lemma get_value_entry fuel name k v rest :
  name_bytes name -> name_bytes k -> string_bytes v ->
  get_value_from (S fuel) name (k ++ 61 :: v ++ 0 :: rest) =
    if decide (k = name) then Some (Some (v ++ 0 :: rest)) else get_value_from fuel name rest.
Proof.
  intros Hn Hk Hv. cbn [get_value_from].
  assert (exists e l, k ++ 61 :: v ++ 0 :: rest = e :: l /\ (e =? 0) = false) as (e & l & El & He).
  { destruct Hk as [|c k [Hc _] _]; simpl; eauto. exists c. eexists. split; [done|by apply Z.eqb_neq]. }
  rewrite El, He, <- El. clear e l El He.
  destruct (match_name_entry name k (v ++ 0 :: rest) Hn Hk) as [[<- ->]|(Hne & r & k' & Hk' & -> & Hr)].
  - by rewrite decide_True.
  - rewrite decide_False by congruence.
    assert (Hskip : skip_string (k' ++ 61 :: v ++ 0 :: rest) = Some rest).
    { change (k' ++ 61 :: v ++ 0 :: rest) with (k' ++ (61 :: v) ++ 0 :: rest). rewrite app_assoc.
      apply skip_string_app, Forall_app. split; [by apply name_string|by constructor]. }
    destruct r as [|n r]; [|by rewrite Hskip]. specialize (Hr eq_refl).
    destruct Hk' as [|c k' [_ Hc] _]; [done|]. cbn [app] in *. apply Z.eqb_neq in Hc. by rewrite Hc, Hskip.
Qed.

(** [get_value] gives the first value of the name. *)
Lemma get_value_env env rest name :
  env_ok env -> name_bytes name ->
  exists r, get_value (encode_env env rest) name = Some r /\ option_map c_string r = env_value env name.
Proof.
  intros He Hn. unfold get_value.
  enough (forall fuel, (length env < fuel)%nat ->
    exists r, get_value_from fuel name (encode_env env rest) = Some r /\ option_map c_string r = env_value env name) as H.
  { apply H. clear. induction env as [|[k v] env IH]; cbn [encode_env length]; [lia|].
    rewrite length_app. cbn [length]. rewrite length_app. cbn [length]. lia. }
  induction He as [|[k v] env [Hk Hv] _ IH]; intros fuel Hf; (destruct fuel as [|fuel]; [simpl in Hf; lia|]).
  - by exists None.
  - cbn [encode_env env_value]. rewrite get_value_entry by done. destruct (decide (k = name)).
    + eexists. split; [done|]. simpl. by rewrite c_string_app.
    + apply IH. simpl in Hf. lia.
Qed.

(** *** Numbers *)

Lemma digits_cstring val l : digits val l = digits val (c_string l).
Proof.
  revert val. induction l as [|c l IH]; intros val; [done|]. simpl. destruct (Z.eqb_spec c 0) as [->|]; [done|].
  simpl. destruct (_ && _); [apply IH|done].
Qed.

Lemma atoi_cstring l : atoi l = atoi (c_string l).
Proof.
  unfold atoi. induction l as [|c l IH]; [done|]. cbn [c_string]. destruct (Z.eqb_spec c 0) as [->|]; [done|].
  cbn [skip_spaces]. destruct (isspace c); [exact IH|].
  assert (E : c :: c_string l = c_string (c :: l)) by (simpl; by destruct (Z.eqb_spec c 0)).
  destruct (_ || _); [by rewrite digits_cstring|]. rewrite E. by rewrite digits_cstring.
Qed.

(** The decimal digits of a number. *)
Fixpoint decimal (fuel : nat) (n : Z) : list Z :=
  match fuel with
  | O => []
  | S fuel' => if n <? 10 then [48 + n] else decimal fuel' (n / 10) ++ [48 + n mod 10]
  end.

Lemma digits_app val l1 l2 :
  Forall (fun c => 48 <= c <= 57) l1 -> digits val (l1 ++ l2) = digits (digits val l1) l2.
Proof.
  intros H. revert val. induction H as [|c l1 Hc _ IH]; intros val; [done|]. simpl.
  rewrite (proj2 (Z.leb_le 48 c)), (proj2 (Z.leb_le c 57)) by lia. apply IH.
Qed.

Lemma decimal_digits fuel n :
  0 <= n < 10 ^ Z.of_nat fuel -> Forall (fun c => 48 <= c <= 57) (decimal fuel n) /\ digits 0 (decimal fuel n) = n.
Proof.
  revert n. induction fuel as [|fuel IH]; intros n Hn; [change (10 ^ Z.of_nat 0) with 1 in Hn; split; [constructor|simpl; lia]|].
  rewrite Nat2Z.inj_succ, Z.pow_succ_r in Hn by lia. cbn [decimal]. destruct (Z.ltb_spec n 10).
  - split; [repeat constructor; lia|]. simpl. rewrite (proj2 (Z.leb_le 48 _)), (proj2 (Z.leb_le _ 57)) by lia. simpl. lia.
  - assert (Hm : 0 <= n mod 10 < 10) by (apply Z.mod_pos_bound; lia).
    destruct (IH (n / 10)) as [H1 H2].
    { split; [apply Z.div_pos; lia|apply Z.div_lt_upper_bound; lia]. }
    split; [apply Forall_app; split; [done|repeat constructor; lia]|].
    rewrite digits_app, H2 by done. simpl. rewrite (proj2 (Z.leb_le 48 _)), (proj2 (Z.leb_le _ 57)) by lia. simpl.
    pose proof (Z.div_mod n 10). lia.
Qed.

Lemma atoi_decimal n : 0 <= n < 2 ^ 31 -> atoi (decimal 10 n) = n.
Proof.
  intros Hn. destruct (decimal_digits 10 n) as [H1 H2]; [lia|]. unfold atoi.
  destruct (decimal 10 n) as [|c l] eqn:E; [simpl in H2; subst; done|].
  inversion H1 as [|? ? Hc _]; subst.
  assert (Hs : isspace c = false) by (unfold isspace; lia). cbn [skip_spaces]. rewrite Hs.
  rewrite (proj2 (Z.eqb_neq c 45)), (proj2 (Z.eqb_neq c 43)) by lia. cbn [orb]. lia.
Qed.

(** The three parameters of [cstart]. *)
Lemma read_params_env env rest :
  env_ok env ->
  read_params (encode_env env rest) = Some (mk_boot_params (option_map atoi (env_value env name_hz))
    (option_map atoi (env_value env SERVARNAME)) (option_map atoi (env_value env name_scheduler))).
Proof.
  intros He. unfold read_params.
  assert (Hn : forall name, name_bytes name -> exists r, get_value (encode_env env rest) name = Some r /\
    option_map atoi r = option_map atoi (env_value env name)).
  { intros name Hn. destruct (get_value_env env rest name He Hn) as (r & Hr & E). exists r. split; [done|].
    rewrite <- E. destruct r as [l|]; [|done]. simpl. by rewrite atoi_cstring. }
  assert (Hb : name_bytes name_hz /\ name_bytes SERVARNAME /\ name_bytes name_scheduler)
    by (split_and!; repeat constructor; done).
  destruct Hb as (H1 & H2 & H3).
  destruct (Hn _ H1) as (r1 & -> & E1), (Hn _ H2) as (r2 & -> & E2), (Hn _ H3) as (r3 & -> & E3).
  by rewrite E1, E2, E3.
Qed.
