(* ===== verification/KernelThms.v ===== *)
(** * What the kernel guarantees as a whole

    The choice of the next process after every entry, and the composition of system
    calls, interrupts and dispatching, instantiated on the state of Demo.v. *)
From S2P Require Import Prelude PList KMonad Timers Types KState Memory TimerIface Sched SchedInv Balance.
From S2P Require Import PickProc PickSpec Notify Copy Ipc IpcInv IpcSafe CopySafe IpcCalls IpcRecv.
From S2P Require Import IpcBlock IpcTop Delivery Clock ClockSafe ClockTask Interrupt IrqInv IrqSafe.
From S2P Require Import Dispatch.
From S2P Require Import KernelInv System KCalls SysLock SysTask SysTurn Served Machine Check Demo.
From S2P Require Import SchedThms ClockThms.
From S2P Require Import SysTaskThms.

Lemma demo_untraced : untraced demo.
Proof.
  intros p Hp. apply negb_true_iff. apply (forallb_slots (fun p => negb (traced (demo_proc p)))); [|done].
  vm_compute. reflexivity.
Qed.

Lemma demo_drivers : drivers_ok demo (line_of demo).
Proof.
  intros i h Hi Hh Hg. exfalso.
  assert (Hb : forallb (fun i => forallb (fun h => h =? PIC_TIMER_HOOK) (line_of demo i))
    (seqZ 0 NR_IRQ_VECTORS) = true) by (vm_compute; reflexivity).
  pose proof (forallb_seqZ _ _ _ Hb i Hi) as H1. pose proof (forallb_elem _ _ H1 h Hh) as H2.
  apply Z.eqb_eq in H2 as ->. discriminate Hg.
Qed.

Lemma demo_kernel_ok : kernel_ok demo.
Proof.
  split; [apply demo_irq_env| |by split|done|apply demo_untraced|done].
  exists (line_of demo). split; [apply demo_irq|apply demo_drivers].
Qed.






(** SYSTEM serves PM, which sends process 11 a signal. *)
Definition demo_kill : message := set_m_type SYS_KILL (set_m2_i1 11 (set_m_w1 15 null_message)).

Lemma demo_serving_kernel : kernel_ok demo_serving.
Proof.
  apply (kernel_ok_disp demo); [split; try done; by left|apply demo_serving_ok|apply demo_kernel_ok].
Qed.

Lemma demo_kill_enabled : kernel_enabled demo_serving (Op_sys_turn demo_kill).
Proof.
  split; [apply demo_serving_ok|]. split; [done|]. split; [done|]. right. exists kill_request.
  split; [|done]. do 3 apply list_elem_of_further. apply list_elem_of_here.
Qed.


(** C26: whatever a request contains, if it is refused or its call is one of
    [served_calls] and meets the condition listed there (none for nine of them), the
    turn of SYSTEM ends without panic and keeps the invariants of the kernel.  The
    request is then kept in the caller's slot when the handler waits for VM; otherwise
    the caller, if it still waits for the answer, has received the result the handler
    computed, and if it does not, nothing is sent. *)
Theorem sys_turn_serves pf other s m :
  receives s m -> harmless s m ->
  exists s', sys_turn (call_vec pf other) m s = Done tt s' /\ turn_done (call_vec pf other) m s s'.
Proof.
  intros Hr Hh. destruct (wpx_returns _ _ _ (sys_turn_wp pf other s m Hr Hh)) as ([] & s' & H).
  by exists s'.
Qed.

Lemma sys_turn_serves_witness :
  exists s', sys_turn (call_vec demo_platform (fun _ => do_unused)) demo_kill demo_serving = Done tt s' /\
    turn_done (call_vec demo_platform (fun _ => do_unused)) demo_kill demo_serving s'.
Proof.
  apply sys_turn_serves; [split; [apply demo_serving_kernel|apply demo_serving_ok|done|done]|].
  apply demo_kill_enabled.
Defined.
