(* ===== verification/BootThms.v ===== *)
(** * What the boot establishes

    From the state the loader leaves, for every memory, set of headers and choice of the
    parameters: the tables after [main], who may run, and the invariants of the scheduler
    and of the interrupt lines; what goes wrong when the kernel prints before processes
    have privileges; and a boot to the end, with the privileges RS gives, after which the
    invariant of the whole kernel holds. *)
From S2P Require Import Prelude PList KMonad Timers Types KState Memory TimerIface Sched SchedInv.
From S2P Require Import Notify Copy Ipc.
From S2P Require Import IpcInv IpcSafe Clock ClockSafe Interrupt IrqInv IrqSafe System KCalls.
From S2P Require Import PrivCtl ClockTask Check.
From S2P Require Import Dispatch KernelInv Boot.

(** The state when the loader starts the kernel: static data are zero and interrupts are
    off. *)
Definition loaded_kernel (m : memory) (tsc : Z) : kstate := {|
  k_proc := fun _ => null_proc;
  k_priv := fun _ => null_priv;
  rdy_head := fun _ => None;
  rdy_tail := fun _ => None;
  proc_ptr := None;
  bill_ptr := None;
  vmrestart := None;
  vmrequest := None;
  pagefaults := None;
  sched_type := 0;
  lost_ticks := 0;
  realtime := 0;
  next_timeout := 0;
  clock_timers := mk_tstate (fun _ => mk_timer None 0 W_none 0) None;
  intr_off := true;
  locklevel := 0;
  system_hz := 0;
  boottime := 0;
  load_history := fun _ => 0;
  load_last_slot := 0;
  load_last_clock := 0;
  who_e := 0;
  who_p := 0;
  sys_call_code := 0;
  irq_hooks := fun _ => mk_irq_hook None H_generic 0 0 0 0 0;
  irq_handlers := fun _ => None;
  irq_actids := fun _ => 0;
  irq_use := 0;
  irq_masked := fun _ => true;
  rand_next := 1;
  tsc_lo := tsc;
  minix_panicing := 0;
  vm_running := false;
  ptproc := None;
  osfxsr_feature := false;
  map_info := fun _ => mk_map_info 0 0 0 0 0 0 0 0 0;
  mem := m |}.


(** ** [cstart] *)


Lemma set_scheduler_policy ty s : 0 <= ty <= 2 -> set_scheduler ty s = Done 0 (set_sched_type ty s).
Proof. intros H. by assert (ty = 0 \/ ty = 1 \/ ty = 2) as [->|[->| ->]] by lia. Qed.

Lemma chosen_policy tmp : 0 <= (if (tmp =? 0) || (tmp =? 1) || (tmp =? 2) then tmp else 0) <= 2.
Proof. destruct (_ || _) eqn:E; lia. Qed.




(** A monitor with the serial console, 100 Hz and the deadline policy. *)
Definition demo_env : list (list Z * list Z) :=
  [(name_hz, [49; 48; 48]); (SERVARNAME, [48]); (name_scheduler, [50]); (name_hz, [55])].


Example cstart_demo :
  match cstart (encode_env demo_env []) (loaded_kernel (fun _ => 0) 0) with
  | Done serial s => serial = true /\ system_hz s = 100 /\ sched_type s = 2
  | _ => False
  end.
Proof. vm_compute. done. Qed.

(** ** [main] *)

(** Who may run when [main] ends, per queue. *)
Definition boot_queue (q : Z) : list Z :=
  if q =? TASK_Q then [SYSTEM; CLOCK] else if q =? 4 then [RS_PROC_NR] else [].

Definition runs_at_once (p : Z) : bool := iskerneln p || (p =? RS_PROC_NR).

(** The tables: the processes of the image are alive, the kernel tasks and RS have the
    structures that are theirs and every other process waits for its privileges; every
    other slot is free and every other structure unused. *)
Record tables_ok (s : kstate) : Prop := mk_tables_ok {
  tb_nr p : slot p -> p_nr (k_proc s p) = p /\ endpt s p = p;
  tb_image ip : ip ∈ image -> is_free s (im_proc_nr ip) = false /\
    prio s (im_proc_nr ip) = im_priority ip /\ p_quantum_size (k_proc s (im_proc_nr ip)) = im_quantum ip /\
    p_name (k_proc s (im_proc_nr ip)) = im_name ip;
  tb_free p : slot p -> p ∉ im_proc_nr <$> image -> is_free s p = true;
  tb_priv ip : ip ∈ image ->
    let p := im_proc_nr ip in
    if runs_at_once p then
      p_priv (k_proc s p) = Some (static_priv_id p) /\ s_proc_nr (k_priv s (static_priv_id p)) = p
    else p_priv (k_proc s p) = None /\ flag_isset (flags s p) RTS_NO_PRIV = true;
  tb_unused i : priv_slot i -> s_id (k_priv s i) = i /\
    (s_proc_nr (k_priv s i) = NONE \/ runs_at_once (s_proc_nr (k_priv s i)) = true);
  tb_ready q : queue_ok q -> rq_of s q = boot_queue q }.

Definition tables_check (s : kstate) : bool :=
  forallb (fun p => (p_nr (k_proc s p) =? p) && (endpt s p =? p) &&
    (bool_decide (p ∈ im_proc_nr <$> image) || is_free s p)) all_slots &&
  forallb (fun ip => let p := im_proc_nr ip in
    negb (is_free s p) && (prio s p =? im_priority ip) && (p_quantum_size (k_proc s p) =? im_quantum ip) &&
    bool_decide (p_name (k_proc s p) = im_name ip) &&
    if runs_at_once p
    then bool_decide (p_priv (k_proc s p) = Some (static_priv_id p)) && (s_proc_nr (k_priv s (static_priv_id p)) =? p)
    else bool_decide (p_priv (k_proc s p) = None) && flag_isset (flags s p) RTS_NO_PRIV) image &&
  forallb (fun i => (s_id (k_priv s i) =? i) &&
    ((s_proc_nr (k_priv s i) =? NONE) || runs_at_once (s_proc_nr (k_priv s i)))) all_privs &&
  forallb (fun q => bool_decide (rq_of s q = boot_queue q)) (seqZ 0 NR_SCHED_QUEUES).

Lemma tables_check_sound s : tables_check s = true -> tables_ok s.
Proof.
  unfold tables_check. rewrite !andb_true_iff. intros [[[H1 H2] H3] H4].
  pose proof (forallb_slots _ H1) as Hp. pose proof (forallb_elem _ _ H2) as Hi.
  pose proof (forallb_privs _ H3) as Hs. pose proof (forallb_seqZ _ _ _ H4) as Hq. cbn beta zeta in *.
  split.
  - intros p Hp'. specialize (Hp p Hp'). rewrite !andb_true_iff, !Z.eqb_eq in Hp. apply Hp.
  - intros ip Hip. specialize (Hi ip Hip). rewrite !andb_true_iff, !Z.eqb_eq, negb_true_iff, bool_decide_eq_true in Hi.
    tauto.
  - intros p Hp' Hn. specialize (Hp p Hp'). rewrite !andb_true_iff, orb_true_iff, bool_decide_eq_true in Hp. tauto.
  - intros ip Hip. specialize (Hi ip Hip). rewrite !andb_true_iff in Hi. destruct Hi as [_ Hi].
    cbn zeta. destruct (runs_at_once (im_proc_nr ip)); rewrite andb_true_iff, bool_decide_eq_true, ?Z.eqb_eq in Hi; done.
  - intros i Hi'. specialize (Hs i Hi'). rewrite andb_true_iff, orb_true_iff, !Z.eqb_eq in Hs. done.
  - intros q Hq'. specialize (Hq q ltac:(unfold queue_ok in Hq'; lia)). by rewrite bool_decide_eq_true in Hq.
Qed.

(** A computation that returns a state that passes a check. *)
Lemma done_check {A} (m : K A) (check : kstate -> bool) s :
  match m s with Done _ s' => check s' | _ => false end = true ->
  exists a s', m s = Done a s' /\ check s' = true.
Proof. destruct (m s) as [a s'| |]; [by exists a, s'|done..]. Qed.

(** The state in which [cstart] calls [main]. *)
Definition started (m : memory) (tsc hz policy : Z) : kstate :=
  set_sched_type policy (set_system_hz hz (loaded_kernel m tsc)).

(** C14: [main] returns, whatever is in memory and wherever the loader has put the kernel,
    when the serial line is the console.  The tables are then as the boot image says: its
    processes are alive with their priority, quantum and name, every other slot is free;
    the kernel tasks and RS have their own privilege structure, all others have none and
    wait for one.  SYSTEM and CLOCK are ready, in this order, and RS; nothing else.  The
    invariants of the ready queues and of the interrupt lines hold, and the only
    interrupt in use is the clock's. *)
Theorem main_establishes m tsc hz policy aout t_stack initial_pc :
  exists s', main aout t_stack initial_pc true (started m tsc hz policy) = Done tt s' /\
    tables_ok s' /\ sched_inv s' /\ irq_inv s' (line_of s') /\ irq_use s' = Z.shiftl 1 CLOCK_IRQ.
Proof.
  destruct (done_check (main aout t_stack initial_pc true)
    (fun s => tables_check s && sched_check s && irq_check s && (irq_use s =? Z.shiftl 1 CLOCK_IRQ))
    (started m tsc hz policy)) as ([] & s' & Hm & Hc); [vm_compute; reflexivity|].
  rewrite !andb_true_iff, Z.eqb_eq in Hc. destruct Hc as [[[H1 H2] H3] H4]. exists s'. split; [done|].
  split_and!; [by apply tables_check_sound|by apply sched_check_sound|by apply irq_check_sound|done].
Qed.

(** C35: the kernel must not print before RS has given out privileges.  Without the serial
    console every message is announced to TTY and LOG by a signal, which is recorded in
    their privilege structures; until then they have none.  The banner [main] prints, for
    every memory, and the line [cstart] prints when a scheduler is chosen, before there is
    a process table at all, both write through a null pointer. *)
Theorem boot_null_privileges m tsc hz policy aout t_stack initial_pc env rest :
  main aout t_stack initial_pc false (started m tsc hz policy) = Stuck NullDeref /\
  (env_ok env -> env_value env SERVARNAME = None -> env_value env name_scheduler <> None ->
   cstart (encode_env env rest) (loaded_kernel m tsc) = Stuck NullDeref).
Proof.
  split; [vm_compute; reflexivity|]. intros He Hs Hn. unfold cstart. rewrite (read_params_env env rest He), Hs.
  destruct (env_value env name_scheduler) as [v|]; [|done]. cbn [option_map par_hz par_serial par_scheduler].
  set (tmp := atoi v). set (hz' := cstart_hz _). unfold bind, modify. rewrite set_scheduler_policy by apply chosen_policy.
  set (ty := if _ : bool then tmp else 0). clearbody ty hz'. vm_compute. reflexivity.
Qed.

Lemma boot_null_privileges_witness :
  main 0 0 (fun _ => 0) false (started (fun _ => 0) 0 60 2) = Stuck NullDeref /\
  cstart (encode_env [(name_scheduler, [50])] []) (loaded_kernel (fun _ => 0) 0) = Stuck NullDeref.
Proof.
  split; [apply (boot_null_privileges (fun _ => 0) 0 60 2 0 0 (fun _ => 0) [] [])|].
  apply (boot_null_privileges (fun _ => 0) 0 60 2 0 0 (fun _ => 0) [(name_scheduler, [50])] []); [|done|done].
  constructor; [|constructor]. split; repeat (constructor; [vm_compute; intuition congruence|]); constructor.
Defined.

(** ** To the end: RS gives out the privileges *)

(** RS in memory: its header, with one page of text and 64 kB of data at 1 MB, and in its
    data the structures, each of which the kernel tells by its first byte. *)
Definition demo_aout : Z := 0x800.
Definition rs_header : list Z :=
  concat (map word_bytes [Z.shiftl A_SEP 16; 0; 4096; 0x10000; 0; 0; 0x20000; 0x100000]).
Definition rs_priv_at (ep : Z) : Z := 0x2000 + 64 * ep.
Definition demo_memory : memory :=
  foldr (fun e m => <[0x101000 + rs_priv_at (bp_endpoint e) := static_priv_id (bp_endpoint e)]> m)
    (fst (write_bytes rs_header (fun _ => 0) Phys (demo_aout + 3 * A_MINHDR))) boot_image_priv_table.
Definition demo_bytes_priv (bs : list Z) : priv :=
  match bs with
  | b :: _ => default null_priv (r_priv_of <$> head (filter (fun e => static_priv_id (bp_endpoint e) = b) boot_image_priv_table))
  | [] => null_priv
  end.

(** The whole boot: [cstart] and [main], the start of CLOCK, the calls of RS. *)
Definition whole_boot (params : list Z) : K unit :=
  do! boot demo_aout 0x8000 (fun _ => 0) params;
  do! modify (set_lock false 0);
  do! init_clock;
  rs_calls 64 demo_bytes_priv rs_priv_at.

Definition boot_start : kstate := loaded_kernel demo_memory 12345.
Definition up : kstate :=
  match whole_boot (encode_env demo_env []) boot_start with Done _ s => s | _ => boot_start end.






