(* ===== verification/PmTypes.v ===== *)
(** * The process manager: its data (servers/pm)

    Constants and structures of mproc.h, const.h, glo.h and of the headers PM
    uses, the state of PM, and the rest of the system as PM sees it: what PM sends
    is recorded in [history], and the class [PmEnv] gives the answer to the latest
    message as a function of that history.  Every theorem about PM holds for every
    instance, that is for every behaviour of the kernel, VM, FS and the processes. *)
From S2P Require Import Prelude PList KMonad Timers Types Copy KCalls Signals PrivCtl SysTask.

(** ** Constants *)

(** [mp_flags] (mproc.h). *)
Definition IN_USE : Z := 0x00001.
Definition WAITING : Z := 0x00002.
Definition ZOMBIE : Z := 0x00004.
Definition PAUSED : Z := 0x00008.
Definition ALARM_ON : Z := 0x00010.
Definition EXITING : Z := 0x00020.
Definition TOLD_PARENT : Z := 0x00040.
Definition STOPPED : Z := 0x00080.
Definition SIGSUSPENDED : Z := 0x00100.
Definition REPLY : Z := 0x00200.
Definition FS_CALL : Z := 0x00400.
Definition PM_SIG_PENDING : Z := 0x00800.
Definition UNPAUSED : Z := 0x01000.
Definition PRIV_PROC : Z := 0x02000.
Definition PARTIAL_EXEC : Z := 0x04000.
Definition TRACE_EXIT : Z := 0x08000.
Definition TRACE_ZOMBIE : Z := 0x10000.
Definition DELAY_CALL : Z := 0x20000.

(** servers/pm/const.h, forkexit.c, limits.h, minix/const.h. *)
Definition NR_PIDS : Z := 30000.
Definition NO_PID : Z := 0.
Definition INIT_PID : Z := 1.
Definition NO_TRACER : Z := 0.
Definition DUMPED : Z := 0x80.
Definition NR_ITIMERS : Z := 3.
Definition LAST_FEW : Z := 2.
Definition NGROUPS_MAX : Z := 8.
Definition PROC_NAME_LEN : Z := 16.
Definition SUPER_USER : Z := 0.
Definition SUSPEND : Z := -998.

(** Error numbers PM adds. *)
Definition EINTR : Z := -4.
Definition E2BIG : Z := -7.
Definition ECHILD : Z := -10.

(** Process numbers and requests (com.h). *)
Definition FS_PROC_NR : Z := VFS_PROC_NR.
Definition PM_RQ_BASE : Z := 0x900.
Definition PM_RS_BASE : Z := 0x980.
Definition PM_INIT : Z := PM_RQ_BASE + 0.
Definition PM_SETUID : Z := PM_RQ_BASE + 1.
Definition PM_SETGID : Z := PM_RQ_BASE + 2.
Definition PM_SETSID : Z := PM_RQ_BASE + 3.
Definition PM_EXIT : Z := PM_RQ_BASE + 4.
Definition PM_DUMPCORE : Z := PM_RQ_BASE + 5.
Definition PM_EXEC : Z := PM_RQ_BASE + 6.
Definition PM_FORK : Z := PM_RQ_BASE + 7.
Definition PM_FORK_NB : Z := PM_RQ_BASE + 8.
Definition PM_UNPAUSE : Z := PM_RQ_BASE + 9.
Definition PM_REBOOT : Z := PM_RQ_BASE + 10.
Definition PM_SETGROUPS : Z := PM_RQ_BASE + 11.
Definition PM_SETUID_REPLY : Z := PM_RS_BASE + 1.
Definition PM_SETGID_REPLY : Z := PM_RS_BASE + 2.
Definition PM_SETSID_REPLY : Z := PM_RS_BASE + 3.
Definition PM_EXIT_REPLY : Z := PM_RS_BASE + 4.
Definition PM_CORE_REPLY : Z := PM_RS_BASE + 5.
Definition PM_EXEC_REPLY : Z := PM_RS_BASE + 6.
Definition PM_FORK_REPLY : Z := PM_RS_BASE + 7.
Definition PM_FORK_NB_REPLY : Z := PM_RS_BASE + 8.
Definition PM_UNPAUSE_REPLY : Z := PM_RS_BASE + 9.
Definition PM_REBOOT_REPLY : Z := PM_RS_BASE + 10.
Definition PM_SETGROUPS_REPLY : Z := PM_RS_BASE + 11.
Definition VM_RQ_BASE : Z := 0xC00.
Definition VM_EXIT : Z := VM_RQ_BASE + 0.
Definition VM_FORK : Z := VM_RQ_BASE + 1.
Definition VM_BRK : Z := VM_RQ_BASE + 2.
Definition VM_EXEC_NEWMEM : Z := VM_RQ_BASE + 3.
Definition VM_PUSH_SIG : Z := VM_RQ_BASE + 4.
Definition VM_WILLEXIT : Z := VM_RQ_BASE + 5.
Definition VM_ADDDMA : Z := VM_RQ_BASE + 12.
Definition VM_DELDMA : Z := VM_RQ_BASE + 13.
Definition VM_GETDMA : Z := VM_RQ_BASE + 14.
Definition VM_NOTIFY_SIG : Z := VM_RQ_BASE + 39.

(** Signals (signal.h). *)
Definition SIGHUP : Z := 1.
Definition SIGINT : Z := 2.
Definition SIGQUIT : Z := 3.
Definition SIGILL : Z := 4.
Definition SIGABRT : Z := 6.
Definition SIGBUS : Z := 7.
Definition SIGFPE : Z := 8.
Definition SIGSEGV : Z := 11.
Definition SIGALRM : Z := 14.
Definition SIGEMT : Z := 16.
Definition SIGCHLD : Z := 17.
Definition SIGCONT : Z := 18.
Definition SIGSTOP : Z := 19.
Definition SIGWINCH : Z := 21.
Definition SIG_DFL : Z := 0.
Definition SIG_IGN : Z := 1.
Definition SIG_MESS : Z := 4.
Definition SA_RESETHAND : Z := 0x0002.
Definition SA_NODEFER : Z := 0x0004.
Definition SIG_BLOCK : Z := 0.
Definition SIG_UNBLOCK : Z := 1.
Definition SIG_SETMASK : Z := 2.
Definition SIG_INQUIRE : Z := 4.

(** [sigdelset(&set, sig)]; [sigaddset] and [sigismember] are in Types.v. *)
Definition sigdelset (set sig : Z) : Z := Z.ldiff set (Z.shiftl 1 sig).

(** Ptrace (sys/ptrace.h) and wait (sys/wait.h). *)
Definition T_OK : Z := 0.
Definition T_EXIT : Z := 8.
Definition T_ATTACH : Z := 11.
Definition T_SETOPT : Z := 13.
Definition T_GETRANGE : Z := 14.
Definition T_SETRANGE : Z := 15.
Definition T_READB_INS : Z := 100.
Definition T_WRITEB_INS : Z := 101.
Definition TO_TRACEFORK : Z := 0x1.
Definition TO_ALTEXEC : Z := 0x2.
Definition TO_NOEXEC : Z := 0x4.
Definition TS_INS : Z := 0.
Definition TS_DATA : Z := 1.
Definition WNOHANG : Z := 1.
Definition ITIMER_REAL : Z := 0.
Definition ITIMER_VIRTUAL : Z := 1.
Definition ITIMER_PROF : Z := 2.
Definition PRIO_PROCESS : Z := 0.
Definition RBT_INVALID : Z := 5.
Definition SYSCTL_CODE_STACKTRACE : Z := 2.
Definition EXC_NM_RF_ALLOW_SETUID : Z := 2.
Definition AMF_NOREPLY : Z := 8.

(** Call numbers (callnr.h). *)
Definition NCALLS : Z := 111.
Definition EXIT : Z := 1.
Definition FORK : Z := 2.
Definition WAIT : Z := 7.
Definition WAITPID : Z := 11.
Definition MINIX_GETPID : Z := 20.
Definition SETUID : Z := 23.
Definition GETUID : Z := 24.
Definition PTRACE : Z := 26.
Definition ALARM : Z := 27.
Definition KILL : Z := 37.
Definition SETGID : Z := 46.
Definition GETGID : Z := 47.
Definition SETSID : Z := 62.
Definition GETPGRP : Z := 63.
Definition GETGROUPS : Z := 65.
Definition SETGROUPS : Z := 66.
Definition CHDEADLINE : Z := 70.
Definition GETPRIORITY : Z := 88.
Definition SETPRIORITY : Z := 89.
Definition SETEUID : Z := 91.
Definition SETEGID : Z := 92.

(** The words of a message under the names of ipc.h that Types.v does not have yet. *)
Abbreviation m1_p2 := m_w4.
Abbreviation m1_p3 := m_w5.
Abbreviation set_m1_i1 := set_m_w0.
Abbreviation set_m1_i2 := set_m_w1.
Abbreviation set_m1_i3 := set_m_w2.
Abbreviation set_m1_p1 := set_m_w3.
Abbreviation set_m1_p2 := set_m_w4.
Abbreviation set_m1_p3 := set_m_w5.
Abbreviation set_m2_i2 := set_m_w1.
Abbreviation set_m2_i3 := set_m_w2.
Abbreviation set_m2_p1 := set_m_w5.
Abbreviation set_m4_l1 := set_m_w0.
Abbreviation set_m4_l2 := set_m_w1.
Abbreviation set_m4_l3 := set_m_w2.
Abbreviation set_m4_l4 := set_m_w3.
Abbreviation set_m4_l5 := set_m_w4.

(** The fields of a reply (param.h). *)
Abbreviation set_reply_res := set_m_type.
Abbreviation set_reply_res2 := set_m2_i1.
Abbreviation set_reply_res3 := set_m2_i2.
Abbreviation set_reply_ptr := set_m2_p1.
Abbreviation set_reply_mask := set_m2_l1.
Abbreviation set_reply_trace := set_m2_l2.
Abbreviation set_reply_time := set_m2_l1.
Abbreviation set_reply_utime := set_m2_l2.

(** ** Structures *)

(** [struct sigaction] (signal.h), [struct timeval], [struct itimerval] (sys/time.h),
    [struct ptrace_range] (sys/ptrace.h), [struct exec_newmem] as PM reads it
    (minix/type.h), [struct sysgetenv] (sys/svrctl.h). *)
Record sigaction := mk_sigaction { sa_handler : Z; sa_mask : Z; sa_flags : Z }.
Record timeval := mk_timeval { tv_sec : Z; tv_usec : Z }.
Record itimerval := mk_itimerval { it_interval : timeval; it_value : timeval }.
Record ptrace_range := mk_ptrace_range { pr_space : Z; pr_addr : Z; pr_ptr : Z; pr_size : Z }.
Record exec_newmem := mk_exec_newmem {
  args_bytes : Z; new_uid : Z; new_gid : Z; progname : list Z }.
Record sysgetenv := mk_sysgetenv { key : Z; keylen : Z; val : Z; vallen : Z }.

(** [struct boot_image] (kernel/type.h), the fields PM reads. *)
Record boot_image := mk_boot_image {
  bi_proc_nr : Z; bi_priority : Z; bi_proc_name : list Z; bi_endpoint : Z }.

(** [struct mproc] (servers/pm/mproc.h).  A pointer to it is its slot number; the
    timer [mp_timer] is in the table of timers. *)
Record mproc := mk_mproc {
  mp_exitstatus : Z;  (* storage for status when process exits (char) *)
  mp_sigstatus : Z;  (* storage for signal number for killed processes (char) *)
  mp_pid : Z;
  mp_endpoint : Z;
  mp_procgrp : Z;
  mp_wpid : Z;  (* pid this process is waiting for *)
  mp_parent : Z;  (* index of parent process *)
  mp_tracer : Z;  (* index of tracer process, or NO_TRACER *)
  mp_child_utime : Z;
  mp_child_stime : Z;
  mp_realuid : Z;
  mp_effuid : Z;
  mp_realgid : Z;
  mp_effgid : Z;
  mp_ngroups : Z;
  mp_sgroups : list Z;  (* NGROUPS_MAX supplemental groups *)
  mp_ignore : Z;
  mp_catch : Z;
  mp_sig2mess : Z;
  mp_sigmask : Z;
  mp_sigmask2 : Z;
  mp_sigpending : Z;
  mp_sigtrace : Z;
  mp_sigact : Z -> sigaction;
  mp_sigreturn : Z;
  mp_interval : Z -> Z;  (* setitimer(2) repetition intervals *)
  mp_flags : Z;
  mp_trace_flags : Z;
  mp_procargs : Z;
  mp_reply : message;
  mp_nice : Z;
  mp_name : list Z  (* PROC_NAME_LEN characters *)
}.

Definition set_mp_exitstatus (v : Z) (x : mproc) : mproc :=
  mk_mproc v (mp_sigstatus x) (mp_pid x) (mp_endpoint x) (mp_procgrp x) (mp_wpid x)
    (mp_parent x) (mp_tracer x) (mp_child_utime x) (mp_child_stime x) (mp_realuid x)
    (mp_effuid x) (mp_realgid x) (mp_effgid x) (mp_ngroups x) (mp_sgroups x) (mp_ignore x)
    (mp_catch x) (mp_sig2mess x) (mp_sigmask x) (mp_sigmask2 x) (mp_sigpending x)
    (mp_sigtrace x) (mp_sigact x) (mp_sigreturn x) (mp_interval x) (mp_flags x)
    (mp_trace_flags x) (mp_procargs x) (mp_reply x) (mp_nice x) (mp_name x).
Definition set_mp_sigstatus (v : Z) (x : mproc) : mproc :=
  mk_mproc (mp_exitstatus x) v (mp_pid x) (mp_endpoint x) (mp_procgrp x) (mp_wpid x)
    (mp_parent x) (mp_tracer x) (mp_child_utime x) (mp_child_stime x) (mp_realuid x)
    (mp_effuid x) (mp_realgid x) (mp_effgid x) (mp_ngroups x) (mp_sgroups x) (mp_ignore x)
    (mp_catch x) (mp_sig2mess x) (mp_sigmask x) (mp_sigmask2 x) (mp_sigpending x)
    (mp_sigtrace x) (mp_sigact x) (mp_sigreturn x) (mp_interval x) (mp_flags x)
    (mp_trace_flags x) (mp_procargs x) (mp_reply x) (mp_nice x) (mp_name x).
Definition set_mp_pid (v : Z) (x : mproc) : mproc :=
  mk_mproc (mp_exitstatus x) (mp_sigstatus x) v (mp_endpoint x) (mp_procgrp x) (mp_wpid x)
    (mp_parent x) (mp_tracer x) (mp_child_utime x) (mp_child_stime x) (mp_realuid x)
    (mp_effuid x) (mp_realgid x) (mp_effgid x) (mp_ngroups x) (mp_sgroups x) (mp_ignore x)
    (mp_catch x) (mp_sig2mess x) (mp_sigmask x) (mp_sigmask2 x) (mp_sigpending x)
    (mp_sigtrace x) (mp_sigact x) (mp_sigreturn x) (mp_interval x) (mp_flags x)
    (mp_trace_flags x) (mp_procargs x) (mp_reply x) (mp_nice x) (mp_name x).
Definition set_mp_endpoint (v : Z) (x : mproc) : mproc :=
  mk_mproc (mp_exitstatus x) (mp_sigstatus x) (mp_pid x) v (mp_procgrp x) (mp_wpid x)
    (mp_parent x) (mp_tracer x) (mp_child_utime x) (mp_child_stime x) (mp_realuid x)
    (mp_effuid x) (mp_realgid x) (mp_effgid x) (mp_ngroups x) (mp_sgroups x) (mp_ignore x)
    (mp_catch x) (mp_sig2mess x) (mp_sigmask x) (mp_sigmask2 x) (mp_sigpending x)
    (mp_sigtrace x) (mp_sigact x) (mp_sigreturn x) (mp_interval x) (mp_flags x)
    (mp_trace_flags x) (mp_procargs x) (mp_reply x) (mp_nice x) (mp_name x).
Definition set_mp_procgrp (v : Z) (x : mproc) : mproc :=
  mk_mproc (mp_exitstatus x) (mp_sigstatus x) (mp_pid x) (mp_endpoint x) v (mp_wpid x)
    (mp_parent x) (mp_tracer x) (mp_child_utime x) (mp_child_stime x) (mp_realuid x)
    (mp_effuid x) (mp_realgid x) (mp_effgid x) (mp_ngroups x) (mp_sgroups x) (mp_ignore x)
    (mp_catch x) (mp_sig2mess x) (mp_sigmask x) (mp_sigmask2 x) (mp_sigpending x)
    (mp_sigtrace x) (mp_sigact x) (mp_sigreturn x) (mp_interval x) (mp_flags x)
    (mp_trace_flags x) (mp_procargs x) (mp_reply x) (mp_nice x) (mp_name x).
Definition set_mp_wpid (v : Z) (x : mproc) : mproc :=
  mk_mproc (mp_exitstatus x) (mp_sigstatus x) (mp_pid x) (mp_endpoint x) (mp_procgrp x) v
    (mp_parent x) (mp_tracer x) (mp_child_utime x) (mp_child_stime x) (mp_realuid x)
    (mp_effuid x) (mp_realgid x) (mp_effgid x) (mp_ngroups x) (mp_sgroups x) (mp_ignore x)
    (mp_catch x) (mp_sig2mess x) (mp_sigmask x) (mp_sigmask2 x) (mp_sigpending x)
    (mp_sigtrace x) (mp_sigact x) (mp_sigreturn x) (mp_interval x) (mp_flags x)
    (mp_trace_flags x) (mp_procargs x) (mp_reply x) (mp_nice x) (mp_name x).
Definition set_mp_parent (v : Z) (x : mproc) : mproc :=
  mk_mproc (mp_exitstatus x) (mp_sigstatus x) (mp_pid x) (mp_endpoint x) (mp_procgrp x)
    (mp_wpid x) v (mp_tracer x) (mp_child_utime x) (mp_child_stime x) (mp_realuid x)
    (mp_effuid x) (mp_realgid x) (mp_effgid x) (mp_ngroups x) (mp_sgroups x) (mp_ignore x)
    (mp_catch x) (mp_sig2mess x) (mp_sigmask x) (mp_sigmask2 x) (mp_sigpending x)
    (mp_sigtrace x) (mp_sigact x) (mp_sigreturn x) (mp_interval x) (mp_flags x)
    (mp_trace_flags x) (mp_procargs x) (mp_reply x) (mp_nice x) (mp_name x).
Definition set_mp_tracer (v : Z) (x : mproc) : mproc :=
  mk_mproc (mp_exitstatus x) (mp_sigstatus x) (mp_pid x) (mp_endpoint x) (mp_procgrp x)
    (mp_wpid x) (mp_parent x) v (mp_child_utime x) (mp_child_stime x) (mp_realuid x)
    (mp_effuid x) (mp_realgid x) (mp_effgid x) (mp_ngroups x) (mp_sgroups x) (mp_ignore x)
    (mp_catch x) (mp_sig2mess x) (mp_sigmask x) (mp_sigmask2 x) (mp_sigpending x)
    (mp_sigtrace x) (mp_sigact x) (mp_sigreturn x) (mp_interval x) (mp_flags x)
    (mp_trace_flags x) (mp_procargs x) (mp_reply x) (mp_nice x) (mp_name x).
Definition set_mp_child_utime (v : Z) (x : mproc) : mproc :=
  mk_mproc (mp_exitstatus x) (mp_sigstatus x) (mp_pid x) (mp_endpoint x) (mp_procgrp x)
    (mp_wpid x) (mp_parent x) (mp_tracer x) v (mp_child_stime x) (mp_realuid x) (mp_effuid
    x) (mp_realgid x) (mp_effgid x) (mp_ngroups x) (mp_sgroups x) (mp_ignore x) (mp_catch
    x) (mp_sig2mess x) (mp_sigmask x) (mp_sigmask2 x) (mp_sigpending x) (mp_sigtrace x)
    (mp_sigact x) (mp_sigreturn x) (mp_interval x) (mp_flags x) (mp_trace_flags x)
    (mp_procargs x) (mp_reply x) (mp_nice x) (mp_name x).
Definition set_mp_child_stime (v : Z) (x : mproc) : mproc :=
  mk_mproc (mp_exitstatus x) (mp_sigstatus x) (mp_pid x) (mp_endpoint x) (mp_procgrp x)
    (mp_wpid x) (mp_parent x) (mp_tracer x) (mp_child_utime x) v (mp_realuid x) (mp_effuid
    x) (mp_realgid x) (mp_effgid x) (mp_ngroups x) (mp_sgroups x) (mp_ignore x) (mp_catch
    x) (mp_sig2mess x) (mp_sigmask x) (mp_sigmask2 x) (mp_sigpending x) (mp_sigtrace x)
    (mp_sigact x) (mp_sigreturn x) (mp_interval x) (mp_flags x) (mp_trace_flags x)
    (mp_procargs x) (mp_reply x) (mp_nice x) (mp_name x).
Definition set_mp_realuid (v : Z) (x : mproc) : mproc :=
  mk_mproc (mp_exitstatus x) (mp_sigstatus x) (mp_pid x) (mp_endpoint x) (mp_procgrp x)
    (mp_wpid x) (mp_parent x) (mp_tracer x) (mp_child_utime x) (mp_child_stime x) v
    (mp_effuid x) (mp_realgid x) (mp_effgid x) (mp_ngroups x) (mp_sgroups x) (mp_ignore x)
    (mp_catch x) (mp_sig2mess x) (mp_sigmask x) (mp_sigmask2 x) (mp_sigpending x)
    (mp_sigtrace x) (mp_sigact x) (mp_sigreturn x) (mp_interval x) (mp_flags x)
    (mp_trace_flags x) (mp_procargs x) (mp_reply x) (mp_nice x) (mp_name x).
Definition set_mp_effuid (v : Z) (x : mproc) : mproc :=
  mk_mproc (mp_exitstatus x) (mp_sigstatus x) (mp_pid x) (mp_endpoint x) (mp_procgrp x)
    (mp_wpid x) (mp_parent x) (mp_tracer x) (mp_child_utime x) (mp_child_stime x)
    (mp_realuid x) v (mp_realgid x) (mp_effgid x) (mp_ngroups x) (mp_sgroups x) (mp_ignore
    x) (mp_catch x) (mp_sig2mess x) (mp_sigmask x) (mp_sigmask2 x) (mp_sigpending x)
    (mp_sigtrace x) (mp_sigact x) (mp_sigreturn x) (mp_interval x) (mp_flags x)
    (mp_trace_flags x) (mp_procargs x) (mp_reply x) (mp_nice x) (mp_name x).
Definition set_mp_realgid (v : Z) (x : mproc) : mproc :=
  mk_mproc (mp_exitstatus x) (mp_sigstatus x) (mp_pid x) (mp_endpoint x) (mp_procgrp x)
    (mp_wpid x) (mp_parent x) (mp_tracer x) (mp_child_utime x) (mp_child_stime x)
    (mp_realuid x) (mp_effuid x) v (mp_effgid x) (mp_ngroups x) (mp_sgroups x) (mp_ignore
    x) (mp_catch x) (mp_sig2mess x) (mp_sigmask x) (mp_sigmask2 x) (mp_sigpending x)
    (mp_sigtrace x) (mp_sigact x) (mp_sigreturn x) (mp_interval x) (mp_flags x)
    (mp_trace_flags x) (mp_procargs x) (mp_reply x) (mp_nice x) (mp_name x).
Definition set_mp_effgid (v : Z) (x : mproc) : mproc :=
  mk_mproc (mp_exitstatus x) (mp_sigstatus x) (mp_pid x) (mp_endpoint x) (mp_procgrp x)
    (mp_wpid x) (mp_parent x) (mp_tracer x) (mp_child_utime x) (mp_child_stime x)
    (mp_realuid x) (mp_effuid x) (mp_realgid x) v (mp_ngroups x) (mp_sgroups x) (mp_ignore
    x) (mp_catch x) (mp_sig2mess x) (mp_sigmask x) (mp_sigmask2 x) (mp_sigpending x)
    (mp_sigtrace x) (mp_sigact x) (mp_sigreturn x) (mp_interval x) (mp_flags x)
    (mp_trace_flags x) (mp_procargs x) (mp_reply x) (mp_nice x) (mp_name x).
Definition set_mp_ngroups (v : Z) (x : mproc) : mproc :=
  mk_mproc (mp_exitstatus x) (mp_sigstatus x) (mp_pid x) (mp_endpoint x) (mp_procgrp x)
    (mp_wpid x) (mp_parent x) (mp_tracer x) (mp_child_utime x) (mp_child_stime x)
    (mp_realuid x) (mp_effuid x) (mp_realgid x) (mp_effgid x) v (mp_sgroups x) (mp_ignore
    x) (mp_catch x) (mp_sig2mess x) (mp_sigmask x) (mp_sigmask2 x) (mp_sigpending x)
    (mp_sigtrace x) (mp_sigact x) (mp_sigreturn x) (mp_interval x) (mp_flags x)
    (mp_trace_flags x) (mp_procargs x) (mp_reply x) (mp_nice x) (mp_name x).
Definition set_mp_sgroups (v : list Z) (x : mproc) : mproc :=
  mk_mproc (mp_exitstatus x) (mp_sigstatus x) (mp_pid x) (mp_endpoint x) (mp_procgrp x)
    (mp_wpid x) (mp_parent x) (mp_tracer x) (mp_child_utime x) (mp_child_stime x)
    (mp_realuid x) (mp_effuid x) (mp_realgid x) (mp_effgid x) (mp_ngroups x) v (mp_ignore
    x) (mp_catch x) (mp_sig2mess x) (mp_sigmask x) (mp_sigmask2 x) (mp_sigpending x)
    (mp_sigtrace x) (mp_sigact x) (mp_sigreturn x) (mp_interval x) (mp_flags x)
    (mp_trace_flags x) (mp_procargs x) (mp_reply x) (mp_nice x) (mp_name x).
Definition set_mp_ignore (v : Z) (x : mproc) : mproc :=
  mk_mproc (mp_exitstatus x) (mp_sigstatus x) (mp_pid x) (mp_endpoint x) (mp_procgrp x)
    (mp_wpid x) (mp_parent x) (mp_tracer x) (mp_child_utime x) (mp_child_stime x)
    (mp_realuid x) (mp_effuid x) (mp_realgid x) (mp_effgid x) (mp_ngroups x) (mp_sgroups
    x) v (mp_catch x) (mp_sig2mess x) (mp_sigmask x) (mp_sigmask2 x) (mp_sigpending x)
    (mp_sigtrace x) (mp_sigact x) (mp_sigreturn x) (mp_interval x) (mp_flags x)
    (mp_trace_flags x) (mp_procargs x) (mp_reply x) (mp_nice x) (mp_name x).
Definition set_mp_catch (v : Z) (x : mproc) : mproc :=
  mk_mproc (mp_exitstatus x) (mp_sigstatus x) (mp_pid x) (mp_endpoint x) (mp_procgrp x)
    (mp_wpid x) (mp_parent x) (mp_tracer x) (mp_child_utime x) (mp_child_stime x)
    (mp_realuid x) (mp_effuid x) (mp_realgid x) (mp_effgid x) (mp_ngroups x) (mp_sgroups
    x) (mp_ignore x) v (mp_sig2mess x) (mp_sigmask x) (mp_sigmask2 x) (mp_sigpending x)
    (mp_sigtrace x) (mp_sigact x) (mp_sigreturn x) (mp_interval x) (mp_flags x)
    (mp_trace_flags x) (mp_procargs x) (mp_reply x) (mp_nice x) (mp_name x).
Definition set_mp_sig2mess (v : Z) (x : mproc) : mproc :=
  mk_mproc (mp_exitstatus x) (mp_sigstatus x) (mp_pid x) (mp_endpoint x) (mp_procgrp x)
    (mp_wpid x) (mp_parent x) (mp_tracer x) (mp_child_utime x) (mp_child_stime x)
    (mp_realuid x) (mp_effuid x) (mp_realgid x) (mp_effgid x) (mp_ngroups x) (mp_sgroups
    x) (mp_ignore x) (mp_catch x) v (mp_sigmask x) (mp_sigmask2 x) (mp_sigpending x)
    (mp_sigtrace x) (mp_sigact x) (mp_sigreturn x) (mp_interval x) (mp_flags x)
    (mp_trace_flags x) (mp_procargs x) (mp_reply x) (mp_nice x) (mp_name x).
Definition set_mp_sigmask (v : Z) (x : mproc) : mproc :=
  mk_mproc (mp_exitstatus x) (mp_sigstatus x) (mp_pid x) (mp_endpoint x) (mp_procgrp x)
    (mp_wpid x) (mp_parent x) (mp_tracer x) (mp_child_utime x) (mp_child_stime x)
    (mp_realuid x) (mp_effuid x) (mp_realgid x) (mp_effgid x) (mp_ngroups x) (mp_sgroups
    x) (mp_ignore x) (mp_catch x) (mp_sig2mess x) v (mp_sigmask2 x) (mp_sigpending x)
    (mp_sigtrace x) (mp_sigact x) (mp_sigreturn x) (mp_interval x) (mp_flags x)
    (mp_trace_flags x) (mp_procargs x) (mp_reply x) (mp_nice x) (mp_name x).
Definition set_mp_sigmask2 (v : Z) (x : mproc) : mproc :=
  mk_mproc (mp_exitstatus x) (mp_sigstatus x) (mp_pid x) (mp_endpoint x) (mp_procgrp x)
    (mp_wpid x) (mp_parent x) (mp_tracer x) (mp_child_utime x) (mp_child_stime x)
    (mp_realuid x) (mp_effuid x) (mp_realgid x) (mp_effgid x) (mp_ngroups x) (mp_sgroups
    x) (mp_ignore x) (mp_catch x) (mp_sig2mess x) (mp_sigmask x) v (mp_sigpending x)
    (mp_sigtrace x) (mp_sigact x) (mp_sigreturn x) (mp_interval x) (mp_flags x)
    (mp_trace_flags x) (mp_procargs x) (mp_reply x) (mp_nice x) (mp_name x).
Definition set_mp_sigpending (v : Z) (x : mproc) : mproc :=
  mk_mproc (mp_exitstatus x) (mp_sigstatus x) (mp_pid x) (mp_endpoint x) (mp_procgrp x)
    (mp_wpid x) (mp_parent x) (mp_tracer x) (mp_child_utime x) (mp_child_stime x)
    (mp_realuid x) (mp_effuid x) (mp_realgid x) (mp_effgid x) (mp_ngroups x) (mp_sgroups
    x) (mp_ignore x) (mp_catch x) (mp_sig2mess x) (mp_sigmask x) (mp_sigmask2 x) v
    (mp_sigtrace x) (mp_sigact x) (mp_sigreturn x) (mp_interval x) (mp_flags x)
    (mp_trace_flags x) (mp_procargs x) (mp_reply x) (mp_nice x) (mp_name x).
Definition set_mp_sigtrace (v : Z) (x : mproc) : mproc :=
  mk_mproc (mp_exitstatus x) (mp_sigstatus x) (mp_pid x) (mp_endpoint x) (mp_procgrp x)
    (mp_wpid x) (mp_parent x) (mp_tracer x) (mp_child_utime x) (mp_child_stime x)
    (mp_realuid x) (mp_effuid x) (mp_realgid x) (mp_effgid x) (mp_ngroups x) (mp_sgroups
    x) (mp_ignore x) (mp_catch x) (mp_sig2mess x) (mp_sigmask x) (mp_sigmask2 x)
    (mp_sigpending x) v (mp_sigact x) (mp_sigreturn x) (mp_interval x) (mp_flags x)
    (mp_trace_flags x) (mp_procargs x) (mp_reply x) (mp_nice x) (mp_name x).
Definition set_mp_sigact (v : Z -> sigaction) (x : mproc) : mproc :=
  mk_mproc (mp_exitstatus x) (mp_sigstatus x) (mp_pid x) (mp_endpoint x) (mp_procgrp x)
    (mp_wpid x) (mp_parent x) (mp_tracer x) (mp_child_utime x) (mp_child_stime x)
    (mp_realuid x) (mp_effuid x) (mp_realgid x) (mp_effgid x) (mp_ngroups x) (mp_sgroups
    x) (mp_ignore x) (mp_catch x) (mp_sig2mess x) (mp_sigmask x) (mp_sigmask2 x)
    (mp_sigpending x) (mp_sigtrace x) v (mp_sigreturn x) (mp_interval x) (mp_flags x)
    (mp_trace_flags x) (mp_procargs x) (mp_reply x) (mp_nice x) (mp_name x).
Definition set_mp_sigreturn (v : Z) (x : mproc) : mproc :=
  mk_mproc (mp_exitstatus x) (mp_sigstatus x) (mp_pid x) (mp_endpoint x) (mp_procgrp x)
    (mp_wpid x) (mp_parent x) (mp_tracer x) (mp_child_utime x) (mp_child_stime x)
    (mp_realuid x) (mp_effuid x) (mp_realgid x) (mp_effgid x) (mp_ngroups x) (mp_sgroups
    x) (mp_ignore x) (mp_catch x) (mp_sig2mess x) (mp_sigmask x) (mp_sigmask2 x)
    (mp_sigpending x) (mp_sigtrace x) (mp_sigact x) v (mp_interval x) (mp_flags x)
    (mp_trace_flags x) (mp_procargs x) (mp_reply x) (mp_nice x) (mp_name x).
Definition set_mp_interval (v : Z -> Z) (x : mproc) : mproc :=
  mk_mproc (mp_exitstatus x) (mp_sigstatus x) (mp_pid x) (mp_endpoint x) (mp_procgrp x)
    (mp_wpid x) (mp_parent x) (mp_tracer x) (mp_child_utime x) (mp_child_stime x)
    (mp_realuid x) (mp_effuid x) (mp_realgid x) (mp_effgid x) (mp_ngroups x) (mp_sgroups
    x) (mp_ignore x) (mp_catch x) (mp_sig2mess x) (mp_sigmask x) (mp_sigmask2 x)
    (mp_sigpending x) (mp_sigtrace x) (mp_sigact x) (mp_sigreturn x) v (mp_flags x)
    (mp_trace_flags x) (mp_procargs x) (mp_reply x) (mp_nice x) (mp_name x).
Definition set_mp_flags (v : Z) (x : mproc) : mproc :=
  mk_mproc (mp_exitstatus x) (mp_sigstatus x) (mp_pid x) (mp_endpoint x) (mp_procgrp x)
    (mp_wpid x) (mp_parent x) (mp_tracer x) (mp_child_utime x) (mp_child_stime x)
    (mp_realuid x) (mp_effuid x) (mp_realgid x) (mp_effgid x) (mp_ngroups x) (mp_sgroups
    x) (mp_ignore x) (mp_catch x) (mp_sig2mess x) (mp_sigmask x) (mp_sigmask2 x)
    (mp_sigpending x) (mp_sigtrace x) (mp_sigact x) (mp_sigreturn x) (mp_interval x) v
    (mp_trace_flags x) (mp_procargs x) (mp_reply x) (mp_nice x) (mp_name x).
Definition set_mp_trace_flags (v : Z) (x : mproc) : mproc :=
  mk_mproc (mp_exitstatus x) (mp_sigstatus x) (mp_pid x) (mp_endpoint x) (mp_procgrp x)
    (mp_wpid x) (mp_parent x) (mp_tracer x) (mp_child_utime x) (mp_child_stime x)
    (mp_realuid x) (mp_effuid x) (mp_realgid x) (mp_effgid x) (mp_ngroups x) (mp_sgroups
    x) (mp_ignore x) (mp_catch x) (mp_sig2mess x) (mp_sigmask x) (mp_sigmask2 x)
    (mp_sigpending x) (mp_sigtrace x) (mp_sigact x) (mp_sigreturn x) (mp_interval x)
    (mp_flags x) v (mp_procargs x) (mp_reply x) (mp_nice x) (mp_name x).
Definition set_mp_procargs (v : Z) (x : mproc) : mproc :=
  mk_mproc (mp_exitstatus x) (mp_sigstatus x) (mp_pid x) (mp_endpoint x) (mp_procgrp x)
    (mp_wpid x) (mp_parent x) (mp_tracer x) (mp_child_utime x) (mp_child_stime x)
    (mp_realuid x) (mp_effuid x) (mp_realgid x) (mp_effgid x) (mp_ngroups x) (mp_sgroups
    x) (mp_ignore x) (mp_catch x) (mp_sig2mess x) (mp_sigmask x) (mp_sigmask2 x)
    (mp_sigpending x) (mp_sigtrace x) (mp_sigact x) (mp_sigreturn x) (mp_interval x)
    (mp_flags x) (mp_trace_flags x) v (mp_reply x) (mp_nice x) (mp_name x).
Definition set_mp_reply (v : message) (x : mproc) : mproc :=
  mk_mproc (mp_exitstatus x) (mp_sigstatus x) (mp_pid x) (mp_endpoint x) (mp_procgrp x)
    (mp_wpid x) (mp_parent x) (mp_tracer x) (mp_child_utime x) (mp_child_stime x)
    (mp_realuid x) (mp_effuid x) (mp_realgid x) (mp_effgid x) (mp_ngroups x) (mp_sgroups
    x) (mp_ignore x) (mp_catch x) (mp_sig2mess x) (mp_sigmask x) (mp_sigmask2 x)
    (mp_sigpending x) (mp_sigtrace x) (mp_sigact x) (mp_sigreturn x) (mp_interval x)
    (mp_flags x) (mp_trace_flags x) (mp_procargs x) v (mp_nice x) (mp_name x).
Definition set_mp_nice (v : Z) (x : mproc) : mproc :=
  mk_mproc (mp_exitstatus x) (mp_sigstatus x) (mp_pid x) (mp_endpoint x) (mp_procgrp x)
    (mp_wpid x) (mp_parent x) (mp_tracer x) (mp_child_utime x) (mp_child_stime x)
    (mp_realuid x) (mp_effuid x) (mp_realgid x) (mp_effgid x) (mp_ngroups x) (mp_sgroups
    x) (mp_ignore x) (mp_catch x) (mp_sig2mess x) (mp_sigmask x) (mp_sigmask2 x)
    (mp_sigpending x) (mp_sigtrace x) (mp_sigact x) (mp_sigreturn x) (mp_interval x)
    (mp_flags x) (mp_trace_flags x) (mp_procargs x) (mp_reply x) v (mp_name x).
Definition set_mp_name (v : list Z) (x : mproc) : mproc :=
  mk_mproc (mp_exitstatus x) (mp_sigstatus x) (mp_pid x) (mp_endpoint x) (mp_procgrp x)
    (mp_wpid x) (mp_parent x) (mp_tracer x) (mp_child_utime x) (mp_child_stime x)
    (mp_realuid x) (mp_effuid x) (mp_realgid x) (mp_effgid x) (mp_ngroups x) (mp_sgroups
    x) (mp_ignore x) (mp_catch x) (mp_sig2mess x) (mp_sigmask x) (mp_sigmask2 x)
    (mp_sigpending x) (mp_sigtrace x) (mp_sigact x) (mp_sigreturn x) (mp_interval x)
    (mp_flags x) (mp_trace_flags x) (mp_procargs x) (mp_reply x) (mp_nice x) v.

(** The watchdog of a process timer: [cause_sigalrm] is the only one PM uses. *)
Inductive pm_watchdog := W_cause_sigalrm | W_none.

(** The variables of PM whose address goes into a message. *)
Inductive pm_var :=
  | V_sigact (slot sig : Z) | V_svec | V_value | V_ovalue | V_sgroups (slot : Z) | V_pr
  | V_args | V_sigmsg | V_name (slot : Z) | V_search_key | V_monitor_code | V_system_hz
  | V_uts (field : Z) | V_sysgetenv | V_param_name (i : Z) | V_param_value (i : Z)
  | V_svrctl_key | V_monitor_params | V_mproc | V_proc_addr | V_kinfo | V_proctab
  | V_loadinfo | V_pciinfo | V_idle_tsc | V_param_of (off : Z) | V_image.

(** The contents of PM's memory a message points to, for the receiver to read. *)
Inductive pm_buf :=
  | B_none
  | B_sigaction (a : sigaction)
  | B_itimerval (v : itimerval)
  | B_sigmsg (sm : sigmsg)
  | B_exec (a : exec_newmem)
  | B_bytes (l : list Z)
  | B_word (v : Z)
  | B_table (t : pm_var).

(** What PM sends: a request it waits for ([sendrec]), a reply ([sendnb]), an
    asynchronous request, a notification. *)
Inductive pm_event :=
  | Sendrec (who : Z) (m : message) (b : pm_buf)
  | Sendnb (who : Z) (m : message)
  | Send (who : Z) (m : message)
  | Asynsend (who : Z) (m : message)
  | Notify (who : Z).

(** The global variables of PM, and what it has sent so far. *)
Record pm_state := mk_pm_state {
  mproc_tab : Z -> mproc;  (* mproc[] *)
  mp : Z;  (* slot of the current process *)
  procs_in_use : Z;
  m_in : message;
  who_p : Z;
  who_e : Z;
  call_nr : Z;
  core_sset : Z;
  ign_sset : Z;
  system_hz : Z;
  abort_flag : Z;
  monitor_params : list Z;
  monitor_code : list Z;
  next_child : Z;  (* static of do_fork *)
  next_child_nb : Z;  (* static of do_fork_nb *)
  next_pid : Z;  (* static of get_free_pid *)
  pm_timers : tstate Z pm_watchdog;  (* every mp_timer and the queue pm_timers *)
  pm_expiring : Z;
  uts_machine : list Z;  (* uts_val.machine *)
  local_params : list (list Z * list Z);  (* overrides of do_svrctl, with their number *)
  history : list pm_event  (* what PM has sent, the latest first *)
}.

Definition set_mproc_tab (v : Z -> mproc) (x : pm_state) : pm_state :=
  mk_pm_state v (mp x) (procs_in_use x) (m_in x) (who_p x) (who_e x) (call_nr x)
    (core_sset x) (ign_sset x) (system_hz x) (abort_flag x) (monitor_params x)
    (monitor_code x) (next_child x) (next_child_nb x) (next_pid x) (pm_timers x)
    (pm_expiring x) (uts_machine x) (local_params x) (history x).
Definition set_mp (v : Z) (x : pm_state) : pm_state :=
  mk_pm_state (mproc_tab x) v (procs_in_use x) (m_in x) (who_p x) (who_e x) (call_nr x)
    (core_sset x) (ign_sset x) (system_hz x) (abort_flag x) (monitor_params x)
    (monitor_code x) (next_child x) (next_child_nb x) (next_pid x) (pm_timers x)
    (pm_expiring x) (uts_machine x) (local_params x) (history x).
Definition set_procs_in_use (v : Z) (x : pm_state) : pm_state :=
  mk_pm_state (mproc_tab x) (mp x) v (m_in x) (who_p x) (who_e x) (call_nr x) (core_sset
    x) (ign_sset x) (system_hz x) (abort_flag x) (monitor_params x) (monitor_code x)
    (next_child x) (next_child_nb x) (next_pid x) (pm_timers x) (pm_expiring x)
    (uts_machine x) (local_params x) (history x).
Definition set_m_in (v : message) (x : pm_state) : pm_state :=
  mk_pm_state (mproc_tab x) (mp x) (procs_in_use x) v (who_p x) (who_e x) (call_nr x)
    (core_sset x) (ign_sset x) (system_hz x) (abort_flag x) (monitor_params x)
    (monitor_code x) (next_child x) (next_child_nb x) (next_pid x) (pm_timers x)
    (pm_expiring x) (uts_machine x) (local_params x) (history x).
Definition set_who_p (v : Z) (x : pm_state) : pm_state :=
  mk_pm_state (mproc_tab x) (mp x) (procs_in_use x) (m_in x) v (who_e x) (call_nr x)
    (core_sset x) (ign_sset x) (system_hz x) (abort_flag x) (monitor_params x)
    (monitor_code x) (next_child x) (next_child_nb x) (next_pid x) (pm_timers x)
    (pm_expiring x) (uts_machine x) (local_params x) (history x).
Definition set_who_e (v : Z) (x : pm_state) : pm_state :=
  mk_pm_state (mproc_tab x) (mp x) (procs_in_use x) (m_in x) (who_p x) v (call_nr x)
    (core_sset x) (ign_sset x) (system_hz x) (abort_flag x) (monitor_params x)
    (monitor_code x) (next_child x) (next_child_nb x) (next_pid x) (pm_timers x)
    (pm_expiring x) (uts_machine x) (local_params x) (history x).
Definition set_call_nr (v : Z) (x : pm_state) : pm_state :=
  mk_pm_state (mproc_tab x) (mp x) (procs_in_use x) (m_in x) (who_p x) (who_e x) v
    (core_sset x) (ign_sset x) (system_hz x) (abort_flag x) (monitor_params x)
    (monitor_code x) (next_child x) (next_child_nb x) (next_pid x) (pm_timers x)
    (pm_expiring x) (uts_machine x) (local_params x) (history x).
Definition set_core_sset (v : Z) (x : pm_state) : pm_state :=
  mk_pm_state (mproc_tab x) (mp x) (procs_in_use x) (m_in x) (who_p x) (who_e x) (call_nr
    x) v (ign_sset x) (system_hz x) (abort_flag x) (monitor_params x) (monitor_code x)
    (next_child x) (next_child_nb x) (next_pid x) (pm_timers x) (pm_expiring x)
    (uts_machine x) (local_params x) (history x).
Definition set_ign_sset (v : Z) (x : pm_state) : pm_state :=
  mk_pm_state (mproc_tab x) (mp x) (procs_in_use x) (m_in x) (who_p x) (who_e x) (call_nr
    x) (core_sset x) v (system_hz x) (abort_flag x) (monitor_params x) (monitor_code x)
    (next_child x) (next_child_nb x) (next_pid x) (pm_timers x) (pm_expiring x)
    (uts_machine x) (local_params x) (history x).
Definition set_system_hz (v : Z) (x : pm_state) : pm_state :=
  mk_pm_state (mproc_tab x) (mp x) (procs_in_use x) (m_in x) (who_p x) (who_e x) (call_nr
    x) (core_sset x) (ign_sset x) v (abort_flag x) (monitor_params x) (monitor_code x)
    (next_child x) (next_child_nb x) (next_pid x) (pm_timers x) (pm_expiring x)
    (uts_machine x) (local_params x) (history x).
Definition set_abort_flag (v : Z) (x : pm_state) : pm_state :=
  mk_pm_state (mproc_tab x) (mp x) (procs_in_use x) (m_in x) (who_p x) (who_e x) (call_nr
    x) (core_sset x) (ign_sset x) (system_hz x) v (monitor_params x) (monitor_code x)
    (next_child x) (next_child_nb x) (next_pid x) (pm_timers x) (pm_expiring x)
    (uts_machine x) (local_params x) (history x).
Definition set_monitor_params (v : list Z) (x : pm_state) : pm_state :=
  mk_pm_state (mproc_tab x) (mp x) (procs_in_use x) (m_in x) (who_p x) (who_e x) (call_nr
    x) (core_sset x) (ign_sset x) (system_hz x) (abort_flag x) v (monitor_code x)
    (next_child x) (next_child_nb x) (next_pid x) (pm_timers x) (pm_expiring x)
    (uts_machine x) (local_params x) (history x).
Definition set_monitor_code (v : list Z) (x : pm_state) : pm_state :=
  mk_pm_state (mproc_tab x) (mp x) (procs_in_use x) (m_in x) (who_p x) (who_e x) (call_nr
    x) (core_sset x) (ign_sset x) (system_hz x) (abort_flag x) (monitor_params x) v
    (next_child x) (next_child_nb x) (next_pid x) (pm_timers x) (pm_expiring x)
    (uts_machine x) (local_params x) (history x).
Definition set_next_child (v : Z) (x : pm_state) : pm_state :=
  mk_pm_state (mproc_tab x) (mp x) (procs_in_use x) (m_in x) (who_p x) (who_e x) (call_nr
    x) (core_sset x) (ign_sset x) (system_hz x) (abort_flag x) (monitor_params x)
    (monitor_code x) v (next_child_nb x) (next_pid x) (pm_timers x) (pm_expiring x)
    (uts_machine x) (local_params x) (history x).
Definition set_next_child_nb (v : Z) (x : pm_state) : pm_state :=
  mk_pm_state (mproc_tab x) (mp x) (procs_in_use x) (m_in x) (who_p x) (who_e x) (call_nr
    x) (core_sset x) (ign_sset x) (system_hz x) (abort_flag x) (monitor_params x)
    (monitor_code x) (next_child x) v (next_pid x) (pm_timers x) (pm_expiring x)
    (uts_machine x) (local_params x) (history x).
Definition set_next_pid (v : Z) (x : pm_state) : pm_state :=
  mk_pm_state (mproc_tab x) (mp x) (procs_in_use x) (m_in x) (who_p x) (who_e x) (call_nr
    x) (core_sset x) (ign_sset x) (system_hz x) (abort_flag x) (monitor_params x)
    (monitor_code x) (next_child x) (next_child_nb x) v (pm_timers x) (pm_expiring x)
    (uts_machine x) (local_params x) (history x).
Definition set_pm_timers (v : tstate Z pm_watchdog) (x : pm_state) : pm_state :=
  mk_pm_state (mproc_tab x) (mp x) (procs_in_use x) (m_in x) (who_p x) (who_e x) (call_nr
    x) (core_sset x) (ign_sset x) (system_hz x) (abort_flag x) (monitor_params x)
    (monitor_code x) (next_child x) (next_child_nb x) (next_pid x) v (pm_expiring x)
    (uts_machine x) (local_params x) (history x).
Definition set_pm_expiring (v : Z) (x : pm_state) : pm_state :=
  mk_pm_state (mproc_tab x) (mp x) (procs_in_use x) (m_in x) (who_p x) (who_e x) (call_nr
    x) (core_sset x) (ign_sset x) (system_hz x) (abort_flag x) (monitor_params x)
    (monitor_code x) (next_child x) (next_child_nb x) (next_pid x) (pm_timers x) v
    (uts_machine x) (local_params x) (history x).
Definition set_uts_machine (v : list Z) (x : pm_state) : pm_state :=
  mk_pm_state (mproc_tab x) (mp x) (procs_in_use x) (m_in x) (who_p x) (who_e x) (call_nr
    x) (core_sset x) (ign_sset x) (system_hz x) (abort_flag x) (monitor_params x)
    (monitor_code x) (next_child x) (next_child_nb x) (next_pid x) (pm_timers x)
    (pm_expiring x) v (local_params x) (history x).
Definition set_local_params (v : list (list Z * list Z)) (x : pm_state) : pm_state :=
  mk_pm_state (mproc_tab x) (mp x) (procs_in_use x) (m_in x) (who_p x) (who_e x) (call_nr
    x) (core_sset x) (ign_sset x) (system_hz x) (abort_flag x) (monitor_params x)
    (monitor_code x) (next_child x) (next_child_nb x) (next_pid x) (pm_timers x)
    (pm_expiring x) (uts_machine x) v (history x).
Definition set_history (v : list pm_event) (x : pm_state) : pm_state :=
  mk_pm_state (mproc_tab x) (mp x) (procs_in_use x) (m_in x) (who_p x) (who_e x) (call_nr
    x) (core_sset x) (ign_sset x) (system_hz x) (abort_flag x) (monitor_params x)
    (monitor_code x) (next_child x) (next_child_nb x) (next_pid x) (pm_timers x)
    (pm_expiring x) (uts_machine x) (local_params x) v.

(** ** The rest of the system *)

(** What the others do, as a function of what PM has sent, the latest first: the
    status of the latest call, the message it brought back, and the structure a
    copy brought into PM's memory. *)
Class PmEnv := mk_PmEnv {
  status : list pm_event -> Z;
  answer : list pm_event -> message;
  in_sigaction : list pm_event -> sigaction;
  in_itimerval : list pm_event -> itimerval;
  in_range : list pm_event -> ptrace_range;
  in_exec : list pm_event -> exec_newmem;
  in_sysgetenv : list pm_event -> sysgetenv;
  in_bytes : list pm_event -> list Z;
  in_image : list pm_event -> list boot_image;
  in_word : list pm_event -> Z;
  (** The contents of an uninitialised message, and where PM's variables are. *)
  uninit : message;
  addr : pm_var -> Z }.

Abbreviation PM := (M pm_state).
