(* ===== verification/PmLib.v ===== *)
(** * What PM calls: its process table, the system library, the timers

    Access to the table [mproc] with its bounds, the functions of lib/syslib and
    lib/sysutil that PM uses (they build a message for the kernel or VM and send it),
    the queue of timers of servers/pm/timers.c, and utility.c. *)
From S2P Require Import Prelude PList KMonad Timers Types Memory KCalls Grants Signals PrivCtl SysTask PmTypes.

(** ** The table *)

(** A slot of [mproc]. *)
Definition mslot (n : Z) : Prop := 0 <= n < NR_PROCS.
#[export] Instance mslot_dec n : Decision (mslot n).
Proof. unfold mslot. apply _. Defined.

Definition all_mslots : list Z := seqZ 0 NR_PROCS.

Definition upd_m (n : Z) (f : mproc -> mproc) (s : pm_state) : pm_state :=
  set_mproc_tab (<[n := f (mproc_tab s n)]> (mproc_tab s)) s.

(** [rmp->field], and an assignment through [rmp]. *)
Definition rdm {A} (rmp : Z) (f : mproc -> A) : PM A := fun s =>
  if decide (mslot rmp) then Done (f (mproc_tab s rmp)) s else Stuck BadIndex.
Definition wrm (rmp : Z) (f : mproc -> mproc) : PM unit := fun s =>
  if decide (mslot rmp) then Done tt (upd_m rmp f s) else Stuck BadIndex.

(** [rmp->mp_flags & f], [rmp->mp_flags |= f], [rmp->mp_flags &= ~f]. *)
Definition mflag (rmp f : Z) : PM bool := rdm rmp (fun p => flag_any (mp_flags p) f).
Definition or_flags (f : Z) (p : mproc) : mproc := set_mp_flags (flag_set (mp_flags p) f) p.
Definition clear_flags (f : Z) (p : mproc) : mproc := set_mp_flags (flag_clear (mp_flags p) f) p.

(** [(mp_flags & (IN_USE | EXITING)) == IN_USE]. *)
Definition is_live (p : mproc) : bool := Z.land (mp_flags p) (Z.lor IN_USE EXITING) =? IN_USE.

Definition upd_reply (f : message -> message) (p : mproc) : mproc := set_mp_reply (f (mp_reply p)) p.

(** C strings in arrays of characters: the characters before the first 0. *)
Fixpoint cstr (l : list Z) : list Z :=
  match l with
  | [] => []
  | c :: l' => if c =? 0 then [] else c :: cstr l'
  end.

Fixpoint resize0 (n : nat) (l : list Z) : list Z :=
  match n with
  | O => []
  | S n' => match l with [] => 0 :: resize0 n' [] | x :: l' => x :: resize0 n' l' end
  end.

Section env.
Context `{PmEnv}.

(** ** Messages *)

Definition emit (e : pm_event) : PM Z := fun s =>
  let s' := set_history (e :: history s) s in Done (status (history s')) s'.

(** [_taskcall] (lib/syslib/taskcall.c), with the memory the message points to. *)
Definition taskcall (who syscallnr : Z) (m : message) (b : pm_buf) : PM (Z * message) :=
  do st <- emit (Sendrec who (set_m_type syscallnr m) b);
  do m' <- gets (fun s => answer (history s));
  if negb (st =? 0) then ret (st, m') else ret (m_type m', m').

(** A call of which only the result counts. *)
Definition taskcall_r (who syscallnr : Z) (m : message) (b : pm_buf) : PM Z :=
  do rm <- taskcall who syscallnr m b; ret (fst rm).

(** *** lib/syslib: kernel calls *)

Definition sys_runctl (proc_ep action flags : Z) : PM Z :=
  taskcall_r SYSTEM SYS_RUNCTL
    (set_m1_i3 flags (set_m1_i2 action (set_m1_i1 proc_ep uninit))) B_none.
Definition sys_stop (proc_ep : Z) : PM Z := sys_runctl proc_ep RC_STOP 0.
Definition sys_delay_stop (proc_ep : Z) : PM Z := sys_runctl proc_ep RC_STOP RC_DELAY.
Definition sys_resume (proc_ep : Z) : PM Z := sys_runctl proc_ep RC_RESUME 0.

(** The user, system and boot times come back in the message. *)
Definition sys_times (proc_ep : Z) : PM (Z * message) :=
  taskcall SYSTEM SYS_TIMES (set_m4_l1 proc_ep uninit) B_none.

Definition sys_exit (proc_ep : Z) : PM Z :=
  taskcall_r SYSTEM SYS_EXIT (set_m1_i1 proc_ep uninit) B_none.

Definition sys_nice (proc_ep prio : Z) : PM Z :=
  taskcall_r SYSTEM SYS_NICE (set_m1_i2 prio (set_m1_i1 proc_ep uninit)) B_none.

Definition sys_chdeadline (proc_ep deadline : Z) : PM Z :=
  taskcall_r SYSTEM SYS_CHDEADLINE (set_m2_l1 deadline (set_m2_i1 proc_ep uninit)) B_none.

Definition sys_setalarm (exp_time abs_time : Z) : PM Z :=
  taskcall_r SYSTEM SYS_SETALARM (set_m2_i2 abs_time (set_m2_l1 exp_time uninit)) B_none.

Definition sys_stime (boottime : Z) : PM Z :=
  taskcall_r SYSTEM SYS_STIME (set_m4_l3 boottime uninit) B_none.

(** [newval]: the new value, if any; the old value comes back in [VT_VALUE]. *)
Definition sys_vtimer (proc which : Z) (newval : option Z) : PM (Z * message) :=
  let m := set_m2_i1 which (set_m2_l2 proc uninit) in
  let m := match newval with
           | Some v => set_m2_l1 v (set_m2_i2 1 m)
           | None => set_m2_i2 0 m
           end in
  taskcall SYSTEM SYS_VTIMER m B_none.

Definition sys_sigsend (proc_ep : Z) (sig_ctxt : sigmsg) : PM Z :=
  taskcall_r SYSTEM SYS_SIGSEND (set_m2_p1 (addr V_sigmsg) (set_m2_i1 proc_ep uninit))
    (B_sigmsg sig_ctxt).

Definition sys_sigreturn (proc_ep sig_ctxt : Z) : PM Z :=
  taskcall_r SYSTEM SYS_SIGRETURN (set_m2_p1 sig_ctxt (set_m2_i1 proc_ep uninit)) B_none.

Definition sys_getksig : PM (Z * message) := taskcall SYSTEM SYS_GETKSIG uninit B_none.

Definition sys_endksig (proc_ep : Z) : PM Z :=
  taskcall_r SYSTEM SYS_ENDKSIG (set_m2_i1 proc_ep uninit) B_none.

(** [data_p]: the data word goes out and its new value comes back. *)
Definition sys_trace (req proc_ep address : Z) (data_p : option Z) : PM (Z * message) :=
  let m := set_m2_l1 address (set_m2_i2 req (set_m2_i1 proc_ep uninit)) in
  let m := match data_p with Some d => set_m2_l2 d m | None => m end in
  taskcall SYSTEM SYS_TRACE m B_none.

Definition sys_exec (proc_ep ptr : Z) (prog : pm_var) (name : list Z) (initpc : Z) : PM Z :=
  taskcall_r SYSTEM SYS_EXEC
    (set_m1_p3 initpc (set_m1_p2 (addr prog) (set_m1_p1 ptr (set_m1_i1 proc_ep uninit))))
    (B_bytes name).

Definition sys_sysctl_stacktrace (ep : Z) : PM Z :=
  taskcall_r SYSTEM SYS_SYSCTL
    (set_m1_i2 ep (set_m1_p1 0 (set_m1_i1 SYSCTL_CODE_STACKTRACE uninit))) B_none.

Definition sys_abort (how mon_endpt mon_addr mon_len : Z) (code : list Z) : PM Z :=
  let m := set_m1_i1 how uninit in
  let m := if how =? RBT_MONITOR
           then set_m1_i3 mon_len (set_m1_p1 mon_addr (set_m1_i2 mon_endpt m)) else m in
  taskcall_r SYSTEM SYS_ABORT m (B_bytes code).

(** The two short words of the [m5] view share a word of the message. *)
Definition m5_shorts (s1 s2 : Z) : Z := Z.lor (u16 s1) (Z.shiftl (u16 s2) 16).

Definition sys_vircopy (src_proc src_seg src_vir dst_proc dst_seg dst_vir bytes : Z)
    (b : pm_buf) : PM Z :=
  if bytes =? 0 then ret OK else
  taskcall_r SYSTEM SYS_VIRCOPY
    (mk_message (m_source uninit) (m_type uninit) (m5_shorts src_seg dst_seg) src_proc dst_proc
       src_vir dst_vir bytes (m_w6 uninit)) b.

Definition sys_datacopy (src_proc src_vir dst_proc dst_vir bytes : Z) (b : pm_buf) : PM Z :=
  sys_vircopy src_proc SEG_D src_vir dst_proc SEG_D dst_vir bytes b.

(** *** lib/syslib: VM calls *)

Definition vm_fork (ep slot : Z) : PM (Z * message) :=
  taskcall VM_PROC_NR VM_FORK (set_m1_i2 slot (set_m1_i1 ep uninit)) B_none.
Definition vm_willexit (ep : Z) : PM Z :=
  taskcall_r VM_PROC_NR VM_WILLEXIT (set_m1_i1 ep uninit) B_none.
Definition vm_exit (ep : Z) : PM Z :=
  taskcall_r VM_PROC_NR VM_EXIT (set_m1_i1 ep uninit) B_none.
Definition vm_push_sig (ep : Z) : PM (Z * message) :=
  taskcall VM_PROC_NR VM_PUSH_SIG (set_m1_i1 ep uninit) B_none.
Definition vm_notify_sig (ep ipc_ep : Z) : PM Z :=
  taskcall_r VM_PROC_NR VM_NOTIFY_SIG (set_m1_i2 ipc_ep (set_m1_i1 ep uninit)) B_none.
Definition vm_exec_newmem (ep : Z) (args : exec_newmem) (argssize : Z) : PM (Z * message) :=
  taskcall VM_PROC_NR VM_EXEC_NEWMEM
    (set_m1_i2 argssize (set_m1_p1 (addr V_args) (set_m1_i1 ep uninit))) (B_exec args).
Definition vm_brk (ep addr : Z) : PM Z :=
  taskcall_r VM_PROC_NR VM_BRK (set_m1_p1 addr (set_m1_i1 ep uninit)) B_none.

(** *** lib/sysutil: [getuptime], [getuptime2] *)

Definition getuptime : PM (Z * Z) :=
  do rm <- taskcall SYSTEM SYS_TIMES (set_m4_l1 NONE (set_m_type SYS_TIMES uninit)) B_none;
  ret (fst rm, m4_l5 (snd rm)).

Definition getuptime2 : PM (Z * Z * Z) :=
  do rm <- taskcall SYSTEM SYS_TIMES (set_m4_l1 NONE (set_m_type SYS_TIMES uninit)) B_none;
  ret (fst rm, m4_l5 (snd rm), m4_l3 (snd rm)).

(** ** timers.c *)

(** A queue of process timers is walked at most once past its end. *)
Definition PM_TIMER_FUEL : nat := 257.

Definition zpm {A} : M (tstate Z pm_watchdog) A -> PM A := zoom pm_timers set_pm_timers.

Definition pm_set_timer (tp ticks : Z) (watchdog : pm_watchdog) (arg : Z) : PM unit :=
  do rn <- getuptime;
  if negb (fst rn =? OK) then panic "PM couldn't get uptime" else
  do! modify (fun s => set_pm_timers (upd_tm tp (set_tmr_arg arg) (pm_timers s)) s);
  do prev_time <- zpm (tmrs_settimer PM_TIMER_FUEL tp (i32 (snd rn + ticks)) watchdog);
  do next_time <- gets (fun s => head_time (pm_timers s));
  do expiring <- gets pm_expiring;
  when ((expiring =? 0) && ((prev_time =? 0) || (next_time <? prev_time)))
    (do r <- sys_setalarm next_time 1;
     if negb (r =? OK) then panic "PM set timer couldn't set alarm." else ret tt).

Definition pm_cancel_timer (tp : Z) : PM unit :=
  do prev_time <- zpm (tmrs_clrtimer PM_TIMER_FUEL tp);
  do next_time <- gets (fun s => head_time (pm_timers s));
  do expiring <- gets pm_expiring;
  when ((expiring =? 0) && ((prev_time <? next_time) || (next_time =? 0)))
    (do r <- sys_setalarm next_time 1;
     if negb (r =? OK) then panic "PM expire timer couldn't set alarm." else ret tt).

(** [pm_expire_timers]; the watchdogs are an argument, since [cause_sigalrm] sends signals. *)
Definition pm_expire_timers_with (run : pm_watchdog -> Z -> PM unit) (now : Z) : PM unit :=
  do! modify (set_pm_expiring 1);
  do! tmrs_exptimers pm_timers set_pm_timers run PM_TIMER_FUEL now;
  do next_time <- gets (fun s => head_time (pm_timers s));
  do! modify (set_pm_expiring 0);
  when (0 <? next_time)
    (do r <- sys_setalarm next_time 1;
     if negb (r =? OK) then panic "PM expire timer couldn't set alarm." else ret tt).

(** ** utility.c *)

(** One round of the search: is [next_pid] the pid or the group of some slot? *)
Definition pid_taken (pid : Z) (s : pm_state) : bool :=
  existsb (fun n => (mp_pid (mproc_tab s n) =? pid) || (mp_procgrp (mproc_tab s n) =? pid)) all_mslots.

(** 256 slots take at most 512 pids. *)
Definition PID_FUEL : nat := 514.

Definition get_free_pid : PM Z :=
  do! while PID_FUEL
    (do! modify (fun s => set_next_pid
        (if next_pid s <? NR_PIDS then next_pid s + 1 else INIT_PID + 1) s);
     gets (fun s => pid_taken (next_pid s) s));
  gets next_pid.

Definition no_sys : PM Z := ret ENOSYS.

(** [find_proc]: [None] is [NIL_MPROC]. *)
Definition find_proc (lpid : Z) : PM (option Z) :=
  gets (fun s => List.find (fun n => flag_any (mp_flags (mproc_tab s n)) IN_USE &&
                                 (mp_pid (mproc_tab s n) =? lpid)) all_mslots).

(** The result and the slot, which is set in every case. *)
Definition pm_isokendpt (endpoint : Z) : PM (Z * Z) :=
  let proc := _ENDPOINT_P endpoint in
  if (proc <? - NR_TASKS) || (NR_PROCS <=? proc) then ret (EINVAL, proc)
  else if proc <? 0 then ret (OK, proc)
  else do ep <- rdm proc mp_endpoint;
       if negb (endpoint =? ep) then ret (EDEADSRCDST, proc)
       else do used <- mflag proc IN_USE;
            if negb used then ret (EDEADSRCDST, proc) else ret (OK, proc).

Definition tell_fs (rmp : Z) (m : message) : PM unit :=
  do busy <- mflag rmp FS_CALL;
  if busy : bool then panic "tell_fs: not idle" else
  do r <- emit (Asynsend FS_PROC_NR m);
  if negb (r =? OK) then panic "unable to send to FS" else
  wrm rmp (or_flags FS_CALL).

(** ** [setreply] of main.c, [set_alarm] of alarm.c *)

Definition setreply (proc_nr result : Z) : PM unit :=
  if (proc_nr <? 0) || (NR_PROCS <=? proc_nr) then panic "setreply arg out of range" else
  do! wrm proc_nr (upd_reply (set_reply_res result));
  wrm proc_nr (or_flags REPLY).

Definition set_alarm (rmp ticks : Z) : PM unit :=
  if 0 <? ticks then
    do ep <- rdm rmp mp_endpoint;
    do! pm_set_timer rmp ticks W_cause_sigalrm ep;
    wrm rmp (or_flags ALARM_ON)
  else
    do on <- mflag rmp ALARM_ON;
    when on (do! pm_cancel_timer rmp; wrm rmp (clear_flags ALARM_ON)).

(** [find_param]: the boot monitor parameters are NAME=VALUE strings, each ended by a
    0, the list ended by an empty one; the result is the offset of the value.  [None]
    is NULL; [fuel] bounds the characters scanned. *)
Fixpoint match_name (name : list Z) (envp : list Z) : list Z * list Z :=
  match name, envp with
  | c :: name', d :: envp' => if c =? d then match_name name' envp' else (name, envp)
  | _, _ => (name, envp)
  end.

Fixpoint skip_string (l : list Z) : list Z :=
  match l with [] => [] | c :: l' => if c =? 0 then l' else skip_string l' end.

Fixpoint find_param_in (fuel : nat) (name envp : list Z) : option (list Z) :=
  match fuel with
  | O => None
  | S fuel' =>
      match envp with
      | [] => None
      | c :: _ =>
          if c =? 0 then None
          else match match_name name envp with
               | ([], d :: rest) => if d =? 0x3d then Some rest
                                    else find_param_in fuel' name (skip_string (d :: rest))
               | (_, rest) => find_param_in fuel' name (skip_string rest)
               end
      end
  end.

Definition find_param (name : list Z) : PM (option (list Z)) :=
  gets (fun s => find_param_in (S (length (monitor_params s))) (cstr name) (monitor_params s)).

End env.
