(* ===== verification/PmSig.v ===== *)
(** * The process manager: signals and the end of processes

    The routines of servers/pm/signal.c, forkexit.c and trace.c by which a signal is
    delivered or kills a process, and a process exits.  They call each other: a lethal
    signal exits a process ([sig_proc] calls [exit_proc]), and an exit signals the
    parent, the traced processes and the process group ([exit_proc] calls
    [check_parent], [tracer_died] and [check_sig], which call [sig_proc]).  The
    routines that are part of this cycle have an argument [exit_rec] for the inner
    [exit_proc]; [exit_proc] ties the knot with one unit of fuel for each process
    that can still exit.  [printf] is left out. *)
From S2P Require Import Prelude PList KMonad Timers Types KCalls Signals PrivCtl SysTask PmTypes PmLib.

Section env.
Context `{PmEnv}.

(** The elements of [mp_sigact[_NSIG]]. *)
Definition rd_sigact {A} (rmp signo : Z) (f : sigaction -> A) : PM A :=
  if (0 <=? signo) && (signo <? _NSIG) then rdm rmp (fun p => f (mp_sigact p signo))
  else stuck BadIndex.
Definition wr_sigact (rmp signo : Z) (f : sigaction -> sigaction) : PM unit :=
  if (0 <=? signo) && (signo <? _NSIG)
  then wrm rmp (fun p => set_mp_sigact (<[signo := f (mp_sigact p signo)]> (mp_sigact p)) p)
  else stuck BadIndex.
Definition set_sa_handler (v : Z) (a : sigaction) : sigaction := mk_sigaction v (sa_mask a) (sa_flags a).
Definition set_sa_mask (v : Z) (a : sigaction) : sigaction := mk_sigaction (sa_handler a) v (sa_flags a).
Definition set_sa_flags (v : Z) (a : sigaction) : sigaction := mk_sigaction (sa_handler a) (sa_mask a) v.

(** [sigaddset(&rmp->field, sig)] and [sigdelset] on the fields they are used on. *)
Definition add_sigpending (sig : Z) (p : mproc) : mproc := set_mp_sigpending (sigaddset (mp_sigpending p) sig) p.
Definition del_sigpending (sig : Z) (p : mproc) : mproc := set_mp_sigpending (sigdelset (mp_sigpending p) sig) p.
Definition add_sigtrace (sig : Z) (p : mproc) : mproc := set_mp_sigtrace (sigaddset (mp_sigtrace p) sig) p.
Definition del_sigtrace (sig : Z) (p : mproc) : mproc := set_mp_sigtrace (sigdelset (mp_sigtrace p) sig) p.
Definition add_sigmask (sig : Z) (p : mproc) : mproc := set_mp_sigmask (sigaddset (mp_sigmask p) sig) p.
Definition del_sigmask (sig : Z) (p : mproc) : mproc := set_mp_sigmask (sigdelset (mp_sigmask p) sig) p.
Definition add_catch (sig : Z) (p : mproc) : mproc := set_mp_catch (sigaddset (mp_catch p) sig) p.
Definition del_catch (sig : Z) (p : mproc) : mproc := set_mp_catch (sigdelset (mp_catch p) sig) p.
Definition add_ignore (sig : Z) (p : mproc) : mproc := set_mp_ignore (sigaddset (mp_ignore p) sig) p.
Definition del_ignore (sig : Z) (p : mproc) : mproc := set_mp_ignore (sigdelset (mp_ignore p) sig) p.
Definition add_sig2mess (sig : Z) (p : mproc) : mproc := set_mp_sig2mess (sigaddset (mp_sig2mess p) sig) p.
Definition del_sig2mess (sig : Z) (p : mproc) : mproc := set_mp_sig2mess (sigdelset (mp_sig2mess p) sig) p.

(** ** Routines that do not exit a process *)

(** The test of [wait_test]: is [rmp] waiting for [child]? *)
Definition waits_child (rmp child : mproc) : bool :=
  flag_any (mp_flags rmp) WAITING &&
  ((mp_wpid rmp =? -1) || (mp_wpid rmp =? mp_pid child) || (i32 (- mp_wpid rmp) =? mp_procgrp child)).

Definition wait_test (rmp child : Z) : PM bool :=
  do r <- rdm rmp id; do c <- rdm child id; ret (waits_child r c).

(** [stop_proc] (trace.c). *)
Definition stop_proc (rmp signo : Z) : PM unit :=
  do ep <- rdm rmp mp_endpoint;
  do tracer <- rdm rmp mp_tracer;
  do rm <- sys_trace T_STOP ep 0 None;
  if negb (fst rm =? OK) then panic "sys_trace failed" else
  do! wrm rmp (or_flags STOPPED);
  do w <- wait_test tracer rmp;
  when w
    (do! wrm rmp (del_sigtrace signo);
     do! wrm tracer (clear_flags WAITING);
     do! wrm tracer (upd_reply (set_reply_res2 (Z.lor 127 (Z.shiftl signo 8))));
     do pid <- rdm rmp mp_pid;
     setreply tracer pid).

(** [vm_notify_sig_wrapper]: the first process named "ipc". *)
Definition ipc_name : list Z := [0x69; 0x70; 0x63].
Definition is_ipc (p : mproc) : bool :=
  flag_any (mp_flags p) IN_USE && bool_decide (cstr (mp_name p) = ipc_name).

Definition vm_notify_sig_wrapper (ep : Z) : PM unit :=
  do o <- gets (fun s => List.find (fun n => is_ipc (mproc_tab s n)) all_mslots);
  match o with
  | None => ret tt
  | Some n => do ipc_ep <- rdm n mp_endpoint; do! vm_notify_sig ep ipc_ep; ret tt
  end.

Definition unpause (rmp : Z) : PM unit :=
  do delayed <- mflag rmp DELAY_CALL;
  if delayed : bool then ret tt else
  do ep <- rdm rmp mp_endpoint;
  do paused <- mflag rmp (Z.lor (Z.lor PAUSED WAITING) SIGSUSPENDED);
  if paused : bool then
    do r <- sys_stop ep;
    if negb (r =? OK) then panic "sys_stop failed" else wrm rmp (or_flags UNPAUSED)
  else
  let ask_fs :=
    do! tell_fs rmp (set_m1_i1 ep (set_m_type PM_UNPAUSE uninit));
    vm_notify_sig_wrapper ep in
  do stopped <- mflag rmp PM_SIG_PENDING;
  if negb stopped then
    do r <- sys_delay_stop ep;
    if r =? EBUSY then wrm rmp (or_flags DELAY_CALL)
    else if negb (r =? OK) then panic "sys_stop failed"
    else do! wrm rmp (or_flags PM_SIG_PENDING); ask_fs
  else ask_fs.

(** The second half of [sig_send]: the handler is on the stack. *)
Definition sig_sent (rmp : Z) : PM bool :=
  do susp <- mflag rmp (Z.lor (Z.lor PAUSED WAITING) SIGSUSPENDED);
  do! when susp
    (do! wrm rmp (clear_flags (Z.lor (Z.lor PAUSED WAITING) SIGSUSPENDED));
     setreply rmp EINTR);
  do just <- rdm rmp (fun p => Z.land (mp_flags p) (Z.lor PM_SIG_PENDING UNPAUSED) =? UNPAUSED);
  do! when just
    (do! wrm rmp (clear_flags UNPAUSED);
     do ep <- rdm rmp mp_endpoint;
     do r <- sys_resume ep;
     if negb (r =? OK) then panic "sys_resume failed" else ret tt);
  ret true.

Definition sig_send (rmp signo : Z) : PM bool :=
  do unp <- mflag rmp UNPAUSED;
  if negb unp then panic "sig_send: process not unpaused" else
  do sigflags <- rd_sigact rmp signo sa_flags;
  do susp <- mflag rmp SIGSUSPENDED;
  do mask <- rdm rmp (if susp : bool then mp_sigmask2 else mp_sigmask);
  do hnd <- rd_sigact rmp signo sa_handler;
  do sr <- rdm rmp mp_sigreturn;
  do samask <- rd_sigact rmp signo sa_mask;
  do! wrm rmp (fun p => set_mp_sigmask (Z.lor (mp_sigmask p) samask) p);
  do! wrm rmp (if flag_any sigflags SA_NODEFER then del_sigmask signo else add_sigmask signo);
  do! when (flag_any sigflags SA_RESETHAND)
    (do! wrm rmp (del_catch signo);
     wr_sigact rmp signo (set_sa_handler SIG_DFL));
  do! wrm rmp (del_sigpending signo);
  do ep <- rdm rmp mp_endpoint;
  do rm <- vm_push_sig ep;
  if negb (fst rm =? OK) then ret false else
  do r <- sys_sigsend ep (mk_sigmsg signo mask hnd sr (m1_p1 (snd rm)));
  if negb (r =? OK) then panic "sys_sigsend failed" else
  sig_sent rmp.

(** [tell_parent], [tell_tracer], [cleanup]. *)
Definition exit_word (p : mproc) : Z :=
  Z.lor (Z.shiftl (mp_exitstatus p) 8) (Z.land (mp_sigstatus p) 0xFF).

Definition tell_parent (child : Z) : PM unit :=
  do parent <- rdm child mp_parent;
  if parent <=? 0 then panic "tell_parent: bad value in mp_parent" else
  do z <- mflag child ZOMBIE;
  if negb z then panic "tell_parent: child not a zombie" else
  do told <- mflag child TOLD_PARENT;
  if told : bool then panic "tell_parent: telling parent again" else
  do exitstatus <- rdm child exit_word;
  do! wrm parent (upd_reply (set_reply_res2 exitstatus));
  do pid <- rdm child mp_pid;
  do! setreply parent pid;
  do! wrm parent (clear_flags WAITING);
  do! wrm child (clear_flags ZOMBIE);
  wrm child (or_flags TOLD_PARENT).

Definition tell_tracer (child : Z) : PM unit :=
  do tracer <- rdm child mp_tracer;
  if tracer <=? 0 then panic "tell_tracer: bad value in mp_tracer" else
  do z <- mflag child TRACE_ZOMBIE;
  if negb z then panic "tell_tracer: child not a zombie" else
  do exitstatus <- rdm child exit_word;
  do! wrm tracer (upd_reply (set_reply_res2 exitstatus));
  do pid <- rdm child mp_pid;
  do! setreply tracer pid;
  do! wrm tracer (clear_flags WAITING);
  do! wrm child (clear_flags TRACE_ZOMBIE);
  wrm child (or_flags ZOMBIE).

Definition cleanup (rmp : Z) : PM unit :=
  do! wrm rmp (set_mp_pid 0);
  do! wrm rmp (set_mp_flags 0);
  do! wrm rmp (set_mp_child_utime 0);
  do! wrm rmp (set_mp_child_stime 0);
  modify (fun s => set_procs_in_use (procs_in_use s - 1) s).

(** ** The cycle *)
Section cycle.
Context (exit_rec : Z -> Z -> bool -> PM unit).

(** The signal is caught: interrupt the call of the process, then set up the handler.
    The result says that nothing is left to do. *)
Definition catch_sig (rmp signo : Z) : PM bool :=
  do unp <- mflag rmp UNPAUSED;
  do! when (negb unp) (unpause rmp);
  do unp <- mflag rmp UNPAUSED;
  if negb unp then do! wrm rmp (add_sigpending signo); ret true
  else sig_send rmp signo.

Definition terminate (rmp signo : Z) : PM unit :=
  do! wrm rmp (set_mp_sigstatus (i8 signo));
  do core <- gets (fun s => sigismember (core_sset s) signo);
  exit_rec rmp 0 core.

Definition sig_proc_with (rmp signo : Z) (trace : bool) : PM unit :=
  do live <- rdm rmp is_live;
  if negb live then panic "signal sent to exiting process" else
  do tracer <- rdm rmp mp_tracer;
  if trace && negb (tracer =? NO_TRACER) && negb (signo =? SIGKILL) then
    do! wrm rmp (add_sigtrace signo);
    do st <- mflag rmp STOPPED;
    when (negb st) (stop_proc rmp signo)
  else
  do fs <- mflag rmp FS_CALL;
  if fs : bool then
    do! wrm rmp (add_sigpending signo);
    do pend <- mflag rmp PM_SIG_PENDING;
    when (negb pend)
      (do ep <- rdm rmp mp_endpoint;
       do r <- sys_stop ep;
       if negb (r =? OK) then panic "sys_stop failed" else wrm rmp (or_flags PM_SIG_PENDING))
  else
  do ign <- rdm rmp (fun p => sigismember (mp_ignore p) signo);
  if ign : bool then ret tt else
  do blocked <- rdm rmp (fun p => sigismember (mp_sigmask p) signo);
  if blocked : bool then wrm rmp (add_sigpending signo) else
  do mess <- rdm rmp (fun p => sigismember (mp_sig2mess p) signo);
  if mess : bool then
    do! wrm rmp (add_sigpending signo);
    do ep <- rdm rmp mp_endpoint;
    do! emit (Notify ep); ret tt
  else
  do st <- mflag rmp STOPPED;
  if st && negb (signo =? SIGKILL) then wrm rmp (add_sigpending signo) else
  do caught <- rdm rmp (fun p => sigismember (mp_catch p) signo);
  if caught : bool then
    do handled <- catch_sig rmp signo;
    if handled : bool then ret tt else terminate rmp signo
  else
  do dfl <- gets (fun s => sigismember (ign_sset s) signo);
  if dfl : bool then ret tt else terminate rmp signo.

(** The tests of [check_sig] on a process of the table: is it selected by [proc_id], and
    may [me] signal it? *)
Definition sig_selects (me rmp : mproc) (proc_id signo : Z) : bool :=
  flag_any (mp_flags rmp) IN_USE &&
  negb ((0 <? proc_id) && negb (proc_id =? mp_pid rmp)) &&
  negb ((proc_id =? 0) && negb (mp_procgrp me =? mp_procgrp rmp)) &&
  negb ((proc_id =? -1) && (mp_pid rmp <=? INIT_PID)) &&
  negb ((proc_id <? -1) && negb (mp_procgrp rmp =? i32 (- proc_id))) &&
  negb ((proc_id =? -1) && (signo =? SIGKILL) && flag_any (mp_flags rmp) PRIV_PROC).

Definition sig_allowed (me rmp : mproc) : bool :=
  (mp_effuid me =? SUPER_USER) || (mp_realuid me =? mp_realuid rmp) ||
  (mp_effuid me =? mp_realuid rmp) || (mp_realuid me =? mp_effuid rmp) ||
  (mp_effuid me =? mp_effuid rmp).

(** One round of the loop: [count] and [error_code]; [inr] is the [break]. *)
Definition check_sig_one (proc_id signo : Z) (acc : Z * Z) (rmp : Z) : PM (Z * Z + Z * Z) :=
  do cur <- gets mp;
  do me <- rdm cur id;
  do p <- rdm rmp id;
  if negb (sig_selects me p proc_id signo) then ret (inl acc)
  else if negb (sig_allowed me p) then ret (inl (fst acc, EPERM))
  else
    let acc' := (fst acc + 1, snd acc) in
    if (signo =? 0) || flag_any (mp_flags p) EXITING then ret (inl acc')
    else do! sig_proc_with rmp signo true;
         if 0 <? proc_id then ret (inr acc') else ret (inl acc').

Definition check_sig_with (proc_id signo : Z) : PM Z :=
  if (signo <? 0) || (_NSIG <=? signo) then ret EINVAL
  else if (proc_id =? INIT_PID) && (signo =? SIGKILL) then ret EINVAL
  else
    do r <- fold_exit all_mslots (0, ESRCH) (check_sig_one proc_id signo);
    let (count, error_code) := match r with inl a => a | inr a => a end in
    do cur <- gets mp;
    do live <- rdm cur is_live;
    if negb live then ret SUSPEND
    else ret (if 0 <? count then OK else error_code).

Definition check_parent_with (child : Z) (try_cleanup : bool) : PM unit :=
  do parent <- rdm child mp_parent;
  do dying <- mflag parent EXITING;
  if dying : bool then ret tt else
  do w <- wait_test parent child;
  if w : bool then
    do! tell_parent child;
    do fs <- mflag child FS_CALL;
    when (try_cleanup && negb fs) (cleanup child)
  else sig_proc_with parent SIGCHLD true.

Definition zombify_with (rmp : Z) : PM unit :=
  do z <- mflag rmp (Z.lor TRACE_ZOMBIE ZOMBIE);
  if z : bool then panic "zombify: process was already a zombie" else
  do tracer <- rdm rmp mp_tracer;
  do parent <- rdm rmp mp_parent;
  if negb (tracer =? NO_TRACER) && negb (tracer =? parent) then
    do! wrm rmp (or_flags TRACE_ZOMBIE);
    do w <- wait_test tracer rmp;
    if negb w then ret tt else
    do! tell_tracer rmp; check_parent_with rmp false
  else
    do! wrm rmp (or_flags ZOMBIE);
    check_parent_with rmp false.

Definition tracer_died_with (child : Z) : PM unit :=
  do! wrm child (set_mp_tracer NO_TRACER);
  do! wrm child (clear_flags TRACE_EXIT);
  do dying <- mflag child EXITING;
  if negb dying then sig_proc_with child SIGKILL true else
  do z <- mflag child TRACE_ZOMBIE;
  when z
    (do! wrm child (clear_flags TRACE_ZOMBIE);
     do! wrm child (or_flags ZOMBIE);
     check_parent_with child true).

(** One round of the loop that disinherits the children of [proc_nr]. *)
Definition disinherit (proc_nr rmp : Z) : PM unit :=
  do used <- mflag rmp IN_USE;
  if negb used then ret tt else
  do tracer <- rdm rmp mp_tracer;
  do! when (tracer =? proc_nr) (tracer_died_with rmp);
  do parent <- rdm rmp mp_parent;
  when (parent =? proc_nr)
    (do! wrm rmp (set_mp_parent INIT_PROC_NR);
     do z <- mflag rmp ZOMBIE;
     when z (check_parent_with rmp true)).

(** The first half of [exit_proc], before FS is told: stop the timer, account for the
    times, stop the process, tell VM. *)
Definition exit_prepare (rmp : Z) : PM unit :=
  do proc_nr_e <- rdm rmp mp_endpoint;
  do alarm <- mflag rmp ALARM_ON;
  do! when alarm (set_alarm rmp 0);
  do rt <- sys_times proc_nr_e;
  if negb (fst rt =? OK) then panic "exit_proc: sys_times failed" else
  do parent <- rdm rmp mp_parent;
  do utime <- rdm rmp mp_child_utime;
  do! wrm parent (fun p => set_mp_child_utime (i32 (mp_child_utime p + (m4_l1 (snd rt) + utime))) p);
  do stime <- rdm rmp mp_child_stime;
  do! wrm parent (fun p => set_mp_child_stime (i32 (mp_child_stime p + (m4_l2 (snd rt) + stime))) p);
  do r <- sys_stop proc_nr_e;
  if negb (r =? OK) then panic "sys_stop failed" else
  do r <- vm_willexit proc_nr_e;
  if negb (r =? OK) then panic "exit_proc: vm_willexit failed" else
  vm_notify_sig_wrapper proc_nr_e.

(** The middle: tell FS, and the kernel for a system process; mark the process. *)
Definition exit_mark (rmp exit_status : Z) (dump_core : bool) : PM unit :=
  do proc_nr_e <- rdm rmp mp_endpoint;
  do! tell_fs rmp (set_m1_i1 proc_nr_e (set_m_type (if dump_core then PM_DUMPCORE else PM_EXIT) uninit));
  do priv <- mflag rmp PRIV_PROC;
  do! when priv
    (do r <- sys_exit proc_nr_e;
     if negb (r =? OK) then panic "exit_proc: sys_exit failed" else ret tt);
  do! wrm rmp (fun p => set_mp_flags (Z.land (mp_flags p)
         (Z.lor (Z.lor IN_USE FS_CALL) (Z.lor PRIV_PROC TRACE_EXIT))) p);
  do! wrm rmp (or_flags EXITING);
  wrm rmp (set_mp_exitstatus (i8 exit_status)).

Definition exit_body (rmp exit_status : Z) (dump_core : bool) : PM unit :=
  do setuid <- rdm rmp (fun p => negb (mp_realuid p =? mp_effuid p));
  do priv <- mflag rmp PRIV_PROC;
  let dump_core := dump_core && negb setuid && negb priv in
  do proc_nr_e <- rdm rmp mp_endpoint;
  do pid <- rdm rmp mp_pid;
  do cur <- gets mp;
  do grp <- rdm cur mp_procgrp;
  let procgrp := if pid =? grp then grp else 0 in
  do! exit_prepare rmp;
  if proc_nr_e =? INIT_PROC_NR then ret tt
  else if proc_nr_e =? FS_PROC_NR then panic "exit_proc: FS died"
  else
    do! exit_mark rmp exit_status dump_core;
    do! when (negb dump_core) (zombify_with rmp);
    do! for_each all_mslots (disinherit rmp);
    when (negb (procgrp =? 0)) (do! check_sig_with (- procgrp) SIGHUP; ret tt).

End cycle.

(** Every exit inside an exit marks one more process, so one unit of fuel for each slot
    and one for the outermost call are enough. *)
Fixpoint exit_fuel (fuel : nat) : Z -> Z -> bool -> PM unit :=
  match fuel with
  | O => fun _ _ _ => stuck OutOfFuel
  | S fuel' => exit_body (exit_fuel fuel')
  end.

Definition EXIT_FUEL : nat := 257.

Definition exit_proc : Z -> Z -> bool -> PM unit := exit_fuel EXIT_FUEL.
Definition sig_proc := sig_proc_with exit_proc.
Definition check_sig := check_sig_with exit_proc.
Definition check_parent := check_parent_with exit_proc.
Definition zombify := zombify_with exit_proc.
Definition tracer_died := tracer_died_with exit_proc.

End env.
