(* ===== verification/PmCalls.v ===== *)
(** * The process manager: the system calls

    The handlers of signal.c, forkexit.c, alarm.c and time.c.  Each returns the result
    for the caller, [SUSPEND] for none. *)
From S2P Require Import Prelude PList KMonad Timers Types Memory KCalls Signals PrivCtl SysTask.
From S2P Require Import PmTypes PmLib PmSig.

(** The signals of the loops [for (i = 1; i < _NSIG; i++)]. *)
Definition all_sigs : list Z := seqZ 1 (_NSIG - 1).

Section env.
Context `{PmEnv}.

(** [mp->field], [m_in.field], and an assignment through [mp]. *)
Definition rd_mp {A} (f : mproc -> A) : PM A := do cur <- gets mp; rdm cur f.
Definition wr_mp (f : mproc -> mproc) : PM unit := do cur <- gets mp; wrm cur f.
Definition min {A} (f : message -> A) : PM A := gets (fun s => f (m_in s)).

(** ** signal.c *)

Definition SIGACTION_SIZE : Z := 12.

Definition do_sigaction : PM Z :=
  do sig_nr <- min m1_i2;
  if sig_nr =? SIGKILL then ret OK
  else if (sig_nr <? 1) || (_NSIG <=? sig_nr) then ret EINVAL
  else
  do cur <- gets mp;
  do we <- gets who_e;
  do osa <- min m1_p2;
  do old <- rd_sigact cur sig_nr id;
  do r <- (if negb (osa =? 0)
           then sys_datacopy PM_PROC_NR (addr (V_sigact cur sig_nr)) we osa SIGACTION_SIZE
                  (B_sigaction old)
           else ret OK);
  if negb (r =? OK) then ret r else
  do nsa <- min m1_p1;
  if nsa =? 0 then ret OK else
  do r <- sys_datacopy we nsa PM_PROC_NR (addr V_svec) SIGACTION_SIZE B_none;
  if negb (r =? OK) then ret r else
  do svec <- gets (fun s => in_sigaction (history s));
  do priv <- mflag cur PRIV_PROC;
  if (sa_handler svec =? SIG_MESS) && negb priv then ret EPERM else
  do! wrm cur (fun p =>
    if sa_handler svec =? SIG_IGN then
      del_sig2mess sig_nr (del_catch sig_nr (del_sigpending sig_nr (add_ignore sig_nr p)))
    else if sa_handler svec =? SIG_DFL then
      del_sig2mess sig_nr (del_catch sig_nr (del_ignore sig_nr p))
    else if sa_handler svec =? SIG_MESS then
      del_catch sig_nr (add_sig2mess sig_nr (del_ignore sig_nr p))
    else del_sig2mess sig_nr (add_catch sig_nr (del_ignore sig_nr p)));
  do! wr_sigact cur sig_nr (set_sa_handler (sa_handler svec));
  do! wr_sigact cur sig_nr (set_sa_mask (sigdelset (sigdelset (sa_mask svec) SIGKILL) SIGSTOP));
  do! wr_sigact cur sig_nr (set_sa_flags (sa_flags svec));
  do sret <- min m1_p3;
  do! wrm cur (set_mp_sigreturn (u32 sret));
  ret OK.

Definition do_sigpending : PM Z :=
  do pend <- rd_mp mp_sigpending;
  do! wr_mp (upd_reply (set_reply_mask (i32 pend)));
  ret OK.

(** [check_pending]: as many pending signals as can be delivered. *)
Definition check_pending_one (rmp : Z) (i : Z) : PM (option unit) :=
  do p <- rdm rmp id;
  if sigismember (mp_sigpending p) i && negb (sigismember (mp_sigmask p) i) then
    do! wrm rmp (del_sigpending i);
    do! sig_proc rmp i false;
    do fs <- mflag rmp FS_CALL;
    ret (if fs : bool then Some tt else None)
  else ret None.

Definition check_pending (rmp : Z) : PM unit :=
  do! for_return all_sigs (check_pending_one rmp); ret tt.

Definition unmaskable (set : Z) : Z := sigdelset (sigdelset set SIGKILL) SIGSTOP.

(** [set] without, or with, the signals 1 to _NSIG - 1 of [sigs]. *)
Definition add_sigs (sigs set : Z) : Z :=
  fold_left (fun acc i => if sigismember sigs i then sigaddset acc i else acc) all_sigs set.
Definition del_sigs (sigs set : Z) : Z :=
  fold_left (fun acc i => if sigismember sigs i then sigdelset acc i else acc) all_sigs set.

Definition do_sigprocmask : PM Z :=
  do cur <- gets mp;
  do old <- rdm cur mp_sigmask;
  do! wrm cur (upd_reply (set_reply_mask (i32 old)));
  do how <- min m2_i1;
  if how =? SIG_BLOCK then
    do! modify (fun s => set_m_in (set_m2_l1 (unmaskable (m2_l1 (m_in s))) (m_in s)) s);
    do set <- min m2_l1;
    do! wrm cur (fun p => set_mp_sigmask (add_sigs set (mp_sigmask p)) p);
    ret OK
  else if how =? SIG_UNBLOCK then
    do set <- min m2_l1;
    do! wrm cur (fun p => set_mp_sigmask (del_sigs set (mp_sigmask p)) p);
    do! check_pending cur;
    ret OK
  else if how =? SIG_SETMASK then
    do! modify (fun s => set_m_in (set_m2_l1 (unmaskable (m2_l1 (m_in s))) (m_in s)) s);
    do set <- min m2_l1;
    do! wrm cur (set_mp_sigmask (u32 set));
    do! check_pending cur;
    ret OK
  else if how =? SIG_INQUIRE then ret OK
  else ret EINVAL.

Definition do_sigsuspend : PM Z :=
  do cur <- gets mp;
  do! wrm cur (fun p => set_mp_sigmask2 (mp_sigmask p) p);
  do set <- min m2_l1;
  do! wrm cur (set_mp_sigmask (unmaskable (u32 set)));
  do! wrm cur (or_flags SIGSUSPENDED);
  do! check_pending cur;
  ret SUSPEND.

Definition do_sigreturn : PM Z :=
  do cur <- gets mp;
  do set <- min m2_l1;
  do! wrm cur (set_mp_sigmask (unmaskable (u32 set)));
  do we <- gets who_e;
  do ctx <- min m2_p1;
  do r <- sys_sigreturn we ctx;
  do! check_pending cur;
  ret r.

Definition do_kill : PM Z :=
  do pid <- min m1_i1; do sig_nr <- min m1_i2; check_sig pid sig_nr.

Definition do_pause : PM Z := do! wr_mp (or_flags PAUSED); ret SUSPEND.

Definition check_vtimer (proc_nr sig : Z) : PM unit :=
  do wn <- (if sig =? SIGVTALRM then ret (ITIMER_VIRTUAL, VT_VIRTUAL)
            else if sig =? SIGPROF then ret (ITIMER_PROF, VT_PROF)
            else panic "invalid vtimer signal");
  do iv <- rdm proc_nr (fun p => mp_interval p (fst wn));
  when (0 <? iv) (do ep <- rdm proc_nr mp_endpoint; do! sys_vtimer ep (snd wn) (Some iv); ret tt).

(** One signal of the map of [handle_ksig]. *)
Definition ksig_one (proc_nr proc_id sig_map : Z) (i : Z) : PM unit :=
  if negb (sigismember sig_map i) then ret tt
  else if (i =? SIGINT) || (i =? SIGQUIT) || (i =? SIGWINCH) then do! check_sig 0 i; ret tt
  else
    do! when ((i =? SIGVTALRM) || (i =? SIGPROF)) (check_vtimer proc_nr i);
    do! check_sig proc_id i; ret tt.

Definition handle_ksig (proc_nr_e sig_map : Z) : PM unit :=
  do ok <- pm_isokendpt proc_nr_e;
  let (r, rmp) := ok in
  if negb (r =? OK) || (rmp <? 0) then ret tt else
  do live <- rdm rmp is_live;
  if negb live then ret tt else
  do proc_id <- rdm rmp mp_pid;
  do! modify (set_mp 0);
  do grp <- rdm rmp mp_procgrp;
  do! wr_mp (set_mp_procgrp grp);
  do! for_each all_sigs (ksig_one rmp proc_id sig_map);
  do delayed <- mflag rmp DELAY_CALL;
  when (sigismember sig_map SIGNDELAY && delayed)
    (do! wrm rmp (clear_flags DELAY_CALL);
     do bad <- mflag rmp (Z.lor FS_CALL PM_SIG_PENDING);
     if bad : bool then panic "handle_ksig: bad process state" else
     do! check_pending rmp;
     do again <- mflag rmp DELAY_CALL;
     if again : bool then panic "handle_ksig: multiple delay calls?" else ret tt).

(** The kernel decides how long the loop of [ksig_pending] goes on: [fuel] rounds. *)
Definition ksig_round : PM bool :=
  do rm <- sys_getksig;
  if negb (fst rm =? OK) then panic "sys_getksig failed" else
  let proc_nr_e := m2_i1 (snd rm) in
  let sig_map := u32 (m2_l1 (snd rm)) in
  if NONE =? proc_nr_e then ret false else
  do ok <- pm_isokendpt proc_nr_e;
  if negb (fst ok =? OK) then panic "sys_getksig strange process" else
  do! handle_ksig proc_nr_e sig_map;
  do live <- rdm (snd ok) is_live;
  do! when live
    (do r <- sys_endksig proc_nr_e;
     if negb (r =? OK) then panic "sys_endksig failed" else ret tt);
  ret true.

Definition ksig_pending (fuel : nat) : PM Z := do! while fuel ksig_round; ret SUSPEND.

Definition restart_sigs (rmp : Z) : PM unit :=
  do busy <- mflag rmp (Z.lor FS_CALL EXITING);
  if busy : bool then ret tt else
  do te <- mflag rmp TRACE_EXIT;
  if te : bool then do st <- rdm rmp mp_exitstatus; exit_proc rmp st false
  else
  do pend <- mflag rmp PM_SIG_PENDING;
  when pend
    (do! check_pending rmp;
     do fs <- mflag rmp FS_CALL;
     when (negb fs)
       (do! wrm rmp (clear_flags (Z.lor PM_SIG_PENDING UNPAUSED));
        do ep <- rdm rmp mp_endpoint;
        do r <- sys_resume ep;
        if negb (r =? OK) then panic "sys_resume failed" else ret tt)).

(** ** forkexit.c *)

(** The search of a slot: [do { next_child = ...; n++ } while (used && n <= NR_PROCS)];
    [rounds] are the rounds left before [n > NR_PROCS], which is [None]. *)
Fixpoint fork_search (rounds : nat) (used : Z -> bool) (child : Z) : option Z :=
  match rounds with
  | O => None
  | S rounds' =>
      let child' := Z.rem (child + 1) NR_PROCS in
      if used child' then fork_search rounds' used child' else Some child'
  end.

(** The slot of the child, copied from the parent's ([*rmc = *rmp]) and reset. *)
Definition forked (who child_ep : Z) (p : mproc) : mproc :=
  let c := set_mp_parent who p in
  let c := if negb (flag_any (mp_trace_flags c) TO_TRACEFORK)
           then set_mp_sigtrace 0 (set_mp_trace_flags 0 (set_mp_tracer NO_TRACER c)) else c in
  let c := set_mp_flags (Z.land (mp_flags c) (Z.lor (Z.lor IN_USE PRIV_PROC) DELAY_CALL)) c in
  let c := set_mp_sigstatus 0 (set_mp_exitstatus 0 (set_mp_child_stime 0 (set_mp_child_utime 0 c))) in
  let c := set_mp_endpoint child_ep c in
  set_mp_interval (fun i => if (0 <=? i) && (i <? NR_ITIMERS) then 0 else mp_interval c i) c.

(** The part [do_fork] and [do_fork_nb] share, on their own static [next_child]: the
    error, or the slot of the child. *)
Definition fork_common (get : pm_state -> Z) (put : Z -> pm_state -> pm_state) (request : Z) : PM (Z + Z) :=
  do rmp <- gets mp;
  do full <- gets (fun s => procs_in_use s =? NR_PROCS);
  do tight <- gets (fun s => NR_PROCS - LAST_FEW <=? procs_in_use s);
  do uid <- rdm rmp mp_effuid;
  if full || (tight && negb (uid =? 0)) then ret (inl EAGAIN) else
  do found <- gets (fun s => fork_search (Z.to_nat NR_PROCS)
                (fun n => flag_any (mp_flags (mproc_tab s n)) IN_USE) (get s));
  match found with
  | None => panic "do_fork can't find child slot"
  | Some rmc =>
      do! modify (put rmc);
      do used <- gets (fun s => flag_any (mp_flags (mproc_tab s rmc)) IN_USE);
      if negb (bool_decide (mslot rmc)) || used then panic "do_fork finds wrong child slot" else
      do ep <- rdm rmp mp_endpoint;
      do rm <- vm_fork ep rmc;
      if negb (fst rm =? OK) then ret (inl (fst rm)) else
      do! modify (fun s => set_procs_in_use (procs_in_use s + 1) s);
      do who <- gets who_p;
      do parent <- rdm rmp id;
      do! wrm rmc (fun _ => forked who (m1_i3 (snd rm)) parent);
      do! modify (fun s => set_pm_timers (upd_tm rmc (fun _ => tm (pm_timers s) rmp) (pm_timers s)) s);
      do new_pid <- get_free_pid;
      do! wrm rmc (set_mp_pid new_pid);
      do cep <- rdm rmc mp_endpoint;
      do! tell_fs rmc (set_m1_i3 new_pid (set_m1_i2 ep (set_m1_i1 cep (set_m_type request uninit))));
      do tracer <- rdm rmc mp_tracer;
      do! when (negb (tracer =? NO_TRACER)) (sig_proc rmc SIGSTOP true);
      ret (inr rmc)
  end.

Definition do_fork : PM Z :=
  do r <- fork_common next_child set_next_child PM_FORK;
  match r with inl e => ret e | inr _ => ret SUSPEND end.

Definition do_fork_nb : PM Z :=
  do priv <- rd_mp (fun p => flag_any (mp_flags p) PRIV_PROC);
  if negb priv then ret EPERM else
  do r <- fork_common next_child_nb set_next_child_nb PM_FORK_NB;
  match r with
  | inl e => ret e
  | inr rmc => do! setreply rmc OK; rdm rmc mp_pid
  end.

Definition do_exit : PM Z :=
  do cur <- gets mp; do st <- min m1_i1; do! exit_proc cur st false; ret SUSPEND.

Definition exit_restart (rmp : Z) (dump_core : bool) : PM unit :=
  do! when dump_core (zombify rmp);
  do ep <- rdm rmp mp_endpoint;
  do priv <- mflag rmp PRIV_PROC;
  do! when (negb priv)
    (do r <- sys_exit ep;
     if negb (r =? OK) then panic "exit_restart: sys_exit failed" else ret tt);
  do r <- vm_exit ep;
  if negb (r =? OK) then panic "exit_restart: vm_exit failed" else
  do te <- mflag rmp TRACE_EXIT;
  do! when te
    (do tracer <- rdm rmp mp_tracer;
     do! wrm tracer (upd_reply (set_reply_trace 0));
     setreply tracer OK);
  do told <- mflag rmp TOLD_PARENT;
  when told (cleanup rmp).

(** Does [rp] qualify for the wait of [who] with [pidarg]? *)
Definition wait_qualifies (who pidarg : Z) (rp : mproc) : bool :=
  (Z.land (mp_flags rp) (Z.lor IN_USE TOLD_PARENT) =? IN_USE) &&
  ((mp_parent rp =? who) || (mp_tracer rp =? who)) &&
  negb (negb (mp_parent rp =? who) && flag_any (mp_flags rp) ZOMBIE) &&
  negb ((0 <? pidarg) && negb (pidarg =? mp_pid rp)) &&
  negb ((pidarg <? -1) && negb (i32 (- pidarg) =? mp_procgrp rp)).

(** One round of the loop of [do_waitpid]: the number of children so far, or the result. *)
Definition waitpid_one (who pidarg : Z) (children rp : Z) : PM (Z + Z) :=
  do p <- rdm rp id;
  if negb (wait_qualifies who pidarg p) then ret (inl children) else
  let children := children + 1 in
  let parent_part :=
    if (mp_parent p =? who) && flag_any (mp_flags p) ZOMBIE then
      do! tell_parent rp;
      do fs <- mflag rp FS_CALL;
      do! when (negb fs) (cleanup rp);
      ret (inr SUSPEND)
    else ret (inl children) in
  if mp_tracer p =? who then
    if flag_any (mp_flags p) TRACE_ZOMBIE then
      do! tell_tracer rp;
      do! check_parent rp true;
      ret (inr SUSPEND)
    else if flag_any (mp_flags p) STOPPED then
      match List.find (fun i => sigismember (mp_sigtrace p) i) all_sigs with
      | Some i =>
          do! wrm rp (del_sigtrace i);
          do! wr_mp (upd_reply (set_reply_res2 (Z.lor 127 (Z.shiftl i 8))));
          ret (inr (mp_pid p))
      | None => parent_part
      end
    else parent_part
  else parent_part.

Definition do_waitpid : PM Z :=
  do cn <- gets call_nr;
  do pid <- min m1_i1;
  do opt <- min m1_i2;
  do grp <- rd_mp mp_procgrp;
  do who <- gets who_p;
  let pidarg := if cn =? WAIT then -1 else pid in
  let options := if cn =? WAIT then 0 else opt in
  let pidarg := if pidarg =? 0 then i32 (- grp) else pidarg in
  do r <- fold_exit all_mslots 0 (waitpid_one who pidarg);
  match r with
  | inr result => ret result
  | inl children =>
      if 0 <? children then
        if flag_any options WNOHANG then ret 0
        else do! wr_mp (or_flags WAITING);
             do! wr_mp (set_mp_wpid pidarg);
             ret SUSPEND
      else ret ECHILD
  end.

(** ** alarm.c *)

Definition US : Z := 1000000.

(** The unsigned division of C. *)
Definition udiv (a b : Z) : PM Z := if b =? 0 then stuck DivByZero else ret (a / b).

(** [ticks_from_timeval], for a frequency [hz] that is not zero. *)
Definition ticks_of (hz : Z) (tv : timeval) : Z :=
  let ticks := i32 (u32 (hz * u32 (tv_sec tv))) in
  let ticks := if negb (u32 ticks / hz =? u32 (tv_sec tv)) then LONG_MAX
               else i32 (ticks + i32 (u32 (u32 (hz * u32 (tv_usec tv)) + (US - 1)) / US)) in
  if ticks <? 0 then LONG_MAX else ticks.

Definition ticks_from_timeval (tv : timeval) : PM Z :=
  do hz <- gets system_hz;
  do! udiv 0 hz;
  ret (ticks_of hz tv).

Definition timeval_of (hz ticks : Z) : timeval :=
  mk_timeval (i32 (u32 ticks / hz)) (i32 (u32 (u32 ticks mod hz * US) / hz)).

Definition timeval_from_ticks (ticks : Z) : PM timeval :=
  do hz <- gets system_hz;
  do! udiv 0 hz;
  ret (timeval_of hz ticks).

Definition is_sane_timeval (tv : timeval) : PM bool :=
  do hz <- gets system_hz;
  do max_secs <- udiv LONG_MAX hz;
  ret ((0 <=? tv_sec tv) && (tv_sec tv <=? max_secs) && (0 <=? tv_usec tv) && (tv_usec tv <? US)).

Definition set_interval (which v : Z) (p : mproc) : mproc :=
  set_mp_interval (<[which := v]> (mp_interval p)) p.

(** [value] and [want_old]: which of the two pointers are not NULL. *)
Definition getset_vtimer (rmp which : Z) (value : option itimerval) (want_old : bool) : PM (option itimerval) :=
  do oldint <- rdm rmp (fun p => mp_interval p which);
  do ointerval <- (if want_old then timeval_from_ticks oldint else ret (mk_timeval 0 0));
  do nptr <- match value with
             | None => ret None
             | Some v =>
                 do newticks <- ticks_from_timeval (it_value v);
                 do ni <- (if newticks <=? 0 then ret 0 else ticks_from_timeval (it_interval v));
                 do! wrm rmp (set_interval which ni);
                 ret (Some newticks)
             end;
  do num <- (if which =? ITIMER_VIRTUAL then ret VT_VIRTUAL
             else if which =? ITIMER_PROF then ret VT_PROF
             else panic "invalid vtimer type");
  do ep <- rdm rmp mp_endpoint;
  do rm <- sys_vtimer ep num nptr;
  if negb (fst rm =? OK) then panic "sys_vtimer failed" else
  if want_old then
    do oldticks <- (if m2_l1 (snd rm) <=? 0 then rdm rmp (fun p => mp_interval p which)
                    else ret (m2_l1 (snd rm)));
    do ovalue <- timeval_from_ticks oldticks;
    ret (Some (mk_itimerval ointerval ovalue))
  else ret None.

Definition get_realtimer (rmp : Z) : PM itimerval :=
  do on <- mflag rmp ALARM_ON;
  do interval <- rdm rmp (fun p => mp_interval p ITIMER_REAL);
  do remaining <- (if on : bool then
      do ru <- getuptime;
      if negb (fst ru =? OK) then panic "get_realtimer couldn't get uptime" else
      do exptime <- gets (fun s => tmr_exp_time (tm (pm_timers s) rmp));
      let remaining := i32 (exptime - snd ru) in
      ret (if remaining <=? 0 then interval else remaining)
    else ret 0);
  do value <- timeval_from_ticks remaining;
  do iv <- timeval_from_ticks interval;
  ret (mk_itimerval iv value).

Definition set_realtimer (rmp : Z) (value : itimerval) : PM unit :=
  do ticks <- ticks_from_timeval (it_value value);
  do interval <- ticks_from_timeval (it_interval value);
  let interval := if ticks <=? 0 then 0 else interval in
  do! set_alarm rmp ticks;
  wrm rmp (set_interval ITIMER_REAL interval).

Definition ITIMERVAL_SIZE : Z := 16.

Definition do_itimer : PM Z :=
  do which <- min m1_i1;
  if (which <? 0) || (NR_ITIMERS <=? which) then ret EINVAL else
  do new_val <- min m1_p1;
  do old_val <- min m1_p2;
  let setval := negb (new_val =? 0) in
  let getval := negb (old_val =? 0) in
  if negb setval && negb getval then ret EINVAL else
  do we <- gets who_e;
  do cur <- gets mp;
  do r <- (if setval then sys_datacopy we new_val PM_PROC_NR (addr V_value) ITIMERVAL_SIZE B_none
           else ret OK);
  if negb (r =? OK) then ret r else
  do value <- gets (fun s => in_itimerval (history s));
  do sane1 <- (if setval then is_sane_timeval (it_value value) else ret true);
  do sane2 <- (if setval then is_sane_timeval (it_interval value) else ret true);
  if negb (sane1 && sane2) then ret EINVAL else
  do ovalue <- (if which =? ITIMER_REAL then
      do ov <- (if getval then do v <- get_realtimer cur; ret (Some v) else ret None);
      do! when setval (set_realtimer cur value);
      ret ov
    else getset_vtimer cur which (if setval then Some value else None) getval);
  match ovalue with
  | Some ov => sys_datacopy PM_PROC_NR (addr V_ovalue) we old_val ITIMERVAL_SIZE (B_itimerval ov)
  | None => ret OK
  end.

Definition do_alarm : PM Z :=
  do cur <- gets mp;
  do ovalue <- get_realtimer cur;
  let remaining := tv_sec (it_value ovalue) in
  let remaining := if 0 <? tv_usec (it_value ovalue) then i32 (remaining + 1) else remaining in
  do secs <- min m1_i1;
  do! set_realtimer cur (mk_itimerval (mk_timeval 0 0) (mk_timeval secs 0));
  ret remaining.

Definition cause_sigalrm (tp : Z) : PM unit :=
  do arg <- gets (fun s => tmr_arg (tm (pm_timers s) tp));
  do ok <- pm_isokendpt arg;
  if negb (fst ok =? OK) then ret tt else
  let rmp := snd ok in
  do live <- rdm rmp is_live;
  if negb live then ret tt else
  do on <- mflag rmp ALARM_ON;
  if negb on then ret tt else
  do interval <- rdm rmp (fun p => mp_interval p ITIMER_REAL);
  do! (if 0 <? interval then set_alarm rmp interval else wrm rmp (clear_flags ALARM_ON));
  do pid <- rdm rmp mp_pid;
  do! check_sig pid SIGALRM; ret tt.

Definition pm_run (w : pm_watchdog) (tp : Z) : PM unit :=
  match w with W_cause_sigalrm => cause_sigalrm tp | W_none => stuck NullDeref end.

Definition pm_expire_timers : Z -> PM unit := pm_expire_timers_with pm_run.

(** ** time.c *)

Definition do_time : PM Z :=
  do ub <- getuptime2;
  let '(s, uptime, boottime) := ub in
  if negb (s =? OK) then panic "do_time couldn't get uptime" else
  do hz <- gets system_hz;
  do secs <- udiv (u32 uptime) hz;
  do! wr_mp (upd_reply (set_reply_time (i32 (boottime + secs))));
  do! wr_mp (upd_reply (set_reply_utime (i32 (u32 (u32 uptime mod hz * US) / hz))));
  ret OK.

Definition do_stime : PM Z :=
  do uid <- rd_mp mp_effuid;
  if negb (uid =? SUPER_USER) then ret EPERM else
  do ru <- getuptime;
  if negb (fst ru =? OK) then panic "do_stime couldn't get uptime" else
  do hz <- gets system_hz;
  do secs <- udiv (u32 (snd ru)) hz;
  do st <- min m2_l1;
  do r <- sys_stime (i32 (st - secs));
  if negb (r =? OK) then panic "pm: sys_stime failed" else ret OK.

Definition do_times : PM Z :=
  do we <- gets who_e;
  do rm <- sys_times we;
  if negb (fst rm =? OK) then panic "do_times couldn't get times" else
  let m := snd rm in
  do ut <- rd_mp mp_child_utime;
  do st <- rd_mp mp_child_stime;
  do! wr_mp (upd_reply (fun r => set_m4_l5 (m4_l5 m) (set_m4_l4 st (set_m4_l3 ut
                                  (set_m4_l2 (m4_l2 m) (set_m4_l1 (m4_l1 m) r))))));
  ret OK.

End env.
