(* ===== verification/PmMain.v ===== *)
(** * The process manager: the other calls

    getset.c, trace.c, exec.c, break.c, dma.c and most of misc.c of servers/pm. *)
From S2P Require Import Prelude PList KMonad Timers Types Memory KCalls Signals PrivCtl SysTask.
From S2P Require Import PmTypes PmLib PmSig PmCalls.

(** The C function [strncmp(a, b, n) == 0]. *)
Fixpoint strncmp0 (n : nat) (a b : list Z) : bool :=
  match n with
  | O => true
  | S n' =>
      let x := hd 0 a in let y := hd 0 b in
      (x =? y) && ((x =? 0) || strncmp0 n' (tl a) (tl b))
  end.

(** [strncpy(d, src, n)]: at most [n] characters, the rest filled with zeros. *)
Definition strncpy (n : Z) (src : list Z) : list Z := resize0 (Z.to_nat n) (cstr src).

Section env.
Context `{PmEnv}.

(** ** getset.c *)

Definition do_get : PM Z :=
  do cn <- gets call_nr;
  do rmp <- gets mp;
  if cn =? GETGROUPS then
    do ngroups <- min m1_i1;
    if (NGROUPS_MAX <? ngroups) || (ngroups <? 0) then ret EINVAL else
    do have <- rdm rmp mp_ngroups;
    if ngroups =? 0 then ret have
    else if ngroups <? have then ret EINVAL
    else
      do we <- gets who_e;
      do gp <- min m1_p1;
      do groups <- rdm rmp mp_sgroups;
      do r <- sys_datacopy SELF (addr (V_sgroups rmp)) we gp ngroups
                (B_bytes (take (Z.to_nat ngroups) groups));
      if negb (r =? OK) then ret r else rdm rmp mp_ngroups
  else if cn =? GETUID then
    do euid <- rdm rmp mp_effuid;
    do! wrm rmp (upd_reply (set_reply_res2 euid));
    rdm rmp mp_realuid
  else if cn =? GETGID then
    do egid <- rdm rmp mp_effgid;
    do! wrm rmp (upd_reply (set_reply_res2 egid));
    rdm rmp mp_realgid
  else if cn =? MINIX_GETPID then
    do who <- gets who_p;
    do pid <- rdm who mp_pid;
    do parent <- rdm rmp mp_parent;
    do ppid <- rdm parent mp_pid;
    do! wrm rmp (upd_reply (set_reply_res2 ppid));
    ret pid
  else if cn =? GETPGRP then rdm rmp mp_procgrp
  else ret EINVAL.

(** The message of [do_set] for FS: the request, the process, two words. *)
Definition fs_ids (req ep eid rid : Z) : message :=
  set_m1_i3 rid (set_m1_i2 eid (set_m1_i1 ep (set_m_type req uninit))).

Definition do_set : PM Z :=
  do cn <- gets call_nr;
  do rmp <- gets mp;
  do p <- rdm rmp id;
  if (cn =? SETUID) || (cn =? SETEUID) then
    do id <- min m1_i1;
    let uid := i16 id in
    if negb (mp_realuid p =? uid) && negb (mp_effuid p =? SUPER_USER) then ret EPERM else
    do! when (cn =? SETUID) (wrm rmp (set_mp_realuid uid));
    do! wrm rmp (set_mp_effuid uid);
    do p' <- rdm rmp Datatypes.id;
    do! tell_fs rmp (fs_ids PM_SETUID (mp_endpoint p') (mp_effuid p') (mp_realuid p'));
    ret SUSPEND
  else if (cn =? SETGID) || (cn =? SETEGID) then
    do id <- min m1_i1;
    let gid := i8 id in
    if negb (mp_realgid p =? gid) && negb (mp_effuid p =? SUPER_USER) then ret EPERM else
    do! when (cn =? SETGID) (wrm rmp (set_mp_realgid gid));
    do! wrm rmp (set_mp_effgid gid);
    do p' <- rdm rmp Datatypes.id;
    do! tell_fs rmp (fs_ids PM_SETGID (mp_endpoint p') (mp_effgid p') (mp_realgid p'));
    ret SUSPEND
  else if cn =? SETGROUPS then
    if negb (mp_effuid p =? SUPER_USER) then ret EPERM else
    do ngroups <- min m1_i1;
    if (NGROUPS_MAX <? ngroups) || (ngroups <? 0) then ret EINVAL else
    do gp <- min m1_p1;
    if gp =? 0 then ret EFAULT else
    do we <- gets who_e;
    do r <- sys_datacopy we gp SELF (addr (V_sgroups rmp)) ngroups B_none;
    if negb (r =? OK) then ret r else
    do groups <- gets (fun s => in_bytes (history s));
    do! wrm rmp (set_mp_sgroups
          (resize0 (Z.to_nat NGROUPS_MAX) (resize0 (Z.to_nat ngroups) (i8 <$> groups))));
    do! wrm rmp (set_mp_ngroups ngroups);
    do! tell_fs rmp (set_m1_p1 (addr (V_sgroups rmp)) (set_m1_i2 ngroups
          (set_m1_i1 (mp_endpoint p) (set_m_type PM_SETGROUPS uninit))));
    ret SUSPEND
  else if cn =? SETSID then
    if mp_procgrp p =? mp_pid p then ret EPERM else
    do! wrm rmp (set_mp_procgrp (mp_pid p));
    do! tell_fs rmp (set_m1_i1 (mp_endpoint p) (set_m_type PM_SETSID uninit));
    ret SUSPEND
  else ret EINVAL.

(** ** trace.c *)

(** The system task does the work; [m_in.data] is an argument and a result. *)
Definition trace_by_kernel (req child : Z) : PM Z :=
  do ep <- rdm child mp_endpoint;
  do address <- min m2_l1;
  do dat <- min m2_l2;
  do rm <- sys_trace req ep address (Some dat);
  do! modify (fun s => set_m_in (set_m2_l2 (m2_l2 (snd rm)) (m_in s)) s);
  if negb (fst rm =? OK) then ret (fst rm) else
  do! wr_mp (upd_reply (set_reply_trace (m2_l2 (snd rm))));
  ret OK.

(** A process to trace, found by its pid and not exiting. *)
Definition trace_target : PM (option Z) :=
  do pid <- min m1_i1;
  do o <- find_proc pid;
  match o with
  | None => ret None
  | Some child =>
      do dying <- mflag child EXITING;
      ret (if dying : bool then None else Some child)
  end.

(** May [me], in slot [cur], attach to the process [c] in slot [child]? *)
Definition attach_refused (cur child : Z) (me c : mproc) : bool :=
  (negb (mp_effuid me =? SUPER_USER) &&
   (negb (mp_effuid me =? mp_effuid c) || negb (mp_effgid me =? mp_effgid c) ||
    negb (mp_effuid c =? mp_realuid c) || negb (mp_effgid c =? mp_realgid c))) ||
  (negb (mp_effuid me =? SUPER_USER) && flag_any (mp_flags c) PRIV_PROC) ||
  flag_any (mp_flags me) PRIV_PROC ||
  (child =? cur) || (mp_endpoint c =? PM_PROC_NR) || (mp_endpoint c =? VM_PROC_NR).

Definition trace_attach : PM Z :=
  do o <- trace_target;
  match o with
  | None => ret ESRCH
  | Some child =>
      do cur <- gets mp;
      do me <- rdm cur id;
      do c <- rdm child id;
      if attach_refused cur child me c then ret EPERM
      else if negb (mp_tracer c =? NO_TRACER) then ret EBUSY
      else
        do who <- gets who_p;
        do! wrm child (set_mp_tracer who);
        do! wrm child (set_mp_trace_flags TO_NOEXEC);
        do! sig_proc child SIGSTOP true;
        do! wr_mp (upd_reply (set_reply_trace 0));
        ret OK
  end.

Definition trace_text (req : Z) : PM Z :=
  do uid <- rd_mp mp_effuid;
  if negb (uid =? SUPER_USER) then ret EPERM else
  do o <- trace_target;
  match o with None => ret ESRCH | Some child => trace_by_kernel req child end.

Definition PTRACE_RANGE_SIZE : Z := 16.

Definition trace_range (req child : Z) : PM Z :=
  do we <- gets who_e;
  do a <- min m2_l1;
  do r <- sys_datacopy we a SELF (addr V_pr) PTRACE_RANGE_SIZE B_none;
  if negb (r =? OK) then ret r else
  do pr <- gets (fun s => in_range (history s));
  if negb (pr_space pr =? TS_INS) && negb (pr_space pr =? TS_DATA) then ret EINVAL
  else if (pr_size pr =? 0) || (LONG_MAX <? pr_size pr) then ret EINVAL
  else
    let seg := if pr_space pr =? TS_INS then SEG_T else SEG_D in
    do ep <- rdm child mp_endpoint;
    do r <- (if req =? T_GETRANGE
             then sys_vircopy ep seg (pr_addr pr) we SEG_D (pr_ptr pr) (pr_size pr) B_none
             else sys_vircopy we SEG_D (pr_ptr pr) ep seg (pr_addr pr) (pr_size pr) B_none);
    if negb (r =? OK) then ret r else
    do! wr_mp (upd_reply (set_reply_trace 0));
    ret OK.

(** [T_DETACH]: let the signals the tracer has not seen through the filter. *)
Definition detach_sig (child i : Z) : PM unit :=
  do there <- rdm child (fun p => sigismember (mp_sigtrace p) i);
  when there
    (do! wrm child (del_sigtrace i);
     do pid <- rdm child mp_pid;
     do! check_sig pid i; ret tt).

Definition trace_detach (child : Z) : PM Z :=
  do dat <- min m2_l2;
  if (dat <? 0) || (_NSIG <=? dat) then ret EINVAL else
  do! wrm child (set_mp_tracer NO_TRACER);
  do! for_each all_sigs (detach_sig child);
  do! when (0 <? dat) (sig_proc child dat true);
  do! wrm child (clear_flags STOPPED);
  do! wrm child (set_mp_trace_flags 0);
  do! check_pending child;
  trace_by_kernel T_DETACH child.

Definition trace_resume (req child : Z) : PM Z :=
  do dat <- min m2_l2;
  if (dat <? 0) || (_NSIG <=? dat) then ret EINVAL else
  do! when (0 <? dat) (sig_proc child dat false);
  do more <- rdm child (fun p => existsb (sigismember (mp_sigtrace p)) all_sigs);
  if more : bool then do! wr_mp (upd_reply (set_reply_trace 0)); ret OK else
  do! wrm child (clear_flags STOPPED);
  do! check_pending child;
  trace_by_kernel req child.

Definition do_trace : PM Z :=
  do req <- min m2_i2;
  do cur <- gets mp;
  if req =? T_OK then
    do tracer <- rdm cur mp_tracer;
    if negb (tracer =? NO_TRACER) then ret EBUSY else
    do parent <- rdm cur mp_parent;
    do! wrm cur (set_mp_tracer parent);
    do! wrm cur (upd_reply (set_reply_trace 0));
    ret OK
  else if req =? T_ATTACH then trace_attach
  else if req =? T_STOP then ret EINVAL
  else if (req =? T_READB_INS) || (req =? T_WRITEB_INS) then trace_text req
  else
  do o <- trace_target;
  match o with
  | None => ret ESRCH
  | Some child =>
      do tracer <- rdm child mp_tracer;
      do who <- gets who_p;
      if negb (tracer =? who) then ret ESRCH else
      do st <- mflag child STOPPED;
      if negb st then ret EBUSY else
      if req =? T_EXIT then
        do! wrm child (or_flags TRACE_EXIT);
        do fs <- mflag child FS_CALL;
        do dat <- min m2_l2;
        do! (if fs : bool then wrm child (set_mp_exitstatus (i8 dat)) else exit_proc child dat false);
        ret SUSPEND
      else if req =? T_SETOPT then
        do dat <- min m2_l2;
        do! wrm child (set_mp_trace_flags (u32 dat));
        do! wr_mp (upd_reply (set_reply_trace 0));
        ret OK
      else if (req =? T_GETRANGE) || (req =? T_SETRANGE) then trace_range req child
      else if req =? T_DETACH then trace_detach child
      else if (req =? T_RESUME) || (req =? T_STEP) || (req =? T_SYSCALL) then trace_resume req child
      else trace_by_kernel req child
  end.

(** ** exec.c *)

Definition do_exec : PM Z :=
  do cur <- gets mp;
  do ep <- rdm cur mp_endpoint;
  do m <- min id;
  do! tell_fs cur (set_m1_i3 (m1_i2 m) (set_m1_p2 (m1_p2 m) (set_m1_i2 (m1_i1 m)
        (set_m1_p1 (m1_p1 m) (set_m1_i1 ep (set_m_type PM_EXEC uninit))))));
  ret SUSPEND.

(** [sizeof(struct exec_newmem)]. *)
Definition EXEC_NEWMEM_SIZE : Z := 56.

Definition do_exec_newmem : PM Z :=
  do we <- gets who_e;
  if negb (we =? FS_PROC_NR) && negb (we =? RS_PROC_NR) then ret EPERM else
  do proc_e <- min m1_i1;
  do ok <- pm_isokendpt proc_e;
  if negb (fst ok =? OK) then panic "do_exec_newmem: got bad endpoint" else
  let rmp := snd ok in
  do ptr <- min m1_p1;
  do r <- sys_datacopy we ptr SELF (addr V_args) EXEC_NEWMEM_SIZE B_none;
  if negb (r =? OK) then panic "do_exec_newmem: sys_datacopy failed" else
  do args <- gets (fun s => in_exec (history s));
  do rm <- vm_exec_newmem proc_e args EXEC_NEWMEM_SIZE;
  if negb (fst rm =? OK) then ret (fst rm) else
  let stack_top := m1_p2 (snd rm) in
  do tracer <- rdm rmp mp_tracer;
  let allow_setuid := tracer =? NO_TRACER in
  do! when allow_setuid
    (do! wrm rmp (set_mp_effuid (i16 (new_uid args)));
     wrm rmp (set_mp_effgid (i8 (new_gid args))));
  do! wrm rmp (set_mp_name (strncpy (PROC_NAME_LEN - 1) (progname args) ++ [0]));
  do! wrm rmp (set_mp_procargs (u32 (stack_top - args_bytes args)));
  do! wrm rmp (or_flags PARTIAL_EXEC);
  do! wr_mp (upd_reply (set_reply_res2 stack_top));
  let flags := m1_i3 (snd rm) in
  do! wr_mp (upd_reply (set_reply_res3
        (if allow_setuid then Z.lor flags EXC_NM_RF_ALLOW_SETUID else flags)));
  ret OK.

(** A caught signal goes back to its default. *)
Definition reset_catch (p : mproc) (sn : Z) : mproc :=
  if sigismember (mp_catch p) sn then
    let a := set_sa_mask 0 (set_sa_handler SIG_DFL (mp_sigact p sn)) in
    set_mp_sigact (<[sn := a]> (mp_sigact p)) (del_catch sn p)
  else p.

Definition exec_restart (rmp result : Z) : PM unit :=
  if negb (result =? OK) then
    do partial <- mflag rmp PARTIAL_EXEC;
    if partial : bool then
      do! wrm rmp (set_mp_sigstatus SIGILL);
      exit_proc rmp 0 false
    else setreply rmp result
  else
  do! wrm rmp (clear_flags PARTIAL_EXEC);
  do! wrm rmp (fun p => fold_left reset_catch all_sigs p);
  do tracer <- rdm rmp mp_tracer;
  do tflags <- rdm rmp mp_trace_flags;
  do! when (negb (tracer =? NO_TRACER) && negb (flag_any tflags TO_NOEXEC))
    (do pid <- rdm rmp mp_pid;
     do! check_sig pid (if flag_any tflags TO_ALTEXEC then SIGSTOP else SIGTRAP); ret tt);
  do ep <- rdm rmp mp_endpoint;
  do new_sp <- rdm rmp mp_procargs;
  do name <- rdm rmp mp_name;
  do r <- sys_exec ep new_sp (V_name rmp) name 0;
  if negb (r =? OK) then panic "sys_exec failed" else ret tt.

Definition do_execrestart : PM Z :=
  do we <- gets who_e;
  if negb (we =? RS_PROC_NR) then ret EPERM else
  do proc_e <- min m1_i1;
  do ok <- pm_isokendpt proc_e;
  if negb (fst ok =? OK) then panic "do_execrestart: got bad endpoint" else
  do result <- min m1_i2;
  do! exec_restart (snd ok) result;
  ret OK.

(** ** break.c, dma.c *)

Definition do_brk : PM Z :=
  do ep <- rd_mp mp_endpoint;
  do a <- min m1_p1;
  do r <- vm_brk ep a;
  do! wr_mp (upd_reply (set_reply_ptr (if r =? OK then a else -1)));
  ret r.

(** [vm_adddma], [vm_deldma], [vm_getdma] (lib/other/_vm_dmacalls.c) go through
    [_syscall], which turns a negative result into -1.  [vm_deldma] sends the process
    twice, and not the requester [m_source]. *)
Definition vm_syscall (nr : Z) (m : message) : PM (Z * message) :=
  do rm <- taskcall VM_PROC_NR nr m B_none;
  ret (if fst rm <? 0 then -1 else fst rm, snd rm).

Definition dma_msg (req_ep ep start size : Z) : message :=
  set_m2_l2 size (set_m2_l1 start (set_m2_i1 ep (set_m2_i2 req_ep uninit))).

Definition do_adddma : PM Z :=
  do uid <- rd_mp mp_effuid;
  if negb (uid =? SUPER_USER) then ret EPERM else
  do m <- min id;
  do rm <- vm_syscall VM_ADDDMA (dma_msg (m_source m) (m2_i1 m) (m2_l1 m) (m2_l2 m));
  if negb (fst rm =? OK) then ret (fst rm) else
  do ok <- pm_isokendpt (m2_i1 m);
  ret (if fst ok =? OK then OK else EINVAL).

Definition do_deldma : PM Z :=
  do uid <- rd_mp mp_effuid;
  if negb (uid =? SUPER_USER) then ret EPERM else
  do m <- min id;
  do rm <- vm_syscall VM_DELDMA (dma_msg (m2_i1 m) (m2_i1 m) (m2_l1 m) (m2_l2 m));
  ret (fst rm).

Definition do_getdma : PM Z :=
  do uid <- rd_mp mp_effuid;
  if negb (uid =? SUPER_USER) then ret EPERM else
  do src <- min m_source;
  do rm <- vm_syscall VM_GETDMA (set_m2_i2 src uninit);
  if negb (fst rm =? OK) then ret (fst rm) else
  let m := snd rm in
  do! wr_mp (upd_reply (fun r => set_m2_l2 (m2_l2 m) (set_m2_l1 (m2_l1 m) (set_m2_i1 (m2_i1 m) r))));
  ret OK.

(** ** misc.c *)

Definition do_procstat : PM Z :=
  do nr <- min m2_i1;
  if nr =? SELF then
    do pend <- rd_mp mp_sigpending;
    do! wr_mp (upd_reply (set_m2_l1 (i32 pend)));
    do! wr_mp (set_mp_sigpending 0);
    ret OK
  else ret ENOSYS.

Definition do_chdeadline : PM Z :=
  do who <- gets who_p;
  do l <- min m2_l1;
  do! sys_chdeadline who l;
  ret OK.

Definition do_getprocnr : PM Z :=
  do pid <- min m1_i1;
  do namelen <- min m1_i2;
  do we <- gets who_e;
  do uid <- rd_mp mp_effuid;
  let pm_endpt v := wr_mp (upd_reply (set_m1_i1 v)) in
  let pm_pendpt v := wr_mp (upd_reply (set_m1_i2 v)) in
  if negb (uid =? 0) then
    if (pid <? 0) && (namelen =? 0) then
      do! pm_endpt we; do! pm_pendpt NONE; ret OK
    else
      do ep <- rd_mp mp_endpoint; do! sys_sysctl_stacktrace ep; ret EPERM
  else if 0 <=? pid then
    do o <- find_proc pid;
    match o with
    | Some rmp => do ep <- rdm rmp mp_endpoint; do! pm_endpt ep; ret OK
    | None => ret ESRCH
    end
  else if 0 <? namelen then
    let key_len := Z.min namelen PROC_NAME_LEN in
    do a <- min m1_p1;
    do r <- sys_datacopy we a SELF (addr V_search_key) key_len B_none;
    if negb (r =? OK) then ret r else
    do bytes <- gets (fun s => in_bytes (history s));
    let search_key := resize0 (Z.to_nat key_len) bytes ++ [0] in
    do o <- gets (fun s => List.find (fun n => is_live (mproc_tab s n) &&
              strncmp0 (Z.to_nat key_len) (mp_name (mproc_tab s n)) search_key) all_mslots);
    match o with
    | Some rmp => do ep <- rdm rmp mp_endpoint; do! pm_endpt ep; ret OK
    | None => ret ESRCH
    end
  else
    do! pm_endpt we;
    do parent <- rd_mp mp_parent;
    do pep <- rdm parent mp_endpoint;
    do! pm_pendpt pep;
    ret OK.

Definition do_getepinfo : PM Z :=
  do uid <- rd_mp mp_effuid;
  if negb (uid =? 0) then
    do ep <- rd_mp mp_endpoint; do! sys_sysctl_stacktrace ep; ret EPERM
  else
  do ep <- min m1_i1;
  do o <- gets (fun s => List.find (fun n => flag_any (mp_flags (mproc_tab s n)) IN_USE &&
            (mp_endpoint (mproc_tab s n) =? ep)) all_mslots);
  match o with
  | None => ret ESRCH
  | Some rmp =>
      do p <- rdm rmp id;
      do! wr_mp (upd_reply (set_reply_res2 (mp_effuid p)));
      do! wr_mp (upd_reply (set_reply_res3 (mp_effgid p)));
      rdm rmp mp_pid
  end.

(** [sizeof(monitor_code)]. *)
Definition MONITOR_CODE_SIZE : Z := 256.

Definition do_reboot : PM Z :=
  do uid <- rd_mp mp_effuid;
  if negb (uid =? SUPER_USER) then ret EPERM else
  do flag <- min m1_i1;
  do! modify (set_abort_flag flag);
  if RBT_INVALID <=? flag then ret EINVAL else
  do strlen <- min m1_i2;
  let monitor := RBT_MONITOR =? flag in
  if monitor && (MONITOR_CODE_SIZE <=? u32 strlen) then ret EINVAL else
  do we <- gets who_e;
  do code <- min m1_p1;
  do r <- (if monitor then sys_datacopy we code SELF (addr V_monitor_code) strlen B_none else ret OK);
  if negb (r =? OK) then ret r else
  do! modify (fun s => set_monitor_code
        (if monitor then resize0 (Z.to_nat strlen) (in_bytes (history s)) ++ [0] else [0]) s);
  do! check_sig (-1) SIGKILL;
  do! sys_stop INIT_PROC_NR;
  do! tell_fs FS_PROC_NR (set_m_type PM_REBOOT uninit);
  ret SUSPEND.

Definition do_getsetpriority : PM Z :=
  do cn <- gets call_nr;
  do arg_which <- min m1_i1;
  do arg_who <- min m1_i2;
  do arg_pri <- min m1_i3;
  do cur <- gets mp;
  if negb (arg_which =? PRIO_PROCESS) then ret EINVAL else
  do o <- (if arg_who =? 0 then ret (Some cur) else find_proc arg_who);
  match o with
  | None => ret ESRCH
  | Some rmp =>
      do me <- rdm cur id;
      do p <- rdm rmp id;
      if negb (mp_effuid me =? SUPER_USER) && negb (mp_effuid me =? mp_effuid p) &&
         negb (mp_effuid me =? mp_realuid p) then ret EPERM
      else if cn =? GETPRIORITY then ret (mp_nice p - PRIO_MIN)
      else if (arg_pri <? mp_nice p) && negb (mp_effuid me =? SUPER_USER) then ret EACCES
      else
        do r <- sys_nice (mp_endpoint p) arg_pri;
        if negb (r =? OK) then ret r else
        do! wrm rmp (set_mp_nice arg_pri);
        ret OK
  end.

End env.
