(* ===== verification/PmTurn.v ===== *)
(** * The process manager: its main program (servers/pm/main.c, table.c)

    The last calls of misc.c, the table of system calls, initialisation and one turn of
    the main loop.  The two calls PM only passes on to libraries that are not modelled,
    [do_getsysinfo] and [do_sprofile], are arguments of the table. *)
From S2P Require Import Prelude PList KMonad Timers Types Memory Sched KCalls Signals PrivCtl.
From S2P Require Import SysTask PmTypes PmLib PmSig PmCalls PmMain.

Section env.
Context `{PmEnv}.

(** ** misc.c: [do_svrctl], [do_sysuname], [do_getsysinfo_up] *)

Definition MMGETPARAM : Z := 0x40104D05.
Definition MMSETPARAM : Z := i32 0x80104D07.
Definition MAX_LOCAL_PARAMS : Z := 2.
Definition LOCAL_PARAM_SIZE : Z := 30.
Definition SEARCH_KEY_SIZE : Z := 64.
Definition SYSGETENV_SIZE : Z := 16.

Definition svrctl_set (e : sysgetenv) : PM Z :=
  do we <- gets who_e;
  do n <- gets (fun s => Z.of_nat (length (local_params s)));
  if MAX_LOCAL_PARAMS <=? n then ret ENOSPC
  else if (keylen e <=? 0) || (LOCAL_PARAM_SIZE <=? keylen e) ||
          (vallen e <=? 0) || (LOCAL_PARAM_SIZE <=? vallen e) then ret EINVAL
  else
    do r <- sys_datacopy we (key e) SELF (addr (V_param_name n)) (keylen e) B_none;
    if negb (r =? OK) then ret r else
    do name <- gets (fun s => resize0 (Z.to_nat (keylen e)) (in_bytes (history s)));
    do r <- sys_datacopy we (val e) SELF (addr (V_param_value n)) (vallen e) B_none;
    if negb (r =? OK) then ret r else
    do value <- gets (fun s => resize0 (Z.to_nat (vallen e)) (in_bytes (history s)));
    do! modify (fun s => set_local_params (local_params s ++ [(name ++ [0], value ++ [0])]) s);
    ret OK.

(** The value of a key: an override, else a boot monitor parameter. *)
Definition lookup_param (search_key : list Z) : PM (option (list Z)) :=
  do o <- gets (fun s => List.find (fun nv => bool_decide (cstr (fst nv) = cstr search_key))
                           (local_params s));
  match o with
  | Some nv => ret (Some (snd nv))
  | None => find_param search_key
  end.

(** Copy [n] bytes of [val] out, if they fit. *)
Definition svrctl_answer (e : sysgetenv) (v : list Z) (val_len : Z) : PM Z :=
  if vallen e <? val_len then ret E2BIG else
  do we <- gets who_e;
  let copy_len := Z.min val_len (vallen e) in
  do r <- sys_datacopy SELF (addr V_monitor_params) we (val e) copy_len
            (B_bytes (resize0 (Z.to_nat copy_len) v));
  ret r.

Definition svrctl_get (e : sysgetenv) : PM Z :=
  do we <- gets who_e;
  if keylen e =? 0 then
    do params <- gets monitor_params;
    svrctl_answer e params (Z.of_nat (length params))
  else if SEARCH_KEY_SIZE <? keylen e then ret EINVAL
  else
    do r <- sys_datacopy we (key e) SELF (addr V_svrctl_key) (keylen e) B_none;
    if negb (r =? OK) then ret r else
    do bytes <- gets (fun s => in_bytes (history s));
    do o <- lookup_param (resize0 (Z.to_nat (keylen e - 1)) bytes ++ [0]);
    match o with
    | None => ret ESRCH
    | Some v => svrctl_answer e v (Z.of_nat (length (cstr v)) + 1)
    end.

Definition do_svrctl : PM Z :=
  do req <- min m2_i1;
  do ptr <- min m2_p1;
  do we <- gets who_e;
  if negb (Z.land (Z.shiftr req 8) 0xFF =? 0x4D) then ret EINVAL
  else if (req =? MMSETPARAM) || (req =? MMGETPARAM) then
    do r <- sys_datacopy we ptr SELF (addr V_sysgetenv) SYSGETENV_SIZE B_none;
    if negb (r =? OK) then ret EFAULT else
    do e <- gets (fun s => in_sysgetenv (history s));
    if req =? MMSETPARAM then svrctl_set e else svrctl_get e
  else ret EINVAL.

(** [uts_tbl]: the strings of [uts_val], in the order of sys/utsname.h. *)
Definition _UTS_MAX : Z := 9.
Definition _UTS_GET : Z := 0.
Definition chars (l : string) : list Z := (fun a => Z.of_nat (Ascii.nat_of_ascii a)) <$> String.list_ascii_of_string l.
Definition uts_tbl (machine : list Z) (field : Z) : option (list Z) :=
  nth (Z.to_nat field)
    [Some (chars "i386"); None; Some machine; None; Some (chars "noname"); Some (chars "3");
     Some (chars "1.6"); Some (chars "Minix"); None] None.

Definition do_sysuname : PM Z :=
  do m <- min id;
  do machine <- gets uts_machine;
  let field := m1_i2 m in
  if _UTS_MAX <=? u32 field then ret EINVAL else
  match uts_tbl machine field with
  | None => ret EINVAL
  | Some str =>
      if m1_i1 m =? _UTS_GET then
        let n := Z.of_nat (length str) + 1 in
        let n := if u32 (m1_i3 m) <? n then u32 (m1_i3 m) else n in
        do ep <- rd_mp mp_endpoint;
        do r <- sys_vircopy SELF SEG_D (addr (V_uts field)) ep SEG_D (m1_p1 m) n
                  (B_bytes (resize0 (Z.to_nat n) str));
        ret (if r <? 0 then r else i32 n)
      else ret EINVAL
  end.

(** [sys_getinfo] (lib/syslib/sys_getinfo.c), the requests PM makes. *)
Definition GET_KINFO : Z := 0.
Definition GET_IMAGE : Z := 1.
Definition GET_MONPARAMS : Z := 4.
Definition GET_LOADINFO : Z := 15.
Definition GET_HZ : Z := 18.
Definition GET_IDLETSC : Z := 21.

Definition sys_getinfo (request : Z) (v : pm_var) (len : Z) : PM Z :=
  taskcall_r SYSTEM SYS_GETINFO
    (mk_message (m_source uninit) (m_type uninit) len 0 request SELF (addr v) 0 (m_w6 uninit)) B_none.

Definition SIU_LOADINFO : Z := 1.
Definition SIU_SYSTEMHZ : Z := 2.
Definition SIU_IDLETSC : Z := 3.

(** [sizeof(struct loadinfo)]: 151 half words, padding, and a clock value. *)
Definition LOADINFO_SIZE : Z := 308.

Definition do_getsysinfo_up : PM Z :=
  do m <- min id;
  do we <- gets who_e;
  do hz <- gets system_hz;
  let what := m2_i1 m in
  do src <- (if what =? SIU_LOADINFO then
               do r <- sys_getinfo GET_LOADINFO V_loadinfo 0;
               ret (r, (V_loadinfo, LOADINFO_SIZE), B_table V_loadinfo)
             else if what =? SIU_SYSTEMHZ then ret (OK, (V_system_hz, 4), B_word hz)
             else if what =? SIU_IDLETSC then
               do r <- sys_getinfo GET_IDLETSC V_idle_tsc 0;
               ret (r, (V_idle_tsc, 8), B_table V_idle_tsc)
             else ret (EINVAL, (V_idle_tsc, 0), B_none));
  let '(r, (v, real_len), b) := src in
  if negb (r =? OK) then ret r else
  let len := if u32 (m2_i2 m) <? real_len then u32 (m2_i2 m) else real_len in
  do r <- sys_datacopy SELF (addr v) we (m2_p1 m) len b;
  ret (if r =? OK then real_len else r).

(** [do_cprofile]: call profiling is compiled out. *)
Definition do_cprofile : PM Z := ret ENOSYS.

(** ** table.c *)

Context (do_getsysinfo do_sprofile : PM Z).

Definition call_vec (nr : Z) : PM Z :=
  match Z.to_nat nr with
  | 1 => do_exit | 2 => do_fork | 7 => do_waitpid | 11 => do_waitpid | 13 => do_time
  | 17 => do_brk | 20 => do_get | 23 => do_set | 24 => do_get | 25 => do_stime
  | 26 => do_trace | 27 => do_alarm | 29 => do_pause | 37 => do_kill | 43 => do_times
  | 46 => do_set | 47 => do_get | 59 => do_exec | 62 => do_set | 63 => do_get
  | 64 => do_itimer | 65 => do_get | 66 => do_set | 70 => do_chdeadline
  | 71 => do_sigaction | 72 => do_sigsuspend | 73 => do_sigpending | 74 => do_sigprocmask
  | 75 => do_sigreturn | 76 => do_reboot | 77 => do_svrctl | 78 => do_sysuname
  | 79 => do_getsysinfo | 88 => do_getsetpriority | 89 => do_getsetpriority | 90 => do_time
  | 91 => do_set | 92 => do_set | 97 => do_getsysinfo_up | 98 => do_sprofile
  | 99 => do_cprofile | 100 => do_exec_newmem | 101 => do_fork_nb | 102 => do_execrestart
  | 103 => do_procstat | 104 => do_getprocnr | 107 => do_getepinfo | 108 => do_adddma
  | 109 => do_deldma | 110 => do_getdma
  | _ => no_sys
  end%nat.

(** ** main.c *)

Definition get_nice_value (queue : Z) : Z :=
  let nice_val := Z.quot ((queue - USER_Q) * (PRIO_MAX - PRIO_MIN + 1)) (MIN_USER_Q - MAX_USER_Q + 1) in
  let nice_val := if PRIO_MAX <? nice_val then PRIO_MAX else nice_val in
  if nice_val <? PRIO_MIN then PRIO_MIN else nice_val.

Definition handle_fs_reply : PM unit :=
  do cn <- gets call_nr;
  if cn =? PM_REBOOT_REPLY then
    do flag <- gets abort_flag;
    do code <- gets monitor_code;
    do! sys_abort flag PM_PROC_NR (addr V_monitor_code) (Z.of_nat (length (cstr code)) + 1) code;
    ret tt
  else
  do proc_e <- min m1_i1;
  do ok <- pm_isokendpt proc_e;
  if negb (fst ok =? OK) then panic "handle_fs_reply: got bad endpoint from FS" else
  let rmp := snd ok in
  do fs <- mflag rmp FS_CALL;
  if negb fs then panic "handle_fs_reply: reply without request" else
  do! wrm rmp (clear_flags FS_CALL);
  do unp <- mflag rmp UNPAUSED;
  if unp : bool then panic "handle_fs_reply: UNPAUSED set on entry" else
  do st <- min m1_i2;
  do! (if (cn =? PM_SETUID_REPLY) || (cn =? PM_SETGID_REPLY) || (cn =? PM_SETGROUPS_REPLY) then
         setreply rmp OK
       else if cn =? PM_SETSID_REPLY then do grp <- rdm rmp mp_procgrp; setreply rmp grp
       else if cn =? PM_EXEC_REPLY then exec_restart rmp st
       else if cn =? PM_EXIT_REPLY then exit_restart rmp false
       else if cn =? PM_CORE_REPLY then
         do! when (st =? OK) (wrm rmp (fun p => set_mp_sigstatus (i8 (Z.lor (mp_sigstatus p) DUMPED)) p));
         exit_restart rmp true
       else if cn =? PM_FORK_REPLY then
         do! setreply rmp OK;
         do parent <- rdm rmp mp_parent;
         do pid <- rdm rmp mp_pid;
         setreply parent pid
       else if cn =? PM_FORK_NB_REPLY then ret tt
       else if cn =? PM_UNPAUSE_REPLY then wrm rmp (or_flags UNPAUSED)
       else panic "handle_fs_reply: unknown reply code");
  do live <- rdm rmp is_live;
  when live (restart_sigs rmp).

(** [get_work], on the message [m] that [sef_receive] returned. *)
Definition get_work (m : message) : PM unit :=
  do! modify (set_m_in m);
  do! modify (set_who_e (m_source m));
  do ok <- pm_isokendpt (m_source m);
  do! modify (set_who_p (snd ok));
  if negb (fst ok =? OK) then panic "PM got message from invalid endpoint" else
  do! modify (set_call_nr (m_type m));
  let who := snd ok in
  do! modify (set_mp (if who <? 0 then PM_PROC_NR else who));
  when (0 <=? who)
    (do ep <- rdm who mp_endpoint;
     if negb (ep =? m_source m) then panic "PM endpoint number out of sync with source" else ret tt).

Definition is_fs_reply (cn : Z) : bool :=
  bool_decide (cn ∈ [PM_SETUID_REPLY; PM_SETGID_REPLY; PM_SETSID_REPLY; PM_EXEC_REPLY;
    PM_EXIT_REPLY; PM_CORE_REPLY; PM_FORK_REPLY; PM_FORK_NB_REPLY; PM_UNPAUSE_REPLY;
    PM_REBOOT_REPLY; PM_SETGROUPS_REPLY]).

(** The call, up to [send_reply]; [fuel] bounds the pending kernel signals. *)
Definition pm_work (fuel : nat) : PM Z :=
  do cn <- gets call_nr;
  do who <- gets who_p;
  do we <- gets who_e;
  if is_notify cn then
    if who =? CLOCK then do ts <- min m2_l2; do! pm_expire_timers ts; ret SUSPEND
    else if who =? SYSTEM then
      do sigset <- min m2_l1;
      do! when (sigismember sigset SIGKSIG) (do! ksig_pending fuel; ret tt);
      ret SUSPEND
    else ret ENOSYS
  else if is_fs_reply cn then
    if we =? FS_PROC_NR then do! handle_fs_reply; ret SUSPEND else ret ENOSYS
  else if NCALLS <=? u32 cn then ret ENOSYS
  else call_vec cn.

(** Send out a pending reply; the result of [sendnb] is only printed. *)
Definition send_pending (proc_nr : Z) : PM unit :=
  do p <- rdm proc_nr id;
  when (Z.land (mp_flags p) (Z.lor (Z.lor REPLY IN_USE) EXITING) =? Z.lor REPLY IN_USE)
    (do! emit (Sendnb (mp_endpoint p) (mp_reply p));
     wrm proc_nr (clear_flags REPLY)).

(** One turn of the main loop. *)
Definition pm_turn (fuel : nat) (m : message) : PM unit :=
  do! get_work m;
  do dying <- rd_mp (fun p => flag_any (mp_flags p) EXITING);
  if dying : bool then ret tt else
  do result <- pm_work fuel;
  do who <- gets who_p;
  do! when (negb (result =? SUSPEND)) (setreply who result);
  for_each all_mslots send_pending.

(** *** Initialisation *)

Definition core_sigs : list Z := [SIGQUIT; SIGILL; SIGTRAP; SIGABRT; SIGEMT; SIGFPE; SIGBUS; SIGSEGV].
Definition ign_sigs : list Z := [SIGCHLD; SIGWINCH; SIGCONT].
Definition mess_sigs : list Z := [SIGTERM; SIGHUP; SIGABRT; SIGQUIT].
Definition DEFAULT_HZ : Z := 60.

(** One entry of the boot image; [mess] is reused for every entry. *)
Definition init_proc (mess : message) (ip : boot_image) : PM message :=
  let nr := bi_proc_nr ip in
  if nr <? 0 then ret mess else
  do! modify (fun s => set_procs_in_use (procs_in_use s + 1) s);
  do! wrm nr (fun p => set_mp_name (strncpy PROC_NAME_LEN (bi_proc_name ip)) p);
  do! wrm nr (set_mp_nice (get_nice_value (bi_priority ip)));
  do! wrm nr (fun p => set_mp_catch 0 (set_mp_sigmask 0 (set_mp_ignore 0 (set_mp_sig2mess 0 p))));
  do! (if nr =? INIT_PROC_NR then
         do! wrm nr (set_mp_parent INIT_PROC_NR);
         do! wrm nr (fun p => set_mp_procgrp INIT_PID (set_mp_pid INIT_PID p));
         wrm nr (or_flags IN_USE)
       else
         do! wrm nr (set_mp_parent (if nr =? RS_PROC_NR then INIT_PROC_NR else RS_PROC_NR));
         do pid <- get_free_pid;
         do! wrm nr (set_mp_pid pid);
         do! wrm nr (or_flags (Z.lor IN_USE PRIV_PROC));
         wrm nr (fun p => fold_left (fun p sig => add_sig2mess sig p) mess_sigs p));
  do! wrm nr (set_mp_endpoint (bi_endpoint ip));
  do pid <- rdm nr mp_pid;
  let mess := set_m1_i1 (bi_endpoint ip) (set_m2_i3 pid (set_m1_i2 nr (set_m_type PM_INIT mess))) in
  do s <- emit (Send FS_PROC_NR mess);
  if negb (s =? OK) then panic "can't sync up with FS" else ret mess.

(** [sef_cb_init_fresh]; the processor type and the final unmapping of PM's own memory
    are left out. *)
Definition sef_cb_init_fresh : PM Z :=
  do! for_each all_mslots (fun n => modify (fun s => set_pm_timers (tmr_inittimer n (pm_timers s)) s));
  do! modify (fun s => set_ign_sset (fold_left sigaddset ign_sigs 0)
                         (set_core_sset (fold_left sigaddset core_sigs 0) s));
  do s <- sys_getinfo GET_MONPARAMS V_monitor_params 512;
  if negb (s =? OK) then panic "get monitor params failed" else
  do! modify (fun s => set_monitor_params (resize0 512 (in_bytes (history s))) s);
  do s <- sys_getinfo GET_KINFO V_kinfo 0;
  if negb (s =? OK) then panic "get kernel info failed" else
  do s <- sys_getinfo GET_IMAGE V_image 0;
  if negb (s =? OK) then panic "couldn't get image table" else
  do image <- gets (fun s => in_image (history s));
  do! modify (set_procs_in_use 0);
  do mess <- fold_each image uninit init_proc;
  do! wrm PM_PROC_NR (set_mp_ignore (u32 (-1)));
  do st <- emit (Sendrec FS_PROC_NR (set_m1_i1 NONE mess) B_none);
  do a <- gets (fun s => answer (history s));
  if negb (st =? OK) || negb (m_type a =? OK) then panic "can't sync up with FS" else
  do r <- sys_getinfo GET_HZ V_system_hz 4;
  do! modify (fun s => set_system_hz (if r =? OK then u32 (in_word (history s)) else DEFAULT_HZ) s);
  ret OK.

End env.
