(* ===== verification/PmView.v ===== *)
(** * The process manager: what its invariant looks at

    Rules of the program logic for PM's accessors, the bits of [mp_flags], and the
    [view] of a process: the fields the invariant of the table is about.  Most of what
    PM does leaves every view alone ([quiet]). *)
From S2P Require Import Prelude PList KMonad Timers Types KCalls SysTask PmTypes PmLib PmSig.

(** ** Flags *)

Lemma flag_any_lor x a b : flag_any x (Z.lor a b) = flag_any x a || flag_any x b.
Proof.
  unfold flag_any. rewrite Z.land_lor_distr_r.
  destruct (Z.eqb_spec (Z.land x a) 0) as [->|Ha]; simpl.
  - by rewrite Z.lor_0_l.
  - apply negb_true_iff, Z.eqb_neq. intros [? _]%Z.lor_eq_0_iff. done.
Qed.

Lemma flag_any_set x a b : flag_any (flag_set x a) b = flag_any x b || flag_any a b.
Proof.
  unfold flag_any, flag_set. rewrite Z.land_lor_distr_l.
  destruct (Z.eqb_spec (Z.land x b) 0) as [->|Ha]; simpl.
  - by rewrite Z.lor_0_l.
  - apply negb_true_iff, Z.eqb_neq. intros [? _]%Z.lor_eq_0_iff. done.
Qed.

(** A flag of one bit, by its number. *)
Lemma flag_any_one x b : 0 < b -> 2 ^ Z.log2 b = b -> flag_any x b = Z.testbit x (Z.log2 b).
Proof. intros Hb Hp. rewrite <- Hp at 1. apply flag_any_bit, Z.log2_nonneg. Qed.

Lemma flag_any_clear x a b : 0 < b -> 2 ^ Z.log2 b = b ->
  flag_any (flag_clear x a) b = flag_any x b && negb (flag_any a b).
Proof.
  intros H1 H2. rewrite !(flag_any_one _ b) by done. unfold flag_clear. apply Z.ldiff_spec.
Qed.

Lemma flag_any_land x a b : 0 < b -> 2 ^ Z.log2 b = b ->
  flag_any (Z.land x a) b = flag_any x b && flag_any a b.
Proof. intros H1 H2. rewrite !(flag_any_one _ b) by done. apply Z.land_spec. Qed.

Lemma flag_any_0 b : flag_any 0 b = false.
Proof. unfold flag_any. by rewrite Z.land_0_l. Qed.

(** [(x & (a | b)) == a], for flags of one bit. *)
Lemma land_two x a b : 0 < a -> 2 ^ Z.log2 a = a -> 0 < b -> 2 ^ Z.log2 b = b -> a <> b ->
  (Z.land x (Z.lor a b) =? a) = flag_any x a && negb (flag_any x b).
Proof.
  intros Ha Ha2 Hb Hb2 Hab. rewrite !flag_any_one by done.
  set (i := Z.log2 a) in *. set (j := Z.log2 b) in *.
  pose proof (Z.log2_nonneg a). pose proof (Z.log2_nonneg b).
  assert (i <> j) by (intros E; rewrite E in Ha2; congruence).
  apply eq_bool_prop_intro. rewrite Is_true_true, Z.eqb_eq, Is_true_true, andb_true_iff, negb_true_iff.
  rewrite <- Ha2, <- Hb2. split.
  - intros E. assert (T : forall m, 0 <= m -> Z.testbit (Z.land x (Z.lor (2 ^ i) (2 ^ j))) m = (i =? m)).
    { intros m Hm. rewrite E. apply Z.pow2_bits_eqb. lia. }
    specialize (T i) as Ti. specialize (T j) as Tj.
    rewrite Z.land_spec, Z.lor_spec, !Z.pow2_bits_eqb in Ti, Tj by lia.
    rewrite !Z.eqb_refl in Ti, Tj. rewrite (proj2 (Z.eqb_neq i j)) in Tj by done.
    rewrite orb_true_r, andb_true_r in Tj. rewrite orb_true_l, andb_true_r in Ti.
    split; [apply Ti|apply Tj]; lia.
  - intros [Ti Tj]. apply Z.bits_inj'. intros m Hm.
    rewrite Z.land_spec, Z.lor_spec, !Z.pow2_bits_eqb by lia.
    destruct (Z.eqb_spec i m) as [<-|]; [by rewrite Ti|]. simpl.
    destruct (Z.eqb_spec j m) as [<-|]; [by rewrite Tj|]. apply andb_false_r.
Qed.

Lemma is_live_flags p : is_live p = flag_any (mp_flags p) IN_USE && negb (flag_any (mp_flags p) EXITING).
Proof. by apply land_two. Qed.

#[export] Hint Rewrite flag_any_set flag_any_lor flag_any_0 : pm_flags.
#[export] Hint Rewrite flag_any_clear flag_any_land using done : pm_flags.

(** Tests of flags of flags: compute them. *)
Ltac flag_consts :=
  repeat match goal with
  | |- context [flag_any ?a ?b] =>
      lazymatch a with mp_flags _ => fail | _ => idtac end;
      let r := eval vm_compute in (flag_any a b) in
      match r with true => idtac | false => idtac end;
      change (flag_any a b) with r
  end.
Ltac flag_simpl :=
  unfold or_flags, clear_flags in *; simpl;
  autorewrite with pm_flags; flag_consts;
  rewrite ?orb_false_r, ?orb_true_r, ?andb_true_r, ?andb_false_r, ?orb_false_l, ?andb_true_l; simpl.

(** ** Rules *)

Section rules.
Context (P : string -> Prop).

Lemma wpp_rdm {A} n (f : mproc -> A) Q s : mslot n -> Q (f (mproc_tab s n)) s -> wpp P (rdm n f) Q s.
Proof. intros. eapply wpp_done; [unfold rdm; by rewrite decide_True|done]. Qed.

Lemma wpp_wrm n f Q s : mslot n -> Q tt (upd_m n f s) -> wpp P (wrm n f) Q s.
Proof. intros. eapply wpp_done; [unfold wrm; by rewrite decide_True|done]. Qed.

Lemma wpp_mflag n f Q s : mslot n -> Q (flag_any (mp_flags (mproc_tab s n)) f) s -> wpp P (mflag n f) Q s.
Proof. intros. unfold mflag. by apply wpp_rdm. Qed.

Lemma wpp_rd_sigact {A} n sig (f : sigaction -> A) Q s : mslot n -> 0 <= sig < _NSIG ->
  Q (f (mp_sigact (mproc_tab s n) sig)) s -> wpp P (rd_sigact n sig f) Q s.
Proof.
  intros Hn Hs HQ. unfold rd_sigact. replace (_ && _) with true by lia. by apply wpp_rdm.
Qed.

Lemma wpp_wr_sigact n sig f Q s : mslot n -> 0 <= sig < _NSIG ->
  Q tt (upd_m n (fun p => set_mp_sigact (<[sig := f (mp_sigact p sig)]> (mp_sigact p)) p) s) ->
  wpp P (wr_sigact n sig f) Q s.
Proof.
  intros Hn Hs HQ. unfold wr_sigact. replace (_ && _) with true by lia. by apply wpp_wrm.
Qed.

Lemma wpp_wait_test a b Q s : mslot a -> mslot b ->
  Q (waits_child (mproc_tab s a) (mproc_tab s b)) s -> wpp P (wait_test a b) Q s.
Proof. intros Ha Hb HQ. unfold wait_test. do 2 (apply wpp_bind, wpp_rdm; [done|]). by apply wpp_ret. Qed.

Context `{PmEnv}.

Definition sent (e : pm_event) (s : pm_state) : pm_state := set_history (e :: history s) s.

Lemma wpp_emit e Q s : Q (status (e :: history s)) (sent e s) -> wpp P (emit e) Q s.
Proof. intros. by eapply wpp_done. Qed.

(** A call returns whatever the others answer. *)
Lemma wpp_taskcall who nr m b Q s :
  (forall r, Q r (sent (Sendrec who (set_m_type nr m) b) s)) -> wpp P (taskcall who nr m b) Q s.
Proof.
  intros HQ. unfold taskcall. apply wpp_bind, wpp_emit, wpp_bind, wpp_gets.
  destruct (negb _); apply wpp_ret, HQ.
Qed.

Lemma wpp_taskcall_r who nr m b Q s :
  (forall r, Q r (sent (Sendrec who (set_m_type nr m) b) s)) -> wpp P (taskcall_r who nr m b) Q s.
Proof. intros HQ. apply wpp_bind, wpp_taskcall. intros r. apply wpp_ret, HQ. Qed.

End rules.

(** One step of symbolic execution of PM's code. *)
Ltac pm_step :=
  lazymatch goal with
  | |- wpp _ (bind _ _) _ _ => apply wpp_bind
  | |- wpp _ (ret _) _ _ => apply wpp_ret
  | |- wpp _ (gets _) _ _ => apply wpp_gets
  | |- wpp _ (modify _) _ _ => apply wpp_modify
  | |- wpp _ (rdm _ _) _ _ => apply wpp_rdm; [try done|]
  | |- wpp _ (wrm _ _) _ _ => apply wpp_wrm; [try done|]
  | |- wpp _ (mflag _ _) _ _ => apply wpp_mflag; [try done|]
  | |- wpp _ (rd_sigact _ _ _) _ _ => apply wpp_rd_sigact; [try done|try lia|]
  | |- wpp _ (wr_sigact _ _ _) _ _ => apply wpp_wr_sigact; [try done|try lia|]
  | |- wpp _ (wait_test _ _) _ _ => apply wpp_wait_test; [try done|try done|]
  | |- wpp _ (emit _) _ _ => apply wpp_emit
  | |- wpp _ (taskcall _ _ _ _) _ _ => apply wpp_taskcall; intros
  | |- wpp _ (taskcall_r _ _ _ _) _ _ => apply wpp_taskcall_r; intros
  | |- wpp _ (if ?b then _ else _) _ _ => destruct b eqn:?
  | |- wpp _ (when ?b _) _ _ => apply wpp_when; intros ?
  | |- wpp _ (match ?x with (a, b) => _ end) _ _ => destruct x
  end.

(** ** Views *)

(** The fields of a process the invariant is about. *)
Record view := mk_view {
  v_used : bool;
  v_exiting : bool;
  v_zombie : bool;
  v_tz : bool;
  v_told : bool;
  v_fs : bool;
  v_alarm : bool;
  v_parent : Z;
  v_tracer : Z;
  v_pid : Z;
  v_ep : Z
}.

Definition set_v_used (v : bool) (x : view) : view :=
  mk_view v (v_exiting x) (v_zombie x) (v_tz x) (v_told x) (v_fs x) (v_alarm x) (v_parent
    x) (v_tracer x) (v_pid x) (v_ep x).
Definition set_v_exiting (v : bool) (x : view) : view :=
  mk_view (v_used x) v (v_zombie x) (v_tz x) (v_told x) (v_fs x) (v_alarm x) (v_parent x)
    (v_tracer x) (v_pid x) (v_ep x).
Definition set_v_zombie (v : bool) (x : view) : view :=
  mk_view (v_used x) (v_exiting x) v (v_tz x) (v_told x) (v_fs x) (v_alarm x) (v_parent x)
    (v_tracer x) (v_pid x) (v_ep x).
Definition set_v_tz (v : bool) (x : view) : view :=
  mk_view (v_used x) (v_exiting x) (v_zombie x) v (v_told x) (v_fs x) (v_alarm x)
    (v_parent x) (v_tracer x) (v_pid x) (v_ep x).
Definition set_v_told (v : bool) (x : view) : view :=
  mk_view (v_used x) (v_exiting x) (v_zombie x) (v_tz x) v (v_fs x) (v_alarm x) (v_parent
    x) (v_tracer x) (v_pid x) (v_ep x).
Definition set_v_fs (v : bool) (x : view) : view :=
  mk_view (v_used x) (v_exiting x) (v_zombie x) (v_tz x) (v_told x) v (v_alarm x)
    (v_parent x) (v_tracer x) (v_pid x) (v_ep x).
Definition set_v_alarm (v : bool) (x : view) : view :=
  mk_view (v_used x) (v_exiting x) (v_zombie x) (v_tz x) (v_told x) (v_fs x) v (v_parent
    x) (v_tracer x) (v_pid x) (v_ep x).
Definition set_v_parent (v : Z) (x : view) : view :=
  mk_view (v_used x) (v_exiting x) (v_zombie x) (v_tz x) (v_told x) (v_fs x) (v_alarm x) v
    (v_tracer x) (v_pid x) (v_ep x).
Definition set_v_tracer (v : Z) (x : view) : view :=
  mk_view (v_used x) (v_exiting x) (v_zombie x) (v_tz x) (v_told x) (v_fs x) (v_alarm x)
    (v_parent x) v (v_pid x) (v_ep x).
Definition set_v_pid (v : Z) (x : view) : view :=
  mk_view (v_used x) (v_exiting x) (v_zombie x) (v_tz x) (v_told x) (v_fs x) (v_alarm x)
    (v_parent x) (v_tracer x) v (v_ep x).
Definition set_v_ep (v : Z) (x : view) : view :=
  mk_view (v_used x) (v_exiting x) (v_zombie x) (v_tz x) (v_told x) (v_fs x) (v_alarm x)
    (v_parent x) (v_tracer x) (v_pid x) v.

Definition view_of (p : mproc) : view :=
  let f := flag_any (mp_flags p) in
  mk_view (f IN_USE) (f EXITING) (f ZOMBIE) (f TRACE_ZOMBIE) (f TOLD_PARENT) (f FS_CALL) (f ALARM_ON)
    (mp_parent p) (mp_tracer p) (mp_pid p) (mp_endpoint p).

Definition vw (s : pm_state) (n : Z) : view := view_of (mproc_tab s n).
Definition v_live (v : view) : bool := v_used v && negb (v_exiting v).
Abbreviation used s n := (v_used (vw s n)).
Abbreviation exiting s n := (v_exiting (vw s n)).
Abbreviation live s n := (v_live (vw s n)).

Lemma vw_def s n : vw s n = view_of (mproc_tab s n).
Proof. done. Qed.

Lemma is_live_view s n : is_live (mproc_tab s n) = live s n.
Proof. apply is_live_flags. Qed.

Lemma vw_upd n f s k : vw (upd_m n f s) k = if decide (n = k) then view_of (f (mproc_tab s n)) else vw s k.
Proof. unfold vw, upd_m. simpl. rewrite fn_insert_case. by case_decide. Qed.

Lemma vw_upd_eq n f s : vw (upd_m n f s) n = view_of (f (mproc_tab s n)).
Proof. rewrite vw_upd. by rewrite decide_True. Qed.

Lemma vw_upd_ne n f s k : n <> k -> vw (upd_m n f s) k = vw s k.
Proof. intros. rewrite vw_upd. by rewrite decide_False. Qed.

(** Rewrite reads of the table into reads of views. *)
Ltac vw_reads :=
  repeat match goal with
  | |- context [flag_any (mp_flags (mproc_tab ?s ?n)) ?f] =>
      match f with
      | IN_USE => change (flag_any (mp_flags (mproc_tab s n)) f) with (v_used (vw s n))
      | EXITING => change (flag_any (mp_flags (mproc_tab s n)) f) with (v_exiting (vw s n))
      | ZOMBIE => change (flag_any (mp_flags (mproc_tab s n)) f) with (v_zombie (vw s n))
      | TRACE_ZOMBIE => change (flag_any (mp_flags (mproc_tab s n)) f) with (v_tz (vw s n))
      | TOLD_PARENT => change (flag_any (mp_flags (mproc_tab s n)) f) with (v_told (vw s n))
      | FS_CALL => change (flag_any (mp_flags (mproc_tab s n)) f) with (v_fs (vw s n))
      | ALARM_ON => change (flag_any (mp_flags (mproc_tab s n)) f) with (v_alarm (vw s n))
      end
  | |- context [mp_parent (mproc_tab ?s ?n)] =>
      change (mp_parent (mproc_tab s n)) with (v_parent (vw s n))
  | |- context [mp_tracer (mproc_tab ?s ?n)] =>
      change (mp_tracer (mproc_tab s n)) with (v_tracer (vw s n))
  | |- context [mp_pid (mproc_tab ?s ?n)] => change (mp_pid (mproc_tab s n)) with (v_pid (vw s n))
  | |- context [mp_endpoint (mproc_tab ?s ?n)] =>
      change (mp_endpoint (mproc_tab s n)) with (v_ep (vw s n))
  end.

(** What is not the table, the timers, the number of processes or the history. *)
Definition rest (s : pm_state) :=
  (mp s, m_in s, who_p s, who_e s, call_nr s,
   (core_sset s, ign_sset s, system_hz s, abort_flag s),
   (monitor_params s, monitor_code s, next_child s, next_child_nb s, next_pid s),
   (pm_expiring s, uts_machine s, local_params s)).

(** Nothing the invariant is about has changed. *)
Record quiet (s s' : pm_state) : Prop := mk_quiet {
  q_view n : vw s' n = vw s n;
  q_timers : pm_timers s' = pm_timers s;
  q_count : procs_in_use s' = procs_in_use s;
  q_rest : rest s' = rest s }.

#[export] Instance quiet_preorder : PreOrder quiet.
Proof.
  split; [by split|]. intros a b c [A1 A2 A3 A4] [B1 B2 B3 B4].
  split; intros; etrans; eauto.
Qed.

(** The flags of a view. *)
Definition WATCHED : Z :=
  Z.lor (Z.lor (Z.lor IN_USE EXITING) (Z.lor ZOMBIE TRACE_ZOMBIE)) (Z.lor TOLD_PARENT (Z.lor FS_CALL ALARM_ON)).

Lemma watched_off F : flag_any F WATCHED = false ->
  flag_any F IN_USE = false /\ flag_any F EXITING = false /\ flag_any F ZOMBIE = false /\
  flag_any F TRACE_ZOMBIE = false /\ flag_any F TOLD_PARENT = false /\ flag_any F FS_CALL = false /\
  flag_any F ALARM_ON = false.
Proof. unfold WATCHED. rewrite !flag_any_lor, !orb_false_iff. tauto. Qed.

Lemma view_or F p : flag_any F WATCHED = false -> view_of (or_flags F p) = view_of p.
Proof.
  intros (E1 & E2 & E3 & E4 & E5 & E6 & E7)%watched_off. unfold view_of, or_flags. simpl.
  rewrite !flag_any_set, E1, E2, E3, E4, E5, E6, E7, !orb_false_r. done.
Qed.

Lemma view_clear F p : flag_any F WATCHED = false -> view_of (clear_flags F p) = view_of p.
Proof.
  intros (E1 & E2 & E3 & E4 & E5 & E6 & E7)%watched_off. unfold view_of, clear_flags. simpl.
  rewrite !flag_any_clear, E1, E2, E3, E4, E5, E6, E7 by done. simpl. by rewrite !andb_true_r.
Qed.

Lemma quiet_upd n f s : (forall p, view_of (f p) = view_of p) -> quiet s (upd_m n f s).
Proof. intros E. split; [|done..]. intros k. rewrite vw_upd. by case_decide; subst. Qed.

Lemma quiet_sent e s : quiet s (sent e s).
Proof. by split. Qed.

(** A write that changes no view. *)
Ltac solve_view :=
  intros ?;
  repeat lazymatch goal with |- context [if ?b then _ else _] => destruct b end;
  lazymatch goal with
  | |- view_of (or_flags _ _) = _ => apply view_or; vm_compute; reflexivity
  | |- view_of (clear_flags _ _) = _ => apply view_clear; vm_compute; reflexivity
  | |- _ => reflexivity
  end.

(** Close a goal [quiet s s'], where [s'] is [s] with writes and messages. *)
Ltac quiet_step :=
  lazymatch goal with
  | |- quiet ?s ?s => reflexivity
  | |- quiet _ (upd_m ?n ?f ?s) => transitivity s; [|apply quiet_upd; solve_view]
  | |- quiet _ (sent ?e ?s) => transitivity s; [|apply quiet_sent]
  | Hq : quiet ?a ?b |- quiet ?s ?b => transitivity a; [|exact Hq]
  | |- quiet _ ?y => is_var y; unfold y
  end.
Ltac quiet_done := repeat quiet_step.

(** The writes that change one field of a view. *)
Lemma view_exiting p : view_of (or_flags EXITING p) = set_v_exiting true (view_of p).
Proof. unfold view_of, set_v_exiting. by flag_simpl. Qed.
Lemma view_fs_on p : view_of (or_flags FS_CALL p) = set_v_fs true (view_of p).
Proof. unfold view_of, set_v_fs. by flag_simpl. Qed.
Lemma view_fs_off p : view_of (clear_flags FS_CALL p) = set_v_fs false (view_of p).
Proof. unfold view_of, set_v_fs. by flag_simpl. Qed.
Lemma view_zombie_on p : view_of (or_flags ZOMBIE p) = set_v_zombie true (view_of p).
Proof. unfold view_of, set_v_zombie. by flag_simpl. Qed.
Lemma view_zombie_off p : view_of (clear_flags ZOMBIE p) = set_v_zombie false (view_of p).
Proof. unfold view_of, set_v_zombie. by flag_simpl. Qed.
Lemma view_tz_on p : view_of (or_flags TRACE_ZOMBIE p) = set_v_tz true (view_of p).
Proof. unfold view_of, set_v_tz. by flag_simpl. Qed.
Lemma view_tz_off p : view_of (clear_flags TRACE_ZOMBIE p) = set_v_tz false (view_of p).
Proof. unfold view_of, set_v_tz. by flag_simpl. Qed.
Lemma view_told_on p : view_of (or_flags TOLD_PARENT p) = set_v_told true (view_of p).
Proof. unfold view_of, set_v_told. by flag_simpl. Qed.
Lemma view_alarm_on p : view_of (or_flags ALARM_ON p) = set_v_alarm true (view_of p).
Proof. unfold view_of, set_v_alarm. by flag_simpl. Qed.
Lemma view_alarm_off p : view_of (clear_flags ALARM_ON p) = set_v_alarm false (view_of p).
Proof. unfold view_of, set_v_alarm. by flag_simpl. Qed.

(** Only the view of [n] has changed. *)
Record one_view (n : Z) (v : view) (s s' : pm_state) : Prop := mk_one_view {
  ov_view k : vw s' k = if decide (n = k) then v else vw s k;
  ov_timers : pm_timers s' = pm_timers s;
  ov_count : procs_in_use s' = procs_in_use s;
  ov_rest : rest s' = rest s }.

Lemma ov_eq n v s s' : one_view n v s s' -> vw s' n = v.
Proof. intros O. rewrite (ov_view _ _ _ _ O). by rewrite decide_True. Qed.

Lemma ov_ne n v s s' k : one_view n v s s' -> k <> n -> vw s' k = vw s k.
Proof. intros O Hk. rewrite (ov_view _ _ _ _ O). by rewrite decide_False. Qed.

Lemma one_view_quiet n s s' : quiet s s' -> one_view n (vw s n) s s'.
Proof. intros [Q1 Q2 Q3 Q4]. split; try done. intros k. rewrite Q1. by case_decide; subst. Qed.

Lemma one_view_quiet_r n v s s1 s' : one_view n v s s1 -> quiet s1 s' -> one_view n v s s'.
Proof. intros [O1 O2 O3 O4] [Q1 Q2 Q3 Q4]. split; try congruence. intros k. by rewrite Q1. Qed.

Lemma one_view_quiet_l n v s s1 s' : quiet s s1 -> one_view n v s1 s' -> one_view n v s s'.
Proof. intros [Q1 Q2 Q3 Q4] [O1 O2 O3 O4]. split; try congruence. intros k. by rewrite O1, Q1. Qed.

Lemma one_view_upd n (f : mproc -> mproc) (g : view -> view) v s s1 :
  (forall p, view_of (f p) = g (view_of p)) -> one_view n v s s1 ->
  one_view n (g v) s (upd_m n f s1).
Proof.
  intros E O. split; try apply O. intros k. rewrite vw_upd, E, <- vw_def, (ov_eq _ _ _ _ O).
  case_decide; [done|]. by apply (ov_ne n v).
Qed.

#[global] Opaque vw.
