(* ===== verification/PmInv.v ===== *)
(** * The process manager: the invariant of its table

    [vinv]: parents and tracers are slots of processes, INIT lives, the flags of the end
    of a process are consistent, pids and endpoints identify processes.  [pinv] adds the
    number of processes and the timers.  [casc] is what a cascade of signals and exits
    may do to the table. *)
From S2P Require Import Prelude PList KMonad Timers Types KCalls SysTask PmTypes PmLib PmSig PmView.

(** ** Counting slots *)

Definition cnt (f : Z -> bool) : nat := length (List.filter f all_mslots).

Lemma filter_mono {A} (f g : A -> bool) (l : list A) :
  (forall x, x ∈ l -> g x = true -> f x = true) -> (length (List.filter g l) <= length (List.filter f l))%nat.
Proof.
  induction l as [|x l IH]; intros Hfg; simpl; [done|].
  assert (IH' : (length (List.filter g l) <= length (List.filter f l))%nat).
  { apply IH. intros y Hy. apply Hfg. set_solver. }
  specialize (Hfg x). destruct (g x) eqn:Eg; destruct (f x) eqn:Ef; simpl; try lia.
  discriminate Hfg; [set_solver|done].
Qed.

Lemma filter_drop {A} (f g : A -> bool) (l : list A) n :
  NoDup l -> n ∈ l -> f n = true -> g n = false -> (forall x, x ∈ l -> x <> n -> g x = f x) ->
  length (List.filter f l) = S (length (List.filter g l)).
Proof.
  induction l as [|x l IH]; intros Hnd Hn Hf Hg Hfg; [by apply not_elem_of_nil in Hn|].
  apply NoDup_cons in Hnd as [Hx Hnd]. apply elem_of_cons in Hn as [->|Hn]; simpl.
  - rewrite Hf, Hg. simpl. f_equal. f_equal. apply List.filter_ext_in. intros y Hy.
    apply list_elem_of_In in Hy. symmetry. apply Hfg; set_solver.
  - rewrite (Hfg x) by set_solver. destruct (f x); simpl; [f_equal|]; apply IH; set_solver.
Qed.

Lemma elem_of_mslots n : n ∈ all_mslots <-> mslot n.
Proof. unfold all_mslots, mslot. rewrite elem_of_seqZ. lia. Qed.

Lemma NoDup_mslots : NoDup all_mslots.
Proof. apply NoDup_seqZ. Qed.

Lemma cnt_mono f g : (forall n, mslot n -> g n = true -> f n = true) -> (cnt g <= cnt f)%nat.
Proof. intros Hfg. apply filter_mono. intros x Hx%elem_of_mslots. by apply Hfg. Qed.

Lemma cnt_drop f g n : mslot n -> f n = true -> g n = false ->
  (forall k, mslot k -> k <> n -> g k = f k) -> cnt f = S (cnt g).
Proof.
  intros Hn Hf Hg Hfg. apply (filter_drop f g all_mslots n); try done.
  - apply NoDup_mslots.
  - by apply elem_of_mslots.
  - intros x Hx%elem_of_mslots. by apply Hfg.
Qed.

Lemma cnt_ext f g : (forall n, mslot n -> g n = f n) -> cnt g = cnt f.
Proof.
  intros Hfg. unfold cnt. f_equal. apply List.filter_ext_in. intros x Hx%list_elem_of_In%elem_of_mslots.
  by apply Hfg.
Qed.

Lemma cnt_le f : (cnt f <= 256)%nat.
Proof.
  etrans; [apply (cnt_mono (fun _ => true)); by intros|]. apply Nat.eq_le_incl. by vm_compute.
Qed.

Lemma cnt_list f l : NoDup l -> (forall n, n ∈ l <-> mslot n /\ f n = true) -> cnt f = length l.
Proof.
  intros Hl E. apply Permutation_length, NoDup_Permutation; [|done|].
  - apply NoDup_ListNoDup, List.NoDup_filter, NoDup_ListNoDup, NoDup_mslots.
  - intros x. rewrite E, list_elem_of_In, List.filter_In, <- list_elem_of_In, elem_of_mslots. done.
Qed.

#[global] Opaque cnt.

(** ** The invariant of the views *)

Record flags_ok (v : view) : Prop := mk_flags_ok {
  fo_free : v_used v = false ->
    v_exiting v = false /\ v_zombie v = false /\ v_tz v = false /\ v_told v = false /\
    v_fs v = false /\ v_alarm v = false /\ v_pid v = 0;
  fo_dead : v_zombie v || v_tz v || v_told v = true -> v_exiting v = true;
  fo_one : v_zombie v && v_tz v = false /\ v_zombie v && v_told v = false /\ v_tz v && v_told v = false;
  fo_tz : v_tz v = true -> v_tracer v <> NO_TRACER;
  fo_alarm : v_alarm v = true -> v_live v = true }.

(** A process may depend on [p]: it is there, and if it is dying, FS has not answered yet. *)
Definition depends_ok (V : Z -> view) (p : Z) : Prop :=
  v_used (V p) = true /\ (v_exiting (V p) = true -> v_fs (V p) = true).

(** INIT and FS never die. *)
Definition vital (n : Z) : Prop := n = INIT_PROC_NR \/ n = FS_PROC_NR.

Record vinv (V : Z -> view) : Prop := mk_vinv {
  vi_parent_slot n : mslot n -> mslot (v_parent (V n));
  vi_tracer_slot n : mslot n -> mslot (v_tracer (V n));
  vi_vital n : vital n -> v_live (V n) = true /\ v_ep (V n) = n;
  vi_parent n : mslot n -> v_used (V n) = true ->
    0 < v_parent (V n) /\ depends_ok V (v_parent (V n));
  vi_tracer n : mslot n -> v_used (V n) = true -> v_tracer (V n) <> NO_TRACER ->
    depends_ok V (v_tracer (V n));
  vi_flags n : mslot n -> flags_ok (V n);
  vi_ep n : mslot n -> v_used (V n) = true -> _ENDPOINT_P (v_ep (V n)) = n;
  vi_pid n : mslot n -> v_used (V n) = true -> 0 < v_pid (V n) <= NR_PIDS;
  vi_pid_inj n k : mslot n -> mslot k -> v_used (V n) = true -> v_used (V k) = true ->
    v_pid (V n) = v_pid (V k) -> n = k }.

Lemma v_live_iff v : v_live v = true <-> v_used v = true /\ v_exiting v = false.
Proof. unfold v_live. rewrite andb_true_iff, negb_true_iff. done. Qed.

Lemma vi_alive V n : vinv V -> mslot n -> v_exiting (V n) = true -> v_used (V n) = true.
Proof.
  intros HV Hn He. destruct (v_used (V n)) eqn:Eu; [done|].
  destruct (fo_free _ (vi_flags _ HV n Hn) Eu) as [E _]. congruence.
Qed.

Lemma vi_init V : vinv V -> v_live (V INIT_PROC_NR) = true /\ v_ep (V INIT_PROC_NR) = INIT_PROC_NR.
Proof. intros HV. apply (vi_vital V HV). by left. Qed.

Lemma vi_not_vital V n : vinv V -> v_exiting (V n) = true -> ~ vital n.
Proof. intros HV Hx Hn. destruct (vi_vital V HV n Hn) as [[_ ?]%v_live_iff _]. congruence. Qed.

Lemma vi_not_init V n : vinv V -> v_exiting (V n) = true -> n <> INIT_PROC_NR.
Proof. intros HV Hx ->. destruct (vi_not_vital _ _ HV Hx). by left. Qed.

Lemma vi_init_slot : mslot INIT_PROC_NR.
Proof. done. Qed.
#[export] Hint Resolve vi_init_slot : minix.

(** INIT is the process with INIT's endpoint, and FS the one with FS's. *)
Lemma vi_is_vital V n v : vinv V -> mslot n -> v_used (V n) = true -> vital v ->
  v_ep (V n) = v <-> n = v.
Proof.
  intros HV Hn Hu Hv. split; [|intros ->; by apply HV].
  intros E. rewrite <- (vi_ep V HV n Hn Hu), E. by destruct Hv as [->| ->].
Qed.

(** Pointwise equality is all that matters. *)
Lemma vinv_ext V V' : (forall n, V' n = V n) -> vinv V -> vinv V'.
Proof.
  intros E [A1 A2 A3 A4 A5 A6 A7 A8 A9]. unfold depends_ok in *.
  split; unfold depends_ok; intros *; rewrite ?E; intros; rewrite ?E in *; eauto.
Qed.

(** The view of a live slot changes in its dying flags, its parent or its tracer. *)
Lemma vinv_change V V' n :
  vinv V -> mslot n -> (forall k, k <> n -> V' k = V k) -> flags_ok (V' n) ->
  v_used (V' n) = v_used (V n) -> v_ep (V' n) = v_ep (V n) -> v_pid (V' n) = v_pid (V n) ->
  (v_exiting (V' n) = true -> ~ vital n /\
     (v_fs (V' n) = true \/ v_exiting (V n) = true /\ v_fs (V' n) = v_fs (V n))) ->
  v_parent (V' n) = v_parent (V n) \/ v_parent (V' n) = INIT_PROC_NR ->
  v_tracer (V' n) = v_tracer (V n) \/ v_tracer (V' n) = NO_TRACER \/
    mslot (v_tracer (V' n)) /\ depends_ok V (v_tracer (V' n)) ->
  vinv V'.
Proof.
  intros HV Hn Hk Hf Eu Ee Ep Hx Hpar Htr.
  assert (Hdep : forall p, depends_ok V p -> depends_ok V' p).
  { intros p [D1 D2]. destruct (decide (p = n)) as [->|Hp].
    - split; [congruence|]. intros Hx'. destruct (Hx Hx') as (_ & [?|[Hx0 Hfs]]); [done|].
      rewrite Hfs. by apply D2.
    - unfold depends_ok. by rewrite Hk. }
  assert (Hinit : depends_ok V INIT_PROC_NR).
  { destruct (vi_init V HV) as [[? E]%v_live_iff _]. split; [done|congruence]. }
  pose proof HV as [A1 A2 A3 A4 A5 A6 A7 A8 A9].
  assert (Hu : forall k, v_used (V' k) = v_used (V k)).
  { intros k. destruct (decide (k = n)) as [->|]; [done|by rewrite Hk]. }
  assert (Hpid : forall k, v_pid (V' k) = v_pid (V k)).
  { intros k. destruct (decide (k = n)) as [->|]; [done|by rewrite Hk]. }
  split.
  - intros k Hks. destruct (decide (k = n)) as [->|Hkn]; [|rewrite Hk by done; auto].
    destruct Hpar as [->| ->]; auto with minix.
  - intros k Hks. destruct (decide (k = n)) as [->|Hkn]; [|rewrite Hk by done; auto].
    destruct Htr as [->|[->|[? _]]]; [auto|done..].
  - intros k Hv. destruct (A3 k Hv) as [[B1 B2]%v_live_iff B3].
    destruct (decide (k = n)) as [->|Hkn]; [|rewrite !Hk by done; by rewrite v_live_iff].
    rewrite Ee, v_live_iff, Hu. split_all; try done.
    destruct (v_exiting (V' n)) eqn:E; [|done]. by destruct (Hx eq_refl).
  - intros k Hks Huk. rewrite Hu in Huk. destruct (A4 k Hks Huk) as [C1 C2].
    destruct (decide (k = n)) as [->|Hkn]; [|rewrite Hk by done; auto].
    destruct Hpar as [->| ->]; [auto|split; [done|by apply Hdep]].
  - intros k Hks Huk Ht. rewrite Hu in Huk.
    destruct (decide (k = n)) as [->|Hkn]; [|rewrite Hk in * by done; auto].
    destruct Htr as [E|[E|[_ ?]]]; [rewrite E in *; auto|done|by apply Hdep].
  - intros k Hks. destruct (decide (k = n)) as [->|Hkn]; [done|rewrite Hk by done; auto].
  - intros k Hks Huk. rewrite Hu in Huk.
    destruct (decide (k = n)) as [->|Hkn]; [rewrite Ee; auto|rewrite Hk by done; auto].
  - intros k Hks. rewrite Hu, Hpid. auto.
  - intros k j Hks Hj. rewrite !Hu, !Hpid. auto.
Qed.

(** A slot is given up: of a dead process on which nothing depends any more. *)
Lemma vinv_free V V' n :
  vinv V -> mslot n -> (forall k, k <> n -> V' k = V k) ->
  v_exiting (V n) = true -> v_fs (V n) = false ->
  v_used (V' n) = false -> flags_ok (V' n) ->
  v_parent (V' n) = v_parent (V n) -> v_tracer (V' n) = v_tracer (V n) ->
  vinv V'.
Proof.
  intros HV Hn Hk Hx Hfs Hu Hf Ep Et.
  assert (Hdep : forall p, depends_ok V p -> depends_ok V' p /\ p <> n).
  { intros p [D1 D2]. assert (p <> n) by (intros ->; specialize (D2 Hx); congruence).
    split; [|done]. unfold depends_ok. by rewrite Hk. }
  pose proof HV as [A1 A2 A3 A4 A5 A6 A7 A8 A9].
  assert (Hne : forall k, v_used (V' k) = true -> k <> n /\ V' k = V k).
  { intros k Hku. assert (k <> n) by (intros ->; congruence). auto. }
  split.
  - intros k Hks. destruct (decide (k = n)) as [->|Hkn]; [rewrite Ep|rewrite Hk by done]; auto.
  - intros k Hks. destruct (decide (k = n)) as [->|Hkn]; [rewrite Et|rewrite Hk by done]; auto.
  - intros k Hv. rewrite Hk; [by apply A3|]. intros ->. by apply (vi_not_vital _ _ HV Hx).
  - intros k Hks Huk. destruct (Hne k Huk) as [Hkn E]. rewrite E in *.
    destruct (A4 k Hks Huk) as [C1 C2]. split; [done|]. by apply Hdep.
  - intros k Hks Huk Ht. destruct (Hne k Huk) as [Hkn E]. rewrite E in *. by apply Hdep, A5.
  - intros k Hks. destruct (decide (k = n)) as [->|Hkn]; [done|rewrite Hk by done; auto].
  - intros k Hks Huk. destruct (Hne k Huk) as [Hkn E]. rewrite E in *. auto.
  - intros k Hks Huk. destruct (Hne k Huk) as [Hkn E]. rewrite E in *. auto.
  - intros k j Hks Hj Huk Huj. destruct (Hne k Huk) as [Hkn E]. destruct (Hne j Huj) as [Hjn E'].
    rewrite E, E' in *. auto.
Qed.

(** ** The timers *)

(** The queue holds exactly the processes whose [ALARM_ON] is set. *)
Record timers_ok (s : pm_state) (l : list Z) : Prop := mk_timers_ok {
  to_rep : tq_rep (pm_timers s) l;
  to_on k : k ∈ l <-> mslot k /\ v_alarm (vw s k) = true;
  to_meta k : k ∈ l ->
    tmr_func (tm (pm_timers s) k) = W_cause_sigalrm /\ tmr_arg (tm (pm_timers s) k) = v_ep (vw s k) }.

(** ** The invariant of PM *)

Record pinv (s : pm_state) : Prop := mk_pinv {
  pi_views : vinv (vw s);
  pi_count : procs_in_use s = Z.of_nat (cnt (fun n => used s n));
  pi_timers : exists l, timers_ok s l;
  pi_mp : mslot (mp s) }.

Lemma rest_mp s s' : rest s' = rest s -> mp s' = mp s.
Proof. unfold rest. congruence. Qed.

Lemma pinv_quiet s s' : quiet s s' -> pinv s -> pinv s'.
Proof.
  intros [Q1 Q2 Q3 Q4] [P1 P2 [l [P3 P4 P5]] P6]. split.
  - by apply (vinv_ext (vw s)).
  - rewrite Q3, P2. apply (f_equal Z.of_nat), cnt_ext. intros n _. by rewrite Q1.
  - exists l. split; [by rewrite Q2|intros k; by rewrite Q1|intros k; rewrite Q1, Q2; auto].
  - by rewrite (rest_mp _ _ Q4).
Qed.

(** ** What a cascade may do *)

(** Nothing that is still there depends on [p]. *)
Definition settled (V : Z -> view) (p : Z) : Prop :=
  forall n, mslot n -> v_used (V n) = true ->
    v_parent (V n) <> p /\ (v_tracer (V n) <> NO_TRACER -> v_tracer (V n) <> p).

(** Processes only die; children go to INIT and tracers disappear; what has died inside
    the cascade, [x] apart, is settled, and FS has still to hear of it. *)
Record vcasc (x : option Z) (V V' : Z -> view) : Prop := mk_vcasc {
  ca_used n : mslot n -> v_used (V' n) = true -> v_used (V n) = true;
  ca_live n : mslot n -> v_live (V' n) = true -> v_live (V n) = true;
  ca_parent n : mslot n -> v_parent (V' n) = v_parent (V n) \/ v_parent (V' n) = INIT_PROC_NR;
  ca_tracer n : mslot n -> v_tracer (V' n) = v_tracer (V n) \/ v_tracer (V' n) = NO_TRACER;
  ca_new n : mslot n -> v_live (V n) = true -> v_exiting (V' n) = true -> v_fs (V' n) = true;
  ca_old n : mslot n -> v_exiting (V n) = true -> v_used (V' n) = true ->
    v_exiting (V' n) = true /\ v_fs (V' n) = v_fs (V n);
  ca_stay n : mslot n -> depends_ok V n -> v_used (V' n) = true;
  ca_settled p : mslot p -> Some p <> x -> v_live (V p) = true -> v_exiting (V' p) = true -> settled V' p;
  ca_ep n : mslot n -> v_ep (V' n) = v_ep (V n);
  ca_pid n : mslot n -> v_used (V' n) = true -> v_pid (V' n) = v_pid (V n) }.

Lemma settled_mono V V' p : vcasc None V V' -> p <> INIT_PROC_NR -> settled V p -> settled V' p.
Proof.
  intros C Hp HS n Hn Hu. destruct (HS n Hn (ca_used _ _ _ C n Hn Hu)) as [S1 S2]. split.
  - destruct (ca_parent _ _ _ C n Hn) as [->| ->]; [done|by intros <-].
  - destruct (ca_tracer _ _ _ C n Hn) as [->| ->]; done.
Qed.

Lemma vcasc_trans x V1 V2 V3 : vinv V2 -> vinv V3 -> vcasc x V1 V2 -> vcasc None V2 V3 -> vcasc x V1 V3.
Proof.
  intros I2 I3 A B. split.
  - intros n Hn Hu. apply (ca_used _ _ _ A); [done|]. by apply (ca_used _ _ _ B).
  - intros n Hn Hu. apply (ca_live _ _ _ A); [done|]. by apply (ca_live _ _ _ B).
  - intros n Hn. destruct (ca_parent _ _ _ B n Hn) as [->| ->]; [by apply (ca_parent _ _ _ A)|by right].
  - intros n Hn. destruct (ca_tracer _ _ _ B n Hn) as [->| ->]; [by apply (ca_tracer _ _ _ A)|by right].
  - intros n Hn Hl Hx. pose proof (vi_alive _ _ I3 Hn Hx) as Hu3.
    pose proof (ca_used _ _ _ B n Hn Hu3) as Hu2.
    destruct (v_exiting (V2 n)) eqn:E2.
    + destruct (ca_old _ _ _ B n Hn E2 Hu3) as [_ ->]. by apply (ca_new _ _ _ A).
    + apply (ca_new _ _ _ B); [done| |done]. by apply v_live_iff.
  - intros n Hn Hx Hu3. pose proof (ca_used _ _ _ B n Hn Hu3) as Hu2.
    destruct (ca_old _ _ _ A n Hn Hx Hu2) as [E2 <-]. by apply (ca_old _ _ _ B).
  - intros n Hn [Hu Hf]. pose proof (ca_stay _ _ _ A n Hn (conj Hu Hf)) as Hu2.
    apply (ca_stay _ _ _ B); [done|]. split; [done|]. intros E2. destruct (v_exiting (V1 n)) eqn:E1.
    + destruct (ca_old _ _ _ A n Hn E1 Hu2) as [_ ->]. by apply Hf.
    + apply (ca_new _ _ _ A); [done| |done]. by apply v_live_iff.
  - intros p Hp Hx Hl Hx3. pose proof (vi_alive _ _ I3 Hp Hx3) as Hu3.
    pose proof (ca_used _ _ _ B p Hp Hu3) as Hu2.
    pose proof (vi_not_init _ _ I3 Hx3).
    destruct (v_exiting (V2 p)) eqn:E2.
    + apply (settled_mono V2); [done|done|]. by apply (ca_settled _ _ _ A).
    + apply (ca_settled _ _ _ B); [done|done| |done]. by apply v_live_iff.
  - intros n Hn. rewrite (ca_ep _ _ _ B) by done. by apply (ca_ep _ _ _ A).
  - intros n Hn Hu. rewrite (ca_pid _ _ _ B) by done. apply (ca_pid _ _ _ A); [done|]. by apply (ca_used _ _ _ B).
Qed.

(** The cascade on states. *)
Record casc (x : option Z) (s s' : pm_state) : Prop := mk_casc {
  cs_views : vcasc x (vw s) (vw s');
  cs_rest : rest s' = rest s }.

Lemma casc_trans x s1 s2 s3 : pinv s2 -> pinv s3 -> casc x s1 s2 -> casc None s2 s3 -> casc x s1 s3.
Proof.
  intros [I2 _ _ _] [I3 _ _ _] [A1 A2] [B1 B2]. split; [by apply (vcasc_trans x _ (vw s2))|congruence].
Qed.

(** Views that differ in nothing the cascade forbids. *)
Lemma vcasc_same x V V' : vinv V ->
  (forall n, mslot n -> v_used (V' n) = v_used (V n) /\ v_exiting (V' n) = v_exiting (V n) /\
     (v_exiting (V n) = true -> v_fs (V' n) = v_fs (V n)) /\
     (v_parent (V' n) = v_parent (V n) \/ v_parent (V' n) = INIT_PROC_NR) /\
     (v_tracer (V' n) = v_tracer (V n) \/ v_tracer (V' n) = NO_TRACER) /\
     v_ep (V' n) = v_ep (V n) /\ v_pid (V' n) = v_pid (V n)) -> vcasc x V V'.
Proof.
  intros HV E.
  assert (Hl : forall n, mslot n -> v_live (V' n) = v_live (V n)).
  { intros n Hn. unfold v_live. destruct (E n Hn) as (-> & -> & _). done. }
  split; intros n Hn; pose proof (E n Hn) as (E1 & E2 & E3 & E4 & E5 & E6 & E7);
    rewrite ?Hl, ?E1, ?E2 by done; auto.
  - intros [_ ?]%v_live_iff. congruence.
  - intros []. congruence.
  - intros _ [_ ?]%v_live_iff. congruence.
Qed.

(** The process that was being ended is settled. *)
Lemma vcasc_settle p V V' : vcasc (Some p) V V' -> settled V' p -> vcasc None V V'.
Proof.
  intros [A1 A2 A3 A4 A5 A6 A7 A8 A9 A10] HS. split; try done.
  intros q Hq _. destruct (decide (q = p)) as [->|Hqp]; [done|]. apply A8; [done|congruence].
Qed.

Lemma casc_quiet x s s' : pinv s -> quiet s s' -> casc x s s'.
Proof.
  intros I [Q1 _ _ Q4]. split; [|done]. apply vcasc_same; [apply I|].
  intros n _. rewrite Q1. tauto.
Qed.

Lemma casc_refl x s : pinv s -> casc x s s.
Proof. intros I. by apply casc_quiet. Qed.

(** One view changes in its dying flags, its parent or its tracer. *)
Lemma pinv_one n v s s' : pinv s -> mslot n -> one_view n v s s' -> flags_ok v ->
  v_used v = used s n -> v_ep v = v_ep (vw s n) -> v_pid v = v_pid (vw s n) ->
  v_alarm v = v_alarm (vw s n) ->
  (v_exiting v = true -> ~ vital n /\
     (v_fs v = true \/ exiting s n = true /\ v_fs v = v_fs (vw s n))) ->
  v_parent v = v_parent (vw s n) \/ v_parent v = INIT_PROC_NR ->
  v_tracer v = v_tracer (vw s n) \/ v_tracer v = NO_TRACER \/
    mslot (v_tracer v) /\ depends_ok (vw s) (v_tracer v) ->
  pinv s'.
Proof.
  intros [I1 I2 [l [T1 T2 T3]] I4] Hn O Hf Eu Ee Ep Ea Hx Hpar Htr.
  pose proof (ov_eq _ _ _ _ O) as E. split.
  - apply (vinv_change (vw s) _ n); rewrite ?E; auto. intros k Hk. by apply (ov_ne n v).
  - rewrite (ov_count _ _ _ _ O), I2. apply (f_equal Z.of_nat), cnt_ext. intros k _.
    rewrite (ov_view _ _ _ _ O). by case_decide; subst.
  - exists l. split.
    + by rewrite (ov_timers _ _ _ _ O).
    + intros k. rewrite T2, (ov_view _ _ _ _ O). by case_decide; subst; rewrite ?Ea.
    + intros k Hk. rewrite (ov_timers _ _ _ _ O), (ov_view _ _ _ _ O). destruct (T3 k Hk).
      case_decide; subst; by rewrite ?Ee.
  - by rewrite (rest_mp _ _ (ov_rest _ _ _ _ O)).
Qed.

Lemma casc_one x n v s s' : pinv s -> mslot n -> one_view n v s s' ->
  v_used v = used s n -> v_exiting v = exiting s n -> (exiting s n = true -> v_fs v = v_fs (vw s n)) ->
  v_ep v = v_ep (vw s n) -> v_pid v = v_pid (vw s n) ->
  v_parent v = v_parent (vw s n) \/ v_parent v = INIT_PROC_NR ->
  v_tracer v = v_tracer (vw s n) \/ v_tracer v = NO_TRACER ->
  casc x s s'.
Proof.
  intros I Hn O Eu Ex Ef Ee Ep Hpar Htr. split; [|apply O]. apply vcasc_same; [apply I|].
  intros k Hk. rewrite (ov_view _ _ _ _ O). case_decide; [subst; split_all; auto|tauto].
Qed.

(** How many processes can still exit. *)
Definition live_count (s : pm_state) : nat := cnt (fun n => live s n).

Lemma casc_live_count x s s' : casc x s s' -> (live_count s' <= live_count s)%nat.
Proof. intros [C _]. apply cnt_mono. intros n Hn. by apply C. Qed.

(** ** Panics that come from the others *)

(** The kernel, VM, FS or RS refuse what PM must be able to do, or break the protocol, or
    FS itself dies. *)
Definition env_panics : list string :=
  ["exit_proc: sys_times failed"; "sys_stop failed"; "exit_proc: vm_willexit failed";
   "exit_proc: FS died"; "exit_proc: sys_exit failed"; "unable to send to FS"; "sys_trace failed";
   "sys_sigsend failed"; "sys_resume failed"; "PM couldn't get uptime";
   "PM set timer couldn't set alarm."; "PM expire timer couldn't set alarm.";
   "do_time couldn't get uptime"; "do_stime couldn't get uptime"; "pm: sys_stime failed";
   "do_times couldn't get times"; "get_realtimer couldn't get uptime"; "sys_vtimer failed";
   "sys_exec failed"; "do_exec_newmem: got bad endpoint"; "do_exec_newmem: sys_datacopy failed";
   "do_execrestart: got bad endpoint"; "exit_restart: sys_exit failed";
   "exit_restart: vm_exit failed"; "sys_getksig failed"; "sys_getksig strange process";
   "sys_endksig failed"; "handle_fs_reply: got bad endpoint from FS";
   "handle_fs_reply: reply without request"; "handle_fs_reply: UNPAUSED set on entry";
   "handle_fs_reply: unknown reply code"; "PM got message from invalid endpoint"].
Definition env_panic (w : string) : Prop := w ∈ env_panics.

Lemma env_panic_ok w : bool_decide (env_panic w) = true -> env_panic w.
Proof. apply bool_decide_eq_true. Qed.

Ltac solve_env := apply wpp_panic, env_panic_ok; vm_compute; reflexivity.
