(* ===== verification/PmAlarm.v ===== *)
(** * The process manager: the alarms of processes

    [set_alarm] and the queue of timers of servers/pm/timers.c: the queue stays sorted,
    it holds exactly the processes whose [ALARM_ON] is set, and the kernel alarm is
    renewed when the head of the queue changes. *)
From S2P Require Import Prelude PList KMonad Timers Types KCalls SysTask PmTypes PmLib PmSig PmView.
From S2P Require Import PmInv.

(** Only [ALARM_ON] of [n], and the timers, have changed. *)
Record alarm_changed (n : Z) (b : bool) (s s' : pm_state) : Prop := mk_alarm_changed {
  ac_view k : vw s' k = if decide (n = k) then set_v_alarm b (vw s n) else vw s k;
  ac_count : procs_in_use s' = procs_in_use s;
  ac_rest : rest s' = rest s }.

Lemma ac_same n b s s' k : alarm_changed n b s s' ->
  set_v_alarm false (vw s' k) = set_v_alarm false (vw s k).
Proof. intros A. rewrite (ac_view _ _ _ _ A). by case_decide; subst. Qed.

Lemma set_v_alarm_id v : set_v_alarm (v_alarm v) v = v.
Proof. by destruct v. Qed.

Lemma flags_alarm v b : flags_ok v -> (b = true -> v_live v = true) -> flags_ok (set_v_alarm b v).
Proof.
  intros [F1 F2 F3 F4 F5] Hb. split; try done. simpl. intros Hu.
  destruct (F1 Hu) as (? & ? & ? & ? & ? & ? & ?). split_all; try done.
  destruct b; [|done]. specialize (Hb eq_refl). unfold v_live in Hb. by rewrite Hu in Hb.
Qed.

Lemma vinv_alarm n b s s' : vinv (vw s) -> mslot n -> alarm_changed n b s s' ->
  (b = true -> live s n = true) -> vinv (vw s').
Proof.
  intros V Hn A Hb.
  assert (E : vw s' n = set_v_alarm b (vw s n)) by (rewrite (ac_view _ _ _ _ A); by rewrite decide_True).
  apply (vinv_change (vw s) _ n); rewrite ?E; auto.
  - intros k Hk. rewrite (ac_view _ _ _ _ A). by rewrite decide_False.
  - apply flags_alarm; [by apply V|done].
  - simpl. intros Hx. split; [|auto]. by apply (vi_not_vital _ _ V).
Qed.

Lemma count_alarm n b s s' : procs_in_use s = Z.of_nat (cnt (fun n => used s n)) ->
  alarm_changed n b s s' -> procs_in_use s' = Z.of_nat (cnt (fun n => used s' n)).
Proof.
  intros E A. rewrite (ac_count _ _ _ _ A), E. apply (f_equal Z.of_nat), cnt_ext. intros k _.
  change (used s' k) with (v_used (set_v_alarm false (vw s' k))). by rewrite (ac_same n b s).
Qed.

Lemma casc_alarm x n b s s' : pinv s -> alarm_changed n b s s' -> casc x s s'.
Proof.
  intros I A. split; [|apply A]. apply vcasc_same; [apply I|]. intros k _.
  pose proof (ac_same _ _ _ _ k A) as E. destruct (vw s' k), (vw s k). simpl in *.
  injection E; intros; subst; tauto.
Qed.

(** The queue fits in the fuel. *)
Lemma pm_timers_fuel s l : timers_ok s l -> (length l < PM_TIMER_FUEL)%nat.
Proof.
  intros [[_ Hn _] T2 _].
  assert (Hl : (length l <= length all_mslots)%nat).
  { apply submseteq_length, NoDup_submseteq; [done|]. intros k [Hk _]%T2. by apply elem_of_mslots. }
  change (length all_mslots) with 256%nat in Hl. unfold PM_TIMER_FUEL. lia.
Qed.

Lemma wpp_zpm {A} P (m : M (tstate Z pm_watchdog) A) Q s a t :
  m (pm_timers s) = Done a t -> Q a (set_pm_timers t s) -> wpp P (zpm m) Q s.
Proof. intros E HQ. eapply wpp_done; [unfold zpm, zoom; by rewrite E|done]. Qed.

Section env.
Context `{PmEnv}.

(** [pm_cancel_timer]: the timer leaves the queue. *)
Lemma pm_cancel_timer_spec tp s l : tq_rep (pm_timers s) l -> (length l < PM_TIMER_FUEL)%nat ->
  wpp env_panic (pm_cancel_timer tp) (fun _ s' => exists t h,
    s' = set_history h (set_pm_timers t s) /\ cleared tp (pm_timers s) t l) s.
Proof.
  intros Hq Hl. destruct (tmrs_clrtimer_rep PM_TIMER_FUEL tp (pm_timers s) l) as (t & Et & Hc);
    [by apply tq_rep_but|done|].
  unfold pm_cancel_timer, sys_setalarm. apply wpp_bind. eapply wpp_zpm; [exact Et|].
  repeat pm_step; [solve_env|by eexists _, _..].
Qed.

Lemma pm_set_timer_spec tp ticks w arg s l : tq_rep (pm_timers s) l -> (length l < PM_TIMER_FUEL)%nat ->
  wpp env_panic (pm_set_timer tp ticks w arg) (fun _ s' => exists t h e,
    s' = set_history h (set_pm_timers t s) /\ tmr_arg (tm t tp) = arg /\
    armed tp e w (upd_tm tp (set_tmr_arg arg) (pm_timers s)) t l) s.
Proof.
  intros Hq Hl. unfold pm_set_timer, getuptime, sys_setalarm. repeat (pm_step; try solve_env).
  match goal with |- wpp _ (zpm (tmrs_settimer _ _ ?e0 _)) _ _ => set (e := e0) end.
  destruct (tmrs_settimer_rep PM_TIMER_FUEL tp e w (upd_tm tp (set_tmr_arg arg) (pm_timers s)) l)
    as (t & Et & Ha); [apply tq_but_upd; [done|by apply tq_rep_but]|done|].
  eapply wpp_zpm; [exact Et|].
  assert (Harg : tmr_arg (tm t tp) = arg).
  { destruct Ha as (_ & _ & _ & -> & _). simpl. by rewrite fn_lookup_insert. }
  repeat pm_step; [solve_env|by eexists _, _, _..].
Qed.

(** The state after the timer and [ALARM_ON] of [n] have changed. *)
Lemma alarm_changed_upd n b f t h s : (forall p, view_of (f p) = set_v_alarm b (view_of p)) ->
  alarm_changed n b s (upd_m n f (set_history h (set_pm_timers t s))).
Proof.
  intros E. split; try done. intros k. rewrite vw_upd, E.
  by change (view_of (mproc_tab (set_history h (set_pm_timers t s)) n)) with (vw s n).
Qed.

Lemma timers_ok_off n t s s' l : timers_ok s l -> cleared n (pm_timers s) t l ->
  alarm_changed n false s s' -> pm_timers s' = t -> timers_ok s' (without n l).
Proof.
  intros [T1 T2 T3] (C1 & C2 & C3 & C4) A <-. split; [done|..].
  - intros k. rewrite elem_of_without, T2, (ac_view _ _ _ _ A). case_decide; subst; simpl; intuition congruence.
  - intros k [Hk Hl]%elem_of_without. destruct (T3 k Hl) as [<- E]. destruct (C4 k) as [-> ->].
    rewrite E, (ac_view _ _ _ _ A). by case_decide; subst.
Qed.

Lemma timers_ok_on n t e s s' l : timers_ok s l -> mslot n ->
  armed n e W_cause_sigalrm (upd_tm n (set_tmr_arg (v_ep (vw s n))) (pm_timers s)) t l ->
  tmr_arg (tm t n) = v_ep (vw s n) ->
  alarm_changed n true s s' -> pm_timers s' = t -> exists l', timers_ok s' l'.
Proof.
  intros [T1 T2 T3] Hn (C1 & C2 & C3 & _ & C4) Harg A <-. eexists. split; [exact C1|..].
  - intros k. rewrite insert_timer_elem, elem_of_without, T2, (ac_view _ _ _ _ A).
    case_decide; subst; simpl; intuition congruence.
  - intros k [->|[Hk Hl]%elem_of_without]%insert_timer_elem; rewrite (ac_view _ _ _ _ A).
    + by rewrite decide_True.
    + rewrite decide_False by done. destruct (T3 k Hl) as [<- <-]. destruct (C4 k Hk) as [_ [-> ->]].
      simpl. by rewrite fn_lookup_insert_ne.
Qed.

Lemma pinv_alarm n b s s' : pinv s -> mslot n -> alarm_changed n b s s' ->
  (b = true -> live s n = true) -> (exists l, timers_ok s' l) -> pinv s'.
Proof.
  intros [I1 I2 _ I4] Hn A Hb T. split; [by apply (vinv_alarm n b s)|by apply (count_alarm n b s)|done|].
  by rewrite (rest_mp _ _ (ac_rest _ _ _ _ A)).
Qed.

(** An alarm is set with a positive number of ticks, and cancelled otherwise. *)
Lemma set_alarm_spec rmp ticks s : pinv s -> mslot rmp -> (0 < ticks -> live s rmp = true) ->
  wpp env_panic (set_alarm rmp ticks) (fun _ s' => pinv s' /\ alarm_changed rmp (0 <? ticks) s s') s.
Proof.
  intros I Hr Hl. pose proof I as [_ _ [l T] _]. pose proof (pm_timers_fuel s l T) as Hf.
  unfold set_alarm. destruct (Z.ltb_spec 0 ticks) as [Ht|Ht].
  - apply wpp_bind, wpp_rdm; [done|]. vw_reads. apply wpp_bind.
    eapply wpp_conseq; [apply (pm_set_timer_spec _ _ _ _ _ l); [apply T|done]|].
    cbv beta. intros _ s1 (t & h & e & -> & Harg & Ha). pm_step.
    pose proof (alarm_changed_upd rmp true (or_flags ALARM_ON) t h s view_alarm_on) as A.
    split; [|done]. apply (pinv_alarm rmp true s); auto. by apply (timers_ok_on rmp t e s _ l).
  - apply wpp_bind, wpp_mflag; [done|]. vw_reads. destruct (v_alarm (vw s rmp)) eqn:Ea; simpl.
    + apply wpp_bind. eapply wpp_conseq; [apply (pm_cancel_timer_spec _ _ l); [apply T|done]|].
      cbv beta. intros _ s1 (t & h & -> & Hc). pm_step.
      pose proof (alarm_changed_upd rmp false (clear_flags ALARM_ON) t h s view_alarm_off) as A.
      split; [|done]. apply (pinv_alarm rmp false s); auto; [done|].
      exists (without rmp l). by apply (timers_ok_off rmp t s).
    + apply wpp_ret. split; [done|]. split; try done. intros k. case_decide; [|done].
      subst. by rewrite <- Ea, set_v_alarm_id.
Qed.

End env.

(** ** The process manager: cascades of signals and exits

    A signal can exit a process, whose exit signals its parent, the processes it traces
    and its group.  [exit_proc_spec]: the cascade ends, keeps the invariant, kills the
    process it was called for, and stops PM only if the kernel, VM or FS refuse a
    request. *)

Section env.
Context `{PmEnv}.

(** *** Routines that change no view *)
Section quiet.
Context (P : string -> Prop).

Lemma setreply_quiet n r s : mslot n -> wpp P (setreply n r) (fun _ s' => quiet s s') s.
Proof.
  intros Hn. unfold setreply. destruct (_ || _) eqn:E.
  { exfalso. unfold mslot, NR_PROCS in *. lia. }
  repeat pm_step. quiet_done.
Qed.

Lemma vm_notify_quiet ep s :
  wpp P (vm_notify_sig_wrapper ep) (fun _ s' => quiet s s' /\ mproc_tab s' = mproc_tab s) s.
Proof.
  unfold vm_notify_sig_wrapper. repeat pm_step. destruct (List.find _ _) as [n|] eqn:E; repeat pm_step;
    [|unfold vm_notify_sig; repeat pm_step; split; [quiet_done|done]|by split].
  apply elem_of_mslots, list_elem_of_In. by apply List.find_some in E as [E _].
Qed.

End quiet.

Lemma stop_proc_quiet rmp signo s : mslot rmp -> mslot (v_tracer (vw s rmp)) ->
  wpp env_panic (stop_proc rmp signo) (fun _ s' => quiet s s') s.
Proof.
  intros Hr Ht. unfold stop_proc. change (v_tracer (vw s rmp)) with (mp_tracer (mproc_tab s rmp)) in Ht.
  unfold sys_trace. repeat pm_step; [solve_env| |quiet_done].
  eapply wpp_conseq; [by apply setreply_quiet|]. cbv beta; intros ? s' Hq. etrans; [|exact Hq]. quiet_done.
Qed.

Lemma sig_sent_quiet rmp s : mslot rmp -> wpp env_panic (sig_sent rmp) (fun _ s' => quiet s s') s.
Proof.
  intros Hr. unfold sig_sent. repeat pm_step.
  - eapply wpp_conseq; [by apply setreply_quiet|]. cbv beta; intros ? s' Hq.
    assert (Hq' : quiet s s') by (etrans; [|exact Hq]; quiet_done). clear Hq.
    repeat pm_step; [unfold sys_resume, sys_runctl; repeat pm_step; [solve_env|]|];
      etrans; try exact Hq'; quiet_done.
  - unfold sys_resume, sys_runctl; repeat pm_step; [solve_env|]. quiet_done.
  - quiet_done.
Qed.

(** Set up a handler; [false] when there is no room for it. *)
Lemma sig_send_quiet rmp signo s : mslot rmp -> 0 < signo < _NSIG ->
  flag_any (mp_flags (mproc_tab s rmp)) UNPAUSED = true ->
  wpp env_panic (sig_send rmp signo) (fun _ s' => quiet s s') s.
Proof.
  intros Hr Hsig Hu. unfold sig_send, vm_push_sig, sys_sigsend.
  apply wpp_bind, wpp_mflag; [done|]. rewrite Hu. simpl.
  repeat pm_step; try solve [quiet_done]; try solve_env;
    (eapply wpp_conseq; [by apply sig_sent_quiet|]; cbv beta; intros ? s' Hq; quiet_done).
Qed.

(** *** [unpause]: FS is asked to interrupt the call of the process *)

(** FS works for [n] now. *)
Definition fs_told (n : Z) (s s' : pm_state) : Prop := one_view n (set_v_fs true (vw s n)) s s'.

Lemma tell_fs_told P n m s : mslot n -> v_fs (vw s n) = false -> P "unable to send to FS" ->
  wpp P (tell_fs n m) (fun _ s' => fs_told n s s' /\
    flag_any (mp_flags (mproc_tab s' n)) UNPAUSED = flag_any (mp_flags (mproc_tab s n)) UNPAUSED) s.
Proof.
  intros Hn Hfs HP. unfold tell_fs. apply wpp_bind, wpp_mflag; [done|]. vw_reads. rewrite Hfs.
  repeat pm_step; [by apply wpp_panic|]. split.
  - apply (one_view_upd n _ (set_v_fs true)); [apply view_fs_on|]. apply one_view_quiet. quiet_done.
  - simpl. rewrite fn_lookup_insert. by flag_simpl.
Qed.

Lemma pinv_fs_told n s s' : pinv s -> mslot n -> live s n = true -> fs_told n s s' -> pinv s'.
Proof.
  intros I Hn [Hu Hx]%v_live_iff F. pose proof (vi_flags _ (pi_views _ I) n Hn) as [F1 F2 F3 F4 F5].
  apply (pinv_one n _ s s' I Hn F); simpl; auto.
  - split; simpl; auto. by rewrite Hu.
  - by rewrite Hx.
Qed.

Lemma casc_fs_told x n s s' : pinv s -> mslot n -> live s n = true -> fs_told n s s' -> casc x s s'.
Proof.
  intros I Hn [Hu Hx]%v_live_iff F. apply (casc_one x n _ s s' I Hn F); simpl; auto. congruence.
Qed.

(** [UNPAUSED] is set, or FS has been told, or the process is still sending. *)
Lemma unpause_spec rmp s : mslot rmp -> v_fs (vw s rmp) = false ->
  flag_any (mp_flags (mproc_tab s rmp)) UNPAUSED = false ->
  wpp env_panic (unpause rmp) (fun _ s' => quiet s s' \/
    fs_told rmp s s' /\ flag_any (mp_flags (mproc_tab s' rmp)) UNPAUSED = false) s.
Proof.
  intros Hr Hfs Hu. unfold unpause.
  assert (Hask : forall ep s1, quiet s s1 -> flag_any (mp_flags (mproc_tab s1 rmp)) UNPAUSED = false ->
    wpp env_panic (tell_fs rmp (set_m1_i1 ep (set_m_type PM_UNPAUSE uninit)))
      (fun _ s' => wpp env_panic (vm_notify_sig_wrapper ep) (fun _ s' => quiet s s' \/
         fs_told rmp s s' /\ flag_any (mp_flags (mproc_tab s' rmp)) UNPAUSED = false) s') s1).
  { intros ep s1 Hq Hu1. eapply wpp_conseq; [apply tell_fs_told; [done| |]|].
    - by rewrite (q_view _ _ Hq).
    - by apply env_panic_ok.
    - cbv beta. intros _ s2 [F Hu2]. eapply wpp_conseq; [apply vm_notify_quiet|].
      cbv beta. intros _ s3 [Hq3 ->]. right. split; [|by rewrite Hu2].
      apply (one_view_quiet_r _ _ _ s2); [|done]. apply (one_view_quiet_l _ _ _ s1); [done|].
      by rewrite <- (q_view _ _ Hq). }
  unfold sys_stop, sys_delay_stop, sys_runctl.
  repeat pm_step; try solve_env; try (left; quiet_done; done); apply Hask; try quiet_done; try done.
  all: simpl; rewrite fn_lookup_insert; by flag_simpl.
Qed.

(** *** The cycle *)

(** The invariant holds, and what happened is a cascade. *)
Definition kept (s s' : pm_state) : Prop := pinv s' /\ casc None s s'.

Lemma kept_trans s1 s2 s3 : kept s1 s2 -> kept s2 s3 -> kept s1 s3.
Proof. intros [A1 A2] [B1 B2]. split; [done|]. by apply (casc_trans None s1 s2). Qed.

Lemma kept_quiet s s' : pinv s -> quiet s s' -> kept s s'.
Proof. intros I Q. split; [by apply (pinv_quiet s)|by apply casc_quiet]. Qed.

Lemma kept_quiet_r s1 s2 s3 : kept s1 s2 -> quiet s2 s3 -> kept s1 s3.
Proof. intros A Q. apply (kept_trans s1 s2); [done|]. apply kept_quiet; [apply A|done]. Qed.

Lemma kept_quiet_l s1 s2 s3 : pinv s1 -> quiet s1 s2 -> kept s2 s3 -> kept s1 s3.
Proof. intros I Q A. apply (kept_trans s1 s2); [by apply kept_quiet|done]. Qed.

Lemma kept_fs_told n s s' : pinv s -> mslot n -> live s n = true -> fs_told n s s' -> kept s s'.
Proof. intros. split; [by apply (pinv_fs_told n s)|by apply (casc_fs_told None n)]. Qed.

Lemma kept_count s s' : kept s s' -> (live_count s' <= live_count s)%nat.
Proof. intros [_ C]. by apply (casc_live_count None). Qed.

Lemma quiet_live s s' n : quiet s s' -> live s' n = live s n.
Proof. intros Q. by rewrite (q_view _ _ Q). Qed.

Lemma quiet_count s s' : quiet s s' -> live_count s' = live_count s.
Proof. intros Q. apply cnt_ext. intros n _. by rewrite (q_view _ _ Q). Qed.

Lemma catch_sig_ok rmp signo s : pinv s -> mslot rmp -> live s rmp = true ->
  v_fs (vw s rmp) = false -> 0 < signo < _NSIG ->
  wpp env_panic (catch_sig rmp signo) (fun r s' => if r : bool then kept s s' else quiet s s') s.
Proof.
  intros I Hr Hl Hfs Hsig. unfold catch_sig. apply wpp_bind, wpp_mflag; [done|].
  assert (Hsend : forall s', quiet s s' -> flag_any (mp_flags (mproc_tab s' rmp)) UNPAUSED = true ->
    wpp env_panic (sig_send rmp signo) (fun r s' => if r : bool then kept s s' else quiet s s') s').
  { intros s1 Hq Hu. eapply wpp_conseq; [by apply sig_send_quiet|]. cbv beta. intros r s2 Hq2.
    assert (quiet s s2) by (by etrans). destruct r; [by apply kept_quiet|done]. }
  apply wpp_bind, wpp_when; intros Hu.
  - apply negb_true_iff in Hu.
    eapply wpp_conseq; [by apply unpause_spec|]. cbv beta. intros _ s1 [Hq|[F Hu1]].
    + repeat pm_step; [apply kept_quiet; [done|quiet_done]|]. by apply Hsend, negb_false_iff.
    + repeat pm_step; [|by rewrite Hu1 in *].
      apply (kept_quiet_r _ s1); [by apply (kept_fs_told rmp)|quiet_done].
  - apply negb_false_iff in Hu. apply wpp_bind, wpp_mflag; [done|]. rewrite Hu. by apply Hsend.
Qed.

(** *** Telling the parent or the tracer, and giving up a slot *)

Definition v_collected (v : view) : view := set_v_told true (set_v_zombie false v).

Lemma tell_parent_one P child s : pinv s -> mslot child -> v_zombie (vw s child) = true ->
  wpp P (tell_parent child) (fun _ s' => one_view child (v_collected (vw s child)) s s') s.
Proof.
  intros I Hc Hz. pose proof (pi_views _ I) as V.
  destruct (vi_flags _ V child Hc) as [F1 F2 (F3 & F4 & F5) _ _].
  assert (Hx : exiting s child = true) by (apply F2; by rewrite Hz).
  destruct (vi_parent _ V child Hc (vi_alive _ _ V Hc Hx)) as [Hp _].
  pose proof (vi_parent_slot _ V child Hc) as Hps.
  unfold tell_parent. apply wpp_bind, wpp_rdm; [done|]. vw_reads.
  destruct (Z.leb_spec (v_parent (vw s child)) 0) as [?|_]; [lia|].
  apply wpp_bind, wpp_mflag; [done|]. vw_reads. rewrite Hz. simpl.
  apply wpp_bind, wpp_mflag; [done|]. vw_reads. rewrite Hz in F4. simpl in F4. rewrite F4.
  repeat pm_step. set (s1 := upd_m _ _ s). assert (Hq : quiet s s1) by quiet_done.
  eapply wpp_conseq; [by apply setreply_quiet|]. cbv beta. intros _ s2 Hq2. repeat pm_step.
  apply (one_view_upd child _ (set_v_told true)); [apply view_told_on|].
  apply (one_view_upd child _ (set_v_zombie false)); [apply view_zombie_off|].
  apply one_view_quiet. quiet_done.
Qed.

Definition v_traced (v : view) : view := set_v_zombie true (set_v_tz false v).

Lemma tell_tracer_one P child s : pinv s -> mslot child -> v_tz (vw s child) = true ->
  wpp P (tell_tracer child) (fun _ s' => one_view child (v_traced (vw s child)) s s') s.
Proof.
  intros I Hc Hz. pose proof (pi_views _ I) as V.
  pose proof (fo_tz _ (vi_flags _ V child Hc) Hz) as Ht.
  pose proof (vi_tracer_slot _ V child Hc) as Hts.
  unfold tell_tracer. apply wpp_bind, wpp_rdm; [done|]. vw_reads.
  destruct (Z.leb_spec (v_tracer (vw s child)) 0) as [?|_]; [unfold mslot, NO_TRACER in *; lia|].
  apply wpp_bind, wpp_mflag; [done|]. vw_reads. rewrite Hz. simpl.
  repeat pm_step. set (s1 := upd_m _ _ s). assert (Hq : quiet s s1) by quiet_done.
  eapply wpp_conseq; [by apply setreply_quiet|]. cbv beta. intros _ s2 Hq2. repeat pm_step.
  apply (one_view_upd child _ (set_v_zombie true)); [apply view_zombie_on|].
  apply (one_view_upd child _ (set_v_tz false)); [apply view_tz_off|].
  apply one_view_quiet. quiet_done.
Qed.

(** A dead process changes only its dying flags. *)
Lemma kept_dead child v s s' : pinv s -> mslot child -> one_view child v s s' ->
  exiting s child = true -> flags_ok v -> v_exiting v = true ->
  v_used v = used s child -> v_fs v = v_fs (vw s child) -> v_alarm v = v_alarm (vw s child) ->
  v_ep v = v_ep (vw s child) -> v_pid v = v_pid (vw s child) ->
  v_parent v = v_parent (vw s child) \/ v_parent v = INIT_PROC_NR ->
  v_tracer v = v_tracer (vw s child) \/ v_tracer v = NO_TRACER ->
  kept s s'.
Proof.
  intros I Hc O Hx Hf Hx' Eu Ef Ea Ee Ep Hpar Htr. split.
  - apply (pinv_one child v s s'); try tauto. intros _. split; [|auto].
    by apply (vi_not_vital _ _ (pi_views _ I)).
  - apply (casc_one None child v); auto. congruence.
Qed.

Lemma flags_dead v : flags_ok v -> v_zombie v || v_tz v = true -> v_used v = true /\ v_exiting v = true /\
  v_told v = false /\ v_alarm v = false.
Proof.
  intros [F1 F2 (F3 & F4 & F5) _ F6] Hz. assert (Hx : v_exiting v = true) by (apply F2; by rewrite Hz).
  destruct (v_used v) eqn:Eu; [|by destruct (F1 eq_refl) as (? & _); congruence].
  split_all; try done.
  - destruct (v_told v); [|done]. destruct (v_zombie v), (v_tz v); done.
  - destruct (v_alarm v); [|done]. unfold v_live in F6. rewrite Hx, andb_false_r in F6. by specialize (F6 eq_refl).
Qed.

Lemma flags_dead_x v : flags_ok v -> v_exiting v = true -> v_alarm v = false /\ v_used v = true.
Proof.
  intros F Hx. split.
  - destruct (v_alarm v) eqn:E; [|done]. apply (fo_alarm _ F), v_live_iff in E as [_ ?]. congruence.
  - destruct (v_used v) eqn:E; [done|]. destruct (fo_free _ F E). congruence.
Qed.

Lemma flags_collected v : flags_ok v -> v_zombie v = true -> flags_ok (v_collected v).
Proof.
  intros F Hz. destruct (flags_dead v F) as (Hu & Hx & Ht & Ha); [by rewrite Hz|].
  destruct F as [F1 F2 (F3 & F4 & F5) F6 F7]. rewrite Hz in F3. simpl in F3.
  unfold v_collected. split; simpl; rewrite ?Hu, ?Ha, ?F3; try done.
Qed.

Lemma flags_traced v : flags_ok v -> v_tz v = true -> flags_ok (v_traced v).
Proof.
  intros F Hz. destruct (flags_dead v F) as (Hu & Hx & Ht & Ha); [by rewrite Hz, orb_true_r|].
  destruct F as [F1 F2 (F3 & F4 & F5) F6 F7].
  unfold v_traced. split; simpl; rewrite ?Hu, ?Ha, ?Ht; try done.
Qed.

Lemma kept_collected child s s' : pinv s -> mslot child -> v_zombie (vw s child) = true ->
  one_view child (v_collected (vw s child)) s s' -> kept s s'.
Proof.
  intros I Hc Hz O. pose proof (vi_flags _ (pi_views _ I) child Hc) as F.
  destruct (flags_dead _ F) as (Hu & Hx & _); [by rewrite Hz|].
  apply (kept_dead child _ s s' I Hc O); auto. by apply flags_collected.
Qed.

Lemma kept_traced child s s' : pinv s -> mslot child -> v_tz (vw s child) = true ->
  one_view child (v_traced (vw s child)) s s' -> kept s s'.
Proof.
  intros I Hc Hz O. pose proof (vi_flags _ (pi_views _ I) child Hc) as F.
  destruct (flags_dead _ F) as (Hu & Hx & _); [by rewrite Hz, orb_true_r|].
  apply (kept_dead child _ s s' I Hc O); auto. by apply flags_traced.
Qed.

(** The view of a slot that has been given up. *)
Definition v_freed (v : view) : view :=
  mk_view false false false false false false false (v_parent v) (v_tracer v) 0 (v_ep v).

(** Nothing depends on a dead process that FS has answered for: its slot can go. *)
Lemma cleanup_ok P child s s0 : pinv s -> mslot child -> exiting s child = true ->
  v_fs (vw s child) = false -> kept s0 s ->
  wpp P (cleanup child) (fun _ s' => kept s0 s') s.
Proof.
  intros I Hc Hx Hfs K. unfold cleanup. repeat pm_step.
  pose proof (pi_views _ I) as V. pose proof (vi_alive _ _ V Hc Hx) as Hu.
  set (s4 := upd_m child (set_mp_child_stime 0) _).
  assert (O : one_view child (v_freed (vw s child)) s s4).
  { do 2 (apply (one_view_quiet_r _ _ _ (upd_m child (set_mp_flags 0) (upd_m child (set_mp_pid 0) s)));
      [|quiet_done]).
    apply (one_view_upd child _ (fun v => mk_view false false false false false false false
              (v_parent v) (v_tracer v) (v_pid v) (v_ep v)) (set_v_pid 0 (vw s child))); [done|].
    apply (one_view_upd child _ (set_v_pid 0)); [done|]. by apply one_view_quiet. }
  clearbody s4. pose proof (ov_eq _ _ _ _ O) as E.
  pose proof (fun k => ov_ne _ _ _ _ k O) as Ek.
  set (s5 := set_procs_in_use _ s4). change (vw s4) with (vw s5) in *.
  apply (kept_trans s0 s); [done|]. split.
  - pose proof I as [I1 I2 [l [T1 T2 T3]] I4]. split.
    + apply (vinv_free (vw s) _ child); rewrite ?E; auto. by split.
    + change (procs_in_use s5) with (procs_in_use s4 - 1). rewrite (ov_count _ _ _ _ O), I2.
      rewrite (cnt_drop _ (fun k => used s5 k) child); [lia|done|done|by rewrite E|].
      intros k _ Hk. by rewrite Ek.
    + exists l. assert (Et : pm_timers s5 = pm_timers s) by apply O.
      destruct (flags_dead_x _ (vi_flags _ V child Hc) Hx) as [Ha _].
      assert (Hl : forall k, k ∈ l -> k <> child) by (intros k [_ ?]%T2 ->; congruence). split.
      * by rewrite Et.
      * intros k. rewrite T2. destruct (decide (k = child)) as [->|Hk]; [|by rewrite Ek].
        rewrite E. simpl. split; [intros []; congruence|by intros []].
      * intros k Hk. rewrite Et, Ek by auto. by apply T3.
    + change (mp s5) with (mp s4). by rewrite (rest_mp _ _ (ov_rest _ _ _ _ O)).
  - split; [|apply O]. split.
    + intros k _. destruct (decide (k = child)) as [->|Hk]; [by rewrite E|by rewrite Ek].
    + intros k _. destruct (decide (k = child)) as [->|Hk]; [by rewrite E|by rewrite Ek].
    + intros k _. destruct (decide (k = child)) as [->|Hk]; [rewrite E|rewrite Ek by done]; by left.
    + intros k _. destruct (decide (k = child)) as [->|Hk]; [rewrite E|rewrite Ek by done]; by left.
    + intros k _ [_ Hk0]%v_live_iff. destruct (decide (k = child)) as [->|Hk]; [congruence|].
      rewrite Ek by done. congruence.
    + intros k _. destruct (decide (k = child)) as [->|Hk]; [by rewrite E|by rewrite Ek].
    + intros k _ [D1 D2]. destruct (decide (k = child)) as [->|Hk]; [|by rewrite Ek].
      specialize (D2 Hx). congruence.
    + intros k _ _ [_ Hk0]%v_live_iff. destruct (decide (k = child)) as [->|Hk]; [congruence|].
      rewrite Ek by done. congruence.
    + intros k _. destruct (decide (k = child)) as [->|Hk]; [by rewrite E|by rewrite Ek].
    + intros k _. destruct (decide (k = child)) as [->|Hk]; [by rewrite E|by rewrite Ek].
Qed.

(** *** The stages of an exit *)

Lemma alarm_changed_quiet_l n b s s1 s' : quiet s s1 -> alarm_changed n b s1 s' -> alarm_changed n b s s'.
Proof. intros [Q1 Q2 Q3 Q4] [A1 A2 A3]. split; try congruence. intros k. by rewrite A1, !Q1. Qed.

Lemma alarm_changed_quiet_r n b s s1 s' : alarm_changed n b s s1 -> quiet s1 s' -> alarm_changed n b s s'.
Proof. intros [A1 A2 A3] [Q1 Q2 Q3 Q4]. split; try congruence. intros k. by rewrite Q1, A1. Qed.

Lemma kept_alarm n b s s' : pinv s -> pinv s' -> alarm_changed n b s s' -> kept s s'.
Proof. intros I I' A. split; [done|by apply (casc_alarm None n b)]. Qed.

(** The process is stopped, its alarm is off, and its times are its parent's. *)
Lemma exit_prepare_ok rmp s : pinv s -> mslot rmp ->
  wpp env_panic (exit_prepare rmp) (fun _ s' => pinv s' /\ alarm_changed rmp false s s') s.
Proof.
  intros I Hr. unfold exit_prepare. do 2 pm_step. apply wpp_bind, wpp_mflag; [done|]. vw_reads.
  apply wpp_bind, (wpp_conseq _ _ (fun _ s' => pinv s' /\ alarm_changed rmp false s s')).
  { apply wpp_when; intros Ha; [by apply (set_alarm_spec rmp 0)|]. split; [done|]. split; try done.
    intros k. case_decide; [|done]. subst. by rewrite <- Ha, set_v_alarm_id. }
  cbv beta. intros _ s1 [I1 A]. pose proof (vi_parent_slot _ (pi_views _ I1) rmp Hr) as Hp.
  assert (Hq : forall s', quiet s1 s' -> pinv s' /\ alarm_changed rmp false s s').
  { intros s' Q. split; [by apply (pinv_quiet s1)|by apply (alarm_changed_quiet_r _ _ _ s1)]. }
  unfold sys_times, sys_stop, sys_runctl, vm_willexit.
  repeat (pm_step; try solve_env). eapply wpp_conseq; [apply vm_notify_quiet|].
  cbv beta. intros _ s2 [Q _]. apply Hq. quiet_done.
Qed.

(** The view of a process that has just been marked. *)
Definition v_marked (v : view) : view :=
  mk_view true true false false false true false (v_parent v) (v_tracer v) (v_pid v) (v_ep v).

Lemma exit_mark_one rmp st d s : mslot rmp -> used s rmp = true -> v_fs (vw s rmp) = false ->
  wpp env_panic (exit_mark rmp st d) (fun _ s' => one_view rmp (v_marked (vw s rmp)) s s') s.
Proof.
  intros Hr Hu Hfs. unfold exit_mark. do 3 pm_step.
  eapply wpp_conseq; [apply tell_fs_told; [done|done|by apply env_panic_ok]|].
  cbv beta. intros _ s1 [F _]. unfold sys_exit.
  assert (Hend : forall s2, quiet s1 s2 ->
    one_view rmp (v_marked (vw s rmp)) s
      (upd_m rmp (set_mp_exitstatus (i8 st)) (upd_m rmp (or_flags EXITING)
        (upd_m rmp (fun p => set_mp_flags (Z.land (mp_flags p)
           (Z.lor (Z.lor IN_USE FS_CALL) (Z.lor PRIV_PROC TRACE_EXIT))) p) s2)))).
  { intros s2 Q. eapply one_view_quiet_r; [|apply quiet_upd; solve_view].
    replace (v_marked (vw s rmp)) with (set_v_exiting true (mk_view (used s rmp) false false false
      false true false (v_parent (vw s rmp)) (v_tracer (vw s rmp)) (v_pid (vw s rmp)) (v_ep (vw s rmp))))
      by (unfold set_v_exiting, v_marked; simpl; by rewrite Hu).
    apply (one_view_upd rmp _ (set_v_exiting true)); [apply view_exiting|].
    apply (one_view_upd rmp _ (fun v => mk_view (v_used v) false false false false (v_fs v) false
        (v_parent v) (v_tracer v) (v_pid v) (v_ep v)) (set_v_fs true (vw s rmp))).
    - intros p. unfold view_of. by flag_simpl.
    - by apply (one_view_quiet_r _ _ _ s1). }
  repeat (pm_step; try solve_env); apply Hend; quiet_done.
Qed.

(** One process fewer can exit; it is the one that is not settled yet. *)
Lemma marked_ok rmp s s' : pinv s -> mslot rmp -> live s rmp = true -> ~ vital rmp ->
  v_alarm (vw s rmp) = false -> one_view rmp (v_marked (vw s rmp)) s s' ->
  pinv s' /\ casc (Some rmp) s s' /\ S (live_count s') = live_count s.
Proof.
  intros I Hr Hl Hi Ha O. apply v_live_iff in Hl as Hux. destruct Hux as [Hu Hx].
  pose proof (ov_eq _ _ _ _ O) as E. split; [|split].
  - apply (pinv_one rmp _ s s' I Hr O); simpl; auto. by split.
  - split; [|apply O].
    assert (Ek : forall k, k <> rmp -> vw s' k = vw s k) by (intros k; by apply (ov_ne rmp (v_marked (vw s rmp)))).
    split; intros k Hk; (destruct (decide (k = rmp)) as [->|Hkr];
      [rewrite E; simpl; try tauto; try congruence|rewrite ?Ek by done; try tauto]).
    + intros [_ ?]%v_live_iff. congruence.
    + by intros [].
    + intros _ [_ ?]%v_live_iff. congruence.
  - symmetry. apply (cnt_drop _ _ rmp); [done|done|by rewrite E|].
    intros k _ Hk. by rewrite (ov_ne _ _ _ _ _ O).
Qed.

(** What the cycle needs of the exit inside it: it may be called when at most [n]
    processes can still exit. *)
Definition exit_ok (n : nat) (ex : Z -> Z -> bool -> PM unit) : Prop := forall s rmp st d,
  pinv s -> mslot rmp -> live s rmp = true -> v_fs (vw s rmp) = false -> (live_count s <= n)%nat ->
  wpp env_panic (ex rmp st d) (fun _ s' => kept s s' /\
    (rmp <> INIT_PROC_NR -> exiting s' rmp = true)) s.

Section cycle.
Context (n : nat) (ex : Z -> Z -> bool -> PM unit).
Hypothesis Hex : exit_ok n ex.

Lemma terminate_ok rmp signo s : pinv s -> mslot rmp -> live s rmp = true ->
  v_fs (vw s rmp) = false -> (live_count s <= n)%nat ->
  wpp env_panic (terminate ex rmp signo) (fun _ s' => kept s s' /\
    (rmp <> INIT_PROC_NR -> exiting s' rmp = true)) s.
Proof.
  intros I Hr Hl Hfs Hn. unfold terminate. repeat pm_step.
  set (s1 := upd_m rmp _ s). assert (Hq : quiet s s1) by quiet_done.
  eapply wpp_conseq; [apply Hex|cbv beta].
  - by apply (pinv_quiet s).
  - done.
  - by rewrite (quiet_live s).
  - by rewrite (q_view _ _ Hq).
  - by rewrite (quiet_count s).
  - intros _ s2 [K Hx]. split; [by apply (kept_quiet_l s s1)|done].
Qed.

Lemma sig_proc_ok rmp signo trace s : pinv s -> mslot rmp -> live s rmp = true -> 0 < signo < _NSIG ->
  (live_count s <= n)%nat ->
  wpp env_panic (sig_proc_with ex rmp signo trace) (fun _ s' => kept s s') s.
Proof.
  intros I Hr Hl Hsig Hn. unfold sig_proc_with. apply wpp_bind, wpp_rdm; [done|].
  rewrite is_live_view, Hl. simpl. apply wpp_bind, wpp_rdm; [done|].
  assert (Hterm : forall s', quiet s s' -> v_fs (vw s rmp) = false ->
    wpp env_panic (terminate ex rmp signo) (fun _ s' => kept s s') s').
  { intros s1 Hq Hfs. eapply wpp_conseq; [apply terminate_ok|cbv beta; intros _ s2 [K _]].
    - by apply (pinv_quiet s).
    - done.
    - by rewrite (quiet_live s).
    - by rewrite (q_view _ _ Hq).
    - by rewrite (quiet_count s).
    - by apply (kept_quiet_l s s1). }
  destruct (_ && _ && _) eqn:Et; [|apply wpp_bind, wpp_mflag; [done|]; vw_reads; destruct (v_fs _) eqn:Efs].
  - repeat pm_step; [|apply kept_quiet; [done|quiet_done]].
    set (s1 := upd_m rmp _ s). assert (Hq : quiet s s1) by quiet_done.
    eapply wpp_conseq; [apply stop_proc_quiet; [done|]|cbv beta; intros _ s2 Hq2; apply kept_quiet; [done|by etrans]].
    rewrite (q_view _ _ Hq). by apply (pi_views _ I).
  - unfold sys_stop, sys_runctl. repeat pm_step; try solve_env; apply kept_quiet; (done || quiet_done).
  - repeat (pm_step; try (apply kept_quiet; [done|quiet_done; fail])).
    all: try (apply Hterm; [quiet_done|done]).
    eapply wpp_conseq; [by apply catch_sig_ok|cbv beta]. intros [] s1 K; [by apply wpp_ret|by apply Hterm].
Qed.

Lemma check_sig_ok proc_id signo s : pinv s -> (live_count s <= n)%nat ->
  wpp env_panic (check_sig_with ex proc_id signo) (fun _ s' => kept s s') s.
Proof.
  intros I Hn. unfold check_sig_with.
  destruct (_ || _) eqn:Es; [apply wpp_ret; by apply kept_quiet|].
  destruct (_ && _); [apply wpp_ret; by apply kept_quiet|].
  apply wpp_bind.
  set (Q := fun (r : Z * Z + Z * Z) s' => wpp _ _ _ s').
  assert (Htail : forall r s', kept s s' -> Q r s').
  { intros r s1 K. unfold Q. destruct (match r with inl a => a | inr a => a end).
    repeat pm_step; try done. apply K. }
  apply (wpp_fold_exit _ (fun _ _ s' => kept s s')); [by apply kept_quiet|..].
  - intros acc rmp rest s1 K Hr%elem_of_mslots. unfold check_sig_one. repeat pm_step; try done.
    + apply K.
    + apply orb_false_iff in Heqb1 as [E0 Ex].
      assert (Hl : live s1 rmp = true).
      { apply v_live_iff. split; [|done]. apply negb_false_iff in Heqb. unfold sig_selects in Heqb.
        rewrite !andb_true_iff in Heqb. by destruct Heqb as [[[[[? ?] ?] ?] ?] ?]. }
      eapply wpp_conseq; [apply sig_proc_ok; [apply K|done|done|lia|]|].
      * etrans; [by apply kept_count|done].
      * cbv beta. intros _ s2 K2. assert (kept s s2) by (by apply (kept_trans s s1)).
        destruct (0 <? proc_id); apply wpp_ret; auto.
  - auto.
Qed.

Lemma check_parent_ok child b s : pinv s -> mslot child -> v_zombie (vw s child) = true ->
  (live_count s <= n)%nat ->
  wpp env_panic (check_parent_with ex child b) (fun _ s' => kept s s') s.
Proof.
  intros I Hc Hz Hn. pose proof (pi_views _ I) as V. pose proof (vi_parent_slot _ V child Hc) as Hps.
  destruct (flags_dead _ (vi_flags _ V child Hc)) as (Hu & Hx & Ht & Ha); [by rewrite Hz|].
  destruct (vi_parent _ V child Hc Hu) as [Hp0 [Hpu Hpf]].
  unfold check_parent_with. apply wpp_bind, wpp_rdm; [done|]. vw_reads.
  apply wpp_bind, wpp_mflag; [done|]. vw_reads.
  destruct (exiting s (v_parent (vw s child))) eqn:Epx; [apply wpp_ret; by apply kept_quiet|].
  pm_step. pm_step. pm_step.
  - pm_step. eapply wpp_conseq; [by apply tell_parent_one|]. cbv beta. intros _ s1 O.
    pose proof (kept_collected child s s1 I Hc Hz O) as K. pose proof (ov_eq _ _ _ _ O) as E.
    apply wpp_bind, wpp_mflag; [done|]. vw_reads. apply wpp_when; intros Hb; [|done].
    apply andb_true_iff in Hb as [_ Hfs%negb_true_iff].
    apply cleanup_ok; [apply K|done|by rewrite E|done|done].
  - apply sig_proc_ok; try done. by apply v_live_iff.
Qed.

(** The same, later in a cascade. *)
Lemma check_parent_from child b s0 s : kept s0 s -> mslot child -> v_zombie (vw s child) = true ->
  (live_count s0 <= n)%nat ->
  wpp env_panic (check_parent_with ex child b) (fun _ s' => kept s0 s') s.
Proof.
  intros K Hc Hz Hn. eapply wpp_conseq; [apply check_parent_ok; [apply K|done|done|]|].
  - etrans; [by apply kept_count|done].
  - cbv beta. intros _ s2 K2. by apply (kept_trans s0 s).
Qed.

Lemma sig_proc_from rmp signo trace s0 s : kept s0 s -> mslot rmp -> live s rmp = true ->
  0 < signo < _NSIG -> (live_count s0 <= n)%nat ->
  wpp env_panic (sig_proc_with ex rmp signo trace) (fun _ s' => kept s0 s') s.
Proof.
  intros K Hr Hl Hs Hn. eapply wpp_conseq; [apply sig_proc_ok; [apply K|done|done|done|]|].
  - etrans; [by apply kept_count|done].
  - cbv beta. intros _ s2 K2. by apply (kept_trans s0 s).
Qed.

Lemma flags_die v : flags_ok v -> v_exiting v = true ->
  v_zombie v = false -> v_tz v = false -> v_told v = false ->
  flags_ok (set_v_zombie true v) /\ (v_tracer v <> NO_TRACER -> flags_ok (set_v_tz true v)).
Proof.
  intros F Hx Hz Htz Htd. destruct (flags_dead_x _ F Hx) as [Ha Hu].
  split; [|intros Ht]; split; simpl; rewrite ?Hu, ?Ha, ?Hz, ?Htz, ?Htd; done.
Qed.

Lemma zombify_ok rmp s : pinv s -> mslot rmp -> exiting s rmp = true ->
  v_zombie (vw s rmp) = false -> v_tz (vw s rmp) = false -> v_told (vw s rmp) = false ->
  (live_count s <= n)%nat ->
  wpp env_panic (zombify_with ex rmp) (fun _ s' => kept s s') s.
Proof.
  intros I Hr Hx Hz Htz Htd Hn. pose proof (pi_views _ I) as V.
  destruct (flags_die _ (vi_flags _ V rmp Hr) Hx Hz Htz Htd) as [Fz Ft].
  pose proof (vi_tracer_slot _ V rmp Hr) as Hts.
  unfold zombify_with. apply wpp_bind, wpp_mflag; [done|]. rewrite flag_any_lor. vw_reads.
  rewrite Htz, Hz. simpl. do 2 (apply wpp_bind, wpp_rdm; [done|]). vw_reads.
  destruct (_ && _) eqn:Et; pm_step; pm_step; set (s1 := upd_m rmp _ s).
  - apply andb_true_iff in Et as [Et%negb_true_iff%Z.eqb_neq _].
    assert (O : one_view rmp (set_v_tz true (vw s rmp)) s s1).
    { apply (one_view_upd rmp _ (set_v_tz true)); [apply view_tz_on|by apply one_view_quiet]. }
    assert (K : kept s s1) by (apply (kept_dead rmp _ s s1 I Hr O); auto).
    pose proof (ov_eq _ _ _ _ O) as E. clearbody s1. repeat pm_step; try done.
    assert (Hz1 : v_tz (vw s1 rmp) = true) by (by rewrite E).
    eapply wpp_conseq; [apply tell_tracer_one; [apply K|done|done]|].
    cbv beta. intros _ s2 O2. apply check_parent_from; [|done|by rewrite (ov_eq _ _ _ _ O2)|done].
    apply (kept_trans s s1); [done|]. apply (kept_traced rmp s1); [apply K|done..].
  - assert (O : one_view rmp (set_v_zombie true (vw s rmp)) s s1).
    { apply (one_view_upd rmp _ (set_v_zombie true)); [apply view_zombie_on|by apply one_view_quiet]. }
    apply check_parent_from; [|done|by rewrite (ov_eq _ _ _ _ O)|done].
    apply (kept_dead rmp _ s s1 I Hr O); auto.
Qed.

(** What a kept state says of a process that had no tracer, or INIT for a parent. *)
Lemma kept_tracer s s' k : kept s s' -> mslot k -> v_tracer (vw s k) = NO_TRACER ->
  v_tracer (vw s' k) = NO_TRACER.
Proof. intros [_ [C _]] Hk E. by destruct (ca_tracer _ _ _ C k Hk) as [->| ->]. Qed.

Lemma kept_parent s s' k : kept s s' -> mslot k -> v_parent (vw s k) = INIT_PROC_NR ->
  v_parent (vw s' k) = INIT_PROC_NR.
Proof. intros [_ [C _]] Hk E. by destruct (ca_parent _ _ _ C k Hk) as [->| ->]. Qed.

Lemma kept_used s s' k : kept s s' -> mslot k -> used s' k = true -> used s k = true.
Proof. intros [_ [C _]]. by apply C. Qed.

(** A process that is not in its end loses its tracer, or becomes INIT's child. *)
Lemma kept_free child v s s' : pinv s -> mslot child -> one_view child v s s' ->
  flags_ok v -> v_exiting v = exiting s child ->
  v_used v = used s child -> v_fs v = v_fs (vw s child) -> v_alarm v = v_alarm (vw s child) ->
  v_ep v = v_ep (vw s child) -> v_pid v = v_pid (vw s child) ->
  v_parent v = v_parent (vw s child) \/ v_parent v = INIT_PROC_NR ->
  v_tracer v = v_tracer (vw s child) \/ v_tracer v = NO_TRACER ->
  kept s s'.
Proof.
  intros I Hc O Hf Hx. destruct (exiting s child) eqn:E; [intros; by apply (kept_dead child v s s')|].
  intros Eu Ef Ea Ee Ep Hpar Htr. split.
  - apply (pinv_one child v s s'); try tauto. congruence.
  - apply (casc_one None child v); auto; congruence.
Qed.

Lemma flags_untraced v : flags_ok v -> v_tz v = false -> flags_ok (set_v_tracer NO_TRACER v).
Proof. intros [F1 F2 F3 F4 F5] Hz. split; simpl; auto. by rewrite Hz. Qed.

Lemma flags_untraced_tz v : flags_ok v -> v_tz v = true ->
  flags_ok (v_traced (set_v_tracer NO_TRACER v)).
Proof.
  intros F Hz. apply flags_traced in F; [|done].
  destruct F as [F1 F2 F3 F4 F5]. split; simpl in *; auto.
Qed.

Lemma tracer_died_ok child s : pinv s -> mslot child -> used s child = true -> (live_count s <= n)%nat ->
  wpp env_panic (tracer_died_with ex child)
    (fun _ s' => kept s s' /\ v_tracer (vw s' child) = NO_TRACER) s.
Proof.
  intros I Hc Hu Hn. pose proof (vi_flags _ (pi_views _ I) child Hc) as F.
  unfold tracer_died_with. do 4 pm_step. set (s1 := upd_m child _ _).
  assert (O : one_view child (set_v_tracer NO_TRACER (vw s child)) s s1).
  { apply (one_view_quiet_r _ _ _ (upd_m child (set_mp_tracer NO_TRACER) s)); [|quiet_done].
    apply (one_view_upd child _ (set_v_tracer NO_TRACER)); [done|by apply one_view_quiet]. }
  clearbody s1. pose proof (ov_eq _ _ _ _ O) as E. apply wpp_bind, wpp_mflag; [done|]. vw_reads.
  assert (Hk : v_tz (vw s child) = false -> kept s s1).
  { intros Hz. apply (kept_free child _ s s1 I Hc O); auto. by apply flags_untraced. }
  assert (Hpost : forall s0 s', kept s s0 -> kept s0 s' -> v_tracer (vw s0 child) = NO_TRACER ->
    kept s s' /\ v_tracer (vw s' child) = NO_TRACER).
  { intros s0 s' K K' Et. split; [by apply (kept_trans s s0)|by apply (kept_tracer s0)]. }
  rewrite E. simpl. destruct (exiting s child) eqn:Ex; simpl.
  - apply wpp_bind, wpp_mflag; [done|]. vw_reads. rewrite E. simpl.
    destruct (v_tz (vw s child)) eqn:Hz; repeat pm_step; try done; [|split; [auto|by rewrite E]].
    set (s3 := upd_m child _ _).
    assert (O3 : one_view child (v_traced (set_v_tracer NO_TRACER (vw s child))) s s3).
    { apply (one_view_upd child _ (set_v_zombie true)); [apply view_zombie_on|].
      apply (one_view_upd child _ (set_v_tz false)); [apply view_tz_off|done]. }
    assert (K3 : kept s s3) by (apply (kept_dead child _ s s3 I Hc O3); auto; by apply flags_untraced_tz).
    pose proof (ov_eq _ _ _ _ O3) as E3. clearbody s3.
    eapply wpp_conseq; [apply check_parent_ok; [apply K3|done|by rewrite E3|]|].
    + etrans; [by apply kept_count|done].
    + cbv beta. intros _ s4 K4. apply (Hpost s3); [done..|by rewrite E3].
  - assert (K : kept s s1).
    { apply Hk. destruct (v_tz (vw s child)) eqn:Hz; [|done].
      destruct (flags_dead _ F) as (_ & ? & _); [by rewrite Hz, orb_true_r|congruence]. }
    eapply wpp_conseq; [apply sig_proc_ok; [apply K|done| |done|]|].
    + apply v_live_iff. by rewrite E.
    + etrans; [by apply kept_count|done].
    + cbv beta. intros _ s4 K4. apply (Hpost s1); [done..|by rewrite E].
Qed.

(** Nothing of [rmp] depends on [p] any more. *)
Definition off (s : pm_state) (p rmp : Z) : Prop :=
  used s rmp = true -> v_parent (vw s rmp) <> p /\ (v_tracer (vw s rmp) <> NO_TRACER -> v_tracer (vw s rmp) <> p).

Lemma off_kept s s' p k : kept s s' -> mslot k -> p <> INIT_PROC_NR -> off s p k -> off s' p k.
Proof.
  intros [_ [C _]] Hk Hp HO Hu. destruct (HO (ca_used _ _ _ C k Hk Hu)) as [S1 S2]. split.
  - destruct (ca_parent _ _ _ C k Hk) as [->| ->]; [done|by intros <-].
  - destruct (ca_tracer _ _ _ C k Hk) as [->| ->]; done.
Qed.

Lemma disinherit_ok p rmp s : pinv s -> mslot rmp -> p <> INIT_PROC_NR -> (live_count s <= n)%nat ->
  wpp env_panic (disinherit ex p rmp) (fun _ s' => kept s s' /\ off s' p rmp) s.
Proof.
  intros I Hr Hp Hn. unfold disinherit. apply wpp_bind, wpp_mflag; [done|]. vw_reads.
  destruct (used s rmp) eqn:Hu; simpl; [|apply wpp_ret; split; [by apply kept_quiet|intros ?; congruence]].
  apply wpp_bind, wpp_rdm; [done|]. vw_reads.
  apply wpp_bind, (wpp_conseq _ _ (fun _ s' => kept s s' /\
    (v_tracer (vw s' rmp) <> NO_TRACER -> v_tracer (vw s' rmp) <> p))).
  { apply wpp_when; intros Ht.
    - eapply wpp_conseq; [by apply tracer_died_ok|]. cbv beta. intros _ s1 [K ->]. done.
    - split; [by apply kept_quiet|]. apply Z.eqb_neq in Ht. done. }
  cbv beta. intros _ s1 [K Ht]. apply wpp_bind, wpp_rdm; [done|]. vw_reads.
  apply wpp_when; intros Hpar%Z.eqb_eq || intros Hpar%Z.eqb_neq; [|by split].
  pm_step. pm_step. set (s2 := upd_m rmp _ s1).
  assert (O : one_view rmp (set_v_parent INIT_PROC_NR (vw s1 rmp)) s1 s2).
  { apply (one_view_upd rmp _ (set_v_parent INIT_PROC_NR)); [done|by apply one_view_quiet]. }
  assert (K2 : kept s1 s2).
  { pose proof (vi_flags _ (pi_views _ (proj1 K)) rmp Hr) as [F1 F2 F3 F4 F5].
    apply (kept_free rmp _ s1 s2 (proj1 K) Hr O); auto. by split. }
  pose proof (ov_eq _ _ _ _ O) as E. clearbody s2.
  assert (Hoff : off s2 p rmp). { intros _. rewrite E. simpl. split; [by intros <-|done]. }
  pose proof (kept_trans _ _ _ K K2) as K02.
  apply wpp_bind, wpp_mflag; [done|]. vw_reads. apply wpp_when; intros Hz; [|by split].
  eapply wpp_conseq; [apply check_parent_ok; [apply K2|done|done|]|].
  - etrans; [by apply kept_count|done].
  - cbv beta. intros _ s3 K3. split; [by apply (kept_trans s s2)|by apply (off_kept s2)].
Qed.

(** The loop over the table: nothing depends on the process any more. *)
Lemma disinherit_all_ok p s : pinv s -> p <> INIT_PROC_NR -> (live_count s <= n)%nat ->
  wpp env_panic (for_each all_mslots (disinherit ex p)) (fun _ s' => kept s s' /\ settled (vw s') p) s.
Proof.
  intros I Hp Hn. apply (wpp_for_each _ (fun rest s' => kept s s' /\
    forall k, mslot k -> k ∉ rest -> off s' p k)).
  - split; [by apply kept_quiet|]. intros k Hk []. by apply elem_of_mslots.
  - intros k rest s1 [K HO] Hk%elem_of_mslots. eapply wpp_conseq; [apply disinherit_ok; [apply K|done|done|]|].
    + etrans; [by apply kept_count|done].
    + cbv beta. intros _ s2 [K2 Hoff]. split; [by apply (kept_trans s s1)|]. intros j Hj Hjr.
      destruct (decide (j = k)) as [->|Hjk]; [done|].
      apply (off_kept s1); [done..|]. apply HO; [done|set_solver].
  - intros s' [K HO]. split; [done|]. intros k Hk. apply HO; [done|set_solver].
Qed.

Lemma exit_body_ok : exit_ok (S n) (exit_body ex).
Proof.
  intros s rmp st d I Hr Hl Hfs Hn. unfold exit_body. pose proof (pi_mp _ I) as Hmp.
  apply v_live_iff in Hl as Hux. destruct Hux as [Hu Hx].
  pose proof (vi_is_vital _ _ INIT_PROC_NR (pi_views _ I) Hr Hu (or_introl eq_refl)) as Hinit.
  pose proof (vi_is_vital _ _ FS_PROC_NR (pi_views _ I) Hr Hu (or_intror eq_refl)) as Hfsp.
  do 6 (pm_step; pm_step). eapply wpp_bind, wpp_conseq; [by apply exit_prepare_ok|].
  cbv beta. intros _ s1 [I1 A]. pose proof (kept_alarm _ _ _ _ I I1 A) as K1.
  assert (E1 : vw s1 rmp = set_v_alarm false (vw s rmp)) by (rewrite (ac_view _ _ _ _ A); by rewrite decide_True).
  vw_reads. destruct (Z.eqb_spec (v_ep (vw s rmp)) INIT_PROC_NR) as [Hi|Hi].
  { apply wpp_ret. split; [done|]. intros []. by apply Hinit. }
  destruct (Z.eqb_spec (v_ep (vw s rmp)) FS_PROC_NR) as [?|Hf]; [solve_env|].
  assert (Hri : rmp <> INIT_PROC_NR) by (intros ?; by apply Hi, Hinit).
  assert (Hv : ~ vital rmp) by (intros [?|?]; [by apply Hri|by apply Hf, Hfsp]).
  eapply wpp_bind, wpp_conseq; [apply exit_mark_one; [done|by rewrite E1|by rewrite E1]|].
  cbv beta. intros _ s2 O. pose proof (ov_eq _ _ _ _ O) as E2.
  destruct (marked_ok rmp s1 s2 I1) as (I2 & C2 & Hc); [done|by rewrite E1|done|by rewrite E1|done|].
  assert (Hn2 : (live_count s2 <= n)%nat) by (apply kept_count in K1; lia).
  eapply wpp_bind, (wpp_conseq _ _ (fun _ s' => kept s2 s')).
  { apply wpp_when; intros _; [|by apply kept_quiet]. apply zombify_ok; by rewrite ?E2. }
  cbv beta. intros _ s3 K3. eapply wpp_bind, wpp_conseq.
  { apply disinherit_all_ok; [apply K3|exact Hri|]. etrans; [by apply kept_count|done]. }
  cbv beta. intros _ s4 [K4 HS]. pose proof (kept_trans _ _ _ K3 K4) as K24.
  assert (K14 : kept s1 s4).
  { split; [apply K4|]. pose proof (casc_trans (Some rmp) s1 s2 s4 I2 (proj1 K4) C2 (proj2 K24)) as [C R].
    split; [by apply (vcasc_settle rmp)|done]. }
  assert (Hx4 : exiting s4 rmp = true).
  { destruct K24 as [_ [C _]]. apply (ca_old _ _ _ C); rewrite ?E2; try done.
    apply (ca_stay _ _ _ C); [done|]. split; by rewrite E2. }
  assert (Hfs4 : v_fs (vw s4 rmp) = true).
  { destruct K14 as [_ [C _]]. apply (ca_new _ _ _ C); [done| |done]. rewrite E1. by apply v_live_iff. }
  assert (Hend : forall s5, kept s4 s5 -> kept s s5 /\ (rmp <> INIT_PROC_NR -> exiting s5 rmp = true)).
  { intros s5 K5. split; [by apply (kept_trans s s1), (kept_trans s1 s4)|]. intros _.
    destruct K5 as [_ [C _]]. apply (ca_old _ _ _ C); try done. apply (ca_stay _ _ _ C); [done|].
    split; [|done]. apply (vi_alive _ _ (pi_views _ (proj1 K4)) Hr Hx4). }
  apply wpp_when; intros _; [|apply Hend, kept_quiet; [apply K4|done]].
  eapply wpp_bind, wpp_conseq; [apply check_sig_ok; [apply K4|]|].
  - etrans; [exact (kept_count _ _ K24)|done].
  - cbv beta. intros _ s5 K5. apply wpp_ret. by apply Hend.
Qed.

End cycle.

(** Every nested exit marks a process first: the fuel is never used up. *)
Lemma exit_fuel_ok n : exit_ok n (exit_fuel (S n)).
Proof.
  induction n as [|n IH].
  - intros s rmp st d I Hr Hl _ Hn. exfalso.
    assert (1 <= live_count s)%nat; [|lia].
    apply (Nat.le_trans _ (S (cnt (fun k => live s k && negb (bool_decide (k = rmp)))))); [lia|].
    apply Nat.eq_le_incl. symmetry. apply (cnt_drop _ _ rmp); [done|done|..].
    + by rewrite bool_decide_true, andb_false_r.
    + intros k _ Hk. by rewrite bool_decide_false, andb_true_r.
  - apply exit_body_ok, IH.
Qed.

Lemma exit_proc_spec : exit_ok 256 exit_proc.
Proof. apply exit_fuel_ok. Qed.

Lemma live_count_le s : (live_count s <= 256)%nat.
Proof. apply cnt_le. Qed.

End env.
