(* ===== verification/PmCalm.v ===== *)
(** * The process manager: the calls that only answer

    The invariant between two turns of PM's main loop ([tinv]), what a call may do to
    it ([fine]), and the calls that look something up, ask the kernel or VM, or change
    fields the invariant is not about ([calm]). *)
From S2P Require Import Prelude PList KMonad Timers Types Memory Sched KCalls Signals PrivCtl.
From S2P Require Import SysTask PmTypes PmLib PmSig PmCalls PmMain PmTurn PmView PmInv PmAlarm.

(** ** Between two turns *)

(** Nothing depends on a process that is dying. *)
Record tinv (s : pm_state) : Prop := mk_tinv {
  t_pinv : pinv s;
  t_settled p : mslot p -> exiting s p = true -> settled (vw s) p;
  t_hz : 0 < system_hz s;
  t_child : mslot (next_child s) /\ mslot (next_child_nb s);
  t_pid : INIT_PID < next_pid s <= NR_PIDS }.

(** The caller and the clock. *)
Definition glob (s : pm_state) := (mp s, who_p s, who_e s, call_nr s, system_hz s).

(** The static variables of [do_fork], [do_fork_nb] and [get_free_pid]. *)
Definition statics (s : pm_state) := (next_child s, next_child_nb s, next_pid s).

Lemma statics_rest s s' : rest s' = rest s -> statics s' = statics s.
Proof. unfold rest, statics. intros E. by injection E; intros; subst; congruence. Qed.

Lemma statics_ok s s' : statics s' = statics s ->
  (mslot (next_child s) /\ mslot (next_child_nb s)) -> INIT_PID < next_pid s <= NR_PIDS ->
  (mslot (next_child s') /\ mslot (next_child_nb s')) /\ INIT_PID < next_pid s' <= NR_PIDS.
Proof. unfold statics. intros E. by injection E as -> -> ->. Qed.

(** What a call does: the invariant holds, the caller is the same. *)
Definition fine (s s' : pm_state) : Prop := tinv s' /\ glob s' = glob s.

Lemma fine_trans s1 s2 s3 : fine s1 s2 -> fine s2 s3 -> fine s1 s3.
Proof. intros [A1 A2] [B1 B2]. split; [done|congruence]. Qed.

Lemma fine_refl s : tinv s -> fine s s.
Proof. done. Qed.

Lemma glob_mp s s' : glob s' = glob s -> mp s' = mp s.
Proof. unfold glob. congruence. Qed.
Lemma glob_hz s s' : glob s' = glob s -> system_hz s' = system_hz s.
Proof. unfold glob. congruence. Qed.
Lemma glob_who s s' : glob s' = glob s -> who_p s' = who_p s.
Proof. unfold glob. congruence. Qed.

Lemma glob_rest s s' : rest s' = rest s -> glob s' = glob s.
Proof. unfold rest, glob. intros E. by injection E; intros; subst; congruence. Qed.

(** A cascade between two turns. *)
Lemma settled_kept s s' p : kept s s' -> mslot p ->
  (exiting s p = true -> settled (vw s) p) -> exiting s' p = true -> settled (vw s') p.
Proof.
  intros [I' [C _]] Hp HS Hx. pose proof (pi_views _ I') as V'.
  pose proof (vi_alive _ _ V' Hp Hx) as Hu'. pose proof (ca_used _ _ _ C p Hp Hu') as Hu.
  destruct (exiting s p) eqn:E.
  - apply (settled_mono (vw s)); [done|by apply (vi_not_init _ _ V')|auto].
  - apply (ca_settled _ _ _ C); [done|done|by apply v_live_iff|done].
Qed.

Lemma fine_kept s s' : tinv s -> kept s s' -> fine s s'.
Proof.
  intros [I S Hz Hc Hp] K. assert (G : glob s' = glob s) by (apply glob_rest, K). split; [|done].
  destruct (statics_ok s s') as [Hc' Hp']; [apply statics_rest, K|done..|]. split; try done.
  - apply K.
  - intros p Hps. by apply (settled_kept s), S.
  - by rewrite (glob_hz _ _ G).
Qed.

Lemma fine_kept_r s1 s2 s3 : fine s1 s2 -> kept s2 s3 -> fine s1 s3.
Proof. intros F K. apply (fine_trans s1 s2); [done|]. apply fine_kept; [apply F|done]. Qed.

(** ** Calm changes *)

Record calm (s s' : pm_state) : Prop := mk_calm {
  cm_view n : vw s' n = vw s n;
  cm_timers : pm_timers s' = pm_timers s;
  cm_count : procs_in_use s' = procs_in_use s;
  cm_glob : glob s' = glob s;
  cm_statics : statics s' = statics s }.

#[export] Instance calm_preorder : PreOrder calm.
Proof.
  split; [by split|]. intros a b c [A1 A2 A3 A4 A5] [B1 B2 B3 B4 B5].
  split; intros; etrans; eauto.
Qed.

Lemma calm_quiet s s' : quiet s s' -> calm s s'.
Proof. intros [Q1 Q2 Q3 Q4]. split; try done; [by apply glob_rest|by apply statics_rest]. Qed.

Lemma vinv_calm s s' : (forall n, vw s' n = vw s n) -> vinv (vw s) -> vinv (vw s').
Proof. intros E. by apply vinv_ext. Qed.

Lemma settled_ext V V' p : (forall n, V' n = V n) -> settled V p -> settled V' p.
Proof. intros E HS n Hn. rewrite E. by apply HS. Qed.

Lemma fine_calm s s' : tinv s -> calm s s' -> fine s s'.
Proof.
  intros [[P1 P2 [l [P3 P4 P5]] P6] HS Hz Hc Hd] [Q1 Q2 Q3 Q4 Q5]. split; [|done].
  destruct (statics_ok s s') as [Hc' Hd']; [done..|]. split; try done; [split|..].
  - by apply (vinv_ext (vw s)).
  - rewrite Q3, P2. apply (f_equal Z.of_nat), cnt_ext. intros n _. by rewrite Q1.
  - exists l. split; [by rewrite Q2|intros k; by rewrite Q1|intros k; rewrite Q1, Q2; auto].
  - by rewrite (glob_mp _ _ Q4).
  - intros p Hp. rewrite Q1. intros Hx. apply (settled_ext (vw s)); auto.
  - by rewrite (glob_hz _ _ Q4).
Qed.

Lemma fine_calm_r s1 s2 s3 : fine s1 s2 -> calm s2 s3 -> fine s1 s3.
Proof. intros F C. apply (fine_trans s1 s2); [done|]. apply fine_calm; [apply F|done]. Qed.

Lemma fine_quiet_r s1 s2 s3 : fine s1 s2 -> quiet s2 s3 -> fine s1 s3.
Proof. intros F C. apply (fine_calm_r s1 s2); [done|by apply calm_quiet]. Qed.

Lemma calm_upd n f s : (forall p, view_of (f p) = view_of p) -> calm s (upd_m n f s).
Proof. intros E. by apply calm_quiet, quiet_upd. Qed.

Ltac calm_step :=
  lazymatch goal with
  | |- calm ?s ?s => reflexivity
  | |- calm _ (upd_m ?n ?f ?s) => transitivity s; [|apply calm_upd; solve_view]
  | |- calm _ (sent ?e ?s) => transitivity s; [|by split]
  | |- calm _ (set_m_in _ ?s) => transitivity s; [|by split]
  | |- calm _ (set_abort_flag _ ?s) => transitivity s; [|by split]
  | |- calm _ (set_monitor_code _ ?s) => transitivity s; [|by split]
  | |- calm _ (set_local_params _ ?s) => transitivity s; [|by split]
  | Hq : calm ?a ?b |- calm ?s ?b => transitivity a; [|exact Hq]
  | |- calm _ ?y => is_var y; unfold y
  end.
Ltac calm_done := repeat calm_step.

(** The calls of the system library are messages. *)
Ltac unfold_sys :=
  unfold sys_datacopy, sys_vircopy, sys_times, sys_stime, sys_nice, sys_chdeadline, sys_sigreturn,
    sys_vtimer, sys_stop, sys_runctl, sys_trace, sys_exec, sys_sysctl_stacktrace, sys_abort,
    sys_setalarm, sys_getinfo, sys_exit, sys_resume, sys_getksig, sys_endksig, vm_brk, vm_exit,
    vm_syscall, vm_exec_newmem, getuptime, getuptime2, find_proc, rd_mp, wr_mp, min in *.

Ltac calm_case :=
  match goal with
  | |- wpp _ (match ?x with Some _ => _ | None => _ end) _ _ => destruct x eqn:?
  | |- wpp _ (match ?x with (_, _) => _ end) _ _ => destruct x
  end.

(** Execute to the end; what is left are reads of tables at odd places. *)
Ltac calm_run := unfold_sys; repeat first [pm_step | calm_case]; try solve_env; try (calm_done; fail).

Section env.
Context `{PmEnv}.

(** A call of the current process that is calm. *)
Definition calm_call (m : PM Z) : Prop := forall s, tinv s -> mslot (who_p s) ->
  wpp env_panic m (fun _ s' => calm s s') s.

(** What a [tinv] state gives the reads of a call. *)
Lemma tinv_mp s : tinv s -> mslot (mp s).
Proof. intros [[_ _ _ I] _ _ _ _]. done. Qed.

Lemma tinv_parent s n : tinv s -> mslot n -> mslot (mp_parent (mproc_tab s n)).
Proof. intros [[V _ _ _] _ _ _ _] Hn. by apply (vi_parent_slot _ V n). Qed.

Lemma calm_parent s s' n : tinv s -> calm s s' -> mslot n -> mslot (mp_parent (mproc_tab s' n)).
Proof. intros T C. apply tinv_parent. apply (fine_calm s s' T C). Qed.

Lemma find_mslot f n : List.find f all_mslots = Some n -> mslot n.
Proof. intros [E _]%List.find_some. by apply elem_of_mslots, list_elem_of_In. Qed.

Ltac calm_start :=
  let s := fresh "s" in let T := fresh "T" in
  intros s T ?; pose proof (tinv_mp s T); pose proof (t_hz s T).

Lemma wpp_udiv P a b Q (s : pm_state) : 0 < b -> Q (a / b) s -> wpp P (udiv a b) Q s.
Proof. intros Hb HQ. unfold udiv. by rewrite (proj2 (Z.eqb_neq b 0)) by lia. Qed.

(** The slot of an endpoint; it is that of a task, or the process in the slot has it. *)
Lemma wpp_isokendpt_both P ep Q s :
  (forall r, snd r = _ENDPOINT_P ep ->
     (fst r = OK -> snd r < 0 \/ mslot (snd r) /\ used s (snd r) = true /\ v_ep (vw s (snd r)) = ep) ->
     Q r s) -> wpp P (pm_isokendpt ep) Q s.
Proof.
  intros HQ. unfold pm_isokendpt. set (p := _ENDPOINT_P ep).
  destruct (_ || _) eqn:E1; [by apply wpp_ret, HQ|].
  destruct (p <? 0) eqn:E2; [apply wpp_ret, HQ; [done|]; intros _; left; simpl; lia|].
  assert (Hp : mslot p) by (unfold mslot; lia).
  apply wpp_bind, wpp_rdm; [done|]. vw_reads.
  destruct (Z.eqb_spec ep (v_ep (vw s p))) as [Ee|]; [|by apply wpp_ret, HQ]. simpl.
  apply wpp_bind, wpp_mflag; [done|]. vw_reads.
  destruct (used s p) eqn:Eu; apply wpp_ret, HQ; try done. intros _. right. done.
Qed.

Lemma wpp_isokendpt P ep Q s :
  (forall r, (fst r = OK -> snd r < 0 \/ mslot (snd r) /\ used s (snd r) = true /\ v_ep (vw s (snd r)) = ep) ->
     Q r s) -> wpp P (pm_isokendpt ep) Q s.
Proof. intros HQ. apply wpp_isokendpt_both. auto. Qed.

Ltac run :=
  calm_run;
  repeat first
    [ apply wpp_udiv; [done|]; calm_run
    | apply wpp_isokendpt; intros ? ?; calm_run
    | done
    | (eapply find_mslot; eassumption)
    | by apply tinv_parent
    | (eapply calm_parent; [eassumption|calm_done|done]) ].

Tactic Notation "calm_of" reference(f) := calm_start; unfold f; run.

Lemma do_sigaction_calm : calm_call do_sigaction.
Proof. calm_of do_sigaction. Qed.
Lemma do_sigpending_calm : calm_call do_sigpending.
Proof. calm_of do_sigpending. Qed.
Lemma do_pause_calm : calm_call do_pause.
Proof. calm_of do_pause. Qed.
Lemma do_time_calm : calm_call do_time.
Proof. calm_of do_time. Qed.
Lemma do_stime_calm : calm_call do_stime.
Proof. calm_of do_stime. Qed.
Lemma do_times_calm : calm_call do_times.
Proof. calm_of do_times. Qed.
Lemma do_get_calm : calm_call do_get.
Proof. calm_of do_get. Qed.
Lemma do_brk_calm : calm_call do_brk.
Proof. calm_of do_brk. Qed.
Lemma do_adddma_calm : calm_call do_adddma.
Proof. calm_of do_adddma. Qed.
Lemma do_deldma_calm : calm_call do_deldma.
Proof. calm_of do_deldma. Qed.
Lemma do_getdma_calm : calm_call do_getdma.
Proof. calm_of do_getdma. Qed.
Lemma do_procstat_calm : calm_call do_procstat.
Proof. calm_of do_procstat. Qed.
Lemma do_chdeadline_calm : calm_call do_chdeadline.
Proof. calm_of do_chdeadline. Qed.
Lemma do_getprocnr_calm : calm_call do_getprocnr.
Proof. calm_of do_getprocnr. Qed.
Lemma do_getepinfo_calm : calm_call do_getepinfo.
Proof. calm_of do_getepinfo. Qed.
Lemma do_getsetpriority_calm : calm_call do_getsetpriority.
Proof. calm_of do_getsetpriority. Qed.
Lemma do_svrctl_calm : calm_call do_svrctl.
Proof.
  calm_start. unfold do_svrctl, svrctl_set, svrctl_get, svrctl_answer, lookup_param, find_param. run.
 Qed.
Lemma do_sysuname_calm : calm_call do_sysuname.
Proof. calm_of do_sysuname. Qed.
Lemma do_getsysinfo_up_calm : calm_call do_getsysinfo_up.
Proof. calm_of do_getsysinfo_up. Qed.

End env.

(** The calls of the table, for the proof of a whole turn: each has its lemma. *)
Create HintDb pm_calls discriminated.
#[export] Hint Constants Opaque : pm_calls.
#[export] Hint Resolve do_sigaction_calm do_sigpending_calm do_pause_calm do_time_calm do_stime_calm
  do_times_calm do_get_calm do_brk_calm do_adddma_calm do_deldma_calm do_getdma_calm
  do_procstat_calm do_chdeadline_calm do_getprocnr_calm do_getepinfo_calm do_getsetpriority_calm
  do_svrctl_calm do_sysuname_calm do_getsysinfo_up_calm : pm_calls.
