(* ===== verification/PmSafe.v ===== *)
(** * The process manager: the calls that signal, wait and end processes

    Every call made by a live process keeps the invariant: signals, waiting, alarms,
    tracing, identities, reboot.  What the caller may not be able to do is an error
    value; PM itself stops only when the kernel, VM or FS fail it. *)
From S2P Require Import Prelude PList KMonad Timers Types Memory Sched KCalls Signals PrivCtl.
From S2P Require Import SysTask PmTypes PmLib PmSig PmCalls PmMain PmTurn PmView PmInv PmAlarm.
From S2P Require Import PmCalm.

(** Who calls: a process that is there and not waiting for FS; it is not PM itself. *)
Record caller_ok (s : pm_state) : Prop := mk_caller_ok {
  co_who : who_p s = mp s;
  co_pm : 0 < mp s;
  co_live : live s (mp s) = true;
  co_fs : v_fs (vw s (mp s)) = false }.

(** Two more panics: a tracer that kills a process with signals pending, a second reboot. *)
Definition call_panic (w : string) : Prop :=
  env_panic w \/ w ∈ ["signal sent to exiting process"; "tell_fs: not idle"].

Lemma call_env w : env_panic w -> call_panic w.
Proof. by left. Qed.

Section env.
Context `{PmEnv}.

(** A call with the panics [P] keeps the invariant. *)
Definition fine_call (P : string -> Prop) (m : PM Z) : Prop := forall s, tinv s -> caller_ok s ->
  wpp P m (fun _ s' => fine s s') s.

Lemma calm_fine m : calm_call m -> fine_call env_panic m.
Proof.
  intros C s T [Hw _ _ _]. eapply wpp_conseq; [apply C; [done|by rewrite Hw; apply tinv_mp]|].
  cbv beta. intros _ s'. by apply fine_calm.
Qed.

Lemma fine_call_env P m : (forall w, env_panic w -> P w) -> fine_call env_panic m -> fine_call P m.
Proof. intros HP F s T C. by eapply wpp_mono; [apply F|..]. Qed.

(** ** The routines of the cycle, with their fuel *)

Lemma exit_proc_kept rmp st d s : pinv s -> mslot rmp -> live s rmp = true -> v_fs (vw s rmp) = false ->
  wpp env_panic (exit_proc rmp st d) (fun _ s' => kept s s') s.
Proof.
  intros I Hr Hl Hf. eapply wpp_conseq; [apply exit_proc_spec; try done; apply live_count_le|].
  cbv beta. by intros _ s' [K _].
Qed.

Lemma sig_proc_kept rmp sig tr s : pinv s -> mslot rmp -> live s rmp = true -> 0 < sig < _NSIG ->
  wpp env_panic (sig_proc rmp sig tr) (fun _ s' => kept s s') s.
Proof. intros. apply (sig_proc_ok 256 _ exit_proc_spec); try done. apply live_count_le. Qed.

Lemma check_sig_kept pid sig s : pinv s -> wpp env_panic (check_sig pid sig) (fun _ s' => kept s s') s.
Proof. intros. apply (check_sig_ok 256 _ exit_proc_spec); try done. apply live_count_le. Qed.

Lemma check_parent_kept child b s : pinv s -> mslot child -> v_zombie (vw s child) = true ->
  wpp env_panic (check_parent child b) (fun _ s' => kept s s') s.
Proof. intros. apply (check_parent_ok 256 _ exit_proc_spec); try done. apply live_count_le. Qed.

Lemma zombify_kept rmp s : pinv s -> mslot rmp -> exiting s rmp = true ->
  v_zombie (vw s rmp) = false -> v_tz (vw s rmp) = false -> v_told (vw s rmp) = false ->
  wpp env_panic (zombify rmp) (fun _ s' => kept s s') s.
Proof. intros. apply (zombify_ok 256 _ exit_proc_spec); try done. apply live_count_le. Qed.

(** A live process is live after a cascade, or has died and waits for FS. *)
Lemma kept_alive s s' n : kept s s' -> mslot n -> live s n = true ->
  live s' n = true \/ exiting s' n = true /\ v_fs (vw s' n) = true.
Proof.
  intros [_ [C _]] Hn Hl. apply v_live_iff in Hl as Hux. destruct Hux as [Hu Hx].
  destruct (exiting s' n) eqn:E.
  - right. split; [done|]. by apply (ca_new _ _ _ C).
  - left. apply v_live_iff. split; [|done]. apply (ca_stay _ _ _ C); [done|]. split; [done|congruence].
Qed.

(** A signal to a process that may have died is refused by a panic. *)
Lemma sig_proc_any rmp sig tr s : pinv s -> mslot rmp -> 0 < sig < _NSIG ->
  wpp call_panic (sig_proc rmp sig tr) (fun _ s' => kept s s') s.
Proof.
  intros I Hr Hs. destruct (live s rmp) eqn:Hl.
  - eapply wpp_mono; [by apply sig_proc_kept|apply call_env|done].
  - unfold sig_proc, sig_proc_with. apply wpp_bind, wpp_rdm; [done|]. rewrite is_live_view, Hl. simpl.
    apply wpp_panic. right. set_solver.
Qed.

Lemma elem_of_all_sigs i : i ∈ all_sigs -> 0 < i < _NSIG.
Proof. unfold all_sigs. rewrite elem_of_seqZ. unfold _NSIG. lia. Qed.

(** [check_pending] stops when the process has died. *)
Lemma check_pending_kept rmp s : pinv s -> mslot rmp -> live s rmp = true ->
  wpp env_panic (check_pending rmp) (fun _ s' => kept s s') s.
Proof.
  intros I Hr Hl. unfold check_pending. apply wpp_bind.
  apply (wpp_for_return _ (fun _ s' => kept s s' /\ live s' rmp = true)).
  - split; [by apply kept_quiet|done].
  - intros i rest s1 [K Hl1] Hi%elem_of_all_sigs. unfold check_pending_one.
    pm_step. pm_step. destruct (_ && _); [|by apply wpp_ret]. pm_step. pm_step. pm_step.
    set (s2 := upd_m rmp _ s1). assert (Q : quiet s1 s2) by quiet_done. clearbody s2.
    assert (K2 : kept s s2) by (by apply (kept_quiet_r s s1)).
    eapply wpp_conseq; [apply sig_proc_kept; [apply K2|done|by rewrite (quiet_live s1)|done]|].
    cbv beta. intros _ s3 K3. apply wpp_bind, wpp_mflag; [done|]. vw_reads. apply wpp_ret.
    pose proof (kept_trans _ _ _ K2 K3) as K03.
    destruct (v_fs (vw s3 rmp)) eqn:Ef; [by apply wpp_ret|]. split; [done|].
    destruct (kept_alive s2 s3 rmp K3 Hr) as [?|[_ ?]]; [by rewrite (quiet_live s1)|done|congruence].
  - intros s1 [K _]. by apply wpp_ret.
Qed.

Lemma check_pending_any rmp s : pinv s -> mslot rmp ->
  wpp call_panic (check_pending rmp) (fun _ s' => kept s s') s.
Proof.
  intros I Hr. unfold check_pending. apply wpp_bind.
  apply (wpp_for_return _ (fun _ s' => kept s s')); [by apply kept_quiet|..].
  - intros i rest s1 K Hi%elem_of_all_sigs. unfold check_pending_one.
    pm_step. pm_step. destruct (_ && _); [|by apply wpp_ret]. pm_step. pm_step. pm_step.
    set (s2 := upd_m rmp _ s1). assert (Q : quiet s1 s2) by quiet_done. clearbody s2.
    assert (K2 : kept s s2) by (by apply (kept_quiet_r s s1)).
    eapply wpp_conseq; [apply sig_proc_any; [apply K2|done|done]|].
    cbv beta. intros _ s3 K3. apply wpp_bind, wpp_mflag; [done|]. apply wpp_ret.
    pose proof (kept_trans _ _ _ K2 K3) as K03. destruct (flag_any _ _); by try apply wpp_ret.
  - intros s1 K. by apply wpp_ret.
Qed.

(** ** signal.c, do_exit, do_exec, do_set *)

Lemma do_kill_fine : fine_call env_panic do_kill.
Proof.
  intros s T _. unfold do_kill, min. repeat pm_step. eapply wpp_conseq; [apply check_sig_kept, T|].
  cbv beta. intros _ s'. by apply fine_kept.
Qed.

(** After a calm start, the current process looks at its pending signals. *)
Lemma pending_fine s s1 : tinv s -> caller_ok s -> calm s s1 ->
  wpp env_panic (check_pending (mp s)) (fun _ s' => fine s s') s1.
Proof.
  intros T [C1 C2 C3 C4] C. pose proof (fine_calm _ _ T C) as F. pose proof (tinv_mp _ T).
  eapply wpp_conseq; [apply check_pending_kept; [apply F|done|by rewrite (cm_view _ _ C)]|].
  cbv beta. intros _ s2. by apply (fine_kept_r s s1).
Qed.

Lemma do_sigprocmask_fine : fine_call env_panic do_sigprocmask.
Proof.
  intros s T C. pose proof (tinv_mp _ T). unfold do_sigprocmask, min.
  repeat (pm_step; try (apply fine_calm; [done|calm_done; fail]));
    (eapply wpp_conseq; [apply pending_fine; [done..|calm_done]|]; cbv beta; intros; by apply wpp_ret).
Qed.

Lemma do_sigsuspend_fine : fine_call env_panic do_sigsuspend.
Proof.
  intros s T C. pose proof (tinv_mp _ T). unfold do_sigsuspend, min. repeat pm_step.
  eapply wpp_conseq; [apply pending_fine; [done..|calm_done]|]; cbv beta; intros; by apply wpp_ret.
Qed.

Lemma do_sigreturn_fine : fine_call env_panic do_sigreturn.
Proof.
  intros s T C. pose proof (tinv_mp _ T). unfold do_sigreturn. unfold_sys. repeat pm_step.
  eapply wpp_conseq; [apply pending_fine; [done..|calm_done]|]; cbv beta; intros; by apply wpp_ret.
Qed.

Lemma do_exit_fine : fine_call env_panic do_exit.
Proof.
  intros s T [C1 C2 C3 C4]. pose proof (tinv_mp _ T). unfold do_exit, min. repeat pm_step.
  eapply wpp_conseq; [apply exit_proc_kept; try done; apply T|].
  cbv beta. intros _ s' K. apply wpp_ret. by apply fine_kept.
Qed.

(** FS is told of the current process. *)
Lemma tell_fs_fine m s s1 : tinv s -> caller_ok s -> calm s s1 ->
  wpp env_panic (tell_fs (mp s) m) (fun _ s' => fine s s') s1.
Proof.
  intros T [C1 C2 C3 C4] C. pose proof (fine_calm _ _ T C) as F. pose proof (tinv_mp _ T).
  eapply wpp_conseq; [apply tell_fs_told; [done|by rewrite (cm_view _ _ C)|by apply env_panic_ok]|].
  cbv beta. intros _ s2 [Ft _]. apply (fine_kept_r s s1); [done|].
  apply (kept_fs_told (mp s)); [apply F|done|by rewrite (cm_view _ _ C)|done].
Qed.

Lemma do_exec_fine : fine_call env_panic do_exec.
Proof.
  intros s T C. pose proof (tinv_mp _ T). unfold do_exec, min. repeat pm_step.
  eapply wpp_conseq; [apply tell_fs_fine; done|]. cbv beta; intros; by apply wpp_ret.
Qed.

Lemma do_set_fine : fine_call env_panic do_set.
Proof.
  intros s T C. pose proof (tinv_mp _ T). unfold do_set. unfold_sys.
  repeat (pm_step; try (apply fine_calm; [done|calm_done; fail]));
    (eapply wpp_conseq; [apply tell_fs_fine; [done..|calm_done]|]; cbv beta; intros; by apply wpp_ret).
Qed.

(** ** do_waitpid *)

(** One round: the state is as before, or a child has been dealt with. *)
Lemma waitpid_one_fine who pidarg children rp s : tinv s -> mslot rp ->
  wpp env_panic (waitpid_one who pidarg children rp)
    (fun r s' => match r with inl _ => s' = s | inr _ => fine s s' end) s.
Proof.
  intros T Hr. pose proof (t_pinv _ T) as I. pose proof (tinv_mp _ T) as Hmp.
  unfold waitpid_one. pm_step. pm_step.
  set (part := if (_ =? who) && flag_any _ ZOMBIE then _ else _).
  assert (Hpart : wpp env_panic part
    (fun r s' => match r with inl _ => s' = s | inr _ => fine s s' end) s).
  { unfold part. destruct (_ && _) eqn:Ez; [|by apply wpp_ret].
    apply andb_true_iff in Ez as [_ Hz].
    change (v_zombie (vw s rp) = true) in Hz. destruct (flags_dead _ (vi_flags _ (pi_views _ I) rp Hr))
      as (Hu & Hx & _); [by rewrite Hz|].
    pm_step. eapply wpp_conseq; [by apply tell_parent_one|]. cbv beta. intros _ s1 O.
    pose proof (kept_collected rp s s1 I Hr Hz O) as K. pose proof (ov_eq _ _ _ _ O) as E.
    apply wpp_bind, wpp_mflag; [done|]. vw_reads. pm_step.
    apply wpp_when; intros Hfs; [|apply wpp_ret; by apply fine_kept].
    eapply wpp_conseq; [apply (cleanup_ok _ rp s1 s); [apply K|done|by rewrite E|by apply negb_true_iff|done]|].
    cbv beta. intros _ s2 K2. apply wpp_ret. by apply fine_kept. }
  clearbody part. unfold id.
  destruct (negb _); [by apply wpp_ret|]. destruct (_ =? who); [|done].
  destruct (flag_any _ TRACE_ZOMBIE) eqn:Hz; [change (v_tz (vw s rp) = true) in Hz|].
  - pm_step. eapply wpp_conseq; [by apply tell_tracer_one|]. cbv beta. intros _ s1 O.
    pose proof (kept_traced rp s s1 I Hr Hz O) as K. pm_step.
    eapply wpp_conseq; [apply check_parent_kept; [apply K|done|by rewrite (ov_eq _ _ _ _ O)]|].
    cbv beta. intros _ s2 K2. apply wpp_ret. apply fine_kept; [done|by apply (kept_trans s s1)].
  - destruct (flag_any _ STOPPED); [|done]. destruct (List.find _ _); [|done].
    unfold wr_mp. repeat pm_step. apply fine_calm; [done|calm_done].
Qed.

Lemma do_waitpid_fine : fine_call env_panic do_waitpid.
Proof.
  intros s T _. pose proof (tinv_mp _ T). unfold do_waitpid. unfold_sys. repeat pm_step.
  apply (wpp_fold_exit _ (fun _ _ s' => s' = s)); [done|..].
  - intros children rp rest s1 -> Hr%elem_of_mslots.
    eapply wpp_conseq; [by apply waitpid_one_fine|]. cbv beta. intros [] s' Hs; [done|by apply wpp_ret].
  - intros children s1 ->. repeat pm_step; apply fine_calm; (done || calm_done).
Qed.

(** ** alarm.c *)

Lemma fine_alarm n b s s' : tinv s -> pinv s' -> alarm_changed n b s s' -> fine s s'.
Proof. intros T I A. apply fine_kept; [done|]. apply (kept_alarm n b); [apply T|done..]. Qed.

Lemma ticks_calm tv s : 0 < system_hz s ->
  wpp env_panic (ticks_from_timeval tv) (fun t s' => s' = s /\ t = ticks_of (system_hz s) tv) s.
Proof. intros Hz. unfold ticks_from_timeval. repeat pm_step. apply wpp_udiv; [done|]. by apply wpp_ret. Qed.

Lemma timeval_calm t s : 0 < system_hz s ->
  wpp env_panic (timeval_from_ticks t) (fun tv s' => s' = s /\ tv = timeval_of (system_hz s) t) s.
Proof. intros Hz. unfold timeval_from_ticks. repeat pm_step. apply wpp_udiv; [done|]. by apply wpp_ret. Qed.

Lemma sane_calm tv s : 0 < system_hz s -> wpp env_panic (is_sane_timeval tv) (fun _ s' => s' = s) s.
Proof. intros Hz. unfold is_sane_timeval. repeat pm_step. apply wpp_udiv; [done|]. by apply wpp_ret. Qed.

Lemma get_realtimer_calm rmp s : mslot rmp -> 0 < system_hz s ->
  wpp env_panic (get_realtimer rmp) (fun _ s' => calm s s') s.
Proof.
  intros Hr Hz. unfold get_realtimer. unfold_sys. repeat pm_step; try solve_env.
  all: eapply wpp_conseq; [by apply timeval_calm|]; cbv beta; intros ? ? [-> _];
    apply wpp_bind; eapply wpp_conseq; [by apply timeval_calm|]; cbv beta; intros ? ? [-> _];
    apply wpp_ret; calm_done.
Qed.

Lemma set_realtimer_fine rmp v s : tinv s -> mslot rmp -> live s rmp = true ->
  wpp env_panic (set_realtimer rmp v) (fun _ s' => fine s s') s.
Proof.
  intros T Hr Hl. pose proof (t_hz _ T). unfold set_realtimer.
  do 2 (eapply wpp_bind, wpp_conseq; [by apply ticks_calm|]; cbv beta; intros ? ? [-> _]).
  eapply wpp_bind, wpp_conseq; [by apply set_alarm_spec; [apply T|..]|].
  cbv beta. intros _ s1 [I1 A]. pm_step. apply (fine_calm_r s s1); [by eapply fine_alarm|calm_done].
Qed.

Lemma do_alarm_fine : fine_call env_panic do_alarm.
Proof.
  intros s T [C1 C2 C3 C4]. pose proof (tinv_mp _ T). unfold do_alarm, min. pm_step. pm_step.
  eapply wpp_bind, wpp_conseq; [apply get_realtimer_calm; [done|apply T]|].
  cbv beta. intros v s1 C. pose proof (fine_calm _ _ T C) as F. pm_step. pm_step.
  eapply wpp_bind, wpp_conseq; [apply set_realtimer_fine; [apply F|done|by rewrite (cm_view _ _ C)]|].
  cbv beta. intros _ s2 F2. apply wpp_ret. by apply (fine_trans s s1).
Qed.

Lemma getset_vtimer_calm rmp which v want s : mslot rmp -> 0 < system_hz s ->
  which = ITIMER_VIRTUAL \/ which = ITIMER_PROF ->
  wpp env_panic (getset_vtimer rmp which v want) (fun _ s' => calm s s') s.
Proof.
  intros Hr Hz Hw. unfold getset_vtimer. unfold_sys. pm_step. pm_step.
  eapply wpp_bind, (wpp_conseq _ _ (fun _ s' => s' = s)).
  { destruct want; [|by apply wpp_ret]. eapply wpp_conseq; [by apply timeval_calm|]. by intros ? ? []. }
  cbv beta. intros oi ? ->. eapply wpp_bind, (wpp_conseq _ _ (fun _ s' => calm s s')).
  { destruct v as [v|]; [|by apply wpp_ret].
    eapply wpp_bind, wpp_conseq; [by apply ticks_calm|]. cbv beta. intros nt ? [-> _].
    eapply wpp_bind, (wpp_conseq _ _ (fun _ s' => s' = s)).
    { destruct (nt <=? 0); [by apply wpp_ret|]. eapply wpp_conseq; [by apply ticks_calm|]. by intros ? ? []. }
    cbv beta. intros ni ? ->. repeat pm_step. calm_done. }
  cbv beta. intros np s1 C1. pose proof (glob_hz _ _ (cm_glob _ _ C1)) as Hhz.
  assert (Hz1 : 0 < system_hz s1) by congruence.
  repeat (pm_step; try solve_env); try (destruct Hw; subst; discriminate).
  all: try (calm_done; fail).
  all: eapply wpp_conseq; [by apply timeval_calm|]; cbv beta; intros ? ? [-> _]; apply wpp_ret; calm_done.
Qed.

Lemma do_itimer_fine : fine_call env_panic do_itimer.
Proof.
  intros s T [C1 C2 C3 C4]. pose proof (tinv_mp _ T). pose proof (t_hz _ T). unfold do_itimer, min.
  pm_step. pm_step. destruct (_ || _) eqn:Ew; [by apply wpp_ret, fine_refl|].
  do 2 (pm_step; pm_step). destruct (_ && _); [by apply wpp_ret, fine_refl|]. do 2 (pm_step; pm_step).
  set (setval := negb (_ =? 0)). set (getval := negb (_ =? 0)). clearbody setval getval.
  eapply wpp_bind, (wpp_conseq _ _ (fun _ s' => calm s s')).
  { unfold_sys. repeat pm_step; calm_done. }
  cbv beta. intros r s1 C. pose proof (fine_calm _ _ T C) as F.
  assert (Hz1 : 0 < system_hz s1) by apply F.
  destruct (negb (r =? OK)); [by apply wpp_ret|]. pm_step. pm_step.
  do 2 (eapply wpp_bind, (wpp_conseq _ _ (fun _ s' => s' = s1));
    [destruct setval; [by apply sane_calm|by apply wpp_ret]|cbv beta; intros ? ? ->]).
  destruct (negb _); [by apply wpp_ret|].
  eapply wpp_bind, (wpp_conseq _ _ (fun _ s' => fine s s')).
  - destruct (_ =? ITIMER_REAL) eqn:Er.
    + eapply wpp_bind, (wpp_conseq _ _ (fun _ s' => calm s s')).
      { destruct getval; [|by apply wpp_ret]. eapply wpp_bind, wpp_conseq; [by apply get_realtimer_calm|].
        cbv beta. intros ? s2 C'. apply wpp_ret. by etrans. }
      cbv beta. intros ov s2 C'. pose proof (fine_calm _ _ T C') as F2.
      pm_step. apply wpp_when; intros _; [|by apply wpp_ret].
      eapply wpp_conseq; [apply set_realtimer_fine; [apply F2|done|by rewrite (cm_view _ _ C')]|].
      cbv beta. intros _ s3 F3. apply wpp_ret. by apply (fine_trans s s2).
    + eapply wpp_conseq; [apply getset_vtimer_calm; [done..|]|].
      * unfold NR_ITIMERS, ITIMER_VIRTUAL, ITIMER_PROF, ITIMER_REAL in *. lia.
      * cbv beta. intros ? s2 C'. by apply (fine_calm_r s s1).
  - cbv beta. intros ov s2 F2. destruct ov; [|by apply wpp_ret]. unfold_sys.
    repeat pm_step; try done. apply (fine_calm_r s s2); [done|calm_done].
Qed.

(** ** trace.c *)

(** A live process gets a live tracer. *)
Lemma fine_traced child tr s s' : tinv s -> mslot child -> live s child = true ->
  mslot tr -> live s tr = true -> one_view child (set_v_tracer tr (vw s child)) s s' -> fine s s'.
Proof.
  intros [I HS Hz Hch Hpd] Hc [Hu Hx]%v_live_iff Ht [Hut Hxt]%v_live_iff O.
  pose proof (vi_flags _ (pi_views _ I) child Hc) as F.
  assert (Hz0 : v_tz (vw s child) = false).
  { destruct (v_tz (vw s child)) eqn:E; [|done].
    destruct (flags_dead _ F) as (_ & ? & _); [by rewrite E, orb_true_r|congruence]. }
  pose proof (glob_rest _ _ (ov_rest _ _ _ _ O)) as G. pose proof (ov_eq _ _ _ _ O) as E.
  split; [|done]. destruct (statics_ok s s') as [Hc' Hp']; [apply statics_rest, O|done..|]. split; try done.
  - apply (pinv_one child _ s s' I Hc O); simpl; auto.
    + destruct F as [F1 F2 F3 F4 F5]. split; simpl; auto. by rewrite Hz0.
    + by rewrite Hx.
    + right; right. split; [done|]. split; [done|congruence].
  - intros p Hp Hxp n Hn.
    assert (Hxp' : exiting s p = true) by (rewrite (ov_view _ _ _ _ O) in Hxp; case_decide; by subst).
    rewrite (ov_view _ _ _ _ O n). case_decide as En; [simpl; intros Hun|by apply HS].
    destruct (HS p Hp Hxp' child Hc Hun) as [S1 _]. split; [done|]. intros _ <-. congruence.
  - by rewrite (glob_hz _ _ G).
Qed.

Lemma trace_by_kernel_calm req child s : mslot child -> mslot (mp s) ->
  wpp env_panic (trace_by_kernel req child) (fun _ s' => calm s s') s.
Proof. intros Hc Hm. unfold trace_by_kernel. calm_run. Qed.

Lemma trace_target_spec s :
  wpp env_panic trace_target (fun o s' => s' = s /\
    match o with Some child => mslot child /\ live s child = true | None => True end) s.
Proof.
  unfold trace_target, find_proc, min. repeat pm_step.
  destruct (List.find _ _) as [child|] eqn:E; [|by apply wpp_ret].
  pose proof (find_mslot _ _ E) as Hc. apply List.find_some in E as [_ [Eu _]%andb_true_iff].
  apply wpp_bind, wpp_mflag; [done|]. vw_reads. apply wpp_ret. split; [done|].
  destruct (exiting s child) eqn:Ex; [done|]. split; [done|]. by apply v_live_iff.
Qed.

Lemma trace_attach_fine : fine_call env_panic trace_attach.
Proof.
  intros s T [C1 C2 C3 C4]. pose proof (tinv_mp _ T). unfold trace_attach.
  eapply wpp_bind, wpp_conseq; [apply trace_target_spec|]. cbv beta. intros [child|] ? [-> Ho];
    [destruct Ho as [Hc Hl]|by apply wpp_ret, fine_refl].
  do 3 (pm_step; pm_step). destruct (attach_refused _ _ _ _); [by apply wpp_ret, fine_refl|].
  destruct (negb _); [by apply wpp_ret, fine_refl|]. do 3 (pm_step; pm_step).
  set (s1 := upd_m child (set_mp_trace_flags _) _).
  assert (O : one_view child (set_v_tracer (who_p s) (vw s child)) s s1).
  { eapply one_view_quiet_r; [|apply quiet_upd; solve_view].
    apply (one_view_upd child _ (set_v_tracer (who_p s))); [done|by apply one_view_quiet]. }
  pose proof (ov_eq _ _ _ _ O) as E. clearbody s1.
  rewrite C1 in O. assert (F : fine s s1) by (by apply (fine_traced child (mp s) s s1)).
  eapply wpp_bind, wpp_conseq; [apply sig_proc_kept; [apply F|done|by rewrite E|done]|].
  cbv beta. intros _ s2 K. unfold wr_mp.
  pose proof (fine_kept_r _ _ _ F K) as F2. pose proof (tinv_mp _ (proj1 F2)).
  repeat pm_step. apply (fine_calm_r s s2); [done|calm_done].
Qed.

(** Letting a signal of the filter through. *)
Lemma detach_sig_kept child i s : pinv s -> mslot child ->
  wpp env_panic (detach_sig child i) (fun _ s' => kept s s') s.
Proof.
  intros I Hc. unfold detach_sig. pm_step. pm_step. apply wpp_when; intros _; [|by apply kept_quiet].
  do 2 (pm_step; pm_step). set (s1 := upd_m child _ s).
  assert (K : kept s s1) by (apply kept_quiet; [done|quiet_done]).
  eapply wpp_bind, wpp_conseq; [apply check_sig_kept, K|].
  cbv beta. intros _ s2 K2. apply wpp_ret. by apply (kept_trans s s1).
Qed.

(** A signal from the tracer, then the pending ones, then the kernel. *)
Lemma trace_on_fine req child s s1 : fine s s1 -> mslot child ->
  wpp call_panic (do! check_pending child; trace_by_kernel req child) (fun _ s' => fine s s') s1.
Proof.
  intros F2 Hc. eapply wpp_bind, wpp_conseq; [apply check_pending_any; [apply F2|done]|].
  cbv beta. intros _ s3 K. pose proof (fine_kept_r _ _ _ F2 K) as F3.
  eapply wpp_mono; [apply trace_by_kernel_calm; [done|apply tinv_mp, F3]|apply call_env|].
  cbv beta. intros _ s4. by apply (fine_calm_r s s3).
Qed.

Lemma sig_data_fine child dat tr s s1 : fine s s1 -> mslot child -> (dat <? 0) || (_NSIG <=? dat) = false ->
  wpp call_panic (when (0 <? dat) (sig_proc child dat tr)) (fun _ s' => fine s s') s1.
Proof.
  intros F Hc Hd. apply wpp_when; intros Hp; [|done].
  eapply wpp_conseq; [apply sig_proc_any; [apply F|done|lia]|].
  cbv beta. intros _ s2. by apply (fine_kept_r s s1).
Qed.

Lemma trace_resume_fine req child s : tinv s -> mslot child ->
  wpp call_panic (trace_resume req child) (fun _ s' => fine s s') s.
Proof.
  intros T Hc. unfold trace_resume, min. pm_step. pm_step.
  destruct (_ || _) eqn:Ed; [by apply wpp_ret, fine_refl|].
  eapply wpp_bind, wpp_conseq; [by apply sig_data_fine; [apply fine_refl|..]|].
  cbv beta. intros _ s1 F. pose proof (tinv_mp _ (proj1 F)). pm_step. pm_step. unfold wr_mp.
  destruct (existsb _ _); [repeat pm_step; apply (fine_calm_r s s1); [done|calm_done]|].
  pm_step. pm_step. apply trace_on_fine; [|done]. apply (fine_calm_r s s1); [done|calm_done].
Qed.

Lemma trace_detach_fine child s : tinv s -> mslot child -> live s child = true ->
  wpp call_panic (trace_detach child) (fun _ s' => fine s s') s.
Proof.
  intros T Hc Hl. unfold trace_detach, min. pm_step. pm_step.
  destruct (_ || _) eqn:Ed; [by apply wpp_ret, fine_refl|]. pm_step. pm_step.
  set (s1 := upd_m child _ s). pose proof (vi_flags _ (pi_views _ (t_pinv _ T)) child Hc) as Fl.
  assert (K1 : kept s s1).
  { apply (kept_free child (set_v_tracer NO_TRACER (vw s child))); auto; [apply T|..].
    - apply (one_view_upd child _ (set_v_tracer NO_TRACER)); [done|by apply one_view_quiet].
    - apply flags_untraced; [done|]. destruct (v_tz (vw s child)) eqn:E; [|done].
      destruct (flags_dead _ Fl) as (_ & Hx & _); [by rewrite E, orb_true_r|].
      apply v_live_iff in Hl as []. congruence. }
  eapply wpp_bind, (wpp_conseq _ _ (fun _ s' => kept s s')).
  { apply (wpp_for_each _ (fun _ s' => kept s s')); [done| |done].
    intros i rest s2 K _. eapply wpp_mono; [apply detach_sig_kept; [apply K|done]|apply call_env|].
    cbv beta. intros _ s3. by apply (kept_trans s s2). }
  cbv beta. intros _ s2 K2. pose proof (fine_kept _ _ T K2) as F2.
  eapply wpp_bind, wpp_conseq; [by apply sig_data_fine|]. cbv beta. intros _ s3 F3.
  do 2 (pm_step; pm_step). apply trace_on_fine; [|done]. apply (fine_calm_r s s3); [done|calm_done].
Qed.

Lemma trace_range_calm req child s : mslot child -> mslot (mp s) ->
  wpp env_panic (trace_range req child) (fun _ s' => calm s s') s.
Proof. intros Hc Hm. unfold trace_range. calm_run. Qed.

Lemma trace_text_fine req : fine_call env_panic (trace_text req).
Proof.
  intros s T C. pose proof (tinv_mp _ T). unfold trace_text, rd_mp. repeat pm_step; [by apply fine_refl|].
  eapply wpp_conseq; [apply trace_target_spec|]. cbv beta. intros [child|] ? [-> Ho];
    [destruct Ho as [Hc Hl]|by apply wpp_ret, fine_refl].
  eapply wpp_conseq; [by apply trace_by_kernel_calm|]. cbv beta. intros _ s'. by apply fine_calm.
Qed.

(** The parent becomes the tracer: nothing dying is anybody's parent. *)
Lemma trace_ok_fine s : tinv s -> caller_ok s ->
  fine s (upd_m (mp s) (upd_reply (set_reply_trace 0)) (upd_m (mp s) (set_mp_tracer (v_parent (vw s (mp s)))) s)).
Proof.
  intros T [C1 C2 C3 C4]. pose proof (tinv_mp _ T) as Hm. pose proof (pi_views _ (t_pinv _ T)) as V.
  apply v_live_iff in C3 as Hux. destruct Hux as [Hu Hx].
  destruct (vi_parent _ V _ Hm Hu) as [_ [Hpu _]]. pose proof (vi_parent_slot _ V _ Hm) as Hp.
  apply (fine_traced (mp s) (v_parent (vw s (mp s))) s); try done.
  - apply v_live_iff. split; [done|]. destruct (exiting s (v_parent (vw s (mp s)))) eqn:E; [|done].
    by destruct (t_settled _ T _ Hp E (mp s) Hm Hu).
  - eapply one_view_quiet_r; [|apply quiet_upd; solve_view].
    apply (one_view_upd (mp s) _ (set_v_tracer (v_parent (vw s (mp s))))); [done|by apply one_view_quiet].
Qed.

Lemma do_trace_fine : fine_call call_panic do_trace.
Proof.
  intros s T C. pose proof (tinv_mp _ T) as Hm. pose proof (t_pinv _ T) as I.
  assert (Henv : forall m : PM Z, wpp env_panic m (fun _ s' => fine s s') s ->
    wpp call_panic m (fun _ s' => fine s s') s).
  { intros m Hm'. by eapply wpp_mono; [exact Hm'|apply call_env|]. }
  assert (Hcalm : forall m : PM Z, wpp env_panic m (fun _ s' => calm s s') s ->
    wpp call_panic m (fun _ s' => fine s s') s).
  { intros m Hm'. eapply wpp_mono; [exact Hm'|apply call_env|]. cbv beta. intros _ s'. by apply fine_calm. }
  unfold do_trace, min. do 2 (pm_step; pm_step).
  destruct (_ =? T_OK).
  { pm_step. pm_step. destruct (negb _); [by apply wpp_ret, fine_refl|]. repeat pm_step. by apply trace_ok_fine. }
  destruct (_ =? T_ATTACH); [by apply Henv, trace_attach_fine|].
  destruct (_ =? T_STOP); [by apply wpp_ret, fine_refl|].
  destruct (_ || _); [by apply Henv, trace_text_fine|].
  eapply wpp_bind, wpp_mono; [apply trace_target_spec|apply call_env|]. cbv beta. intros [child|] ? [-> Ho];
    [destruct Ho as [Hc Hl]|by apply wpp_ret, fine_refl].
  do 2 (pm_step; pm_step). destruct (negb (_ =? who_p s)); [by apply wpp_ret, fine_refl|].
  pm_step. pm_step. destruct (negb _); [by apply wpp_ret, fine_refl|].
  destruct (_ =? T_EXIT).
  { pm_step. pm_step. set (s1 := upd_m child _ s). assert (Q : quiet s s1) by quiet_done. clearbody s1.
    apply wpp_bind, wpp_mflag; [done|]. vw_reads. rewrite (q_view _ _ Q). unfold min. do 2 pm_step.
    assert (F1 : fine s s1) by (apply fine_calm; [done|by apply calm_quiet]).
    pm_step. destruct (v_fs (vw s child)) eqn:Ef.
    - repeat pm_step. apply (fine_calm_r s s1); [done|calm_done].
    - eapply wpp_mono; [apply exit_proc_kept; [apply F1|done|..]|apply call_env|].
      + by rewrite (quiet_live s).
      + by rewrite (q_view _ _ Q).
      + cbv beta. intros _ s2 K. apply wpp_ret. by apply (fine_kept_r s s1). }
  destruct (_ =? T_SETOPT).
  { unfold min, wr_mp. repeat pm_step. apply fine_calm; [done|calm_done]. }
  destruct (_ || _); [by apply Hcalm, trace_range_calm|].
  destruct (_ =? T_DETACH); [by apply trace_detach_fine|].
  destruct (_ || _); [by apply trace_resume_fine|].
  by apply Hcalm, trace_by_kernel_calm.
Qed.

(** ** Reboot *)

(** FS is asked to stop, unless it is asked already. *)
Lemma reboot_tail s s1 : fine s s1 ->
  wpp call_panic (check_sig (-1) SIGKILL) (fun _ => wpp call_panic
    (do! sys_stop INIT_PROC_NR; do! tell_fs FS_PROC_NR (set_m_type PM_REBOOT uninit); ret SUSPEND)
    (fun _ s' => fine s s')) s1.
Proof.
  intros F1. eapply wpp_mono; [apply check_sig_kept, F1|apply call_env|].
  cbv beta. intros _ s2 K. unfold_sys. pm_step. pm_step. set (s3 := sent _ s2).
  assert (F3 : fine s s3).
  { apply (fine_calm_r s s2); [by apply (fine_kept_r s s1)|calm_done]. }
  clearbody s3. pose proof (t_pinv _ (proj1 F3)) as I3.
  destruct (vi_vital _ (pi_views _ I3) FS_PROC_NR) as [Hl _]; [by right|].
  destruct (v_fs (vw s3 FS_PROC_NR)) eqn:Ef.
  - unfold tell_fs. pm_step. pm_step. apply wpp_mflag; [done|]. vw_reads. rewrite Ef.
    apply wpp_panic. right. set_solver.
  - eapply wpp_bind, wpp_conseq; [apply tell_fs_told; [done|done|by left; apply env_panic_ok]|].
    cbv beta. intros _ s4 [Ft _]. apply wpp_ret. apply (fine_kept_r s s3); [done|].
    by apply (kept_fs_told FS_PROC_NR).
Qed.

Lemma do_reboot_fine : fine_call call_panic do_reboot.
Proof.
  intros s T C. pose proof (tinv_mp _ T). unfold do_reboot, rd_mp, min.
  repeat (pm_step; try (apply fine_calm; [done|calm_done; fail])).
  all: unfold_sys; repeat (pm_step; try (apply fine_calm; [done|calm_done; fail])).
  all: apply reboot_tail, fine_calm; [done|calm_done].
Qed.


End env.

#[export] Hint Resolve do_kill_fine do_sigprocmask_fine do_sigsuspend_fine do_sigreturn_fine
  do_exit_fine do_exec_fine do_set_fine do_waitpid_fine do_alarm_fine do_itimer_fine do_trace_fine
  do_reboot_fine : pm_calls.
