(* ===== verification/PmFork.v ===== *)
(** * The process manager: new processes

    [get_free_pid] finds a pid that no process and no group uses, in bounded time; the
    search of [do_fork] finds a free slot whenever there is one; the child has the
    fields forkexit.c gives it and the invariant holds again. *)
From S2P Require Import Prelude PList KMonad Timers Types Memory Sched KCalls Signals PrivCtl.
From S2P Require Import SysTask PmTypes PmLib PmSig PmCalls PmMain PmTurn PmView PmInv PmAlarm.
From S2P Require Import PmCalm PmSafe.

(** ** Free pids *)

(** The pids in use: of processes and of groups. *)
Definition pids_of (s : pm_state) : list Z :=
  ((fun n => mp_pid (mproc_tab s n)) <$> all_mslots) ++ ((fun n => mp_procgrp (mproc_tab s n)) <$> all_mslots).

Lemma pid_taken_elem pid s : pid_taken pid s = true <-> pid ∈ pids_of s.
Proof.
  unfold pid_taken, pids_of. rewrite existsb_exists, elem_of_app, !list_elem_of_fmap.
  setoid_rewrite orb_true_iff. setoid_rewrite Z.eqb_eq. setoid_rewrite <- list_elem_of_In. naive_solver.
Qed.

(** The pid tried in round [k], from [p]. *)
Definition nth_pid (p : Z) (k : nat) : Z := INIT_PID + 1 + (p - (INIT_PID + 1) + Z.of_nat k) mod (NR_PIDS - INIT_PID).

Lemma nth_pid_range p k : INIT_PID < nth_pid p k <= NR_PIDS.
Proof. unfold nth_pid, INIT_PID, NR_PIDS. Z.div_mod_to_equations. lia. Qed.

Lemma nth_pid_0 p : INIT_PID < p <= NR_PIDS -> nth_pid p 0 = p.
Proof. unfold nth_pid, INIT_PID, NR_PIDS. intros. rewrite Z.mod_small; lia. Qed.

Lemma nth_pid_S p k :
  (if nth_pid p k <? NR_PIDS then nth_pid p k + 1 else INIT_PID + 1) = nth_pid p (S k).
Proof.
  pose proof (nth_pid_range p k). unfold nth_pid, INIT_PID, NR_PIDS in *.
  destruct (Z.ltb_spec (1 + 1 + (p - (1 + 1) + Z.of_nat k) mod (30000 - 1)) 30000);
    Z.div_mod_to_equations; lia.
Qed.

(** No pid comes back before all have been tried. *)
Lemma nth_pid_inj p j k : (j < 1000)%nat -> (k < 1000)%nat -> nth_pid p j = nth_pid p k -> j = k.
Proof. unfold nth_pid, INIT_PID, NR_PIDS. intros. Z.div_mod_to_equations. lia. Qed.

Lemma tried_bound s p k : (k < 600)%nat -> (forall j, (1 <= j <= k)%nat -> pid_taken (nth_pid p j) s = true) ->
  (k <= 512)%nat.
Proof.
  intros Hk Ht. change 512%nat with (length all_mslots + length all_mslots)%nat.
  replace (length all_mslots + length all_mslots)%nat with (length (pids_of s))
    by (unfold pids_of; by rewrite length_app, !length_fmap).
  rewrite <- (length_seq k 1), <- (length_fmap (nth_pid p)).
  apply submseteq_length, NoDup_submseteq.
  - apply NoDup_fmap_2_strong; [|apply NoDup_seq]. intros a b Ha%elem_of_seq Hb%elem_of_seq.
    apply nth_pid_inj; lia.
  - intros x [j [-> Hj%elem_of_seq]]%list_elem_of_fmap. apply pid_taken_elem, Ht. lia.
Qed.

Lemma set_next_pid_id s : set_next_pid (next_pid s) s = s.
Proof. by destruct s. Qed.

(** The first pid in the circle that is not in use; 513 rounds are enough. *)
Lemma get_free_pid_spec P s : INIT_PID < next_pid s <= NR_PIDS ->
  wpp P get_free_pid (fun pid s' => s' = set_next_pid pid s /\ INIT_PID < pid <= NR_PIDS /\
    pid_taken pid s = false) s.
Proof.
  intros Hp. unfold get_free_pid. set (p := next_pid s) in *.
  set (J := fun (n : nat) s' => exists k, (n + k)%nat = 512%nat /\ s' = set_next_pid (nth_pid p k) s /\
    forall j, (1 <= j <= k)%nat -> pid_taken (nth_pid p j) s = true).
  apply wpp_bind, (wpp_while P J) with (n := 512%nat).
  - intros n s' (k & Hn & -> & Ht). repeat pm_step.
    change (next_pid (set_next_pid (nth_pid p k) s)) with (nth_pid p k). rewrite nth_pid_S.
    change (next_pid (set_next_pid (nth_pid p (S k)) _)) with (nth_pid p (S k)).
    change (set_next_pid (nth_pid p (S k)) (set_next_pid (nth_pid p k) s)) with (set_next_pid (nth_pid p (S k)) s).
    change (pid_taken (nth_pid p (S k)) (set_next_pid (nth_pid p (S k)) s)) with (pid_taken (nth_pid p (S k)) s).
    destruct (pid_taken (nth_pid p (S k)) s) eqn:E.
    + assert (Ht' : forall j, (1 <= j <= S k)%nat -> pid_taken (nth_pid p j) s = true).
      { intros j Hj. destruct (decide (j = S k)) as [->|]; [done|]. apply Ht. lia. }
      assert (S k <= 512)%nat by (apply (tried_bound s p); [lia|done]).
      exists (n - 1)%nat. split; [lia|]. exists (S k). split; [lia|done].
    + apply wpp_gets. split; [done|]. split; [apply nth_pid_range|done].
  - unfold PID_FUEL. lia.
  - exists O. split; [done|]. split; [unfold p; by rewrite nth_pid_0, set_next_pid_id|lia].
Qed.

(** ** Free slots *)

Lemma rem_mslot c : 0 <= c -> mslot (Z.rem c NR_PROCS) /\ Z.rem c NR_PROCS = c mod NR_PROCS.
Proof.
  intros Hc. rewrite Z.rem_mod_nonneg by (unfold NR_PROCS; lia). split; [|done].
  apply Z.mod_pos_bound. unfold NR_PROCS. lia.
Qed.

Lemma fork_search_spec rounds used child : mslot child ->
  match fork_search rounds used child with
  | Some c => mslot c /\ used c = false
  | None => forall i, 1 <= i <= Z.of_nat rounds -> used ((child + i) mod NR_PROCS) = true
  end.
Proof.
  revert child. induction rounds as [|r IH]; intros child Hc; simpl; [lia|].
  destruct (rem_mslot (child + 1)) as [Hm E]; [unfold mslot in *; lia|].
  set (c := Z.rem (child + 1) NR_PROCS) in *.
  destruct (used c) eqn:Eu; [|done]. specialize (IH c Hm).
  destruct (fork_search r used c); [done|]. intros i Hi.
  destruct (decide (i = 1)) as [->|]; [by rewrite <- E|].
  replace ((child + i) mod NR_PROCS) with ((c + (i - 1)) mod NR_PROCS); [apply IH; lia|].
  rewrite E. unfold NR_PROCS. Z.div_mod_to_equations. lia.
Qed.

(** A table that is not full has a slot for the child. *)
Lemma fork_search_finds s child : mslot child -> procs_in_use s = Z.of_nat (cnt (fun n => used s n)) ->
  procs_in_use s <> NR_PROCS ->
  exists c, fork_search (Z.to_nat NR_PROCS) (fun n => flag_any (mp_flags (mproc_tab s n)) IN_USE) child = Some c /\
    mslot c /\ used s c = false.
Proof.
  intros Hc Hn Hfull.
  pose proof (fork_search_spec (Z.to_nat NR_PROCS) (fun n => flag_any (mp_flags (mproc_tab s n)) IN_USE) child Hc) as F.
  destruct (fork_search _ _ _) as [c|]; [by exists c|]. destruct Hfull. rewrite Hn.
  rewrite (cnt_ext (fun _ => true)); [by vm_compute|]. intros k Hk.
  assert (E : k = (child + ((k - child - 1) mod NR_PROCS + 1)) mod NR_PROCS).
  { unfold mslot, NR_PROCS in *. Z.div_mod_to_equations. lia. }
  rewrite E. apply F. unfold NR_PROCS. Z.div_mod_to_equations. lia.
Qed.

(** ** The child *)

(** The view of a child of [who] with tracer [tr]. *)
Definition v_child (who tr pid ep : Z) : view :=
  mk_view true false false false false false false who tr pid ep.

Lemma view_forked who ep p : flag_any (mp_flags p) IN_USE = true -> view_of (forked who ep p) =
  v_child who (if flag_any (mp_trace_flags p) TO_TRACEFORK then mp_tracer p else NO_TRACER) (mp_pid p) ep.
Proof.
  intros Hu. unfold forked, view_of, v_child. simpl.
  destruct (flag_any (mp_trace_flags p) TO_TRACEFORK); simpl; flag_simpl; by rewrite Hu.
Qed.

(** A new process of a live parent, with a fresh pid. *)
Lemma vinv_fork V V' c who tr pid ep : vinv V -> mslot c -> v_used (V c) = false ->
  (forall k, k <> c -> V' k = V k) -> V' c = v_child who tr pid ep ->
  mslot who -> 0 < who -> depends_ok V who ->
  (tr <> NO_TRACER -> depends_ok V tr) -> mslot tr -> _ENDPOINT_P ep = c ->
  0 < pid <= NR_PIDS -> (forall k, mslot k -> v_pid (V k) <> pid) -> vinv V'.
Proof.
  intros [A1 A2 A3 A4 A5 A6 A7 A8 A9] Hc Hu Hk E Hw Hw0 Hdw Hdt Ht He Hp Hf.
  assert (Hdep : forall p, depends_ok V p -> depends_ok V' p).
  { intros p [D1 D2]. assert (p <> c) by (intros ->; congruence). unfold depends_ok. by rewrite Hk. }
  split.
  - intros k Hks. destruct (decide (k = c)) as [->|]; [by rewrite E|rewrite Hk by done; auto].
  - intros k Hks. destruct (decide (k = c)) as [->|]; [by rewrite E|rewrite Hk by done; auto].
  - intros k Hv. destruct (decide (k = c)) as [->|]; [|rewrite Hk by done; auto].
    destruct (A3 c Hv) as [[? _]%v_live_iff _]. congruence.
  - intros k Hks. destruct (decide (k = c)) as [->|]; [rewrite E; simpl; auto|rewrite Hk by done].
    intros Hu'. destruct (A4 k Hks Hu'). auto.
  - intros k Hks. destruct (decide (k = c)) as [->|]; [rewrite E; simpl; auto|rewrite Hk by done].
    intros Hu' Ht'. auto.
  - intros k Hks. destruct (decide (k = c)) as [->|]; [rewrite E; by split|rewrite Hk by done; auto].
  - intros k Hks. destruct (decide (k = c)) as [->|]; [by rewrite E|rewrite Hk by done; auto].
  - intros k Hks. destruct (decide (k = c)) as [->|]; [by rewrite E|rewrite Hk by done; auto].
  - intros k j Hks Hj. destruct (decide (k = c)) as [->|]; destruct (decide (j = c)) as [->|];
      rewrite ?E, ?Hk by done; simpl; try done; intros Hu1 Hu2 Ep; [by destruct (Hf j)|by destruct (Hf k)|auto].
Qed.

(** The table with the child in it. *)
Record child_added (c : Z) (v : view) (s s' : pm_state) : Prop := mk_child_added {
  cd_view k : vw s' k = if decide (c = k) then v else vw s k;
  cd_timers : exists f, pm_timers s' = upd_tm c f (pm_timers s);
  cd_count : procs_in_use s' = procs_in_use s + 1;
  cd_glob : glob s' = glob s;
  cd_child : mslot (next_child s') /\ mslot (next_child_nb s');
  cd_pid : INIT_PID < next_pid s' <= NR_PIDS }.

Lemma timers_ok_added c v s s' : (exists l, timers_ok s l) -> v_alarm (vw s c) = false ->
  v_alarm v = false -> child_added c v s s' -> exists l, timers_ok s' l.
Proof.
  intros [l [T1 T2 T3]] Ha Hv A. exists l. destruct (cd_timers _ _ _ _ A) as [f Ef].
  assert (Hl : forall k, k ∈ l -> k <> c) by (intros k [_ ?]%T2 ->; congruence).
  split.
  - rewrite Ef. apply tq_rep_upd; [|done]. intros Hin. by apply (Hl c).
  - intros k. rewrite T2, (cd_view _ _ _ _ A). case_decide; [subst; rewrite Ha, Hv|]; tauto.
  - intros k Hk. rewrite Ef, (cd_view _ _ _ _ A). simpl. rewrite fn_lookup_insert_ne by (intros <-; by apply (Hl c)).
    rewrite decide_False by (intros <-; by apply (Hl c)). auto.
Qed.

Lemma tinv_added c tr pid ep s s' : tinv s -> caller_ok s -> mslot c -> used s c = false ->
  tr = NO_TRACER \/ tr = v_tracer (vw s (mp s)) -> _ENDPOINT_P ep = c ->
  INIT_PID < pid <= NR_PIDS -> (forall k, mslot k -> v_pid (vw s k) <> pid) ->
  child_added c (v_child (mp s) tr pid ep) s s' -> fine s s'.
Proof.
  intros T [C1 C2 C3 C4] Hc Hu Htr He Hp Hf A. pose proof (t_pinv _ T) as I. pose proof (pi_views _ I) as V.
  pose proof (tinv_mp _ T) as Hm. apply v_live_iff in C3 as Hux. destruct Hux as [Hmu Hmx].
  destruct (fo_free _ (vi_flags _ V c Hc) Hu) as (Hx & _ & _ & _ & _ & Ha & _).
  assert (Ec : vw s' c = v_child (mp s) tr pid ep) by (rewrite (cd_view _ _ _ _ A); by rewrite decide_True).
  assert (Ek : forall k, k <> c -> vw s' k = vw s k).
  { intros k Hk. rewrite (cd_view _ _ _ _ A). by rewrite decide_False. }
  split; [|apply A]. destruct A as [A1 A2 A3 A4 A5 A6] eqn:EA. split; try done.
  - split.
    + apply (vinv_fork (vw s) _ c (mp s) tr pid ep); try done.
      * split; [done|congruence].
      * destruct Htr as [->| ->]; [done|]. by apply (vi_tracer _ V).
      * destruct Htr as [->| ->]; [done|]. by apply (vi_tracer_slot _ V).
      * unfold INIT_PID in Hp. lia.
    + rewrite A3, (pi_count _ I). rewrite (cnt_drop (fun n => used s' n) (fun n => used s n) c);
        [lia|done|by rewrite Ec|done|]. intros k _ Hk. by rewrite Ek.
    + by apply (timers_ok_added c (v_child (mp s) tr pid ep) s); [apply I|..].
    + by rewrite (glob_mp _ _ A4).
  - intros p Hps Hxp. assert (Hpc : p <> c) by (intros ->; by rewrite Ec in Hxp). rewrite Ek in Hxp by done.
    intros n Hn. destruct (decide (n = c)) as [->|Hnc]; [|rewrite Ek by done; by apply (t_settled _ T)].
    rewrite Ec. simpl. intros _. split; [intros <-; congruence|].
    destruct (t_settled _ T p Hps Hxp (mp s) Hm Hmu) as [_ S2]. destruct Htr as [->| ->]; [done|auto].
  - rewrite (glob_hz _ _ A4). apply T.
Qed.

Section env.
Context `{PmEnv}.

(** VM gives the child an endpoint of its slot: a generation and the slot number. *)
Definition vm_fork_ok : Prop := forall m b h, m_type m = VM_FORK -> mslot (m1_i2 m) ->
  let h' := Sendrec VM_PROC_NR m b :: h in
  status h' = 0 -> m_type (answer h') = OK -> _ENDPOINT_P (m1_i3 (answer h')) = m1_i2 m.

(** The answer of a call. *)
Lemma wpp_taskcall_ans P who nr m b Q s :
  let e := Sendrec who (set_m_type nr m) b in
  (forall r, (fst r = OK -> status (e :: history s) = 0 /\ m_type (answer (e :: history s)) = OK) ->
     snd r = answer (e :: history s) -> Q r (sent e s)) -> wpp P (taskcall who nr m b) Q s.
Proof.
  intros e HQ. unfold taskcall. apply wpp_bind, wpp_emit, wpp_bind, wpp_gets. fold e.
  change (history (sent e s)) with (e :: history s).
  destruct (Z.eqb_spec (status (e :: history s)) 0) as [E|E]; simpl; apply wpp_ret, HQ; simpl; try done.
Qed.

(** A traced child stops for its tracer at once. *)
Lemma sig_proc_traced rmp s : mslot rmp -> live s rmp = true ->
  v_tracer (vw s rmp) <> NO_TRACER -> mslot (v_tracer (vw s rmp)) ->
  wpp env_panic (sig_proc rmp SIGSTOP true) (fun _ s' => quiet s s') s.
Proof.
  intros Hr Hl Ht Hts. unfold sig_proc, sig_proc_with. apply wpp_bind, wpp_rdm; [done|].
  rewrite is_live_view, Hl. simpl. apply wpp_bind, wpp_rdm; [done|]. vw_reads.
  destruct (Z.eqb_spec (v_tracer (vw s rmp)) NO_TRACER) as [|_]; [done|]. simpl.
  pm_step. pm_step. set (s1 := upd_m rmp _ s). assert (Q : quiet s s1) by quiet_done. clearbody s1.
  pm_step. pm_step. apply wpp_when; intros _; [|done].
  eapply wpp_conseq; [apply stop_proc_quiet; [done|by rewrite (q_view _ _ Q)]|]. cbv beta.
  intros _ s2 Q2. by etrans.
Qed.

(** What a successful fork has done. *)
Definition fork_done (s s' : pm_state) (rmc : Z) : Prop :=
  fine s s' /\ mslot rmc /\ used s rmc = false /\ live s' rmc = true /\ v_fs (vw s' rmc) = true /\
  v_parent (vw s' rmc) = mp s /\ procs_in_use s' = procs_in_use s + 1 /\
  (forall k, mslot k -> v_pid (vw s k) <> v_pid (vw s' rmc)) /\
  (forall k, k <> rmc -> vw s' k = vw s k).

(** The outcome of [fork_common]: an error and no new process, or the child. *)
Definition fork_result (s : pm_state) (r : Z + Z) (s' : pm_state) : Prop :=
  match r with
  | inl e => fine s s' /\ forall k, vw s' k = vw s k
  | inr rmc => fork_done s s' rmc
  end.

(** The statics of one of the two forks. *)
Record fork_static (get : pm_state -> Z) (put : Z -> pm_state -> pm_state) : Prop := mk_fork_static {
  fst_get s : tinv s -> mslot (get s);
  fst_put c s : mslot c -> (mslot (next_child s) /\ mslot (next_child_nb s)) ->
    mslot (next_child (put c s)) /\ mslot (next_child_nb (put c s));
  fst_same c s : mproc_tab (put c s) = mproc_tab s /\ pm_timers (put c s) = pm_timers s /\
    procs_in_use (put c s) = procs_in_use s /\ glob (put c s) = glob s /\ next_pid (put c s) = next_pid s }.

Lemma fork_static_child : fork_static next_child set_next_child.
Proof. split; [intros s T; apply T|by intros c s Hc []|done]. Qed.
Lemma fork_static_nb : fork_static next_child_nb set_next_child_nb.
Proof. split; [intros s T; apply T|by intros c s Hc []|done]. Qed.

Section fork.
Context (vm_ok : vm_fork_ok) (get : pm_state -> Z) (put : Z -> pm_state -> pm_state) (Hst : fork_static get put).

Lemma fine_static c s : tinv s -> mslot c -> fine s (put c s).
Proof.
  intros T Hc. destruct (fst_same _ _ Hst c s) as (E1 & E2 & E3 & E4 & E5).
  assert (Ev : forall k, vw (put c s) k = vw s k) by (intros k; by rewrite !vw_def, E1).
  destruct T as [[P1 P2 [l [P3 P4 P5]] P6] HS Hz Hch Hp]. split; [|done]. split; try done; [split|..].
  - by apply (vinv_ext (vw s)).
  - rewrite E3, P2. apply (f_equal Z.of_nat), cnt_ext. intros n _. by rewrite Ev.
  - exists l. split; [by rewrite E2|intros k; by rewrite Ev|intros k; rewrite Ev, E2; auto].
  - by rewrite (glob_mp _ _ E4).
  - intros p Hp'. rewrite Ev. intros Hx. apply (settled_ext (vw s)); auto.
  - by rewrite (glob_hz _ _ E4).
  - by apply Hst.
  - by rewrite E5.
Qed.

Lemma pid_taken_false pid s k : pid_taken pid s = false -> mslot k -> mp_pid (mproc_tab s k) <> pid.
Proof.
  intros E Hk Hp. enough (pid_taken pid s = true) by congruence. apply pid_taken_elem.
  apply elem_of_app. left. apply list_elem_of_fmap. exists k. split; [done|by apply elem_of_mslots].
Qed.

(** The child is in the table, FS is told, the tracer gets its stop. *)
Lemma fork_tail req rmc ep pid tr eep s s7 : tinv s -> caller_ok s -> mslot rmc -> used s rmc = false ->
  tr = NO_TRACER \/ tr = v_tracer (vw s (mp s)) -> _ENDPOINT_P ep = rmc ->
  INIT_PID < pid <= NR_PIDS -> (forall k, mslot k -> v_pid (vw s k) <> pid) ->
  child_added rmc (v_child (mp s) tr pid ep) s s7 ->
  wpp env_panic
    (do cep <- rdm rmc mp_endpoint;
     do! tell_fs rmc (set_m1_i3 pid (set_m1_i2 eep (set_m1_i1 cep (set_m_type req uninit))));
     do tracer <- rdm rmc mp_tracer;
     do! when (negb (tracer =? NO_TRACER)) (sig_proc rmc SIGSTOP true);
     ret (inr rmc))
    (fork_result s) s7.
Proof.
  intros T C Hc Hu Htr He Hp Hf A. pose proof (tinv_added _ _ _ _ _ _ T C Hc Hu Htr He Hp Hf A) as F7.
  assert (E7 : vw s7 rmc = v_child (mp s) tr pid ep) by (rewrite (cd_view _ _ _ _ A); by rewrite decide_True).
  pm_step. pm_step. eapply wpp_bind, wpp_conseq; [apply tell_fs_told; [done|by rewrite E7|by apply env_panic_ok]|].
  cbv beta. intros _ s8 [Ft _]. pose proof (ov_eq _ _ _ _ Ft) as E8. rewrite E7 in E8.
  assert (F8 : fine s s8).
  { apply (fine_kept_r s s7); [done|]. apply (kept_fs_told rmc); [apply F7|done|by rewrite E7|done]. }
  apply wpp_bind, wpp_rdm; [done|]. vw_reads.
  assert (Hend : forall s9, quiet s8 s9 -> fork_done s s9 rmc).
  { intros s9 Q. pose proof (q_view _ _ Q) as Q1. unfold fork_done. rewrite !(Q1 rmc), !E8. split_all; try done.
    - by apply (fine_quiet_r s s8).
    - rewrite (q_count _ _ Q), (ov_count _ _ _ _ Ft). apply A.
    - intros k Hk. by rewrite Q1, (ov_ne _ _ _ _ _ Ft), (cd_view _ _ _ _ A), decide_False. }
  pm_step. apply wpp_when; intros Ht; [|apply wpp_ret; by apply Hend].
  eapply wpp_conseq; [apply sig_proc_traced; [done|by rewrite E8|..]|cbv beta; intros _ s9 Q; apply wpp_ret; by apply Hend].
  - apply negb_true_iff, Z.eqb_neq in Ht. done.
  - apply (vi_tracer_slot _ (pi_views _ (t_pinv _ (proj1 F8)))). done.
Qed.

Lemma fork_common_spec req s : tinv s -> caller_ok s ->
  wpp env_panic (fork_common get put req) (fork_result s) s.
Proof.
  intros T C. pose proof C as [C1 C2 C3 C4]. pose proof (tinv_mp _ T) as Hm. pose proof (t_pinv _ T) as I.
  apply v_live_iff in C3 as Hux. destruct Hux as [Hmu Hmx].
  unfold fork_common. do 4 (pm_step; pm_step). destruct (_ || _) eqn:Efull; [by apply wpp_ret|].
  apply orb_false_iff in Efull as [Efull%Z.eqb_neq _]. pm_step. pm_step.
  destruct (fork_search_finds s (get s)) as (rmc & -> & Hc & Hu); [by apply Hst|exact (pi_count _ I)|done|].
  pm_step. pm_step. set (s1 := put rmc s).
  destruct (fst_same _ _ Hst rmc s) as (E1 & E2 & E3 & E4 & E5). fold s1 in E1, E2, E3, E4, E5.
  pm_step. pm_step. rewrite E1, bool_decide_true by done. vw_reads. rewrite Hu. simpl.
  pm_step. pm_step. unfold vm_fork. pm_step. apply wpp_taskcall_ans. intros [r m] Hans Em. simpl in Hans, Em.
  match goal with |- wpp _ _ _ (sent ?e _) => set (ev := e) in * end.
  pose proof (fine_static rmc s T Hc) as F1. fold s1 in F1. set (s2 := sent ev s1).
  assert (F2 : fine s s2) by (apply (fine_calm_r s s1); [done|calm_done]).
  cbn [fst snd]. destruct (Z.eqb_spec r OK) as [Er|Er]; cbn [negb].
  2: { apply wpp_ret. split; [done|]. intros k. unfold s2. rewrite !vw_def. simpl. by rewrite E1. }
  destruct (Hans Er) as [Hst0 Htype]. pose proof (vm_ok (set_m_type VM_FORK (set_m1_i2 rmc
    (set_m1_i1 (mp_endpoint (mproc_tab s1 (mp s))) uninit))) B_none (history s1) eq_refl Hc Hst0 Htype) as Hep.
  cbn zeta in Hep. fold ev in Hep. rewrite <- Em in Hep. change (_ENDPOINT_P (m1_i3 m) = rmc) in Hep.
  do 5 (pm_step; pm_step). set (s5 := set_pm_timers _ _).
  assert (Hs5 : next_pid s5 = next_pid s) by exact E5.
  eapply wpp_bind, wpp_conseq; [apply get_free_pid_spec; rewrite Hs5; apply T|].
  cbv beta. intros pid ? (-> & Hp & Hfree). pm_step. pm_step. set (s7 := upd_m rmc _ _).
  set (p := mproc_tab s (mp s)) in *.
  set (tr := if flag_any (mp_trace_flags p) TO_TRACEFORK then mp_tracer p else NO_TRACER).
  assert (E7 : forall k, vw s7 k = if decide (rmc = k) then v_child (mp s) tr pid (m1_i3 m) else vw s k).
  { intros k. unfold s7. rewrite vw_upd. case_decide as Ek.
    - change (mproc_tab (set_next_pid pid s5)) with (<[rmc := forked (who_p s1) (m1_i3 m) (id (mproc_tab s1 (mp s)))]> (mproc_tab s1)).
      rewrite fn_lookup_insert, E1. fold p. change (who_p s1) with (glob s1).1.1.1.2. rewrite E4. simpl. rewrite C1.
      change (view_of (set_mp_pid pid (forked (mp s) (m1_i3 m) p)))
        with (set_v_pid pid (view_of (forked (mp s) (m1_i3 m) p))). by rewrite view_forked.
    - rewrite !vw_def. unfold s5. simpl. by rewrite fn_lookup_insert_ne, E1. }
  apply (fork_tail req rmc (m1_i3 m) pid tr _ s s7); try done.
  - unfold tr. destruct (flag_any _ _); [by right|by left].
  - intros k Hk. destruct (decide (k = rmc)) as [->|Hkr].
    + destruct (fo_free _ (vi_flags _ (pi_views _ I) rmc Hc) Hu) as (_ & _ & _ & _ & _ & _ & ->).
      unfold INIT_PID in Hp. lia.
    + pose proof (pid_taken_false _ _ k Hfree Hk) as Hne. unfold s5 in Hne. simpl in Hne.
      rewrite fn_lookup_insert_ne, E1 in Hne by done. done.
  - split; try done.
    + exists (fun _ => tm (pm_timers s) (mp s)). unfold s7, s5. simpl. by rewrite E2.
    + unfold s7, s5. simpl. by rewrite E3.
    + by apply Hst; [|apply T].
Qed.
End fork.

(** ** The two calls *)

(** The last slots are for the superuser. *)
Definition no_room (s : pm_state) : bool :=
  (procs_in_use s =? NR_PROCS) ||
  ((NR_PROCS - LAST_FEW <=? procs_in_use s) && negb (mp_effuid (mproc_tab s (mp s)) =? 0)).

Lemma do_fork_full s : mslot (mp s) -> no_room s = true -> do_fork s = Done EAGAIN s.
Proof.
  intros Hm Hn. unfold do_fork, fork_common, bind, gets, rdm. rewrite decide_True by done.
  unfold no_room in Hn. by rewrite Hn.
Qed.

Lemma do_fork_spec s : vm_fork_ok -> tinv s -> caller_ok s ->
  wpp env_panic do_fork (fun r s' => fine s s' /\
    (r = SUSPEND /\ (exists rmc, fork_done s s' rmc) \/ forall k, vw s' k = vw s k)) s.
Proof.
  intros Hvm T C. unfold do_fork. eapply wpp_bind, wpp_conseq; [by apply (fork_common_spec Hvm _ _ fork_static_child)|].
  cbv beta. intros [e|rmc] s' F; apply wpp_ret; simpl in F; [naive_solver|]. split; [apply F|eauto].
Qed.

Lemma do_fork_nb_fine : vm_fork_ok -> fine_call env_panic do_fork_nb.
Proof.
  intros Hvm s T C. pose proof (tinv_mp _ T). unfold do_fork_nb, rd_mp. repeat pm_step; [by apply fine_refl|].
  eapply wpp_conseq; [by apply (fork_common_spec Hvm _ _ fork_static_nb)|].
  cbv beta. intros [e|rmc] s' F; [by apply wpp_ret; destruct F|]. destruct F as (F & Hc & _).
  eapply wpp_bind, wpp_conseq; [by apply setreply_quiet|]. cbv beta. intros _ s2 Q. pm_step.
  by apply (fine_quiet_r s s').
Qed.

End env.
