(* ===== verification/PmTurnSafe.v ===== *)
(** * The process manager: a turn of the main loop

    Expired timers, kernel signals, the answers of FS and the table of calls: every turn
    keeps the invariant. *)
From S2P Require Import Prelude PList KMonad Timers Types Memory Sched KCalls Signals PrivCtl.
From S2P Require Import SysTask PmTypes PmLib PmSig PmCalls PmMain PmTurn PmView PmInv PmAlarm.
From S2P Require Import PmCalm PmSafe PmFork.

Section env.
Context `{PmEnv}.

(** ** Timers that expire *)

Lemma isokendpt_used s k : mslot k -> used s k = true -> _ENDPOINT_P (v_ep (vw s k)) = k ->
  pm_isokendpt (v_ep (vw s k)) s = Done (OK, k) s.
Proof.
  intros Hk Hu Ee. unfold pm_isokendpt. rewrite Ee.
  assert (E : (k <? - NR_TASKS) || (NR_PROCS <=? k) = false) by (unfold mslot, NR_TASKS in *; lia). rewrite E.
  assert (E' : (k <? 0) = false) by (unfold mslot in *; lia). rewrite E'.
  unfold bind, mflag, rdm. destruct (decide (mslot k)); [|done].
  change (mp_endpoint (mproc_tab s k)) with (v_ep (vw s k)). rewrite Z.eqb_refl. simpl.
  change (flag_any (mp_flags (mproc_tab s k)) IN_USE) with (used s k). by rewrite Hu.
Qed.

(** The timer of [k] has left the queue and [s'] has the queue [l'] of the processes
    whose alarm is on. *)
Lemma fine_expired k l b s s' l' : tinv s -> timers_ok s (k :: l) -> alarm_changed k b s s' ->
  statics s' = statics s -> timers_ok s' l' -> fine s s'.
Proof.
  intros T [T1 T2 T3] A Hst T'. pose proof (t_pinv _ T) as I.
  assert (Hk : mslot k /\ v_alarm (vw s k) = true) by (apply T2; set_solver). destruct Hk as [Hk Ha].
  pose proof (fo_alarm _ (vi_flags _ (pi_views _ I) k Hk) Ha) as Hl.
  assert (I' : pinv s') by (apply (pinv_alarm k b s); eauto).
  by apply (fine_alarm k b).
Qed.

(** Taking a timer off the queue keeps what the timers are for. *)
Lemma pop_head_meta (k j : Z) (t : tstate Z pm_watchdog) : tmr_func (tm (pop_head k t) j) = tmr_func (tm t j) /\
  tmr_arg (tm (pop_head k t) j) = tmr_arg (tm t j).
Proof. unfold pop_head. simpl. rewrite fn_insert_case. by case_decide; subst. Qed.

(** The timer of [k] is entered again. *)
Lemma rearmed_timers k l e arg t s s3 : timers_ok s (k :: l) -> alarm_changed k true s s3 -> pm_timers s3 = t ->
  tmr_arg (tm t k) = v_ep (vw s k) ->
  armed k e W_cause_sigalrm (upd_tm k (set_tmr_arg arg) (pop_head k (pm_timers s))) t l ->
  exists l', timers_ok s3 l'.
Proof.
  intros [T1 T2 T3] A Et Hta (B1 & B2 & B3 & _ & B4).
  assert (Hk : v_alarm (vw s k) = true) by (apply T2; set_solver). eexists. split; [by rewrite Et; exact B1|..].
  - intros j. rewrite insert_timer_elem, elem_of_without, (ac_view _ _ _ _ A).
    assert (Hj : j = k \/ j <> k /\ j ∈ l <-> j ∈ k :: l).
    { rewrite elem_of_cons. split; [tauto|]. intros [?|?]; [by left|].
      destruct (decide (j = k)); [by left|by right]. }
    rewrite Hj, T2. case_decide; subst; simpl; [|done]. by rewrite Hk.
  - intros j [->|[Hj Hjl]%elem_of_without]%insert_timer_elem; rewrite Et, (ac_view _ _ _ _ A).
    + by rewrite decide_True.
    + rewrite decide_False by done. destruct (B4 j Hj) as [_ [M1 M2]]. rewrite M1, M2.
      cbn [tm upd_tm]. rewrite fn_lookup_insert_ne by done.
      destruct (pop_head_meta k j (pm_timers s)) as [-> ->]. apply T3. set_solver.
Qed.

(** It is not. *)
Lemma switched_off_timers k l s s3 : timers_ok s (k :: l) -> alarm_changed k false s s3 ->
  pm_timers s3 = pop_head k (pm_timers s) -> timers_ok s3 l.
Proof.
  intros [T1 T2 T3] A Et. destruct (pop_head_rep _ _ _ T1) as [Hq _].
  pose proof (tq_nodup _ _ T1) as [Hkl Hnd]%NoDup_cons. split; [by rewrite Et|..].
  - intros j. rewrite (ac_view _ _ _ _ A). case_decide; [subst j; simpl|].
    + split; [done|by intros []].
    + rewrite <- T2. set_solver.
  - intros j Hj. rewrite (ac_view _ _ _ _ A), decide_False by (intros ->; done). rewrite Et.
    destruct (pop_head_meta k j (pm_timers s)) as [-> ->]. apply T3. set_solver.
Qed.

Lemma cause_sigalrm_fine k l s : tinv s -> timers_ok s (k :: l) ->
  wpp env_panic (cause_sigalrm k) (fun _ s' => fine s s') (set_pm_timers (pop_head k (pm_timers s)) s).
Proof.
  intros T TO. pose proof TO as [T1 T2 T3]. pose proof (pi_views _ (t_pinv _ T)) as V.
  assert (Hk : mslot k /\ v_alarm (vw s k) = true) by (apply T2; set_solver). destruct Hk as [Hk Ha].
  pose proof (fo_alarm _ (vi_flags _ V k Hk) Ha) as Hl. apply v_live_iff in Hl as Hux. destruct Hux as [Hu Hx].
  destruct (T3 k) as [_ Harg]; [set_solver|]. destruct (pop_head_rep _ _ _ T1) as [Hq _].
  set (s1 := set_pm_timers (pop_head k (pm_timers s)) s) in *.
  assert (Ev : forall j, vw s1 j = vw s j) by (intros j; by rewrite !vw_def).
  unfold cause_sigalrm. pm_step. pm_step.
  change (tmr_arg (tm (pm_timers s1) k)) with (tmr_arg (tm (pop_head k (pm_timers s)) k)).
  destruct (pop_head_meta k k (pm_timers s)) as [_ ->]. rewrite Harg, <- (Ev k).
  eapply wpp_bind, wpp_done; [apply isokendpt_used; [done|by rewrite Ev|rewrite Ev; by apply (vi_ep _ V)]|].
  simpl. apply wpp_bind, wpp_rdm; [done|]. rewrite is_live_view, Ev, Hl. simpl.
  apply wpp_bind, wpp_mflag; [done|]. vw_reads. rewrite Ev, Ha. simpl. pm_step. pm_step.
  assert (Hfuel : (length l < PM_TIMER_FUEL)%nat) by (pose proof (pm_timers_fuel _ _ TO); simpl in *; lia).
  eapply wpp_bind, (wpp_conseq _ _ (fun _ s' => fine s s')).
  - destruct (0 <? _) eqn:Ei.
    + unfold set_alarm. rewrite Ei. pm_step. pm_step.
      eapply wpp_bind, wpp_conseq; [by apply (pm_set_timer_spec _ _ _ _ _ l)|].
      cbv beta. intros _ s2 (t & h & e & -> & Hta & Harm). pm_step.
      match goal with |- fine _ ?x => set (s3 := x) end.
      assert (A : alarm_changed k true s s3).
      { apply (alarm_changed_upd k true (or_flags ALARM_ON) t h s view_alarm_on). }
      destruct (rearmed_timers k l e (mp_endpoint (mproc_tab s1 k)) t s s3 TO A) as [l' TO']; [done|by rewrite <- (Ev k)|exact Harm|].
      by apply (fine_expired k l true s s3 l').
    + pm_step. match goal with |- fine _ ?x => set (s3 := x) end.
      assert (A : alarm_changed k false s s3).
      { apply (alarm_changed_upd k false (clear_flags ALARM_ON) (pop_head k (pm_timers s)) (history s) s view_alarm_off). }
      apply (fine_expired k l false s s3 l); try done. by apply (switched_off_timers k l s s3).
  - cbv beta. intros _ s3 F. pm_step. pm_step.
    eapply wpp_bind, wpp_conseq; [apply check_sig_kept, F|]. cbv beta. intros _ s4 K. apply wpp_ret.
    by apply (fine_kept_r s s3).
Qed.

(** One timer of the queue. *)
Lemma exp_one_fine now s : tinv s ->
  wpp env_panic (exp_one pm_timers set_pm_timers pm_run now) (fun _ s' => fine s s') s.
Proof.
  intros T. destruct (pi_timers _ (t_pinv _ T)) as [l TO]. pose proof (tq_chain _ _ (to_rep _ _ TO)) as Hc.
  unfold exp_one. pm_step. pm_step. destruct l as [|k l].
  - change (tq (pm_timers s) = None) in Hc. rewrite Hc. by apply wpp_ret.
  - destruct Hc as [Hh _]. change (tq (pm_timers s) = Some k) in Hh. rewrite Hh. pm_step. pm_step.
    destruct (_ <=? now); [|by apply wpp_ret]. do 2 (pm_step; pm_step).
    destruct (to_meta _ _ TO k) as [-> _]; [set_solver|]. simpl.
    eapply wpp_bind, wpp_conseq; [by apply (cause_sigalrm_fine k l s)|].
    cbv beta. intros _ s' F. by apply wpp_ret.
Qed.

(** A loop whose rounds keep [J] ends in [J], if it ends. *)
Lemma while_inv {S} P (J : S -> Prop) (body : M S bool) : (forall s, J s -> wpp P body (fun _ s' => J s') s) ->
  forall fuel s s', J s -> while fuel body s = Done tt s' -> J s'.
Proof.
  intros Hb fuel. induction fuel as [|fuel IH]; intros s s' HJ; simpl; [done|].
  unfold bind. destruct (body s) as [go s1| |] eqn:E; [|done..].
  pose proof (wpp_elim _ _ _ _ _ _ (Hb s HJ) E) as HJ1. destruct go; [by apply IH|].
  unfold ret. intros [=<-]. done.
Qed.

(** ** The answers of FS *)

Lemma view_reset l p : view_of (fold_left reset_catch l p) = view_of p.
Proof.
  revert p. induction l as [|sn l IH]; intros p; simpl; [done|]. rewrite IH. unfold reset_catch.
  by destruct (sigismember _ _).
Qed.

Lemma exec_restart_kept rmp result s : pinv s -> mslot rmp -> live s rmp = true -> v_fs (vw s rmp) = false ->
  wpp env_panic (exec_restart rmp result) (fun _ s' => kept s s') s.
Proof.
  intros I Hr Hl Hf. unfold exec_restart. destruct (negb (result =? OK)).
  - pm_step. pm_step. destruct (flag_any _ _).
    + pm_step. pm_step. set (s1 := upd_m rmp _ s). assert (Q : quiet s s1) by quiet_done. clearbody s1.
      eapply wpp_conseq; [apply exit_proc_kept; [by apply (pinv_quiet s)|done|by rewrite (quiet_live s)|by rewrite (q_view _ _ Q)]|].
      cbv beta. intros _ s2 K. by apply (kept_quiet_l s s1).
    + eapply wpp_conseq; [by apply setreply_quiet|]. cbv beta. intros _ s1. by apply kept_quiet.
  - do 4 (pm_step; pm_step). set (s1 := upd_m rmp _ _).
    assert (K1 : kept s s1).
    { apply kept_quiet; [done|]. transitivity (upd_m rmp (clear_flags PARTIAL_EXEC) s); [quiet_done|].
      apply quiet_upd. apply view_reset. }
    clearbody s1. eapply wpp_bind, (wpp_conseq _ _ (fun _ s' => kept s s')).
    + apply wpp_when; intros _; [|done]. pm_step. pm_step.
      eapply wpp_bind, wpp_conseq; [apply check_sig_kept, K1|]. cbv beta. intros _ s2 K2. apply wpp_ret.
      by apply (kept_trans s s1).
    + cbv beta. intros _ s2 K2. unfold sys_exec. repeat (pm_step; try solve_env).
      apply (kept_quiet_r s s2); [done|quiet_done].
Qed.

(** RS names a process that runs and waits for nothing. *)
Definition rs_names_live (m : message) (s : pm_state) : Prop :=
  let rmp := _ENDPOINT_P (m1_i1 m) in
  mslot rmp /\ live s rmp = true /\ v_fs (vw s rmp) = false.

Lemma do_execrestart_fine s : tinv s -> rs_names_live (m_in s) s ->
  wpp env_panic do_execrestart (fun _ s' => fine s s') s.
Proof.
  intros T (Hr & Hl & Hf). unfold do_execrestart, min. pm_step. pm_step.
  destruct (negb _); [by apply wpp_ret|]. pm_step. pm_step.
  eapply wpp_bind, wpp_isokendpt_both. intros [r n] En _. simpl in En. subst n. simpl.
  destruct (negb _); [solve_env|]. pm_step. pm_step.
  eapply wpp_bind, wpp_conseq; [by apply exec_restart_kept; [apply T|..]|].
  cbv beta. intros _ s1 K. apply wpp_ret. by apply fine_kept.
Qed.

(** FS and RS give memory to processes, not to tasks. *)
Definition names_user (m : message) : Prop := 0 <= _ENDPOINT_P (m1_i1 m) < NR_PROCS.

Lemma do_exec_newmem_fine s : tinv s -> names_user (m_in s) ->
  wpp env_panic do_exec_newmem (fun _ s' => fine s s') s.
Proof.
  intros T Hn. pose proof (tinv_mp _ T). unfold do_exec_newmem. unfold_sys. pm_step. pm_step.
  destruct (_ && _); [by apply wpp_ret|]. pm_step. pm_step.
  eapply wpp_bind, wpp_isokendpt_both. intros [r n] En _. simpl in En. simpl.
  assert (Hr : mslot n) by (subst n; exact Hn).
  repeat (pm_step; try solve_env); apply fine_calm; (done || calm_done).
Qed.

Lemma restart_sigs_kept rmp s : pinv s -> mslot rmp -> live s rmp = true ->
  wpp env_panic (restart_sigs rmp) (fun _ s' => kept s s') s.
Proof.
  intros I Hr Hl. unfold restart_sigs. apply wpp_bind, wpp_mflag; [done|]. rewrite flag_any_lor. vw_reads.
  destruct (v_fs (vw s rmp) || exiting s rmp) eqn:Eb; [apply wpp_ret; by apply kept_quiet|].
  apply orb_false_iff in Eb as [Hf _]. pm_step. pm_step. destruct (flag_any _ TRACE_EXIT).
  { pm_step. pm_step. by apply exit_proc_kept. }
  pm_step. pm_step. apply wpp_when; intros _; [|by apply kept_quiet].
  eapply wpp_bind, wpp_conseq; [by apply check_pending_kept|]. cbv beta. intros _ s1 K.
  unfold sys_resume, sys_runctl. repeat (pm_step; try solve_env); [|done].
  apply (kept_quiet_r s s1); [done|quiet_done].
Qed.

Lemma exit_restart_kept rmp dump s : pinv s -> mslot rmp -> v_fs (vw s rmp) = false ->
  (dump = true -> exiting s rmp = true /\ v_zombie (vw s rmp) = false /\ v_tz (vw s rmp) = false /\
     v_told (vw s rmp) = false) ->
  wpp env_panic (exit_restart rmp dump) (fun _ s' => kept s s') s.
Proof.
  intros I Hr Hf Hd. unfold exit_restart.
  eapply wpp_bind, (wpp_conseq _ _ (fun _ s' => kept s s' /\ (exiting s rmp = false -> s' = s))).
  { apply wpp_when; intros Hdump; [|split; [by apply kept_quiet|done]].
    destruct (Hd Hdump) as (Hx & ? & ? & ?). eapply wpp_conseq; [by apply zombify_kept|].
    cbv beta. intros _ s1 K. split; [done|congruence]. }
  cbv beta. intros _ s1 [K1 Hs1]. pose proof (vi_tracer_slot _ (pi_views _ (proj1 K1)) rmp Hr) as Ht.
  assert (Hend : forall s2, quiet s1 s2 ->
    wpp env_panic (do told <- mflag rmp TOLD_PARENT; when told (cleanup rmp)) (fun _ s' => kept s s') s2).
  { intros s2 Q. pose proof (kept_quiet_r _ _ _ K1 Q) as K2.
    apply wpp_bind, wpp_mflag; [done|]. vw_reads. apply wpp_when; intros Htold; [|done].
    assert (Hx2 : exiting s2 rmp = true).
    { apply (fo_dead _ (vi_flags _ (pi_views _ (proj1 K2)) rmp Hr)). by rewrite Htold, orb_true_r. }
    apply (cleanup_ok _ rmp s2 s); [apply K2|done|done| |done].
    pose proof (vi_alive _ _ (pi_views _ (proj1 K2)) Hr Hx2) as Hu2. destruct K2 as [_ [C _]].
    destruct (exiting s rmp) eqn:Ex; [by destruct (ca_old _ _ _ C rmp Hr Ex Hu2) as [_ ->]|].
    rewrite (q_view _ _ Q), Hs1 in Hx2 by done. congruence. }
  assert (Hreply : forall s2, quiet s1 s2 -> wpp env_panic
    (do te <- mflag rmp TRACE_EXIT;
     do! when te
       (do tracer <- rdm rmp mp_tracer; do! wrm tracer (upd_reply (set_reply_trace 0)); setreply tracer OK);
     do told <- mflag rmp TOLD_PARENT; when told (cleanup rmp)) (fun _ s' => kept s s') s2).
  { intros s2 Q. do 3 pm_step. apply wpp_when; intros _; [|by apply Hend].
    apply wpp_bind, wpp_rdm; [done|]. vw_reads. rewrite (q_view _ _ Q). pm_step. pm_step.
    eapply wpp_conseq; [by apply setreply_quiet|]. cbv beta. intros _ s3 Q3. apply Hend. quiet_done. }
  unfold sys_exit, vm_exit. repeat first [solve [apply Hreply; quiet_done] | solve_env | pm_step].
Qed.

(** FS has answered: nothing depends on the process if it is dying. *)
Lemma vinv_fs_off V V' n : vinv V -> mslot n -> (v_exiting (V n) = true -> settled V n) ->
  (forall k, V' k = if decide (n = k) then set_v_fs false (V n) else V k) -> vinv V'.
Proof.
  intros [A1 A2 A3 A4 A5 A6 A7 A8 A9] Hn HS E.
  assert (Hs : forall k, v_used (V' k) = v_used (V k) /\ v_exiting (V' k) = v_exiting (V k) /\
    v_parent (V' k) = v_parent (V k) /\ v_tracer (V' k) = v_tracer (V k) /\ v_pid (V' k) = v_pid (V k) /\
    v_ep (V' k) = v_ep (V k) /\ v_live (V' k) = v_live (V k)).
  { intros k. rewrite E. by case_decide; subst. }
  assert (Hdep : forall p, depends_ok V p -> p <> n \/ v_exiting (V n) = false -> depends_ok V' p).
  { intros p [D1 D2] Hp. destruct (Hs p) as (E1 & E2 & _). split; [congruence|]. rewrite E2. intros Hx.
    rewrite E. case_decide; [subst; destruct Hp; congruence|auto]. }
  split.
  - intros k Hk. destruct (Hs k) as (_ & _ & -> & _). auto.
  - intros k Hk. destruct (Hs k) as (_ & _ & _ & -> & _). auto.
  - intros k Hv. destruct (Hs k) as (_ & _ & _ & _ & _ & -> & ->). auto.
  - intros k Hk. destruct (Hs k) as (-> & _ & -> & _). intros Hu. destruct (A4 k Hk Hu) as [B1 B2].
    split; [done|]. apply Hdep; [done|]. destruct (v_exiting (V n)) eqn:Ex; [|by right].
    left. by apply (HS eq_refl k).
  - intros k Hk. destruct (Hs k) as (-> & _ & _ & -> & _). intros Hu Ht.
    apply Hdep; [by apply A5|]. destruct (v_exiting (V n)) eqn:Ex; [|by right].
    left. destruct (HS eq_refl k Hk Hu) as [_ ?]. auto.
  - intros k Hk. rewrite E. case_decide; [subst k|auto]. destruct (A6 n Hn) as [F1 F2 F3 F4 F5].
    split; simpl; auto. intros Hu. destruct (F1 Hu) as (? & ? & ? & ? & ? & ? & ?). done.
  - intros k Hk. destruct (Hs k) as (-> & _ & _ & _ & _ & -> & _). auto.
  - intros k Hk. destruct (Hs k) as (-> & _ & _ & _ & -> & _ & _). auto.
  - intros k j Hk Hj. destruct (Hs k) as (-> & _ & _ & _ & -> & _ & _).
    destruct (Hs j) as (-> & _ & _ & _ & -> & _ & _). auto.
Qed.

Lemma fine_fs_off n s s' : tinv s -> mslot n -> one_view n (set_v_fs false (vw s n)) s s' -> fine s s'.
Proof.
  intros [[I1 I2 [l [T1 T2 T3]] I4] HS Hz Hch Hp] Hn O.
  pose proof (glob_rest _ _ (ov_rest _ _ _ _ O)) as G. split; [|done].
  assert (Hs : forall k, set_v_fs false (vw s' k) = set_v_fs false (vw s k)).
  { intros k. rewrite (ov_view _ _ _ _ O). by case_decide; subst. }
  assert (Eu : forall k, used s' k = used s k /\ exiting s' k = exiting s k /\ v_alarm (vw s' k) = v_alarm (vw s k) /\
    v_parent (vw s' k) = v_parent (vw s k) /\ v_tracer (vw s' k) = v_tracer (vw s k) /\ v_ep (vw s' k) = v_ep (vw s k)).
  { intros k. specialize (Hs k). destruct (vw s' k), (vw s k). simpl in *. injection Hs; intros; subst; tauto. }
  destruct (statics_ok s s') as [Hch' Hp']; [apply statics_rest, O|done..|]. split; try done; [split|..].
  - apply (vinv_fs_off (vw s) _ n); auto. apply O.
  - rewrite (ov_count _ _ _ _ O), I2. apply (f_equal Z.of_nat), cnt_ext. intros k _. symmetry. apply Eu.
  - exists l. rewrite <- (ov_timers _ _ _ _ O) in T1. split; [done|..].
    + intros k. rewrite T2. by destruct (Eu k) as (_ & _ & -> & _).
    + intros k Hk. rewrite (ov_timers _ _ _ _ O). destruct (Eu k) as (_ & _ & _ & _ & _ & ->). auto.
  - by rewrite (rest_mp _ _ (ov_rest _ _ _ _ O)).
  - intros p Hps. destruct (Eu p) as (_ & -> & _). intros Hx k Hk.
    destruct (Eu k) as (-> & _ & _ & -> & -> & _). by apply HS.
  - by rewrite (glob_hz _ _ G).
Qed.

(** What PM relies on in an answer of FS: it names a process; the end of a core dump is
    for a process that is not a zombie yet, and an exec is for a process that lives. *)
Definition fs_reply_ok (m : message) (s : pm_state) : Prop :=
  let rmp := _ENDPOINT_P (m1_i1 m) in
  m_type m <> PM_REBOOT_REPLY ->
  mslot rmp /\
  (m_type m = PM_EXEC_REPLY -> live s rmp = true) /\
  (m_type m = PM_CORE_REPLY -> exiting s rmp = true /\ v_zombie (vw s rmp) = false /\
     v_tz (vw s rmp) = false /\ v_told (vw s rmp) = false).

Lemma setreply_kept n r s : pinv s -> mslot n -> wpp env_panic (setreply n r) (fun _ s' => kept s s') s.
Proof. intros I Hn. eapply wpp_conseq; [by apply setreply_quiet|]. cbv beta. intros _ s'. by apply kept_quiet. Qed.

Lemma handle_fs_reply_fine s : tinv s -> call_nr s = m_type (m_in s) -> fs_reply_ok (m_in s) s ->
  wpp env_panic handle_fs_reply (fun _ s' => fine s s') s.
Proof.
  intros T Ecn Hok. unfold handle_fs_reply, min. pm_step. pm_step. unfold fs_reply_ok in Hok.
  rewrite <- Ecn in Hok. clear Ecn. set (cn := call_nr s) in *.
  destruct (Z.eqb_spec cn PM_REBOOT_REPLY) as [|Hnr].
  { unfold sys_abort. repeat pm_step; apply fine_calm; (done || calm_done). }
  destruct (Hok Hnr) as (Hr & Hexec & Hcore). clear Hok. pm_step. pm_step.
  eapply wpp_bind, wpp_isokendpt_both. intros [r n] En _. simpl in En. subst n. cbn [fst snd].
  set (rmp := _ENDPOINT_P (m1_i1 (m_in s))) in *. destruct (negb (r =? OK)); [solve_env|].
  apply wpp_bind, wpp_mflag; [done|]. destruct (negb _); [solve_env|]. pm_step. pm_step.
  set (s1 := upd_m rmp _ s).
  assert (O : one_view rmp (set_v_fs false (vw s rmp)) s s1).
  { apply (one_view_upd rmp _ (set_v_fs false)); [apply view_fs_off|by apply one_view_quiet]. }
  pose proof (fine_fs_off _ _ _ T Hr O) as F1. pose proof (ov_eq _ _ _ _ O) as E1.
  assert (Hmin : m_in s1 = m_in s) by done. clearbody s1.
  pose proof (t_pinv _ (proj1 F1)) as I1. pose proof (vi_parent_slot _ (pi_views _ I1) rmp Hr) as Hpar.
  pm_step. pm_step. destruct (flag_any _ UNPAUSED); [solve_env|]. pm_step. pm_step.
  eapply wpp_bind, (wpp_conseq _ _ (fun _ s' => kept s1 s')).
  - destruct (_ || _); [by apply setreply_kept|].
    destruct (cn =? PM_SETSID_REPLY); [pm_step; pm_step; by apply setreply_kept|].
    destruct (Z.eqb_spec cn PM_EXEC_REPLY) as [Ex|_].
    { apply exec_restart_kept; rewrite ?E1; auto. }
    destruct (cn =? PM_EXIT_REPLY); [by apply exit_restart_kept; rewrite ?E1|].
    destruct (Z.eqb_spec cn PM_CORE_REPLY) as [Ec|_].
    { eapply wpp_bind, (wpp_conseq _ _ (fun _ s' => quiet s1 s')).
      - apply wpp_when; intros _; [pm_step; quiet_done|done].
      - cbv beta. intros _ s2 Q. eapply wpp_conseq; [apply exit_restart_kept|].
        + by apply (pinv_quiet s1).
        + done.
        + by rewrite (q_view _ _ Q), E1.
        + intros _. rewrite (q_view _ _ Q), E1. by apply Hcore.
        + cbv beta. intros _ s3 K. by apply (kept_quiet_l s1 s2). }
    destruct (cn =? PM_FORK_REPLY).
    { eapply wpp_bind, wpp_conseq; [by apply setreply_quiet|]. cbv beta. intros _ s2 Q.
      apply wpp_bind, wpp_rdm; [done|]. vw_reads. rewrite (q_view _ _ Q). pm_step. pm_step.
      eapply wpp_conseq; [by apply setreply_quiet|]. cbv beta. intros _ s3 Q3. apply kept_quiet; [done|by etrans]. }
    destruct (cn =? PM_FORK_NB_REPLY); [apply wpp_ret; by apply kept_quiet|].
    destruct (cn =? PM_UNPAUSE_REPLY); [|solve_env]. pm_step. apply kept_quiet; [done|quiet_done].
  - cbv beta. intros _ s2 K. pose proof (fine_kept_r _ _ _ F1 K) as F2.
    apply wpp_bind, wpp_rdm; [done|]. rewrite is_live_view. apply wpp_when; intros Hl; [|done].
    eapply wpp_conseq; [apply restart_sigs_kept; [apply F2|done|done]|].
    cbv beta. intros _ s3. by apply (fine_kept_r s s2).
Qed.

(** ** Kernel signals *)

(** The invariant holds again; the current process may be another. *)
Definition turned (s s' : pm_state) : Prop := tinv s' /\ who_p s' = who_p s.

Lemma turned_trans s1 s2 s3 : turned s1 s2 -> turned s2 s3 -> turned s1 s3.
Proof. intros [A1 A2] [B1 B2]. split; [done|congruence]. Qed.

Lemma turned_fine s s' : fine s s' -> turned s s'.
Proof. intros [T G]. split; [done|by apply glob_who]. Qed.

Lemma turned_kept_r s1 s2 s3 : turned s1 s2 -> kept s2 s3 -> turned s1 s3.
Proof. intros F K. apply (turned_trans s1 s2); [done|]. apply turned_fine, fine_kept; [apply F|done]. Qed.

Lemma turned_calm_r s1 s2 s3 : turned s1 s2 -> calm s2 s3 -> turned s1 s3.
Proof. intros F K. apply (turned_trans s1 s2); [done|]. apply turned_fine, fine_calm; [apply F|done]. Qed.

(** Another process is the current one; the message and the caller are others. *)
Lemma tinv_views s s' : tinv s -> mproc_tab s' = mproc_tab s -> pm_timers s' = pm_timers s ->
  procs_in_use s' = procs_in_use s -> system_hz s' = system_hz s -> statics s' = statics s ->
  mslot (mp s') -> tinv s'.
Proof.
  intros [[P1 P2 [l [P3 P4 P5]] P6] HS Hz Hc Hd] E1 Q2 Q3 Q4 Q5 Hm.
  assert (Q1 : forall k, vw s' k = vw s k) by (intros k; by rewrite !vw_def, E1).
  destruct (statics_ok s s') as [Hc' Hd']; [done..|]. split; try done; [split|..]; try done.
  - by apply (vinv_ext (vw s)).
  - rewrite Q3, P2. apply (f_equal Z.of_nat), cnt_ext. intros n _. by rewrite Q1.
  - exists l. split; [by rewrite Q2|intros k; by rewrite Q1|intros k; rewrite Q1, Q2; auto].
  - intros p Hp. rewrite Q1. intros Hx. apply (settled_ext (vw s)); auto.
  - by rewrite Q4.
Qed.

(** The kernel names a process of the table when it reports a signal. *)
Definition ksig_names_user : Prop := forall m b h, m_type m = SYS_GETKSIG ->
  let a := answer (Sendrec SYSTEM m b :: h) in
  m2_i1 a = NONE \/ 0 <= _ENDPOINT_P (m2_i1 a) < NR_PROCS.

(** Two panics of [handle_ksig] itself. *)
Definition ksig_panic (w : string) : Prop :=
  env_panic w \/ w ∈ ["handle_ksig: bad process state"; "handle_ksig: multiple delay calls?"].

Lemma ksig_one_turned rmp pid map i s : tinv s -> mslot rmp ->
  wpp ksig_panic (ksig_one rmp pid map i) (fun _ s' => kept s s') s.
Proof.
  intros T Hr. pose proof (t_pinv _ T) as I. unfold ksig_one.
  destruct (negb _); [apply wpp_ret; by apply kept_quiet|].
  destruct (_ || _); [|].
  - eapply wpp_bind, wpp_mono; [by apply check_sig_kept|by left|]. cbv beta. intros _ s' K. by apply wpp_ret.
  - eapply wpp_bind, (wpp_conseq _ _ (fun _ s' => kept s s')).
    + apply wpp_when; intros Hv; [|by apply kept_quiet]. unfold check_vtimer, sys_vtimer.
      destruct (i =? SIGVTALRM); [|simpl in Hv; rewrite Hv];
        repeat pm_step; try (by apply kept_quiet); (apply kept_quiet; [done|quiet_done]).
    + cbv beta. intros _ s1 K. eapply wpp_bind, wpp_mono; [apply check_sig_kept, K|by left|].
      cbv beta. intros _ s2 K2. apply wpp_ret. by apply (kept_trans s s1).
Qed.

Lemma handle_ksig_turned ep map s : tinv s ->
  wpp ksig_panic (handle_ksig ep map) (fun _ s' => turned s s') s.
Proof.
  intros T. unfold handle_ksig. eapply wpp_bind, wpp_isokendpt. intros [r rmp] Hok. cbn [fst snd] in Hok.
  destruct (_ || _) eqn:E; [by apply wpp_ret|]. apply orb_false_iff in E as [E1%negb_false_iff%Z.eqb_eq E2].
  destruct (Hok E1) as [?|(Hr & Hu & _)]; [lia|].
  apply wpp_bind, wpp_rdm; [done|]. rewrite is_live_view. destruct (live s rmp) eqn:Hl; cbn [negb]; [|by apply wpp_ret].
  unfold wr_mp. do 3 (pm_step; pm_step). do 4 pm_step.
  match goal with |- wpp _ _ _ ?x => set (s1 := x) end.
  assert (F1 : turned s s1).
  { apply (turned_calm_r s (set_mp 0 s)); [|calm_done]. split; [|done]. by apply (tinv_views s). }
  assert (Hl1 : live s1 rmp = true).
  { unfold s1. rewrite <- Hl. f_equal. rewrite vw_upd. case_decide; [subst|]; by rewrite !vw_def. }
  clearbody s1. eapply wpp_bind, (wpp_for_each _ (fun _ s' => kept s1 s')).
  - apply kept_quiet; [apply F1|done].
  - intros i l s2 K _. pose proof (turned_kept_r _ _ _ F1 K) as F2.
    eapply wpp_conseq; [by apply ksig_one_turned; [apply F2|]|].
    cbv beta. intros _ s3. by apply (kept_trans s1 s2).
  - intros s2 K. pose proof (turned_kept_r _ _ _ F1 K) as F2. pm_step. pm_step. apply wpp_when; intros _; [|done].
    pm_step. pm_step. set (s3 := upd_m rmp _ s2). assert (Q : quiet s2 s3) by quiet_done. clearbody s3.
    assert (F3 : turned s s3) by (apply (turned_calm_r s s2); [done|by apply calm_quiet]).
    apply wpp_bind, wpp_mflag; [done|]. rewrite flag_any_lor. vw_reads.
    destruct (_ || _) eqn:Eb; [apply wpp_panic; right; set_solver|].
    apply orb_false_iff in Eb as [Hf _]. rewrite (q_view _ _ Q) in Hf.
    assert (Hl3 : live s3 rmp = true).
    { rewrite (quiet_live s2) by done. destruct (kept_alive s1 s2 rmp K Hr Hl1) as [?|[_ ?]]; [done|congruence]. }
    eapply wpp_bind, wpp_mono; [apply check_pending_kept; [apply F3|done|done]|by left|].
    cbv beta. intros _ s4 K4. pm_step. pm_step. destruct (flag_any _ _); [apply wpp_panic; right; set_solver|].
    apply wpp_ret. by apply (turned_kept_r s s3).
Qed.

Lemma ksig_round_turned s : ksig_names_user -> tinv s ->
  wpp ksig_panic ksig_round (fun _ s' => turned s s') s.
Proof.
  intros Hk T. unfold ksig_round, sys_getksig. pm_step. apply wpp_taskcall_ans. intros [r m] _ Em. cbn [fst snd] in *.
  match goal with |- wpp _ _ _ ?x => set (s1 := x) end.
  assert (F1 : turned s s1) by (apply turned_fine, fine_calm; [done|calm_done]).
  pose proof (Hk (set_m_type SYS_GETKSIG uninit) B_none (history s) eq_refl) as Hn. cbn zeta in Hn.
  rewrite <- Em in Hn. clear Em. clearbody s1.
  assert (Henv : forall w, bool_decide (env_panic w) = true -> ksig_panic w) by (intros w Hw; left; by apply env_panic_ok).
  destruct (negb _); [by apply wpp_panic, Henv|].
  destruct (Z.eqb_spec NONE (m2_i1 m)) as [|Hne]; [by apply wpp_ret|].
  destruct Hn as [?|Hn]; [congruence|].
  eapply wpp_bind, wpp_isokendpt_both. intros [r' n] En _. cbn [fst snd] in *. subst n.
  destruct (negb _); [by apply wpp_panic, Henv|].
  eapply wpp_bind, wpp_conseq; [apply handle_ksig_turned, F1|]. cbv beta. intros _ s2 F2.
  pose proof (turned_trans _ _ _ F1 F2) as F. unfold sys_endksig.
  repeat pm_step; try done; [by apply wpp_panic, Henv|].
  apply (turned_calm_r s s2); [done|calm_done].
Qed.

(** ** The table of calls *)

Section table.
Context (do_getsysinfo do_sprofile : PM Z).
Context (getsysinfo_ok : calm_call do_getsysinfo) (sprofile_ok : calm_call do_sprofile).
Context (vm_ok : vm_fork_ok).

(** What PM relies on in the calls that only the servers make. *)
Record server_ok (m : message) (s : pm_state) : Prop := mk_server_ok {
  so_newmem : m_type m = 100 -> names_user m;
  so_restart : m_type m = 102 -> rs_names_live m s }.

Lemma no_sys_calm : calm_call no_sys.
Proof. intros s T _. by apply wpp_ret. Qed.
Lemma do_cprofile_calm : calm_call do_cprofile.
Proof. intros s T _. by apply wpp_ret. Qed.

Lemma do_fork_fine : fine_call env_panic do_fork.
Proof. intros s T C. eapply wpp_conseq; [by apply do_fork_spec|]. cbv beta. by intros r s' [F _]. Qed.

#[local] Hint Resolve no_sys_calm do_cprofile_calm do_fork_fine do_fork_nb_fine : pm_calls.

Lemma call_vec_fine s : tinv s -> caller_ok s -> server_ok (m_in s) s ->
  wpp call_panic (call_vec do_getsysinfo do_sprofile (m_type (m_in s))) (fun _ s' => fine s s') s.
Proof.
  intros T C [S1 S2]. unfold call_vec. set (nr := m_type (m_in s)) in *.
  assert (S1' : Z.to_nat nr = 100%nat -> names_user (m_in s)) by (intros; apply S1; lia).
  assert (S2' : Z.to_nat nr = 102%nat -> rs_names_live (m_in s) s) by (intros; apply S2; lia).
  set (k := Z.to_nat nr) in *. clearbody k. clear S1 S2.
  assert (Hcalm : forall m : PM Z, calm_call m -> wpp call_panic m (fun _ s' => fine s s') s).
  { intros m Hm. eapply wpp_mono; [by apply (calm_fine m)|apply call_env|done]. }
  assert (Hfine : forall m : PM Z, fine_call env_panic m -> wpp call_panic m (fun _ s' => fine s s') s).
  { intros m Hm. eapply wpp_mono; [by apply Hm|apply call_env|done]. }
  assert (H100 : k = 100%nat -> wpp call_panic do_exec_newmem (fun _ s' => fine s s') s).
  { intros Ek. eapply wpp_mono; [apply do_exec_newmem_fine; auto|apply call_env|done]. }
  assert (H102 : k = 102%nat -> wpp call_panic do_execrestart (fun _ s' => fine s s') s).
  { intros Ek. eapply wpp_mono; [apply do_execrestart_fine; auto|apply call_env|done]. }
  repeat match goal with |- wpp _ (match ?n with O => _ | S _ => _ end) _ _ => destruct n as [|n] end;
  lazymatch goal with
  | |- wpp _ do_exec_newmem _ _ => exact (H100 eq_refl)
  | |- wpp _ do_execrestart _ _ => exact (H102 eq_refl)
  | |- wpp _ do_trace _ _ => by apply do_trace_fine
  | |- wpp _ do_reboot _ _ => by apply do_reboot_fine
  | |- wpp _ ?m _ _ => (apply (Hcalm m) + apply (Hfine m)); solve [auto 2 with pm_calls]
  end.
Qed.

End table.

End env.
