(* ===== verification/PmThms.v ===== *)
(** * The process manager: its start and its turns

    [sef_cb_init_fresh] on the boot image of the kernel builds a process table that
    satisfies the invariant, and the turns of the main loop keep it. *)
From S2P Require Import Prelude PList KMonad Timers Types Memory Sched KCalls Signals PrivCtl.
From S2P Require Import SysTask PmTypes PmLib PmSig PmCalls PmMain PmTurn PmView PmInv PmAlarm.
From S2P Require Import PmCalm PmSafe PmFork PmTurnSafe.

(** ** What PM finds *)

(** The table before: nothing is in use. *)
Definition v_zero : view := mk_view false false false false false false false 0 0 0 0.

Record blank (s : pm_state) : Prop := mk_blank {
  bl_view k : mslot k -> vw s k = v_zero;
  bl_queue : tq (pm_timers s) = None;
  bl_mp : mslot (mp s);
  bl_child : mslot (next_child s) /\ mslot (next_child_nb s);
  bl_pid : INIT_PID < next_pid s <= NR_PIDS }.

(** The slots of the user processes of an image. *)
Definition image_slots (l : list boot_image) : list Z :=
  List.filter (fun n => 0 <=? n) (bi_proc_nr <$> l).

(** Every slot at most once, with the endpoint of its first generation; the processes
    PM knows by number are there. *)
Record image_ok (l : list boot_image) : Prop := mk_image_ok {
  io_slot ip : ip ∈ l -> 0 <= bi_proc_nr ip -> mslot (bi_proc_nr ip) /\ bi_endpoint ip = bi_proc_nr ip;
  io_nodup : NoDup (image_slots l);
  io_init : INIT_PROC_NR ∈ image_slots l;
  io_fs : FS_PROC_NR ∈ image_slots l;
  io_rs : RS_PROC_NR ∈ image_slots l }.

Definition boot_parent (k : Z) : Z :=
  if k =? INIT_PROC_NR then INIT_PROC_NR else if k =? RS_PROC_NR then INIT_PROC_NR else RS_PROC_NR.

(** ** The loop *)

(** The processes of [l] are in the table. *)
Record booting (l : list Z) (s : pm_state) : Prop := mk_booting {
  bo_in k : mslot k -> k ∈ l -> vw s k = v_child (boot_parent k) NO_TRACER (v_pid (vw s k)) k;
  bo_out k : mslot k -> k ∉ l -> vw s k = v_zero;
  bo_init : INIT_PROC_NR ∈ l -> v_pid (vw s INIT_PROC_NR) = INIT_PID;
  bo_pid k : mslot k -> k ∈ l -> k <> INIT_PROC_NR -> INIT_PID < v_pid (vw s k) <= NR_PIDS;
  bo_inj k j : mslot k -> mslot j -> k ∈ l -> j ∈ l -> v_pid (vw s k) = v_pid (vw s j) -> k = j;
  bo_nodup : NoDup l;
  bo_slots k : k ∈ l -> mslot k;
  bo_count : procs_in_use s = Z.of_nat (length l);
  bo_queue : tq (pm_timers s) = None;
  bo_mp : mslot (mp s);
  bo_child : mslot (next_child s) /\ mslot (next_child_nb s);
  bo_next : INIT_PID < next_pid s <= NR_PIDS }.

Definition views_one (n : Z) (v : view) (s s' : pm_state) : Prop :=
  forall k, vw s' k = if decide (n = k) then v else vw s k.

Lemma views_one_refl n s : views_one n (vw s n) s s.
Proof. intros k. by case_decide; subst. Qed.

Lemma views_one_upd n f (g : view -> view) v s s1 : (forall p, view_of (f p) = g (view_of p)) ->
  views_one n v s s1 -> views_one n (g v) s (upd_m n f s1).
Proof.
  intros E O k. rewrite vw_upd, E, <- vw_def. pose proof (O n) as On. rewrite decide_True in On by done.
  rewrite On. case_decide as D; [done|]. by rewrite (O k), decide_False.
Qed.

(** One more process. *)
Lemma booting_add l n pid s s' : booting l s -> mslot n -> n ∉ l ->
  views_one n (v_child (boot_parent n) NO_TRACER pid n) s s' ->
  (n = INIT_PROC_NR -> pid = INIT_PID) ->
  (n <> INIT_PROC_NR -> INIT_PID < pid <= NR_PIDS /\ forall k, mslot k -> v_pid (vw s k) <> pid) ->
  procs_in_use s' = procs_in_use s + 1 -> tq (pm_timers s') = None -> mp s' = mp s ->
  next_child s' = next_child s -> next_child_nb s' = next_child_nb s -> INIT_PID < next_pid s' <= NR_PIDS ->
  booting (n :: l) s'.
Proof.
  intros [B1 B2 B3 B4 B5 Bn Bs B6 B7 B8 B9 B10] Hn Hl O Hi Hni Ec Eq Em Ech Ecn Hp.
  assert (En : vw s' n = v_child (boot_parent n) NO_TRACER pid n) by (rewrite O; by rewrite decide_True).
  assert (Ek : forall k, k <> n -> vw s' k = vw s k) by (intros k Hk; rewrite O; by rewrite decide_False).
  assert (Hfresh : forall k, mslot k -> k ∈ l -> v_pid (vw s k) <> pid).
  { intros k Hk Hkl. destruct (decide (n = INIT_PROC_NR)) as [->|Hne]; [|by apply (Hni Hne)].
    rewrite (Hi eq_refl). destruct (decide (k = INIT_PROC_NR)) as [->|Hki]; [by destruct Hl|].
    destruct (B4 k Hk Hkl Hki). lia. }
  split; try (congruence || done).
  - intros k Hk [->|Hkl]%elem_of_cons; [by rewrite En|]. rewrite Ek by (by intros ->). auto.
  - intros k Hk Hkl. rewrite Ek by set_solver. apply B2; set_solver.
  - intros [Ei|Hkl]%elem_of_cons; [rewrite Ei, En; by apply Hi|]. rewrite Ek by (intros Ei; by rewrite Ei in Hkl). auto.
  - intros k Hk [->|Hkl]%elem_of_cons Hki; [rewrite En; by apply Hni|]. rewrite Ek by (by intros ->). auto.
  - intros k j Hk Hj [->|Hkl]%elem_of_cons [->|Hjl]%elem_of_cons; try done;
      rewrite ?En, ?Ek by (by intros ->); simpl; intros E; [by destruct (Hfresh j)|by destruct (Hfresh k)|auto].
  - by constructor.
  - intros k [->|Hkl]%elem_of_cons; auto.
  - rewrite Ec, B6. simpl. lia.
Qed.

(** The kernel and FS do their part. *)
Definition init_panics : list string :=
  ["can't sync up with FS"; "get monitor params failed"; "get kernel info failed"; "couldn't get image table"].
Definition init_panic (w : string) : Prop := w ∈ init_panics.

Lemma booting_sent e l s : booting l s -> booting l (sent e s).
Proof. intros []. by split. Qed.

Section env.
Context `{PmEnv}.

(** The counters and the queue of timers with one process more. *)
Definition one_more (s s1 : pm_state) : Prop :=
  procs_in_use s1 = procs_in_use s + 1 /\ pm_timers s1 = pm_timers s /\ mp s1 = mp s /\
  next_child s1 = next_child s /\ next_child_nb s1 = next_child_nb s.

(** The entry of a process is complete when its endpoint is set. *)
Lemma booting_enter l n pid s s2 : booting l s -> mslot n -> n ∉ l -> one_more s s2 ->
  views_one n (set_v_used true (set_v_pid pid (set_v_parent (boot_parent n) v_zero))) s s2 ->
  INIT_PID < next_pid s2 <= NR_PIDS -> (n = INIT_PROC_NR -> pid = INIT_PID) ->
  (n <> INIT_PROC_NR -> INIT_PID < pid <= NR_PIDS /\ forall k, mslot k -> v_pid (vw s k) <> pid) ->
  booting (n :: l) (upd_m n (set_mp_endpoint n) s2).
Proof.
  intros B Hn Hl (G1 & G2 & G3 & G4 & G5) O2 G6 Hi Hni.
  apply (booting_add l n pid s); try done; [|by simpl; rewrite G2; apply B].
  change (v_child (boot_parent n) NO_TRACER pid n) with (set_v_ep n
    (set_v_used true (set_v_pid pid (set_v_parent (boot_parent n) v_zero)))).
  by apply (views_one_upd n _ (set_v_ep n)).
Qed.

(** INIT. *)
Lemma init_init l s s1 : booting l s -> mslot INIT_PROC_NR -> INIT_PROC_NR ∉ l -> one_more s s1 ->
  next_pid s1 = next_pid s -> views_one INIT_PROC_NR v_zero s s1 ->
  wpp init_panic
    (do! wrm INIT_PROC_NR (set_mp_parent INIT_PROC_NR);
     do! wrm INIT_PROC_NR (fun p => set_mp_procgrp INIT_PID (set_mp_pid INIT_PID p));
     wrm INIT_PROC_NR (or_flags IN_USE))
    (fun _ s2 => booting (INIT_PROC_NR :: l) (upd_m INIT_PROC_NR (set_mp_endpoint INIT_PROC_NR) s2)) s1.
Proof.
  intros B Hn Hl F Fp O1. repeat pm_step.
  apply (booting_enter l INIT_PROC_NR INIT_PID s); try done; [|by simpl; rewrite Fp; apply B].
  apply (views_one_upd _ _ (set_v_used true)); [intros p; unfold view_of, set_v_used; by flag_simpl|].
  apply (views_one_upd _ _ (set_v_pid INIT_PID)); [done|].
  by apply (views_one_upd _ _ (set_v_parent INIT_PROC_NR)).
Qed.

(** A system process. *)
Lemma init_system l n s s1 : booting l s -> mslot n -> n ∉ l -> n <> INIT_PROC_NR -> one_more s s1 ->
  next_pid s1 = next_pid s -> views_one n v_zero s s1 ->
  wpp init_panic
    (do! wrm n (set_mp_parent (if n =? RS_PROC_NR then INIT_PROC_NR else RS_PROC_NR));
     do pid <- get_free_pid;
     do! wrm n (set_mp_pid pid);
     do! wrm n (or_flags (Z.lor IN_USE PRIV_PROC));
     wrm n (fun p => fold_left (fun p sig => add_sig2mess sig p) mess_sigs p))
    (fun _ s2 => booting (n :: l) (upd_m n (set_mp_endpoint n) s2)) s1.
Proof.
  intros B Hn Hl Ei F Fp O1. pm_step. pm_step.
  replace (if n =? RS_PROC_NR then INIT_PROC_NR else RS_PROC_NR) with (boot_parent n)
    by (unfold boot_parent; by rewrite (proj2 (Z.eqb_neq _ _) Ei)).
  set (s2 := upd_m n _ s1).
  assert (O2 : views_one n (set_v_parent (boot_parent n) v_zero) s s2).
  { by apply (views_one_upd n _ (set_v_parent (boot_parent n))). }
  assert (Hnp : next_pid s2 = next_pid s) by exact Fp.
  eapply wpp_bind, wpp_conseq; [apply get_free_pid_spec; rewrite Hnp; apply B|].
  cbv beta. intros pid ? (-> & Hp & Hfree). repeat pm_step.
  apply (booting_enter l n pid s); try done.
  - match goal with |- views_one _ _ _ (upd_m n ?f ?s3) => change (views_one n
      ((fun v => v) (set_v_used true (set_v_pid pid (set_v_parent (boot_parent n) v_zero)))) s (upd_m n f s3)) end.
    apply views_one_upd; [done|].
    apply (views_one_upd n _ (set_v_used true)); [intros p; unfold view_of, set_v_used; by flag_simpl|].
    apply (views_one_upd n _ (set_v_pid pid)); [done|]. intros k. rewrite <- O2. by rewrite !vw_def.
  - intros _. split; [done|]. intros k Hk. destruct (decide (k = n)) as [->|Hkn].
    + rewrite (bo_out _ _ B n Hn Hl). simpl. unfold INIT_PID in *. lia.
    + pose proof (pid_taken_false _ _ k Hfree Hk) as Hne. pose proof (O2 k) as Ok.
      rewrite decide_False in Ok by done. by rewrite <- Ok.
Qed.

Lemma init_proc_booting mess ip l s : booting l s -> mslot (bi_proc_nr ip) -> bi_endpoint ip = bi_proc_nr ip ->
  bi_proc_nr ip ∉ l ->
  wpp init_panic (init_proc mess ip) (fun _ s' => booting (bi_proc_nr ip :: l) s') s.
Proof.
  intros B Hn He Hl. unfold init_proc. rewrite He. set (n := bi_proc_nr ip) in *.
  assert (E0 : (n <? 0) = false) by (unfold mslot in Hn; lia). rewrite E0. do 4 (pm_step; pm_step).
  match goal with |- wpp _ _ _ ?x => set (s1 := x) end.
  assert (O1 : views_one n v_zero s s1).
  { rewrite <- (bo_out _ _ B n Hn Hl). intros k. unfold s1. rewrite !vw_upd. case_decide; [|by rewrite !vw_def].
    subst k. rewrite !vw_def. simpl. rewrite !fn_lookup_insert. done. }
  assert (F : one_more s s1 /\ next_pid s1 = next_pid s) by done. destruct F as [F Fp]. clearbody s1.
  eapply wpp_bind, (wpp_conseq _ _ (fun _ s2 => booting (n :: l) (upd_m n (set_mp_endpoint n) s2))).
  - destruct (Z.eqb_spec n INIT_PROC_NR) as [Ei|Ei]; [rewrite Ei in *; by apply (init_init l s)|by apply (init_system l n s)].
  - cbv beta. intros _ s2 B2. repeat pm_step; [apply wpp_panic; set_solver|by apply booting_sent].
Qed.

(** The endpoint of a slot in its first generation. *)
Lemma endpoint_first k : mslot k -> _ENDPOINT_P k = k.
Proof.
  intros Hk. unfold mslot, NR_PROCS in Hk. unfold _ENDPOINT_P.
  unfold _ENDPOINT_GENERATION_SIZE, MAX_NR_TASKS, SELF in *. rewrite Z.rem_small; lia.
Qed.

(** The loop over the image. *)
Lemma init_image_booting image mess s : image_ok image -> booting [] s ->
  wpp init_panic (fold_each image mess init_proc) (fun _ s' => exists l, booting l s' /\
    forall k, k ∈ l <-> k ∈ image_slots image) s.
Proof.
  intros [I1 I2 _ _ _] B.
  apply (wpp_fold_each _ (fun _ rest s' => exists l before, image = before ++ rest /\ booting l s' /\
    forall k, k ∈ l <-> k ∈ image_slots before)).
  - exists [], []. done.
  - intros m ip rest s1 (l & before & -> & B1 & Hl) _.
    assert (Happ : forall rest', image_slots (before ++ ip :: rest') =
      image_slots before ++ (if 0 <=? bi_proc_nr ip then [bi_proc_nr ip] else []) ++ image_slots rest').
    { intros rest'. unfold image_slots. rewrite fmap_app, List.filter_app. f_equal. simpl.
      by destruct (0 <=? bi_proc_nr ip). }
    assert (Hnext : before ++ ip :: rest = (before ++ [ip]) ++ rest) by (by rewrite <- app_assoc).
    destruct (Z.leb_spec 0 (bi_proc_nr ip)) as [Hp|Hp].
    + destruct (I1 ip) as [Hs He]; [set_solver|done|].
      assert (Hnl : bi_proc_nr ip ∉ l).
      { rewrite Hl. rewrite Happ in I2. apply NoDup_app in I2 as (_ & Hd & _). intros Hin.
        apply (Hd _ Hin). set_solver. }
      eapply wpp_conseq; [by apply init_proc_booting|]. cbv beta. intros _ s2 B2.
      exists (bi_proc_nr ip :: l), (before ++ [ip]). split; [done|]. split; [done|].
      intros k. rewrite Happ. change (image_slots []) with (@nil Z). rewrite !elem_of_app, elem_of_cons, Hl. set_solver.
    + unfold init_proc. rewrite (proj2 (Z.ltb_lt _ _) Hp). apply wpp_ret.
      exists l, (before ++ [ip]). split; [done|]. split; [done|].
      intros k. rewrite Happ. simpl. by rewrite app_nil_r, Hl.
  - intros m s' (l & before & -> & B' & Hl). exists l. rewrite app_nil_r. done.
Qed.

(** The invariant, once every process of the image is in the table. *)
Lemma booting_tinv image l s : image_ok image -> booting l s -> (forall k, k ∈ l <-> k ∈ image_slots image) ->
  0 < system_hz s -> tinv s.
Proof.
  intros [_ _ J1 J2 J3] [B1 B2 B3 B4 B5 Bn Bs B6 B7 B8 B9 B10] Hl Hhz.
  apply Hl in J1, J2, J3.
  assert (Hu : forall k, mslot k -> used s k = true <-> k ∈ l).
  { intros k Hk. destruct (decide (k ∈ l)) as [Hin|Hin]; [by rewrite (B1 k Hk Hin)|].
    rewrite (B2 k Hk Hin). done. }
  assert (Hx : forall k, mslot k -> exiting s k = false).
  { intros k Hk. destruct (decide (k ∈ l)) as [Hin|Hin]; [by rewrite (B1 k Hk Hin)|by rewrite (B2 k Hk Hin)]. }
  assert (Hdep : forall k, k ∈ l -> depends_ok (vw s) k).
  { intros k Hk. split; [by apply Hu, Hk; apply Bs|]. rewrite Hx by (by apply Bs). done. }
  assert (Hpar : forall k, boot_parent k ∈ l /\ 0 < boot_parent k).
  { intros k. unfold boot_parent. by destruct (k =? _); [|destruct (k =? _)]. }
  assert (Hp : forall k, mslot k -> k ∈ l -> 0 < v_pid (vw s k) <= NR_PIDS).
  { intros k Hk Hin. destruct (decide (k = INIT_PROC_NR)) as [->|Hne]; [by rewrite B3|].
    destruct (B4 k Hk Hin Hne). unfold INIT_PID in *. lia. }
  split; try done.
  - split; try done.
    + split.
      * intros k Hk. destruct (decide (k ∈ l)) as [Hin|Hin]; [rewrite (B1 k Hk Hin); apply Bs, Hpar|by rewrite (B2 k Hk Hin)].
      * intros k Hk. destruct (decide (k ∈ l)) as [Hin|Hin]; [by rewrite (B1 k Hk Hin)|by rewrite (B2 k Hk Hin)].
      * intros k [->| ->]; [rewrite (B1 INIT_PROC_NR) by done|rewrite (B1 FS_PROC_NR) by done]; done.
      * intros k Hk Huk%Hu; [|done]. rewrite (B1 k Hk Huk). simpl. split; [apply Hpar|apply Hdep, Hpar].
      * intros k Hk Huk%Hu; [|done]. by rewrite (B1 k Hk Huk).
      * intros k Hk. destruct (decide (k ∈ l)) as [Hin|Hin]; [rewrite (B1 k Hk Hin)|rewrite (B2 k Hk Hin)]; by split.
      * intros k Hk Huk%Hu; [|done]. rewrite (B1 k Hk Huk). by apply endpoint_first.
      * intros k Hk Huk%Hu; [|done]. auto.
      * intros k j Hk Hj Huk%Hu Huj%Hu; auto.
    + rewrite B6. apply (f_equal Z.of_nat). symmetry. apply cnt_list; [done|]. intros k. split.
      * intros Hin. split; [by apply Bs|]. apply Hu; auto.
      * intros [Hk Huk]. by apply Hu.
    + exists []. split.
      * split; [exact B7|constructor|constructor].
      * intros k. split; [by intros ?%not_elem_of_nil|]. intros [Hk Ha].
        destruct (decide (k ∈ l)) as [Hin|Hin]; [by rewrite (B1 k Hk Hin) in Ha|by rewrite (B2 k Hk Hin) in Ha].
      * by intros k ?%not_elem_of_nil.
  - intros p Hps. by rewrite Hx.
Qed.

(** The frame of the first steps: only timers, signal sets and parameters change. *)
Lemma booting_views l s s' : booting l s -> (forall k, vw s' k = vw s k) -> procs_in_use s' = Z.of_nat (length l) ->
  tq (pm_timers s') = None -> mp s' = mp s -> statics s' = statics s -> booting l s'.
Proof.
  intros [B1 B2 B3 B4 B5 Bn Bs B6 B7 B8 B9 B10] Ev E2 E3 E4 E5.
  destruct (statics_ok s s') as [B9' B10']; [done..|]. split; try done; intros *; rewrite ?Ev, ?E4; auto.
Qed.

Lemma blank_booting s : blank s -> booting [] (set_procs_in_use 0 s).
Proof.
  intros [L1 L2 L3 L4 L5].
  assert (Ev : forall k, vw (set_procs_in_use 0 s) k = vw s k) by (intros k; by rewrite !vw_def).
  split; try done; try (intros; exfalso; eapply not_elem_of_nil; eassumption).
  - intros k Hk _. rewrite Ev. auto.
  - constructor.
Qed.

Lemma blank_init_timers s : blank s ->
  wpp init_panic (for_each all_mslots (fun n => modify (fun s => set_pm_timers (tmr_inittimer n (pm_timers s)) s)))
    (fun _ s' => blank s') s.
Proof.
  intros B. apply (wpp_for_each _ (fun _ s' => blank s')); [done| |done].
  intros n rest s1 [L1 L2 L3 L4 L5] _. apply wpp_modify. split; try done.
Qed.

Lemma sef_cb_init_fresh_tinv image s : image_ok image -> (forall h, in_image h = image) ->
  (forall h, 0 < u32 (in_word h)) -> blank s ->
  wpp init_panic sef_cb_init_fresh (fun r s' => r = OK /\ tinv s' /\
    (forall k, mslot k -> used s' k = true <-> k ∈ image_slots image)) s.
Proof.
  intros Him Himg Hhz B. unfold sef_cb_init_fresh, sys_getinfo.
  eapply wpp_bind, wpp_conseq; [by apply blank_init_timers|]. cbv beta. intros _ s1 B1.
  repeat (pm_step; try (apply wpp_panic; set_solver)).
  match goal with |- wpp _ (fold_each _ _ _) _ ?x => set (s2 := x) end.
  assert (B2 : booting [] s2).
  { apply (booting_views [] (set_procs_in_use 0 s1)); [by apply blank_booting|intros k; by rewrite !vw_def|done|apply B1|done|done]. }
  clearbody s2. rewrite Himg. eapply wpp_conseq; [by apply init_image_booting|].
  cbv beta. intros mess s3 (l & B3 & Hl). repeat (pm_step; try (apply wpp_panic; set_solver)).
  match goal with |- _ /\ tinv ?x /\ _ => set (s4 := x) end.
  assert (Ev : forall k, vw s4 k = vw s3 k).
  { intros k. transitivity (vw (upd_m PM_PROC_NR (set_mp_ignore (u32 (-1))) s3) k); [by rewrite !vw_def|].
    rewrite vw_upd. by case_decide; subst; rewrite ?vw_def. }
  assert (B4 : booting l s4) by (apply (booting_views l s3);
    [done|exact Ev|exact (bo_count _ _ B3)|exact (bo_queue _ _ B3)|done|done]).
  split; [done|]. split.
  - apply (booting_tinv image l); try done. unfold s4. simpl. destruct (r2 =? OK); [apply Hhz|done].
  - intros k Hk. rewrite <- Hl. destruct (decide (k ∈ l)) as [Hin|Hin].
    + rewrite (bo_in _ _ B4 k Hk Hin). done.
    + rewrite (bo_out _ _ B4 k Hk Hin). done.
Qed.

End env.

(** ** The process manager: turns and reachable states

    What a message may be ([msg_ok]), a turn of the main loop on it, notifications, and
    the states PM can be in ([pm_reach]). *)

Section env.
Context `{PmEnv}.

(** *** A message *)

(** What [get_work] leaves: the message, and its sender as the current process. *)
Record got (m : message) (s s' : pm_state) : Prop := mk_got {
  g_tinv : tinv s';
  g_tab : mproc_tab s' = mproc_tab s;
  g_msg : m_in s' = m;
  g_from : who_e s' = m_source m;
  g_nr : call_nr s' = m_type m;
  g_who : who_p s' = _ENDPOINT_P (m_source m);
  g_mp : mp s' = if _ENDPOINT_P (m_source m) <? 0 then PM_PROC_NR else _ENDPOINT_P (m_source m);
  g_used : 0 <= _ENDPOINT_P (m_source m) ->
    mslot (_ENDPOINT_P (m_source m)) /\ used s (_ENDPOINT_P (m_source m)) = true }.

Lemma get_work_got m s : tinv s -> wpp env_panic (get_work m) (fun _ s' => got m s s') s.
Proof.
  intros T. unfold get_work. do 2 (pm_step; pm_step). pm_step. set (s1 := set_who_e _ _).
  assert (Ev : forall k, vw s1 k = vw s k) by (intros k; by rewrite !vw_def).
  apply wpp_isokendpt_both. intros [r p] Ep Hok. cbn [fst snd] in *. pm_step. pm_step.
  destruct (Z.eqb_spec r OK) as [Er|]; cbn [negb]; [|solve_env]. do 2 (pm_step; pm_step).
  set (s2 := set_mp _ _).
  assert (Hu : 0 <= p -> mslot p /\ used s p = true /\ v_ep (vw s p) = m_source m).
  { intros Hp. destruct (Hok Er) as [?|(A & B & C)]; [lia|]. by rewrite <- !(Ev p). }
  assert (G : got m s s2).
  { split; rewrite <- ?Ep; try done.
    - apply (tinv_views s); try done. change (mslot (if p <? 0 then PM_PROC_NR else p)).
      destruct (Z.ltb_spec p 0) as [|Hp]; [done|]. by apply Hu.
    - intros Hp. by destruct (Hu Hp) as (? & ? & _). }
  apply wpp_when; intros Hp; [|done]. apply Z.leb_le in Hp. destruct (Hu Hp) as (Hm & _ & Ee).
  pm_step. pm_step. change (mp_endpoint (mproc_tab s2 p)) with (v_ep (vw s p)). rewrite Ee, Z.eqb_refl.
  by apply wpp_ret.
Qed.

(** Replies go out: nothing else changes. *)
Lemma send_pending_calm P s :
  wpp P (for_each all_mslots send_pending) (fun _ s' => calm s s') s.
Proof.
  apply (wpp_for_each _ (fun _ s' => calm s s')); [done| |done].
  intros n rest s1 C Hn%elem_of_mslots. unfold send_pending. repeat pm_step; calm_done.
Qed.

Section turn.
Context (do_getsysinfo do_sprofile : PM Z).

Section total.
Context (getsysinfo_ok : calm_call do_getsysinfo) (sprofile_ok : calm_call do_sprofile).
Context (vm_ok : vm_fork_ok).

(** A call of a user process or a server, or an answer of FS: what PM relies on. *)
Record msg_ok (s : pm_state) (m : message) : Prop := mk_msg_ok {
  mo_notify : is_notify (m_type m) = false;
  mo_slot : 0 < _ENDPOINT_P (m_source m);
  mo_idle : is_fs_reply (m_type m) = false -> v_fs (vw s (_ENDPOINT_P (m_source m))) = false;
  mo_server : server_ok m s;
  mo_fs : is_fs_reply (m_type m) = true -> fs_reply_ok m s }.

Lemma pm_work_fine fuel m s s1 : got m s s1 -> msg_ok s m -> live s (_ENDPOINT_P (m_source m)) = true ->
  wpp call_panic (pm_work do_getsysinfo do_sprofile fuel) (fun _ s' => fine s1 s') s1.
Proof.
  intros G [M1 M2 M3 M4 M5] Hl. pose proof (g_tinv _ _ _ G) as T.
  assert (Ev : forall k, vw s1 k = vw s k) by (intros k; by rewrite !vw_def, (g_tab _ _ _ G)).
  unfold pm_work, min. do 3 (pm_step; pm_step). rewrite (g_nr _ _ _ G), M1.
  destruct (is_fs_reply (m_type m)) eqn:Ef.
  - destruct (_ =? FS_PROC_NR); [|by apply wpp_ret].
    eapply wpp_bind, wpp_mono; [apply handle_fs_reply_fine; [done|..]|apply call_env|].
    + by rewrite (g_nr _ _ _ G), (g_msg _ _ _ G).
    + rewrite (g_msg _ _ _ G). unfold fs_reply_ok. rewrite !Ev. by apply M5.
    + cbv beta. intros _ s2 F. by apply wpp_ret.
  - destruct (_ <=? _); [by apply wpp_ret|]. rewrite <- (g_msg _ _ _ G). apply call_vec_fine; try done.
    + assert (Em : mp s1 = _ENDPOINT_P (m_source m)).
      { rewrite (g_mp _ _ _ G). destruct (Z.ltb_spec (_ENDPOINT_P (m_source m)) 0); [lia|done]. }
      split; rewrite ?Em, ?Ev; auto. exact (g_who _ _ _ G).
    + rewrite (g_msg _ _ _ G). destruct M4 as [S1 S2]. split; [done|]. unfold rs_names_live. by rewrite Ev.
Qed.

Lemma pm_turn_tinv fuel m s : tinv s -> msg_ok s m ->
  wpp call_panic (pm_turn do_getsysinfo do_sprofile fuel m) (fun _ s' => tinv s') s.
Proof.
  intros T M. unfold pm_turn. eapply wpp_bind, wpp_mono; [by apply get_work_got|apply call_env|].
  cbv beta. intros _ s1 G. pose proof (g_tinv _ _ _ G) as T1. pose proof (tinv_mp _ T1) as Hm1.
  pose proof (mo_slot _ _ M) as Hp. set (p := _ENDPOINT_P (m_source m)) in *.
  destruct (g_used _ _ _ G) as [Hps Hu]; [lia|]. fold p in Hps, Hu.
  assert (Em : mp s1 = p).
  { rewrite (g_mp _ _ _ G). fold p. destruct (Z.ltb_spec p 0); [lia|done]. }
  unfold rd_mp. do 2 pm_step. pm_step. rewrite Em. pm_step.
  change (flag_any (mp_flags (mproc_tab s1 p)) EXITING) with (exiting s1 p).
  destruct (exiting s1 p) eqn:Ex; [by apply wpp_ret|].
  assert (Hl : live s p = true).
  { apply v_live_iff. split; [done|]. rewrite <- Ex, !vw_def, (g_tab _ _ _ G). done. }
  eapply wpp_bind, wpp_conseq; [by apply (pm_work_fine fuel m s)|]. cbv beta. intros r s2 F.
  pm_step. pm_step. pose proof (glob_who _ _ (proj2 F)) as Hw. rewrite (g_who _ _ _ G) in Hw.
  fold p in Hw. rewrite Hw.
  eapply wpp_bind, (wpp_conseq _ _ (fun _ s' => fine s1 s')).
  { apply wpp_when; intros _; [|done]. eapply wpp_conseq; [by apply setreply_quiet|].
    cbv beta. intros _ s3. by apply (fine_quiet_r s1 s2). }
  cbv beta. intros _ s3 F3. eapply wpp_conseq; [apply send_pending_calm|]. cbv beta. intros _ s4 C.
  apply (fine_calm_r s1 s3); done.
Qed.

End total.
(** *** Notifications *)

Lemma bind_done_inv {S A B} (m : M S A) (f : A -> M S B) s b s' : bind m f s = Done b s' ->
  exists a s1, m s = Done a s1 /\ f a s1 = Done b s'.
Proof. unfold bind. destruct (m s) as [a s1| |]; [|done..]. eauto. Qed.

Lemma gets_bind_done {S A B} (f : S -> A) (g : A -> M S B) s b s' :
  bind (gets f) g s = Done b s' -> g (f s) s = Done b s'.
Proof. done. Qed.

Lemma bind_ret_done {S A B} (m : M S A) (b : B) s r s' :
  bind m (fun _ => ret b) s = Done r s' -> exists a, m s = Done a s'.
Proof. intros (a & s1 & E & E')%bind_done_inv. injection E' as _ <-. eauto. Qed.

Lemma tinv_expiring v s : tinv s -> tinv (set_pm_expiring v s).
Proof. intros T. apply (tinv_views s); try done. exact (tinv_mp _ T). Qed.

Lemma pm_expire_keeps now s a s' : tinv s -> pm_expire_timers now s = Done a s' -> tinv s'.
Proof.
  intros T. unfold pm_expire_timers, pm_expire_timers_with. intros E.
  change (bind (tmrs_exptimers pm_timers set_pm_timers pm_run PM_TIMER_FUEL now) (fun _ =>
    do next_time <- gets (fun s => head_time (pm_timers s));
    do! modify (set_pm_expiring 0);
    when (0 <? next_time)
      (do r <- sys_setalarm next_time 1;
       if negb (r =? OK) then panic "PM expire timer couldn't set alarm." else ret tt))
    (set_pm_expiring 1 s) = Done a s') in E.
  apply bind_done_inv in E as ([] & s2 & Ew & E).
  assert (T2 : tinv s2).
  { apply (while_inv env_panic tinv (exp_one pm_timers set_pm_timers pm_run now)) with (fuel := PM_TIMER_FUEL)
      (s := set_pm_expiring 1 s); [|by apply tinv_expiring|exact Ew].
    intros s0 T0. eapply wpp_conseq; [by apply exp_one_fine|]. cbv beta. by intros _ s3 []. }
  clear Ew. eapply (wpp_elim env_panic _ (fun _ s' => tinv s')); [|exact E]. unfold sys_setalarm.
  do 2 (pm_step; pm_step). apply tinv_expiring with (v := 0) in T2. repeat (pm_step; try solve_env); [|done].
  match goal with |- tinv (sent ?e ?s0) => apply (fine_calm s0 (sent e s0)); [done|calm_done] end.
Qed.

Lemma ksig_pending_keeps fuel s a s' : ksig_names_user -> tinv s -> ksig_pending fuel s = Done a s' -> tinv s'.
Proof.
  intros Hk T ([] & Ew)%bind_ret_done.
  apply (while_inv ksig_panic tinv ksig_round) with (fuel := fuel) (s := s); [|done|exact Ew].
  intros s0 T0. eapply wpp_conseq; [by apply ksig_round_turned|]. cbv beta. by intros _ s3 [].
Qed.

(** After the call: the reply of the caller and the replies that are due. *)
Lemma pm_reply_keeps who r s a s' : tinv s ->
  (do! when (negb (r =? SUSPEND)) (setreply who r); for_each all_mslots send_pending) s = Done a s' -> tinv s'.
Proof.
  intros T E. apply bind_done_inv in E as ([] & s1 & E1 & E2).
  assert (T1 : tinv s1).
  { destruct (negb _); simpl in E1; [|by injection E1; intros; subst]. unfold setreply in E1.
    destruct (_ || _) eqn:Eb; [done|].
    assert (Hw : mslot who) by (unfold mslot; lia).
    apply (fine_quiet_r s s); [by apply fine_refl|].
    apply (wpp_elim (fun _ => True) (setreply who r) (fun _ s' => quiet s s') s tt s1); [by apply setreply_quiet|].
    unfold setreply. by rewrite Eb. }
  apply (fine_calm s1 s'); [done|]. apply (wpp_elim (fun _ => True) _ (fun _ s' => calm s1 s') s1 a s' (send_pending_calm _ s1) E2).
Qed.

Lemma pm_notify_keeps fuel m s a s' : ksig_names_user -> is_notify (m_type m) = true -> tinv s ->
  pm_turn do_getsysinfo do_sprofile fuel m s = Done a s' -> tinv s'.
Proof.
  intros Hk Hn T (? & s1 & E1 & E)%bind_done_inv.
  assert (G : got m s s1) by exact (wpp_elim env_panic _ (fun _ s' => got m s s') s _ s1 (get_work_got m s T) E1). pose proof (g_tinv _ _ _ G) as T1.
  apply bind_done_inv in E as (dying & s2 & E2 & E). assert (s2 = s1) as ->.
  { eapply (wpp_elim env_panic _ (fun _ s' => s' = s1)); [|exact E2]. unfold rd_mp.
    pose proof (tinv_mp _ T1). by repeat pm_step. }
  destruct dying; [by injection E; intros; subst|]. apply bind_done_inv in E as (r & s3 & E3 & E).
  apply gets_bind_done in E. apply (pm_reply_keeps (who_p s3) r s3 a s'); [|exact E]. clear E E1 E2.
  unfold pm_work, min in E3. do 3 apply gets_bind_done in E3.
  rewrite (g_nr _ _ _ G), Hn in E3. destruct (_ =? CLOCK).
  { apply gets_bind_done, bind_ret_done in E3 as [? E3]. by apply pm_expire_keeps in E3. }
  destruct (_ =? SYSTEM); [|by injection E3; intros; subst].
  apply gets_bind_done, bind_ret_done in E3 as [? E3].
  destruct (sigismember _ _); [|by injection E3; intros; subst].
  apply bind_ret_done in E3 as [? E3]. by apply ksig_pending_keeps in E3.
Qed.

(** *** The life of PM *)

(** The states PM is in between two turns. *)
Inductive pm_reach : pm_state -> Prop :=
  | reach_boot s0 r s : blank s0 -> sef_cb_init_fresh s0 = Done r s -> pm_reach s
  | reach_turn s fuel m s' : pm_reach s -> is_notify (m_type m) = true \/ msg_ok s m ->
      pm_turn do_getsysinfo do_sprofile fuel m s = Done tt s' -> pm_reach s'.

End turn.

End env.
