(* ===== verification/PmData.v ===== *)
(** * The process manager: status words, times, the selection of [kill]

    The word [waitpid] returns (include/sys/wait.h takes it apart), and the conversions
    between ticks and struct timeval (servers/pm/alarm.c). *)
From S2P Require Import Prelude PList KMonad Timers Types KCalls SysTask PmTypes PmLib PmSig PmCalls.
From S2P Require Import PmView PmInv.

(** ** include/sys/wait.h *)

Definition _LOW (v : Z) : Z := Z.land v 0xFF.
Definition _HIGH (v : Z) : Z := Z.land (Z.shiftr v 8) 0xFF.
Definition WIFEXITED (s : Z) : bool := _LOW s =? 0.
Definition WEXITSTATUS (s : Z) : Z := _HIGH s.
Definition WTERMSIG (s : Z) : Z := Z.land (_LOW s) 0x7F.
Definition WIFSIGNALED (s : Z) : bool := Z.land (u32 (u32 s - 1)) 0xFFFF <? 0xFF.
Definition WIFSTOPPED (s : Z) : bool := _LOW s =? 0x7F.
Definition WSTOPSIG (s : Z) : Z := Z.land (_HIGH s) 0xFF.

(** The word of a process that was stopped by a signal ([stop_proc], [do_waitpid]). *)
Definition stop_word (sig : Z) : Z := Z.lor 127 (Z.shiftl sig 8).

Lemma land_ff x : Z.land x 0xFF = x mod 256.
Proof. change 0xFF with (Z.ones 8). rewrite Z.land_ones by lia. done. Qed.
Lemma land_7f x : Z.land x 0x7F = x mod 128.
Proof. change 0x7F with (Z.ones 7). rewrite Z.land_ones by lia. done. Qed.
Lemma land_ffff x : Z.land x 0xFFFF = x mod 65536.
Proof. change 0xFFFF with (Z.ones 16). rewrite Z.land_ones by lia. done. Qed.

(** Two bytes of a word. *)
Lemma word_add hi lo : 0 <= lo < 256 -> Z.lor (Z.shiftl hi 8) lo = hi * 256 + lo.
Proof.
  intros Hlo. assert (E : Z.land (Z.shiftl hi 8) lo = 0).
  { apply Z.bits_inj'. intros n Hn. rewrite Z.land_spec, Z.bits_0.
    destruct (Z.ltb_spec n 8).
    - by rewrite Z.shiftl_spec_low by lia.
    - rewrite (Z.bits_above_log2 lo n); [by rewrite andb_false_r|lia|].
      destruct (decide (lo = 0)) as [->|]; [simpl; lia|]. apply Z.log2_lt_pow2; [lia|].
      apply Z.lt_le_trans with (2 ^ 8); [simpl; lia|]. apply Z.pow_le_mono_r; lia. }
  rewrite <- Z.lxor_lor by done. rewrite <- Z.add_nocarry_lxor by done.
  by rewrite Z.shiftl_mul_pow2 by lia.
Qed.

(** The bytes of [hi * 256 + lo], whatever the sign of [hi]. *)
Lemma word_bytes hi lo : 0 <= lo < 256 ->
  _LOW (hi * 256 + lo) = lo /\ _HIGH (hi * 256 + lo) = hi mod 256 /\
  WIFSIGNALED (hi * 256 + lo) = bool_decide (hi mod 256 = 0 /\ 0 < lo).
Proof.
  intros Hlo. unfold _LOW, _HIGH, WIFSIGNALED. rewrite !land_ff, land_ffff. split_all.
  - Z.div_mod_to_equations. lia.
  - rewrite Z.shiftr_div_pow2 by lia. change (2 ^ 8) with 256. Z.div_mod_to_equations. lia.
  - assert (E : u32 (u32 (hi * 256 + lo) - 1) mod 65536 = (hi * 256 + lo - 1) mod 65536).
    { unfold u32, u_wrap. change (2 ^ 32) with 4294967296. Z.div_mod_to_equations. lia. }
    rewrite E. apply eq_bool_prop_intro. rewrite Is_true_true, Z.ltb_lt, bool_decide_spec.
    split; Z.div_mod_to_equations; lia.
Qed.

Lemma exit_word_bytes p : exit_word p = mp_exitstatus p * 256 + mp_sigstatus p mod 256.
Proof. unfold exit_word. rewrite land_ff, word_add; [done|]. apply Z.mod_pos_bound. lia. Qed.

Lemma i8_mod x : i8 x mod 256 = x mod 256.
Proof. unfold i8, s_wrap. simpl. Z.div_mod_to_equations. lia. Qed.

(** A process that called [exit(st)]. *)
Definition exited_word (st : Z) (p : mproc) : Prop := mp_exitstatus p = i8 st /\ mp_sigstatus p = 0.
(** A process that signal [sig] ended, perhaps with a core dump. *)
Definition killed_word (sig : Z) (p : mproc) : Prop :=
  mp_exitstatus p = 0 /\ (mp_sigstatus p = i8 sig \/ mp_sigstatus p = i8 (Z.lor (i8 sig) DUMPED)).

Lemma exited_decoded st p : exited_word st p ->
  let w := exit_word p in
  WIFEXITED w = true /\ WEXITSTATUS w = st mod 256 /\ WIFSIGNALED w = false /\ WIFSTOPPED w = false.
Proof.
  intros [E1 E2] w. unfold w. rewrite exit_word_bytes, E1, E2. change (0 mod 256) with 0.
  destruct (word_bytes (i8 st) 0) as (L & Hi & S); [lia|]. unfold WIFEXITED, WEXITSTATUS, WIFSTOPPED.
  rewrite L, Hi, S, i8_mod. split_all; try done. apply bool_decide_eq_false. lia.
Qed.

Lemma killed_decoded sig p : 0 < sig < _NSIG -> killed_word sig p ->
  let w := exit_word p in
  WIFEXITED w = false /\ WIFSIGNALED w = true /\ WTERMSIG w = sig.
Proof.
  intros Hs [E1 E2] w. unfold w. rewrite exit_word_bytes, E1. unfold _NSIG in Hs.
  assert (Hlo : mp_sigstatus p mod 256 = sig \/ mp_sigstatus p mod 256 = sig + 128).
  { destruct E2 as [->| ->]; rewrite i8_mod; [left; apply Z.mod_small; lia|right].
    rewrite i8_id by lia. assert (C : sig ∈ seqZ 1 25) by (apply elem_of_seqZ; lia).
    vm_compute in C. repeat (apply elem_of_cons in C as [->|C]; [done|]). by apply not_elem_of_nil in C. }
  set (lo := mp_sigstatus p mod 256) in *. clearbody lo.
  destruct (word_bytes 0 lo) as (L & Hi & S); [lia|]. unfold WIFEXITED, WTERMSIG. rewrite L, S, land_7f.
  change (0 mod 256) with 0. split_all.
  - apply Z.eqb_neq. lia.
  - apply bool_decide_eq_true. lia.
  - destruct Hlo as [->| ->]; Z.div_mod_to_equations; lia.
Qed.

Lemma stopped_decoded sig : 0 < sig < _NSIG ->
  let w := stop_word sig in WIFSTOPPED w = true /\ WSTOPSIG w = sig /\ WIFEXITED w = false /\ WIFSIGNALED w = false.
Proof.
  intros Hs w. unfold w, stop_word. rewrite Z.lor_comm, word_add by lia. unfold _NSIG in Hs.
  destruct (word_bytes sig 127) as (L & Hi & S); [lia|]. unfold WIFSTOPPED, WSTOPSIG, WIFEXITED.
  rewrite L, Hi, S, land_ff. split_all; try done.
  - rewrite Z.mod_mod by lia. apply Z.mod_small. lia.
  - apply bool_decide_eq_false. rewrite Z.mod_small by lia. lia.
Qed.

(** ** Ticks and struct timeval *)

(** The frequencies for which the products of alarm.c fit in 32 bits. *)
Definition hz_ok (hz : Z) : Prop := 1 <= hz <= 4293.

Definition sane (hz : Z) (tv : timeval) : Prop :=
  0 <= tv_sec tv <= LONG_MAX / hz /\ 0 <= tv_usec tv < US.

(** The number of ticks, a started one counted in full, and at most [LONG_MAX]. *)
Lemma ticks_of_exact hz tv : hz_ok hz -> sane hz tv ->
  ticks_of hz tv = Z.min LONG_MAX (hz * tv_sec tv + (hz * tv_usec tv + (US - 1)) / US).
Proof.
  intros Hh [Hs Hu]. unfold hz_ok, US, LONG_MAX in *. unfold ticks_of.
  set (sec := tv_sec tv) in *. set (usec := tv_usec tv) in *. clearbody sec usec.
  assert (Hp : 0 <= hz * sec <= 2147483647).
  { split; [nia|]. pose proof (Z.mul_div_le 2147483647 hz). nia. }
  assert (Hsec : 0 <= sec <= 2147483647) by nia.
  rewrite (u32_id sec), (u32_id usec), (u32_id (hz * sec)), (i32_id (hz * sec)), (u32_id (hz * sec)) by lia.
  rewrite (Z.mul_comm hz sec), Z.div_mul, Z.eqb_refl by lia. cbn [negb].
  assert (Hq : 0 <= hz * usec <= 4293 * 999999) by nia. unfold US, LONG_MAX.
  rewrite (u32_id (hz * usec)), (u32_id (hz * usec + _)) by lia.
  set (c := (hz * usec + (1000000 - 1)) / 1000000).
  assert (Hc : 0 <= c <= 4294) by (unfold c; Z.div_mod_to_equations; lia). clearbody c.
  rewrite (i32_id c) by lia. set (n := sec * hz) in *.
  destruct (Z.leb_spec (n + c) 2147483647).
  - rewrite i32_id by lia. destruct (Z.ltb_spec (n + c) 0); lia.
  - assert (E : i32 (n + c) = n + c - 4294967296).
    { unfold i32, s_wrap. simpl. Z.div_mod_to_equations. lia. }
    rewrite E. destruct (Z.ltb_spec (n + c - 4294967296) 0); lia.
Qed.

Lemma ceil_back hz r : hz_ok hz -> 0 <= r < hz -> (hz * (r * US / hz) + (US - 1)) / US = r.
Proof.
  unfold hz_ok, US. intros Hh Hr. set (q := r * 1000000 / hz).
  assert (Hq : hz * q <= r * 1000000 < hz * q + hz).
  { unfold q. pose proof (Z.mul_div_le (r * 1000000) hz). pose proof (Z.mul_succ_div_gt (r * 1000000) hz). lia. }
  clearbody q. set (p := hz * q) in *. clearbody p. Z.div_mod_to_equations. lia.
Qed.

(** No tick is lost on the way to a struct timeval and back. *)
Lemma ticks_timeval hz t : hz_ok hz -> 0 <= t <= LONG_MAX ->
  sane hz (timeval_of hz t) /\ ticks_of hz (timeval_of hz t) = t.
Proof.
  intros Hh Ht. pose proof Hh as Hh'. unfold hz_ok in Hh'. unfold LONG_MAX in Ht.
  assert (Hm : 0 <= t mod hz < hz) by (apply Z.mod_pos_bound; lia).
  assert (Hd : 0 <= t / hz <= t).
  { split; [apply Z.div_pos; lia|]. apply Z.div_le_upper_bound; nia. }
  assert (Hq : 0 <= t mod hz * US / hz < US).
  { unfold US. split; [apply Z.div_pos; nia|]. apply Z.div_lt_upper_bound; nia. }
  assert (E : timeval_of hz t = mk_timeval (t / hz) (t mod hz * US / hz)).
  { unfold timeval_of. rewrite (u32_id t) by lia. unfold US in *. rewrite (u32_id (t mod hz * _)) by nia.
    rewrite !i32_id by lia. done. }
  rewrite E. assert (S : sane hz (mk_timeval (t / hz) (t mod hz * US / hz))).
  { split; simpl; [|done]. split; [lia|]. apply Z.div_le_mono; unfold LONG_MAX; lia. }
  split; [done|]. rewrite ticks_of_exact by done. simpl. rewrite ceil_back by done.
  pose proof (Z.div_mod t hz). unfold LONG_MAX. lia.
Qed.

(** ** The process manager: who may signal whom

    The loop of [check_sig] when no signal is delivered: what it counts and what it
    returns. *)

(** The processes a [kill] is for, and those the caller may signal. *)
Definition selected (s : pm_state) (pid sig n : Z) : bool :=
  sig_selects (mproc_tab s (mp s)) (mproc_tab s n) pid sig.
Definition reached (s : pm_state) (pid sig n : Z) : bool :=
  selected s pid sig n && sig_allowed (mproc_tab s (mp s)) (mproc_tab s n).

Section env.
Context `{PmEnv}.

Lemma check_sig_loop pid sig s l c e : mslot (mp s) -> (forall n, n ∈ l -> mslot n) ->
  (forall n, n ∈ l -> reached s pid sig n = true -> sig = 0 \/ flag_any (mp_flags (mproc_tab s n)) EXITING = true) ->
  fold_exit l (c, e) (check_sig_one exit_proc pid sig) s =
  Done (inl (c + Z.of_nat (length (List.filter (reached s pid sig) l)),
             if existsb (fun n => selected s pid sig n && negb (reached s pid sig n)) l then EPERM else e)) s.
Proof.
  intros Hm. revert c e. induction l as [|n l IH]; intros c e Hl Hr; simpl; [by rewrite Z.add_0_r|].
  assert (Hn : mslot n) by (apply Hl; set_solver).
  assert (IH' : forall c e, fold_exit l (c, e) (check_sig_one exit_proc pid sig) s =
    Done (inl (c + Z.of_nat (length (List.filter (reached s pid sig) l)),
             if existsb (fun n => selected s pid sig n && negb (reached s pid sig n)) l then EPERM else e)) s).
  { intros c' e'. apply IH; intros; [apply Hl|apply Hr]; set_solver. }
  clear IH. unfold bind at 1, check_sig_one, bind, gets, rdm. rewrite !decide_True by done.
  unfold reached, selected in *. unfold id.
  destruct (sig_selects _ _ _ _) eqn:Es; simpl; [|by rewrite IH'].
  destruct (sig_allowed _ _) eqn:Ea; simpl.
  - assert (Hc : (sig =? 0) || flag_any (mp_flags (mproc_tab s n)) EXITING = true).
    { destruct (Hr n) as [->| ->]; [set_solver|by rewrite Es, Ea|done|by rewrite orb_true_r]. }
    rewrite Hc. simpl. rewrite IH'. f_equal. f_equal. f_equal. lia.
  - rewrite IH'. f_equal. f_equal. f_equal. by destruct (existsb _ l).
Qed.

Lemma filter_nonempty {A} (f : A -> bool) l : (0 <? Z.of_nat (length (List.filter f l))) = existsb f l.
Proof.
  induction l as [|x l IH]; simpl; [done|]. destruct (f x); [|exact IH]. apply Z.ltb_lt. simpl length. lia.
Qed.

Lemma existsb_selected s pid sig l :
  existsb (reached s pid sig) l = false ->
  existsb (fun n => selected s pid sig n && negb (reached s pid sig n)) l = existsb (selected s pid sig) l.
Proof.
  induction l as [|n l IH]; simpl; [done|]. intros [E1 E2]%orb_false_iff. rewrite E1, IH by done. by rewrite andb_true_r.
Qed.

Lemma check_sig_nothing pid sig s : mslot (mp s) -> live s (mp s) = true ->
  0 <= sig < _NSIG -> (pid =? INIT_PID) && (sig =? SIGKILL) = false ->
  (forall n, mslot n -> reached s pid sig n = true -> sig = 0 \/ exiting s n = true) ->
  check_sig pid sig s =
  Done (if existsb (reached s pid sig) all_mslots then OK
        else if existsb (selected s pid sig) all_mslots then EPERM else ESRCH) s.
Proof.
  intros Hm Hl Hs Hi Hr. unfold check_sig, check_sig_with.
  destruct (_ || _) eqn:E; [lia|]. rewrite Hi. unfold bind at 1. rewrite check_sig_loop; try done.
  - unfold bind, gets, rdm. rewrite decide_True by done. rewrite is_live_view, Hl. cbn [negb].
    rewrite Z.add_0_l, filter_nonempty. destruct (existsb (reached s pid sig) all_mslots) eqn:Ex; [done|].
    by rewrite existsb_selected.
  - intros n Hn. by apply elem_of_mslots.
  - intros n Hn%elem_of_mslots. by apply Hr.
Qed.

End env.
