(* ===== verification/PmDemo.v ===== *)
(** * The process manager: a system that starts

    The boot image of kernel/table.c, an environment that does what it is asked, and
    runs of PM in it: concrete states for the theorems. *)
From S2P Require Import Prelude PList KMonad Timers Types Memory Sched KCalls Signals PrivCtl.
From S2P Require Import SysTask PmTypes PmLib PmSig PmCalls PmMain PmTurn PmView PmInv PmAlarm.
From S2P Require Import PmCalm PmSafe PmFork PmTurnSafe PmThms.

Definition MEM_PROC_NR : Z := 3.
Definition LOG_PROC_NR : Z := 4.
Definition DS_PROC_NR : Z := 6.
Definition MFS_PROC_NR : Z := 7.
Definition PFS_PROC_NR : Z := 9.

(** [image] of kernel/table.c: the fields PM reads; the endpoint is the one of the first
    generation, as [proc_init] assigns it. *)
Definition boot_entry (nr prio : Z) (name : string) : boot_image := mk_boot_image nr prio (chars name) nr.

Definition kernel_image : list boot_image :=
  [boot_entry IDLE 0 "idle"; boot_entry CLOCK TASK_Q "clock"; boot_entry SYSTEM TASK_Q "system";
   boot_entry HARDWARE TASK_Q "kernel"; boot_entry PM_PROC_NR 4 "pm"; boot_entry VFS_PROC_NR 5 "vfs";
   boot_entry RS_PROC_NR 4 "rs"; boot_entry MEM_PROC_NR 3 "memory"; boot_entry LOG_PROC_NR 2 "log";
   boot_entry TTY_PROC_NR 1 "tty"; boot_entry DS_PROC_NR 4 "ds"; boot_entry MFS_PROC_NR 5 "mfs";
   boot_entry VM_PROC_NR 2 "vm"; boot_entry PFS_PROC_NR 5 "pfs"; boot_entry INIT_PROC_NR USER_Q "init"].

Lemma kernel_image_slots : image_slots kernel_image = [0; 1; 2; 3; 4; 5; 6; 7; 8; 9; 10].
Proof. by vm_compute. Qed.

Lemma kernel_image_ok : image_ok kernel_image.
Proof.
  split.
  - intros ip Hip Hnr. unfold kernel_image in Hip.
    repeat (apply elem_of_cons in Hip as [->|Hip]; [done|]). by apply not_elem_of_nil in Hip.
  - rewrite kernel_image_slots. apply (bool_decide_eq_true_1 _). by vm_compute.
  - rewrite kernel_image_slots. apply (bool_decide_eq_true_1 _). by vm_compute.
  - rewrite kernel_image_slots. apply (bool_decide_eq_true_1 _). by vm_compute.
  - rewrite kernel_image_slots. apply (bool_decide_eq_true_1 _). by vm_compute.
Qed.

(** ** The environment and the first state *)

Definition msg0 : message := mk_message 0 0 0 0 0 0 0 0 0.

(** Every request is granted; VM gives the child of a fork the endpoint of its slot in
    the second generation; the kernel has no signals. *)
Definition demo_answer (h : list pm_event) : message :=
  match h with
  | Sendrec who m _ :: _ =>
      if (who =? VM_PROC_NR) && (m_type m =? VM_FORK) then set_m1_i3 (_ENDPOINT 1 (m1_i2 m)) msg0
      else if (who =? SYSTEM) && (m_type m =? SYS_GETKSIG) then set_m2_i1 NONE msg0
      else msg0
  | _ => msg0
  end.

#[export] Instance demo_env : PmEnv :=
  mk_PmEnv (fun _ => 0) demo_answer (fun _ => mk_sigaction 0 0 0)
    (fun _ => mk_itimerval (mk_timeval 0 0) (mk_timeval 0 0)) (fun _ => mk_ptrace_range 0 0 0 0)
    (fun _ => mk_exec_newmem 0 0 0 []) (fun _ => mk_sysgetenv 0 0 0 0) (fun _ => [])
    (fun _ => kernel_image) (fun _ => 60) msg0 (fun _ => 0x1000).

Lemma demo_vm_fork : vm_fork_ok.
Proof.
  intros m b h Hm Hs h' _ _. unfold h'. simpl. rewrite Hm. simpl.
  apply ENDPOINT_PG; [done|]. unfold mslot, NR_TASKS in *. lia.
Qed.

Lemma demo_ksig : ksig_names_user.
Proof. intros m b h Hm. left. simpl. by rewrite Hm. Qed.

Definition mproc0 : mproc :=
  mk_mproc 0 0 0 0 0 0 0 0 0 0 0 0 0 0 0 [] 0 0 0 0 0 0 0 (fun _ => mk_sigaction 0 0 0) 0 (fun _ => 0)
    0 0 0 msg0 0 [].

(** The static storage of PM. *)
Definition pm0 : pm_state :=
  mk_pm_state (fun _ => mproc0) 0 0 msg0 0 0 0 0 0 0 0 [] [] 0 0 (INIT_PID + 1)
    (mk_tstate (fun _ => mk_timer None 0 W_none 0) None) 0 [] [] [].

Lemma pm0_blank : blank pm0.
Proof. by split. Qed.

(** ** Runs *)

Definition ended {A} (m : PM A) (s : pm_state) : bool := match m s with Done _ _ => true | _ => false end.
Definition after {A} (m : PM A) (s : pm_state) : pm_state := match m s with Done _ s' => s' | _ => s end.

Lemma ended_done {A} (m : PM A) s : ended m s = true -> exists a, m s = Done a (after m s).
Proof. unfold ended, after. destruct (m s) as [a s'| |]; [eauto|done..]. Qed.

Lemma ended_elim {A} P (m : PM A) Q s : ended m s = true -> wpp P m Q s -> exists a, m s = Done a (after m s) /\ Q a (after m s).
Proof. intros [a E]%ended_done W. exists a. split; [done|]. by eapply wpp_elim. Qed.

(** PM has started. *)
Definition pm_booted : pm_state := after sef_cb_init_fresh pm0.

Lemma pm_booted_ended : ended sef_cb_init_fresh pm0 = true.
Proof. vm_compute. reflexivity. Qed.

Lemma pm_booted_tinv : tinv pm_booted.
Proof.
  destruct (ended_elim init_panic sef_cb_init_fresh (fun r s' => r = OK /\ tinv s' /\
    (forall k, mslot k -> used s' k = true <-> k ∈ image_slots kernel_image)) pm0 pm_booted_ended) as (_ & _ & _ & T & _).
  - apply sef_cb_init_fresh_tinv; [apply kernel_image_ok|done|done|apply pm0_blank].
  - exact T.
Qed.

(** ** Turns *)

(** A sufficient test of [msg_ok]: no call of a server, no end of an exec or a core dump. *)
Definition msg_okb (s : pm_state) (m : message) : bool :=
  negb (is_notify (m_type m)) && (0 <? _ENDPOINT_P (m_source m)) &&
  (is_fs_reply (m_type m) || negb (v_fs (vw s (_ENDPOINT_P (m_source m))))) &&
  negb (m_type m =? 100) && negb (m_type m =? 102) &&
  (negb (is_fs_reply (m_type m)) ||
   bool_decide (mslot (_ENDPOINT_P (m1_i1 m))) && negb (m_type m =? PM_EXEC_REPLY) &&
   negb (m_type m =? PM_CORE_REPLY)).

Lemma msg_okb_ok s m : msg_okb s m = true -> msg_ok s m.
Proof.
  unfold msg_okb. rewrite !andb_true_iff, !negb_true_iff. intros (((((H1 & H2) & H3) & H4) & H5) & H6).
  apply Z.ltb_lt in H2. apply Z.eqb_neq in H4, H5. split; try done.
  - intros Hf. rewrite Hf in H3. by apply negb_true_iff in H3.
  - intros Hf Hnr. rewrite Hf in H6. simpl in H6. rewrite !andb_true_iff, !negb_true_iff in H6.
    destruct H6 as [[H6 H7] H8]. apply bool_decide_eq_true in H6. apply Z.eqb_neq in H7, H8. by split_all.
Qed.

Section turns.
Context {P : PmEnv}.

Definition demo_turn (m : message) : PM unit := pm_turn no_sys no_sys 3 m.

Lemma demo_turn_tinv s m : vm_fork_ok -> tinv s -> msg_okb s m = true -> ended (demo_turn m) s = true -> tinv (after (demo_turn m) s).
Proof.
  intros V T M%msg_okb_ok E. destruct (ended_elim call_panic (demo_turn m) (fun _ s' => tinv s') s E) as (a & _ & T').
  - apply pm_turn_tinv; try done; apply no_sys_calm.
  - exact T'.
Qed.

(** A run of turns, and the check of each. *)
Fixpoint demo_run (l : list message) (s : pm_state) : pm_state :=
  match l with [] => s | m :: l' => demo_run l' (after (demo_turn m) s) end.
Fixpoint demo_check (l : list message) (s : pm_state) : bool :=
  match l with
  | [] => true
  | m :: l' => msg_okb s m && ended (demo_turn m) s && demo_check l' (after (demo_turn m) s)
  end.

Lemma demo_run_tinv l s : vm_fork_ok -> tinv s -> demo_check l s = true -> tinv (demo_run l s).
Proof.
  intros V. revert s. induction l as [|m l IH]; intros s T; simpl; [done|]. rewrite !andb_true_iff.
  intros [[H1 H2] H3]. apply IH; [by apply demo_turn_tinv|done].
Qed.
End turns.

(** INIT forks; FS answers: the child is process 11. *)
Definition call (src nr i1 i2 : Z) : message := set_m_source src (set_m_type nr (set_m1_i2 i2 (set_m1_i1 i1 msg0))).
Definition child_ep : Z := _ENDPOINT 1 11.
Definition fork_msgs : list message :=
  [call INIT_PROC_NR 2 0 0; call FS_PROC_NR PM_FORK_REPLY child_ep 0].
Definition pm_forked : pm_state := demo_run fork_msgs pm_booted.

Lemma pm_forked_check : demo_check fork_msgs pm_booted = true.
Proof. vm_compute. reflexivity. Qed.

Lemma pm_forked_tinv : tinv pm_forked.
Proof. apply demo_run_tinv; [apply demo_vm_fork|apply pm_booted_tinv|apply pm_forked_check]. Qed.
