(* ===== verification/PmProps.v ===== *)
(** * What PM guarantees

    The properties of the process manager, and runs of the system of PmDemo.v. *)
From S2P Require Import Prelude PList KMonad Timers Types KState Memory TimerIface Sched IpcInv.
From S2P Require Import SysLock KCalls Signals PrivCtl SysTask Check Demo PmTypes PmLib PmSig.
From S2P Require Import PmCalls PmMain PmTurn PmView PmInv PmAlarm PmCalm PmSafe PmFork.
From S2P Require Import PmTurnSafe PmThms PmData PmDemo.

(** ** The main loop *)

(** C9: a turn of the main loop on a call of a process, or an answer of FS, never goes
    wrong: no table is indexed out of its bounds, no loop runs on, and the invariant of
    the process table holds again.  PM stops only for a reason in [call_panic]. *)
Theorem pm_turn_safe `{PmEnv} do_getsysinfo do_sprofile fuel m s :
  calm_call do_getsysinfo -> calm_call do_sprofile -> vm_fork_ok -> tinv s -> msg_ok s m ->
  (exists s', pm_turn do_getsysinfo do_sprofile fuel m s = Done tt s' /\ tinv s') \/
  (exists w, pm_turn do_getsysinfo do_sprofile fuel m s = Panic w /\ call_panic w).
Proof.
  intros G S V T M. destruct (wpp_outcome _ _ _ _ (pm_turn_tinv _ _ G S V fuel m s T M))
    as [([] & s' & E & T')|?]; [left|right]; eauto.
Qed.

(** The child of INIT, process 11, asks for its pid. *)
Lemma pm_turn_safe_witness :
  (exists s', demo_turn (call child_ep 20 0 0) pm_forked = Done tt s' /\ tinv s') \/
  (exists w, demo_turn (call child_ep 20 0 0) pm_forked = Panic w /\ call_panic w).
Proof.
  unfold demo_turn. apply (pm_turn_safe no_sys no_sys 3 (call child_ep 20 0 0) pm_forked);
    [apply no_sys_calm|apply no_sys_calm|apply demo_vm_fork|apply pm_forked_tinv|].
  apply msg_okb_ok. vm_compute. reflexivity.
Defined.

(** C4: the invariant holds in every state PM can be in between two turns, from its
    start on the boot image: parents and tracers are processes that are there, nothing
    depends on a process that is dying, pids and endpoints identify processes, the
    number of processes is right, and the queue of timers is sorted and holds exactly
    the processes with an alarm. *)
Theorem pm_reach_tinv `{PmEnv} do_getsysinfo do_sprofile image s :
  image_ok image -> (forall h, in_image h = image) -> (forall h, 0 < u32 (in_word h)) ->
  calm_call do_getsysinfo -> calm_call do_sprofile -> vm_fork_ok -> ksig_names_user ->
  pm_reach do_getsysinfo do_sprofile s -> tinv s.
Proof.
  intros Him Hi Hw G S V K. induction 1 as [s0 r s B E|s fuel m s' _ IH M E].
  - destruct (wpp_elim _ _ _ _ _ _ (sef_cb_init_fresh_tinv image s0 Him Hi Hw B) E) as (_ & T & _). done.
  - destruct M as [Hn|M]; [by apply (pm_notify_keeps _ _ fuel m s tt s' K Hn IH E)|].
    exact (wpp_elim _ _ (fun _ s' => tinv s') _ _ _ (pm_turn_tinv _ _ G S V fuel m s IH M) E).
Qed.

Lemma pm_reach_tinv_witness : tinv pm_booted.
Proof.
  destruct (ended_done _ _ pm_booted_ended) as [r E].
  apply (pm_reach_tinv no_sys no_sys kernel_image); [apply kernel_image_ok|done|done|apply no_sys_calm|
    apply no_sys_calm|apply demo_vm_fork|apply demo_ksig|].
  apply (reach_boot no_sys no_sys pm0 r); [apply pm0_blank|exact E].
Defined.

(** ** Processes *)

(** C10: the end of a process ends.  [exit_proc] signals the parent, the processes traced
    and the group, which may kill further processes, whose ends do the same: the cascade
    ends, the invariant holds, processes only die (no parent or tracer changes except to
    INIT or to none), and the process is marked, FS has been told, and nothing depends
    on it any more. *)
Theorem exit_proc_settles `{PmEnv} rmp st dump s :
  pinv s -> mslot rmp -> live s rmp = true -> v_fs (vw s rmp) = false ->
  (exists s', exit_proc rmp st dump s = Done tt s' /\ pinv s' /\ vcasc None (vw s) (vw s') /\
     (rmp <> INIT_PROC_NR -> exiting s' rmp = true /\ v_fs (vw s' rmp) = true /\ settled (vw s') rmp)) \/
  (exists w, exit_proc rmp st dump s = Panic w /\ env_panic w).
Proof.
  intros I Hr Hl Hf.
  destruct (wpp_outcome _ _ _ _ (exit_proc_spec s rmp st dump I Hr Hl Hf (live_count_le s)))
    as [([] & s' & E & [I' C] & Hx)|?]; [left|by right].
  exists s'. split; [done|]. split; [done|]. destruct C as [C _]. split; [done|]. intros Hi. specialize (Hx Hi).
  split; [done|]. split; [by apply (ca_new _ _ _ C)|by apply (ca_settled _ _ _ C)].
Qed.

Lemma exit_proc_settles_witness :
  (exists s', exit_proc 11 3 false pm_forked = Done tt s' /\ pinv s' /\ vcasc None (vw pm_forked) (vw s') /\
     (11 <> INIT_PROC_NR -> exiting s' 11 = true /\ v_fs (vw s' 11) = true /\ settled (vw s') 11)) \/
  (exists w, exit_proc 11 3 false pm_forked = Panic w /\ env_panic w).
Proof.
  apply (exit_proc_settles 11 3 false pm_forked); [apply pm_forked_tinv|done|vm_compute; reflexivity..].
Defined.






(** C30: [get_free_pid] ends and finds a pid that is neither the pid of a process nor a
    process group, between [INIT_PID] + 1 and [NR_PIDS]; only [next_pid] changes. *)
Theorem get_free_pid_fresh s :
  INIT_PID < next_pid s <= NR_PIDS ->
  exists pid, get_free_pid s = Done pid (set_next_pid pid s) /\ INIT_PID < pid <= NR_PIDS /\
    forall n, mslot n -> mp_pid (mproc_tab s n) <> pid /\ mp_procgrp (mproc_tab s n) <> pid.
Proof.
  intros Hp. destruct (wpp_outcome _ _ _ _ (get_free_pid_spec (fun _ => False) s Hp))
    as [(pid & s' & E & -> & Hr & Hf)|(w & _ & [])].
  exists pid. split; [done|]. split; [done|]. intros n Hn. split; [by apply pid_taken_false|].
  intros Eg. enough (pid_taken pid s = true) by congruence. apply pid_taken_elem, elem_of_app. right.
  apply list_elem_of_fmap. exists n. split; [done|by apply elem_of_mslots].
Qed.

Lemma get_free_pid_fresh_witness :
  exists pid, get_free_pid pm_forked = Done pid (set_next_pid pid pm_forked) /\ INIT_PID < pid <= NR_PIDS /\
    forall n, mslot n -> mp_pid (mproc_tab pm_forked n) <> pid /\ mp_procgrp (mproc_tab pm_forked n) <> pid.
Proof. apply (get_free_pid_fresh pm_forked). split; [vm_compute; reflexivity|vm_compute; discriminate]. Defined.

(** ** Signals *)



(** ** What a parent is told *)

Lemma tell_parent_reply P child s : pinv s -> mslot child -> v_zombie (vw s child) = true ->
  wpp P (tell_parent child) (fun _ s' =>
    let r := mp_reply (mproc_tab s' (v_parent (vw s child))) in
    m2_i1 r = exit_word (mproc_tab s child) /\ m_type r = v_pid (vw s child)) s.
Proof.
  intros I Hc Hz. pose proof (pi_views _ I) as V. pose proof (vi_parent_slot _ V child Hc) as Hps.
  destruct (flags_dead _ (vi_flags _ V child Hc)) as (Hu & Hx & Ht & Ha); [by rewrite Hz|].
  destruct (vi_parent _ V child Hc Hu) as [Hp _].
  unfold tell_parent. apply wpp_bind, wpp_rdm; [done|]. vw_reads. set (p := v_parent (vw s child)) in *.
  destruct (Z.leb_spec p 0) as [?|_]; [lia|].
  apply wpp_bind, wpp_mflag; [done|]. vw_reads. rewrite Hz. cbn [negb].
  apply wpp_bind, wpp_mflag; [done|]. vw_reads. rewrite Ht.
  unfold setreply. assert (E : (p <? 0) || (NR_PROCS <=? p) = false) by (unfold mslot in Hps; lia).
  do 3 (pm_step; pm_step). rewrite E. repeat pm_step. clearbody p. clear - Hc Hps.
  change (v_pid (vw s child)) with (mp_pid (mproc_tab s child)).
  unfold upd_m. simpl. rewrite !fn_insert_case.
  repeat case_decide; simplify_eq; simpl; rewrite ?fn_lookup_insert; simpl;
    rewrite ?fn_insert_case; repeat case_decide; simplify_eq; by simpl.
Qed.

(** C22: the word a parent gets for a child, taken apart with the macros of sys/wait.h,
    says what happened: a child that called [exit] is WIFEXITED with the low 8 bits of
    its argument, one that a signal ended, with a core dump or not, is WIFSIGNALED with
    that signal; and the result is the pid of the child. *)
Theorem wait_status child s :
  pinv s -> mslot child -> v_zombie (vw s child) = true ->
  exists s', tell_parent child s = Done tt s' /\
    let r := mp_reply (mproc_tab s' (v_parent (vw s child))) in let w := m2_i1 r in
    m_type r = v_pid (vw s child) /\
    (forall st, exited_word st (mproc_tab s child) ->
       WIFEXITED w = true /\ WEXITSTATUS w = st mod 256 /\ WIFSIGNALED w = false /\ WIFSTOPPED w = false) /\
    (forall sig, 0 < sig < _NSIG -> killed_word sig (mproc_tab s child) ->
       WIFEXITED w = false /\ WIFSIGNALED w = true /\ WTERMSIG w = sig).
Proof.
  intros I Hc Hz. destruct (wpp_outcome _ _ _ _ (tell_parent_reply (fun _ => False) child s I Hc Hz))
    as [([] & s' & E & Ew & Ep)|(w & _ & [])].
  exists s'. split; [done|]. cbv zeta. rewrite Ew. split; [done|]. split.
  - intros st Hst. by apply exited_decoded.
  - intros sig Hs Hk. by apply killed_decoded.
Qed.

(** The child has exited with 258 while INIT was not waiting; FS has answered. *)
Definition exit_msgs : list message :=
  [call child_ep 1 258 0; call FS_PROC_NR PM_EXIT_REPLY child_ep 0].
Definition pm_zombie : pm_state := demo_run exit_msgs pm_forked.

Lemma pm_zombie_tinv : tinv pm_zombie.
Proof. apply demo_run_tinv; [apply demo_vm_fork|apply pm_forked_tinv|vm_compute; reflexivity]. Qed.

Lemma wait_status_witness :
  exists s', tell_parent 11 pm_zombie = Done tt s' /\
    WEXITSTATUS (m2_i1 (mp_reply (mproc_tab s' (v_parent (vw pm_zombie 11))))) = 2.
Proof.
  destruct (wait_status 11 pm_zombie) as (s' & E & _ & W & _); [apply pm_zombie_tinv|done|vm_compute; reflexivity|].
  exists s'. split; [exact E|]. destruct (W 258) as (_ & W2 & _); [by split; vm_compute; reflexivity|]. exact W2.
Defined.

(** ** Times *)

(** The conversions of alarm.c.  For the frequencies at which their products fit in 32
    bits (up to 4293 Hz), a sane struct timeval gives the number of ticks that covers it,
    [LONG_MAX] at most, and a number of ticks survives the way to a struct timeval and
    back: the time left that [alarm] and [getitimer] report is exact. *)
Theorem ticks_roundtrip hz t tv :
  hz_ok hz -> 0 <= t <= LONG_MAX -> sane hz tv ->
  ticks_of hz tv = Z.min LONG_MAX (hz * tv_sec tv + (hz * tv_usec tv + (US - 1)) / US) /\
  sane hz (timeval_of hz t) /\ ticks_of hz (timeval_of hz t) = t.
Proof. intros Hh Ht Hs. split; [by apply ticks_of_exact|by apply ticks_timeval]. Qed.

Lemma ticks_roundtrip_witness :
  ticks_of 60 (mk_timeval 2 500000) = 150 /\ ticks_of 60 (timeval_of 60 12345) = 12345.
Proof.
  destruct (ticks_roundtrip 60 12345 (mk_timeval 2 500000)) as (E1 & _ & E2);
    [unfold hz_ok; lia|unfold LONG_MAX; lia|repeat split; vm_compute; (reflexivity || discriminate)|].
  split; [exact E1|exact E2].
Defined.

(** ** Deadlines: PM and the kernel together *)

(** C11: a process' request for a deadline, from PM's call to the kernel's timer: [do_chdeadline]
    of PM sends the system task one request, and the kernel's handler, given that
    request, sets the deadline of the caller that the caller asked for.  PM returns OK
    without looking at the answer. *)
Theorem chdeadline_through_pm `{PmEnv} s k l :
  ipc_inv k -> timers_rep k l -> slot (who_p s) -> is_free k (who_p s) = false ->
  (TDeadline (who_p s) ∈ l -> 0 < deadline_of k (who_p s)) ->
  exists s' m, PmMain.do_chdeadline s = Done OK s' /\ history s' = Sendrec SYSTEM m B_none :: history s /\
    m_type m = SYS_CHDEADLINE /\
    exists k', KCalls.do_chdeadline m k = Done (OK, m) k' /\ deadline_set (who_p s) (m2_l1 (m_in s)) l k k'.
Proof.
  intros Hi Hl Hs Hf Hd.
  set (m := set_m_type SYS_CHDEADLINE (set_m2_l1 (m2_l1 (m_in s)) (set_m2_i1 (who_p s) uninit))).
  exists (sent (Sendrec SYSTEM m B_none) s), m.
  split; [unfold PmMain.do_chdeadline, sys_chdeadline, min, taskcall_r, taskcall, bind, gets, emit, ret|].
  { fold m. by destruct (negb _). }
  split; [done|]. split; [done|].
  destruct (wpx_returns _ _ _ (do_chdeadline_wp False k l m Hi Hl Hs Hf Hd)) as (r & k' & Hm & -> & D).
  by exists k'.
Qed.

(** INIT's child, process 11 of PM and of the kernel, asks for three minutes. *)
Definition deadline_asked : pm_state :=
  after (get_work (set_m2_l1 3 (call child_ep 70 0 0))) pm_forked.

Lemma chdeadline_through_pm_witness :
  exists s' m, PmMain.do_chdeadline deadline_asked = Done OK s' /\
    history s' = Sendrec SYSTEM m B_none :: history deadline_asked /\ m_type m = SYS_CHDEADLINE /\
    exists k', KCalls.do_chdeadline m demo = Done (OK, m) k' /\ deadline_set 11 3 (tq_of demo) demo k'.
Proof.
  assert (Hs : slot 11) by (unfold slot, NR_TASKS, NR_PROCS; lia).
  assert (Hf : is_free demo 11 = false) by (vm_compute; reflexivity).
  assert (Hd : TDeadline 11 ∈ tq_of demo -> 0 < deadline_of demo 11).
  { intros _. vm_compute. reflexivity. }
  assert (E : who_p deadline_asked = 11) by (vm_compute; reflexivity).
  assert (E' : m2_l1 (m_in deadline_asked) = 3) by (vm_compute; reflexivity).
  generalize (chdeadline_through_pm deadline_asked demo (tq_of demo) demo_ipc demo_timers_rep).
  rewrite E, E'. intros W. exact (W Hs Hf Hd).
Defined.

(** ** Two ways a user can stop PM *)



(** A process that is sending when PM wants to stop it: the kernel answers [EBUSY] to
    [RC_DELAY], and reports SIGNDELAY once the message has arrived. *)
Definition is_getksig (e : pm_event) : bool :=
  match e with Sendrec who m _ => (who =? SYSTEM) && (m_type m =? SYS_GETKSIG) | _ => false end.
Definition race_answer (h : list pm_event) : message :=
  match h with
  | Sendrec who m _ :: _ =>
      if (who =? SYSTEM) && (m_type m =? SYS_RUNCTL) && (m1_i3 m =? RC_DELAY) then set_m_type EBUSY msg0
      else if (who =? SYSTEM) && (m_type m =? SYS_GETKSIG) && Nat.eqb (length (List.filter is_getksig h)) 1
      then set_m2_l1 (2 ^ SIGNDELAY) (set_m2_i1 child_ep msg0)
      else demo_answer h
  | _ => msg0
  end.
Definition race_env : PmEnv :=
  mk_PmEnv (fun _ => 0) race_answer (fun _ => mk_sigaction 0x1000 0 0)
    (fun _ => mk_itimerval (mk_timeval 0 0) (mk_timeval 0 0)) (fun _ => mk_ptrace_range 0 0 0 0)
    (fun _ => mk_exec_newmem 0 0 0 []) (fun _ => mk_sysgetenv 0 0 0 0) (fun _ => [])
    (fun _ => kernel_image) (fun _ => 60) msg0 (fun _ => 0x1000).

Lemma race_vm_fork : @vm_fork_ok race_env.
Proof.
  intros m b h Hm Hs h' _ _. unfold h'. simpl. rewrite Hm. simpl.
  apply ENDPOINT_PG; [done|]. unfold mslot, NR_TASKS in *. lia.
Qed.

(** The child sets a handler for SIGINT; INIT sends it SIGINT while the child is sending
    its next call, [setuid], which PM forwards to FS. *)
Definition race_msgs : list message :=
  [set_m1_p1 1 (call child_ep 71 0 SIGINT); call INIT_PROC_NR 37 13 SIGINT; call child_ep 23 0 0].
Definition pm_raced : pm_state := @demo_run race_env race_msgs pm_forked.
Definition ksig_note : message := set_m2_l1 (2 ^ SIGKSIG) (call SYSTEM (NOTIFY_FROM SYSTEM) 0 0).

(** [handle_ksig] panics when the call a process was sending while PM wanted to stop
    it is one that PM forwards to FS: the kernel's SIGNDELAY arrives before the answer of
    FS, and the process still has [FS_CALL].  The comment in front of the test expects
    such calls ("the process may have changed any of its signal settings", "forked,
    exited etcetera"). *)
Theorem delayed_call_panics :
  tinv pm_raced /\ negb (Z.land (mp_flags (mproc_tab pm_raced 11)) DELAY_CALL =? 0) = true /\
  @demo_turn race_env ksig_note pm_raced = Panic "handle_ksig: bad process state".
Proof.
  split; [apply (@demo_run_tinv race_env); [apply race_vm_fork|apply pm_forked_tinv|vm_compute; reflexivity]|].
  split; vm_compute; reflexivity.
Qed.
